(* ===== verification/_CoqProject ===== *)
-Q . S2P
Prelude.v
Mmu.v
Spinlock.v
Pipe.v
Console.v
ConsoleSpec.v
E1000.v
NetSpec.v
Str.v
StrSpec.v
Printf.v
PrintfSpec.v
PrintfRender.v
PrintfProps.v
Chksum.v
ChksumSpec.v
LwMem.v
LwMemSpec.v
KState.v
Pmap.v
PmapBoot.v
PmapSpec.v
Paging.v
VmOps.v
Demo.v
PagingProps.v
UserMem.v
PmapBootSpec.v
Env.v
Syscall.v
Trap.v
Ulib.v
KInv.v
UserAccess.v
DemoKernel.v
EnvSpec.v
EnvFree.v
SchedSpec.v
TrapSpec.v
SyscallMem.v
SyscallEnv.v
SyscallSafe.v
TrapSafe.v
SyscallProps.v
UlibSpec.v
ForkSpec.v
ForkLoop.v
ForkProps.v
Bc.v
Fs.v
BcSpec.v
BitmapSpec.v
FsInit.v
FileSpec.v
FileIo.v
FileTrunc.v
DirSpec.v
DirCreate.v
FsInv.v
FsOps.v
Serv.v
ServSpec.v
ServOpen.v
DemoFs.v
ServProps.v
FsProps.v
