(* ===== verification/Prelude.v ===== *)
(** * JOS: a verification of the kernel, its file server and its libraries

    The program is JOS, the teaching operating system of the MIT 6.828 labs, in
    C under src/lab. Its kernel (kern/) manages physical pages and page tables,
    runs environments (processes), serves traps and system calls, and drives a
    console and a network card; a user-level server (fs/) implements a file
    system on a disk through a cache of blocks that it fills by handling its
    own page faults. The kernel gives the server and every other environment
    nothing but its system calls; the user library (lib/) builds a copy-on-write
    fork, pipes and formatted output on them, and the network server (net/)
    runs a TCP/IP stack with a heap of its own.

    ** How the code is modelled

    Every routine is a function in the outcome monad of this file: from a state
    it returns a value and a state ([Ret]), leaves the kernel ([Leave], for the
    routines that do not return), or stops the machine ([Panic]: panic, a failed
    assertion, a fault that nothing handles). Pointers are the 32-bit numbers
    the code computes with; [u32], [u16] and [s32] are written wherever the C
    type wraps. Names, order of effects, conditions and early returns are those
    of the source.

    - Mmu: inc/mmu.h, inc/memlayout.h, inc/error.h: addresses, bits, layout.
    - Spinlock: kern/spinlock.c, and Pipe: lib/pipe.c, both as machines that
      make one access to the shared memory per step, in any order.
    - Console: kern/console.c: keyboard, serial and parallel port, screen.
    - E1000: kern/e1000.c, kern/time.c: descriptor rings, tick counter.
    - KState: the state of the kernel: physical memory as 32-bit words, the
      arrays [pages] and [envs], CPUs, translation cache, devices.
    - Pmap: kern/pmap.c: page allocator, page tables, checks of user memory.
      PmapBoot: the boot-time part of it with its self checks, and the access
      of the processor to memory through the page tables.
    - Env: kern/env.c, kern/sched.c. Syscall: kern/syscall.c. Trap: kern/trap.c.
    - Bc: fs/bc.c with the transfers of fs/ide.c and the bitmap lookup of
      fs/fs.c. Fs: the rest of fs/fs.c.
    - Str: lib/string.c, over any state with the operations and laws of the
      class [Memory]. Printf: lib/printfmt.c, lib/printf.c, lib/fprintf.c and
      kern/printf.c, for any way of printing a character.
    - Ulib: lib/fork.c, lib/pgfault.c and the stubs of lib/syscall.c. User code
      reads and writes its memory through the page tables of its environment,
      and a stub runs the modelled system call.
    - Chksum: net/lwip/core/ipv4/inet_chksum.c. LwMem: net/lwip/core/mem.c, on
      the bytes of the heap, headers included.

    ** What is proved about the kernel

    PmapSpec proves the page table routines correct against an abstract view
    (Paging): a directory is a partial function from page numbers to a page and
    permissions, and a frame's reference count is the number of its mappings.
    VmOps lifts this to a kernel with many address spaces, and KInv adds the
    environment table: [kinv v s] says that kernel state [s] represents the
    abstract machine [v], with every page either free or accounted for.

    - PagingProps, UserMem, PmapBootSpec: insertion, removal, lookup, coherence
      of the translation cache, isolation of user accesses, the user memory
      check and its wrap-around, the boot-time set-up.
    - EnvSpec, EnvFree, SchedSpec: creation, release and scheduling.
    - SyscallMem, SyscallEnv: each system call refines an inductive
      specification of it on abstract machines, all errors included.
      SyscallSafe and SyscallProps put them together: no system call breaks the
      invariant or stops the machine.
    - UserAccess, TrapSpec, TrapSafe: stores of the kernel through a user
      mapping, the page fault upcall against an inductive specification, and
      every trap from user mode ends in an environment with the invariant kept.
    - Spinlock: mutual exclusion. NetSpec: the rings are queues for every card
      that satisfies the laws of [TxCard] and [RxCard], with what happens
      when the transmit ring is filled up.
    - ConsoleSpec: the input buffer is a queue, with its overflow, and printing
      stays inside the frame buffer.

    ** What is proved about the file server

    [bc_ok L s] says that server state [s] shows the disk contents [L]: an
    address reads as the cached byte if its block is in memory and as the byte
    on the disk if not.

    - BcSpec: every access through the fault handler behaves as an access to
      [L]; stores change [L], flushing makes the disk agree with it.
    - BitmapSpec: block allocation and release on the bitmap in [L].
    - FsInit: initialisation establishes [bc_ok].
    - FileSpec, FileIo: a file is an array of bytes in [L]; block lookup never
      changes it, reads return it, writes change exactly what they should.
    - FileTrunc: truncation gives back exactly the blocks past the new end.
    - FsProps: the theorems, DemoFs: a disk they are applied to.

    - DirSpec, DirCreate: a directory is a list of named entries in [L]; a path
      leads where its names lead, and a new name is put into the first free
      entry, in a new block when there is none.

    ** What is proved about the libraries

    - Pipe: a pipe between two environments is a bounded queue.
    - UlibSpec, ForkSpec, ForkLoop, ForkProps: the memory of a forked child reads
      as that of its parent, both keep their pages for themselves by copying at
      the first store, and no other environment changes.
    - StrSpec: the string functions on terminated strings, and that the string
      instructions of memset and memmove do what the loops do.
    - PrintfSpec, PrintfRender: [renders] is the text a format means with its
      arguments, as a relation; vprintfmt prints it and ends. PrintfProps:
      snprintf stays inside its buffer, strtol reads back what it printed.
    - ChksumSpec: the summing loops agree with the sum of RFC 1071 at every
      alignment, chains of buffers with the bytes put together, and a packet
      that carries its checksum verifies.
    - LwMemSpec: the heap is a list of blocks that covers it; allocation is first
      fit, release merges, and one after the other gives back the heap.

    ** Bounds and fuel

    Loops over a fixed range are [for_loop]s of that many rounds. Loops that
    end at a condition carry fuel: the number of pages, environments or blocks
    they can visit, computed from the same quantities as in the code; the
    theorems show that they end before it runs out. Page faults of the file
    server nest; [FAULTS] is 4 and a depth of three is proved to be enough.
    [io_fuel] is the number of blocks a transfer can touch. Loops over strings
    and formats have 2^64 rounds, more than there are addresses, and the
    theorems show that they end. The loops of the heap have one round for each
    block that fits into it.

    ** What is not modelled

    Assembly (entry, trap stubs, context switch), segment descriptors and
    control registers; device set-up (PCI, interrupt controllers, disk probing,
    starting the other processors); diagnostic output. The monitor is an
    argument of the trap model. A kernel-mode page fault stops the machine. The
    translation cache and the loaded directory are those of one CPU. The arrays
    [pages] and [envs] are fields of the state, not words of its memory. For the
    file server the kernel is a supply of pages, and the drive a map of sectors
    of which some may fail. The network card is an argument of the theorems about it.
    Formats and variable arguments are values; the addresses of the string
    functions do not wrap, and locals of user code are not in its memory. The
    request loop of the file server, the rest of the user library, the network
    server with the protocols of its third-party stack and the user programs
    are not modelled. *)

(** ** This file

    The outcome monad, machine integers at their width, finite-map helpers, and
    the tactics and hint databases the components use. *)

From stdpp Require Import base numbers list gmap strings.
From Stdlib Require Import ZArith Lia Bool.

#[global] Open Scope Z_scope.

(** * Outcomes

    A JOS routine started in state [s] does one of three things:
    - it returns a value to its caller ([Ret]);
    - it leaves the kernel without returning to its caller, by restoring a
      user trap frame or halting the CPU ([Leave], for routines the source
      marks "does not return");
    - it stops the machine: [panic], a failed [assert], or a fault the
      source has no handler for ([Panic], with the source's message). *)
Inductive outcome (S A : Type) : Type :=
| Ret (a : A) (s : S)
| Leave (s : S)
| Panic (msg : string) (s : S).

Arguments Ret {S A} a s.
Arguments Leave {S A} s.
Arguments Panic {S A} msg s.

Definition M (S A : Type) : Type := S -> outcome S A.

Definition ret {S A} (a : A) : M S A := fun s => Ret a s.
Definition leave {S A} : M S A := fun s => Leave s.
Definition panic {S A} (msg : string) : M S A := fun s => Panic msg s.
Definition gets {S A} (f : S -> A) : M S A := fun s => Ret (f s) s.
Definition modify {S} (f : S -> S) : M S unit := fun s => Ret tt (f s).

Definition bind {S A B} (m : M S A) (k : A -> M S B) : M S B :=
  fun s =>
    match m s with
    | Ret a s' => k a s'
    | Leave s' => Leave s'
    | Panic e s' => Panic e s'
    end.

Declare Scope jos_scope.
Delimit Scope jos_scope with jos.

Notation "'let!' x ':=' m 'in' k" := (bind m (fun x => k))
  (at level 10, x pattern, m at level 100, k at level 200) : jos_scope.
Notation "m ';;!' k" := (bind m (fun _ => k))
  (at level 199, k at level 200, right associativity) : jos_scope.

#[global] Open Scope jos_scope.

(** [assert(c)] of inc/assert.h: panics when the condition is false. *)
Definition assert_ {S} (b : bool) (msg : string) : M S unit :=
  if b then ret tt else panic msg.

(** [for (i = 0; i < n; i++) body(i)] over a counter known in advance. *)
Fixpoint for_loop {S} (n : nat) (i : Z) (body : Z -> M S unit) : M S unit :=
  match n with
  | O => ret tt
  | S n' => body i ;;! for_loop n' (i + 1) body
  end.

(** The value a finished run carries, and the state it ends in. *)
Definition run_state {S A} (o : outcome S A) : S :=
  match o with Ret _ s => s | Leave s => s | Panic _ s => s end.
Definition run_val {S A} (o : outcome S A) : option A :=
  match o with Ret a _ => Some a | _ => None end.
Definition no_panic {S A} (o : outcome S A) : Prop :=
  match o with Panic _ _ => False | _ => True end.

Lemma bind_ret {S A B} (m : M S A) (k : A -> M S B) s a s' :
  m s = Ret a s' -> bind m k s = k a s'.
Proof. intros H. unfold bind. by rewrite H. Qed.

Lemma bind_leave {S A B} (m : M S A) (k : A -> M S B) s s' :
  m s = Leave s' -> bind m k s = Leave s'.
Proof. intros H. unfold bind. by rewrite H. Qed.

Lemma bind_inv_ret {S A B} (m : M S A) (k : A -> M S B) s b s' :
  bind m k s = Ret b s' -> exists a s1, m s = Ret a s1 /\ k a s1 = Ret b s'.
Proof. unfold bind. destruct (m s) eqn:E; intros; try discriminate. eauto. Qed.

(** Every state a loop passes through satisfies an invariant its body keeps. *)
Lemma for_loop_inv {S} (I : Z -> S -> Prop) (body : Z -> M S unit) n :
  forall i s,
    I i s ->
    (forall j s, i <= j < i + Z.of_nat n -> I j s ->
       exists s', body j s = Ret tt s' /\ I (j + 1) s') ->
    exists s', for_loop n i body s = Ret tt s' /\ I (i + Z.of_nat n) s'.
Proof.
  induction n as [|n IH]; intros i s HI Hstep.
  - exists s. split; [done|]. by rewrite Z.add_0_r.
  - destruct (Hstep i s) as (s1 & E1 & H1); [lia|done|].
    destruct (IH (i + 1) s1) as (s2 & E2 & H2); [done| |].
    + intros j s' Hj HIj. apply Hstep; [lia|done].
    + exists s2. simpl. rewrite (bind_ret _ _ _ _ _ E1). split; [done|].
      by replace (i + Z.of_nat (Datatypes.S n)) with (i + 1 + Z.of_nat n) by lia.
Qed.

(** * Machine integers *)

Definition u8 (x : Z) : Z := x mod 2 ^ 8.
Definition u16 (x : Z) : Z := x mod 2 ^ 16.
Definition u32 (x : Z) : Z := x mod 2 ^ 32.
Definition u64 (x : Z) : Z := x mod 2 ^ 64.

(** The value of a 32-bit pattern read as a two's-complement [int]. *)
Definition s32 (x : Z) : Z :=
  let v := u32 x in if v <? 2 ^ 31 then v else v - 2 ^ 32.

Definition is_u32 (x : Z) : Prop := 0 <= x < 2 ^ 32.

(** C truth: [if (x & mask)]. *)
Definition flag (x mask : Z) : bool := negb (Z.land x mask =? 0).

Lemma u32_range x : is_u32 (u32 x).
Proof. unfold is_u32, u32. apply Z.mod_pos_bound. lia. Qed.

Lemma u32_small x : is_u32 x -> u32 x = x.
Proof. unfold is_u32, u32. intros. apply Z.mod_small. lia. Qed.

Lemma u16_range x : 0 <= u16 x < 2 ^ 16.
Proof. unfold u16. apply Z.mod_pos_bound. lia. Qed.

Lemma u16_small x : 0 <= x < 2 ^ 16 -> u16 x = x.
Proof. unfold u16. intros. apply Z.mod_small. lia. Qed.

Lemma s32_small x : 0 <= x < 2 ^ 31 -> s32 x = x.
Proof.
  intros H. unfold s32. rewrite u32_small by (unfold is_u32; lia).
  destruct (Z.ltb_spec x (2 ^ 31)); lia.
Qed.

Lemma s32_range x : - 2 ^ 31 <= s32 x < 2 ^ 31.
Proof.
  unfold s32. pose proof (u32_range x) as H. unfold is_u32 in H.
  destruct (Z.ltb_spec (u32 x) (2 ^ 31)); lia.
Qed.

Lemma s32_u32 x : u32 (s32 x) = u32 x.
Proof.
  unfold s32. pose proof (u32_range x) as H. unfold is_u32 in H.
  destruct (Z.ltb_spec (u32 x) (2 ^ 31)).
  - by rewrite u32_small.
  - unfold u32 at 1. rewrite <- (Z_mod_plus_full _ 1). rewrite Z.mul_1_l.
    rewrite Z.sub_add. by rewrite Z.mod_small.
Qed.

(** * Bit fields

    Masks and shifts of C read as quotients and remainders, the form [lia]
    reasons about. *)

Lemma land_ones_mod x n : 0 <= n -> Z.land x (Z.ones n) = x mod 2 ^ n.
Proof. intros. by apply Z.land_ones. Qed.

Lemma lor_disjoint_add a b n :
  0 <= n -> 0 <= b < 2 ^ n -> Z.lor (a * 2 ^ n) b = a * 2 ^ n + b.
Proof.
  intros Hn Hb.
  assert (Z.land (a * 2 ^ n) b = 0) as Hl.
  { destruct (Z.eq_dec b 0) as [->|]; [apply Z.land_0_r|].
    apply Z.bits_inj'. intros i Hi. rewrite Z.land_spec, Z.bits_0.
    destruct (Z.lt_ge_cases i n).
    - rewrite Z.mul_pow2_bits_low by lia. done.
    - rewrite (Z.bits_above_log2 b i); [apply andb_false_r|lia|].
      apply Z.log2_lt_pow2; [lia|].
      apply Z.lt_le_trans with (2 ^ n); [lia|]. apply Z.pow_le_mono_r; lia. }
  rewrite <- Z.lxor_lor by done. symmetry. by apply Z.add_nocarry_lxor.
Qed.

Lemma land_low_add a b m n :
  0 <= n -> 0 <= m < 2 ^ n -> Z.land (a * 2 ^ n + b) m = Z.land b m.
Proof.
  intros Hn Hm.
  assert (m = Z.land m (Z.ones n)) as E.
  { rewrite Z.land_ones by lia. by rewrite Z.mod_small. }
  rewrite E. rewrite (Z.land_comm m), !Z.land_assoc. f_equal.
  rewrite !Z.land_ones by lia. rewrite Z.add_comm. by rewrite Z_mod_plus_full.
Qed.

Lemma flag_low a b m n :
  0 <= n -> 0 <= m < 2 ^ n -> flag (a * 2 ^ n + b) m = flag b m.
Proof. intros. unfold flag. by rewrite (land_low_add a b m n). Qed.

Lemma flag_lor x y m : flag (Z.lor x y) m = flag x m || flag y m.
Proof.
  unfold flag. rewrite Z.land_lor_distr_l.
  destruct (Z.eqb_spec (Z.lor (Z.land x m) (Z.land y m)) 0) as [E|E];
    destruct (Z.eqb_spec (Z.land x m) 0) as [E1|E1];
    destruct (Z.eqb_spec (Z.land y m) 0) as [E2|E2]; simpl; try done.
  - apply Z.lor_eq_0_iff in E. tauto.
  - apply Z.lor_eq_0_iff in E. tauto.
  - apply Z.lor_eq_0_iff in E. tauto.
  - exfalso. apply E. apply Z.lor_eq_0_iff. done.
Qed.

Lemma lor_range x y n : 0 <= n -> 0 <= x < 2 ^ n -> 0 <= y < 2 ^ n -> 0 <= Z.lor x y < 2 ^ n.
Proof.
  intros Hn Hx Hy. split; [apply Z.lor_nonneg; lia|].
  assert (Z.lor x y = Z.lor x y mod 2 ^ n) as ->.
  { rewrite <- Z.land_ones by lia. rewrite Z.land_lor_distr_l.
    rewrite !Z.land_ones by lia. by rewrite !Z.mod_small by lia. }
  apply Z.mod_pos_bound. lia.
Qed.

(** * Finite maps read with a default

    The C arrays [pages], [envs] and physical memory are finite maps whose
    absent keys read as the zero value the source's [memset] establishes. *)
Definition mget {V} (d : V) (m : gmap Z V) (k : Z) : V := default d (m !! k).

Lemma mget_insert {V} (d : V) m k v : mget d (<[k:=v]> m) k = v.
Proof. unfold mget. by rewrite lookup_insert_eq. Qed.

Lemma mget_insert_ne {V} (d : V) m k k' v : k <> k' -> mget d (<[k:=v]> m) k' = mget d m k'.
Proof. intros. unfold mget. by rewrite lookup_insert_ne. Qed.

Lemma mget_empty {V} (d : V) k : mget d ∅ k = d.
Proof. unfold mget. by rewrite lookup_empty. Qed.

(** [memset(p, v, n)] on a word-indexed store. *)
Definition mfill (base : Z) (n : nat) (v : Z) (m : gmap Z Z) : gmap Z Z :=
  foldr (fun i acc => <[base + Z.of_nat i := v]> acc) m (seq 0 n).

Lemma mfill_get base n v m k :
  mget 0 (mfill base n v m) k
  = if (base <=? k) && (k <? base + Z.of_nat n) then v else mget 0 m k.
Proof.
  unfold mfill.
  assert (forall l, mget 0 (foldr (fun i acc => <[base + Z.of_nat i := v]> acc) m l) k
    = if existsb (fun i => base + Z.of_nat i =? k) l then v else mget 0 m k) as H.
  { induction l as [|i l IH]; [done|]. simpl.
    destruct (Z.eqb_spec (base + Z.of_nat i) k) as [<-|Hne].
    - by rewrite mget_insert.
    - rewrite mget_insert_ne by done. simpl. apply IH. }
  rewrite H.
  replace (existsb (fun i => base + Z.of_nat i =? k) (seq 0 n))
    with ((base <=? k) && (k <? base + Z.of_nat n)); [done|].
  apply eq_iff_eq_true. rewrite existsb_exists. split.
  - rewrite andb_true_iff, Z.leb_le, Z.ltb_lt. intros Hb.
    exists (Z.to_nat (k - base)). rewrite in_seq, Z.eqb_eq. lia.
  - intros (i & Hi & He). apply in_seq in Hi. apply Z.eqb_eq in He.
    rewrite andb_true_iff, Z.leb_le, Z.ltb_lt. lia.
Qed.

(** [memmove(p, q, n)] with the bytes at [q] given by [f]. *)
Definition mcopy (base : Z) (n : nat) (f : Z -> Z) (m : gmap Z Z) : gmap Z Z :=
  foldr (fun i acc => <[base + Z.of_nat i := f (Z.of_nat i)]> acc) m (seq 0 n).

Lemma mcopy_get base n f m k :
  mget 0 (mcopy base n f m) k
  = if (base <=? k) && (k <? base + Z.of_nat n) then f (k - base) else mget 0 m k.
Proof.
  unfold mcopy.
  assert (forall n a, mget 0 (foldr (fun i acc => <[base + Z.of_nat i := f (Z.of_nat i)]> acc) m (seq a n)) k
    = if (base + Z.of_nat a <=? k) && (k <? base + Z.of_nat (n + a)) then f (k - base) else mget 0 m k) as H.
  { clear n. induction n as [|n IH]; intros a; simpl.
    - destruct (Z.leb_spec (base + Z.of_nat a) k), (Z.ltb_spec k (base + Z.of_nat a)); try done; lia.
    - destruct (Z.eqb_spec (base + Z.of_nat a) k) as [<-|Hne].
      + rewrite mget_insert. destruct (Z.leb_spec (base + Z.of_nat a) (base + Z.of_nat a)),
          (Z.ltb_spec (base + Z.of_nat a) (base + Z.of_nat (S (n + a)))); try lia.
        simpl. f_equal. lia.
      + rewrite mget_insert_ne, IH by done.
        destruct (Z.leb_spec (base + Z.of_nat (S a)) k), (Z.ltb_spec k (base + Z.of_nat (n + S a))),
          (Z.leb_spec (base + Z.of_nat a) k), (Z.ltb_spec k (base + Z.of_nat (S (n + a)))); try done; lia. }
  rewrite H, Nat.add_0_r. by rewrite Z.add_0_r.
Qed.

(** * Automation *)

Create HintDb jos discriminated.
#[export] Hint Resolve u32_range u16_range s32_range : jos.
Create Rewrite HintDb jos_rw.
#[export] Hint Rewrite @mget_insert @mget_empty : jos_rw.

(** Decompose a run: push [bind] through the equations in the context. *)
Ltac run_step :=
  match goal with
  | H : ?m ?s = Ret _ _ |- context [bind ?m _ ?s] => rewrite (bind_ret _ _ _ _ _ H)
  | H : ?m ?s = Leave _ |- context [bind ?m _ ?s] => rewrite (bind_leave _ _ _ _ H)
  end; cbv beta.

(** Reduce the branches a run has decided. *)
Ltac mred := cbn [negb andb orb]; cbv beta iota.

(** Case analysis on the boolean tests of the code, turned into facts. *)
Ltac case_bool :=
  match goal with
  | |- context [if Z.eqb ?a ?b then _ else _] => destruct (Z.eqb_spec a b)
  | |- context [if Z.ltb ?a ?b then _ else _] => destruct (Z.ltb_spec a b)
  | |- context [if Z.leb ?a ?b then _ else _] => destruct (Z.leb_spec a b)
  | |- context [if ?b then _ else _] => let E := fresh "E" in destruct b eqn:E
  end.

(** Turn boolean hypotheses into propositions. *)
Ltac reflect_bools :=
  repeat match goal with
  | H : _ && _ = true |- _ => apply andb_true_iff in H; destruct H
  | H : _ || _ = false |- _ => apply orb_false_iff in H; destruct H
  | H : negb _ = true |- _ => apply negb_true_iff in H
  | H : negb _ = false |- _ => apply negb_false_iff in H
  | H : (_ =? _) = true |- _ => apply Z.eqb_eq in H
  | H : (_ =? _) = false |- _ => apply Z.eqb_neq in H
  | H : (_ <? _) = true |- _ => apply Z.ltb_lt in H
  | H : (_ <? _) = false |- _ => apply Z.ltb_ge in H
  | H : (_ <=? _) = true |- _ => apply Z.leb_le in H
  | H : (_ <=? _) = false |- _ => apply Z.leb_gt in H
  end.
