(* ===== verification/Mmu.v ===== *)
(** The constants and address macros of inc/types.h, inc/mmu.h,
    inc/memlayout.h and inc/error.h, and the facts about them that the memory
    manager relies on: how a linear address splits into indices, how a page
    table entry packs a frame number and its flags, and how rounding wraps. *)

From stdpp Require Import base numbers list gmap strings.
From Stdlib Require Import ZArith Lia Bool.
From S2P Require Import Prelude.

(** * inc/mmu.h *)

Definition PGSIZE : Z := 4096.
Definition PGSHIFT : Z := 12.
Definition NPDENTRIES : Z := 1024.
Definition NPTENTRIES : Z := 1024.
Definition PTSIZE : Z := PGSIZE * NPTENTRIES.
Definition PTXSHIFT : Z := 12.
Definition PDXSHIFT : Z := 22.

Definition PGNUM (la : Z) : Z := Z.shiftr (u32 la) PTXSHIFT.
Definition PDX (la : Z) : Z := Z.land (Z.shiftr (u32 la) PDXSHIFT) 0x3FF.
Definition PTX (la : Z) : Z := Z.land (Z.shiftr (u32 la) PTXSHIFT) 0x3FF.
Definition PGOFF (la : Z) : Z := Z.land (u32 la) 0xFFF.
Definition PGADDR (d t o : Z) : Z :=
  u32 (Z.lor (Z.lor (Z.shiftl d PDXSHIFT) (Z.shiftl t PTXSHIFT)) o).

Definition PTE_P : Z := 0x001.
Definition PTE_W : Z := 0x002.
Definition PTE_U : Z := 0x004.
Definition PTE_PWT : Z := 0x008.
Definition PTE_PCD : Z := 0x010.
Definition PTE_A : Z := 0x020.
Definition PTE_D : Z := 0x040.
Definition PTE_AVAIL : Z := 0xE00.
Definition PTE_SYSCALL : Z := Z.lor (Z.lor (Z.lor PTE_AVAIL PTE_P) PTE_W) PTE_U.

(** A user-level bit: pages that stay shared in a forked child. *)
Definition PTE_SHARE : Z := 0x400.
Definition PTE_ADDR (pte : Z) : Z := Z.land (u32 pte) (u32 (Z.lnot 0xFFF)).

Definition FL_IF : Z := 0x200.
Definition FL_IOPL_MASK : Z := 0x3000.
Definition FL_IOPL_3 : Z := 0x3000.
Definition FEC_WR : Z := 0x2.

(** * inc/memlayout.h *)

Definition KERNBASE : Z := 0xF0000000.
Definition IOPHYSMEM : Z := 0x0A0000.
Definition EXTPHYSMEM : Z := 0x100000.
Definition KSTACKTOP : Z := KERNBASE.
Definition KSTKSIZE : Z := 8 * PGSIZE.
Definition KSTKGAP : Z := 8 * PGSIZE.
Definition MMIOLIM : Z := KSTACKTOP - PTSIZE.
Definition MMIOBASE : Z := MMIOLIM - PTSIZE.
Definition ULIM : Z := MMIOBASE.
Definition UVPT : Z := ULIM - PTSIZE.
Definition UPAGES : Z := UVPT - PTSIZE.
Definition UENVS : Z := UPAGES - PTSIZE.
Definition UTOP : Z := UENVS.
Definition UXSTACKTOP : Z := UTOP.
Definition USTACKTOP : Z := UTOP - 2 * PGSIZE.
Definition UTEXT : Z := 2 * PTSIZE.
Definition UTEMP : Z := PTSIZE.
Definition PFTEMP : Z := UTEMP + PTSIZE - PGSIZE.
Definition MPENTRY_PADDR : Z := 0x7000.

(** Segment selectors (inc/memlayout.h). *)
Definition GD_KT : Z := 0x08.
Definition GD_KD : Z := 0x10.
Definition GD_UT : Z := 0x18.
Definition GD_UD : Z := 0x20.

(** * inc/error.h *)

Definition E_UNSPECIFIED : Z := 1.
Definition E_BAD_ENV : Z := 2.
Definition E_INVAL : Z := 3.
Definition E_NO_MEM : Z := 4.
Definition E_NO_FREE_ENV : Z := 5.
Definition E_FAULT : Z := 6.
Definition E_IPC_NOT_RECV : Z := 7.
Definition E_EOF : Z := 8.
Definition E_NO_DISK : Z := 9.
Definition E_MAX_OPEN : Z := 10.
Definition E_NOT_FOUND : Z := 11.
Definition E_BAD_PATH : Z := 12.
Definition E_FILE_EXISTS : Z := 13.
Definition E_NOT_EXEC : Z := 14.
Definition E_NOT_SUPP : Z := 15.
Definition MAXERROR : Z := 16.

(** * inc/types.h *)

Definition MIN (a b : Z) : Z := if a <=? b then a else b.
Definition MAX (a b : Z) : Z := if b <=? a then a else b.
Definition ROUNDDOWN (a n : Z) : Z := u32 a - u32 a mod n.
Definition ROUNDUP (a n : Z) : Z := ROUNDDOWN (u32 (u32 a + n - 1)) n.

(** * Address arithmetic *)

Lemma PGNUM_div la : is_u32 la -> PGNUM la = la / PGSIZE.
Proof. intros. unfold PGNUM. rewrite u32_small by done. by rewrite Z.shiftr_div_pow2. Qed.

Lemma PDX_div la : is_u32 la -> PDX la = la / PTSIZE.
Proof.
  intros H. unfold PDX. rewrite u32_small by done. unfold is_u32 in H.
  change 0x3FF with (Z.ones 10). rewrite Z.land_ones by lia.
  rewrite Z.shiftr_div_pow2 by (unfold PDXSHIFT; lia). change PTSIZE with (2 ^ PDXSHIFT).
  apply Z.mod_small. unfold PDXSHIFT. split; [apply Z.div_pos; lia|].
  apply Z.div_lt_upper_bound; lia.
Qed.

Lemma PTX_div la : is_u32 la -> PTX la = (la / PGSIZE) mod 1024.
Proof.
  intros H. unfold PTX. rewrite u32_small by done.
  change 0x3FF with (Z.ones 10). rewrite Z.land_ones by lia.
  by rewrite Z.shiftr_div_pow2 by (unfold PTXSHIFT; lia).
Qed.

Lemma PGOFF_mod la : is_u32 la -> PGOFF la = la mod PGSIZE.
Proof.
  intros H. unfold PGOFF. rewrite u32_small by done.
  change 0xFFF with (Z.ones 12). by rewrite Z.land_ones by lia.
Qed.

Lemma PDX_range la : 0 <= PDX la < 1024.
Proof.
  unfold PDX. change 0x3FF with (Z.ones 10). rewrite Z.land_ones by lia.
  apply Z.mod_pos_bound. lia.
Qed.

Lemma PTX_range la : 0 <= PTX la < 1024.
Proof.
  unfold PTX. change 0x3FF with (Z.ones 10). rewrite Z.land_ones by lia.
  apply Z.mod_pos_bound. lia.
Qed.

(** A linear address is its page number, and a page number its two indices. *)
Lemma PGNUM_PDX la : is_u32 la -> PGNUM la / 1024 = PDX la.
Proof.
  intros H. rewrite PGNUM_div, PDX_div by done. unfold PGSIZE. rewrite Z.div_div by lia. done.
Qed.

Lemma PGNUM_split la : is_u32 la -> PGNUM la = PDX la * 1024 + PTX la.
Proof.
  intros H. rewrite PGNUM_div, PDX_div, PTX_div by done.
  change PTSIZE with (PGSIZE * 1024). rewrite <- Z.div_div by (unfold PGSIZE; lia).
  rewrite Z.mul_comm. apply Z.div_mod. lia.
Qed.

Lemma PGADDR_sum d t o :
  0 <= d < 1024 -> 0 <= t < 1024 -> 0 <= o < 4096 ->
  PGADDR d t o = d * PTSIZE + t * PGSIZE + o.
Proof.
  intros Hd Ht Ho. unfold PGADDR. rewrite !Z.shiftl_mul_pow2 by (unfold PDXSHIFT, PTXSHIFT; lia).
  unfold PDXSHIFT, PTXSHIFT.
  rewrite (lor_disjoint_add d (t * 2 ^ 12) 22) by lia.
  replace (d * 2 ^ 22 + t * 2 ^ 12) with ((d * 1024 + t) * 2 ^ 12) by lia.
  rewrite (lor_disjoint_add _ o 12) by lia.
  unfold PTSIZE, PGSIZE, NPTENTRIES. rewrite u32_small; [lia|unfold is_u32; lia].
Qed.

Lemma PGADDR_u32 d t o : is_u32 (PGADDR d t o).
Proof. apply u32_range. Qed.

Lemma PGADDR_indices d t o :
  0 <= d < 1024 -> 0 <= t < 1024 -> 0 <= o < 4096 ->
  PDX (PGADDR d t o) = d /\ PTX (PGADDR d t o) = t /\ PGOFF (PGADDR d t o) = o.
Proof.
  intros Hd Ht Ho.
  rewrite PDX_div, PTX_div, PGOFF_mod by apply PGADDR_u32.
  rewrite PGADDR_sum by done. unfold PTSIZE, PGSIZE, NPTENTRIES.
  split; [|split].
  - symmetry. apply (Z.div_unique _ _ _ (t * 4096 + o)); lia.
  - replace (d * (4096 * 1024) + t * 4096 + o) with (o + (d * 1024 + t) * 4096) by lia.
    rewrite Z.div_add by lia. rewrite (Z.div_small o) by lia. rewrite Z.add_0_l, Z.add_comm.
    rewrite Z_mod_plus_full. apply Z.mod_small. lia.
  - replace (d * (4096 * 1024) + t * 4096 + o) with (o + (d * 1024 + t) * 4096) by lia.
    rewrite Z_mod_plus_full. apply Z.mod_small. lia.
Qed.

Lemma PGADDR_eta la : is_u32 la -> PGADDR (PDX la) (PTX la) (PGOFF la) = la.
Proof.
  intros H. pose proof (PDX_range la). pose proof (PTX_range la).
  assert (0 <= PGOFF la < 4096).
  { rewrite PGOFF_mod by done. apply Z.mod_pos_bound. unfold PGSIZE. lia. }
  rewrite PGADDR_sum by done.
  pose proof (PGNUM_split la H) as E. rewrite PGNUM_div in E by done.
  pose proof (Z.div_mod la PGSIZE) as D. rewrite PGOFF_mod in * by done.
  unfold PTSIZE, PGSIZE, NPTENTRIES in *. lia.
Qed.

(** * Page table entries *)

(** The entry [page2pa(pp) | perm | PTE_P] of the source, by frame number. *)
Definition mkpte (ppn flags : Z) : Z := ppn * PGSIZE + flags.

Lemma lor_pte ppn flags :
  0 <= flags < PGSIZE -> Z.lor (ppn * PGSIZE) flags = mkpte ppn flags.
Proof. intros. apply (lor_disjoint_add ppn flags 12); [lia|done]. Qed.

Lemma PTE_ADDR_floor pte : is_u32 pte -> PTE_ADDR pte = pte / PGSIZE * PGSIZE.
Proof.
  intros H. unfold PTE_ADDR. rewrite u32_small by done.
  change (u32 (Z.lnot 0xFFF)) with (Z.shiftl (Z.ones 20) 12).
  unfold is_u32 in H. unfold PGSIZE.
  apply Z.bits_inj'. intros i Hi. rewrite Z.land_spec, Z.shiftl_spec by lia.
  change 4096 with (2 ^ 12).
  destruct (Z.lt_ge_cases i 12).
  - rewrite (Z.testbit_neg_r (Z.ones 20)) by lia. rewrite Z.mul_pow2_bits_low by lia. apply andb_false_r.
  - rewrite Z.mul_pow2_bits by lia. rewrite <- Z.shiftr_div_pow2 by lia.
    rewrite Z.shiftr_spec by lia. replace (i - 12 + 12) with i by lia.
    destruct (Z.lt_ge_cases i 32).
    + rewrite Z.ones_spec_low by lia. apply andb_true_r.
    + rewrite Z.ones_spec_high by lia. rewrite andb_false_r. symmetry.
      destruct (Z.eq_dec pte 0) as [->|]; [apply Z.bits_0|].
      apply Z.bits_above_log2; [lia|].
      apply Z.lt_le_trans with 32; [apply Z.log2_lt_pow2; lia|lia].
Qed.

Lemma mkpte_u32 ppn flags :
  0 <= ppn < 2 ^ 20 -> 0 <= flags < PGSIZE -> is_u32 (mkpte ppn flags).
Proof. unfold is_u32, mkpte, PGSIZE. lia. Qed.

Lemma PTE_ADDR_mkpte ppn flags :
  0 <= ppn < 2 ^ 20 -> 0 <= flags < PGSIZE -> PTE_ADDR (mkpte ppn flags) = ppn * PGSIZE.
Proof.
  intros Hp Hf. rewrite PTE_ADDR_floor by (by apply mkpte_u32).
  unfold mkpte. rewrite Z.div_add_l by (unfold PGSIZE; lia).
  rewrite Z.div_small by done. lia.
Qed.

Lemma mkpte_flags ppn flags :
  0 <= flags < PGSIZE -> mkpte ppn flags mod PGSIZE = flags.
Proof. intros. unfold mkpte. rewrite Z.add_comm, Z_mod_plus_full. by apply Z.mod_small. Qed.

Lemma mkpte_ppn ppn flags :
  0 <= flags < PGSIZE -> mkpte ppn flags / PGSIZE = ppn.
Proof. intros. unfold mkpte. rewrite Z.div_add_l by (unfold PGSIZE; lia). rewrite Z.div_small; lia. Qed.

Lemma mkpte_eta pte : mkpte (pte / PGSIZE) (pte mod PGSIZE) = pte.
Proof. unfold mkpte. rewrite Z.mul_comm. symmetry. apply Z.div_mod. unfold PGSIZE. lia. Qed.

Lemma land_mkpte ppn flags m :
  0 <= m < PGSIZE -> Z.land (mkpte ppn flags) m = Z.land flags m.
Proof. intros. apply (land_low_add ppn flags m 12); [lia|done]. Qed.

Lemma flag_mkpte ppn flags m :
  0 <= m < PGSIZE -> flag (mkpte ppn flags) m = flag flags m.
Proof. intros. apply (flag_low ppn flags m 12); [lia|done]. Qed.

Lemma flag_self_lor x m : 0 < m -> flag (Z.lor x m) m = true.
Proof.
  intros Hm. rewrite flag_lor. apply orb_true_iff. right. unfold flag.
  rewrite Z.land_diag. apply negb_true_iff, Z.eqb_neq. lia.
Qed.

(** * Rounding *)

Lemma ROUNDDOWN_page a : is_u32 a -> ROUNDDOWN a PGSIZE = a / PGSIZE * PGSIZE.
Proof.
  intros H. unfold ROUNDDOWN. rewrite u32_small by done.
  pose proof (Z.div_mod a PGSIZE). unfold PGSIZE in *. lia.
Qed.

(** [ROUNDUP] is the least multiple of the page size above its argument,
    unless that multiple is 2^32, when it wraps to 0. *)
Lemma ROUNDUP_page a :
  0 <= a <= 2 ^ 32 - PGSIZE ->
  ROUNDUP a PGSIZE = (a + PGSIZE - 1) / PGSIZE * PGSIZE.
Proof.
  unfold PGSIZE. intros H. unfold ROUNDUP. rewrite (u32_small a) by (unfold is_u32; lia).
  rewrite u32_small by (unfold is_u32; lia).
  change 4096 with PGSIZE at 2. rewrite ROUNDDOWN_page by (unfold is_u32; lia). done.
Qed.

Lemma ROUNDUP_wrap a : 2 ^ 32 - PGSIZE < a < 2 ^ 32 -> ROUNDUP a PGSIZE = 0.
Proof.
  unfold PGSIZE. intros H. unfold ROUNDUP. rewrite (u32_small a) by (unfold is_u32; lia).
  replace (u32 (a + 4096 - 1)) with (a + 4096 - 1 - 2 ^ 32).
  - unfold ROUNDDOWN. rewrite u32_small by (unfold is_u32; lia).
    rewrite Z.mod_small by lia. lia.
  - unfold u32. apply (Z.mod_unique _ _ 1); lia.
Qed.

#[export] Hint Resolve PDX_range PTX_range PGADDR_u32 : jos.
