(* ===== verification/Spinlock.v ===== *)
(** kern/spinlock.c: the kernel lock, with any number of CPUs taking steps in
    any order. A step is one access to the lock; the debugging checks of the
    source (DEBUG_SPINLOCK is defined) are part of the code. *)

From stdpp Require Import base numbers list gmap strings.
From Stdlib Require Import ZArith Lia Bool.
From S2P Require Import Prelude.

(** [struct spinlock] without the recorded call stack. *)
Record spinlock := mkLock { locked : Z; lk_cpu : option Z }.

(** [__spin_initlock]. *)
Definition spin_initlock : spinlock := mkLock 0 None.

(** Where a CPU is in [spin_lock] and [spin_unlock]; the names say which access
    comes next. *)
Inductive lock_pc :=
| Outside        (* before spin_lock *)
| LHoldLocked    (* holding: read lk->locked *)
| LHoldCpu       (* holding: read lk->cpu *)
| LXchg          (* xchg(&lk->locked, 1) *)
| LSetCpu        (* lk->cpu = thiscpu *)
| Inside         (* between spin_lock and spin_unlock *)
| UHoldLocked    (* holding: read lk->locked *)
| UHoldCpu       (* holding: read lk->cpu *)
| UClearCpu      (* lk->cpu = 0 *)
| UXchg          (* xchg(&lk->locked, 0) *)
| Panicked.

#[export] Instance lock_pc_eq_dec : EqDecision lock_pc.
Proof. solve_decision. Defined.

(** One step of CPU [i]. *)
Definition lock_step (i : Z) (pc : lock_pc) (l : spinlock) : lock_pc * spinlock :=
  match pc with
  | Outside => (LHoldLocked, l)
  | LHoldLocked => (if locked l =? 0 then LXchg else LHoldCpu, l)
  | LHoldCpu => (if bool_decide (lk_cpu l = Some i) then Panicked else LXchg, l)
  | LXchg => (if locked l =? 0 then LSetCpu else LXchg, mkLock 1 (lk_cpu l))
  | LSetCpu => (Inside, mkLock (locked l) (Some i))
  | Inside => (UHoldLocked, l)
  | UHoldLocked => (if locked l =? 0 then Panicked else UHoldCpu, l)
  | UHoldCpu => (if bool_decide (lk_cpu l = Some i) then UClearCpu else Panicked, l)
  | UClearCpu => (UXchg, mkLock (locked l) None)
  | UXchg => (Outside, mkLock 0 (lk_cpu l))
  | Panicked => (Panicked, l)
  end.

(** The machine: the lock and where each CPU is. *)
Record locks := mkLocks { the_lock : spinlock; pc_of : Z -> lock_pc }.

Definition locks0 : locks := mkLocks spin_initlock (fun _ => Outside).

Inductive locks_step : locks -> locks -> Prop :=
| cpu_step i m : locks_step m
    (mkLocks (snd (lock_step i (pc_of m i) (the_lock m)))
       (fun j => if decide (j = i) then fst (lock_step i (pc_of m i) (the_lock m)) else pc_of m j)).

Inductive reached : locks -> Prop :=
| reached_start : reached locks0
| reached_step m m' : reached m -> locks_step m m' -> reached m'.

(** The places where a CPU owns the lock. *)
Definition owns_lock (pc : lock_pc) : bool :=
  match pc with LSetCpu | Inside | UHoldLocked | UHoldCpu | UClearCpu | UXchg => true | _ => false end.
(** Those of them where [lk->cpu] names it. *)
Definition named (pc : lock_pc) : bool :=
  match pc with Inside | UHoldLocked | UHoldCpu | UClearCpu => true | _ => false end.

Record locks_inv (m : locks) : Prop := {
  li_one : forall i j, owns_lock (pc_of m i) = true -> owns_lock (pc_of m j) = true -> i = j;
  li_locked : locked (the_lock m) = 1 /\ (exists i, owns_lock (pc_of m i) = true)
    \/ locked (the_lock m) = 0 /\ (forall i, owns_lock (pc_of m i) = false);
  li_cpu : forall i, lk_cpu (the_lock m) = Some i <-> named (pc_of m i) = true;
  li_fine : forall i, pc_of m i <> Panicked
}.

Lemma locks_inv_start : locks_inv locks0.
Proof. split; try done. by right. Qed.

Lemma named_owns pc : named pc = true -> owns_lock pc = true.
Proof. by destruct pc. Qed.

Section Step.
Context (m : locks) (HI : locks_inv m) (i : Z).

(** CPU [i] is now at [pc], with the lock as [l]. *)
Definition moved (pc : lock_pc) (l : spinlock) : locks := mkLocks l (fun j => if decide (j = i) then pc else pc_of m j).

(** A step that neither takes nor gives back the lock. *)
Lemma moved_quiet pc : owns_lock pc = owns_lock (pc_of m i) -> named pc = named (pc_of m i) -> pc <> Panicked ->
  locks_inv (moved pc (the_lock m)).
Proof.
  intros Ho Hn Hp. destruct HI as [I1 I2 I3 I4].
  assert (forall j, owns_lock (pc_of (moved pc (the_lock m)) j) = owns_lock (pc_of m j)) as Eo by (intros j; cbn; case_decide; [by subst|done]).
  assert (forall j, named (pc_of (moved pc (the_lock m)) j) = named (pc_of m j)) as En by (intros j; cbn; case_decide; [by subst|done]).
  split.
  - intros j k. rewrite !Eo. apply I1.
  - destruct I2 as [[H1 [j Hj]]|[H1 H2]]; [left; split; [done|]; exists j; by rewrite Eo|right]. split; [done|]. intros j. by rewrite Eo.
  - intros j. rewrite En. apply I3.
  - intros j. cbn. case_decide; [done|apply I4].
Qed.

(** Only the owner moves, so the others own nothing. *)
Lemma others_out j : owns_lock (pc_of m i) = true -> j <> i -> owns_lock (pc_of m j) = false.
Proof.
  intros Hi Hj. destruct (owns_lock (pc_of m j)) eqn:E; [|done]. destruct Hj. by apply (li_one _ HI).
Qed.

(** A step of the owner that keeps the lock. *)
Lemma moved_owner pc c : owns_lock (pc_of m i) = true -> owns_lock pc = true -> pc <> Panicked ->
  c = (if named pc then Some i else None) -> locks_inv (moved pc (mkLock (locked (the_lock m)) c)).
Proof.
  intros Ho Ho' Hp ->.
  assert (forall j, j <> i -> owns_lock (pc_of m j) = false) as Hout by (intros; by apply others_out). destruct HI as [I1 I2 I3 I4]. split.
  - intros j k. cbn. repeat case_decide; subst; try done; intros H1 H2; rewrite Hout in * by done; done.
  - left. destruct I2 as [[H1 _]|[_ H2]]; [|by rewrite H2 in Ho]. split; [done|]. exists i. cbn. by rewrite decide_True.
  - intros j. cbn. case_decide as Hj.
    + subst. destruct (named pc); split; congruence.
    + split; [destruct (named pc); congruence|]. intros Hn. apply named_owns in Hn. by rewrite Hout in Hn.
  - intros j. cbn. case_decide; [done|apply I4].
Qed.

Lemma locks_inv_step : locks_inv (moved (fst (lock_step i (pc_of m i) (the_lock m))) (snd (lock_step i (pc_of m i) (the_lock m)))).
Proof.
  pose proof HI as [I1 I2 I3 I4].
  assert (owns_lock (pc_of m i) = true -> locked (the_lock m) = 1) as Hl.
  { intros Ho. destruct I2 as [[H _]|[_ H]]; [done|]. by rewrite H in Ho. }
  destruct (pc_of m i) eqn:Epc; cbn [lock_step fst snd owns_lock] in *.
  - apply moved_quiet; by rewrite ?Epc.
  - destruct (locked (the_lock m) =? 0); apply moved_quiet; by rewrite ?Epc.
  - rewrite bool_decide_eq_false_2; [apply moved_quiet; by rewrite ?Epc|]. rewrite I3, Epc. done.
  - destruct (Z.eqb_spec (locked (the_lock m)) 0) as [Hz|Hz].
    + destruct I2 as [[H1 _]|[_ Hno]]; [congruence|]. split.
      * intros j k. cbn. repeat case_decide; subst; try done; intros H1 H2; rewrite Hno in *; done.
      * left. split; [done|]. exists i. cbn. by rewrite decide_True.
      * intros j. cbn [moved the_lock pc_of lk_cpu]. rewrite I3. case_decide as Hj; [subst; by rewrite Epc|done].
      * intros j. cbn. case_decide; [done|apply I4].
    + assert (mkLock 1 (lk_cpu (the_lock m)) = the_lock m) as ->.
      { destruct I2 as [[H1 _]|[H1 _]]; [|done]. rewrite <- H1. by destruct (the_lock m). }
      apply moved_quiet; by rewrite ?Epc.
  - apply moved_owner; by rewrite ?Epc.
  - apply moved_quiet; by rewrite ?Epc.
  - rewrite (Hl eq_refl). apply moved_quiet; by rewrite ?Epc.
  - rewrite bool_decide_eq_true_2 by (apply I3; by rewrite Epc). apply moved_quiet; by rewrite ?Epc.
  - apply moved_owner; by rewrite ?Epc.
  - assert (forall j, j <> i -> owns_lock (pc_of m j) = false) as Hout by (intros; apply others_out; by rewrite ?Epc). split.
    + intros j k. cbn. repeat case_decide; subst; try done; intros H1 H2; rewrite Hout in * by done; done.
    + right. split; [done|]. intros j. cbn. case_decide; [done|by apply Hout].
    + intros j. cbn [moved the_lock pc_of lk_cpu]. rewrite I3. case_decide as Hj; [subst; by rewrite Epc|done].
    + intros j. cbn. case_decide; [done|apply I4].
  - by destruct (I4 i).
Qed.
End Step.

Lemma reached_inv m : reached m -> locks_inv m.
Proof.
  induction 1 as [|m m' _ IH Hs]; [apply locks_inv_start|]. destruct Hs as [i m]. exact (locks_inv_step m IH i).
Qed.

(** C31: the kernel lock excludes: however the accesses to the lock are
    interleaved of CPUs that each take it and give it back in turn, at most one CPU is between [spin_lock] and
    [spin_unlock], no debugging check of the lock ever panics, and a CPU that
    is inside is the one recorded in the lock. *)
Theorem spin_lock_excludes m i j : reached m ->
  (pc_of m i = Inside -> locked (the_lock m) = 1 /\ lk_cpu (the_lock m) = Some i)
  /\ (pc_of m i = Inside -> pc_of m j = Inside -> i = j) /\ pc_of m i <> Panicked.
Proof.
  intros Hm. destruct (reached_inv m Hm) as [I1 I2 I3 I4]. split; [|split; [|apply I4]].
  - intros Hi. split; [|apply I3; by rewrite Hi]. destruct I2 as [[H _]|[_ H]]; [done|]. specialize (H i). by rewrite Hi in H.
  - intros Hi Hj. apply I1; [by rewrite Hi|by rewrite Hj].
Qed.

(** The machine after the given CPUs have taken a step each. *)
Fixpoint locks_run (cpus : list Z) (m : locks) : locks :=
  match cpus with
  | [] => m
  | i :: cpus => locks_run cpus (moved m i (fst (lock_step i (pc_of m i) (the_lock m))) (snd (lock_step i (pc_of m i) (the_lock m))))
  end.

Lemma locks_run_reached cpus : forall m, reached m -> reached (locks_run cpus m).
Proof. induction cpus as [|i cpus IH]; intros m Hm; [done|]. apply IH. eapply reached_step; [exact Hm|]. constructor. Qed.

(** CPUs 0 and 1 race; CPU 0 is inside. *)
Definition race : locks := locks_run [0; 1; 0; 1; 0; 1; 0; 1] locks0.

Lemma spin_lock_excludes_witness : pc_of race 0 = Inside /\ lk_cpu (the_lock race) = Some 0.
Proof.
  assert (pc_of race 0 = Inside) as H by reflexivity. split; [exact H|].
  exact (proj2 (proj1 (spin_lock_excludes race 0 1 (locks_run_reached _ _ reached_start)) H)).
Defined.

(** A CPU that spins acquires the lock with its next access once the lock
    has been given back. *)
Lemma spin_lock_acquires m i : reached m -> pc_of m i = LXchg -> (forall j, owns_lock (pc_of m j) = false) ->
  lock_step i (pc_of m i) (the_lock m) = (LSetCpu, mkLock 1 None).
Proof.
  intros Hm Hi Hno. destruct (reached_inv m Hm) as [I1 I2 I3 I4]. rewrite Hi. cbn [lock_step].
  destruct I2 as [[_ [j Hj]]|[Hz _]]; [by rewrite Hno in Hj|]. rewrite Hz. cbn. f_equal. f_equal.
  destruct (lk_cpu (the_lock m)) as [j|]; [|done]. pose proof (named_owns _ (proj1 (I3 j) eq_refl)) as E. by rewrite Hno in E.
Qed.
