(* ===== verification/Pipe.v ===== *)
(** lib/pipe.c: [devpipe_read] and [devpipe_write] on a page shared by a reader
    and a writer, which the kernel may switch between at any access to it. *)

From stdpp Require Import base numbers list gmap strings.
From Stdlib Require Import ZArith Lia Bool.
From S2P Require Import Prelude.

Local Ltac Zify.zify_post_hook ::= Z.to_euclidean_division_equations.

Definition PIPEBUFSIZ : Z := 32.

(** [struct Pipe]. *)
Record Pipe := mkPipe { p_rpos : Z; p_wpos : Z; p_buf : gmap Z Z }.

(** Where the reader is in [devpipe_read(fd, buf, n)], with the bytes it has
    put in [buf] so far. *)
Inductive rproc :=
| RIdle
| RLoop (n : Z) (buf : list Z)      (* for: i < n *)
| RWait (n : Z) (buf : list Z)      (* while (p->p_rpos == p->p_wpos) *)
| RClosed (n : Z) (buf : list Z)    (* the pipe was empty *)
| RTake (n : Z) (buf : list Z)      (* buf[i] = p->p_buf[p->p_rpos % PIPEBUFSIZ] *)
| RInc (n : Z) (buf : list Z)       (* p->p_rpos++ *)
| RRet (buf : list Z).              (* the bytes returned; none at end of file *)

(** Where the writer is in [devpipe_write(fd, buf, n)], with the bytes it still
    has to write and the number written. *)
Inductive wproc :=
| WIdle
| WLoop (todo : list Z) (i : Z)
| WWait (todo : list Z) (i : Z)     (* while (p->p_wpos >= p->p_rpos + sizeof(p->p_buf)) *)
| WClosed (todo : list Z) (i : Z)   (* the pipe was full *)
| WStore (todo : list Z) (i : Z)    (* p->p_buf[p->p_wpos % PIPEBUFSIZ] = buf[i] *)
| WInc (todo : list Z) (i : Z)      (* p->p_wpos++ *)
| WRet (r : Z).                     (* the value returned *)

(** One access of the reader; [closed] is what [_pipeisclosed] answers. *)
Definition devpipe_read (closed : bool) (r : rproc) (p : Pipe) : rproc * Pipe :=
  match r with
  | RIdle | RRet _ => (RIdle, p)
  | RLoop n buf => (if u32 (Z.of_nat (length buf)) <? n then RWait n buf else RRet buf, p)
  | RWait n buf => (if p_rpos p =? p_wpos p then RClosed n buf else RTake n buf, p)
  | RClosed n buf =>
      (if 0 <? Z.of_nat (length buf) then RRet buf else if closed then RRet [] else RWait n buf, p)
  | RTake n buf => (RInc n (buf ++ [mget 0 (p_buf p) (Z.rem (p_rpos p) PIPEBUFSIZ)]), p)
  | RInc n buf => (RLoop n buf, mkPipe (s32 (p_rpos p + 1)) (p_wpos p) (p_buf p))
  end.

Definition devpipe_write (closed : bool) (w : wproc) (p : Pipe) : wproc * Pipe :=
  match w with
  | WIdle | WRet _ => (WIdle, p)
  | WLoop todo i => (match todo with [] => WRet i | _ => WWait todo i end, p)
  | WWait todo i => (if u32 (u32 (p_rpos p) + PIPEBUFSIZ) <=? u32 (p_wpos p) then WClosed todo i else WStore todo i, p)
  | WClosed todo i => (if closed then WRet 0 else WWait todo i, p)
  | WStore todo i =>
      (WInc todo i, mkPipe (p_rpos p) (p_wpos p) (<[Z.rem (p_wpos p) PIPEBUFSIZ := nth 0 todo 0]> (p_buf p)))
  | WInc todo i => (WLoop (tail todo) (i + 1), mkPipe (p_rpos p) (s32 (p_wpos p + 1)) (p_buf p))
  end.

(** * Runs *)

Record pipes := mkPipes { the_pipe : Pipe; reader : rproc; writer : wproc }.

(** The page is zeroed when it is allocated. *)
Definition pipes0 : pipes := mkPipes (mkPipe 0 0 ∅) RIdle WIdle.

(** What happened: a call was made, or one of the two made a step. *)
Inductive pipe_event :=
| ReadCall (n : Z)
| WriteCall (buf : list Z)
| ReadStep (closed : bool)
| WriteStep (closed : bool).

Inductive pipe_step : pipes -> pipe_event -> pipes -> Prop :=
| step_read_call n p w : pipe_step (mkPipes p RIdle w) (ReadCall n) (mkPipes p (RLoop n []) w)
| step_write_call buf p r : pipe_step (mkPipes p r WIdle) (WriteCall buf) (mkPipes p r (WLoop buf 0))
| step_read c p r w r' p' : devpipe_read c r p = (r', p') -> pipe_step (mkPipes p r w) (ReadStep c) (mkPipes p' r' w)
| step_write c p r w w' p' : devpipe_write c w p = (w', p') -> pipe_step (mkPipes p r w) (WriteStep c) (mkPipes p' r w').

(** The bytes that a step adds to the pipe, and those a finished read hands to
    its caller. *)
Definition stores (s : pipes) (ev : pipe_event) : list Z :=
  match ev, writer s with WriteStep _, WInc todo _ => [nth 0 todo 0] | _, _ => [] end.
Definition returns (s : pipes) (ev : pipe_event) : list Z :=
  match ev, reader s with ReadStep _, RRet buf => buf | _, _ => [] end.

(** A run from the empty pipe with the bytes stored and returned in it. *)
Inductive pipe_run : list Z -> list Z -> pipes -> Prop :=
| run_start : pipe_run [] [] pipes0
| run_step put got s ev s' : pipe_run put got s -> pipe_step s ev s' ->
    pipe_run (put ++ stores s ev) (got ++ returns s ev) s'.

(** The bytes of the current call that the reader has taken and committed. *)
Definition in_hand (r : rproc) : list Z :=
  match r with
  | RIdle => []
  | RLoop _ buf | RWait _ buf | RClosed _ buf | RTake _ buf | RRet buf => buf
  | RInc _ buf => removelast buf
  end.

(** The bytes in the buffer. *)
Definition buffered (p : Pipe) : list Z :=
  (fun k => mget 0 (p_buf p) (k mod PIPEBUFSIZ)) <$> seqZ (p_rpos p) (p_wpos p - p_rpos p).

(** The invariant; the positions have not passed [2^31]. *)
Record pipe_ok (put got : list Z) (s : pipes) : Prop := {
  po_rpos : 0 <= p_rpos (the_pipe s);
  po_order : p_rpos (the_pipe s) <= p_wpos (the_pipe s) <= p_rpos (the_pipe s) + PIPEBUFSIZ;
  po_wpos : p_wpos (the_pipe s) = Z.of_nat (length put);
  po_flow : put = got ++ in_hand (reader s) ++ buffered (the_pipe s);
  po_take : match reader s with
            | RTake _ _ => p_rpos (the_pipe s) < p_wpos (the_pipe s)
            | RInc _ buf => p_rpos (the_pipe s) < p_wpos (the_pipe s)
                /\ exists b, last buf = Some b /\ mget 0 (p_buf (the_pipe s)) (p_rpos (the_pipe s) mod PIPEBUFSIZ) = b
            | RClosed _ _ => True
            | _ => True
            end;
  po_store : match writer s with
             | WStore todo _ => p_wpos (the_pipe s) < p_rpos (the_pipe s) + PIPEBUFSIZ /\ todo <> []
             | WInc todo _ => p_wpos (the_pipe s) < p_rpos (the_pipe s) + PIPEBUFSIZ
                 /\ mget 0 (p_buf (the_pipe s)) (p_wpos (the_pipe s) mod PIPEBUFSIZ) = nth 0 todo 0
             | WWait todo _ | WClosed todo _ => todo <> []
             | _ => True
             end
}.

Lemma buffered_cons p : p_rpos p < p_wpos p ->
  buffered p = mget 0 (p_buf p) (p_rpos p mod PIPEBUFSIZ) :: buffered (mkPipe (p_rpos p + 1) (p_wpos p) (p_buf p)).
Proof.
  intros H. unfold buffered. cbn [p_rpos p_wpos p_buf]. rewrite seqZ_cons by lia. cbn. do 3 f_equal. lia.
Qed.

Lemma buffered_snoc p : p_rpos p <= p_wpos p ->
  buffered (mkPipe (p_rpos p) (p_wpos p + 1) (p_buf p)) = buffered p ++ [mget 0 (p_buf p) (p_wpos p mod PIPEBUFSIZ)].
Proof.
  intros H. unfold buffered. cbn [p_rpos p_wpos p_buf].
  replace (p_wpos p + 1 - p_rpos p) with ((p_wpos p - p_rpos p) + 1) by lia. rewrite seqZ_app by lia. rewrite fmap_app. f_equal.
  cbn. by replace (p_rpos p + (p_wpos p - p_rpos p)) with (p_wpos p) by lia.
Qed.

(** Storing at the write position touches no byte still to be read. *)
Lemma store_apart p k v : p_wpos p < p_rpos p + PIPEBUFSIZ -> p_rpos p <= k < p_wpos p ->
  mget 0 (<[p_wpos p mod PIPEBUFSIZ := v]> (p_buf p)) (k mod PIPEBUFSIZ) = mget 0 (p_buf p) (k mod PIPEBUFSIZ).
Proof. intros H1 H2. apply mget_insert_ne. unfold PIPEBUFSIZ in *. lia. Qed.

Lemma buffered_store p v : p_wpos p < p_rpos p + PIPEBUFSIZ ->
  buffered (mkPipe (p_rpos p) (p_wpos p) (<[p_wpos p mod PIPEBUFSIZ := v]> (p_buf p))) = buffered p.
Proof.
  intros H. unfold buffered. cbn [p_rpos p_wpos p_buf]. apply list_fmap_ext. intros i k Hk. apply lookup_seqZ in Hk as [-> Hi].
  apply store_apart; [done|lia].
Qed.

Lemma last_removelast (l : list Z) b : last l = Some b -> l = removelast l ++ [b].
Proof.
  intros H. apply last_Some in H as [l' ->]. by rewrite removelast_last.
Qed.

Section Steps.
Context (put got : list Z) (p : Pipe) (r : rproc) (w : wproc).
Context (HI : pipe_ok put got (mkPipes p r w)) (Hb : Z.of_nat (length put) < 2 ^ 31).

Lemma read_step_ok c r' p' : devpipe_read c r p = (r', p') ->
  pipe_ok put (got ++ returns (mkPipes p r w) (ReadStep c)) (mkPipes p' r' w).
Proof.
  destruct HI as [I1 I2 I3 I4 I5 I6]. cbn [the_pipe reader writer returns] in *. intros E.
  destruct r as [|n buf|n buf|n buf|n buf|n buf|buf]; cbn [devpipe_read in_hand] in *.
  - injection E as <- <-. rewrite app_nil_r. by split.
  - rewrite app_nil_r. destruct (_ <? n); injection E as <- <-; by split.
  - rewrite app_nil_r. destruct (Z.eqb_spec (p_rpos p) (p_wpos p)); injection E as <- <-; split; done || (cbn; lia).
  - rewrite app_nil_r. destruct (Z.ltb_spec 0 (Z.of_nat (length buf))) as [Hl|Hl]; [injection E as <- <-; by split|].
    assert (buf = []) as -> by (destruct buf; [done|cbn in Hl; lia]).
    destruct c; injection E as <- <-; by split.
  - rewrite app_nil_r. injection E as <- <-. rewrite Z.rem_mod_nonneg by (unfold PIPEBUFSIZ; lia). split; try done; cbn.
    + by rewrite removelast_last.
    + split; [done|]. eexists. split; [apply last_snoc|done].
  - rewrite app_nil_r. injection E as <- <-. destruct I5 as [Hlt (b & Hl & Hg)].
    rewrite s32_small by (unfold PIPEBUFSIZ in *; lia). split; cbn [the_pipe reader writer p_rpos p_wpos p_buf in_hand]; try done; try lia.
    + rewrite I4, (buffered_cons p Hlt), Hg. rewrite (last_removelast buf b Hl) at 2. by rewrite <- !app_assoc.
    + unfold PIPEBUFSIZ in *. destruct w; try done; destruct I6; split; try done; lia.
  - injection E as <- <-. split; try done; cbn. by rewrite <- app_assoc.
Qed.

Lemma write_step_ok c w' p' : devpipe_write c w p = (w', p') ->
  Z.of_nat (length (put ++ stores (mkPipes p r w) (WriteStep c))) < 2 ^ 31 ->
  pipe_ok (put ++ stores (mkPipes p r w) (WriteStep c)) got (mkPipes p' r w').
Proof.
  destruct HI as [I1 I2 I3 I4 I5 I6]. cbn [the_pipe reader writer stores] in *. intros E Hb'.
  destruct w as [|todo i|todo i|todo i|todo i|todo i|v]; cbn [devpipe_write] in *; rewrite ?app_nil_r in *.
  - injection E as <- <-. by split.
  - destruct todo; injection E as <- <-; by split.
  - rewrite !u32_small in E by (unfold is_u32, PIPEBUFSIZ in *; rewrite ?u32_small by (unfold is_u32; lia); lia).
    destruct (Z.leb_spec (p_rpos p + PIPEBUFSIZ) (p_wpos p)); injection E as <- <-; split; done || (cbn; lia).
  - destruct c; injection E as <- <-; by split.
  - injection E as <- <-. rewrite Z.rem_mod_nonneg by (unfold PIPEBUFSIZ; lia). destruct I6 as [Hlt Ht].
    split; cbn [the_pipe reader writer p_rpos p_wpos p_buf]; try done.
    + by rewrite buffered_store.
    + destruct r; try done. destruct I5 as [Hr (b & Hl & Hg)]. split; [done|]. exists b. split; [done|].
      rewrite store_apart by (done || lia). done.
    + split; [done|]. apply mget_insert.
  - injection E as <- <-. destruct I6 as [Hlt Hg]. rewrite length_app in *. cbn [length] in *.
    rewrite s32_small by lia. split; cbn [the_pipe reader writer p_rpos p_wpos p_buf]; try done; try lia.
    + rewrite length_app. cbn. lia.
    + rewrite buffered_snoc, Hg, I4 by lia. by rewrite <- !app_assoc.
    + destruct r; try done; [lia|]. destruct I5 as [Hr Hx]. split; [lia|done].
  - injection E as <- <-. by split.
Qed.
End Steps.

Lemma pipe_run_ok put got s : pipe_run put got s -> Z.of_nat (length put) < 2 ^ 31 -> pipe_ok put got s.
Proof.
  induction 1 as [|put got s ev s' _ IH Hs]; intros Hb; [by split|].
  specialize (IH ltac:(rewrite length_app in Hb; lia)).
  destruct Hs as [n p w|buf p r|c p r w r' p' E|c p r w w' p' E].
  - cbn [stores returns]. rewrite !app_nil_r. destruct IH as [I1 I2 I3 I4 I5 I6]. by split.
  - cbn [stores returns]. rewrite !app_nil_r. destruct IH as [I1 I2 I3 I4 I5 I6]. by split.
  - cbn [stores]. rewrite app_nil_r in *. by apply (read_step_ok put got p r w).
  - cbn [returns]. rewrite app_nil_r. by apply (write_step_ok put got p r w IH).
Qed.

(** * Theorems *)

(** C32: a pipe is a first-in first-out queue of bytes between its reader and its
    writer, however the kernel switches between the two: what the finished
    reads have returned, in order, followed by what the current read has taken
    and by what is in the buffer, is exactly what has been written; and the
    buffer holds at most 32 bytes. Up to [2^31] bytes in all; the positions
    are signed and never reset. *)
Theorem pipe_fifo put got s : pipe_run put got s -> Z.of_nat (length put) < 2 ^ 31 ->
  put = got ++ in_hand (reader s) ++ buffered (the_pipe s) /\ Z.of_nat (length (buffered (the_pipe s))) <= PIPEBUFSIZ.
Proof.
  intros Hr Hb. destruct (pipe_run_ok put got s Hr Hb) as [I1 I2 I3 I4 I5 I6]. split; [done|].
  unfold buffered. rewrite length_fmap, length_seqZ. lia.
Qed.

(** A run of given events; a call is only made by an idle process. *)
Definition pipe_do (ev : pipe_event) (s : pipes) : option pipes :=
  match ev with
  | ReadCall n => match reader s with RIdle => Some (mkPipes (the_pipe s) (RLoop n []) (writer s)) | _ => None end
  | WriteCall buf => match writer s with WIdle => Some (mkPipes (the_pipe s) (reader s) (WLoop buf 0)) | _ => None end
  | ReadStep c => let '(r, p) := devpipe_read c (reader s) (the_pipe s) in Some (mkPipes p r (writer s))
  | WriteStep c => let '(w, p) := devpipe_write c (writer s) (the_pipe s) in Some (mkPipes p (reader s) w)
  end.

Fixpoint pipe_exec (evs : list pipe_event) (put got : list Z) (s : pipes) : option (list Z * list Z * pipes) :=
  match evs with
  | [] => Some (put, got, s)
  | ev :: evs => s' ← pipe_do ev s; pipe_exec evs (put ++ stores s ev) (got ++ returns s ev) s'
  end.

Lemma pipe_do_step ev s s' : pipe_do ev s = Some s' -> pipe_step s ev s'.
Proof.
  destruct s as [p r w], ev; cbn; intros E.
  - destruct r; try done. injection E as <-. constructor.
  - destruct w; try done. injection E as <-. constructor.
  - destruct (devpipe_read closed r p) eqn:Er. injection E as <-. by constructor.
  - destruct (devpipe_write closed w p) eqn:Ew. injection E as <-. by constructor.
Qed.

Lemma pipe_exec_run evs : forall put got s put' got' s', pipe_run put got s ->
  pipe_exec evs put got s = Some (put', got', s') -> pipe_run put' got' s'.
Proof.
  induction evs as [|ev evs IH]; intros put got s put' got' s' Hr E; cbn in E; [by injection E as <- <- <-|].
  destruct (pipe_do ev s) as [s1|] eqn:E1; [|done]. cbn in E. apply (IH _ _ s1 _ _ _ (run_step put got s ev s1 Hr (pipe_do_step _ _ _ E1)) E).
Qed.

(** Two bytes are written while a read for two is under way. *)
Definition pipe_demo : list pipe_event :=
  [WriteCall [7; 8]; ReadCall 2; WriteStep false; WriteStep false; WriteStep false; ReadStep false; ReadStep false;
   ReadStep false; WriteStep false; ReadStep false; ReadStep false; ReadStep false; WriteStep false; WriteStep false].

Definition pipe_demo_end : list Z * list Z * pipes := default ([], [], pipes0) (pipe_exec pipe_demo [] [] pipes0).

Lemma pipe_fifo_witness :
  pipe_demo_end.1.1 = [7] /\ reader pipe_demo_end.2 = RLoop 2 [7]
  /\ pipe_demo_end.1.1 = pipe_demo_end.1.2 ++ in_hand (reader pipe_demo_end.2) ++ buffered (the_pipe pipe_demo_end.2).
Proof.
  split; [vm_compute; reflexivity|]. split; [vm_compute; reflexivity|].
  refine (proj1 (pipe_fifo pipe_demo_end.1.1 pipe_demo_end.1.2 pipe_demo_end.2 _ _)); [|by vm_compute].
  apply (pipe_exec_run pipe_demo [] [] pipes0); [constructor|vm_compute; reflexivity].
Defined.
