(* ===== verification/Console.v ===== *)
(** kern/console.c: the keyboard and serial input paths into the circular
    console buffer, and the serial, parallel and CGA output paths.

    The devices behind [inb] are the unread input queues [serial_in] (bytes
    waiting in the UART) and [kbd_in] (status and data bytes waiting in the
    keyboard controller); what [outb] sends to the serial and parallel ports
    is appended to [serial_out] and [lpt_out]. *)

From stdpp Require Import base numbers list gmap strings.
From Stdlib Require Import ZArith Lia Bool Ascii.
From S2P Require Import Prelude Mmu.

(** Character constants. *)
Definition ch (a : ascii) : Z := Z.of_N (N_of_ascii a).
Fixpoint chs (s : string) : list Z :=
  match s with
  | EmptyString => []
  | String a s' => ch a :: chs s'
  end.

Definition CRT_ROWS : Z := 25.
Definition CRT_COLS : Z := 80.
Definition CRT_SIZE : Z := CRT_ROWS * CRT_COLS.
Definition CONSBUFSIZE : Z := 512.

Definition NO : Z := 0.
Definition SHIFT : Z := 1.
Definition CTL : Z := 2.
Definition ALT : Z := 4.
Definition CAPSLOCK : Z := 8.
Definition NUMLOCK : Z := 16.
Definition SCROLLLOCK : Z := 32.
Definition E0ESC : Z := 64.

Definition KEY_HOME : Z := 0xE0.
Definition KEY_END : Z := 0xE1.
Definition KEY_UP : Z := 0xE2.
Definition KEY_DN : Z := 0xE3.
Definition KEY_LF : Z := 0xE4.
Definition KEY_RT : Z := 0xE5.
Definition KEY_PGUP : Z := 0xE6.
Definition KEY_PGDN : Z := 0xE7.
Definition KEY_INS : Z := 0xE8.
Definition KEY_DEL : Z := 0xE9.
Definition KBS_DIB : Z := 0x01.
Definition KBS_TERR : Z := 0x20.

(** The console's static variables, [cons], [shift], [crt_buf] and
    [crt_pos], with the device queues. *)
Record console := mkConsole {
  cons_buf : gmap Z Z;
  cons_rpos : Z;
  cons_wpos : Z;
  kbd_shift : Z;
  kbd_reboot : bool;
  serial_exists : bool;
  serial_in : list Z;
  kbd_in : list (Z * Z);
  serial_out : list Z;
  lpt_out : list Z;
  crt_buf : gmap Z Z;
  crt_pos : Z
}.

(** * Scan code tables *)

(** A designated initialiser: rows from index 0, then [[i] = v] entries. *)
Definition table (rows : list Z) (ext : list (Z * Z)) (i : Z) : Z :=
  match List.find (fun e => fst e =? i) ext with
  | Some e => snd e
  | None => List.nth (Z.to_nat i) rows NO
  end.

Definition shiftcode : Z -> Z :=
  table [] [(0x1D, CTL); (0x2A, SHIFT); (0x36, SHIFT); (0x38, ALT); (0x9D, CTL); (0xB8, ALT)].

Definition togglecode : Z -> Z :=
  table [] [(0x3A, CAPSLOCK); (0x45, NUMLOCK); (0x46, SCROLLLOCK)].

Definition normalmap : Z -> Z :=
  table
    ([NO; 0x1B] ++ chs "1234567890-=" ++ [8; 9]
     ++ chs "qwertyuiop[]" ++ [10; NO] ++ chs "asdfghjkl;'`" ++ [NO]
     ++ chs "\zxcvbnm,./" ++ [NO] ++ chs "*" ++ [NO] ++ chs " "
     ++ [NO; NO; NO; NO; NO; NO; NO; NO; NO; NO; NO; NO; NO]
     ++ chs "789-456+1230." ++ [NO; NO; NO; NO])
    [(0xC7, KEY_HOME); (0x9C, 10); (0xB5, ch "/"); (0xC8, KEY_UP); (0xC9, KEY_PGUP);
     (0xCB, KEY_LF); (0xCD, KEY_RT); (0xCF, KEY_END); (0xD0, KEY_DN); (0xD1, KEY_PGDN);
     (0xD2, KEY_INS); (0xD3, KEY_DEL)].

Definition shiftmap : Z -> Z :=
  table
    ([NO; 27] ++ chs "!@#$%^&*()_+" ++ [8; 9]
     ++ chs "QWERTYUIOP{}" ++ [10; NO] ++ chs "ASDFGHJKL:" ++ [34] ++ chs "~" ++ [NO]
     ++ chs "|ZXCVBNM<>?" ++ [NO] ++ chs "*" ++ [NO] ++ chs " "
     ++ [NO; NO; NO; NO; NO; NO; NO; NO; NO; NO; NO; NO; NO]
     ++ chs "789-456+1230." ++ [NO; NO; NO; NO])
    [(0xC7, KEY_HOME); (0x9C, 10); (0xB5, ch "/"); (0xC8, KEY_UP); (0xC9, KEY_PGUP);
     (0xCB, KEY_LF); (0xCD, KEY_RT); (0xCF, KEY_END); (0xD0, KEY_DN); (0xD1, KEY_PGDN);
     (0xD2, KEY_INS); (0xD3, KEY_DEL)].

(** [C(x)], a [uint8_t]. *)
Definition C (a : ascii) : Z := u8 (ch a - ch "@").

Definition ctlmap : Z -> Z :=
  table
    ([NO; NO; NO; NO; NO; NO; NO; NO; NO; NO; NO; NO; NO; NO; NO; NO;
      C "Q"; C "W"; C "E"; C "R"; C "T"; C "Y"; C "U"; C "I";
      C "O"; C "P"; NO; NO; 13; NO; C "A"; C "S";
      C "D"; C "F"; C "G"; C "H"; C "J"; C "K"; C "L"; NO;
      NO; NO; NO; C "\"; C "Z"; C "X"; C "C"; C "V";
      C "B"; C "N"; C "M"; NO; NO; C "/"; NO; NO])
    [(0x97, KEY_HOME); (0xB5, C "/"); (0xC8, KEY_UP); (0xC9, KEY_PGUP); (0xCB, KEY_LF);
     (0xCD, KEY_RT); (0xCF, KEY_END); (0xD0, KEY_DN); (0xD1, KEY_PGDN); (0xD2, KEY_INS);
     (0xD3, KEY_DEL)].

Definition charcode (i : Z) : Z -> Z :=
  if i =? 0 then normalmap else if i =? 1 then shiftmap else ctlmap.

(** * Input *)

Definition set_shift (f : Z -> Z) (c : console) : console :=
  mkConsole (cons_buf c) (cons_rpos c) (cons_wpos c) (f (kbd_shift c)) (kbd_reboot c)
    (serial_exists c) (serial_in c) (kbd_in c) (serial_out c) (lpt_out c) (crt_buf c) (crt_pos c).
Definition set_kbd_in (q : list (Z * Z)) (c : console) : console :=
  mkConsole (cons_buf c) (cons_rpos c) (cons_wpos c) (kbd_shift c) (kbd_reboot c)
    (serial_exists c) (serial_in c) q (serial_out c) (lpt_out c) (crt_buf c) (crt_pos c).
Definition set_serial_in (q : list Z) (c : console) : console :=
  mkConsole (cons_buf c) (cons_rpos c) (cons_wpos c) (kbd_shift c) (kbd_reboot c)
    (serial_exists c) q (kbd_in c) (serial_out c) (lpt_out c) (crt_buf c) (crt_pos c).
Definition set_reboot (c : console) : console :=
  mkConsole (cons_buf c) (cons_rpos c) (cons_wpos c) (kbd_shift c) true
    (serial_exists c) (serial_in c) (kbd_in c) (serial_out c) (lpt_out c) (crt_buf c) (crt_pos c).
Definition set_ring (b : gmap Z Z) (r w : Z) (c : console) : console :=
  mkConsole b r w (kbd_shift c) (kbd_reboot c)
    (serial_exists c) (serial_in c) (kbd_in c) (serial_out c) (lpt_out c) (crt_buf c) (crt_pos c).

(** [serial_proc_data]: a byte from the UART, or -1. *)
Definition serial_proc_data : M console Z := fun c =>
  match serial_in c with
  | [] => Ret (-1) c
  | b :: q => Ret b (set_serial_in q c)
  end.

(** The key-press tail of [kbd_proc_data], after the E0 escape is resolved. *)
Definition kbd_press (data : Z) : M console Z := fun c =>
  let shift := Z.lxor (Z.lor (kbd_shift c) (shiftcode data)) (togglecode data) in
  let k := charcode (Z.land shift (Z.lor CTL SHIFT)) data in
  let k' :=
    if flag shift CAPSLOCK then
      if (ch "a" <=? k) && (k <=? ch "z") then k + (ch "A" - ch "a")
      else if (ch "A" <=? k) && (k <=? ch "Z") then k + (ch "a" - ch "A")
      else k
    else k in
  let c' := set_shift (fun _ => shift) c in
  if negb (flag (Z.lnot shift) (Z.lor CTL ALT)) && (k' =? KEY_DEL)
  then Ret k' (set_reboot c')
  else Ret k' c'.

(** [kbd_proc_data]: a finished character, 0 for none, -1 for no data. The
    controller's status byte is 0 when nothing waits; data flagged as coming
    from the mouse is left in place. *)
Definition kbd_proc_data : M console Z := fun c =>
  match kbd_in c with
  | [] => Ret (-1) c
  | (stat, data) :: q =>
      if negb (flag stat KBS_DIB) then Ret (-1) c
      else if flag stat KBS_TERR then Ret (-1) c
      else
        let c := set_kbd_in q c in
        if data =? 0xE0 then Ret 0 (set_shift (fun sh => Z.lor sh E0ESC) c)
        else if flag data 0x80 then
          let data := if flag (kbd_shift c) E0ESC then data else Z.land data 0x7F in
          Ret 0 (set_shift (fun sh => Z.land sh (Z.lnot (Z.lor (shiftcode data) E0ESC))) c)
        else if flag (kbd_shift c) E0ESC then
          kbd_press (Z.lor data 0x80) (set_shift (fun sh => Z.land sh (Z.lnot E0ESC)) c)
        else kbd_press data c
  end.

(** One character into the ring, the body of [cons_intr]'s loop. *)
Definition cons_put (k : Z) (c : console) : console :=
  let w := u32 (cons_wpos c + 1) in
  set_ring (<[cons_wpos c := u8 k]> (cons_buf c)) (cons_rpos c)
    (if w =? CONSBUFSIZE then 0 else w) c.

(** [cons_intr(proc)]: drains the device. Each round consumes one queued
    input, so the length of the queue bounds the number of rounds. *)
Fixpoint cons_intr (fuel : nat) (proc : M console Z) : M console unit :=
  match fuel with
  | O => ret tt
  | S fuel' =>
      let! k := proc in
      if k =? -1 then ret tt
      else if k =? 0 then cons_intr fuel' proc
      else modify (cons_put k) ;;! cons_intr fuel' proc
  end.

Definition serial_intr : M console unit := fun c =>
  if serial_exists c then cons_intr (S (length (serial_in c))) serial_proc_data c
  else Ret tt c.

Definition kbd_intr : M console unit := fun c =>
  cons_intr (S (length (kbd_in c))) kbd_proc_data c.

(** [cons_getc]: poll both devices, then take the oldest character, or 0. *)
Definition cons_getc : M console Z :=
  serial_intr ;;!
  kbd_intr ;;!
  fun c =>
    if negb (cons_rpos c =? cons_wpos c) then
      let k := mget 0 (cons_buf c) (cons_rpos c) in
      let r := u32 (cons_rpos c + 1) in
      Ret k (set_ring (cons_buf c) (if r =? CONSBUFSIZE then 0 else r) (cons_wpos c) c)
    else Ret 0 c.

(** * Output *)

Definition set_crt (b : gmap Z Z) (p : Z) (c : console) : console :=
  mkConsole (cons_buf c) (cons_rpos c) (cons_wpos c) (kbd_shift c) (kbd_reboot c)
    (serial_exists c) (serial_in c) (kbd_in c) (serial_out c) (lpt_out c) b p.

(** The UART and the parallel port become ready within the bounded wait. *)
Definition serial_putc (k : Z) : M console unit := modify (fun c =>
  mkConsole (cons_buf c) (cons_rpos c) (cons_wpos c) (kbd_shift c) (kbd_reboot c)
    (serial_exists c) (serial_in c) (kbd_in c) (serial_out c ++ [u8 k]) (lpt_out c)
    (crt_buf c) (crt_pos c)).
Definition lpt_putc (k : Z) : M console unit := modify (fun c =>
  mkConsole (cons_buf c) (cons_rpos c) (cons_wpos c) (kbd_shift c) (kbd_reboot c)
    (serial_exists c) (serial_in c) (kbd_in c) (serial_out c) (lpt_out c ++ [u8 k])
    (crt_buf c) (crt_pos c)).

(** A store into [crt_buf], which has [CRT_SIZE] cells. *)
Definition crt_store (p v : Z) : M console unit := fun c =>
  if (0 <=? p) && (p <? CRT_SIZE) then Ret tt (set_crt (<[p := u16 v]> (crt_buf c)) (crt_pos c) c)
  else Panic "crt_buf out of bounds" c.

Definition crt_setpos (f : Z -> Z) : M console unit :=
  modify (fun c => set_crt (crt_buf c) (u16 (f (crt_pos c))) c).

(** The scroll at the end of [cga_putc]. *)
Definition cga_scroll : M console unit := fun c =>
  if CRT_SIZE <=? crt_pos c then
    let old := crt_buf c in
    let moved := foldr (fun i b => <[Z.of_nat i := mget 0 old (Z.of_nat i + CRT_COLS)]> b)
                   old (seq 0 (Z.to_nat (CRT_SIZE - CRT_COLS))) in
    let cleared := foldr (fun i b => <[Z.of_nat i := Z.lor 0x0700 (ch " ")]> b)
                   moved (seq (Z.to_nat (CRT_SIZE - CRT_COLS)) (Z.to_nat CRT_COLS)) in
    Ret tt (set_crt cleared (u16 (crt_pos c - CRT_COLS)) c)
  else Ret tt c.

(** [cga_putc], given [cons_putc] for the spaces a tab expands to. *)
Definition cga_putc_with (cons_putc : Z -> M console unit) (k : Z) : M console unit :=
  let k := if negb (flag k (Z.lnot 0xFF)) then Z.lor k 0x0700 else k in
  let b := Z.land k 0xFF in
  (if b =? 8 then fun c =>
     if 0 <? crt_pos c then
       (crt_setpos (fun p => p - 1) ;;!
        let! p := gets crt_pos in
        crt_store p (Z.lor (Z.land k (Z.lnot 0xFF)) (ch " "))) c
     else Ret tt c
   else if b =? 10 then
     crt_setpos (fun p => p + CRT_COLS) ;;! crt_setpos (fun p => p - p mod CRT_COLS)
   else if b =? 13 then crt_setpos (fun p => p - p mod CRT_COLS)
   else if b =? 9 then
     cons_putc (ch " ") ;;! cons_putc (ch " ") ;;! cons_putc (ch " ") ;;!
     cons_putc (ch " ") ;;! cons_putc (ch " ")
   else
     let! p := gets crt_pos in
     crt_store p k ;;! crt_setpos (fun p => p + 1)) ;;!
  cga_scroll.

(** A space is not a tab, so the recursion of [cons_putc] and [cga_putc] is
    one level deep. *)
Definition cons_putc_plain (k : Z) : M console unit :=
  serial_putc k ;;! lpt_putc k ;;! cga_putc_with (fun _ => ret tt) k.
Definition cga_putc (k : Z) : M console unit := cga_putc_with cons_putc_plain k.
Definition cons_putc (k : Z) : M console unit :=
  serial_putc k ;;! lpt_putc k ;;! cga_putc k.

Definition cputchar (k : Z) : M console unit := cons_putc k.

Example normalmap_last : normalmap 0x53 = ch "." /\ shiftmap 0x28 = 34 /\ normalmap 0x39 = ch " ".
Proof. by vm_compute. Qed.
