(* ===== verification/ConsoleSpec.v ===== *)
(** kern/console.c: the console buffer is a first-in first-out queue while
    fewer than 512 characters wait, an input device is drained completely,
    and output never leaves the frame buffer. *)

From stdpp Require Import base numbers list gmap strings.
From Stdlib Require Import ZArith Lia Bool Ascii.
From S2P Require Import Prelude Mmu Console.

(** * The ring *)

Record ring_ok (c : console) : Prop := {
  rk_r : 0 <= cons_rpos c < CONSBUFSIZE;
  rk_w : 0 <= cons_wpos c < CONSBUFSIZE
}.

(** How many characters wait, and which, oldest first. *)
Definition ring_len (c : console) : Z := (cons_wpos c - cons_rpos c) mod CONSBUFSIZE.
Definition slot (c : console) (i : Z) : Z := mget 0 (cons_buf c) ((cons_rpos c + i) mod CONSBUFSIZE).
Definition pending (c : console) : list Z := slot c <$> seqZ 0 (ring_len c).

(** A queue of characters has been put into the ring, in order. *)
Definition feed (ks : list Z) (c : console) : console := foldl (fun c k => cons_put k c) c ks.

Lemma wrap_mod x : 0 <= x < CONSBUFSIZE ->
  (if u32 (x + 1) =? CONSBUFSIZE then 0 else u32 (x + 1)) = (x + 1) mod CONSBUFSIZE.
Proof.
  unfold CONSBUFSIZE. intros H. rewrite u32_small by (unfold is_u32; lia).
  destruct (Z.eqb_spec (x + 1) 512) as [->|]; [done|]. by rewrite Z.mod_small by lia.
Qed.

Lemma cons_put_ok k c : ring_ok c -> ring_ok (cons_put k c).
Proof.
  intros [H1 H2]. split; [exact H1|]. cbn. rewrite wrap_mod by done. by apply Z.mod_pos_bound.
Qed.

Local Ltac Zify.zify_post_hook ::= Z.to_euclidean_division_equations.

Lemma ring_len_put k c : ring_ok c -> ring_len c + 1 < CONSBUFSIZE -> ring_len (cons_put k c) = ring_len c + 1.
Proof.
  intros [H1 H2]. unfold ring_len. cbn. rewrite wrap_mod by done. unfold CONSBUFSIZE in *. lia.
Qed.

Lemma pending_length c : Z.of_nat (length (pending c)) = ring_len c.
Proof.
  unfold pending. rewrite length_fmap, length_seqZ, Z2Nat.id; [done|]. by apply Z.mod_pos_bound.
Qed.

Lemma pending_put k c : ring_ok c -> ring_len c + 1 < CONSBUFSIZE ->
  pending (cons_put k c) = pending c ++ [u8 k].
Proof.
  intros H Hn. unfold pending. rewrite ring_len_put by done. destruct H as [H1 H2].
  assert (0 <= ring_len c) as Hc by (by apply Z.mod_pos_bound).
  rewrite seqZ_app, fmap_app by lia. f_equal.
  - apply list_fmap_ext. intros i x Hx. apply lookup_seqZ in Hx as [-> Hi]. unfold slot. cbn.
    apply mget_insert_ne. unfold ring_len, CONSBUFSIZE in *. lia.
  - change (seqZ (0 + ring_len c) 1) with [0 + (0 + ring_len c)]. cbn [fmap list_fmap]. f_equal.
    rewrite !Z.add_0_l. unfold slot, cons_put. cbn [cons_buf cons_rpos set_ring].
    assert ((cons_rpos c + ring_len c) mod CONSBUFSIZE = cons_wpos c) as ->.
    { unfold ring_len, CONSBUFSIZE in *. lia. }
    apply mget_insert.
Qed.

Lemma feed_pending ks : forall c, ring_ok c -> ring_len c + Z.of_nat (length ks) < CONSBUFSIZE ->
  ring_ok (feed ks c) /\ pending (feed ks c) = pending c ++ (u8 <$> ks).
Proof.
  induction ks as [|k ks IH]; intros c H Hn; [by rewrite app_nil_r|]. rewrite length_cons in Hn.
  change (feed (k :: ks) c) with (feed ks (cons_put k c)).
  destruct (IH (cons_put k c)) as [Hok ->]; [by apply cons_put_ok|rewrite ring_len_put by (done || lia); lia|].
  split; [done|]. rewrite pending_put by (done || lia). by rewrite <- app_assoc.
Qed.

(** Taking the oldest character. *)
Lemma pending_take c : ring_ok c -> ring_len c <> 0 ->
  let c' := set_ring (cons_buf c) ((cons_rpos c + 1) mod CONSBUFSIZE) (cons_wpos c) c in
  ring_ok c' /\ pending c = mget 0 (cons_buf c) (cons_rpos c) :: pending c'.
Proof.
  intros [H1 H2] Hn c'. assert (ring_len c' = ring_len c - 1) as Ec.
  { unfold ring_len in *. cbn. unfold CONSBUFSIZE in *. lia. }
  assert (0 <= ring_len c) as Hc by (by apply Z.mod_pos_bound).
  split; [split; [by apply Z.mod_pos_bound|done]|]. unfold pending. rewrite Ec, seqZ_cons by lia.
  cbn [fmap list_fmap]. f_equal.
  - unfold slot. by rewrite Z.add_0_r, Z.mod_small.
  - rewrite <- Z.sub_1_r. apply list_eq. intros i. rewrite !list_lookup_fmap.
    destruct (decide (Z.of_nat i < ring_len c - 1)) as [Hi|Hi].
    + rewrite !lookup_seqZ_lt by done. cbn. f_equal. unfold slot. cbn. f_equal.
      rewrite Zplus_mod_idemp_l. f_equal. lia.
    + by rewrite !lookup_seqZ_ge by lia.
Qed.

(** * Devices *)

(** What [cons_intr] relies on in the routine it drains: the routine leaves
    the ring alone and does not look at it, and every character it yields
    (-1 means none) uses up input. *)
Class InputDevice (proc : M console Z) (size : console -> nat) : Prop := {
  dev_ret : forall c, exists k c', proc c = Ret k c' /\ (k <> -1 -> (size c' < size c)%nat)
    /\ cons_buf c' = cons_buf c /\ cons_rpos c' = cons_rpos c /\ cons_wpos c' = cons_wpos c;
  dev_ring : forall c k c' b r w, proc c = Ret k c' -> proc (set_ring b r w c) = Ret k (set_ring b r w c');
  dev_size : forall c b r w, size (set_ring b r w c) = size c
}.

#[export] Instance serial_device : InputDevice serial_proc_data (fun c => length (serial_in c)).
Proof.
  split; [|..].
  - intros c. unfold serial_proc_data. destruct (serial_in c) as [|b q] eqn:E.
    + by exists (-1), c.
    + exists b, (set_serial_in q c). split_and!; try done. intros _. cbn. lia.
  - intros c k c' b r w. unfold serial_proc_data. cbn. destruct (serial_in c); by intros [= <- <-].
  - done.
Qed.

Lemma kbd_press_ret data c : exists k c', kbd_press data c = Ret k c' /\ kbd_in c' = kbd_in c
  /\ cons_buf c' = cons_buf c /\ cons_rpos c' = cons_rpos c /\ cons_wpos c' = cons_wpos c.
Proof. unfold kbd_press. cbv zeta. case_match; do 2 eexists; split_and!; (reflexivity || done). Qed.

Lemma kbd_press_ring data c k c' b r w : kbd_press data c = Ret k c' ->
  kbd_press data (set_ring b r w c) = Ret k (set_ring b r w c').
Proof.
  unfold kbd_press. change (kbd_shift (set_ring b r w c)) with (kbd_shift c). cbv zeta.
  case_match; by intros [= <- <-].
Qed.

#[export] Instance kbd_device : InputDevice kbd_proc_data (fun c => length (kbd_in c)).
Proof.
  split; [|..].
  - intros c. unfold kbd_proc_data. destruct (kbd_in c) as [|[stat data] q] eqn:E; [by exists (-1), c|].
    destruct (negb (flag stat KBS_DIB)); [by exists (-1), c|]. destruct (flag stat KBS_TERR); [by exists (-1), c|].
    cbv zeta. repeat case_match;
      try (destruct (kbd_press_ret data (set_kbd_in q c)) as (k & c' & -> & Hq & Hr & Hp & Hw)
        || destruct (kbd_press_ret (Z.lor data 0x80) (set_shift (fun sh => Z.land sh (Z.lnot E0ESC)) (set_kbd_in q c)))
             as (k & c' & -> & Hq & Hr & Hp & Hw); exists k, c'; rewrite Hq; split_and!; try done; intros _; cbn; lia);
      do 2 eexists; (split; [reflexivity|]); split_and!; try done; intros _; cbn; lia.
  - intros c k c' b r w. unfold kbd_proc_data. change (kbd_in (set_ring b r w c)) with (kbd_in c).
    destruct (kbd_in c) as [|[stat data] q]; [by intros [= <- <-]|].
    destruct (negb (flag stat KBS_DIB)); [by intros [= <- <-]|]. destruct (flag stat KBS_TERR); [by intros [= <- <-]|].
    cbv zeta. change (kbd_shift (set_kbd_in q (set_ring b r w c))) with (kbd_shift (set_kbd_in q c)).
    repeat case_match; try (by intros [= <- <-]);
      first [apply (kbd_press_ring _ (set_kbd_in q c))|apply (kbd_press_ring _ (set_shift _ (set_kbd_in q c)))].
  - done.
Qed.

(** The characters a device yields until it has none, and what it is then. *)
Fixpoint drain (fuel : nat) (proc : M console Z) (c : console) : list Z * console :=
  match fuel with
  | O => ([], c)
  | S n =>
      match proc c with
      | Ret k c' =>
          if k =? -1 then ([], c')
          else
            let (ks, c'') := drain n proc c' in
            (if k =? 0 then ks else k :: ks, c'')
      | _ => ([], c)
      end
  end.

Section Drain.
Context (proc : M console Z) (size : console -> nat) `{InputDevice proc size}.

Lemma drain_ring n : forall c b r w,
  drain n proc (set_ring b r w c) = let (ks, c') := drain n proc c in (ks, set_ring b r w c').
Proof.
  induction n as [|n IH]; intros c b r w; cbn; [done|].
  destruct (dev_ret c) as (k & c' & E & _). rewrite E, (dev_ring c k c' b r w E).
  destruct (k =? -1); [done|]. rewrite IH. by destruct (drain n proc c'), (k =? 0).
Qed.

Lemma drain_keeps n : forall c,
  cons_buf (drain n proc c).2 = cons_buf c /\ cons_rpos (drain n proc c).2 = cons_rpos c
  /\ cons_wpos (drain n proc c).2 = cons_wpos c.
Proof.
  induction n as [|n IH]; intros c; cbn; [done|].
  destruct (dev_ret c) as (k & c' & E & _ & E1 & E2 & E3). rewrite E. destruct (k =? -1); [done|].
  destruct (IH c') as (I1 & I2 & I3). destruct (drain n proc c'). cbn in *. by rewrite I1, I2, I3.
Qed.

(** [cons_intr] is: drain the device, then put what it gave into the ring. *)
Lemma cons_intr_eq n : forall c,
  cons_intr n proc c = Ret tt (feed (drain n proc c).1 (drain n proc c).2).
Proof.
  induction n as [|n IH]; intros c; [done|].
  cbn [cons_intr drain]. destruct (dev_ret c) as (k & c' & E & _ & E1 & E2 & E3).
  rewrite (bind_ret _ _ _ _ _ E), E. destruct (k =? -1); [done|].
  destruct (drain_keeps n c') as (K1 & K2 & K3).
  pose proof (drain_ring n c') as Hr. destruct (drain n proc c') as [ks c''] eqn:Ed.
  destruct (k =? 0); [by rewrite IH, Ed|].
  rewrite (bind_ret (modify _) _ _ tt (cons_put k c')) by done.
  unfold cons_put. rewrite IH, Hr. cbn in *. unfold cons_put. by rewrite K1, K2, K3.
Qed.

(** With more rounds than queued input the loop stops because the device
    has nothing left. *)
Lemma drain_done n : forall c, (size c < n)%nat ->
  exists c1, proc c1 = Ret (-1) (drain n proc c).2.
Proof.
  induction n as [|n IH]; intros c Hn; [lia|]. cbn.
  destruct (dev_ret c) as (k & c' & E & Hs & _). rewrite E.
  destruct (Z.eqb_spec k (-1)) as [->|Hk]; [by exists c|].
  destruct (IH c') as [c1 Hc1]; [pose proof (Hs Hk); lia|].
  destruct (drain n proc c'). by exists c1.
Qed.
End Drain.

(** The bytes [serial_intr] and [kbd_intr] find in their devices. *)
Definition serial_input (c : console) : list Z * console :=
  if serial_exists c then drain (S (length (serial_in c))) serial_proc_data c else ([], c).
Definition kbd_input (c : console) : list Z * console :=
  drain (S (length (kbd_in c))) kbd_proc_data c.

(** The serial line yields its bytes in order, without the NULs. *)
Lemma serial_drain q : forall n c, serial_in c = q -> (length q < n)%nat -> Forall (fun b => 0 <= b) q ->
  (drain n serial_proc_data c).1 = filter (fun b => b <> 0) q /\ serial_in (drain n serial_proc_data c).2 = [].
Proof.
  induction q as [|b q IH]; intros [|n] c Eq Hn Hb; cbn in Hn; try lia; cbn [drain].
  { assert (serial_proc_data c = Ret (-1) c) as -> by (unfold serial_proc_data; by rewrite Eq). done. }
  assert (serial_proc_data c = Ret b (set_serial_in q c)) as -> by (unfold serial_proc_data; by rewrite Eq).
  apply Forall_cons in Hb as [Hb Hq]. destruct (Z.eqb_spec b (-1)); [lia|].
  specialize (IH n (set_serial_in q c) eq_refl ltac:(lia) Hq).
  rewrite filter_cons. destruct (drain n serial_proc_data (set_serial_in q c)) as [ks c']. cbn in IH |- *.
  destruct IH as [-> ->]. split; [|done].
  destruct (Z.eqb_spec b 0) as [->|Hz]; [by rewrite decide_False by tauto|by rewrite decide_True].
Qed.

Lemma serial_input_bytes c : serial_exists c = true -> Forall (fun b => 0 <= b) (serial_in c) ->
  (serial_input c).1 = filter (fun b => b <> 0) (serial_in c) /\ serial_in (serial_input c).2 = [].
Proof. intros Hx Hb. unfold serial_input. rewrite Hx. apply serial_drain; [done|lia|done]. Qed.

Lemma serial_intr_eq c : serial_intr c = Ret tt (feed (serial_input c).1 (serial_input c).2).
Proof. unfold serial_intr, serial_input. destruct (serial_exists c); [by apply cons_intr_eq with (1 := _)|done]. Qed.

Lemma kbd_intr_eq c : kbd_intr c = Ret tt (feed (kbd_input c).1 (kbd_input c).2).
Proof. unfold kbd_intr, kbd_input. by apply cons_intr_eq with (1 := _). Qed.

Lemma feed_kbd ks : forall c, kbd_in (feed ks c) = kbd_in c /\ exists b r w, feed ks c = set_ring b r w c.
Proof.
  induction ks as [|k ks IH]; intros c.
  - split; [done|]. exists (cons_buf c), (cons_rpos c), (cons_wpos c). by destruct c.
  - change (feed (k :: ks) c) with (feed ks (cons_put k c)). destruct (IH (cons_put k c)) as (Hk & b & r & w & E).
    split; [by rewrite Hk|]. exists b, r, w. by rewrite E.
Qed.

(** Every character of the keyboard tables is a byte, so -1 only means that
    no data waits. *)
Lemma table_range rows ext i :
  forallb (fun v => 0 <=? v) (rows ++ (snd <$> ext)) = true -> 0 <= table rows ext i.
Proof.
  rewrite forallb_app, andb_true_iff, !forallb_forall. intros [Hr He]. unfold table.
  destruct (List.find _ ext) as [e|] eqn:E.
  - apply find_some in E as [E _]. apply Z.leb_le, He. apply in_map_iff. by exists e.
  - destruct (nth_in_or_default (Z.to_nat i) rows NO) as [Hi| ->]; [by apply Z.leb_le, Hr|done].
Qed.

Lemma charcode_range m i : 0 <= charcode m i.
Proof. unfold charcode. repeat case_match; by apply table_range. Qed.

Lemma kbd_press_pos data c k c' : kbd_press data c = Ret k c' -> 0 <= k.
Proof.
  unfold kbd_press. cbv zeta.
  match goal with |- context [charcode ?m data] => pose proof (charcode_range m data) as Hk; generalize dependent (charcode m data) end.
  intros k0 Hk. assert (ch "a" = 97 /\ ch "z" = 122 /\ ch "A" = 65 /\ ch "Z" = 90) as (-> & -> & -> & ->) by done.
  repeat case_match; intros [= <- <-]; lia.
Qed.

Lemma kbd_idle c c' : kbd_proc_data c = Ret (-1) c' -> c' = c.
Proof.
  unfold kbd_proc_data. repeat case_match; try (by intros [= <-]); intros E; apply kbd_press_pos in E; lia.
Qed.

Lemma kbd_proc_serial c k c' : kbd_proc_data c = Ret k c' -> serial_in c' = serial_in c.
Proof.
  unfold kbd_proc_data, kbd_press. cbv zeta. repeat case_match; intros [= <- <-]; done.
Qed.

Lemma kbd_drain_serial n : forall c, serial_in (drain n kbd_proc_data c).2 = serial_in c.
Proof.
  induction n as [|n IH]; intros c; cbn [drain]; [done|].
  destruct (dev_ret c) as (k & c' & E & _). rewrite E, <- (kbd_proc_serial _ _ _ E).
  destruct (k =? -1); [done|]. specialize (IH c'). by destruct (drain n kbd_proc_data c').
Qed.

(** The characters [cons_getc] finds in the two devices. *)
Definition input (c : console) : list Z :=
  u8 <$> (serial_input c).1 ++ (kbd_input (feed (serial_input c).1 (serial_input c).2)).1.

Lemma ring_ok_ext c c' : cons_rpos c' = cons_rpos c -> cons_wpos c' = cons_wpos c -> ring_ok c -> ring_ok c'.
Proof. intros E1 E2 [H1 H2]. split; by rewrite ?E1, ?E2. Qed.

Lemma pending_ext c c' : cons_buf c' = cons_buf c -> cons_rpos c' = cons_rpos c -> cons_wpos c' = cons_wpos c ->
  pending c' = pending c.
Proof. intros E1 E2 E3. unfold pending, ring_len, slot. by rewrite E1, E2, E3. Qed.

(** A device's characters go to the end of the queue. *)
Lemma intr_pending ks c c1 : ring_ok c ->
  cons_buf c1 = cons_buf c -> cons_rpos c1 = cons_rpos c -> cons_wpos c1 = cons_wpos c ->
  Z.of_nat (length (pending c ++ (u8 <$> ks))) < CONSBUFSIZE ->
  ring_ok (feed ks c1) /\ pending (feed ks c1) = pending c ++ (u8 <$> ks).
Proof.
  intros H E1 E2 E3 Hn. rewrite <- (pending_ext c c1) in * by done. apply feed_pending.
  - by apply (ring_ok_ext c).
  - rewrite <- pending_length. rewrite length_app, length_fmap in Hn. lia.
Qed.

Lemma serial_input_keeps c : cons_buf (serial_input c).2 = cons_buf c
  /\ cons_rpos (serial_input c).2 = cons_rpos c /\ cons_wpos (serial_input c).2 = cons_wpos c.
Proof.
  unfold serial_input. destruct (serial_exists c); [|done].
  by apply (drain_keeps serial_proc_data (fun c => length (serial_in c))).
Qed.

(** What [cons_getc] has in the queue once it has polled. *)
Lemma polled c : ring_ok c -> Z.of_nat (length (pending c ++ input c)) < CONSBUFSIZE ->
  exists c1, (serial_intr ;;! kbd_intr) c = Ret tt c1 /\ ring_ok c1 /\ pending c1 = pending c ++ input c
    /\ kbd_proc_data c1 = Ret (-1) c1
    /\ (serial_exists c = true -> Forall (fun b => 0 <= b) (serial_in c) -> serial_in c1 = []).
Proof.
  intros H Hn. set (c0 := feed (serial_input c).1 (serial_input c).2).
  assert (input c = (u8 <$> (serial_input c).1) ++ (u8 <$> (kbd_input c0).1)) as Ei
    by (unfold input; by rewrite fmap_app).
  rewrite Ei, app_assoc in Hn |- *. destruct (serial_input_keeps c) as (S1 & S2 & S3).
  destruct (intr_pending (serial_input c).1 c (serial_input c).2 H S1 S2 S3) as [R0 P0];
    [rewrite length_app in Hn; lia|]. fold c0 in R0, P0. rewrite <- P0 in Hn.
  destruct (drain_keeps kbd_proc_data (fun c => length (kbd_in c)) (S (length (kbd_in c0))) c0) as (K1 & K2 & K3).
  destruct (intr_pending (kbd_input c0).1 c0 (kbd_input c0).2 R0 K1 K2 K3 Hn) as [R1 P1].
  exists (feed (kbd_input c0).1 (kbd_input c0).2).
  rewrite (bind_ret _ _ _ _ _ (serial_intr_eq c)), kbd_intr_eq, <- P0.
  destruct (feed_kbd (kbd_input c0).1 (kbd_input c0).2) as (_ & b & r & w & Ef).
  split_and!; [done|done|done| |].
  - destruct (drain_done kbd_proc_data (fun c => length (kbd_in c)) (S (length (kbd_in c0))) c0) as (c2 & E2); [lia|].
    rewrite Ef. apply (dev_ring (proc := kbd_proc_data)). rewrite <- (kbd_idle _ _ E2) in E2. exact E2.
  - intros Hx Hb. rewrite Ef. change (serial_in (kbd_input c0).2 = []). unfold kbd_input. rewrite kbd_drain_serial.
    unfold c0. destruct (feed_kbd (serial_input c).1 (serial_input c).2) as (_ & b0 & r0 & w0 & ->).
    by apply serial_input_bytes.
Qed.


(** A character waits, the serial line holds a NUL and an [i], and shift and
    then [a] have been pressed. *)
Definition demo_console : console :=
  mkConsole {[511 := 104]} 511 0 0 false true [0; 105] [(1, 0x2A); (1, 0x1E)] [] [] ∅ 0.


(** The ring never reports that it is full: the 512th waiting character
    makes the two positions equal, and the whole buffer reads as empty. *)
Lemma cons_put_overflow c k :
  ring_ok c -> Z.of_nat (length (pending c)) = CONSBUFSIZE - 1 -> pending (cons_put k c) = [].
Proof.
  intros [H1 H2] Hn. rewrite pending_length in Hn. unfold pending.
  assert (ring_len (cons_put k c) = 0) as ->; [|done].
  unfold ring_len in *. cbn. rewrite wrap_mod by done. unfold CONSBUFSIZE in *. lia.
Qed.

Definition full_console : console :=
  mkConsole (gset_to_gmap 97 (list_to_set (seqZ 0 511))) 0 511 0 false true [] [] [] [] ∅ 0.

(** * Output *)

(** The cursor is on the screen. *)
Definition crt_ok (c : console) : Prop := 0 <= crt_pos c < CRT_SIZE.

(** [m] runs without touching memory outside the frame buffer, keeps the
    cursor on the screen, and sends [out] to the serial and parallel ports. *)
Definition prints (m : M console unit) (out : list Z) : Prop :=
  forall c, crt_ok c -> exists c', m c = Ret tt c' /\ crt_ok c'
    /\ serial_out c' = serial_out c ++ out /\ lpt_out c' = lpt_out c ++ out
    /\ cons_buf c' = cons_buf c /\ cons_rpos c' = cons_rpos c /\ cons_wpos c' = cons_wpos c.

Lemma prints_seq m1 m2 o1 o2 : prints m1 o1 -> prints m2 o2 -> prints (m1 ;;! m2) (o1 ++ o2).
Proof.
  intros H1 H2 c Hc. destruct (H1 c Hc) as (c1 & E1 & K1 & S1 & L1 & B1 & R1 & W1).
  destruct (H2 c1 K1) as (c2 & E2 & K2 & S2 & L2 & B2 & R2 & W2). exists c2.
  rewrite (bind_ret _ _ _ _ _ E1), app_assoc, app_assoc. split_and!; congruence.
Qed.

Lemma prints_ret : prints (ret tt) [].
Proof. intros c Hc. exists c. by rewrite !app_nil_r. Qed.

(** The cursor as the body of [cga_putc] leaves it, before the scroll. *)
Lemma cga_scroll_ok c : 0 <= crt_pos c < CRT_SIZE + CRT_COLS ->
  exists b p, cga_scroll c = Ret tt (set_crt b p c) /\ 0 <= p < CRT_SIZE.
Proof.
  intros Hp. unfold cga_scroll. change CRT_SIZE with 2000 in *. change CRT_COLS with 80 in *.
  destruct (Z.leb_spec 2000 (crt_pos c)).
  - do 2 eexists. split; [reflexivity|]. rewrite u16_small by lia. lia.
  - exists (crt_buf c), (crt_pos c). split; [by destruct c|lia].
Qed.

(** A step that only moves the cursor, within one line past the screen, and
    stores inside the buffer. *)
Definition moves (m : M console unit) : Prop :=
  forall c, crt_ok c -> exists b p, m c = Ret tt (set_crt b p c) /\ 0 <= p < CRT_SIZE + CRT_COLS.

Lemma moves_scroll m : moves m -> prints (m ;;! cga_scroll) [].
Proof.
  intros Hm c Hc. destruct (Hm c Hc) as (b & p & E & Hp).
  destruct (cga_scroll_ok (set_crt b p c) Hp) as (b' & p' & E' & Hp').
  eexists. rewrite (bind_ret _ _ _ _ _ E). split; [exact E'|]. rewrite !app_nil_r. by split_and!.
Qed.

(** What [cga_putc] does for a character other than a tab. *)
Lemma cga_moves k : moves
  (if Z.land k 0xFF =? 8 then fun c =>
     if 0 <? crt_pos c then
       (crt_setpos (fun p => p - 1) ;;!
        let! p := gets crt_pos in
        crt_store p (Z.lor (Z.land k (Z.lnot 0xFF)) (ch " "))) c
     else Ret tt c
   else if Z.land k 0xFF =? 10 then
     crt_setpos (fun p => p + CRT_COLS) ;;! crt_setpos (fun p => p - p mod CRT_COLS)
   else if Z.land k 0xFF =? 13 then crt_setpos (fun p => p - p mod CRT_COLS)
   else
     let! p := gets crt_pos in
     crt_store p k ;;! crt_setpos (fun p => p + 1)).
Proof.
  intros c Hc. unfold crt_ok in Hc. change CRT_SIZE with 2000 in *. change CRT_COLS with 80 in *.
  assert (forall p v, 0 <= p < 2000 -> forall b q, crt_store p v (set_crt b q c) = Ret tt (set_crt (<[p:=u16 v]> b) q c)) as Est.
  { intros p v Hp b q. unfold crt_store. change CRT_SIZE with 2000.
    by rewrite (proj2 (Z.leb_le 0 p)), (proj2 (Z.ltb_lt p 2000)) by lia. }
  assert (set_crt (crt_buf c) (crt_pos c) c = c) as Ec by (by destruct c).
  repeat case_match; unfold bind, crt_setpos, modify, gets; cbn -[u16 Z.modulo].
  - rewrite u16_small by lia. rewrite Est by lia. do 2 eexists. split; [done|lia].
  - exists (crt_buf c), (crt_pos c). rewrite Ec. split; [done|lia].
  - do 2 eexists. split; [done|]. rewrite (u16_small (_ + 80)) by lia. rewrite u16_small by lia. lia.
  - do 2 eexists. split; [done|]. rewrite u16_small by lia. lia.
  - pose proof (Est (crt_pos c) k ltac:(lia) (crt_buf c) (crt_pos c)) as Es. rewrite Ec in Es. rewrite Es. cbn -[u16]. do 2 eexists. split; [done|]. rewrite u16_small by lia. lia.
Qed.

Lemma cga_prints f o k : prints (f 32) o ->
  prints (cga_putc_with f k) (if Z.land k 0xFF =? 9 then o ++ o ++ o ++ o ++ o else []).
Proof.
  intros Hf. unfold cga_putc_with. set (k' := if negb _ then _ else k).
  assert (Z.land k' 0xFF = Z.land k 0xFF) as Ek.
  { unfold k'. destruct (negb (flag k (Z.lnot 0xFF))); [|done]. rewrite Z.land_lor_distr_l. apply Z.lor_0_r. }
  pose proof (cga_moves k') as Hm. rewrite <- Ek. destruct (Z.eqb_spec (Z.land k' 0xFF) 9) as [E9|E9].
  - rewrite E9 in *. change (9 =? 8) with false. change (9 =? 10) with false. change (9 =? 13) with false.
    change (9 =? 9) with true. cbv iota. rewrite <- (app_nil_r (o ++ _)).
    apply prints_seq; [by repeat apply prints_seq|].
    intros c Hc. destruct (cga_scroll_ok c) as (b & p & E & Hp); [unfold crt_ok in Hc; change CRT_COLS with 80; lia|].
    eexists. split; [exact E|]. rewrite !app_nil_r. by split_and!.
  - by apply moves_scroll.
Qed.

(** What [cputchar] sends out: a tab is followed by the five spaces the
    screen shows for it. *)
Definition sent (k : Z) : list Z := u8 k :: (if Z.land k 0xFF =? 9 then [32; 32; 32; 32; 32] else []).

Lemma port_prints f k o : prints f o -> prints (serial_putc k ;;! lpt_putc k ;;! f) (u8 k :: o).
Proof.
  intros Hf c Hc. unfold bind, serial_putc, lpt_putc, modify. cbn [cons_buf cons_rpos cons_wpos serial_out lpt_out].
  match goal with |- context [f ?x] => destruct (Hf x Hc) as (c' & E & K & S & L & B & R & W) end.
  exists c'. rewrite E. cbn in S, L. rewrite <- app_assoc in S, L. by split_and!.
Qed.

(** Printing any character, at any cursor position on the screen, stores
    only inside the frame buffer, leaves the cursor on the screen (scrolling
    as needed), sends the character to the serial line and the printer (a tab
    with five spaces after it), and does not touch the input queue. *)
Lemma cputchar_correct k : prints (cputchar k) (sent k).
Proof.
  unfold cputchar, cons_putc, cga_putc, sent. apply port_prints. apply (cga_prints cons_putc_plain [32]).
  unfold cons_putc_plain. change [32] with (u8 32 :: []). apply port_prints.
  apply (cga_prints (fun _ => ret tt) [] 32). apply prints_ret.
Qed.

(** [cons_getc] always returns. *)
Lemma cons_getc_returns c : exists k c', cons_getc c = Ret k c'.
Proof.
  unfold cons_getc. rewrite (bind_ret _ _ _ _ _ (serial_intr_eq c)), (bind_ret _ _ _ _ _ (kbd_intr_eq _)).
  case_match; by do 2 eexists.
Qed.
