(* ===== verification/E1000.v ===== *)
(** kern/e1000.c and kern/time.c: the transmit and receive rings the driver
    shares with the network card, and the tick counter.

    [e1000] holds the driver's descriptor arrays and packet buffers and the
    device registers it reads and writes. The card itself is not part of the
    source. *)

From stdpp Require Import base numbers list gmap strings.
From Stdlib Require Import ZArith Lia Bool.
From S2P Require Import Prelude Mmu.

Definition NTXDESC : Z := 64.
Definition TXBUFFSIZE : Z := 2048.
Definition NRXDESC : Z := 128.
Definition RXBUFFSIZE : Z := 2048.
Definition TXD_STAT_DD : Z := 0x01.
Definition TXD_CMD_EOP : Z := 0x01.
Definition TXD_CMD_RS : Z := 0x08.
Definition RXD_STAT_DD : Z := 0x01.

(** The fields of [struct tx_desc] and [struct rx_desc] the driver uses. *)
Record tx_desc := mkTxDesc { tx_length : Z; tx_cmd : Z; tx_status : Z }.
Record rx_desc := mkRxDesc { rx_length : Z; rx_status : Z }.

Record e1000 := mkE1000 {
  txqueue : gmap Z tx_desc;
  txbuffer : gmap Z (list Z);
  rxqueue : gmap Z rx_desc;
  rxbuffer : gmap Z (list Z);
  TDH : Z;
  TDT : Z;
  RDH : Z;
  RDT : Z
}.

Definition tx0 : tx_desc := mkTxDesc 0 0 0.
Definition rx0 : rx_desc := mkRxDesc 0 0.

(** [n] array elements that are all [v]. *)
Definition filled {V} (n : Z) (v : V) : gmap Z V :=
  foldr (fun i q => <[Z.of_nat i := v]> q) ∅ (seq 0 (Z.to_nat n)).

(** [txdesc_init] and the ring registers of [tx_init]. *)
Definition txdesc_init (e : e1000) : e1000 :=
  mkE1000
    (filled NTXDESC (mkTxDesc 0 0 TXD_STAT_DD))
    (filled NTXDESC (replicate (Z.to_nat TXBUFFSIZE) 0)) (rxqueue e) (rxbuffer e) (TDH e) (TDT e) (RDH e) (RDT e).
Definition tx_init (e : e1000) : e1000 :=
  mkE1000 (txqueue e) (txbuffer e) (rxqueue e) (rxbuffer e) 0 0 (RDH e) (RDT e).

Definition rxdesc_init (e : e1000) : e1000 :=
  mkE1000 (txqueue e) (txbuffer e)
    (filled NRXDESC rx0)
    (filled NRXDESC (replicate (Z.to_nat RXBUFFSIZE) 0)) (TDH e) (TDT e) (RDH e) (RDT e).
Definition rx_init (e : e1000) : e1000 :=
  mkE1000 (txqueue e) (txbuffer e) (rxqueue e) (rxbuffer e) (TDH e) (TDT e) 0 (NRXDESC - 1).

(** The ring part of [e1000_init], after the device is enabled and mapped. *)
Definition e1000_init (e : e1000) : e1000 :=
  rx_init (rxdesc_init (tx_init (txdesc_init e))).

(** [txpacket(src, length)]: queue a packet at the tail, or -1. [src] gives
    the bytes at the caller's buffer. *)
Definition txpacket (src : Z -> Z) (length : Z) (e : e1000) : Z * e1000 :=
  let tail := TDT e in
  let next := mget tx0 (txqueue e) tail in
  if negb (flag (tx_status next) TXD_STAT_DD) then (-1, e)
  else
    let length := if TXBUFFSIZE <? length then TXBUFFSIZE else length in
    let data := (fun i => src (Z.of_nat i)) <$> seq 0 (Z.to_nat length) in
    let next := mkTxDesc (u16 length) (Z.lor TXD_CMD_EOP TXD_CMD_RS)
                  (Z.land (tx_status next) (Z.lnot TXD_STAT_DD)) in
    (0, mkE1000 (<[tail := next]> (txqueue e)) (<[tail := data ++ drop (Z.to_nat length) (mget [] (txbuffer e) tail)]> (txbuffer e))
          (rxqueue e) (rxbuffer e) (TDH e) ((tail + 1) mod NTXDESC) (RDH e) (RDT e)).

(** [rxpacket(dst)]: the bytes copied to [dst] (none when no packet waits). *)
Definition rxpacket (e : e1000) : list Z * e1000 :=
  let tail := (RDT e + 1) mod NRXDESC in
  let next := mget rx0 (rxqueue e) tail in
  if negb (flag (rx_status next) RXD_STAT_DD) then ([], e)
  else
    let data := take (Z.to_nat (rx_length next)) (mget [] (rxbuffer e) tail) in
    (data,
     mkE1000 (txqueue e) (txbuffer e)
       (<[tail := mkRxDesc (rx_length next) (Z.land (rx_status next) (Z.lnot RXD_STAT_DD))]> (rxqueue e))
       (rxbuffer e) (TDH e) (TDT e) (RDH e) tail).

(** * kern/time.c *)

(** [time_tick]: the new tick count, or [None] for the overflow panic. *)
Definition time_tick (ticks : Z) : option Z :=
  let ticks := u32 (ticks + 1) in
  if u32 (ticks * 10) <? ticks then None else Some ticks.

Definition time_msec (ticks : Z) : Z := u32 (ticks * 10).
