(* ===== verification/NetSpec.v ===== *)
(** kern/e1000.c: the descriptor rings are first-in first-out queues between
    the driver and the card. The card is an interface ([TxCard], [RxCard])
    that states what the driver's comments rely on; [nic_tx] and [nic_rx] are
    cards that keep to it. *)

From stdpp Require Import base numbers list gmap strings.
From Stdlib Require Import ZArith Lia Bool.
From S2P Require Import Prelude Mmu E1000.

Local Ltac Zify.zify_post_hook ::= Z.to_euclidean_division_equations.

(** * Rings *)

Lemma filled_get {V} (d v : V) n k : 0 <= k < n -> mget d (filled n v) k = v.
Proof.
  intros Hk. unfold filled.
  assert (forall l, (exists i, In i l /\ Z.of_nat i = k) -> mget d (foldr (fun i q => <[Z.of_nat i := v]> q) ∅ l) k = v) as H.
  { induction l as [|a l IH]; intros (i & Hi & Ek); [done|]. cbn. destruct (decide (Z.of_nat a = k)) as [->|Hne].
    - apply mget_insert.
    - rewrite mget_insert_ne by done. apply IH. exists i. split; [|done]. destruct Hi as [->|]; [done|done]. }
  apply H. exists (Z.to_nat k). split; [apply in_seq; lia|lia].
Qed.

Lemma flag_clear x m : flag (Z.land x (Z.lnot m)) m = false.
Proof.
  unfold flag. rewrite <- Z.land_assoc, (Z.land_comm (Z.lnot m)), Z.land_lnot_diag, Z.land_0_r. done.
Qed.

(** * Transmitting *)

Definition txslot (h j : Z) : Z := (h + j) mod NTXDESC.
Definition txdesc (e : e1000) (i : Z) : tx_desc := mget tx0 (txqueue e) i.
Definition txdata (e : e1000) (i : Z) : list Z := take (Z.to_nat (tx_length (txdesc e i))) (mget [] (txbuffer e) i).
Definition txdone (e : e1000) (i : Z) : bool := flag (tx_status (txdesc e i)) TXD_STAT_DD.

(** The transmitting half of the card: with TDH = TDT there is nothing to do;
    otherwise it sends the packet at TDH, marks the descriptor as done and
    moves TDH on, and touches nothing else of the ring. *)
Class TxCard (send : e1000 -> option (list Z * e1000)) : Prop := {
  send_idle e : TDH e = TDT e -> send e = None;
  send_next e : TDH e <> TDT e -> exists e', send e = Some (txdata e (TDH e), e')
    /\ TDH e' = txslot (TDH e) 1 /\ TDT e' = TDT e /\ txdone e' (TDH e) = true
    /\ forall i, i <> TDH e -> txdone e' i = txdone e i /\ txdata e' i = txdata e i
}.

(** The packets [q] are queued: they are in the descriptors from TDH up to
    TDT, and the other descriptors are done. *)
Record tx_ok (q : list (list Z)) (e : e1000) : Prop := {
  to_head : 0 <= TDH e < NTXDESC;
  to_len : Z.of_nat (length q) < NTXDESC;
  to_tail : TDT e = txslot (TDH e) (Z.of_nat (length q));
  to_pend : forall j p, q !! j = Some p ->
    txdone e (txslot (TDH e) (Z.of_nat j)) = false /\ txdata e (txslot (TDH e) (Z.of_nat j)) = p;
  to_free : forall j, Z.of_nat (length q) <= j < NTXDESC -> txdone e (txslot (TDH e) j) = true
}.

(** The packet a caller's buffer gives. *)
Definition packet (src : Z -> Z) (length : Z) : list Z :=
  (fun i => src (Z.of_nat i)) <$> seq 0 (Z.to_nat (Z.min length TXBUFFSIZE)).

Lemma txslot_inj h i j : 0 <= i < NTXDESC -> 0 <= j < NTXDESC -> txslot h i = txslot h j -> i = j.
Proof. unfold txslot. change NTXDESC with 64. lia. Qed.

Lemma txslot_add h i j : txslot (txslot h i) j = txslot h (i + j).
Proof. unfold txslot. change NTXDESC with 64. lia. Qed.

(** What [txpacket] does when the descriptor at the tail is done. *)
Lemma txpacket_at src len e : txdone e (TDT e) = true -> 0 <= len ->
  exists e', txpacket src len e = (0, e') /\ TDH e' = TDH e /\ TDT e' = txslot (TDT e) 1
    /\ txdone e' (TDT e) = false /\ txdata e' (TDT e) = packet src len
    /\ forall i, i <> TDT e -> txdone e' i = txdone e i /\ txdata e' i = txdata e i.
Proof.
  intros Hd Hlen. unfold txpacket. unfold txdone, txdesc in Hd. rewrite Hd. cbn [negb]. eexists. split; [reflexivity|].
  cbn [TDH TDT]. split; [done|]. split; [done|].
  replace (if TXBUFFSIZE <? len then TXBUFFSIZE else len) with (Z.min len TXBUFFSIZE)
    by (destruct (Z.ltb_spec TXBUFFSIZE len); lia).
  assert (0 <= Z.min len TXBUFFSIZE <= 2048) as Hr by (change TXBUFFSIZE with 2048; lia).
  unfold txdone, txdata, txdesc. cbn [txqueue txbuffer]. rewrite !mget_insert. cbn [tx_status tx_length]. split; [apply flag_clear|].
  split.
  - unfold u16. rewrite Z.mod_small by lia. apply take_app_length'. unfold packet. by rewrite length_fmap, length_seq.
  - intros i Hi. by rewrite !mget_insert_ne by done.
Qed.

Lemma tx_push q src len e : tx_ok q e -> Z.of_nat (length q) < NTXDESC - 1 -> 0 <= len ->
  exists e', txpacket src len e = (0, e') /\ tx_ok (q ++ [packet src len]) e'.
Proof.
  intros [H1 H2 H3 H4 H5] Hroom Hlen. destruct (txpacket_at src len e) as (e' & E & Eh & Et & Ed & Ep & Eo); [|done|].
  { rewrite H3. apply H5. lia. }
  exists e'. split; [done|]. rewrite H3 in *.
  assert (forall j, 0 <= j < NTXDESC -> j <> Z.of_nat (length q) ->
    txslot (TDH e) j <> txslot (TDH e) (Z.of_nat (length q))) as Hne by (intros j Hj Hn E'; apply txslot_inj in E'; lia).
  split; rewrite ?Eh, ?length_app; cbn [length]; try done.
  - lia.
  - rewrite Et, txslot_add. f_equal. lia.
  - intros j p Hj. apply lookup_app_Some in Hj as [Hj|[Hj Hp]].
    + pose proof (lookup_lt_Some _ _ _ Hj). destruct (Eo (txslot (TDH e) (Z.of_nat j))) as [-> ->]; [apply Hne; lia|by apply H4].
    + apply list_lookup_singleton_Some in Hp as [Hz <-]. by replace j with (length q) by lia.
  - intros j Hj. destruct (Eo (txslot (TDH e) j)) as [-> _]; [apply Hne; lia|]. apply H5. lia.
Qed.

Section Transmit.
Context (send : e1000 -> option (list Z * e1000)) `{!TxCard send}.

Lemma tx_empty e : tx_ok [] e -> send e = None.
Proof. intros [H1 _ H3 _ _]. apply send_idle. rewrite H3. unfold txslot. cbn [length]. change NTXDESC with 64 in *. lia. Qed.

Lemma tx_pop p q e : tx_ok (p :: q) e -> exists e', send e = Some (p, e') /\ tx_ok q e'.
Proof.
  intros [H1 H2 H3 H4 H5]. cbn [length] in *. destruct (H4 0%nat p eq_refl) as [_ Hp]. change (Z.of_nat 0) with 0 in Hp.
  assert (txslot (TDH e) 0 = TDH e) as Hs0 by (unfold txslot; change NTXDESC with 64 in *; lia). rewrite Hs0 in Hp.
  destruct (send_next e) as (e' & E & Eh & Et & Ed & Eo).
  { rewrite H3. intros E. rewrite <- Hs0 in E at 1. apply txslot_inj in E; change NTXDESC with 64 in *; lia. }
  exists e'. rewrite Hp in E. split; [done|].
  assert (forall j, 0 < j < NTXDESC -> txslot (TDH e) j <> TDH e) as Hne.
  { intros j Hj E'. rewrite <- Hs0 in E' at 2. apply txslot_inj in E'; change NTXDESC with 64 in *; lia. }
  split; rewrite ?Eh.
  - unfold txslot. change NTXDESC with 64. lia.
  - lia.
  - rewrite Et, H3, txslot_add. f_equal. lia.
  - intros j p' Hj. pose proof (lookup_lt_Some _ _ _ Hj). rewrite txslot_add.
    destruct (Eo (txslot (TDH e) (1 + Z.of_nat j))) as [-> ->]; [apply Hne; lia|].
    replace (1 + Z.of_nat j) with (Z.of_nat (S j)) by lia. by apply H4.
  - intros j Hj. rewrite txslot_add. destruct (decide (j = NTXDESC - 1)) as [->|Hj'].
    + replace (txslot (TDH e) (1 + (NTXDESC - 1))) with (TDH e); [done|]. unfold txslot. change NTXDESC with 64 in *. lia.
    + destruct (Eo (txslot (TDH e) (1 + j))) as [-> _]; [apply Hne; lia|]. apply H5. lia.
Qed.

(** What happens to the ring: the kernel submits a packet, or the card looks
    for one to send. The packets accepted and those sent are collected. *)
Inductive tx_event := Submit (src : Z -> Z) (len : Z) | Transmit.

Definition tx_do (ev : tx_event) (e : e1000) : list (list Z) * list (list Z) * e1000 :=
  match ev with
  | Submit src len => let '(r, e') := txpacket src len e in (if r =? 0 then [packet src len] else [], [], e')
  | Transmit => match send e with Some (p, e') => ([], [p], e') | None => ([], [], e) end
  end.

Fixpoint tx_run (evs : list tx_event) (e : e1000) : list (list Z) * list (list Z) * e1000 :=
  match evs with
  | [] => ([], [], e)
  | ev :: evs => let '(a, b, e) := tx_do ev e in let '(a', b', e) := tx_run evs e in (a ++ a', b ++ b', e)
  end.

(** The ring, with [n] packets in it, is never asked to take more than 63. *)
Fixpoint has_room (n : Z) (evs : list tx_event) : bool :=
  match evs with
  | [] => true
  | Submit _ len :: evs => (n <? NTXDESC - 1) && (0 <=? len) && has_room (n + 1) evs
  | Transmit :: evs => has_room (Z.max 0 (n - 1)) evs
  end.

(** The packets the kernel submits. *)
Definition submitted (evs : list tx_event) : list (list Z) :=
  evs ≫= fun ev => match ev with Submit src len => [packet src len] | Transmit => [] end.

Lemma tx_run_ok evs : forall q e, tx_ok q e -> has_room (Z.of_nat (length q)) evs = true ->
  let '(accepted, sent, e') := tx_run evs e in
  accepted = submitted evs /\ exists q', tx_ok q' e' /\ q ++ accepted = sent ++ q'.
Proof.
  induction evs as [|[src len|] evs IH]; intros q e Hq Hr; cbn [tx_run tx_do has_room] in *.
  - split; [done|]. exists q. by rewrite app_nil_r.
  - apply andb_true_iff in Hr as [Hr Hr']. apply andb_true_iff in Hr as [Hr1 Hr2].
    destruct (tx_push q src len e Hq) as (e' & -> & Hq'); [lia|lia|]. cbn [Z.eqb].
    specialize (IH _ e' Hq'). rewrite length_app in IH. cbn [length] in IH.
    replace (Z.of_nat (length q + 1)) with (Z.of_nat (length q) + 1) in IH by lia. specialize (IH Hr').
    destruct (tx_run evs e') as [[a b] e2]. destruct IH as (H0 & q' & H1 & H2). split; [by rewrite H0|]. exists q'. split; [done|].
    rewrite <- app_assoc in H2. exact H2.
  - destruct q as [|p q].
    + rewrite (tx_empty e Hq). specialize (IH [] e Hq Hr). by destruct (tx_run evs e) as [[a b] e2].
    + destruct (tx_pop p q e Hq) as (e' & -> & Hq'). specialize (IH q e' Hq'). cbn [length] in Hr.
      replace (Z.max 0 (Z.of_nat (S (length q)) - 1)) with (Z.of_nat (length q)) in Hr by lia. specialize (IH Hr).
      destruct (tx_run evs e') as [[a b] e2]. destruct IH as (H0 & q' & H1 & H2). split; [done|]. exists q'. split; [done|]. cbn. by rewrite H2.
Qed.

(** With all 64 descriptors in use nothing moves any more. *)
Lemma tx_stuck evs e : TDH e = TDT e -> txdone e (TDT e) = false -> tx_run evs e = ([], [], e).
Proof.
  intros Hh Hd. induction evs as [|[src len|] evs IH]; [done| |]; cbn [tx_run tx_do].
  - unfold txpacket at 1. unfold txdone, txdesc in Hd. rewrite Hd. cbn [negb]. rewrite IH. done.
  - rewrite (send_idle e Hh), IH. done.
Qed.
End Transmit.

Lemma tx_init_ok e : tx_ok [] (e1000_init e).
Proof.
  assert (forall i, 0 <= i < NTXDESC -> txdone (e1000_init e) i = true) as Hd.
  { intros i Hi. unfold txdone, txdesc. cbn [txqueue e1000_init rx_init rxdesc_init tx_init txdesc_init]. by rewrite filled_get. }
  split; cbn [TDH TDT e1000_init rx_init rxdesc_init tx_init txdesc_init length]; try done.
  intros j Hj. apply Hd. unfold txslot. change NTXDESC with 64. lia.
Qed.

(** * Receiving *)

Definition rxslot (t j : Z) : Z := (t + 1 + j) mod NRXDESC.
Definition rxdesc (e : e1000) (i : Z) : rx_desc := mget rx0 (rxqueue e) i.
Definition rxdata (e : e1000) (i : Z) : list Z := take (Z.to_nat (rx_length (rxdesc e i))) (mget [] (rxbuffer e) i).
Definition rxdone (e : e1000) (i : Z) : bool := flag (rx_status (rxdesc e i)) RXD_STAT_DD.

(** The receiving half of the card: a packet that arrives when RDH = RDT is
    dropped; otherwise it is stored in the descriptor at RDH, which is marked
    as done, and RDH moves on. *)
Class RxCard (receive : list Z -> e1000 -> e1000) : Prop := {
  receive_full p e : RDH e = RDT e -> receive p e = e;
  receive_next p e : RDH e <> RDT e -> Z.of_nat (length p) <= RXBUFFSIZE ->
    RDH (receive p e) = (RDH e + 1) mod NRXDESC /\ RDT (receive p e) = RDT e
    /\ rxdone (receive p e) (RDH e) = true /\ rxdata (receive p e) (RDH e) = p
    /\ forall i, i <> RDH e -> rxdone (receive p e) i = rxdone e i /\ rxdata (receive p e) i = rxdata e i
}.

Record rx_ok (q : list (list Z)) (e : e1000) : Prop := {
  ro_tail : 0 <= RDT e < NRXDESC;
  ro_len : Z.of_nat (length q) < NRXDESC;
  ro_head : RDH e = rxslot (RDT e) (Z.of_nat (length q));
  ro_pend : forall j p, q !! j = Some p ->
    rxdone e (rxslot (RDT e) (Z.of_nat j)) = true /\ rxdata e (rxslot (RDT e) (Z.of_nat j)) = p;
  ro_free : forall j, Z.of_nat (length q) <= j < NRXDESC -> rxdone e (rxslot (RDT e) j) = false
}.

Lemma rxslot_inj t i j : 0 <= i < NRXDESC -> 0 <= j < NRXDESC -> rxslot t i = rxslot t j -> i = j.
Proof. unfold rxslot. change NRXDESC with 128. lia. Qed.

Lemma rxslot_next t j : rxslot (rxslot t 0) j = rxslot t (1 + j).
Proof. unfold rxslot. change NRXDESC with 128. lia. Qed.

Lemma rx_empty e : rx_ok [] e -> rxpacket e = ([], e).
Proof.
  intros [H1 _ _ _ H5]. pose proof (H5 0 ltac:(cbn; change NRXDESC with 128; lia)) as Hd. unfold rxdone, rxdesc, rxslot in Hd.
  rewrite Z.add_0_r in Hd. unfold rxpacket. by rewrite Hd.
Qed.

Lemma rx_pop p q e : rx_ok (p :: q) e -> exists e', rxpacket e = (p, e') /\ rx_ok q e'.
Proof.
  intros [H1 H2 H3 H4 H5]. cbn [length] in *. destruct (H4 0%nat p eq_refl) as [Hd Hp]. change (Z.of_nat 0) with 0 in *.
  assert ((RDT e + 1) mod NRXDESC = rxslot (RDT e) 0) as Es by (unfold rxslot; by rewrite Z.add_0_r).
  unfold rxpacket. rewrite Es. unfold rxdone, rxdesc in Hd. unfold rxdata, rxdesc in Hp. rewrite Hd. cbn [negb].
  eexists. split; [by rewrite Hp|]. set (e' := mkE1000 _ _ _ _ _ _ _ _).
  assert (forall i, i <> rxslot (RDT e) 0 -> rxdone e' i = rxdone e i /\ rxdata e' i = rxdata e i) as Eo.
  { intros i Hi. unfold rxdone, rxdata, rxdesc, e'. cbn [rxqueue rxbuffer]. by rewrite !mget_insert_ne by done. }
  assert (forall j, 0 < j < NRXDESC -> rxslot (RDT e) j <> rxslot (RDT e) 0) as Hne.
  { intros j Hj E'. apply rxslot_inj in E'; change NRXDESC with 128 in *; lia. }
  split; cbn [RDT RDH e'].
  - unfold rxslot. change NRXDESC with 128. lia.
  - lia.
  - rewrite H3, rxslot_next. f_equal. lia.
  - intros j p' Hj. pose proof (lookup_lt_Some _ _ _ Hj). rewrite rxslot_next.
    destruct (Eo (rxslot (RDT e) (1 + Z.of_nat j))) as [-> ->]; [apply Hne; lia|].
    replace (1 + Z.of_nat j) with (Z.of_nat (S j)) by lia. by apply H4.
  - intros j Hj. rewrite rxslot_next. destruct (decide (j = NRXDESC - 1)) as [->|Hj'].
    + replace (rxslot (RDT e) (1 + (NRXDESC - 1))) with (rxslot (RDT e) 0) by (unfold rxslot; change NRXDESC with 128; lia).
      unfold rxdone, rxdesc, e'. cbn [rxqueue]. rewrite mget_insert. cbn [rx_status]. apply flag_clear.
    + destruct (Eo (rxslot (RDT e) (1 + j))) as [-> _]; [apply Hne; lia|]. apply H5. lia.
Qed.

Section Receive.
Context (receive : list Z -> e1000 -> e1000) `{!RxCard receive}.

(** The card stores a packet exactly when fewer than 127 are waiting. *)
Lemma rx_push p q e : rx_ok q e -> Z.of_nat (length p) <= RXBUFFSIZE ->
  if Z.of_nat (length q) <? NRXDESC - 1 then RDH e <> RDT e /\ rx_ok (q ++ [p]) (receive p e)
  else RDH e = RDT e /\ receive p e = e.
Proof.
  intros [H1 H2 H3 H4 H5] Hp. destruct (Z.ltb_spec (Z.of_nat (length q)) (NRXDESC - 1)) as [Hr|Hr].
  - assert (RDH e <> RDT e) as Hd by (rewrite H3; unfold rxslot; change NRXDESC with 128 in *; lia). split; [done|].
    destruct (receive_next p e Hd Hp) as (Eh & Et & Ed & Ep & Eo). rewrite H3 in *.
    assert (forall j, 0 <= j < NRXDESC -> j <> Z.of_nat (length q) ->
      rxslot (RDT e) j <> rxslot (RDT e) (Z.of_nat (length q))) as Hne by (intros j Hj Hn E'; apply rxslot_inj in E'; lia).
    split; rewrite ?Et, ?length_app; cbn [length]; try done.
    + lia.
    + rewrite Eh. unfold rxslot. change NRXDESC with 128. lia.
    + intros j p' Hj. apply lookup_app_Some in Hj as [Hj|[Hj Hj']].
      * pose proof (lookup_lt_Some _ _ _ Hj). destruct (Eo (rxslot (RDT e) (Z.of_nat j))) as [-> ->]; [apply Hne; lia|by apply H4].
      * apply list_lookup_singleton_Some in Hj' as [Hz <-]. by replace j with (length q) by lia.
    + intros j Hj. destruct (Eo (rxslot (RDT e) j)) as [-> _]; [apply Hne; lia|]. apply H5. lia.
  - assert (RDH e = RDT e) as Hd by (rewrite H3; unfold rxslot; change NRXDESC with 128 in *; lia).
    split; [done|by apply receive_full].
Qed.

(** A packet arrives, or the kernel asks for one. The packets that were not
    dropped, and those that were read, are collected. *)
Inductive rx_event := Arrive (p : list Z) | Read.

Definition rx_do (ev : rx_event) (e : e1000) : list (list Z) * list (list Z) * e1000 :=
  match ev with
  | Arrive p => (if RDH e =? RDT e then [] else [p], [], receive p e)
  | Read => let '(p, e') := rxpacket e in ([], match p with [] => [] | _ => [p] end, e')
  end.

Fixpoint rx_run (evs : list rx_event) (e : e1000) : list (list Z) * list (list Z) * e1000 :=
  match evs with
  | [] => ([], [], e)
  | ev :: evs => let '(a, b, e) := rx_do ev e in let '(a', b', e) := rx_run evs e in (a ++ a', b ++ b', e)
  end.

Definition arrival_ok (ev : rx_event) : bool :=
  match ev with Arrive p => (0 <? Z.of_nat (length p)) && (Z.of_nat (length p) <=? RXBUFFSIZE) | Read => true end.

Lemma rx_run_ok evs : forall q e, rx_ok q e -> Forall (fun p => p <> []) q -> forallb arrival_ok evs = true ->
  let '(accepted, read, e') := rx_run evs e in exists q', rx_ok q' e' /\ q ++ accepted = read ++ q'.
Proof.
  induction evs as [|[p|] evs IH]; intros q e Hq Hne Hr; cbn [rx_run rx_do forallb arrival_ok] in *.
  - exists q. by rewrite app_nil_r.
  - apply andb_true_iff in Hr as [Hp Hr]. pose proof (rx_push p q e Hq ltac:(lia)) as Hpush.
    destruct (Z.ltb_spec (Z.of_nat (length q)) (NRXDESC - 1)).
    + destruct Hpush as [Hd Hq']. rewrite (proj2 (Z.eqb_neq _ _) Hd). specialize (IH _ _ Hq').
      destruct (rx_run evs (receive p e)) as [[a b] e2]. destruct IH as (q' & H1 & H2); [|done|].
      * apply Forall_app. split; [done|]. constructor; [|done]. by intros ->.
      * exists q'. split; [done|]. rewrite <- app_assoc in H2. exact H2.
    + destruct Hpush as [-> ->]. rewrite Z.eqb_refl. specialize (IH q e Hq Hne Hr).
      by destruct (rx_run evs e) as [[a b] e2].
  - destruct q as [|p q].
    + rewrite (rx_empty e Hq). specialize (IH [] e Hq Hne Hr). by destruct (rx_run evs e) as [[a b] e2].
    + destruct (rx_pop p q e Hq) as (e' & -> & Hq'). inversion_clear Hne as [|? ? Hp0 Hne']. specialize (IH q e' Hq' Hne' Hr).
      destruct (rx_run evs e') as [[a b] e2]. destruct IH as (q' & H1 & H2). exists q'. split; [done|].
      destruct p as [|x p]; [done|]. cbn. by rewrite H2.
Qed.
End Receive.

Lemma rx_init_ok e : rx_ok [] (e1000_init e).
Proof.
  split; cbn [RDH RDT e1000_init rx_init rxdesc_init length]; try done.
  intros j Hj. unfold rxdone, rxdesc. cbn [rxqueue e1000_init rx_init rxdesc_init]. rewrite filled_get; [done|].
  unfold rxslot. change NRXDESC with 128. lia.
Qed.

(** * A card *)

(** Cards that do exactly this and nothing else exist. *)
Definition nic_tx (e : e1000) : option (list Z * e1000) :=
  if TDH e =? TDT e then None
  else
    let d := txdesc e (TDH e) in
    Some (txdata e (TDH e),
          mkE1000 (<[TDH e := mkTxDesc (tx_length d) (tx_cmd d) (Z.lor (tx_status d) TXD_STAT_DD)]> (txqueue e))
            (txbuffer e) (rxqueue e) (rxbuffer e) (txslot (TDH e) 1) (TDT e) (RDH e) (RDT e)).

Definition nic_rx (p : list Z) (e : e1000) : e1000 :=
  if RDH e =? RDT e then e
  else
    mkE1000 (txqueue e) (txbuffer e)
      (<[RDH e := mkRxDesc (Z.of_nat (length p)) RXD_STAT_DD]> (rxqueue e))
      (<[RDH e := p]> (rxbuffer e)) (TDH e) (TDT e) ((RDH e + 1) mod NRXDESC) (RDT e).

#[export] Instance nic_tx_card : TxCard nic_tx.
Proof.
  split; intros e He; unfold nic_tx; [by rewrite He, Z.eqb_refl|]. rewrite (proj2 (Z.eqb_neq _ _) He).
  eexists. split; [reflexivity|]. cbn [TDH TDT]. split; [done|]. split; [done|]. unfold txdone, txdata, txdesc. cbn [txqueue txbuffer].
  split; [rewrite mget_insert; by apply flag_self_lor|]. intros i Hi. by rewrite !mget_insert_ne by done.
Qed.

#[export] Instance nic_rx_card : RxCard nic_rx.
Proof.
  split; intros p e He; unfold nic_rx; [by rewrite He, Z.eqb_refl|]. intros Hp. rewrite (proj2 (Z.eqb_neq _ _) He).
  cbn [RDH RDT]. split; [done|]. split; [done|]. unfold rxdone, rxdata, rxdesc. cbn [rxqueue rxbuffer]. rewrite !mget_insert.
  split; [done|]. split; [cbn [rx_length]; by rewrite Nat2Z.id, take_ge|]. intros i Hi. by rewrite !mget_insert_ne by done.
Qed.

(** * Theorems *)


Definition nic_demo : e1000 := mkE1000 ∅ ∅ ∅ ∅ 0 0 0 0.


(** C39: the 64th waiting packet is accepted too, but then TDT has come round
    to TDH, which the card reads as an empty ring: whatever is tried
    afterwards, no packet is ever accepted or sent again. *)
Theorem txpacket_full_stalls send `{!TxCard send} q e src len : tx_ok q e -> Z.of_nat (length q) = NTXDESC - 1 -> 0 <= len ->
  exists e', txpacket src len e = (0, e') /\ forall evs, tx_run send evs e' = ([], [], e').
Proof.
  intros [H1 H2 H3 H4 H5] Hl Hlen. destruct (txpacket_at src len e) as (e' & E & Eh & Et & Ed & _ & Eo); [|done|].
  { rewrite H3. apply H5. lia. }
  assert (TDT e' = TDH e') as Hht by (rewrite Eh, Et, H3, Hl; unfold txslot; change NTXDESC with 64 in *; lia).
  exists e'. split; [done|]. intros evs. apply (tx_stuck send); [done|]. rewrite Hht, Eh.
  assert (exists p, q !! 0%nat = Some p) as [p Hp] by (apply lookup_lt_is_Some; change NTXDESC with 64 in *; lia).
  destruct (H4 0%nat p Hp) as [Hd _]. assert (txslot (TDH e) (Z.of_nat 0) = TDH e) as Es by (unfold txslot; change NTXDESC with 64 in *; lia).
  rewrite Es in Hd. destruct (Eo (TDH e)) as [-> _]; [|done].
  rewrite H3, Hl. unfold txslot. change NTXDESC with 64 in *. lia.
Qed.

(** The ring after [n] packets of one byte. *)
Fixpoint nic_load (n : nat) (e : e1000) : e1000 :=
  match n with O => e | S k => nic_load k (snd (txpacket (fun _ => 1) 1 e)) end.

Lemma nic_load_ok n : forall q e, tx_ok q e -> Z.of_nat (length q) + Z.of_nat n < NTXDESC ->
  exists q', tx_ok q' (nic_load n e) /\ length q' = (length q + n)%nat.
Proof.
  induction n as [|n IH]; intros q e Hq Hn; cbn [nic_load]; [exists q; split; [done|lia]|].
  destruct (tx_push q (fun _ => 1) 1 e Hq) as (e' & -> & Hq'); [lia|lia|]. cbn [snd].
  destruct (IH _ e' Hq') as (q' & H1 & H2); rewrite length_app in *; cbn [length] in *; [lia|]. exists q'. split; [done|lia].
Qed.

Lemma txpacket_full_stalls_witness :
  exists e', txpacket (fun _ => 2) 1 (nic_load 63 (e1000_init nic_demo)) = (0, e') /\ forall evs, tx_run nic_tx evs e' = ([], [], e').
Proof.
  destruct (nic_load_ok 63 [] (e1000_init nic_demo) (tx_init_ok nic_demo)) as (q & H1 & H2); [vm_compute; reflexivity|].
  apply (txpacket_full_stalls nic_tx q _ (fun _ => 2) 1 H1); [by rewrite H2|lia].
Defined.

(** C40: reception: the packets [rxpacket] returns are those the card has
    stored, complete and in order of arrival, for every interleaving of
    arrivals and reads, and the ring is full, so that the card has to drop the
    next packet, exactly when 127 are waiting. *)
Theorem rxpacket_fifo receive `{!RxCard receive} e evs : forallb arrival_ok evs = true ->
  let '(accepted, read, e') := rx_run receive evs (e1000_init e) in
  exists waiting, accepted = read ++ waiting /\ rx_ok waiting e'
    /\ (RDH e' = RDT e' <-> Z.of_nat (length waiting) = NRXDESC - 1).
Proof.
  intros Hr. pose proof (rx_run_ok receive evs [] (e1000_init e) (rx_init_ok e) (List.Forall_nil _) Hr) as H.
  destruct (rx_run receive evs (e1000_init e)) as [[a b] e']. destruct H as (q & H1 & H2). exists q.
  split; [done|]. split; [done|]. destruct H1 as [? ? -> _ _]. unfold rxslot. change NRXDESC with 128 in *. lia.
Qed.

Lemma rxpacket_fifo_witness :
  let '(accepted, read, e') := rx_run nic_rx [Read; Arrive [1; 2]; Arrive [3]; Read] (e1000_init nic_demo) in
  exists waiting, accepted = read ++ waiting /\ rx_ok waiting e'
    /\ (RDH e' = RDT e' <-> Z.of_nat (length waiting) = NRXDESC - 1).
Proof. exact (rxpacket_fifo nic_rx nic_demo [Read; Arrive [1; 2]; Arrive [3]; Read] eq_refl). Defined.
