(* ===== verification/Str.v ===== *)
(** lib/string.c: strings and blocks of memory.

    Addresses are integers and bytes are 0 .. 255; a [char] is the byte read as
    a signed number ([s8]) where its sign matters. The functions run on any
    state that has a memory, given by the class [Memory]. A [while] loop of the
    source is [loop], which stops the model after 2^64 rounds. *)

From stdpp Require Import base numbers list gmap strings.
From Stdlib Require Import ZArith Lia Bool.
From S2P Require Import Prelude.

(** * Memory *)

(** A state with a memory of bytes. *)
Class Memory (S : Type) := {
  peek : S -> Z -> Z;
  poke_at : Z -> Z -> S -> S;
  peek_byte s a : 0 <= peek s a < 2 ^ 8;
  peek_poke s a v k : peek (poke_at a v s) k = if decide (k = a) then u8 v else peek s k
}.

(** A memory by itself. *)
#[export] Program Instance bytes_memory : Memory (gmap Z Z) := {|
  peek m a := u8 (mget 0 m a);
  poke_at a v m := <[a := v]> m
|}.
Next Obligation. intros m a. unfold u8. apply Z.mod_pos_bound. lia. Qed.
Next Obligation. intros m a v k. cbn. case_decide as Hk; [by rewrite Hk, mget_insert|by rewrite mget_insert_ne]. Qed.

Section Access.
Context {S : Type} `{!Memory S}.

Definition cread (p : Z) : M S Z := gets (fun s => peek s p).
Definition cwrite (p v : Z) : M S unit := modify (poke_at p v).

(** A little-endian word. *)
Definition read32 (p : Z) : M S Z :=
  let! a := cread p in
  let! b := cread (p + 1) in
  let! c := cread (p + 2) in
  let! d := cread (p + 3) in
  ret (a + b * 2 ^ 8 + c * 2 ^ 16 + d * 2 ^ 24).
Definition write32 (p v : Z) : M S unit :=
  cwrite p v ;;!
  cwrite (p + 1) (Z.shiftr v 8) ;;!
  cwrite (p + 2) (Z.shiftr v 16) ;;!
  cwrite (p + 3) (Z.shiftr v 24).
End Access.

(** * Loops *)

Section Loop.
Context {S X A : Type}.

(** Up to 2^d rounds of [body], which ends the loop with [inr]. *)
Fixpoint rounds (d : nat) (body : X -> M S (X + A)) (x : X) : M S (X + A) :=
  match d with
  | O => body x
  | Datatypes.S d' =>
      let! r := rounds d' body x in
      match r with
      | inl x' => rounds d' body x'
      | inr a => ret (inr a)
      end
  end.

Definition loop (x : X) (body : X -> M S (X + A)) : M S A :=
  let! r := rounds 64 body x in
  match r with
  | inl _ => panic "loop"
  | inr a => ret a
  end.
End Loop.

Definition next {S X A} (x : X) : M S (X + A) := ret (inl x).
Definition break {S X A} (a : A) : M S (X + A) := ret (inr a).

(** * Integers *)

(** A byte as a [char], and the sum of two [int]s. *)
Definition s8 (x : Z) : Z := let v := u8 x in if v <? 2 ^ 7 then v else v - 2 ^ 8.

Section Str.
Context {S : Type} `{!Memory S}.

(** * Strings *)

Definition strlen (s : Z) : M S Z :=
  loop (s, 0) (fun '(s, n) =>
    let! c := cread s in
    if c =? 0 then break n else next (s + 1, s32 (n + 1))).

Definition strnlen (s size : Z) : M S Z :=
  loop (s, size, 0) (fun '(s, size, n) =>
    if size <=? 0 then break n
    else
      let! c := cread s in
      if c =? 0 then break n else next (s + 1, size - 1, s32 (n + 1))).

Definition strcpy (dst src : Z) : M S Z :=
  loop (dst, src) (fun '(d, s) =>
    let! c := cread s in
    cwrite d c ;;!
    if c =? 0 then break tt else next (d + 1, s + 1)) ;;!
  ret dst.

Definition strcat (dst src : Z) : M S Z :=
  let! len := strlen dst in
  strcpy (dst + len) src ;;!
  ret dst.

Definition strncpy (dst src size : Z) : M S Z :=
  loop (dst, src, 0) (fun '(d, s, i) =>
    if size <=? i then break tt
    else
      let! c := cread s in
      cwrite d c ;;!
      next (d + 1, (if c =? 0 then s else s + 1), i + 1)) ;;!
  ret dst.

Definition strlcpy (dst src size : Z) : M S Z :=
  if 0 <? size then
    let! d := loop (dst, src, size) (fun '(d, s, size) =>
      let size := size - 1 in
      if size <=? 0 then break d
      else
        let! c := cread s in
        if c =? 0 then break d
        else
          cwrite d c ;;!
          next (d + 1, s + 1, size)) in
    cwrite d 0 ;;!
    ret (d - dst)
  else ret 0.

(** [char]s are equal when their bytes are. *)
Definition strcmp (p q : Z) : M S Z :=
  loop (p, q) (fun '(p, q) =>
    let! a := cread p in
    let! b := cread q in
    if negb (a =? 0) && (a =? b) then next (p + 1, q + 1) else break (a - b)).

Definition strncmp (p q n : Z) : M S Z :=
  loop (p, q, n) (fun '(p, q, n) =>
    if n <=? 0 then break 0
    else
      let! a := cread p in
      let! b := cread q in
      if negb (a =? 0) && (a =? b) then next (p + 1, q + 1, n - 1) else break (a - b)).

(** The null pointer is 0. *)
Definition strchr (s c : Z) : M S Z :=
  loop s (fun s =>
    let! a := cread s in
    if a =? 0 then break 0
    else if a =? u8 c then break s else next (s + 1)).

Definition strfind (s c : Z) : M S Z :=
  loop s (fun s =>
    let! a := cread s in
    if a =? 0 then break s
    else if a =? u8 c then break s else next (s + 1)).

(** * Blocks of memory *)

(** One element moved, and the string instructions of the processor: [n]
    elements, the addresses going up or down by the size of one. *)
Definition copy1 (d s : Z) : M S unit := let! c := cread s in cwrite d c.
Definition copy4 (d s : Z) : M S unit := let! w := read32 s in write32 d w.

Definition rep_movs (copy : Z -> Z -> M S unit) (step d s n : Z) : M S unit :=
  loop (d, s, n) (fun '(d, s, n) => if n =? 0 then break tt else copy d s ;;! next (d + step, s + step, n - 1)).
Definition rep_stos (store : Z -> M S unit) (step d n : Z) : M S unit :=
  loop (d, n) (fun '(d, n) => if n =? 0 then break tt else store d ;;! next (d + step, n - 1)).

Definition aligned (v : Z) : bool := Z.rem (s32 v) 4 =? 0.

Definition memset (v c n : Z) : M S Z :=
  if n =? 0 then ret v
  else
    (if aligned v && (n mod 4 =? 0) then
       let c := Z.land c 0xFF in
       let c := Z.lor (Z.lor (Z.lor (Z.shiftl c 24) (Z.shiftl c 16)) (Z.shiftl c 8)) c in
       rep_stos (fun p => write32 p c) 4 v (n / 4)
     else rep_stos (fun p => cwrite p c) 1 v n) ;;!
    ret v.

Definition memmove (dst src n : Z) : M S Z :=
  (if (src <? dst) && (dst <? src + n) then
     let s := src + n in
     let d := dst + n in
     if aligned s && aligned d && (n mod 4 =? 0) then rep_movs copy4 (-4) (d - 4) (s - 4) (n / 4)
     else rep_movs copy1 (-1) (d - 1) (s - 1) n
   else if aligned src && aligned dst && (n mod 4 =? 0) then rep_movs copy4 4 dst src (n / 4)
   else rep_movs copy1 1 dst src n) ;;!
  ret dst.

(** The versions in C that the source has for [ASM] 0. *)
Definition memset_c (v c n : Z) : M S Z :=
  loop (v, s32 n) (fun '(p, m) =>
    let m := m - 1 in
    if m <? 0 then break tt else cwrite p c ;;! next (p + 1, m)) ;;!
  ret v.

Definition memmove_c (dst src n : Z) : M S Z :=
  (if (src <? dst) && (dst <? src + n) then
     loop (dst + n, src + n, n) (fun '(d, s, n) =>
       if n <=? 0 then break tt
       else
         copy1 (d - 1) (s - 1) ;;!
         next (d - 1, s - 1, n - 1))
   else
     loop (dst, src, n) (fun '(d, s, n) =>
       if n <=? 0 then break tt
       else
         copy1 d s ;;!
         next (d + 1, s + 1, n - 1))) ;;!
  ret dst.

Definition memcpy (dst src n : Z) : M S Z := memmove dst src n.

Definition memcmp (v1 v2 n : Z) : M S Z :=
  loop (v1, v2, n) (fun '(s1, s2, n) =>
    if n <=? 0 then break 0
    else
      let! a := cread s1 in
      let! b := cread s2 in
      if negb (a =? b) then break (a - b) else next (s1 + 1, s2 + 1, n - 1)).

Definition memfind (s c n : Z) : M S Z :=
  let ends := s + n in
  loop s (fun s =>
    if ends <=? s then break s
    else
      let! a := cread s in
      if a =? u8 c then break s else next (s + 1)).

(** * strtol *)

(** The digit a [char] stands for. *)
Definition digit (c : Z) : option Z :=
  let c := s8 c in
  if (48 <=? c) && (c <=? 57) then Some (c - 48)
  else if (97 <=? c) && (c <=? 122) then Some (c - 97 + 10)
  else if (65 <=? c) && (c <=? 90) then Some (c - 65 + 10)
  else None.

Definition strtol_digits (s base : Z) : M S (Z * Z) :=
  loop (s, 0) (fun '(s, val) =>
    let! c := cread s in
    match digit c with
    | None => break (s, val)
    | Some dig => if base <=? dig then break (s, val) else next (s + 1, s32 (val * base + dig))
    end).

(** The value, and what is stored in [*endptr]. *)
Definition strtol (s base : Z) : M S (Z * Z) :=
  let! s := loop s (fun s => let! c := cread s in if (c =? 32) || (c =? 9) then next (s + 1) else break s) in
  let! c := cread s in
  let neg := c =? 45 in
  let s := if (c =? 43) || neg then s + 1 else s in
  let! c0 := cread s in
  let! hex := (if (base =? 0) || (base =? 16) then
                 if c0 =? 48 then let! c1 := cread (s + 1) in ret (c1 =? 120) else ret false
               else ret false) in
  let '(s, base) :=
    if hex then (s + 2, 16)
    else if (base =? 0) && (c0 =? 48) then (s + 1, 8)
    else if base =? 0 then (s, 10) else (s, base) in
  let! r := strtol_digits s base in
  let (e, val) := r in
  ret (if neg then s32 (- val) else val, e).
End Str.
