(* ===== verification/StrSpec.v ===== *)
(** lib/string.c: what the functions on strings and blocks of memory compute.
    Every loop ends; [memmove] copies whatever overlap there is, with the string
    instructions as with the loops in C. *)

From stdpp Require Import base numbers list gmap strings.
From Stdlib Require Import ZArith Lia Bool.
From S2P Require Import Prelude Str.

Local Ltac Zify.zify_post_hook ::= Z.to_euclidean_division_equations.

(** * Loops *)

Section Runs.
Context {S X A : Type} (body : X -> M S (X + A)).

(** The loop ends after [n] rounds. *)
Inductive runs : Z -> X -> S -> A -> S -> Prop :=
| runs_break x s a s' : body x s = Ret (inr a) s' -> runs 1 x s a s'
| runs_next x s x' s1 n a s' : body x s = Ret (inl x') s1 -> runs n x' s1 a s' -> runs (n + 1) x s a s'.

Lemma runs_pos n x s a s' : runs n x s a s' -> 1 <= n.
Proof. induction 1; lia. Qed.

Lemma rounds_runs d : forall n x s a s', runs n x s a s' ->
  if decide (n <= 2 ^ Z.of_nat d) then rounds d body x s = Ret (inr a) s'
  else exists x1 s1, rounds d body x s = Ret (inl x1) s1 /\ runs (n - 2 ^ Z.of_nat d) x1 s1 a s'.
Proof.
  induction d as [|d IH]; intros n x s a s' H.
  - change (2 ^ Z.of_nat 0) with 1. case_decide as Hn; cbn [rounds]; inversion H as [x0 s0 a0 s0' E E2|x0 s0 x' s1 n0 a0 s0' E H' E2]; subst.
    + exact E.
    + apply runs_pos in H'. lia.
    + lia.
    + exists x', s1. split; [exact E|]. by replace (n0 + 1 - 1) with n0 by lia.
  - cbn [rounds]. rewrite Nat2Z.inj_succ, Z.pow_succ_r by lia. pose proof (IH n x s a s' H) as H1.
    assert (0 < 2 ^ Z.of_nat d) as Hp by (apply Z.pow_pos_nonneg; lia). destruct (decide (n <= 2 ^ Z.of_nat d)) as [Hn|Hn].
    + rewrite decide_True by lia. by rewrite (bind_ret _ _ _ _ _ H1).
    + destruct H1 as (x1 & s1 & E1 & R1). rewrite (bind_ret _ _ _ _ _ E1). pose proof (IH _ x1 s1 a s' R1) as H2. repeat case_decide; try done; try lia.
      destruct H2 as (x2 & s2 & E2 & R2). exists x2, s2. split; [done|]. by replace (n - 2 * 2 ^ Z.of_nat d) with (n - 2 ^ Z.of_nat d - 2 ^ Z.of_nat d) by lia.
Qed.

Lemma loop_runs n x s a s' : runs n x s a s' -> n <= 2 ^ 64 -> loop x body s = Ret a s'.
Proof.
  intros H Hn. pose proof (rounds_runs 64 n x s a s' H) as H1. change (2 ^ Z.of_nat 64) with (2 ^ 64) in H1. rewrite decide_True in H1 by done.
  unfold loop. by rewrite (bind_ret _ _ _ _ _ H1).
Qed.

(** A loop whose rounds decrease a measure ends. *)
Lemma loop_inv (I : Z -> X -> S -> Prop) (Q : A -> S -> Prop) :
  (forall m x s, I m x s -> 0 <= m /\ exists r s', body x s = Ret r s' /\ match r with inl x' => exists m', m' < m /\ I m' x' s' | inr a => Q a s' end) ->
  forall m x s, I m x s -> m < 2 ^ 64 -> exists a s', loop x body s = Ret a s' /\ Q a s'.
Proof.
  intros Hb m x s HI Hm. assert (exists n a s', runs n x s a s' /\ n <= m + 1 /\ Q a s') as (n & a & s' & R & Hn & HQ); [|exists a, s'; split; [by apply (loop_runs n); [|lia]|done]].
  assert (0 <= m) as H0 by (by apply (Hb m x s)). clear Hm. revert m H0 x s HI. refine (Z_lt_induction _ _). intros m IH x s HI. destruct (Hb m x s HI) as (Hm & r & s1 & E & Hr).
  destruct r as [x'|a].
  - destruct Hr as (m' & Hlt & HI'). pose proof (proj1 (Hb m' x' s1 HI')). destruct (IH m' ltac:(lia) x' s1 HI') as (n & a & s' & R & Hn & HQ).
    exists (n + 1), a, s'. split; [by apply (runs_next x s x' s1)|]. split; [lia|done].
  - exists 1, a, s1. split; [by apply runs_break|]. split; [lia|done].
Qed.
End Runs.

(** * Strings in memory *)

Section Specs.
Context {S : Type} `{!Memory S}.

(** The string [str] is at [p], with its terminator. *)
Fixpoint cstr (s : S) (p : Z) (str : list Z) : Prop :=
  match str with
  | [] => peek s p = 0
  | c :: str => peek s p = c /\ c <> 0 /\ cstr s (p + 1) str
  end.

Local Abbreviation len l := (Z.of_nat (length l)).

Lemma cread_ok p s : cread p s = Ret (peek s p) s.
Proof. done. Qed.

Lemma cwrite_ok p v s : exists s', cwrite p v s = Ret tt s' /\ forall k, peek s' k = if decide (k = p) then u8 v else peek s k.
Proof. exists (poke_at p v s). split; [done|]. intros k. apply peek_poke. Qed.

(** Reading does not change the state. *)
Lemma loop_pure {X A} (body : X -> M S (X + A)) (I : Z -> X -> A -> Prop) s :
  (forall m x a, I m x a -> 0 <= m /\ exists r, body x s = Ret r s /\ match r with inl x' => exists m', m' < m /\ I m' x' a | inr a' => a' = a end) ->
  forall m x a, I m x a -> m < 2 ^ 64 -> loop x body s = Ret a s.
Proof.
  intros Hb m x a HI Hm. destruct (loop_inv body (fun m x s' => s' = s /\ I m x a) (fun a' s' => s' = s /\ a' = a)) with (m := m) (x := x) (s := s) as (a' & s' & E & -> & ->); [|done..].
  intros m' x' s' [-> HI']. destruct (Hb m' x' a HI') as (Hm' & r & E & Hr). split; [done|]. exists r, s. split; [done|]. destruct r as [x1|]; [|done].
  destruct Hr as (m1 & Hlt & HI1). by exists m1.
Qed.

Ltac reads := unfold bind, cread, gets, break, next, ret.

Lemma strlen_ok str s p : cstr s p str -> len str < 2 ^ 31 -> strlen p s = Ret (len str) s.
Proof.
  intros Hs Hl. apply (loop_pure _ (fun m '(p, n) r => exists str', m = len str' /\ cstr s p str' /\ 0 <= n /\ r = n + len str' /\ r < 2 ^ 31) s) with (m := len str); [|exists str; split_and!; try done; lia|lia].
  intros m [q n] r (str' & -> & Hq & Hn & -> & Hr). split; [lia|]. destruct str' as [|c str']; cbn [cstr length] in *; reads.
  - rewrite Hq. eexists. split; [done|]. cbn. lia.
  - destruct Hq as (-> & Hc & Hq). rewrite (proj2 (Z.eqb_neq c 0) Hc). eexists. split; [done|]. exists (len str'). split; [lia|]. rewrite s32_small by lia. exists str'. split_and!; try done; lia.
Qed.

Lemma strnlen_ok str s p size : cstr s p str -> 0 <= size < 2 ^ 32 -> len str < 2 ^ 31 -> strnlen p size s = Ret (Z.min size (len str)) s.
Proof.
  intros Hs Hz Hl.
  apply (loop_pure _ (fun m '(p, z, n) r => exists str', m = len str' /\ cstr s p str' /\ 0 <= n /\ 0 <= z /\ r = n + Z.min z (len str') /\ n + len str' < 2 ^ 31) s) with (m := len str); [|exists str; split_and!; try done; lia|lia].
  intros m [[q z] n] r (str' & -> & Hq & Hn & Hz' & -> & Hr). split; [lia|]. destruct (Z.leb_spec z 0) as [|Hzp]; [eexists; split; [done|]; cbn; lia|].
  destruct str' as [|c str']; cbn [cstr length] in *; reads.
  - rewrite Hq. eexists. split; [done|]. cbn. lia.
  - destruct Hq as (-> & Hc & Hq). rewrite (proj2 (Z.eqb_neq c 0) Hc). eexists. split; [done|]. exists (len str'). split; [lia|]. rewrite s32_small by lia. exists str'. split_and!; try done; lia.
Qed.

(** * Blocks of memory *)

(** The [n] bytes at [d] have become [f], and nothing else has changed. *)
Definition blk_set (s s' : S) (d n : Z) (f : Z -> Z) : Prop :=
  forall k, peek s' k = if decide (d <= k < d + n) then f (k - d) else peek s k.

Lemma byte_of s k : u8 (peek s k) = peek s k.
Proof. unfold u8. apply Z.mod_small. apply peek_byte. Qed.

Lemma copy1_ok d src s : exists s', copy1 d src s = Ret tt s' /\ blk_set s s' d 1 (fun i => peek s (src + i)).
Proof.
  exists (poke_at d (peek s src) s). split; [done|]. intros k. rewrite peek_poke, byte_of. repeat case_decide; try lia. f_equal. lia.
Qed.

Lemma write32_ok d v s : exists s', write32 d v s = Ret tt s' /\ blk_set s s' d 4 (fun i => u8 (Z.shiftr v (8 * i))).
Proof.
  eexists. split; [reflexivity|]. intros k. rewrite !peek_poke. destruct (decide (d <= k < d + 4)) as [Hk|Hk]; [|repeat case_decide; try lia; done].
  assert (k - d = 0 \/ k - d = 1 \/ k - d = 2 \/ k - d = 3) as [E|[E|[E|E]]] by lia; rewrite E; repeat case_decide; try lia; by rewrite ?Z.shiftr_0_r.
Qed.

Lemma word_byte a b c e i : 0 <= a < 2 ^ 8 -> 0 <= b < 2 ^ 8 -> 0 <= c < 2 ^ 8 -> 0 <= e < 2 ^ 8 -> 0 <= i < 4 ->
  u8 (Z.shiftr (a + b * 2 ^ 8 + c * 2 ^ 16 + e * 2 ^ 24) (8 * i)) = if i =? 0 then a else if i =? 1 then b else if i =? 2 then c else e.
Proof.
  intros. unfold u8. rewrite Z.shiftr_div_pow2 by lia. assert (i = 0 \/ i = 1 \/ i = 2 \/ i = 3) as [->|[->|[->| ->]]] by lia; cbn [Z.mul Z.eqb Pos.eqb];
    [change (2 ^ 0) with 1|change (2 ^ Z.pos (8 * 1)) with (2 ^ 8)|change (2 ^ Z.pos (8 * 2)) with (2 ^ 16)|change (2 ^ Z.pos (8 * 3)) with (2 ^ 24)]; lia.
Qed.

Lemma copy4_ok d src s : exists s', copy4 d src s = Ret tt s' /\ blk_set s s' d 4 (fun i => peek s (src + i)).
Proof.
  destruct (write32_ok d (peek s src + peek s (src + 1) * 2 ^ 8 + peek s (src + 2) * 2 ^ 16 + peek s (src + 3) * 2 ^ 24) s) as (s' & E & H).
  exists s'. split; [exact E|]. intros k. rewrite H. case_decide as Hk; [|done]. rewrite word_byte by (apply peek_byte || lia).
  assert (k - d = 0 \/ k - d = 1 \/ k - d = 2 \/ k - d = 3) as [E1|[E1|[E1|E1]]] by lia; rewrite E1; cbn; by rewrite ?Z.add_0_r.
Qed.

(** [n] elements of size [w] moved up or down. *)
Section Move.
Context (copy : Z -> Z -> M S unit) (w : Z) (Hw : w = 1 \/ w = 4).
Context (Hc : forall d src s, exists s', copy d src s = Ret tt s' /\ blk_set s s' d w (fun i => peek s (src + i))).

Lemma movs_up s d src n : 0 <= n < 2 ^ 32 -> d <= src \/ src + n * w <= d ->
  exists s', rep_movs copy w d src n s = Ret tt s' /\ blk_set s s' d (n * w) (fun i => peek s (src + i)).
Proof.
  intros Hn Hov. destruct (loop_inv (fun '(d, s, n) => if n =? 0 then break tt else copy d s ;;! next (d + w, s + w, n - 1))
    (fun m '(d', s', n') st => m = n' /\ 0 <= n' <= n /\ d' = d + (n - n') * w /\ s' = src + (n - n') * w
       /\ blk_set s st d ((n - n') * w) (fun i => peek s (src + i)))
    (fun _ st => blk_set s st d (n * w) (fun i => peek s (src + i)))) with (m := n) (x := (d, src, n)) (s := s) as ([] & st & E & H); [| |lia|by exists st].
  - intros m [[d' s'] n'] st (-> & Hn' & -> & -> & HB). split; [lia|]. destruct (Z.eqb_spec n' 0) as [->|Hz]; [exists (inr tt), st; split; [done|]; by rewrite Z.sub_0_r in HB|].
    destruct (Hc (d + (n - n') * w) (src + (n - n') * w) st) as (st' & E & HB'). exists (inl (d + (n - n') * w + w, src + (n - n') * w + w, n' - 1)), st'.
    split; [by rewrite (bind_ret _ _ _ _ _ E)|]. exists (n' - 1). split; [lia|]. split; [lia|]. split; [lia|]. split; [destruct Hw as [-> | ->]; lia|]. split; [destruct Hw as [-> | ->]; lia|].
    intros k. rewrite HB', !HB. destruct Hw as [-> | ->]; repeat case_decide; try done; try lia; f_equal; lia.
  - split; [done|]. split; [lia|]. split; [lia|]. split; [lia|]. intros k. by rewrite decide_False by lia.
Qed.

Lemma movs_down s d src n : 0 <= n < 2 ^ 32 -> src <= d ->
  exists s', rep_movs copy (- w) (d + n * w - w) (src + n * w - w) n s = Ret tt s' /\ blk_set s s' d (n * w) (fun i => peek s (src + i)).
Proof.
  intros Hn Hov. destruct (loop_inv (fun '(d, s, n) => if n =? 0 then break tt else copy d s ;;! next (d + - w, s + - w, n - 1))
    (fun m '(d', s', n') st => m = n' /\ 0 <= n' <= n /\ d' = d + n' * w - w /\ s' = src + n' * w - w
       /\ forall k, peek st k = if decide (d + n' * w <= k < d + n * w) then peek s (src + (k - d)) else peek s k)
    (fun _ st => blk_set s st d (n * w) (fun i => peek s (src + i)))) with (m := n) (x := (d + n * w - w, src + n * w - w, n)) (s := s) as ([] & st & E & H); [| |lia|by exists st].
  - intros m [[d' s'] n'] st (-> & Hn' & -> & -> & HB). split; [lia|]. destruct (Z.eqb_spec n' 0) as [->|Hz]; [exists (inr tt), st; split; [done|]; by rewrite Z.mul_0_l, Z.add_0_r in HB|].
    destruct (Hc (d + n' * w - w) (src + n' * w - w) st) as (st' & E & HB'). exists (inl (d + n' * w - w + - w, src + n' * w - w + - w, n' - 1)), st'.
    split; [by rewrite (bind_ret _ _ _ _ _ E)|]. exists (n' - 1). split; [lia|]. split; [lia|]. split; [lia|]. split; [destruct Hw as [-> | ->]; lia|]. split; [destruct Hw as [-> | ->]; lia|].
    intros k. rewrite HB', !HB. destruct Hw as [-> | ->]; repeat case_decide; try done; try lia; f_equal; lia.
  - split; [done|]. split; [lia|]. split; [lia|]. split; [lia|]. intros k. by rewrite decide_False by lia.
Qed.
End Move.

(** [n] elements of size [w] stored. *)
Lemma stos_ok (store : Z -> M S unit) w f s d n : w = 1 \/ w = 4 -> 
  (forall d s, exists s', store d s = Ret tt s' /\ blk_set s s' d w f) -> (forall i, 0 <= i < w -> f i = f 0) -> 0 <= n < 2 ^ 32 ->
  exists s', rep_stos store w d n s = Ret tt s' /\ blk_set s s' d (n * w) (fun _ => f 0).
Proof.
  intros Hw Hc Hf Hn. destruct (loop_inv (fun '(d, n) => if n =? 0 then break tt else store d ;;! next (d + w, n - 1))
    (fun m '(d', n') st => m = n' /\ 0 <= n' <= n /\ d' = d + (n - n') * w /\ blk_set s st d ((n - n') * w) (fun _ => f 0))
    (fun _ st => blk_set s st d (n * w) (fun _ => f 0))) with (m := n) (x := (d, n)) (s := s) as ([] & st & E & H); [| |lia|by exists st].
  - intros m [d' n'] st (-> & Hn' & -> & HB). split; [lia|]. destruct (Z.eqb_spec n' 0) as [->|Hz]; [exists (inr tt), st; split; [done|]; by rewrite Z.sub_0_r in HB|].
    destruct (Hc (d + (n - n') * w) st) as (st' & E & HB'). exists (inl (d + (n - n') * w + w, n' - 1)), st'.
    split; [by rewrite (bind_ret _ _ _ _ _ E)|]. exists (n' - 1). split; [lia|]. split; [lia|]. split; [lia|]. split; [destruct Hw as [-> | ->]; lia|].
    intros k. rewrite HB', !HB. destruct Hw as [-> | ->]; repeat case_decide; try done; try lia; apply Hf; lia.
  - split; [done|]. split; [lia|]. split; [lia|]. intros k. by rewrite decide_False by lia.
Qed.

Lemma cwrite_blk c d s : exists s', cwrite d c s = Ret tt s' /\ blk_set s s' d 1 (fun _ => u8 c).
Proof. exists (poke_at d c s). split; [done|]. intros k. rewrite peek_poke. repeat case_decide; try done; lia. Qed.

(** Four times the same byte. *)
Lemma word4 c i : 0 <= i < 4 -> let x := Z.land c 0xFF in
  u8 (Z.shiftr (Z.lor (Z.lor (Z.lor (Z.shiftl x 24) (Z.shiftl x 16)) (Z.shiftl x 8)) x) (8 * i)) = u8 c.
Proof.
  intros Hi x. assert (0 <= x < 2 ^ 8) as Hx by (unfold x; change 0xFF with (Z.ones 8); rewrite Z.land_ones by lia; lia).
  assert (u8 c = x) as -> by (unfold x, u8; change 0xFF with (Z.ones 8); by rewrite Z.land_ones by lia).
  rewrite !Z.shiftl_mul_pow2 by lia.
  assert (Z.lor (Z.lor (Z.lor (x * 2 ^ 24) (x * 2 ^ 16)) (x * 2 ^ 8)) x = x + x * 2 ^ 8 + x * 2 ^ 16 + x * 2 ^ 24) as ->.
  { rewrite (lor_disjoint_add x (x * 2 ^ 16) 24) by lia. replace (x * 2 ^ 24 + x * 2 ^ 16) with ((x * 2 ^ 8 + x) * 2 ^ 16) by lia.
    rewrite (lor_disjoint_add _ (x * 2 ^ 8) 16) by lia. replace ((x * 2 ^ 8 + x) * 2 ^ 16 + x * 2 ^ 8) with ((x * 2 ^ 16 + x * 2 ^ 8 + x) * 2 ^ 8) by lia.
    rewrite (lor_disjoint_add _ x 8) by lia. lia. }
  rewrite word_byte by done. repeat case_match; done.
Qed.

Lemma blk_set_ext s s' d n m f g : blk_set s s' d n f -> n = m -> (forall i, 0 <= i < n -> f i = g i) -> blk_set s s' d m g.
Proof. intros H -> Hg k. rewrite H. case_decide; [apply Hg; lia|done]. Qed.

Lemma memset_ok s v c n : 0 <= n < 2 ^ 32 -> exists s', memset v c n s = Ret v s' /\ blk_set s s' v n (fun _ => u8 c).
Proof.
  intros Hn. unfold memset. destruct (Z.eqb_spec n 0) as [->|Hz]; [exists s; split; [done|]; intros k; by rewrite decide_False by lia|].
  destruct (aligned v && (n mod 4 =? 0)) eqn:Ea.
  - reflect_bools. destruct (stos_ok (fun p => write32 p (Z.lor (Z.lor (Z.lor (Z.shiftl (Z.land c 255) 24) (Z.shiftl (Z.land c 255) 16)) (Z.shiftl (Z.land c 255) 8)) (Z.land c 255))) 4 _ s v (n / 4)
      ltac:(by right) (fun d s => write32_ok d _ s)) as (s' & E & HB); [intros i Hi; by rewrite !word4 by lia|lia|].
    exists s'. cbv zeta. rewrite (bind_ret _ _ _ _ _ E). split; [done|]. eapply blk_set_ext; [exact HB|lia|]. intros i Hi. by apply word4.
  - destruct (stos_ok (fun p => cwrite p c) 1 _ s v n ltac:(by left) (cwrite_blk c)) as (s' & E & HB); [done|lia|].
    exists s'. rewrite (bind_ret _ _ _ _ _ E). split; [done|]. eapply blk_set_ext; [exact HB|lia|done].
Qed.

Lemma memmove_ok s dst src n : 0 <= n < 2 ^ 32 -> exists s', memmove dst src n s = Ret dst s' /\ blk_set s s' dst n (fun i => peek s (src + i)).
Proof.
  intros Hn. unfold memmove. destruct ((src <? dst) && (dst <? src + n)) eqn:Eo; cbv zeta.
  - reflect_bools. destruct (aligned (src + n) && aligned (dst + n) && (n mod 4 =? 0)) eqn:Ea.
    + reflect_bools. destruct (movs_down copy4 4 ltac:(by right) copy4_ok s dst src (n / 4) ltac:(lia) ltac:(lia)) as (s' & E & HB).
      replace (n / 4 * 4) with n in * by lia. exists s'. by rewrite (bind_ret _ _ _ _ _ E).
    + destruct (movs_down copy1 1 ltac:(by left) copy1_ok s dst src n ltac:(lia) ltac:(lia)) as (s' & E & HB). rewrite Z.mul_1_r in *. exists s'. by rewrite (bind_ret _ _ _ _ _ E).
  - assert (dst <= src \/ src + n <= dst) as Hov by (apply andb_false_iff in Eo as [Eo|Eo]; apply Z.ltb_ge in Eo; lia).
    destruct (aligned src && aligned dst && (n mod 4 =? 0)) eqn:Ea.
    + reflect_bools. destruct (movs_up copy4 4 ltac:(by right) copy4_ok s dst src (n / 4) ltac:(lia) ltac:(lia)) as (s' & E & HB).
      replace (n / 4 * 4) with n in * by lia. exists s'. by rewrite (bind_ret _ _ _ _ _ E).
    + destruct (movs_up copy1 1 ltac:(by left) copy1_ok s dst src n ltac:(lia) ltac:(lia)) as (s' & E & HB). rewrite Z.mul_1_r in *. exists s'. by rewrite (bind_ret _ _ _ _ _ E).
Qed.

Lemma memset_c_ok s v c n : 0 <= n < 2 ^ 31 -> exists s', memset_c v c n s = Ret v s' /\ blk_set s s' v n (fun _ => u8 c).
Proof.
  intros Hn. unfold memset_c. rewrite s32_small by done.
  destruct (loop_inv (fun '(p, m) => let m := m - 1 in if m <? 0 then break tt else cwrite p c ;;! next (p + 1, m))
    (fun m '(p, n') st => m = n' /\ 0 <= n' <= n /\ p = v + (n - n') /\ blk_set s st v (n - n') (fun _ => u8 c))
    (fun _ st => blk_set s st v n (fun _ => u8 c))) with (m := n) (x := (v, n)) (s := s) as ([] & st & E & H); [| |lia|exists st; by rewrite (bind_ret _ _ _ _ _ E)].
  - intros m [p n'] st (-> & Hn' & -> & HB). split; [lia|]. cbv zeta. destruct (Z.ltb_spec (n' - 1) 0) as [Hz|Hz].
    { exists (inr tt), st. split; [done|]. by replace (n - n') with n in HB by lia. }
    destruct (cwrite_blk c (v + (n - n')) st) as (st' & E & HB'). eexists _, st'. split; [by rewrite (bind_ret _ _ _ _ _ E)|]. exists (n' - 1). split; [lia|]. split; [done|]. split; [lia|]. split; [lia|].
    intros k. rewrite HB', !HB. repeat case_decide; try done; lia.
  - split; [done|]. split; [lia|]. split; [lia|]. intros k. by rewrite decide_False by lia.
Qed.

Lemma memmove_c_ok s dst src n : 0 <= n < 2 ^ 32 -> exists s', memmove_c dst src n s = Ret dst s' /\ blk_set s s' dst n (fun i => peek s (src + i)).
Proof.
  intros Hn. unfold memmove_c. destruct ((src <? dst) && (dst <? src + n)) eqn:Eo.
  - reflect_bools. destruct (loop_inv (fun '(d, s, n) => if n <=? 0 then break tt else copy1 (d - 1) (s - 1) ;;! next (d - 1, s - 1, n - 1))
      (fun m '(d', s', n') st => m = n' /\ 0 <= n' <= n /\ d' = dst + n' /\ s' = src + n'
         /\ forall k, peek st k = if decide (dst + n' <= k < dst + n) then peek s (src + (k - dst)) else peek s k)
      (fun _ st => blk_set s st dst n (fun i => peek s (src + i)))) with (m := n) (x := (dst + n, src + n, n)) (s := s) as ([] & st & E & HB); [| |lia|exists st; by rewrite (bind_ret _ _ _ _ _ E)].
    + intros m [[d' s'] n'] st (-> & Hn' & -> & -> & HB). split; [lia|]. destruct (Z.leb_spec n' 0) as [Hz|Hz].
      { exists (inr tt), st. split; [done|]. assert (n' = 0) as -> by lia. by rewrite Z.add_0_r in HB. }
      destruct (copy1_ok (dst + n' - 1) (src + n' - 1) st) as (st' & E & HB'). eexists _, st'. split; [by rewrite (bind_ret _ _ _ _ _ E)|]. exists (n' - 1). split; [lia|]. split; [done|]. split; [lia|]. split; [lia|]. split; [lia|].
      intros k. rewrite HB', !HB. repeat case_decide; try done; try lia; f_equal; lia.
    + split; [done|]. split; [lia|]. split; [lia|]. split; [lia|]. intros k. by rewrite decide_False by lia.
  - assert (dst <= src \/ src + n <= dst) as Hov by (apply andb_false_iff in Eo as [Eo|Eo]; apply Z.ltb_ge in Eo; lia).
    destruct (loop_inv (fun '(d, s, n) => if n <=? 0 then break tt else copy1 d s ;;! next (d + 1, s + 1, n - 1))
      (fun m '(d', s', n') st => m = n' /\ 0 <= n' <= n /\ d' = dst + (n - n') /\ s' = src + (n - n') /\ blk_set s st dst (n - n') (fun i => peek s (src + i)))
      (fun _ st => blk_set s st dst n (fun i => peek s (src + i)))) with (m := n) (x := (dst, src, n)) (s := s) as ([] & st & E & HB); [| |lia|exists st; by rewrite (bind_ret _ _ _ _ _ E)].
    + intros m [[d' s'] n'] st (-> & Hn' & -> & -> & HB). split; [lia|]. destruct (Z.leb_spec n' 0) as [Hz|Hz].
      { exists (inr tt), st. split; [done|]. by replace (n - n') with n in HB by lia. }
      destruct (copy1_ok (dst + (n - n')) (src + (n - n')) st) as (st' & E & HB'). eexists _, st'. split; [by rewrite (bind_ret _ _ _ _ _ E)|]. exists (n' - 1). split; [lia|]. split; [done|]. split; [lia|]. split; [lia|]. split; [lia|].
      intros k. rewrite HB', !HB. repeat case_decide; try done; try lia; f_equal; lia.
    + split; [done|]. split; [lia|]. split; [lia|]. split; [lia|]. intros k. by rewrite decide_False by lia.
Qed.

(** * Comparison *)

(** The difference of the first bytes that differ, terminators included. *)
Fixpoint str_diff (a b : list Z) : Z :=
  match a, b with
  | x :: a, y :: b => if x =? y then str_diff a b else x - y
  | _, _ => default 0 (head a) - default 0 (head b)
  end.

Lemma cstr_head s p str : cstr s p str -> peek s p = default 0 (head str).
Proof. destruct str as [|c str]; cbn; [done|tauto]. Qed.

Lemma strcmp_ok a b s p q : cstr s p a -> cstr s q b -> len a < 2 ^ 32 -> strcmp p q s = Ret (str_diff a b) s.
Proof.
  intros Ha Hb Hl. apply (loop_pure _ (fun m '(p, q) r => exists a' b', m = len a' /\ cstr s p a' /\ cstr s q b' /\ r = str_diff a' b') s) with (m := len a); [|by exists a, b|lia].
  clear. intros m [p q] r (a & b & -> & Ha & Hb & ->). split; [lia|]. reads. rewrite (cstr_head s p a Ha), (cstr_head s q b Hb). destruct a as [|x a]; [by exists (inr (str_diff [] b)); destruct b|].
  destruct Ha as (_ & Hx & Ha). simpl. rewrite (proj2 (Z.eqb_neq x 0) Hx). destruct b as [|y b]; simpl.
  - rewrite (proj2 (Z.eqb_neq x 0) Hx). by eexists.
  - destruct Hb as (_ & Hy & Hb). cbn. destruct (x =? y); [|by eexists]. eexists. split; [done|]. exists (len a). split; [lia|]. by exists a, b.
Qed.

(** Equality of strings is what [strcmp] decides. *)
Lemma str_diff_eq a : forall b, Forall (fun c => c <> 0) a -> Forall (fun c => c <> 0) b -> str_diff a b = 0 <-> a = b.
Proof.
  induction a as [|x a IH]; intros b Ha Hb; (destruct b as [|y b]; cbn; [try done|]); rewrite ?Forall_cons in *.
  - split; [lia|done].
  - split; [lia|done].
  - destruct (Z.eqb_spec x y) as [->|Hxy]; [|split; [lia|congruence]]. rewrite IH by tauto. split; [by intros ->|congruence].
Qed.

(** * Copying a string *)

Lemma cstr_nth str : forall s p i, cstr s p str -> 0 <= i <= len str -> peek s (p + i) = nth (Z.to_nat i) (str ++ [0]) 0 /\ (i < len str -> nth (Z.to_nat i) (str ++ [0]) 0 <> 0).
Proof.
  induction str as [|c str IH]; intros s p i Hs Hi; cbn [cstr length app] in *.
  - assert (i = 0) as -> by lia. rewrite Z.add_0_r. split; [done|lia].
  - destruct (decide (i = 0)) as [->|Hz]; [rewrite Z.add_0_r; split; [apply Hs|intros _; apply Hs]|]. destruct Hs as (_ & _ & Hs). destruct (IH s (p + 1) (i - 1) Hs ltac:(lia)) as [E Hn].
    replace (Z.to_nat i) with (Datatypes.S (Z.to_nat (i - 1))) by lia. replace (p + i) with (p + 1 + (i - 1)) by lia. split; [done|]. intros Hl. apply Hn. lia.
Qed.

(** The longest prefix that fits, terminated; the source must not overlap. *)
Lemma strlcpy_ok str s dst src size : cstr s src str -> 0 < size < 2 ^ 32 -> src + len str < dst \/ dst + size <= src ->
  exists s', strlcpy dst src size s = Ret (Z.min (size - 1) (len str)) s'
    /\ blk_set s s' dst (Z.min (size - 1) (len str) + 1) (fun i => nth (Z.to_nat i) (take (Z.to_nat (Z.min (size - 1) (len str))) str ++ [0]) 0).
Proof.
  intros Hs Hz Hov. unfold strlcpy. rewrite (proj2 (Z.ltb_lt 0 size)) by lia. set (n := Z.min (size - 1) (len str)).
  destruct (loop_inv (fun '(d, s, size) => let size := size - 1 in if size <=? 0 then break d else let! c := cread s in if c =? 0 then break d else cwrite d c ;;! next (d + 1, s + 1, size))
    (fun m '(d, q, z) st => m = z /\ 0 < z /\ 0 <= size - z <= n /\ d = dst + (size - z) /\ q = src + (size - z) /\ blk_set s st dst (size - z) (fun i => nth (Z.to_nat i) (str ++ [0]) 0))
    (fun d st => d = dst + n /\ blk_set s st dst n (fun i => nth (Z.to_nat i) (str ++ [0]) 0))) with (m := size) (x := (dst, src, size)) (s := s) as (d & st & E & -> & HB); [| |lia|].
  - intros m [[d q] z] st (-> & Hz' & Hi & -> & -> & HB). split; [lia|]. cbv zeta. destruct (Z.leb_spec (z - 1) 0) as [Hle|Hlt].
    { eexists (inr _), st. split; [done|]. assert (size - z = n) as <- by lia. done. }
    destruct (cstr_nth str s src (size - z) Hs ltac:(lia)) as [E Hn]. rewrite (bind_ret _ _ _ _ _ (cread_ok _ st)), HB, decide_False, E by lia. destruct (Z.eqb_spec (nth (Z.to_nat (size - z)) (str ++ [0]) 0) 0) as [Ez|Hnz].
    + eexists (inr _), st. split; [done|]. assert (size - z = n) as <- by (destruct (decide (size - z < len str)); [by apply Hn in Ez|lia]). done.
    + destruct (cwrite_blk (nth (Z.to_nat (size - z)) (str ++ [0]) 0) (dst + (size - z)) st) as (st' & E' & HB'). eexists (inl _), st'. split; [by rewrite (bind_ret _ _ _ _ _ E')|].
      assert (size - z <> len str) as Hne.
      { intros E1. rewrite E1 in Hnz. apply Hnz. rewrite Nat2Z.id, app_nth2, Nat.sub_diag by lia. done. }
      exists (z - 1). split; [lia|]. split; [done|]. split; [lia|]. split; [lia|]. split; [lia|]. split; [lia|]. intros k. rewrite HB', HB, <- E, byte_of. repeat case_decide; try done; try lia. rewrite E. f_equal. f_equal. lia.
  - split; [done|]. split; [lia|]. split; [lia|]. split; [lia|]. split; [lia|]. intros k. by rewrite decide_False by lia.
  - rewrite (bind_ret _ _ _ _ _ E). destruct (cwrite_blk 0 (dst + n) st) as (st' & E' & HB'). rewrite (bind_ret _ _ _ _ _ E'). exists st'. split; [unfold ret; f_equal; lia|].
    assert (length (take (Z.to_nat n) str) = Z.to_nat n) as Hl by (rewrite length_take; lia).
    intros k. rewrite HB', HB. repeat case_decide; try done; try lia.
    + rewrite app_nth2 by lia. by replace (Z.to_nat (k - dst) - length (take (Z.to_nat n) str))%nat with 0%nat by lia.
    + rewrite !app_nth1 by lia. rewrite <- (take_drop (Z.to_nat n) str) at 1. by rewrite app_nth1 by lia.
Qed.

(** * Numbers *)

(** Digits of base [base], and their value. *)
Definition is_digit (base c : Z) : Prop := match digit c with Some d => 0 <= d < base | None => False end.
Definition value (base : Z) (ds : list Z) : Z := fold_left (fun v c => v * base + default 0 (digit c)) ds 0.

Lemma s32_idem x y b : s32 (s32 x * b + y) = s32 (x * b + y).
Proof.
  unfold s32 at 1 3. assert (u32 (s32 x * b + y) = u32 (x * b + y)) as ->; [|done]. pose proof (s32_u32 x) as H. unfold u32 in *.
  rewrite <- (Z.add_mod_idemp_l (s32 x * b)), <- (Z.mul_mod_idemp_l (s32 x)), H, Z.mul_mod_idemp_l, Z.add_mod_idemp_l by lia. done.
Qed.

Lemma s32_same x : - 2 ^ 31 <= x < 2 ^ 31 -> s32 x = x.
Proof. intros H. unfold s32, u32. destruct (Z.ltb_spec (x mod 2 ^ 32) (2 ^ 31)); lia. Qed.

Lemma strtol_digits_ok ds rest s p base : cstr s p (ds ++ rest) -> Forall (is_digit base) ds -> ~ is_digit base (default 0 (head rest)) -> len ds < 2 ^ 32 ->
  strtol_digits p base s = Ret (p + len ds, s32 (value base ds)) s.
Proof.
  intros Hs Hd Hr Hl. apply (loop_pure _ (fun m '(q, v) r => exists ds' v', m = len ds' /\ cstr s q (ds' ++ rest) /\ Forall (is_digit base) ds' /\ v = s32 v'
      /\ r = (q + len ds', s32 (fold_left (fun v c => v * base + default 0 (digit c)) ds' v'))) s) with (m := len ds); [|by exists ds, 0|lia].
  clear ds p Hs Hd Hl. intros m [q v] r (ds & v' & -> & Hs & Hd & -> & ->). split; [lia|]. reads. rewrite (cstr_head s q _ Hs). destruct ds as [|c ds]; cbn [app] in *.
  - unfold is_digit in Hr. rewrite Z.add_0_r. destruct (digit (default 0 (head rest))) as [d|] eqn:Ed; [|by eexists].
    assert (0 <= d) as Hd0. { unfold digit in Ed. repeat case_match; simplify_eq; reflect_bools; lia. }
    cbv beta iota. rewrite (proj2 (Z.leb_le base d)) by lia. by eexists.
  - destruct Hs as (_ & _ & Hs). apply Forall_cons in Hd as [Hc Hd]. unfold is_digit in Hc. change (default 0 (head (c :: ds ++ rest))) with c. cbn [fold_left]. destruct (digit c) as [d|]; [|done].
    cbv beta iota. rewrite (proj2 (Z.leb_gt base d)) by lia. eexists. split; [done|]. exists (len ds). split; [cbn [length]; lia|]. exists ds, (v' * base + d). split_and!; [done|done|done|apply s32_idem|].
    cbn [length]. f_equal. lia.
Qed.

Lemma skip_space_ok ws rest s p : cstr s p (ws ++ rest) -> Forall (fun c => c = 32 \/ c = 9) ws -> default 0 (head rest) <> 32 -> default 0 (head rest) <> 9 -> len ws < 2 ^ 32 ->
  loop p (fun s => let! c := cread s in if (c =? 32) || (c =? 9) then next (s + 1) else break s) s = Ret (p + len ws) s.
Proof.
  intros Hs Hw H1 H2 Hl. apply (loop_pure _ (fun m q r => exists ws', m = len ws' /\ cstr s q (ws' ++ rest) /\ Forall (fun c => c = 32 \/ c = 9) ws' /\ r = q + len ws') s) with (m := len ws); [|by exists ws|lia].
  clear ws p Hs Hw Hl. intros m q r (ws & -> & Hs & Hw & ->). split; [lia|]. reads. rewrite (cstr_head s q _ Hs). destruct ws as [|c ws]; cbn [app] in *.
  - rewrite (proj2 (Z.eqb_neq _ _) H1), (proj2 (Z.eqb_neq _ _) H2). cbn [orb]. eexists. split; [done|]. cbn [length]. lia.
  - destruct Hs as (_ & _ & Hs). apply Forall_cons in Hw as [Hc Hw]. change (default 0 (head (c :: ws ++ rest))) with c. assert ((c =? 32) || (c =? 9) = true) as -> by (destruct Hc as [-> | ->]; done).
    eexists. split; [done|]. exists (len ws). split; [cbn [length]; lia|]. exists ws. split_and!; try done. cbn [length]. lia.
Qed.

Lemma cstr_app a : forall s p b, cstr s p (a ++ b) -> cstr s (p + len a) b.
Proof.
  induction a as [|c a IH]; intros s p b Hs; cbn [app length cstr] in *; [by rewrite Z.add_0_r|]. destruct Hs as (_ & _ & Hs). apply IH in Hs.
  by replace (p + Z.of_nat (Datatypes.S (length a))) with (p + 1 + len a) by lia.
Qed.

(** A number after white space and a sign, in a given base. *)
Definition sign_of (sg : list Z) : Prop := sg = [] \/ sg = [43] \/ sg = [45].

Lemma digit_char base c : is_digit base c -> digit c <> None /\ c <> 32 /\ c <> 9 /\ c <> 43 /\ c <> 45.
Proof.
  unfold is_digit. intros H. destruct (digit c) eqn:E; [|done]. split; [done|]. split_and!; intros ->; done.
Qed.

Lemma strtol_ok ws sg ds rest s p base : cstr s p (ws ++ sg ++ ds ++ rest) -> Forall (fun c => c = 32 \/ c = 9) ws -> sign_of sg -> ds <> [] -> Forall (is_digit base) ds ->
  ~ is_digit base (default 0 (head rest)) -> base <> 0 -> (base = 16 -> ds = [48] -> default 0 (head rest) <> 120) -> len ws + len ds < 2 ^ 32 ->
  strtol p base s = Ret (if decide (sg = [45]) then s32 (- s32 (value base ds)) else s32 (value base ds), p + len (ws ++ sg ++ ds)) s.
Proof.
  intros Hs Hw Hsg Hne Hd Hr Hb Hx Hl. destruct ds as [|c ds]; [done|]. apply Forall_cons in Hd as [Hc Hd]. destruct (digit_char base c Hc) as (_ & C1 & C2 & C3 & C4).
  unfold strtol. rewrite (bind_ret _ _ _ _ _ (skip_space_ok ws (sg ++ (c :: ds) ++ rest) s p Hs Hw ltac:(destruct Hsg as [->|[->| ->]]; done) ltac:(destruct Hsg as [->|[->| ->]]; done) ltac:(lia))).
  pose proof (cstr_app _ _ _ _ Hs) as Hs1. pose proof (cstr_app _ _ _ _ Hs1) as Hs2. set (q := p + len ws) in *. rewrite (bind_ret _ _ _ _ _ (cread_ok q s)), (cstr_head s q _ Hs1).
  assert ((if (default 0 (head (sg ++ (c :: ds) ++ rest)) =? 43) || (default 0 (head (sg ++ (c :: ds) ++ rest)) =? 45) then q + 1 else q) = q + len sg
    /\ (default 0 (head (sg ++ (c :: ds) ++ rest)) =? 45) = bool_decide (sg = [45])) as [-> ->].
  { destruct Hsg as [->|[->| ->]]; simpl; [rewrite (proj2 (Z.eqb_neq c 43) C3), (proj2 (Z.eqb_neq c 45) C4)| |]; split; (done || (cbn; lia)). }
  set (r := q + len sg) in *. rewrite (bind_ret _ _ _ _ _ (cread_ok r s)), (cstr_head s r _ Hs2). change (default 0 (head ((c :: ds) ++ rest))) with c.
  rewrite (bind_ret (if (base =? 0) || (base =? 16) then _ else _) _ s false s).
  - rewrite (proj2 (Z.eqb_neq base 0) Hb). cbn [andb]. pose proof (strtol_digits_ok (c :: ds) rest s r base Hs2 ltac:(by constructor) Hr ltac:(lia)) as E.
    rewrite (bind_ret _ _ _ _ _ E). unfold ret. rewrite !length_app. replace (r + len (c :: ds)) with (p + Z.of_nat (length ws + (length sg + length (c :: ds)))) by lia.
    case_decide; [by rewrite bool_decide_eq_true_2|by rewrite bool_decide_eq_false_2].
  - destruct ((base =? 0) || (base =? 16)) eqn:E16; [|done]. destruct (Z.eqb_spec c 48) as [->|]; [|done]. rewrite (bind_ret _ _ _ _ _ (cread_ok (r + 1) s)). unfold ret. f_equal. apply Z.eqb_neq.
    assert (base = 16) as -> by (apply orb_true_iff in E16 as [E|E]; apply Z.eqb_eq in E; lia). destruct Hs2 as (_ & _ & Hs2). rewrite (cstr_head s (r + 1) _ Hs2).
    destruct ds as [|d ds]; [by apply Hx|]. apply Forall_cons in Hd as [Hd _]. intros E. simpl in E. subst d. change (0 <= 33 < 16) in Hd. lia.
Qed.
End Specs.

(** C30: [memmove] with the string instructions, four bytes or one at a time,
    upwards or downwards, does what the loops in C do that the source has next
    to it: however the two blocks overlap, the destination gets the bytes the
    source had before, and no other byte changes. *)
Theorem memmove_versions_agree {S} `{!Memory S} (s : S) dst src n : 0 <= n < 2 ^ 32 ->
  exists s1 s2, memmove dst src n s = Ret dst s1 /\ memmove_c dst src n s = Ret dst s2
    /\ blk_set s s1 dst n (fun i => peek s (src + i)) /\ forall k, peek s1 k = peek s2 k.
Proof.
  intros Hn. destruct (memmove_ok s dst src n Hn) as (s1 & E1 & H1). destruct (memmove_c_ok s dst src n Hn) as (s2 & E2 & H2).
  exists s1, s2. split; [done|]. split; [done|]. split; [done|]. intros k. by rewrite H1, H2.
Qed.

(** Eight bytes moved up by four, onto their own second half. *)
Definition demo_block : gmap Z Z := list_to_map (zip (seqZ 16 8) [1; 2; 3; 4; 5; 6; 7; 8]).

Lemma memmove_versions_agree_witness : exists s1 s2 : gmap Z Z, memmove 20 16 8 demo_block = Ret 20 s1 /\ memmove_c 20 16 8 demo_block = Ret 20 s2
  /\ blk_set demo_block s1 20 8 (fun i => peek demo_block (16 + i)) /\ forall k, peek s1 k = peek s2 k.
Proof. apply (memmove_versions_agree demo_block 20 16 8). lia. Defined.
