(* ===== verification/Printf.v ===== *)
(** lib/printfmt.c, and the printers on top of it: kern/printf.c, lib/printf.c
    and lib/fprintf.c.

    A format is a list of characters with its terminator behind the end, read
    by position, and reading anywhere else stops the model; so does taking an
    argument that was not passed. Arguments are the 32-bit words the caller
    pushed. A string argument is read from memory while it is printed, so a
    buffer that is printed into may overlap it. *)

From stdpp Require Import base numbers list gmap strings.
From Stdlib Require Import ZArith Lia Bool.
From S2P Require Import Prelude Mmu Str.

(** The characters of a string of this file. *)
Definition chars (s : string) : list Z := (fun b => Z.of_nat (Ascii.nat_of_ascii b)) <$> String.list_ascii_of_string s.

(** * Arguments *)

(** A word, or a string of the program itself. *)
Inductive arg := AWord (w : Z) | ALit (l : list Z).

(** A [const char *]: an address, or what is left of such a string. *)
Inductive cptr := Addr (a : Z) | Lit (l : list Z).

Definition s64 (x : Z) : Z := let v := u64 x in if v <? 2 ^ 63 then v else v - 2 ^ 64.

Section Args.
Context {S : Type} `{!Memory S}.

Definition va_word (ap : list arg) : M S (Z * list arg) :=
  match ap with
  | AWord w :: ap => ret (u32 w, ap)
  | _ => panic "va_arg"
  end.
Definition va_long_long (ap : list arg) : M S (Z * list arg) :=
  let! lo := va_word ap in
  let! hi := va_word lo.2 in
  ret (lo.1 + hi.1 * 2 ^ 32, hi.2).
(** The pointer, or [None] for NULL. *)
Definition va_ptr (ap : list arg) : M S (option cptr * list arg) :=
  match ap with
  | AWord w :: ap => ret (if u32 w =? 0 then None else Some (Addr (u32 w)), ap)
  | ALit l :: ap => ret (Some (Lit l), ap)
  | [] => panic "va_arg"
  end.

Definition pread (p : cptr) : M S Z := match p with Addr a => cread a | Lit l => ret (default 0 (head l)) end.
Definition pnext (p : cptr) : cptr := match p with Addr a => Addr (a + 1) | Lit l => Lit (tail l) end.
Definition pstrnlen (p : cptr) (size : Z) : M S Z :=
  match p with Addr a => strnlen a size | Lit l => ret (Z.min size (Z.of_nat (length l))) end.

(** An unsigned number, and a signed one as an [unsigned long long]. *)
Definition getuint (ap : list arg) (lflag : Z) : M S (Z * list arg) :=
  if 2 <=? lflag then va_long_long ap else va_word ap.
Definition getint (ap : list arg) (lflag : Z) : M S (Z * list arg) :=
  if 2 <=? lflag then va_long_long ap
  else
    let! r := va_word ap in
    ret (u64 (s32 r.1), r.2).
End Args.

Definition error_string (e : Z) : option (list Z) :=
  if e =? E_UNSPECIFIED then Some (chars "unspecified error")
  else if e =? E_BAD_ENV then Some (chars "bad environment")
  else if e =? E_INVAL then Some (chars "invalid parameter")
  else if e =? E_NO_MEM then Some (chars "out of memory")
  else if e =? E_NO_FREE_ENV then Some (chars "out of environments")
  else if e =? E_FAULT then Some (chars "segmentation fault")
  else if e =? E_IPC_NOT_RECV then Some (chars "env is not recving")
  else if e =? E_EOF then Some (chars "unexpected end of file")
  else if e =? E_NO_DISK then Some (chars "no free space on disk")
  else if e =? E_MAX_OPEN then Some (chars "too many files are open")
  else if e =? E_NOT_FOUND then Some (chars "file or block not found")
  else if e =? E_BAD_PATH then Some (chars "invalid path")
  else if e =? E_FILE_EXISTS then Some (chars "file already exists")
  else if e =? E_NOT_EXEC then Some (chars "file is not a valid executable")
  else if e =? E_NOT_SUPP then Some (chars "operation not supported")
  else None.

(** The local variables an escape sequence sets. *)
Record flags := mkFlags { padc : Z; width : Z; precision : Z; lflag : Z; altflag : bool }.
Definition flags0 : flags := mkFlags 32 (-1) (-1) 0 false.
Definition set_padc c f := mkFlags c (width f) (precision f) (lflag f) (altflag f).
Definition set_width w f := mkFlags (padc f) w (precision f) (lflag f) (altflag f).
Definition set_precision p f := mkFlags (padc f) (width f) p (lflag f) (altflag f).
Definition set_lflag l f := mkFlags (padc f) (width f) (precision f) l (altflag f).
Definition set_alt f := mkFlags (padc f) (width f) (precision f) (lflag f) true.

(** The label [process_precision]. *)
Definition process_precision (p : Z) (f : flags) : flags :=
  if width f <? 0 then set_precision (-1) (set_width p f) else set_precision p f.

(** * Formatting *)

Section Format.
Context {S : Type} `{!Memory S} (putch : Z -> M S unit).

(** [for (; w > 0; w--) putch(c)]: the width that is left. *)
Definition put_pad (c w : Z) : M S Z := loop w (fun w => if 0 <? w then putch c ;;! next (w - 1) else break w).

(** [while (--width > 0) putch(c)]. *)
Definition put_pad_first (c w : Z) : M S unit :=
  loop w (fun w => let w := s32 (w - 1) in if 0 <? w then putch c ;;! next w else break tt).

Definition hex_digits : list Z := chars "0123456789abcdef".

(** A number of 64 bits has at most 64 digits. *)
Fixpoint printnum_from (fuel : nat) (num base width padc : Z) : M S unit :=
  match fuel with
  | O => panic "printnum"
  | Datatypes.S k =>
      (if base <=? num then printnum_from k (num / base) base (s32 (width - 1)) padc
       else put_pad_first padc width) ;;!
      putch (nth (Z.to_nat (num mod base)) hex_digits 0)
  end.
Definition printnum (num base width padc : Z) : M S unit := printnum_from 64 num base width padc.

(** The format at a position, the terminator included. *)
Definition fchar (f : list Z) (i : Z) : M S Z :=
  if (0 <=? i) && (i <=? Z.of_nat (length f)) then ret (nth (Z.to_nat i) f 0) else panic "format".

(** The width field, with its first digit [ch] read already. *)
Definition get_precision (f : list Z) (i ch : Z) : M S (Z * Z) :=
  loop (i, 0, ch) (fun '(i, p, ch) =>
    let p := s32 (p * 10 + ch - 48) in
    let! c := fchar f i in
    let ch := s8 c in
    if (ch <? 48) || (57 <? ch) then break (i, p) else next (i + 1, p, ch)).

(** [case 's']: the characters, and the width that is left after them. *)
Definition put_chars (alt : bool) (p : cptr) (prec w : Z) : M S Z :=
  loop (p, prec, w) (fun '(p, prec, w) =>
    let! c := pread p in
    let ch := s8 c in
    if c =? 0 then break w
    else
      let more := (prec <? 0) || (0 <=? prec - 1) in
      let prec := if prec <? 0 then prec else prec - 1 in
      if more then
        (if alt && ((ch <? 32) || (126 <? ch)) then putch 63 else putch ch) ;;!
        next (pnext p, prec, s32 (w - 1))
      else break w).

Definition put_string (p : cptr) (fl : flags) : M S unit :=
  let! w :=
    if (0 <? width fl) && negb (padc fl =? 45) then
      let! n := pstrnlen p (u32 (precision fl)) in
      put_pad (padc fl) (s32 (width fl - n))
    else ret (width fl) in
  let! w := put_chars (altflag fl) p (precision fl) w in
  put_pad 32 w ;;!
  ret tt.

(** [default]: back to the character after the percent sign. *)
Definition unescape (f : list Z) (i : Z) : M S Z :=
  loop (i - 1) (fun i => let! c := fchar f (i - 1) in if c =? 37 then break i else next (i - 1)).

(** The nested call of [printfmt]. *)
Context (rec : list Z -> list arg -> M S unit).

(** [case 'e']. *)
Definition put_error (err : Z) : M S unit :=
  let err := if err <? 0 then s32 (- err) else err in
  if MAXERROR <=? err then rec (chars "error %d") [AWord err]
  else if err <? 0 then panic "error_string"
  else
    match error_string err with
    | None => rec (chars "error %d") [AWord err]
    | Some p => rec (chars "%s") [ALit p]
    end.

(** The conversion [ch], which ends an escape sequence; position [i] is the one
    after it. *)
Definition convert (ch : Z) (f : list Z) (i : Z) (ap : list arg) (fl : flags) : M S (Z * list arg) :=
  let number num base ap := printnum num base (width fl) (padc fl) ;;! ret (i, ap) in
  if ch =? 99 then
    let! r := va_word ap in
    putch (s32 r.1) ;;!
    ret (i, r.2)
  else if ch =? 101 then
    let! r := va_word ap in
    put_error (s32 r.1) ;;!
    ret (i, r.2)
  else if ch =? 115 then
    let! r := va_ptr ap in
    put_string (default (Lit (chars "(null)")) r.1) fl ;;!
    ret (i, r.2)
  else if ch =? 100 then
    let! r := getint ap (lflag fl) in
    let! num := (if s64 r.1 <? 0 then putch 45 ;;! ret (u64 (- s64 r.1)) else ret r.1) in
    number num 10 r.2
  else if ch =? 117 then
    let! r := getuint ap (lflag fl) in
    number r.1 10 r.2
  else if ch =? 111 then
    let! r := getuint ap (lflag fl) in
    number r.1 8 r.2
  else if ch =? 112 then
    putch 48 ;;!
    putch 120 ;;!
    let! r := va_word ap in
    number r.1 16 r.2
  else if ch =? 120 then
    let! r := getuint ap (lflag fl) in
    number r.1 16 r.2
  else if ch =? 37 then
    putch ch ;;!
    ret (i, ap)
  else
    putch 37 ;;!
    let! i := unescape f i in
    ret (i, ap).

(** The label [reswitch]: one character of an escape sequence. *)
Definition escape (f : list Z) '((i, ap, fl) : Z * list arg * flags) : M S (Z * list arg * flags + Z * list arg) :=
  let! ch := fchar f i in
  let i := i + 1 in
  if ch =? 45 then next (i, ap, set_padc 45 fl)
  else if ch =? 48 then next (i, ap, set_padc 48 fl)
  else if (49 <=? ch) && (ch <=? 57) then
    let! r := get_precision f i ch in
    next (r.1, ap, process_precision r.2 fl)
  else if ch =? 42 then
    let! r := va_word ap in
    next (i, r.2, process_precision (s32 r.1) fl)
  else if ch =? 46 then next (i, ap, if width fl <? 0 then set_width 0 fl else fl)
  else if ch =? 35 then next (i, ap, set_alt fl)
  else if ch =? 108 then next (i, ap, set_lflag (lflag fl + 1) fl)
  else
    let! r := convert ch f i ap fl in
    break r.
Definition reswitch (f : list Z) (i : Z) (ap : list arg) : M S (Z * list arg) := loop (i, ap, flags0) (escape f).

(** The characters up to the next percent sign: the position after it, or
    [None] at the end of the format. *)
Definition put_plain (f : list Z) (i : Z) : M S (option Z) :=
  loop i (fun i =>
    let! ch := fchar f i in
    if ch =? 37 then break (Some (i + 1))
    else if ch =? 0 then break None
    else putch ch ;;! next (i + 1)).

Definition vprintfmt_with (f : list Z) (ap : list arg) : M S unit :=
  loop (0, ap) (fun '(i, ap) =>
    let! r := put_plain f i in
    match r with
    | None => break tt
    | Some i =>
        let! r := reswitch f i ap in
        next r
    end).
End Format.

(** The formats [printfmt] is called with have no escape that calls it again. *)
Definition vprintfmt {S} `{!Memory S} (putch : Z -> M S unit) : list Z -> list arg -> M S unit :=
  vprintfmt_with putch (vprintfmt_with putch (fun _ _ => panic "printfmt")).

(** * Printing into a buffer *)

(** A function with a local structure [b] that [putch] is given the address
    of. *)
#[export] Program Instance local_memory {S B} `{!Memory S} : Memory (S * B) := {|
  peek s a := peek s.1 a;
  poke_at a v s := (poke_at a v s.1, s.2)
|}.
Next Obligation. intros S B HM [s b] a. apply peek_byte. Qed.
Next Obligation. intros S B HM [s b] a v k. apply peek_poke. Qed.

Definition with_local {S B A} (b : B) (m : M (S * B) A) : M S (A * B) := fun s =>
  match m (s, b) with
  | Ret a (s', b') => Ret (a, b') s'
  | Leave (s', _) => Leave s'
  | Panic msg (s', _) => Panic msg s'
  end.

Definition lift {S B A} (m : M S A) : M (S * B) A := fun '(s, b) =>
  match m s with
  | Ret a s' => Ret a (s', b)
  | Leave s' => Leave (s', b)
  | Panic msg s' => Panic msg (s', b)
  end.

Section Sprintf.
Context {S : Type} `{!Memory S}.

Record sprintbuf := mkSprintbuf { sb_buf : Z; sb_ebuf : Z; sb_cnt : Z }.

Definition sprintputch (ch : Z) : M (S * sprintbuf) unit :=
  modify (fun s => (s.1, mkSprintbuf (sb_buf s.2) (sb_ebuf s.2) (s32 (sb_cnt s.2 + 1)))) ;;!
  let! b := gets snd in
  if sb_buf b <? sb_ebuf b then
    cwrite (sb_buf b) ch ;;!
    modify (fun s => (s.1, mkSprintbuf (sb_buf b + 1) (sb_ebuf b) (sb_cnt b)))
  else ret tt.

Definition vsnprintf (buf n : Z) (fmt : list Z) (ap : list arg) : M S Z :=
  if (buf =? 0) || (n <? 1) then ret (- E_INVAL)
  else
    let! r := with_local (mkSprintbuf buf (buf + n - 1) 0) (vprintfmt sprintputch fmt ap) in
    cwrite (sb_buf r.2) 0 ;;!
    ret (sb_cnt r.2).

Definition snprintf (buf n : Z) (fmt : list Z) (args : list arg) : M S Z := vsnprintf buf n fmt args.
End Sprintf.

(** * Printing on the console *)

(** kern/printf.c. [*cnt++] moves the pointer [cnt], which is a copy of the
    caller's: the counter itself stays as it is. *)
Section KernPrintf.
Context {S : Type} `{!Memory S} (cputchar : Z -> M S unit).

Definition kputch (ch : Z) : M (S * Z) unit := lift (cputchar ch).

Definition kvcprintf (fmt : list Z) (ap : list arg) : M S Z :=
  let! r := with_local 0 (vprintfmt kputch fmt ap) in
  ret r.2.

Definition kcprintf (fmt : list Z) (args : list arg) : M S Z := kvcprintf fmt args.
End KernPrintf.

(** lib/printf.c: up to 255 characters are collected for one system call. *)
Section UserPrintf.
Context {S : Type} `{!Memory S} (sys_cputs : list Z -> M S unit).

Record printbuf := mkPrintbuf { pb_idx : Z; pb_cnt : Z; pb_buf : list Z }.

Definition uputch (ch : Z) : M (S * printbuf) unit :=
  modify (fun s => (s.1, mkPrintbuf (pb_idx s.2 + 1) (pb_cnt s.2) (<[Z.to_nat (pb_idx s.2) := u8 ch]> (pb_buf s.2)))) ;;!
  let! b := gets snd in
  (if pb_idx b =? 256 - 1 then
     lift (sys_cputs (take (Z.to_nat (pb_idx b)) (pb_buf b))) ;;!
     modify (fun s => (s.1, mkPrintbuf 0 (pb_cnt b) (pb_buf b)))
   else ret tt) ;;!
  modify (fun s => (s.1, mkPrintbuf (pb_idx s.2) (s32 (pb_cnt s.2 + 1)) (pb_buf s.2))).

Definition uvcprintf (fmt : list Z) (ap : list arg) : M S Z :=
  let! r := with_local (mkPrintbuf 0 0 (repeat 0 256)) (vprintfmt uputch fmt ap) in
  sys_cputs (take (Z.to_nat (pb_idx r.2)) (pb_buf r.2)) ;;!
  ret (pb_cnt r.2).

Definition ucprintf (fmt : list Z) (args : list arg) : M S Z := uvcprintf fmt args.
End UserPrintf.

(** lib/fprintf.c, with [write] of lib/fd.c. *)
Section Fprintf.
Context {S : Type} `{!Memory S} (write : Z -> list Z -> M S Z).

Record fprintbuf := mkFprintbuf { fb_fd : Z; fb_idx : Z; fb_result : Z; fb_error : Z; fb_buf : list Z }.

Definition writebuf : M (S * fprintbuf) unit :=
  let! b := gets snd in
  if 0 <? fb_error b then
    let! result := lift (write (fb_fd b) (take (Z.to_nat (fb_idx b)) (fb_buf b))) in
    modify (fun s => (s.1, mkFprintbuf (fb_fd b) (fb_idx b)
      (if 0 <? result then fb_result b + result else fb_result b)
      (if negb (result =? fb_idx b) then if result <? 0 then result else 0 else fb_error b) (fb_buf b)))
  else ret tt.

Definition fputch (ch : Z) : M (S * fprintbuf) unit :=
  modify (fun s => let b := s.2 in
    (s.1, mkFprintbuf (fb_fd b) (fb_idx b + 1) (fb_result b) (fb_error b) (<[Z.to_nat (fb_idx b) := u8 ch]> (fb_buf b)))) ;;!
  let! b := gets snd in
  if fb_idx b =? 256 then
    writebuf ;;!
    modify (fun s => (s.1, mkFprintbuf (fb_fd s.2) 0 (fb_result s.2) (fb_error s.2) (fb_buf s.2)))
  else ret tt.

Definition vfprintf (fd : Z) (fmt : list Z) (ap : list arg) : M S Z :=
  let! r := with_local (mkFprintbuf fd 0 0 1 (repeat 0 256))
    (vprintfmt fputch fmt ap ;;!
     let! b := gets snd in
     if 0 <? fb_idx b then writebuf else ret tt) in
  ret (if negb (fb_result r.2 =? 0) then fb_result r.2 else fb_error r.2).

Definition fprintf (fd : Z) (fmt : list Z) (args : list arg) : M S Z := vfprintf fd fmt args.
Definition printf (fmt : list Z) (args : list arg) : M S Z := vfprintf 1 fmt args.
End Fprintf.
