(* ===== verification/PrintfSpec.v ===== *)
(** lib/printfmt.c: what a format and its arguments print, as a function, and
    that [vprintfmt] prints it, for every way of printing a character. *)

From stdpp Require Import base numbers list gmap strings.
From Stdlib Require Import ZArith Lia Bool.
From S2P Require Import Prelude Mmu Str StrSpec Printf.

Local Ltac Zify.zify_post_hook ::= Z.to_euclidean_division_equations.

(** * Ways of printing a character *)

(** What [vprintfmt] needs of its [putch]: [pr_inv out] says of a state that
    [out] has been printed, [putch] adds its character, and it leaves the memory
    at certain addresses alone. *)
Class Printer {S : Type} `{!Memory S} (putch : Z -> M S unit) := {
  pr_inv : list Z -> S -> Prop;
  pr_kept : Z -> Prop;
  pr_put c s : (exists o, pr_inv o s) -> exists s', putch c s = Ret tt s' /\ (forall o, pr_inv o s -> pr_inv (o ++ [c]) s')
    /\ forall k, pr_kept k -> peek s' k = peek s k
}.

Definition pr_ok {S} `{!Memory S} {putch : Z -> M S unit} `{!Printer putch} (s : S) : Prop := exists o, pr_inv o s.

Section Emits.
Context {S : Type} `{!Memory S} (putch : Z -> M S unit) `{!Printer putch}.

Definition same (s s' : S) : Prop := forall k, pr_kept k -> peek s' k = peek s k.

(** The run prints [out] and returns a result that satisfies [Q]. *)
Definition emits {A} (m : M S A) (s : S) (out : list Z) (Q : A -> Prop) : Prop :=
  exists a s', m s = Ret a s' /\ pr_ok s' /\ (forall o, pr_inv o s -> pr_inv (o ++ out) s') /\ same s s' /\ Q a.

Lemma same_refl s : same s s.
Proof. by intros k. Qed.

Lemma same_trans s1 s2 s3 : same s1 s2 -> same s2 s3 -> same s1 s3.
Proof. intros H1 H2 k Hk. by rewrite H2, H1. Qed.

Lemma same_sym s s' : same s s' -> same s' s.
Proof. intros H k Hk. by rewrite H. Qed.

Lemma emits_ret {A} (a : A) s (Q : A -> Prop) : pr_ok s -> Q a -> emits (ret a) s [] Q.
Proof. intros Hs Ha. exists a, s. split; [done|]. split; [done|]. split; [intros o; by rewrite app_nil_r|]. by split. Qed.

Lemma emits_read {A} (m : M S A) a s (Q : A -> Prop) : m s = Ret a s -> pr_ok s -> Q a -> emits m s [] Q.
Proof. intros E Hs Ha. exists a, s. split; [done|]. split; [done|]. split; [intros o; by rewrite app_nil_r|]. by split. Qed.

Lemma emits_bind {A B} (m : M S A) (k : A -> M S B) s o1 o2 Q1 Q2 : emits m s o1 Q1 ->
  (forall a s', Q1 a -> pr_ok s' -> same s s' -> emits (k a) s' o2 Q2) -> emits (bind m k) s (o1 ++ o2) Q2.
Proof.
  intros (a & s1 & E1 & K1 & O1 & S1 & HQ) Hk. destruct (Hk a s1 HQ K1 S1) as (b & s2 & E2 & K2 & O2 & S2 & HQ2).
  exists b, s2. split; [by rewrite (bind_ret _ _ _ _ _ E1)|]. split; [done|]. split; [intros o Ho; rewrite app_assoc; by apply O2, O1|]. split; [by apply (same_trans s s1)|done].
Qed.

Lemma emits_step {A B} (m : M S A) (k : A -> M S B) s a o Q : m s = Ret a s -> emits (k a) s o Q -> emits (bind m k) s o Q.
Proof. intros E (b & s' & E' & H). exists b, s'. split; [by rewrite (bind_ret _ _ _ _ _ E)|done]. Qed.

Lemma emits_weaken {A} (m : M S A) s o o' (Q Q' : A -> Prop) : emits m s o Q -> o = o' -> (forall a, Q a -> Q' a) -> emits m s o' Q'.
Proof. intros (a & s' & E & K & O & HS & HQ) <- H. exists a, s'. split_and!; auto. Qed.

Lemma emits_put c s : pr_ok s -> emits (putch c) s [c] (fun _ => True).
Proof. intros Hs. destruct (pr_put c s Hs) as (s' & E & O & HS). exists tt, s'. split; [done|]. split; [destruct Hs as [o Ho]; exists (o ++ [c]); by apply O|done]. Qed.

(** A loop that has [rem] left to print. *)
Lemma emits_loop {X A} (body : X -> M S (X + A)) (I : Z -> X -> list Z -> Prop) (Q : A -> Prop) s0 :
  (forall m x rem s, I m x rem -> pr_ok s -> same s0 s -> 0 <= m /\ exists o, emits (body x) s o (fun r =>
     match r with inl x' => exists m' rem', m' < m /\ rem = o ++ rem' /\ I m' x' rem' | inr a => rem = o /\ Q a end)) ->
  forall m x rem s, I m x rem -> m < 2 ^ 64 -> pr_ok s -> same s0 s -> emits (loop x body) s rem Q.
Proof.
  intros Hb m x rem s HI Hm Hs HS.
  destruct (loop_inv body (fun m x s' => exists dn rem', pr_ok s' /\ same s s' /\ (forall o, pr_inv o s -> pr_inv (o ++ dn) s') /\ rem = dn ++ rem' /\ I m x rem')
    (fun a s' => pr_ok s' /\ same s s' /\ (forall o, pr_inv o s -> pr_inv (o ++ rem) s') /\ Q a)) with (m := m) (x := x) (s := s) as (a & s' & E & K & S' & O & HQ); [| |done|by exists a, s'].
  - clear m x Hm HI. intros m x s1 (dn & rem' & K1 & S1 & O1 & Er & HI). destruct (Hb m x rem' s1 HI K1 ltac:(by apply (same_trans s0 s))) as (Hm & o & r & s2 & E & K2 & O2 & S2 & Hr).
    split; [done|]. exists r, s2. split; [done|]. destruct r as [x'|a].
    + destruct Hr as (m' & rem'' & Hlt & -> & HI'). exists m'. split; [done|]. exists (dn ++ o), rem''. split; [done|]. split; [by apply (same_trans s s1)|].
      split; [intros o0 Ho; rewrite app_assoc; by apply O2, O1|]. split; [by rewrite Er, app_assoc|done].
    + destruct Hr as [-> HQ]. split; [done|]. split; [by apply (same_trans s s1)|]. split; [intros o0 Ho; rewrite Er, app_assoc; by apply O2, O1|done].
  - exists [], rem. split; [done|]. split; [apply same_refl|]. split; [intros o; by rewrite app_nil_r|done].
Qed.
End Emits.

(** * Numbers *)

(** The digits of a number, the most significant first. *)
Fixpoint digits_from (fuel : nat) (base num : Z) : list Z :=
  match fuel with
  | O => []
  | S k => (if base <=? num then digits_from k base (num / base) else []) ++ [nth (Z.to_nat (num mod base)) hex_digits 0]
  end.
Definition digits (base num : Z) : list Z := digits_from 64 base num.

Lemma hex_digit d : 0 <= d < 16 -> digit (nth (Z.to_nat d) hex_digits 0) = Some d /\ 0 < nth (Z.to_nat d) hex_digits 0 < 2 ^ 7.
Proof.
  intros Hd. assert (forallb (fun d => bool_decide (digit (nth (Z.to_nat d) hex_digits 0) = Some d) && bool_decide (0 < nth (Z.to_nat d) hex_digits 0 < 2 ^ 7)) (seqZ 0 16) = true) as H by (vm_compute; reflexivity).
  rewrite forallb_forall in H. specialize (H d). rewrite andb_true_iff, !bool_decide_eq_true in H. apply H. apply list_elem_of_In, elem_of_seqZ. lia.
Qed.

(** The digits say what the number is. *)
Lemma digits_value fuel : forall base num, 2 <= base <= 16 -> 0 <= num < 2 ^ Z.of_nat fuel ->
  value base (digits_from fuel base num) = num /\ Forall (is_digit base) (digits_from fuel base num) /\ Forall (fun c => 0 < c < 2 ^ 7) (digits_from fuel base num).
Proof.
  induction fuel as [|fuel IH]; intros base num Hb Hn; cbn [digits_from]; [assert (num = 0) as -> by lia; by split_and!|].
  rewrite Nat2Z.inj_succ, Z.pow_succ_r in Hn by lia. assert (0 <= num mod base < base) as Hm by (apply Z.mod_pos_bound; lia). destruct (hex_digit (num mod base)) as [Hd Hc]; [lia|].
  assert (value base (if base <=? num then digits_from fuel base (num / base) else []) = num / base
    /\ Forall (is_digit base) (if base <=? num then digits_from fuel base (num / base) else []) /\ Forall (fun c => 0 < c < 2 ^ 7) (if base <=? num then digits_from fuel base (num / base) else [])) as (Hv & Hf & Hr).
  { destruct (Z.leb_spec base num); [apply IH; [done|]|rewrite Z.div_small by lia; by split_and!]. split; [apply Z.div_pos; lia|]. apply Z.div_lt_upper_bound; nia. }
  split; [|split].
  - unfold value in *. rewrite fold_left_app. cbn [fold_left]. rewrite Hv, Hd. cbn. rewrite (Z.div_mod num base) at 3 by lia. lia.
  - apply Forall_app. split; [done|]. constructor; [|done]. unfold is_digit. rewrite Hd. lia.
  - apply Forall_app. split; [done|]. by constructor.
Qed.

(** There are no leading zeros. *)
Lemma digits_head fuel : forall base num, 2 <= base <= 16 -> 0 < num < 2 ^ Z.of_nat fuel -> head (digits_from fuel base num) <> Some 48.
Proof.
  induction fuel as [|fuel IH]; intros base num Hb Hn; [change (2 ^ Z.of_nat 0) with 1 in Hn; lia|]. cbn [digits_from]. rewrite Nat2Z.inj_succ, Z.pow_succ_r in Hn by lia.
  destruct (Z.leb_spec base num).
  - assert (0 < num / base < 2 ^ Z.of_nat fuel) as Hq by (split; [apply Z.div_str_pos; lia|apply Z.div_lt_upper_bound; nia]). specialize (IH base (num / base) Hb Hq).
    destruct (digits_from fuel base (num / base)) eqn:E; [|done]. destruct fuel; [change (2 ^ Z.of_nat 0) with 1 in Hq; lia|]. cbn [digits_from] in E. by destruct (_ <=? _); [destruct (digits_from _ _ _)|].
  - rewrite Z.mod_small by lia. destruct (hex_digit num) as [Hd _]; [lia|]. revert Hd. generalize (nth (Z.to_nat num) hex_digits 0). intros c Hd [= ->]. change (Some 0 = Some num) in Hd. injection Hd as <-. lia.
Qed.

(** * Strings *)

(** What [%s] prints of the string [l]: at most [precision] characters, padded
    on the left, or on the right for the flag [-]. *)
Definition limit (prec : Z) (l : list Z) : list Z := if prec <? 0 then l else take (Z.to_nat prec) l.
Definition shown (alt : bool) (c : Z) : Z := if alt && ((s8 c <? 32) || (126 <? s8 c)) then 63 else s8 c.
Definition string_text (fl : flags) (l : list Z) : list Z :=
  let body := shown (altflag fl) <$> limit (precision fl) l in
  let pad := Z.to_nat (width fl - Z.of_nat (length body)) in
  if padc fl =? 45 then body ++ replicate pad 32 else replicate pad (padc fl) ++ body.

(** * Padding *)

Section Pieces.
Context {S : Type} `{!Memory S} (putch : Z -> M S unit) `{!Printer putch}.

Local Abbreviation len l := (Z.of_nat (length l)).
Local Abbreviation emits := (emits putch).
Local Abbreviation same := (same putch).
Local Abbreviation rep w c := (replicate (Z.to_nat w) (c : Z)).

Lemma rep_step w c : 0 < w -> rep w c = [c] ++ rep (w - 1) c.
Proof. intros Hw. replace (Z.to_nat w) with (Datatypes.S (Z.to_nat (w - 1))) by lia. done. Qed.

Lemma rep_nil w c : w <= 0 -> rep w c = [].
Proof. intros Hw. by replace (Z.to_nat w) with 0%nat by lia. Qed.

Lemma put_pad_ok c w s : w < 2 ^ 32 -> pr_ok s -> emits (put_pad putch c w) s (rep w c) (fun r => r = Z.min w 0).
Proof.
  intros Hw Hs. apply (emits_loop putch _ (fun m w' rem => m = Z.max w' 0 /\ rem = rep w' c /\ Z.min w' 0 = Z.min w 0) _ s) with (m := Z.max w 0); [|done|lia|done|apply same_refl].
  intros m w' rem s' (-> & -> & Hr) Hs' _. split; [lia|]. destruct (Z.ltb_spec 0 w') as [Hp|Hp].
  - exists [c]. replace [c] with ([c] ++ []) by done. eapply emits_bind; [by apply emits_put|]. intros _ s1 _ K1 _. apply emits_ret; [done|]. exists (Z.max (w' - 1) 0), (rep (w' - 1) c).
    split; [lia|]. split; [by apply rep_step|]. split; [done|]. split; [done|lia].
  - exists []. apply emits_ret; [done|]. split; [by apply rep_nil|lia].
Qed.

Lemma put_pad_first_ok c w s : - 2 ^ 31 < w < 2 ^ 31 -> pr_ok s -> emits (put_pad_first putch c w) s (rep (w - 1) c) (fun _ => True).
Proof.
  intros Hw Hs. apply (emits_loop putch _ (fun m w' rem => m = Z.max w' 0 /\ rem = rep (w' - 1) c /\ - 2 ^ 31 < w' < 2 ^ 31) _ s) with (m := Z.max w 0); [|done|lia|done|apply same_refl].
  intros m w' rem s' (-> & -> & Hr) Hs' _. split; [lia|]. cbv zeta. rewrite s32_same by lia. destruct (Z.ltb_spec 0 (w' - 1)) as [Hp|Hp].
  - exists [c]. replace [c] with ([c] ++ []) by done. eapply emits_bind; [by apply emits_put|]. intros _ s1 _ K1 _. apply emits_ret; [done|]. exists (Z.max (w' - 1) 0), (rep (w' - 1 - 1) c).
    split; [lia|]. split; [by apply rep_step|]. split; [done|]. split; [done|lia].
  - exists []. apply emits_ret; [done|]. split; [by apply rep_nil|done].
Qed.

Lemma printnum_ok fuel : forall num base w c s, 2 <= base <= 16 -> 0 <= num < 2 ^ Z.of_nat fuel -> - 2 ^ 31 + Z.of_nat fuel < w < 2 ^ 31 -> fuel <> 0%nat -> pr_ok s ->
  emits (printnum_from putch fuel num base w c) s (rep (w - len (digits_from fuel base num)) c ++ digits_from fuel base num) (fun _ => True).
Proof.
  induction fuel as [|fuel IH]; intros num base w c s Hb Hn Hw Hf Hs; [done|]. cbn [printnum_from digits_from]. rewrite Nat2Z.inj_succ, Z.pow_succ_r in Hn by lia.
  rewrite length_app, Nat2Z.inj_add. change (len [nth (Z.to_nat (num mod base)) hex_digits 0]) with 1. rewrite app_assoc. eapply emits_bind; [|intros _ s1 _ K1 _; by apply emits_put].
  destruct (Z.leb_spec base num) as [Hle|Hlt].
  - rewrite s32_same by lia. assert (0 <= num / base < 2 ^ Z.of_nat fuel) as Hq by (split; [apply Z.div_pos; lia|apply Z.div_lt_upper_bound; nia]).
    replace (w - (len (digits_from fuel base (num / base)) + 1)) with (w - 1 - len (digits_from fuel base (num / base))) by lia. apply IH; [done|done|lia| |done].
    intros ->. change (2 ^ Z.of_nat 0) with 1 in *. lia.
  - rewrite app_nil_r. apply put_pad_first_ok; [lia|done].
Qed.

(** The string [l] is at [p]. *)
Definition points (s : S) (p : cptr) (l : list Z) : Prop :=
  match p with
  | Addr a => cstr s a l /\ forall i, 0 <= i <= len l -> pr_kept (a + i)
  | Lit l' => l' = l /\ Forall (fun c => c <> 0) l
  end.

Lemma cstr_same s s' l : forall a, same s s' -> cstr s a l -> (forall i, 0 <= i <= len l -> pr_kept (a + i)) -> cstr s' a l.
Proof.
  induction l as [|c l IH]; intros a HS Hl Hk; cbn [cstr] in *; pose proof (Hk 0 ltac:(lia)) as H0; rewrite Z.add_0_r in H0; rewrite (HS a H0); [done|].
  destruct Hl as (E & Hc & Hl). split; [done|]. split; [done|]. apply IH; [done|done|]. intros i Hi. rewrite <- Z.add_assoc. apply Hk. cbn [length]. lia.
Qed.

Lemma points_same s s' p l : same s s' -> points s p l -> points s' p l.
Proof. destruct p as [a|l']; intros HS; [intros [H1 H2]; split; [by apply (cstr_same s)|done]|done]. Qed.

Lemma pread_ok s p l : points s p l -> pread p s = Ret (default 0 (head l)) s.
Proof. destruct p as [a|l']; intros [H1 H2]; cbn [pread]; [by rewrite cread_ok, (cstr_head s a l H1)|by subst l']. Qed.

Lemma pnext_ok s p c l : points s p (c :: l) -> c <> 0 /\ points s (pnext p) l.
Proof.
  destruct p as [a|l']; intros [H1 H2]; cbn [pnext points].
  - destruct H1 as (_ & Hc & H1). split; [done|]. split; [done|]. intros i Hi. rewrite <- Z.add_assoc. apply H2. cbn [length]. lia.
  - subst l'. apply Forall_cons in H2 as [Hc H2]. by split.
Qed.

Lemma pstrnlen_ok s p l size : points s p l -> 0 <= size < 2 ^ 32 -> len l < 2 ^ 31 -> pstrnlen p size s = Ret (Z.min size (len l)) s.
Proof. destruct p as [a|l']; intros [H1 H2] Hz Hl; cbn [pstrnlen]; [by apply strnlen_ok|by subst l']. Qed.

Lemma limit_step prec c l : 0 <= prec - 1 \/ prec < 0 -> limit prec (c :: l) = c :: limit (if prec <? 0 then prec else prec - 1) l.
Proof.
  intros Hp. unfold limit. destruct (Z.ltb_spec prec 0) as [Hn|Hn]; [by rewrite (proj2 (Z.ltb_lt _ _) Hn)|].
  rewrite (proj2 (Z.ltb_ge (prec - 1) 0)) by lia. by replace (Z.to_nat prec) with (Datatypes.S (Z.to_nat (prec - 1))) by lia.
Qed.

Lemma limit_length prec l : len (limit prec l) = if prec <? 0 then len l else Z.min prec (len l).
Proof. unfold limit. destruct (Z.ltb_spec prec 0); [done|]. rewrite length_take. lia. Qed.

Lemma put_chars_ok s p l alt prec w : points s p l -> len l < 2 ^ 30 -> - 2 ^ 30 <= w < 2 ^ 31 -> pr_ok s ->
  emits (put_chars putch alt p prec w) s (shown alt <$> limit prec l) (fun r => r = w - len (limit prec l)).
Proof.
  intros Hp Hl Hw Hs. apply (emits_loop putch _ (fun m '(p, prec', w') rem => exists l', m = len l' /\ points s p l' /\ rem = shown alt <$> limit prec' l'
      /\ w' - len (limit prec' l') = w - len (limit prec l) /\ w' < 2 ^ 31) _ s) with (m := len l); [|by exists l; split_and!; try lia|lia|done|apply same_refl].
  assert (- 2 ^ 31 < w - len (limit prec l)) as Hlo by (rewrite limit_length; destruct (Z.ltb_spec prec 0); lia).
  intros m [[q prec'] w'] rem s' (l' & -> & Hq & -> & Ew & Hw') Hs' HS. split; [lia|]. pose proof (pread_ok s' q l' (points_same _ _ _ _ HS Hq)) as E. destruct l' as [|c l'].
  - exists []. eapply emits_step; [exact E|]. apply emits_ret; [done|]. unfold limit in Ew |- *. rewrite take_nil in *. destruct (prec' <? 0); (split; [done|]); change (len []) with 0 in Ew; rewrite <- Ew; lia.
  - destruct (pnext_ok s q c l' Hq) as [Hc Hq']. simpl in E. destruct ((prec' <? 0) || (0 <=? prec' - 1)) eqn:Em.
    + assert (0 <= prec' - 1 \/ prec' < 0) as Hpr by (apply orb_true_iff in Em as [Em|Em]; [apply Z.ltb_lt in Em|apply Z.leb_le in Em]; lia). exists ([shown alt c] ++ []).
      eapply emits_step; [exact E|]. cbv zeta. rewrite (proj2 (Z.eqb_neq c 0) Hc). cbv iota. eapply (emits_bind putch _ _ _ _ _ (fun _ => True)).
      { unfold shown. destruct (alt && _); by apply emits_put. }
      intros _ s1 _ K1 _. apply emits_ret; [done|]. rewrite (limit_step prec' c l' Hpr) in *. cbn [length fmap list_fmap] in *. exists (len l'), (shown alt <$> limit (if prec' <? 0 then prec' else prec' - 1) l').
      split; [lia|]. split; [done|]. exists l'. rewrite s32_same by lia. split_and!; try done; lia.
    + exists []. eapply emits_step; [exact E|]. cbv zeta. rewrite (proj2 (Z.eqb_neq c 0) Hc). cbv iota. apply emits_ret; [done|].
      apply orb_false_iff in Em as [E1 E2]. apply Z.leb_gt in E2. unfold limit in *. rewrite E1 in *. apply Z.ltb_ge in E1. assert (prec' = 0) as -> by lia. change (take (Z.to_nat 0) (c :: l')) with (@nil Z) in *.
      split; [done|]. change (len []) with 0 in Ew. lia.
Qed.

Lemma put_string_ok s p l fl : points s p l -> len l < 2 ^ 30 -> - 2 ^ 30 <= width fl < 2 ^ 30 -> - 2 ^ 30 <= precision fl < 2 ^ 30 -> pr_ok s ->
  emits (put_string putch p fl) s (string_text fl l) (fun _ => True).
Proof.
  intros Hp Hl Hw Hpr Hs. unfold put_string, string_text. rewrite length_fmap. pose proof (limit_length (precision fl) l) as Hn. set (n := len (limit (precision fl) l)) in *.
  assert (0 <= n <= len l) as Hn' by (rewrite Hn; destruct (Z.ltb_spec (precision fl) 0); lia).
  set (left := if padc fl =? 45 then [] else rep (width fl - n) (padc fl)). set (w := if (0 <? width fl) && negb (padc fl =? 45) then Z.min (width fl - n) 0 else width fl).
  assert ((if padc fl =? 45 then (shown (altflag fl) <$> limit (precision fl) l) ++ rep (width fl - n) 32 else rep (width fl - n) (padc fl) ++ (shown (altflag fl) <$> limit (precision fl) l))
    = left ++ (shown (altflag fl) <$> limit (precision fl) l) ++ rep (w - n) 32 ++ []) as ->.
  { unfold left, w. rewrite app_nil_r. destruct (padc fl =? 45); cbn [negb]; rewrite ?andb_false_r; [done|]. rewrite (rep_nil (_ - n) 32), app_nil_r; [done|]. destruct (Z.ltb_spec 0 (width fl)); cbn [andb]; lia. }
  assert (- 2 ^ 31 < w < 2 ^ 31) as Hwr by (unfold w; destruct (_ && _); lia).
  eapply (emits_bind putch _ _ _ _ _ (fun r => r = w)).
  - unfold left, w. destruct (padc fl =? 45); cbn [negb]; rewrite ?andb_false_r, ?andb_true_r; [by apply emits_ret|]. destruct (Z.ltb_spec 0 (width fl)) as [Hp0|Hp0]; [|rewrite rep_nil by lia; by apply emits_ret].
    eapply emits_step; [apply (pstrnlen_ok s p l); [done|apply u32_range|lia]|]. assert (Z.min (u32 (precision fl)) (len l) = n) as ->.
    { rewrite Hn. unfold u32. destruct (Z.ltb_spec (precision fl) 0); lia. }
    rewrite s32_same by lia. apply put_pad_ok; [lia|done].
  - intros w' s1 -> K1 S1. eapply (emits_bind putch _ _ _ _ _ (fun r => r = w - n)).
    + unfold w. apply put_chars_ok; [by apply (points_same s)|done| |done]. destruct (Z.ltb_spec 0 (width fl)); cbn [andb]; [destruct (negb _)|]; lia.
    + intros w' s2 -> K2 _. eapply (emits_bind putch _ _ _ _ _ (fun _ => True)); [eapply emits_weaken; [apply put_pad_ok; [lia|done]|done|done]|]. intros _ s3 _ K3 _. by apply emits_ret.
Qed.
End Pieces.
