(* ===== verification/PrintfRender.v ===== *)
(** lib/printfmt.c: the language of formats, and that [vprintfmt] prints what a
    format says. *)

From stdpp Require Import base numbers list gmap strings.
From Stdlib Require Import ZArith Lia Bool.
From S2P Require Import Prelude Mmu Str StrSpec Printf PrintfSpec.

Local Ltac Zify.zify_post_hook ::= Z.to_euclidean_division_equations.

(** * Formats *)

(** An argument as the caller means it: a word, or a string. *)
Inductive val := VWord (w : Z) | VStr (l : list Z).

Definition word_of (vs : list val) : option (Z * list val) :=
  match vs with VWord w :: vs => Some (w, vs) | _ => None end.
Definition uint_of (lflag : Z) (vs : list val) : option (Z * list val) :=
  match vs with
  | VWord lo :: vs => if 2 <=? lflag then match vs with VWord hi :: vs => Some (lo + hi * 2 ^ 32, vs) | _ => None end else Some (lo, vs)
  | _ => None
  end.
Definition int_of (lflag : Z) (vs : list val) : option (Z * list val) :=
  match uint_of lflag vs with Some (n, vs) => Some (if 2 <=? lflag then s64 n else s32 n, vs) | None => None end.
Definition str_of (vs : list val) : option (list Z * list val) :=
  match vs with
  | VStr l :: vs => Some (l, vs)
  | VWord w :: vs => if w =? 0 then Some (chars "(null)", vs) else None
  | [] => None
  end.

(** A number in a field. A sign is printed in front of the field. *)
Definition number_text (base num : Z) (fl : flags) : list Z :=
  replicate (Z.to_nat (width fl - Z.of_nat (length (digits base num)))) (padc fl) ++ digits base num.
Definition signed_text (v : Z) (fl : flags) : list Z := if v <? 0 then [45] ++ number_text 10 (- v) fl else number_text 10 v fl.

(** The text of [%e], which the source does not have for the smallest [int]. *)
Definition error_text (err : Z) : option (list Z) :=
  let e := Z.abs err in
  if e <? 2 ^ 31 then Some (match (if e <? MAXERROR then error_string e else None) with Some l => l | None => chars "error " ++ digits 10 e end)
  else None.

(** What a conversion prints and the arguments it leaves: [None] if it has not
    got the argument it needs; [Some (None, _)] if it is not a conversion.
    [errt] is the text of [%e]. *)
Definition conv (errt : Z -> option (list Z)) (ch : Z) (fl : flags) (vs : list val) : option (option (list Z) * list val) :=
  let with_ (r : option (Z * list val)) (text : Z -> option (list Z)) :=
    match r with Some (n, vs) => match text n with Some t => Some (Some t, vs) | None => None end | None => None end in
  if ch =? 99 then with_ (word_of vs) (fun w => Some [s32 w])
  else if ch =? 101 then with_ (word_of vs) (fun w => errt (s32 w))
  else if ch =? 115 then match str_of vs with Some (l, vs) => Some (Some (string_text fl l), vs) | None => None end
  else if ch =? 100 then with_ (int_of (lflag fl) vs) (fun n => Some (signed_text n fl))
  else if ch =? 117 then with_ (uint_of (lflag fl) vs) (fun n => Some (number_text 10 n fl))
  else if ch =? 111 then with_ (uint_of (lflag fl) vs) (fun n => Some (number_text 8 n fl))
  else if ch =? 112 then with_ (word_of vs) (fun n => Some ([48; 120] ++ number_text 16 n fl))
  else if ch =? 120 then with_ (uint_of (lflag fl) vs) (fun n => Some (number_text 16 n fl))
  else if ch =? 37 then Some (Some [37], vs)
  else Some (None, vs).

(** A decimal number and what follows it. *)
Fixpoint num_prefix (acc : Z) (f : list Z) : Z * list Z :=
  match f with
  | c :: f' => if (48 <=? c) && (c <=? 57) then num_prefix (acc * 10 + (c - 48)) f' else (acc, f)
  | [] => (acc, [])
  end.

Definition fits (n : Z) : Prop := - 2 ^ 30 <= n < 2 ^ 30.
Definition is_flag (c : Z) : bool :=
  (c =? 45) || ((48 <=? c) && (c <=? 57)) || (c =? 42) || (c =? 46) || (c =? 35) || (c =? 108).

(** The flags of an escape sequence: from the characters after the percent sign
    to the flags, the conversion (0 at the end of the format), the characters
    after it and the arguments not used by the flags. *)
Inductive directive : list Z -> list val -> flags -> flags -> Z -> list Z -> list val -> Prop :=
| dir_minus f vs fl fl' ch r vs' : directive f vs (set_padc 45 fl) fl' ch r vs' -> directive (45 :: f) vs fl fl' ch r vs'
| dir_zero f vs fl fl' ch r vs' : directive f vs (set_padc 48 fl) fl' ch r vs' -> directive (48 :: f) vs fl fl' ch r vs'
| dir_number c f n g vs fl fl' ch r vs' : 49 <= c <= 57 -> num_prefix (c - 48) f = (n, g) -> fits n ->
    directive g vs (process_precision n fl) fl' ch r vs' -> directive (c :: f) vs fl fl' ch r vs'
| dir_star f w vs fl fl' ch r vs' : fits (s32 w) -> directive f vs (process_precision (s32 w) fl) fl' ch r vs' ->
    directive (42 :: f) (VWord w :: vs) fl fl' ch r vs'
| dir_dot f vs fl fl' ch r vs' : directive f vs (if width fl <? 0 then set_width 0 fl else fl) fl' ch r vs' -> directive (46 :: f) vs fl fl' ch r vs'
| dir_alt f vs fl fl' ch r vs' : directive f vs (set_alt fl) fl' ch r vs' -> directive (35 :: f) vs fl fl' ch r vs'
| dir_long f vs fl fl' ch r vs' : directive f vs (set_lflag (lflag fl + 1) fl) fl' ch r vs' -> directive (108 :: f) vs fl fl' ch r vs'
| dir_conv c f vs fl : is_flag c = false -> directive (c :: f) vs fl fl c f vs
| dir_end vs fl : directive [] vs fl fl 0 [] vs.

(** What a format prints. An escape sequence with no conversion is printed as
    it stands. *)
Inductive renders (errt : Z -> option (list Z)) : list Z -> list val -> list Z -> Prop :=
| ren_end vs : renders errt [] vs []
| ren_char c f vs o : c <> 37 -> renders errt f vs o -> renders errt (c :: f) vs (c :: o)
| ren_conv f vs fl ch r vs1 t vs2 o : directive f vs flags0 fl ch r vs1 -> conv errt ch fl vs1 = Some (Some t, vs2) ->
    renders errt r vs2 o -> renders errt (37 :: f) vs (t ++ o)
| ren_plain f vs fl ch r vs1 vs2 o : directive f vs flags0 fl ch r vs1 -> conv errt ch fl vs1 = Some (None, vs2) ->
    renders errt f vs2 o -> renders errt (37 :: f) vs ([37] ++ o).

Definition fmt_ok (f : list Z) : Prop := Forall (fun c => 0 < c < 2 ^ 8) f.

Definition fl_ok (fl : flags) : Prop := fits (width fl) /\ fits (precision fl).

Lemma fl_ok0 : fl_ok flags0.
Proof. unfold fl_ok, fits. cbn. lia. Qed.

Lemma fl_ok_process n fl : fl_ok fl -> fits n -> fl_ok (process_precision n fl).
Proof. unfold fl_ok, fits, process_precision. destruct (width fl <? 0); cbn; lia. Qed.

Lemma fl_ok_dot fl : fl_ok fl -> fl_ok (if width fl <? 0 then set_width 0 fl else fl).
Proof. unfold fl_ok, fits. destruct (width fl <? 0); cbn; lia. Qed.

Lemma num_prefix_le f : forall acc n g, 0 <= acc -> num_prefix acc f = (n, g) -> acc <= n.
Proof.
  induction f as [|c f IH]; intros acc n g Ha; cbn [num_prefix]; [intros [= <- <-]; lia|]. destruct ((48 <=? c) && (c <=? 57)) eqn:E; [|intros [= <- <-]; lia].
  reflect_bools. intros Hr. apply IH in Hr; lia.
Qed.

Lemma num_prefix_app f : forall acc n g, num_prefix acc f = (n, g) -> exists pre, f = pre ++ g /\ Forall (fun c => c <> 37) pre.
Proof.
  induction f as [|c f IH]; intros acc n g; cbn [num_prefix]; [intros [= <- <-]; by exists []|]. destruct ((48 <=? c) && (c <=? 57)) eqn:E; [|intros [= <- <-]; by exists []].
  intros Hr. destruct (IH _ _ _ Hr) as (pre & -> & Hp). exists (c :: pre). split; [done|]. constructor; [|done]. intros ->. done.
Qed.

(** * Positions *)

Section Positions.
Context {S : Type} `{!Memory S} (f : list Z) (Hf : fmt_ok f) (Hlen : Z.of_nat (length f) < 2 ^ 32).

Local Abbreviation len l := (Z.of_nat (length l)).

(** What the format still has at a position. *)
Definition sfx (i : Z) (l : list Z) : Prop := 0 <= i /\ i + len l = len f /\ drop (Z.to_nat i) f = l.

Lemma sfx_all : sfx 0 f.
Proof. split; [lia|]. split; [lia|done]. Qed.

Lemma sfx_cons i c l : sfx i (c :: l) -> sfx (i + 1) l /\ nth (Z.to_nat i) f 0 = c /\ 0 < c < 2 ^ 8.
Proof.
  intros (Hi & He & Hd). cbn [length] in He. assert (f !! Z.to_nat i = Some c) as Hc.
  { rewrite <- (Nat.add_0_r (Z.to_nat i)), <- lookup_drop, Hd. done. }
  split; [|split].
  - split; [lia|]. split; [lia|]. replace (Z.to_nat (i + 1)) with (Z.to_nat i + 1)%nat by lia. by rewrite <- drop_drop, Hd.
  - by rewrite nth_lookup, Hc.
  - by apply (Forall_lookup_1 _ _ _ _ Hf Hc).
Qed.

Lemma fchar_ok i l (s : S) : sfx i l -> fchar f i s = Ret (default 0 (head l)) s.
Proof.
  intros Hs. pose proof Hs as (Hi & He & Hd). unfold fchar. rewrite (proj2 (Z.leb_le 0 i)), (proj2 (Z.leb_le i (len f))) by lia. cbn [andb]. unfold ret. f_equal.
  destruct l as [|c l]; [|by destruct (sfx_cons i c l Hs) as (_ & E & _)]. rewrite nth_overflow by (cbn [length] in He; lia). done.
Qed.

Lemma fchar_nth i (s : S) : 0 <= i <= len f -> fchar f i s = Ret (nth (Z.to_nat i) f 0) s.
Proof. intros Hi. unfold fchar. by rewrite (proj2 (Z.leb_le 0 i)), (proj2 (Z.leb_le i (len f))) by lia. Qed.

Lemma s8_byte c : 0 <= c < 2 ^ 8 -> s8 c = if c <? 2 ^ 7 then c else c - 2 ^ 8.
Proof. intros H. unfold s8, u8. by rewrite Z.mod_small. Qed.

(** No percent sign from [i] up to [j]. *)
Definition no_percent (i j : Z) : Prop := i <= j /\ forall k, i <= k < j -> nth (Z.to_nat k) f 0 <> 37.

Lemma no_percent_trans i j k : no_percent i j -> no_percent j k -> no_percent i k.
Proof. intros [H1 H2] [H3 H4]. split; [lia|]. intros x Hx. destruct (decide (x < j)); [apply H2|apply H4]; lia. Qed.

Lemma no_percent_one i c l : sfx i (c :: l) -> c <> 37 -> no_percent i (i + 1).
Proof. intros Hs Hc. split; [lia|]. intros x Hx. replace x with i by lia. by destruct (sfx_cons i c l Hs) as (_ & -> & _). Qed.

Lemma sfx_app pre : forall i g, sfx i (pre ++ g) -> Forall (fun c => c <> 37) pre -> sfx (i + len pre) g /\ no_percent i (i + len pre).
Proof.
  induction pre as [|c pre IH]; intros i g Hs Hp; cbn [app length] in *; [rewrite Z.add_0_r; split; [done|split; lia]|]. apply Forall_cons in Hp as [Hc Hp].
  destruct (sfx_cons _ _ _ Hs) as (Hs' & _). destruct (IH (i + 1) g Hs' Hp) as [H1 H2]. replace (i + Z.of_nat (Datatypes.S (length pre))) with (i + 1 + len pre) by lia.
  split; [done|]. apply (no_percent_trans i (i + 1)); [by apply (no_percent_one i c (pre ++ g))|done].
Qed.

Lemma get_precision_ok i ch l n g (s : S) : sfx i l -> 49 <= ch <= 57 -> num_prefix (ch - 48) l = (n, g) -> fits n ->
  exists i', get_precision f i ch s = Ret (i', n) s /\ sfx i' g /\ no_percent i i'.
Proof.
  intros Hs Hch Hn Hfit. destruct (num_prefix_app _ _ _ _ Hn) as (pre & Hl & Hp). subst l. destruct (sfx_app pre i g Hs Hp) as [H1 H2]. exists (i + len pre). split; [|done]. unfold get_precision.
  apply (loop_pure _ (fun m '(i0, p, ch) r => exists l', m = len l' /\ sfx i0 l' /\ 0 <= p /\ 48 <= ch <= 57 /\ num_prefix (p * 10 + (ch - 48)) l' = (n, g) /\ r = (i + len pre, n)) s) with (m := len (pre ++ g));
    [|exists (pre ++ g); split_and!; try done; lia|destruct Hs as (? & ? & ?); lia].
  intros m [[i0 p] c0] r (l' & -> & Hs0 & Hp0 & Hc0 & Hn0 & ->). split; [lia|]. cbv zeta. pose proof (num_prefix_le l' (p * 10 + (c0 - 48)) n g ltac:(lia) Hn0) as Hle. unfold fits in Hfit.
  rewrite s32_same by lia. rewrite (bind_ret _ _ _ _ _ (fchar_ok i0 l' s Hs0)). destruct l' as [|c l']; cbn [num_prefix] in Hn0.
  - injection Hn0 as <- <-. destruct Hs0 as (_ & E0 & _), H1 as (_ & E1 & _). exists (inr (i0, p * 10 + c0 - 48)). split; [done|]. f_equal; lia.
  - destruct (sfx_cons _ _ _ Hs0) as (Hs1 & _ & Hc). simpl. rewrite s8_byte by lia. destruct ((48 <=? c) && (c <=? 57)) eqn:Ec.
    + reflect_bools. rewrite (proj2 (Z.ltb_lt c (2 ^ 7))) by lia. rewrite (proj2 (Z.ltb_ge c 48)), (proj2 (Z.ltb_ge 57 c)) by lia. eexists. split; [done|]. exists (len l'). split; [lia|].
      exists l'. split_and!; try done; try lia. rewrite <- Hn0. f_equal. lia.
    + injection Hn0 as <- <-. assert (((if c <? 2 ^ 7 then c else c - 2 ^ 8) <? 48) || (57 <? (if c <? 2 ^ 7 then c else c - 2 ^ 8)) = true) as ->.
      { apply orb_true_iff. rewrite !Z.ltb_lt. apply andb_false_iff in Ec as [Ec|Ec]; apply Z.leb_gt in Ec; destruct (Z.ltb_spec c (2 ^ 7)); lia. }
      destruct Hs0 as (_ & E0 & _), H1 as (_ & E1 & _). exists (inr (i0, p * 10 + c0 - 48)). split; [done|]. f_equal; lia.
Qed.

(** From behind an unknown conversion back to the percent sign. *)
Lemma unescape_ok i0 i (s : S) : 0 < i0 -> nth (Z.to_nat (i0 - 1)) f 0 = 37 -> no_percent i0 i -> i <= len f -> unescape f (i + 1) s = Ret i0 s.
Proof.
  intros H0 Hp [Hle Hn] Hi. apply (loop_pure _ (fun m x r => r = i0 /\ m = x - i0 /\ i0 <= x <= i) s) with (m := i - i0); [|split; [done|lia]|lia].
  intros m x r (-> & -> & Hx). split; [lia|]. rewrite (bind_ret _ _ _ _ _ (fchar_nth (x - 1) s ltac:(lia))). destruct (decide (x = i0)) as [->|Hne].
  - rewrite Hp. by eexists.
  - rewrite (proj2 (Z.eqb_neq _ _) (Hn (x - 1) ltac:(lia))). eexists. split; [done|]. exists (x - 1 - i0). split; [lia|]. split; [done|lia].
Qed.
End Positions.

(** * Arguments *)

Section Render.
Context {S : Type} `{!Memory S} (putch : Z -> M S unit) `{!Printer putch}.

Local Abbreviation len l := (Z.of_nat (length l)).
Local Abbreviation emits := (emits putch).
Local Abbreviation same := (same putch).

(** The argument passed is the one meant: a string is at its address, out of
    the way of the output. *)
Definition arg_val (s : S) (a : arg) (v : val) : Prop :=
  match a, v with
  | AWord w, VWord w' => w' = u32 w
  | AWord w, VStr l => u32 w <> 0 /\ points putch s (Addr (u32 w)) l /\ len l < 2 ^ 30
  | ALit l', VStr l => points putch s (Lit l') l /\ len l < 2 ^ 30
  | ALit _, VWord _ => False
  end.
Definition args (s : S) (ap : list arg) (vs : list val) : Prop := Forall2 (arg_val s) ap vs.

Lemma args_same s s' ap vs : same s s' -> args s ap vs -> args s' ap vs.
Proof.
  intros HS H. eapply Forall2_impl; [exact H|]. intros [w|l'] [w'|l]; cbn; try done.
  - intros (H1 & H2 & H3). split; [done|]. split; [|done]. by apply (points_same putch s s' (Addr (u32 w))).
Qed.

Lemma word_ok s ap vs w vs' : args s ap vs -> word_of vs = Some (w, vs') ->
  exists ap', va_word ap s = Ret (w, ap') s /\ args s ap' vs' /\ is_u32 w.
Proof.
  intros H E. destruct vs as [|[w'|l] vs]; try done. injection E as -> ->. inversion H as [|[a|l] v ap' vs0 Ha Hr]; subst; [|done]. cbn in Ha. subst w.
  exists ap'. split; [done|]. split; [done|apply u32_range].
Qed.

Lemma uint_ok s ap vs lf n vs' : args s ap vs -> uint_of lf vs = Some (n, vs') ->
  exists ap', getuint ap lf s = Ret (n, ap') s /\ args s ap' vs' /\ 0 <= n < 2 ^ 64 /\ ((2 <=? lf) = false -> is_u32 n).
Proof.
  intros H E. unfold uint_of, getuint in *. destruct vs as [|[lo|l] vs]; try done. destruct (word_ok s ap _ lo vs H ltac:(done)) as (ap1 & E1 & H1 & R1).
  destruct (2 <=? lf); [|injection E as -> ->; exists ap1; split; [done|]; split; [done|]; unfold is_u32 in *; lia].
  destruct vs as [|[hi|l] vs]; try done. injection E as <- ->. destruct (word_ok s ap1 _ hi vs' H1 ltac:(done)) as (ap2 & E2 & H2 & R2). exists ap2.
  split; [unfold va_long_long; rewrite (bind_ret _ _ _ _ _ E1); cbn [fst snd]; by rewrite (bind_ret _ _ _ _ _ E2)|]. split; [done|]. unfold is_u32 in *. split; [lia|done].
Qed.

Lemma s64_u64 x : - 2 ^ 63 <= x < 2 ^ 63 -> s64 (u64 x) = x.
Proof. intros H. unfold s64, u64. destruct (Z.ltb_spec ((x mod 2 ^ 64) mod 2 ^ 64) (2 ^ 63)); lia. Qed.

Lemma int_ok s ap vs lf n vs' : args s ap vs -> int_of lf vs = Some (n, vs') ->
  exists ap' u, getint ap lf s = Ret (u, ap') s /\ args s ap' vs' /\ s64 u = n /\ - 2 ^ 63 <= n < 2 ^ 63 /\ (0 <= n -> u = n).
Proof.
  intros H E. unfold int_of in E. destruct (uint_of lf vs) as [[u vs1]|] eqn:Eu; [|done]. destruct (uint_ok s ap vs lf u vs1 H Eu) as (ap1 & E1 & H1 & R1 & R2). unfold getint, getuint in *.
  destruct (2 <=? lf); injection E as <- ->.
  - exists ap1, u. split; [done|]. split; [done|]. split; [done|]. unfold s64, u64. destruct (Z.ltb_spec (u mod 2 ^ 64) (2 ^ 63)); lia.
  - exists ap1, (u64 (s32 u)). split; [by rewrite (bind_ret _ _ _ _ _ E1)|]. split; [done|]. pose proof (s32_range u). split; [apply s64_u64; lia|]. split; [lia|]. intros Hp. unfold u64. apply Z.mod_small. lia.
Qed.

Lemma str_ok s ap vs l vs' : args s ap vs -> str_of vs = Some (l, vs') ->
  exists ap' p, va_ptr ap s = Ret (p, ap') s /\ args s ap' vs' /\ points putch s (default (Lit (chars "(null)")) p) l /\ len l < 2 ^ 30.
Proof.
  intros H E. destruct vs as [|[w|l0] vs]; cbn in E; [done| |].
  - destruct (Z.eqb_spec w 0) as [->|]; [|done]. injection E as <- ->. inversion H as [|[a|l] v ap' vs0 Ha Hr]; subst; [|done]. cbn in Ha. exists ap', None. cbn [va_ptr]. rewrite <- Ha.
    split; [done|]. split; [done|]. split; [|done]. split; [done|]. by repeat constructor.
  - injection E as -> ->. inversion H as [|[a|l'] v ap' vs0 Ha Hr]; subst; cbn in Ha.
    + destruct Ha as (Hz & Hp & Hl). exists ap', (Some (Addr (u32 a))). cbn [va_ptr]. rewrite (proj2 (Z.eqb_neq _ _) Hz). by split_and!.
    + destruct Ha as (Hp & Hl). by exists ap', (Some (Lit l')).
Qed.

(** * Conversions *)

Context (rec : list Z -> list arg -> M S unit) (errt : Z -> option (list Z)).
Context (Herr : forall e t s, errt e = Some t -> pr_ok s -> emits (put_error rec e) s t (fun _ => True)).

Lemma number_ok num base fl s : 2 <= base <= 16 -> 0 <= num < 2 ^ 64 -> fl_ok fl -> pr_ok s ->
  emits (printnum putch num base (width fl) (padc fl)) s (number_text base num fl) (fun _ => True).
Proof. intros Hb Hn [Hw _] Hs. unfold fits in Hw. apply printnum_ok; try done. change (Z.of_nat 64) with 64. lia. Qed.

Lemma emits_then {A B} (m : M S A) (b : B) s t (Q : B -> Prop) : emits m s t (fun _ => True) -> Q b -> emits (m ;;! ret b) s t Q.
Proof.
  intros Hm HQ. rewrite <- (app_nil_r t). eapply emits_bind; [exact Hm|]. intros _ s' _ K _. by apply emits_ret.
Qed.

Lemma unsigned_ok n base (i : Z) ap fl vs vs' s : 2 <= base <= 16 -> args s ap vs -> fl_ok fl -> pr_ok s -> uint_of (lflag fl) vs = Some (n, vs') ->
  emits (let! r := getuint ap (lflag fl) in printnum putch r.1 base (width fl) (padc fl) ;;! ret (i, r.2)) s (number_text base n fl) (fun r => r.1 = i /\ args s r.2 vs').
Proof.
  intros Hb Ha Hfl Hs Hu. destruct (uint_ok s ap vs _ n vs' Ha Hu) as (ap' & E & H' & Hr & _). eapply emits_step; [exact E|]. by apply emits_then; [apply number_ok|].
Qed.

Lemma convert_ok ch f i ap fl vs t vs' s : args s ap vs -> fl_ok fl -> pr_ok s -> conv errt ch fl vs = Some (Some t, vs') ->
  emits (convert putch rec ch f i ap fl) s t (fun r => r.1 = i /\ args s r.2 vs').
Proof.
  intros Ha Hfl Hs. unfold conv, convert. cbv zeta.
  destruct (ch =? 99).
  { destruct (word_of vs) as [[w vs1]|] eqn:Ew; [|done]. intros [= <- <-]. destruct (word_ok s ap vs w vs1 Ha Ew) as (ap' & E & H' & _).
    eapply emits_step; [exact E|]. by apply emits_then; [apply emits_put|]. }
  destruct (ch =? 101).
  { destruct (word_of vs) as [[w vs1]|] eqn:Ew; [|done]. destruct (errt (s32 w)) as [t'|] eqn:Et; [|done]. intros [= <- <-]. destruct (word_ok s ap vs w vs1 Ha Ew) as (ap' & E & H' & _).
    eapply emits_step; [exact E|]. by apply emits_then; [apply Herr|]. }
  destruct (ch =? 115).
  { destruct (str_of vs) as [[l vs1]|] eqn:Ew; [|done]. intros [= <- <-]. destruct (str_ok s ap vs l vs1 Ha Ew) as (ap' & p & E & H' & Hp & Hl).
    eapply emits_step; [exact E|]. destruct Hfl. by apply emits_then; [apply put_string_ok|]. }
  destruct (ch =? 100).
  { destruct (int_of (lflag fl) vs) as [[n vs1]|] eqn:Ew; [|done]. intros [= <- <-]. destruct (int_ok s ap vs _ n vs1 Ha Ew) as (ap' & u & E & H' & Hu & Hr & Hpos).
    eapply emits_step; [exact E|]. cbn [fst snd]. rewrite Hu. unfold signed_text. destruct (Z.ltb_spec n 0) as [Hn|Hn].
    - rewrite <- (app_nil_r [45]). eapply (emits_bind putch _ _ _ _ _ (fun r => r = - n)).
      + apply emits_then; [by apply emits_put|]. unfold u64. apply Z.mod_small. lia.
      + intros r s1 -> K1 S1. apply emits_then; [apply number_ok; done || lia|]. split; [done|]. exact H'.
    - rewrite (Hpos Hn). eapply emits_step; [done|]. apply emits_then; [apply number_ok; done || lia|]. split; [done|]. exact H'. }
  destruct (ch =? 117).
  { destruct (uint_of (lflag fl) vs) as [[n vs1]|] eqn:Ew; [|done]. intros [= <- <-]. by apply (unsigned_ok n 10 _ _ _ vs). }
  destruct (ch =? 111).
  { destruct (uint_of (lflag fl) vs) as [[n vs1]|] eqn:Ew; [|done]. intros [= <- <-]. by apply (unsigned_ok n 8 _ _ _ vs). }
  destruct (ch =? 112).
  { destruct (word_of vs) as [[w vs1]|] eqn:Ew; [|done]. intros [= <- <-]. change (48 :: 120 :: number_text 16 w fl) with ([48] ++ [120] ++ number_text 16 w fl).
    eapply emits_bind; [by apply emits_put|]. intros _ s1 _ K1 S1. eapply emits_bind; [by apply emits_put|]. intros _ s2 _ K2 S2.
    destruct (word_ok s2 ap vs w vs1) as (ap' & E & H' & Hw); [apply (args_same s1); [done|]; by apply (args_same s)|done|]. eapply emits_step; [exact E|].
    unfold is_u32 in Hw. apply emits_then; [apply number_ok; done || lia|]. split; [done|]. destruct (word_ok s ap vs w vs1 Ha Ew) as (ap2 & E2 & H2 & _).
    destruct ap as [|[a|l] ap]; unfold va_word, panic, ret in E, E2; by simplify_eq. }
  destruct (ch =? 120).
  { destruct (uint_of (lflag fl) vs) as [[n vs1]|] eqn:Ew; [|done]. intros [= <- <-]. by apply (unsigned_ok n 16 _ _ _ vs). }
  destruct (Z.eqb_spec ch 37) as [->|]; [|done]. intros [= <- <-]. by apply emits_then; [apply emits_put|].
Qed.

(** Anything else is not a conversion: the percent sign is printed, and the
    scan goes on behind it. *)
Lemma convert_unknown ch f i i0 ap fl vs vs' s : pr_ok s -> conv errt ch fl vs = Some (None, vs') -> (forall s : S, unescape f i s = Ret i0 s) ->
  vs' = vs /\ emits (convert putch rec ch f i ap fl) s [37] (fun r => r = (i0, ap)).
Proof.
  intros Hs. unfold conv, convert. cbv zeta.
  repeat match goal with |- context [if ?b then match ?x with _ => _ end else _] => destruct b; [destruct x as [[]|]; (done || by repeat case_match)|] end.
  destruct (ch =? 37); [done|]. intros [= <-] Hu. split; [done|]. rewrite <- (app_nil_r [37]). eapply emits_bind; [by apply emits_put|]. intros _ s1 _ K1 _.
  eapply emits_step; [apply Hu|]. by apply emits_ret.
Qed.

(** * The scan *)

Lemma flag_tests c : is_flag c = false -> (c =? 45) = false /\ (c =? 48) = false /\ (49 <=? c) && (c <=? 57) = false /\ (c =? 42) = false /\ (c =? 46) = false /\ (c =? 35) = false /\ (c =? 108) = false.
Proof.
  unfold is_flag. rewrite !orb_false_iff. intros (((((H1 & H2) & H3) & H4) & H5) & H6). split_and!; try done.
  - apply andb_false_iff in H2 as [H2|H2]; apply Z.leb_gt in H2; apply Z.eqb_neq; lia.
  - apply andb_false_iff in H2 as [H2|H2]; apply Z.leb_gt in H2; apply andb_false_iff; rewrite !Z.leb_gt; lia.
Qed.

Section Scan.
Context (f : list Z) (Hf : fmt_ok f) (Hlen : len f < 2 ^ 32).

(** An escape sequence that starts at [i0]: the flags [fl] and the conversion
    [ch], with [r] behind it and the arguments [vs1] left, are still to be
    found; then [out] is printed and the scan goes on with [tgt] and [vs2]. *)
Record escaped := mkEsc { es_i0 : Z; es_fl : flags; es_ch : Z; es_r : list Z; es_vs1 : list val; es_out : list Z; es_tgt : list Z; es_vs2 : list val }.

Definition scan_inv (e : escaped) (s : S) (m : Z) (x : Z * list arg * flags) (rem : list Z) : Prop :=
  exists l' vs', m = len l' /\ sfx f x.1.1 l' /\ no_percent f (es_i0 e) x.1.1 /\ args s x.1.2 vs' /\ fl_ok x.2
    /\ directive l' vs' x.2 (es_fl e) (es_ch e) (es_r e) (es_vs1 e) /\ rem = es_out e.
Definition scan_post (e : escaped) (s : S) (q : Z * list arg) : Prop := sfx f q.1 (es_tgt e) /\ args s q.2 (es_vs2 e).
Definition scan_step (e : escaped) (s : S) (m : Z) (rem o : list Z) (q : Z * list arg * flags + Z * list arg) : Prop :=
  match q with inl x' => exists m' rem', m' < m /\ rem = o ++ rem' /\ scan_inv e s m' x' rem' | inr a => rem = o /\ scan_post e s a end.

(** What the conversion does is what [out], [tgt] and [vs2] say. *)
Definition esc_ok (e : escaped) (l : list Z) : Prop := exists res, conv errt (es_ch e) (es_fl e) (es_vs1 e) = Some (res, es_vs2 e)
  /\ es_out e = match res with Some t => t | None => [37] end /\ es_tgt e = match res with Some _ => es_r e | None => l end.

Section Escape.
Context (e : escaped) (l : list Z) (s : S) (Hs : sfx f (es_i0 e) l) (Hi0 : 0 < es_i0 e) (Hpc : nth (Z.to_nat (es_i0 e - 1)) f 0 = 37) (He : esc_ok e l).

(** A flag: the scan goes on at [i']. *)
Lemma scan_next i i' c g ap vs' fl' s' : sfx f i c -> no_percent f (es_i0 e) i -> sfx f i' g -> no_percent f i i' -> i < i' -> args s ap vs' -> fl_ok fl' ->
  directive g vs' fl' (es_fl e) (es_ch e) (es_r e) (es_vs1 e) -> pr_ok s' -> emits (next (i', ap, fl')) s' [] (scan_step e s (len c) (es_out e) []).
Proof.
  intros Hc Hn1 Hg Hn2 Hlt Ha Hfl Hd Ks. apply emits_ret; [done|]. exists (len g), (es_out e). split; [destruct Hc as (_ & ? & _), Hg as (_ & ? & _); lia|]. split; [done|].
  exists g, vs'. split_and!; try done. by apply (no_percent_trans f (es_i0 e) i).
Qed.

(** A flag of one character. *)
Lemma scan_flag i c g ap vs' fl' s' : sfx f i (c :: g) -> no_percent f (es_i0 e) i -> c <> 37 -> args s ap vs' -> fl_ok fl' ->
  directive g vs' fl' (es_fl e) (es_ch e) (es_r e) (es_vs1 e) -> pr_ok s' -> emits (next (i + 1, ap, fl')) s' [] (scan_step e s (len (c :: g)) (es_out e) []).
Proof.
  intros Hc Hn1 H37 Ha Hfl Hd Ks. destruct (sfx_cons f Hf _ _ _ Hc) as (Hg & _). eapply scan_next; try done; [by eapply no_percent_one|lia].
Qed.

(** The conversion. *)
Lemma scan_conv i c ap s' : sfx f i c -> default 0 (head c) = es_ch e -> es_r e = tail c -> no_percent f (es_i0 e) i -> args s ap (es_vs1 e) -> fl_ok (es_fl e) -> same s s' -> pr_ok s' ->
  emits (let! q := convert putch rec (es_ch e) f (i + 1) ap (es_fl e) in break q) s' (es_out e) (scan_step e s (len c) (es_out e) (es_out e)).
Proof.
  intros Hc Hh Hr Hn Ha Hfl HS Ks. destruct He as (res & Hconv & Ho & Ht). rewrite <- (app_nil_r (es_out e)) at 1. destruct res as [t|].
  - destruct c as [|c0 c]; [simpl in Hh; rewrite <- Hh in Hconv; discriminate Hconv|]. destruct (sfx_cons f Hf _ _ _ Hc) as (Hc' & _).
    eapply emits_bind; [rewrite Ho; apply (convert_ok _ f (i + 1) ap _ (es_vs1 e) t (es_vs2 e)); [by apply (args_same s)|done|done|done]|].
    intros [i' ap'] s1 [Hi Ha'] K1 S1. apply emits_ret; [done|]. split; [done|]. cbn [fst] in Hi. subst i'. split; [by rewrite Ht, Hr|]. by apply (args_same s'); [apply same_sym|].
  - destruct (convert_unknown (es_ch e) f (i + 1) (es_i0 e) ap (es_fl e) (es_vs1 e) (es_vs2 e) s' Ks Hconv) as [Ev Hem].
    { intros s1. apply unescape_ok; [done|done|done|done|]. destruct Hc as (_ & E & _). lia. }
    eapply emits_bind; [rewrite Ho; exact Hem|]. intros q s1 -> K1 S1. apply emits_ret; [done|]. split; [done|]. split; [by rewrite Ht|by rewrite Ev].
Qed.

Lemma escape_ok m x rem s' : scan_inv e s m x rem -> pr_ok s' -> same s s' -> 0 <= m /\ exists o, emits (escape putch rec f x) s' o (scan_step e s m rem o).
Proof.
  destruct x as [[i ap] fl']. intros (l' & vs' & -> & Hs' & Hnp & Ha & Hfl & Hd & ->) Ks HS. cbn [fst snd] in *. split; [lia|]. pose proof (fchar_ok f Hf i l' s' Hs') as E. unfold escape.
  inversion Hd as [g vs fl0 fl1 ch r vs1 Hd'|g vs fl0 fl1 ch r vs1 Hd'|c g n g' vs fl0 fl1 ch r vs1 Hc Hn Hfit Hd'|g w vs fl0 fl1 ch r vs1 Hfit Hd'|g vs fl0 fl1 ch r vs1 Hd'
    |g vs fl0 fl1 ch r vs1 Hd'|g vs fl0 fl1 ch r vs1 Hd'|c g vs fl0 Hc|vs fl0]; subst; simpl in E.
  - exists []. eapply emits_step; [exact E|]. by eapply scan_flag.
  - exists []. eapply emits_step; [exact E|]. by eapply scan_flag.
  - exists []. eapply emits_step; [exact E|]. cbv zeta. rewrite (proj2 (Z.eqb_neq c 45)), (proj2 (Z.eqb_neq c 48)), (proj2 (Z.leb_le 49 c)), (proj2 (Z.leb_le c 57)) by lia. cbn [andb].
    destruct (sfx_cons f Hf _ _ _ Hs') as (Hs1 & _). destruct (get_precision_ok f Hf Hlen (i + 1) c g n g' s' Hs1 Hc Hn Hfit) as (i' & E' & Hg' & Hnp').
    eapply emits_step; [exact E'|]. cbn [fst snd]. eapply scan_next; try done; [|destruct Hnp'; lia|by apply fl_ok_process]. apply (no_percent_trans f i (i + 1)); [|done]. eapply no_percent_one; [done|exact Hs'|lia].
  - exists []. eapply emits_step; [exact E|]. destruct (word_ok s' ap (VWord w :: vs) w vs (args_same s s' _ _ HS Ha) ltac:(done)) as (ap' & E' & Ha' & _).
    eapply emits_step; [exact E'|]. cbn [fst snd]. eapply scan_flag; try done; [|by apply fl_ok_process]. apply (args_same s'); [by apply same_sym|exact Ha'].
  - exists []. eapply emits_step; [exact E|]. eapply scan_flag; try done. by apply fl_ok_dot.
  - exists []. eapply emits_step; [exact E|]. by eapply scan_flag.
  - exists []. eapply emits_step; [exact E|]. by eapply scan_flag.
  - exists (es_out e). eapply emits_step; [exact E|]. destruct (flag_tests _ Hc) as (T1 & T2 & T3 & T4 & T5 & T6 & T7). cbv zeta. rewrite T1, T2, T3, T4, T5, T6, T7. by apply scan_conv.
  - exists (es_out e). eapply emits_step; [exact E|]. match goal with H : 0 = es_ch e |- _ => rename H into H0 end.
    pose proof (scan_conv i [] ap s' Hs' H0) as Hsc. rewrite <- H0 in Hsc. by apply Hsc.
Qed.

Lemma reswitch_ok ap vs : args s ap vs -> pr_ok s -> directive l vs flags0 (es_fl e) (es_ch e) (es_r e) (es_vs1 e) ->
  emits (reswitch putch rec f (es_i0 e) ap) s (es_out e) (scan_post e s).
Proof.
  intros Ha Ks Hd. unfold reswitch. apply (emits_loop putch _ (scan_inv e s) _ s) with (m := len l); [|exists l, vs; split_and!; try done; first [apply fl_ok0 | split; [done|cbn [fst]; lia]]|destruct Hs as (? & ? & ?); lia|done|apply same_refl].
  intros m x rem s' HI Ks' HS. by apply escape_ok.
Qed.
End Escape.

Lemma renders_plain g vs o : renders errt g vs o ->
  exists pre tl o2, g = pre ++ tl /\ o = pre ++ o2 /\ Forall (fun c => c <> 37) pre /\ renders errt tl vs o2 /\ (tl = [] \/ exists g', tl = 37 :: g').
Proof.
  induction g as [|c g IH] in o |- *; intros Hr; [inversion Hr; subst; exists [], [], []; by split_and!; try left|]. destruct (decide (c = 37)) as [->|Hc]; [exists [], (37 :: g), o; split_and!; try done; right; by exists g|].
  inversion Hr as [|c0 g0 vs0 o0 _ Hr0| |]; subst; try done. destruct (IH o0 Hr0) as (pre & tl & o2 & -> & -> & Hp & H2 & H3). exists (c :: pre), tl, o2. split_and!; try done. by constructor.
Qed.

Lemma put_plain_ok i pre tl s : sfx f i (pre ++ tl) -> Forall (fun c => c <> 37) pre -> tl = [] \/ (exists g, tl = 37 :: g) -> pr_ok s ->
  emits (put_plain putch f i) s pre (fun q => match tl with [] => q = None | _ :: g => exists i', q = Some i' /\ sfx f i' g /\ 0 < i' /\ nth (Z.to_nat (i' - 1)) f 0 = 37 end).
Proof.
  intros Hs Hp Htl Ks. apply (emits_loop putch _ (fun m i' rem => m = len rem /\ sfx f i' (rem ++ tl) /\ Forall (fun c => c <> 37) rem) _ s) with (m := len pre);
    [|done|destruct Hs as (? & He & ?); rewrite length_app in He; lia|done|apply same_refl].
  intros m i' rem s' (-> & Hs' & Hp') Ks' _. split; [lia|]. pose proof (fchar_ok f Hf i' _ s' Hs') as E. destruct rem as [|c rem]; cbn [app] in *.
  - exists []. eapply emits_step; [exact E|]. destruct Htl as [->|[g ->]]; simpl.
    + by apply emits_ret.
    + apply emits_ret; [done|]. split; [done|]. exists (i' + 1). destruct (sfx_cons f Hf _ _ _ Hs') as (Hs1 & Hn & _). destruct Hs' as (? & _). split_and!; try done; [lia|]. by replace (i' + 1 - 1) with i' by lia.
  - destruct (sfx_cons f Hf _ _ _ Hs') as (Hs1 & _ & Hc). apply Forall_cons in Hp' as [H37 Hp']. simpl in E. exists ([c] ++ []). eapply emits_step; [exact E|].
    rewrite (proj2 (Z.eqb_neq c 37) H37), (proj2 (Z.eqb_neq c 0)) by lia. eapply emits_bind; [by apply emits_put|]. intros _ s1 _ K1 _. apply emits_ret; [done|].
    exists (len rem), rem. split; [cbn [length]; lia|]. by split_and!.
Qed.

Lemma directive_length g vs fl fl' ch r vs' : directive g vs fl fl' ch r vs' -> len r <= len g.
Proof.
  induction 1 as [| |c g n g' vs fl fl' ch r vs' Hc Hn Hfit Hd IH| | | | | |]; cbn [length]; try lia.
  destruct (num_prefix_app _ _ _ _ Hn) as (pre & -> & _). rewrite length_app. lia.
Qed.

(** An escape sequence in a format. *)
Lemma renders_escape g vs o i0 : renders errt (37 :: g) vs o ->
  exists e o', es_i0 e = i0 /\ o = es_out e ++ o' /\ renders errt (es_tgt e) (es_vs2 e) o' /\ esc_ok e g /\ len (es_tgt e) <= len g
    /\ directive g vs flags0 (es_fl e) (es_ch e) (es_r e) (es_vs1 e).
Proof.
  intros Hr. inversion Hr as [|c g0 vs0 o0 H37 _|g0 vs0 fl ch r vs1 t vs2 o0 Hd Hc Hr0|g0 vs0 fl ch r vs1 vs2 o0 Hd Hc Hr0]; subst; [done| |].
  - exists (mkEsc i0 fl ch r vs1 t r vs2), o0. split_and!; try done; [by exists (Some t)|by apply directive_length in Hd].
  - exists (mkEsc i0 fl ch r vs1 [37] g vs2), o0. split_and!; try done. by exists None.
Qed.

Lemma vprintfmt_with_ok ap vs o s : args s ap vs -> pr_ok s -> renders errt f vs o -> emits (vprintfmt_with putch rec f ap) s o (fun _ => True).
Proof.
  intros Ha Ks Hr. apply (emits_loop putch _ (fun m '(i, ap') rem => exists g vs', m = len g /\ sfx f i g /\ args s ap' vs' /\ renders errt g vs' rem) _ s) with (m := len f);
    [|exists f, vs; split_and!; try done; apply sfx_all|lia|done|apply same_refl].
  intros m [i ap'] rem s' (g & vs' & -> & Hs & Ha' & Hr') Ks' HS. split; [lia|]. destruct (renders_plain g vs' rem Hr') as (pre & tl & o2 & -> & -> & Hp & H2 & H3).
  pose proof (put_plain_ok i pre tl s' Hs Hp H3 Ks') as Hpl. destruct H3 as [->|[g' ->]].
  - inversion H2; subst. exists (pre ++ []). eapply emits_bind; [exact Hpl|]. intros q s1 -> K1 S1. by apply emits_ret.
  - destruct (sfx_app f Hf pre i _ Hs Hp) as [Hs1 _]. destruct (sfx_cons f Hf _ _ _ Hs1) as (Hs2 & _).
    destruct (renders_escape g' vs' o2 (i + len pre + 1) H2) as (e & o' & Ei & -> & Hr2 & He & Hl & Hd). exists (pre ++ es_out e ++ []).
    eapply emits_bind; [exact Hpl|]. intros q s1 (i' & -> & Hi' & Hpos & Hn) K1 S1. assert (i' = es_i0 e) as ->.
    { rewrite Ei. destruct Hi' as (_ & ? & _), Hs2 as (_ & ? & _). lia. }
    assert (args s1 ap' vs') as Ha1 by (apply (args_same s'); [done|]; by apply (args_same s)).
    eapply emits_bind; [by apply (reswitch_ok e g' s1 Hi' Hpos Hn He ap' vs')|]. intros [i2 ap2] s2 [Hi2 Ha2] K2 S2. apply emits_ret; [done|].
    exists (len (es_tgt e)), o'. split; [rewrite length_app; cbn [length]; lia|]. split; [by rewrite app_nil_r, app_assoc|]. exists (es_tgt e), (es_vs2 e). split_and!; try done.
    apply (args_same s1); [|done]. apply same_sym. by apply (same_trans putch s s').
Qed.
End Scan.
End Render.
