(* ===== verification/PrintfProps.v ===== *)
(** Formatted output: [vprintfmt] prints what its format means, [snprintf] stays
    in its buffer, and a number that was printed is read back by [strtol]. *)

From stdpp Require Import base numbers list gmap strings.
From Stdlib Require Import ZArith Lia Bool.
From S2P Require Import Prelude Mmu Str StrSpec Printf PrintfSpec PrintfRender.

Local Ltac Zify.zify_post_hook ::= Z.to_euclidean_division_equations.

Local Abbreviation len l := (Z.of_nat (length l)).

(** * The nested call *)

Section Nested.
Context {S : Type} `{!Memory S} (putch : Z -> M S unit) `{!Printer putch}.

Local Abbreviation inner := (vprintfmt_with putch (fun _ _ => panic "printfmt")).
Local Abbreviation no_error := (fun _ : Z => @None (list Z)).

Lemma inner_ok f ap vs o s : fmt_ok f -> len f < 2 ^ 32 -> args putch s ap vs -> pr_ok s -> renders no_error f vs o -> emits putch (inner f ap) s o (fun _ => True).
Proof. intros Hf Hl. by apply (vprintfmt_with_ok putch _ no_error). Qed.

Lemma number_plain base n : number_text base n flags0 = digits base n.
Proof. unfold number_text. cbn [width flags0]. by replace (Z.to_nat (-1 - len (digits base n))) with 0%nat by lia. Qed.

Lemma error_number e s : 0 <= e < 2 ^ 31 -> pr_ok s -> emits putch (inner (chars "error %d") [AWord e]) s (chars "error " ++ digits 10 e) (fun _ => True).
Proof.
  intros He Hs. apply (inner_ok _ _ [VWord (u32 e)]); [by repeat constructor|done|by repeat constructor|done|]. rewrite u32_small by (unfold is_u32; lia).
  rewrite <- (app_nil_r (digits 10 e)). repeat (apply ren_char; [done|]).
  eapply ren_conv with (vs2 := []); [by apply dir_conv| |apply ren_end]. change (Some (Some (signed_text (s32 e) flags0), @nil val) = Some (Some (digits 10 e), [])). rewrite s32_small by lia. unfold signed_text. by rewrite (proj2 (Z.ltb_ge e 0)), number_plain by lia.
Qed.

Lemma error_literal l s : Forall (fun c => 0 < c < 2 ^ 7) l -> len l < 2 ^ 30 -> pr_ok s -> emits putch (inner (chars "%s") [ALit l]) s l (fun _ => True).
Proof.
  intros Hc Hl Hs. apply (inner_ok _ _ [VStr l]); [by repeat constructor|done| |done|].
  - constructor; [|constructor]. split; [|done]. split; [done|]. eapply Forall_impl; [exact Hc|]. cbn. lia.
  - rewrite <- (app_nil_r l) at 2. eapply ren_conv with (vs2 := []); [by apply dir_conv| |apply ren_end]. change (Some (Some (string_text flags0 l), @nil val) = Some (Some l, [])). unfold string_text. cbn [padc width altflag precision flags0]. change (limit (-1) l) with l. rewrite length_fmap.
    replace (Z.to_nat (-1 - len l)) with 0%nat by lia. cbn [Z.eqb Pos.eqb replicate app]. do 3 f_equal. clear Hl. induction Hc as [|c l Hc _ IH]; [done|]. rewrite fmap_cons, IH. f_equal.
    unfold shown, s8, u8. cbn [andb]. rewrite Z.mod_small by lia. by rewrite (proj2 (Z.ltb_lt c (2 ^ 7))) by lia.
Qed.

(** The messages are plain text. *)
Lemma error_string_ok e l : error_string e = Some l -> Forall (fun c => 0 < c < 2 ^ 7) l /\ len l < 2 ^ 30.
Proof.
  unfold error_string. intros H. repeat case_match; simplify_eq; (split; [|done]); by repeat constructor.
Qed.

Lemma put_error_ok e t s : error_text e = Some t -> pr_ok s -> emits putch (put_error inner e) s t (fun _ => True).
Proof.
  intros Ht Hs. unfold error_text in Ht. destruct (Z.ltb_spec (Z.abs e) (2 ^ 31)) as [Hm|]; [|done]. injection Ht as <-. unfold put_error.
  assert ((if e <? 0 then s32 (- e) else e) = Z.abs e) as -> by (destruct (Z.ltb_spec e 0); [rewrite s32_same by lia|]; lia).
  destruct (Z.ltb_spec (Z.abs e) MAXERROR) as [Hlt|Hge]; [|rewrite (proj2 (Z.leb_le MAXERROR (Z.abs e))) by lia; apply error_number; [lia|done]].
  rewrite (proj2 (Z.leb_gt MAXERROR (Z.abs e))), (proj2 (Z.ltb_ge (Z.abs e) 0)) by lia. cbv zeta. destruct (error_string (Z.abs e)) as [l|] eqn:El.
  - destruct (error_string_ok _ _ El). by apply error_literal.
  - apply error_number; [lia|done].
Qed.
End Nested.

Lemma vprintfmt_ok {S} `{!Memory S} (putch : Z -> M S unit) `{!Printer putch} f ap vs o s : fmt_ok f -> len f < 2 ^ 32 -> args putch s ap vs -> pr_ok s ->
  renders error_text f vs o -> emits putch (vprintfmt putch f ap) s o (fun _ => True).
Proof. intros Hf Hl Ha Hs Hr. exact (vprintfmt_with_ok putch _ error_text (put_error_ok putch) f Hf Hl ap vs o s Ha Hs Hr). Qed.

(** * snprintf *)

Section Sprint.
Context {S : Type} `{!Memory S} (s0 : S) (buf n : Z) (Hn : 1 <= n).

(** The characters that fit are in the buffer, the others are counted. *)
Definition sprint_inv (o : list Z) (s : S * sprintbuf) : Prop :=
  s.2 = mkSprintbuf (buf + Z.min (len o) (n - 1)) (buf + n - 1) (s32 (len o))
  /\ blk_set s0 s.1 buf (Z.min (len o) (n - 1)) (fun i => u8 (nth (Z.to_nat i) o 0)).

Lemma sprint_put c s o : sprint_inv o s -> exists s', sprintputch c s = Ret tt s' /\ sprint_inv (o ++ [c]) s' /\ forall k, ~ (buf <= k < buf + n) -> peek s' k = peek s k.
Proof.
  destruct s as [st b]. intros [Eb HB]. cbn [fst snd] in *. subst b. unfold sprintputch, sprint_inv, gets, modify, bind, ret. cbn [fst snd sb_buf sb_ebuf sb_cnt].
  rewrite length_app, Nat2Z.inj_add. change (len [c]) with 1. pose proof (s32_idem (len o) 1 1) as Ec. rewrite !Z.mul_1_r in Ec. rewrite Ec.
  destruct (Z.ltb_spec (buf + Z.min (len o) (n - 1)) (buf + n - 1)) as [Hlt|Hge]; eexists; (split; [reflexivity|]); cbn [fst snd].
  - replace (Z.min (len o) (n - 1)) with (len o) in * by lia. replace (Z.min (len o + 1) (n - 1)) with (len o + 1) by lia. split; [split; [f_equal; lia|]|].
    + intros k. cbn [peek poke_at local_memory fst]. rewrite peek_poke, HB. repeat case_decide; try lia; try (by rewrite app_nth1 by lia).
      rewrite app_nth2 by lia. by replace (Z.to_nat (k - buf) - length o)%nat with 0%nat by lia.
    + intros k Hk. cbn [peek poke_at local_memory fst]. rewrite peek_poke. by rewrite decide_False by lia.
  - assert (n - 1 <= len o) as Hge' by lia. replace (Z.min (len o) (n - 1)) with (n - 1) in * by lia. replace (Z.min (len o + 1) (n - 1)) with (n - 1) by lia. split; [split; [done|]|done].
    eapply blk_set_ext; [exact HB|done|]. intros i Hi. by rewrite app_nth1 by lia.
Qed.

Definition sprint_printer : Printer (@sprintputch S _).
Proof using Hn s0 buf.
  refine {| pr_inv := sprint_inv; pr_kept := fun k => ~ (buf <= k < buf + n) |}.
  intros c s [o Ho]. destruct (sprint_put c s o Ho) as (s' & E & _ & Hk). exists s'. split; [done|]. split; [|done].
  intros o' Ho'. destruct (sprint_put c s o' Ho') as (s2 & E2 & H2 & _). rewrite E in E2. by injection E2 as <-.
Defined.
End Sprint.

(** The strings among the arguments are out of the way of the buffer. *)
Definition clear_args {S} `{!Memory S} (s : S) (buf n : Z) (ap : list arg) (vs : list val) : Prop :=
  Forall2 (fun a v => match a, v with
    | AWord w, VWord w' => w' = u32 w
    | AWord w, VStr l => u32 w <> 0 /\ cstr s (u32 w) l /\ (u32 w + len l < buf \/ buf + n <= u32 w) /\ len l < 2 ^ 30
    | _, _ => False
    end) ap vs.

Lemma cstr_local {S B} `{!Memory S} (s : S) (b : B) l : forall p, cstr s p l -> cstr (s, b) p l.
Proof. induction l as [|c l IH]; intros p; cbn [cstr]; [done|]. intros (H1 & H2 & H3). split; [done|]. split; [done|by apply IH]. Qed.

Lemma snprintf_ok {S} `{!Memory S} (s : S) buf n f ap vs o : buf <> 0 -> 1 <= n -> fmt_ok f -> len f < 2 ^ 32 -> clear_args s buf n ap vs ->
  renders error_text f vs o -> len o < 2 ^ 31 ->
  exists s', snprintf buf n f ap s = Ret (len o) s'
    /\ blk_set s s' buf (Z.min (len o) (n - 1) + 1) (fun i => u8 (nth (Z.to_nat i) (take (Z.to_nat (n - 1)) o ++ [0]) 0)).
Proof.
  intros Hbuf Hn Hf Hl Ha Hr Ho. unfold snprintf, vsnprintf. rewrite (proj2 (Z.eqb_neq buf 0) Hbuf), (proj2 (Z.ltb_ge n 1)) by lia. cbn [orb].
  set (b0 := mkSprintbuf buf (buf + n - 1) 0). assert (sprint_inv s buf n [] (s, b0)) as H0.
  { split; [cbn; unfold b0; f_equal; lia|]. intros k. change (len []) with 0. by rewrite decide_False by lia. }
  destruct (@vprintfmt_ok _ _ sprintputch (sprint_printer s buf n Hn) f ap vs o (s, b0)) as ([] & [st b] & E & _ & Hi & _ & _); [done|done| |by exists []|done|].
  { eapply Forall2_impl; [exact Ha|]. intros [w|l'] [w'|l]; cbn; try done. intros (H1 & H2 & H3 & H4). split_and!; try done; [by apply cstr_local|]. intros i Hi. lia. }
  destruct (Hi [] H0) as [Eb HB]. cbn [fst snd app] in Eb, HB.
  assert (with_local b0 (vprintfmt sprintputch f ap) s = Ret (tt, b) st) as E1 by (unfold with_local; by rewrite E). rewrite (bind_ret _ _ _ _ _ E1). cbn [snd]. subst b. cbn [sb_buf sb_cnt].
  destruct (cwrite_blk 0 (buf + Z.min (len o) (n - 1)) st) as (s' & E2 & HB2). rewrite (bind_ret _ _ _ _ _ E2), s32_small by lia. exists s'. split; [done|].
  assert (len (take (Z.to_nat (n - 1)) o) = Z.min (len o) (n - 1)) as Ht by (rewrite length_take; lia).
  intros k. rewrite HB2, HB. repeat case_decide; try lia; try done.
  - rewrite app_nth2 by lia. by replace (Z.to_nat (k - buf) - length (take (Z.to_nat (n - 1)) o))%nat with 0%nat by lia.
  - rewrite app_nth1 by lia. rewrite <- (take_drop (Z.to_nat (n - 1)) o) at 1. by rewrite app_nth1 by lia.
Qed.

(** * Printed numbers are read back *)

Lemma digits_length fuel : forall base num k, 2 <= base -> 0 <= num < base ^ Z.of_nat k -> (1 <= k)%nat -> (length (digits_from fuel base num) <= k)%nat.
Proof.
  induction fuel as [|fuel IH]; intros base num k Hb Hn Hk; cbn [digits_from]; [cbn; lia|]. rewrite length_app. cbn [length]. destruct (Z.leb_spec base num); [|cbn [length]; lia].
  destruct k as [|k]; [lia|]. rewrite Nat2Z.inj_succ, Z.pow_succ_r in Hn by lia.
  assert (length (digits_from fuel base (num / base)) <= k)%nat; [|lia]. apply IH; [done| |].
  - split; [apply Z.div_pos; lia|]. apply Z.div_lt_upper_bound; lia.
  - destruct k; [|lia]. change (base ^ Z.of_nat 0) with 1 in Hn. lia.
Qed.

Lemma blk_cstr {S} `{!Memory S} (s s' : S) o : forall p, Forall (fun c => 0 < c < 2 ^ 8) o ->
  (forall i, 0 <= i <= len o -> peek s' (p + i) = u8 (nth (Z.to_nat i) (o ++ [0]) 0)) -> cstr s' p o.
Proof.
  induction o as [|c o IH]; intros p Ho H; cbn [cstr]; pose proof (H 0 ltac:(lia)) as H0; rewrite Z.add_0_r in H0; simpl nth in H0; [done|].
  apply Forall_cons in Ho as [Hc Ho]. unfold u8 in H0. rewrite Z.mod_small in H0 by lia. split; [done|]. split; [lia|]. apply IH; [done|]. intros i Hi. rewrite <- Z.add_assoc, H by (cbn [length]; lia).
  by replace (Z.to_nat (1 + i)) with (Datatypes.S (Z.to_nat i)) by lia.
Qed.

Lemma digits_ok base n : 2 <= base <= 16 -> 0 <= n < 2 ^ 64 ->
  value base (digits base n) = n /\ Forall (is_digit base) (digits base n) /\ Forall (fun c => 0 < c < 2 ^ 7) (digits base n) /\ digits base n <> [].
Proof.
  intros Hb Hn. destruct (digits_value 64 base n Hb Hn) as (H1 & H2 & H3). split_and!; try done. unfold digits. cbn [digits_from]. by destruct (if base <=? n then _ else _).
Qed.

(** The text of an [int]: a sign and digits. *)
Lemma signed_ok v : - 2 ^ 31 <= v < 2 ^ 31 ->
  exists sg, sign_of sg /\ signed_text v flags0 = sg ++ digits 10 (Z.abs v) /\ len (sg ++ digits 10 (Z.abs v)) <= 11
    /\ (if decide (sg = [45]) then s32 (- s32 (value 10 (digits 10 (Z.abs v)))) else s32 (value 10 (digits 10 (Z.abs v)))) = v.
Proof.
  intros Hv. destruct (digits_ok 10 (Z.abs v)) as (-> & _); [lia|lia|]. unfold signed_text. rewrite !number_plain.
  pose proof (digits_length 64 10 (Z.abs v) 10 ltac:(lia) ltac:(change (10 ^ Z.of_nat 10) with 10000000000; lia) ltac:(lia)) as Hl. fold (digits 10 (Z.abs v)) in Hl. destruct (Z.ltb_spec v 0) as [Hn|Hn].
  - exists [45]. split; [right; by right|]. replace (Z.abs v) with (- v) in * by lia. split; [done|]. split; [rewrite length_app; cbn [length]; lia|]. rewrite decide_True by done.
    destruct (decide (v = - 2 ^ 31)) as [->|]; [done|]. rewrite (s32_same (- v)) by lia. rewrite s32_same by lia. lia.
  - exists []. split; [by left|]. replace (Z.abs v) with v in * by lia. split; [done|]. split; [cbn [app]; lia|]. rewrite decide_False by done. apply s32_same. lia.
Qed.

Lemma print_read_ok {S} `{!Memory S} (s : S) buf n v : buf <> 0 -> 12 <= n -> - 2 ^ 31 <= v < 2 ^ 31 ->
  exists s', snprintf buf n (chars "%d") [AWord v] s = Ret (len (signed_text v flags0)) s' /\ cstr s' buf (signed_text v flags0)
    /\ strtol buf 10 s' = Ret (v, buf + len (signed_text v flags0)) s'.
Proof.
  intros Hb Hn Hv. destruct (signed_ok v Hv) as (sg & Hsg & Et & Hl & Hval). destruct (digits_ok 10 (Z.abs v)) as (_ & Hd & Hc & Hne); [lia|lia|].
  assert (s32 (u32 v) = v) as Hu. { unfold s32. rewrite (u32_small (u32 v)) by apply u32_range. apply s32_same. lia. }
  assert (renders error_text (chars "%d") [VWord (u32 v)] (signed_text v flags0)) as Hr.
  { rewrite <- (app_nil_r (signed_text v flags0)). eapply ren_conv with (vs2 := []); [by apply dir_conv| |apply ren_end].
    change (Some (Some (signed_text (s32 (u32 v)) flags0), @nil val) = Some (Some (signed_text v flags0), [])). by rewrite Hu. }
  rewrite Et in *. destruct (snprintf_ok s buf n (chars "%d") [AWord v] [VWord (u32 v)] (sg ++ digits 10 (Z.abs v))) as (s' & E & HB); try done; [lia|by repeat constructor|by repeat constructor|lia|].
  exists s'. split; [done|]. assert (cstr s' buf (sg ++ digits 10 (Z.abs v))) as Hcs.
  { apply (blk_cstr s); [apply Forall_app; split; [by destruct Hsg as [->|[->| ->]]; repeat constructor|eapply Forall_impl; [exact Hc|]; cbn; lia]|].
    intros i Hi. rewrite HB, decide_True by lia. rewrite take_ge by lia. by replace (buf + i - buf) with i by lia. }
  split; [done|]. rewrite <- (app_nil_r (sg ++ digits 10 (Z.abs v))), <- app_assoc in Hcs.
  rewrite (strtol_ok [] sg (digits 10 (Z.abs v)) [] s' buf 10 Hcs); [by rewrite Hval|done|done|done|done|by intros []|done|done|]. rewrite length_app in Hl. change (len []) with 0. lia.
Qed.

(** * The printers on top *)

(** kern/printf.c: everything goes to the console, and the count that is
    returned is 0 whatever was printed. *)
Section Kernel.
Context {S : Type} `{!Memory S} (cputchar : Z -> M S unit) `{HP : !Printer cputchar}.

Definition kputch_printer : Printer (kputch cputchar).
Proof using HP.
  refine {| pr_inv o s := pr_inv o s.1 /\ s.2 = 0; pr_kept := pr_kept (putch := cputchar) |}.
  intros c [s b] [o [Ho Hb]]. destruct (pr_put c s (ex_intro _ o Ho)) as (s' & E & Hi & Hk). exists (s', b).
  split; [unfold kputch, lift; by rewrite E|]. split; [|done]. intros o' [Ho' _]. split; [by apply Hi|done].
Defined.

Lemma kcprintf_ok f ap vs o o0 s : fmt_ok f -> len f < 2 ^ 32 -> args cputchar s ap vs -> pr_inv o0 s -> renders error_text f vs o ->
  exists s', kcprintf cputchar f ap s = Ret 0 s' /\ pr_inv (o0 ++ o) s'.
Proof using HP.
  intros Hf Hl Ha Hs Hr. destruct (@vprintfmt_ok _ _ _ kputch_printer f ap vs o (s, 0)) as ([] & [s' b] & E & _ & Hi & _ & _); [done|done| |by exists o0|done|].
  { eapply Forall2_impl; [exact Ha|]. intros [w|l'] [w'|l]; cbn; try done. intros (H1 & (H2 & H3) & H4). split_and!; try done. by apply cstr_local. }
  destruct (Hi o0) as [Ho Hb]; [done|]. cbn [fst snd] in *. subst b. exists s'. split; [|done]. unfold kcprintf, kvcprintf.
  assert (with_local 0 (vprintfmt (kputch cputchar) f ap) s = Ret (tt, 0) s') as E1 by (unfold with_local; by rewrite E). by rewrite (bind_ret _ _ _ _ _ E1).
Qed.
End Kernel.

(** lib/printf.c: the system calls together print the text, byte by byte, and
    no call prints more than 255 bytes. [log] is what has been printed. *)
Section User.
Context {S : Type} `{!Memory S} (sys_cputs : list Z -> M S unit) (log : S -> list Z).
Context (Hputs : forall l s, len l <= 255 -> exists s', sys_cputs l s = Ret tt s' /\ log s' = log s ++ l /\ forall k, peek s' k = peek s k).
Context (s0 : S).

Definition print_inv (o : list Z) (s : S * printbuf) : Prop :=
  0 <= pb_idx s.2 < 255 /\ length (pb_buf s.2) = 256%nat /\ pb_cnt s.2 = s32 (len o)
  /\ log s0 ++ (u8 <$> o) = log s.1 ++ take (Z.to_nat (pb_idx s.2)) (pb_buf s.2) /\ forall k, peek s.1 k = peek s0 k.

Lemma take_set (l : list Z) i x : (i < length l)%nat -> take (Datatypes.S i) (<[i := x]> l) = take i l ++ [x].
Proof.
  intros Hi. rewrite (take_S_r _ _ x) by (by apply list_lookup_insert_eq). by rewrite take_insert_ge by lia.
Qed.

Lemma print_put c s o : print_inv o s -> exists s', uputch sys_cputs c s = Ret tt s' /\ print_inv (o ++ [c]) s'.
Proof using Hputs.
  destruct s as [st b]. intros (Hi & Hl & Hc & Ho & Hk). cbn [fst snd] in *. pose proof (s32_idem (len o) 1 1) as Ec. rewrite !Z.mul_1_r in Ec.
  assert (take (Z.to_nat (pb_idx b + 1)) (<[Z.to_nat (pb_idx b) := u8 c]> (pb_buf b)) = take (Z.to_nat (pb_idx b)) (pb_buf b) ++ [u8 c]) as Et.
  { replace (Z.to_nat (pb_idx b + 1)) with (Datatypes.S (Z.to_nat (pb_idx b))) by lia. apply take_set. lia. }
  assert (log s0 ++ (u8 <$> (o ++ [c])) = log st ++ take (Z.to_nat (pb_idx b + 1)) (<[Z.to_nat (pb_idx b) := u8 c]> (pb_buf b))) as Ho' by (by rewrite Et, fmap_app, !app_assoc, Ho).
  unfold uputch, modify, gets, ret, bind, lift. cbn [fst snd pb_idx pb_cnt pb_buf]. destruct (Z.eqb_spec (pb_idx b + 1) (256 - 1)) as [E|E].
  - destruct (Hputs (take (Z.to_nat (pb_idx b + 1)) (<[Z.to_nat (pb_idx b) := u8 c]> (pb_buf b))) st) as (st' & Ep & El & Ek); [rewrite length_take; lia|].
    rewrite Ep. eexists. split; [reflexivity|]. unfold print_inv. cbn [fst snd pb_idx pb_cnt pb_buf]. split; [lia|]. split; [by rewrite length_insert|]. split; [by rewrite Hc, Ec, length_app, Nat2Z.inj_add|].
    split; [rewrite Ho', El; symmetry; apply app_nil_r|]. intros k. by rewrite Ek.
  - eexists. split; [reflexivity|]. unfold print_inv. cbn [fst snd pb_idx pb_cnt pb_buf]. split; [lia|]. split; [by rewrite length_insert|]. split; [by rewrite Hc, Ec, length_app, Nat2Z.inj_add|]. by split.
Qed.

Definition uputch_printer : Printer (uputch sys_cputs).
Proof using Hputs s0.
  refine {| pr_inv := print_inv; pr_kept := fun _ => True |}.
  intros c s [o Ho]. destruct (print_put c s o Ho) as (s' & E & Hi). exists s'. split; [done|]. split.
  - intros o' Ho'. destruct (print_put c s o' Ho') as (s2 & E2 & Hi2). rewrite E in E2. by injection E2 as <-.
  - intros k _. destruct Ho as (_ & _ & _ & _ & H1), Hi as (_ & _ & _ & _ & H2). exact (eq_trans (H2 k) (eq_sym (H1 k))).
Defined.
End User.

Lemma ucprintf_ok {S} `{!Memory S} (sys_cputs : list Z -> M S unit) log f ap vs o s :
  (forall l s, len l <= 255 -> exists s', sys_cputs l s = Ret tt s' /\ log s' = log s ++ l /\ forall k, peek s' k = peek s k) ->
  fmt_ok f -> len f < 2 ^ 32 -> clear_args s 0 0 ap vs -> renders error_text f vs o -> len o < 2 ^ 31 ->
  exists s', ucprintf sys_cputs f ap s = Ret (len o) s' /\ log s' = log s ++ (u8 <$> o).
Proof.
  intros Hputs Hf Hl Ha Hr Ho. set (b0 := mkPrintbuf 0 0 (repeat 0 256)). assert (print_inv log s [] (s, b0)) as H0 by (split_and!; done || cbn; rewrite ?app_nil_r; done).
  destruct (@vprintfmt_ok _ _ _ (uputch_printer sys_cputs log Hputs s) f ap vs o (s, b0)) as ([] & [st b] & E & _ & Hi & _ & _); [done|done| |by exists []|done|].
  { eapply Forall2_impl; [exact Ha|]. intros [w|l'] [w'|l]; cbn; try done. intros (H1 & H2 & _ & H4). split_and!; try done. by apply cstr_local. }
  destruct (Hi [] H0) as (H1 & H2 & H3 & H4 & _). cbn [fst snd app] in *. unfold ucprintf, uvcprintf.
  assert (with_local b0 (vprintfmt (uputch sys_cputs) f ap) s = Ret (tt, b) st) as E1 by (unfold with_local; by rewrite E). rewrite (bind_ret _ _ _ _ _ E1). cbn [snd].
  destruct (Hputs (take (Z.to_nat (pb_idx b)) (pb_buf b)) st) as (s' & E2 & El & _); [rewrite length_take; lia|]. rewrite (bind_ret _ _ _ _ _ E2), H3, s32_small by lia.
  exists s'. split; [done|]. by rewrite El.
Qed.


(** A printer that only remembers what it printed. *)
Definition log_putch (c : Z) : M (gmap Z Z * list Z) unit := modify (fun s => (s.1, s.2 ++ [c])).
#[export] Program Instance log_printer : Printer log_putch := {| pr_inv o s := s.2 = o; pr_kept _ := True |}.
Next Obligation. intros c [m l] [o Ho]. eexists. split; [reflexivity|]. split; [by intros o' <-|done]. Qed.

(** "%5d%%%e": a number in a field, a percent sign and an error. *)
Lemma demo_renders : renders error_text (chars "%5d%%%e") [VWord 7; VWord 4] (chars "    7%out of memory").
Proof.
  change (chars "    7%out of memory") with (chars "    7" ++ chars "%" ++ chars "out of memory" ++ []).
  eapply ren_conv with (vs2 := [VWord 4]); [eapply dir_number; [by vm_compute|vm_compute; reflexivity|by vm_compute|by apply dir_conv]|vm_compute; reflexivity|].
  eapply ren_conv with (vs2 := [VWord 4]); [by apply dir_conv|vm_compute; reflexivity|].
  eapply ren_conv with (vs2 := []); [by apply dir_conv|vm_compute; reflexivity|]. apply ren_end.
Qed.


(** C25: [snprintf] writes the text into its buffer as far as it fits, always
    with a terminator, returns the length of the whole text, and changes no byte
    outside of the buffer. *)
Theorem snprintf_correct {S} `{!Memory S} (s : S) buf n f ap vs o : buf <> 0 -> 1 <= n -> fmt_ok f -> len f < 2 ^ 32 -> clear_args s buf n ap vs ->
  renders error_text f vs o -> len o < 2 ^ 31 ->
  exists s', snprintf buf n f ap s = Ret (len o) s'
    /\ blk_set s s' buf (Z.min (len o) (n - 1) + 1) (fun i => u8 (nth (Z.to_nat i) (take (Z.to_nat (n - 1)) o ++ [0]) 0)).
Proof. apply snprintf_ok. Qed.

Lemma snprintf_correct_witness : exists s' : gmap Z Z, snprintf 64 8 (chars "%5d%%%e") [AWord 7; AWord 4] ∅ = Ret 19 s'
  /\ blk_set (∅ : gmap Z Z) s' 64 8 (fun i => u8 (nth (Z.to_nat i) (take 7 (chars "    7%out of memory") ++ [0]) 0)).
Proof.
  apply (snprintf_correct (∅ : gmap Z Z) 64 8 (chars "%5d%%%e") [AWord 7; AWord 4] [VWord 7; VWord 4] (chars "    7%out of memory"));
    [done|lia|by repeat constructor|done|by repeat constructor|apply demo_renders|done].
Defined.

(** C26: [strtol] reads back what [snprintf] prints with [%d], for every [int],
    and stops at the end of it. *)
Theorem print_read_correct {S} `{!Memory S} (s : S) buf n v : buf <> 0 -> 12 <= n -> - 2 ^ 31 <= v < 2 ^ 31 ->
  exists s', snprintf buf n (chars "%d") [AWord v] s = Ret (len (signed_text v flags0)) s' /\ cstr s' buf (signed_text v flags0)
    /\ strtol buf 10 s' = Ret (v, buf + len (signed_text v flags0)) s'.
Proof. apply print_read_ok. Qed.

Lemma print_read_correct_witness : exists s' : gmap Z Z, snprintf 64 12 (chars "%d") [AWord (-2147483648)] ∅ = Ret 11 s' /\ cstr s' 64 (chars "-2147483648")
  /\ strtol 64 10 s' = Ret (-2147483648, 75) s'.
Proof. apply (print_read_correct (∅ : gmap Z Z) 64 12 (-2147483648)); lia. Defined.
