(* ===== verification/Chksum.v ===== *)
(** The Internet checksum of the network stack
    (net/lwip/core/ipv4/inet_chksum.c): the three versions of
    [lwip_standard_chksum], and the sums over a buffer, over a chain of
    packet buffers and with the pseudo header of TCP and UDP.

    A buffer is the list of its bytes; where alignment matters its address is
    an argument as well. A chain of packet buffers is the list of the payloads.
    The machine is little-endian. *)

From stdpp Require Import base numbers list strings.
From Stdlib Require Import ZArith Lia Bool.
From S2P Require Import Prelude.

Local Ltac Zify.zify_post_hook ::= Z.to_euclidean_division_equations.

(** * The code *)

(** net/lwip/core/ipv4/inet.c *)
Definition htons (n : Z) : Z := Z.lor (Z.shiftl (Z.land n 0xff) 8) (Z.shiftr (Z.land n 0xff00) 8).

Definition SWAP_BYTES_IN_WORD (w : Z) : Z := Z.lor (Z.shiftl (Z.land w 0xff) 8) (Z.shiftr (Z.land w 0xff00) 8).
Definition FOLD_U32T (u : Z) : Z := u32 (Z.shiftr u 16 + Z.land u 0xffff).

(** Version 1: bytes in network order. *)
Fixpoint chksum_octets (acc : Z) (bs : list Z) : Z :=
  match bs with
  | b0 :: b1 :: bs =>
      let src := u16 (Z.shiftl b0 8) in
      let src := Z.lor src b1 in
      chksum_octets (u32 (acc + src)) bs
  | [b0] => u32 (acc + u16 (Z.shiftl b0 8))
  | [] => acc
  end.

Definition lwip_standard_chksum (dataptr : list Z) : Z :=
  let acc := chksum_octets 0 dataptr in
  let acc := FOLD_U32T acc in
  let acc := if Z.land acc 0xffff0000 =? 0 then acc else FOLD_U32T acc in
  htons (u16 acc).

(** Version 2: aligned 16-bit words of the machine. [t] holds the bytes left
    over at the two ends. *)
Definition word16 (b0 b1 : Z) : Z := b0 + 2 ^ 8 * b1.
Definition word32 (b0 b1 b2 b3 : Z) : Z := word16 b0 b1 + 2 ^ 16 * word16 b2 b3.

Fixpoint sum16 (sum : Z) (ps : list Z) : Z * list Z :=
  match ps with
  | b0 :: b1 :: ps => sum16 (u32 (sum + word16 b0 b1)) ps
  | _ => (sum, ps)
  end.

Definition left_over (t : Z) (ps : list Z) : Z :=
  match ps with
  | b :: _ => Z.lor (Z.land t 0xff00) b
  | [] => t
  end.

Definition align16 (odd : bool) (pb : list Z) : Z * list Z :=
  match odd, pb with
  | true, b :: pb => (Z.shiftl b 8, pb)
  | _, _ => (0, pb)
  end.

Definition lwip_standard_chksum_v2 (addr : Z) (dataptr : list Z) : Z :=
  let odd := Z.odd addr in
  let '(t, ps) := align16 odd dataptr in
  let '(sum, ps) := sum16 0 ps in
  let t := left_over t ps in
  let sum := u32 (sum + t) in
  let sum := FOLD_U32T sum in
  let sum := FOLD_U32T sum in
  let sum := if odd then SWAP_BYTES_IN_WORD sum else sum in
  u16 sum.

(** Version 3: two 32-bit words per round, with the carry added back. *)
Definition add_carry (sum w : Z) : Z :=
  let tmp := u32 (sum + w) in
  if tmp <? sum then u32 (tmp + 1) else tmp.

Fixpoint sum32 (sum : Z) (pl : list Z) : Z * list Z :=
  match pl with
  | b0 :: b1 :: b2 :: b3 :: b4 :: b5 :: b6 :: b7 :: pl =>
      let tmp := add_carry sum (word32 b0 b1 b2 b3) in
      let sum := add_carry tmp (word32 b4 b5 b6 b7) in
      sum32 sum pl
  | _ => (sum, pl)
  end.

Definition align32 (ps_addr : Z) (ps : list Z) : Z * list Z :=
  match ps with
  | b0 :: b1 :: ps' => if Z.land ps_addr 3 =? 0 then (0, ps) else (u32 (0 + word16 b0 b1), ps')
  | _ => (0, ps)
  end.

Definition lwip_standard_chksum_v3 (addr : Z) (dataptr : list Z) : Z :=
  let odd := Z.odd addr in
  let '(t, ps) := align16 odd dataptr in
  let ps_addr := if odd && negb (bool_decide (dataptr = [])) then addr + 1 else addr in
  let '(sum, pl) := align32 ps_addr ps in
  let '(sum, ps) := sum32 sum pl in
  let sum := FOLD_U32T sum in
  let '(sum, ps) := sum16 sum ps in
  let t := left_over t ps in
  let sum := u32 (sum + t) in
  let sum := FOLD_U32T sum in
  let sum := FOLD_U32T sum in
  let sum := if odd then SWAP_BYTES_IN_WORD sum else sum in
  u16 sum.

Definition inet_chksum (dataptr : list Z) : Z := u16 (Z.lnot (lwip_standard_chksum dataptr)).

(** One round of the loops over a chain: [acc] and [swapped] after a packet
    buffer of length [qlen], of which the bytes [bs] are summed. *)
Definition chain_round (qlen : Z) (bs : list Z) (st : Z * bool) : Z * bool :=
  let '(acc, swapped) := st in
  let acc := u32 (acc + lwip_standard_chksum bs) in
  let acc := FOLD_U32T acc in
  if negb (qlen mod 2 =? 0) then (SWAP_BYTES_IN_WORD acc, negb swapped) else (acc, swapped).

Fixpoint chain_sum (q : list (list Z)) (st : Z * bool) : Z * bool :=
  match q with
  | [] => st
  | bs :: q => chain_sum q (chain_round (Z.of_nat (length bs)) bs st)
  end.

Definition unswap (st : Z * bool) : Z :=
  let '(acc, swapped) := st in if swapped then SWAP_BYTES_IN_WORD acc else acc.

Definition inet_chksum_pbuf (p : list (list Z)) : Z :=
  let acc := unswap (chain_sum p (0, false)) in
  u16 (Z.lnot (Z.land acc 0xffff)).

(** The end of the sums with a pseudo header. *)
Definition pseudo_sum (acc src dest proto proto_len : Z) : Z :=
  let acc := u32 (acc + Z.land src 0xffff) in
  let acc := u32 (acc + Z.land (Z.shiftr src 16) 0xffff) in
  let acc := u32 (acc + Z.land dest 0xffff) in
  let acc := u32 (acc + Z.land (Z.shiftr dest 16) 0xffff) in
  let acc := u32 (acc + htons (u16 proto)) in
  let acc := u32 (acc + htons proto_len) in
  let acc := FOLD_U32T acc in
  let acc := FOLD_U32T acc in
  u16 (Z.lnot (Z.land acc 0xffff)).

Definition inet_chksum_pseudo (p : list (list Z)) (src dest proto proto_len : Z) : Z :=
  pseudo_sum (unswap (chain_sum p (0, false))) src dest proto proto_len.

(** The loop of [inet_chksum_pseudo_partial]; [None] is its failed
    assertion. *)
Fixpoint chain_sum_partial (q : list (list Z)) (chksum_len : Z) (st : Z * bool) : option (Z * bool) :=
  match q with
  | [] => Some st
  | bs :: q =>
      if negb (0 <? chksum_len) then Some st
      else
        let chklen := Z.of_nat (length bs) in
        let chklen := if chksum_len <? chklen then chksum_len else chklen in
        let chksum_len := u16 (chksum_len - chklen) in
        if chksum_len <? 0x7fff then
          chain_sum_partial q chksum_len (chain_round (Z.of_nat (length bs)) (take (Z.to_nat chklen) bs) st)
        else None
  end.

Definition inet_chksum_pseudo_partial (p : list (list Z)) (src dest proto proto_len chksum_len : Z) : option Z :=
  match chain_sum_partial p chksum_len (0, false) with
  | Some st => Some (pseudo_sum (unswap st) src dest proto proto_len)
  | None => None
  end.

