(* ===== verification/ChksumSpec.v ===== *)
(** The checksums of inet_chksum.c against the definition of RFC 1071: a sum
    of 16-bit words in network order with end-around carry. *)

From stdpp Require Import base numbers list strings.
From Stdlib Require Import ZArith Lia Bool.
From S2P Require Import Prelude Chksum.

Local Ltac Zify.zify_post_hook ::= Z.to_euclidean_division_equations.

Definition bytes (bs : list Z) : Prop := Forall (fun b => 0 <= b < 256) bs.

(** * The reference *)

Definition add1c (a b : Z) : Z := if a + b <? 65536 then a + b else a + b - 65535.

Fixpoint rfc1071 (acc : Z) (bs : list Z) : Z :=
  match bs with
  | b0 :: b1 :: bs => rfc1071 (add1c acc (2 ^ 8 * b0 + b1)) bs
  | [b0] => add1c acc (2 ^ 8 * b0)
  | [] => acc
  end.

(** * End-around carry

    [ones x] is the 16-bit word that stands for a sum [x]: 0 only for the sum
    0, otherwise its remainder modulo 65535 in 1 .. 65535. *)
Definition ones (x : Z) : Z := if x =? 0 then 0 else (x - 1) mod 65535 + 1.

Lemma ones_range x : 0 <= x -> 0 <= ones x <= 65535.
Proof. unfold ones. destruct (Z.eqb_spec x 0); lia. Qed.

Lemma ones_char x r k : 0 <= x -> 0 <= r <= 65535 -> (r = 0 -> x = 0) -> (x = 0 -> r = 0) -> x - r = 65535 * k -> r = ones x.
Proof. intros Hx Hr H1 H2 Hk. unfold ones. destruct (Z.eqb_spec x 0) as [->|]; [auto|]. assert (r <> 0) by auto. lia. Qed.

Lemma ones_id x : 0 <= x <= 65535 -> ones x = x.
Proof. intros Hx. symmetry. by apply (ones_char x x 0); lia. Qed.

Lemma ones_cases x : 0 <= x -> exists k, 0 <= k /\ x = ones x + 65535 * k /\ (ones x = 0 <-> x = 0).
Proof. intros Hx. unfold ones. destruct (Z.eqb_spec x 0); [exists 0; lia|]. exists ((x - 1) / 65535). lia. Qed.

(** Sums that stand for the same word. *)
Lemma ones_eq x y k : 0 <= x -> 0 <= y -> (x = 0 <-> y = 0) -> x - y = 65535 * k -> ones x = ones y.
Proof.
  intros Hx Hy Hz Hk. destruct (ones_cases y Hy) as (j & Hj & Ey & Zy). pose proof (ones_range y Hy). symmetry.
  apply (ones_char x (ones y) (k + j)); intuition lia.
Qed.

Lemma ones_plus a b : 0 <= a -> 0 <= b -> ones (ones a + b) = ones (a + b).
Proof.
  intros Ha Hb. destruct (ones_cases a Ha) as (k & Hk & Ea & Za). pose proof (ones_range a Ha).
  apply (ones_eq _ _ (- k)); intuition lia.
Qed.

Lemma ones_plus_r a b : 0 <= a -> 0 <= b -> ones (a + ones b) = ones (a + b).
Proof. intros Ha Hb. rewrite !(Z.add_comm a). by apply ones_plus. Qed.

Lemma ones_times a : 0 <= a -> ones (256 * ones a) = ones (256 * a).
Proof.
  intros Ha. destruct (ones_cases a Ha) as (k & Hk & Ea & Za). pose proof (ones_range a Ha).
  apply (ones_eq _ _ (- (256 * k))); intuition lia.
Qed.

Lemma ones_times2 a : 0 <= a -> ones (256 * (256 * a)) = ones a.
Proof. intros Ha. apply (ones_eq _ _ a); lia. Qed.

Lemma add1c_ones a b : 0 <= a <= 65535 -> 0 <= b <= 65535 -> add1c a b = ones (a + b).
Proof.
  intros Ha Hb. unfold add1c. destruct (Z.ltb_spec (a + b) 65536); [symmetry; apply ones_id; lia|].
  apply (ones_char _ _ 1); lia.
Qed.

(** * The macros *)

Lemma land_ff x : Z.land x 0xff = x mod 256.
Proof. apply (Z.land_ones x 8). lia. Qed.

Lemma land_ffff x : Z.land x 0xffff = x mod 65536.
Proof. apply (Z.land_ones x 16). lia. Qed.

Lemma htons_bytes x : 0 <= x <= 65535 -> htons x = 256 * (x mod 256) + x / 256.
Proof.
  intros Hx. unfold htons. rewrite land_ff.
  assert (Z.shiftr (Z.land x 0xff00) 8 = x / 256) as ->.
  { rewrite Z.shiftr_land. change (Z.shiftr 0xff00 8) with 0xff. rewrite land_ff, Z.shiftr_div_pow2 by lia.
    change (2 ^ 8) with 256. rewrite Z.mod_small; lia. }
  rewrite Z.shiftl_mul_pow2, lor_disjoint_add by lia. lia.
Qed.

Lemma swap_htons w : SWAP_BYTES_IN_WORD w = htons w.
Proof. done. Qed.

(** Swapping the bytes multiplies by 256. *)
Lemma htons_ones x : 0 <= x <= 65535 -> htons x = ones (256 * x).
Proof. intros Hx. rewrite htons_bytes by done. apply (ones_char _ _ (x / 256)); lia. Qed.

Lemma fold_div u : 0 <= u < 2 ^ 32 -> FOLD_U32T u = u / 65536 + u mod 65536.
Proof.
  intros Hu. unfold FOLD_U32T. rewrite land_ffff, Z.shiftr_div_pow2 by lia. change (2 ^ 16) with 65536. apply u32_small. unfold is_u32. lia.
Qed.

Lemma fold_ones u : 0 <= u < 2 ^ 32 -> 0 <= FOLD_U32T u <= 131070 /\ ones (FOLD_U32T u) = ones u.
Proof. intros Hu. rewrite fold_div by done. split; [lia|]. apply (ones_eq _ _ (- (u / 65536))); lia. Qed.

Lemma fold_small u : 0 <= u <= 131070 -> FOLD_U32T u = ones u.
Proof. intros Hu. rewrite fold_div by lia. apply (ones_char _ _ (u / 65536)); lia. Qed.

Lemma fold_twice u : 0 <= u < 2 ^ 32 -> FOLD_U32T (FOLD_U32T u) = ones u.
Proof. intros Hu. destruct (fold_ones u Hu) as [Hr <-]. by apply fold_small. Qed.

Lemma complement x : 0 <= x <= 65535 -> u16 (Z.lnot x) = 65535 - x.
Proof. intros Hx. unfold u16, Z.lnot. lia. Qed.

(** * Sums of bytes

    [lsum] is the sum of the words as the machine reads them. *)
Fixpoint lsum (bs : list Z) : Z :=
  match bs with
  | b0 :: b1 :: bs => word16 b0 b1 + lsum bs
  | [b0] => b0
  | [] => 0
  end.

(** Induction two elements at a time. *)
Lemma list_ind2 {A} (P : list A -> Prop) : P [] -> (forall x, P [x]) -> (forall x y l, P l -> P (x :: y :: l)) -> forall l, P l.
Proof.
  intros H0 H1 H2 l. enough (P l /\ forall x, P (x :: l)) by tauto.
  induction l as [|y l [IH1 IH2]]; split; auto.
Qed.

Lemma bytes_cons b bs : bytes (b :: bs) <-> 0 <= b < 256 /\ bytes bs.
Proof. unfold bytes. by rewrite Forall_cons. Qed.

Local Ltac byte_list H := repeat match type of H with bytes (_ :: _) => apply bytes_cons in H as [? H] end.

Lemma lsum_range bs : bytes bs -> 0 <= lsum bs <= 65535 * (Z.of_nat (length bs) / 2) + 255 * (Z.of_nat (length bs) mod 2).
Proof.
  induction bs as [|b|b0 b1 bs IH] using list_ind2; intros H; cbn [lsum length].
  - lia.
  - byte_list H. lia.
  - byte_list H. specialize (IH H). unfold word16. lia.
Qed.

Lemma lsum_cons b bs : 0 <= b < 256 -> bytes bs -> ones (lsum (b :: bs)) = ones (b + 256 * lsum bs).
Proof.
  intros Hb H. enough (exists k, b + 256 * lsum bs - lsum (b :: bs) = 65535 * k /\ (lsum (b :: bs) = 0 <-> b = 0 /\ lsum bs = 0)
    /\ 0 <= lsum (b :: bs)) as (k & Hk & Hz & Hp).
  { pose proof (lsum_range bs H). apply (ones_eq _ _ (- k)); intuition lia. }
  revert b Hb. induction bs as [|c|c d bs IH] using list_ind2; intros b Hb.
  - exists 0. cbn. lia.
  - byte_list H. exists 0. cbn [lsum]. unfold word16. lia.
  - byte_list H. destruct (IH H d ltac:(done)) as (k & Hk & Hz & Hp). exists (k + d). pose proof (lsum_range bs H).
    change (lsum (b :: c :: d :: bs)) with (word16 b c + lsum (d :: bs)). change (lsum (c :: d :: bs)) with (word16 c d + lsum bs).
    unfold word16. intuition lia.
Qed.

Lemma lsum_app_even xs ys : Nat.even (length xs) = true -> lsum (xs ++ ys) = lsum xs + lsum ys.
Proof.
  induction xs as [|x|x y xs IH] using list_ind2; intros He; [done|done|].
  cbn [app lsum]. rewrite IH by done. lia.
Qed.

Lemma lsum_app_odd xs ys : bytes xs -> bytes ys -> Nat.even (length xs) = false -> ones (lsum (xs ++ ys)) = ones (lsum xs + 256 * lsum ys).
Proof.
  intros Hx Hy. pose proof (lsum_range ys Hy). induction xs as [|x|x y xs IH] using list_ind2; intros He; [done| |].
  - byte_list Hx. by apply lsum_cons.
  - byte_list Hx. cbn [app lsum]. assert (bytes (xs ++ ys)) as Hxy by (by apply Forall_app). pose proof (lsum_range xs Hx). pose proof (lsum_range _ Hxy).
    assert (0 <= word16 x y) by (unfold word16; lia).
    rewrite <- ones_plus_r, IH, ones_plus_r by (done || lia). f_equal. lia.
Qed.

(** * The three versions *)

Fixpoint hsum (bs : list Z) : Z :=
  match bs with
  | b0 :: b1 :: bs => 2 ^ 8 * b0 + b1 + hsum bs
  | [b0] => 2 ^ 8 * b0
  | [] => 0
  end.

Lemma hsum_range bs : bytes bs -> 0 <= hsum bs <= 65535 * Z.of_nat (length bs).
Proof.
  induction bs as [|b|b0 b1 bs IH] using list_ind2; intros H; byte_list H; cbn [hsum length]; [lia|lia|]. specialize (IH H). lia.
Qed.

(** Network order is the order of the machine with the bytes swapped. *)
Lemma hsum_lsum bs : bytes bs -> ones (256 * hsum bs) = ones (lsum bs).
Proof.
  intros H. enough (exists k, 256 * hsum bs - lsum bs = 65535 * k /\ (hsum bs = 0 <-> lsum bs = 0)) as (k & Hk & Hz).
  { pose proof (lsum_range bs H). pose proof (hsum_range bs H). apply (ones_eq _ _ k); intuition lia. }
  induction bs as [|b|b0 b1 bs IH] using list_ind2; byte_list H; [by exists 0|exists b; cbn; lia|].
  destruct (IH H) as (k & Hk & Hz). exists (k + b0). pose proof (lsum_range bs H). pose proof (hsum_range bs H). cbn [hsum lsum]. unfold word16. intuition lia.
Qed.

Lemma rfc1071_ones bs : bytes bs -> forall acc, 0 <= acc <= 65535 -> rfc1071 acc bs = ones (acc + hsum bs).
Proof.
  induction bs as [|b|b0 b1 bs IH] using list_ind2; intros H acc Ha; byte_list H; cbn [rfc1071 hsum].
  - rewrite ones_id; lia.
  - apply add1c_ones; lia.
  - rewrite add1c_ones by lia. pose proof (hsum_range bs H). rewrite IH by (done || (apply ones_range; lia)). rewrite ones_plus by lia. f_equal. lia.
Qed.

(** The sum in the order of the machine. *)
Lemma rfc1071_machine bs : bytes bs -> htons (rfc1071 0 bs) = ones (lsum bs).
Proof.
  intros H. pose proof (hsum_range bs H). rewrite rfc1071_ones, Z.add_0_l by (done || lia).
  pose proof (ones_range (hsum bs) ltac:(lia)). rewrite htons_ones, ones_times by lia. by apply hsum_lsum.
Qed.

Lemma octets_sum bs : bytes bs -> forall acc, 0 <= acc -> acc + hsum bs < 2 ^ 32 -> chksum_octets acc bs = acc + hsum bs.
Proof.
  induction bs as [|b|b0 b1 bs IH] using list_ind2; intros H acc Ha Hs; byte_list H; cbn [chksum_octets hsum] in *.
  - lia.
  - rewrite Z.shiftl_mul_pow2, (u16_small (b * 2 ^ 8)), u32_small by (unfold is_u32; lia). lia.
  - pose proof (hsum_range bs H). rewrite Z.shiftl_mul_pow2, (u16_small (b0 * 2 ^ 8)), lor_disjoint_add by lia.
    rewrite u32_small by (unfold is_u32; lia). rewrite IH; [lia|done|lia|lia].
Qed.

Lemma chksum_v1_ones bs : bytes bs -> Z.of_nat (length bs) <= 65535 -> lwip_standard_chksum bs = ones (lsum bs).
Proof.
  intros H Hl. pose proof (hsum_range bs H). unfold lwip_standard_chksum. rewrite octets_sum, Z.add_0_l by (done || lia).
  destruct (fold_ones (hsum bs) ltac:(lia)) as [Hr He]. set (r := FOLD_U32T (hsum bs)) in *.
  assert ((if Z.land r 0xffff0000 =? 0 then r else FOLD_U32T r) = ones (hsum bs)) as ->.
  { destruct (Z.eqb_spec (Z.land r 0xffff0000) 0) as [E|_]; [|by rewrite fold_small].
    apply (f_equal (fun x => Z.shiftr x 16)) in E. rewrite Z.shiftr_land in E. change (Z.shiftr 0xffff0000 16) with 0xffff in E.
    rewrite land_ffff, Z.shiftr_div_pow2 in E by lia. change (Z.shiftr 0 16) with 0 in E. change (2 ^ 16) with 65536 in E.
    rewrite <- He, ones_id; lia. }
  pose proof (ones_range (hsum bs) ltac:(lia)). rewrite u16_small, htons_ones, ones_times by lia. by apply hsum_lsum.
Qed.

(** What is left of an odd number of bytes. *)
Definition tail (r : list Z) : Z := match r with b :: _ => b | [] => 0 end.

Lemma sum16_spec ps : bytes ps -> forall s, 0 <= s -> s + lsum ps < 2 ^ 32 ->
  exists r, sum16 s ps = (s + lsum ps - tail r, r) /\ 0 <= tail r < 256.
Proof.
  induction ps as [|b|b0 b1 ps IH] using list_ind2; intros H s Hs Hl; byte_list H.
  - exists []. cbn. split; [f_equal|]; lia.
  - exists [b]. cbn. split; [f_equal|]; lia.
  - cbn [sum16 lsum] in *. pose proof (lsum_range ps H). assert (0 <= word16 b0 b1) by (unfold word16; lia).
    rewrite u32_small by (unfold is_u32; lia). destruct (IH H (s + word16 b0 b1)) as (r & E & Hr); [lia|lia|].
    exists r. rewrite E. split; [f_equal; lia|done].
Qed.

Lemma left_over_tail b r : 0 <= b < 256 -> 0 <= tail r < 256 -> left_over (Z.shiftl b 8) r = 256 * b + tail r.
Proof.
  intros Hb Hr. rewrite Z.shiftl_mul_pow2 by lia. destruct r as [|c r]; cbn [tail left_over] in *; [lia|].
  assert (Z.land (b * 2 ^ 8) 0xff00 = b * 2 ^ 8) as ->; [|rewrite lor_disjoint_add; lia].
  change 0xff00 with (Z.shiftl 0xff 8). rewrite <- Z.shiftl_mul_pow2, <- Z.shiftl_land, land_ff, Z.mod_small by lia. done.
Qed.

(** The end of versions 2 and 3: the words in [ps] and the odd bytes. *)
Lemma chksum_tail b s ps : 0 <= b < 256 -> bytes ps -> 0 <= s -> s + lsum ps + 256 * b < 2 ^ 32 ->
  (let '(sum, r) := sum16 s ps in FOLD_U32T (FOLD_U32T (u32 (sum + left_over (Z.shiftl b 8) r)))) = ones (s + lsum ps + 256 * b).
Proof.
  intros Hb H Hs Hl. pose proof (lsum_range ps H). destruct (sum16_spec ps H s Hs ltac:(lia)) as (r & -> & Hr).
  rewrite left_over_tail by done. rewrite u32_small by (unfold is_u32; lia). rewrite fold_twice by lia. f_equal. lia.
Qed.

Lemma swap_total b ps : 0 <= b < 256 -> bytes ps -> SWAP_BYTES_IN_WORD (ones (lsum ps + 256 * b)) = ones (lsum (b :: ps)).
Proof.
  intros Hb H. pose proof (lsum_range ps H). rewrite lsum_cons, swap_htons by done. pose proof (ones_range (lsum ps + 256 * b) ltac:(lia)).
  rewrite htons_ones, ones_times by lia. apply (ones_eq _ _ b); lia.
Qed.

Lemma chksum_v2_ones addr bs : bytes bs -> Z.of_nat (length bs) <= 0x20000 -> lwip_standard_chksum_v2 addr bs = ones (lsum bs).
Proof.
  intros H Hl. pose proof (lsum_range bs H) as Hr. unfold lwip_standard_chksum_v2, align16.
  pose proof (ones_range (lsum bs) ltac:(lia)).
  destruct (Z.odd addr) eqn:Eo; [destruct bs as [|b bs]|].
  - reflexivity.
  - byte_list H. cbn [length] in Hl. pose proof (lsum_range bs H). pose proof (chksum_tail b 0 bs ltac:(done) H ltac:(lia)) as E.
    destruct (sum16 0 bs) as [s r]. rewrite E, Z.add_0_l, swap_total by (done || lia). rewrite u16_small; lia.
  - pose proof (chksum_tail 0 0 bs ltac:(lia) H ltac:(lia)) as E. change (Z.shiftl 0 8) with 0 in E.
    destruct (sum16 0 bs) as [s r]. rewrite E by lia. replace (0 + lsum bs + 256 * 0) with (lsum bs) by lia. rewrite u16_small; lia.
Qed.

Lemma add_carry_ones s w : 0 <= s < 2 ^ 32 -> 0 <= w < 2 ^ 32 -> 0 <= add_carry s w < 2 ^ 32 /\ ones (add_carry s w) = ones (s + w).
Proof.
  intros Hs Hw. unfold add_carry.
  destruct (Z.lt_ge_cases (s + w) (2 ^ 32)) as [Hlt|Hge].
  - rewrite u32_small by (unfold is_u32; lia). destruct (Z.ltb_spec (s + w) s); [lia|]. split; [lia|done].
  - assert (u32 (s + w) = s + w - 2 ^ 32) as -> by (unfold u32; lia). destruct (Z.ltb_spec (s + w - 2 ^ 32) s); [|lia].
    rewrite u32_small by (unfold is_u32; lia). split; [lia|]. apply (ones_eq _ _ (- 65537)); lia.
Qed.

Lemma word32_ones s b0 b1 b2 b3 : 0 <= s < 2 ^ 32 -> 0 <= b0 < 256 -> 0 <= b1 < 256 -> 0 <= b2 < 256 -> 0 <= b3 < 256 ->
  let s' := add_carry s (word32 b0 b1 b2 b3) in 0 <= s' < 2 ^ 32 /\ ones s' = ones (s + word16 b0 b1 + word16 b2 b3).
Proof.
  intros Hs H0 H1 H2 H3. cbv zeta. destruct (add_carry_ones s (word32 b0 b1 b2 b3) Hs) as [Hr ->]; [unfold word32, word16; lia|].
  split; [done|]. unfold word32, word16. apply (ones_eq _ _ (b2 + 2 ^ 8 * b3)); lia.
Qed.

Lemma sum32_spec n : forall pl s, (length pl <= n)%nat -> bytes pl -> 0 <= s < 2 ^ 32 ->
  exists s' r, sum32 s pl = (s', r) /\ 0 <= s' < 2 ^ 32 /\ bytes r /\ (length r <= 7)%nat /\ ones (s' + lsum r) = ones (s + lsum pl).
Proof.
  induction n as [|n IH]; intros pl s Hn H Hs.
  - destruct pl; [|cbn in Hn; lia]. exists s, []. cbn. split; [done|]. split; [done|]. split; [constructor|]. split; [lia|done].
  - do 8 (destruct pl as [|? pl]; [eexists s, _; split; [reflexivity|]; split; [done|]; split; [done|]; split; [cbn; lia|done]|]).
    byte_list H. cbn [length] in Hn. cbn [sum32].
    match goal with |- context [add_carry (add_carry s (word32 ?a ?b ?c ?d)) (word32 ?e ?f ?g ?h)] =>
      destruct (word32_ones s a b c d) as [R1 E1]; [done..|]; set (s1 := add_carry s (word32 a b c d)) in *;
      destruct (word32_ones s1 e f g h) as [R2 E2]; [done..|]; set (s2 := add_carry s1 (word32 e f g h)) in * end.
    destruct (IH pl s2 ltac:(lia) H R2) as (s' & r & E & Hs' & Hb & Hl & Es). exists s', r. split; [exact E|]. repeat (split; [done|]).
    rewrite Es. pose proof (lsum_range pl H). cbn [lsum]. unfold word16 in *.
    rewrite <- (ones_plus s2), E2, ones_plus by lia. rewrite <- !Z.add_assoc, <- (ones_plus s1), E1, ones_plus by lia. f_equal. lia.
Qed.

Lemma align32_spec a ps : bytes ps -> exists s r, align32 a ps = (s, r) /\ 0 <= s < 2 ^ 16 /\ bytes r /\ s + lsum r = lsum ps.
Proof.
  intros H. unfold align32. destruct ps as [|b0 [|b1 ps]]; [by exists 0, []|exists 0, [b0]; split; [done|]; split; [lia|done]|].
  destruct (_ =? 0); [by exists 0, (b0 :: b1 :: ps)|]. byte_list H. exists (word16 b0 b1), ps.
  rewrite Z.add_0_l, u32_small by (unfold is_u32, word16; lia). split; [done|]. split; [unfold word16; lia|done].
Qed.

(** The middle of version 3. *)
Lemma chksum_v3_tail b a ps : 0 <= b < 256 -> bytes ps ->
  (let '(sum, pl) := align32 a ps in let '(sum, ps) := sum32 sum pl in let '(sum, r) := sum16 (FOLD_U32T sum) ps in
   FOLD_U32T (FOLD_U32T (u32 (sum + left_over (Z.shiftl b 8) r)))) = ones (lsum ps + 256 * b).
Proof.
  intros Hb H. destruct (align32_spec a ps H) as (s & pl & -> & Hs & Hpl & El).
  destruct (sum32_spec _ pl s (le_n _) Hpl ltac:(lia)) as (s' & r & -> & Hs' & Hr & Hlr & Es). destruct (fold_ones s' Hs') as [Hf Ef].
  pose proof (lsum_range r Hr). pose proof (lsum_range ps H). rewrite chksum_tail by (done || lia).
  rewrite <- (ones_plus (FOLD_U32T s' + lsum r)), <- (ones_plus (FOLD_U32T s')), Ef, (ones_plus s'), Es, ones_plus by lia. f_equal. lia.
Qed.

Lemma chksum_v3_ones addr bs : bytes bs -> lwip_standard_chksum_v3 addr bs = ones (lsum bs).
Proof.
  intros H. pose proof (lsum_range bs H) as Hr. unfold lwip_standard_chksum_v3, align16. pose proof (ones_range (lsum bs) ltac:(lia)).
  destruct (Z.odd addr) eqn:Eo; [destruct bs as [|b bs]|].
  - reflexivity.
  - byte_list H. rewrite bool_decide_false by done. cbn [negb andb]. pose proof (chksum_v3_tail b (addr + 1) bs ltac:(done) H) as E.
    destruct (align32 _ _) as [s1 p1]. destruct (sum32 _ _) as [s2 p2]. destruct (sum16 _ _) as [s3 p3].
    rewrite E, swap_total by (done || lia). rewrite u16_small; lia.
  - pose proof (chksum_v3_tail 0 addr bs ltac:(lia) H) as E. change (Z.shiftl 0 8) with 0 in E.
    cbn [andb]. destruct (align32 _ _) as [s1 p1]. destruct (sum32 _ _) as [s2 p2]. destruct (sum16 _ _) as [s3 p3].
    rewrite E. rewrite Z.mul_0_r, Z.add_0_r. rewrite u16_small; lia.
Qed.

(** * Chains of packet buffers *)

(** The checksum of the bytes [bs] as it is stored: the complement of the sum,
    in network order. *)
Definition rfc_chksum (bs : list Z) : Z := 65535 - htons (rfc1071 0 bs).

Lemma rfc_chksum_ones bs : bytes bs -> rfc_chksum bs = 65535 - ones (lsum bs).
Proof. intros H. unfold rfc_chksum. by rewrite rfc1071_machine. Qed.

Definition pbufs (q : list (list Z)) : Prop := Forall (fun bs => bytes bs /\ Z.of_nat (length bs) <= 65535) q.

Lemma pbufs_bytes q : pbufs q -> bytes (concat q).
Proof. induction 1 as [|bs q [H _] _ IH]; [constructor|]. by apply Forall_app. Qed.

(** [acc] and [swapped] stand for the sum of [xs]. *)
Definition chain_inv (xs : list Z) (st : Z * bool) : Prop :=
  st = if Nat.even (length xs) then (ones (lsum xs), false) else (ones (256 * lsum xs), true).

Lemma unswap_inv xs st : bytes xs -> chain_inv xs st -> unswap st = ones (lsum xs).
Proof.
  intros H ->. pose proof (lsum_range xs H). destruct (Nat.even _); [done|]. unfold unswap.
  pose proof (ones_range (256 * lsum xs) ltac:(lia)). by rewrite swap_htons, htons_ones, ones_times, ones_times2 by lia.
Qed.

(** Adding [bs] to the accumulator. *)
Lemma chain_add a bs : 0 <= a <= 65535 -> bytes bs -> Z.of_nat (length bs) <= 65535 ->
  FOLD_U32T (u32 (a + lwip_standard_chksum bs)) = ones (a + lsum bs).
Proof.
  intros Ha H Hl. pose proof (lsum_range bs H). rewrite chksum_v1_ones by done. pose proof (ones_range (lsum bs) ltac:(lia)).
  rewrite u32_small by (unfold is_u32; lia). by rewrite fold_small, ones_plus_r by lia.
Qed.

Lemma even_mod n : (Z.of_nat n mod 2 =? 0) = Nat.even n.
Proof.
  destruct (Nat.even n) eqn:E.
  - apply Nat.even_spec in E as [k ->]. apply Z.eqb_eq. lia.
  - apply Z.eqb_neq. assert (Nat.odd n = true) as Ho by (unfold Nat.odd; by rewrite E). apply Nat.odd_spec in Ho as [k ->]. lia.
Qed.

Lemma chain_round_sum xs bs : bytes xs -> bytes bs -> Z.of_nat (length bs) <= 65535 -> forall st, chain_inv xs st ->
  chain_inv (xs ++ bs) (chain_round (Z.of_nat (length bs)) bs st).
Proof.
  intros Hx Hb Hl st ->. pose proof (lsum_range xs Hx). pose proof (lsum_range bs Hb).
  pose proof (ones_range (lsum xs) ltac:(lia)). pose proof (ones_range (256 * lsum xs) ltac:(lia)).
  unfold chain_inv, chain_round. rewrite length_app, Nat.even_add, even_mod.
  destruct (Nat.even (length xs)) eqn:Ex; rewrite chain_add, ones_plus by (done || lia); destruct (Nat.even (length bs)) eqn:Eb; cbn [negb eqb].
  - by rewrite lsum_app_even.
  - pose proof (ones_range (lsum xs + lsum bs) ltac:(lia)). by rewrite swap_htons, htons_ones, ones_times, lsum_app_even by (done || lia).
  - f_equal. assert (bytes (xs ++ bs)) as Hxb by (by apply Forall_app). pose proof (lsum_range _ Hxb).
    rewrite <- (ones_times (lsum (xs ++ bs))), lsum_app_odd, ones_times by (done || lia).
    apply (ones_eq _ _ (- lsum bs)); lia.
  - f_equal. pose proof (ones_range (256 * lsum xs + lsum bs) ltac:(lia)).
    rewrite swap_htons, htons_ones, ones_times, lsum_app_odd by (done || lia). apply (ones_eq _ _ (lsum xs)); lia.
Qed.

Lemma chain_sum_all q : pbufs q -> forall xs st, bytes xs -> chain_inv xs st -> chain_inv (xs ++ concat q) (chain_sum q st).
Proof.
  induction 1 as [|bs q [Hb Hl] _ IH]; intros xs st Hx HI; cbn [concat chain_sum]; [by rewrite app_nil_r|].
  rewrite app_assoc. apply IH; [by apply Forall_app|]. by apply chain_round_sum.
Qed.

Lemma chain_total q : pbufs q -> unswap (chain_sum q (0, false)) = ones (lsum (concat q)).
Proof. intros H. apply unswap_inv; [by apply pbufs_bytes|]. apply (chain_sum_all q H [] (0, false)); [by apply Forall_nil|done]. Qed.

Lemma complement_word x : 0 <= x -> u16 (Z.lnot (Z.land (ones x) 0xffff)) = 65535 - ones x.
Proof. intros Hx. pose proof (ones_range x Hx). rewrite land_ffff, Z.mod_small, complement by lia. done. Qed.

(** The pseudo header of TCP and UDP in memory; an address is the word the
    machine reads. *)
Definition addr_bytes (a : Z) : list Z := [a mod 256; a / 256 mod 256; a / 65536 mod 256; a / 16777216].
Definition pseudo_header (src dest proto proto_len : Z) : list Z :=
  addr_bytes src ++ addr_bytes dest ++ [0; proto; proto_len / 256; proto_len mod 256].

Lemma pseudo_sum_ones acc src dest proto proto_len bs : bytes bs -> acc = ones (lsum bs) -> is_u32 src -> is_u32 dest -> 0 <= proto < 256 ->
  0 <= proto_len < 65536 -> pseudo_sum acc src dest proto proto_len = rfc_chksum (pseudo_header src dest proto proto_len ++ bs).
Proof.
  intros H -> Hs Hd Hp Hl. unfold is_u32 in *. pose proof (lsum_range bs H). pose proof (ones_range (lsum bs) ltac:(lia)).
  assert (bytes (pseudo_header src dest proto proto_len ++ bs)) as Hb.
  { apply Forall_app. split; [|done]. unfold pseudo_header, addr_bytes. cbn [app]. repeat (apply Forall_cons; split; [lia|]). by apply Forall_nil. }
  assert (forall x y, u32 (u32 x + y) = u32 (x + y)) as Hu by (intros; apply Zplus_mod_idemp_l).
  unfold pseudo_sum. rewrite (u16_small proto) by lia. rewrite !Hu, (htons_bytes proto), (htons_bytes proto_len) by lia.
  rewrite (land_ffff src), (land_ffff dest), (land_ffff (Z.shiftr src 16)), (land_ffff (Z.shiftr dest 16)), !Z.shiftr_div_pow2 by lia. change (2 ^ 16) with 65536.
  rewrite (u32_small (ones (lsum bs) + _ + _)), (u32_small (ones (lsum bs) + _ + _ + _ + _)), u32_small by (unfold is_u32; lia).
  rewrite fold_twice, complement_word, rfc_chksum_ones by (done || lia). f_equal. rewrite lsum_app_even by done.
  rewrite <- !Z.add_assoc, ones_plus by lia. f_equal. unfold pseudo_header, addr_bytes. cbn [app lsum]. unfold word16. lia.
Qed.

(** A last round that stops within a packet buffer. *)
Lemma chain_round_last xs bs n st : bytes xs -> bytes bs -> Z.of_nat (length bs) <= 65535 -> chain_inv xs st ->
  unswap (chain_round n bs st) = ones (lsum (xs ++ bs)).
Proof.
  intros Hx Hb Hl HI. assert (bytes (xs ++ bs)) as Hxb by (by apply Forall_app).
  rewrite <- (unswap_inv _ _ Hxb (chain_round_sum xs bs Hx Hb Hl st HI)). rewrite HI. unfold chain_round.
  pose proof (lsum_range xs Hx). pose proof (lsum_range bs Hb).
  pose proof (ones_range (lsum xs) ltac:(lia)). pose proof (ones_range (256 * lsum xs) ltac:(lia)).
  assert (forall x, 0 <= x -> SWAP_BYTES_IN_WORD (SWAP_BYTES_IN_WORD (ones x)) = ones x) as Hu.
  { intros x Hpx. pose proof (ones_range x Hpx). change SWAP_BYTES_IN_WORD with htons. rewrite (htons_ones (ones x)) by done.
    pose proof (ones_range (256 * ones x) ltac:(lia)). rewrite htons_ones, ones_times, ones_times2, ones_id; lia. }
  destruct (Nat.even (length xs)); rewrite chain_add, ones_plus by (done || lia);
    destruct (n mod 2 =? 0), (Z.of_nat (length bs) mod 2 =? 0); cbn [negb unswap]; rewrite ?Hu by lia; done.
Qed.

Lemma chain_partial q : pbufs q -> forall xs n st, bytes xs -> chain_inv xs st -> 0 <= n < 0x7fff ->
  exists st', chain_sum_partial q n st = Some st' /\ unswap st' = ones (lsum (xs ++ take (Z.to_nat n) (concat q))).
Proof.
  induction 1 as [|bs q [Hb Hl] Hq IH]; intros xs n st Hx HI Hn; cbn [concat chain_sum_partial].
  - exists st. rewrite take_nil, app_nil_r. split; [done|by apply unswap_inv].
  - destruct (Z.ltb_spec 0 n) as [Hn0|]; cbn [negb].
    2:{ exists st. replace n with 0 by lia. rewrite app_nil_r. split; [done|by apply unswap_inv]. }
    destruct (Z.ltb_spec n (Z.of_nat (length bs))) as [Hlt|Hge].
    + rewrite Z.sub_diag. change (u16 0 <? 0x7fff) with true. cbv iota. rewrite take_app_le by lia.
      assert (bytes (take (Z.to_nat n) bs)) as Ht by (by apply Forall_take).
      exists (chain_round (Z.of_nat (length bs)) (take (Z.to_nat n) bs) st). split; [by destruct q|].
      apply chain_round_last; [done|done|rewrite length_take; lia|done].
    + rewrite u16_small by lia. destruct (Z.ltb_spec (n - Z.of_nat (length bs)) 0x7fff); [|lia]. rewrite Nat2Z.id, firstn_all.
      destruct (IH (xs ++ bs) (n - Z.of_nat (length bs)) (chain_round (Z.of_nat (length bs)) bs st)) as (st' & E & HS).
      { by apply Forall_app. } { by apply chain_round_sum. } { lia. }
      exists st'. split; [done|]. rewrite HS, take_app_ge, <- app_assoc by lia. do 5 f_equal. lia.
Qed.

(** * The properties *)

(** C27: the three versions of [lwip_standard_chksum] compute the same sum: that
    of RFC 1071, with the bytes of the result in network order, for a buffer
    at any address and of any length their types allow (version 2 up to the
    0x20000 bytes it documents, version 3 without a limit). *)
Theorem chksum_versions_agree addr bs : bytes bs ->
  (Z.of_nat (length bs) <= 65535 -> lwip_standard_chksum bs = htons (rfc1071 0 bs))
  /\ (Z.of_nat (length bs) <= 0x20000 -> lwip_standard_chksum_v2 addr bs = htons (rfc1071 0 bs))
  /\ lwip_standard_chksum_v3 addr bs = htons (rfc1071 0 bs).
Proof.
  intros H. rewrite rfc1071_machine by done.
  split; [by apply chksum_v1_ones|]. split; [by apply chksum_v2_ones|by apply chksum_v3_ones].
Qed.

Definition demo_bytes : list Z := [0x45; 0; 0; 0x54; 0xff; 0xff; 0x40; 0; 0x40; 1; 0; 0; 10; 0; 2; 15; 10; 0; 2].

Lemma demo_bytes_ok : bytes demo_bytes.
Proof. unfold bytes, demo_bytes. repeat (apply Forall_cons; split; [lia|]). by apply Forall_nil. Qed.

Lemma chksum_versions_agree_witness :
  lwip_standard_chksum demo_bytes = htons (rfc1071 0 demo_bytes) /\ lwip_standard_chksum_v2 7 demo_bytes = htons (rfc1071 0 demo_bytes).
Proof.
  destruct (chksum_versions_agree 7 demo_bytes demo_bytes_ok) as (H1 & H2 & _).
  split; [apply H1; discriminate|apply H2; discriminate].
Defined.

(** C28: the checksum of a chain of packet buffers does not depend on how the
    data is cut: it is the RFC 1071 checksum of the bytes in a row, also when
    buffers have odd lengths. With addresses, protocol and length it is the
    checksum of the pseudo header followed by the data, or by the first
    [chksum_len] bytes of it. *)
Theorem inet_chksum_chain_correct p src dest proto proto_len chksum_len : pbufs p -> is_u32 src -> is_u32 dest -> 0 <= proto < 256 ->
  0 <= proto_len < 65536 -> 0 <= chksum_len < 0x7fff ->
  let hdr := pseudo_header src dest proto proto_len in
  inet_chksum_pbuf p = rfc_chksum (concat p)
  /\ inet_chksum_pseudo p src dest proto proto_len = rfc_chksum (hdr ++ concat p)
  /\ inet_chksum_pseudo_partial p src dest proto proto_len chksum_len = Some (rfc_chksum (hdr ++ take (Z.to_nat chksum_len) (concat p))).
Proof.
  intros H Hs Hd Hp Hl Hn hdr. pose proof (pbufs_bytes p H) as Hb. pose proof (lsum_range _ Hb). split; [|split].
  - unfold inet_chksum_pbuf. rewrite chain_total, complement_word, rfc_chksum_ones by (done || lia). done.
  - by apply pseudo_sum_ones; [|apply chain_total|..].
  - unfold inet_chksum_pseudo_partial. destruct (chain_partial p H [] chksum_len (0, false)) as (st & -> & E); [by apply Forall_nil|done|done|].
    f_equal. by apply pseudo_sum_ones; [apply Forall_take| |..].
Qed.

Lemma inet_chksum_chain_correct_witness :
  inet_chksum_pbuf [demo_bytes; demo_bytes] = rfc_chksum (demo_bytes ++ demo_bytes)
  /\ inet_chksum_pseudo_partial [demo_bytes; demo_bytes] 0x0f02000a 0x0202000a 17 38 25
     = Some (rfc_chksum (pseudo_header 0x0f02000a 0x0202000a 17 38 ++ take 25 (demo_bytes ++ demo_bytes))).
Proof.
  assert (bytes demo_bytes /\ Z.of_nat (length demo_bytes) <= 65535) as Hd by (split; [exact demo_bytes_ok|discriminate]).
  destruct (inet_chksum_chain_correct [demo_bytes; demo_bytes] 0x0f02000a 0x0202000a 17 38 25) as (H1 & _ & H2);
    [repeat (apply Forall_cons; split; [exact Hd|]); by apply Forall_nil|unfold is_u32; lia..|lia|lia|].
  split; [exact H1|exact H2].
Defined.

(** C29: a header verifies. If the checksum of a buffer is stored in two bytes
    of it that were 0, at an even offset, the checksum of the result is 0,
    which is what the receiver tests. *)
Theorem inet_chksum_verifies xs ys : bytes xs -> bytes ys -> Nat.even (length xs) = true -> Z.of_nat (length xs + length ys) <= 65533 ->
  let c := inet_chksum (xs ++ 0 :: 0 :: ys) in
  0 <= c < 65536 /\ inet_chksum (xs ++ c mod 256 :: c / 256 :: ys) = 0.
Proof.
  intros Hx Hy He Hl c. pose proof (lsum_range xs Hx). pose proof (lsum_range ys Hy).
  assert (forall b0 b1, 0 <= b0 < 256 -> 0 <= b1 < 256 ->
    inet_chksum (xs ++ b0 :: b1 :: ys) = 65535 - ones (lsum xs + (word16 b0 b1 + lsum ys))) as Hc.
  { intros b0 b1 Hb0 Hb1. assert (bytes (xs ++ b0 :: b1 :: ys)) as Hb by (apply Forall_app; split; [done|by repeat (apply Forall_cons; split)]).
    pose proof (lsum_range _ Hb). unfold inet_chksum. rewrite chksum_v1_ones by (done || (rewrite length_app; cbn [length]; lia)).
    rewrite complement by (apply ones_range; lia). by rewrite lsum_app_even. }
  pose proof (Hc 0 0 ltac:(lia) ltac:(lia)) as Ec. fold c in Ec. unfold word16 in Ec. set (S := lsum xs + lsum ys) in *.
  replace (lsum xs + (0 + 2 ^ 8 * 0 + lsum ys)) with S in Ec by (unfold S; lia). pose proof (ones_range S ltac:(unfold S; lia)).
  split; [lia|]. rewrite Hc by lia. unfold word16. destruct (ones_cases S ltac:(unfold S; lia)) as (k & Hk & Ek & Zk).
  enough (65535 = ones (lsum xs + (c mod 256 + 2 ^ 8 * (c / 256) + lsum ys))) by lia. apply (ones_char _ _ k); unfold S in *; lia.
Qed.

Lemma inet_chksum_verifies_witness :
  let c := inet_chksum ([0x45; 0; 0; 0x54] ++ 0 :: 0 :: [10; 0; 2; 15; 1]) in
  inet_chksum ([0x45; 0; 0; 0x54] ++ c mod 256 :: c / 256 :: [10; 0; 2; 15; 1]) = 0.
Proof.
  apply (inet_chksum_verifies [0x45; 0; 0; 0x54] [10; 0; 2; 15; 1]);
    [repeat (apply Forall_cons; split; [lia|]); by apply Forall_nil..|reflexivity|discriminate].
Defined.
