(* ===== verification/LwMem.v ===== *)
(** The heap of the network stack (net/lwip/core/mem.c).

    The heap is an array of bytes cut into blocks, each headed by a
    [struct mem]. A pointer is its offset from [ram], which is aligned; NULL is
    [None]. The size of the heap is a parameter of the stack's configuration.
    A wait on the semaphore that would block is [Leave]; assertions are
    enabled. *)

From stdpp Require Import base numbers list gmap strings.
From Stdlib Require Import ZArith Lia Bool.
From S2P Require Import Prelude.

Definition MEM_ALIGNMENT : Z := 4.
Definition LWIP_MEM_ALIGN_SIZE (size : Z) : Z := Z.land (u32 (size + MEM_ALIGNMENT - 1)) (u32 (Z.lnot (MEM_ALIGNMENT - 1))).
(** The configuration of JOS. *)
Definition TCP_MSS : Z := 1460.
Definition TCP_SND_BUF : Z := 16 * TCP_MSS.
Definition TCP_SND_QUEUELEN : Z := 2 * TCP_SND_BUF / TCP_MSS.
Definition MEMP_NUM_TCP_SEG : Z := TCP_SND_QUEUELEN.
Definition PER_TCP_PCB_BUFFER : Z := 16 * 4096.
Definition MEM_SIZE : Z := PER_TCP_PCB_BUFFER * MEMP_NUM_TCP_SEG + 4096 * MEMP_NUM_TCP_SEG.

Definition MIN_SIZE : Z := 12.
Definition MIN_SIZE_ALIGNED : Z := LWIP_MEM_ALIGN_SIZE MIN_SIZE.

(** [struct mem]: [next] at offset 0, [prev] at 4, the byte [used] at 8. *)
Definition SIZEOF_STRUCT_MEM : Z := LWIP_MEM_ALIGN_SIZE 12.

Record heap := mkHeap { ram : gmap Z Z; lfree : Z; mem_sem : Z }.

Definition Heap (A : Type) : Type := M heap A.

(** * Memory *)

Definition ld8 (m : gmap Z Z) (k : Z) : Z := mget 0 m k.
Definition ld32 (m : gmap Z Z) (k : Z) : Z :=
  ld8 m k + 2 ^ 8 * ld8 m (k + 1) + 2 ^ 16 * ld8 m (k + 2) + 2 ^ 24 * ld8 m (k + 3).
Definition st8 (k v : Z) (m : gmap Z Z) : gmap Z Z := <[k := u8 v]> m.
Definition st32 (k v : Z) (m : gmap Z Z) : gmap Z Z :=
  st8 (k + 3) (v / 2 ^ 24) (st8 (k + 2) (v / 2 ^ 16) (st8 (k + 1) (v / 2 ^ 8) (st8 k v m))).

Definition set_ram (m : gmap Z Z) (h : heap) : heap := mkHeap m (lfree h) (mem_sem h).
Definition set_lfree (p : Z) : Heap unit := modify (fun h => mkHeap (ram h) p (mem_sem h)).

Definition get_next (p : Z) : Heap Z := gets (fun h => ld32 (ram h) p).
Definition get_prev (p : Z) : Heap Z := gets (fun h => ld32 (ram h) (p + 4)).
Definition get_used (p : Z) : Heap Z := gets (fun h => ld8 (ram h) (p + 8)).
Definition set_next (p v : Z) : Heap unit := modify (fun h => set_ram (st32 p v (ram h)) h).
Definition set_prev (p v : Z) : Heap unit := modify (fun h => set_ram (st32 (p + 4) v (ram h)) h).
Definition set_used (p v : Z) : Heap unit := modify (fun h => set_ram (st8 (p + 8) v (ram h)) h).

(** [memset]. *)
Fixpoint fill (p : Z) (n : nat) (v : Z) (m : gmap Z Z) : gmap Z Z :=
  match n with
  | O => m
  | S n => fill (p + 1) n v (st8 p v m)
  end.

(** * The semaphore *)

Definition sys_arch_sem_wait : Heap unit := fun h =>
  if mem_sem h =? 0 then Leave h else Ret tt (mkHeap (ram h) (lfree h) (mem_sem h - 1)).
Definition sys_sem_signal : Heap unit := modify (fun h => mkHeap (ram h) (lfree h) (mem_sem h + 1)).

Section Heap.
Context (MEM_SIZE_ALIGNED : Z).

(** [ram_end] is the header behind the last byte. *)
Local Abbreviation ram_end := MEM_SIZE_ALIGNED.

(** [plug_holes], forward to [nmem] and then backward. *)
Definition plug_forward (mem nmem : Z) : Heap unit :=
  let! nused := get_used nmem in
  if negb (mem =? nmem) && (nused =? 0) && negb (nmem =? ram_end) then
    let! lf := gets lfree in
    (if lf =? nmem then set_lfree mem else ret tt) ;;!
    let! nnext := get_next nmem in
    set_next mem nnext ;;!
    let! nnext := get_next nmem in
    set_prev nnext mem
  else ret tt.

Definition plug_backward (mem : Z) : Heap unit :=
  let! pmem := get_prev mem in
  let! pused := get_used pmem in
  if negb (pmem =? mem) && (pused =? 0) then
    let! lf := gets lfree in
    (if lf =? mem then set_lfree pmem else ret tt) ;;!
    let! next := get_next mem in
    set_next pmem next ;;!
    let! next := get_next mem in
    set_prev next pmem
  else ret tt.

Definition plug_holes (mem : Z) : Heap unit :=
  assert_ (0 <=? mem) "plug_holes: mem >= ram" ;;!
  assert_ (mem <? ram_end) "plug_holes: mem < ram_end" ;;!
  let! used := get_used mem in
  assert_ (used =? 0) "plug_holes: mem->used == 0" ;;!
  let! nmem := get_next mem in
  assert_ (nmem <=? MEM_SIZE_ALIGNED) "plug_holes: mem->next <= MEM_SIZE_ALIGNED" ;;!
  plug_forward mem nmem ;;!
  plug_backward mem.

Definition mem_init : Heap unit :=
  set_next 0 MEM_SIZE_ALIGNED ;;!
  set_prev 0 0 ;;!
  set_used 0 0 ;;!
  set_used ram_end 1 ;;!
  set_next ram_end MEM_SIZE_ALIGNED ;;!
  set_prev ram_end MEM_SIZE_ALIGNED ;;!
  modify (fun h => mkHeap (ram h) (lfree h) 1) ;;!
  set_lfree 0.

Definition mem_free (rmem : option Z) : Heap unit :=
  match rmem with
  | None => ret tt
  | Some rmem =>
      assert_ (Z.land rmem (MEM_ALIGNMENT - 1) =? 0) "mem_free: sanity check alignment" ;;!
      assert_ ((0 <=? rmem) && (rmem <? ram_end)) "mem_free: legal memory" ;;!
      if (rmem <? 0) || (ram_end <=? rmem) then ret tt
      else
        sys_arch_sem_wait ;;!
        let mem := rmem - SIZEOF_STRUCT_MEM in
        let! used := get_used mem in
        assert_ (negb (used =? 0)) "mem_free: mem->used" ;;!
        set_used mem 0 ;;!
        let! lf := gets lfree in
        (if mem <? lf then set_lfree mem else ret tt) ;;!
        plug_holes mem ;;!
        sys_sem_signal
  end.

(** The two ways to shrink the block at [ptr]: its free neighbour [mem2] is
    moved, or the rest becomes a block of its own. *)
Definition realloc_move (ptr mem2 newsize : Z) : Heap unit :=
  let! next := get_next mem2 in
  let ptr2 := u32 (ptr + SIZEOF_STRUCT_MEM + newsize) in
  let! lf := gets lfree in
  (if lf =? mem2 then set_lfree ptr2 else ret tt) ;;!
  set_used ptr2 0 ;;!
  set_next ptr2 next ;;!
  set_prev ptr2 ptr ;;!
  set_next ptr ptr2 ;;!
  let! next2 := get_next ptr2 in
  if negb (next2 =? MEM_SIZE_ALIGNED) then set_prev next2 ptr2 else ret tt.

Definition realloc_cut (ptr newsize : Z) : Heap unit :=
  let ptr2 := u32 (ptr + SIZEOF_STRUCT_MEM + newsize) in
  let! lf := gets lfree in
  (if ptr2 <? lf then set_lfree ptr2 else ret tt) ;;!
  set_used ptr2 0 ;;!
  let! next := get_next ptr in
  set_next ptr2 next ;;!
  set_prev ptr2 ptr ;;!
  set_next ptr ptr2 ;;!
  let! next2 := get_next ptr2 in
  if negb (next2 =? MEM_SIZE_ALIGNED) then set_prev next2 ptr2 else ret tt.

Definition mem_realloc (rmem newsize : Z) : Heap (option Z) :=
  let newsize := LWIP_MEM_ALIGN_SIZE newsize in
  let newsize := if newsize <? MIN_SIZE_ALIGNED then MIN_SIZE_ALIGNED else newsize in
  if MEM_SIZE_ALIGNED <? newsize then ret None
  else
    assert_ ((0 <=? rmem) && (rmem <? ram_end)) "mem_realloc: legal memory" ;;!
    if (rmem <? 0) || (ram_end <=? rmem) then ret (Some rmem)
    else
      let mem := rmem - SIZEOF_STRUCT_MEM in
      let ptr := mem in
      let! next := get_next mem in
      let size := u32 (next - ptr - SIZEOF_STRUCT_MEM) in
      assert_ (newsize <=? size) "mem_realloc can only shrink memory" ;;!
      if size <? newsize then ret None
      else if newsize =? size then ret (Some rmem)
      else
        sys_arch_sem_wait ;;!
        let! mem2 := get_next mem in
        let! used2 := get_used mem2 in
        (if used2 =? 0 then realloc_move ptr mem2 newsize
         else if u32 (newsize + SIZEOF_STRUCT_MEM + MIN_SIZE_ALIGNED) <=? size then realloc_cut ptr newsize
         else ret tt) ;;!
        sys_sem_signal ;;!
        ret (Some rmem).

(** The block at [ptr] is taken: split if the rest can hold a block. *)
Definition take_block (ptr size : Z) : Heap unit :=
  let! next := get_next ptr in
  if u32 (size + SIZEOF_STRUCT_MEM + MIN_SIZE_ALIGNED) <=? u32 (next - u32 (ptr + SIZEOF_STRUCT_MEM)) then
    let ptr2 := u32 (ptr + SIZEOF_STRUCT_MEM + size) in
    set_used ptr2 0 ;;!
    let! next := get_next ptr in
    set_next ptr2 next ;;!
    set_prev ptr2 ptr ;;!
    set_next ptr ptr2 ;;!
    set_used ptr 1 ;;!
    let! next2 := get_next ptr2 in
    if negb (next2 =? MEM_SIZE_ALIGNED) then set_prev next2 ptr2 else ret tt
  else set_used ptr 1.

(** [while (lfree->used && lfree != ram_end)]. *)
Fixpoint next_free (fuel : nat) : Heap unit :=
  match fuel with
  | O => panic "out of fuel"
  | S fuel =>
      let! lf := gets lfree in
      let! used := get_used lf in
      if negb (used =? 0) && negb (lf =? ram_end) then
        let! next := get_next lf in
        set_lfree next ;;!
        next_free fuel
      else ret tt
  end.

(** The scan of [mem_malloc] from [ptr]. *)
Fixpoint scan (fuel0 fuel : nat) (size ptr : Z) : Heap (option Z) :=
  match fuel with
  | O => panic "out of fuel"
  | S fuel =>
      if ptr <? u32 (MEM_SIZE_ALIGNED - size) then
        let! used := get_used ptr in
        let! next := get_next ptr in
        if (used =? 0) && (size <=? u32 (next - u32 (ptr + SIZEOF_STRUCT_MEM))) then
          take_block ptr size ;;!
          let! lf := gets lfree in
          (if ptr =? lf then
             next_free fuel0 ;;!
             let! lf := gets lfree in
             let! used := get_used lf in
             assert_ ((lf =? ram_end) || (used =? 0)) "mem_malloc: !lfree->used"
           else ret tt) ;;!
          sys_sem_signal ;;!
          assert_ (ptr + SIZEOF_STRUCT_MEM + size <=? ram_end) "mem_malloc: allocated memory not above ram_end." ;;!
          assert_ ((ptr + SIZEOF_STRUCT_MEM) mod MEM_ALIGNMENT =? 0) "mem_malloc: allocated memory properly aligned." ;;!
          assert_ (Z.land ptr (MEM_ALIGNMENT - 1) =? 0) "mem_malloc: sanity check alignment" ;;!
          ret (Some (ptr + SIZEOF_STRUCT_MEM))
        else
          let! next := get_next ptr in
          scan fuel0 fuel size next
      else
        sys_sem_signal ;;!
        ret None
  end.

Definition mem_malloc (size : Z) : Heap (option Z) :=
  if size =? 0 then ret None
  else
    let size := LWIP_MEM_ALIGN_SIZE size in
    let size := if size <? MIN_SIZE_ALIGNED then MIN_SIZE_ALIGNED else size in
    if MEM_SIZE_ALIGNED <? size then ret None
    else
      sys_arch_sem_wait ;;!
      let! lf := gets lfree in
      let fuel := Z.to_nat MEM_SIZE_ALIGNED in
      scan fuel fuel size lf.

Definition mem_calloc (count size : Z) : Heap (option Z) :=
  let! p := mem_malloc (u32 (count * size)) in
  match p with
  | Some p =>
      modify (fun h => set_ram (fill p (Z.to_nat (u32 (count * size))) 0 (ram h)) h) ;;!
      ret (Some p)
  | None => ret None
  end.
End Heap.
