(* ===== verification/LwMemSpec.v ===== *)
(** The heap of net/lwip/core/mem.c as a list of blocks: first fit, blocks that
    never overlap, neighbours that are joined when they are free. *)

From stdpp Require Import base numbers list gmap strings.
From Stdlib Require Import ZArith Lia Bool.
From S2P Require Import Prelude LwMem.

Local Ltac Zify.zify_post_hook ::= Z.to_euclidean_division_equations.

(** * Bytes and words *)

Lemma ld8_st8 k v m k' : ld8 (st8 k v m) k' = if k =? k' then u8 v else ld8 m k'.
Proof. unfold ld8, st8. destruct (Z.eqb_spec k k') as [->|]; [apply mget_insert|by apply mget_insert_ne]. Qed.

Lemma ld8_st8_ne k v m k' : k <> k' -> ld8 (st8 k v m) k' = ld8 m k'.
Proof. intros. rewrite ld8_st8. by destruct (Z.eqb_spec k k'). Qed.

Lemma ld8_st8_eq k v m : ld8 (st8 k v m) k = u8 v.
Proof. rewrite ld8_st8. by rewrite Z.eqb_refl. Qed.

Lemma ld8_st32 k v m k' : k' < k \/ k + 4 <= k' -> ld8 (st32 k v m) k' = ld8 m k'.
Proof. intros. unfold st32. by rewrite !ld8_st8_ne by lia. Qed.

Lemma ld32_eq m m' k : (forall i, k <= i < k + 4 -> ld8 m' i = ld8 m i) -> ld32 m' k = ld32 m k.
Proof. intros Hi. unfold ld32. by rewrite !Hi by lia. Qed.

Lemma ld32_st32 k v m : is_u32 v -> ld32 (st32 k v m) k = v.
Proof.
  intros Hv. unfold is_u32 in Hv. unfold ld32, st32. rewrite !ld8_st8.
  repeat match goal with |- context [?a =? ?b] => (replace (a =? b) with true by lia) || (replace (a =? b) with false by lia) end.
  unfold u8. change (2 ^ 8) with 256. change (2 ^ 16) with 65536. change (2 ^ 24) with 16777216. lia.
Qed.

Lemma ld32_st32_ne k v m k' : k' + 4 <= k \/ k + 4 <= k' -> ld32 (st32 k v m) k' = ld32 m k'.
Proof. intros. apply ld32_eq. intros. apply ld8_st32. lia. Qed.

Lemma ld32_st8_ne k v m k' : k < k' \/ k' + 4 <= k -> ld32 (st8 k v m) k' = ld32 m k'.
Proof. intros. apply ld32_eq. intros. apply ld8_st8_ne. lia. Qed.

Lemma ld8_fill n : forall p v m k, ld8 (fill p n v m) k = if (p <=? k) && (k <? p + Z.of_nat n) then u8 v else ld8 m k.
Proof.
  induction n as [|n IH]; intros p v m k; cbn [fill].
  - destruct (Z.leb_spec p k), (Z.ltb_spec k (p + Z.of_nat 0)); cbn; done || lia.
  - rewrite IH, ld8_st8. destruct (Z.eqb_spec p k), (Z.leb_spec (p + 1) k), (Z.ltb_spec k (p + 1 + Z.of_nat n)), (Z.leb_spec p k), (Z.ltb_spec k (p + Z.of_nat (S n)));
      cbn [andb]; done || lia.
Qed.

(** * Blocks *)

(** A block: the size of its data and whether it is in use. *)
Abbreviation block := (Z * bool)%type.
Definition b2z (b : bool) : Z := if b then 1 else 0.

Definition hdr (m : gmap Z Z) (ptr next prev : Z) (used : bool) : Prop :=
  ld32 m ptr = next /\ ld32 m (ptr + 4) = prev /\ ld8 m (ptr + 8) = b2z used.

(** The blocks [bl] lie from [ptr] on, behind a block at [prev]. *)
Fixpoint seg (m : gmap Z Z) (prev ptr : Z) (bl : list block) : Prop :=
  match bl with
  | [] => True
  | (sz, used) :: bl => hdr m ptr (ptr + 12 + sz) prev used /\ 12 <= sz /\ sz mod 4 = 0 /\ seg m ptr (ptr + 12 + sz) bl
  end.

(** Where the blocks end, and the last of them. *)
Fixpoint stop (ptr : Z) (bl : list block) : Z := match bl with [] => ptr | (sz, _) :: bl => stop (ptr + 12 + sz) bl end.
Fixpoint lastp (prev ptr : Z) (bl : list block) : Z := match bl with [] => prev | (sz, _) :: bl => lastp ptr (ptr + 12 + sz) bl end.

(** The bytes of the headers, and of the data in use. *)
Fixpoint hbyte (ptr : Z) (bl : list block) (k : Z) : Prop :=
  match bl with [] => False | (sz, _) :: bl => ptr <= k < ptr + 12 \/ hbyte (ptr + 12 + sz) bl k end.
Fixpoint ubyte (ptr : Z) (bl : list block) (k : Z) : Prop :=
  match bl with [] => False | (sz, used) :: bl => (used = true /\ ptr + 12 <= k < ptr + 12 + sz) \/ ubyte (ptr + 12 + sz) bl k end.

Fixpoint first_free (ptr : Z) (bl : list block) : Z :=
  match bl with [] => ptr | (sz, used) :: bl => if used then first_free (ptr + 12 + sz) bl else ptr end.

(** No two free blocks are neighbours; [pf]: the block before is free. *)
Fixpoint joined (pf : bool) (bl : list block) : bool :=
  match bl with [] => true | (_, used) :: bl => (used || negb pf) && joined (negb used) bl end.
Fixpoint ends_free (pf : bool) (bl : list block) : bool :=
  match bl with [] => pf | (_, used) :: bl => ends_free (negb used) bl end.

Definition sizes (bl : list block) : Prop := Forall (fun b : block => 12 <= b.1 /\ b.1 mod 4 = 0) bl.

Lemma seg_sizes m bl : forall prev ptr, seg m prev ptr bl -> sizes bl.
Proof. induction bl as [|[sz u] bl IH]; intros prev ptr; [by constructor|]. intros (_ & ? & ? & Hs). constructor; [done|by eapply IH]. Qed.

Lemma stop_le bl : sizes bl -> forall ptr, ptr <= stop ptr bl.
Proof. induction 1 as [|[sz u] bl [Hs _] _ IH]; intros ptr; cbn; [lia|]. cbn in Hs. specialize (IH (ptr + 12 + sz)). lia. Qed.

Lemma stop_app l r : forall ptr, stop ptr (l ++ r) = stop (stop ptr l) r.
Proof. induction l as [|[sz u] l IH]; intros ptr; [done|]. apply IH. Qed.

Lemma lastp_app l r : forall prev ptr, lastp prev ptr (l ++ r) = lastp (lastp prev ptr l) (stop ptr l) r.
Proof. induction l as [|[sz u] l IH]; intros prev ptr; [done|]. apply IH. Qed.

Lemma seg_app m l r : forall prev ptr, seg m prev ptr (l ++ r) <-> seg m prev ptr l /\ seg m (lastp prev ptr l) (stop ptr l) r.
Proof. induction l as [|[sz u] l IH]; intros prev ptr; cbn; [tauto|]. rewrite IH. tauto. Qed.

Lemma hbyte_bound bl k : sizes bl -> forall ptr, hbyte ptr bl k -> ptr <= k < stop ptr bl.
Proof.
  induction 1 as [|[sz u] bl [Hs _] Hz IH]; intros ptr; cbn; [done|]. cbn in Hs.
  pose proof (stop_le bl Hz (ptr + 12 + sz)). intros [Hk|Hk]; [lia|]. apply IH in Hk. lia.
Qed.

Lemma ubyte_bound bl k : sizes bl -> forall ptr, ubyte ptr bl k -> ptr + 12 <= k < stop ptr bl.
Proof.
  induction 1 as [|[sz u] bl [Hs _] Hz IH]; intros ptr; cbn; [done|]. cbn in Hs.
  pose proof (stop_le bl Hz (ptr + 12 + sz)). intros [[_ Hk]|Hk]; [lia|]. apply IH in Hk. lia.
Qed.

Lemma ubyte_app l r k : forall ptr, ubyte ptr (l ++ r) k <-> ubyte ptr l k \/ ubyte (stop ptr l) r k.
Proof. induction l as [|[sz u] l IH]; intros ptr; cbn; [tauto|]. rewrite IH. tauto. Qed.

(** Data in use is no header. *)
Lemma ubyte_hbyte bl k : sizes bl -> forall ptr, ubyte ptr bl k -> hbyte ptr bl k -> False.
Proof.
  induction 1 as [|[sz u] bl [Hs _] Hz IH]; intros ptr; cbn; [done|]. cbn in Hs.
  intros [[_ Hu]|Hu] [Hh|Hh]; [lia|apply hbyte_bound in Hh; [lia|done]|apply ubyte_bound in Hu; [lia|done]|by apply (IH (ptr + 12 + sz))].
Qed.

Lemma hdr_frame m m' ptr next prev u : (forall k, ptr <= k < ptr + 12 -> ld8 m' k = ld8 m k) -> hdr m ptr next prev u -> hdr m' ptr next prev u.
Proof.
  intros Hk (H1 & H2 & H3). unfold hdr. rewrite (ld32_eq m m' ptr), (ld32_eq m m' (ptr + 4)), (Hk (ptr + 8)) by (lia || (intros; apply Hk; lia)). done.
Qed.

Lemma seg_frame m m' bl : forall prev ptr, (forall k, hbyte ptr bl k -> ld8 m' k = ld8 m k) -> seg m prev ptr bl -> seg m' prev ptr bl.
Proof.
  induction bl as [|[sz u] bl IH]; intros prev ptr Hk; cbn; [done|]. intros (Hh & H1 & H2 & Hs).
  split; [apply (hdr_frame m); [intros; apply Hk; by left|done]|]. do 2 (split; [done|]). apply IH; [intros; apply Hk; by right|done].
Qed.

(** Some blocks are replaced by others in the same place; the next block is
    linked to the last of them. *)
Lemma seg_change m m' l mid mid' r p q e : seg m p q (l ++ mid ++ r) ->
  (forall k, hbyte q l k -> ld8 m' k = ld8 m k) -> seg m' (lastp p q l) (stop q l) mid' ->
  stop (stop q l) mid = e -> stop (stop q l) mid' = e ->
  (r <> [] -> ld32 m' (e + 4) = lastp (lastp p q l) (stop q l) mid') ->
  (forall k, hbyte e r k -> k < e + 4 \/ e + 8 <= k -> ld8 m' k = ld8 m k) ->
  seg m' p q (l ++ mid' ++ r).
Proof.
  intros Hs Hl Hm E E' Hp Hr. rewrite !seg_app, E in Hs. rewrite !seg_app, E'. destruct Hs as (S1 & S2 & S3).
  split; [by apply (seg_frame m)|]. split; [done|]. destruct r as [|[sz u] r]; [done|]. specialize (Hp ltac:(done)).
  destruct S3 as ((H1 & H2 & H3) & Hz & Hz' & S3). cbn [seg hbyte] in *. split.
  - split; [|split; [done|]].
    + rewrite <- H1. apply ld32_eq. intros. apply Hr; lia.
    + rewrite <- H3. apply Hr; lia.
  - do 2 (split; [done|]). apply (seg_frame m); [|done]. intros k Hk. apply Hr; [by right|].
    apply hbyte_bound in Hk; [lia|by eapply seg_sizes].
Qed.

Lemma stop_mod bl : sizes bl -> forall ptr, ptr mod 4 = 0 -> stop ptr bl mod 4 = 0.
Proof. induction 1 as [|[sz u] bl [_ Hs] _ IH]; intros ptr Hp; cbn; [done|]. cbn in Hs. apply IH. lia. Qed.

Lemma sizes_app l r : sizes (l ++ r) <-> sizes l /\ sizes r.
Proof. apply Forall_app. Qed.

Lemma sizes_cons sz u r : sizes ((sz, u) :: r) <-> (12 <= sz /\ sz mod 4 = 0) /\ sizes r.
Proof. unfold sizes. by rewrite Forall_cons. Qed.

Lemma first_free_range bl : sizes bl -> forall ptr, ptr <= first_free ptr bl <= stop ptr bl.
Proof.
  induction 1 as [|[sz u] bl [Hs _] Hz IH]; intros ptr; cbn; [lia|]. cbn in Hs.
  pose proof (stop_le bl Hz (ptr + 12 + sz)). specialize (IH (ptr + 12 + sz)). destruct u; lia.
Qed.

(** Up to a free block, the rest does not matter. *)
Lemma first_free_same l sz sz' r r' : forall ptr, first_free ptr (l ++ (sz, false) :: r) = first_free ptr (l ++ (sz', false) :: r').
Proof. induction l as [|[s u] l IH]; intros ptr; cbn; [done|]. destruct u; [apply IH|done]. Qed.

Lemma first_free_le l sz r : sizes l -> forall ptr, first_free ptr (l ++ (sz, false) :: r) <= stop ptr l.
Proof.
  induction 1 as [|[s u] l [Hs _] Hz IH]; intros ptr; cbn; [lia|]. cbn in Hs. destruct u; [apply IH|].
  pose proof (stop_le l Hz (ptr + 12 + s)). lia.
Qed.

Lemma first_free_app l r : forall ptr, first_free ptr (l ++ r) = if forallb snd l then first_free (stop ptr l) r else first_free ptr l.
Proof. induction l as [|[s u] l IH]; intros ptr; [done|]. cbn. destruct u; cbn; [apply IH|done]. Qed.

Lemma joined_app l r : forall pf, joined pf (l ++ r) = joined pf l && joined (ends_free pf l) r.
Proof. induction l as [|[s u] l IH]; intros pf; [done|]. cbn. by rewrite IH, andb_assoc. Qed.

Lemma ends_free_snoc l s u : forall pf, ends_free pf (l ++ [(s, u)]) = negb u.
Proof. induction l as [|[s' u'] l IH]; intros pf; [done|]. apply IH. Qed.

Lemma joined_weaken bl : joined true bl = true -> joined false bl = true.
Proof. destruct bl as [|[s [] ] bl]; done. Qed.

(** Each block takes room. *)
Lemma length_stop bl : sizes bl -> forall ptr, ptr + 24 * Z.of_nat (length bl) <= stop ptr bl.
Proof. induction 1 as [|[s u] bl [Hs _] _ IH]; intros ptr; cbn [length stop]; [lia|]. cbn in Hs. specialize (IH (ptr + 12 + s)). lia. Qed.

(** The blocks before the first free one. *)
Lemma used_prefix bl : forall ptr, exists l r, bl = l ++ r /\ Forall (fun b : block => b.2 = true) l /\ first_free ptr bl = stop ptr l
  /\ match r with (_, true) :: _ => False | _ => True end.
Proof.
  induction bl as [|[s u] bl IH]; intros ptr; [by exists [], []|]. destruct u; [|by exists [], ((s, false) :: bl)].
  destruct (IH (ptr + 12 + s)) as (l & r & -> & Hl & E & Hr). exists ((s, true) :: l), r. split; [done|]. split; [by constructor|]. done.
Qed.

(** * Requests *)

(** The size a request is rounded to. *)
Definition request (size : Z) : Z :=
  let n := LWIP_MEM_ALIGN_SIZE size in if n <? MIN_SIZE_ALIGNED then MIN_SIZE_ALIGNED else n.

Lemma align_size size : 0 <= size < 2 ^ 32 -> LWIP_MEM_ALIGN_SIZE size = u32 (size + 3) / 4 * 4.
Proof.
  intros Hs. unfold LWIP_MEM_ALIGN_SIZE. change (MEM_ALIGNMENT) with 4. replace (size + 4 - 1) with (size + 3) by lia.
  pose proof (u32_range (size + 3)) as Hr. unfold is_u32 in Hr. set (x := u32 (size + 3)) in *.
  change (u32 (Z.lnot (4 - 1))) with (Z.shiftl (Z.ones 30) 2).
  assert (x = Z.lor (x / 4 * 2 ^ 2) (x mod 4)) as Ex by (rewrite lor_disjoint_add; change (2 ^ 2) with 4; lia).
  rewrite Ex at 1. rewrite Z.land_lor_distr_l, <- Z.shiftl_mul_pow2, <- Z.shiftl_land, Z.land_ones by lia.
  rewrite (Z.mod_small (x / 4)) by (change (2 ^ 30) with 1073741824; lia).
  assert (Z.land (x mod 4) (Z.shiftl (Z.ones 30) 2) = 0) as ->.
  { assert (x mod 4 = 0 \/ x mod 4 = 1 \/ x mod 4 = 2 \/ x mod 4 = 3) as [->|[->|[->| ->]]] by lia; reflexivity. }
  by rewrite Z.lor_0_r, Z.shiftl_mul_pow2 by lia.
Qed.

Lemma request_ok size : 0 <= size < 2 ^ 32 -> 12 <= request size /\ request size mod 4 = 0 /\ (size <= 2 ^ 32 - 4 -> size <= request size).
Proof.
  intros Hs. unfold request. rewrite align_size by done. change MIN_SIZE_ALIGNED with 12. unfold u32.
  destruct (Z.ltb_spec ((size + 3) mod 2 ^ 32 / 4 * 4) 12); lia.
Qed.

(** A free block of size [sz] given to a request of size [n]. *)
Definition split (n sz : Z) : list block := if n + 24 <=? sz then [(n, true); (sz - n - 12, false)] else [(sz, true)].

Lemma split_head n sz : 12 <= n <= sz -> exists sz' rest, split n sz = (sz', true) :: rest /\ n <= sz'.
Proof. intros Hn. unfold split. destruct (_ <=? _); [by exists n, [(sz - n - 12, false)]; split; [|lia]|by exists sz, []; split; [|lia]]. Qed.

(** Blocks a request of size [n] passes over. *)
Definition unfit (n : Z) (b : block) : Prop := b.2 = true \/ b.1 < n.

(** * The heap *)

Section Heap.
Context (END : Z) (HEND : 24 <= END) (HEND4 : END mod 4 = 0) (HEND2 : END < 2 ^ 31).

(** Memory holds the blocks [bl]. *)
Record mem_ok (bl : list block) (m : gmap Z Z) : Prop := {
  mo_seg : seg m 0 0 bl;
  mo_stop : stop 0 bl = END;
  mo_end : ld8 m (END + 8) = 1
}.

Lemma mem_split l sz u r m : mem_ok (l ++ (sz, u) :: r) m ->
  let q := stop 0 l in
  hdr m q (q + 12 + sz) (lastp 0 0 l) u /\ sizes l /\ sizes r /\ 12 <= sz /\ sz mod 4 = 0 /\ 0 <= q /\ q mod 4 = 0
  /\ q + 12 + sz <= END /\ stop (q + 12 + sz) r = END.
Proof.
  intros [Hs He Hu] q. apply seg_app in Hs as Hs'. cbn in Hs'. destruct Hs' as (S1 & Hh & H1 & H2 & S2).
  pose proof (seg_sizes _ _ _ _ S1) as Z1. pose proof (seg_sizes _ _ _ _ S2) as Z2. rewrite stop_app in He. cbn in He.
  pose proof (stop_le l Z1 0). pose proof (stop_le r Z2 (q + 12 + sz)). pose proof (stop_mod l Z1 0 ltac:(done)). unfold q in *.
  split_and!; done || lia.
Qed.

(** Some blocks are replaced, in memory. *)
Lemma mem_change l mid mid' r m m' : mem_ok (l ++ mid ++ r) m ->
  let q := stop 0 l in let e := stop q mid in
  seg m' (lastp 0 0 l) q mid' -> stop q mid' = e -> (r <> [] -> ld32 m' (e + 4) = lastp (lastp 0 0 l) q mid') ->
  (forall k, k < q \/ e <= k -> k < e + 4 \/ e + 8 <= k -> ld8 m' k = ld8 m k) -> mem_ok (l ++ mid' ++ r) m'.
Proof.
  intros [Hs He Hu] q e Hm E Hp Hk. pose proof (seg_sizes _ _ _ _ Hs) as Hz. rewrite !sizes_app in Hz. destruct Hz as (Z1 & Z2 & Z3).
  assert (stop e r = END) as HE by (unfold e, q; by rewrite <- !stop_app).
  pose proof (stop_le r Z3 e). pose proof (stop_le mid Z2 q) as Hqe. fold e in Hqe. split.
  - apply (seg_change m m' l mid mid' r 0 0 e); [done| |done|done|done|done|].
    + intros k Hb. apply hbyte_bound in Hb; [|done]. fold q in Hb. apply Hk; lia.
    + intros k Hb Hk'. apply hbyte_bound in Hb; [|done]. apply Hk; lia.
  - rewrite !stop_app. fold q. by rewrite E.
  - rewrite Hk; [done|lia|lia].
Qed.

(** Data in use outside of the replaced blocks stays. *)
Lemma data_change l mid r m m' : mem_ok (l ++ mid ++ r) m -> let q := stop 0 l in let e := stop q mid in
  (forall k, k < q \/ e <= k -> k < e + 4 \/ e + 8 <= k -> ld8 m' k = ld8 m k) ->
  forall k, ubyte 0 l k \/ ubyte e r k -> ld8 m' k = ld8 m k.
Proof.
  intros [Hs He Hu] q e Hk k Hb. pose proof (seg_sizes _ _ _ _ Hs) as Hz. rewrite !sizes_app in Hz. destruct Hz as (Z1 & Z2 & Z3).
  pose proof (stop_le mid Z2 q) as Hqe. fold e in Hqe.
  destruct Hb as [Hb|Hb]; apply ubyte_bound in Hb; try done; apply Hk; unfold q in *; lia.
Qed.

Local Ltac steps := cbv beta iota delta [bind ret gets modify assert_ panic get_next get_prev get_used set_next set_prev set_used set_ram set_lfree sys_sem_signal ram lfree mem_sem].

(** The conditional update of the next block's [prev]. *)
Definition relink (e v : Z) (m : gmap Z Z) : gmap Z Z := if e =? END then m else st32 (e + 4) v m.

Lemma relink_out e v m k : k < e + 4 \/ e + 8 <= k -> ld8 (relink e v m) k = ld8 m k.
Proof. intros. unfold relink. destruct (_ =? _); [done|]. apply ld8_st32. lia. Qed.

Lemma relink_out32 e v m k : k <= e \/ e + 8 <= k -> ld32 (relink e v m) k = ld32 m k.
Proof. intros. apply ld32_eq. intros. apply relink_out. lia. Qed.

Lemma relink_in e v m : is_u32 v -> e <> END -> ld32 (relink e v m) (e + 4) = v.
Proof. intros. unfold relink. destruct (Z.eqb_spec e END); [done|]. by apply ld32_st32. Qed.

Lemma relink_run e v h : (if negb (e =? END) then set_prev e v else ret tt) h = Ret tt (set_ram (relink e v (ram h)) h).
Proof. unfold relink. destruct (e =? END); [by destruct h|done]. Qed.

Local Ltac cells := repeat first [rewrite ld32_st32_ne by lia | rewrite ld32_st32 by (unfold is_u32; lia) | rewrite ld32_st8_ne by lia
  | rewrite ld8_st32 by lia | rewrite ld8_st8_ne by lia | rewrite ld8_st8_eq
  | rewrite relink_out by lia | rewrite relink_out32 by lia | rewrite relink_in by (done || (unfold is_u32; lia))].
Local Ltac header := unfold hdr; cells; done.

(** A block is cut in two. *)
Lemma mem_cut l sz u r n m m' : mem_ok (l ++ (sz, u) :: r) m -> 12 <= n -> n mod 4 = 0 -> n + 24 <= sz -> let q := stop 0 l in
  hdr m' q (q + 12 + n) (lastp 0 0 l) true -> hdr m' (q + 12 + n) (q + 12 + sz) q false ->
  (q + 12 + sz <> END -> ld32 m' (q + 12 + sz + 4) = q + 12 + n) ->
  (forall k, k < q \/ q + 12 + sz <= k -> k < q + 12 + sz + 4 \/ q + 12 + sz + 8 <= k -> ld8 m' k = ld8 m k) ->
  mem_ok (l ++ [(n, true); (sz - n - 12, false)] ++ r) m'.
Proof.
  intros HM Hn Hn4 Hs q H1 H2 H3 Hk. pose proof (mem_split l sz u r m HM) as Hx. cbv zeta in Hx.
  destruct Hx as (_ & Z1 & Z2 & Hz & Hz4 & Hq & Hq4 & He & HE). fold q in Hq, Hq4, He, HE.
  apply (mem_change l [(sz, u)] _ r m); [done|..]; fold q; cbn [seg stop lastp].
  - replace (q + 12 + n + 12 + (sz - n - 12)) with (q + 12 + sz) by lia. split_and!; done || lia.
  - lia.
  - intros Hr. apply H3. destruct r as [|[s w] r]; [done|]. cbn [stop] in HE. apply sizes_cons in Z2 as [[? ?] Z2].
    pose proof (stop_le r Z2 (q + 12 + sz + 12 + s)). lia.
  - done.
Qed.

(** * mem_malloc *)

Lemma take_block_ok l sz r n m lf sem : mem_ok (l ++ (sz, false) :: r) m -> 12 <= n <= sz -> n mod 4 = 0 ->
  exists m', take_block END (stop 0 l) n (mkHeap m lf sem) = Ret tt (mkHeap m' lf sem)
    /\ mem_ok (l ++ split n sz ++ r) m' /\ (forall k, ubyte 0 (l ++ (sz, false) :: r) k -> ld8 m' k = ld8 m k).
Proof.
  intros HM Hn Hn4. pose proof (mem_split l sz false r m HM) as Hx. cbv zeta in Hx.
  destruct Hx as ((Hn1 & Hp1 & Hu1) & Z1 & Z2 & Hz & Hz4 & Hq & Hq4 & He & HE). set (q := stop 0 l) in *.
  unfold take_block, split. change SIZEOF_STRUCT_MEM with 12. change MIN_SIZE_ALIGNED with 12. 
  rewrite (u32_small (q + 12)), (u32_small (n + 12 + 12)), (u32_small (q + 12 + n)) by (unfold is_u32; lia).
  steps. rewrite Hn1, (u32_small (q + 12 + sz - (q + 12))) by (unfold is_u32; lia).
  replace (q + 12 + sz - (q + 12)) with sz by lia. replace (n + 12 + 12) with (n + 24) by lia.
  assert (forall m', (forall k, k < q \/ q + 12 + sz <= k -> k < q + 12 + sz + 4 \/ q + 12 + sz + 8 <= k -> ld8 m' k = ld8 m k) ->
    forall k, ubyte 0 (l ++ (sz, false) :: r) k -> ld8 m' k = ld8 m k) as Hub.
  { intros m' Hk k Hb. apply (data_change l [(sz, false)] r m m' HM Hk). apply ubyte_app in Hb as [Hb|[[? _]|Hb]]; [by left|done|by right]. }
  destruct (Z.leb_spec (n + 24) sz) as [Hs|Hs].
  - cells. rewrite Hn1. eexists. split; [apply (relink_run _ _ (mkHeap _ _ _))|]. cbn [ram set_ram].
    assert (forall k, k < q \/ q + 12 + sz <= k -> k < q + 12 + sz + 4 \/ q + 12 + sz + 8 <= k -> ld8 (relink (q + 12 + sz) (q + 12 + n)
      (st8 (q + 8) 1 (st32 q (q + 12 + n) (st32 (q + 12 + n + 4) q (st32 (q + 12 + n) (q + 12 + sz) (st8 (q + 12 + n + 8) 0 m)))))) k = ld8 m k) as Hk
      by (intros; by cells).
    split; [|by apply Hub]. apply (mem_cut l sz false r n m); fold q; [done|lia|done|lia|header..| |done]. intros Hne. by cells.
  - eexists. split; [reflexivity|].
    assert (forall k, k < q \/ q + 12 + sz <= k -> k < q + 12 + sz + 4 \/ q + 12 + sz + 8 <= k -> ld8 (st8 (q + 8) 1 m) k = ld8 m k) as Hk by (intros; by cells).
    split; [|by apply Hub]. apply (mem_change l [(sz, false)] [(sz, true)] r m); fold q; cbn [seg stop lastp]; [done| |done| |done].
    + split; [header|]. done.
    + intros Hr. cells. destruct r as [|[s w] r]; [done|]. destruct HM as [HM _ _]. rewrite !seg_app in HM. by destruct HM as (_ & _ & _ & _ & (_ & HP & _) & _).
Qed.

Lemma next_free_ok m sem r : forall l fuel, mem_ok (l ++ r) m -> (length r < fuel)%nat ->
  next_free END fuel (mkHeap m (stop 0 l) sem) = Ret tt (mkHeap m (first_free (stop 0 l) r) sem).
Proof.
  induction r as [|[sz u] r IH]; intros l fuel HM Hf; (destruct fuel as [|fuel]; [cbn in Hf; lia|]); cbn [next_free].
  - steps. destruct HM as [_ He Hu]. rewrite app_nil_r in He. by rewrite He, Hu, Z.eqb_refl.
  - pose proof (mem_split l sz u r m HM) as Hx. cbv zeta in Hx. destruct Hx as ((Hn & _ & Hu) & _ & _ & Hz & _ & _ & _ & He & _).
    steps. rewrite Hu. cbn [first_free]. destruct u; [|done]. destruct (Z.eqb_spec (stop 0 l) END); [lia|]. cbn [negb andb b2z].
    change (1 =? 0) with false. cbv beta iota delta [negb andb]. rewrite Hn. specialize (IH (l ++ [(sz, true)]) fuel). rewrite stop_app, <- app_assoc in IH. apply IH; [done|cbn in Hf; lia].
Qed.

Lemma unfit_high n bl : sizes bl -> forall ptr, stop ptr bl <= ptr + n -> Forall (unfit n) bl.
Proof.
  induction 1 as [|[s u] bl [Hs ?] Hz IH]; intros ptr Hp; constructor; cbn in *.
  - right. cbn. pose proof (stop_le bl Hz (ptr + 12 + s)). lia.
  - apply (IH (ptr + 12 + s)). lia.
Qed.

(** One step of the scan over a block that does not fit. *)
Lemma scan_step f0 fuel n l sz u r m lf sem : mem_ok (l ++ (sz, u) :: r) m -> unfit n (sz, u) -> 12 <= n -> stop 0 l < END - n ->
  scan END f0 (S fuel) n (stop 0 l) (mkHeap m lf sem) = scan END f0 fuel n (stop 0 (l ++ [(sz, u)])) (mkHeap m lf sem).
Proof.
  intros HM Hu Hn Hp. pose proof (mem_split l sz u r m HM) as Hx. cbv zeta in Hx.
  destruct Hx as ((Hn1 & _ & Hu1) & _ & _ & Hz & _ & Hq & _ & He & _). cbn [scan]. change SIZEOF_STRUCT_MEM with 12.
  rewrite (u32_small (END - n)), (u32_small (stop 0 l + 12)) by (unfold is_u32; lia). destruct (Z.ltb_spec (stop 0 l) (END - n)); [|lia].
  steps. rewrite Hu1, Hn1, (u32_small (_ - _)) by (unfold is_u32; lia).
  assert ((b2z u =? 0) && (n <=? stop 0 l + 12 + sz - (stop 0 l + 12)) = false) as ->.
  { destruct u; [done|]. destruct Hu as [|Hu]; [done|]. cbn in Hu. cbn. apply Z.leb_gt. lia. }
  rewrite Hn1, stop_app. done.
Qed.

Lemma scan_end f0 fuel n ptr h : 0 <= n <= END -> END - n <= ptr ->
  scan END f0 (S fuel) n ptr h = Ret None (mkHeap (ram h) (lfree h) (mem_sem h + 1)).
Proof.
  intros Hn Hp. cbn [scan]. rewrite (u32_small (END - n)) by (unfold is_u32; lia). destruct (Z.ltb_spec ptr (END - n)); [lia|]. done.
Qed.

Lemma scan_none f0 n m lf sem r : 12 <= n <= END -> forall l fuel, mem_ok (l ++ r) m -> Forall (unfit n) r -> (length r < fuel)%nat ->
  scan END f0 fuel n (stop 0 l) (mkHeap m lf sem) = Ret None (mkHeap m lf (sem + 1)).
Proof.
  intros Hn. induction r as [|[sz u] r IH]; intros l fuel HM Hu Hf; (destruct fuel as [|fuel]; [cbn in Hf; lia|]).
  - apply scan_end; [lia|]. destruct HM as [_ He _]. rewrite app_nil_r in He. lia.
  - apply Forall_cons in Hu as [Hu Hr]. destruct (Z.lt_ge_cases (stop 0 l) (END - n)); [|by rewrite scan_end by lia].
    rewrite (scan_step _ _ _ _ sz u r) by (done || lia). apply IH; [by rewrite <- app_assoc|done|cbn in Hf; lia].
Qed.

Lemma scan_take f0 fuel n l sz r m lf sem : mem_ok (l ++ (sz, false) :: r) m -> 12 <= n <= sz -> n mod 4 = 0 -> (S (S (length r)) < f0)%nat ->
  let q := stop 0 l in
  exists m', scan END f0 (S fuel) n q (mkHeap m lf sem)
      = Ret (Some (q + 12)) (mkHeap m' (if q =? lf then first_free q (split n sz ++ r) else lf) (sem + 1))
    /\ mem_ok (l ++ split n sz ++ r) m' /\ (forall k, ubyte 0 (l ++ (sz, false) :: r) k -> ld8 m' k = ld8 m k).
Proof.
  intros HM Hn Hn4 Hf q. destruct (take_block_ok l sz r n m lf sem HM Hn Hn4) as (m' & E & HM' & HD). exists m'. split; [|done].
  pose proof (mem_split l sz false r m HM) as Hx. cbv zeta in Hx. fold q in Hx, E.
  destruct Hx as ((Hn1 & _ & Hu1) & Zl & _ & Hz & Hz4 & Hq & Hq4 & He & _). cbn [scan]. change SIZEOF_STRUCT_MEM with 12.
  rewrite (u32_small (END - n)), (u32_small (q + 12)) by (unfold is_u32; lia). destruct (Z.ltb_spec q (END - n)); [|lia].
  rewrite (bind_ret _ _ _ _ _ (eq_refl : get_used q (mkHeap m lf sem) = _)), (bind_ret _ _ _ _ _ (eq_refl : get_next q (mkHeap m lf sem) = _)).
  cbn [ram]. rewrite Hu1, Hn1, (u32_small (_ - _)) by (unfold is_u32; lia). replace (n <=? q + 12 + sz - (q + 12)) with true by (symmetry; apply Z.leb_le; lia).
  cbv beta iota delta [b2z andb]. change (0 =? 0) with true. cbv iota. rewrite (bind_ret _ _ _ _ _ E).
  rewrite (bind_ret _ _ _ _ _ (eq_refl : gets lfree (mkHeap m' lf sem) = _)). cbn [lfree].
  set (lf' := if q =? lf then first_free q (split n sz ++ r) else lf).
  match goal with |- bind ?X _ _ = _ => assert (X (mkHeap m' lf sem) = Ret tt (mkHeap m' lf' sem)) as E2 end.
  { unfold lf'. destruct (Z.eqb_spec q lf) as [<-|]; [|done].
    assert (length (split n sz ++ r) < f0)%nat as Hl by (rewrite length_app; unfold split; destruct (_ <=? _); cbn [length]; lia).
    rewrite (bind_ret _ _ _ _ _ (next_free_ok m' sem _ l f0 HM' Hl)). fold q. steps.
    assert ((first_free q (split n sz ++ r) =? END) || (ld8 m' (first_free q (split n sz ++ r) + 8) =? 0) = true) as ->; [|done].
    destruct (used_prefix (split n sz ++ r) q) as (l1 & r1 & El & _ & -> & Hr1). rewrite El, app_assoc in HM'. unfold q. rewrite <- stop_app.
    destruct r1 as [|[s [] ] r1]; [|done|].
    - destruct HM' as [_ HS _]. rewrite app_nil_r in HS. apply orb_true_iff. left. by apply Z.eqb_eq.
    - pose proof (mem_split _ _ _ _ _ HM') as Hx. cbv zeta in Hx. destruct Hx as ((_ & _ & ->) & _). apply orb_true_r. }
  rewrite (bind_ret _ _ _ _ _ E2). steps.
  destruct (Z.leb_spec (q + 12 + n) END); [|lia]. assert (((q + 12) mod MEM_ALIGNMENT =? 0) = true) as -> by (apply Z.eqb_eq; change MEM_ALIGNMENT with 4; lia).
  assert ((Z.land q (MEM_ALIGNMENT - 1) =? 0) = true) as ->; [|done]. change (MEM_ALIGNMENT - 1) with (Z.ones 2). rewrite Z.land_ones by lia. apply Z.eqb_eq. change (2 ^ 2) with 4. lia.
Qed.

(** Between operations. *)
Record heap_inv (bl : list block) (h : heap) : Prop := {
  hi_mem : mem_ok bl (ram h);
  hi_joined : joined false bl = true;
  hi_lfree : lfree h = first_free 0 bl;
  hi_sem : mem_sem h = 1
}.

Lemma fuel_ok (bl : list block) m : mem_ok bl m -> (S (S (length bl)) < Z.to_nat END)%nat.
Proof. intros [Hs He _]. pose proof (length_stop bl (seg_sizes _ _ _ _ Hs) 0). lia. Qed.

Lemma split_joined l n sz r : joined false (l ++ (sz, false) :: r) = true -> joined false (l ++ split n sz ++ r) = true.
Proof.
  rewrite !joined_app. unfold split. cbn [joined orb negb]. intros Hj. apply andb_true_iff in Hj as [-> Hj]. cbn [andb].
  apply andb_true_iff in Hj as [_ Hj]. destruct (_ <=? _); cbn; [done|by apply joined_weaken].
Qed.

(** The lowest free block after an allocation. *)
Lemma split_first l n sz r lf : sizes l -> lf = first_free 0 (l ++ (sz, false) :: r) ->
  (if stop 0 l =? lf then first_free (stop 0 l) (split n sz ++ r) else lf) = first_free 0 (l ++ split n sz ++ r).
Proof.
  intros Hz ->. rewrite !first_free_app. destruct (forallb snd l) eqn:Ef; [by rewrite Z.eqb_refl|].
  destruct (Z.eqb_spec (stop 0 l) (first_free 0 l)) as [E|]; [|done]. exfalso. revert E Ef. generalize 0.
  induction Hz as [|[s u] l [Hs _] Hz IH]; intros p E Ef; [done|]. cbn in *. destruct u; [by apply (IH (p + 12 + s))|].
  pose proof (stop_le l Hz (p + 12 + s)). lia.
Qed.

Lemma mem_malloc_none bl h size : heap_inv bl h -> 0 <= size < 2 ^ 32 ->
  size = 0 \/ END < request size \/ Forall (unfit (request size)) bl -> mem_malloc END size h = Ret None h.
Proof.
  intros [HM HJ HL HS] Hs Hc. unfold mem_malloc. destruct (Z.eqb_spec size 0) as [|Hs0]; [done|]. fold (request size).
  destruct (request_ok size Hs) as (Hn & _). destruct (Z.ltb_spec END (request size)); [done|]. destruct Hc as [|[|Hc]]; [done|lia|].
  destruct (used_prefix bl 0) as (l & r & -> & _ & El & _). apply Forall_app in Hc as [_ Hc]. pose proof (fuel_ok _ _ HM) as Hf. rewrite length_app in Hf.
  destruct h as [m lf sem]. cbn in *. subst lf sem. rewrite El. unfold sys_arch_sem_wait. steps. change (1 =? 0) with false. cbv beta iota.
  by rewrite scan_none with (r := r) by (done || lia).
Qed.

(** From the lowest free block on. *)
Lemma scan_some f0 n sz r2 m lf sem r1 : 12 <= n <= sz -> n mod 4 = 0 -> forall l fuel, mem_ok (l ++ r1 ++ (sz, false) :: r2) m -> Forall (unfit n) r1 ->
  (length r1 < fuel)%nat -> scan END f0 fuel n (stop 0 l) (mkHeap m lf sem) = scan END f0 (fuel - length r1) n (stop 0 (l ++ r1)) (mkHeap m lf sem).
Proof.
  intros Hn Hn4. induction r1 as [|[s u] r1 IH]; intros l fuel HM Hu Hf; [by rewrite app_nil_r, Nat.sub_0_r|].
  destruct fuel as [|fuel]; [cbn in Hf; lia|]. apply Forall_cons in Hu as [Hu Hr].
  assert (stop 0 l < END - n) as Hp.
  { rewrite app_assoc in HM. pose proof (mem_split _ _ _ _ _ HM) as Hx. cbv zeta in Hx. rewrite stop_app in Hx.
    destruct Hx as (_ & Z1 & _ & _ & _ & _ & _ & He & _). apply sizes_app in Z1 as [_ Z1]. pose proof (stop_le _ Z1 (stop 0 l)). lia. }
  rewrite (scan_step _ _ _ _ s u (r1 ++ (sz, false) :: r2)) by (done || lia). rewrite IH; [|by rewrite <- app_assoc|done|cbn in Hf; lia].
  rewrite <- app_assoc. done.
Qed.

Lemma mem_malloc_some l sz r h size : heap_inv (l ++ (sz, false) :: r) h -> 0 < size < 2 ^ 32 -> Forall (unfit (request size)) l -> request size <= sz ->
  exists h', mem_malloc END size h = Ret (Some (stop 0 l + 12)) h' /\ heap_inv (l ++ split (request size) sz ++ r) h'
    /\ (forall k, ubyte 0 (l ++ (sz, false) :: r) k -> ld8 (ram h') k = ld8 (ram h) k).
Proof.
  intros [HM HJ HL HS] Hs Hu Hn. pose proof (mem_split _ _ _ _ _ HM) as Hx. cbv zeta in Hx. destruct Hx as (_ & Zl & _ & _ & _ & Hq & _ & He & _).
  destruct (request_ok size ltac:(lia)) as (Hn1 & Hn4 & _). set (n := request size) in *. pose proof (fuel_ok _ _ HM) as Hf. rewrite length_app in Hf. cbn [length] in Hf.
  destruct h as [m lf sem]. cbn in *. subst sem. unfold mem_malloc. destruct (Z.eqb_spec size 0) as [|_]; [lia|]. fold (request size). fold n.
  destruct (Z.ltb_spec END n); [lia|]. unfold sys_arch_sem_wait. steps. change (1 =? 0) with false. cbv beta iota.
  destruct (used_prefix l 0) as (l0 & r0 & El & _ & E0 & Hr0). assert (lf = stop 0 l0) as Elf.
  { rewrite HL, first_free_app. destruct (forallb snd l) eqn:Ef; [|done]. subst l. destruct r0 as [|[s [] ] r0]; [by rewrite app_nil_r|done|].
    rewrite forallb_app in Ef. cbn in Ef. by rewrite andb_false_r in Ef. }
  subst l. rewrite <- app_assoc in HM. apply Forall_app in Hu as [_ Hu]. rewrite length_app in Hf. rewrite Elf in HL |- *. clear Elf lf.
  rewrite (scan_some _ n sz r _ _ _ r0) by (done || lia).
  destruct (Z.to_nat END - length r0)%nat as [|fuel] eqn:Ef; [lia|]. rewrite app_assoc in HM.
  destruct (scan_take (Z.to_nat END) fuel n (l0 ++ r0) sz r m (stop 0 l0) (1 - 1) HM ltac:(lia) Hn4 ltac:(lia)) as (m' & E & HM' & HD).
  rewrite E. eexists. split; [reflexivity|]. split; [|done]. split; [done|by apply split_joined| |done]. cbn. by apply split_first.
Qed.

(** * mem_free *)

(** A free block of size [sz] joined with a free block behind it. *)
Definition join_size (sz : Z) (r : list block) : Z := match r with (s, false) :: _ => sz + 12 + s | _ => sz end.
Definition join_rest (r : list block) : list block := match r with (s, false) :: r => r | _ => r end.

(** Two neighbours become one free block. *)
Lemma mem_join l s1 u1 s2 u2 r m m' : mem_ok (l ++ (s1, u1) :: (s2, u2) :: r) m -> let q := stop 0 l in let e := q + 12 + s1 + 12 + s2 in
  hdr m' q e (lastp 0 0 l) false -> (r <> [] -> ld32 m' (e + 4) = q) ->
  (forall k, k < q \/ e <= k -> k < e + 4 \/ e + 8 <= k -> ld8 m' k = ld8 m k) ->
  mem_ok (l ++ (s1 + 12 + s2, false) :: r) m' /\ (forall k, ubyte 0 (l ++ (s1 + 12 + s2, false) :: r) k -> ld8 m' k = ld8 m k).
Proof.
  intros HM q e Hh Hp Hk. pose proof (mem_split l s1 u1 _ m HM) as Hx. cbv zeta in Hx.
  destruct Hx as (_ & _ & Zr & Hz1 & Hz1' & _ & _ & _ & _). apply sizes_cons in Zr as [[Hz2 Hz2'] Zr].
  assert (stop q [(s1, u1); (s2, u2)] = e) as Ee by done. split.
  - apply (mem_change l [(s1, u1); (s2, u2)] [(s1 + 12 + s2, false)] r m); fold q; rewrite ?Ee; [done| | |done|done].
    + cbn [seg]. replace (q + 12 + (s1 + 12 + s2)) with e by (unfold e; lia). split; [done|]. split; [lia|]. split; [lia|done].
    + cbn [stop]. unfold e. lia.
  - intros k Hb. apply (data_change l [(s1, u1); (s2, u2)] r m m' HM Hk). fold q. rewrite Ee. apply ubyte_app in Hb as [Hb|[[? _]|Hb]]; [by left|done|].
    fold q in Hb. replace (q + 12 + (s1 + 12 + s2)) with e in Hb by (unfold e; lia). by right.
Qed.

Lemma plug_forward_ok l sz r m lf sem : mem_ok (l ++ (sz, false) :: r) m -> lf <= stop 0 l ->
  exists m', plug_forward END (stop 0 l) (stop 0 l + 12 + sz) (mkHeap m lf sem) = Ret tt (mkHeap m' lf sem)
    /\ mem_ok (l ++ (join_size sz r, false) :: join_rest r) m'
    /\ (forall k, ubyte 0 (l ++ (join_size sz r, false) :: join_rest r) k -> ld8 m' k = ld8 m k).
Proof.
  intros HM Hlf. pose proof (mem_split l sz false r m HM) as Hx. cbv zeta in Hx.
  destruct Hx as ((Hn & Hp & Hu) & Zl & Zr & Hz & Hz4 & Hq & Hq4 & He & HE). set (q := stop 0 l) in *.
  unfold plug_forward. steps. destruct r as [|[s u] r].
  { cbn [stop] in HE. rewrite HE, (mo_end _ _ HM). cbn. rewrite andb_false_r. by exists m. }
  pose proof HM as HM2. change ((sz, false) :: (s, u) :: r) with ([(sz, false)] ++ (s, u) :: r) in HM2. rewrite app_assoc in HM2.
  pose proof (mem_split _ s u r m HM2) as Hx. cbv zeta in Hx. rewrite stop_app in Hx. fold q in Hx. cbn [stop] in Hx.
  destruct Hx as ((Hn2 & Hp2 & Hu2) & _ & Zr' & Hz2 & Hz24 & _ & _ & He2 & HE2). rewrite Hu2. destruct u; [cbn; rewrite andb_false_r; by exists m|].
  destruct (Z.eqb_spec q (q + 12 + sz)); [lia|]. destruct (Z.eqb_spec (q + 12 + sz) END); [lia|]. cbv beta iota delta [negb andb b2z]. change (0 =? 0) with true. cbv beta iota.
  destruct (Z.eqb_spec lf (q + 12 + sz)); [lia|]. cbv beta iota. cells. rewrite Hn2. eexists. split; [reflexivity|]. cbn [join_size join_rest].
  apply (mem_join l sz false s false r m); fold q; [done|header| |]; intros; by cells.
Qed.

Lemma plug_backward_none l sz r m lf sem : mem_ok (l ++ (sz, false) :: r) m -> ends_free false l = false ->
  plug_backward (stop 0 l) (mkHeap m lf sem) = Ret tt (mkHeap m lf sem).
Proof.
  intros HM Hl. pose proof (mem_split l sz false r m HM) as Hx. cbv zeta in Hx. destruct Hx as ((_ & Hp & _) & _).
  unfold plug_backward. steps. rewrite Hp. destruct l as [|[s u] l _] using rev_ind; [done|].
  rewrite ends_free_snoc in Hl. apply negb_false_iff in Hl as ->.
  rewrite <- app_assoc in HM. pose proof (mem_split l s true _ m HM) as Hx. cbv zeta in Hx. destruct Hx as ((_ & _ & Hu) & _).
  rewrite lastp_app. cbn [lastp]. rewrite Hu. cbn. by rewrite andb_false_r.
Qed.

Lemma plug_backward_join l s sz r m lf sem : mem_ok (l ++ (s, false) :: (sz, false) :: r) m -> lf <= stop 0 l ->
  exists m', plug_backward (stop 0 (l ++ [(s, false)])) (mkHeap m lf sem) = Ret tt (mkHeap m' lf sem)
    /\ mem_ok (l ++ (s + 12 + sz, false) :: r) m' /\ (forall k, ubyte 0 (l ++ (s + 12 + sz, false) :: r) k -> ld8 m' k = ld8 m k).
Proof.
  intros HM Hlf. pose proof HM as HM2. change ((s, false) :: (sz, false) :: r) with ([(s, false)] ++ (sz, false) :: r) in HM2. rewrite app_assoc in HM2.
  pose proof (mem_split _ sz false r m HM2) as Hx. cbv zeta in Hx. rewrite stop_app, lastp_app in Hx. rewrite stop_app. set (q := stop 0 l) in *. cbn [stop lastp] in *.
  destruct Hx as ((Hn2 & Hp2 & Hu2) & _ & Zr & Hz2 & Hz24 & Hq2 & _ & He2 & _).
  pose proof (mem_split l s false _ m HM) as Hx. cbv zeta in Hx. fold q in Hx. destruct Hx as ((Hn & Hp & Hu) & Zl & _ & Hz & Hz4 & Hq & Hq4 & He & _).
  unfold plug_backward. steps. rewrite Hp2, Hu. destruct (Z.eqb_spec q (q + 12 + s)); [lia|]. cbv beta iota delta [negb andb b2z]. change (0 =? 0) with true. cbv beta iota.
  destruct (Z.eqb_spec lf (q + 12 + s)); [lia|]. cbv beta iota. cells. rewrite Hn2. eexists. split; [reflexivity|].
  apply (mem_join l s false sz false r m); fold q; [done|header| |]; intros; by cells.
Qed.

(** The blocks after the used block of size [sz] between [l] and [r] is freed. *)
Definition release (l : list block) (sz : Z) (r : list block) : list block :=
  match rev l with
  | (s, false) :: l' => rev l' ++ (s + 12 + join_size sz r, false) :: join_rest r
  | _ => l ++ (join_size sz r, false) :: join_rest r
  end.

Lemma release_used l sz r : ends_free false l = false -> release l sz r = l ++ (join_size sz r, false) :: join_rest r.
Proof.
  unfold release. destruct l as [|[s u] l _] using rev_ind; [done|]. rewrite ends_free_snoc, rev_unit. by destruct u.
Qed.

Lemma release_free l s sz r : release (l ++ [(s, false)]) sz r = l ++ (s + 12 + join_size sz r, false) :: join_rest r.
Proof. unfold release. by rewrite rev_unit, rev_involutive. Qed.

Lemma join_rest_joined r : joined false r = true -> joined true (join_rest r) = true.
Proof. destruct r as [|[s [] ] r]; done. Qed.

Lemma release_joined l sz r : joined false (l ++ (sz, true) :: r) = true -> joined false (release l sz r) = true.
Proof.
  rewrite joined_app. intros Hj. apply andb_true_iff in Hj as [Hl Hr]. cbn in Hr. apply join_rest_joined in Hr.
  destruct (ends_free false l) eqn:Ef.
  - destruct l as [|[s u] l _] using rev_ind; [done|]. rewrite ends_free_snoc in Ef. apply negb_true_iff in Ef as ->. rewrite release_free.
    rewrite joined_app in *. cbn in *. apply andb_true_iff in Hl as [-> Hl]. rewrite andb_true_r in Hl. by rewrite Hl, Hr.
  - rewrite release_used, joined_app, Ef, Hl by done. cbn. done.
Qed.

Lemma release_first l sz r : first_free 0 (release l sz r) = first_free 0 (l ++ (sz, false) :: r).
Proof.
  destruct (ends_free false l) eqn:Ef; [|rewrite release_used by done; apply first_free_same].
  destruct l as [|[s u] l _] using rev_ind; [done|]. rewrite ends_free_snoc in Ef. apply negb_true_iff in Ef as ->.
  rewrite release_free, <- app_assoc. apply first_free_same.
Qed.

(** The data still in use. *)
Lemma release_data l sz r k : ubyte 0 (release l sz r) k -> ubyte 0 l k \/ ubyte (stop 0 l + 12 + sz) r k.
Proof.
  assert (forall p, ubyte (p + 12 + join_size sz r) (join_rest r) k -> ubyte (p + 12 + sz) r k) as Hj.
  { intros p. destruct r as [|[s [] ] r]; cbn; [done|done|]. right. by replace (p + 12 + sz + 12 + s) with (p + 12 + (sz + 12 + s)) by lia. }
  destruct (ends_free false l) eqn:Ef.
  - destruct l as [|[s u] l _] using rev_ind; [done|]. rewrite ends_free_snoc in Ef. apply negb_true_iff in Ef as ->. rewrite release_free, !ubyte_app, stop_app.
    cbn [ubyte stop]. intros [Hk|[[? _]|Hk]]; [tauto|done|]. right. apply Hj.
    by replace (stop 0 l + 12 + s + 12 + join_size sz r) with (stop 0 l + 12 + (s + 12 + join_size sz r)) by lia.
  - rewrite release_used, ubyte_app by done. cbn [ubyte]. intros [Hk|[[? _]|Hk]]; [by left|done|right; by apply Hj].
Qed.

Lemma lowered l sz r : sizes l -> sizes r -> 12 <= sz -> let lf := first_free 0 (l ++ (sz, true) :: r) in
  (if stop 0 l <? lf then stop 0 l else lf) = first_free 0 (l ++ (sz, false) :: r).
Proof.
  intros Hl Hr Hz. cbv zeta. rewrite !first_free_app. cbn [first_free]. pose proof (first_free_range r Hr (stop 0 l + 12 + sz)).
  pose proof (first_free_range l Hl 0). destruct (forallb snd l); match goal with |- context [?a <? ?b] => destruct (Z.ltb_spec a b) end; lia.
Qed.

Lemma plug_holes_ok l sz r m lf sem : mem_ok (l ++ (sz, false) :: r) m -> lf = first_free 0 (l ++ (sz, false) :: r) ->
  exists m', plug_holes END (stop 0 l) (mkHeap m lf sem) = Ret tt (mkHeap m' lf sem)
    /\ mem_ok (release l sz r) m' /\ (forall k, ubyte 0 (release l sz r) k -> ld8 m' k = ld8 m k).
Proof.
  intros HM Hlf. pose proof (mem_split l sz false r m HM) as Hx. cbv zeta in Hx.
  destruct Hx as ((Hn & _ & Hu) & Zl & _ & Hz & _ & Hq & _ & He & _). unfold plug_holes.
  pose proof (first_free_le l sz r Zl 0) as Hle. rewrite <- Hlf in Hle.
  destruct (plug_forward_ok l sz r m lf sem HM Hle) as (m1 & E1 & HM1 & HD1).
  steps. destruct (Z.leb_spec 0 (stop 0 l)); [|lia]. destruct (Z.ltb_spec (stop 0 l) END); [|lia]. rewrite Hu. cbn [b2z]. change (0 =? 0) with true. cbv beta iota.
  rewrite Hn. destruct (Z.leb_spec (stop 0 l + 12 + sz) END); [|lia]. rewrite E1.
  destruct (ends_free false l) eqn:Ef.
  - destruct l as [|[s u] l _] using rev_ind; [done|]. rewrite ends_free_snoc in Ef. apply negb_true_iff in Ef as ->. rewrite release_free.
    rewrite <- app_assoc in *. cbn [app] in *. apply sizes_app in Zl as [Zl _].
    destruct (plug_backward_join l s (join_size sz r) (join_rest r) m1 lf sem HM1) as (m2 & E2 & HM2 & HD2).
    { rewrite Hlf. by apply first_free_le. }
    exists m2. split; [done|]. split; [done|]. intros k Hk. rewrite HD2 by done. apply HD1.
    apply ubyte_app in Hk. apply ubyte_app. destruct Hk as [Hk|[[? _]|Hk]]; [by left|done|]. right. right. right.
    replace (stop 0 l + 12 + s + 12 + join_size sz r) with (stop 0 l + 12 + (s + 12 + join_size sz r)) by lia. done.
  - rewrite release_used by done. exists m1. split; [|done]. by rewrite (plug_backward_none l (join_size sz r) (join_rest r)).
Qed.

Lemma mem_free_ok l sz r h : heap_inv (l ++ (sz, true) :: r) h ->
  exists h', mem_free END (Some (stop 0 l + 12)) h = Ret tt h' /\ heap_inv (release l sz r) h'
    /\ (forall k, ubyte 0 (release l sz r) k -> ld8 (ram h') k = ld8 (ram h) k).
Proof.
  intros [HM HJ HL HS]. destruct h as [m lf sem]. cbn in HM, HL, HS. subst sem. pose proof (mem_split l sz true r m HM) as Hx. cbv zeta in Hx.
  destruct Hx as ((Hn & Hp & Hu) & Zl & Zr & Hz & Hz4 & Hq & Hq4 & He & HE). set (q := stop 0 l) in *.
  assert (forall k, k < q \/ q + 12 + sz <= k -> k < q + 12 + sz + 4 \/ q + 12 + sz + 8 <= k -> ld8 (st8 (q + 8) 0 m) k = ld8 m k) as Hk by (intros; by cells).
  assert (mem_ok (l ++ (sz, false) :: r) (st8 (q + 8) 0 m)) as HM1.
  { apply (mem_change l [(sz, true)] [(sz, false)] r m); fold q; cbn [seg stop lastp]; [done|split; [header|done]|done| |done].
    intros Hr. cells. destruct r as [|[s w] r]; [done|]. destruct HM as [HM _ _]. rewrite !seg_app in HM. by destruct HM as (_ & _ & _ & _ & (_ & HP & _) & _). }
  pose proof (lowered l sz r Zl Zr Hz) as Hlow. cbv zeta in Hlow. fold q in Hlow. rewrite <- HL in Hlow.
  destruct (plug_holes_ok l sz r _ (if q <? lf then q else lf) 0 HM1 Hlow) as (m2 & E2 & HM2 & HD2). fold q in E2.
  exists (mkHeap m2 (if q <? lf then q else lf) 1). split; [|split].
  - unfold mem_free. assert ((Z.land (q + 12) (MEM_ALIGNMENT - 1) =? 0) = true) as ->.
    { change (MEM_ALIGNMENT - 1) with (Z.ones 2). rewrite Z.land_ones by lia. apply Z.eqb_eq. change (2 ^ 2) with 4. lia. }
    destruct (Z.leb_spec 0 (q + 12)); [|lia]. destruct (Z.ltb_spec (q + 12) END); [|lia]. destruct (Z.ltb_spec (q + 12) 0); [lia|]. destruct (Z.leb_spec END (q + 12)); [lia|].
    change SIZEOF_STRUCT_MEM with 12. replace (q + 12 - 12) with q by lia. unfold sys_arch_sem_wait. steps. cbv beta iota delta [andb orb]. change (1 =? 0) with false. cbv beta iota.
    rewrite Hu. change (negb (b2z true =? 0)) with true. cbv beta iota. change (1 - 1) with 0. destruct (q <? lf); cbv beta iota; by rewrite E2.
  - split; [done|by apply release_joined| |done]. cbn. by rewrite release_first.
  - intros k Hb. cbn. rewrite HD2 by done. apply (data_change l [(sz, true)] r m _ HM Hk). by apply release_data.
Qed.

(** * mem_realloc *)

(** The used block of size [sz] before [r], shrunk to [n]. *)
Definition shrink (n sz : Z) (r : list block) : list block :=
  match r with
  | (s, false) :: r' => if n =? sz then (sz, true) :: r else (n, true) :: (s + sz - n, false) :: r'
  | _ => if n + 24 <=? sz then (n, true) :: (sz - n - 12, false) :: r else (sz, true) :: r
  end.

Lemma shrink_joined l n sz r : joined false (l ++ (sz, true) :: r) = true -> joined false (l ++ shrink n sz r) = true.
Proof.
  rewrite !joined_app. intros Hj. apply andb_true_iff in Hj as [-> Hj]. cbn in *. unfold shrink.
  destruct r as [|[s [] ] r]; [by destruct (_ <=? _)|by destruct (_ <=? _)|by destruct (_ =? _)].
Qed.

(** Data of the shrunk block and of the others. *)
Lemma cut_data l sz n mid r m m' : mem_ok (l ++ mid ++ r) m -> let q := stop 0 l in let e := stop q mid in
  q + 12 + n <= e -> (forall k, k < q \/ e <= k -> k < e + 4 \/ e + 8 <= k -> ld8 m' k = ld8 m k) ->
  (forall k, q + 12 <= k < q + 12 + n -> ld8 m' k = ld8 m k) -> q + 12 + n + 12 + sz = e ->
  forall k, ubyte 0 (l ++ (n, true) :: (sz, false) :: r) k -> ld8 m' k = ld8 m k.
Proof.
  intros HM q e Hn Hk Hd He k Hb. apply ubyte_app in Hb as [Hb|[[_ Hb]|[[? _]|Hb]]]; [|by apply Hd|done|].
  - apply (data_change l mid r m m' HM Hk). by left.
  - apply (data_change l mid r m m' HM Hk). right. fold q. fold e. rewrite <- He. done.
Qed.

(** The free block behind is moved. *)
Lemma mem_move l sz s r n m m' : mem_ok (l ++ (sz, true) :: (s, false) :: r) m -> 12 <= n < sz -> n mod 4 = 0 -> let q := stop 0 l in let e := q + 12 + sz + 12 + s in
  hdr m' q (q + 12 + n) (lastp 0 0 l) true -> hdr m' (q + 12 + n) e q false -> (e <> END -> ld32 m' (e + 4) = q + 12 + n) ->
  (forall k, k < q \/ e <= k -> k < e + 4 \/ e + 8 <= k -> ld8 m' k = ld8 m k) ->
  mem_ok (l ++ (n, true) :: (s + sz - n, false) :: r) m'.
Proof.
  intros HM Hn Hn4 q e H1 H2 H3 Hk. pose proof (mem_split l sz true _ m HM) as Hx. cbv zeta in Hx.
  destruct Hx as (_ & Z1 & Z2 & Hz & Hz4 & Hq & Hq4 & He & HE). fold q in Hq, Hq4, He, HE. apply sizes_cons in Z2 as [[Hs Hs4] Z2]. cbn [stop] in HE. fold e in HE.
  apply (mem_change l [(sz, true); (s, false)] [(n, true); (s + sz - n, false)] r m); [done|..]; fold q; cbn [seg stop lastp]; fold e.
  - replace (q + 12 + n + 12 + (s + sz - n)) with e by (unfold e; lia). split_and!; done || lia.
  - unfold e. lia.
  - intros Hr. apply H3. destruct r as [|[s' w] r]; [done|]. cbn [stop] in HE. apply sizes_cons in Z2 as [[? ?] Z2].
    pose proof (stop_le r Z2 (e + 12 + s')). lia.
  - done.
Qed.

Lemma realloc_move_ok l sz s r n m sem : mem_ok (l ++ (sz, true) :: (s, false) :: r) m -> 12 <= n < sz -> n mod 4 = 0 -> let q := stop 0 l in
  let bl := l ++ (n, true) :: (s + sz - n, false) :: r in
  exists m', realloc_move END q (q + 12 + sz) n (mkHeap m (first_free 0 (l ++ (sz, true) :: (s, false) :: r)) sem)
      = Ret tt (mkHeap m' (first_free 0 bl) sem)
    /\ mem_ok bl m' /\ (forall k, ubyte 0 bl k -> ld8 m' k = ld8 m k).
Proof.
  intros HM Hn Hn4 q bl. pose proof (mem_split l sz true _ m HM) as Hx. cbv zeta in Hx. fold q in Hx.
  destruct Hx as ((Hn1 & Hp1 & Hu1) & Zl & Zr & Hz & Hz4 & Hq & Hq4 & He & HE). apply sizes_cons in Zr as [[Hs Hs4] Zr].
  pose proof HM as HM2. change ((sz, true) :: (s, false) :: r) with ([(sz, true)] ++ (s, false) :: r) in HM2. rewrite app_assoc in HM2.
  pose proof (mem_split _ s false r m HM2) as Hx. cbv zeta in Hx. rewrite stop_app in Hx. fold q in Hx. cbn [stop] in Hx.
  destruct Hx as ((Hn2 & _) & _ & _ & _ & _ & _ & _ & He2 & _). unfold realloc_move. change SIZEOF_STRUCT_MEM with 12.
  rewrite (u32_small (q + 12 + n)) by (unfold is_u32; lia). set (lf := first_free 0 (l ++ (sz, true) :: (s, false) :: r)).
  assert ((if lf =? q + 12 + sz then q + 12 + n else lf) = first_free 0 bl) as <-.
  { unfold lf, bl. rewrite !first_free_app. cbn [first_free]. fold q. destruct (forallb snd l); [by rewrite Z.eqb_refl|].
    pose proof (first_free_range l Zl 0) as Hf. fold q in Hf. destruct (Z.eqb_spec (first_free 0 l) (q + 12 + sz)); [lia|done]. }
  set (e := q + 12 + sz + 12 + s) in *. set (m1 := st32 q (q + 12 + n) (st32 (q + 12 + n + 4) q (st32 (q + 12 + n) e (st8 (q + 12 + n + 8) 0 m)))).
  exists (relink e (q + 12 + n) m1). split; [|split].
  - steps. rewrite Hn2. destruct (lf =? q + 12 + sz); cbv beta iota; unfold m1; cells; apply (relink_run _ _ (mkHeap _ _ _)).
  - apply (mem_move l sz s r n m); fold q; fold e; unfold m1; [done|done|done|header|header| |]; intros; unfold e in *; by cells.
  - apply (cut_data l (s + sz - n) n [(sz, true); (s, false)] r m _ HM); fold q; cbn [stop]; fold e; unfold m1, e in *; [lia| | |lia]; intros; by cells.
Qed.

Lemma realloc_cut_ok l sz r n m sem : mem_ok (l ++ (sz, true) :: r) m -> 12 <= n -> n + 24 <= sz -> n mod 4 = 0 -> let q := stop 0 l in
  let bl := l ++ (n, true) :: (sz - n - 12, false) :: r in
  exists m', realloc_cut END q n (mkHeap m (first_free 0 (l ++ (sz, true) :: r)) sem) = Ret tt (mkHeap m' (first_free 0 bl) sem)
    /\ mem_ok bl m' /\ (forall k, ubyte 0 bl k -> ld8 m' k = ld8 m k).
Proof.
  intros HM Hn Hs Hn4 q bl. pose proof (mem_split l sz true _ m HM) as Hx. cbv zeta in Hx. fold q in Hx.
  destruct Hx as ((Hn1 & Hp1 & Hu1) & Zl & Zr & Hz & Hz4 & Hq & Hq4 & He & HE). unfold realloc_cut. change SIZEOF_STRUCT_MEM with 12.
  rewrite (u32_small (q + 12 + n)) by (unfold is_u32; lia). set (lf := first_free 0 (l ++ (sz, true) :: r)).
  assert ((if q + 12 + n <? lf then q + 12 + n else lf) = first_free 0 bl) as <-.
  { unfold lf, bl. rewrite !first_free_app. cbn [first_free]. fold q. pose proof (first_free_range l Zl 0) as Hf. fold q in Hf.
    pose proof (first_free_range r Zr (q + 12 + sz)). destruct (forallb snd l); match goal with |- context [?a <? ?b] => destruct (Z.ltb_spec a b) end; lia. }
  set (m1 := st32 q (q + 12 + n) (st32 (q + 12 + n + 4) q (st32 (q + 12 + n) (q + 12 + sz) (st8 (q + 12 + n + 8) 0 m)))).
  exists (relink (q + 12 + sz) (q + 12 + n) m1). split; [|split].
  - steps. destruct (q + 12 + n <? lf); cbv beta iota; unfold m1; cells; rewrite Hn1; apply (relink_run _ _ (mkHeap _ _ _)).
  - apply (mem_cut l sz true r n m); fold q; unfold m1; [done|done|done|done|header|header| |]; intros; by cells.
  - apply (cut_data l (sz - n - 12) n [(sz, true)] r m _ HM); fold q; cbn [stop]; unfold m1 in *; [lia| | |lia]; intros; by cells.
Qed.

(** [mem_realloc] with its checks passed. *)
Local Ltac realloc_checks q ns := unfold mem_realloc; cbv zeta; fold (request ns); change SIZEOF_STRUCT_MEM with 12; change MIN_SIZE_ALIGNED with 12;
  replace (q + 12 - 12) with q by lia.

Lemma realloc_refused l sz r m lf newsize : mem_ok (l ++ (sz, true) :: r) m -> 0 <= newsize < 2 ^ 32 -> let q := stop 0 l in let h := mkHeap m lf 1 in
  (END < request newsize -> mem_realloc END (q + 12) newsize h = Ret None h)
  /\ (sz < request newsize <= END -> mem_realloc END (q + 12) newsize h = Panic "mem_realloc can only shrink memory" h).
Proof.
  intros HM Hs q h. pose proof (mem_split l sz true _ m HM) as Hx. cbv zeta in Hx. fold q in Hx. destruct Hx as ((Hn1 & _) & _ & _ & Hz & _ & Hq & _ & He & _).
  realloc_checks q newsize. destruct (Z.ltb_spec END (request newsize)); [split; [done|lia]|]. split; [lia|]. intros Hn.
  destruct (Z.leb_spec 0 (q + 12)); [|lia]. destruct (Z.ltb_spec (q + 12) END); [|lia].
  destruct (Z.ltb_spec (q + 12) 0); [lia|]. destruct (Z.leb_spec END (q + 12)); [lia|]. unfold h. steps. cbv beta iota delta [andb orb]. rewrite Hn1.
  rewrite (u32_small (_ - 12)) by (unfold is_u32; lia). destruct (Z.leb_spec (request newsize) (q + 12 + sz - q - 12)); [lia|done].
Qed.

Lemma realloc_equal l sz r m lf newsize : mem_ok (l ++ (sz, true) :: r) m -> request newsize = sz -> let q := stop 0 l in
  mem_realloc END (q + 12) newsize (mkHeap m lf 1) = Ret (Some (q + 12)) (mkHeap m lf 1).
Proof.
  intros HM Hs q. pose proof (mem_split l sz true _ m HM) as Hx. cbv zeta in Hx. fold q in Hx. destruct Hx as ((Hn1 & _) & _ & _ & Hz & _ & Hq & _ & He & _).
  realloc_checks q newsize. rewrite Hs. destruct (Z.ltb_spec END sz); [lia|].
  destruct (Z.leb_spec 0 (q + 12)); [|lia]. destruct (Z.ltb_spec (q + 12) END); [|lia].
  destruct (Z.ltb_spec (q + 12) 0); [lia|]. destruct (Z.leb_spec END (q + 12)); [lia|]. steps. cbv beta iota delta [andb orb]. rewrite Hn1.
  rewrite (u32_small (_ - 12)) by (unfold is_u32; lia). replace (q + 12 + sz - q - 12) with sz by lia.
  by rewrite Z.leb_refl, Z.ltb_irrefl, Z.eqb_refl.
Qed.

Lemma realloc_shrink l sz r m newsize : mem_ok (l ++ (sz, true) :: r) m -> 0 <= newsize < 2 ^ 32 -> request newsize < sz ->
  let q := stop 0 l in let n := request newsize in
  exists m', mem_realloc END (q + 12) newsize (mkHeap m (first_free 0 (l ++ (sz, true) :: r)) 1)
      = Ret (Some (q + 12)) (mkHeap m' (first_free 0 (l ++ shrink n sz r)) 1)
    /\ mem_ok (l ++ shrink n sz r) m' /\ (forall k, ubyte 0 (l ++ shrink n sz r) k -> ld8 m' k = ld8 m k).
Proof.
  intros HM Hs Hlt q n. pose proof (mem_split l sz true _ m HM) as Hx. cbv zeta in Hx. fold q in Hx.
  destruct Hx as ((Hn1 & Hp1 & Hu1) & Zl & Zr & Hz & Hz4 & Hq & Hq4 & He & HE). destruct (request_ok newsize Hs) as (Hn & Hn4 & _).
  realloc_checks q newsize. fold n in Hn, Hn4, Hlt |- *. destruct (Z.ltb_spec END n); [lia|].
  destruct (Z.leb_spec 0 (q + 12)); [|lia]. destruct (Z.ltb_spec (q + 12) END); [|lia].
  destruct (Z.ltb_spec (q + 12) 0); [lia|]. destruct (Z.leb_spec END (q + 12)); [lia|]. unfold sys_arch_sem_wait. steps. cbv beta iota delta [andb orb].
  rewrite Hn1, (u32_small (q + 12 + sz - q - 12)), (u32_small (n + 12 + 12)) by (unfold is_u32; lia).
  replace (q + 12 + sz - q - 12) with sz by lia. destruct (Z.leb_spec n sz); [|lia]. cbv beta iota. destruct (Z.ltb_spec sz n); [lia|]. destruct (Z.eqb_spec n sz) as [|Hne]; [lia|].
  change (1 =? 0) with false. change (1 - 1) with 0. cbv beta iota. rewrite Hn1. replace (n + 12 + 12) with (n + 24) by lia. unfold shrink.
  assert ((r = [] /\ q + 12 + sz = END) \/ exists s u r', r = (s, u) :: r' /\ ld8 m (q + 12 + sz + 8) = b2z u) as Hr.
  { destruct r as [|[s u] r']; [by left|]. right. exists s, u, r'. split; [done|]. destruct HM as [HM _ _]. rewrite seg_app in HM. by destruct HM as (_ & _ & _ & _ & (_ & _ & HU) & _). }
  destruct Hr as [[-> Hr]|(s & [] & r' & -> & Hu)]; [|rewrite Hu..].
  - rewrite Hr, (mo_end _ _ HM). change (1 =? 0) with false. cbv iota. destruct (Z.leb_spec (n + 24) sz); [|by exists m].
    destruct (realloc_cut_ok l sz [] n m 0 HM) as (m' & E & HC); [done..|]. fold q in E. rewrite E. by exists m'.
  - change (b2z true =? 0) with false. cbv iota. destruct (Z.leb_spec (n + 24) sz); [|by exists m].
    destruct (realloc_cut_ok l sz _ n m 0 HM) as (m' & E & HC); [done..|]. fold q in E. rewrite E. by exists m'.
  - change (b2z false =? 0) with true. cbv iota. destruct (Z.eqb_spec n sz); [lia|].
    destruct (realloc_move_ok l sz s r' n m 0 HM ltac:(lia) Hn4) as (m2 & E2 & HC2). fold q in E2. rewrite E2. by exists m2.
Qed.

(** * The other operations *)

Lemma mem_init_ok h : exists h', mem_init END h = Ret tt h' /\ heap_inv [(END - 12, false)] h'.
Proof.
  destruct h as [m lf sem]. unfold mem_init. steps. eexists. split; [reflexivity|]. split; [|done|done|done]. split; cbn [seg stop ram].
  - split; [|split; [lia|split; [lia|done]]]. replace (0 + 12 + (END - 12)) with END by lia. header.
  - lia.
  - by cells.
Qed.

(** A program that writes its own data does not touch the heap. *)
Lemma user_write bl h m' : heap_inv bl h -> (forall k, ~ ubyte 0 bl k -> ld8 m' k = ld8 (ram h) k) -> heap_inv bl (set_ram m' h).
Proof.
  intros [[HS HE HU] HJ HL Hs] Hk. pose proof (seg_sizes _ _ _ _ HS) as Hz. split; [|done|done|done]. cbn [set_ram ram]. split; [|done|].
  - apply (seg_frame (ram h)); [|done]. intros k Hh. apply Hk. intros Hu. by apply (ubyte_hbyte bl k Hz 0).
  - rewrite Hk; [done|]. intros Hu. apply ubyte_bound in Hu; [|done]. lia.
Qed.

Lemma mem_calloc_some l sz r h count size : heap_inv (l ++ (sz, false) :: r) h -> let total := u32 (count * size) in
  0 < total <= 2 ^ 32 - 4 -> Forall (unfit (request total)) l -> request total <= sz ->
  exists h', mem_calloc END count size h = Ret (Some (stop 0 l + 12)) h' /\ heap_inv (l ++ split (request total) sz ++ r) h'
    /\ (forall k, ubyte 0 (l ++ (sz, false) :: r) k -> ld8 (ram h') k = ld8 (ram h) k)
    /\ (forall k, stop 0 l + 12 <= k < stop 0 l + 12 + total -> ld8 (ram h') k = 0).
Proof.
  intros HI total Ht Hu Hn. destruct (mem_malloc_some l sz r h total HI ltac:(lia) Hu Hn) as (h1 & E & HI1 & HD).
  destruct (request_ok total ltac:(lia)) as (Hr & Hr4 & Hle). specialize (Hle ltac:(lia)). destruct (split_head (request total) sz ltac:(lia)) as (sz' & rest & Es & Hsz).
  unfold mem_calloc. fold total. rewrite (bind_ret _ _ _ _ _ E). steps. eexists. split; [reflexivity|].
  pose proof (mem_split _ _ _ _ _ (hi_mem _ _ HI)) as Hx. cbv zeta in Hx. destruct Hx as (_ & Zl & Zr & Hz & _ & Hq & _ & He & _).
  assert (forall k, (stop 0 l + 12 <=? k) && (k <? stop 0 l + 12 + Z.of_nat (Z.to_nat total)) = true -> stop 0 l + 12 <= k < stop 0 l + 12 + total) as Hb
    by (intros k Hk; apply andb_true_iff in Hk as [H1%Z.leb_le H2%Z.ltb_lt]; lia).
  split; [|split].
  - apply (user_write _ h1 _ HI1). intros k Hk. rewrite ld8_fill. destruct (_ && _) eqn:Ek; [|done]. apply Hb in Ek. exfalso. apply Hk.
    apply ubyte_app. right. rewrite Es. left. split; [done|]. lia.
  - intros k Hk. cbn. rewrite ld8_fill, <- HD by done. destruct (_ && _) eqn:Ek; [|done]. apply Hb in Ek. exfalso.
    apply ubyte_app in Hk as [Hk|[[? _]|Hk]]; [apply ubyte_bound in Hk; [lia|done]|done|apply ubyte_bound in Hk; [lia|done]].
  - intros k Hk. cbn. rewrite ld8_fill. destruct (Z.leb_spec (stop 0 l + 12) k); [|lia]. destruct (Z.ltb_spec k (stop 0 l + 12 + Z.of_nat (Z.to_nat total))); [done|lia].
Qed.

End Heap.

(** Freeing what was just allocated gives back the blocks. *)
Lemma release_split l n sz r : joined false (l ++ (sz, false) :: r) = true -> 12 <= n <= sz ->
  match split n sz ++ r with (sz', _) :: r' => release l sz' r' | [] => [] end = l ++ (sz, false) :: r.
Proof.
  rewrite joined_app. intros Hj Hn. apply andb_true_iff in Hj as [Hl Hj]. cbn in Hj. apply andb_true_iff in Hj as [He Hr]. apply negb_true_iff in He.
  unfold split. destruct (n + 24 <=? sz); cbn [app]; rewrite release_used by done.
  - cbn [join_size join_rest]. by replace (n + 12 + (sz - n - 12)) with sz by lia.
  - by destruct r as [|[s [] ] r].
Qed.

(** Where a request is served, or why not. *)
Lemma fit_cases n (bl : list block) : Forall (unfit n) bl \/ exists l sz r, bl = l ++ (sz, false) :: r /\ Forall (unfit n) l /\ n <= sz.
Proof.
  induction bl as [|[s u] bl IH]; [by left|].
  assert (unfit n (s, u) \/ (u = false /\ n <= s)) as [Hu|[-> Hs]] by (unfold unfit; cbn; destruct u; [by left; left|]; destruct (Z.lt_ge_cases s n); [by left; right|by right]).
  - destruct IH as [IH|(l & sz & r & -> & Hl & Hn)]; [left; by constructor|]. right. exists ((s, u) :: l), sz, r. split; [done|]. split; [by constructor|done].
  - right. exists [], s, bl. split; [done|]. split; [constructor|lia].
Qed.

(** * The properties *)

(** What a configuration has to provide. *)
Definition heap_size (END : Z) : Prop := 24 <= END /\ END mod 4 = 0 /\ END < 2 ^ 31.

Definition jos_end : Z := LWIP_MEM_ALIGN_SIZE MEM_SIZE.

Lemma jos_heap_size : heap_size jos_end.
Proof. split; [discriminate|]. split; reflexivity. Qed.

(** C21: [mem_malloc] is first fit and total. It serves a request from the first
    free block, in the order of addresses, that can hold it, cutting off the
    rest when that can hold a block; the bytes of all blocks in use stay as
    they were. It returns NULL, and changes nothing, exactly if the request
    is empty or no free block can hold it. No assertion fails and no loop
    runs on. The block is as large as asked for, unless the size is within
    3 of 2^32, when it wraps around. *)
Theorem mem_malloc_correct END bl h size : heap_size END -> heap_inv END bl h -> 0 <= size < 2 ^ 32 ->
  let n := request size in
  (size <= 2 ^ 32 - 4 -> size <= n)
  /\ (((size = 0 \/ END < n \/ Forall (unfit n) bl) /\ mem_malloc END size h = Ret None h)
      \/ exists l sz r h', bl = l ++ (sz, false) :: r /\ Forall (unfit n) l /\ n <= sz
         /\ mem_malloc END size h = Ret (Some (stop 0 l + 12)) h' /\ heap_inv END (l ++ split n sz ++ r) h'
         /\ (forall k, ubyte 0 bl k -> ld8 (ram h') k = ld8 (ram h) k)).
Proof.
  intros (HE1 & HE2 & HE3) HI Hs n. split; [by apply request_ok|].
  destruct (Z.eq_dec size 0) as [H0|H0]; [left; split; [auto|]; apply (mem_malloc_none END HE1 HE2 HE3 bl h size HI Hs); auto|].
  destruct (fit_cases n bl) as [Hf|(l & sz & r & -> & Hl & Hn)].
  - left. split; [auto|]. apply (mem_malloc_none END HE1 HE2 HE3 bl h size HI Hs). auto.
  - right. destruct (mem_malloc_some END HE1 HE2 HE3 l sz r h size HI ltac:(lia) Hl Hn) as (h' & E & HI' & HD). exists l, sz, r, h'. done.
Qed.

Lemma jos_heap : exists h, mem_init jos_end (mkHeap ∅ 0 0) = Ret tt h /\ heap_inv jos_end [(jos_end - 12, false)] h.
Proof. destruct jos_heap_size as (H1 & H2 & H3). by apply mem_init_ok. Qed.

Lemma mem_malloc_correct_witness : exists h, heap_inv jos_end [(jos_end - 12, false)] h /\
  exists h', mem_malloc jos_end 1000 h = Ret (Some 12) h' /\ heap_inv jos_end [(1000, true); (jos_end - 12 - 1000 - 12, false)] h'.
Proof.
  destruct jos_heap as (h & _ & HI). exists h. split; [exact HI|].
  destruct (mem_malloc_correct jos_end _ h 1000 jos_heap_size HI ltac:(lia)) as [_ [[[Hf|[Hf|Hf]] _]|(l & sz & r & h' & Eb & Hl & Hn & E & HI' & _)]].
  - discriminate.
  - discriminate.
  - apply Forall_cons in Hf as [[Hf|Hf] _]; discriminate.
  - destruct l as [|x l]; [|destruct l; discriminate]. injection Eb as <- <-. exists h'. exact (conj E HI').
Defined.

(** [mem_free] of a block in use frees it and joins it with the free blocks
    next to it; the bytes of the blocks still in use stay as they were. *)
Lemma mem_free_correct END l sz r h : heap_size END -> heap_inv END (l ++ (sz, true) :: r) h ->
  exists h', mem_free END (Some (stop 0 l + 12)) h = Ret tt h' /\ heap_inv END (release l sz r) h'
    /\ (forall k, ubyte 0 (release l sz r) k -> ld8 (ram h') k = ld8 (ram h) k).
Proof. intros (HE1 & HE2 & HE3) HI. by apply mem_free_ok. Qed.

(** C22: freeing what was just allocated restores the heap's blocks exactly, so
    that pairs of [mem_malloc] and [mem_free] do not fragment it. *)
Theorem mem_malloc_free END bl h size p h' : heap_size END -> heap_inv END bl h -> 0 <= size < 2 ^ 32 ->
  mem_malloc END size h = Ret (Some p) h' -> exists h'', mem_free END (Some p) h' = Ret tt h'' /\ heap_inv END bl h''.
Proof.
  intros (HE1 & HE2 & HE3) HI Hs E. destruct (fit_cases (request size) bl) as [Hf|(l & sz & r & -> & Hl & Hn)].
  { rewrite (mem_malloc_none END HE1 HE2 HE3 bl h size HI Hs) in E by auto. discriminate. }
  destruct (Z.eq_dec size 0) as [->|H0]; [discriminate|].
  destruct (mem_malloc_some END HE1 HE2 HE3 l sz r h size HI ltac:(lia) Hl Hn) as (h1 & E1 & HI1 & _). rewrite E1 in E. injection E as <- <-.
  destruct (request_ok size Hs) as (Hr & _). destruct (split_head (request size) sz ltac:(lia)) as (sz' & rest & Es & _).
  pose proof (release_split l (request size) sz r (hi_joined _ _ _ HI) ltac:(lia)) as Hrel. rewrite Es in *. cbn [app] in *.
  destruct (mem_free_ok END HE2 HE3 l sz' (rest ++ r) h1 HI1) as (h2 & E2 & HI2 & _). exists h2. by rewrite <- Hrel.
Qed.

Lemma mem_malloc_free_witness : exists h h', mem_malloc jos_end 1000 h = Ret (Some 12) h' /\
  exists h'', mem_free jos_end (Some 12) h' = Ret tt h'' /\ heap_inv jos_end [(jos_end - 12, false)] h''.
Proof.
  destruct jos_heap as (h & _ & HI). exists h. destruct jos_heap_size as (H1 & H2 & H3).
  destruct (mem_malloc_some jos_end H1 H2 H3 [] (jos_end - 12) [] h 1000 HI ltac:(lia) (Forall_nil_2 _) ltac:(vm_compute; discriminate)) as (h' & E & _).
  exists h'. split; [exact E|]. apply (mem_malloc_free jos_end _ h 1000 12 h' jos_heap_size HI); [lia|exact E].
Defined.

(** C23: [mem_realloc] of a block in use shrinks it in place: the free block
    behind it grows, or the rest becomes a block of its own if it is large
    enough, or nothing happens; the bytes kept and those of the other blocks
    stay as they were. A size the heap can never have gives NULL, any other
    larger size fails the assertion instead of the NULL the comment
    promises. *)
Theorem mem_realloc_correct END l sz r h newsize : heap_size END -> heap_inv END (l ++ (sz, true) :: r) h -> 0 <= newsize < 2 ^ 32 ->
  let n := request newsize in let p := stop 0 l + 12 in
  (END < n -> mem_realloc END p newsize h = Ret None h)
  /\ (sz < n <= END -> mem_realloc END p newsize h = Panic "mem_realloc can only shrink memory" h)
  /\ (n <= sz -> exists h', mem_realloc END p newsize h = Ret (Some p) h' /\ heap_inv END (l ++ shrink n sz r) h'
       /\ (forall k, ubyte 0 (l ++ shrink n sz r) k -> ld8 (ram h') k = ld8 (ram h) k)).
Proof.
  intros (HE1 & HE2 & HE3) HI Hs n p. destruct h as [m lf sem]. pose proof HI as [HM HJ HL HS]. cbn in HM, HL, HS. subst lf sem.
  destruct (realloc_refused END HE2 HE3 l sz r m (first_free 0 (l ++ (sz, true) :: r)) newsize HM Hs) as [R1 R2].
  split; [done|]. split; [done|]. intros Hn. destruct (Z.eq_dec n sz) as [E|E].
  - eexists. split; [by apply (realloc_equal END HE2 HE3 l sz r)|].
    assert (shrink n sz r = (sz, true) :: r) as ->; [|done].
    unfold shrink. destruct r as [|[s [] ] r]; [destruct (Z.leb_spec (n + 24) sz); [lia|done]..|]. rewrite E. by rewrite Z.eqb_refl.
  - destruct (realloc_shrink END HE2 HE3 l sz r m newsize HM Hs) as (m' & E' & HM' & HD); [unfold n in *; lia|].
    eexists. split; [exact E'|]. split; [|done]. split; [done|by apply shrink_joined|done|done].
Qed.

Lemma mem_realloc_correct_witness : exists h h', mem_malloc jos_end 1000 h = Ret (Some 12) h' /\
  exists h'', mem_realloc jos_end 12 500 h' = Ret (Some 12) h'' /\ heap_inv jos_end [(500, true); (jos_end - 12 - 500 - 12, false)] h''.
Proof.
  destruct jos_heap as (h & _ & HI). exists h. destruct jos_heap_size as (H1 & H2 & H3).
  destruct (mem_malloc_some jos_end H1 H2 H3 [] (jos_end - 12) [] h 1000 HI ltac:(lia) (Forall_nil_2 _) ltac:(vm_compute; discriminate)) as (h' & E & HI' & _).
  exists h'. split; [exact E|].
  destruct (mem_realloc_correct jos_end [] 1000 [(jos_end - 12 - 1000 - 12, false)] h' 500 jos_heap_size HI' ltac:(lia)) as (_ & _ & Hr).
  destruct (Hr ltac:(vm_compute; discriminate)) as (h'' & E2 & HI'' & _). exists h''. exact (conj E2 HI'').
Defined.
