(* ===== verification/KState.v ===== *)
(** The kernel's state: the data structures of inc/memlayout.h, inc/env.h,
    inc/trap.h and kern/cpu.h, the globals of kern/pmap.c and kern/env.c, and
    the machine underneath (physical memory as 32-bit words, the page table
    base register and the translation cache of the running CPU). *)

From stdpp Require Import base numbers list gmap strings.
From Stdlib Require Import ZArith Lia Bool.
From S2P Require Import Prelude Mmu Console E1000.

(** * Data structures *)

(** [struct PageInfo]; a [struct PageInfo *] is an index into [pages], and
    NULL is [None]. *)
Record PageInfo := mkPageInfo { pp_link : option Z; pp_ref : Z }.
Definition page0 : PageInfo := mkPageInfo None 0.

Record PushRegs := mkRegs {
  reg_edi : Z; reg_esi : Z; reg_ebp : Z; reg_oesp : Z;
  reg_ebx : Z; reg_edx : Z; reg_ecx : Z; reg_eax : Z
}.

Record Trapframe := mkTf {
  tf_regs : PushRegs;
  tf_es : Z; tf_ds : Z; tf_trapno : Z; tf_err : Z; tf_eip : Z;
  tf_cs : Z; tf_eflags : Z; tf_esp : Z; tf_ss : Z
}.

Definition regs0 : PushRegs := mkRegs 0 0 0 0 0 0 0 0.
Definition tf0 : Trapframe := mkTf regs0 0 0 0 0 0 0 0 0 0.

(** Values of [env_status]. *)
Inductive EnvStatus := ENV_FREE | ENV_DYING | ENV_RUNNABLE | ENV_RUNNING | ENV_NOT_RUNNABLE.

#[export] Instance EnvStatus_eq_dec : EqDecision EnvStatus.
Proof. solve_decision. Defined.

Definition status_Z (st : EnvStatus) : Z :=
  match st with
  | ENV_FREE => 0 | ENV_DYING => 1 | ENV_RUNNABLE => 2 | ENV_RUNNING => 3 | ENV_NOT_RUNNABLE => 4
  end.

Definition status_eqb (a b : EnvStatus) : bool := bool_decide (a = b).

Inductive EnvType := ENV_TYPE_USER | ENV_TYPE_FS | ENV_TYPE_NS.

#[export] Instance EnvType_eq_dec : EqDecision EnvType.
Proof. solve_decision. Defined.

(** [struct Env]; a [struct Env *] is an index into [envs]. [env_pgdir] is
    the kernel virtual address of the page directory, 0 for NULL. *)
Record Env := mkEnv {
  env_tf : Trapframe;
  env_link : option Z;
  env_id : Z;
  env_parent_id : Z;
  env_type : EnvType;
  env_status : EnvStatus;
  env_runs : Z;
  env_cpunum : Z;
  env_pgdir : Z;
  env_pgfault_upcall : Z;
  env_ipc_recving : bool;
  env_ipc_dstva : Z;
  env_ipc_value : Z;
  env_ipc_from : Z;
  env_ipc_perm : Z
}.

(** An all-zero [struct Env], what [memset] leaves in [envs]. *)
Definition env0 : Env := mkEnv tf0 None 0 0 ENV_TYPE_USER ENV_FREE 0 0 0 0 false 0 0 0 0.

Inductive CpuStatus := CPU_UNUSED | CPU_STARTED | CPU_HALTED.
Record CpuInfo := mkCpu { cpu_status : CpuStatus; cpu_env : option Z }.
Definition cpu0 : CpuInfo := mkCpu CPU_UNUSED None.

Definition LOG2NENV : Z := 10.
Definition NENV : Z := Z.shiftl 1 LOG2NENV.
Definition ENVX (envid : Z) : Z := Z.land envid (NENV - 1).
Definition NCPU : Z := 8.

(** * The machine and the kernel's globals *)

Record kstate := mkK {
  npages : Z;
  npages_basemem : Z;
  nextfree : Z;                    (* boot_alloc's static, a kernel address *)
  pages : gmap Z PageInfo;
  page_free_list : option Z;
  mem : gmap Z Z;                  (* physical word address -> 32-bit word *)
  kern_pgdir : Z;                  (* kernel virtual address *)
  cr3 : Z;
  tlb : gmap Z Z;                  (* virtual page number -> cached PTE *)
  mmio_base : Z;                   (* mmio_map_region's static *)
  envs : gmap Z Env;
  env_free_list : option Z;
  cpus : gmap Z CpuInfo;
  cpu : Z;                         (* cpunum() *)
  kernel_locked : bool;            (* kernel_lock.locked *)
  user_mem_check_addr : Z;
  ticks : Z;
  con : console;
  nic : e1000
}.

Abbreviation K := (M kstate).

Definition set_nextfree (x : Z) (s : kstate) : kstate :=
  mkK (npages s) (npages_basemem s) x (pages s) (page_free_list s) (mem s) (kern_pgdir s) (cr3 s)
    (tlb s) (mmio_base s) (envs s) (env_free_list s) (cpus s) (cpu s) (kernel_locked s)
    (user_mem_check_addr s) (ticks s) (con s) (nic s).
Definition set_pages (x : gmap Z PageInfo) (s : kstate) : kstate :=
  mkK (npages s) (npages_basemem s) (nextfree s) x (page_free_list s) (mem s) (kern_pgdir s) (cr3 s)
    (tlb s) (mmio_base s) (envs s) (env_free_list s) (cpus s) (cpu s) (kernel_locked s)
    (user_mem_check_addr s) (ticks s) (con s) (nic s).
Definition set_free (x : option Z) (s : kstate) : kstate :=
  mkK (npages s) (npages_basemem s) (nextfree s) (pages s) x (mem s) (kern_pgdir s) (cr3 s)
    (tlb s) (mmio_base s) (envs s) (env_free_list s) (cpus s) (cpu s) (kernel_locked s)
    (user_mem_check_addr s) (ticks s) (con s) (nic s).
Definition set_mem (x : gmap Z Z) (s : kstate) : kstate :=
  mkK (npages s) (npages_basemem s) (nextfree s) (pages s) (page_free_list s) x (kern_pgdir s) (cr3 s)
    (tlb s) (mmio_base s) (envs s) (env_free_list s) (cpus s) (cpu s) (kernel_locked s)
    (user_mem_check_addr s) (ticks s) (con s) (nic s).
Definition set_cr3 (x : Z) (t : gmap Z Z) (s : kstate) : kstate :=
  mkK (npages s) (npages_basemem s) (nextfree s) (pages s) (page_free_list s) (mem s) (kern_pgdir s) x
    t (mmio_base s) (envs s) (env_free_list s) (cpus s) (cpu s) (kernel_locked s)
    (user_mem_check_addr s) (ticks s) (con s) (nic s).
Definition set_kern_pgdir (x : Z) (s : kstate) : kstate :=
  mkK (npages s) (npages_basemem s) (nextfree s) (pages s) (page_free_list s) (mem s) x (cr3 s)
    (tlb s) (mmio_base s) (envs s) (env_free_list s) (cpus s) (cpu s) (kernel_locked s)
    (user_mem_check_addr s) (ticks s) (con s) (nic s).
Definition set_mmio_base (x : Z) (s : kstate) : kstate :=
  mkK (npages s) (npages_basemem s) (nextfree s) (pages s) (page_free_list s) (mem s) (kern_pgdir s) (cr3 s)
    (tlb s) x (envs s) (env_free_list s) (cpus s) (cpu s) (kernel_locked s)
    (user_mem_check_addr s) (ticks s) (con s) (nic s).
Definition set_npages (x b : Z) (s : kstate) : kstate :=
  mkK x b (nextfree s) (pages s) (page_free_list s) (mem s) (kern_pgdir s) (cr3 s)
    (tlb s) (mmio_base s) (envs s) (env_free_list s) (cpus s) (cpu s) (kernel_locked s)
    (user_mem_check_addr s) (ticks s) (con s) (nic s).
Definition set_envs (x : gmap Z Env) (s : kstate) : kstate :=
  mkK (npages s) (npages_basemem s) (nextfree s) (pages s) (page_free_list s) (mem s) (kern_pgdir s) (cr3 s)
    (tlb s) (mmio_base s) x (env_free_list s) (cpus s) (cpu s) (kernel_locked s)
    (user_mem_check_addr s) (ticks s) (con s) (nic s).
Definition set_env_free (x : option Z) (s : kstate) : kstate :=
  mkK (npages s) (npages_basemem s) (nextfree s) (pages s) (page_free_list s) (mem s) (kern_pgdir s) (cr3 s)
    (tlb s) (mmio_base s) (envs s) x (cpus s) (cpu s) (kernel_locked s)
    (user_mem_check_addr s) (ticks s) (con s) (nic s).
Definition set_cpus (x : gmap Z CpuInfo) (s : kstate) : kstate :=
  mkK (npages s) (npages_basemem s) (nextfree s) (pages s) (page_free_list s) (mem s) (kern_pgdir s) (cr3 s)
    (tlb s) (mmio_base s) (envs s) (env_free_list s) x (cpu s) (kernel_locked s)
    (user_mem_check_addr s) (ticks s) (con s) (nic s).
Definition set_locked (x : bool) (s : kstate) : kstate :=
  mkK (npages s) (npages_basemem s) (nextfree s) (pages s) (page_free_list s) (mem s) (kern_pgdir s) (cr3 s)
    (tlb s) (mmio_base s) (envs s) (env_free_list s) (cpus s) (cpu s) x
    (user_mem_check_addr s) (ticks s) (con s) (nic s).
Definition set_check_addr (x : Z) (s : kstate) : kstate :=
  mkK (npages s) (npages_basemem s) (nextfree s) (pages s) (page_free_list s) (mem s) (kern_pgdir s) (cr3 s)
    (tlb s) (mmio_base s) (envs s) (env_free_list s) (cpus s) (cpu s) (kernel_locked s)
    x (ticks s) (con s) (nic s).
Definition set_ticks (x : Z) (s : kstate) : kstate :=
  mkK (npages s) (npages_basemem s) (nextfree s) (pages s) (page_free_list s) (mem s) (kern_pgdir s) (cr3 s)
    (tlb s) (mmio_base s) (envs s) (env_free_list s) (cpus s) (cpu s) (kernel_locked s)
    (user_mem_check_addr s) x (con s) (nic s).
Definition set_con (x : console) (s : kstate) : kstate :=
  mkK (npages s) (npages_basemem s) (nextfree s) (pages s) (page_free_list s) (mem s) (kern_pgdir s) (cr3 s)
    (tlb s) (mmio_base s) (envs s) (env_free_list s) (cpus s) (cpu s) (kernel_locked s)
    (user_mem_check_addr s) (ticks s) x (nic s).
Definition set_nic (x : e1000) (s : kstate) : kstate :=
  mkK (npages s) (npages_basemem s) (nextfree s) (pages s) (page_free_list s) (mem s) (kern_pgdir s) (cr3 s)
    (tlb s) (mmio_base s) (envs s) (env_free_list s) (cpus s) (cpu s) (kernel_locked s)
    (user_mem_check_addr s) (ticks s) (con s) x.

(** * Accessors *)

Definition page_of (s : kstate) (i : Z) : PageInfo := mget page0 (pages s) i.
Definition env_of (s : kstate) (i : Z) : Env := mget env0 (envs s) i.
Definition cpu_of (s : kstate) (i : Z) : CpuInfo := mget cpu0 (cpus s) i.
Definition word_at (s : kstate) (w : Z) : Z := mget 0 (mem s) w.

(** [curenv] is [thiscpu->cpu_env]. *)
Definition curenv (s : kstate) : option Z := cpu_env (cpu_of s (cpu s)).

Definition put_page (i : Z) (p : PageInfo) (s : kstate) : kstate :=
  set_pages (<[i := p]> (pages s)) s.
Definition put_env (i : Z) (e : Env) (s : kstate) : kstate :=
  set_envs (<[i := e]> (envs s)) s.
Definition put_cpu (i : Z) (c : CpuInfo) (s : kstate) : kstate :=
  set_cpus (<[i := c]> (cpus s)) s.
Definition set_curenv (e : option Z) (s : kstate) : kstate :=
  put_cpu (cpu s) (mkCpu (cpu_status (cpu_of s (cpu s))) e) s.

(** Loads and stores of a 32-bit word at a kernel virtual address: the
    kernel maps physical address [pa] at [KERNBASE + pa]. *)
Definition kva_word (kva : Z) : Z := u32 (kva - KERNBASE) / 4.
Definition load32 (kva : Z) (s : kstate) : Z := word_at s (kva_word kva).
Definition store32 (kva v : Z) : K unit :=
  modify (fun s => set_mem (<[kva_word kva := u32 v]> (mem s)) s).

(** [lcr3] loads the page table base and empties the translation cache;
    [invlpg] drops one page's entry. *)
Definition lcr3 (pa : Z) : K unit := modify (set_cr3 pa ∅).
Definition invlpg (va : Z) : K unit :=
  modify (fun s => set_cr3 (cr3 s) (delete (PGNUM va) (tlb s)) s).

(** * Field updates of [struct Env] and [struct Trapframe] *)

Definition e_tf (x : Trapframe) (e : Env) : Env :=
  mkEnv x (env_link e) (env_id e) (env_parent_id e) (env_type e) (env_status e) (env_runs e)
    (env_cpunum e) (env_pgdir e) (env_pgfault_upcall e) (env_ipc_recving e) (env_ipc_dstva e)
    (env_ipc_value e) (env_ipc_from e) (env_ipc_perm e).
Definition e_link (x : option Z) (e : Env) : Env :=
  mkEnv (env_tf e) x (env_id e) (env_parent_id e) (env_type e) (env_status e) (env_runs e) (env_cpunum
    e) (env_pgdir e) (env_pgfault_upcall e) (env_ipc_recving e) (env_ipc_dstva e) (env_ipc_value e)
    (env_ipc_from e) (env_ipc_perm e).
Definition e_id (x : Z) (e : Env) : Env :=
  mkEnv (env_tf e) (env_link e) x (env_parent_id e) (env_type e) (env_status e) (env_runs e)
    (env_cpunum e) (env_pgdir e) (env_pgfault_upcall e) (env_ipc_recving e) (env_ipc_dstva e)
    (env_ipc_value e) (env_ipc_from e) (env_ipc_perm e).
Definition e_parent (x : Z) (e : Env) : Env :=
  mkEnv (env_tf e) (env_link e) (env_id e) x (env_type e) (env_status e) (env_runs e) (env_cpunum e)
    (env_pgdir e) (env_pgfault_upcall e) (env_ipc_recving e) (env_ipc_dstva e) (env_ipc_value e)
    (env_ipc_from e) (env_ipc_perm e).
Definition e_type (x : EnvType) (e : Env) : Env :=
  mkEnv (env_tf e) (env_link e) (env_id e) (env_parent_id e) x (env_status e) (env_runs e) (env_cpunum
    e) (env_pgdir e) (env_pgfault_upcall e) (env_ipc_recving e) (env_ipc_dstva e) (env_ipc_value e)
    (env_ipc_from e) (env_ipc_perm e).
Definition e_status (x : EnvStatus) (e : Env) : Env :=
  mkEnv (env_tf e) (env_link e) (env_id e) (env_parent_id e) (env_type e) x (env_runs e) (env_cpunum
    e) (env_pgdir e) (env_pgfault_upcall e) (env_ipc_recving e) (env_ipc_dstva e) (env_ipc_value e)
    (env_ipc_from e) (env_ipc_perm e).
Definition e_runs (x : Z) (e : Env) : Env :=
  mkEnv (env_tf e) (env_link e) (env_id e) (env_parent_id e) (env_type e) (env_status e) x (env_cpunum
    e) (env_pgdir e) (env_pgfault_upcall e) (env_ipc_recving e) (env_ipc_dstva e) (env_ipc_value e)
    (env_ipc_from e) (env_ipc_perm e).
Definition e_cpunum (x : Z) (e : Env) : Env :=
  mkEnv (env_tf e) (env_link e) (env_id e) (env_parent_id e) (env_type e) (env_status e) (env_runs e)
    x (env_pgdir e) (env_pgfault_upcall e) (env_ipc_recving e) (env_ipc_dstva e) (env_ipc_value e)
    (env_ipc_from e) (env_ipc_perm e).
Definition e_pgdir (x : Z) (e : Env) : Env :=
  mkEnv (env_tf e) (env_link e) (env_id e) (env_parent_id e) (env_type e) (env_status e) (env_runs e)
    (env_cpunum e) x (env_pgfault_upcall e) (env_ipc_recving e) (env_ipc_dstva e) (env_ipc_value e)
    (env_ipc_from e) (env_ipc_perm e).
Definition e_upcall (x : Z) (e : Env) : Env :=
  mkEnv (env_tf e) (env_link e) (env_id e) (env_parent_id e) (env_type e) (env_status e) (env_runs e)
    (env_cpunum e) (env_pgdir e) x (env_ipc_recving e) (env_ipc_dstva e) (env_ipc_value e) (env_ipc_from
    e) (env_ipc_perm e).
Definition e_recving (x : bool) (e : Env) : Env :=
  mkEnv (env_tf e) (env_link e) (env_id e) (env_parent_id e) (env_type e) (env_status e) (env_runs e)
    (env_cpunum e) (env_pgdir e) (env_pgfault_upcall e) x (env_ipc_dstva e) (env_ipc_value e)
    (env_ipc_from e) (env_ipc_perm e).
Definition e_dstva (x : Z) (e : Env) : Env :=
  mkEnv (env_tf e) (env_link e) (env_id e) (env_parent_id e) (env_type e) (env_status e) (env_runs e)
    (env_cpunum e) (env_pgdir e) (env_pgfault_upcall e) (env_ipc_recving e) x (env_ipc_value e)
    (env_ipc_from e) (env_ipc_perm e).
Definition e_value (x : Z) (e : Env) : Env :=
  mkEnv (env_tf e) (env_link e) (env_id e) (env_parent_id e) (env_type e) (env_status e) (env_runs e)
    (env_cpunum e) (env_pgdir e) (env_pgfault_upcall e) (env_ipc_recving e) (env_ipc_dstva e) x
    (env_ipc_from e) (env_ipc_perm e).
Definition e_from (x : Z) (e : Env) : Env :=
  mkEnv (env_tf e) (env_link e) (env_id e) (env_parent_id e) (env_type e) (env_status e) (env_runs e)
    (env_cpunum e) (env_pgdir e) (env_pgfault_upcall e) (env_ipc_recving e) (env_ipc_dstva e)
    (env_ipc_value e) x (env_ipc_perm e).
Definition e_perm (x : Z) (e : Env) : Env :=
  mkEnv (env_tf e) (env_link e) (env_id e) (env_parent_id e) (env_type e) (env_status e) (env_runs e)
    (env_cpunum e) (env_pgdir e) (env_pgfault_upcall e) (env_ipc_recving e) (env_ipc_dstva e)
    (env_ipc_value e) (env_ipc_from e) x.
Definition set_tf_regs (x : PushRegs) (t : Trapframe) : Trapframe :=
  mkTf x (tf_es t) (tf_ds t) (tf_trapno t) (tf_err t) (tf_eip t) (tf_cs t) (tf_eflags t) (tf_esp t) (tf_ss t).
Definition set_tf_eip (x : Z) (t : Trapframe) : Trapframe :=
  mkTf (tf_regs t) (tf_es t) (tf_ds t) (tf_trapno t) (tf_err t) x (tf_cs t) (tf_eflags t) (tf_esp t) (tf_ss t).
Definition set_tf_cs (x : Z) (t : Trapframe) : Trapframe :=
  mkTf (tf_regs t) (tf_es t) (tf_ds t) (tf_trapno t) (tf_err t) (tf_eip t) x (tf_eflags t) (tf_esp t) (tf_ss t).
Definition set_tf_eflags (x : Z) (t : Trapframe) : Trapframe :=
  mkTf (tf_regs t) (tf_es t) (tf_ds t) (tf_trapno t) (tf_err t) (tf_eip t) (tf_cs t) x (tf_esp t) (tf_ss t).
Definition set_tf_esp (x : Z) (t : Trapframe) : Trapframe :=
  mkTf (tf_regs t) (tf_es t) (tf_ds t) (tf_trapno t) (tf_err t) (tf_eip t) (tf_cs t) (tf_eflags t) x (tf_ss t).
Definition set_eax (x : Z) (t : Trapframe) : Trapframe :=
  let r := tf_regs t in
  set_tf_regs (mkRegs (reg_edi r) (reg_esi r) (reg_ebp r) (reg_oesp r) (reg_ebx r) (reg_edx r) (reg_ecx r) x) t.

(** Assignment to a field of [envs[i]]. *)
Definition upd_env (i : Z) (f : Env -> Env) : K unit :=
  modify (fun s => put_env i (f (env_of s i)) s).

(** The state at entry to [i386_init]: .bss and the static initialisers. *)
Definition console0 : console := mkConsole ∅ 0 0 0 false false [] [] [] [] ∅ 0.
Definition nic0 : e1000 := mkE1000 ∅ ∅ ∅ ∅ 0 0 0 0.
Definition kstate0 : kstate :=
  mkK 0 0 0 ∅ None ∅ 0 0 ∅ MMIOBASE ∅ None ∅ 0 false 0 0 console0 nic0.
