(* ===== verification/Pmap.v ===== *)
(** kern/pmap.c and kern/pmap.h: the physical page allocator, the two-level
    page tables, and the check of user memory ranges. *)

From stdpp Require Import base numbers list gmap strings.
From Stdlib Require Import ZArith Lia Bool.
From S2P Require Import Prelude Mmu KState.

Definition ALLOC_ZERO : Z := 1.

(** * kern/pmap.h *)

Definition PADDR (kva : Z) : K Z :=
  if kva <? KERNBASE then panic "PADDR called with invalid kva" else ret (kva - KERNBASE).

Definition KADDR (pa : Z) : K Z := fun s =>
  if npages s <=? PGNUM pa then Panic "KADDR called with invalid pa" s
  else Ret (u32 (pa + KERNBASE)) s.

Definition page2pa (pp : Z) : Z := u32 (Z.shiftl pp PGSHIFT).

Definition pa2page (pa : Z) : K Z := fun s =>
  if npages s <=? PGNUM pa then Panic "pa2page called with invalid pa" s
  else Ret (PGNUM pa) s.

Definition page2kva (pp : Z) : K Z := KADDR (page2pa pp).

(** [memset(kva, c, n)] for a word-aligned [kva] and [n] a multiple of 4:
    lib/string.c stores the byte four times per word. *)
Definition memset_words (kva c n : Z) : K unit := fun s =>
  let b := Z.land c 0xFF in
  let w := Z.lor (Z.lor (Z.lor (Z.shiftl b 24) (Z.shiftl b 16)) (Z.shiftl b 8)) b in
  Ret tt (set_mem (mfill (kva_word kva) (Z.to_nat (n / 4)) w (mem s)) s).

(** * Physical pages *)

Definition set_pp_link (pp : Z) (l : option Z) : K unit :=
  modify (fun s => put_page pp (mkPageInfo l (pp_ref (page_of s pp))) s).
Definition set_pp_ref (pp r : Z) : K unit :=
  modify (fun s => put_page pp (mkPageInfo (pp_link (page_of s pp)) r) s).

Definition page_alloc (alloc_flags : Z) : K (option Z) :=
  let! head := gets page_free_list in
  match head with
  | None => ret None
  | Some result =>
      let! p := gets (fun s => page_of s result) in
      modify (set_free (pp_link p)) ;;!
      set_pp_link result None ;;!
      (if flag alloc_flags ALLOC_ZERO then
         let! kva := page2kva result in memset_words kva 0 PGSIZE
       else ret tt) ;;!
      ret (Some result)
  end.

Definition page_free (pp : Z) : K unit :=
  let! p := gets (fun s => page_of s pp) in
  assert_ (pp_ref p =? 0) "pp->pp_ref == 0" ;;!
  assert_ (bool_decide (pp_link p = None)) "pp->pp_link == NULL" ;;!
  let! head := gets page_free_list in
  set_pp_link pp head ;;!
  modify (set_free (Some pp)).

Definition page_decref (pp : Z) : K unit :=
  let! p := gets (fun s => page_of s pp) in
  set_pp_ref pp (u16 (pp_ref p - 1)) ;;!
  if u16 (pp_ref p - 1) =? 0 then page_free pp else ret tt.

(** * Page tables *)

(** [pgdir_walk]: the kernel address of the entry for [va], 0 for NULL. *)
Definition pgdir_walk (pgdir va : Z) (create : bool) : K Z :=
  assert_ (negb (pgdir =? 0)) "pgdir != NULL" ;;!
  let pg_dir_entry := u32 (pgdir + 4 * PDX va) in
  let! pde := gets (load32 pg_dir_entry) in
  let! ok :=
    if negb (flag pde PTE_P) then
      if negb create then ret false
      else
        let! new_page := page_alloc ALLOC_ZERO in
        match new_page with
        | None => ret false
        | Some pp =>
            let! p := gets (fun s => page_of s pp) in
            set_pp_ref pp (u16 (pp_ref p + 1)) ;;!
            store32 pg_dir_entry (Z.lor (Z.lor (Z.lor (page2pa pp) PTE_P) PTE_W) PTE_U) ;;!
            ret true
        end
    else ret true in
  if ok then
    let! pde := gets (load32 pg_dir_entry) in
    let! pg_table := KADDR (PTE_ADDR pde) in
    ret (u32 (pg_table + 4 * PTX va))
  else ret 0.

(** The loop of [boot_map_region], [n] pages from [va] and [pa] on. *)
Fixpoint boot_map_pages (n : nat) (pgdir va pa perm : Z) : K unit :=
  match n with
  | O => ret tt
  | S n' =>
      let! pte := pgdir_walk pgdir va true in
      assert_ (negb (pte =? 0)) "pg_table_entry != NULL" ;;!
      store32 pte (Z.lor (Z.lor pa perm) PTE_P) ;;!
      boot_map_pages n' pgdir (u32 (va + PGSIZE)) (u32 (pa + PGSIZE)) perm
  end.

Definition boot_map_region (pgdir va size pa perm : Z) : K unit :=
  boot_map_pages (Z.to_nat (size / PGSIZE)) pgdir va pa perm.

Definition tlb_invalidate (pgdir va : Z) : K unit := fun s =>
  match curenv s with
  | None => invlpg va s
  | Some e => if env_pgdir (env_of s e) =? pgdir then invlpg va s else Ret tt s
  end.

(** [page_lookup]: the page mapped at [va] and the address of its entry. *)
Definition page_lookup (pgdir va : Z) : K (option (Z * Z)) :=
  let! entry := pgdir_walk pgdir va false in
  if entry =? 0 then ret None
  else
    let! pte := gets (load32 entry) in
    if negb (flag pte PTE_P) then ret None
    else
      let! pp := pa2page (PTE_ADDR pte) in
      ret (Some (pp, entry)).

Definition page_remove (pgdir va : Z) : K unit :=
  let! found := page_lookup pgdir va in
  match found with
  | None => ret tt
  | Some (page, entry) =>
      page_decref page ;;!
      tlb_invalidate pgdir va ;;!
      store32 entry 0
  end.

Definition page_insert (pgdir pp va perm : Z) : K Z :=
  let! entry := pgdir_walk pgdir va true in
  if entry =? 0 then ret (- E_NO_MEM)
  else
    let! p := gets (fun s => page_of s pp) in
    set_pp_ref pp (u16 (pp_ref p + 1)) ;;!
    let! pte := gets (load32 entry) in
    (if flag pte PTE_P then tlb_invalidate pgdir va ;;! page_remove pgdir va else ret tt) ;;!
    store32 entry (Z.lor (Z.lor (page2pa pp) perm) PTE_P) ;;!
    ret 0.

Definition mmio_map_region (pa size : Z) : K Z :=
  let size := ROUNDUP size PGSIZE in
  let pa := ROUNDDOWN pa PGSIZE in
  let! base := gets mmio_base in
  if MMIOLIM <=? u32 (size + base) then panic "mmio_map_region overflow"
  else
    let! pgdir := gets kern_pgdir in
    boot_map_region pgdir base size pa (Z.lor (Z.lor PTE_PCD PTE_PWT) PTE_W) ;;!
    modify (set_mmio_base (u32 (base + size))) ;;!
    ret base.

(** The loop of [user_mem_check] over the pages from [start], [n] of them;
    [first] is the page of [va]. *)
Fixpoint user_mem_check_pages (n : nat) (pgdir va first start perm : Z) : K Z :=
  match n with
  | O => ret 0
  | S n' =>
      let! cur := pgdir_walk pgdir start false in
      let! pte := gets (load32 cur) in
      if (ULIM <? start) || (cur =? 0) || negb (Z.land pte perm =? perm) then
        (if start =? first then modify (set_check_addr va) else modify (set_check_addr start)) ;;!
        ret (- E_FAULT)
      else user_mem_check_pages n' pgdir va first (u32 (start + PGSIZE)) perm
  end.

Definition user_mem_check (env va len perm : Z) : K Z :=
  let start := ROUNDDOWN va PGSIZE in
  let end_ := ROUNDUP (u32 (va + len)) PGSIZE in
  let! e := gets (fun s => env_of s env) in
  user_mem_check_pages (Z.to_nat ((end_ - start) / PGSIZE)) (env_pgdir e) va start start perm.

(** [check_va2pa]: the translation the hardware performs, ~0 for none. *)
Definition check_va2pa (pgdir va : Z) : K Z :=
  let! pde := gets (load32 (u32 (pgdir + 4 * PDX va))) in
  if negb (flag pde PTE_P) then ret (u32 (-1))
  else
    let! p := KADDR (PTE_ADDR pde) in
    let! pte := gets (load32 (u32 (p + 4 * PTX va))) in
    if negb (flag pte PTE_P) then ret (u32 (-1)) else ret (PTE_ADDR pte).
