(* ===== verification/PmapBoot.v ===== *)
(** kern/pmap.c, the boot path: memory detection, the boot-time allocator,
    the construction of the free list and of the kernel's address space, the
    kernel's own self-checks of all of these, and the hardware's view of the
    page tables (translation through the TLB), which the last self-check
    uses. *)

From stdpp Require Import base numbers list gmap strings.
From Stdlib Require Import ZArith Lia Bool.
From S2P Require Import Prelude Mmu KState Pmap.

(** * The memory management unit *)

(** What the processor caches for a page: the frame and the permissions the
    directory entry and the table entry both grant. *)
Definition mmu_entry (pde pte : Z) : Z :=
  Z.lor (PTE_ADDR pte) (Z.land (Z.land pde pte) 7).

(** The walk of the two-level tables rooted at [cr3]. *)
Definition mmu_walk (va : Z) (s : kstate) : option Z :=
  let pde := word_at s (cr3 s / 4 + PDX va) in
  if flag pde PTE_P then
    let pte := word_at s (PTE_ADDR pde / 4 + PTX va) in
    if flag pte PTE_P then Some (mmu_entry pde pte) else None
  else None.

(** The entry used for [va]: the cached one if there is one, else the walk's,
    which is then cached. *)
Definition mmu_lookup (va : Z) : K (option Z) := fun s =>
  match tlb s !! PGNUM va with
  | Some e => Ret (Some e) s
  | None =>
      match mmu_walk va s with
      | Some e => Ret (Some e) (set_cr3 (cr3 s) (<[PGNUM va := e]> (tlb s)) s)
      | None => Ret None s
      end
  end.

(** The physical address an access to [va] reaches, [None] for a page fault.
    The kernel runs with CR0_WP set, so it needs PTE_W to write too. *)
Definition mmu_access (user write : bool) (va : Z) : K (option Z) :=
  let! e := mmu_lookup va in
  match e with
  | Some e =>
      if (user && negb (flag e PTE_U)) || (write && negb (flag e PTE_W)) then ret None
      else ret (Some (Z.lor (PTE_ADDR e) (PGOFF va)))
  | None => ret None
  end.

(** A 32-bit load and store at a word-aligned virtual address. *)
Definition vload32 (user : bool) (va : Z) : K (option Z) :=
  let! pa := mmu_access user false va in
  match pa with
  | Some pa => gets (fun s => Some (word_at s (pa / 4)))
  | None => ret None
  end.

Definition vstore32 (user : bool) (va v : Z) : K bool :=
  let! pa := mmu_access user true va in
  match pa with
  | Some pa => modify (fun s => set_mem (<[pa / 4 := u32 v]> (mem s)) s) ;;! ret true
  | None => ret false
  end.

(** * Detecting memory *)

Definition MC_NVRAM_START : Z := 0xe.
Definition NVRAM_BASELO : Z := MC_NVRAM_START + 7.
Definition NVRAM_EXTLO : Z := MC_NVRAM_START + 9.
Definition NVRAM_EXT16LO : Z := MC_NVRAM_START + 38.

(** What the build and the machine supply: the CMOS registers, and the
    addresses the linker gives to [end], [bootstack] and [percpu_kstacks]. *)
Record platform := mkPlatform {
  mc146818_read : Z -> Z;
  end_ : Z;
  bootstack : Z;
  percpu_kstacks : Z
}.

Definition sizeof_PageInfo : Z := 8.
Definition sizeof_Env : Z := 124.

(** The list walk [for (pp = head; pp; pp = pp->pp_link) body(pp)]; the
    bound only cuts off a cyclic list, on which the C loop would not end. *)
Fixpoint for_pages (fuel : nat) (pp : option Z) (body : Z -> K unit) : K unit :=
  match pp with
  | None => ret tt
  | Some p =>
      match fuel with
      | O => panic "cyclic free list"
      | S n =>
          body p ;;!
          let! next := gets (fun s => pp_link (page_of s p)) in
          for_pages n next body
      end
  end.

(** The same walk with an accumulator, for the loops that count. *)
Fixpoint fold_pages {A} (fuel : nat) (pp : option Z) (acc : A) (body : A -> Z -> K A) : K A :=
  match pp with
  | None => ret acc
  | Some p =>
      match fuel with
      | O => panic "cyclic free list"
      | S n =>
          let! acc' := body acc p in
          let! next := gets (fun s => pp_link (page_of s p)) in
          fold_pages n next acc' body
      end
  end.

Definition fuel_pages (s : kstate) : nat := Z.to_nat (npages s).

(** [assert((pp = page_alloc(flags)))]. *)
Definition page_alloc_some (flags : Z) : K Z :=
  let! r := page_alloc flags in
  match r with Some pp => ret pp | None => panic "page_alloc" end.

(** [assert(!page_alloc(0))]. *)
Definition page_alloc_fails : K unit :=
  let! r := page_alloc 0 in
  assert_ (bool_decide (r = None)) "!page_alloc(0)".

Section Boot.
Context (P : platform).

Definition nvram_read (r : Z) : Z :=
  s32 (Z.lor (mc146818_read P r) (Z.shiftl (mc146818_read P (r + 1)) 8)).

Definition i386_detect_memory : K unit :=
  let basemem := u32 (nvram_read NVRAM_BASELO) in
  let extmem := u32 (nvram_read NVRAM_EXTLO) in
  let ext16mem := u32 (nvram_read NVRAM_EXT16LO * 64) in
  let totalmem :=
    if negb (ext16mem =? 0) then u32 (16 * 1024 + ext16mem)
    else if negb (extmem =? 0) then u32 (1 * 1024 + extmem)
    else basemem in
  modify (set_npages (totalmem / (PGSIZE / 1024)) (basemem / (PGSIZE / 1024))).

Definition boot_alloc (n : Z) : K Z :=
  let! nf := gets nextfree in
  (if nf =? 0 then modify (set_nextfree (ROUNDUP (end_ P) PGSIZE)) else ret tt) ;;!
  let! result := gets nextfree in
  let nf' := ROUNDUP (u32 (result + n)) PGSIZE in
  modify (set_nextfree nf') ;;!
  let! np := gets npages in
  if u32 (np * PGSIZE) <? u32 (nf' - KERNBASE) then panic "Out of memory!"
  else ret result.

(** One round of the loop of [page_init]. *)
Definition page_init_step (num_iohole num_extmem_alloc i : Z) : K unit :=
  let! base := gets npages_basemem in
  if (i =? 0) || (i =? MPENTRY_PADDR / PGSIZE) then
    modify (put_page i (mkPageInfo None 1))
  else if (base <=? i) && (i <? u32 (base + num_iohole + num_extmem_alloc)) then
    modify (put_page i (mkPageInfo None 1))
  else
    modify (fun s => set_free (Some i) (put_page i (mkPageInfo (page_free_list s) 0) s)).

Definition page_init : K unit :=
  modify (set_free None) ;;!
  let! nf := boot_alloc 0 in
  let num_extmem_alloc := u32 (nf - KERNBASE) / PGSIZE in
  let num_iohole := (EXTPHYSMEM - IOPHYSMEM) / PGSIZE in
  let! np := gets npages in
  for_loop (Z.to_nat np) 0 (page_init_step num_iohole num_extmem_alloc).

(** Where [*tp[i]] points: a local variable, or the [pp_link] of a page. *)
Record tails := mkTails { t_pp1 : option Z; t_pp2 : option Z; t_tp0 : option Z; t_tp1 : option Z }.

Definition tails_store (i : bool) (v : option Z) (t : tails) : K tails :=
  match (if i then t_tp1 t else t_tp0 t) with
  | Some pp => set_pp_link pp v ;;! ret t
  | None => ret (if i then mkTails (t_pp1 t) v (t_tp0 t) (t_tp1 t)
                 else mkTails v (t_pp2 t) (t_tp0 t) (t_tp1 t))
  end.

Definition tails_move (i : bool) (pp : Z) (t : tails) : tails :=
  if i then mkTails (t_pp1 t) (t_pp2 t) (t_tp0 t) (Some pp)
  else mkTails (t_pp1 t) (t_pp2 t) (Some pp) (t_tp1 t).

(** The pages with lower addresses are moved to the front of the list. *)
Definition sort_free_list (pdx_limit : Z) : K unit :=
  let! fuel := gets fuel_pages in
  let! head := gets page_free_list in
  let! t := fold_pages fuel head (mkTails None None None None) (fun t pp =>
      let pagetype := pdx_limit <=? PDX (page2pa pp) in
      let! t' := tails_store pagetype (Some pp) t in
      ret (tails_move pagetype pp t')) in
  let! t := tails_store true None t in
  let! t := tails_store false (t_pp2 t) t in
  modify (set_free (t_pp1 t)).

Definition check_page_free_list (only_low_memory : bool) : K unit :=
  let pdx_limit := if only_low_memory then 1 else NPDENTRIES in
  let! head := gets page_free_list in
  (if bool_decide (head = None) then panic "'page_free_list' is a null pointer!" else ret tt) ;;!
  (if only_low_memory then sort_free_list pdx_limit else ret tt) ;;!
  let! fuel := gets fuel_pages in
  let! head := gets page_free_list in
  for_pages fuel head (fun pp =>
    if PDX (page2pa pp) <? pdx_limit then
      let! kva := page2kva pp in memset_words kva 0x97 128
    else ret tt) ;;!
  let! first_free_page := boot_alloc 0 in
  let! np := gets npages in
  let! counts := fold_pages fuel head (0, 0) (fun '(nfree_basemem, nfree_extmem) pp =>
    assert_ (0 <=? pp) "pp >= pages" ;;!
    assert_ (pp <? np) "pp < pages + npages" ;;!
    assert_ (negb (page2pa pp =? 0)) "page2pa(pp) != 0" ;;!
    assert_ (negb (page2pa pp =? IOPHYSMEM)) "page2pa(pp) != IOPHYSMEM" ;;!
    assert_ (negb (page2pa pp =? EXTPHYSMEM - PGSIZE)) "page2pa(pp) != EXTPHYSMEM - PGSIZE" ;;!
    assert_ (negb (page2pa pp =? EXTPHYSMEM)) "page2pa(pp) != EXTPHYSMEM" ;;!
    (if page2pa pp <? EXTPHYSMEM then ret tt
     else let! kva := page2kva pp in
          assert_ (first_free_page <=? kva) "(char *) page2kva(pp) >= first_free_page") ;;!
    assert_ (negb (page2pa pp =? MPENTRY_PADDR)) "page2pa(pp) != MPENTRY_PADDR" ;;!
    if page2pa pp <? EXTPHYSMEM then ret (nfree_basemem + 1, nfree_extmem)
    else ret (nfree_basemem, nfree_extmem + 1)) in
  assert_ (0 <? counts.1) "nfree_basemem > 0" ;;!
  assert_ (0 <? counts.2) "nfree_extmem > 0".

(** The byte at kernel address [kva]. *)
Definition load8 (kva : Z) (s : kstate) : Z :=
  Z.land (Z.shiftr (word_at s (u32 (kva - KERNBASE) / 4)) (8 * (kva mod 4))) 0xFF.

(** Three distinct pages, as the self-checks allocate them. *)
Definition alloc_three : K (Z * Z * Z) :=
  let! pp0 := page_alloc_some 0 in
  let! pp1 := page_alloc_some 0 in
  let! pp2 := page_alloc_some 0 in
  assert_ (negb (pp1 =? pp0)) "pp1 && pp1 != pp0" ;;!
  assert_ (negb (pp2 =? pp1) && negb (pp2 =? pp0)) "pp2 && pp2 != pp1 && pp2 != pp0" ;;!
  ret (pp0, pp1, pp2).

Definition check_page_alloc : K unit :=
  let! fuel := gets fuel_pages in
  let! head := gets page_free_list in
  let! nfree := fold_pages fuel head 0 (fun n _ => ret (n + 1)) in
  let! (pp0, pp1, pp2) := alloc_three in
  let! np := gets npages in
  assert_ (page2pa pp0 <? u32 (np * PGSIZE)) "page2pa(pp0) < npages*PGSIZE" ;;!
  assert_ (page2pa pp1 <? u32 (np * PGSIZE)) "page2pa(pp1) < npages*PGSIZE" ;;!
  assert_ (page2pa pp2 <? u32 (np * PGSIZE)) "page2pa(pp2) < npages*PGSIZE" ;;!
  let! fl := gets page_free_list in
  modify (set_free None) ;;!
  page_alloc_fails ;;!
  page_free pp0 ;;!
  page_free pp1 ;;!
  page_free pp2 ;;!
  let! (pp0, pp1, pp2) := alloc_three in
  page_alloc_fails ;;!
  let! kva0 := page2kva pp0 in
  memset_words kva0 1 PGSIZE ;;!
  page_free pp0 ;;!
  let! pp := page_alloc_some ALLOC_ZERO in
  assert_ (pp0 =? pp) "pp && pp0 == pp" ;;!
  let! c := page2kva pp in
  for_loop (Z.to_nat PGSIZE) 0 (fun i =>
    let! b := gets (load8 (c + i)) in assert_ (b =? 0) "c[i] == 0") ;;!
  modify (set_free fl) ;;!
  page_free pp0 ;;!
  page_free pp1 ;;!
  page_free pp2 ;;!
  let! head := gets page_free_list in
  let! nfree := fold_pages fuel head nfree (fun n _ => ret (n - 1)) in
  assert_ (nfree =? 0) "nfree == 0".

(** [assert(check_va2pa(pgdir, va) == pa)]. *)
Definition assert_va2pa (pgdir va pa : Z) : K unit :=
  let! r := check_va2pa pgdir va in
  assert_ (r =? u32 pa) "check_va2pa".

(** [pages_kva] and [envs_kva] are the addresses of the two arrays. *)
Definition check_kern_pgdir (pages_kva envs_kva : Z) : K unit :=
  let! pgdir := gets kern_pgdir in
  let! np := gets npages in
  let! pages_pa := PADDR pages_kva in
  let! envs_pa := PADDR envs_kva in
  let! stacks_pa := PADDR (percpu_kstacks P) in
  let n := ROUNDUP (u32 (np * sizeof_PageInfo)) PGSIZE in
  for_loop (Z.to_nat (n / PGSIZE)) 0 (fun i =>
    assert_va2pa pgdir (UPAGES + i * PGSIZE) (pages_pa + i * PGSIZE)) ;;!
  let n := ROUNDUP (NENV * sizeof_Env) PGSIZE in
  for_loop (Z.to_nat (n / PGSIZE)) 0 (fun i =>
    assert_va2pa pgdir (UENVS + i * PGSIZE) (envs_pa + i * PGSIZE)) ;;!
  for_loop (Z.to_nat (u32 (np * PGSIZE) / PGSIZE)) 0 (fun i =>
    assert_va2pa pgdir (KERNBASE + i * PGSIZE) (i * PGSIZE)) ;;!
  for_loop (Z.to_nat NCPU) 0 (fun n =>
    let base := u32 (KSTACKTOP - (KSTKSIZE + KSTKGAP) * (n + 1)) in
    for_loop (Z.to_nat (KSTKSIZE / PGSIZE)) 0 (fun i =>
      assert_va2pa pgdir (base + KSTKGAP + i * PGSIZE) (stacks_pa + n * KSTKSIZE + i * PGSIZE)) ;;!
    for_loop (Z.to_nat (KSTKGAP / PGSIZE)) 0 (fun i =>
      assert_va2pa pgdir (base + i * PGSIZE) (-1))) ;;!
  for_loop (Z.to_nat NPDENTRIES) 0 (fun i =>
    let! pde := gets (load32 (pgdir + 4 * i)) in
    if bool_decide (i ∈ [PDX UVPT; PDX (KSTACKTOP - 1); PDX UPAGES; PDX UENVS; PDX MMIOBASE])
    then assert_ (flag pde PTE_P) "pgdir[i] & PTE_P"
    else if PDX KERNBASE <=? i then
      assert_ (flag pde PTE_P) "pgdir[i] & PTE_P" ;;!
      assert_ (flag pde PTE_W) "pgdir[i] & PTE_W"
    else assert_ (pde =? 0) "pgdir[i] == 0").

Definition assert_ref (pp r : Z) : K unit :=
  let! p := gets (fun s => page_of s pp) in
  assert_ (pp_ref p =? r) "pp->pp_ref".

(** [assert(page_insert(kern_pgdir, pp, va, perm) == 0)], and [< 0]. *)
Definition insert_ok (pgdir pp va perm : Z) : K unit :=
  let! r := page_insert pgdir pp va perm in assert_ (r =? 0) "page_insert == 0".
Definition insert_fails (pgdir pp va perm : Z) : K unit :=
  let! r := page_insert pgdir pp va perm in assert_ (r <? 0) "page_insert < 0".

(** The assertion that the entry of [va] has a bit of [mask] set, or none. *)
Definition assert_pte (pgdir va mask : Z) (want : bool) : K unit :=
  let! p := pgdir_walk pgdir va false in
  let! pte := gets (load32 p) in
  assert_ (eqb (flag pte mask) want) "*pgdir_walk & mask".

(** The entry of [va] is cleared through [pgdir_walk]. *)
Definition clear_pte (pgdir va : Z) : K unit :=
  let! p := pgdir_walk pgdir va false in store32 p 0.

(** The end of [check_page]: [mmio_map_region]. *)
Definition check_mmio (pgdir : Z) : K unit :=
  let! mm1 := mmio_map_region 0 4097 in
  let! mm2 := mmio_map_region 0 4096 in
  assert_ ((MMIOBASE <=? mm1) && (u32 (mm1 + 8192) <? MMIOLIM)) "mm1 >= MMIOBASE && mm1 + 8192 < MMIOLIM" ;;!
  assert_ ((MMIOBASE <=? mm2) && (u32 (mm2 + 8192) <? MMIOLIM)) "mm2 >= MMIOBASE && mm2 + 8192 < MMIOLIM" ;;!
  assert_ ((mm1 mod PGSIZE =? 0) && (mm2 mod PGSIZE =? 0)) "mm1 % PGSIZE == 0 && mm2 % PGSIZE == 0" ;;!
  assert_ (u32 (mm1 + 8192) <=? mm2) "mm1 + 8192 <= mm2" ;;!
  assert_va2pa pgdir mm1 0 ;;!
  assert_va2pa pgdir (mm1 + PGSIZE) PGSIZE ;;!
  assert_va2pa pgdir mm2 0 ;;!
  assert_va2pa pgdir (mm2 + PGSIZE) (-1) ;;!
  assert_pte pgdir mm1 (Z.lor PTE_W (Z.lor PTE_PWT PTE_PCD)) true ;;!
  assert_pte pgdir mm1 PTE_U false ;;!
  clear_pte pgdir mm1 ;;!
  clear_pte pgdir (mm1 + PGSIZE) ;;!
  clear_pte pgdir mm2.

(** The middle of [check_page]: mappings and reference counts. *)
Definition check_page_maps (pgdir pp0 pp1 pp2 : Z) : K unit :=
  insert_ok pgdir pp2 PGSIZE PTE_W ;;!
  assert_va2pa pgdir PGSIZE (page2pa pp2) ;;!
  assert_ref pp2 1 ;;!
  page_alloc_fails ;;!
  insert_ok pgdir pp2 PGSIZE PTE_W ;;!
  assert_va2pa pgdir PGSIZE (page2pa pp2) ;;!
  assert_ref pp2 1 ;;!
  page_alloc_fails ;;!
  let! pde := gets (load32 (pgdir + 4 * PDX PGSIZE)) in
  let! ptep := KADDR (PTE_ADDR pde) in
  let! w := pgdir_walk pgdir PGSIZE false in
  assert_ (w =? ptep + 4 * PTX PGSIZE) "pgdir_walk(kern_pgdir, PGSIZE, 0) == ptep+PTX(PGSIZE)" ;;!
  insert_ok pgdir pp2 PGSIZE (Z.lor PTE_W PTE_U) ;;!
  assert_va2pa pgdir PGSIZE (page2pa pp2) ;;!
  assert_ref pp2 1 ;;!
  assert_pte pgdir PGSIZE PTE_U true ;;!
  let! pde := gets (load32 pgdir) in
  assert_ (flag pde PTE_U) "kern_pgdir[0] & PTE_U" ;;!
  insert_ok pgdir pp2 PGSIZE PTE_W ;;!
  assert_pte pgdir PGSIZE PTE_W true ;;!
  assert_pte pgdir PGSIZE PTE_U false ;;!
  insert_fails pgdir pp0 PTSIZE PTE_W ;;!
  insert_ok pgdir pp1 PGSIZE PTE_W ;;!
  assert_pte pgdir PGSIZE PTE_U false ;;!
  assert_va2pa pgdir 0 (page2pa pp1) ;;!
  assert_va2pa pgdir PGSIZE (page2pa pp1) ;;!
  assert_ref pp1 2 ;;!
  assert_ref pp2 0.

(** The next part of [check_page]: unmapping frees a page with its last
    reference. *)
Definition check_page_unmaps (pgdir pp1 pp2 : Z) : K unit :=
  let! pp := page_alloc_some 0 in
  assert_ (pp =? pp2) "(pp = page_alloc(0)) && pp == pp2" ;;!
  page_remove pgdir 0 ;;!
  assert_va2pa pgdir 0 (-1) ;;!
  assert_va2pa pgdir PGSIZE (page2pa pp1) ;;!
  assert_ref pp1 1 ;;!
  assert_ref pp2 0 ;;!
  insert_ok pgdir pp1 PGSIZE 0 ;;!
  let! p1 := gets (fun s => page_of s pp1) in
  assert_ (negb (pp_ref p1 =? 0)) "pp1->pp_ref" ;;!
  assert_ (bool_decide (pp_link p1 = None)) "pp1->pp_link == NULL" ;;!
  page_remove pgdir PGSIZE ;;!
  assert_va2pa pgdir 0 (-1) ;;!
  assert_va2pa pgdir PGSIZE (-1) ;;!
  assert_ref pp1 0 ;;!
  assert_ref pp2 0 ;;!
  let! pp := page_alloc_some 0 in
  assert_ (pp =? pp1) "(pp = page_alloc(0)) && pp == pp1" ;;!
  page_alloc_fails.

(** The page table made of [pp0] is taken back by hand. *)
Definition take_back (pgdir pp0 : Z) : K unit :=
  let! pde := gets (load32 pgdir) in
  assert_ (PTE_ADDR pde =? page2pa pp0) "PTE_ADDR(kern_pgdir[0]) == page2pa(pp0)" ;;!
  store32 pgdir 0 ;;!
  assert_ref pp0 1 ;;!
  set_pp_ref pp0 0.

(** The next part of [check_page]: the addresses [pgdir_walk] computes and
    the clearing of new page tables. *)
Definition check_page_walks (pgdir pp0 : Z) : K unit :=
  take_back pgdir pp0 ;;!
  page_free pp0 ;;!
  let va := PGSIZE * NPDENTRIES + PGSIZE in
  let! ptep := pgdir_walk pgdir va true in
  let! pde := gets (load32 (pgdir + 4 * PDX va)) in
  let! ptep1 := KADDR (PTE_ADDR pde) in
  assert_ (ptep =? ptep1 + 4 * PTX va) "ptep == ptep1 + PTX(va)" ;;!
  store32 (pgdir + 4 * PDX va) 0 ;;!
  set_pp_ref pp0 0 ;;!
  let! kva0 := page2kva pp0 in
  memset_words kva0 0xFF PGSIZE ;;!
  page_free pp0 ;;!
  pgdir_walk pgdir 0 true ;;!
  let! ptep := page2kva pp0 in
  for_loop (Z.to_nat NPTENTRIES) 0 (fun i =>
    let! pte := gets (load32 (ptep + 4 * i)) in
    assert_ (negb (flag pte PTE_P)) "(ptep[i] & PTE_P) == 0") ;;!
  store32 pgdir 0 ;;!
  set_pp_ref pp0 0.

Definition check_page : K unit :=
  let! pgdir := gets kern_pgdir in
  let! (pp0, pp1, pp2) := alloc_three in
  let! fl := gets page_free_list in
  modify (set_free None) ;;!
  page_alloc_fails ;;!
  let! l := page_lookup pgdir 0 in
  assert_ (bool_decide (l = None)) "page_lookup(kern_pgdir, 0, &ptep) == NULL" ;;!
  insert_fails pgdir pp1 0 PTE_W ;;!
  page_free pp0 ;;!
  insert_ok pgdir pp1 0 PTE_W ;;!
  let! pde := gets (load32 pgdir) in
  assert_ (PTE_ADDR pde =? page2pa pp0) "PTE_ADDR(kern_pgdir[0]) == page2pa(pp0)" ;;!
  assert_va2pa pgdir 0 (page2pa pp1) ;;!
  assert_ref pp1 1 ;;!
  assert_ref pp0 1 ;;!
  check_page_maps pgdir pp0 pp1 pp2 ;;!
  check_page_unmaps pgdir pp1 pp2 ;;!
  check_page_walks pgdir pp0 ;;!
  modify (set_free fl) ;;!
  page_free pp0 ;;!
  page_free pp1 ;;!
  page_free pp2 ;;!
  check_mmio pgdir.

(** A load the kernel does at a user address; a fault has no handler. *)
Definition assert_load (va v : Z) : K unit :=
  let! r := vload32 false va in
  assert_ (bool_decide (r = Some v)) "*(uint32_t * )va".

Definition check_page_installed_pgdir : K unit :=
  let! pgdir := gets kern_pgdir in
  let! pp0 := page_alloc_some 0 in
  let! pp1 := page_alloc_some 0 in
  let! pp2 := page_alloc_some 0 in
  page_free pp0 ;;!
  let! kva1 := page2kva pp1 in
  memset_words kva1 1 PGSIZE ;;!
  let! kva2 := page2kva pp2 in
  memset_words kva2 2 PGSIZE ;;!
  page_insert pgdir pp1 PGSIZE PTE_W ;;!
  assert_ref pp1 1 ;;!
  assert_load PGSIZE 0x01010101 ;;!
  page_insert pgdir pp2 PGSIZE PTE_W ;;!
  assert_load PGSIZE 0x02020202 ;;!
  assert_ref pp2 1 ;;!
  assert_ref pp1 0 ;;!
  let! ok := vstore32 false PGSIZE 0x03030303 in
  assert_ ok "page fault in kernel" ;;!
  let! w := gets (load32 kva2) in
  assert_ (w =? 0x03030303) "*(uint32_t * )page2kva(pp2) == 0x03030303U" ;;!
  page_remove pgdir PGSIZE ;;!
  assert_ref pp2 0 ;;!
  take_back pgdir pp0 ;;!
  page_free pp0.

(** * Building the kernel's address space *)

Definition mem_init_mp : K unit :=
  let! pgdir := gets kern_pgdir in
  for_loop (Z.to_nat NCPU) 0 (fun i =>
    let kstacktop_i := u32 (KSTACKTOP - i * (KSTKGAP + KSTKSIZE)) in
    let! pa := PADDR (percpu_kstacks P + i * KSTKSIZE) in
    boot_map_region pgdir (u32 (kstacktop_i - KSTKSIZE)) KSTKSIZE pa PTE_W).

(** The boot_map_region calls of [mem_init]. *)
Definition mem_map_kernel (pgdir pages_kva envs_kva : Z) : K unit :=
  let! pages_pa := PADDR pages_kva in
  boot_map_region pgdir UPAGES PTSIZE pages_pa PTE_U ;;!
  let! envs_pa := PADDR envs_kva in
  boot_map_region pgdir UENVS PTSIZE envs_pa PTE_U ;;!
  let! stack_pa := PADDR (bootstack P) in
  boot_map_region pgdir (KSTACKTOP - KSTKSIZE) KSTKSIZE stack_pa PTE_W ;;!
  boot_map_region pgdir KERNBASE (0xffffffff - KERNBASE) 0 PTE_W.

(** [mem_init], without the writes of CR0. The arrays [pages] and [envs] are
    fields of the state, which [memset] clears. *)
Definition mem_init : K unit :=
  i386_detect_memory ;;!
  let! pgdir := boot_alloc PGSIZE in
  modify (set_kern_pgdir pgdir) ;;!
  memset_words pgdir 0 PGSIZE ;;!
  let! pgdir_pa := PADDR pgdir in
  store32 (pgdir + 4 * PDX UVPT) (Z.lor (Z.lor pgdir_pa PTE_U) PTE_P) ;;!
  let! np := gets npages in
  let! pages_kva := boot_alloc (u32 (np * sizeof_PageInfo)) in
  modify (set_pages ∅) ;;!
  let! envs_kva := boot_alloc (sizeof_Env * NENV) in
  modify (set_envs ∅) ;;!
  page_init ;;!
  check_page_free_list true ;;!
  check_page_alloc ;;!
  check_page ;;!
  mem_map_kernel pgdir pages_kva envs_kva ;;!
  mem_init_mp ;;!
  check_kern_pgdir pages_kva envs_kva ;;!
  lcr3 pgdir_pa ;;!
  check_page_free_list false ;;!
  check_page_installed_pgdir.

End Boot.

(** * Byte accesses by virtual address *)

(** Replace byte [k] of a word. *)
Definition set_byte (w k b : Z) : Z :=
  Z.lor (Z.ldiff w (Z.shiftl 0xFF (8 * k))) (Z.shiftl (Z.land b 0xFF) (8 * k)).

Definition vload8 (user : bool) (va : Z) : K (option Z) :=
  let! pa := mmu_access user false va in
  match pa with
  | Some pa => gets (fun s => Some (Z.land (Z.shiftr (word_at s (pa / 4)) (8 * (pa mod 4))) 0xFF))
  | None => ret None
  end.

Definition vstore8 (user : bool) (va b : Z) : K bool :=
  let! pa := mmu_access user true va in
  match pa with
  | Some pa =>
      modify (fun s => set_mem (<[pa / 4 := u32 (set_byte (word_at s (pa / 4)) (pa mod 4) b)]> (mem s)) s) ;;!
      ret true
  | None => ret false
  end.

(** What the kernel itself reads and writes at a user address. The model
    stops at a page fault taken in kernel mode. *)
Definition kfault : string := "page fault in kernel mode".

Definition kload8 (va : Z) : K Z :=
  let! r := vload8 false (u32 va) in
  match r with Some b => ret b | None => panic kfault end.
Definition kstore8 (va b : Z) : K unit :=
  let! ok := vstore8 false (u32 va) b in
  if ok then ret tt else panic kfault.

(** Little-endian 32-bit words, at any alignment. *)
Definition le32 (b0 b1 b2 b3 : Z) : Z :=
  Z.lor (Z.lor (Z.lor b0 (Z.shiftl b1 8)) (Z.shiftl b2 16)) (Z.shiftl b3 24).
Definition kload32 (va : Z) : K Z :=
  let! b0 := kload8 va in
  let! b1 := kload8 (va + 1) in
  let! b2 := kload8 (va + 2) in
  let! b3 := kload8 (va + 3) in
  ret (le32 b0 b1 b2 b3).
Definition kstore32 (va v : Z) : K unit :=
  kstore8 va v ;;!
  kstore8 (va + 1) (Z.shiftr v 8) ;;!
  kstore8 (va + 2) (Z.shiftr v 16) ;;!
  kstore8 (va + 3) (Z.shiftr v 24).
