(* ===== verification/PmapSpec.v ===== *)
(** The contract of the memory manager. An abstract machine keeps a finite
    map from (address space, virtual page) to (frame, permissions), the page
    tables that back it, and a list of free frames; [vm_rel] relates it to
    the kernel's arrays and to the page tables in physical memory. The
    lemmas say that the routines of kern/pmap.c act on the kernel state as
    the corresponding one-line updates act on the abstract one. *)

From stdpp Require Import base numbers list gmap strings.
From Stdlib Require Import ZArith Lia Bool.
From S2P Require Import Prelude Mmu KState Pmap.

(** * Counting entries of a finite map *)

Section Count.
Context {K : Type} `{Countable K} {V : Type}.
Implicit Types m : gmap K V.

Definition count (P : K * V -> Prop) `{forall kv, Decision (P kv)} m : Z :=
  Z.of_nat (size (filter P m)).

Context (P : K * V -> Prop) `{forall kv, Decision (P kv)}.

Lemma count_nonneg m : 0 <= count P m.
Proof. unfold count. lia. Qed.

Lemma count_empty : count P ∅ = 0.
Proof. unfold count. by rewrite map_filter_empty, map_size_empty. Qed.

Lemma count_insert m k v :
  m !! k = None -> count P (<[k:=v]> m) = count P m + (if decide (P (k, v)) then 1 else 0).
Proof.
  intros Hk. unfold count. destruct (decide (P (k, v))) as [HP|HP].
  - rewrite map_filter_insert_True by done.
    rewrite map_size_insert_None; [lia|]. apply map_lookup_filter_None. by left.
  - rewrite map_filter_insert_not' ; [lia|done|]. intros y Hy. congruence.
Qed.

Lemma count_delete m k v :
  m !! k = Some v -> count P (delete k m) = count P m - (if decide (P (k, v)) then 1 else 0).
Proof.
  intros Hk. rewrite <- (insert_id m k v Hk) at 2. rewrite <- insert_delete_eq.
  rewrite count_insert by apply lookup_delete_eq. lia.
Qed.

(** An entry that satisfies [P] is counted. *)
Lemma count_pos m k v : m !! k = Some v -> P (k, v) -> 1 <= count P m.
Proof.
  intros Hk HP. pose proof (count_delete m k v Hk) as E.
  rewrite decide_True in E by done. pose proof (count_nonneg (delete k m)). lia.
Qed.

Lemma count_zero m : (forall k v, m !! k = Some v -> ~ P (k, v)) -> count P m = 0.
Proof.
  intros Hn. unfold count. replace (filter P m) with (∅ : gmap K V).
  - by rewrite map_size_empty.
  - symmetry. apply map_empty. intros k. apply map_lookup_filter_None.
    destruct (m !! k) as [v|] eqn:E; [right|by left]. intros v' [= <-]. eauto.
Qed.
End Count.

(** * The physical page allocator *)

(** The links of [pages] from [h] spell the list [l]. *)
Fixpoint chain (s : kstate) (h : option Z) (l : list Z) : Prop :=
  match l with
  | [] => h = None
  | p :: l' => h = Some p /\ chain s (pp_link (page_of s p)) l'
  end.

(** [mg]: the frames under management; [cnt]: how many pointers to each
    exist; [free]: the free frames in list order. *)
Record alloc_ok (mg : Z -> Prop) (cnt : Z -> Z) (free : list Z) (s : kstate) : Prop := {
  ao_chain : chain s (page_free_list s) free;
  ao_nodup : NoDup free;
  ao_free : forall p, p ∈ free -> mg p /\ cnt p = 0;
  ao_link : forall p, p ∉ free -> pp_link (page_of s p) = None;
  ao_ref : forall p, mg p -> pp_ref (page_of s p) = cnt p /\ 0 <= cnt p < 2 ^ 16
}.

Lemma page_of_put s p q i :
  page_of (put_page p i s) q = if decide (p = q) then i else page_of s q.
Proof.
  unfold page_of, put_page. simpl. destruct (decide (p = q)) as [<-|Hn].
  - apply mget_insert.
  - by apply mget_insert_ne.
Qed.

Lemma chain_ext s s' l : forall h,
  (forall p, p ∈ l -> pp_link (page_of s' p) = pp_link (page_of s p)) ->
  chain s h l -> chain s' h l.
Proof.
  induction l as [|p l IH]; intros h Hl Hc; [done|].
  destruct Hc as [-> Hc]. split; [done|]. rewrite Hl by set_solver.
  apply IH; [|done]. intros q Hq. apply Hl. set_solver.
Qed.

(** [alloc_ok] reads only the page array and the head of the list. *)
Lemma alloc_ok_ext mg cnt cnt' free s s' :
  page_free_list s' = page_free_list s -> pages s' = pages s ->
  (forall p, mg p -> cnt' p = cnt p) ->
  alloc_ok mg cnt free s -> alloc_ok mg cnt' free s'.
Proof.
  intros Hf Hp Hc [H1 H2 H3 H4 H5].
  assert (forall p, page_of s' p = page_of s p) as E by (intros; unfold page_of; by rewrite Hp).
  split; [|done| | |].
  - rewrite Hf. apply (chain_ext s); [|done]. intros; by rewrite E.
  - intros p Hpf. destruct (H3 p Hpf) as [Hm Hz]. split; [done|]. by rewrite Hc.
  - intros. rewrite E. auto.
  - intros p Hm. rewrite E, Hc by done. auto.
Qed.

(** * Addresses of frames

    The kernel maps at most 256 MB of physical memory at [KERNBASE]. *)

Definition MAXPAGES : Z := 65536.

(** Kernel address of frame [p], and of word [j] of it. *)
Definition frame_kva (p : Z) : Z := KERNBASE + p * PGSIZE.
Definition entry_kva (p j : Z) : Z := frame_kva p + 4 * j.

Lemma page2pa_mul p : 0 <= p < 2 ^ 20 -> page2pa p = p * PGSIZE.
Proof.
  intros H. unfold page2pa. rewrite Z.shiftl_mul_pow2 by (unfold PGSHIFT; lia).
  change (2 ^ PGSHIFT) with PGSIZE. apply u32_small. unfold is_u32, PGSIZE. lia.
Qed.

Lemma PGNUM_frame p : 0 <= p < 2 ^ 20 -> PGNUM (p * PGSIZE) = p.
Proof.
  intros H. rewrite PGNUM_div by (unfold is_u32, PGSIZE; lia).
  apply Z.div_mul. unfold PGSIZE. lia.
Qed.

Lemma KADDR_frame p s :
  0 <= p < npages s -> npages s <= MAXPAGES ->
  KADDR (p * PGSIZE) s = Ret (frame_kva p) s.
Proof.
  unfold MAXPAGES. intros Hp Hn. unfold KADDR. rewrite PGNUM_frame by lia.
  destruct (Z.leb_spec (npages s) p); [lia|]. f_equal.
  unfold frame_kva, KERNBASE, PGSIZE. rewrite u32_small; [lia|unfold is_u32; lia].
Qed.

Lemma kva_word_entry p j : 0 <= p < MAXPAGES -> 0 <= j < 1024 ->
  kva_word (entry_kva p j) = p * 1024 + j.
Proof.
  unfold MAXPAGES. intros. unfold kva_word, entry_kva, frame_kva, PGSIZE.
  rewrite u32_small by (unfold is_u32, KERNBASE; lia).
  replace (KERNBASE + p * 4096 + 4 * j - KERNBASE) with ((p * 1024 + j) * 4) by lia.
  apply Z.div_mul. lia.
Qed.

Lemma kva_word_frame p : 0 <= p < MAXPAGES -> kva_word (frame_kva p) = p * 1024.
Proof.
  intros. replace (frame_kva p) with (entry_kva p 0) by (unfold entry_kva; lia).
  rewrite kva_word_entry; lia.
Qed.

(** Distinct (frame, slot) pairs are distinct words. *)
Lemma slot_inj p j q k : 0 <= j < 1024 -> 0 <= k < 1024 ->
  p * 1024 + j = q * 1024 + k -> p = q /\ j = k.
Proof. lia. Qed.

(** * State transformers of the allocator *)

Definition alloc_pop (p : Z) (s : kstate) : kstate :=
  put_page p (mkPageInfo None (pp_ref (page_of s p))) (set_free (pp_link (page_of s p)) s).
Definition free_push (p : Z) (s : kstate) : kstate :=
  set_free (Some p) (put_page p (mkPageInfo (page_free_list s) (pp_ref (page_of s p))) s).
Definition with_ref (p r : Z) (s : kstate) : kstate :=
  put_page p (mkPageInfo (pp_link (page_of s p)) r) s.
Definition zero_frame (p : Z) (s : kstate) : kstate :=
  set_mem (mfill (p * 1024) 1024 0 (mem s)) s.

Lemma page_alloc_eq f s p :
  page_free_list s = Some p -> 0 <= p < npages s -> npages s <= MAXPAGES ->
  page_alloc f s
  = Ret (Some p) (if flag f ALLOC_ZERO then zero_frame p (alloc_pop p s) else alloc_pop p s).
Proof.
  intros Hf Hp Hn. unfold page_alloc, bind, gets. rewrite Hf. unfold modify, set_pp_link.
  destruct (flag f ALLOC_ZERO); [|done].
  unfold page2kva. rewrite page2pa_mul by (unfold MAXPAGES in *; lia).
  unfold bind, modify. rewrite KADDR_frame by done. unfold memset_words.
  rewrite kva_word_frame by (unfold MAXPAGES in *; lia). done.
Qed.

Lemma page_alloc_none f s : page_free_list s = None -> page_alloc f s = Ret None s.
Proof. intros Hf. unfold page_alloc, bind, gets. by rewrite Hf. Qed.

Lemma page_free_eq p s :
  pp_ref (page_of s p) = 0 -> pp_link (page_of s p) = None ->
  page_free p s = Ret tt (free_push p s).
Proof.
  intros Hr Hl. unfold page_free, bind, gets, assert_. rewrite Hr, Hl. simpl.
  unfold set_pp_link, modify, free_push. by rewrite Hr.
Qed.

Lemma page_decref_eq p s :
  1 <= pp_ref (page_of s p) < 2 ^ 16 -> pp_link (page_of s p) = None ->
  page_decref p s
  = Ret tt (let r := pp_ref (page_of s p) - 1 in
            if r =? 0 then free_push p (with_ref p r s) else with_ref p r s).
Proof.
  intros Hr Hl. unfold page_decref, bind, gets, set_pp_ref, modify.
  rewrite u16_small by lia. fold (with_ref p (pp_ref (page_of s p) - 1) s).
  cbv zeta. destruct (Z.eqb_spec (pp_ref (page_of s p) - 1) 0) as [E|E]; [|done].
  apply page_free_eq; unfold with_ref; rewrite page_of_put, decide_True by done; simpl; done.
Qed.

(** * The allocator keeps its bookkeeping *)

Lemma alloc_pop_ok mg cnt free s p :
  alloc_ok mg cnt (p :: free) s -> alloc_ok mg cnt free (alloc_pop p s).
Proof.
  intros [H1 H2 H3 H4 H5]. apply NoDup_cons in H2 as [Hni Hnd].
  destruct H1 as [Hh Hc].
  split; [|done| | |].
  - simpl. apply (chain_ext s); [|done]. intros q Hq.
    unfold alloc_pop. rewrite page_of_put. destruct (decide (p = q)) as [->|]; [done|]. done.
  - intros q Hq. apply H3. set_solver.
  - intros q Hq. unfold alloc_pop. rewrite page_of_put.
    destruct (decide (p = q)) as [|]; [done|]. apply H4. set_solver.
  - intros q Hq. unfold alloc_pop. rewrite page_of_put.
    destruct (decide (p = q)) as [<-|]; apply H5; done.
Qed.

Lemma free_push_ok mg cnt free s p :
  alloc_ok mg cnt free s -> mg p -> p ∉ free -> cnt p = 0 ->
  alloc_ok mg cnt (p :: free) (free_push p s).
Proof.
  intros [H1 H2 H3 H4 H5] Hm Hni Hz.
  assert (forall q, page_of (free_push p s) q
    = if decide (p = q) then mkPageInfo (page_free_list s) (pp_ref (page_of s p)) else page_of s q) as E.
  { intros q. unfold free_push. change (page_of (set_free ?x ?y) q) with (page_of y q). apply page_of_put. }
  split.
  - split; [done|]. rewrite E, decide_True by done. simpl.
    apply (chain_ext s); [|done]. intros q Hq. rewrite E.
    destruct (decide (p = q)) as [->|]; done.
  - by apply NoDup_cons.
  - intros q Hq. apply elem_of_cons in Hq as [->|Hq]; [done|]. by apply H3.
  - intros q Hq. rewrite E. destruct (decide (p = q)); [set_solver|]. apply H4. set_solver.
  - intros q Hq. rewrite E. destruct (decide (p = q)) as [<-|]; apply H5; done.
Qed.

Lemma with_ref_ok mg cnt cnt' free s p r :
  alloc_ok mg cnt free s -> p ∉ free -> 0 <= r < 2 ^ 16 -> cnt' p = r ->
  (forall q, q <> p -> cnt' q = cnt q) ->
  alloc_ok mg cnt' free (with_ref p r s).
Proof.
  intros [H1 H2 H3 H4 H5] Hni Hr Hp Hq.
  split; [|done| | |].
  - apply (chain_ext s); [|done]. intros q _. unfold with_ref. rewrite page_of_put.
    by destruct (decide (p = q)) as [->|].
  - intros q Hqf. rewrite Hq by set_solver. by apply H3.
  - intros q Hqf. unfold with_ref. rewrite page_of_put.
    destruct (decide (p = q)) as [<-|]; simpl; by apply H4.
  - intros q Hm. unfold with_ref. rewrite page_of_put.
    destruct (decide (p = q)) as [<-|]; simpl; [lia|]. rewrite Hq by done. by apply H5.
Qed.

(** Dropping one of the [cnt p] pointers to a frame; the last one frees it. *)
Lemma page_decref_ok mg cnt cnt' free s p :
  alloc_ok mg cnt free s -> mg p -> 1 <= cnt p -> cnt' p = cnt p - 1 ->
  (forall q, q <> p -> cnt' q = cnt q) ->
  exists s', page_decref p s = Ret tt s'
    /\ alloc_ok mg cnt' (if cnt p =? 1 then p :: free else free) s'
    /\ (exists pg fl, s' = set_free fl (set_pages pg s)).
Proof.
  intros Ha Hm H1 Hp Hq. pose proof Ha as [Hch Hnd Hfr Hln Hrf].
  assert (p ∉ free) as Hni by (intros Hf; apply Hfr in Hf; lia).
  destruct (Hrf p Hm) as [Er Hb]. rewrite page_decref_eq; [|lia|by apply Hln].
  eexists. split; [done|]. rewrite Er. cbv zeta.
  assert (alloc_ok mg cnt' free (with_ref p (cnt p - 1) s)) as Hw.
  { apply with_ref_ok with cnt; auto; lia. }
  destruct (Z.eqb_spec (cnt p - 1) 0) as [E|E]; destruct (Z.eqb_spec (cnt p) 1) as [E'|E']; try lia.
  - split; [apply free_push_ok; auto; lia|]. unfold free_push, with_ref, put_page.
    eexists _, _. reflexivity.
  - split; [done|]. exists (pages (with_ref p (cnt p - 1) s)), (page_free_list s). by destruct s.
Qed.

(** * The abstract virtual memory *)

(** Page directory entries below [UTOP], and virtual pages below it. *)
Definition UPDX : Z := PDX UTOP.
Definition UVPN : Z := PGNUM UTOP.

Record vm := mkVm {
  v_free : list Z;                  (* free frames *)
  v_resv : gset Z;                  (* frames taken at boot, never managed *)
  v_kdir : Z;                       (* kern_pgdir's frame *)
  v_dirs : gset Z;                  (* frames of the environments' directories *)
  v_tabs : gmap (Z * Z) Z;          (* (directory, PDX) -> page table frame *)
  v_maps : gmap (Z * Z) (Z * Z)     (* (directory, virtual page) -> (frame, flags) *)
}.

Definition v_set_free (x : list Z) (a : vm) : vm :=
  mkVm x (v_resv a) (v_kdir a) (v_dirs a) (v_tabs a) (v_maps a).
Definition v_set_maps (x : gmap (Z * Z) (Z * Z)) (a : vm) : vm :=
  mkVm (v_free a) (v_resv a) (v_kdir a) (v_dirs a) (v_tabs a) x.
Definition v_add_tab (d x t : Z) (fl : list Z) (a : vm) : vm :=
  mkVm fl (v_resv a) (v_kdir a) (v_dirs a) (<[(d, x) := t]> (v_tabs a)) (v_maps a).

(** The directory slots a directory manages itself: the part below [UTOP]
    for an environment (the rest is a copy of kern_pgdir's), everything but
    the self map for kern_pgdir. *)
Definition own (a : vm) (d x : Z) : Prop :=
  (d ∈ v_dirs a /\ 0 <= x < UPDX) \/ (d = v_kdir a /\ 0 <= x < 1024 /\ x <> PDX UVPT).

Definition managed (a : vm) (n p : Z) : Prop := 0 <= p < n /\ p ∉ v_resv a.

(** How many pointers to frame [p] there are: mappings below [UTOP],
    directory entries, and environments whose directory it is. *)
Definition urefs (a : vm) (p : Z) : Z :=
  count (fun kv => kv.1.2 < UVPN /\ kv.2.1 = p) (v_maps a).
Definition trefs (a : vm) (p : Z) : Z := count (fun kv => kv.2 = p) (v_tabs a).
Definition drefs (a : vm) (p : Z) : Z := if bool_decide (p ∈ v_dirs a) then 1 else 0.
Definition refs (a : vm) (p : Z) : Z := urefs a p + trefs a p + drefs a p.

Record vm_wf (a : vm) (n : Z) : Prop := {
  wf_n : 0 <= n <= MAXPAGES;
  wf_kdir : v_kdir a ∈ v_resv a /\ 0 <= v_kdir a < n;
  wf_dirs : forall d, d ∈ v_dirs a -> managed a n d;
  wf_tabs : forall d x t, v_tabs a !! (d, x) = Some t ->
    own a d x /\ managed a n t /\ t ∉ v_dirs a;
  wf_inj : forall k1 k2 t, v_tabs a !! k1 = Some t -> v_tabs a !! k2 = Some t -> k1 = k2;
  wf_maps : forall d v p f, v_maps a !! (d, v) = Some (p, f) ->
    is_Some (v_tabs a !! (d, v / 1024)) /\ 0 <= v /\ 0 <= p < 2 ^ 20 /\ 0 <= f < PGSIZE
    /\ flag f PTE_P = true;
  wf_user : forall d v p f, v_maps a !! (d, v) = Some (p, f) -> v < UVPN ->
    managed a n p /\ (p ∉ v_dirs a) /\ (forall k, (v_tabs a !! k) <> Some p)
}.

(** The flags [pgdir_walk] gives every directory entry. *)
Definition PTE_PWU : Z := Z.lor (Z.lor PTE_P PTE_W) PTE_U.

(** The page tables in memory spell [v_tabs] and [v_maps]. *)
Record pt_ok (a : vm) (s : kstate) : Prop := {
  pt_words : forall w, is_u32 (word_at s w);
  pt_pde : forall d x, own a d x ->
    match v_tabs a !! (d, x) with
    | Some t => word_at s (d * 1024 + x) = mkpte t PTE_PWU
    | None => flag (word_at s (d * 1024 + x)) PTE_P = false
    end;
  pt_pte : forall d x t j, v_tabs a !! (d, x) = Some t -> 0 <= j < 1024 ->
    match v_maps a !! (d, x * 1024 + j) with
    | Some (p, f) => word_at s (t * 1024 + j) = mkpte p f
    | None => word_at s (t * 1024 + j) = 0
    end
}.

(** [ex p] counts pointers to [p] the running kernel code holds that are in
    no table yet. *)
Record vm_rel (ex : Z -> Z) (a : vm) (s : kstate) : Prop := {
  rel_wf : vm_wf a (npages s);
  rel_alloc : alloc_ok (managed a (npages s)) (fun p => refs a p + ex p) (v_free a) s;
  rel_pt : pt_ok a s;
  rel_ex : forall p, 0 <= ex p
}.

Definition no_ex : Z -> Z := fun _ => 0.

Lemma UPDX_val : UPDX = 955.
Proof. reflexivity. Qed.

Lemma UVPN_val : UVPN = 955 * 1024.
Proof. reflexivity. Qed.

Lemma PDX_UVPT_val : PDX UVPT = 957.
Proof. reflexivity. Qed.

Lemma urefs_nonneg a p : 0 <= urefs a p.
Proof. apply count_nonneg. Qed.
Lemma trefs_nonneg a p : 0 <= trefs a p.
Proof. apply count_nonneg. Qed.
Lemma drefs_nonneg a p : 0 <= drefs a p.
Proof. unfold drefs. case_bool_decide; lia. Qed.

Lemma refs_nonneg a p : 0 <= refs a p.
Proof. pose proof (urefs_nonneg a p). pose proof (trefs_nonneg a p).
  pose proof (drefs_nonneg a p). unfold refs. lia. Qed.

#[export] Hint Resolve urefs_nonneg trefs_nonneg drefs_nonneg refs_nonneg : jos.

Lemma trefs_tab a k t : v_tabs a !! k = Some t -> 1 <= trefs a t.
Proof. intros H. unfold trefs. by apply (count_pos _ _ k t). Qed.

Lemma urefs_map a d v p f : v_maps a !! (d, v) = Some (p, f) -> v < UVPN -> 1 <= urefs a p.
Proof. intros H Hv. unfold urefs. by apply (count_pos _ _ (d, v) (p, f)). Qed.

Lemma drefs_dir a d : d ∈ v_dirs a -> drefs a d = 1.
Proof. intros. unfold drefs. by rewrite bool_decide_eq_true_2. Qed.

Section Rel.
Context (ex : Z -> Z) (a : vm) (s : kstate) (HR : vm_rel ex a s).

Let Hwf : vm_wf a (npages s) := rel_wf _ _ _ HR.

(** A free frame has no pointer at all. *)
Lemma free_no_refs p : p ∈ v_free a ->
  managed a (npages s) p /\ urefs a p = 0 /\ trefs a p = 0 /\ (p ∉ v_dirs a) /\ ex p = 0.
Proof.
  intros Hp. destruct (ao_free _ _ _ _ (rel_alloc _ _ _ HR) p Hp) as [Hm Hz]. cbv beta in Hz.
  pose proof (urefs_nonneg a p). pose proof (trefs_nonneg a p). pose proof (drefs_nonneg a p).
  pose proof (rel_ex _ _ _ HR p). unfold refs in Hz.
  split_and!; [done|lia|lia| |lia]. intros Hd. pose proof (drefs_dir a p Hd). lia.
Qed.

Lemma free_not_tab p k : p ∈ v_free a -> (v_tabs a !! k) <> Some p.
Proof.
  intros Hp Hk. destruct (free_no_refs p Hp) as (_ & _ & Ht & _).
  pose proof (trefs_tab a k p Hk). lia.
Qed.

Lemma own_dir d x : own a d x ->
  (d ∈ v_dirs a \/ d = v_kdir a) /\ 0 <= d < npages s /\ 0 <= x < 1024.
Proof.
  intros [[Hd Hx]|(-> & Hx & _)].
  - destruct (wf_dirs _ _ Hwf d Hd). rewrite UPDX_val in Hx. split_and!; [auto|lia..].
  - destruct (wf_kdir _ _ Hwf). split_and!; [auto|lia..].
Qed.

Lemma free_not_dir p d x : p ∈ v_free a -> own a d x -> p <> d.
Proof.
  intros Hp Ho ->. destruct (free_no_refs d Hp) as ([Hm Hr] & _ & _ & Hnd & _).
  destruct (own_dir d x Ho) as ([Hd| ->] & _ & _); [done|].
  by destruct (wf_kdir _ _ Hwf).
Qed.

Lemma tab_not_dir k t d x : v_tabs a !! k = Some t -> own a d x -> t <> d.
Proof.
  intros Ht Ho ->. destruct k as [d' x'].
  destruct (wf_tabs _ _ Hwf d' x' d Ht) as (_ & [_ Hr] & Hnd).
  destruct (own_dir d x Ho) as ([Hd| ->] & _ & _); [done|].
  by destruct (wf_kdir _ _ Hwf).
Qed.

Lemma tab_range d x t : v_tabs a !! (d, x) = Some t -> 0 <= t < npages s.
Proof. intros Ht. by destruct (wf_tabs _ _ Hwf d x t Ht) as (_ & [? _] & _). Qed.

Lemma tab_refs k t : v_tabs a !! k = Some t -> refs a t = 1.
Proof.
  intros Hk. destruct k as [d x].
  destruct (wf_tabs _ _ Hwf d x t Hk) as (_ & Hm & Hnd).
  assert (urefs a t = 0) as Hu.
  { apply count_zero. intros [d' v] [p f] Hv [Hlt Heq]. simpl in *. subst p.
    destruct (wf_user _ _ Hwf d' v t f Hv Hlt) as (_ & _ & Hn). by apply (Hn (d, x)). }
  assert (trefs a t = 1) as Ht.
  { unfold trefs. rewrite <- (insert_id (v_tabs a) (d, x) t Hk), <- insert_delete_eq.
    rewrite count_insert by apply lookup_delete_eq. rewrite decide_True by done.
    rewrite count_zero; [lia|]. intros k' v' Hk' Hv'. simpl in Hv'. subst v'.
    apply lookup_delete_Some in Hk' as [Hne Hk']. apply Hne.
    by apply (wf_inj _ _ Hwf _ _ t). }
  unfold refs, drefs. rewrite bool_decide_eq_false_2 by done. lia.
Qed.
End Rel.

(** * Walking the page tables *)

Lemma load32_entry s p j : 0 <= p < MAXPAGES -> 0 <= j < 1024 ->
  load32 (entry_kva p j) s = word_at s (p * 1024 + j).
Proof. intros. unfold load32. by rewrite kva_word_entry. Qed.

Definition store_slot (p j v : Z) (s : kstate) : kstate :=
  set_mem (<[p * 1024 + j := u32 v]> (mem s)) s.

Lemma store32_entry s p j v : 0 <= p < MAXPAGES -> 0 <= j < 1024 ->
  store32 (entry_kva p j) v s = Ret tt (store_slot p j v s).
Proof. intros. unfold store32, modify. by rewrite kva_word_entry. Qed.

Lemma word_at_store_slot s p j v w :
  word_at (store_slot p j v s) w = if decide (p * 1024 + j = w) then u32 v else word_at s w.
Proof.
  unfold word_at, store_slot. simpl. destruct (decide _) as [<-|Hn].
  - apply mget_insert.
  - by apply mget_insert_ne.
Qed.

Lemma word_at_zero_frame s p w :
  word_at (zero_frame p s) w = if decide (w / 1024 = p) then 0 else word_at s w.
Proof.
  unfold word_at, zero_frame. simpl mem. rewrite mfill_get.
  change (Z.of_nat 1024) with 1024.
  destruct (Z.leb_spec (p * 1024) w), (Z.ltb_spec w (p * 1024 + 1024)); simpl;
    destruct (decide (w / 1024 = p)) as [E|E]; try done; exfalso;
    pose proof (Z.div_mod w 1024); pose proof (Z.mod_pos_bound w 1024); lia.
Qed.

Lemma frame_kva_range p : 0 <= p < MAXPAGES -> is_u32 (frame_kva p) /\ frame_kva p <> 0.
Proof. unfold MAXPAGES, frame_kva, is_u32, KERNBASE, PGSIZE. lia. Qed.

Lemma entry_kva_u32 p j : 0 <= p < MAXPAGES -> 0 <= j < 1024 ->
  u32 (frame_kva p + 4 * j) = entry_kva p j /\ entry_kva p j <> 0.
Proof.
  unfold MAXPAGES. intros. unfold entry_kva, frame_kva, KERNBASE, PGSIZE.
  split; [|lia]. apply u32_small. unfold is_u32. lia.
Qed.

(** A fresh page table for slot [x] of directory [d] in frame [t]. *)
Definition new_table (d x t : Z) (s : kstate) : kstate :=
  let s1 := zero_frame t (alloc_pop t s) in
  store_slot d x (mkpte t (Z.lor (Z.lor PTE_P PTE_W) PTE_U))
    (with_ref t (u16 (pp_ref (page_of s1 t) + 1)) s1).

Section Walk.
Context (ex : Z -> Z) (a : vm) (s : kstate) (HR : vm_rel ex a s).
Context (d va : Z) (Hown : own a d (PDX va)).

Let Hwf : vm_wf a (npages s) := rel_wf _ _ _ HR.

Lemma dir_max : 0 <= d < MAXPAGES.
Proof. destruct (own_dir ex a s HR d _ Hown) as (_ & Hd & _). destruct (wf_n _ _ Hwf). lia. Qed.

Lemma tab_max x t : v_tabs a !! (d, x) = Some t -> 0 <= t < MAXPAGES.
Proof. intros Ht. pose proof (tab_range ex a s HR d x t Ht). destruct (wf_n _ _ Hwf). lia. Qed.

Lemma pde_load : load32 (u32 (frame_kva d + 4 * PDX va)) s = word_at s (d * 1024 + PDX va).
Proof.
  pose proof dir_max. pose proof (PDX_range va).
  destruct (entry_kva_u32 d (PDX va)) as [-> _]; [done..|]. by apply load32_entry.
Qed.

Lemma pgdir_walk_present t create :
  v_tabs a !! (d, PDX va) = Some t ->
  pgdir_walk (frame_kva d) va create s = Ret (entry_kva t (PTX va)) s.
Proof.
  intros Ht. pose proof dir_max as Hd. pose proof (tab_max _ _ Ht) as Htm.
  pose proof (pt_pde _ _ (rel_pt _ _ _ HR) d (PDX va) Hown) as Hp. rewrite Ht in Hp.
  assert (0 <= PTE_PWU < PGSIZE) as Hf by (by vm_compute).
  unfold pgdir_walk, assert_. destruct (frame_kva_range d Hd) as [_ Hnz].
  apply Z.eqb_neq in Hnz. rewrite Hnz. mred.
  unfold bind, ret, gets. rewrite pde_load, Hp.
  rewrite flag_mkpte by (unfold PTE_P, PGSIZE; lia).
  change (flag PTE_PWU PTE_P) with true. mred.
  rewrite pde_load, Hp, PTE_ADDR_mkpte by (unfold MAXPAGES in *; lia).
  rewrite KADDR_frame; [|by apply (tab_range ex a s HR d (PDX va))|apply (wf_n _ _ Hwf)].
  f_equal. apply entry_kva_u32; [done|apply PTX_range].
Qed.

Lemma pgdir_walk_absent :
  v_tabs a !! (d, PDX va) = None -> pgdir_walk (frame_kva d) va false s = Ret 0 s.
Proof.
  intros Ht. pose proof dir_max as Hd.
  pose proof (pt_pde _ _ (rel_pt _ _ _ HR) d (PDX va) Hown) as Hp. rewrite Ht in Hp.
  unfold pgdir_walk, assert_. destruct (frame_kva_range d Hd) as [_ Hnz].
  apply Z.eqb_neq in Hnz. rewrite Hnz. mred.
  unfold bind, ret, gets. rewrite pde_load, Hp. done.
Qed.

Lemma pgdir_walk_nomem :
  v_tabs a !! (d, PDX va) = None -> v_free a = [] ->
  pgdir_walk (frame_kva d) va true s = Ret 0 s.
Proof.
  intros Ht Hfr. pose proof dir_max as Hd.
  pose proof (pt_pde _ _ (rel_pt _ _ _ HR) d (PDX va) Hown) as Hp. rewrite Ht in Hp.
  pose proof (ao_chain _ _ _ _ (rel_alloc _ _ _ HR)) as Hc. rewrite Hfr in Hc. simpl in Hc.
  unfold pgdir_walk, assert_. destruct (frame_kva_range d Hd) as [_ Hnz].
  apply Z.eqb_neq in Hnz. rewrite Hnz. mred.
  unfold bind, ret, gets. rewrite pde_load, Hp. mred.
  rewrite page_alloc_none by done. done.
Qed.

Lemma pgdir_walk_create t fl :
  v_tabs a !! (d, PDX va) = None -> v_free a = t :: fl ->
  pgdir_walk (frame_kva d) va true s = Ret (entry_kva t (PTX va)) (new_table d (PDX va) t s).
Proof.
  intros Ht Hfr. pose proof dir_max as Hd. pose proof (wf_n _ _ Hwf) as Hn.
  pose proof (pt_pde _ _ (rel_pt _ _ _ HR) d (PDX va) Hown) as Hp. rewrite Ht in Hp.
  pose proof (ao_chain _ _ _ _ (rel_alloc _ _ _ HR)) as Hc. rewrite Hfr in Hc.
  destruct Hc as [Hhead _].
  assert (t ∈ v_free a) as Htf by (rewrite Hfr; set_solver).
  destruct (free_no_refs ex a s HR t Htf) as ([Htr _] & _).
  pose proof (PDX_range va) as Hx. pose proof (PTX_range va).
  assert (0 <= t < MAXPAGES) as Htm by lia.
  unfold pgdir_walk, assert_. destruct (frame_kva_range d Hd) as [_ Hnz].
  apply Z.eqb_neq in Hnz. rewrite Hnz. mred.
  unfold bind, ret, gets. rewrite pde_load, Hp. mred.
  rewrite (page_alloc_eq ALLOC_ZERO s t) by (done || lia). change (flag ALLOC_ZERO ALLOC_ZERO) with true.
  mred. unfold set_pp_ref, modify. mred.
  destruct (entry_kva_u32 d (PDX va)) as [-> _]; [done..|].
  rewrite store32_entry by done.
  rewrite page2pa_mul by (unfold MAXPAGES in *; lia).
  rewrite <- !Z.lor_assoc. rewrite lor_pte by (cbv; split; [discriminate|reflexivity]).
  set (s' := store_slot d (PDX va) _ _).
  assert (s' = new_table d (PDX va) t s) as E by (unfold s', new_table; by rewrite <- Z.lor_assoc).
  rewrite E. rewrite load32_entry by done.
  unfold new_table at 1. cbv zeta. rewrite word_at_store_slot, decide_True by done.
  rewrite u32_small by (apply mkpte_u32; [unfold MAXPAGES in *; lia|cbv; split; [discriminate|reflexivity]]).
  rewrite PTE_ADDR_mkpte by (first [unfold MAXPAGES in *; lia|cbv; split; [discriminate|reflexivity]]).
  rewrite KADDR_frame; [|simpl; lia|simpl; lia]. f_equal. by apply entry_kva_u32.
Qed.
End Walk.

(** * Adding a page table *)

Lemma word_at_new_table d x t s w : 0 <= t < 2 ^ 20 ->
  word_at (new_table d x t s) w
  = if decide (d * 1024 + x = w) then mkpte t PTE_PWU
    else if decide (w / 1024 = t) then 0 else word_at s w.
Proof.
  intros Ht. unfold new_table. cbv zeta. rewrite word_at_store_slot.
  destruct (decide _); [apply u32_small, mkpte_u32; [lia|by vm_compute]|].
  change (word_at (with_ref ?a ?b ?c) w) with (word_at c w).
  rewrite word_at_zero_frame. done.
Qed.

Lemma frame_div p j : 0 <= j < 1024 -> (p * 1024 + j) / 1024 = p.
Proof. intros. rewrite Z.div_add_l by lia. rewrite Z.div_small by lia. lia. Qed.

Lemma refs_add_tab a d x t fl p :
  v_tabs a !! (d, x) = None ->
  refs (v_add_tab d x t fl a) p = refs a p + (if decide (t = p) then 1 else 0).
Proof.
  intros Hn. unfold refs, urefs, trefs, drefs. simpl.
  rewrite count_insert by done. simpl. lia.
Qed.

Section NewTable.
Context (ex : Z -> Z) (a : vm) (s : kstate) (HR : vm_rel ex a s).
Context (d x t : Z) (fl : list Z) (Hown : own a d x).
Context (Hnone : v_tabs a !! (d, x) = None) (Hfree : v_free a = t :: fl).

Let Hwf : vm_wf a (npages s) := rel_wf _ _ _ HR.
Let a' := v_add_tab d x t fl a.

Lemma new_table_free : t ∈ v_free a.
Proof. rewrite Hfree. set_solver. Qed.

Lemma new_table_wf : vm_wf a' (npages s).
Proof.
  destruct (free_no_refs ex a s HR t new_table_free) as (Hm & Hu & Ht & Hd & _).
  destruct Hwf as [W1 W2 W3 W4 W5 W6 W7].
  split; [done|done|done| | | |].
  - intros d' x' t' Hl. unfold a' in Hl. simpl in Hl.
    apply lookup_insert_Some in Hl as [[[= <- <-] <-]|[_ Hl]]; [done|]. by apply W4.
  - intros k1 k2 t' H1 H2. unfold a' in *. simpl in *.
    apply lookup_insert_Some in H1 as [[<- <-]|[_ H1]];
      apply lookup_insert_Some in H2 as [[<- Heq]|[_ H2]]; [done| | |].
    + exfalso. by apply (free_not_tab ex a s HR t k2 new_table_free).
    + subst t'. exfalso. by apply (free_not_tab ex a s HR t k1 new_table_free).
    + by apply (W5 _ _ t').
  - intros d' v p f Hl. destruct (W6 d' v p f Hl) as (Hs & Hrest). split; [|done].
    unfold a'. simpl. apply lookup_insert_is_Some'. by right.
  - intros d' v p f Hl Hv. destruct (W7 d' v p f Hl Hv) as (Hmp & Hdp & Htp).
    split; [done|]. split; [done|]. intros k Hk. unfold a' in Hk. simpl in Hk.
    apply lookup_insert_Some in Hk as [[_ ->]|[_ Hk]]; [|by apply (Htp k)].
    pose proof (urefs_map a d' v p f Hl Hv). lia.
Qed.

Lemma new_table_alloc :
  alloc_ok (managed a' (npages s)) (fun p => refs a' p + ex p) fl (new_table d x t s).
Proof.
  destruct (free_no_refs ex a s HR t new_table_free) as (Hm & _).
  pose proof (rel_alloc _ _ _ HR) as Ha. rewrite Hfree in Ha.
  pose proof (alloc_pop_ok _ _ _ _ _ Ha) as Hp.
  destruct (ao_free _ _ _ _ Ha t ltac:(set_solver)) as [_ Hz]. cbv beta in Hz.
  assert (t ∉ fl) as Hni by (apply (NoDup_cons t fl), (ao_nodup _ _ _ _ Ha)).
  assert (pp_ref (page_of (zero_frame t (alloc_pop t s)) t) = 0) as Er.
  { change (page_of (zero_frame t (alloc_pop t s)) t) with (page_of (alloc_pop t s) t).
    destruct (ao_ref _ _ _ _ Hp t Hm) as [-> _]. done. }
  apply alloc_ok_ext with (s := with_ref t 1 (alloc_pop t s)) (cnt := fun p => refs a' p + ex p).
  - done.
  - unfold new_table. cbv zeta. rewrite Er. done.
  - done.
  - apply with_ref_ok with (cnt := fun p => refs a p + ex p); [done|done|lia| |].
    + unfold a'. rewrite refs_add_tab, decide_True by done. lia.
    + intros q Hq. unfold a'. rewrite refs_add_tab, decide_False by done. lia.
Qed.

Lemma new_table_pt : pt_ok a' (new_table d x t s).
Proof.
  destruct (free_no_refs ex a s HR t new_table_free) as ([Htr _] & _).
  pose proof (wf_n _ _ Hwf) as Hn. destruct (rel_pt _ _ _ HR) as [P1 P2 P3].
  destruct (own_dir ex a s HR d x Hown) as (_ & _ & Hx).
  pose proof (free_not_dir ex a s HR t d x new_table_free Hown) as Htd.
  assert (0 <= t < 2 ^ 20) as Ht20 by (unfold MAXPAGES in *; lia).
  split.
  - intros w. rewrite word_at_new_table by done.
    destruct (decide _); [apply mkpte_u32; [lia|by vm_compute]|].
    destruct (decide _); [by vm_compute|apply P1].
  - intros d' x' Ho. change (own a d' x') in Ho.
    destruct (own_dir ex a s HR d' x' Ho) as (_ & _ & Hx').
    pose proof (free_not_dir ex a s HR t d' x' new_table_free Ho) as Htd'.
    rewrite word_at_new_table by done. unfold a'. simpl.
    destruct (decide (d * 1024 + x = d' * 1024 + x')) as [E|E].
    + apply slot_inj in E as [-> ->]; [|done|done]. by rewrite lookup_insert_eq.
    + rewrite lookup_insert_ne by congruence. rewrite frame_div by done.
      rewrite decide_False by done. by apply P2.
  - intros d' x' t' j Hl Hj. unfold a' in *. simpl in *.
    rewrite word_at_new_table by done.
    apply lookup_insert_Some in Hl as [[[= <- <-] <-]|[Hne Hl]].
    + rewrite decide_False by (intros E; apply slot_inj in E; naive_solver lia).
      rewrite frame_div, decide_True by done.
      destruct (v_maps a !! (d, x * 1024 + j)) as [[p f]|] eqn:Em; [|by vm_compute].
      destruct (wf_maps _ _ Hwf _ _ _ _ Em) as ([t2 Ht2] & _).
      rewrite frame_div in Ht2 by done. congruence.
    + pose proof (tab_not_dir ex a s HR (d', x') t' d x Hl Hown).
      assert (t' <> t) by (intros ->; by apply (free_not_tab ex a s HR t (d', x') new_table_free)).
      rewrite decide_False by (intros E; apply slot_inj in E; naive_solver lia).
      rewrite frame_div, decide_False by done. by apply (P3 d' x').
Qed.

Lemma new_table_rel : vm_rel ex a' (new_table d x t s).
Proof.
  split; [exact new_table_wf|exact new_table_alloc|exact new_table_pt|exact (rel_ex _ _ _ HR)].
Qed.
End NewTable.

(** * Abstract operations *)

(** Unmapping a page frees its frame with the last pointer to it. *)
Definition v_unmap (ex : Z -> Z) (d v : Z) (a : vm) : vm :=
  match v_maps a !! (d, v) with
  | None => a
  | Some (p, _) =>
      let a1 := v_set_maps (delete (d, v) (v_maps a)) a in
      if refs a1 p + ex p =? 0 then v_set_free (p :: v_free a) a1 else a1
  end.

Definition v_map (d v p f : Z) (a : vm) : vm := v_set_maps (<[(d, v) := (p, f)]> (v_maps a)) a.

(** Walking to a missing table takes the first free frame for it. *)
Definition v_walk (d x : Z) (a : vm) : vm :=
  match v_tabs a !! (d, x) with
  | Some _ => a
  | None => match v_free a with [] => a | t :: fl => v_add_tab d x t fl a end
  end.

Definition plus_one (ex : Z -> Z) (p : Z) : Z -> Z :=
  fun q => ex q + (if decide (q = p) then 1 else 0).

(** Replace whatever (d, v) maps by frame [p]. *)
Definition v_insert (ex : Z -> Z) (d v p f : Z) (a : vm) : vm :=
  v_map d v p f (v_unmap (plus_one ex p) d v (v_walk d (v / 1024) a)).

(** No table for the page and no frame to make one of. *)
Definition v_full (d x : Z) (a : vm) : Prop := v_tabs a !! (d, x) = None /\ v_free a = [].

(** The memory manager changes only its own arrays, memory and the TLB. *)
Definition vm_frame (s s' : kstate) : Prop :=
  exists pg fl m t, s' = set_cr3 (cr3 s) t (set_mem m (set_free fl (set_pages pg s))).

Lemma vm_frame_refl s : vm_frame s s.
Proof. exists (pages s), (page_free_list s), (mem s), (tlb s). by destruct s. Qed.

Lemma vm_frame_trans s1 s2 s3 : vm_frame s1 s2 -> vm_frame s2 s3 -> vm_frame s1 s3.
Proof.
  intros (p1 & f1 & m1 & t1 & ->) (p2 & f2 & m2 & t2 & ->).
  exists p2, f2, m2, t2. reflexivity.
Qed.

Lemma vm_frame_put_page p i s : vm_frame s (put_page p i s).
Proof. exists (<[p := i]> (pages s)), (page_free_list s), (mem s), (tlb s). by destruct s. Qed.

Lemma vm_frame_set_free l s : vm_frame s (set_free l s).
Proof. exists (pages s), l, (mem s), (tlb s). by destruct s. Qed.

Lemma vm_frame_set_mem m s : vm_frame s (set_mem m s).
Proof. exists (pages s), (page_free_list s), m, (tlb s). by destruct s. Qed.

Lemma vm_frame_with_ref p r s : vm_frame s (with_ref p r s).
Proof. apply vm_frame_put_page. Qed.

Lemma vm_frame_store_slot p j w s : vm_frame s (store_slot p j w s).
Proof. apply vm_frame_set_mem. Qed.

Lemma vm_frame_new_table d x t s : vm_frame s (new_table d x t s).
Proof.
  unfold new_table. cbv zeta. eapply vm_frame_trans; [|apply vm_frame_store_slot].
  eapply vm_frame_trans; [|apply vm_frame_with_ref].
  eapply vm_frame_trans; [|apply vm_frame_set_mem].
  unfold alloc_pop. eapply vm_frame_trans; [apply vm_frame_set_free|apply vm_frame_put_page].
Qed.

(** A frame whose contents the memory manager leaves alone. *)
Definition data_frame (a : vm) (p : Z) : Prop :=
  (p ∉ v_free a) /\ (p ∉ v_dirs a) /\ p <> v_kdir a /\ (forall k, (v_tabs a !! k) <> Some p).

Definition same_frame (p : Z) (s s' : kstate) : Prop :=
  forall j, 0 <= j < 1024 -> word_at s' (p * 1024 + j) = word_at s (p * 1024 + j).

(** The processor walks [pgdir], or no environment is current: the
    condition of [tlb_invalidate]. *)
Definition flushes (pgdir : Z) (s : kstate) : bool :=
  match curenv s with None => true | Some e => env_pgdir (env_of s e) =? pgdir end.

Definition flush (pgdir va : Z) (s : kstate) : gmap Z Z :=
  if flushes pgdir s then delete (PGNUM va) (tlb s) else tlb s.

Lemma tlb_invalidate_eq pgdir va s :
  tlb_invalidate pgdir va s = Ret tt (set_cr3 (cr3 s) (flush pgdir va s) s).
Proof.
  unfold tlb_invalidate, flush, flushes. destruct (curenv s) as [e|]; [|done].
  destruct (env_pgdir (env_of s e) =? pgdir); [done|]. by destruct s.
Qed.

(** The free list plays no part in the shape of the tables. *)
Lemma vm_wf_free x a n : vm_wf a n -> vm_wf (v_set_free x a) n.
Proof. intros [W1 W2 W3 W4 W5 W6 W7]. by split. Qed.

Lemma pt_ok_free x a s : pt_ok a s -> pt_ok (v_set_free x a) s.
Proof. intros [P1 P2 P3]. by split. Qed.

Section Unmap.
Context (ex : Z -> Z) (a : vm) (s : kstate) (HR : vm_rel ex a s).
Context (d va : Z) (Hva : is_u32 va) (Hown : own a d (PDX va)) (Hu : PGNUM va < UVPN).

Let Hwf : vm_wf a (npages s) := rel_wf _ _ _ HR.
Let v := PGNUM va.

Lemma va_split : v = PDX va * 1024 + PTX va.
Proof. by apply PGNUM_split. Qed.

Lemma va_pdx : v / 1024 = PDX va.
Proof. rewrite va_split. apply frame_div, PTX_range. Qed.

Lemma map_tab p f : v_maps a !! (d, v) = Some (p, f) -> exists t, v_tabs a !! (d, PDX va) = Some t.
Proof. intros Hm. destruct (wf_maps _ _ Hwf _ _ _ _ Hm) as ([t Ht] & _). rewrite va_pdx in Ht. eauto. Qed.

Lemma page_lookup_some p f t :
  v_maps a !! (d, v) = Some (p, f) -> v_tabs a !! (d, PDX va) = Some t ->
  page_lookup (frame_kva d) va s = Ret (Some (p, entry_kva t (PTX va))) s.
Proof.
  intros Hm Ht. destruct (wf_maps _ _ Hwf _ _ _ _ Hm) as (_ & _ & Hp & Hf & HfP).
  destruct (wf_user _ _ Hwf _ _ _ _ Hm Hu) as ([Hpn _] & _).
  pose proof (pt_pte _ _ (rel_pt _ _ _ HR) d (PDX va) t (PTX va) Ht (PTX_range va)) as Hw.
  rewrite <- va_split, Hm in Hw.
  assert (0 <= t < MAXPAGES) as Htm by (by apply (tab_max ex a s HR d (PDX va))).
  unfold page_lookup, bind, gets. rewrite (pgdir_walk_present ex a s HR d va Hown t) by done.
  destruct (entry_kva_u32 t (PTX va)) as [_ Hnz]; [done|apply PTX_range|].
  apply Z.eqb_neq in Hnz. rewrite Hnz. rewrite load32_entry by (done || apply PTX_range).
  rewrite Hw, flag_mkpte by (unfold PTE_P, PGSIZE; lia). rewrite HfP. mred.
  unfold pa2page. rewrite PTE_ADDR_mkpte, PGNUM_frame by done.
  destruct (Z.leb_spec (npages s) p); [lia|done].
Qed.

Lemma page_lookup_none : v_maps a !! (d, v) = None -> page_lookup (frame_kva d) va s = Ret None s.
Proof.
  intros Hm. unfold page_lookup, bind, gets.
  destruct (v_tabs a !! (d, PDX va)) as [t|] eqn:Ht.
  - pose proof (pt_pte _ _ (rel_pt _ _ _ HR) d (PDX va) t (PTX va) Ht (PTX_range va)) as Hw.
    rewrite <- va_split, Hm in Hw.
    assert (0 <= t < MAXPAGES) as Htm by (by apply (tab_max ex a s HR d (PDX va))).
    rewrite (pgdir_walk_present ex a s HR d va Hown t) by done.
    destruct (entry_kva_u32 t (PTX va)) as [_ Hnz]; [done|apply PTX_range|].
    apply Z.eqb_neq in Hnz. rewrite Hnz. rewrite load32_entry by (done || apply PTX_range).
    rewrite Hw. done.
  - rewrite (pgdir_walk_absent ex a s HR d va Hown) by done. done.
Qed.

(** Deleting a mapping keeps the shape of the address spaces. *)
Lemma delete_wf k : vm_wf (v_set_maps (delete k (v_maps a)) a) (npages s).
Proof.
  destruct Hwf as [W1 W2 W3 W4 W5 W6 W7]. split; try done.
  - intros d' v' p f Hl. simpl in Hl. apply lookup_delete_Some in Hl as [_ Hl]. by apply W6.
  - intros d' v' p f Hl. simpl in Hl. apply lookup_delete_Some in Hl as [_ Hl]. by apply (W7 d' v' p f).
Qed.

Lemma refs_delete p f q :
  v_maps a !! (d, v) = Some (p, f) ->
  refs (v_set_maps (delete (d, v) (v_maps a)) a) q = refs a q - (if decide (q = p) then 1 else 0).
Proof.
  intros Hm. unfold refs, urefs, trefs, drefs. simpl. rewrite (count_delete _ _ _ _ Hm). simpl.
  destruct (decide (v < UVPN /\ p = q)) as [[_ Hpq]|Hn].
  - rewrite (decide_True (P := q = p)) by done. lia.
  - rewrite (decide_False (P := q = p)) by (intros ->; by apply Hn). lia.
Qed.

(** Clearing the slot in memory matches deleting the mapping. *)
Lemma clear_slot_pt t p f s' :
  v_maps a !! (d, v) = Some (p, f) -> v_tabs a !! (d, PDX va) = Some t -> mem s' = mem s ->
  pt_ok (v_set_maps (delete (d, v) (v_maps a)) a) (store_slot t (PTX va) 0 s').
Proof.
  intros Hm Ht Hmem. destruct (rel_pt _ _ _ HR) as [P1 P2 P3].
  assert (forall w, word_at s' w = word_at s w) as E by (intros; unfold word_at; by rewrite Hmem).
  pose proof (PTX_range va). split.
  - intros w. rewrite word_at_store_slot, E. destruct (decide _); [by vm_compute|apply P1].
  - intros d' x' Ho. change (own a d' x') in Ho. rewrite word_at_store_slot, E.
    destruct (own_dir ex a s HR d' x' Ho) as (_ & _ & Hx').
    pose proof (tab_not_dir ex a s HR _ _ d' x' Ht Ho).
    rewrite decide_False by (intros Eq; apply slot_inj in Eq; naive_solver lia). by apply P2.
  - intros d' x' t' j Hl Hj. simpl in *. rewrite word_at_store_slot, E.
    destruct (decide (t * 1024 + PTX va = t' * 1024 + j)) as [Eq|Eq].
    + apply slot_inj in Eq as [<- <-]; [|done|done].
      pose proof (wf_inj _ _ Hwf _ _ _ Ht Hl) as [= <- <-].
      rewrite <- va_split, lookup_delete_eq. done.
    + rewrite lookup_delete_ne; [by apply P3|].
      intros [= <- Eq2]. rewrite va_split in Eq2. apply slot_inj in Eq2 as [<- <-]; [|apply PTX_range|done].
      congruence.
Qed.

Lemma page_remove_spec :
  exists s', page_remove (frame_kva d) va s = Ret tt s'
    /\ vm_rel ex (v_unmap ex d v a) s' /\ vm_frame s s'
    /\ (forall q, data_frame a q -> same_frame q s s')
    /\ tlb s' = (if decide (is_Some (v_maps a !! (d, v))) then flush (frame_kva d) va s else tlb s).
Proof.
  unfold page_remove, v_unmap. destruct (v_maps a !! (d, v)) as [[p f]|] eqn:Hm.
  2:{ exists s. unfold bind. rewrite page_lookup_none by done.
      rewrite decide_False by (by intros [? ?]). split_and!; try done. apply vm_frame_refl. }
  destruct (map_tab p f Hm) as [t Ht]. unfold bind. rewrite (page_lookup_some p f t) by done.
  destruct (wf_user _ _ Hwf _ _ _ _ Hm Hu) as (Hmg & Hpd & Hpt).
  pose proof (urefs_map a d v p f Hm Hu) as Hu1.
  set (a1 := v_set_maps (delete (d, v) (v_maps a)) a).
  pose proof (rel_ex _ _ _ HR p) as Hex.
  destruct (page_decref_ok _ (fun q => refs a q + ex q) (fun q => refs a1 q + ex q) _ s p (rel_alloc _ _ _ HR))
    as (s1 & E1 & Ha1 & pg & fl & ->); [done| | | |].
  { pose proof (trefs_nonneg a p). pose proof (drefs_nonneg a p). unfold refs. lia. }
  { unfold a1. rewrite (refs_delete p f) by done. rewrite decide_True by done. lia. }
  { intros q Hq. unfold a1. rewrite (refs_delete p f) by done. rewrite decide_False by done. lia. }
  rewrite E1, tlb_invalidate_eq.
  assert (0 <= t < MAXPAGES) as Htm by (by apply (tab_max ex a s HR d (PDX va))).
  rewrite store32_entry by (done || apply PTX_range).
  eexists. split; [done|].
  assert (refs a1 p = refs a p - 1) as Er.
  { unfold a1. rewrite (refs_delete p f), decide_True by done. done. }
  split; [|split; [|split]].
  - set (fr := if refs a1 p + ex p =? 0 then p :: v_free a else v_free a).
    assert ((if refs a1 p + ex p =? 0 then v_set_free (p :: v_free a) a1 else a1) = v_set_free fr a1) as ->.
    { unfold fr. by destruct (refs a1 p + ex p =? 0). }
    split; [apply vm_wf_free, (delete_wf (d, v))| |apply pt_ok_free, (clear_slot_pt t p f); done
      |exact (rel_ex _ _ _ HR)].
    apply alloc_ok_ext with (s := set_free fl (set_pages pg s)) (cnt := fun q => refs a1 q + ex q);
      [done..|].
    replace fr with (if refs a p + ex p =? 1 then p :: v_free a else v_free a); [done|].
    unfold fr. rewrite Er.
    destruct (Z.eqb_spec (refs a p + ex p) 1), (Z.eqb_spec (refs a p - 1 + ex p) 0); done || lia.
  - exists pg, fl, (<[t * 1024 + PTX va := u32 0]> (mem s)), (flush (frame_kva d) va s). reflexivity.
  - intros q (_ & _ & _ & Hq) j Hj. rewrite word_at_store_slot. rewrite decide_False; [done|].
    intros Eq. apply slot_inj in Eq as [-> _]; [|apply PTX_range|done]. by apply (Hq (d, PDX va)).
  - rewrite decide_True by eauto. reflexivity.
Qed.
End Unmap.

(** * Mapping a page *)

(** A frame that may be mapped into a user address space: managed, not used
    as a table or a directory, off the free list, and with a reference count
    that can still grow in 16 bits. *)
Record insertable (ex : Z -> Z) (a : vm) (n p : Z) : Prop := {
  in_mg : managed a n p;
  in_dir : p ∉ v_dirs a;
  in_tab : forall k, (v_tabs a !! k) <> Some p;
  in_free : p ∉ v_free a;
  in_cnt : refs a p + ex p + 1 < 2 ^ 16
}.

Lemma v_walk_maps d x a : v_maps (v_walk d x a) = v_maps a.
Proof. unfold v_walk. destruct (v_tabs a !! (d, x)), (v_free a); done. Qed.

Lemma v_walk_own d x a d' x' : own (v_walk d x a) d' x' <-> own a d' x'.
Proof. unfold v_walk. destruct (v_tabs a !! (d, x)), (v_free a); done. Qed.

Lemma v_unmap_own ex d v a d' x' : own (v_unmap ex d v a) d' x' <-> own a d' x'.
Proof. unfold v_unmap. destruct (v_maps a !! (d, v)) as [[p f]|]; [|done]. by destruct (_ =? 0). Qed.

Lemma v_unmap_maps ex d v a : v_maps (v_unmap ex d v a) = delete (d, v) (v_maps a).
Proof.
  unfold v_unmap. destruct (v_maps a !! (d, v)) as [[p f]|] eqn:E.
  - by destruct (_ =? 0).
  - symmetry. by apply delete_id.
Qed.

Lemma v_unmap_tabs ex d v a : v_tabs (v_unmap ex d v a) = v_tabs a.
Proof. unfold v_unmap. destruct (v_maps a !! (d, v)) as [[p f]|]; [|done]. by destruct (_ =? 0). Qed.

Lemma v_unmap_rest ex d v a :
  v_dirs (v_unmap ex d v a) = v_dirs a /\ v_kdir (v_unmap ex d v a) = v_kdir a
  /\ v_resv (v_unmap ex d v a) = v_resv a.
Proof. unfold v_unmap. destruct (v_maps a !! (d, v)) as [[p f]|]; [|done]. by destruct (_ =? 0). Qed.

Lemma v_walk_rest d x a :
  v_dirs (v_walk d x a) = v_dirs a /\ v_kdir (v_walk d x a) = v_kdir a
  /\ v_resv (v_walk d x a) = v_resv a.
Proof. unfold v_walk. destruct (v_tabs a !! (d, x)), (v_free a); done. Qed.

Section Walked.
Context (ex : Z -> Z) (a : vm) (s : kstate) (HR : vm_rel ex a s).
Context (d va : Z) (Hown : own a d (PDX va)).

Lemma pgdir_walk_alloc :
  ~ v_full d (PDX va) a ->
  exists t s1, pgdir_walk (frame_kva d) va true s = Ret (entry_kva t (PTX va)) s1
    /\ vm_rel ex (v_walk d (PDX va) a) s1
    /\ v_tabs (v_walk d (PDX va) a) !! (d, PDX va) = Some t
    /\ vm_frame s s1 /\ tlb s1 = tlb s
    /\ (forall q, data_frame a q -> same_frame q s s1).
Proof.
  intros Hnf. unfold v_walk. destruct (v_tabs a !! (d, PDX va)) as [t|] eqn:Ht.
  - exists t, s. split_and!; [|done..|apply vm_frame_refl|done|done].
    by apply (pgdir_walk_present ex a s HR).
  - destruct (v_free a) as [|t fl] eqn:Hf; [by destruct Hnf|].
    exists t, (new_table d (PDX va) t s).
    assert (t ∈ v_free a) as Htf by (rewrite Hf; set_solver).
    split_and!.
    + by apply (pgdir_walk_create ex a s HR d va Hown t fl).
    + by apply new_table_rel.
    + apply lookup_insert_eq.
    + apply vm_frame_new_table.
    + done.
    + intros q (Hq1 & Hq2 & Hq3 & Hq4) j Hj.
      destruct (free_no_refs ex a s HR t Htf) as ([Hr _] & _).
      pose proof (wf_n _ _ (rel_wf _ _ _ HR)). pose proof (PDX_range va).
      rewrite word_at_new_table by (unfold MAXPAGES in *; lia).
      rewrite decide_False.
      * rewrite frame_div by done. rewrite decide_False; [done|]. by intros ->.
      * intros E. apply slot_inj in E as [-> _]; [|done|done].
        by destruct (own_dir ex a s HR q _ Hown) as ([?| ?] & _).
Qed.

Lemma insertable_walk p :
  ~ v_full d (PDX va) a -> insertable ex a (npages s) p ->
  insertable ex (v_walk d (PDX va) a) (npages s) p.
Proof.
  intros Hnf [I1 I2 I3 I4 I5]. unfold v_walk.
  destruct (v_tabs a !! (d, PDX va)) as [t|] eqn:Ht; [done|].
  destruct (v_free a) as [|t fl] eqn:Hf; [by destruct Hnf|].
  assert (p <> t) by set_solver. split; [done|done| |set_solver|].
  - intros k Hk. simpl in Hk. apply lookup_insert_Some in Hk as [[_ ->]|[_ Hk]]; [done|].
    by apply (I3 k).
  - rewrite refs_add_tab, decide_False by done. lia.
Qed.
End Walked.

Section Hold.
Context (ex : Z -> Z) (a : vm) (s : kstate) (HR : vm_rel ex a s).
Context (p : Z) (Hins : insertable ex a (npages s) p).

(** Counting a pointer before it is stored. *)
Lemma hold_rel :
  vm_rel (plus_one ex p) a (with_ref p (u16 (pp_ref (page_of s p) + 1)) s).
Proof.
  destruct Hins as [I1 I2 I3 I4 I5]. destruct HR as [H1 H2 H3 H4].
  destruct (ao_ref _ _ _ _ H2 p I1) as [Er Hb]. cbv beta in *.
  rewrite Er, u16_small by lia. split; [done| |by destruct H3|].
  - apply with_ref_ok with (cnt := fun q => refs a q + ex q); [done|done|lia| |].
    + unfold plus_one. rewrite decide_True by done. lia.
    + intros q Hq. unfold plus_one. rewrite decide_False by done. lia.
  - intros q. unfold plus_one. pose proof (H4 q). destruct (decide (q = p)); lia.
Qed.
End Hold.

(** Storing an entry into a page table, seen from the abstract mappings. *)
Lemma store_slot_pt ex a s d va t p f :
  vm_rel ex a s -> is_u32 va -> v_tabs a !! (d, PDX va) = Some t ->
  0 <= p < 2 ^ 20 -> 0 <= f < PGSIZE ->
  pt_ok (v_map d (PGNUM va) p f a) (store_slot t (PTX va) (mkpte p f) s).
Proof.
  intros HR Hva Htab Hp20 Hf. destruct (rel_pt _ _ _ HR) as [P1 P2 P3]. pose proof (rel_wf _ _ _ HR) as Hwf.
  pose proof (PTX_range va) as Hj0. pose proof (va_split va Hva) as Ev. set (v := PGNUM va) in *.
  assert (is_u32 (mkpte p f)) as Hpte by (by apply mkpte_u32).
  split.
  - intros w. rewrite word_at_store_slot. destruct (decide _); [apply u32_range|apply P1].
  - intros d' x' Ho. change (own a d' x') in Ho. rewrite word_at_store_slot.
    destruct (own_dir _ a s HR d' x' Ho) as (_ & _ & Hx').
    pose proof (tab_not_dir _ a s HR _ _ d' x' Htab Ho).
    rewrite decide_False by (intros Eq; apply slot_inj in Eq; naive_solver lia). by apply P2.
  - intros d' x' t' j Hl Hj. simpl in *. rewrite word_at_store_slot.
    destruct (decide (t * 1024 + PTX va = t' * 1024 + j)) as [Eq|Eq].
    + apply slot_inj in Eq as [<- <-]; [|done|done].
      pose proof (wf_inj _ _ Hwf _ _ _ Htab Hl) as [= <- <-].
      rewrite <- Ev, lookup_insert_eq. by apply u32_small.
    + rewrite lookup_insert_ne; [by apply P3|].
      intros [= <- Eq2]. rewrite Ev in Eq2. apply slot_inj in Eq2 as [<- <-]; [|done|done].
      congruence.
Qed.

Section MapSlot.
Context (ex : Z -> Z) (a : vm) (s : kstate) (d va p t f : Z).
Context (HR : vm_rel (plus_one ex p) a s) (Hex : forall q, 0 <= ex q).
Context (Hva : is_u32 va) (Hu : PGNUM va < UVPN).
Context (Htab : v_tabs a !! (d, PDX va) = Some t) (Hnone : v_maps a !! (d, PGNUM va) = None).
Context (Hmg : managed a (npages s) p) (Hpd : p ∉ v_dirs a).
Context (Hpt : forall k, (v_tabs a !! k) <> Some p).
Context (Hf : 0 <= f < PGSIZE) (HfP : flag f PTE_P = true).

Let v := PGNUM va.
Let a' := v_map d v p f a.

Lemma map_slot_refs q : refs a' q = refs a q + (if decide (q = p) then 1 else 0).
Proof.
  unfold a', refs, urefs, trefs, drefs. simpl. rewrite count_insert by done. simpl.
  destruct (decide (v < UVPN /\ p = q)) as [[_ Hpq]|Hn].
  - rewrite (decide_True (P := q = p)) by done. lia.
  - rewrite (decide_False (P := q = p)) by (intros ->; by apply Hn). lia.
Qed.

Lemma map_slot_wf : vm_wf a' (npages s).
Proof.
  destruct (rel_wf _ _ _ HR) as [W1 W2 W3 W4 W5 W6 W7]. split; try done.
  - intros d' v' p' f' Hl. unfold a' in Hl. simpl in Hl.
    apply lookup_insert_Some in Hl as [[[= <- <-] [= <- <-]]|[_ Hl]]; [|by apply W6].
    destruct Hmg as [? _]. unfold MAXPAGES in *. pose proof (va_pdx va Hva) as E. fold v in E.
    change (v_tabs a') with (v_tabs a). rewrite E. pose proof (va_split va Hva) as E2. fold v in E2.
    pose proof (PDX_range va). pose proof (PTX_range va). split_and!; eauto; lia.
  - intros d' v' p' f' Hl Hlt. unfold a' in Hl. simpl in Hl.
    apply lookup_insert_Some in Hl as [[[= <- <-] [= <- <-]]|[_ Hl]]; [done|].
    by apply (W7 d' v' p' f').
Qed.

Lemma map_slot_pt : pt_ok a' (store_slot t (PTX va) (mkpte p f) s).
Proof.
  apply store_slot_pt with (plus_one ex p); try done. destruct Hmg.
  pose proof (wf_n _ _ (rel_wf _ _ _ HR)). unfold MAXPAGES in *. lia.
Qed.

Lemma map_slot_rel : vm_rel ex a' (store_slot t (PTX va) (mkpte p f) s).
Proof.
  split; [exact map_slot_wf| |exact map_slot_pt|done].
  apply alloc_ok_ext with (s := s) (cnt := fun q => refs a q + plus_one ex p q); [done|done| |exact (rel_alloc _ _ _ HR)].
  intros q _. rewrite map_slot_refs. unfold plus_one. lia.
Qed.
End MapSlot.

Lemma vm_rel_tlb ex a s c t : vm_rel ex a s -> vm_rel ex a (set_cr3 c t s).
Proof.
  intros [H1 H2 [P1 P2 P3] H4]. split; [done| |by split|done].
  by apply alloc_ok_ext with (s := s) (cnt := fun q => refs a q + ex q).
Qed.

(** [vm_rel] reads only memory, the page array, its head and [npages]. *)
Lemma vm_rel_ext ex a s s' :
  vm_rel ex a s -> npages s' = npages s -> pages s' = pages s -> page_free_list s' = page_free_list s ->
  mem s' = mem s -> vm_rel ex a s'.
Proof.
  intros [H1 H2 [P1 P2 P3] H4] En Ep Ef Em.
  assert (forall w, word_at s' w = word_at s w) as Ew by (intros; unfold word_at; by rewrite Em).
  split; [by rewrite En| | |done].
  - rewrite En. by apply alloc_ok_ext with (s := s) (cnt := fun q => refs a q + ex q).
  - split; intros; rewrite !Ew; [by apply P1|by apply P2|by apply (P3 d x)].
Qed.

Lemma same_frame_trans q s1 s2 s3 : same_frame q s1 s2 -> same_frame q s2 s3 -> same_frame q s1 s3.
Proof. intros H1 H2 j Hj. by rewrite H2, H1. Qed.

Lemma vm_frame_npages s s' : vm_frame s s' -> npages s' = npages s.
Proof. by intros (? & ? & ? & ? & ->). Qed.

Lemma vm_frame_flushes s s' pgdir : vm_frame s s' -> flushes pgdir s' = flushes pgdir s.
Proof. by intros (? & ? & ? & ? & ->). Qed.

Lemma data_frame_walk d x a q : data_frame a q -> data_frame (v_walk d x a) q.
Proof.
  intros (H1 & H2 & H3 & H4). unfold v_walk. destruct (v_tabs a !! (d, x)) eqn:E; [done|].
  destruct (v_free a) as [|t fl] eqn:Ef; [split_and!; rewrite ?Ef; done|].
  split_and!; [set_solver|done|done|]. intros k Hk. simpl in Hk.
  apply lookup_insert_Some in Hk as [[_ ->]|[_ Hk]]; [set_solver|]. by apply (H4 k).
Qed.

Section PageInsert.
Context (ex : Z -> Z) (a : vm) (s : kstate) (HR : vm_rel ex a s).
Context (d va p perm : Z) (Hva : is_u32 va) (Hown : own a d (PDX va)) (Hu : PGNUM va < UVPN).
Context (Hins : insertable ex a (npages s) p) (Hperm : 0 <= perm < PGSIZE).

Let v := PGNUM va.

Lemma page_insert_full :
  v_full d (PDX va) a -> page_insert (frame_kva d) p va perm s = Ret (- E_NO_MEM) s.
Proof.
  intros [Ht Hf]. unfold page_insert, bind.
  by rewrite (pgdir_walk_nomem ex a s HR d va Hown Ht Hf).
Qed.

Lemma perm_range : 0 <= Z.lor perm PTE_P < PGSIZE.
Proof. apply (lor_range perm PTE_P 12); [done|exact Hperm|unfold PTE_P; lia]. Qed.

Lemma pte_present e1 a1 s1 t : vm_rel e1 a1 s1 -> v_tabs a1 !! (d, PDX va) = Some t ->
  flag (word_at s1 (t * 1024 + PTX va)) PTE_P = bool_decide (is_Some (v_maps a1 !! (d, v))).
Proof.
  intros HR1 Ht. pose proof (pt_pte _ _ (rel_pt _ _ _ HR1) d (PDX va) t (PTX va) Ht (PTX_range va)) as Hw.
  rewrite <- (va_split va Hva) in Hw. fold v in Hw.
  destruct (v_maps a1 !! (d, v)) as [[p' f']|] eqn:Hm; [|by rewrite Hw].
  rewrite Hw, flag_mkpte by (unfold PTE_P, PGSIZE; lia).
  by destruct (wf_maps _ _ (rel_wf _ _ _ HR1) _ _ _ _ Hm) as (_ & _ & _ & _ & ->).
Qed.

(** Evicting whatever the entry maps. *)
Lemma page_insert_evict e1 a1 s1 :
  vm_rel e1 a1 s1 -> own a1 d (PDX va) ->
  exists s', (if bool_decide (is_Some (v_maps a1 !! (d, v)))
              then tlb_invalidate (frame_kva d) va ;;! page_remove (frame_kva d) va else ret tt) s1 = Ret tt s'
    /\ vm_rel e1 (v_unmap e1 d v a1) s' /\ vm_frame s1 s'
    /\ (forall q, data_frame a1 q -> same_frame q s1 s')
    /\ tlb s' = (if decide (is_Some (v_maps a1 !! (d, v))) then flush (frame_kva d) va s1 else tlb s1).
Proof.
  intros HR1 Hown1. destruct (decide (is_Some (v_maps a1 !! (d, v)))) as [Hm|Hm].
  2:{ rewrite bool_decide_false by done. exists s1. unfold v_unmap.
      destruct (v_maps a1 !! (d, v)) as [?|]; [by destruct Hm|].
      split_and!; [done|done|apply vm_frame_refl|done|done]. }
  rewrite bool_decide_true by done. unfold bind. rewrite tlb_invalidate_eq.
  set (s1' := set_cr3 (cr3 s1) (flush (frame_kva d) va s1) s1).
  destruct (page_remove_spec e1 a1 s1' (vm_rel_tlb _ _ _ _ _ HR1) d va Hva Hown1 Hu)
    as (s' & E & R' & F' & D' & T').
  rewrite E. exists s'. split_and!; [done|exact R'| |exact D'|].
  - eapply vm_frame_trans; [|exact F'].
    exists (pages s1), (page_free_list s1), (mem s1), (flush (frame_kva d) va s1). by destruct s1.
  - rewrite T'. fold v. rewrite decide_True by done. unfold flush at 1. change (tlb s1') with (flush (frame_kva d) va s1).
    change (flushes (frame_kva d) s1') with (flushes (frame_kva d) s1). unfold flush.
    destruct (flushes (frame_kva d) s1); [apply delete_delete_eq|done].
Qed.

(** The second half of [page_insert]: the entry is in hand and the new
    pointer has been counted. *)
Lemma page_insert_store a1 t s2 :
  vm_rel (plus_one ex p) a1 s2 -> own a1 d (PDX va) -> v_tabs a1 !! (d, PDX va) = Some t ->
  managed a1 (npages s2) p -> p ∉ v_dirs a1 -> (forall k, (v_tabs a1 !! k) <> Some p) ->
  exists s', (let! pte := gets (load32 (entry_kva t (PTX va))) in
     (if flag pte PTE_P then tlb_invalidate (frame_kva d) va ;;! page_remove (frame_kva d) va else ret tt) ;;!
     store32 (entry_kva t (PTX va)) (Z.lor (Z.lor (page2pa p) perm) PTE_P) ;;! ret 0) s2 = Ret 0 s'
    /\ vm_rel ex (v_map d v p (Z.lor perm PTE_P) (v_unmap (plus_one ex p) d v a1)) s'
    /\ vm_frame s2 s' /\ (forall q, data_frame a1 q -> same_frame q s2 s')
    /\ tlb s' = (if decide (is_Some (v_maps a1 !! (d, v))) then flush (frame_kva d) va s2 else tlb s2).
Proof.
  intros HR2 Hown2 Ht Hmg Hpd Hpt.
  assert (0 <= t < MAXPAGES) as Htm by (by apply (tab_max _ a1 s2 HR2 d (PDX va))).
  pose proof (PTX_range va) as Hj. pose proof perm_range as Hpr.
  assert (0 <= p < 2 ^ 20) as Hp20.
  { destruct Hmg. pose proof (wf_n _ _ (rel_wf _ _ _ HR2)). unfold MAXPAGES in *. lia. }
  rewrite <- Z.lor_assoc, page2pa_mul, lor_pte by done.
  unfold bind at 1, gets at 1. rewrite load32_entry, (pte_present _ a1 s2 t HR2 Ht) by done.
  destruct (page_insert_evict _ a1 s2 HR2 Hown2) as (s3 & E3 & R3 & F3 & D3 & T3).
  unfold bind at 1. rewrite E3. unfold bind. rewrite store32_entry by done.
  destruct (v_unmap_rest (plus_one ex p) d v a1) as (Ud & _ & Ur).
  eexists. split; [reflexivity|]. split_and!.
  - apply map_slot_rel; rewrite ?v_unmap_tabs, ?v_unmap_maps, ?Ud; try done.
    + exact (rel_ex _ _ _ HR).
    + apply lookup_delete_eq.
    + unfold managed. rewrite Ur, (vm_frame_npages _ _ F3). done.
    + by apply flag_self_lor.
  - eapply vm_frame_trans; [exact F3|apply vm_frame_store_slot].
  - intros q Hq. eapply same_frame_trans; [by apply D3|]. intros j Hj'.
    rewrite word_at_store_slot, decide_False; [done|]. intros Eq.
    apply slot_inj in Eq as [-> _]; [|done|done]. by apply (proj2 (proj2 (proj2 Hq)) (d, PDX va)).
  - exact T3.
Qed.

Lemma page_insert_ok :
  ~ v_full d (PDX va) a ->
  exists s', page_insert (frame_kva d) p va perm s = Ret 0 s'
    /\ vm_rel ex (v_insert ex d v p (Z.lor perm PTE_P) a) s'
    /\ vm_frame s s' /\ (forall q, data_frame a q -> same_frame q s s')
    /\ tlb s' = (if decide (is_Some (v_maps a !! (d, v))) then flush (frame_kva d) va s else tlb s).
Proof.
  intros Hnf. destruct (pgdir_walk_alloc ex a s HR d va Hown Hnf) as (t & s1 & E1 & R1 & Ht & F1 & T1 & D1).
  pose proof (insertable_walk ex a s HR d va Hown p Hnf Hins) as I1.
  rewrite <- (vm_frame_npages _ _ F1) in I1.
  pose proof (hold_rel _ _ _ R1 p I1) as R2. set (s2 := with_ref _ _ _) in R2.
  assert (own (v_walk d (PDX va) a) d (PDX va)) as Hown1 by (by apply v_walk_own).
  destruct (page_insert_store _ t s2 R2 Hown1 Ht (in_mg _ _ _ _ I1) (in_dir _ _ _ _ I1) (in_tab _ _ _ _ I1))
    as (s' & E' & R' & F' & D' & T').
  assert (vm_frame s s2) as F2 by (eapply vm_frame_trans; [exact F1|apply vm_frame_with_ref]).
  exists s'. split_and!.
  - unfold page_insert, bind at 1. rewrite E1.
    assert (0 <= t < MAXPAGES) as Htm by (by apply (tab_max _ _ s1 R1 d (PDX va))).
    destruct (entry_kva_u32 t (PTX va)) as [_ Hnz]; [done|apply PTX_range|].
    apply Z.eqb_neq in Hnz. rewrite Hnz. exact E'.
  - unfold v_insert. unfold v. rewrite (va_pdx va Hva). exact R'.
  - by eapply vm_frame_trans.
  - intros q Hq. eapply same_frame_trans; [by apply D1|]. apply D'. by apply data_frame_walk.
  - rewrite T', v_walk_maps.
    destruct (decide (is_Some (v_maps a !! (d, v)))); [|exact T1]. unfold flush.
    rewrite (vm_frame_flushes _ _ _ F2). change (tlb s2) with (tlb s1). by rewrite T1.
Qed.
End PageInsert.

(** * Mapping a kernel page

    Mappings above [UTOP] are not reference counted. *)

Lemma kmap_refs a d v p f q : UVPN <= v -> refs (v_map d v p f a) q = refs a q.
Proof.
  intros Hv. unfold refs. f_equal. f_equal. unfold urefs, v_map. simpl.
  rewrite <- insert_delete_eq, count_insert by apply lookup_delete_eq.
  rewrite decide_False by (simpl; lia). rewrite Z.add_0_r.
  destruct (v_maps a !! (d, v)) as [[p' f']|] eqn:E; [|by rewrite delete_id].
  rewrite (count_delete _ _ _ _ E), decide_False by (simpl; lia). lia.
Qed.

Lemma kmap_rel ex a s d va t p f :
  vm_rel ex a s -> is_u32 va -> UVPN <= PGNUM va -> v_tabs a !! (d, PDX va) = Some t ->
  0 <= p < 2 ^ 20 -> 0 <= f < PGSIZE -> flag f PTE_P = true ->
  vm_rel ex (v_map d (PGNUM va) p f a) (store_slot t (PTX va) (mkpte p f) s).
Proof.
  intros HR Hva Hk Ht Hp Hf HfP.
  split; [| |by apply store_slot_pt with ex|exact (rel_ex _ _ _ HR)].
  - destruct (rel_wf _ _ _ HR) as [W1 W2 W3 W4 W5 W6 W7]. split; try done.
    + intros d' v' p' f' Hl. simpl in Hl.
      apply lookup_insert_Some in Hl as [[E [= <- <-]]|[_ Hl]]; [|by apply W6].
      injection E as <- <-. rewrite (va_pdx va Hva). pose proof UVPN_val.
      split_and!; [by exists t|lia|lia|lia|apply Hf|apply Hf|done].
    + intros d' v' p' f' Hl Hlt. simpl in Hl.
      apply lookup_insert_Some in Hl as [[E _]|[_ Hl]]; [injection E as <- <-; lia|].
      by apply (W7 d' v' p' f').
  - apply alloc_ok_ext with (s := s) (cnt := fun q => refs a q + ex q); [done|done| |exact (rel_alloc _ _ _ HR)].
    intros q _. by rewrite kmap_refs.
Qed.
