(* ===== verification/Paging.v ===== *)
(** The processor's view of the address spaces kern/pmap.c builds: what a
    load or store at a user address reaches, through the TLB, in terms of the
    abstract mappings of [PmapSpec]. *)

From stdpp Require Import base numbers list gmap strings.
From Stdlib Require Import ZArith Lia Bool.
From S2P Require Import Prelude Mmu KState Pmap PmapBoot PmapSpec.

(** The permission bits the processor looks at. *)
Definition perms (f : Z) : Z := Z.land f 7.

(** The translation cache agrees with the address space in [cr3]. *)
Definition tlb_ok (d : Z) (a : vm) (s : kstate) : Prop :=
  cr3 s = d * PGSIZE
  /\ forall n e, tlb s !! n = Some e -> n < UVPN ->
       exists p f, v_maps a !! (d, n) = Some (p, f) /\ e = mkpte p (perms f).

(** The running CPU's [cr3] is the directory [tlb_invalidate] compares with. *)
Definition cr3_current (s : kstate) : Prop := flushes (KERNBASE + cr3 s) s = true.

(** What an access to a page mapped with flags [f] may do. *)
Definition may_access (user write : bool) (f : Z) : bool :=
  (negb user || flag f PTE_U) && (negb write || flag f PTE_W).

(** The translation an address space promises. *)
Definition v_translate (a : vm) (d : Z) (user write : bool) (va : Z) : option Z :=
  match v_maps a !! (d, PGNUM va) with
  | Some (p, f) => if may_access user write f then Some (p * PGSIZE + PGOFF va) else None
  | None => None
  end.

Lemma perms_range f : 0 <= perms f < 8.
Proof. unfold perms. change 7 with (Z.ones 3). rewrite Z.land_ones by lia. apply Z.mod_pos_bound. lia. Qed.

Lemma flag_perms f m : Z.land 7 m = m -> flag (perms f) m = flag f m.
Proof. intros Hm. unfold flag, perms. by rewrite <- Z.land_assoc, Hm. Qed.

Lemma mmu_entry_mkpte t p f : 0 <= p < 2 ^ 20 -> 0 <= f < PGSIZE ->
  mmu_entry (mkpte t PTE_PWU) (mkpte p f) = mkpte p (perms f).
Proof.
  intros Hp Hf. unfold mmu_entry. rewrite PTE_ADDR_mkpte by done.
  replace (Z.land (Z.land (mkpte t PTE_PWU) (mkpte p f)) 7) with (perms f).
  - apply lor_pte. pose proof (perms_range f). unfold PGSIZE. lia.
  - replace (Z.land (Z.land (mkpte t PTE_PWU) (mkpte p f)) 7)
      with (Z.land (Z.land (mkpte t PTE_PWU) 7) (Z.land (mkpte p f) 7)).
    + unfold mkpte. rewrite !(land_low_add _ _ 7 12) by lia. unfold perms.
      change (Z.land PTE_PWU 7) with 7. by rewrite (Z.land_comm 7 (Z.land f 7)), <- Z.land_assoc.
    + rewrite Z.land_assoc. rewrite <- (Z.land_assoc _ 7), (Z.land_comm 7), Z.land_assoc.
      by rewrite <- (Z.land_assoc _ 7 7).
Qed.

Lemma PGOFF_range va : is_u32 va -> 0 <= PGOFF va < PGSIZE.
Proof. intros. rewrite PGOFF_mod by done. apply Z.mod_pos_bound. unfold PGSIZE. lia. Qed.

Lemma frame_word p o : 0 <= o < PGSIZE -> (p * PGSIZE + o) / 4 = p * 1024 + o / 4.
Proof. intros. unfold PGSIZE. replace (p * 4096) with (p * 1024 * 4) by lia. by apply Z.div_add_l. Qed.

Lemma user_own a d va : is_u32 va -> va < UTOP -> (d ∈ v_dirs a \/ d = v_kdir a) -> own a d (PDX va).
Proof.
  intros Hva Hu Hd. pose proof (PDX_range va).
  assert (PDX va < UPDX).
  { rewrite UPDX_val, PDX_div by exact Hva. apply Z.div_lt_upper_bound; [done|].
    unfold PTSIZE, PGSIZE, NPTENTRIES. change UTOP with 4005560320 in Hu. lia. }
  destruct Hd as [Hd| ->]; [left; split; [done|lia]|right]. split_and!; [done|lia|lia|].
  intros E. rewrite E in *. change (PDX UVPT) with 957 in *. rewrite UPDX_val in *. lia.
Qed.

Lemma user_vpn va : is_u32 va -> va < UTOP <-> PGNUM va < UVPN.
Proof.
  intros Hva. rewrite UVPN_val, PGNUM_div by done. change UTOP with (955 * 1024 * PGSIZE). unfold PGSIZE.
  split; intros.
  - apply Z.div_lt_upper_bound; lia.
  - destruct (Z.lt_ge_cases va (955 * 1024 * 4096)) as [|Hge]; [done|].
    apply (Z.div_le_mono _ _ 4096) in Hge; [|lia]. rewrite Z.div_mul in Hge; lia.
Qed.

Section Hardware.
Context (ex : Z -> Z) (a : vm) (s : kstate) (d : Z) (HR : vm_rel ex a s).
Context (HT : tlb_ok d a s) (Hd : d ∈ v_dirs a \/ d = v_kdir a).
Context (va : Z) (Hva : is_u32 va) (Hu : va < UTOP).

Let Hown : own a d (PDX va) := user_own a d va Hva Hu Hd.

Lemma cr3_word : cr3 s / 4 + PDX va = d * 1024 + PDX va.
Proof. rewrite (proj1 HT). unfold PGSIZE. replace (d * 4096) with (d * 1024 * 4) by lia. by rewrite Z.div_mul. Qed.

Lemma mmu_walk_eq :
  mmu_walk va s = match v_maps a !! (d, PGNUM va) with
                  | Some (p, f) => Some (mkpte p (perms f)) | None => None end.
Proof.
  pose proof (rel_wf _ _ _ HR) as Hwf. unfold mmu_walk. rewrite cr3_word.
  pose proof (pt_pde _ _ (rel_pt _ _ _ HR) d (PDX va) Hown) as Hp.
  destruct (v_tabs a !! (d, PDX va)) as [t|] eqn:Ht.
  - rewrite Hp, flag_mkpte by done. change (flag PTE_PWU PTE_P) with true. cbv iota.
    pose proof (tab_max ex a s HR d (PDX va) t Ht). assert (0 <= t < 2 ^ 20) by (unfold MAXPAGES in *; lia).
    rewrite PTE_ADDR_mkpte by done.
    assert (t * PGSIZE / 4 = t * 1024) as ->.
    { unfold PGSIZE. replace (t * 4096) with (t * 1024 * 4) by lia. by rewrite Z.div_mul. }
    pose proof (pt_pte _ _ (rel_pt _ _ _ HR) d (PDX va) t (PTX va) Ht (PTX_range va)) as Hw.
    rewrite <- PGNUM_split in Hw by done.
    destruct (v_maps a !! (d, PGNUM va)) as [[p f]|] eqn:Hm; [|by rewrite Hw].
    destruct (wf_maps _ _ Hwf _ _ _ _ Hm) as (_ & _ & Hp20 & Hf & HfP).
    rewrite Hw, flag_mkpte, HfP by done. by rewrite mmu_entry_mkpte.
  - rewrite Hp. cbv iota. destruct (v_maps a !! (d, PGNUM va)) as [[p f]|] eqn:Hm; [|done].
    destruct (wf_maps _ _ Hwf _ _ _ _ Hm) as ([t Ht'] & _).
    rewrite (va_pdx va Hva) in Ht'. congruence.
Qed.

(** The processor only ever updates the cache, and keeps it right. *)
Lemma mmu_lookup_eq : exists tl,
  mmu_lookup va s = Ret (match v_maps a !! (d, PGNUM va) with
    | Some (p, f) => Some (mkpte p (perms f)) | None => None end) (set_cr3 (cr3 s) tl s)
  /\ tlb_ok d a (set_cr3 (cr3 s) tl s).
Proof.
  pose proof (proj1 (user_vpn va Hva) Hu) as Hv. destruct HT as [Hc Ht]. unfold mmu_lookup.
  assert (s = set_cr3 (cr3 s) (tlb s) s) as Es by (by destruct s).
  destruct (tlb s !! PGNUM va) as [e|] eqn:El.
  - exists (tlb s). destruct (Ht _ _ El Hv) as (p & f & Hm & ->). rewrite Hm, <- Es. by split.
  - rewrite mmu_walk_eq. destruct (v_maps a !! (d, PGNUM va)) as [[p f]|] eqn:Hm.
    + eexists. split; [done|]. split; [done|]. simpl. intros n e Hl Hn.
      apply lookup_insert_Some in Hl as [[<- <-]|[_ Hl]]; [eauto|]. by apply Ht.
    + exists (tlb s). rewrite <- Es. by split.
Qed.

Lemma mmu_access_eq user write : exists tl,
  mmu_access user write va s = Ret (v_translate a d user write va) (set_cr3 (cr3 s) tl s)
  /\ tlb_ok d a (set_cr3 (cr3 s) tl s).
Proof.
  destruct mmu_lookup_eq as (tl & E & Htl). exists tl. split; [|done].
  unfold mmu_access, v_translate, bind. rewrite E.
  destruct (v_maps a !! (d, PGNUM va)) as [[p f]|] eqn:Hm; [|done].
  destruct (wf_maps _ _ (rel_wf _ _ _ HR) _ _ _ _ Hm) as (_ & _ & Hp & _).
  pose proof (perms_range f). rewrite !flag_mkpte, !flag_perms by done.
  unfold may_access. rewrite PTE_ADDR_mkpte by (unfold PGSIZE; lia).
  rewrite (lor_pte p (PGOFF va)) by (by apply PGOFF_range).
  by destruct user, write, (flag f PTE_U), (flag f PTE_W).
Qed.

End Hardware.

Lemma v_insert_maps ex d v p f a :
  v_maps (v_insert ex d v p f a) = <[(d, v) := (p, f)]> (v_maps a).
Proof. unfold v_insert, v_map. simpl. rewrite v_unmap_maps, v_walk_maps. apply insert_delete_eq. Qed.

(** Changing the mapping of one page and flushing it as [tlb_invalidate]
    does leaves no stale translation. *)
Lemma tlb_ok_update d a a' s s' d' va :
  tlb_ok d a s -> cr3_current s -> cr3 s' = cr3 s ->
  tlb s' = (if decide (is_Some (v_maps a !! (d', PGNUM va))) then flush (frame_kva d') va s else tlb s) ->
  (forall k, k <> (d', PGNUM va) -> v_maps a' !! k = v_maps a !! k) ->
  tlb_ok d a' s'.
Proof.
  intros [Hc Ht] Hcur Ec Et Hk. split; [by rewrite Ec|]. intros n e Hl Hn.
  assert (tlb s !! n = Some e /\ (d, n) <> (d', PGNUM va)) as [Hl' Hne].
  { rewrite Et in Hl. destruct (decide (is_Some (v_maps a !! (d', PGNUM va)))) as [Hm|Hm].
    - unfold flush in Hl. destruct (flushes (frame_kva d') s) eqn:Hf.
      + apply lookup_delete_Some in Hl as [Hne Hl]. split; [done|]. congruence.
      + split; [done|]. intros [= <- _]. unfold cr3_current in Hcur. rewrite Hc in Hcur.
        unfold frame_kva in Hf. congruence.
    - split; [done|]. intros [= <- ->]. destruct (Ht _ _ Hl Hn) as (p & f & Hp & _).
      apply Hm. by rewrite Hp. }
  rewrite Hk by done. by apply Ht.
Qed.

Lemma vm_frame_cr3 s s' : vm_frame s s' -> cr3 s' = cr3 s.
Proof. by intros (? & ? & ? & ? & ->). Qed.

(** A store into a frame that is no table, directory or kern_pgdir is
    invisible to the memory manager. *)
Lemma vm_rel_store ex a s p j v :
  vm_rel ex a s -> 0 <= j < 1024 -> (forall d x, own a d x -> p <> d) ->
  (forall k, (v_tabs a !! k) <> Some p) ->
  vm_rel ex a (set_mem (<[p * 1024 + j := u32 v]> (mem s)) s).
Proof.
  intros [H1 H2 [P1 P2 P3] H4] Hj Hd Ht.
  assert (forall w, word_at (set_mem (<[p * 1024 + j := u32 v]> (mem s)) s) w
    = if decide (p * 1024 + j = w) then u32 v else word_at s w) as E.
  { intros w. apply (word_at_store_slot s p j v w). }
  split; [done| | |done].
  - by apply alloc_ok_ext with (s := s) (cnt := fun q => refs a q + ex q).
  - split.
    + intros w. rewrite E. destruct (decide _); [apply u32_range|apply P1].
    + intros d x Ho. rewrite E, decide_False; [by apply P2|]. intros Eq.
      assert (0 <= x < 1024) by (destruct Ho as [[_ Hx]|(_ & Hx & _)]; rewrite ?UPDX_val in Hx; lia).
      apply slot_inj in Eq as [-> _]; [|done|done]. by apply (Hd d x).
    + intros d x t k Hl Hk. rewrite E, decide_False; [by apply (P3 d x)|]. intros Eq.
      apply slot_inj in Eq as [-> _]; [|done|done]. by apply (Ht (d, x)).
Qed.

(** Frames mapped below [UTOP] are neither directories nor tables. *)
Lemma user_frame_private ex a s d v p f :
  vm_rel ex a s -> v_maps a !! (d, v) = Some (p, f) -> v < UVPN ->
  (forall d' x, own a d' x -> p <> d') /\ (forall k, (v_tabs a !! k) <> Some p) /\ (p ∉ v_free a).
Proof.
  intros HR Hm Hv. pose proof (rel_wf _ _ _ HR) as Hwf.
  destruct (wf_user _ _ Hwf _ _ _ _ Hm Hv) as ([Hp Hr] & Hpd & Hpt). split_and!; [|done|].
  - intros d' x [[Hd _]|[-> _]]; [by intros ->|]. intros ->. by destruct (wf_kdir _ _ Hwf).
  - intros Hf. destruct (free_no_refs _ _ _ HR p Hf) as (_ & Hz & _).
    pose proof (urefs_map a d v p f Hm Hv). lia.
Qed.

Lemma vm_rel_user_store ex a s d va v p f :
  vm_rel ex a s -> is_u32 va -> va < UTOP -> v_maps a !! (d, PGNUM va) = Some (p, f) ->
  vm_rel ex a (set_mem (<[(p * PGSIZE + PGOFF va) / 4 := u32 v]> (mem s)) s).
Proof.
  intros HR Hva Hu Hm. pose proof (PGOFF_range va Hva) as Ho. rewrite frame_word by done.
  destruct (user_frame_private ex a s d (PGNUM va) p f HR Hm) as (Hd & Ht & _); [by apply user_vpn|].
  apply vm_rel_store; auto. unfold PGSIZE in Ho. split; [apply Z.div_pos; lia|].
  apply Z.div_lt_upper_bound; lia.
Qed.
