(* ===== verification/VmOps.v ===== *)
(** Whole-operation consequences of [PmapSpec] for the kernel's clients: a
    frame taken from the allocator and given back, clearing a frame, and the
    absence of leaks. *)

From stdpp Require Import base numbers list gmap strings.
From Stdlib Require Import ZArith Lia Bool.
From S2P Require Import Prelude Mmu KState Pmap PmapBoot PmapSpec Paging.

(** * Taking a frame *)

Section Take.
Context (ex : Z -> Z) (a : vm) (s : kstate) (HR : vm_rel ex a s).

Lemma page_alloc_empty f : v_free a = [] -> page_alloc f s = Ret None s.
Proof.
  intros Hf. apply page_alloc_none. pose proof (ao_chain _ _ _ _ (rel_alloc _ _ _ HR)) as Hc.
  by rewrite Hf in Hc.
Qed.

Context (p : Z) (fl : list Z) (Hfree : v_free a = p :: fl).

Lemma take_range : 0 <= p < npages s /\ npages s <= MAXPAGES.
Proof.
  destruct (free_no_refs ex a s HR p) as ([Hp _] & _); [rewrite Hfree; set_solver|].
  split; [done|]. apply (wf_n _ _ (rel_wf _ _ _ HR)).
Qed.

Lemma page_alloc_take f :
  page_alloc f s = Ret (Some p) (if flag f ALLOC_ZERO then zero_frame p (alloc_pop p s) else alloc_pop p s).
Proof.
  destruct take_range. apply page_alloc_eq; [|done|done].
  pose proof (ao_chain _ _ _ _ (rel_alloc _ _ _ HR)) as Hc. rewrite Hfree in Hc. apply Hc.
Qed.

Lemma take_rel : vm_rel ex (v_set_free fl a) (alloc_pop p s).
Proof.
  destruct HR as [H1 H2 [P1 P2 P3] H4]. split; [by apply vm_wf_free| |by split|done].
  apply alloc_pop_ok. rewrite Hfree in H2. exact H2.
Qed.

Lemma take_insertable : insertable ex (v_set_free fl a) (npages (alloc_pop p s)) p.
Proof.
  destruct (free_no_refs ex a s HR p) as (Hm & Hu & Ht & Hd & He); [rewrite Hfree; set_solver|].
  pose proof (ao_nodup _ _ _ _ (rel_alloc _ _ _ HR)) as Hnd. rewrite Hfree in Hnd.
  apply NoDup_cons in Hnd as [Hni _]. split; try done.
  - intros k. apply (free_not_tab ex a s HR p k). rewrite Hfree. set_solver.
  - change (refs (v_set_free fl a) p) with (refs a p). unfold refs, drefs.
    rewrite bool_decide_false by done. lia.
Qed.

(** Giving the frame back restores the state. *)
Lemma take_back_free : exists s', page_free p (alloc_pop p s) = Ret tt s' /\ vm_rel ex a s' /\ vm_frame s s'.
Proof.
  destruct (free_no_refs ex a s HR p) as (Hm & Hu & Ht & Hd & He); [rewrite Hfree; set_solver|].
  destruct take_insertable as [I1 I2 I3 I4 I5].
  assert (refs a p = 0) as Hz.
  { unfold refs, drefs. rewrite bool_decide_false by done. lia. }
  pose proof take_rel as HR'. destruct (ao_ref _ _ _ _ (rel_alloc _ _ _ HR') p I1) as [Er _]. cbv beta in Er.
  change (refs (v_set_free fl a) p) with (refs a p) in Er.
  rewrite page_free_eq; [|rewrite Er; lia|by apply (ao_link _ _ _ _ (rel_alloc _ _ _ HR'))].
  eexists. split; [done|]. destruct HR as [H1 H2 [P1 P2 P3] H4]. split.
  - split; [done| |by split|done]. rewrite Hfree.
    apply (free_push_ok (managed a (npages s)) (fun q => refs a q + ex q)); try done; [|lia].
    exact (rel_alloc _ _ _ HR').
  - eapply vm_frame_trans; [eapply vm_frame_trans; [apply vm_frame_set_free|apply vm_frame_put_page]|].
    unfold free_push. eapply vm_frame_trans; [apply vm_frame_put_page|apply vm_frame_set_free].
Qed.
End Take.

Lemma vm_frame_alloc_pop p s : vm_frame s (alloc_pop p s).
Proof. unfold alloc_pop. eapply vm_frame_trans; [apply vm_frame_set_free|apply vm_frame_put_page]. Qed.

(** * Clearing a frame *)

Lemma zero_frame_rel ex a s p :
  vm_rel ex a s -> (forall d x, own a d x -> p <> d) -> (forall k, (v_tabs a !! k) <> Some p) ->
  vm_rel ex a (zero_frame p s).
Proof.
  intros [H1 H2 [P1 P2 P3] H4] Hd Ht. split; [done| | |done].
  - by apply alloc_ok_ext with (s := s) (cnt := fun q => refs a q + ex q).
  - split.
    + intros w. rewrite word_at_zero_frame. destruct (decide _); [by vm_compute|apply P1].
    + intros d x Ho. rewrite word_at_zero_frame, decide_False; [by apply P2|].
      assert (0 <= x < 1024) by (destruct Ho as [[_ Hx]|(_ & Hx & _)]; rewrite ?UPDX_val in Hx; lia).
      rewrite frame_div by done. intros ->. by apply (Hd p x).
    + intros d x t j Hl Hj. rewrite word_at_zero_frame, decide_False; [by apply (P3 d x)|].
      rewrite frame_div by done. intros ->. by apply (Ht (d, x)).
Qed.

(** * What an operation costs

    Mapping a page at [va] may take a frame for a page table; [n] further
    frames have been taken. *)
Record takes (n d va : Z) (a a' : vm) : Prop := {
  tk_tabs : dom (v_tabs a') = {[(d, PDX va)]} ∪ dom (v_tabs a);
  tk_free : Z.of_nat (length (v_free a)) + Z.of_nat (size (v_tabs a))
            <= Z.of_nat (length (v_free a')) + Z.of_nat (size (v_tabs a')) + n
}.

Lemma v_unmap_free ex d v a : v_tabs (v_unmap ex d v a) = v_tabs a /\ (length (v_free a) <= length (v_free (v_unmap ex d v a)))%nat.
Proof. unfold v_unmap. destruct (v_maps a !! _) as [[q g]|]; [|done]. destruct (_ =? 0); cbn; split; (done || lia). Qed.

Lemma v_insert_takes ex d va p f a : is_u32 va -> ~ v_full d (PDX va) a -> takes 0 d va a (v_insert ex d (PGNUM va) p f a).
Proof.
  intros Hva Hnf. unfold v_insert, v_map, v_set_maps. rewrite PGNUM_PDX by done.
  set (a1 := v_walk d (PDX va) a).
  destruct (v_unmap_free (plus_one ex p) d (PGNUM va) a1) as [Et Ef].
  assert (dom (v_tabs a1) = {[(d, PDX va)]} ∪ dom (v_tabs a)
    /\ Z.of_nat (length (v_free a)) + Z.of_nat (size (v_tabs a)) = Z.of_nat (length (v_free a1)) + Z.of_nat (size (v_tabs a1))) as [E1 E2].
  { unfold a1, v_walk. destruct (v_tabs a !! (d, PDX va)) as [t|] eqn:El.
    - split; [|done]. assert ((d, PDX va) ∈ dom (v_tabs a)) by (apply elem_of_dom; eauto). set_solver.
    - destruct (v_free a) as [|t fl] eqn:Efr; [by destruct Hnf|]. cbn. split; [apply dom_insert_L|].
      rewrite map_size_insert_None by done. lia. }
  split; cbn [v_tabs v_free]; rewrite Et; [done|lia].
Qed.

(** * No leaks

    Every managed frame is free, referenced, or one of the frames [h] the
    kernel has taken and not yet mapped. *)
Definition no_leak (h : gset Z) (a : vm) (n : Z) : Prop :=
  forall p, managed a n p -> p ∉ v_free a -> p ∉ h -> 0 < refs a p.

Lemma no_leak_take h a n p fl :
  no_leak h a n -> v_free a = p :: fl -> no_leak ({[p]} ∪ h) (v_set_free fl a) n.
Proof. intros Hl Hf q Hq Hqf Hqh. apply (Hl q); [done|rewrite Hf; set_solver|set_solver]. Qed.

Lemma no_leak_walk h d x a n : no_leak h a n -> no_leak h (v_walk d x a) n.
Proof.
  intros Hl. unfold v_walk. destruct (v_tabs a !! (d, x)) eqn:E; [done|].
  destruct (v_free a) as [|t fl] eqn:Ef; [done|]. intros q Hq Hqf Hqh.
  rewrite refs_add_tab by done. pose proof (refs_nonneg a q). destruct (decide (t = q)); [lia|].
  rewrite Z.add_0_r. apply Hl; [done|rewrite Ef; set_solver|done].
Qed.

Lemma no_leak_unmap h ex d v a n :
  v < UVPN -> no_leak h a n -> (forall q, q ∉ h -> ex q = 0) -> no_leak h (v_unmap ex d v a) n.
Proof.
  intros Hv Hl Hex. unfold v_unmap. destruct (v_maps a !! (d, v)) as [[p f]|] eqn:Hm; [|done].
  set (a1 := v_set_maps (delete (d, v) (v_maps a)) a).
  assert (forall q, refs a1 q = refs a q - (if decide (q = p) then 1 else 0)) as Er.
  { intros q. unfold a1, refs, urefs, trefs, drefs. simpl. rewrite (count_delete _ _ _ _ Hm). simpl.
    destruct (decide (v < UVPN /\ p = q)), (decide (q = p)); try lia; naive_solver. }
  pose proof (refs_nonneg a1 p).
  destruct (Z.eqb_spec (refs a1 p + ex p) 0) as [E|E]; intros q Hq Hqf Hqh.
  - change (refs (v_set_free (p :: v_free a) a1) q) with (refs a1 q). rewrite Er.
    simpl in Hqf. rewrite decide_False by set_solver. rewrite Z.sub_0_r. apply Hl; [done|set_solver|done].
  - destruct (decide (q = p)) as [->|Hne].
    + rewrite Hex in E by done. lia.
    + rewrite Er, decide_False by done. rewrite Z.sub_0_r. by apply Hl.
Qed.

Lemma no_leak_insert h d v p f a n :
  0 <= v < UVPN -> no_leak h a n -> no_leak (h ∖ {[p]}) (v_insert no_ex d v p f a) n.
Proof.
  intros Hv Hl q Hq Hqf Hqh. unfold v_insert in *.
  set (a1 := v_unmap (plus_one no_ex p) d v (v_walk d (v / 1024) a)) in *.
  destruct (decide (q = p)) as [->|Hne].
  - pose proof (urefs_map (v_map d v p f a1) d v p f) as Hu.
    pose proof (trefs_nonneg (v_map d v p f a1) p). pose proof (drefs_nonneg (v_map d v p f a1) p).
    unfold refs. enough (1 <= urefs (v_map d v p f a1) p) by lia. apply Hu; [apply lookup_insert_eq|lia].
  - assert (no_leak (h ∪ {[p]}) a1 n) as Hl1.
    { apply no_leak_unmap; [lia| |].
      - intros q' ???. apply (no_leak_walk h d (v / 1024) a n Hl q'); [done|done|set_solver].
      - intros q' Hq'. unfold plus_one, no_ex. rewrite decide_False by set_solver. done. }
    assert (v_maps a1 !! (d, v) = None) as Hn by (unfold a1; rewrite v_unmap_maps; apply lookup_delete_eq).
    assert (refs (v_map d v p f a1) q = refs a1 q) as ->.
    { unfold refs, urefs, trefs, drefs. simpl. rewrite count_insert by done. simpl.
      rewrite decide_False by naive_solver. lia. }
    apply Hl1; [done|exact Hqf|set_solver].
Qed.
