(* ===== verification/Demo.v ===== *)
(** A small concrete machine on which the hypotheses of the theorems hold:
    eight frames, kern_pgdir in frame 1, one environment whose directory is
    frame 2, with page table 4 and one page (frame 3) mapped writable at
    0x1000. Frame 5 has been taken from the free list and is mapped nowhere. *)

From stdpp Require Import base numbers list gmap strings.
From Stdlib Require Import ZArith Lia Bool.
From S2P Require Import Prelude Mmu KState Pmap PmapSpec Paging.

Definition demo_env : Env :=
  mkEnv tf0 None 0x1000 0 ENV_TYPE_USER ENV_RUNNING 1 0 (frame_kva 2) 0 false 0 0 0 0.

Definition demo_pages : gmap Z PageInfo :=
  list_to_map [(0, mkPageInfo None 1); (1, mkPageInfo None 1); (2, mkPageInfo None 1);
               (3, mkPageInfo None 1); (4, mkPageInfo None 1); (6, mkPageInfo (Some 7) 0)].

Definition demo_mem : gmap Z Z :=
  list_to_map [(2 * 1024 + 0, mkpte 4 PTE_PWU); (4 * 1024 + 1, mkpte 3 7); (3 * 1024, 42)].

Definition demo : kstate :=
  mkK 8 8 (frame_kva 2) demo_pages (Some 6) demo_mem (frame_kva 1) (2 * PGSIZE) ∅ MMIOBASE
    {[0 := demo_env]} None {[0 := mkCpu CPU_STARTED (Some 0)]} 0 true 0 0 console0 nic0.

Definition demo_vm : vm :=
  mkVm [6; 7] {[0; 1]} 1 {[2]} {[(2, 0) := 4]} {[(2, 1) := (3, 7)]}.

Lemma demo_managed p : managed demo_vm 8 p -> p ∈ [2; 3; 4; 5; 6; 7].
Proof.
  intros [Hp Hr]. change (v_resv demo_vm) with ({[0; 1]} : gset Z) in Hr.
  assert (p <> 0 /\ p <> 1) by set_solver. rewrite !elem_of_cons. lia.
Qed.

Lemma demo_wf : vm_wf demo_vm 8.
Proof.
  split.
  - unfold MAXPAGES. lia.
  - simpl. split; [set_solver|lia].
  - intros d Hd. simpl in Hd. assert (d = 2) as -> by set_solver. split; [lia|simpl; set_solver].
  - intros d x t Hl. simpl in Hl. apply lookup_singleton_Some in Hl as [[= <- <-] <-].
    split_and!; [left; rewrite UPDX_val; simpl; split; [set_solver|lia]|split; [lia|simpl; set_solver]|simpl; set_solver].
  - intros k1 k2 t H1 H2. simpl in *.
    apply lookup_singleton_Some in H1 as [<- _]. by apply lookup_singleton_Some in H2 as [<- _].
  - intros d v p f Hl. simpl in *. apply lookup_singleton_Some in Hl as [[= <- <-] [= <- <-]].
    split_and!; done.
  - intros d v p f Hl _. simpl in *. apply lookup_singleton_Some in Hl as [[= <- <-] [= <- <-]].
    split_and!; [split; [lia|simpl; set_solver]|simpl; set_solver|].
    intros k Hk. by apply lookup_singleton_Some in Hk as [_ [=]].
Qed.

Lemma demo_alloc :
  alloc_ok (managed demo_vm 8) (fun p => refs demo_vm p + no_ex p) [6; 7] demo.
Proof.
  split.
  - done.
  - by apply (bool_decide_unpack _).
  - intros p Hp. rewrite !elem_of_cons in Hp. destruct Hp as [->|[->|Hp]]; [| |by apply elem_of_nil in Hp].
    + split; [split; [lia|simpl; set_solver]|by vm_compute].
    + split; [split; [lia|simpl; set_solver]|by vm_compute].
  - intros p Hp. rewrite !elem_of_cons in Hp. unfold page_of, mget. simpl.
    destruct (demo_pages !! p) as [i|] eqn:E; [|done]. simpl.
    apply elem_of_list_to_map_2 in E. rewrite !elem_of_cons in E.
    repeat (destruct E as [[= -> ->]|E]; [try done; naive_solver|]). by apply elem_of_nil in E.
  - intros p Hp. apply demo_managed in Hp. rewrite !elem_of_cons in Hp.
    repeat (destruct Hp as [->|Hp]; [split; [by vm_compute|by vm_compute]|]). by apply elem_of_nil in Hp.
Qed.

Lemma demo_word w : word_at demo w =
  if decide (w = 2048) then mkpte 4 PTE_PWU else if decide (w = 4097) then mkpte 3 7
  else if decide (w = 3072) then 42 else 0.
Proof.
  unfold word_at, mget. simpl. unfold demo_mem. simpl.
  repeat case_decide; subst; try done. by rewrite !lookup_insert_ne by done.
Qed.

Lemma demo_pt : pt_ok demo_vm demo.
Proof.
  split.
  - intros w. rewrite demo_word. repeat case_decide; by vm_compute.
  - intros d x Ho. rewrite demo_word. unfold own in Ho. rewrite UPDX_val in Ho. simpl in *.
    change (PDX UVPT) with 957 in Ho.
    assert ((d = 2 /\ 0 <= x < 955) \/ (d = 1 /\ 0 <= x < 1024)) as Hc by set_solver. clear Ho.
    destruct (decide ((d, x) = (2, 0))) as [[= -> ->]|Hn]; [done|].
    rewrite lookup_singleton_ne by done.
    rewrite decide_False by (intros ?; apply Hn; f_equal; lia).
    rewrite !decide_False by lia. done.
  - intros d x t j Hl Hj. simpl in *. apply lookup_singleton_Some in Hl as [[= <- <-] <-].
    rewrite demo_word. destruct (decide (j = 1)) as [->|Hn]; [done|].
    rewrite lookup_singleton_ne by (intros [= E]; lia).
    rewrite !decide_False by lia. done.
Qed.

Lemma demo_rel : vm_rel no_ex demo_vm demo.
Proof. split; [exact demo_wf|exact demo_alloc|exact demo_pt|done]. Qed.

Lemma demo_tlb : tlb_ok 2 demo_vm demo.
Proof. split; [done|]. intros n e He. simpl in He. by rewrite lookup_empty in He. Qed.

Lemma demo_insertable : insertable no_ex demo_vm 8 5.
Proof.
  split.
  - split; [lia|simpl; set_solver].
  - simpl. set_solver.
  - intros k Hk. simpl in Hk. by apply lookup_singleton_Some in Hk as [_ [=]].
  - simpl. set_solver.
  - by vm_compute.
Qed.

Lemma demo_own : own demo_vm 2 0.
Proof. left. rewrite UPDX_val. simpl. split; [set_solver|lia]. Qed.
