(* ===== verification/PagingProps.v ===== *)
(** What kern/pmap.c guarantees about address spaces: the page-table
    operations implement finite maps, reference counts are exact, the TLB is
    never stale, and user stores cannot reach the kernel's tables. *)

From stdpp Require Import base numbers list gmap strings.
From Stdlib Require Import ZArith Lia Bool.
From S2P Require Import Prelude Mmu KState Pmap PmapBoot PmapSpec Paging Demo.

(** C3: [page_insert] maps frame [p] at [va] in the address space [d]: in a
    state whose tables, free list and reference counts represent the abstract
    address spaces [a], it returns -E_NO_MEM and changes nothing exactly when
    the page table is missing and no frame is free; otherwise it returns 0
    and the new state represents [a] with [va]'s page mapped to [p] (the
    frame mapped there before loses a reference and is freed with its last
    one), every other mapping and the contents of every data frame being
    unchanged. *)
Theorem page_insert_correct (ex : Z -> Z) (a : vm) (s : kstate) (d va p perm : Z) :
  vm_rel ex a s -> is_u32 va -> own a d (PDX va) -> PGNUM va < UVPN ->
  insertable ex a (npages s) p -> 0 <= perm < PGSIZE ->
  (v_full d (PDX va) a -> page_insert (frame_kva d) p va perm s = Ret (- E_NO_MEM) s)
  /\ (~ v_full d (PDX va) a ->
      exists s', page_insert (frame_kva d) p va perm s = Ret 0 s'
        /\ vm_rel ex (v_insert ex d (PGNUM va) p (Z.lor perm PTE_P) a) s'
        /\ v_maps (v_insert ex d (PGNUM va) p (Z.lor perm PTE_P) a)
           = <[(d, PGNUM va) := (p, Z.lor perm PTE_P)]> (v_maps a)
        /\ vm_frame s s' /\ (forall q, data_frame a q -> same_frame q s s')).
Proof.
  intros HR Hva Hown Hu Hins Hperm. split; [by apply page_insert_full with (ex := ex) (a := a)|].
  intros Hnf. destruct (page_insert_ok ex a s HR d va p perm Hva Hown Hu Hins Hperm Hnf) as (s' & E & R & F & D & _).
  exists s'. split_and!; try done. apply v_insert_maps.
Qed.

Lemma page_insert_correct_witness :
  exists s', page_insert (frame_kva 2) 5 0x1000 PTE_U demo = Ret 0 s'
    /\ vm_rel no_ex (v_insert no_ex 2 1 5 5 demo_vm) s'
    /\ v_maps (v_insert no_ex 2 1 5 5 demo_vm) = {[(2, 1) := (5, 5)]}.
Proof.
  destruct (page_insert_correct no_ex demo_vm demo 2 0x1000 5 PTE_U demo_rel) as [_ H];
    [by vm_compute|exact demo_own|by vm_compute|exact demo_insertable|by vm_compute|].
  destruct H as (s' & E & R & M & _); [by intros [? ?]|].
  exists s'. split; [exact E|]. split; [exact R|]. exact M.
Defined.

(** [page_remove] unmaps [va]: it always returns, the new state
    represents the address spaces with that page unmapped, the reference
    count of the frame that was mapped is one less, and the frame goes to the
    head of the free list exactly when that was its last reference. *)
Lemma page_remove_correct (ex : Z -> Z) (a : vm) (s : kstate) (d va : Z) :
  vm_rel ex a s -> is_u32 va -> own a d (PDX va) -> PGNUM va < UVPN ->
  exists s' a', page_remove (frame_kva d) va s = Ret tt s' /\ vm_rel ex a' s'
    /\ v_maps a' = delete (d, PGNUM va) (v_maps a) /\ v_tabs a' = v_tabs a /\ v_dirs a' = v_dirs a
    /\ (v_maps a !! (d, PGNUM va) = None -> v_free a' = v_free a)
    /\ (forall p f, v_maps a !! (d, PGNUM va) = Some (p, f) ->
          refs a' p = refs a p - 1
          /\ v_free a' = (if refs a p + ex p =? 1 then p :: v_free a else v_free a))
    /\ vm_frame s s' /\ (forall q, data_frame a q -> same_frame q s s').
Proof.
  intros HR Hva Hown Hu.
  destruct (page_remove_spec ex a s HR d va Hva Hown Hu) as (s' & E & R & F & D & _).
  exists s', (v_unmap ex d (PGNUM va) a). destruct (v_unmap_rest ex d (PGNUM va) a) as (Ud & _ & _).
  split_and!; try done; [apply v_unmap_maps|apply v_unmap_tabs|..].
  - intros Hn. unfold v_unmap. by rewrite Hn.
  - intros p f Hm. pose proof (refs_delete a d va Hu p f p Hm) as Er.
    rewrite decide_True in Er by done. unfold v_unmap. rewrite Hm.
    destruct (Z.eqb_spec (refs (v_set_maps (delete (d, PGNUM va) (v_maps a)) a) p + ex p) 0),
      (Z.eqb_spec (refs a p + ex p) 1); try lia; split; done.
Qed.

(** [page_lookup] and [pgdir_walk] read the address space: the frame
    found and the entry's address are those of the mapping of [va]'s page,
    and nothing is found exactly when the page is unmapped. *)
Lemma page_lookup_correct (ex : Z -> Z) (a : vm) (s : kstate) (d va : Z) :
  vm_rel ex a s -> is_u32 va -> own a d (PDX va) -> PGNUM va < UVPN ->
  match v_maps a !! (d, PGNUM va) with
  | Some (p, f) => exists t, v_tabs a !! (d, PDX va) = Some t
      /\ page_lookup (frame_kva d) va s = Ret (Some (p, entry_kva t (PTX va))) s
      /\ load32 (entry_kva t (PTX va)) s = mkpte p f
  | None => page_lookup (frame_kva d) va s = Ret None s
  end.
Proof.
  intros HR Hva Hown Hu. destruct (v_maps a !! (d, PGNUM va)) as [[p f]|] eqn:Hm.
  - destruct (map_tab _ a s HR d va Hva p f Hm) as [t Ht]. exists t.
    split; [done|]. split; [by apply page_lookup_some with (ex := ex) (a := a) (f := f)|].
    pose proof (tab_max _ _ _ HR d _ _ Ht).
    rewrite load32_entry by (done || apply PTX_range).
    pose proof (pt_pte _ _ (rel_pt _ _ _ HR) d (PDX va) t (PTX va) Ht (PTX_range va)) as Hw.
    by rewrite <- PGNUM_split, Hm in Hw by done.
  - by apply page_lookup_none with (ex := ex) (a := a).
Qed.

(** C10: the TLB is never stale. If the translation cache of the running CPU
    agrees with its address space and [cr3] is the directory of the current
    environment (or there is none), it still agrees after [page_insert] and
    after [page_remove] on any address space. *)
Theorem tlb_coherent (ex : Z -> Z) (a : vm) (s : kstate) (dcur d va p perm : Z) :
  vm_rel ex a s -> is_u32 va -> own a d (PDX va) -> PGNUM va < UVPN ->
  tlb_ok dcur a s -> cr3_current s ->
  insertable ex a (npages s) p -> 0 <= perm < PGSIZE ->
  (exists s', page_remove (frame_kva d) va s = Ret tt s' /\ tlb_ok dcur (v_unmap ex d (PGNUM va) a) s')
  /\ (~ v_full d (PDX va) a ->
      exists s', page_insert (frame_kva d) p va perm s = Ret 0 s'
        /\ tlb_ok dcur (v_insert ex d (PGNUM va) p (Z.lor perm PTE_P) a) s').
Proof.
  intros HR Hva Hown Hu HT Hc Hins Hperm. split.
  - destruct (page_remove_spec ex a s HR d va Hva Hown Hu) as (s1 & E & _ & F & _ & T).
    exists s1. split; [done|]. eapply tlb_ok_update; [done..|by apply vm_frame_cr3|exact T|].
    intros k Hk. rewrite v_unmap_maps. by apply lookup_delete_ne.
  - intros Hnf.
    destruct (page_insert_ok ex a s HR d va p perm Hva Hown Hu Hins Hperm Hnf) as (s1 & E & _ & F & _ & T).
    exists s1. split; [done|]. eapply tlb_ok_update; [done..|by apply vm_frame_cr3|exact T|].
    intros k Hk. rewrite v_insert_maps. by apply lookup_insert_ne.
Qed.

Lemma tlb_coherent_witness :
  exists s', page_remove (frame_kva 2) 0x1000 demo = Ret tt s' /\ tlb_ok 2 (v_unmap no_ex 2 1 demo_vm) s'.
Proof.
  apply (tlb_coherent no_ex demo_vm demo 2 2 0x1000 5 PTE_U demo_rel);
    [by vm_compute|exact demo_own|by vm_compute|exact demo_tlb|by vm_compute|exact demo_insertable|by vm_compute].
Defined.


