(* ===== verification/UserMem.v ===== *)
(** [user_mem_check] of kern/pmap.c against the abstract address spaces: the
    page loop finds the first page an environment may not access. *)

From stdpp Require Import base numbers list gmap strings.
From Stdlib Require Import ZArith Lia Bool.
From S2P Require Import Prelude Mmu KState Pmap PmapSpec Paging Demo.

Local Ltac Zify.zify_post_hook ::= Z.to_euclidean_division_equations.

(** The page is mapped with at least the permissions [perm]. *)
Definition user_page_ok (a : vm) (d perm v : Z) : bool :=
  match v_maps a !! (d, v) with
  | Some (p, f) => Z.land f perm =? perm
  | None => false
  end.

(** The first of [n] pages from [v] that fails a test. *)
Fixpoint first_bad (ok : Z -> bool) (n : nat) (v : Z) : option Z :=
  match n with
  | O => None
  | S n' => if ok v then first_bad ok n' (v + 1) else Some v
  end.

Lemma first_bad_None ok n : forall v,
  first_bad ok n v = None -> forall w, v <= w < v + Z.of_nat n -> ok w = true.
Proof.
  induction n as [|n IH]; intros v Hf w Hw; [lia|]. simpl in Hf.
  destruct (ok v) eqn:Hv; [|done]. destruct (Z.eq_dec w v) as [->|]; [done|].
  apply (IH (v + 1)); [done|lia].
Qed.

Lemma first_bad_Some ok n : forall v w,
  first_bad ok n v = Some w ->
  v <= w < v + Z.of_nat n /\ ok w = false /\ (forall u, v <= u < w -> ok u = true).
Proof.
  induction n as [|n IH]; intros v w Hf; [done|]. simpl in Hf.
  destruct (ok v) eqn:Hv.
  - destruct (IH _ _ Hf) as (H1 & H2 & H3). split_and!; [lia|lia|done|].
    intros u Hu. destruct (Z.eq_dec u v) as [->|]; [done|]. apply H3. lia.
  - injection Hf as <-. split_and!; [lia|lia|done|]. intros; lia.
Qed.

Section Check.
Context (ex : Z -> Z) (a : vm) (s : kstate) (HR : vm_rel ex a s).
Context (d perm va : Z) (Hd : d ∈ v_dirs a) (Hperm : 0 < perm < PGSIZE).

Lemma page_test va' : is_u32 va' -> va' < UTOP ->
  exists cur, pgdir_walk (frame_kva d) va' false s = Ret cur s
    /\ (cur =? 0) || negb (Z.land (load32 cur s) perm =? perm) = negb (user_page_ok a d perm (PGNUM va')).
Proof.
  intros Hva Hu. assert (own a d (PDX va')) as Hown by (apply user_own; auto). unfold user_page_ok.
  pose proof (rel_wf _ _ _ HR) as Hwf. destruct (v_tabs a !! (d, PDX va')) as [t|] eqn:Ht.
  - exists (entry_kva t (PTX va')). split; [by apply (pgdir_walk_present ex a s HR)|].
    pose proof (tab_max _ _ _ HR d _ _ Ht) as Htm. pose proof (PTX_range va') as Hj.
    destruct (entry_kva_u32 t (PTX va') Htm Hj) as [_ Hnz]. apply Z.eqb_neq in Hnz. rewrite Hnz. simpl.
    rewrite load32_entry by done.
    pose proof (pt_pte _ _ (rel_pt _ _ _ HR) d (PDX va') t (PTX va') Ht Hj) as Hw.
    rewrite <- PGNUM_split in Hw by done. destruct (v_maps a !! (d, PGNUM va')) as [[p f]|] eqn:Hm; rewrite Hw.
    + destruct (wf_maps _ _ Hwf _ _ _ _ Hm) as (_ & _ & _ & Hf & _).
      by rewrite land_mkpte by lia.
    + destruct (Z.eqb_spec (Z.land 0 perm) perm) as [E|]; [|done]. rewrite Z.land_0_l in E. lia.
  - exists 0. split; [by apply (pgdir_walk_absent ex a s HR)|]. simpl.
    destruct (v_maps a !! (d, PGNUM va')) as [[p f]|] eqn:Hm; [|done].
    destruct (wf_maps _ _ Hwf _ _ _ _ Hm) as ([t Ht'] & _). rewrite (va_pdx va' Hva) in Ht'. congruence.
Qed.

Lemma user_mem_check_loop first n : forall v,
  0 <= v -> v + Z.of_nat n <= UVPN ->
  user_mem_check_pages n (frame_kva d) va first (v * PGSIZE) perm s =
  match first_bad (user_page_ok a d perm) n v with
  | None => Ret 0 s
  | Some w => Ret (- E_FAULT) (set_check_addr (if w * PGSIZE =? first then va else w * PGSIZE) s)
  end.
Proof.
  pose proof UVPN_val as Eu.
  induction n as [|n IH]; intros v Hv Hn; [done|].
  assert (is_u32 (v * PGSIZE)) as Hu32 by (unfold is_u32, PGSIZE; lia).
  assert (v * PGSIZE < UTOP) as Hlt by (change UTOP with (955 * 1024 * 4096); unfold PGSIZE; lia).
  assert (PGNUM (v * PGSIZE) = v) as Ev.
  { rewrite PGNUM_div by done. apply Z.div_mul. unfold PGSIZE; lia. }
  destruct (page_test (v * PGSIZE) Hu32 Hlt) as (cur & Ec & Et). rewrite Ev in Et.
  simpl. unfold bind at 1. rewrite Ec. unfold bind at 1, gets.
  assert ((ULIM <? v * PGSIZE) = false) as ->.
  { apply Z.ltb_ge. change ULIM with (958 * 1024 * 4096). change UTOP with (955 * 1024 * 4096) in Hlt. lia. }
  rewrite orb_false_l, Et. destruct (user_page_ok a d perm v) eqn:Hok; simpl.
  - rewrite u32_small by (unfold is_u32, PGSIZE in *; lia).
    replace (v * PGSIZE + PGSIZE) with ((v + 1) * PGSIZE) by lia. apply IH; lia.
  - unfold bind. by destruct (v * PGSIZE =? first).
Qed.
End Check.

Lemma user_mem_check_exact (ex : Z -> Z) (a : vm) (s : kstate) (env d va len perm : Z) :
  vm_rel ex a s -> env_pgdir (env_of s env) = frame_kva d -> d ∈ v_dirs a ->
  0 <= va -> 0 < len -> va + len <= UTOP -> 0 < perm < PGSIZE ->
  let ok x := user_page_ok a d perm (PGNUM x) in
  (user_mem_check env va len perm s = Ret 0 s /\ (forall x, va <= x < va + len -> ok x = true))
  \/ (exists b, user_mem_check env va len perm s = Ret (- E_FAULT) (set_check_addr b s)
       /\ va <= b < va + len /\ ok b = false /\ (forall x, va <= x < b -> ok x = true)).
Proof.
  intros HR Hpg Hd Hva Hlen Hu Hperm ok. change UTOP with (955 * 1024 * 4096) in Hu.
  assert (forall x, va <= x < va + len -> PGNUM x = x / 4096) as EN.
  { intros x Hx. apply PGNUM_div. unfold is_u32. lia. }
  set (v := va / PGSIZE). set (e := (va + len + PGSIZE - 1) / PGSIZE).
  assert (0 <= v /\ v * 4096 <= va < v * 4096 + 4096) as [Hv0 Hv] by (unfold v, PGSIZE; lia).
  assert (v < e <= 955 * 1024 /\ (e - 1) * 4096 < va + len <= e * 4096) as [He1 He2].
  { unfold e, v, PGSIZE. lia. }
  assert (user_mem_check env va len perm s =
    user_mem_check_pages (Z.to_nat (e - v)) (frame_kva d) va (v * PGSIZE) (v * PGSIZE) perm s) as ->.
  { unfold user_mem_check. rewrite u32_small by (unfold is_u32; lia).
    rewrite ROUNDDOWN_page by (unfold is_u32; lia). rewrite ROUNDUP_page by (unfold PGSIZE; lia).
    unfold bind, gets. by rewrite Hpg, <- Z.mul_sub_distr_r, Z.div_mul by (by vm_compute). }
  pose proof UVPN_val as EU.
  rewrite (user_mem_check_loop ex a s HR d perm va Hd Hperm) by (rewrite ?Z2Nat.id; lia).
  destruct (first_bad (user_page_ok a d perm) (Z.to_nat (e - v)) v) as [w|] eqn:Hf.
  - right. apply first_bad_Some in Hf as (Hw & Hbad & Hbef). rewrite Z2Nat.id in Hw by lia.
    assert (forall x, va <= x < va + len -> x / 4096 < w -> ok x = true) as Hok.
    { intros x Hx Hlt. unfold ok. rewrite EN by done. apply Hbef. lia. }
    unfold PGSIZE in *. destruct (Z.eqb_spec (w * 4096) (v * 4096)) as [E|E].
    + exists va. split_and!; [reflexivity|lia|lia| |intros; lia].
      unfold ok. rewrite EN by lia. by replace (va / 4096) with w by lia.
    + exists (w * 4096). split_and!; [done|lia|lia| |].
      * unfold ok. rewrite EN by lia. by rewrite Z.div_mul by lia.
      * intros x Hx. apply Hok; lia.
  - left. split; [done|]. intros x Hx. unfold ok. rewrite EN by done.
    apply (first_bad_None _ _ _ Hf). rewrite Z2Nat.id by lia. unfold PGSIZE in *. lia.
Qed.

(** [user_mem_check] on a range that ends at or below UTOP is exact: it
    returns 0 and changes nothing if every byte of the range is mapped with
    the permissions asked for, and otherwise returns -E_FAULT and leaves in
    [user_mem_check_addr] the first byte of the range that is not. *)
Lemma user_mem_check_correct (ex : Z -> Z) (a : vm) (s : kstate) (env d va len perm : Z) :
  vm_rel ex a s -> env_pgdir (env_of s env) = frame_kva d -> d ∈ v_dirs a ->
  0 <= va -> 0 < len -> va + len <= UTOP -> 0 < perm < PGSIZE ->
  let ok x := user_page_ok a d perm (PGNUM x) in
  (user_mem_check env va len perm s = Ret 0 s /\ (forall x, va <= x < va + len -> ok x = true))
  \/ (exists b, user_mem_check env va len perm s = Ret (- E_FAULT) (set_check_addr b s)
       /\ va <= b < va + len /\ ok b = false /\ (forall x, va <= x < b -> ok x = true)).
Proof. apply user_mem_check_exact. Qed.

(** C35: the sum [va + len] is computed in 32 bits. Whenever it wraps past
    the end of the address space and lands at or below the page of [va],
    the check accepts the range without looking at a single page, whatever
    the address space maps: a range such as [0xf0100000, 2^32 + 0x1000) of
    kernel memory passes. *)
Theorem user_mem_check_wraps (s : kstate) (env va len perm : Z) :
  is_u32 va -> is_u32 len -> 2 ^ 32 <= va + len -> va + len - 2 ^ 32 <= va / PGSIZE * PGSIZE ->
  user_mem_check env va len perm s = Ret 0 s.
Proof.
  intros Hva Hlen Hw Hle. unfold is_u32, PGSIZE in *.
  assert (u32 (va + len) = va + len - 2 ^ 32) as E.
  { unfold u32. symmetry. apply (Z.mod_unique _ _ 1); lia. }
  unfold user_mem_check. rewrite E, ROUNDDOWN_page by (unfold is_u32; lia).
  rewrite ROUNDUP_page by (unfold PGSIZE; lia). unfold bind, gets, PGSIZE.
  replace (Z.to_nat _) with O by lia. done.
Qed.

Lemma user_mem_check_wraps_witness :
  user_mem_check 0 0xf0100000 0x0ff01000 PTE_U demo = Ret 0 demo /\ KERNBASE <= 0xf0100000.
Proof. split; [apply user_mem_check_wraps; by vm_compute|by vm_compute]. Defined.
