(* ===== verification/PmapBootSpec.v ===== *)
(** The boot path of kern/pmap.c: [page_init] builds a free list of exactly
    the frames it may hand out, and [boot_map_region] maps a run of kernel
    pages onto consecutive frames. *)

From stdpp Require Import base numbers list gmap strings.
From Stdlib Require Import ZArith Lia Bool.
From S2P Require Import Prelude Mmu KState Pmap PmapBoot PmapSpec Paging Demo.

Local Ltac Zify.zify_post_hook ::= Z.to_euclidean_division_equations.

(** * [page_init] *)

(** The frames [page_init] puts on the free list. [lim] is the first frame
    past the ones it reserves from the I/O hole on. *)
Definition boot_free (base lim i : Z) : bool :=
  negb ((i =? 0) || (i =? MPENTRY_PADDR / PGSIZE)) && negb ((base <=? i) && (i <? lim)).

(** The free list after [i] rounds of the loop. *)
Definition boot_list (base lim i : Z) : list Z :=
  reverse (filter (fun p => boot_free base lim p = true) (seqZ 0 i)).

Lemma elem_of_boot_list base lim i p :
  p ∈ boot_list base lim i <-> 0 <= p < i /\ boot_free base lim p = true.
Proof.
  unfold boot_list. rewrite elem_of_reverse, list_elem_of_filter, elem_of_seqZ. naive_solver lia.
Qed.

Lemma boot_list_succ base lim i : 0 <= i ->
  boot_list base lim (i + 1) = if boot_free base lim i then i :: boot_list base lim i else boot_list base lim i.
Proof.
  intros Hi. unfold boot_list. rewrite seqZ_app by lia. rewrite filter_app, reverse_app. simpl.
  change (seqZ (0 + i) 1) with [0 + i]. rewrite Z.add_0_l, filter_cons, filter_nil.
  destruct (boot_free base lim i) eqn:E; by case_decide.
Qed.

Record page_init_inv (base lim n : Z) (i : Z) (s : kstate) : Prop := {
  pi_base : npages_basemem s = base;
  pi_n : npages s = n;
  pi_chain : chain s (page_free_list s) (boot_list base lim i);
  pi_page : forall p, page_of s p =
    if decide (0 <= p < i) then
      if boot_free base lim p then mkPageInfo (pp_link (page_of s p)) 0 else mkPageInfo None 1
    else page0
}.

Lemma page_init_step_inv base ni ne n i s :
  0 <= i -> page_init_inv base (u32 (base + ni + ne)) n i s ->
  exists s', page_init_step ni ne i s = Ret tt s' /\ page_init_inv base (u32 (base + ni + ne)) n (i + 1) s'.
Proof.
  intros Hi [H1 H2 H3 H4]. set (lim := u32 (base + ni + ne)) in *.
  assert (i ∉ boot_list base lim i) as Hni by (rewrite elem_of_boot_list; lia).
  assert (forall q j, page_of (put_page i j s) q = if decide (i = q) then j else page_of s q) as Ep
    by (intros; apply page_of_put).
  assert (page_init_step ni ne i s = Ret tt (if boot_free base lim i
      then set_free (Some i) (put_page i (mkPageInfo (page_free_list s) 0) s)
      else put_page i (mkPageInfo None 1) s)) as ->.
  { unfold page_init_step, bind, gets, boot_free. rewrite H1. fold lim.
    by destruct ((i =? 0) || (i =? MPENTRY_PADDR / PGSIZE)), ((base <=? i) && (i <? lim)). }
  eexists. split; [done|]. destruct (boot_free base lim i) eqn:Hb.
  - split; [done|done| |].
    + rewrite boot_list_succ, Hb by done. split; [done|].
      change (page_of (set_free ?x ?y) i) with (page_of y i). rewrite Ep, decide_True by done. simpl.
      apply (chain_ext s); [|done]. intros q Hq. change (page_of (set_free ?x ?y) q) with (page_of y q).
      rewrite Ep, decide_False; [done|]. by intros ->.
    + intros p. change (page_of (set_free ?x ?y) p) with (page_of y p). rewrite Ep.
      destruct (decide (i = p)) as [<-|Hne]; [by rewrite decide_True, Hb by lia|].
      rewrite (H4 p) at 1. destruct (decide (0 <= p < i)), (decide (0 <= p < i + 1)); done || lia.
  - split; [done|done| |].
    + rewrite boot_list_succ, Hb by done. apply (chain_ext s); [|done].
      intros q Hq. rewrite Ep, decide_False; [done|]. by intros ->.
    + intros p. rewrite Ep. destruct (decide (i = p)) as [<-|Hne]; [by rewrite decide_True, Hb by lia|].
      rewrite (H4 p) at 1. destruct (decide (0 <= p < i)), (decide (0 <= p < i + 1)); done || lia.
Qed.

(** The boot frames, as the frames under management. *)
Definition boot_managed (base lim n p : Z) : Prop := 0 <= p < n /\ boot_free base lim p = true.

Lemma page_init_inv_ok base lim n s :
  page_init_inv base lim n n s ->
  alloc_ok (boot_managed base lim n) (fun _ => 0) (boot_list base lim n) s
  /\ (forall p, 0 <= p < n -> boot_free base lim p = false -> page_of s p = mkPageInfo None 1).
Proof.
  intros [H1 H2 H3 H4]. split; [split|].
  - done.
  - unfold boot_list. rewrite reverse_Permutation. apply NoDup_filter, NoDup_seqZ.
  - intros p Hp. split; [|done]. by apply elem_of_boot_list.
  - intros p Hp. rewrite H4. destruct (decide (0 <= p < n)); [|done].
    destruct (boot_free base lim p) eqn:Hb; [|done]. destruct Hp. by apply elem_of_boot_list.
  - intros p [Hp Hb]. rewrite H4, decide_True, Hb by done. done.
  - intros p Hp Hb. by rewrite H4, decide_True, Hb.
Qed.

(** C36: [page_init], run after the boot allocator has handed out its last
    block, returns with a free list that holds, without repetition, exactly
    the frames other than frame 0, the AP entry page and the run from the end
    of base memory past the kernel's own data, each with reference count 0;
    every other frame keeps reference count 1 and is not linked. *)
Theorem page_init_correct (P : platform) (s : kstate) :
  0 <= npages s -> nextfree s <> 0 ->
  ROUNDUP (nextfree s) PGSIZE = nextfree s -> is_u32 (nextfree s) ->
  u32 (nextfree s - KERNBASE) <= u32 (npages s * PGSIZE) ->
  (forall p, page_of s p = page0) ->
  let base := npages_basemem s in
  let lim := u32 (base + (EXTPHYSMEM - IOPHYSMEM) / PGSIZE + u32 (nextfree s - KERNBASE) / PGSIZE) in
  exists s', page_init P s = Ret tt s'
    /\ alloc_ok (boot_managed base lim (npages s)) (fun _ => 0) (boot_list base lim (npages s)) s'
    /\ (forall p, 0 <= p < npages s -> boot_free base lim p = false -> page_of s' p = mkPageInfo None 1).
Proof.
  intros Hn Hnz Hal Hnf Hfit Hpg base lim.
  assert (boot_alloc P 0 (set_free None s) = Ret (nextfree s) (set_free None s)) as E.
  { unfold boot_alloc, bind, gets, modify, ret. apply Z.eqb_neq in Hnz.
    cbn [nextfree set_free]. rewrite Hnz. cbn [nextfree set_free].
    rewrite Z.add_0_r, (u32_small (nextfree s)), Hal by done.
    assert ((u32 (npages s * PGSIZE) <? u32 (nextfree s - KERNBASE)) = false) as Hb by (apply Z.ltb_ge; lia).
    cbn [npages set_nextfree set_free]. rewrite Hb. by destruct s. }
  unfold page_init. unfold bind at 1, modify at 1. unfold bind at 1. rewrite E. unfold bind at 1, gets at 1.
  destruct (for_loop_inv (page_init_inv base lim (npages s))
    (page_init_step ((EXTPHYSMEM - IOPHYSMEM) / PGSIZE) (u32 (nextfree s - KERNBASE) / PGSIZE))
    (Z.to_nat (npages s)) 0 (set_free None s)) as (s' & E' & I').
  - split; [done|done|done|]. intros p. rewrite decide_False by lia. apply Hpg.
  - intros j s1 Hj HI. apply page_init_step_inv; [lia|done].
  - exists s'. split; [exact E'|]. rewrite Z2Nat.id in I' by done. by apply page_init_inv_ok.
Qed.

Definition demo_boot : kstate :=
  set_nextfree 0xf0102000 (set_npages 300 160 kstate0).
Definition demo_platform : platform := mkPlatform (fun _ => 0) 0xf0101234 0xf0110000 0xf0118000.

Lemma page_init_correct_witness :
  exists s', page_init demo_platform demo_boot = Ret tt s' /\ NoDup (boot_list 160 514 300)
    /\ page_of s' 7 = mkPageInfo None 1.
Proof.
  destruct (page_init_correct demo_platform demo_boot) as (s' & E & A & B);
    [by vm_compute|by vm_compute|by vm_compute|by vm_compute|by vm_compute|done|].
  exists s'. split; [exact E|]. split; [exact (ao_nodup _ _ _ _ A)|]. apply (B 7); [split; [discriminate|reflexivity]|reflexivity].
Defined.

(** * [boot_map_region] *)

(** [n] consecutive pages from [v] mapped to consecutive frames from [p]. *)
Fixpoint map_run (n : nat) (d v p f : Z) (m : gmap (Z * Z) (Z * Z)) : gmap (Z * Z) (Z * Z) :=
  match n with
  | O => m
  | S n' => map_run n' d (v + 1) (p + 1) f (<[(d, v) := (p, f)]> m)
  end.

Lemma map_run_other n d f : forall v p m k,
  (forall i, 0 <= i < Z.of_nat n -> k <> (d, v + i)) -> map_run n d v p f m !! k = m !! k.
Proof.
  induction n as [|n IH]; intros v p m k Hk; [done|]. simpl. rewrite IH.
  - apply lookup_insert_ne. intros E. apply (Hk 0); [lia|]. by rewrite Z.add_0_r.
  - intros i Hi. replace (v + 1 + i) with (v + (i + 1)) by lia. apply Hk. lia.
Qed.

Lemma map_run_lookup n d f : forall v p m i,
  0 <= i < Z.of_nat n -> map_run n d v p f m !! (d, v + i) = Some (p + i, f).
Proof.
  induction n as [|n IH]; intros v p m i Hi; [lia|]. simpl.
  destruct (Z.eq_dec i 0) as [->|Hi0].
  - rewrite map_run_other by (intros j Hj [= E]; lia). rewrite !Z.add_0_r. apply lookup_insert_eq.
  - replace (v + i) with (v + 1 + (i - 1)) by lia. rewrite IH by lia. do 2 f_equal. lia.
Qed.

(** The kernel pages of [kern_pgdir] a run may touch. *)
Definition kernel_page (v : Z) : Prop := UVPN <= v < 2 ^ 20 /\ v / 1024 <> PDX UVPT.

Lemma kernel_page_va v : kernel_page v ->
  is_u32 (v * PGSIZE) /\ PGNUM (v * PGSIZE) = v /\ PDX (v * PGSIZE) = v / 1024 /\ v / 1024 < 1024.
Proof.
  intros [Hv Hx]. rewrite UVPN_val in Hv. assert (is_u32 (v * PGSIZE)) as Hu by (unfold is_u32, PGSIZE; lia).
  assert (PGNUM (v * PGSIZE) = v) as E by (rewrite PGNUM_div by done; by apply Z.div_mul).
  split; [done|]. split; [done|]. split.
  - rewrite <- E at 2. by rewrite va_pdx.
  - apply Z.div_lt_upper_bound; lia.
Qed.

Section BootMap.
Context (ex : Z -> Z) (perm : Z) (Hperm : 0 <= perm < PGSIZE).

Let f := Z.lor perm PTE_P.

(** One round of the loop. *)
Lemma boot_map_step a s v p :
  vm_rel ex a s -> kernel_page v -> 0 <= p < 2 ^ 20 ->
  exists s1, (let! pte := pgdir_walk (frame_kva (v_kdir a)) (v * PGSIZE) true in
      assert_ (negb (pte =? 0)) "pg_table_entry != NULL" ;;!
      store32 pte (Z.lor (Z.lor (p * PGSIZE) perm) PTE_P)) s
    = (if decide (v_full (v_kdir a) (v / 1024) a) then Panic "pg_table_entry != NULL" s else Ret tt s1)
    /\ (~ v_full (v_kdir a) (v / 1024) a ->
        vm_rel ex (v_map (v_kdir a) v p f (v_walk (v_kdir a) (v / 1024) a)) s1 /\ vm_frame s s1).
Proof.
  intros HR Hk Hp. destruct (kernel_page_va v Hk) as (Hu & En & Ex & Hlt). set (d := v_kdir a).
  assert (own a d (PDX (v * PGSIZE))) as Hown.
  { right. rewrite Ex. split_and!; [done| |done|apply Hk]. destruct Hk. rewrite UVPN_val in *. apply Z.div_pos; lia. }
  destruct (decide (v_full d (v / 1024) a)) as [Hf|Hnf].
  { exists s. split; [|done]. rewrite <- Ex in Hf. unfold bind.
    by rewrite (pgdir_walk_nomem ex a s HR d _ Hown (proj1 Hf) (proj2 Hf)). }
  rewrite <- Ex in Hnf.
  destruct (pgdir_walk_alloc ex a s HR d _ Hown Hnf) as (t & s1 & E1 & R1 & Ht & F1 & _).
  exists (store_slot t (PTX (v * PGSIZE)) (mkpte p f) s1).
  pose proof (tab_max _ _ _ R1 d _ _ Ht) as Htm. pose proof (PTX_range (v * PGSIZE)) as Hj.
  split.
  - unfold bind. rewrite E1. destruct (entry_kva_u32 t _ Htm Hj) as [_ Hnz]. apply Z.eqb_neq in Hnz.
    rewrite Hnz. simpl. rewrite store32_entry by done. do 2 f_equal.
    rewrite <- Z.lor_assoc. apply lor_pte. by apply perm_range.
  - intros _. split; [|eapply vm_frame_trans; [exact F1|apply vm_frame_store_slot]].
    rewrite <- Ex. pose proof (kmap_rel ex (v_walk d (PDX (v * PGSIZE)) a) s1 d (v * PGSIZE) t p f) as HK.
    rewrite En in HK. apply HK; try done.
    + apply Hk.
    + by apply perm_range.
    + unfold f. by apply flag_self_lor.
Qed.

Lemma boot_map_pages_spec n : forall a s v p,
  vm_rel ex a s -> (forall i, 0 <= i < Z.of_nat n -> kernel_page (v + i)) ->
  0 <= p -> p + Z.of_nat n <= 2 ^ 20 ->
  (exists s' a', boot_map_pages n (frame_kva (v_kdir a)) (v * PGSIZE) (p * PGSIZE) perm s = Ret tt s'
     /\ vm_rel ex a' s' /\ vm_frame s s' /\ v_maps a' = map_run n (v_kdir a) v p f (v_maps a)
     /\ v_kdir a' = v_kdir a /\ v_dirs a' = v_dirs a /\ v_resv a' = v_resv a)
  \/ (exists s' a', boot_map_pages n (frame_kva (v_kdir a)) (v * PGSIZE) (p * PGSIZE) perm s
         = Panic "pg_table_entry != NULL" s' /\ vm_rel ex a' s' /\ v_free a' = []).
Proof.
  induction n as [|n IH]; intros a s v p HR Hk Hp Hpn.
  { left. exists s, a. split_and!; try done. apply vm_frame_refl. }
  assert (kernel_page v) as Hkv by (rewrite <- (Z.add_0_r v); apply Hk; lia).
  destruct (boot_map_step a s v p HR Hkv) as (s1 & E1 & H1); [lia|].
  assert (boot_map_pages (S n) (frame_kva (v_kdir a)) (v * PGSIZE) (p * PGSIZE) perm s
    = if decide (v_full (v_kdir a) (v / 1024) a) then Panic "pg_table_entry != NULL" s
      else boot_map_pages n (frame_kva (v_kdir a)) (u32 (v * PGSIZE + PGSIZE)) (u32 (p * PGSIZE + PGSIZE)) perm s1) as ->.
  { cbn [boot_map_pages]. revert E1. unfold bind. destruct (pgdir_walk _ _ _ s) as [pte s2| |];
      [destruct (assert_ _ _ _) as [u s3| |]; [destruct (store32 _ _ s3)|..]|..];
      destruct (decide _); congruence. }
  destruct (decide (v_full (v_kdir a) (v / 1024) a)) as [Hf|Hnf].
  { right. exists s, a. split_and!; [done|done|apply Hf]. }
  destruct (H1 Hnf) as [R1 F1]. set (a1 := v_map (v_kdir a) v p f (v_walk (v_kdir a) (v / 1024) a)) in *.
  destruct (v_walk_rest (v_kdir a) (v / 1024) a) as (Wd & Wk & Wr).
  assert (v_kdir a1 = v_kdir a) as Ek by exact Wk.
  assert (v_maps a1 = <[(v_kdir a, v) := (p, f)]> (v_maps a)) as Em by (unfold a1; simpl; by rewrite v_walk_maps).
  destruct n as [|n'].
  { left. exists s1, a1. split_and!; try done. }
  assert (kernel_page (v + 1)) as Hk1 by (apply Hk; lia).
  destruct (kernel_page_va _ Hk1) as (Hu1 & _).
  replace (v * PGSIZE + PGSIZE) with ((v + 1) * PGSIZE) by lia.
  replace (p * PGSIZE + PGSIZE) with ((p + 1) * PGSIZE) by lia.
  rewrite !u32_small by (unfold is_u32, PGSIZE in *; lia). rewrite <- Ek.
  destruct (IH a1 s1 (v + 1) (p + 1) R1) as [(s' & a' & E' & R' & F' & M' & K' & D' & V')|Hpanic];
    [intros i Hi; rewrite <- Z.add_assoc; apply Hk; lia|lia|lia| |by right].
  left. exists s', a'. split_and!; [exact E'|exact R'|by eapply vm_frame_trans|..].
  - rewrite M', Em, Ek. done.
  - congruence.
  - rewrite D'. exact Wd.
  - rewrite V'. exact Wr.
Qed.
End BootMap.

(** [boot_map_region] on kern_pgdir maps [n] consecutive kernel pages
    from [v] onto the consecutive frames from [p] with the permissions asked
    for, and changes no other mapping, no address space of an environment and
    no reference count; the only other outcome is the assertion that a page
    table could not be allocated, with the free list empty. *)
Lemma boot_map_region_correct (ex : Z -> Z) (a : vm) (s : kstate) (v p n perm : Z) :
  vm_rel ex a s -> 0 <= n -> (forall i, 0 <= i < n -> kernel_page (v + i)) ->
  0 <= p -> p + n <= 2 ^ 20 -> 0 <= perm < PGSIZE ->
  (exists s' a', boot_map_region (frame_kva (v_kdir a)) (v * PGSIZE) (n * PGSIZE) (p * PGSIZE) perm s = Ret tt s'
     /\ vm_rel ex a' s' /\ vm_frame s s' /\ v_kdir a' = v_kdir a /\ v_dirs a' = v_dirs a
     /\ (forall i, 0 <= i < n -> v_maps a' !! (v_kdir a, v + i) = Some (p + i, Z.lor perm PTE_P))
     /\ (forall k, (forall i, 0 <= i < n -> k <> (v_kdir a, v + i)) -> v_maps a' !! k = v_maps a !! k))
  \/ (exists s' a', boot_map_region (frame_kva (v_kdir a)) (v * PGSIZE) (n * PGSIZE) (p * PGSIZE) perm s
         = Panic "pg_table_entry != NULL" s' /\ vm_rel ex a' s' /\ v_free a' = []).
Proof.
  intros HR Hn Hk Hp Hpn Hperm. unfold boot_map_region. rewrite Z.div_mul by done.
  destruct (boot_map_pages_spec ex perm Hperm (Z.to_nat n) a s v p HR)
    as [(s' & a' & E & R & F & M & K' & D & _)|H]; [by rewrite Z2Nat.id|done|by rewrite Z2Nat.id| |by right].
  left. exists s', a'. split_and!; try done; intros; rewrite M.
  - apply map_run_lookup. by rewrite Z2Nat.id.
  - apply map_run_other. by rewrite Z2Nat.id.
Qed.

Lemma kernel_page_spec v : kernel_page v <-> 955 * 1024 <= v < 2 ^ 20 /\ v / 1024 <> 957.
Proof. unfold kernel_page. rewrite UVPN_val, PDX_UVPT_val. done. Qed.

(** [mmio_map_region] reserves device memory: with room left below
    MMIOLIM it returns the current base, maps the pages of the rounded region
    onto the frames from [pa]'s on, uncached and writable by the kernel only,
    and moves the base past them; without room it panics and changes
    nothing. *)
Lemma mmio_map_region_correct (ex : Z -> Z) (a : vm) (s : kstate) (b pa size : Z) :
  vm_rel ex a s -> kern_pgdir s = frame_kva (v_kdir a) ->
  mmio_base s = b * PGSIZE -> MMIOBASE <= b * PGSIZE <= MMIOLIM ->
  is_u32 pa -> 0 <= size <= PTSIZE -> pa + size <= 2 ^ 32 - PGSIZE ->
  let n := (size + PGSIZE - 1) / PGSIZE in
  (MMIOLIM <= (b + n) * PGSIZE -> mmio_map_region pa size s = Panic "mmio_map_region overflow" s)
  /\ ((b + n) * PGSIZE < MMIOLIM ->
      (exists s' a', mmio_map_region pa size s = Ret (b * PGSIZE) s' /\ vm_rel ex a' s'
         /\ mmio_base s' = (b + n) * PGSIZE
         /\ (forall i, 0 <= i < n -> v_maps a' !! (v_kdir a, b + i)
               = Some (pa / PGSIZE + i, Z.lor (Z.lor (Z.lor PTE_PCD PTE_PWT) PTE_W) PTE_P))
         /\ (forall k, (forall i, 0 <= i < n -> k <> (v_kdir a, b + i)) -> v_maps a' !! k = v_maps a !! k))
      \/ (exists s' a', mmio_map_region pa size s = Panic "pg_table_entry != NULL" s' /\ vm_rel ex a' s'
            /\ v_free a' = [])).
Proof.
  intros HR Hkp Hb Hbl Hpa Hsz Hfit n.
  change MMIOBASE with (958 * 1024 * PGSIZE) in Hbl. change MMIOLIM with (959 * 1024 * PGSIZE) in *.
  assert (0 <= n <= 1024 /\ n * PGSIZE < size + PGSIZE) as [Hn Hns].
  { unfold n, PTSIZE, NPTENTRIES, PGSIZE in *. lia. }
  unfold is_u32, PTSIZE, NPTENTRIES in *.
  assert (mmio_map_region pa size s = if 959 * 1024 * PGSIZE <=? (b + n) * PGSIZE
    then Panic "mmio_map_region overflow" s
    else (boot_map_region (frame_kva (v_kdir a)) (b * PGSIZE) (n * PGSIZE) (pa / PGSIZE * PGSIZE)
            (Z.lor (Z.lor PTE_PCD PTE_PWT) PTE_W) ;;!
          modify (set_mmio_base ((b + n) * PGSIZE)) ;;! ret (b * PGSIZE)) s) as E.
  { unfold mmio_map_region. rewrite ROUNDUP_page, ROUNDDOWN_page by (unfold is_u32, PGSIZE in *; lia).
    change MMIOLIM with (959 * 1024 * PGSIZE). fold n. unfold bind at 1, gets at 1. rewrite Hb.
    rewrite Z.mul_add_distr_r, (Z.add_comm (n * PGSIZE)), !u32_small by (unfold is_u32, PGSIZE in *; lia).
    destruct (_ <=? _); [done|]. unfold bind at 1, gets at 1. by rewrite Hkp. }
  rewrite E. split; intros Hlim.
  { by rewrite (proj2 (Z.leb_le _ _) Hlim). }
  rewrite (proj2 (Z.leb_gt _ _) Hlim). unfold boot_map_region. rewrite Z.div_mul by done. unfold bind.
  destruct (boot_map_pages_spec ex (Z.lor (Z.lor PTE_PCD PTE_PWT) PTE_W) ltac:(by vm_compute) (Z.to_nat n) a s b (pa / PGSIZE) HR)
    as [(s' & a' & E' & R & F & M & K' & D & _)|(s' & a' & E' & R & F)].
  - intros i Hi. apply kernel_page_spec. unfold PGSIZE in *. lia.
  - unfold PGSIZE. lia.
  - unfold PGSIZE in *. lia.
  - left. rewrite E'. exists (set_mmio_base ((b + n) * PGSIZE) s'), a'. split; [done|]. split_and!.
    + by apply vm_rel_ext with s'.
    + done.
    + intros i Hi. rewrite M. apply map_run_lookup. lia.
    + intros k Hk. rewrite M. apply map_run_other. intros i Hi. apply Hk. lia.
  - right. rewrite E'. by exists s', a'.
Qed.

