(* ===== verification/Env.v ===== *)
(** kern/env.c and kern/sched.c: the environment table, the creation and
    destruction of environments, program loading, and the scheduler; with
    [user_mem_assert] of kern/pmap.c, which destroys environments. *)

From stdpp Require Import base numbers list gmap strings.
From Stdlib Require Import ZArith Lia Bool.
From S2P Require Import Prelude Mmu KState Pmap PmapBoot.

Definition ENVGENSHIFT : Z := 12.

(** The kernel lock, as the CPU that runs sees it; [Spinlock] has the
    interleavings. *)
Definition lock_kernel : K unit := modify (set_locked true).
Definition unlock_kernel : K unit := modify (set_locked false).

(** * The environment table *)

(** [envid2env]: the return code and what is stored in [*env_store]. *)
Definition envid2env (envid : Z) (checkperm : bool) : K (Z * option Z) := fun s =>
  if envid =? 0 then Ret (0, curenv s) s
  else
    let i := ENVX envid in
    let e := env_of s i in
    if status_eqb (env_status e) ENV_FREE || negb (env_id e =? envid) then Ret (- E_BAD_ENV, None) s
    else if checkperm && negb (bool_decide (curenv s = Some i)) then
      match curenv s with
      | None => Panic "NULL dereference" s
      | Some c =>
          if negb (env_parent_id e =? env_id (env_of s c)) then Ret (- E_BAD_ENV, None) s
          else Ret (0, Some i) s
      end
    else Ret (0, Some i) s.

(** One round of [env_init]; the loop runs [i] from NENV-1 down to 0. *)
Definition env_init_step (i : Z) : K unit :=
  upd_env i (e_id 0) ;;!
  upd_env i (e_status ENV_FREE) ;;!
  let! head := gets env_free_list in
  upd_env i (e_link head) ;;!
  modify (set_env_free (Some i)).

Definition env_init : K unit :=
  for_loop (Z.to_nat NENV) 0 (fun k => env_init_step (NENV - 1 - k)).

Definition env_setup_vm (e : Z) : K Z :=
  let! r := page_alloc ALLOC_ZERO in
  match r with
  | None => ret (- E_NO_MEM)
  | Some p =>
      let! pgdir := page2kva p in
      upd_env e (e_pgdir pgdir) ;;!
      let! pi := gets (fun s => page_of s p) in
      set_pp_ref p (u16 (pp_ref pi + 1)) ;;!
      for_loop (Z.to_nat (PDX UTOP)) 0 (fun i => store32 (pgdir + 4 * i) 0) ;;!
      let! kpgdir := gets kern_pgdir in
      for_loop (Z.to_nat (NPDENTRIES - PDX UTOP)) (PDX UTOP) (fun i =>
        let! pde := gets (load32 (kpgdir + 4 * i)) in
        store32 (pgdir + 4 * i) pde) ;;!
      let! pa := PADDR pgdir in
      store32 (pgdir + 4 * PDX UVPT) (Z.lor (Z.lor pa PTE_P) PTE_U) ;;!
      ret 0
  end.

(** The [env_id] of the next environment in slot [i]. *)
Definition next_env_id (old i : Z) : Z :=
  let generation := Z.land (s32 (old + Z.shiftl 1 ENVGENSHIFT)) (Z.lnot (NENV - 1)) in
  let generation := if generation <=? 0 then Z.shiftl 1 ENVGENSHIFT else generation in
  Z.lor generation i.

(** The trap frame [env_alloc] gives a new environment. *)
Definition new_tf : Trapframe :=
  mkTf regs0 (Z.lor GD_UD 3) (Z.lor GD_UD 3) 0 0 0 (Z.lor GD_UT 3) FL_IF USTACKTOP (Z.lor GD_UD 3).

Definition env_alloc (parent_id : Z) : K (Z * option Z) :=
  let! head := gets env_free_list in
  match head with
  | None => ret (- E_NO_FREE_ENV, None)
  | Some e =>
      let! r := env_setup_vm e in
      if r <? 0 then ret (r, None)
      else
        upd_env e (fun x => e_id (next_env_id (env_id x) e) x) ;;!
        upd_env e (e_parent parent_id) ;;!
        upd_env e (e_type ENV_TYPE_USER) ;;!
        upd_env e (e_status ENV_RUNNABLE) ;;!
        upd_env e (e_runs 0) ;;!
        upd_env e (e_tf new_tf) ;;!
        upd_env e (e_upcall 0) ;;!
        upd_env e (e_recving false) ;;!
        let! x := gets (fun s => env_of s e) in
        modify (set_env_free (env_link x)) ;;!
        ret (0, Some e)
  end.

(** * Loading a program *)

(** The loop of [region_alloc]. *)
Fixpoint region_alloc_pages (n : nat) (pgdir i : Z) : K unit :=
  match n with
  | O => ret tt
  | S n' =>
      let! r := page_alloc 0 in
      match r with
      | None => panic " region alloc failed: allocation failed."
      | Some p =>
          let! r := page_insert pgdir p i (Z.lor PTE_W PTE_U) in
          if negb (r =? 0) then panic "region alloc failed."
          else region_alloc_pages n' pgdir (u32 (i + PGSIZE))
      end
  end.

Definition region_alloc (e va len : Z) : K unit :=
  let start := ROUNDDOWN va PGSIZE in
  let end_ := ROUNDUP (u32 (va + len)) PGSIZE in
  let! x := gets (fun s => env_of s e) in
  region_alloc_pages (Z.to_nat ((end_ - start) / PGSIZE)) (env_pgdir x) start.

Definition ELF_MAGIC : Z := 0x464C457F.
Definition ELF_PROG_LOAD : Z := 1.

(** [binary] gives the bytes of the image in kernel memory by offset. *)
Definition img32 (binary : Z -> Z) (o : Z) : Z :=
  le32 (binary o) (binary (o + 1)) (binary (o + 2)) (binary (o + 3)).
Definition img16 (binary : Z -> Z) (o : Z) : Z := Z.lor (binary o) (Z.shiftl (binary (o + 1)) 8).

Record Elf := mkElf { e_magic : Z; e_entry : Z; e_phoff : Z; e_phnum : Z }.
Definition elf_header (b : Z -> Z) : Elf := mkElf (img32 b 0) (img32 b 24) (img32 b 28) (img16 b 44).

Record Proghdr := mkPh { p_type : Z; p_offset : Z; p_va : Z; p_filesz : Z; p_memsz : Z }.
Definition sizeof_Proghdr : Z := 32.
Definition proghdr (b : Z -> Z) (o : Z) : Proghdr :=
  mkPh (img32 b o) (img32 b (o + 4)) (img32 b (o + 8)) (img32 b (o + 16)) (img32 b (o + 20)).

Definition load_segment (e : Z) (binary : Z -> Z) (ph : Proghdr) : K unit :=
  if p_type ph =? ELF_PROG_LOAD then
    (if u32 (p_memsz ph - p_filesz ph) <? 0 then panic "load icode failed : p_memsz < p_filesz." else ret tt) ;;!
    region_alloc e (p_va ph) (p_memsz ph) ;;!
    for_loop (Z.to_nat (p_filesz ph)) 0 (fun i =>
      kstore8 (p_va ph + i) (binary (p_offset ph + i))) ;;!
    for_loop (Z.to_nat (u32 (p_memsz ph - p_filesz ph))) 0 (fun i =>
      kstore8 (p_va ph + p_filesz ph + i) 0)
  else ret tt.

Definition load_icode (e : Z) (binary : Z -> Z) : K unit :=
  let h := elf_header binary in
  (if negb (e_magic h =? ELF_MAGIC) then panic "load_icode failed: The binary we load is not elf." else ret tt) ;;!
  (if e_entry h =? 0 then panic "load_icode failed: The elf file can't be excuterd." else ret tt) ;;!
  upd_env e (fun x => e_tf (set_tf_eip (e_entry h) (env_tf x)) x) ;;!
  let! x := gets (fun s => env_of s e) in
  let! pa := PADDR (env_pgdir x) in
  lcr3 pa ;;!
  for_loop (Z.to_nat (e_phnum h)) 0 (fun k =>
    load_segment e binary (proghdr binary (e_phoff h + k * sizeof_Proghdr))) ;;!
  region_alloc e (USTACKTOP - PGSIZE) PGSIZE.

Definition env_create (binary : Z -> Z) (type : EnvType) : K unit :=
  let! (rc, store) := env_alloc 0 in
  match store with
  | Some e =>
      if negb (rc =? 0) then panic "env_create failed: env_alloc failed."
      else
        load_icode e binary ;;!
        upd_env e (e_type type) ;;!
        if bool_decide (type = ENV_TYPE_FS) then
          upd_env e (fun x => e_tf (set_tf_eflags (Z.lor (tf_eflags (env_tf x)) FL_IOPL_MASK) (env_tf x)) x)
        else ret tt
  | None => panic "env_create failed: env_alloc failed."
  end.

(** * Destroying environments *)

(** The body of the [pteno] loop of [env_free]. *)
Definition env_free_pte (pgdir pt pdeno pteno : Z) : K unit :=
  let! pte := gets (load32 (pt + 4 * pteno)) in
  if flag pte PTE_P then page_remove pgdir (PGADDR pdeno pteno 0) else ret tt.

(** The body of the [pdeno] loop of [env_free]. *)
Definition env_free_pde (pgdir pdeno : Z) : K unit :=
  let! pde := gets (load32 (pgdir + 4 * pdeno)) in
  if negb (flag pde PTE_P) then ret tt
  else
    let pa := PTE_ADDR pde in
    let! pt := KADDR pa in
    for_loop (Z.to_nat (PTX (u32 (-1)) + 1)) 0 (env_free_pte pgdir pt pdeno) ;;!
    store32 (pgdir + 4 * pdeno) 0 ;;!
    let! pp := pa2page pa in
    page_decref pp.

Definition env_free (e : Z) : K unit :=
  let! cur := gets curenv in
  (if bool_decide (cur = Some e) then
     let! kpgdir := gets kern_pgdir in let! pa := PADDR kpgdir in lcr3 pa
   else ret tt) ;;!
  let! x := gets (fun s => env_of s e) in
  let pgdir := env_pgdir x in
  for_loop (Z.to_nat (PDX UTOP)) 0 (env_free_pde pgdir) ;;!
  let! pa := PADDR pgdir in
  upd_env e (e_pgdir 0) ;;!
  let! pp := pa2page pa in
  page_decref pp ;;!
  upd_env e (e_status ENV_FREE) ;;!
  let! head := gets env_free_list in
  upd_env e (e_link head) ;;!
  modify (set_env_free (Some e)).

(** * Running and scheduling *)

(** [env_pop_tf] leaves the kernel. *)
Definition env_pop_tf {A} : K A :=
  let! cur := gets curenv in
  match cur with
  | Some c => let! n := gets cpu in upd_env c (e_cpunum n) ;;! leave
  | None => panic "NULL dereference"
  end.

Definition env_run {A} (e : Z) : K A :=
  let! cur := gets curenv in
  (match cur with
   | Some c =>
       let! x := gets (fun s => env_of s c) in
       if status_eqb (env_status x) ENV_RUNNING then upd_env c (e_status ENV_RUNNABLE) else ret tt
   | None => ret tt
   end) ;;!
  modify (set_curenv (Some e)) ;;!
  upd_env e (e_status ENV_RUNNING) ;;!
  upd_env e (fun x => e_runs (u32 (env_runs x + 1)) x) ;;!
  let! x := gets (fun s => env_of s e) in
  let! pa := PADDR (env_pgdir x) in
  lcr3 pa ;;!
  unlock_kernel ;;!
  env_pop_tf.

(** The search of [sched_halt] for an environment that still exists. *)
Definition alive (x : Env) : bool :=
  status_eqb (env_status x) ENV_RUNNABLE || status_eqb (env_status x) ENV_RUNNING
  || status_eqb (env_status x) ENV_DYING.

Fixpoint any_env (n : nat) (i : Z) (f : Env -> bool) (s : kstate) : bool :=
  match n with
  | O => false
  | S n' => if f (env_of s i) then true else any_env n' (i + 1) f s
  end.

(** [sched_halt]: with no environment left the CPU stays in the monitor,
    with the kernel lock held; otherwise it halts until an interrupt. *)
Definition sched_halt {A} : K A :=
  let! some := gets (any_env (Z.to_nat NENV) 0 alive) in
  if negb some then leave
  else
    modify (set_curenv None) ;;!
    let! kpgdir := gets kern_pgdir in
    let! pa := PADDR kpgdir in
    lcr3 pa ;;!
    modify (fun s => put_cpu (cpu s) (mkCpu CPU_HALTED (cpu_env (cpu_of s (cpu s)))) s) ;;!
    unlock_kernel ;;!
    leave.

(** The circular search of [sched_yield], [n] slots left from offset [i]. *)
Fixpoint sched_pick (n : nat) (start i : Z) (s : kstate) : option Z :=
  match n with
  | O => None
  | S n' =>
      let j := (start + i) mod NENV in
      if status_eqb (env_status (env_of s j)) ENV_RUNNABLE then Some j
      else sched_pick n' start (i + 1) s
  end.

Definition sched_yield {A} : K A :=
  let! idle := gets curenv in
  let! start := gets (fun s => match idle with Some c => ENVX (env_id (env_of s c)) | None => 0 end) in
  let! next := gets (sched_pick (Z.to_nat NENV) start 0) in
  match next with
  | Some j => env_run j
  | None =>
      match idle with
      | Some c =>
          let! x := gets (fun s => env_of s c) in
          if status_eqb (env_status x) ENV_RUNNING then env_run c else sched_halt
      | None => sched_halt
      end
  end.

Definition env_destroy (e : Z) : K unit :=
  let! x := gets (fun s => env_of s e) in
  let! cur := gets curenv in
  if status_eqb (env_status x) ENV_RUNNING && negb (bool_decide (cur = Some e)) then
    upd_env e (e_status ENV_DYING)
  else
    env_free e ;;!
    let! cur := gets curenv in
    if bool_decide (cur = Some e) then modify (set_curenv None) ;;! sched_yield else ret tt.

Definition user_mem_assert (env va len perm : Z) : K unit :=
  let! r := user_mem_check env va len (Z.lor perm PTE_U) in
  if r <? 0 then env_destroy env else ret tt.
