(* ===== verification/Syscall.v ===== *)
(** kern/syscall.c: the system calls and their dispatch. Arguments arrive as
    32-bit words; an [envid_t] or [int] argument is read as signed. *)

From stdpp Require Import base numbers list gmap strings.
From Stdlib Require Import ZArith Lia Bool.
From S2P Require Import Prelude Mmu Console E1000 KState Pmap PmapBoot Env.

Definition SYS_cputs : Z := 0.
Definition SYS_cgetc : Z := 1.
Definition SYS_getenvid : Z := 2.
Definition SYS_env_destroy : Z := 3.
Definition SYS_page_alloc : Z := 4.
Definition SYS_page_map : Z := 5.
Definition SYS_page_unmap : Z := 6.
Definition SYS_exofork : Z := 7.
Definition SYS_env_set_status : Z := 8.
Definition SYS_env_set_trapframe : Z := 9.
Definition SYS_env_set_pgfault_upcall : Z := 10.
Definition SYS_yield : Z := 11.
Definition SYS_ipc_try_send : Z := 12.
Definition SYS_ipc_recv : Z := 13.
Definition SYS_time_msec : Z := 14.
Definition SYS_txpacket : Z := 15.
Definition SYS_rxpacket : Z := 16.

(** A routine of the console or the clock, run on the kernel's state. *)
Definition on_con {A} (m : M console A) : K A := fun s =>
  match m (con s) with
  | Ret a c => Ret a (set_con c s)
  | Leave c => Leave (set_con c s)
  | Panic e c => Panic e (set_con c s)
  end.

(** The current environment; the code dereferences [curenv]. *)
Definition the_curenv : K Z :=
  let! c := gets curenv in
  match c with Some e => ret e | None => panic "NULL dereference" end.

(** * Console *)

(** The loop of vprintfmt for [%.*s]: characters until a NUL or until the
    precision is used up; the character is read before either is tested. *)
Fixpoint print_str (fuel : nat) (p precision : Z) : K unit :=
  match fuel with
  | O => ret tt
  | S n =>
      let! c := kload8 p in
      if c =? 0 then ret tt
      else if (precision <? 0) || (0 <=? precision - 1) then
        on_con (cputchar c) ;;!
        print_str n (u32 (p + 1)) (if precision <? 0 then precision else precision - 1)
      else ret tt
  end.

(** A non-negative precision bounds the reads; a negative one leaves only
    the size of the address space. *)
Definition print_fuel (len : Z) : nat :=
  if s32 len <? 0 then Z.to_nat (2 ^ 32) else Z.to_nat (len + 1).

Definition null_string : list Z := [40; 110; 117; 108; 108; 41].

Definition sys_cputs (s len : Z) : K unit :=
  let! c := the_curenv in
  user_mem_assert c s len 0 ;;!
  if s =? 0 then
    foldr (fun ch k => on_con (cputchar ch) ;;! k) (ret tt)
      (if s32 len <? 0 then null_string else take (Z.to_nat len) null_string)
  else print_str (print_fuel len) s (s32 len).

Definition sys_cgetc : K Z := on_con cons_getc.

(** * Environments *)

Definition sys_getenvid : K Z :=
  let! c := the_curenv in
  gets (fun s => env_id (env_of s c)).

Definition sys_env_destroy (envid : Z) : K Z :=
  let! (r, store) := envid2env envid true in
  if r <? 0 then ret r
  else
    match store with
    | Some e => env_destroy e ;;! ret 0
    | None => panic "NULL dereference"
    end.

Definition sys_yield : K unit := sched_yield.

Definition sys_exofork : K Z :=
  let! id := sys_getenvid in
  let! (r, store) := env_alloc id in
  if r <? 0 then ret r
  else
    match store with
    | Some newenv =>
        upd_env newenv (e_status ENV_NOT_RUNNABLE) ;;!
        let! c := the_curenv in
        let! x := gets (fun s => env_of s c) in
        upd_env newenv (e_tf (env_tf x)) ;;!
        upd_env newenv (fun x => e_tf (set_eax 0 (env_tf x)) x) ;;!
        gets (fun s => env_id (env_of s newenv))
    | None => panic "NULL dereference"
    end.

Definition sys_env_set_status (envid status : Z) : K Z :=
  if negb (status =? status_Z ENV_RUNNABLE) && negb (status =? status_Z ENV_NOT_RUNNABLE) then ret (- E_INVAL)
  else
    let! (r, store) := envid2env envid true in
    if r <? 0 then ret r
    else
      match store with
      | Some e =>
          upd_env e (e_status (if status =? status_Z ENV_RUNNABLE then ENV_RUNNABLE else ENV_NOT_RUNNABLE)) ;;!
          ret 0
      | None => panic "NULL dereference"
      end.

Definition sizeof_Trapframe : Z := 68.

(** [*tf], read at a user address. *)
Definition load_regs (va : Z) : K PushRegs :=
  let! edi := kload32 va in
  let! esi := kload32 (va + 4) in
  let! ebp := kload32 (va + 8) in
  let! oesp := kload32 (va + 12) in
  let! ebx := kload32 (va + 16) in
  let! edx := kload32 (va + 20) in
  let! ecx := kload32 (va + 24) in
  let! eax := kload32 (va + 28) in
  ret (mkRegs edi esi ebp oesp ebx edx ecx eax).

Definition load_tf (va : Z) : K Trapframe :=
  let! regs := load_regs va in
  let! es := kload32 (va + 32) in
  let! ds := kload32 (va + 36) in
  let! trapno := kload32 (va + 40) in
  let! err := kload32 (va + 44) in
  let! eip := kload32 (va + 48) in
  let! cs := kload32 (va + 52) in
  let! eflags := kload32 (va + 56) in
  let! esp := kload32 (va + 60) in
  let! ss := kload32 (va + 64) in
  ret (mkTf regs (u16 es) (u16 ds) trapno err eip (u16 cs) eflags esp (u16 ss)).

(** What [sys_env_set_trapframe] makes of the frame it is given. *)
Definition user_tf (t : Trapframe) : Trapframe :=
  let t := set_tf_cs (Z.lor (tf_cs t) 3) t in
  let t := set_tf_eflags (Z.land (tf_eflags t) (u32 (Z.lnot FL_IOPL_3))) t in
  set_tf_eflags (Z.lor (tf_eflags t) FL_IF) t.

Definition sys_env_set_trapframe (envid tf : Z) : K Z :=
  let! (r, store) := envid2env envid true in
  if r <? 0 then ret (- E_BAD_ENV)
  else
    match store with
    | Some e =>
        user_mem_assert e tf sizeof_Trapframe PTE_U ;;!
        let! t := load_tf tf in
        upd_env e (e_tf (user_tf t)) ;;!
        ret 0
    | None => panic "NULL dereference"
    end.

Definition sys_env_set_pgfault_upcall (envid func : Z) : K Z :=
  let! (r, store) := envid2env envid true in
  if r <? 0 then ret (- E_BAD_ENV)
  else
    match store with
    | Some e => upd_env e (e_upcall func) ;;! ret 0
    | None => panic "NULL dereference"
    end.

(** * Memory *)

(** [perm & ~(PTE_U | PTE_P | PTE_W | PTE_AVAIL)]. *)
Definition bad_perm_bits (perm : Z) : bool := negb (Z.ldiff perm PTE_SYSCALL =? 0).

Definition sys_page_alloc (envid va perm : Z) : K Z :=
  if UTOP <=? va then ret (- E_INVAL)
  else if negb (flag perm PTE_U) || negb (flag perm PTE_P) then ret (- E_BAD_ENV)
  else if bad_perm_bits perm then ret (- E_NO_MEM)
  else
    let! (r, store) := envid2env envid true in
    if r <? 0 then ret (- E_BAD_ENV)
    else
      match store with
      | None => panic "NULL dereference"
      | Some e =>
          let! pp := page_alloc 0 in
          match pp with
          | None => ret (- E_NO_MEM)
          | Some p =>
              let! x := gets (fun s => env_of s e) in
              let! r := page_insert (env_pgdir x) p va perm in
              if r <? 0 then page_free p ;;! ret (- E_NO_MEM)
              else
                let! kva := page2kva p in
                memset_words kva 0 PGSIZE ;;!
                ret 0
          end
      end.

Definition sys_page_map (srcenvid srcva dstenvid dstva perm : Z) : K Z :=
  let! (r1, src) := envid2env srcenvid true in
  if r1 <? 0 then ret (- E_BAD_ENV)
  else
    let! (r2, dst) := envid2env dstenvid true in
    if r2 <? 0 then ret (- E_BAD_ENV)
    else if (UTOP <=? srcva) || negb (PGOFF srcva =? 0) || (UTOP <=? dstva) || negb (PGOFF dstva =? 0)
    then ret (- E_INVAL)
    else if negb (flag perm PTE_U) || negb (flag perm PTE_P) || bad_perm_bits perm then ret (- E_INVAL)
    else
      match src, dst with
      | Some srcenv, Some dstenv =>
          let! xs := gets (fun s => env_of s srcenv) in
          let! found := page_lookup (env_pgdir xs) srcva in
          match found with
          | None => ret (- E_INVAL)
          | Some (p, pte_p) =>
              let! pte := gets (load32 pte_p) in
              if flag perm PTE_W && negb (flag pte PTE_W) then ret (- E_INVAL)
              else
                let! xd := gets (fun s => env_of s dstenv) in
                let! r := page_insert (env_pgdir xd) p dstva perm in
                if r <? 0 then ret (- E_NO_MEM) else ret 0
          end
      | _, _ => panic "NULL dereference"
      end.

Definition sys_page_unmap (envid va : Z) : K Z :=
  let! (r, store) := envid2env envid true in
  if r <? 0 then ret (- E_BAD_ENV)
  else if (UTOP <=? va) || negb (PGOFF va =? 0) then ret (- E_INVAL)
  else
    match store with
    | Some e =>
        let! x := gets (fun s => env_of s e) in
        page_remove (env_pgdir x) va ;;!
        ret 0
    | None => panic "NULL dereference"
    end.

(** * Inter-process communication *)

(** The page-transfer part of [sys_ipc_try_send]: an error code, or the page
    to map at the receiver ([None] when none is sent). *)
Definition ipc_check_page (cur srcva perm : Z) : K (Z + option Z) :=
  if UTOP <=? srcva then ret (inr None)
  else if negb (PGOFF srcva =? 0) then ret (inl (- E_INVAL))
  else if negb (flag perm PTE_P) || negb (flag perm PTE_U) then ret (inl (- E_INVAL))
  else if bad_perm_bits perm then ret (inl (- E_INVAL))
  else
    let! x := gets (fun s => env_of s cur) in
    let! found := page_lookup (env_pgdir x) srcva in
    match found with
    | None => ret (inl (- E_INVAL))
    | Some (pp, pte_p) =>
        let! pte := gets (load32 pte_p) in
        if flag perm PTE_W && negb (flag pte PTE_W) then ret (inl (- E_INVAL))
        else ret (inr (Some pp))
    end.

(** The updates of the receiver once nothing can fail any more. *)
Definition ipc_deliver (env from value : Z) : K Z :=
  upd_env env (e_from from) ;;!
  upd_env env (e_recving false) ;;!
  upd_env env (e_value value) ;;!
  upd_env env (e_status ENV_RUNNABLE) ;;!
  upd_env env (fun x => e_tf (set_eax 0 (env_tf x)) x) ;;!
  ret 0.

Definition sys_ipc_try_send (envid value srcva perm : Z) : K Z :=
  let! (r, store) := envid2env envid false in
  if r <? 0 then ret (- E_BAD_ENV)
  else
    match store with
    | None => panic "NULL dereference"
    | Some env =>
        let! x := gets (fun s => env_of s env) in
        if negb (env_ipc_recving x) || negb (env_ipc_from x =? 0) then ret (- E_IPC_NOT_RECV)
        else
          let! cur := the_curenv in
          let! page := ipc_check_page cur srcva perm in
          match page with
          | inl err => ret err
          | inr page =>
              let! ok :=
                match page with
                | Some pp =>
                    if negb (env_ipc_dstva x =? 0) then
                      let! r := page_insert (env_pgdir x) pp (env_ipc_dstva x) perm in
                      if r <? 0 then ret false
                      else upd_env env (e_perm perm) ;;! ret true
                    else ret true
                | None => ret true
                end in
              if negb ok then ret (- E_NO_MEM)
              else
                let! y := gets (fun s => env_of s cur) in
                ipc_deliver env (env_id y) value
          end
    end.

Definition sys_ipc_recv (dstva : Z) : K Z :=
  if (dstva <? UTOP) && negb (PGOFF dstva =? 0) then ret (- E_INVAL)
  else
    let! c := the_curenv in
    upd_env c (e_recving true) ;;!
    upd_env c (e_dstva dstva) ;;!
    upd_env c (e_status ENV_NOT_RUNNABLE) ;;!
    upd_env c (e_from 0) ;;!
    sched_yield.

(** * Devices *)

Definition sys_time_msec : K Z := gets (fun s => s32 (time_msec (ticks s))).

(** [memmove] from user memory. *)
Fixpoint read_bytes (n : nat) (va : Z) : K (list Z) :=
  match n with
  | O => ret []
  | S n' =>
      let! b := kload8 va in
      let! bs := read_bytes n' (u32 (va + 1)) in
      ret (b :: bs)
  end.

Fixpoint write_bytes (bs : list Z) (va : Z) : K unit :=
  match bs with
  | [] => ret tt
  | b :: bs' => kstore8 va b ;;! write_bytes bs' (u32 (va + 1))
  end.

Definition sys_txpacket (src length : Z) : K Z :=
  let! c := the_curenv in
  user_mem_assert c src length PTE_U ;;!
  let! e := gets nic in
  let free := flag (tx_status (mget tx0 (txqueue e) (TDT e))) TXD_STAT_DD in
  let! bs := if free then read_bytes (Z.to_nat (MIN length TXBUFFSIZE)) src else ret [] in
  let (r, e') := txpacket (fun i => nth (Z.to_nat i) bs 0) length e in
  modify (set_nic e') ;;!
  ret r.

Definition sys_rxpacket (dst : Z) : K Z :=
  let! c := the_curenv in
  user_mem_assert c dst RXBUFFSIZE PTE_U ;;!
  let! e := gets nic in
  let (bs, e') := rxpacket e in
  write_bytes bs dst ;;!
  modify (set_nic e') ;;!
  ret (Z.of_nat (length bs)).

(** * Dispatch *)

Definition syscall (syscallno a1 a2 a3 a4 a5 : Z) : K Z :=
  if syscallno =? SYS_cputs then sys_cputs a1 a2 ;;! ret 0
  else if syscallno =? SYS_cgetc then sys_cgetc
  else if syscallno =? SYS_getenvid then sys_getenvid
  else if syscallno =? SYS_env_destroy then sys_env_destroy (s32 a1)
  else if syscallno =? SYS_yield then sys_yield ;;! ret 0
  else if syscallno =? SYS_exofork then sys_exofork
  else if syscallno =? SYS_env_set_status then sys_env_set_status (s32 a1) (s32 a2)
  else if syscallno =? SYS_page_alloc then sys_page_alloc (s32 a1) a2 (s32 a3)
  else if syscallno =? SYS_page_map then sys_page_map (s32 a1) a2 (s32 a3) a4 (s32 a5)
  else if syscallno =? SYS_page_unmap then sys_page_unmap (s32 a1) a2
  else if syscallno =? SYS_env_set_pgfault_upcall then sys_env_set_pgfault_upcall (s32 a1) a2
  else if syscallno =? SYS_ipc_try_send then sys_ipc_try_send (s32 a1) a2 a3 a4
  else if syscallno =? SYS_ipc_recv then sys_ipc_recv a1
  else if syscallno =? SYS_env_set_trapframe then sys_env_set_trapframe (s32 a1) a2
  else if syscallno =? SYS_time_msec then sys_time_msec
  else if syscallno =? SYS_txpacket then sys_txpacket a1 a2
  else if syscallno =? SYS_rxpacket then sys_rxpacket a1
  else ret (- E_INVAL).
