(* ===== verification/Trap.v ===== *)
(** kern/trap.c: entry from user mode and from interrupts, dispatch, and the
    page fault upcall. *)

From stdpp Require Import base numbers list gmap strings.
From Stdlib Require Import ZArith Lia Bool.
From S2P Require Import Prelude Mmu Console E1000 KState Pmap PmapBoot Env Syscall.

Definition T_BRKPT : Z := 3.
Definition T_PGFLT : Z := 14.
Definition T_SYSCALL : Z := 48.
Definition IRQ_OFFSET : Z := 32.
Definition IRQ_TIMER : Z := 0.
Definition IRQ_KBD : Z := 1.
Definition IRQ_SERIAL : Z := 4.
Definition IRQ_SPURIOUS : Z := 7.

(** [struct Trapframe *tf]: a frame on the kernel stack, or the saved frame
    of an environment. *)
Inductive tfptr :=
| TfStack (t : Trapframe)
| TfEnv (e : Z).

Definition read_tf (p : tfptr) (s : kstate) : Trapframe :=
  match p with TfStack t => t | TfEnv e => env_tf (env_of s e) end.

(** An assignment through [tf]; a frame on the stack is not used again. *)
Definition write_tf (p : tfptr) (f : Trapframe -> Trapframe) : K unit :=
  match p with
  | TfStack _ => ret tt
  | TfEnv e => upd_env e (fun x => e_tf (f (env_tf x)) x)
  end.

Definition sizeof_UTrapframe : Z := 52.

(** Where the fault record goes: below the trap-time stack pointer with a
    word to spare if that is on the exception stack, else at its top. *)
Definition utf_addr (esp : Z) : Z :=
  if (UXSTACKTOP - PGSIZE <=? esp) && (esp <=? UXSTACKTOP - 1)
  then u32 (esp - sizeof_UTrapframe - 4)
  else UXSTACKTOP - sizeof_UTrapframe.

(** The stores of [struct UTrapframe]. *)
Definition store_utf (utf fault_va : Z) (t : Trapframe) : K unit :=
  let r := tf_regs t in
  kstore32 utf fault_va ;;!
  kstore32 (utf + 4) (tf_trapno t) ;;!
  kstore32 (utf + 40) (tf_eip t) ;;!
  kstore32 (utf + 44) (tf_eflags t) ;;!
  kstore32 (utf + 48) (tf_esp t) ;;!
  kstore32 (utf + 8) (reg_edi r) ;;!
  kstore32 (utf + 12) (reg_esi r) ;;!
  kstore32 (utf + 16) (reg_ebp r) ;;!
  kstore32 (utf + 20) (reg_oesp r) ;;!
  kstore32 (utf + 24) (reg_ebx r) ;;!
  kstore32 (utf + 28) (reg_edx r) ;;!
  kstore32 (utf + 32) (reg_ecx r) ;;!
  kstore32 (utf + 36) (reg_eax r).

(** [page_fault_handler]; [fault_va] is the CR2 register. *)
Definition page_fault_handler (fault_va : Z) (tf : tfptr) : K unit :=
  let! t := gets (read_tf tf) in
  (if negb (tf_cs t =? 0) && (0x01 =? 0) then panic "page_fault in kernel mode" else ret tt) ;;!
  let! c := the_curenv in
  let! x := gets (fun s => env_of s c) in
  (if negb (env_pgfault_upcall x =? 0) then
     let utf := utf_addr (tf_esp t) in
     user_mem_assert c utf sizeof_UTrapframe (Z.lor PTE_U PTE_W) ;;!
     store_utf utf fault_va t ;;!
     write_tf tf (set_tf_eip (env_pgfault_upcall x)) ;;!
     write_tf tf (set_tf_esp utf) ;;!
     env_run c
   else ret tt) ;;!
  env_destroy c.

Section Dispatch.
(** The interactive monitor of kern/monitor.c. *)
Context (monitor : Trapframe -> K unit).

Definition trap_dispatch (fault_va : Z) (tf : tfptr) : K unit :=
  let! t := gets (read_tf tf) in
  let n := tf_trapno t in
  if n =? IRQ_OFFSET + IRQ_SPURIOUS then ret tt
  else if n =? IRQ_OFFSET + IRQ_TIMER then
    let! k := gets ticks in
    match time_tick k with
    | Some k' => modify (set_ticks k') ;;! sched_yield
    | None => panic "time_tick: time overflowed"
    end
  else if n =? IRQ_OFFSET + IRQ_KBD then on_con kbd_intr
  else if n =? IRQ_OFFSET + IRQ_SERIAL then on_con serial_intr
  else if n =? T_PGFLT then page_fault_handler fault_va tf
  else if n =? T_BRKPT then monitor t
  else if n =? T_SYSCALL then
    let r := tf_regs t in
    let! code := syscall (reg_eax r) (reg_edx r) (reg_ecx r) (reg_ebx r) (reg_edi r) (reg_esi r) in
    write_tf tf (set_eax (u32 code))
  else if tf_cs t =? GD_KT then panic "unhandled trap in kernel"
  else
    let! c := the_curenv in
    env_destroy c.

(** [trap], entered with interrupts off. *)
Definition trap (fault_va : Z) (t : Trapframe) : K unit :=
  let! me := gets (fun s => cpu_of s (cpu s)) in
  modify (fun s => put_cpu (cpu s) (mkCpu CPU_STARTED (cpu_env me)) s) ;;!
  (match cpu_status me with CPU_HALTED => lock_kernel | _ => ret tt end) ;;!
  let! tf :=
    if Z.land (tf_cs t) 3 =? 3 then
      lock_kernel ;;!
      let! c := gets curenv in
      match c with
      | None => panic "assertion failed: curenv"
      | Some c =>
          let! x := gets (fun s => env_of s c) in
          (if status_eqb (env_status x) ENV_DYING then
             env_free c ;;! modify (set_curenv None) ;;! sched_yield
           else ret tt) ;;!
          upd_env c (e_tf t) ;;!
          ret (TfEnv c)
      end
    else ret (TfStack t) in
  trap_dispatch fault_va tf ;;!
  let! c := gets curenv in
  match c with
  | Some c =>
      let! x := gets (fun s => env_of s c) in
      if status_eqb (env_status x) ENV_RUNNING then env_run c else sched_yield
  | None => sched_yield
  end.

End Dispatch.
