(* ===== verification/Ulib.v ===== *)
(** The user library under processes: the system call stubs of lib/syscall.c,
    [memmove] of lib/string.c, lib/pgfault.c and the copy-on-write [fork] of
    lib/fork.c.

    A routine runs in the current environment, on the kernel's state and the
    library's global variables. A system call runs the kernel's dispatcher; the
    way into the kernel and back ([trap]) is left out, and no other environment
    runs in between. Local variables are values, not words of the stack. [Panic]
    is the library's panic, or a page fault that has no handler. *)

From stdpp Require Import base numbers list gmap strings.
From Stdlib Require Import ZArith Lia Bool.
From S2P Require Import Prelude Mmu KState Pmap PmapBoot Env Syscall Trap.

Definition PTE_COW : Z := 0x800.

(** The kernel and the globals [thisenv] (an index of [envs]) and
    [_pgfault_handler]. *)
Record ustate := mkU { kern : kstate; thisenv : Z; _pgfault_handler : Z }.

Definition U (A : Type) : Type := M ustate A.

Definition set_kern (s : kstate) (u : ustate) : ustate := mkU s (thisenv u) (_pgfault_handler u).

(** Run a routine of the kernel, or an access of the processor. *)
Definition call {A} (m : K A) : U A := fun u =>
  match m (kern u) with
  | Ret a s => Ret a (set_kern s u)
  | Leave s => Leave (set_kern s u)
  | Panic e s => Panic e (set_kern s u)
  end.

(** [thisenv->env_id], through the read-only mapping of [envs]. *)
Definition this_id : U Z := gets (fun u => env_id (env_of (kern u) (thisenv u))).

(** * lib/syscall.c *)

Definition usyscall (num : Z) (check : bool) (a1 a2 a3 a4 a5 : Z) : U Z :=
  let! r := call (syscall num (u32 a1) (u32 a2) (u32 a3) (u32 a4) (u32 a5)) in
  if check && (0 <? r) then panic "syscall returned (> 0)" else ret r.

Definition usys_getenvid : U Z := usyscall SYS_getenvid false 0 0 0 0 0.
Definition usys_page_alloc (envid va perm : Z) : U Z := usyscall SYS_page_alloc true envid va perm 0 0.
Definition usys_page_map (srcenv srcva dstenv dstva perm : Z) : U Z :=
  usyscall SYS_page_map true srcenv srcva dstenv dstva perm.
Definition usys_page_unmap (envid va : Z) : U Z := usyscall SYS_page_unmap true envid va 0 0 0.
Definition usys_env_set_status (envid status : Z) : U Z := usyscall SYS_env_set_status true envid status 0 0 0.
Definition usys_env_set_pgfault_upcall (envid upcall : Z) : U Z :=
  usyscall SYS_env_set_pgfault_upcall true envid upcall 0 0 0.

(** [sys_exofork] of inc/lib.h, in the parent. *)
Definition usys_exofork : U Z := call (syscall SYS_exofork 0 0 0 0 0).

(** * Memory *)

Definition ufault : string := "page fault".

Definition uload32 (va : Z) : U Z :=
  let! r := call (vload32 true (u32 va)) in
  match r with Some w => ret w | None => panic ufault end.
Definition ustore32 (va w : Z) : U unit :=
  let! ok := call (vstore32 true (u32 va) w) in
  if ok then ret tt else panic ufault.
Definition uload8 (va : Z) : U Z :=
  let! r := call (vload8 true (u32 va)) in
  match r with Some b => ret b | None => panic ufault end.
Definition ustore8 (va b : Z) : U unit :=
  let! ok := call (vstore8 true (u32 va) b) in
  if ok then ret tt else panic ufault.

(** [memmove]: words if everything is aligned, from the end if the source
    overlaps the destination from below. *)
Definition memmove (dst src n : Z) : U unit :=
  if (src <? dst) && (dst <? u32 (src + n)) then
    let s := u32 (src + n) in
    let d := u32 (dst + n) in
    if (s mod 4 =? 0) && (d mod 4 =? 0) && (n mod 4 =? 0) then
      for_loop (Z.to_nat (n / 4)) 0 (fun k => let! w := uload32 (s - 4 - 4 * k) in ustore32 (d - 4 - 4 * k) w)
    else
      for_loop (Z.to_nat n) 0 (fun k => let! b := uload8 (s - 1 - k) in ustore8 (d - 1 - k) b)
  else if (src mod 4 =? 0) && (dst mod 4 =? 0) && (n mod 4 =? 0) then
    for_loop (Z.to_nat (n / 4)) 0 (fun k => let! w := uload32 (src + 4 * k) in ustore32 (dst + 4 * k) w)
  else
    for_loop (Z.to_nat n) 0 (fun k => let! b := uload8 (src + k) in ustore8 (dst + k) b).

(** [uvpd[i]] and [uvpt[pn]]: the processor finds the page tables themselves
    behind the entry that [env_setup_vm] puts at UVPT. *)
Definition uvpd (i : Z) : U Z := gets (fun u => word_at (kern u) (cr3 (kern u) / 4 + i)).
Definition uvpt (pn : Z) : U Z :=
  let! pde := uvpd (pn / NPTENTRIES) in
  if flag pde PTE_P then gets (fun u => word_at (kern u) (PTE_ADDR pde / 4 + pn mod NPTENTRIES))
  else panic ufault.

(** * lib/fork.c: the page fault handler *)

Definition pgfault (utf_fault_va utf_err : Z) : U unit :=
  let! cow :=
    if flag utf_err FEC_WR then let! pte := uvpt (PGNUM utf_fault_va) in ret (flag pte PTE_COW)
    else ret false in
  if negb cow then panic "pgfault: it's not writable or attempt to access a non-cow page!"
  else
    let! envid := usys_getenvid in
    let! r := usys_page_alloc envid PFTEMP (Z.lor (Z.lor PTE_P PTE_W) PTE_U) in
    if r <? 0 then panic "pgfault: page allocation failed"
    else
      let addr := ROUNDDOWN utf_fault_va PGSIZE in
      memmove PFTEMP addr PGSIZE ;;!
      let! r := usys_page_unmap envid addr in
      if r <? 0 then panic "pgfault: page unmap failed"
      else
        let! r := usys_page_map envid PFTEMP envid addr (Z.lor (Z.lor PTE_P PTE_W) PTE_U) in
        if r <? 0 then panic "pgfault: page map failed"
        else
          let! r := usys_page_unmap envid PFTEMP in
          if r <? 0 then panic "pgfault: page unmap failed" else ret tt.

(** A store of the program: if it faults, the kernel calls the handler, with
    the trap number as the error code ([store_utf]), and the instruction is
    run again. *)
Definition user_store (va w : Z) : U unit :=
  let! ok := call (vstore32 true va w) in
  if ok then ret tt
  else
    pgfault va T_PGFLT ;;!
    ustore32 va w.

(** * lib/pgfault.c *)

Section Fork.
(** The addresses of [_pgfault_upcall] and of [pgfault]. *)
Context (upcall handler : Z).

Definition set_pgfault_handler (f : Z) : U unit :=
  let! h := gets _pgfault_handler in
  (if h =? 0 then
     let! id := this_id in
     let! r := usys_page_alloc id (UXSTACKTOP - PGSIZE) (Z.lor (Z.lor PTE_P PTE_W) PTE_U) in
     (if r <? 0 then panic "set_pgfault_handler failed" else ret tt) ;;!
     let! id := this_id in
     usys_env_set_pgfault_upcall id upcall ;;!
     ret tt
   else ret tt) ;;!
  modify (fun u => mkU (kern u) (thisenv u) f).

(** * lib/fork.c: fork *)

Definition duppage (envid pn : Z) : U Z :=
  let addr := u32 (pn * PGSIZE) in
  let! pte := uvpt pn in
  let! id := this_id in
  if flag pte PTE_SHARE then
    let! r := usys_page_map id addr envid addr (Z.land pte PTE_SYSCALL) in
    if r <? 0 then panic "duppage: page remapping failed" else ret 0
  else
    let perm := Z.lor PTE_P PTE_U in
    let perm := if flag pte PTE_W || flag pte PTE_COW then Z.lor perm PTE_COW else perm in
    let! r := usys_page_map id addr envid addr perm in
    if r <? 0 then panic "duppage: page remapping failed"
    else if flag perm PTE_COW then
      let! id := this_id in
      let! r := usys_page_map id addr id addr perm in
      if r <? 0 then panic "duppage: page remapping failed" else ret 0
    else ret 0.

(** The inner loop of [fork] from page [j] of table [i]. *)
Fixpoint dup_table (fuel : nat) (envid i j : Z) : U unit :=
  match fuel with
  | O => ret tt
  | S fuel =>
      let pn := i * NPTENTRIES + j in
      if pn =? PGNUM (UXSTACKTOP - PGSIZE) then ret tt
      else
        let! pte := uvpt pn in
        (if flag pte PTE_P then duppage envid pn ;;! ret tt else ret tt) ;;!
        dup_table fuel envid i (j + 1)
  end.

(** [fork] after [sys_exofork] has returned [envid], in parent and child. *)
Definition fork_from (envid : Z) : U Z :=
  if envid <? 0 then panic "sys_exofork failed"
  else if envid =? 0 then
    let! id := usys_getenvid in
    modify (fun u => mkU (kern u) (ENVX id) (_pgfault_handler u)) ;;!
    ret 0
  else
    for_loop (Z.to_nat (PDX UXSTACKTOP - PDX UTEXT)) (PDX UTEXT) (fun i =>
      let! pde := uvpd i in
      if flag pde PTE_P then dup_table (Z.to_nat NPTENTRIES) envid i 0 else ret tt) ;;!
    let! r := usys_page_alloc envid (UXSTACKTOP - PGSIZE) (Z.lor (Z.lor PTE_P PTE_U) PTE_W) in
    if r <? 0 then panic "fork: page alloc failed"
    else
      let! id := this_id in
      let! r := usys_page_map envid (UXSTACKTOP - PGSIZE) id PFTEMP (Z.lor (Z.lor PTE_P PTE_U) PTE_W) in
      if r <? 0 then panic "fork: page map failed"
      else
        memmove (UXSTACKTOP - PGSIZE) PFTEMP PGSIZE ;;!
        let! id := this_id in
        let! r := usys_page_unmap id PFTEMP in
        if r <? 0 then panic "fork: page unmap failed"
        else
          usys_env_set_pgfault_upcall envid upcall ;;!
          let! r := usys_env_set_status envid (status_Z ENV_RUNNABLE) in
          if r <? 0 then panic "fork: set child env status failed" else ret envid.

Definition fork : U Z :=
  set_pgfault_handler handler ;;!
  let! envid := usys_exofork in
  fork_from envid.
End Fork.
