(* ===== verification/KInv.v ===== *)
(** The kernel's invariant: memory management ([vm_rel], no leaked frame),
    the environment table, and the translation state of the running CPU. *)

From stdpp Require Import base numbers list gmap strings.
From Stdlib Require Import ZArith Lia Bool.
From S2P Require Import Prelude Mmu KState Pmap PmapBoot PmapSpec Paging VmOps Env.

(** An environment that exists. *)
Definition live (s : kstate) (i : Z) : Prop :=
  0 <= i < NENV /\ env_status (env_of s i) <> ENV_FREE.

(** The links of [envs] from [h] spell the list [l]. *)
Fixpoint echain (s : kstate) (h : option Z) (l : list Z) : Prop :=
  match l with
  | [] => h = None
  | i :: l' => h = Some i /\ echain s (env_link (env_of s i)) l'
  end.

(** The environment table: the free list holds exactly the free slots, an
    existing environment's identifier names its slot, and the existing
    environments and the page directories correspond one to one. *)
Record env_inv (a : vm) (fl : list Z) (s : kstate) : Prop := {
  ei_chain : echain s (env_free_list s) fl;
  ei_nodup : NoDup fl;
  ei_free : forall i, i ∈ fl <-> 0 <= i < NENV /\ env_status (env_of s i) = ENV_FREE;
  ei_ids : forall i, 0 <= i < NENV -> 0 <= env_id (env_of s i) < 2 ^ 31;
  ei_id : forall i, live s i -> ENVX (env_id (env_of s i)) = i /\ 0 < env_id (env_of s i) < 2 ^ 31;
  ei_dir : forall i, live s i -> exists d, d ∈ v_dirs a /\ env_pgdir (env_of s i) = frame_kva d;
  ei_inj : forall i j, live s i -> live s j -> env_pgdir (env_of s i) = env_pgdir (env_of s j) -> i = j;
  ei_all : forall d, d ∈ v_dirs a -> exists i, live s i /\ env_pgdir (env_of s i) = frame_kva d
}.

(** The running CPU: its environment exists, and its translation cache
    agrees with the address space it has loaded. *)
Record cpu_inv (a : vm) (s : kstate) : Prop := {
  ci_cur : forall c, curenv s = Some c -> live s c;
  ci_tlb : exists d, tlb_ok d a s /\ (d ∈ v_dirs a \/ d = v_kdir a);
  ci_cr3 : cr3_current s
}.

(** The part that also holds while an environment is being torn down. *)
Record mem_inv (a : vm) (s : kstate) : Prop := {
  mi_vm : vm_rel no_ex a s;
  mi_leak : no_leak ∅ a (npages s);
  mi_kdir : kern_pgdir s = frame_kva (v_kdir a)
}.

Record kinv (a : vm) (s : kstate) : Prop := {
  ki_mem : mem_inv a s;
  ki_env : exists fl, env_inv a fl s;
  ki_cpu : cpu_inv a s
}.

(** No mapped frame is about to exceed the 16-bit reference count. *)
Definition refs_room (a : vm) : Prop :=
  forall d v p f, v_maps a !! (d, v) = Some (p, f) -> v < UVPN -> refs a p + 1 < 2 ^ 16.

Lemma env_of_put s i j x : env_of (put_env i x s) j = if decide (i = j) then x else env_of s j.
Proof.
  unfold env_of, put_env. simpl. destruct (decide (i = j)) as [<-|Hn].
  - apply mget_insert.
  - by apply mget_insert_ne.
Qed.

Lemma cpu_of_put s i j x : cpu_of (put_cpu i x s) j = if decide (i = j) then x else cpu_of s j.
Proof.
  unfold cpu_of, put_cpu. simpl. destruct (decide (i = j)) as [<-|Hn].
  - apply mget_insert.
  - by apply mget_insert_ne.
Qed.

Lemma echain_ext s s' l : forall h,
  (forall i, i ∈ l -> env_link (env_of s' i) = env_link (env_of s i)) -> echain s h l -> echain s' h l.
Proof.
  induction l as [|i l IH]; intros h Hl Hc; [done|].
  destruct Hc as [-> Hc]. split; [done|]. rewrite Hl by set_solver.
  apply IH; [|done]. intros j Hj. apply Hl. set_solver.
Qed.

Lemma ENVX_range id : 0 <= ENVX id < NENV.
Proof.
  unfold ENVX. change (NENV - 1) with (Z.ones 10). rewrite Z.land_ones by lia.
  change NENV with (2 ^ 10). apply Z.mod_pos_bound. lia.
Qed.

(** * Frame rules *)

(** The environment table does not change with the memory manager. *)
Lemma env_inv_ext a a' fl s s' :
  envs s' = envs s -> env_free_list s' = env_free_list s -> v_dirs a' = v_dirs a ->
  env_inv a fl s -> env_inv a' fl s'.
Proof.
  intros He Hf Hd [H1 H2 H3 H0 H4 H5 H6 H7].
  assert (forall i, env_of s' i = env_of s i) as E by (intros; unfold env_of; by rewrite He).
  assert (forall i, live s' i <-> live s i) as L by (intros; unfold live; by rewrite E).
  split; [|done| | | | | |].
  - rewrite Hf. apply (echain_ext s); [|done]. intros; by rewrite E.
  - intros i. by rewrite E.
  - intros i. rewrite E. apply H0.
  - intros i Hi. rewrite E. by apply H4, L.
  - intros i Hi. rewrite E, Hd. by apply H5, L.
  - intros i j Hi Hj. rewrite !E. apply H6; by apply L.
  - intros d Hi. rewrite Hd in Hi. destruct (H7 d Hi) as (i & Hl & Hp). exists i. rewrite E. split; [by apply L|done].
Qed.

(** An update of an existing environment that keeps its identity. *)
Lemma env_inv_upd a fl s e x :
  env_inv a fl s -> live s e -> env_status x <> ENV_FREE ->
  env_id x = env_id (env_of s e) -> env_pgdir x = env_pgdir (env_of s e) ->
  env_inv a fl (put_env e x s).
Proof.
  intros [H1 H2 H3 H0 H4 H5 H6 H7] Hl Hs Hid Hpg.
  assert (forall i, live (put_env e x s) i <-> live s i) as L.
  { intros i. unfold live. rewrite env_of_put. destruct (decide (e = i)) as [<-|]; [|done].
    destruct Hl. naive_solver. }
  assert (forall i, env_pgdir (env_of (put_env e x s) i) = env_pgdir (env_of s i)) as P.
  { intros i. rewrite env_of_put. by destruct (decide (e = i)) as [<-|]. }
  assert (e ∉ fl) as Hnf by (intros Hf; apply H3 in Hf as [_ Hf]; by destruct Hl).
  split; [|done| | | | | |].
  - apply (echain_ext s); [|done]. intros i Hi. rewrite env_of_put.
    destruct (decide (e = i)) as [<-|]; done.
  - intros i. rewrite H3, env_of_put. destruct (decide (e = i)) as [<-|]; [|done]. destruct Hl. naive_solver.
  - intros i Hi. rewrite env_of_put. destruct (decide (e = i)) as [<-|]; [rewrite Hid|]; by apply H0.
  - intros i Hi. apply L in Hi. rewrite env_of_put. destruct (decide (e = i)) as [<-|]; [rewrite Hid|]; by apply H4.
  - intros i Hi. rewrite P. by apply H5, L.
  - intros i j Hi Hj. rewrite !P. apply H6; by apply L.
  - intros d Hd. destruct (H7 d Hd) as (i & Hi & Hp). exists i. rewrite P. split; [by apply L|done].
Qed.

Lemma mem_inv_ext a s s' :
  mem_inv a s -> npages s' = npages s -> pages s' = pages s -> page_free_list s' = page_free_list s ->
  mem s' = mem s -> kern_pgdir s' = kern_pgdir s -> mem_inv a s'.
Proof.
  intros [H1 H2 H3] En Ep Ef Em Ek. split; [by apply (vm_rel_ext _ _ s)|by rewrite En|by rewrite Ek].
Qed.

Lemma live_upd s e x i : live s e -> env_status x <> ENV_FREE -> live (put_env e x s) i <-> live s i.
Proof.
  intros Hl Hs. unfold live. rewrite env_of_put. destruct (decide (e = i)) as [<-|]; [|done].
  destruct Hl. naive_solver.
Qed.

Lemma kinv_upd a s e x :
  kinv a s -> live s e -> env_status x <> ENV_FREE ->
  env_id x = env_id (env_of s e) -> env_pgdir x = env_pgdir (env_of s e) ->
  kinv a (put_env e x s).
Proof.
  intros [H1 [fl H2] [C1 C2 C3]] Hl Hs Hid Hpg. split.
  - by apply (mem_inv_ext a s).
  - exists fl. by apply env_inv_upd.
  - split.
    + intros c Hc. apply live_upd; [done|done|]. by apply C1.
    + destruct C2 as (d & HT & Hd). by exists d.
    + unfold cr3_current, flushes in *. change (curenv (put_env e x s)) with (curenv s).
      destruct (curenv s) as [c|]; [|done]. rewrite env_of_put.
      destruct (decide (e = c)) as [<-|]; [by rewrite Hpg|done].
Qed.

(** A page-table operation that keeps the directories. *)
Lemma kinv_vm a a' s s' d :
  kinv a s -> vm_rel no_ex a' s' -> vm_frame s s' -> no_leak ∅ a' (npages s) ->
  v_dirs a' = v_dirs a -> v_kdir a' = v_kdir a -> tlb_ok d a' s' -> (d ∈ v_dirs a \/ d = v_kdir a) ->
  kinv a' s'.
Proof.
  intros [[H1 H2 H3] [fl He] [C1 C2 C3]] HR HF HL Hd Hk HT Hdd.
  destruct HF as (pg & f & m & t & ->). split.
  - split; [done|done|]. by rewrite Hk.
  - exists fl. by apply (env_inv_ext a a' fl s).
  - split; [exact C1| |exact C3]. exists d. by rewrite Hd, Hk.
Qed.

(** * Looking up environments *)

Definition may_control (s : kstate) (c e : Z) : Prop :=
  e = c \/ env_parent_id (env_of s e) = env_id (env_of s c).

(** The environment an [envid_t] names, for a caller [c]. *)
Definition names (s : kstate) (c envid e : Z) : Prop :=
  (envid = 0 /\ e = c) \/ (envid <> 0 /\ live s e /\ env_id (env_of s e) = envid).

Lemma envid2env_spec a fl s c envid (checkperm : bool) :
  env_inv a fl s -> curenv s = Some c -> live s c ->
  (exists e, envid2env envid checkperm s = Ret (0, Some e) s /\ live s e /\ names s c envid e
     /\ (checkperm = true -> may_control s c e))
  \/ (envid2env envid checkperm s = Ret (- E_BAD_ENV, None) s
      /\ (forall e, names s c envid e -> checkperm = true /\ ~ may_control s c e)).
Proof.
  intros HE Hc Hl. unfold envid2env. rewrite Hc. destruct (Z.eqb_spec envid 0) as [->|Hnz].
  { left. exists c. split_and!; [done|done|by left|by left]. }
  set (i := ENVX envid). pose proof (ENVX_range envid) as Hi. fold i in Hi.
  assert (forall e, names s c envid e -> e = i) as Huniq.
  { intros e [[? _]|(_ & He & Hid)]; [done|]. destruct (ei_id _ _ _ HE e He) as [Hx _].
    by rewrite Hid in Hx. }
  destruct (status_eqb (env_status (env_of s i)) ENV_FREE) eqn:Hfree.
  { right. split; [done|]. intros e He. pose proof (Huniq e He) as ->.
    destruct He as [[? _]|(_ & [_ He] & _)]; [done|]. by apply bool_decide_eq_true in Hfree. }
  apply bool_decide_eq_false in Hfree. simpl.
  destruct (Z.eqb_spec (env_id (env_of s i)) envid) as [Hid|Hid]; simpl.
  2:{ right. split; [done|]. intros e He. pose proof (Huniq e He) as ->. by destruct He as [[? _]|(_ & _ & He)]. }
  assert (live s i) as Hli by done. assert (names s c envid i) as Hni by (by right).
  destruct checkperm; simpl; [|left; by exists i].
  destruct (bool_decide (Some c = Some i)) eqn:Hci; simpl.
  { apply bool_decide_eq_true in Hci as [= <-]. left. exists c. split_and!; try done. by left. }
  apply bool_decide_eq_false in Hci.
  destruct (Z.eqb_spec (env_parent_id (env_of s i)) (env_id (env_of s c))) as [Hp|Hp]; simpl.
  - left. exists i. split_and!; try done. by right.
  - right. split; [done|]. intros e He. pose proof (Huniq e He) as ->. split; [done|]. intros [->|?]; done.
Qed.
