(* ===== verification/UserAccess.v ===== *)
(** The kernel's own loads and stores at user addresses, through the page
    tables of the current environment: they reach the frames the address space
    maps and nothing else. *)

From stdpp Require Import base numbers list gmap strings.
From Stdlib Require Import ZArith Lia Bool.
From S2P Require Import Prelude Mmu KState Pmap PmapBoot PmapSpec Paging VmOps Env KInv.

Local Ltac Zify.zify_post_hook ::= Z.to_euclidean_division_equations.

(** * Bytes of physical memory *)

Definition pbyte (s : kstate) (pa : Z) : Z := Z.land (Z.shiftr (word_at s (pa / 4)) (8 * (pa mod 4))) 0xFF.

Lemma byte_bits x k i : 0 <= i -> 0 <= k -> Z.testbit (Z.land (Z.shiftr x k) 0xFF) i = (i <? 8) && Z.testbit x (i + k).
Proof.
  intros Hi Hk. change 0xFF with (Z.ones 8). rewrite Z.land_spec, Z.shiftr_spec, Z.testbit_ones by lia.
  rewrite (proj2 (Z.leb_le 0 i)) by done. by rewrite andb_comm.
Qed.

Lemma set_byte_bits w k b i : 0 <= k < 4 -> 0 <= i ->
  Z.testbit (set_byte w k b) i = if (8 * k <=? i) && (i <? 8 * k + 8) then Z.testbit b (i - 8 * k) else Z.testbit w i.
Proof.
  intros Hk Hi. unfold set_byte. rewrite Z.lor_spec, Z.ldiff_spec, !Z.shiftl_spec by lia.
  change 0xFF with (Z.ones 8). rewrite Z.land_spec, !Z.testbit_ones by lia.
  destruct (Z.leb_spec (8 * k) i) as [H1|H1]; cbn [andb].
  - rewrite (proj2 (Z.leb_le 0 (i - 8 * k))) by lia. replace (i - 8 * k <? 8) with (i <? 8 * k + 8) by (destruct (Z.ltb_spec i (8 * k + 8)), (Z.ltb_spec (i - 8 * k) 8); lia).
    destruct (i <? 8 * k + 8); cbn [andb negb]; [by rewrite andb_false_r, andb_true_r|by rewrite andb_true_r, andb_false_r, orb_false_r].
  - rewrite (Z.testbit_neg_r b) by lia. rewrite (proj2 (Z.leb_gt 0 (i - 8 * k))) by lia. cbn [andb negb]. by rewrite andb_true_r, orb_false_r.
Qed.

(** One byte of a word is replaced. *)
Lemma set_byte_get w k k' b : 0 <= k < 4 -> 0 <= k' < 4 ->
  Z.land (Z.shiftr (u32 (set_byte w k b)) (8 * k')) 0xFF = if decide (k' = k) then u8 b else Z.land (Z.shiftr w (8 * k')) 0xFF.
Proof.
  intros Hk Hk'. apply Z.bits_inj'. intros i Hi. rewrite byte_bits by lia. unfold u32.
  destruct (Z.ltb_spec i 8) as [H8|H8]; cbn [andb].
  - rewrite Z.mod_pow2_bits_low, set_byte_bits by lia. destruct (decide (k' = k)) as [->|Hne].
    + rewrite (proj2 (Z.leb_le _ _)), (proj2 (Z.ltb_lt _ _)) by lia. cbn [andb]. unfold u8. rewrite Z.mod_pow2_bits_low by lia. f_equal. lia.
    + replace ((8 * k <=? i + 8 * k') && (i + 8 * k' <? 8 * k + 8)) with false
        by (destruct (Z.leb_spec (8 * k) (i + 8 * k')), (Z.ltb_spec (i + 8 * k') (8 * k + 8)); cbn; lia).
      rewrite byte_bits by lia. by rewrite (proj2 (Z.ltb_lt _ _)) by lia.
  - destruct (decide (k' = k)).
    + unfold u8. by rewrite Z.mod_pow2_bits_high by lia.
    + rewrite byte_bits by lia. by rewrite (proj2 (Z.ltb_ge _ _)) by lia.
Qed.

Lemma pbyte_store s pa b pa' : 
  pbyte (set_mem (<[pa / 4 := u32 (set_byte (word_at s (pa / 4)) (pa mod 4) b)]> (mem s)) s) pa'
  = if decide (pa' = pa) then u8 b else pbyte s pa'.
Proof.
  unfold pbyte, word_at. cbn [mem set_mem]. destruct (decide (pa' / 4 = pa / 4)) as [E|E].
  - rewrite E, mget_insert, set_byte_get by lia. fold (word_at s (pa / 4)).
    destruct (decide (pa' mod 4 = pa mod 4)), (decide (pa' = pa)); try done; lia.
  - rewrite mget_insert_ne by done. rewrite decide_False; [done|]. intros ->. done.
Qed.

(** * A range of user memory *)

(** The physical address of a user address. *)
Definition upa (a : vm) (d va : Z) : Z :=
  match v_maps a !! (d, PGNUM va) with Some (p, _) => p * PGSIZE + PGOFF va | None => -1 end.

(** The range is mapped with permission [m]. *)
Definition mapped_range (a : vm) (d base len m : Z) : Prop :=
  forall x, base <= x < base + len -> 0 <= x < UTOP /\ exists p f, v_maps a !! (d, PGNUM x) = Some (p, f) /\ flag f m = true.

(** What stores into a range may change, and what the range then holds. *)
Record stored (a : vm) (d base len : Z) (s0 s : kstate) (U : Z -> Z) : Prop := {
  st_frame : exists m t, s = set_cr3 (cr3 s0) t (set_mem m s0);
  st_rel : vm_rel no_ex a s;
  st_tlb : tlb_ok d a s;
  st_bytes : forall x, base <= x < base + len -> pbyte s (upa a d x) = U x;
  st_rest : forall pa, (forall x, base <= x < base + len -> upa a d x <> pa) -> pbyte s pa = pbyte s0 pa
}.

Section Range.
Context (a : vm) (d base len : Z) (Hlen : 0 <= len <= PGSIZE) (Hr : mapped_range a d base len PTE_W).
Context (Hd : d ∈ v_dirs a \/ d = v_kdir a).

Lemma stored_start s : vm_rel no_ex a s -> tlb_ok d a s -> stored a d base len s s (fun x => pbyte s (upa a d x)).
Proof. intros HR HT. split; try done. exists (mem s), (tlb s). by destruct s. Qed.

(** Different addresses of the range are different bytes, even if two of its
    pages are the same frame. *)
Lemma upa_inj x y : base <= x < base + len -> base <= y < base + len -> upa a d x = upa a d y -> x = y.
Proof.
  intros Hx Hy. destruct (Hr x Hx) as (Ux & p & f & Mx & _), (Hr y Hy) as (Uy & q & g & My & _).
  unfold upa. rewrite Mx, My. rewrite !PGOFF_mod by (unfold is_u32; change UTOP with 4005560320 in *; lia).
  unfold PGSIZE in *. lia.
Qed.

Lemma kstore8_ok s0 s U va b : stored a d base len s0 s U -> base <= va < base + len ->
  exists s', kstore8 va b s = Ret tt s'
    /\ stored a d base len s0 s' (fun x => if decide (x = va) then u8 b else U x).
Proof.
  intros [(m & t & Es) HR HT HB HO] Hva. destruct (Hr va Hva) as (Uv & p & f & Mv & Fv).
  assert (is_u32 va) as H32 by (unfold is_u32; change UTOP with 4005560320 in *; lia).
  destruct (mmu_access_eq no_ex a s d HR HT Hd va H32 ltac:(lia) false true) as (tl & E & Htl).
  assert (v_translate a d false true va = Some (upa a d va)) as Et by (unfold v_translate, upa; rewrite Mv; unfold may_access; by rewrite Fv).
  rewrite Et in E. eexists. split.
  - unfold kstore8. rewrite u32_small by done. unfold vstore8, bind. rewrite E. reflexivity.
  - set (s1 := set_cr3 (cr3 s) tl s) in *.
    assert (forall pa', pbyte (set_mem (<[upa a d va / 4 := u32 (set_byte (word_at s1 (upa a d va / 4)) (upa a d va mod 4) b)]> (mem s1)) s1) pa'
      = if decide (pa' = upa a d va) then u8 b else pbyte s pa') as Hp by (intros; by rewrite pbyte_store).
    split.
    + set (M := <[_ := _]> (mem s1)). exists M, tl. generalize M. intros M'. unfold s1. rewrite Es. reflexivity.
    + unfold upa. rewrite Mv. apply (vm_rel_user_store no_ex a s1 d va _ p f); [by apply vm_rel_tlb|done|lia|done].
    + exact Htl.
    + intros x Hx. rewrite Hp. destruct (decide (x = va)) as [->|Hne]; [by rewrite decide_True|].
      rewrite decide_False; [by apply HB|]. intros E'. by apply Hne, upa_inj.
    + intros pa' Hpa. rewrite Hp, decide_False; [by apply HO|]. intros ->. by apply (Hpa va).
Qed.

Definition put32 (va v : Z) (U : Z -> Z) (x : Z) : Z :=
  if decide (va <= x < va + 4) then u8 (Z.shiftr v (8 * (x - va))) else U x.

Lemma stored_ext s0 s U U' : stored a d base len s0 s U -> (forall x, base <= x < base + len -> U x = U' x) ->
  stored a d base len s0 s U'.
Proof. intros [H1 H2 H3 H4 H5] HU. split; try done. intros x Hx. rewrite <- HU by done. by apply H4. Qed.

Lemma kstore32_ok s0 s U va v : stored a d base len s0 s U -> base <= va -> va + 4 <= base + len ->
  exists s', kstore32 va v s = Ret tt s' /\ stored a d base len s0 s' (put32 va v U).
Proof.
  intros HS H1 H2. unfold kstore32.
  destruct (kstore8_ok s0 s U va v HS) as (s1 & E1 & HS1); [lia|]. rewrite (bind_ret _ _ _ _ _ E1).
  destruct (kstore8_ok s0 s1 _ (va + 1) (Z.shiftr v 8) HS1) as (s2 & E2 & HS2); [lia|]. rewrite (bind_ret _ _ _ _ _ E2).
  destruct (kstore8_ok s0 s2 _ (va + 2) (Z.shiftr v 16) HS2) as (s3 & E3 & HS3); [lia|]. rewrite (bind_ret _ _ _ _ _ E3).
  destruct (kstore8_ok s0 s3 _ (va + 3) (Z.shiftr v 24) HS3) as (s4 & E4 & HS4); [lia|].
  exists s4. split; [done|]. apply (stored_ext _ _ _ _ HS4). intros x Hx. unfold put32.
  destruct (decide (x = va + 3)) as [->|]; [rewrite decide_True by lia; by replace (va + 3 - va) with 3 by lia|].
  destruct (decide (x = va + 2)) as [->|]; [rewrite decide_True by lia; by replace (va + 2 - va) with 2 by lia|].
  destruct (decide (x = va + 1)) as [->|]; [rewrite decide_True by lia; by replace (va + 1 - va) with 1 by lia|].
  destruct (decide (x = va)) as [->|]; [rewrite decide_True by lia; by rewrite Z.sub_diag|].
  by rewrite decide_False by lia.
Qed.
End Range.

(** The word at an address of the range. *)
Definition uword (U : Z -> Z) (va : Z) : Z := U va + U (va + 1) * 2 ^ 8 + U (va + 2) * 2 ^ 16 + U (va + 3) * 2 ^ 24.

Lemma uword_put va v U : uword (put32 va v U) va = u32 v.
Proof.
  unfold uword, put32. rewrite !decide_True by lia. rewrite Z.sub_diag.
  replace (va + 1 - va) with 1 by lia. replace (va + 2 - va) with 2 by lia. replace (va + 3 - va) with 3 by lia.
  rewrite !Z.shiftr_div_pow2 by lia. unfold u8, u32. change (2 ^ (8 * 0)) with 1. change (2 ^ (8 * 1)) with 256.
  change (2 ^ (8 * 2)) with 65536. change (2 ^ (8 * 3)) with 16777216. lia.
Qed.

Lemma uword_other va va' v U : va' + 4 <= va \/ va + 4 <= va' -> uword (put32 va v U) va' = uword U va'.
Proof. intros H. unfold uword, put32. by rewrite !decide_False by lia. Qed.

(** Stores into user memory keep the kernel's invariant. *)
Lemma stored_kinv a d base len s0 s U : kinv a s0 -> d ∈ v_dirs a \/ d = v_kdir a -> stored a d base len s0 s U -> kinv a s.
Proof.
  intros HK Hd [(m & t & Es) HR HT _ _]. apply (kinv_vm a a s0 s d); try done.
  - exists (pages s0), (page_free_list s0), m, t. rewrite Es. by destruct s0.
  - apply (mi_leak _ _ (ki_mem _ _ HK)).
Qed.
