(* ===== verification/DemoKernel.v ===== *)
(** A second concrete machine, on which the whole kernel invariant holds: twenty
    frames; environment 0x1000 runs with directory 2, page tables 4 and 6,
    frame 3 mapped writable at 0x1000, frame 7 writable at UTEXT and frame 8
    copy-on-write on the page above it; its child 0x1001, with the empty directory 5,
    waits for a message and a page at 0x2000; the other 1022 slots of the
    environment table are on the free list. *)

From stdpp Require Import base numbers list gmap strings.
From Stdlib Require Import ZArith Lia Bool.
From S2P Require Import Prelude Mmu KState Pmap PmapSpec Paging VmOps Env KInv.

Definition parent_env : Env :=
  mkEnv tf0 None 0x1000 0 ENV_TYPE_USER ENV_RUNNING 1 0 (frame_kva 2) 0 false 0 0 0 0.
Definition child_env : Env :=
  mkEnv tf0 None 0x1001 0x1000 ENV_TYPE_USER ENV_NOT_RUNNABLE 0 0 (frame_kva 5) 0 true 0x2000 0 0 0.
Definition free_env (i : Z) : Env := e_link (if i =? 1023 then None else Some (i + 1)) env0.

Definition kdemo_envs : gmap Z Env :=
  <[0 := parent_env]> (<[1 := child_env]> (list_to_map ((fun i => (i, free_env i)) <$> seqZ 2 1022))).

Definition kdemo_free : list Z := seqZ 9 11.

Definition kdemo_pages : gmap Z PageInfo :=
  list_to_map (((fun p => (p, mkPageInfo None 1)) <$> seqZ 0 9) ++ ((fun p => (p, mkPageInfo (Some (p + 1)) 0)) <$> seqZ 9 10)).

Definition kdemo_mem : gmap Z Z :=
  list_to_map [(2 * 1024 + 0, mkpte 4 PTE_PWU); (2 * 1024 + 2, mkpte 6 PTE_PWU); (4 * 1024 + 1, mkpte 3 7);
               (6 * 1024 + 0, mkpte 7 7); (6 * 1024 + 1, mkpte 8 0x805); (3 * 1024, 42); (8 * 1024 + 5, 99)].

Definition kdemo : kstate :=
  mkK 20 20 (frame_kva 2) kdemo_pages (Some 9) kdemo_mem (frame_kva 1) (2 * PGSIZE) ∅ MMIOBASE
    kdemo_envs (Some 2) {[0 := mkCpu CPU_STARTED (Some 0)]} 0 true 0 0 console0 nic0.

Definition kdemo_vm : vm :=
  mkVm kdemo_free {[0; 1]} 1 {[2; 5]} {[(2, 0) := 4; (2, 2) := 6]}
    {[(2, 1) := (3, 7); (2, 2048) := (7, 7); (2, 2049) := (8, 0x805)]}.

Lemma kdemo_managed p : managed kdemo_vm 20 p -> p ∈ seqZ 2 18.
Proof.
  intros [Hp Hr]. change (v_resv kdemo_vm) with ({[0; 1]} : gset Z) in Hr.
  assert (p <> 0 /\ p <> 1) by set_solver. apply elem_of_seqZ. lia.
Qed.

Lemma kdemo_tab d x t : v_tabs kdemo_vm !! (d, x) = Some t -> d = 2 /\ (x = 0 /\ t = 4 \/ x = 2 /\ t = 6).
Proof.
  intros H. unfold kdemo_vm in H. cbn [v_tabs v_maps] in H. apply lookup_insert_Some in H as [[[= <- <-] <-]|[_ H]]; [auto|].
  apply lookup_singleton_Some in H as [[= <- <-] <-]. auto.
Qed.

Lemma kdemo_map d v p f : v_maps kdemo_vm !! (d, v) = Some (p, f) ->
  d = 2 /\ (v = 1 /\ p = 3 /\ f = 7 \/ v = 2048 /\ p = 7 /\ f = 7 \/ v = 2049 /\ p = 8 /\ f = 0x805).
Proof.
  intros H. unfold kdemo_vm in H. cbn [v_tabs v_maps] in H. apply lookup_insert_Some in H as [[[= <- <-] [= <- <-]]|[_ H]]; [auto|].
  apply lookup_insert_Some in H. destruct H as [[Hk Hx]|[_ H]]; [injection Hk as <- <-; injection Hx as <- <-; auto 10|].
  apply lookup_singleton_Some in H as [[= <- <-] [= <- <-]]. auto 10.
Qed.

(** Case analysis on membership in an explicit list. *)
Ltac each H :=
  match type of H with _ ∈ ?l => let l' := eval vm_compute in l in change l with l' in H end;
  rewrite !elem_of_cons in H;
  repeat (destruct H as [->|H]; [|]); [..|by apply elem_of_nil in H].

Lemma kdemo_wf : vm_wf kdemo_vm 20.
Proof.
  split.
  - unfold MAXPAGES. lia.
  - simpl. split; [set_solver|lia].
  - intros d Hd. simpl in Hd. assert (d = 2 \/ d = 5) as [-> | ->] by set_solver; (split; [lia|simpl; set_solver]).
  - intros d x t Hl. apply kdemo_tab in Hl as [-> Hx].
    split; [left; rewrite UPDX_val; split; [simpl; set_solver|lia]|].
    destruct Hx as [[-> ->]|[-> ->]]; (split; [split; [lia|simpl; set_solver]|simpl; set_solver]).
  - intros [d1 x1] [d2 x2] t H1 H2. apply kdemo_tab in H1 as [-> H1], H2 as [-> H2]. f_equal. lia.
  - intros d v p f Hl. apply kdemo_map in Hl as [-> [(-> & -> & ->)|[(-> & -> & ->)|(-> & -> & ->)]]]; split_and!; (done || by vm_compute).
  - intros d v p f Hl _. apply kdemo_map in Hl as [-> Hl]. assert (p = 3 \/ p = 7 \/ p = 8) as Hp by lia.
    split_and!; [split; [lia|simpl]|simpl|].
    1-2: destruct Hp as [->|[->| ->]]; set_solver.
    intros [d x] Hk. apply kdemo_tab in Hk. lia.
Qed.

Lemma kdemo_page p : 0 <= p < 19 -> page_of kdemo p = if p <? 9 then mkPageInfo None 1 else mkPageInfo (Some (p + 1)) 0.
Proof.
  intros Hp. assert (p ∈ seqZ 0 19) as H by (apply elem_of_seqZ; lia). each H; vm_compute; reflexivity.
Qed.

Lemma kdemo_alloc :
  alloc_ok (managed kdemo_vm 20) (fun p => refs kdemo_vm p + no_ex p) kdemo_free kdemo.
Proof.
  split.
  - vm_compute. repeat split.
  - apply NoDup_seqZ.
  - intros p Hp. split; [|each Hp; by vm_compute]. apply elem_of_seqZ in Hp. split; [lia|simpl; set_solver by lia].
  - intros p Hp. destruct (decide (0 <= p < 9)) as [H9|H9]; [rewrite kdemo_page by lia; by rewrite (proj2 (Z.ltb_lt p 9)) by lia|].
    assert (p ∉ seqZ 0 20) as Hn by (intros Hq; apply elem_of_seqZ in Hq; apply Hp, elem_of_seqZ; lia).
    unfold page_of, mget. destruct (pages kdemo !! p) as [i|] eqn:E; [|done]. exfalso. apply Hn, elem_of_seqZ.
    apply elem_of_list_to_map_2, elem_of_app in E as [E|E]; apply list_elem_of_fmap in E as (q & [= -> _] & Hq); apply elem_of_seqZ in Hq; lia.
  - intros p Hp. apply kdemo_managed in Hp. each Hp; (split; [by vm_compute|by vm_compute]).
Qed.

Lemma kdemo_word w : word_at kdemo w =
  if decide (w = 2048) then mkpte 4 PTE_PWU else if decide (w = 2050) then mkpte 6 PTE_PWU else if decide (w = 4097) then mkpte 3 7
  else if decide (w = 6144) then mkpte 7 7 else if decide (w = 6145) then mkpte 8 0x805
  else if decide (w = 3072) then 42 else if decide (w = 8197) then 99 else 0.
Proof.
  unfold word_at, mget. simpl. unfold kdemo_mem. simpl.
  repeat case_decide; subst; try done. by rewrite !lookup_insert_ne by done.
Qed.

Lemma kdemo_pt : pt_ok kdemo_vm kdemo.
Proof.
  split.
  - intros w. rewrite kdemo_word. repeat case_decide; by vm_compute.
  - intros d x Ho. rewrite kdemo_word. unfold own in Ho. rewrite UPDX_val in Ho. simpl in Ho.
    change (PDX UVPT) with 957 in Ho.
    assert (((d = 2 \/ d = 5) /\ 0 <= x < 955) \/ (d = 1 /\ 0 <= x < 1024)) as Hc by set_solver. clear Ho.
    destruct (v_tabs kdemo_vm !! (d, x)) as [t|] eqn:Ht.
    + apply kdemo_tab in Ht as [-> [[-> ->]|[-> ->]]]; reflexivity.
    + assert ((d, x) <> (2, 0) /\ (d, x) <> (2, 2)) as [N1 N2] by (split; intros [= -> ->]; discriminate Ht).
      rewrite (decide_False (P := d * 1024 + x = 2048)) by (intros ?; apply N1; f_equal; lia).
      rewrite (decide_False (P := d * 1024 + x = 2050)) by (intros ?; apply N2; f_equal; lia).
      rewrite !decide_False by lia. done.
  - intros d x t j Hl Hj. destruct (v_maps kdemo_vm !! (d, x * 1024 + j)) as [[p f]|] eqn:Hm.
    + apply kdemo_tab in Hl as [-> Hx]. apply kdemo_map in Hm as [_ Hm]. rewrite kdemo_word.
      assert (t * 1024 + j = 4097 /\ p = 3 /\ f = 7 \/ t * 1024 + j = 6144 /\ p = 7 /\ f = 7 \/ t * 1024 + j = 6145 /\ p = 8 /\ f = 0x805) as Hw by lia.
      destruct Hw as [(-> & -> & ->)|[(-> & -> & ->)|(-> & -> & ->)]]; reflexivity.
    + apply kdemo_tab in Hl as [-> Hx]. rewrite kdemo_word.
      assert (forall v, v = 1 \/ v = 2048 \/ v = 2049 -> x * 1024 + j <> v) as Hn by (intros v [->|[->| ->]] E; rewrite E in Hm; discriminate Hm).
      pose proof (Hn 1). pose proof (Hn 2048). pose proof (Hn 2049). rewrite !decide_False by lia. done.
Qed.

Lemma kdemo_env i : 0 <= i < NENV ->
  env_of kdemo i = if i =? 0 then parent_env else if i =? 1 then child_env else free_env i.
Proof.
  intros Hi. unfold env_of, mget. change (envs kdemo) with kdemo_envs. unfold kdemo_envs.
  destruct (Z.eqb_spec i 0) as [->|H0]; [done|]. rewrite lookup_insert_ne by done.
  destruct (Z.eqb_spec i 1) as [->|H1]; [done|]. rewrite lookup_insert_ne by done.
  erewrite elem_of_list_to_map_1; [done| |].
  - rewrite <- list_fmap_compose. change (fst ∘ _) with (fun i : Z => i). rewrite list_fmap_id. apply NoDup_seqZ.
  - apply list_elem_of_fmap. exists i. split; [done|]. apply elem_of_seqZ. change NENV with 1024 in Hi. lia.
Qed.

#[global] Opaque kdemo_envs.

Lemma kdemo_chain n : (n < 1023)%nat ->
  echain kdemo (if Z.of_nat n =? 0 then None else Some (1024 - Z.of_nat n)) (seqZ (1024 - Z.of_nat n) (Z.of_nat n)).
Proof.
  induction n as [|n IH]; intros Hn; [done|]. rewrite seqZ_cons by lia.
  destruct (Z.eqb_spec (Z.of_nat (S n)) 0) as [|_]; [lia|]. split; [done|].
  rewrite kdemo_env by (change NENV with 1024; lia).
  destruct (Z.eqb_spec (1024 - Z.of_nat (S n)) 0), (Z.eqb_spec (1024 - Z.of_nat (S n)) 1); try lia.
  replace (Z.succ (1024 - Z.of_nat (S n))) with (1024 - Z.of_nat n) by lia.
  replace (Z.pred (Z.of_nat (S n))) with (Z.of_nat n) by lia.
  specialize (IH ltac:(lia)). unfold free_env. simpl env_link.
  replace (1024 - Z.of_nat (S n) + 1) with (1024 - Z.of_nat n) by lia.
  destruct (Z.eqb_spec (1024 - Z.of_nat (S n)) 1023), (Z.eqb_spec (Z.of_nat n) 0); try lia; done.
Qed.

Lemma kdemo_0 : env_of kdemo 0 = parent_env.
Proof. by rewrite kdemo_env by (change NENV with 1024; lia). Qed.

Lemma kdemo_1 : env_of kdemo 1 = child_env.
Proof. by rewrite kdemo_env by (change NENV with 1024; lia). Qed.

Lemma kdemo_live_inv i : live kdemo i -> i = 0 \/ i = 1.
Proof.
  intros [Hi Hs]. rewrite kdemo_env in Hs by exact Hi.
  destruct (Z.eqb_spec i 0); [by left|]. destruct (Z.eqb_spec i 1); [by right|]. by destruct Hs.
Qed.

Lemma kdemo_live0 : live kdemo 0.
Proof. split; [change NENV with 1024; lia|]. rewrite kdemo_0. discriminate. Qed.

Lemma kdemo_live1 : live kdemo 1.
Proof. split; [change NENV with 1024; lia|]. rewrite kdemo_1. discriminate. Qed.

Lemma kdemo_env_inv : env_inv kdemo_vm (seqZ 2 1022) kdemo.
Proof.
  split.
  - exact (kdemo_chain 1022 ltac:(lia)).
  - apply NoDup_seqZ.
  - intros i. rewrite elem_of_seqZ. split.
    + intros Hi. change NENV with 1024. rewrite kdemo_env by (change NENV with 1024; lia).
      destruct (Z.eqb_spec i 0), (Z.eqb_spec i 1); try lia. split; [lia|done].
    + intros [Hi Hs]. rewrite kdemo_env in Hs by done. change NENV with 1024 in Hi.
      destruct (Z.eqb_spec i 0); [discriminate Hs|]. destruct (Z.eqb_spec i 1); [discriminate Hs|]. lia.
  - intros i Hi. rewrite kdemo_env by done. destruct (i =? 0), (i =? 1); by split.
  - intros i Hi. apply kdemo_live_inv in Hi as [-> | ->]; [rewrite kdemo_0|rewrite kdemo_1]; by vm_compute.
  - intros i Hi. apply kdemo_live_inv in Hi as [-> | ->]; [rewrite kdemo_0; exists 2|rewrite kdemo_1; exists 5]; simpl; set_solver.
  - intros i j Hi Hj. apply kdemo_live_inv in Hi as [-> | ->], Hj as [-> | ->]; [done|rewrite ?kdemo_0, ?kdemo_1..|done]; discriminate.
  - intros d Hd. simpl in Hd. assert (d = 2 \/ d = 5) as [-> | ->] by set_solver.
    + exists 0. rewrite kdemo_0. split; [apply kdemo_live0|done].
    + exists 1. rewrite kdemo_1. split; [apply kdemo_live1|done].
Qed.

Lemma kdemo_leak : no_leak ∅ kdemo_vm 20.
Proof.
  intros p Hp Hf _. apply kdemo_managed in Hp. each Hp; try by vm_compute.
  all: destruct Hf; apply elem_of_seqZ; lia.
Qed.

Lemma kdemo_kinv : kinv kdemo_vm kdemo.
Proof.
  split.
  - split; [split; [exact kdemo_wf|exact kdemo_alloc|exact kdemo_pt|done]|exact kdemo_leak|done].
  - by exists (seqZ 2 1022); apply kdemo_env_inv.
  - split.
    + intros c [= <-]. apply kdemo_live0.
    + exists 2. split; [|left; simpl; set_solver].
      split; [done|]. intros n e He. simpl in He. by rewrite lookup_empty in He.
    + unfold cr3_current. change (flushes ?x kdemo) with (env_pgdir (env_of kdemo 0) =? x).
      by rewrite kdemo_0.
Qed.

Lemma count_size {K V} `{Countable K} (P : K * V -> Prop) `{forall x, Decision (P x)} (m : gmap K V) :
  count P m <= Z.of_nat (size m).
Proof. unfold count. apply inj_le, map_subseteq_size, map_filter_subseteq. Qed.

Lemma kdemo_room : refs_room kdemo_vm.
Proof.
  intros d v p f _ _. unfold refs, urefs, trefs, drefs.
  pose proof (count_size (fun kv : Z * Z * (Z * Z) => kv.1.2 < UVPN /\ kv.2.1 = p) (v_maps kdemo_vm)) as H1.
  pose proof (count_size (fun kv : Z * Z * Z => kv.2 = p) (v_tabs kdemo_vm)) as H2.
  change (size (v_maps kdemo_vm)) with 3%nat in H1. change (size (v_tabs kdemo_vm)) with 2%nat in H2.
  destruct (bool_decide _); lia.
Qed.
