(* ===== verification/EnvSpec.v ===== *)
(** kern/env.c and kern/sched.c against the kernel's invariant: building the
    environment table, creating and freeing environments, and switching
    between them. *)

From stdpp Require Import base numbers list gmap strings.
From Stdlib Require Import ZArith Lia Bool.
From S2P Require Import Prelude Mmu KState Pmap PmapBoot PmapSpec Paging VmOps Env KInv.

(** * [env_init] *)

(** A routine that changes only the environment table. *)
Definition env_frame (s s' : kstate) : Prop :=
  exists ev fl, s' = set_env_free fl (set_envs ev s).

Lemma env_frame_refl s : env_frame s s.
Proof. exists (envs s), (env_free_list s). by destruct s. Qed.

Lemma env_frame_trans s1 s2 s3 : env_frame s1 s2 -> env_frame s2 s3 -> env_frame s1 s3.
Proof. intros (e1 & f1 & ->) (e2 & f2 & ->). exists e2, f2. reflexivity. Qed.

Lemma env_frame_put i x s : env_frame s (put_env i x s).
Proof. exists (<[i := x]> (envs s)), (env_free_list s). by destruct s. Qed.

Lemma env_frame_free x s : env_frame s (set_env_free x s).
Proof. exists (envs s), x. by destruct s. Qed.

Record env_init_inv (s0 : kstate) (k : Z) (s : kstate) : Prop := {
  ii_frame : env_frame s0 s;
  ii_chain : echain s (env_free_list s) (seqZ (NENV - k) k);
  ii_slots : forall i, NENV - k <= i < NENV -> env_status (env_of s i) = ENV_FREE /\ env_id (env_of s i) = 0
}.

Lemma env_init_step_inv s0 k s :
  0 <= k < NENV -> env_init_inv s0 k s ->
  exists s', env_init_step (NENV - 1 - k) s = Ret tt s' /\ env_init_inv s0 (k + 1) s'.
Proof.
  intros Hk [H1 H2 H3]. set (i := NENV - 1 - k).
  set (x := e_link (env_free_list s) (e_status ENV_FREE (e_id 0 (env_of s i)))).
  assert (exists s', env_init_step i s = Ret tt s' /\ s' = set_env_free (Some i)
    (put_env i x (put_env i (e_status ENV_FREE (e_id 0 (env_of s i))) (put_env i (e_id 0 (env_of s i)) s)))) as (s' & E & ->).
  { eexists. split; [|reflexivity]. unfold env_init_step, upd_env, bind, modify, gets.
    rewrite !env_of_put, !decide_True by done. reflexivity. }
  eexists. split; [exact E|].
  set (s' := set_env_free _ _) in *.
  assert (forall j, env_of s' j = if decide (i = j) then x else env_of s j) as Ej.
  { intros j. unfold s'. change (env_of (set_env_free ?y ?z) j) with (env_of z j).
    rewrite !env_of_put. by destruct (decide (i = j)). }
  split.
  - eapply env_frame_trans; [exact H1|]. unfold s'. eapply env_frame_trans; [|apply env_frame_free].
    do 2 (eapply env_frame_trans; [|apply env_frame_put]). apply env_frame_put.
  - replace (NENV - (k + 1)) with i by lia. rewrite seqZ_cons by lia.
    split; [done|]. rewrite Ej, decide_True by done. simpl.
    replace (Z.succ i) with (NENV - k) by lia. replace (Z.pred (k + 1)) with k by lia.
    apply (echain_ext s); [|done]. intros j Hj. apply elem_of_seqZ in Hj.
    rewrite Ej, decide_False by lia. done.
  - intros j Hj. rewrite Ej. destruct (decide (i = j)); [done|]. apply H3. lia.
Qed.

Lemma env_init_spec s : env_free_list s = None ->
  exists s', env_init s = Ret tt s' /\ env_init_inv s NENV s'.
Proof.
  intros Hnil.
  destruct (for_loop_inv (env_init_inv s) (fun k => env_init_step (NENV - 1 - k)) (Z.to_nat NENV) 0 s)
    as (s' & E & HI).
  - split; [apply env_frame_refl|exact Hnil|intros; lia].
  - intros j s1 Hj HI. apply env_init_step_inv; [|done]. change (Z.of_nat (Z.to_nat NENV)) with NENV in Hj. lia.
  - exists s'. split; [exact E|exact HI].
Qed.

Lemma env_init_inv_ok a s0 s : v_dirs a = ∅ -> env_init_inv s0 NENV s -> env_inv a (seqZ 0 NENV) s.
Proof.
  intros Hd [H1 H2 H3]. rewrite Z.sub_diag in *.
  assert (forall i, ~ live s i) as Hn by (intros i [Hi Hs]; by destruct (H3 i Hi)).
  split; try (intros i Hi; by destruct (Hn i)).
  - done.
  - apply NoDup_seqZ.
  - intros i. rewrite elem_of_seqZ. split; [intros Hi; split; [lia|apply H3; lia]|lia].
  - intros i Hi. destruct (H3 i Hi) as [_ ->]. lia.
  - intros i j Hi _ _. by destruct (Hn i).
  - intros d. rewrite Hd. intros Hx. by apply not_elem_of_empty in Hx.
Qed.

(** * Identifiers *)

Lemma next_env_id_eq old i : 0 <= i < NENV ->
  next_env_id old i =
    (if s32 (old + 4096) / 1024 * 1024 <=? 0 then 4096 else s32 (old + 4096) / 1024 * 1024) + i.
Proof.
  intros Hi. unfold next_env_id. change (Z.shiftl 1 ENVGENSHIFT) with 4096. change NENV with (2 ^ 10) in Hi.
  assert (Z.land (s32 (old + 4096)) (Z.lnot (NENV - 1)) = s32 (old + 4096) / 1024 * 1024) as ->.
  { change (NENV - 1) with (Z.ones 10). rewrite <- Z.ldiff_land, Z.ldiff_ones_r by lia.
    rewrite Z.shiftl_mul_pow2, Z.shiftr_div_pow2 by lia. done. }
  destruct (_ <=? 0).
  - apply (lor_disjoint_add 4 i 10); [lia|]. lia.
  - apply (lor_disjoint_add _ i 10); [lia|]. lia.
Qed.

(** A new identifier names its slot, is positive, and differs from the one
    the slot had before. *)
Lemma next_env_id_ok old i : 0 <= i < NENV -> 0 <= old < 2 ^ 31 ->
  ENVX (next_env_id old i) = i /\ 0 < next_env_id old i < 2 ^ 31
  /\ next_env_id old i <> old.
Proof.
  intros Hi Ho. rewrite next_env_id_eq by done. change NENV with 1024 in Hi.
  pose proof (s32_range (old + 4096)) as Hr. set (g := s32 (old + 4096)) in *.
  set (G := if g / 1024 * 1024 <=? 0 then 4096 else g / 1024 * 1024).
  assert (exists q, G = q * 1024 /\ 4 <= q * 1024 <= 2 ^ 31 - 1024) as (q & Eq & Hq).
  { unfold G. destruct (Z.leb_spec (g / 1024 * 1024) 0); [exists 4; lia|]. exists (g / 1024).
    split; [done|]. assert (g / 1024 < 2 ^ 21) by (apply Z.div_lt_upper_bound; lia). lia. }
  assert (forall x, ENVX x = x mod 1024) as EX.
  { intros x. unfold ENVX. change (NENV - 1) with (Z.ones 10). by rewrite Z.land_ones by lia. }
  rewrite Eq. split_and!; [|lia|lia|].
  - rewrite EX, Z.add_comm, Z_mod_plus_full. by apply Z.mod_small.
  - intros E. destruct (Z.lt_ge_cases (old + 4096) (2 ^ 31)) as [Hs|Hs].
    + assert (g = old + 4096) as Eg by (apply s32_small; lia).
      assert (g / 1024 = q + 4) as Ed.
      { rewrite Eg, <- E. replace (q * 1024 + i + 4096) with (i + (q + 4) * 1024) by lia.
        rewrite Z.div_add, Z.div_small by lia. lia. }
      unfold G in Eq. rewrite Ed in Eq. destruct (Z.leb_spec ((q + 4) * 1024) 0); lia.
    + assert (g = old + 4096 - 2 ^ 32) as Eg.
      { unfold g, s32. rewrite u32_small by (unfold is_u32; lia). destruct (Z.ltb_spec (old + 4096) (2 ^ 31)); lia. }
      assert (g / 1024 <= 0) by (apply Z.lt_succ_r, Z.div_lt_upper_bound; lia).
      unfold G in Eq. destruct (Z.leb_spec (g / 1024 * 1024) 0); lia.
Qed.

Lemma PADDR_frame p s : 0 <= p -> PADDR (frame_kva p) s = Ret (p * PGSIZE) s.
Proof.
  intros Hp. unfold PADDR, frame_kva. rewrite (proj2 (Z.ltb_ge _ _)) by (unfold PGSIZE; lia).
  unfold ret. f_equal. lia.
Qed.

(** * A new page directory *)

Definition v_new_dir (p : Z) (fl : list Z) (a : vm) : vm :=
  mkVm fl (v_resv a) (v_kdir a) ({[p]} ∪ v_dirs a) (v_tabs a) (v_maps a).

(** The frame [p] has been made a directory with the kernel's part of the
    address space; no other word of memory has changed. *)
Definition dir_filled (a : vm) (p : Z) (s s' : kstate) : Prop :=
  (forall w, w / 1024 <> p -> word_at s' w = word_at s w)
  /\ forall j, UPDX <= j < 1024 -> j <> PDX UVPT -> word_at s' (p * 1024 + j) = word_at s (v_kdir a * 1024 + j).

(** [s] is [s0] with frame [p] rewritten, its part below UTOP still clear. *)
Record dir_frame (p : Z) (s0 s : kstate) : Prop := {
  df_mem : exists m, s = set_mem m s0;
  df_words : forall w, is_u32 (word_at s w);
  df_other : forall w, w / 1024 <> p -> word_at s w = word_at s0 w;
  df_low : forall j, 0 <= j < UPDX -> word_at s (p * 1024 + j) = 0
}.

Lemma dir_frame_store p s0 s j v :
  0 <= j < 1024 -> (j < UPDX -> v = 0) -> dir_frame p s0 s -> dir_frame p s0 (store_slot p j v s).
Proof.
  intros Hj Hv [[m ->] H2 H3 H4]. split.
  - exists (<[p * 1024 + j := u32 v]> m). reflexivity.
  - intros w. rewrite word_at_store_slot. destruct (decide _); [apply u32_range|apply H2].
  - intros w Hw. rewrite word_at_store_slot, decide_False; [by apply H3|]. intros <-. by rewrite frame_div in Hw.
  - intros k Hk. rewrite UPDX_val in *. rewrite word_at_store_slot.
    destruct (decide (p * 1024 + j = p * 1024 + k)) as [E|]; [|by apply H4].
    rewrite Hv by lia. done.
Qed.

Lemma dir_frame_loop p s0 n i body s :
  0 <= i -> i + Z.of_nat n <= 1024 -> dir_frame p s0 s ->
  (forall j s', i <= j < i + Z.of_nat n -> dir_frame p s0 s' ->
     exists v, body j s' = Ret tt (store_slot p j v s') /\ (j < UPDX -> v = 0)) ->
  exists s', for_loop n i body s = Ret tt s' /\ dir_frame p s0 s'.
Proof.
  intros Hi Hn Hs Hb. destruct (for_loop_inv (fun _ => dir_frame p s0) body n i s Hs) as (s' & E & H).
  - intros j s1 Hj H1. destruct (Hb j s1 Hj H1) as (v & E & Hv). eexists. split; [exact E|].
    apply dir_frame_store; [lia|done|done].
  - by exists s'.
Qed.

Lemma refs_new_dir p fl a q : p ∉ v_dirs a ->
  refs (v_new_dir p fl a) q = refs a q + (if decide (q = p) then 1 else 0).
Proof.
  intros Hp. unfold refs, drefs. simpl.
  change (urefs (v_new_dir p fl a) q) with (urefs a q). change (trefs (v_new_dir p fl a) q) with (trefs a q).
  destruct (decide (q = p)) as [->|Hne].
  - rewrite bool_decide_true, bool_decide_false by set_solver. lia.
  - destruct (decide (q ∈ v_dirs a)); [rewrite !bool_decide_true by set_solver|rewrite !bool_decide_false by set_solver]; lia.
Qed.

Section NewDir.
Context (a : vm) (s : kstate) (HR : vm_rel no_ex a s).
Context (p : Z) (fl : list Z) (Hfree : v_free a = p :: fl).

Let a' := v_new_dir p fl a.

Lemma new_dir_pfree : p ∈ v_free a.
Proof. rewrite Hfree. set_solver. Qed.

Lemma new_dir_wf : vm_wf a' (npages s).
Proof.
  destruct (free_no_refs _ a s HR p new_dir_pfree) as (Hm & Hu & Ht & Hd & _).
  destruct (rel_wf _ _ _ HR) as [W1 W2 W3 W4 W5 W6 W7]. split; try done.
  - intros d. unfold a'. simpl. intros Hd'. apply elem_of_union in Hd' as [Hd'|Hd']; [|by apply W3].
    by apply elem_of_singleton in Hd' as ->.
  - intros d x t Hl. destruct (W4 d x t Hl) as (Ho & Hmt & Htd). split_and!; [|exact Hmt|].
    + destruct Ho as [[? ?]|?]; [left; split; [by apply elem_of_union_r|done]|by right].
    + simpl. intros Hx. apply elem_of_union in Hx as [Hx|Hx]; [|done].
      apply elem_of_singleton in Hx as ->. by apply (free_not_tab _ a s HR p (d, x) new_dir_pfree).
  - intros d v q f Hl Hv. destruct (W7 d v q f Hl Hv) as (Hmq & Hqd & Hqt). split_and!; [exact Hmq| |done].
    simpl. intros Hx. apply elem_of_union in Hx as [Hx|Hx]; [|done]. apply elem_of_singleton in Hx as ->.
    pose proof (urefs_map a d v p f Hl Hv). lia.
Qed.

Lemma new_dir_pt s0 s' :
  (forall w, w / 1024 <> p -> word_at s0 w = word_at s w) -> dir_frame p s0 s' -> pt_ok a' s'.
Proof.
  intros Hs0 [_ D2 D3 D4]. destruct (rel_pt _ _ _ HR) as [P1 P2 P3]. pose proof (rel_wf _ _ _ HR) as Hwf.
  split.
  - exact D2.
  - intros d x Ho. destruct (decide (d = p)) as [->|Hne].
    + assert (v_tabs a' !! (p, x) = None) as ->.
      { destruct (v_tabs a' !! (p, x)) as [t|] eqn:E; [|done]. destruct (wf_tabs _ _ Hwf _ _ _ E) as (Ho' & _).
        destruct (free_not_dir _ a s HR p p x new_dir_pfree Ho'). done. }
      destruct Ho as [[_ Hx]|[Hx _]]; [by rewrite D4|].
      destruct (wf_kdir _ _ Hwf) as [Hk _]. destruct (free_no_refs _ a s HR p new_dir_pfree) as ([_ Hr] & _).
      simpl in Hx. congruence.
    + assert (own a d x) as Ho'.
      { destruct Ho as [[Hd Hx]|?]; [left; split; [|done]; simpl in Hd; set_solver|by right]. }
      assert (0 <= x < 1024) by (destruct Ho' as [[_ Hx]|(_ & Hx & _)]; rewrite ?UPDX_val in Hx; lia).
      rewrite D3, Hs0 by (by rewrite frame_div). by apply P2.
  - intros d x t j Hl Hj. assert (t <> p) as Hne.
    { intros ->. by apply (free_not_tab _ a s HR p (d, x) new_dir_pfree). }
    rewrite D3, Hs0 by (by rewrite frame_div). by apply (P3 d x).
Qed.

Lemma new_dir_alloc s' :
  pages s' = pages (with_ref p 1 (alloc_pop p s)) -> page_free_list s' = page_free_list (alloc_pop p s) ->
  npages s' = npages s ->
  alloc_ok (managed a' (npages s')) (fun q => refs a' q + no_ex q) fl s'.
Proof.
  intros Hp Hf Hn. destruct (free_no_refs _ a s HR p new_dir_pfree) as (Hm & Hu & Ht & Hd & _).
  apply alloc_ok_ext with (s := with_ref p 1 (alloc_pop p s)) (cnt := fun q => refs a' q + no_ex q); try done.
  rewrite Hn. change (managed a' (npages s)) with (managed a (npages s)).
  pose proof (rel_alloc _ _ _ HR) as Ha. rewrite Hfree in Ha. apply alloc_pop_ok in Ha.
  apply with_ref_ok with (cnt := fun q => refs a q + no_ex q); [done| |lia| |].
  - pose proof (ao_nodup _ _ _ _ (rel_alloc _ _ _ HR)) as Hnd. rewrite Hfree in Hnd. by apply NoDup_cons in Hnd as [? _].
  - unfold a'. rewrite refs_new_dir, decide_True by done.
    destruct (ao_free _ _ _ _ (rel_alloc _ _ _ HR) p new_dir_pfree) as [_ Hz]. lia.
  - intros q Hq. unfold a'. rewrite refs_new_dir, decide_False by done. lia.
Qed.
End NewDir.

(** What [env_setup_vm] leaves outside the environment table. *)
Definition setup_frame (e p : Z) (s s' : kstate) : Prop :=
  exists pg f m, s' = set_mem m (set_free f (set_pages pg (put_env e (e_pgdir (frame_kva p) (env_of s e)) s))).

Section SetupVm.
Context (a : vm) (s : kstate) (HR : vm_rel no_ex a s) (Hkp : kern_pgdir s = frame_kva (v_kdir a)).
Context (e p : Z) (fl : list Z) (Hfree : v_free a = p :: fl).

Let s0 : kstate :=
  with_ref p 1 (put_env e (e_pgdir (frame_kva p) (env_of s e)) (zero_frame p (alloc_pop p s))).

Lemma setup_p_max : 0 <= p < MAXPAGES /\ 0 <= p < npages s /\ npages s <= MAXPAGES.
Proof. destruct (take_range no_ex a s HR p fl Hfree). lia. Qed.

Lemma setup_s0_words w : word_at s0 w = if decide (w / 1024 = p) then 0 else word_at s w.
Proof. apply (word_at_zero_frame (alloc_pop p s) p w). Qed.

Lemma setup_start : dir_frame p s0 s0.
Proof.
  split.
  - exists (mem s0). by destruct s0.
  - intros w. rewrite setup_s0_words. destruct (decide _); [by vm_compute|apply (rel_pt _ _ _ HR)].
  - done.
  - intros j Hj. rewrite UPDX_val in Hj. rewrite setup_s0_words, decide_True; [done|]. apply frame_div. lia.
Qed.

(** The second loop copies the kernel's half of kern_pgdir. *)
Lemma setup_copy s1 : dir_frame p s0 s1 ->
  exists s2, for_loop (Z.to_nat (NPDENTRIES - PDX UTOP)) (PDX UTOP) (fun i =>
      let! pde := gets (load32 (frame_kva (v_kdir a) + 4 * i)) in store32 (frame_kva p + 4 * i) pde) s1 = Ret tt s2
    /\ dir_frame p s0 s2
    /\ (forall j, UPDX <= j < 1024 -> word_at s2 (p * 1024 + j) = word_at s (v_kdir a * 1024 + j)).
Proof.
  intros H1. destruct setup_p_max as (Hp & _).
  destruct (wf_kdir _ _ (rel_wf _ _ _ HR)) as [Hkr Hkn].
  assert (0 <= v_kdir a < MAXPAGES) as Hkm by (destruct setup_p_max; lia).
  assert (v_kdir a <> p) as Hkne.
  { intros E. destruct (free_no_refs _ a s HR p) as ([_ Hr] & _); [rewrite Hfree; set_solver|]. congruence. }
  destruct (for_loop_inv (fun k s' => dir_frame p s0 s' /\
      forall j, UPDX <= j < k -> word_at s' (p * 1024 + j) = word_at s (v_kdir a * 1024 + j))
    (fun i => let! pde := gets (load32 (frame_kva (v_kdir a) + 4 * i)) in store32 (frame_kva p + 4 * i) pde)
    (Z.to_nat (NPDENTRIES - PDX UTOP)) (PDX UTOP) s1) as (s2 & E & D2 & C2).
  - split; [done|]. intros j Hj. unfold UPDX in Hj. lia.
  - change (PDX UTOP) with 955. change (Z.of_nat (Z.to_nat (NPDENTRIES - 955))) with 69.
    intros j s' Hj [D C]. eexists. split.
    + unfold bind, gets. change (frame_kva (v_kdir a) + 4 * j) with (entry_kva (v_kdir a) j).
      rewrite load32_entry by (done || lia).
      apply (store32_entry s' p j); [done|lia].
    + assert (word_at s' (v_kdir a * 1024 + j) = word_at s (v_kdir a * 1024 + j)) as Ew.
      { rewrite (df_other _ _ _ D), setup_s0_words, decide_False; rewrite ?frame_div; done || lia. }
      split; [apply dir_frame_store; [lia|rewrite UPDX_val; lia|done]|].
      intros k Hk. rewrite UPDX_val in *. rewrite word_at_store_slot.
      destruct (decide (p * 1024 + j = p * 1024 + k)) as [Eq|Hne].
      * assert (j = k) as -> by lia. rewrite u32_small by apply (df_words _ _ _ D). exact Ew.
      * apply C. lia.
  - exists s2. split; [exact E|]. split; [exact D2|]. exact C2.
Qed.

Lemma env_setup_vm_ok :
  exists s', env_setup_vm e s = Ret 0 s' /\ vm_rel no_ex (v_new_dir p fl a) s' /\ setup_frame e p s s'
    /\ dir_filled a p s s'.
Proof.
  destruct setup_p_max as (Hp & Hpn & Hn). destruct (free_no_refs _ a s HR p) as (Hm & Hu & Ht & Hd & _);
    [rewrite Hfree; set_solver|].
  destruct (ao_ref _ _ _ _ (rel_alloc _ _ _ HR) p Hm) as [Er _].
  destruct (ao_free _ _ _ _ (rel_alloc _ _ _ HR) p) as [_ Hz]; [rewrite Hfree; set_solver|].
  cbv beta in Er, Hz. rewrite Hz in Er.
  destruct (dir_frame_loop p s0 (Z.to_nat (PDX UTOP)) 0 (fun i => store32 (frame_kva p + 4 * i) 0) s0) as (s1 & E1 & D1);
    [lia|change (PDX UTOP) with 955; lia|exact setup_start| |].
  { change (PDX UTOP) with 955. intros j s' Hj _. exists 0. split; [|done]. apply (store32_entry s' p j); [done|lia]. }
  destruct (setup_copy s1 D1) as (s2 & E2 & D2 & C2).
  set (s3 := store_slot p (PDX UVPT) (Z.lor (Z.lor (p * PGSIZE) PTE_P) PTE_U) s2).
  assert (dir_frame p s0 s3) as D3 by (apply dir_frame_store; [apply PDX_range|by intros ?|done]).
  exists s3. split_and!.
  - unfold env_setup_vm. rewrite (bind_ret _ _ _ _ _ (page_alloc_take no_ex a s HR p fl Hfree ALLOC_ZERO)).
    change (flag ALLOC_ZERO ALLOC_ZERO) with true. cbv iota.
    rewrite (bind_ret _ _ _ (frame_kva p) (zero_frame p (alloc_pop p s))).
    2:{ unfold page2kva. rewrite page2pa_mul by (unfold MAXPAGES in *; lia). by rewrite KADDR_frame. }
    set (X := put_env e (e_pgdir (frame_kva p) (env_of s e)) (zero_frame p (alloc_pop p s))).
    rewrite (bind_ret (upd_env _ _) _ _ tt X) by reflexivity.
    rewrite (bind_ret (gets _) _ _ (page_of X p) X) by reflexivity.
    assert (pp_ref (page_of X p) = 0) as Ex.
    { change (page_of X p) with (page_of (alloc_pop p s) p). unfold alloc_pop.
      by rewrite page_of_put, decide_True. }
    rewrite (bind_ret (set_pp_ref _ _) _ _ tt s0) by (rewrite Ex; reflexivity).
    rewrite (bind_ret _ _ _ _ _ E1).
    rewrite (bind_ret (gets kern_pgdir) _ _ (frame_kva (v_kdir a)) s1).
    2:{ destruct (df_mem _ _ _ D1) as [m ->]. unfold gets. f_equal. exact Hkp. }
    rewrite (bind_ret _ _ _ _ _ E2).
    rewrite (bind_ret (PADDR _) _ _ (p * PGSIZE) s2) by (apply PADDR_frame; lia).
    rewrite (bind_ret (store32 _ _) _ _ tt s3); [done|]. apply (store32_entry s2 p (PDX UVPT)); [done|apply PDX_range].
  - destruct (df_mem _ _ _ D3) as [m E3]. split.
    + rewrite E3. apply (new_dir_wf a s HR p fl Hfree).
    + apply (new_dir_alloc a s HR p fl Hfree); by rewrite E3.
    + apply (new_dir_pt a s HR p fl Hfree s0); [|done]. intros w Hw. by rewrite setup_s0_words, decide_False.
    + done.
  - destruct (df_mem _ _ _ D3) as [m E3]. rewrite E3.
    exists (pages s0), (page_free_list s0), m. reflexivity.
  - split; [intros w Hw; by rewrite (df_other _ _ _ D3 w Hw), setup_s0_words, decide_False|].
    intros j Hj Hne. unfold s3. rewrite word_at_store_slot, decide_False by (rewrite PDX_UVPT_val in *; lia).
    by apply C2.
Qed.
End SetupVm.

(** * [env_alloc] *)

Lemma frame_kva_inj p q : frame_kva p = frame_kva q -> p = q.
Proof. unfold frame_kva, PGSIZE. lia. Qed.

Lemma put_env_put i x y s : put_env i y (put_env i x s) = put_env i y s.
Proof. unfold put_env. simpl. by rewrite insert_insert_eq. Qed.

Lemma upd_env_put i f x s : upd_env i f (put_env i x s) = Ret tt (put_env i (f x) s).
Proof. unfold upd_env, modify. by rewrite env_of_put, decide_True, put_env_put. Qed.

Lemma env_inv_new a fl s e p fr x :
  env_inv a (e :: fl) s -> p ∉ v_dirs a -> env_status x <> ENV_FREE ->
  ENVX (env_id x) = e -> 0 < env_id x < 2 ^ 31 -> env_pgdir x = frame_kva p ->
  env_inv (v_new_dir p fr a) fl (set_env_free (env_link (env_of s e)) (put_env e x s)).
Proof.
  intros [H1 H2 H3 H0 H4 H5 H6 H7] Hp Hs Hx Hid Hpg. apply NoDup_cons in H2 as [Hni Hnd].
  destruct (proj1 (H3 e)) as [Her Hef]; [set_solver|].
  set (s' := set_env_free _ _).
  assert (forall i, env_of s' i = if decide (e = i) then x else env_of s i) as E by (intros; apply env_of_put).
  assert (forall i, live s' i <-> i = e \/ live s i) as L.
  { intros i. unfold live. rewrite E. destruct (decide (e = i)) as [<-|]; naive_solver. }
  assert (forall i, i <> e -> live s i -> env_pgdir (env_of s i) <> frame_kva p) as Hne.
  { intros i _ Hi. destruct (H5 i Hi) as (d & Hd & ->). intros Eq. apply frame_kva_inj in Eq as ->. done. }
  assert (~ live s e) as Hnl by (intros [_ ?]; done).
  split; [|done| | | | | |].
  - apply (echain_ext s); [|apply H1]. intros i Hi. rewrite E, decide_False; [done|]. by intros ->.
  - intros i. rewrite E. destruct (decide (e = i)) as [<-|Hn]; [naive_solver|].
    rewrite <- H3. set_solver.
  - intros i Hi. rewrite E. destruct (decide (e = i)); [lia|]. by apply H0.
  - intros i Hi. rewrite E. destruct (decide (e = i)) as [<-|Hn]; [done|]. apply H4. apply L in Hi. naive_solver.
  - intros i Hi. rewrite E. simpl. destruct (decide (e = i)) as [<-|Hn]; [exists p; set_solver|].
    apply L in Hi as [?|Hi]; [done|]. destruct (H5 i Hi) as (d & ? & ?). exists d. set_solver.
  - intros i j Hi Hj. rewrite !E. apply L in Hi, Hj.
    destruct (decide (e = i)) as [<-|], (decide (e = j)) as [<-|]; try done.
    + rewrite Hpg. intros Eq. destruct (Hne j); naive_solver.
    + rewrite Hpg. intros Eq. destruct (Hne i); naive_solver.
    + apply H6; naive_solver.
  - intros d Hd. simpl in Hd. apply elem_of_union in Hd as [Hd|Hd].
    + apply elem_of_singleton in Hd as ->. exists e. rewrite E, decide_True by done. split; [by apply L; left|done].
    + destruct (H7 d Hd) as (i & Hi & Hpi). exists i. rewrite E, decide_False by (by intros ->). split; [by apply L; right|done].
Qed.

(** The record [env_alloc] fills in. *)
Definition fresh_env (e p parent : Z) (old : Env) : Env :=
  mkEnv new_tf (env_link old) (next_env_id (env_id old) e) parent ENV_TYPE_USER ENV_RUNNABLE 0 (env_cpunum old)
    (frame_kva p) 0 false (env_ipc_dstva old) (env_ipc_value old) (env_ipc_from old) (env_ipc_perm old).

Section EnvAlloc.
Context (a : vm) (s : kstate) (HM : mem_inv a s) (fl : list Z) (HE : env_inv a fl s) (parent : Z).

Lemma env_alloc_none : fl = [] -> env_alloc parent s = Ret (- E_NO_FREE_ENV, None) s.
Proof.
  intros ->. pose proof (ei_chain _ _ _ HE) as Hc. simpl in Hc. unfold env_alloc, bind, gets. by rewrite Hc.
Qed.

Lemma env_alloc_nomem e fl' : fl = e :: fl' -> v_free a = [] -> env_alloc parent s = Ret (- E_NO_MEM, None) s.
Proof.
  intros -> Hf. destruct (ei_chain _ _ _ HE) as [Hh _]. unfold env_alloc, bind at 1, gets. rewrite Hh.
  unfold env_setup_vm, bind. by rewrite (page_alloc_empty no_ex a s (mi_vm _ _ HM) ALLOC_ZERO Hf).
Qed.

Lemma env_alloc_ok e fl' p fr : fl = e :: fl' -> v_free a = p :: fr ->
  exists m f pg, let s1 := set_mem m (set_free f (set_pages pg s)) in
    let s' := set_env_free (env_link (env_of s e)) (put_env e (fresh_env e p parent (env_of s e)) s1) in
    env_alloc parent s = Ret (0, Some e) s' /\ mem_inv (v_new_dir p fr a) s'
    /\ env_inv (v_new_dir p fr a) fl' s'
    /\ dir_filled a p s s'.
Proof.
  intros -> Hf. destruct HM as [HR HL HK]. destruct (ei_chain _ _ _ HE) as [Hh _].
  destruct (env_setup_vm_ok a s HR HK e p fr Hf) as (s1 & E1 & R1 & (pg & f & m & ->) & C1).
  exists m, f, pg. cbv zeta.
  destruct (free_no_refs _ a s HR p) as (Hm & Hu & Ht & Hd & _); [rewrite Hf; set_solver|].
  destruct (proj1 (ei_free _ _ _ HE e)) as [Her _]; [set_solver|].
  destruct (next_env_id_ok (env_id (env_of s e)) e Her (ei_ids _ _ _ HE e Her)) as (I1 & I2 & _).
  split_and!.
  - unfold env_alloc. rewrite (bind_ret (gets env_free_list) _ _ (Some e) s) by (unfold gets; by rewrite Hh).
    rewrite (bind_ret _ _ _ _ _ E1). change (0 <? 0) with false. cbv iota.
    change (set_mem m (set_free f (set_pages pg (put_env e (e_pgdir (frame_kva p) (env_of s e)) s))))
      with (put_env e (e_pgdir (frame_kva p) (env_of s e)) (set_mem m (set_free f (set_pages pg s)))).
    do 8 rewrite (bind_ret _ _ _ _ _ (upd_env_put e _ _ _)).
    unfold bind, gets, modify, ret. by rewrite env_of_put, decide_True.
  - split.
    + eapply vm_rel_ext; [exact R1|done..].
    + intros q Hq Hqf _. rewrite refs_new_dir by done. pose proof (refs_nonneg a q).
      destruct (decide (q = p)); [lia|]. rewrite Z.add_0_r. apply HL; [done|rewrite Hf; set_solver|set_solver].
    + done.
  - apply (env_inv_new a fl' (set_mem m (set_free f (set_pages pg s))) e p fr); try done.
    by apply (env_inv_ext a a (e :: fl') s).
  - exact C1.
Qed.
End EnvAlloc.
