(* ===== verification/EnvFree.v ===== *)
(** [env_free] of kern/env.c gives back everything an environment owns: its
    mapped pages, its page tables and its page directory, and nothing else. *)

From stdpp Require Import base numbers list gmap strings.
From Stdlib Require Import ZArith Lia Bool.
From S2P Require Import Prelude Mmu KState Pmap PmapBoot PmapSpec Paging VmOps Env KInv EnvSpec.

(** * Dropping an empty page table *)

Definition v_drop_tab (d x t : Z) (a : vm) : vm :=
  mkVm (t :: v_free a) (v_resv a) (v_kdir a) (v_dirs a) (delete (d, x) (v_tabs a)) (v_maps a).

Section DropTab.
Context (a : vm) (s : kstate) (HR : vm_rel no_ex a s) (d x t : Z).
Context (Ht : v_tabs a !! (d, x) = Some t) (Hown : own a d x).
Context (Hempty : forall j, 0 <= j < 1024 -> v_maps a !! (d, x * 1024 + j) = None).

Let a' := v_drop_tab d x t a.

Lemma drop_tab_refs q : refs a' q = refs a q - (if decide (q = t) then 1 else 0).
Proof.
  unfold a', refs, urefs, trefs, drefs. simpl. rewrite (count_delete _ _ _ _ Ht). simpl.
  destruct (decide (t = q)), (decide (q = t)); try done; lia.
Qed.

Lemma drop_tab_wf : vm_wf a' (npages s).
Proof.
  destruct (rel_wf _ _ _ HR) as [W1 W2 W3 W4 W5 W6 W7]. split; try done.
  - intros d' x' t' Hl. simpl in Hl. apply lookup_delete_Some in Hl as [_ Hl]. by apply W4.
  - intros k1 k2 t' H1 H2. simpl in *. apply lookup_delete_Some in H1 as [_ H1], H2 as [_ H2]. by apply (W5 _ _ t').
  - intros d' v p f Hl. simpl in Hl. destruct (W6 d' v p f Hl) as ([t' Ht'] & Hv & Hp & Hf & HP).
    split_and!; [|lia|lia|lia|apply Hf|apply Hf|done]. exists t'. simpl.
    rewrite lookup_delete_ne; [done|]. intros [= -> Ex].
    pose proof (Hempty (v mod 1024) (Z.mod_pos_bound v 1024 ltac:(lia))) as He.
    rewrite Ex, (Z.mul_comm (v / 1024)), <- Z.div_mod in He by lia. congruence.
  - intros d' v p f Hl Hv. destruct (W7 d' v p f Hl Hv) as (H1 & H2 & H3). split_and!; [exact H1|exact H2|].
    intros k Hk. simpl in Hk. apply lookup_delete_Some in Hk as [_ Hk]. by apply (H3 k).
Qed.

Lemma drop_tab_pt : pt_ok a' (store_slot d x 0 s).
Proof.
  destruct (rel_pt _ _ _ HR) as [P1 P2 P3]. destruct (own_dir _ a s HR d x Hown) as (_ & _ & Hx). split.
  - intros w. rewrite word_at_store_slot. destruct (decide _); [apply u32_range|apply P1].
  - intros d' x' Ho. change (own a d' x') in Ho. destruct (own_dir _ a s HR d' x' Ho) as (_ & _ & Hx').
    rewrite word_at_store_slot. simpl. destruct (decide (d * 1024 + x = d' * 1024 + x')) as [E|E].
    + apply slot_inj in E as [<- <-]; [|done|done]. by rewrite lookup_delete_eq.
    + rewrite lookup_delete_ne by congruence. by apply P2.
  - intros d' x' t' j Hl Hj. simpl in *. apply lookup_delete_Some in Hl as [Hne Hl].
    rewrite word_at_store_slot, decide_False; [by apply (P3 d' x')|]. intros E.
    apply slot_inj in E as [E _]; [|done|done]. by apply (tab_not_dir _ a s HR _ _ d x Hl Hown).
Qed.

Lemma drop_tab_ok :
  exists s', page_decref t (store_slot d x 0 s) = Ret tt s' /\ vm_rel no_ex a' s' /\ vm_frame s s'
    /\ tlb s' = tlb s.
Proof.
  destruct (wf_tabs _ _ (rel_wf _ _ _ HR) d x t Ht) as (_ & Hmg & _).
  pose proof (tab_refs _ a s HR (d, x) t Ht) as Hr1.
  assert (alloc_ok (managed a (npages s)) (fun q => refs a q + no_ex q) (v_free a) (store_slot d x 0 s)) as Ha.
  { by apply alloc_ok_ext with (s := s) (cnt := fun q => refs a q + no_ex q); [..|apply (rel_alloc _ _ _ HR)]. }
  destruct (page_decref_ok _ _ (fun q => refs a' q + no_ex q) _ _ t Ha Hmg) as (s' & E & Ha' & pg & fl & ->).
  - unfold no_ex. lia.
  - rewrite drop_tab_refs, decide_True by done. lia.
  - intros q Hq. rewrite drop_tab_refs, decide_False by done. lia.
  - rewrite Hr1 in Ha'. change (1 + no_ex t =? 1) with true in Ha'. cbv iota in Ha'.
    eexists. split; [exact E|]. split_and!; [split|..].
    + exact drop_tab_wf.
    + exact Ha'.
    + pose proof drop_tab_pt as [Q1 Q2 Q3]. by split.
    + done.
    + exists pg, fl, (mem (store_slot d x 0 s)), (tlb s). reflexivity.
    + done.
Qed.
End DropTab.

(** * Dropping an empty page directory *)

Definition v_drop_dir (d : Z) (a : vm) : vm :=
  mkVm (d :: v_free a) (v_resv a) (v_kdir a) (v_dirs a ∖ {[d]}) (v_tabs a) (v_maps a).

Lemma drop_dir_refs a d q : d ∈ v_dirs a ->
  refs (v_drop_dir d a) q = refs a q - (if decide (q = d) then 1 else 0).
Proof.
  intros Hd. unfold refs. change (urefs (v_drop_dir d a) q) with (urefs a q).
  change (trefs (v_drop_dir d a) q) with (trefs a q). unfold drefs. simpl.
  destruct (decide (q = d)) as [->|Hne].
  - rewrite bool_decide_false, bool_decide_true by set_solver. lia.
  - destruct (decide (q ∈ v_dirs a)); [rewrite !bool_decide_true by set_solver|rewrite !bool_decide_false by set_solver]; lia.
Qed.

Section DropDir.
Context (a : vm) (s : kstate) (HR : vm_rel no_ex a s) (d : Z) (Hd : d ∈ v_dirs a).
Context (Hnotab : forall x, v_tabs a !! (d, x) = None).

Let a' := v_drop_dir d a.

Lemma dir_refs : refs a d = 1.
Proof.
  pose proof (rel_wf _ _ _ HR) as Hwf. unfold refs. rewrite (drefs_dir a d Hd).
  assert (urefs a d = 0) as ->.
  { apply count_zero. intros [d' v] [p f] Hl [Hv Hp]. simpl in *. subst p.
    by destruct (wf_user _ _ Hwf _ _ _ _ Hl Hv) as (_ & ? & _). }
  assert (trefs a d = 0) as ->; [|lia].
  apply count_zero. intros [d' x] t Hl Ht. simpl in *. subst t.
  by destruct (wf_tabs _ _ Hwf _ _ _ Hl) as (_ & _ & ?).
Qed.

Lemma drop_dir_own d' x : own a' d' x -> own a d' x /\ d' <> d.
Proof.
  intros [[H1 H2]|[-> H2]].
  - simpl in H1. apply elem_of_difference in H1 as [H1 H3]. split; [by left|set_solver].
  - split; [by right|]. intros E. simpl in E. destruct (wf_kdir _ _ (rel_wf _ _ _ HR)) as [Hk _].
    destruct (wf_dirs _ _ (rel_wf _ _ _ HR) d Hd) as [_ Hr]. congruence.
Qed.

Lemma drop_dir_wf : vm_wf a' (npages s).
Proof.
  destruct (rel_wf _ _ _ HR) as [W1 W2 W3 W4 W5 W6 W7]. split; try done.
  - intros d' Hd'. simpl in Hd'. apply elem_of_difference in Hd' as [Hd' _]. by apply W3.
  - intros d' x t Hl. destruct (W4 d' x t Hl) as (Ho & Hm & Htd). split_and!; [|exact Hm|by intros [? _]%elem_of_difference].
    destruct Ho as [[H1 H2]|H2]; [left; split; [|done]|by right].
    simpl. apply elem_of_difference. split; [done|]. intros E. apply elem_of_singleton in E as ->.
    simpl in Hl. by rewrite Hnotab in Hl.
  - intros d' v p f Hl Hv. destruct (W7 d' v p f Hl Hv) as (H1 & H2 & H3). split_and!; [exact H1|by intros [? _]%elem_of_difference|done].
Qed.

Lemma drop_dir_ok :
  exists s', page_decref d s = Ret tt s' /\ vm_rel no_ex a' s' /\ vm_frame s s' /\ tlb s' = tlb s.
Proof.
  pose proof (wf_dirs _ _ (rel_wf _ _ _ HR) d Hd) as Hmg. pose proof dir_refs as Hr1.
  destruct (page_decref_ok _ _ (fun q => refs a' q + no_ex q) _ _ d (rel_alloc _ _ _ HR) Hmg)
    as (s' & E & Ha' & pg & fl & ->).
  - unfold no_ex. lia.
  - unfold a'. rewrite drop_dir_refs, decide_True by done. lia.
  - intros q Hq. unfold a'. rewrite drop_dir_refs, decide_False by done. lia.
  - rewrite Hr1 in Ha'. change (1 + no_ex d =? 1) with true in Ha'. cbv iota in Ha'.
    eexists. split; [exact E|]. split_and!; [split|..].
    + exact drop_dir_wf.
    + exact Ha'.
    + destruct (rel_pt _ _ _ HR) as [P1 P2 P3]. split; [done| |done].
      intros d' x Ho. apply drop_dir_own in Ho as [Ho _]. by apply P2.
    + done.
    + exists pg, fl, (mem s), (tlb s). by destruct s.
    + done.
Qed.
End DropDir.

(** * The loops *)

(** How far the memory state [s'] is from [s] while the address space [d] is
    taken apart. *)
Record freeing (d : Z) (a : vm) (s : kstate) (a' : vm) (s' : kstate) : Prop := {
  fr_rel : vm_rel no_ex a' s';
  fr_leak : no_leak ∅ a' (npages s);
  fr_frame : vm_frame s s';
  fr_rest : v_dirs a' = v_dirs a /\ v_kdir a' = v_kdir a /\ v_resv a' = v_resv a;
  fr_tlb : forall n e, tlb s' !! n = Some e -> tlb s !! n = Some e;
  fr_maps : forall k, k.1 <> d -> v_maps a' !! k = v_maps a !! k;
  fr_tabs : forall k, k.1 <> d -> v_tabs a' !! k = v_tabs a !! k
}.

Lemma flush_sub pgdir va s n e : flush pgdir va s !! n = Some e -> tlb s !! n = Some e.
Proof.
  unfold flush. destruct (flushes pgdir s); [|done]. intros H. by apply lookup_delete_Some in H as [_ H].
Qed.

Section FreeLoops.
Context (a : vm) (s : kstate) (d : Z) (Hd : d ∈ v_dirs a).

Lemma freeing_own a' s' x : freeing d a s a' s' -> 0 <= x < UPDX -> own a' d x.
Proof. intros [_ _ _ (E & _) _ _ _] Hx. left. by rewrite E. Qed.

(** One entry of a page table. *)
Lemma env_free_pte_step a' s' x t j :
  freeing d a s a' s' -> 0 <= x < UPDX -> v_tabs a' !! (d, x) = Some t -> 0 <= j < 1024 ->
  exists a'' s'', env_free_pte (frame_kva d) (frame_kva t) x j s' = Ret tt s''
    /\ freeing d a s a'' s'' /\ v_tabs a'' = v_tabs a'
    /\ v_maps a'' = delete (d, x * 1024 + j) (v_maps a').
Proof.
  intros HF Hx Ht Hj. pose proof (freeing_own a' s' x HF Hx) as Hown. destruct HF as [R L F (Ed & Ek & Er) T M B].
  rewrite UPDX_val in Hx. pose proof (tab_max _ _ _ R d _ _ Ht) as Htm.
  destruct (PGADDR_indices x j 0) as (Epd & Ept & _); [lia|lia|lia|].
  pose proof (PGADDR_u32 x j 0) as Hva. pose proof (PGNUM_split _ Hva) as Epn. rewrite Epd, Ept in Epn.
  set (va := PGADDR x j 0) in *.
  unfold env_free_pte, bind at 1, gets. change (frame_kva t + 4 * j) with (entry_kva t j).
  rewrite load32_entry by done.
  pose proof (pt_pte _ _ (rel_pt _ _ _ R) d x t j Ht Hj) as Hw. fold va.
  destruct (v_maps a' !! (d, x * 1024 + j)) as [[p f]|] eqn:Hm; rewrite Hw.
  - destruct (wf_maps _ _ (rel_wf _ _ _ R) _ _ _ _ Hm) as (_ & _ & _ & _ & HfP).
    rewrite flag_mkpte, HfP by done.
    assert (PGNUM va < UVPN) as Hu by (rewrite Epn, UVPN_val; lia).
    assert (own a' d (PDX va)) as Hown' by (by rewrite Epd).
    destruct (page_remove_spec no_ex a' s' R d va Hva Hown' Hu) as (s'' & E & R'' & F'' & _ & T'').
    rewrite Epn in R''. exists (v_unmap no_ex d (x * 1024 + j) a'), s''.
    destruct (v_unmap_rest no_ex d (x * 1024 + j) a') as (Ud & Uk & Ur).
    split_and!; [exact E| |apply v_unmap_tabs|apply v_unmap_maps]. split.
    + exact R''.
    + apply no_leak_unmap; [rewrite UVPN_val; lia|done|done].
    + by eapply vm_frame_trans.
    + split_and!; congruence.
    + intros n e He. apply T. rewrite T'' in He. destruct (decide _); [by eapply flush_sub|done].
    + intros k Hk. rewrite v_unmap_maps, lookup_delete_ne; [by apply M|]. intros <-. by apply Hk.
    + intros k Hk. rewrite v_unmap_tabs. by apply B.
  - exists a', s'. split_and!; [done|by split|done|]. symmetry. by apply delete_id.
Qed.

(** All entries of a page table. *)
Lemma env_free_ptes a1 s1 x t :
  freeing d a s a1 s1 -> 0 <= x < UPDX -> v_tabs a1 !! (d, x) = Some t ->
  (forall v, v < x * 1024 -> v_maps a1 !! (d, v) = None) ->
  exists a' s', for_loop (Z.to_nat (PTX (u32 (-1)) + 1)) 0 (env_free_pte (frame_kva d) (frame_kva t) x) s1 = Ret tt s'
    /\ freeing d a s a' s' /\ v_tabs a' = v_tabs a1
    /\ (forall v, v < (x + 1) * 1024 -> v_maps a' !! (d, v) = None).
Proof.
  intros HF Hx Ht Hlow.
  destruct (for_loop_inv (fun j s' => exists a', freeing d a s a' s' /\ v_tabs a' = v_tabs a1
      /\ (forall v, v < x * 1024 + j -> v_maps a' !! (d, v) = None))
    (env_free_pte (frame_kva d) (frame_kva t) x) (Z.to_nat (PTX (u32 (-1)) + 1)) 0 s1) as (s' & E & a' & F' & B' & M').
  - exists a1. split_and!; [done|done|]. intros v Hv. apply Hlow. lia.
  - change (Z.of_nat (Z.to_nat (PTX (u32 (-1)) + 1))) with 1024. intros j s2 Hj (a2 & F2 & B2 & M2).
    destruct (env_free_pte_step a2 s2 x t j F2 Hx) as (a3 & s3 & E3 & F3 & B3 & M3); [by rewrite B2|lia|].
    exists s3. split; [exact E3|]. exists a3. split_and!; [done|congruence|].
    intros v Hv. rewrite M3. destruct (decide (v = x * 1024 + j)) as [->|Hne]; [apply lookup_delete_eq|].
    rewrite lookup_delete_ne by congruence. apply M2. lia.
  - exists a', s'. split_and!; [exact E|done|done|]. intros v Hv. apply M'.
    change (Z.of_nat (Z.to_nat (PTX (u32 (-1)) + 1))) with 1024. lia.
Qed.

(** One directory entry. *)
Lemma env_free_pde_step a1 s1 x :
  freeing d a s a1 s1 -> 0 <= x < UPDX ->
  (forall v, v < x * 1024 -> v_maps a1 !! (d, v) = None) ->
  (forall y, y < x -> v_tabs a1 !! (d, y) = None) ->
  exists a' s', env_free_pde (frame_kva d) x s1 = Ret tt s' /\ freeing d a s a' s'
    /\ (forall v, v < (x + 1) * 1024 -> v_maps a' !! (d, v) = None)
    /\ (forall y, y < x + 1 -> v_tabs a' !! (d, y) = None).
Proof.
  intros HF Hx Hlow Hltab. pose proof (freeing_own a1 s1 x HF Hx) as Hown.
  pose proof HF as [R L F (Ed & Ek & Er) T M B]. pose proof (rel_wf _ _ _ R) as Hwf.
  destruct (own_dir _ a1 s1 R d x Hown) as (_ & Hdn & Hx1024).
  assert (0 <= d < MAXPAGES) as Hdm by (destruct (wf_n _ _ Hwf); lia).
  pose proof (pt_pde _ _ (rel_pt _ _ _ R) d x Hown) as Hp.
  unfold env_free_pde. rewrite (bind_ret (gets _) _ _ (word_at s1 (d * 1024 + x)) s1).
  2:{ unfold gets. f_equal. by apply (load32_entry s1 d x). }
  destruct (v_tabs a1 !! (d, x)) as [t|] eqn:Ht.
  - rewrite Hp, flag_mkpte by done. change (flag PTE_PWU PTE_P) with true. cbn [negb].
    pose proof (tab_range _ _ _ R d x t Ht) as Htr. assert (0 <= t < 2 ^ 20) by (destruct (wf_n _ _ Hwf); unfold MAXPAGES in *; lia).
    rewrite PTE_ADDR_mkpte by done.
    rewrite (bind_ret (KADDR _) _ _ (frame_kva t) s1) by (apply KADDR_frame; [done|apply (wf_n _ _ Hwf)]).
    destruct (env_free_ptes a1 s1 x t HF Hx Ht Hlow) as (a2 & s2 & E2 & F2 & B2 & M2).
    rewrite (bind_ret _ _ _ _ _ E2).
    rewrite (bind_ret (store32 _ _) _ _ tt (store_slot d x 0 s2)) by (by apply (store32_entry s2 d x)).
    rewrite (bind_ret (pa2page _) _ _ t (store_slot d x 0 s2)).
    2:{ unfold pa2page. rewrite PGNUM_frame by done. rewrite (proj2 (Z.leb_gt _ _)); [done|].
        change (npages (store_slot d x 0 s2)) with (npages s2).
        rewrite (vm_frame_npages _ _ (fr_frame _ _ _ _ _ F2)), <- (vm_frame_npages _ _ F). lia. }
    assert (v_tabs a2 !! (d, x) = Some t) as Ht2 by (by rewrite B2).
    pose proof (freeing_own a2 s2 x F2 Hx) as Hown2. destruct F2 as [R2 L2 F2 (Ed2 & Ek2 & Er2) T2 M2' B2'].
    destruct (drop_tab_ok a2 s2 R2 d x t Ht2 Hown2) as (s3 & E3 & R3 & F3 & T3).
    { intros j Hj. apply M2. lia. }
    exists (v_drop_tab d x t a2), s3. split_and!; [exact E3| | |].
    + split; [exact R3| | | | | |].
      * intros q Hq Hqf _. rewrite (drop_tab_refs a2 d x t Ht2). simpl in Hqf.
        rewrite not_elem_of_cons in Hqf. destruct Hqf as [Hne Hqf].
        rewrite decide_False, Z.sub_0_r by done. apply L2; [exact Hq|exact Hqf|apply not_elem_of_empty].
      * by eapply vm_frame_trans.
      * done.
      * intros n e He. apply T2. by rewrite <- T3.
      * done.
      * intros k Hk. simpl. rewrite lookup_delete_ne; [by apply B2'|]. intros <-. by apply Hk.
    + exact M2.
    + intros y Hy. simpl. destruct (decide (y = x)) as [->|Hne]; [apply lookup_delete_eq|].
      rewrite lookup_delete_ne by congruence. rewrite B2. apply Hltab. lia.
  - rewrite Hp. exists a1, s1. split_and!; [done|done| |].
    + intros v Hv. destruct (Z.lt_ge_cases v (x * 1024)) as [Hlt|Hge]; [by apply Hlow|].
      destruct (v_maps a1 !! (d, v)) as [[p f]|] eqn:Hm; [|done].
      destruct (wf_maps _ _ Hwf _ _ _ _ Hm) as ([t Ht'] & _).
      replace (v / 1024) with x in Ht' by (apply (Z.div_unique _ _ _ (v - x * 1024)); lia). congruence.
    + intros y Hy. destruct (decide (y = x)) as [->|Hne]; [done|]. apply Hltab. lia.
Qed.
End FreeLoops.

(** * The environment table *)

Lemma env_inv_free a fl s e d x :
  env_inv a fl s -> live s e -> env_pgdir (env_of s e) = frame_kva d ->
  env_status x = ENV_FREE -> env_id x = env_id (env_of s e) -> env_link x = env_free_list s ->
  env_inv (v_drop_dir d a) (e :: fl) (set_env_free (Some e) (put_env e x s)).
Proof.
  intros [H1 H2 H3 H0 H4 H5 H6 H7] Hl Hpg Hs Hid Hlk.
  set (s' := set_env_free _ _).
  assert (forall i, env_of s' i = if decide (e = i) then x else env_of s i) as E by (intros; apply env_of_put).
  assert (forall i, live s' i <-> i <> e /\ live s i) as L.
  { intros i. unfold live. rewrite E. destruct (decide (e = i)) as [<-|]; naive_solver. }
  assert (e ∉ fl) as Hni by (rewrite H3; intros [_ ?]; by destruct Hl).
  split.
  - split; [done|]. rewrite E, decide_True, Hlk by done. apply (echain_ext s); [|done].
    intros i Hi. rewrite E, decide_False; [done|]. by intros ->.
  - by apply NoDup_cons.
  - intros i. rewrite elem_of_cons, E, H3. destruct Hl as [Hl1 Hl2].
    destruct (decide (e = i)) as [<-|Hn]; naive_solver.
  - intros i Hi. rewrite E. destruct (decide (e = i)) as [<-|]; [rewrite Hid|]; by apply H0.
  - intros i Hi. apply L in Hi as [Hne Hi]. rewrite E, decide_False by done. by apply H4.
  - intros i Hi. apply L in Hi as [Hne Hi]. rewrite E, decide_False by done.
    destruct (H5 i Hi) as (d' & Hd' & Hp). exists d'. split; [|done]. apply elem_of_difference. split; [done|].
    intros Eq. apply elem_of_singleton in Eq as ->. apply Hne. apply H6; [done|done|congruence].
  - intros i j Hi Hj. apply L in Hi as [? Hi], Hj as [? Hj]. rewrite !E, !decide_False by done. by apply H6.
  - intros d' Hd'. simpl in Hd'. apply elem_of_difference in Hd' as [Hd' Hne].
    destruct (H7 d' Hd') as (i & Hi & Hp). exists i.
    assert (i <> e) as Hie.
    { intros ->. apply Hne, elem_of_singleton. rewrite Hpg in Hp. by apply frame_kva_inj in Hp. }
    rewrite E, decide_False by done. split; [by apply L|done].
Qed.

(** What is left of the address spaces when [d] is gone. *)
Record v_freed (d : Z) (a a' : vm) : Prop := {
  vf_dirs : v_dirs a' = v_dirs a ∖ {[d]};
  vf_kdir : v_kdir a' = v_kdir a;
  vf_gone : forall v, v_maps a' !! (d, v) = None;
  vf_other : forall d' v, d' <> d -> v_maps a' !! (d', v) = v_maps a !! (d', v)
}.

Section EnvFreeAll.
Context (a : vm) (s : kstate) (HM : mem_inv a s) (e d : Z) (Hd : d ∈ v_dirs a).
Context (Hpg : env_pgdir (env_of s e) = frame_kva d).

Let HR : vm_rel no_ex a s := mi_vm _ _ HM.

(** The two loops of [env_free] from a state that differs from [s] in the
    loaded address space only. *)
Lemma env_free_loops c0 t0 :
  exists a' s', for_loop (Z.to_nat (PDX UTOP)) 0 (env_free_pde (frame_kva d)) (set_cr3 c0 t0 s) = Ret tt s'
    /\ freeing d a (set_cr3 c0 t0 s) a' s'
    /\ (forall v, v_maps a' !! (d, v) = None) /\ (forall x, v_tabs a' !! (d, x) = None).
Proof.
  set (s0 := set_cr3 c0 t0 s).
  destruct (for_loop_inv (fun x s' => exists a', freeing d a s0 a' s'
      /\ (forall v, v < x * 1024 -> v_maps a' !! (d, v) = None)
      /\ (forall y, y < x -> v_tabs a' !! (d, y) = None))
    (env_free_pde (frame_kva d)) (Z.to_nat (PDX UTOP)) 0 s0) as (s' & E & a' & F' & M' & B').
  - exists a. split_and!.
    + split; [by apply vm_rel_tlb|apply (mi_leak _ _ HM)|apply vm_frame_refl|done|done|done|done].
    + intros v Hv. destruct (v_maps a !! (d, v)) as [[p f]|] eqn:Hm; [|done].
      destruct (wf_maps _ _ (rel_wf _ _ _ HR) _ _ _ _ Hm) as (_ & ? & _). lia.
    + intros y Hy. destruct (v_tabs a !! (d, y)) as [t|] eqn:Ht; [|done].
      destruct (wf_tabs _ _ (rel_wf _ _ _ HR) _ _ _ Ht) as ([[_ ?]|(_ & ? & _)] & _); lia.
  - intros x s2 Hx (a2 & F2 & M2 & B2).
    destruct (env_free_pde_step a s0 d Hd a2 s2 x F2) as (a3 & s3 & E3 & F3 & M3 & B3); [|done|done|].
    { change (Z.of_nat (Z.to_nat (PDX UTOP))) with UPDX in Hx. lia. }
    exists s3. split; [exact E3|]. exists a3. by split_and!.
  - change (0 + Z.of_nat (Z.to_nat (PDX UTOP))) with 955 in *. exists a', s'.
    pose proof (rel_wf _ _ _ (fr_rel _ _ _ _ _ F')) as Hwf.
    assert (forall x, v_tabs a' !! (d, x) = None) as Hall.
    { intros x. destruct (Z.lt_ge_cases x 955) as [|Hge]; [by apply B'|].
      destruct (v_tabs a' !! (d, x)) as [t|] eqn:Ht; [|done].
      destruct (wf_tabs _ _ Hwf _ _ _ Ht) as ([[_ Hx]|(Ek & _)] & _); [rewrite UPDX_val in Hx; lia|].
      destruct (wf_kdir _ _ Hwf) as [Hk _]. destruct (fr_rest _ _ _ _ _ F') as (Ed & Ek' & Er).
      destruct (wf_dirs _ _ Hwf d) as [_ Hr]; [by rewrite Ed|]. congruence. }
    split_and!; [exact E|done| |done].
    intros v. destruct (v_maps a' !! (d, v)) as [[p f]|] eqn:Hm; [|done].
    destruct (wf_maps _ _ Hwf _ _ _ _ Hm) as ([t Ht] & _). by rewrite Hall in Ht.
Qed.

(** The tail of [env_free], after the loops. *)
Lemma env_free_tail a1 s0 s1 fl :
  freeing d a s0 a1 s1 -> (forall x, v_tabs a1 !! (d, x) = None) ->
  npages s0 = npages s -> envs s0 = envs s -> env_free_list s0 = env_free_list s -> kern_pgdir s0 = kern_pgdir s ->
  env_inv a fl s -> live s e ->
  exists s', (let! pa := PADDR (frame_kva d) in
      upd_env e (e_pgdir 0) ;;! let! pp := pa2page pa in page_decref pp ;;!
      upd_env e (e_status ENV_FREE) ;;! let! head := gets env_free_list in
      upd_env e (e_link head) ;;! modify (set_env_free (Some e))) s1 = Ret tt s'
    /\ mem_inv (v_drop_dir d a1) s' /\ env_inv (v_drop_dir d a1) (e :: fl) s'
    /\ cr3 s' = cr3 s1 /\ tlb s' = tlb s1 /\ cpus s' = cpus s0 /\ cpu s' = cpu s0
    /\ (forall i, i <> e -> env_of s' i = env_of s i).
Proof.
  intros [R L F (Ed & Ek & Er) T M B] Hnt En Ee Efl Ekp HE Hl.
  destruct (wf_dirs _ _ (rel_wf _ _ _ HR) d Hd) as [Hdn _]. destruct (wf_n _ _ (rel_wf _ _ _ HR)) as [_ Hmax].
  assert (d ∈ v_dirs a1) as Hd1 by (by rewrite Ed).
  pose proof (vm_frame_npages _ _ F) as En1. destruct F as (pg & f & m & t & ->).
  set (s1 := set_cr3 (cr3 s0) t (set_mem m (set_free f (set_pages pg s0)))) in *.
  assert (env_of s1 e = env_of s e) as Ee1 by (unfold env_of, s1; simpl; by rewrite Ee).
  set (s2 := put_env e (e_pgdir 0 (env_of s e)) s1).
  assert (vm_rel no_ex a1 s2) as R2 by (by apply (vm_rel_ext no_ex a1 s1)).
  destruct (drop_dir_ok a1 s2 R2 d Hd1 Hnt) as (s3 & E3 & R3 & F3 & T3).
  destruct F3 as (pg3 & f3 & m3 & t3 & ->).
  set (s2' := set_cr3 (cr3 s2) t3 (set_mem m3 (set_free f3 (set_pages pg3 s1)))).
  change (set_cr3 (cr3 s2) t3 (set_mem m3 (set_free f3 (set_pages pg3 s2))))
    with (put_env e (e_pgdir 0 (env_of s e)) s2') in E3, R3, T3.
  set (X := e_link (env_free_list s) (e_status ENV_FREE (e_pgdir 0 (env_of s e)))).
  exists (set_env_free (Some e) (put_env e X s2')). split_and!.
  - rewrite (bind_ret _ _ _ _ _ (PADDR_frame d s1 (proj1 Hdn))).
    rewrite (bind_ret (upd_env _ _) _ _ tt s2) by (unfold upd_env, modify; by rewrite Ee1).
    rewrite (bind_ret (pa2page _) _ _ d s2).
    2:{ unfold pa2page. rewrite PGNUM_frame by (unfold MAXPAGES in *; lia).
        rewrite (proj2 (Z.leb_gt _ _)); [done|]. change (npages s2) with (npages s0). lia. }
    rewrite (bind_ret _ _ _ _ _ E3). rewrite (bind_ret _ _ _ _ _ (upd_env_put e _ _ _)).
    unfold bind at 1, gets.
    change (env_free_list (put_env e (e_status ENV_FREE (e_pgdir 0 (env_of s e))) s2')) with (env_free_list s0).
    rewrite Efl, (bind_ret _ _ _ _ _ (upd_env_put e _ _ _)). reflexivity.
  - split.
    + by apply (vm_rel_ext _ _ (put_env e (e_pgdir 0 (env_of s e)) s2')).
    + intros q Hq Hqf _. rewrite drop_dir_refs by done. simpl in Hqf. rewrite not_elem_of_cons in Hqf.
      destruct Hqf as [Hne Hqf]. rewrite decide_False, Z.sub_0_r by done.
      apply L; [exact Hq|exact Hqf|apply not_elem_of_empty].
    + change (kern_pgdir s0 = frame_kva (v_kdir a1)). rewrite Ekp, Ek. apply (mi_kdir _ _ HM).
  - assert (envs s2' = envs s) as Es2 by (unfold s2', s1; simpl; by rewrite Ee).
    apply (env_inv_ext (v_drop_dir d a) _ (e :: fl) (set_env_free (Some e) (put_env e X s))).
    + unfold put_env. simpl. by rewrite <- Es2.
    + done.
    + simpl. by rewrite Ed.
    + by apply env_inv_free.
  - done.
  - done.
  - done.
  - done.
  - intros i Hi. change (env_of (put_env e X s2') i = env_of s i). rewrite env_of_put, decide_False by done.
    unfold env_of, s2', s1. simpl. by rewrite Ee.
Qed.

Lemma env_free_ok fl : env_inv a fl s -> live s e ->
  exists a' s', env_free e s = Ret tt s' /\ mem_inv a' s' /\ env_inv a' (e :: fl) s' /\ v_freed d a a'
    /\ cpus s' = cpus s /\ cpu s' = cpu s /\ (forall i, i <> e -> env_of s' i = env_of s i)
    /\ (curenv s = Some e -> cr3 s' = v_kdir a * PGSIZE /\ tlb s' = ∅)
    /\ (curenv s <> Some e -> cr3 s' = cr3 s /\ forall n x, tlb s' !! n = Some x -> tlb s !! n = Some x).
Proof.
  intros HE Hl. destruct (wf_kdir _ _ (rel_wf _ _ _ HR)) as [_ Hk].
  set (c0 := if bool_decide (curenv s = Some e) then v_kdir a * PGSIZE else cr3 s).
  set (t0 := if bool_decide (curenv s = Some e) then ∅ else tlb s).
  destruct (env_free_loops c0 t0) as (a1 & s1 & E1 & F1 & M1 & B1).
  destruct (env_free_tail a1 (set_cr3 c0 t0 s) s1 fl F1 B1) as (s' & E' & HM' & HE' & Ec & Et & Ecp & Ecu & Eo); try done.
  exists (v_drop_dir d a1), s'. destruct (fr_rest _ _ _ _ _ F1) as (Ed & Ek & _).
  split; [|split; [done|split; [done|split; [|split; [done|split; [done|split; [done|]]]]]]].
  - unfold env_free. rewrite (bind_ret (gets curenv) _ _ (curenv s) s) by done.
    rewrite (bind_ret _ _ _ tt (set_cr3 c0 t0 s)).
    2:{ unfold c0, t0. destruct (bool_decide (curenv s = Some e)); [|by destruct s].
        rewrite (bind_ret (gets kern_pgdir) _ _ (frame_kva (v_kdir a)) s) by (unfold gets; by rewrite (mi_kdir _ _ HM)).
        rewrite (bind_ret _ _ _ _ _ (PADDR_frame (v_kdir a) s (proj1 Hk))). done. }
    rewrite (bind_ret (gets _) _ _ (env_of s e) (set_cr3 c0 t0 s)) by done. cbv zeta. rewrite Hpg.
    rewrite (bind_ret _ _ _ _ _ E1). exact E'.
  - split; [by simpl; rewrite Ed|exact Ek|exact M1|].
    intros d' v Hne. apply (fr_maps _ _ _ _ _ F1). done.
  - rewrite Ec, Et, (vm_frame_cr3 _ _ (fr_frame _ _ _ _ _ F1)). pose proof (fr_tlb _ _ _ _ _ F1) as Hsub.
    change (cr3 (set_cr3 c0 t0 s)) with c0. change (tlb (set_cr3 c0 t0 s)) with t0 in Hsub.
    clear -Hsub. unfold c0, t0 in *. clear c0 t0. split.
    + intros Hc. rewrite bool_decide_true in Hsub |- * by done. split; [done|].
      apply map_empty. intros n. destruct (tlb s1 !! n) as [x|] eqn:Ex; [|done].
      apply Hsub in Ex. by rewrite lookup_empty in Ex.
    + intros Hc. rewrite bool_decide_false in Hsub |- * by done. done.
Qed.
End EnvFreeAll.
