(* ===== verification/SchedSpec.v ===== *)
(** kern/sched.c, [env_run] and [env_destroy]: leaving the kernel always
    re-establishes its invariant, and the scheduler picks the next runnable
    environment in circular order. *)

From stdpp Require Import base numbers list gmap strings.
From Stdlib Require Import ZArith Lia Bool.
From S2P Require Import Prelude Mmu KState Pmap PmapBoot PmapSpec Paging VmOps Env KInv EnvSpec EnvFree.

(** What holds of the kernel when it is about to switch: the current
    environment may have been freed. *)
Record switchable (a : vm) (s : kstate) : Prop := {
  sw_mem : mem_inv a s;
  sw_env : exists fl, env_inv a fl s;
  sw_cur : forall c, curenv s = Some c -> 0 <= c < NENV
}.

Lemma kinv_switchable a s : kinv a s -> switchable a s.
Proof. intros [H1 H2 [H3 _ _]]. split; [done|done|]. intros c Hc. by destruct (H3 c Hc). Qed.

Lemma curenv_set c s : curenv (set_curenv c s) = c.
Proof. unfold curenv, set_curenv. simpl. by rewrite cpu_of_put, decide_True. Qed.

(** What an environment keeps when others run: everything but its status,
    its run count and its CPU number. *)
Definition same_env (x y : Env) : Prop :=
  env_tf y = env_tf x /\ env_id y = env_id x /\ env_parent_id y = env_parent_id x
  /\ env_pgdir y = env_pgdir x /\ env_pgfault_upcall y = env_pgfault_upcall x
  /\ env_ipc_recving y = env_ipc_recving x /\ env_ipc_dstva y = env_ipc_dstva x
  /\ env_ipc_value y = env_ipc_value x /\ env_ipc_from y = env_ipc_from x /\ env_ipc_perm y = env_ipc_perm x.

Lemma same_env_refl x : same_env x x.
Proof. by unfold same_env; split_and!. Qed.

(** The CPU has left the kernel for environment [j]. *)
Record running (a : vm) (s : kstate) (j : Z) (s' : kstate) : Prop := {
  rn_inv : kinv a s';
  rn_cur : curenv s' = Some j;
  rn_status : env_status (env_of s' j) = ENV_RUNNING;
  rn_lock : kernel_locked s' = false;
  rn_same : forall i, same_env (env_of s i) (env_of s' i);
  rn_mem : mem s' = mem s /\ pages s' = pages s
}.

Section Run.
Context (a : vm) (s : kstate) (HS : switchable a s) (j : Z) (Hj : live s j).

(** The state in which [env_run] has put the old environment back. *)
Let s1 : kstate :=
  match curenv s with
  | Some c => if status_eqb (env_status (env_of s c)) ENV_RUNNING
              then put_env c (e_status ENV_RUNNABLE (env_of s c)) s else s
  | None => s
  end.

Lemma env_run_old : switchable a s1 /\ live s1 j /\ curenv s1 = curenv s
  /\ (forall i, same_env (env_of s i) (env_of s1 i)) /\ mem s1 = mem s /\ pages s1 = pages s
  /\ cpu s1 = cpu s /\ cpus s1 = cpus s.
Proof.
  unfold s1. destruct (curenv s) as [c|] eqn:Hc; [|split_and!; auto using same_env_refl].
  destruct (status_eqb (env_status (env_of s c)) ENV_RUNNING) eqn:Hst; [|split_and!; auto using same_env_refl].
  apply bool_decide_eq_true in Hst. destruct HS as [HM [fl HE] HC].
  assert (live s c) as Hlc by (split; [by apply HC|congruence]).
  split_and!; try done.
  - split; [by apply (mem_inv_ext a s)|exists fl; by apply env_inv_upd|].
    intros c' Hc'. change (curenv (put_env c (e_status ENV_RUNNABLE (env_of s c)) s)) with (curenv s) in Hc'.
    by apply HC.
  - by apply live_upd.
  - intros i. rewrite env_of_put. destruct (decide (c = i)) as [<-|]; [|apply same_env_refl].
    unfold same_env. by split_and!.
Qed.

Lemma env_run_ok A : exists s', @env_run A j s = Leave s' /\ running a s j s'.
Proof.
  destruct env_run_old as ([HM [fl HE] HC] & Hl1 & Hc1 & Hsame & Hmem & Hpg & Hcpu & Hcpus).
  destruct (ei_dir _ _ _ HE j Hl1) as (d & Hd & Epg).
  pose proof (wf_dirs _ _ (rel_wf _ _ _ (mi_vm _ _ HM)) d Hd) as [Hdr _].
  set (x2 := e_runs (u32 (env_runs (env_of s1 j) + 1)) (e_status ENV_RUNNING (env_of s1 j))).
  set (x3 := e_cpunum (cpu s) x2).
  set (s2 := set_curenv (Some j) s1).
  set (s' := set_locked false (set_cr3 (d * PGSIZE) ∅ (put_env j x3 s2))).
  exists s'. split.
  - unfold env_run. rewrite (bind_ret (gets curenv) _ _ (curenv s) s) by done.
    rewrite (bind_ret _ _ _ tt s1).
    2:{ unfold s1. destruct (curenv s) as [c|]; [|done]. unfold bind, gets.
        by destruct (status_eqb (env_status (env_of s c)) ENV_RUNNING). }
    rewrite (bind_ret (modify _) _ _ tt s2) by done.
    rewrite (bind_ret (upd_env _ _) _ _ tt (put_env j (e_status ENV_RUNNING (env_of s1 j)) s2)) by done.
    rewrite (bind_ret _ _ _ _ _ (upd_env_put j _ _ _)).
    rewrite (bind_ret (gets _) _ _ x2 (put_env j x2 s2)) by (unfold gets; by rewrite env_of_put, decide_True).
    change (env_pgdir x2) with (env_pgdir (env_of s1 j)). rewrite Epg.
    rewrite (bind_ret _ _ _ _ _ (PADDR_frame d _ (proj1 Hdr))).
    unfold bind at 1, lcr3, modify. unfold bind at 1, unlock_kernel, modify.
    unfold env_pop_tf. unfold bind at 1, gets.
    replace (curenv _) with (Some j) by (symmetry; apply curenv_set).
    unfold bind at 1. unfold bind, leave, upd_env, modify. f_equal.
    set (S := set_locked false (set_cr3 (d * PGSIZE) ∅ (put_env j x2 s2))).
    assert (env_of S j = x2) as ES by (change (env_of (put_env j x2 s2) j = x2); by rewrite env_of_put, decide_True).
    change (cpu S) with (cpu s1). rewrite ES, Hcpu. fold x3.
    change (put_env j x3 S) with (set_locked false (set_cr3 (d * PGSIZE) ∅ (put_env j x3 (put_env j x2 s2)))).
    by rewrite put_env_put.
  - assert (forall i, env_of s' i = if decide (j = i) then x3 else env_of s1 i) as E'.
    { intros i. change (env_of (put_env j x3 s1) i = if decide (j = i) then x3 else env_of s1 i). apply env_of_put. }
    assert (curenv s' = Some j) as Hcur by (apply curenv_set).
    assert (env_inv a fl (put_env j x3 s1)) as HE' by (by apply env_inv_upd).
    split.
    + split; [by apply (mem_inv_ext a s1)| |].
      * exists fl. by apply (env_inv_ext a a fl (put_env j x3 s1)).
      * split.
        -- intros c Hc. rewrite Hcur in Hc. injection Hc as <-. split; [apply Hl1|].
           by rewrite E', decide_True.
        -- exists d. split; [|by left]. split; [done|]. intros n y Hy. change (tlb s') with (∅ : gmap Z Z) in Hy. by rewrite lookup_empty in Hy.
        -- unfold cr3_current, flushes. rewrite Hcur, E', decide_True by done. apply Z.eqb_eq. exact Epg.
    + done.
    + by rewrite E', decide_True.
    + done.
    + intros i. rewrite E'. destruct (decide (j = i)) as [<-|]; [|apply Hsame]. apply (Hsame j).
    + done.
Qed.
End Run.

(** * The search *)

Lemma sched_pick_spec n start s : forall i,
  match sched_pick n start i s with
  | Some j => exists k, i <= k < i + Z.of_nat n /\ j = (start + k) mod NENV
      /\ env_status (env_of s j) = ENV_RUNNABLE
      /\ (forall m, i <= m < k -> env_status (env_of s ((start + m) mod NENV)) <> ENV_RUNNABLE)
  | None => forall k, i <= k < i + Z.of_nat n -> env_status (env_of s ((start + k) mod NENV)) <> ENV_RUNNABLE
  end.
Proof.
  induction n as [|n IH]; intros i; simpl; [intros; lia|].
  destruct (status_eqb (env_status (env_of s ((start + i) mod NENV))) ENV_RUNNABLE) eqn:Hb.
  - apply bool_decide_eq_true in Hb. exists i. split_and!; [lia|lia|done|done|intros; lia].
  - apply bool_decide_eq_false in Hb. specialize (IH (i + 1)).
    destruct (sched_pick n start (i + 1) s) as [j|].
    + destruct IH as (k & Hk & Ej & Hs & Hm). exists k. split_and!; [lia|lia|done|done|].
      intros m Hm'. destruct (Z.eq_dec m i) as [->|]; [done|]. apply Hm. lia.
    + intros k Hk. destruct (Z.eq_dec k i) as [->|]; [done|]. apply IH. lia.
Qed.

(** Every slot is reached from any start. *)
Lemma slot_reached start j : 0 <= j < NENV -> exists k, 0 <= k < NENV /\ j = (start + k) mod NENV.
Proof.
  intros Hj. exists ((j - start) mod NENV). split; [apply Z.mod_pos_bound; done|].
  rewrite Zplus_mod_idemp_r. replace (start + (j - start)) with j by lia. by rewrite Z.mod_small.
Qed.

Lemma any_env_false n f s : forall i,
  any_env n i f s = false -> forall j, i <= j < i + Z.of_nat n -> f (env_of s j) = false.
Proof.
  induction n as [|n IH]; intros i H j Hj; [lia|]. simpl in H.
  destruct (f (env_of s i)) eqn:Hf; [done|]. destruct (Z.eq_dec j i) as [->|]; [done|]. apply (IH (i + 1)); [done|lia].
Qed.

Lemma any_env_true n f s : forall i, any_env n i f s = true -> exists j, f (env_of s j) = true.
Proof.
  induction n as [|n IH]; intros i H; [done|]. simpl in H.
  destruct (f (env_of s i)) eqn:Hf; [by exists i|]. by apply (IH (i + 1)).
Qed.

(** The CPU has halted: no environment, the kernel's own address space. *)
Record halted (a : vm) (s s' : kstate) : Prop := {
  ha_inv : kinv a s';
  ha_cur : curenv s' = None;
  ha_status : cpu_status (cpu_of s' (cpu s')) = CPU_HALTED;
  ha_lock : kernel_locked s' = false;
  ha_envs : envs s' = envs s
}.

Lemma sched_halt_ok A a s : switchable a s ->
  exists s', @sched_halt A s = Leave s'
    /\ ((s' = s /\ forall i, 0 <= i < NENV -> alive (env_of s i) = false)
        \/ (halted a s s' /\ exists i, alive (env_of s i) = true)).
Proof.
  intros [HM [fl HE] HC]. unfold sched_halt.
  rewrite (bind_ret (gets _) _ _ (any_env (Z.to_nat NENV) 0 alive s) s) by done.
  destruct (any_env (Z.to_nat NENV) 0 alive s) eqn:Ha; cbn [negb].
  2:{ exists s. split; [done|]. left. split; [done|]. intros i Hi. by apply (any_env_false _ _ _ _ Ha). }
  destruct (wf_kdir _ _ (rel_wf _ _ _ (mi_vm _ _ HM))) as [_ Hk].
  rewrite (bind_ret (modify _) _ _ tt (set_curenv None s)) by done.
  rewrite (bind_ret (gets kern_pgdir) _ _ (frame_kva (v_kdir a)) (set_curenv None s)).
  2:{ unfold gets. f_equal. apply (mi_kdir _ _ HM). }
  rewrite (bind_ret _ _ _ _ _ (PADDR_frame (v_kdir a) _ (proj1 Hk))).
  eexists. split; [reflexivity|]. right. split.
  - set (s2 := set_cr3 (v_kdir a * PGSIZE) ∅ (set_curenv None s)).
    set (s' := set_locked _ _). assert (cpu_env (cpu_of s2 (cpu s2)) = None) as Hn by apply curenv_set.
    assert (curenv s' = None) as Hcur.
    { unfold curenv, s'. change (cpu_of (set_locked false ?y) ?z) with (cpu_of y z). simpl. by rewrite cpu_of_put, decide_True. }
    split; [|done| |done|done].
    + split; [by apply (mem_inv_ext a s)|exists fl; by apply (env_inv_ext a a fl s)|].
      split; [by rewrite Hcur|exists (v_kdir a); split; [|by right]|].
      * split; [done|]. intros n y Hy. change (tlb s') with (∅ : gmap Z Z) in Hy. by rewrite lookup_empty in Hy.
      * unfold cr3_current, flushes. by rewrite Hcur.
    + change (cpu_of s' (cpu s')) with (cpu_of (put_cpu (cpu s2) (mkCpu CPU_HALTED (cpu_env (cpu_of s2 (cpu s2)))) s2) (cpu s)).
      by rewrite cpu_of_put, decide_True.
  - by apply any_env_true in Ha.
Qed.

(** * [sched_yield] *)

(** Where the circular search starts. *)
Definition sched_start (s : kstate) : Z :=
  match curenv s with Some c => ENVX (env_id (env_of s c)) | None => 0 end.

Definition runnable (s : kstate) (i : Z) : Prop := env_status (env_of s i) = ENV_RUNNABLE.

(** The outcome of [sched_yield]: the first runnable environment in circular
    order runs; failing that, the current one if it still can; failing that,
    the CPU halts, or stays in the monitor when no environment is left. *)
Inductive sched_post (a : vm) (s s' : kstate) : Prop :=
| sched_next k : 0 <= k < NENV -> runnable s ((sched_start s + k) mod NENV) ->
    (forall m, 0 <= m < k -> ~ runnable s ((sched_start s + m) mod NENV)) ->
    running a s ((sched_start s + k) mod NENV) s' -> sched_post a s s'
| sched_stay c : (forall i, 0 <= i < NENV -> ~ runnable s i) -> curenv s = Some c ->
    env_status (env_of s c) = ENV_RUNNING -> running a s c s' -> sched_post a s s'
| sched_idle : (forall i, 0 <= i < NENV -> ~ runnable s i) ->
    (forall c, curenv s = Some c -> env_status (env_of s c) <> ENV_RUNNING) ->
    halted a s s' -> sched_post a s s'
| sched_stuck : (forall i, 0 <= i < NENV -> alive (env_of s i) = false) -> s' = s -> sched_post a s s'.

Lemma sched_yield_ok A a s : switchable a s -> exists s', @sched_yield A s = Leave s' /\ sched_post a s s'.
Proof.
  intros HS. unfold sched_yield.
  rewrite (bind_ret (gets curenv) _ _ (curenv s) s) by done.
  rewrite (bind_ret (gets _) _ _ (sched_start s) s) by done.
  rewrite (bind_ret (gets _) _ _ (sched_pick (Z.to_nat NENV) (sched_start s) 0 s) s) by done.
  pose proof (sched_pick_spec (Z.to_nat NENV) (sched_start s) s 0) as Hp.
  change (0 + Z.of_nat (Z.to_nat NENV)) with NENV in Hp.
  destruct (sched_pick (Z.to_nat NENV) (sched_start s) 0 s) as [j|] eqn:Epick.
  - destruct Hp as (k & Hk & -> & Hr & Hm).
    assert (live s ((sched_start s + k) mod NENV)) as Hl.
    { split; [apply Z.mod_pos_bound; done|congruence]. }
    destruct (env_run_ok a s HS _ Hl A) as (s' & E & R). exists s'. split; [exact E|].
    by apply (sched_next a s s' k).
  - assert (forall i, 0 <= i < NENV -> ~ runnable s i) as Hno.
    { intros i Hi. destruct (slot_reached (sched_start s) i Hi) as (k & Hk & ->). by apply Hp. }
    destruct (curenv s) as [c|] eqn:Hc.
    + rewrite (bind_ret (gets _) _ _ (env_of s c) s) by done.
      destruct (status_eqb (env_status (env_of s c)) ENV_RUNNING) eqn:Hst.
      * apply bool_decide_eq_true in Hst.
        assert (live s c) as Hl by (split; [by apply (sw_cur _ _ HS)|congruence]).
        destruct (env_run_ok a s HS c Hl A) as (s' & E & R). exists s'. split; [exact E|].
        by apply (sched_stay a s s' c).
      * apply bool_decide_eq_false in Hst. destruct (sched_halt_ok A a s HS) as (s' & E & [[-> Hd]|[H _]]).
        -- exists s. split; [exact E|]. by apply sched_stuck.
        -- exists s'. split; [exact E|]. apply sched_idle; [done| |done]. intros c' Hc'. congruence.
    + destruct (sched_halt_ok A a s HS) as (s' & E & [[-> Hd]|[H _]]).
      * exists s. split; [exact E|]. by apply sched_stuck.
      * exists s'. split; [exact E|]. apply sched_idle; [done| |done]. intros c' Hc'. congruence.
Qed.

(** Unless no environment is left, the invariant holds again. *)
Lemma sched_post_kinv a s s' : sched_post a s s' ->
  kinv a s' \/ (s' = s /\ forall i, 0 <= i < NENV -> alive (env_of s i) = false).
Proof. intros [k ? ? ? []|c ? ? ? []|? ? []|? ->]; [left|left|left|right]; done. Qed.

(** * [env_destroy] *)

Section Destroy.
Context (a : vm) (s : kstate) (HK : kinv a s) (c : Z) (Hc : curenv s = Some c).
Context (e d : Z) (Hl : live s e) (Hd : d ∈ v_dirs a) (Hpg : env_pgdir (env_of s e) = frame_kva d).

(** Another environment is freed while the current one keeps running. *)
Lemma free_other_kinv a' s' :
  e <> c -> mem_inv a' s' -> (exists fl, env_inv a' fl s') -> v_freed d a a' ->
  cpus s' = cpus s -> cpu s' = cpu s -> (forall i, i <> e -> env_of s' i = env_of s i) ->
  cr3 s' = cr3 s -> (forall n x, tlb s' !! n = Some x -> tlb s !! n = Some x) -> kinv a' s'.
Proof.
  intros Hne HM HE [F1 F2 F3 F4] Ecs Ec Eo Ecr Esub. destruct HK as [_ [fl0 HE0] [C1 (dc & [Hcr Ht] & Hdc) C3]].
  assert (curenv s' = Some c) as Hc' by (unfold curenv, cpu_of in *; by rewrite Ecs, Ec).
  assert (live s c) as Hlc by (by apply C1).
  assert (dc <> d) as Hdd.
  { intros ->. unfold cr3_current, flushes in C3. rewrite Hc, Hcr in C3. apply Z.eqb_eq in C3.
    apply Hne. apply (ei_inj _ _ _ HE0); [done|done|]. rewrite Hpg, C3. reflexivity. }
  split; [done|done|]. split.
  - intros c' Hc2. rewrite Hc' in Hc2. injection Hc2 as <-. unfold live. by rewrite Eo by done.
  - exists dc. split; [split; [by rewrite Ecr|]|].
    + intros n x Hx Hn. rewrite F4 by done. by apply Ht; [apply Esub|].
    + destruct Hdc as [Hdc| ->]; [left|by right]. rewrite F1. apply elem_of_difference.
      split; [done|]. by rewrite elem_of_singleton.
  - unfold cr3_current, flushes in *. rewrite Hc in C3. by rewrite Hc', Ecr, Eo by done.
Qed.

Lemma env_destroy_ok :
  (e <> c /\ env_status (env_of s e) = ENV_RUNNING /\ exists s', env_destroy e s = Ret tt s' /\ kinv a s'
     /\ s' = put_env e (e_status ENV_DYING (env_of s e)) s)
  \/ (e <> c /\ env_status (env_of s e) <> ENV_RUNNING /\ exists a' s', env_destroy e s = Ret tt s' /\ kinv a' s'
        /\ v_freed d a a' /\ env_status (env_of s' e) = ENV_FREE /\ curenv s' = Some c)
  \/ (e = c /\ exists a' s1 s', env_destroy e s = Leave s' /\ v_freed d a a'
        /\ env_status (env_of s1 e) = ENV_FREE /\ sched_post a' s1 s').
Proof.
  pose proof HK as [HM [fl HE] [C1 C2 C3]]. unfold env_destroy.
  rewrite (bind_ret (gets _) _ _ (env_of s e) s) by done.
  rewrite (bind_ret (gets curenv) _ _ (Some c) s) by (unfold gets; by rewrite Hc).
  destruct (decide (e = c)) as [->|Hne].
  - right; right. split; [done|]. rewrite bool_decide_true, andb_false_r by done.
    destruct (env_free_ok a s HM c d Hd Hpg fl HE Hl) as (a' & s1 & E & HM1 & HE1 & F1 & Ecs & Ec & Eo & Hcur & _).
    rewrite (bind_ret _ _ _ _ _ E).
    assert (curenv s1 = Some c) as Hc1 by (unfold curenv, cpu_of in *; by rewrite Ecs, Ec).
    rewrite (bind_ret (gets curenv) _ _ (Some c) s1) by (unfold gets; by rewrite Hc1).
    rewrite bool_decide_true by done.
    rewrite (bind_ret (modify _) _ _ tt (set_curenv None s1)) by done.
    destruct (sched_yield_ok unit a' (set_curenv None s1)) as (s' & E' & P').
    { split; [by apply (mem_inv_ext a' s1)|exists (c :: fl); by apply (env_inv_ext a' a' (c :: fl) s1)|].
      intros c'. by rewrite curenv_set. }
    exists a', (set_curenv None s1), s'. split_and!; [exact E'|exact F1| |exact P'].
    change (env_of (set_curenv None s1) c) with (env_of s1 c).
    apply (ei_free _ _ _ HE1 c). apply elem_of_cons; by left.
  - rewrite (bool_decide_false (Some c = Some e)) by congruence. cbn [negb]. rewrite andb_true_r.
    destruct (status_eqb (env_status (env_of s e)) ENV_RUNNING) eqn:Hst.
    + apply bool_decide_eq_true in Hst. left. split_and!; [done|done|].
      eexists. split; [reflexivity|]. split; [|reflexivity]. by apply kinv_upd.
    + apply bool_decide_eq_false in Hst. right; left. split_and!; [done|done|].
      destruct (env_free_ok a s HM e d Hd Hpg fl HE Hl) as (a' & s1 & E & HM1 & HE1 & F1 & Ecs & Ec & Eo & _ & Hoth).
      destruct Hoth as [Ecr Esub]; [congruence|].
      assert (curenv s1 = Some c) as Hc1 by (unfold curenv, cpu_of in *; by rewrite Ecs, Ec).
      exists a', s1. rewrite (bind_ret _ _ _ _ _ E).
      rewrite (bind_ret (gets curenv) _ _ (Some c) s1) by (unfold gets; by rewrite Hc1).
      rewrite (bool_decide_false (Some c = Some e)) by congruence.
      split_and!; [done| |done| |done].
      * apply free_other_kinv; try done. by exists (e :: fl).
      * apply (ei_free _ _ _ HE1 e). apply elem_of_cons; by left.
Qed.
End Destroy.
