(* ===== verification/TrapSpec.v ===== *)
(** kern/trap.c: what a page fault in user mode leads to. *)

From stdpp Require Import base numbers list gmap strings.
From Stdlib Require Import ZArith Lia Bool.
From S2P Require Import Prelude Mmu KState Pmap PmapBoot PmapSpec Paging VmOps UserMem Env Syscall Trap KInv UserAccess EnvSpec EnvFree SchedSpec DemoKernel.

Local Ltac Zify.zify_post_hook ::= Z.to_euclidean_division_equations.

(** * The fault record *)

(** Where the record goes. *)
Lemma utf_addr_range esp : is_u32 esp ->
  UXSTACKTOP - PGSIZE - 56 <= utf_addr esp /\ utf_addr esp + sizeof_UTrapframe <= UTOP.
Proof.
  intros He. unfold utf_addr. change sizeof_UTrapframe with 52. change UXSTACKTOP with 4005560320. change UTOP with 4005560320.
  unfold PGSIZE in *. unfold is_u32 in He.
  destruct (Z.leb_spec (4005560320 - 4096) esp), (Z.leb_spec esp (4005560320 - 1)); cbn [andb]; try lia.
  rewrite u32_small by (unfold is_u32; lia). lia.
Qed.

(** What the user handler finds at [utf]: the words of [struct UTrapframe]. *)
Definition utf_words (fault_va : Z) (t : Trapframe) : list Z :=
  let r := tf_regs t in
  [fault_va; tf_trapno t; reg_edi r; reg_esi r; reg_ebp r; reg_oesp r; reg_ebx r; reg_edx r; reg_ecx r; reg_eax r;
   tf_eip t; tf_eflags t; tf_esp t].

Definition utf_holds (U : Z -> Z) (utf fault_va : Z) (t : Trapframe) : Prop :=
  forall i v, utf_words fault_va t !! i = Some v -> uword U (utf + 4 * Z.of_nat i) = u32 v.

(** The next store of a sequence of them. *)
Local Ltac next_store Hk HS := lazymatch goal with
  | |- exists s' U, bind (kstore32 ?va ?v) _ ?s1 = _ /\ _ =>
      let s2 := fresh "s" in let E := fresh "E" in
      destruct (Hk s1 _ va v HS ltac:(lia) ltac:(lia)) as (s2 & E & HS'); clear HS; rename HS' into HS;
      rewrite (bind_ret _ _ _ _ _ E); clear E
  end.

Lemma store_utf_ok a d s utf fault_va t :
  vm_rel no_ex a s -> tlb_ok d a s -> d ∈ v_dirs a \/ d = v_kdir a -> mapped_range a d utf sizeof_UTrapframe PTE_W ->
  exists s' U, store_utf utf fault_va t s = Ret tt s' /\ stored a d utf sizeof_UTrapframe s s' U /\ utf_holds U utf fault_va t.
Proof.
  intros HR HT Hd Hr. pose proof (stored_start a d utf sizeof_UTrapframe s HR HT) as HS.
  assert (0 <= sizeof_UTrapframe <= PGSIZE) as Hlen by (by vm_compute).
  assert (forall s1 U va v, stored a d utf sizeof_UTrapframe s s1 U -> utf <= va -> va + 4 <= utf + sizeof_UTrapframe ->
    exists s', kstore32 va v s1 = Ret tt s' /\ stored a d utf sizeof_UTrapframe s s' (put32 va v U)) as Hk
    by (intros; by apply kstore32_ok).
  change sizeof_UTrapframe with 52 in *. unfold store_utf. cbv zeta.
  do 12 next_store Hk HS.
  destruct (Hk _ _ (utf + 36) (reg_eax (tf_regs t)) HS ltac:(lia) ltac:(lia)) as (s' & E & HS'). eexists s', _.
  split; [exact E|]. split; [exact HS'|]. intros i v Hi. unfold utf_words in Hi. 
  do 13 (destruct i as [|i]; [injection Hi as <-; cbn [Z.of_nat]; rewrite ?Z.mul_0_r, ?Z.add_0_r;
    repeat first [rewrite uword_put; reflexivity | rewrite uword_other by lia]|cbn [lookup list_lookup] in Hi]).
  done.
Qed.

(** * The handler *)

(** The current environment runs in its own address space. *)
Lemma cur_dir a s c : kinv a s -> curenv s = Some c ->
  exists d, live s c /\ d ∈ v_dirs a /\ env_pgdir (env_of s c) = frame_kva d /\ tlb_ok d a s.
Proof.
  intros [_ [fl HE] [C1 (dc & HT & Hdc) C3]] Hc. pose proof (C1 c Hc) as Hl.
  destruct (ei_dir _ _ _ HE c Hl) as (d & Hd & Hp). exists d. split_and!; try done.
  unfold cr3_current, flushes in C3. rewrite Hc, (proj1 HT) in C3. apply Z.eqb_eq in C3. rewrite Hp in C3.
  assert (dc = d) as <-; [|done]. apply frame_kva_inj. symmetry. exact C3.
Qed.

Lemma kinv_check_addr a s b : kinv a s -> kinv a (set_check_addr b s).
Proof.
  intros [H1 [fl H2] [C1 C2 C3]]. split; [by apply (mem_inv_ext a s)|exists fl; by apply (env_inv_ext a a fl s)|].
  split; [exact C1|exact C2|exact C3].
Qed.

(** The record can be written. *)
Definition utf_fits (a : vm) (d esp : Z) : Prop :=
  forall x, utf_addr esp <= x < utf_addr esp + sizeof_UTrapframe -> user_page_ok a d (Z.lor PTE_U PTE_W) (PGNUM x) = true.

(** What a page fault of the current environment leads to: it is destroyed if
    it has no handler or the record does not fit on its exception stack;
    otherwise it goes on in its handler, with the stack pointer at the record
    and all its other registers as they were, and only the record is stored. *)
Inductive fault_spec (a : vm) (s : kstate) (c d fault_va : Z) : outcome kstate unit -> Prop :=
| fault_destroys a' s1 s' : env_pgfault_upcall (env_of s c) = 0 \/ ~ utf_fits a d (tf_esp (env_tf (env_of s c))) ->
    v_freed d a a' -> env_status (env_of s1 c) = ENV_FREE -> sched_post a' s1 s' -> fault_spec a s c d fault_va (Leave s')
| fault_handled x t utf s1 U s' : x = env_of s c -> t = env_tf x -> utf = utf_addr (tf_esp t) ->
    env_pgfault_upcall x <> 0 -> utf_fits a d (tf_esp t) ->
    stored a d utf sizeof_UTrapframe s s1 U -> utf_holds U utf fault_va t ->
    running a (put_env c (e_tf (set_tf_esp utf (set_tf_eip (env_pgfault_upcall x) t)) x) s1) c s' ->
    fault_spec a s c d fault_va (Leave s').

Lemma lor_uw : 0 < Z.lor (Z.lor PTE_U PTE_W) PTE_U < PGSIZE /\ Z.lor (Z.lor PTE_U PTE_W) PTE_U = Z.lor PTE_U PTE_W.
Proof. by vm_compute. Qed.

Lemma fits_mapped a d esp : is_u32 esp -> utf_fits a d esp -> mapped_range a d (utf_addr esp) sizeof_UTrapframe PTE_W.
Proof.
  intros He Hf x Hx. destruct (utf_addr_range esp He) as [H1 H2]. split.
  - change UXSTACKTOP with 4005560320 in H1. unfold PGSIZE in H1. lia.
  - specialize (Hf x Hx). unfold user_page_ok in Hf. destruct (v_maps a !! (d, PGNUM x)) as [[p f]|]; [|done].
    exists p, f. split; [done|]. apply Z.eqb_eq in Hf. unfold flag. apply negb_true_iff, Z.eqb_neq. intros E.
    assert (Z.land (Z.land f (Z.lor PTE_U PTE_W)) PTE_W = PTE_W) as H by (by rewrite Hf).
    rewrite <- Z.land_assoc in H. change (Z.land (Z.lor PTE_U PTE_W) PTE_W) with PTE_W in H. rewrite E in H. done.
Qed.

(** The current environment is destroyed. *)
Lemma destroy_current a s c d : kinv a s -> curenv s = Some c -> live s c -> d ∈ v_dirs a ->
  env_pgdir (env_of s c) = frame_kva d ->
  exists a' s1 s', env_destroy c s = Leave s' /\ v_freed d a a' /\ env_status (env_of s1 c) = ENV_FREE /\ sched_post a' s1 s'.
Proof.
  intros HK Hc Hl Hd Hpg.
  destruct (env_destroy_ok a s HK c Hc c d Hl Hd Hpg) as [(? & _)|[(? & _)|(_ & a' & s1 & s' & H)]]; [done|done|].
  by exists a', s1, s'.
Qed.

Lemma page_fault_handler_refines a s c d fault_va :
  kinv a s -> curenv s = Some c -> live s c -> d ∈ v_dirs a -> env_pgdir (env_of s c) = frame_kva d -> tlb_ok d a s ->
  is_u32 (tf_esp (env_tf (env_of s c))) ->
  fault_spec a s c d fault_va (page_fault_handler fault_va (TfEnv c) s).
Proof.
  intros HK Hc Hl Hd Hpg HT Hesp. unfold page_fault_handler. set (x := env_of s c) in *. set (t := env_tf x) in *.
  rewrite (bind_ret (gets _) _ _ t s) by done. change (0x01 =? 0) with false. rewrite andb_false_r, (bind_ret (ret tt) _ _ tt s) by done.
  rewrite (bind_ret the_curenv _ _ c s) by (unfold the_curenv, bind, gets; by rewrite Hc).
  rewrite (bind_ret (gets _) _ _ x s) by done.
  destruct (Z.eqb_spec (env_pgfault_upcall x) 0) as [Hz|Hz]; cbn [negb].
  { rewrite (bind_ret (ret tt) _ _ tt s) by done.
    destruct (destroy_current a s c d HK Hc Hl Hd Hpg) as (a' & s1 & s' & -> & F & St & P).
    apply (fault_destroys _ _ _ _ _ a' s1); auto. }
  cbv zeta. destruct (utf_addr_range (tf_esp t) Hesp) as [U1 U2]. set (utf := utf_addr (tf_esp t)) in *.
  destruct lor_uw as [Hp1 Hp2].
  assert (0 <= utf) as Hutf by (change UXSTACKTOP with 4005560320 in U1; unfold PGSIZE in U1; lia).
  destruct (user_mem_check_exact no_ex a s c d utf sizeof_UTrapframe (Z.lor (Z.lor PTE_U PTE_W) PTE_U)
    (mi_vm _ _ (ki_mem _ _ HK)) Hpg Hd Hutf ltac:(by vm_compute) U2 Hp1) as [[E Hok]|(b & E & Hb & Hbad & _)]; rewrite Hp2 in *.
  - assert (user_mem_assert c utf sizeof_UTrapframe (Z.lor PTE_U PTE_W) s = Ret tt s) as Ea
      by (unfold user_mem_assert; rewrite Hp2, (bind_ret _ _ _ _ _ E); done).
    assert (utf_fits a d (tf_esp t)) as Hfit by exact Hok.
    destruct (store_utf_ok a d s utf fault_va t (mi_vm _ _ (ki_mem _ _ HK)) HT ltac:(by left)) as (s1 & U & Es & HS & HU);
      [by apply fits_mapped|].
    pose proof (stored_kinv a d utf sizeof_UTrapframe s s1 U HK ltac:(by left) HS) as HK1.
    destruct (st_frame _ _ _ _ _ _ _ HS) as (m & tl & Es1).
    assert (env_of s1 c = x) as Ex by (by rewrite Es1). assert (live s1 c) as Hl1 by (by rewrite Es1).
    set (y := e_tf (set_tf_esp utf (set_tf_eip (env_pgfault_upcall x) t)) x).
    assert (kinv a (put_env c y s1)) as HKy.
    { apply kinv_upd; try done; [apply Hl|by rewrite Ex|by rewrite Ex]. }
    destruct (env_run_ok a (put_env c y s1) (kinv_switchable _ _ HKy) c) with (A := unit) as (s' & Er & Hrun).
    { apply live_upd; [done|apply Hl|done]. }
    assert ((user_mem_assert c utf sizeof_UTrapframe (Z.lor PTE_U PTE_W) ;;! store_utf utf fault_va t ;;!
      write_tf (TfEnv c) (set_tf_eip (env_pgfault_upcall x)) ;;! write_tf (TfEnv c) (set_tf_esp utf) ;;! @env_run unit c) s = Leave s') as EE.
    { rewrite (bind_ret _ _ _ _ _ Ea), (bind_ret _ _ _ _ _ Es). unfold write_tf.
      rewrite (bind_ret (upd_env _ _) _ _ tt (put_env c (e_tf (set_tf_eip (env_pgfault_upcall x) t) x) s1))
        by (unfold upd_env, modify; by rewrite Ex).
      by rewrite (bind_ret _ _ _ _ _ (upd_env_put c _ _ _)). }
    rewrite (bind_leave _ _ _ _ EE). by apply (fault_handled _ _ _ _ _ x t utf s1 U).
  - destruct (destroy_current a (set_check_addr b s) c d (kinv_check_addr _ _ b HK) Hc Hl Hd Hpg) as (a' & s1 & s' & Ed & F & St & P).
    assert (user_mem_assert c utf sizeof_UTrapframe (Z.lor PTE_U PTE_W) s = Leave s') as Ea.
    { unfold user_mem_assert. rewrite Hp2, (bind_ret _ _ _ _ _ E). exact Ed. }
    rewrite (bind_leave _ _ _ s') by (by rewrite (bind_leave _ _ _ _ Ea)).
    apply (fault_destroys _ _ _ _ _ a' s1); [right|done..]. intros Hfit. specialize (Hfit b Hb). cbv beta in Hbad. congruence.
Qed.
