(* ===== verification/SyscallMem.v ===== *)
(** The memory system calls of kern/syscall.c keep the kernel's invariant and
    do to the address spaces what they promise. *)

From stdpp Require Import base numbers list gmap strings.
From Stdlib Require Import ZArith Lia Bool.
From S2P Require Import Prelude Mmu KState Pmap PmapBoot PmapSpec Paging VmOps Env Syscall KInv.

(** The caller [c] may use [envid] to name [e], whose directory is [d]. *)
Definition target (a : vm) (s : kstate) (c envid e d : Z) : Prop :=
  names s c envid e /\ may_control s c e /\ live s e /\ d ∈ v_dirs a
  /\ env_pgdir (env_of s e) = frame_kva d.

Definition no_target (s : kstate) (c envid : Z) : Prop :=
  forall e, names s c envid e -> ~ may_control s c e.

Section Mem.
Context (a : vm) (s : kstate) (HK : kinv a s).

Lemma envid2env_target c (Hc : curenv s = Some c) envid :
  (exists e d, envid2env envid true s = Ret (0, Some e) s /\ target a s c envid e d)
  \/ (envid2env envid true s = Ret (- E_BAD_ENV, None) s /\ no_target s c envid).
Proof.
  destruct HK as [_ [fl He] [Hl _ _]].
  destruct (envid2env_spec a fl s c envid true He Hc (Hl c Hc)) as [(e & E & Hle & Hn & Hp)|[E Hno]].
  - left. destruct (ei_dir _ _ _ He e Hle) as (d & Hd & Hpg). exists e, d.
    split; [done|]. split_and!; try done; try apply Hle. by apply Hp.
  - right. split; [done|]. intros e He'. by apply Hno.
Qed.

Let HR : vm_rel no_ex a s := mi_vm _ _ (ki_mem _ _ HK).

(** Unmapping keeps the invariant. *)
Lemma page_remove_kinv d va :
  d ∈ v_dirs a -> is_u32 va -> va < UTOP ->
  exists s', page_remove (frame_kva d) va s = Ret tt s'
    /\ kinv (v_unmap no_ex d (PGNUM va) a) s' /\ vm_frame s s'
    /\ (forall q, data_frame a q -> same_frame q s s').
Proof.
  intros Hd Hva Hu. assert (own a d (PDX va)) as Hown by (apply user_own; auto).
  pose proof (proj1 (user_vpn va Hva) Hu) as Hv.
  destruct (page_remove_spec no_ex a s HR d va Hva Hown Hv) as (s' & E & R & F & D & T).
  exists s'. split_and!; [done| |done|done].
  destruct (ci_tlb _ _ (ki_cpu _ _ HK)) as (dc & HT & Hdc).
  destruct (v_unmap_rest no_ex d (PGNUM va) a) as (Ud & Uk & _).
  apply (kinv_vm a _ s s' dc); try done.
  - apply no_leak_unmap; [done|apply (ki_mem _ _ HK)|done].
  - eapply tlb_ok_update; [exact HT|apply (ki_cpu _ _ HK)|by apply vm_frame_cr3|exact T|].
    intros k Hk. rewrite v_unmap_maps. by apply lookup_delete_ne.
Qed.

(** Mapping a frame, possibly one just taken from the free list: [a1] and
    [s1] may differ from [a] and [s] by that. *)
Lemma page_insert_kinv a1 s1 d va p perm :
  vm_rel no_ex a1 s1 -> vm_frame s s1 -> tlb s1 = tlb s -> v_maps a1 = v_maps a ->
  v_dirs a1 = v_dirs a -> v_kdir a1 = v_kdir a -> no_leak {[p]} a1 (npages s) ->
  insertable no_ex a1 (npages s1) p ->
  d ∈ v_dirs a -> is_u32 va -> va < UTOP -> 0 <= perm < PGSIZE ->
  (v_full d (PDX va) a1 /\ page_insert (frame_kva d) p va perm s1 = Ret (- E_NO_MEM) s1)
  \/ (~ v_full d (PDX va) a1 /\ exists s', page_insert (frame_kva d) p va perm s1 = Ret 0 s'
      /\ kinv (v_insert no_ex d (PGNUM va) p (Z.lor perm PTE_P) a1) s' /\ vm_frame s1 s'
      /\ (forall q, data_frame a1 q -> same_frame q s1 s')).
Proof.
  intros R1 F1 T1 Em Ed Ek Hl Hins Hd Hva Hu Hperm. pose proof (proj1 (user_vpn va Hva) Hu) as Hv.
  assert (own a1 d (PDX va)) as Hown by (apply user_own; [done|done|left; by rewrite Ed]).
  destruct (decide (v_full d (PDX va) a1)) as [Hf|Hnf].
  { left. split; [done|]. by apply (page_insert_full no_ex a1 s1 R1). }
  right. split; [done|]. destruct (page_insert_ok no_ex a1 s1 R1 d va p perm Hva Hown Hv Hins Hperm Hnf) as (s' & E & R & F & D & T).
  exists s'. split_and!; [done| |done|done].
  destruct (ci_tlb _ _ (ki_cpu _ _ HK)) as (dc & HT & Hdc). pose proof (ci_cr3 _ _ (ki_cpu _ _ HK)) as Hcr.
  assert (tlb_ok dc a1 s1) as HT1.
  { destruct HT as [H1 H2]. split; [by rewrite (vm_frame_cr3 _ _ F1)|]. by rewrite T1, Em. }
  assert (cr3_current s1) as Hcr1.
  { unfold cr3_current. by rewrite (vm_frame_flushes _ _ _ F1), (vm_frame_cr3 _ _ F1). }
  set (a' := v_insert no_ex d (PGNUM va) p (Z.lor perm PTE_P) a1) in *.
  assert (v_dirs a' = v_dirs a1 /\ v_kdir a' = v_kdir a1) as [Ed' Ek'].
  { unfold a', v_insert, v_map. simpl.
    destruct (v_unmap_rest (plus_one no_ex p) d (PGNUM va) (v_walk d (PGNUM va / 1024) a1)) as (-> & -> & _).
    destruct (v_walk_rest d (PGNUM va / 1024) a1) as (-> & -> & _). done. }
  apply (kinv_vm a _ s s' dc); try done; try congruence.
  - by eapply vm_frame_trans.
  - assert (∅ = ({[p]} : gset Z) ∖ {[p]}) as -> by set_solver.
    apply no_leak_insert; [|done]. split; [|done].
    rewrite PGNUM_div by done. apply Z.div_pos; [apply Hva|done].
  - eapply tlb_ok_update; [exact HT1|exact Hcr1|by apply vm_frame_cr3|exact T|].
    intros k Hk. unfold a'. rewrite v_insert_maps. by apply lookup_insert_ne.
Qed.

(** A frame that is mapped below UTOP may be mapped again. *)
Lemma mapped_insertable p d0 v0 f0 :
  refs_room a -> v_maps a !! (d0, v0) = Some (p, f0) -> v0 < UVPN -> insertable no_ex a (npages s) p.
Proof.
  intros Hroom Hm Hv0. pose proof (rel_wf _ _ _ HR) as Hwf.
  destruct (wf_user _ _ Hwf _ _ _ _ Hm Hv0) as (Hmg & Hpd & Hpt).
  destruct (user_frame_private _ _ _ _ _ _ _ HR Hm Hv0) as (_ & _ & Hpf).
  split; try done. pose proof (Hroom _ _ _ _ Hm Hv0). unfold no_ex. lia.
Qed.

Lemma remap_kinv d va p perm d0 v0 f0 :
  refs_room a -> v_maps a !! (d0, v0) = Some (p, f0) -> v0 < UVPN ->
  d ∈ v_dirs a -> is_u32 va -> va < UTOP -> 0 <= perm < PGSIZE ->
  (v_full d (PDX va) a /\ page_insert (frame_kva d) p va perm s = Ret (- E_NO_MEM) s)
  \/ (~ v_full d (PDX va) a /\ exists s', page_insert (frame_kva d) p va perm s = Ret 0 s'
      /\ kinv (v_insert no_ex d (PGNUM va) p (Z.lor perm PTE_P) a) s' /\ vm_frame s s'
      /\ (forall q, data_frame a q -> same_frame q s s')).
Proof.
  intros Hroom Hm Hv0 Hd Hva Hu Hperm. apply page_insert_kinv; try done.
  - apply vm_frame_refl.
  - intros q Hq Hqf _. apply (mi_leak _ _ (ki_mem _ _ HK)); [done|done|set_solver].
  - by apply (mapped_insertable p d0 v0 f0).
Qed.
End Mem.

(** [perm & ~PTE_SYSCALL == 0] bounds [perm]. *)
Lemma good_perm perm : bad_perm_bits perm = false -> 0 <= perm < PGSIZE.
Proof.
  unfold bad_perm_bits. intros H. apply negb_false_iff, Z.eqb_eq in H.
  assert (perm = Z.land perm PTE_SYSCALL) as E.
  { rewrite <- (Z.lor_ldiff_and perm PTE_SYSCALL) at 1. by rewrite H, Z.lor_0_l. }
  change PTE_SYSCALL with (Z.land 0xE07 (Z.ones 12)) in E. rewrite Z.land_assoc, Z.land_ones in E by lia.
  rewrite E. change PGSIZE with (2 ^ 12). apply Z.mod_pos_bound. lia.
Qed.

Lemma lor_present perm : flag perm PTE_P = true -> Z.lor perm PTE_P = perm.
Proof.
  unfold flag, PTE_P. intros H. apply negb_true_iff, Z.eqb_neq in H.
  apply Z.bits_inj'. intros i Hi. rewrite Z.lor_spec. destruct (Z.eq_dec i 0) as [->|Hne].
  - change (Z.testbit 1 0) with true. rewrite orb_true_r. symmetry.
    destruct (Z.testbit perm 0) eqn:E; [done|]. exfalso. apply H.
    change 1 with (Z.ones 1). rewrite Z.land_ones by lia. change (2 ^ 1) with 2.
    by rewrite <- Z.bit0_mod, E.
  - assert (Z.testbit 1 i = false) as -> by (apply (Z.pow2_bits_false 0 i); lia). by rewrite orb_false_r.
Qed.

Lemma vm_frame_curenv s s' : vm_frame s s' -> curenv s' = curenv s.
Proof. by intros (? & ? & ? & ? & ->). Qed.

(** What [sys_page_unmap] may do. *)
Inductive unmap_spec (a : vm) (s : kstate) (c envid va : Z) : outcome kstate Z -> Prop :=
| unmap_bad_env : no_target s c envid -> unmap_spec a s c envid va (Ret (- E_BAD_ENV) s)
| unmap_inval e d : target a s c envid e d -> UTOP <= va \/ PGOFF va <> 0 ->
    unmap_spec a s c envid va (Ret (- E_INVAL) s)
| unmap_ok e d a' s' : target a s c envid e d -> va < UTOP -> PGOFF va = 0 ->
    kinv a' s' -> vm_frame s s' -> (forall q, data_frame a q -> same_frame q s s') ->
    v_maps a' = delete (d, PGNUM va) (v_maps a) -> v_tabs a' = v_tabs a ->
    (length (v_free a) <= length (v_free a'))%nat ->
    unmap_spec a s c envid va (Ret 0 s').

Lemma sys_page_unmap_refines a s c envid va :
  kinv a s -> curenv s = Some c -> is_u32 va -> unmap_spec a s c envid va (sys_page_unmap envid va s).
Proof.
  intros HK Hc Hva. unfold sys_page_unmap.
  destruct (envid2env_target a s HK c Hc envid) as [(e & d & E & Ht)|[E Hno]];
    rewrite (bind_ret _ _ _ _ _ E); [|by apply unmap_bad_env].
  change (0 <? 0) with false. cbv iota.
  destruct (Z.leb_spec UTOP va) as [Hu|Hu]; [by apply (unmap_inval _ _ _ _ _ e d); [|left]|].
  destruct (Z.eqb_spec (PGOFF va) 0) as [Ho|Ho]; [|by apply (unmap_inval _ _ _ _ _ e d); [|right]].
  pose proof Ht as (_ & _ & _ & Hd & Hpg).
  destruct (page_remove_kinv a s HK d va Hd Hva Hu) as (s' & E' & K' & F' & D').
  cbn [negb orb]. rewrite (bind_ret (gets _) _ _ (env_of s e) s), Hpg by done.
  rewrite (bind_ret _ _ _ _ _ E').
  apply (unmap_ok _ _ _ _ _ e d (v_unmap no_ex d (PGNUM va) a)); try done.
  - apply v_unmap_maps.
  - apply v_unmap_free.
  - apply v_unmap_free.
Qed.

(** The tests [sys_page_map] makes of its page arguments. *)
Definition map_args_bad (srcva dstva perm : Z) : bool :=
  (UTOP <=? srcva) || negb (PGOFF srcva =? 0) || (UTOP <=? dstva) || negb (PGOFF dstva =? 0)
  || (negb (flag perm PTE_U) || negb (flag perm PTE_P) || bad_perm_bits perm).

(** Sharing the page at [(ds, vs)] with permissions [perm] would exceed what
    the source may do. *)
Definition share_denied (a : vm) (ds vs perm : Z) : bool :=
  match v_maps a !! (ds, vs) with
  | None => true
  | Some (_, f) => flag perm PTE_W && negb (flag f PTE_W)
  end.

(** The page [page_lookup] finds, with the permission test that follows it. *)
Lemma lookup_share a s ds srcva perm :
  vm_rel no_ex a s -> ds ∈ v_dirs a -> is_u32 srcva -> srcva < UTOP ->
  (share_denied a ds (PGNUM srcva) perm = true
   /\ (page_lookup (frame_kva ds) srcva s = Ret None s
       \/ exists p pte, page_lookup (frame_kva ds) srcva s = Ret (Some (p, pte)) s
            /\ flag perm PTE_W && negb (flag (load32 pte s) PTE_W) = true))
  \/ (exists p f pte, v_maps a !! (ds, PGNUM srcva) = Some (p, f)
       /\ share_denied a ds (PGNUM srcva) perm = false
       /\ page_lookup (frame_kva ds) srcva s = Ret (Some (p, pte)) s
       /\ flag perm PTE_W && negb (flag (load32 pte s) PTE_W) = false).
Proof.
  intros HR Hd Hva Hu. assert (own a ds (PDX srcva)) as Hown by (apply user_own; auto).
  pose proof (proj1 (user_vpn srcva Hva) Hu) as Hv. unfold share_denied.
  destruct (v_maps a !! (ds, PGNUM srcva)) as [[p f]|] eqn:Hm.
  - destruct (map_tab _ a s HR ds srcva Hva p f Hm) as [t Ht].
    pose proof (page_lookup_some no_ex a s HR ds srcva Hva Hown Hv p f t Hm Ht) as El.
    pose proof (tab_max _ _ _ HR ds _ _ Ht) as Htm.
    pose proof (pt_pte _ _ (rel_pt _ _ _ HR) ds (PDX srcva) t (PTX srcva) Ht (PTX_range srcva)) as Hw.
    rewrite <- PGNUM_split, Hm in Hw by done.
    assert (flag (load32 (entry_kva t (PTX srcva)) s) PTE_W = flag f PTE_W) as Ef.
    { rewrite load32_entry by (done || apply PTX_range). by rewrite Hw, flag_mkpte. }
    destruct (flag perm PTE_W && negb (flag f PTE_W)) eqn:Hb; [left|right].
    + split; [done|]. right. exists p, (entry_kva t (PTX srcva)). by rewrite Ef.
    + exists p, f, (entry_kva t (PTX srcva)). by rewrite Ef.
  - left. split; [done|]. left. by apply (page_lookup_none no_ex a s HR).
Qed.

(** What [sys_page_map] may do. *)
Inductive map_spec (a : vm) (s : kstate) (c srcid srcva dstid dstva perm : Z) : outcome kstate Z -> Prop :=
| map_bad_env : no_target s c srcid \/ no_target s c dstid ->
    map_spec a s c srcid srcva dstid dstva perm (Ret (- E_BAD_ENV) s)
| map_inval es ds ed dd : target a s c srcid es ds -> target a s c dstid ed dd ->
    map_args_bad srcva dstva perm = true \/ share_denied a ds (PGNUM srcva) perm = true ->
    map_spec a s c srcid srcva dstid dstva perm (Ret (- E_INVAL) s)
| map_no_mem es ds ed dd : target a s c srcid es ds -> target a s c dstid ed dd ->
    map_args_bad srcva dstva perm = false -> share_denied a ds (PGNUM srcva) perm = false ->
    v_full dd (PDX dstva) a -> map_spec a s c srcid srcva dstid dstva perm (Ret (- E_NO_MEM) s)
| map_ok es ds ed dd p f a' s' : target a s c srcid es ds -> target a s c dstid ed dd ->
    map_args_bad srcva dstva perm = false -> v_maps a !! (ds, PGNUM srcva) = Some (p, f) ->
    (flag perm PTE_W = true -> flag f PTE_W = true) -> kinv a' s' -> vm_frame s s' ->
    (forall q, data_frame a q -> same_frame q s s') ->
    v_maps a' = <[(dd, PGNUM dstva) := (p, perm)]> (v_maps a) -> takes 0 dd dstva a a' ->
    map_spec a s c srcid srcva dstid dstva perm (Ret 0 s').

Lemma sys_page_map_refines a s c srcid srcva dstid dstva perm :
  kinv a s -> curenv s = Some c -> refs_room a -> is_u32 srcva -> is_u32 dstva ->
  map_spec a s c srcid srcva dstid dstva perm (sys_page_map srcid srcva dstid dstva perm s).
Proof.
  intros HK Hc Hroom Hsv Hdv. unfold sys_page_map.
  destruct (envid2env_target a s HK c Hc srcid) as [(es & ds & Es & Hts)|[Es Hno]];
    rewrite (bind_ret _ _ _ _ _ Es); [|by apply map_bad_env; left]. change (0 <? 0) with false. cbv iota.
  destruct (envid2env_target a s HK c Hc dstid) as [(ed & dd & Ed & Htd)|[Ed Hno]];
    rewrite (bind_ret _ _ _ _ _ Ed); [|by apply map_bad_env; right]. change (0 <? 0) with false. cbv iota.
  destruct ((UTOP <=? srcva) || negb (PGOFF srcva =? 0) || (UTOP <=? dstva) || negb (PGOFF dstva =? 0)) eqn:Hva.
  { apply (map_inval _ _ _ _ _ _ _ _ es ds ed dd); [done|done|]. left. unfold map_args_bad. by rewrite Hva. }
  destruct (negb (flag perm PTE_U) || negb (flag perm PTE_P) || bad_perm_bits perm) eqn:Hpm.
  { apply (map_inval _ _ _ _ _ _ _ _ es ds ed dd); [done|done|]. left. unfold map_args_bad. by rewrite Hva. }
  assert (map_args_bad srcva dstva perm = false) as Hargs by (unfold map_args_bad; by rewrite Hva, Hpm).
  pose proof Hts as (_ & _ & _ & Hds & Hpgs). pose proof Htd as (_ & _ & _ & Hdd & Hpgd).
  rewrite !orb_false_iff, !Z.leb_gt in Hva. destruct Hva as [[[Hsu _] Hdu] _].
  rewrite !orb_false_iff, !negb_false_iff in Hpm. destruct Hpm as [[_ HpP] Hbad].
  pose proof (good_perm perm Hbad) as Hperm.
  rewrite (bind_ret (gets _) _ _ (env_of s es) s), Hpgs by done.
  destruct (lookup_share a s ds srcva perm (mi_vm _ _ (ki_mem _ _ HK)) Hds Hsv Hsu)
    as [(Hden & [El|(p & pte & El & Hw)])|(p & f & pte & Hm & Hden & El & Hw)]; rewrite (bind_ret _ _ _ _ _ El).
  - apply (map_inval _ _ _ _ _ _ _ _ es ds ed dd); [done|done|by right].
  - rewrite (bind_ret (gets _) _ _ (load32 pte s) s), Hw by done.
    apply (map_inval _ _ _ _ _ _ _ _ es ds ed dd); [done|done|by right].
  - rewrite (bind_ret (gets _) _ _ (load32 pte s) s), Hw by done.
    rewrite (bind_ret (gets _) _ _ (env_of s ed) s), Hpgd by done.
    destruct (remap_kinv a s HK dd dstva p perm ds (PGNUM srcva) f Hroom Hm)
      as [[Hfull Ei]|(Hnf & s' & Ei & K' & F' & D')]; [by apply user_vpn|done|done|done|done| |];
      rewrite (bind_ret _ _ _ _ _ Ei); [by apply (map_no_mem _ _ _ _ _ _ _ _ es ds ed dd)|].
    apply (map_ok _ _ _ _ _ _ _ _ es ds ed dd p f (v_insert no_ex dd (PGNUM dstva) p (Z.lor perm PTE_P) a)); try done.
    + intros HpW. unfold share_denied in Hden. rewrite Hm, HpW in Hden. by destruct (flag f PTE_W).
    + rewrite v_insert_maps. by rewrite lor_present.
    + by apply v_insert_takes.
Qed.

(** The permission tests of [sys_page_alloc], in the order of the code. *)
Definition alloc_arg_error (va perm : Z) : option Z :=
  if UTOP <=? va then Some (- E_INVAL)
  else if negb (flag perm PTE_U) || negb (flag perm PTE_P) then Some (- E_BAD_ENV)
  else if bad_perm_bits perm then Some (- E_NO_MEM)
  else None.

Lemma page_free_tlb p s s' : page_free p s = Ret tt s' -> tlb s' = tlb s /\ mem s' = mem s.
Proof.
  unfold page_free, bind, gets, assert_. destruct (_ =? 0); [|done]. destruct (bool_decide _); [|done].
  intros [= <-]. done.
Qed.

Lemma zero_frame_kinv a s p d v f :
  kinv a s -> v_maps a !! (d, v) = Some (p, f) -> v < UVPN -> kinv a (zero_frame p s).
Proof.
  intros HK Hm Hv. destruct (user_frame_private _ _ _ _ _ _ _ (mi_vm _ _ (ki_mem _ _ HK)) Hm Hv) as (Hd & Ht & _).
  destruct HK as [[H1 H2 H3] [fl He] [C1 C2 C3]]. split.
  - split; [|done|done]. by apply zero_frame_rel.
  - exists fl. by apply (env_inv_ext a a fl s).
  - split; [exact C1|exact C2|exact C3].
Qed.

(** What [sys_page_alloc] may do. *)
Inductive alloc_spec (a : vm) (s : kstate) (c envid va perm : Z) : outcome kstate Z -> Prop :=
| alloc_bad_arg err : alloc_arg_error va perm = Some err -> alloc_spec a s c envid va perm (Ret err s)
| alloc_bad_env : alloc_arg_error va perm = None -> no_target s c envid ->
    alloc_spec a s c envid va perm (Ret (- E_BAD_ENV) s)
| alloc_no_mem e d s' : alloc_arg_error va perm = None -> target a s c envid e d ->
    v_free a = [] \/ (exists p, v_free a = [p] /\ v_tabs a !! (d, PDX va) = None) ->
    kinv a s' -> vm_frame s s' -> mem s' = mem s ->
    alloc_spec a s c envid va perm (Ret (- E_NO_MEM) s')
| alloc_ok e d p a' s' : alloc_arg_error va perm = None -> target a s c envid e d -> p ∈ v_free a ->
    kinv a' s' -> vm_frame s s' -> (forall q, data_frame a q -> same_frame q s s') ->
    v_maps a' = <[(d, PGNUM va) := (p, perm)]> (v_maps a) -> takes 1 d va a a' ->
    (forall j, 0 <= j < 1024 -> word_at s' (p * 1024 + j) = 0) ->
    alloc_spec a s c envid va perm (Ret 0 s').

Lemma sys_page_alloc_refines a s c envid va perm :
  kinv a s -> curenv s = Some c -> is_u32 va -> alloc_spec a s c envid va perm (sys_page_alloc envid va perm s).
Proof.
  intros HK Hc Hva. assert (alloc_arg_error va perm = alloc_arg_error va perm) as Harg by done.
  revert Harg. unfold sys_page_alloc. unfold alloc_arg_error at 2.
  destruct (Z.leb_spec UTOP va) as [Hu|Hu]; [intros; by apply alloc_bad_arg|].
  destruct (negb (flag perm PTE_U) || negb (flag perm PTE_P)) eqn:Hpm; [intros; by apply alloc_bad_arg|].
  destruct (bad_perm_bits perm) eqn:Hbad; [intros; by apply alloc_bad_arg|]. intros Harg.
  rewrite !orb_false_iff, !negb_false_iff in Hpm. destruct Hpm as [_ HpP]. pose proof (good_perm perm Hbad) as Hperm.
  destruct (envid2env_target a s HK c Hc envid) as [(e & d & E & Ht)|[E Hno]];
    rewrite (bind_ret _ _ _ _ _ E); [|by apply alloc_bad_env].
  change (0 <? 0) with false. cbv iota. pose proof Ht as (_ & _ & _ & Hd & Hpg).
  pose proof (mi_vm _ _ (ki_mem _ _ HK)) as HR. destruct (v_free a) as [|p fr] eqn:Hf.
  { rewrite (bind_ret _ _ _ _ _ (page_alloc_empty no_ex a s HR 0 Hf)). apply (alloc_no_mem _ _ _ _ _ _ e d); try done.
    - by left.
    - apply vm_frame_refl. }
  rewrite (bind_ret _ _ _ _ _ (page_alloc_take no_ex a s HR p fr Hf 0)). change (flag 0 ALLOC_ZERO) with false. cbv iota.
  rewrite (bind_ret (gets _) _ _ (env_of s e) (alloc_pop p s)), Hpg by done.
  destruct (page_insert_kinv a s HK (v_set_free fr a) (alloc_pop p s) d va p perm)
    as [[Hfull Ei]|(Hnf & s' & Ei & K' & F' & D')]; try done.
  - by apply take_rel.
  - apply vm_frame_alloc_pop.
  - intros q Hq Hqf Hqp. apply (no_leak_take ∅ a (npages s) p fr (mi_leak _ _ (ki_mem _ _ HK)) Hf); [done|done|set_solver].
  - by apply take_insertable.
  - rewrite (bind_ret _ _ _ _ _ Ei). change (- E_NO_MEM <? 0) with true. cbv iota.
    destruct (take_back_free no_ex a s HR p fr Hf) as (s' & Efr & R' & F').
    rewrite (bind_ret _ _ _ _ _ Efr). destruct (page_free_tlb _ _ _ Efr) as [Et Em].
    destruct (ci_tlb _ _ (ki_cpu _ _ HK)) as (dc & [Hcr HT] & Hdc).
    apply (alloc_no_mem _ _ _ _ _ _ e d); try done.
    + right. exists p. destruct Hfull as [H1 H2]. simpl in H2. subst fr. done.
    + apply (kinv_vm a a s s' dc); try done; [apply (ki_mem _ _ HK)|].
      split; [by rewrite (vm_frame_cr3 _ _ F')|]. by rewrite Et.
  - rewrite (bind_ret _ _ _ _ _ Ei). change (0 <? 0) with false. cbv iota.
    set (a' := v_insert no_ex d (PGNUM va) p (Z.lor perm PTE_P) (v_set_free fr a)) in *.
    assert (v_maps a' = <[(d, PGNUM va) := (p, perm)]> (v_maps a)) as Em.
    { unfold a'. rewrite v_insert_maps, lor_present by done. done. }
    pose proof (proj1 (user_vpn va Hva) Hu) as Hv.
    assert (v_maps a' !! (d, PGNUM va) = Some (p, perm)) as Hmp by (rewrite Em; apply lookup_insert_eq).
    destruct (take_range no_ex a s HR p fr Hf) as [Hpr Hmax].
    rewrite (bind_ret (page2kva p) _ _ (frame_kva p) s').
    2:{ unfold page2kva. rewrite page2pa_mul by (unfold MAXPAGES in *; lia).
        apply KADDR_frame; by rewrite (vm_frame_npages _ _ F'). }
    rewrite (bind_ret (memset_words _ _ _) _ _ tt (zero_frame p s')).
    2:{ unfold memset_words. rewrite kva_word_frame by (unfold MAXPAGES in *; lia). done. }
    apply (alloc_ok _ _ _ _ _ _ e d p a'); try done.
    + rewrite Hf. apply elem_of_cons. by left.
    + by apply (zero_frame_kinv a' s' p d (PGNUM va) perm).
    + eapply vm_frame_trans; [apply (vm_frame_alloc_pop p)|]. eapply vm_frame_trans; [exact F'|apply vm_frame_set_mem].
    + intros q (Q1 & Q2 & Q3 & Q4) j Hj. rewrite word_at_zero_frame, frame_div, decide_False by (try done; intros ->; by apply Q1; rewrite Hf; left).
      apply D'; [|done]. split_and!; try done. simpl. intros Hq. apply Q1. rewrite Hf. by right.
    + destruct (v_insert_takes no_ex d va p (Z.lor perm PTE_P) (v_set_free fr a) Hva Hnf) as [T1 T2]. split; [done|].
      rewrite Hf. cbn [length v_free v_tabs v_set_free] in *. fold a' in T2. lia.
    + intros j Hj. by rewrite word_at_zero_frame, frame_div, decide_True.
Qed.
