(* ===== verification/SyscallEnv.v ===== *)
(** The environment and IPC system calls of kern/syscall.c keep the kernel's
    invariant and do what they promise. *)

From stdpp Require Import base numbers list gmap strings.
From Stdlib Require Import ZArith Lia Bool.
From S2P Require Import Prelude Mmu KState Pmap PmapBoot PmapSpec Paging VmOps Env Syscall KInv EnvSpec EnvFree SchedSpec SyscallMem.

(** * IPC *)

(** What a receiver becomes when a value arrives. *)
Definition received (from value : Z) (x : Env) : Env :=
  e_tf (set_eax 0 (env_tf x)) (e_status ENV_RUNNABLE (e_value value (e_recving false (e_from from x)))).

Lemma ipc_deliver_eq e from value s :
  ipc_deliver e from value s = Ret 0 (put_env e (received from value (env_of s e)) s).
Proof.
  unfold ipc_deliver. rewrite (bind_ret (upd_env _ _) _ _ tt (put_env e (e_from from (env_of s e)) s)) by done.
  do 4 rewrite (bind_ret _ _ _ _ _ (upd_env_put e _ _ _)). done.
Qed.

Lemma received_kinv a s e from value x :
  kinv a s -> live s e -> env_id x = env_id (env_of s e) -> env_pgdir x = env_pgdir (env_of s e) ->
  kinv a (put_env e (received from value x) s).
Proof. intros HK Hl Hid Hpg. by apply kinv_upd. Qed.

(** The page arguments are unacceptable. *)
Definition ipc_args_bad (srcva perm : Z) : bool :=
  negb (PGOFF srcva =? 0) || (negb (flag perm PTE_P) || negb (flag perm PTE_U)) || bad_perm_bits perm.

Lemma ipc_check_page_spec a s c d srcva perm :
  vm_rel no_ex a s -> d ∈ v_dirs a -> env_pgdir (env_of s c) = frame_kva d -> is_u32 srcva ->
  (UTOP <= srcva /\ ipc_check_page c srcva perm s = Ret (inr None) s)
  \/ (srcva < UTOP /\ (ipc_args_bad srcva perm = true \/ share_denied a d (PGNUM srcva) perm = true)
      /\ ipc_check_page c srcva perm s = Ret (inl (- E_INVAL)) s)
  \/ (exists p f, srcva < UTOP /\ ipc_args_bad srcva perm = false /\ v_maps a !! (d, PGNUM srcva) = Some (p, f)
      /\ share_denied a d (PGNUM srcva) perm = false
      /\ ipc_check_page c srcva perm s = Ret (inr (Some p)) s).
Proof.
  intros HR Hd Hpg Hva. unfold ipc_check_page, ipc_args_bad.
  destruct (Z.leb_spec UTOP srcva) as [Hu|Hu]; [by left|right].
  destruct (negb (PGOFF srcva =? 0)) eqn:E1; [left; split_and!; [done|by left|done]|].
  destruct (negb (flag perm PTE_P) || negb (flag perm PTE_U)) eqn:E2; [left; split_and!; [done|by left|done]|].
  destruct (bad_perm_bits perm) eqn:E3; [left; split_and!; [done|by left|done]|].
  rewrite (bind_ret (gets _) _ _ (env_of s c) s), Hpg by done.
  destruct (lookup_share a s d srcva perm HR Hd Hva Hu)
    as [(Hden & [El|(p & pte & El & Hw)])|(p & f & pte & Hm & Hden & El & Hw)]; rewrite (bind_ret _ _ _ _ _ El).
  - left. split_and!; [done|by right|done].
  - left. split_and!; [done|by right|]. unfold bind, gets. by rewrite Hw.
  - right. exists p, f. split_and!; try done. unfold bind, gets. by rewrite Hw.
Qed.

(** What [sys_ipc_try_send] may do. *)
Inductive send_spec (a : vm) (s : kstate) (c envid value srcva perm : Z) : outcome kstate Z -> Prop :=
| send_bad_env : (forall e, ~ names s c envid e) -> send_spec a s c envid value srcva perm (Ret (- E_BAD_ENV) s)
| send_not_recv e : live s e -> names s c envid e ->
    ~ (env_ipc_recving (env_of s e) = true /\ env_ipc_from (env_of s e) = 0) ->
    send_spec a s c envid value srcva perm (Ret (- E_IPC_NOT_RECV) s)
| send_inval e dc : live s e -> names s c envid e -> env_pgdir (env_of s c) = frame_kva dc ->
    srcva < UTOP -> ipc_args_bad srcva perm = true \/ share_denied a dc (PGNUM srcva) perm = true ->
    send_spec a s c envid value srcva perm (Ret (- E_INVAL) s)
| send_no_mem e de : live s e -> names s c envid e -> env_pgdir (env_of s e) = frame_kva de ->
    srcva < UTOP -> v_full de (PDX (env_ipc_dstva (env_of s e))) a ->
    send_spec a s c envid value srcva perm (Ret (- E_NO_MEM) s)
| send_value e s' : live s e -> names s c envid e ->
    env_ipc_recving (env_of s e) = true -> env_ipc_from (env_of s e) = 0 ->
    UTOP <= srcva \/ env_ipc_dstva (env_of s e) = 0 ->
    kinv a s' -> curenv s' = curenv s -> mem s' = mem s ->
    env_of s' e = received (env_id (env_of s c)) value (env_of s e) ->
    (forall i, i <> e -> env_of s' i = env_of s i) ->
    send_spec a s c envid value srcva perm (Ret 0 s')
| send_page e de dc p f a' s' : live s e -> names s c envid e ->
    env_ipc_recving (env_of s e) = true -> env_ipc_from (env_of s e) = 0 ->
    env_pgdir (env_of s e) = frame_kva de -> env_pgdir (env_of s c) = frame_kva dc ->
    srcva < UTOP -> v_maps a !! (dc, PGNUM srcva) = Some (p, f) ->
    (flag perm PTE_W = true -> flag f PTE_W = true) ->
    kinv a' s' -> curenv s' = curenv s -> (forall q, data_frame a q -> same_frame q s s') ->
    v_maps a' = <[(de, PGNUM (env_ipc_dstva (env_of s e))) := (p, perm)]> (v_maps a) ->
    env_of s' e = received (env_id (env_of s c)) value (e_perm perm (env_of s e)) ->
    (forall i, i <> e -> env_of s' i = env_of s i) ->
    send_spec a s c envid value srcva perm (Ret 0 s').

(** The address a receiver asked for is below UTOP if a page is sent; the
    code does not check it. *)
Definition dstva_ok (s : kstate) (c envid srcva : Z) : Prop :=
  forall e, names s c envid e -> srcva < UTOP -> 0 <= env_ipc_dstva (env_of s e) < UTOP.

Lemma sys_ipc_try_send_refines a s c envid value srcva perm :
  kinv a s -> curenv s = Some c -> refs_room a -> is_u32 srcva -> dstva_ok s c envid srcva ->
  send_spec a s c envid value srcva perm (sys_ipc_try_send envid value srcva perm s).
Proof.
  intros HK Hc Hroom Hva Hdst. unfold sys_ipc_try_send. pose proof HK as [HM [fl HE] [C1 C2 C3]].
  pose proof (C1 c Hc) as Hlc.
  destruct (envid2env_spec a fl s c envid false HE Hc Hlc) as [(e & E & Hl & Hn & _)|[E Hno]];
    rewrite (bind_ret _ _ _ _ _ E).
  2:{ apply send_bad_env. intros e He. by destruct (Hno e He). }
  destruct (ei_dir _ _ _ HE e Hl) as (de & Hde & Hpe), (ei_dir _ _ _ HE c Hlc) as (dc & Hdc & Hpc).
  change (0 <? 0) with false. cbv iota. rewrite (bind_ret (gets _) _ _ (env_of s e) s) by done.
  destruct (negb (env_ipc_recving (env_of s e)) || negb (env_ipc_from (env_of s e) =? 0)) eqn:Hrecv.
  { apply (send_not_recv _ _ _ _ _ _ _ e); [done|done|]. intros [H1 H2]. by rewrite H1, H2 in Hrecv. }
  rewrite orb_false_iff, !negb_false_iff, Z.eqb_eq in Hrecv. destruct Hrecv as [Hrc Hfrom].
  rewrite (bind_ret the_curenv _ _ c s) by (unfold the_curenv, bind, gets; by rewrite Hc).
  assert (UTOP <= srcva \/ env_ipc_dstva (env_of s e) = 0 ->
    send_spec a s c envid value srcva perm (ipc_deliver e (env_id (env_of s c)) value s)) as Hval.
  { intros Hno. rewrite ipc_deliver_eq. apply (send_value _ _ _ _ _ _ _ e); try done.
    - by apply received_kinv.
    - by rewrite env_of_put, decide_True.
    - intros i Hi. by rewrite env_of_put, decide_False. }
  destruct (ipc_check_page_spec a s c dc srcva perm (mi_vm _ _ HM) Hdc Hpc Hva)
    as [[Hu Ep]|[(Hu & Hb & Ep)|(p & f & Hu & Hb & Hm & Hden & Ep)]]; rewrite (bind_ret _ _ _ _ _ Ep).
  - rewrite (bind_ret (ret true) _ _ true s) by done. cbn [negb].
    rewrite (bind_ret (gets _) _ _ (env_of s c) s) by done. apply Hval. by left.
  - by apply (send_inval _ _ _ _ _ _ _ e dc).
  - destruct (Z.eqb_spec (env_ipc_dstva (env_of s e)) 0) as [Hz|Hz]; cbn [negb].
    { rewrite (bind_ret (ret true) _ _ true s) by done. cbn [negb].
      rewrite (bind_ret (gets _) _ _ (env_of s c) s) by done. apply Hval. by right. }
    unfold ipc_args_bad in Hb. rewrite !orb_false_iff, !negb_false_iff in Hb. destruct Hb as [[_ [HpP _]] Hbad].
    pose proof (Hdst e Hn Hu) as Hdu. assert (is_u32 (env_ipc_dstva (env_of s e))) as Hd32.
    { unfold is_u32. change UTOP with 4005560320 in Hdu. lia. }
    rewrite Hpe. destruct (remap_kinv a s HK de (env_ipc_dstva (env_of s e)) p perm dc (PGNUM srcva) f Hroom Hm)
      as [[Hfull Ei]|(_ & s1 & Ei & K1 & F1 & D1)]; [by apply user_vpn|done|done|apply Hdu|by apply good_perm| |].
    { rewrite (bind_ret _ _ _ false s) by (by rewrite (bind_ret _ _ _ _ _ Ei)).
      by apply (send_no_mem _ _ _ _ _ _ _ e de). }
    assert (forall i, env_of s1 i = env_of s i) as Ee by (destruct F1 as (? & ? & ? & ? & ->); done).
    assert (live s1 e) as Hl1 by (unfold live; by rewrite Ee).
    set (s2 := put_env e (e_perm perm (env_of s e)) s1).
    rewrite (bind_ret _ _ _ true s2).
    2:{ rewrite (bind_ret _ _ _ _ _ Ei). change (0 <? 0) with false. cbv iota.
        unfold bind, upd_env, modify. by rewrite Ee. }
    cbn [negb]. rewrite (bind_ret (gets _) _ _ (env_of s2 c) s2) by done. rewrite ipc_deliver_eq.
    assert (env_of s2 e = e_perm perm (env_of s e)) as -> by (unfold s2; by rewrite env_of_put, decide_True).
    assert (env_id (env_of s2 c) = env_id (env_of s c)) as ->.
    { unfold s2. rewrite env_of_put, Ee. by destruct (decide (e = c)) as [<-|]. }
    unfold s2. rewrite put_env_put.
    apply (send_page _ _ _ _ _ _ _ e de dc p f
      (v_insert no_ex de (PGNUM (env_ipc_dstva (env_of s e))) p (Z.lor perm PTE_P) a)); try done.
    + intros HpW. unfold share_denied in Hden. rewrite Hm, HpW in Hden. by destruct (flag f PTE_W).
    + apply received_kinv; [done|done|by rewrite Ee|by rewrite Ee].
    + exact (vm_frame_curenv _ _ F1).
    + rewrite v_insert_maps. by rewrite lor_present.
    + by rewrite env_of_put, decide_True.
    + intros i Hi. by rewrite env_of_put, decide_False, Ee.
Qed.

(** * Creating environments *)

Lemma env_alloc_kinv a s c fl e fl' p fr parent :
  kinv a s -> curenv s = Some c -> env_inv a fl s -> fl = e :: fl' -> v_free a = p :: fr ->
  exists s', env_alloc parent s = Ret (0, Some e) s' /\ kinv (v_new_dir p fr a) s' /\ curenv s' = Some c
    /\ live s' e /\ ~ live s e /\ env_of s' e = fresh_env e p parent (env_of s e)
    /\ (forall i, i <> e -> env_of s' i = env_of s i)
    /\ dir_filled a p s s'.
Proof.
  intros HK Hc HE Efl Hf. pose proof HK as [HM _ [C1 (dc & [T1 T2] & Hdc) C3]].
  destruct (env_alloc_ok a s HM fl HE parent e fl' p fr Efl Hf) as (m & f & pg & E & HM' & HE' & Hw).
  set (s' := set_env_free _ _) in *. exists s'.
  assert (forall i, env_of s' i = if decide (e = i) then fresh_env e p parent (env_of s e) else env_of s i) as Eo.
  { intros i. apply (env_of_put (set_mem m (set_free f (set_pages pg s)))). }
  destruct (proj1 (ei_free _ _ _ HE e)) as [Her Hef]; [rewrite Efl; apply elem_of_cons; by left|].
  assert (c <> e) as Hce by (intros ->; by destruct (C1 e Hc)).
  assert (live s' e) as Hle by (split; [done|by rewrite Eo, decide_True]).
  split_and!; try done.
  - split; [done|by exists fl'|]. split.
    + intros c' Hc'. change (curenv s') with (curenv s) in Hc'. rewrite Hc in Hc'. injection Hc' as <-.
      unfold live. rewrite Eo, decide_False by done. by apply C1.
    + exists dc. split; [by split|]. destruct Hdc as [Hdc| ->]; [left|by right]. by apply elem_of_union_r.
    + unfold cr3_current, flushes in *. change (curenv s') with (curenv s). rewrite Hc in *.
      rewrite Eo, decide_False by done. exact C3.
  - intros [_ ?]. done.
  - by rewrite Eo, decide_True.
  - intros i Hi. by rewrite Eo, decide_False.
Qed.

(** What [sys_exofork] may do. *)
Inductive exofork_spec (a : vm) (s : kstate) (c : Z) : outcome kstate Z -> Prop :=
| exofork_no_env : (forall i, 0 <= i < NENV -> ~ env_status (env_of s i) = ENV_FREE) ->
    exofork_spec a s c (Ret (- E_NO_FREE_ENV) s)
| exofork_no_mem : v_free a = [] -> exofork_spec a s c (Ret (- E_NO_MEM) s)
| exofork_ok e d a' s' : ~ live s e -> live s' e -> kinv a' s' -> curenv s' = curenv s ->
    0 < env_id (env_of s' e) -> ENVX (env_id (env_of s' e)) = e ->
    env_id (env_of s' e) <> env_id (env_of s e) ->
    env_status (env_of s' e) = ENV_NOT_RUNNABLE ->
    env_parent_id (env_of s' e) = env_id (env_of s c) ->
    env_tf (env_of s' e) = set_eax 0 (env_tf (env_of s c)) ->
    env_pgdir (env_of s' e) = frame_kva d ->
    v_free a = d :: v_free a' -> v_dirs a' = {[d]} ∪ v_dirs a -> v_tabs a' = v_tabs a -> v_maps a' = v_maps a ->
    (forall v, v_maps a' !! (d, v) = None) -> dir_filled a d s s' ->
    (forall i, i <> e -> env_of s' i = env_of s i) ->
    exofork_spec a s c (Ret (env_id (env_of s' e)) s').

Lemma sys_exofork_refines a s c : kinv a s -> curenv s = Some c -> exofork_spec a s c (sys_exofork s).
Proof.
  intros HK Hc. pose proof HK as [HM [fl HE] [C1 C2 C3]]. unfold sys_exofork, sys_getenvid.
  assert (the_curenv s = Ret c s) as Ecur by (unfold the_curenv, bind, gets; by rewrite Hc).
  rewrite (bind_ret _ _ s (env_id (env_of s c)) s) by (rewrite (bind_ret _ _ _ _ _ Ecur); done).
  destruct fl as [|e fl'].
  { rewrite (bind_ret _ _ _ _ _ (env_alloc_none a s [] HE _ eq_refl)). apply exofork_no_env.
    intros i Hi Hs. by apply (elem_of_nil i), (ei_free _ _ _ HE i). }
  destruct (v_free a) as [|p fr] eqn:Hf.
  { rewrite (bind_ret _ _ _ _ _ (env_alloc_nomem a s HM (e :: fl') HE _ e fl' eq_refl Hf)).
    by apply exofork_no_mem. }
  destruct (env_alloc_kinv a s c (e :: fl') e fl' p fr (env_id (env_of s c)) HK Hc HE eq_refl Hf)
    as (s1 & E1 & K1 & Hc1 & Hl1 & Hnl & Ee & Eo & Hw).
  assert (c <> e) as Hce by (intros ->; apply Hnl; by apply C1).
  rewrite (bind_ret _ _ _ _ _ E1). change (0 <? 0) with false. cbv iota.
  set (y := e_tf (set_eax 0 (env_tf (env_of s c))) (e_status ENV_NOT_RUNNABLE (env_of s1 e))).
  set (s' := put_env e y s1).
  rewrite (bind_ret (upd_env _ _) _ _ tt (put_env e (e_status ENV_NOT_RUNNABLE (env_of s1 e)) s1)) by done.
  rewrite (bind_ret the_curenv _ _ c (put_env e (e_status ENV_NOT_RUNNABLE (env_of s1 e)) s1)).
  2:{ unfold the_curenv, bind, gets. by change (curenv (put_env e ?z s1)) with (curenv s1); rewrite Hc1. }
  rewrite (bind_ret (gets _) _ _ (env_of s c) (put_env e (e_status ENV_NOT_RUNNABLE (env_of s1 e)) s1)).
  2:{ unfold gets. by rewrite env_of_put, decide_False, Eo by done. }
  do 2 rewrite (bind_ret _ _ _ _ _ (upd_env_put e _ _ _)).
  change (put_env e _ s1) with s'.
  assert (env_of s' e = y) as Ey by (unfold s'; by rewrite env_of_put, decide_True).
  destruct (proj1 (ei_free _ _ _ HE e)) as [Her _]; [apply elem_of_cons; by left|].
  destruct (next_env_id_ok (env_id (env_of s e)) e Her (ei_ids _ _ _ HE e Her)) as (I1 & I2 & I3).
  assert (env_id y = next_env_id (env_id (env_of s e)) e) as Eid by (unfold y; simpl; by rewrite Ee).
  assert (forall v, v_maps a !! (p, v) = None) as Hnomap.
  { intros v. destruct (v_maps a !! (p, v)) as [[q g]|] eqn:Hm; [|done].
    destruct (wf_maps _ _ (rel_wf _ _ _ (mi_vm _ _ HM)) _ _ _ _ Hm) as ([t Ht] & _).
    destruct (wf_tabs _ _ (rel_wf _ _ _ (mi_vm _ _ HM)) _ _ _ Ht) as (Ho & _).
    destruct (free_not_dir _ _ _ (mi_vm _ _ HM) p p (v / 1024)); [rewrite Hf; apply elem_of_cons; by left|done|done]. }
  unfold gets. apply (exofork_ok _ _ _ e p (v_new_dir p fr a)); rewrite ?Ey, ?Eid; try done; try lia.
  - by apply live_upd.
  - by apply kinv_upd.
  - by change (curenv s') with (curenv s1); rewrite Hc1.
  - unfold y. simpl. by rewrite Ee.
  - unfold y. simpl. by rewrite Ee.
  - intros i Hi. unfold s'. rewrite env_of_put, decide_False by done. by apply Eo.
Qed.
