(* ===== verification/SyscallSafe.v ===== *)
(** kern/syscall.c: the remaining system calls on environments, and the
    safety of the dispatcher: whatever a user passes, the kernel returns or
    switches with its invariant intact. *)

From stdpp Require Import base numbers list gmap strings.
From Stdlib Require Import ZArith Lia Bool.
From S2P Require Import Prelude Mmu Console ConsoleSpec KState Pmap PmapBoot PmapSpec Paging VmOps Env Syscall KInv EnvSpec EnvFree SchedSpec SyscallMem SyscallEnv.

(** * Changing an environment *)

(** The environment [e] has been replaced by [f] of it, and nothing else. *)
Definition env_changed (e : Z) (f : Env -> Env) (s s' : kstate) : Prop :=
  s' = put_env e (f (env_of s e)) s.

(** What a call that changes one environment the caller controls may do. *)
Inductive control_spec (a : vm) (s : kstate) (c envid : Z) (f : Env -> Env) : outcome kstate Z -> Prop :=
| control_bad_env : no_target s c envid -> control_spec a s c envid f (Ret (- E_BAD_ENV) s)
| control_ok e d s' : target a s c envid e d -> kinv a s' -> env_changed e f s s' ->
    control_spec a s c envid f (Ret 0 s').

Section Control.
Context (a : vm) (s : kstate) (HK : kinv a s) (c : Z) (Hc : curenv s = Some c).

Lemma sys_env_set_pgfault_upcall_refines envid func :
  control_spec a s c envid (e_upcall func) (sys_env_set_pgfault_upcall envid func s).
Proof.
  unfold sys_env_set_pgfault_upcall.
  destruct (envid2env_target a s HK c Hc envid) as [(e & d & E & Ht)|[E Hno]];
    rewrite (bind_ret _ _ _ _ _ E); [|by apply control_bad_env].
  pose proof Ht as (_ & _ & Hl & _). apply (control_ok _ _ _ _ _ e d); [done| |done].
  by apply kinv_upd; [| |apply Hl|..].
Qed.

(** The status [sys_env_set_status] is asked for. *)
Definition asked_status (status : Z) : option EnvStatus :=
  if status =? status_Z ENV_RUNNABLE then Some ENV_RUNNABLE
  else if status =? status_Z ENV_NOT_RUNNABLE then Some ENV_NOT_RUNNABLE
  else None.

Lemma sys_env_set_status_refines envid status :
  (asked_status status = None /\ sys_env_set_status envid status s = Ret (- E_INVAL) s)
  \/ (exists st, asked_status status = Some st
      /\ control_spec a s c envid (e_status st) (sys_env_set_status envid status s)).
Proof.
  unfold sys_env_set_status, asked_status.
  destruct (status =? status_Z ENV_RUNNABLE) eqn:E1, (status =? status_Z ENV_NOT_RUNNABLE) eqn:E2; cbn [negb andb];
    try (by left); right; eexists; (split; [reflexivity|]);
    (destruct (envid2env_target a s HK c Hc envid) as [(e & d & E & Ht)|[E Hno]];
      rewrite (bind_ret _ _ _ _ _ E); [|by apply control_bad_env]);
    pose proof Ht as (_ & _ & Hl & _); (apply (control_ok _ _ _ _ _ e d); [done| |done]); by apply kinv_upd.
Qed.
End Control.

(** * Giving up the processor *)

(** What [sys_ipc_recv] asks for, before the scheduler runs. *)
Definition waiting (dstva : Z) (x : Env) : Env :=
  e_from 0 (e_status ENV_NOT_RUNNABLE (e_dstva dstva (e_recving true x))).

Inductive recv_spec (a : vm) (s : kstate) (c dstva : Z) : outcome kstate Z -> Prop :=
| recv_inval : dstva < UTOP -> PGOFF dstva <> 0 -> recv_spec a s c dstva (Ret (- E_INVAL) s)
| recv_wait s1 s' : UTOP <= dstva \/ PGOFF dstva = 0 -> env_changed c (waiting dstva) s s1 -> kinv a s1 ->
    sched_post a s1 s' -> recv_spec a s c dstva (Leave s').

Lemma sys_ipc_recv_refines a s c dstva :
  kinv a s -> curenv s = Some c -> recv_spec a s c dstva (sys_ipc_recv dstva s).
Proof.
  intros HK Hc. unfold sys_ipc_recv.
  destruct (Z.ltb_spec dstva UTOP) as [Hu|Hu], (Z.eqb_spec (PGOFF dstva) 0) as [Ho|Ho]; cbn [negb andb];
    try (by apply recv_inval).
  all: rewrite (bind_ret the_curenv _ _ c s) by (unfold the_curenv, bind, gets; by rewrite Hc);
    rewrite (bind_ret (upd_env c (e_recving true)) _ _ tt (put_env c (e_recving true (env_of s c)) s)) by done;
    do 3 rewrite (bind_ret _ _ _ _ _ (upd_env_put c _ _ _));
    assert (kinv a (put_env c (waiting dstva (env_of s c)) s)) as K1 by (apply kinv_upd; [done|by apply (ci_cur _ _ (ki_cpu _ _ HK))|done..]);
    destruct (sched_yield_ok Z a _ (kinv_switchable _ _ K1)) as (s' & E & P); unfold waiting in *; rewrite E;
    apply (recv_wait _ _ _ _ (put_env c (waiting dstva (env_of s c)) s)); auto; try done.
Qed.

(** * Destroying environments *)

(** What [sys_env_destroy] may do: an environment running on another CPU is
    only marked, one that is not running is freed, and the caller itself is
    freed and left for another environment. *)
Inductive destroy_spec (a : vm) (s : kstate) (c envid : Z) : outcome kstate Z -> Prop :=
| destroy_bad_env : no_target s c envid -> destroy_spec a s c envid (Ret (- E_BAD_ENV) s)
| destroy_mark e d s' : target a s c envid e d -> e <> c -> env_status (env_of s e) = ENV_RUNNING ->
    kinv a s' -> env_changed e (e_status ENV_DYING) s s' -> destroy_spec a s c envid (Ret 0 s')
| destroy_other e d a' s' : target a s c envid e d -> e <> c -> env_status (env_of s e) <> ENV_RUNNING ->
    kinv a' s' -> v_freed d a a' -> env_status (env_of s' e) = ENV_FREE -> curenv s' = Some c ->
    destroy_spec a s c envid (Ret 0 s')
| destroy_self d a' s1 s' : target a s c envid c d -> v_freed d a a' ->
    env_status (env_of s1 c) = ENV_FREE -> sched_post a' s1 s' -> destroy_spec a s c envid (Leave s').

Lemma sys_env_destroy_refines a s c envid :
  kinv a s -> curenv s = Some c -> destroy_spec a s c envid (sys_env_destroy envid s).
Proof.
  intros HK Hc. unfold sys_env_destroy.
  destruct (envid2env_target a s HK c Hc envid) as [(e & d & E & Ht)|[E Hno]];
    rewrite (bind_ret _ _ _ _ _ E); [|by apply destroy_bad_env].
  change (0 <? 0) with false. cbv iota. pose proof Ht as (_ & _ & Hl & Hd & Hpg).
  destruct (env_destroy_ok a s HK c Hc e d Hl Hd Hpg)
    as [(Hne & Hst & s' & Ed & K & ->)|[(Hne & Hst & a' & s' & Ed & K & Fr & Hf & Hcur)|(-> & a' & s1 & s' & Ed & Fr & Hf & P)]].
  - rewrite (bind_ret _ _ _ _ _ Ed). by apply (destroy_mark _ _ _ _ e d).
  - rewrite (bind_ret _ _ _ _ _ Ed). by apply (destroy_other _ _ _ _ e d a').
  - rewrite (bind_leave _ _ _ _ Ed). by apply (destroy_self _ _ _ _ d a' s1).
Qed.

(** * The dispatcher *)

Lemma kinv_con a s k : kinv a s -> kinv a (set_con k s).
Proof.
  intros [H1 [fl H2] [C1 C2 C3]]. split.
  - by apply (mem_inv_ext a s).
  - exists fl. by apply (env_inv_ext a a fl s).
  - split; [exact C1|exact C2|exact C3].
Qed.

(** A system call may return to the caller, or leave for another environment
    (for the monitor, once none is left), with the kernel's invariant. It
    does not panic. *)
Definition sys_safe (c : Z) (o : outcome kstate Z) : Prop :=
  match o with
  | Ret _ s' => curenv s' = Some c /\ exists a', kinv a' s'
  | Leave s' => (exists a', kinv a' s') \/ (forall i, 0 <= i < NENV -> alive (env_of s' i) = false)
  | Panic _ _ => False
  end.

Lemma sched_post_safe c a s s' : sched_post a s s' -> sys_safe c (Leave s').
Proof. intros P. destruct (sched_post_kinv a s s' P) as [K|[-> H]]; [left; by exists a|by right]. Qed.

(** The calls that copy from or to the caller's memory. *)
Definition copies (no : Z) : bool :=
  (no =? SYS_cputs) || (no =? SYS_env_set_trapframe) || (no =? SYS_txpacket) || (no =? SYS_rxpacket).

Lemma vm_frame_safe a c s s' v : kinv a s' -> vm_frame s s' -> curenv s = Some c -> sys_safe c (Ret v s').
Proof. intros K F Hc. split; [by rewrite (vm_frame_curenv _ _ F)|by exists a]. Qed.

Section Safe.
Context (a : vm) (s : kstate) (HK : kinv a s) (c : Z) (Hc : curenv s = Some c).

Lemma same_safe v : sys_safe c (Ret v s).
Proof. split; [done|by exists a]. Qed.

Lemma control_safe envid f o : control_spec a s c envid f o -> sys_safe c o.
Proof. intros [|e d s' ? K ->]; [apply same_safe|split; [exact Hc|by exists a]]. Qed.

Lemma unmap_safe envid va o : unmap_spec a s c envid va o -> sys_safe c o.
Proof. intros []; try apply same_safe. by eapply vm_frame_safe. Qed.

Lemma map_safe i1 v1 i2 v2 perm o : map_spec a s c i1 v1 i2 v2 perm o -> sys_safe c o.
Proof. intros []; try apply same_safe. by eapply vm_frame_safe. Qed.

Lemma alloc_safe envid va perm o : alloc_spec a s c envid va perm o -> sys_safe c o.
Proof. intros []; try apply same_safe; by eapply vm_frame_safe. Qed.

Lemma send_safe envid value srcva perm o : send_spec a s c envid value srcva perm o -> sys_safe c o.
Proof. intros []; try apply same_safe; (split; [congruence|eauto]). Qed.

Lemma exofork_safe o : exofork_spec a s c o -> sys_safe c o.
Proof. intros []; try apply same_safe. split; [congruence|eauto]. Qed.

Lemma destroy_safe envid o : destroy_spec a s c envid o -> sys_safe c o.
Proof.
  intros [|e d s' ? ? ? K ->|e d a' s' ? ? ? K ? ? Hcur|d a' s1 s' ? ? ? P].
  - apply same_safe.
  - split; [exact Hc|by exists a].
  - split; [done|by exists a'].
  - by apply (sched_post_safe c a' s1).
Qed.

Lemma recv_safe dstva o : recv_spec a s c dstva o -> sys_safe c o.
Proof. intros [|s1 s' ? ? ? P]; [apply same_safe|by apply (sched_post_safe c a s1)]. Qed.

Lemma yield_safe : sys_safe c ((sys_yield ;;! ret 0) s).
Proof.
  unfold sys_yield. destruct (sched_yield_ok unit a s (kinv_switchable _ _ HK)) as (s' & E & P).
  rewrite (bind_leave _ _ _ _ E). by apply (sched_post_safe c a s).
Qed.

Lemma cgetc_safe : sys_safe c (sys_cgetc s).
Proof.
  unfold sys_cgetc, on_con. destruct (cons_getc_returns (con s)) as (k & c' & ->).
  split; [done|exists a; by apply kinv_con].
Qed.

Lemma getenvid_eq : sys_getenvid s = Ret (env_id (env_of s c)) s.
Proof. unfold sys_getenvid, the_curenv, bind, gets. by rewrite Hc. Qed.
End Safe.

(** Every call that does not copy user memory. *)
Lemma syscall_ok a s c no a1 a2 a3 a4 a5 :
  kinv a s -> curenv s = Some c -> refs_room a ->
  is_u32 a2 -> is_u32 a3 -> is_u32 a4 -> copies no = false ->
  (no = SYS_ipc_try_send -> dstva_ok s c (s32 a1) a3) ->
  sys_safe c (syscall no a1 a2 a3 a4 a5 s).
Proof.
  intros HK Hc Hroom H2 H3 H4 Hno Hdst. unfold copies in Hno. rewrite !orb_false_iff in Hno.
  destruct Hno as [[[N1 N2] N3] N4]. unfold syscall. rewrite N1, N2, N3, N4.
  pose proof (same_safe a s HK c Hc) as Hsame.
  repeat match goal with |- context [no =? ?k] => destruct (Z.eqb_spec no k) end.
  - by apply (cgetc_safe a).
  - by rewrite (getenvid_eq _ _ Hc).
  - eapply destroy_safe; [done..|]. by apply sys_env_destroy_refines.
  - by apply (yield_safe a).
  - eapply exofork_safe; [done..|]. by apply sys_exofork_refines.
  - destruct (sys_env_set_status_refines a s HK c Hc (s32 a1) (s32 a2)) as [[_ ->]|(st & _ & Hs)]; [done|].
    by eapply control_safe.
  - eapply alloc_safe; [done..|]. by apply sys_page_alloc_refines.
  - eapply map_safe; [done..|]. by apply sys_page_map_refines.
  - eapply unmap_safe; [done..|]. by apply sys_page_unmap_refines.
  - eapply control_safe; [done..|]. by apply sys_env_set_pgfault_upcall_refines.
  - eapply send_safe; [done..|]. apply sys_ipc_try_send_refines; auto.
  - eapply recv_safe; [done..|]. by apply sys_ipc_recv_refines.
  - apply Hsame.
  - apply Hsame.
Qed.
