(* ===== verification/TrapSafe.v ===== *)
(** kern/trap.c: a trap from user mode never stops the machine. Whatever the
    environment did, the kernel ends up running some environment, or the
    monitor once none is left, with its invariant. *)

From stdpp Require Import base numbers list gmap strings.
From Stdlib Require Import ZArith Lia Bool.
From S2P Require Import Prelude Mmu Console ConsoleSpec E1000 KState Pmap PmapBoot PmapSpec Paging VmOps UserMem Env Syscall Trap KInv UserAccess EnvSpec EnvFree SchedSpec TrapSpec SyscallMem SyscallEnv SyscallSafe DemoKernel.

Local Ltac Zify.zify_post_hook ::= Z.to_euclidean_division_equations.

(** A change of what the invariant does not speak about. *)
Lemma kinv_same a s s' : kinv a s -> npages s' = npages s -> pages s' = pages s -> page_free_list s' = page_free_list s ->
  mem s' = mem s -> kern_pgdir s' = kern_pgdir s -> envs s' = envs s -> env_free_list s' = env_free_list s ->
  curenv s' = curenv s -> cr3 s' = cr3 s -> tlb s' = tlb s -> kinv a s'.
Proof.
  intros [H1 [fl H2] [C1 (d & [T1 T2] & Hd) C3]] E1 E2 E3 E4 E5 E6 E7 E8 E9 E10. split.
  - by apply (mem_inv_ext a s).
  - exists fl. by apply (env_inv_ext a a fl s).
  - assert (forall i, env_of s' i = env_of s i) as E by (intros; unfold env_of; by rewrite E6). split.
    + intros c Hc. rewrite E8 in Hc. unfold live. rewrite E. by apply C1.
    + exists d. split; [|done]. split; [by rewrite E9|]. rewrite E10. exact T2.
    + unfold cr3_current, flushes in *. rewrite E8, E9. destruct (curenv s); [by rewrite E|done].
Qed.

(** The kernel has left for an environment, or for the monitor. *)
Definition left_safely (o : outcome kstate unit) : Prop :=
  exists s', o = Leave s' /\ ((exists a', kinv a' s') \/ (forall i, 0 <= i < NENV -> alive (env_of s' i) = false)).

Lemma sched_left a s s' : sched_post a s s' -> left_safely (Leave s').
Proof.
  intros P. exists s'. split; [done|]. destruct (sched_post_kinv a s s' P) as [K|[-> H]]; [left; by exists a|by right].
Qed.

(** The end of [trap]: run the current environment if it still may. *)
Definition trap_end : K unit :=
  let! c := gets curenv in
  match c with
  | Some c =>
      let! x := gets (fun s => env_of s c) in
      if status_eqb (env_status x) ENV_RUNNING then env_run c else sched_yield
  | None => sched_yield
  end.

Lemma trap_end_ok a s c : kinv a s -> curenv s = Some c -> left_safely (trap_end s).
Proof.
  intros HK Hc. unfold trap_end. rewrite (bind_ret (gets curenv) _ _ (Some c) s) by (unfold gets; by rewrite Hc).
  rewrite (bind_ret (gets _) _ _ (env_of s c) s) by done.
  pose proof (kinv_switchable _ _ HK) as HS. pose proof (ci_cur _ _ (ki_cpu _ _ HK) c Hc) as Hl.
  destruct (status_eqb _ _).
  - destruct (env_run_ok a s HS c Hl unit) as (s' & -> & [K _ _ _ _ _]). exists s'. split; [done|]. left. by exists a.
  - destruct (sched_yield_ok unit a s HS) as (s' & -> & P). by apply (sched_left a s).
Qed.

(** An environment marked for destruction while it ran elsewhere goes now. *)
Lemma dying_ok a s c : kinv a s -> curenv s = Some c ->
  left_safely ((env_free c ;;! modify (set_curenv None) ;;! sched_yield) s).
Proof.
  intros HK Hc. destruct (cur_dir a s c HK Hc) as (d & Hl & Hd & Hpg & _). destruct HK as [HM [fl HE] _].
  destruct (env_free_ok a s HM c d Hd Hpg fl HE Hl) as (a' & s1 & E & HM1 & HE1 & _).
  rewrite (bind_ret _ _ _ _ _ E), (bind_ret (modify _) _ _ tt (set_curenv None s1)) by done.
  destruct (sched_yield_ok unit a' (set_curenv None s1)) as (s' & -> & P').
  { split; [by apply (mem_inv_ext a' s1)|exists (c :: fl); by apply (env_inv_ext a' a' (c :: fl) s1)|].
    intros c'. by rewrite curenv_set. }
  by apply (sched_left a' (set_curenv None s1)).
Qed.

(** The entry from user mode: the lock is taken and the frame saved. *)
Definition trap_entry (t : Trapframe) : K tfptr :=
  lock_kernel ;;!
  let! c := gets curenv in
  match c with
  | None => panic "assertion failed: curenv"
  | Some c =>
      let! x := gets (fun s => env_of s c) in
      (if status_eqb (env_status x) ENV_DYING then
         env_free c ;;! modify (set_curenv None) ;;! sched_yield
       else ret tt) ;;!
      upd_env c (e_tf t) ;;!
      ret (TfEnv c)
  end.

Lemma trap_entry_ok a s c t : kinv a (set_locked true s) -> curenv (set_locked true s) = Some c ->
  (exists s', trap_entry t s = Leave s' /\ ((exists a', kinv a' s') \/ (forall i, 0 <= i < NENV -> alive (env_of s' i) = false)))
  \/ trap_entry t s = Ret (TfEnv c) (put_env c (e_tf t (env_of (set_locked true s) c)) (set_locked true s)).
Proof.
  intros HK Hc. unfold trap_entry. rewrite (bind_ret lock_kernel _ _ tt (set_locked true s)) by done.
  set (s1 := set_locked true s) in *. rewrite (bind_ret (gets curenv) _ _ (Some c) s1) by (unfold gets; by rewrite Hc).
  rewrite (bind_ret (gets _) _ _ (env_of s1 c) s1) by done. destruct (status_eqb _ _); [left|by right].
  destruct (dying_ok a s1 c HK Hc) as (s' & E & Hs). rewrite (bind_leave _ _ _ _ E). by exists s'.
Qed.

(** What is assumed of the argument of the trap: a system call is one of
    those that [syscall_ok] covers, and the tick counter does not overflow. *)
Record trap_args (s : kstate) (c : Z) (t : Trapframe) : Prop := {
  ta_user : Z.land (tf_cs t) 3 = 3;
  ta_esp : is_u32 (tf_esp t);
  ta_ticks : tf_trapno t = IRQ_OFFSET + IRQ_TIMER -> 0 <= ticks s /\ (ticks s + 1) * 10 < 2 ^ 32;
  ta_call : tf_trapno t = T_SYSCALL -> let r := tf_regs t in
    is_u32 (reg_ecx r) /\ is_u32 (reg_ebx r) /\ is_u32 (reg_edi r) /\ copies (reg_eax r) = false
    /\ (reg_eax r = SYS_ipc_try_send -> dstva_ok s c (s32 (reg_edx r)) (reg_ebx r))
}.

Section Dispatch.
Context (monitor : Trapframe -> K unit) (Hmon : forall t s, exists k, monitor t s = Ret tt (set_con k s)).

(** Dispatching comes back to the current environment, or leaves. *)
Lemma trap_dispatch_ok a s c fault_va : kinv a s -> curenv s = Some c -> refs_room a -> trap_args s c (env_tf (env_of s c)) ->
  left_safely (trap_dispatch monitor fault_va (TfEnv c) s)
  \/ exists a' s', trap_dispatch monitor fault_va (TfEnv c) s = Ret tt s' /\ kinv a' s' /\ curenv s' = Some c.
Proof.
  intros HK Hc Hroom [A1 A2 A3 A4]. destruct (cur_dir a s c HK Hc) as (d & Hl & Hd & Hpg & HT).
  unfold trap_dispatch. set (t := env_tf (env_of s c)) in *. rewrite (bind_ret (gets _) _ _ t s) by done. cbv zeta.
  destruct (Z.eqb_spec (tf_trapno t) (IRQ_OFFSET + IRQ_SPURIOUS)) as [_|_]; [right; by exists a, s|].
  destruct (Z.eqb_spec (tf_trapno t) (IRQ_OFFSET + IRQ_TIMER)) as [Et|_].
  { left. rewrite (bind_ret (gets ticks) _ _ (ticks s) s) by done. destruct (A3 Et) as [T1 T2].
    unfold time_tick. rewrite (u32_small (ticks s + 1)), u32_small by (unfold is_u32; lia).
    rewrite (proj2 (Z.ltb_ge _ _)) by lia. rewrite (bind_ret (modify _) _ _ tt (set_ticks (ticks s + 1) s)) by done.
    destruct (sched_yield_ok unit a (set_ticks (ticks s + 1) s)) as (s' & -> & P);
      [apply kinv_switchable; by apply (kinv_same a s)|by apply (sched_left a (set_ticks (ticks s + 1) s))]. }
  destruct (Z.eqb_spec (tf_trapno t) (IRQ_OFFSET + IRQ_KBD)) as [_|_].
  { right. unfold on_con. rewrite kbd_intr_eq. eexists a, _. split; [reflexivity|]. split; [by apply kinv_con|done]. }
  destruct (Z.eqb_spec (tf_trapno t) (IRQ_OFFSET + IRQ_SERIAL)) as [_|_].
  { right. unfold on_con. rewrite serial_intr_eq. eexists a, _. split; [reflexivity|]. split; [by apply kinv_con|done]. }
  destruct (Z.eqb_spec (tf_trapno t) T_PGFLT) as [_|_].
  { left. destruct (page_fault_handler_refines a s c d fault_va HK Hc Hl Hd Hpg HT A2)
      as [a' s1 s' _ _ _ P|? ? ? s1 U s' _ _ _ _ _ _ _ [K _ _ _ _ _]]; [by apply (sched_left a' s1)|].
    exists s'. split; [done|]. left. by exists a. }
  destruct (Z.eqb_spec (tf_trapno t) T_BRKPT) as [_|_].
  { right. destruct (Hmon t s) as [k ->]. exists a, (set_con k s). split; [done|]. split; [by apply kinv_con|done]. }
  destruct (Z.eqb_spec (tf_trapno t) T_SYSCALL) as [Et|_].
  { destruct (A4 Et) as (R1 & R2 & R3 & R4 & R5). set (r := tf_regs t) in *.
    pose proof (syscall_ok a s c (reg_eax r) (reg_edx r) (reg_ecx r) (reg_ebx r) (reg_edi r) (reg_esi r)
      HK Hc Hroom R1 R2 R3 R4 R5) as Hs.
    remember (syscall (reg_eax r) (reg_edx r) (reg_ecx r) (reg_ebx r) (reg_edi r) (reg_esi r) s) as o eqn:E. symmetry in E.
    destruct o as [v s'|s'|msg s']; [right|left|done].
    - destruct Hs as [Hc' (a' & HK')]. rewrite (bind_ret _ _ _ _ _ E). eexists a', _. split; [reflexivity|].
      pose proof (ci_cur _ _ (ki_cpu _ _ HK') c Hc') as Hl'. split; [|exact Hc']. by apply kinv_upd; try apply Hl'.
    - rewrite (bind_leave _ _ _ _ E). by exists s'. }
  left. destruct (Z.eqb_spec (tf_cs t) GD_KT) as [Ek|_]; [by rewrite Ek in A1|].
  rewrite (bind_ret the_curenv _ _ c s) by (unfold the_curenv, bind, gets; by rewrite Hc).
  destruct (destroy_current a s c d HK Hc Hl Hd Hpg) as (a' & s1 & s' & -> & _ & _ & P). by apply (sched_left a' s1).
Qed.

Lemma trap_ok a s c fault_va t : kinv a s -> curenv s = Some c -> refs_room a -> trap_args s c t ->
  left_safely (trap monitor fault_va t s).
Proof.
  intros HK Hc Hroom HA. unfold trap. set (me := cpu_of s (cpu s)). rewrite (bind_ret (gets _) _ _ me s) by done.
  set (s1 := put_cpu (cpu s) (mkCpu CPU_STARTED (cpu_env me)) s).
  rewrite (bind_ret (modify _) _ _ tt s1) by done.
  assert (curenv s1 = curenv s) as E1 by (unfold s1, curenv; cbn; rewrite cpu_of_put, decide_True by done; done).
  set (s2 := match cpu_status me with CPU_HALTED => set_locked true s1 | _ => s1 end).
  rewrite (bind_ret _ _ s1 tt s2) by (unfold s2; by destruct (cpu_status me)).
  rewrite (ta_user _ _ _ HA). change (3 =? 3) with true. cbv iota.
  set (s3 := set_locked true s2).
  assert (curenv s3 = Some c) as E3 by (unfold s3, s2; rewrite <- Hc, <- E1; by destruct (cpu_status me)).
  assert (kinv a s3) as K3.
  { apply (kinv_same a s); try done; try (unfold s3, s2; by destruct (cpu_status me)). }
  assert (forall i, env_of s3 i = env_of s i) as Ee by (intros; unfold s3, s2; by destruct (cpu_status me)).
  pose proof (ci_cur _ _ (ki_cpu _ _ K3) c E3) as Hl3.
  destruct (trap_entry_ok a s2 c t K3 E3) as [(s' & E & Hs)|E].
  { unfold trap_entry in E. rewrite (bind_leave _ _ _ _ E). by exists s'. }
  unfold trap_entry in E. fold s3 in E.
  set (s4 := put_env c (e_tf t (env_of s3 c)) s3).
  rewrite (bind_ret _ _ _ _ _ E). clear E.
  assert (kinv a s4) as K4 by (apply kinv_upd; try done; apply Hl3).
  assert (env_tf (env_of s4 c) = t) as Et by (unfold s4; by rewrite env_of_put, decide_True).
  assert (trap_args s4 c (env_tf (env_of s4 c))) as HA4.
  { rewrite Et. destruct HA as [B1 B2 B3 B4]. split; [done|done| |].
    - intros H. replace (ticks s4) with (ticks s) by (unfold s4, s3, s2; by destruct (cpu_status me)). by apply B3.
    - intros H. destruct (B4 H) as (R1 & R2 & R3 & R4 & R5). split_and!; try done. intros Hsend e Hn Hv.
      assert (forall i, env_id (env_of s4 i) = env_id (env_of s i) /\ env_ipc_dstva (env_of s4 i) = env_ipc_dstva (env_of s i)
        /\ env_status (env_of s4 i) = env_status (env_of s i)) as Ei.
      { intros i. unfold s4. rewrite env_of_put. destruct (decide (c = i)) as [<-|]; rewrite Ee; done. }
      destruct (Ei e) as (I1 & -> & I3). apply (R5 Hsend e); [|done].
      destruct Hn as [Hn|(N1 & [N2 N3] & N4)]; [by left|right]. rewrite I1 in N4. rewrite I3 in N3. by split_and!. }
  destruct (trap_dispatch_ok a s4 c fault_va K4 E3 Hroom HA4) as [(s' & E & Hs)|(a' & s' & E & K' & Hc')].
  - rewrite (bind_leave _ _ _ _ E). by exists s'.
  - rewrite (bind_ret _ _ _ _ _ E). exact (trap_end_ok a' s' c K' Hc').
Qed.
End Dispatch.

(** * Theorems *)


(** The parent of the example kernel makes a system call. *)
Definition demo_frame (no : Z) : Trapframe := mkTf (mkRegs 0 0 0 0 0 0 0 no) 0 0 T_SYSCALL 0 0 0x1b 0 0 0.

Lemma demo_trap_args : trap_args kdemo 0 (demo_frame SYS_yield).
Proof.
  split; [reflexivity|by vm_compute|discriminate|]. intros _. cbv zeta.
  split; [by vm_compute|]. split; [by vm_compute|]. split; [by vm_compute|]. split; [reflexivity|]. discriminate.
Qed.


(** C13: a page fault in user mode: an environment without a handler, or
    whose exception stack cannot take the fault record, is destroyed; any
    other goes on in its handler with the record stored below its stack
    pointer if it was on the exception stack already (with a word to spare),
    else at the top of that stack, and the kernel changes no other memory. *)
Theorem page_fault_correct a s c fault_va :
  kinv a s -> curenv s = Some c -> is_u32 (tf_esp (env_tf (env_of s c))) ->
  exists d, d ∈ v_dirs a /\ env_pgdir (env_of s c) = frame_kva d
    /\ fault_spec a s c d fault_va (page_fault_handler fault_va (TfEnv c) s).
Proof.
  intros HK Hc He. destruct (cur_dir a s c HK Hc) as (d & Hl & Hd & Hpg & HT). exists d. split; [done|]. split; [done|].
  by apply page_fault_handler_refines.
Qed.

Lemma page_fault_correct_witness :
  exists d, d ∈ v_dirs kdemo_vm /\ env_pgdir (env_of kdemo 0) = frame_kva d
    /\ fault_spec kdemo_vm kdemo 0 d 0xdead (page_fault_handler 0xdead (TfEnv 0) kdemo).
Proof.
  apply (page_fault_correct kdemo_vm kdemo 0 0xdead kdemo_kinv eq_refl). rewrite kdemo_0. by vm_compute.
Defined.
