(* ===== verification/SyscallProps.v ===== *)
(** The system calls, stated for a kernel in its invariant: each call is one
    of the outcomes of its specification, and none of them can break the
    kernel. *)

From stdpp Require Import base numbers list gmap strings.
From Stdlib Require Import ZArith Lia Bool.
From S2P Require Import Prelude Mmu Console ConsoleSpec KState Pmap PmapBoot PmapSpec Paging VmOps Env Syscall KInv EnvSpec EnvFree SchedSpec SyscallMem SyscallEnv SyscallSafe DemoKernel.



(** [sys_page_alloc]: every argument error is reported without effect;
    otherwise a page that was free, and reads as zero, is mapped at the
    address in the target's address space with the permissions asked for, and
    no other mapping and no other page in use changes. It fails with
    -E_NO_MEM only if the free list cannot serve the page and its page
    table, and then the free list keeps every page. *)
Lemma sys_page_alloc_correct a s c envid va perm :
  kinv a s -> curenv s = Some c -> is_u32 va -> alloc_spec a s c envid va perm (sys_page_alloc envid va perm s).
Proof. apply sys_page_alloc_refines. Qed.

(** C5: [sys_page_map] shares a page only between environments the caller
    controls, only if it is mapped at the source, and never writable from a
    read-only mapping; then exactly the mapping at the destination changes. *)
Theorem sys_page_map_correct a s c srcid srcva dstid dstva perm :
  kinv a s -> curenv s = Some c -> refs_room a -> is_u32 srcva -> is_u32 dstva ->
  map_spec a s c srcid srcva dstid dstva perm (sys_page_map srcid srcva dstid dstva perm s).
Proof. apply sys_page_map_refines. Qed.

Lemma sys_page_map_correct_witness :
  map_spec kdemo_vm kdemo 0 0 0x1000 0x1001 0x3000 5 (sys_page_map 0 0x1000 0x1001 0x3000 5 kdemo)
  /\ run_val (sys_page_map 0 0x1000 0x1001 0x3000 5 kdemo) = Some 0.
Proof.
  split; [|vm_compute; reflexivity].
  apply (sys_page_map_correct kdemo_vm kdemo 0); [exact kdemo_kinv|reflexivity|exact kdemo_room|by split..].
Defined.

(** [sys_page_unmap] removes exactly the mapping it is asked to remove
    and leaves every page in use as it is. *)
Lemma sys_page_unmap_correct a s c envid va :
  kinv a s -> curenv s = Some c -> is_u32 va -> unmap_spec a s c envid va (sys_page_unmap envid va s).
Proof. apply sys_page_unmap_refines. Qed.



(** C16: [sys_exofork] takes a free slot and one free page, the new page
    directory. The child exists, belongs to the caller, does not run yet, has
    an identifier its slot never had before, an empty user address space and
    the kernel's mappings, and resumes with the caller's registers and the
    return value 0. Nobody else changes; on failure nothing changes. *)
Theorem sys_exofork_correct a s c : kinv a s -> curenv s = Some c -> exofork_spec a s c (sys_exofork s).
Proof. apply sys_exofork_refines. Qed.

Lemma sys_exofork_correct_witness :
  exofork_spec kdemo_vm kdemo 0 (sys_exofork kdemo) /\ run_val (sys_exofork kdemo) = Some 0x1002.
Proof.
  split; [|vm_compute; reflexivity].
  apply (sys_exofork_correct kdemo_vm kdemo 0); [exact kdemo_kinv|reflexivity].
Defined.

(** C17: [sys_env_destroy] destroys only the caller or one of its children.
    One that runs on another CPU is marked to die, one that does not is freed
    with all its mappings, and the caller itself is freed and the next
    environment runs. *)
Theorem sys_env_destroy_correct a s c envid :
  kinv a s -> curenv s = Some c -> destroy_spec a s c envid (sys_env_destroy envid s).
Proof. apply sys_env_destroy_refines. Qed.

Lemma sys_env_destroy_correct_witness :
  destroy_spec kdemo_vm kdemo 0 0x1001 (sys_env_destroy 0x1001 kdemo).
Proof. apply (sys_env_destroy_correct kdemo_vm kdemo 0); [exact kdemo_kinv|reflexivity]. Defined.

(** C6: [env_free] unmaps and releases everything the environment owns: its
    pages lose a reference, its page tables and its directory return to the
    free list (no page is leaked), its slot becomes free, and no other
    environment and no other address space changes. If the environment was
    the current one the CPU is back on the kernel's directory. *)
Theorem env_free_correct a s fl e d :
  mem_inv a s -> env_inv a fl s -> live s e -> d ∈ v_dirs a -> env_pgdir (env_of s e) = frame_kva d ->
  exists a' s', env_free e s = Ret tt s' /\ mem_inv a' s' /\ env_inv a' (e :: fl) s' /\ v_freed d a a'
    /\ (forall i, i <> e -> env_of s' i = env_of s i)
    /\ (curenv s = Some e -> cr3 s' = v_kdir a * PGSIZE /\ tlb s' = ∅).
Proof.
  intros HM HE Hl Hd Hpg.
  destruct (env_free_ok a s HM e d Hd Hpg fl HE Hl) as (a' & s' & E & H1 & H2 & H3 & _ & _ & H4 & H5 & _).
  by exists a', s'.
Qed.

Lemma env_free_correct_witness : exists a' s', env_free 0 kdemo = Ret tt s' /\ mem_inv a' s' /\ v_freed 2 kdemo_vm a'.
Proof.
  destruct (env_free_correct kdemo_vm kdemo (seqZ 2 1022) 0 2) as (a' & s' & E & H1 & _ & H2 & _).
  - apply kdemo_kinv.
  - apply kdemo_env_inv.
  - apply kdemo_live0.
  - simpl. set_solver.
  - by rewrite kdemo_0.
  - exists a', s'. exact (conj E (conj H1 H2)).
Defined.

(** C18: [sched_yield] never returns and always finds what to run: the first
    runnable environment in circular order from the current one, otherwise
    the current one if it is still running, otherwise it halts; it stays in
    the kernel only if no environment is left. Whoever runs next finds its
    own registers and its own address space loaded. *)
Theorem sched_yield_correct a s : kinv a s -> exists s', @sched_yield Z s = Leave s' /\ sched_post a s s'.
Proof. intros HK. by apply sched_yield_ok, kinv_switchable. Qed.

Lemma sched_yield_correct_witness : exists s', @sched_yield Z kdemo = Leave s' /\ sched_post kdemo_vm kdemo s'.
Proof. apply (sched_yield_correct kdemo_vm kdemo). exact kdemo_kinv. Defined.

(** [env_init] puts every slot on the free list in the order of the
    table, so that the first [env_alloc] takes slot 0, and establishes the
    table's invariant while no address space exists. *)
Lemma env_init_correct a s : env_free_list s = None -> v_dirs a = ∅ ->
  exists s', env_init s = Ret tt s' /\ env_frame s s' /\ env_inv a (seqZ 0 NENV) s'.
Proof.
  intros Hn Hd. destruct (env_init_spec s Hn) as (s' & E & HI). exists s'.
  split; [done|]. split; [apply (ii_frame _ _ _ HI)|by apply (env_init_inv_ok a s)].
Qed.

