(* ===== verification/UlibSpec.v ===== *)
(** The user library on the verified kernel: what the system call stubs of
    lib/syscall.c, user loads and stores, [memmove] of a page and the page
    table view of lib/fork.c do, in terms of the abstract address spaces. *)

From stdpp Require Import base numbers list gmap strings.
From Stdlib Require Import ZArith Lia Bool.
From S2P Require Import Prelude Mmu KState Pmap PmapBoot PmapSpec Paging VmOps Env Syscall Trap Ulib KInv EnvSpec TrapSpec SyscallMem SyscallEnv SyscallSafe.

Local Ltac Zify.zify_post_hook ::= Z.to_euclidean_division_equations.

(** * A running program *)

(** Environment [c], with the directory [d], runs in the state [u]. *)
Record runs (a : vm) (c d : Z) (u : ustate) : Prop := {
  ru_inv : kinv a (kern u);
  ru_cur : curenv (kern u) = Some c;
  ru_this : thisenv u = c;
  ru_dir : d ∈ v_dirs a;
  ru_pgdir : env_pgdir (env_of (kern u) c) = frame_kva d
}.

Lemma vm_frame_env s s' i : vm_frame s s' -> env_of s' i = env_of s i.
Proof. by intros (? & ? & ? & ? & ->). Qed.

(** The directory of an environment stays in use. *)
Lemma dir_kept a' s' i d : kinv a' s' -> live s' i -> env_pgdir (env_of s' i) = frame_kva d -> d ∈ v_dirs a'.
Proof.
  intros [_ [fl HE] _] Hl Hp. destruct (ei_dir _ _ _ HE i Hl) as (d' & Hd' & Hp').
  rewrite Hp in Hp'. by apply frame_kva_inj in Hp' as ->.
Qed.

(** An environment that is named stays named when only memory changes. *)
Lemma target_vm a a' s s' c envid e de : target a s c envid e de -> kinv a' s' -> vm_frame s s' -> target a' s' c envid e de.
Proof.
  intros (Hn & Hm & Hl & _ & Hp) HK HF. unfold target, names, may_control. rewrite !(vm_frame_env s s') by done.
  assert (forall i, live s' i <-> live s i) as Hli by (intros i; unfold live; by rewrite (vm_frame_env s s')).
  rewrite !Hli. repeat (split; [done|]). split; [|done].
  apply (dir_kept a' s' e); [done|by apply Hli|by rewrite (vm_frame_env s s')].
Qed.

(** What a change to the address spaces leaves as it was. *)
Record vstep (a : vm) (s : kstate) (M : gmap (Z * Z) (Z * Z)) (a' : vm) (s' : kstate) : Prop := {
  vs_inv : kinv a' s';
  vs_frame : vm_frame s s';
  vs_data : forall q, data_frame a q -> same_frame q s s';
  vs_maps : v_maps a' = M
}.

Section Runs.
Context (a : vm) (c d : Z) (u : ustate) (HU : runs a c d u).
Local Abbreviation s := (kern u).

Lemma runs_live : live s c.
Proof. apply (ci_cur _ _ (ki_cpu _ _ (ru_inv _ _ _ _ HU))), (ru_cur _ _ _ _ HU). Qed.

Lemma runs_tlb : tlb_ok d a s.
Proof.
  destruct (cur_dir a s c (ru_inv _ _ _ _ HU) (ru_cur _ _ _ _ HU)) as (d' & _ & _ & Hp & HT).
  rewrite (ru_pgdir _ _ _ _ HU) in Hp. by apply frame_kva_inj in Hp as ->.
Qed.

Lemma runs_kern s' a' : kinv a' s' -> curenv s' = curenv s -> env_pgdir (env_of s' c) = env_pgdir (env_of s c) ->
  runs a' c d (set_kern s' u).
Proof.
  intros HK Hc He. destruct HU as [U1 U2 U3 U4 U5]. split; cbn; rewrite ?Hc, ?He; try done.
  apply (dir_kept a' s' c); [done| |by rewrite He]. apply (ci_cur _ _ (ki_cpu _ _ HK)). by rewrite Hc.
Qed.

Lemma runs_vm s' a' : kinv a' s' -> vm_frame s s' -> runs a' c d (set_kern s' u).
Proof. intros HK HF. apply runs_kern; [done|by apply vm_frame_curenv|by rewrite (vm_frame_env s s')]. Qed.

(** An environment names itself by its identifier. *)
Lemma self_target : 0 < env_id (env_of s c) < 2 ^ 31 /\ target a s c (env_id (env_of s c)) c d.
Proof.
  destruct (ki_env _ _ (ru_inv _ _ _ _ HU)) as [fl HE]. pose proof runs_live as Hl.
  destruct (ei_id _ _ _ HE c Hl) as [_ Hid]. split; [done|].
  split; [right; split; [lia|done]|]. split; [by left|]. split; [done|]. split; apply HU.
Qed.

Lemma target_id envid e de : target a s c envid e de -> 0 <= envid < 2 ^ 31.
Proof.
  intros (Hn & _). destruct (ki_env _ _ (ru_inv _ _ _ _ HU)) as [fl HE].
  destruct Hn as [[-> _]|(_ & Hl & <-)]; [lia|]. destruct (ei_id _ _ _ HE e Hl) as [_ Hid]. lia.
Qed.

Lemma target_fun envid e de e' de' : target a s c envid e de -> target a s c envid e' de' -> e' = e /\ de' = de.
Proof.
  intros (Hn & _ & _ & _ & Hp) (Hn' & _ & _ & _ & Hp'). destruct (ki_env _ _ (ru_inv _ _ _ _ HU)) as [fl HE].
  assert (e' = e) as ->.
  { destruct Hn as [[-> ->]|(Hz & Hl & <-)], Hn' as [[Hz' ->]|(Hz' & Hl' & Eq)]; try done.
    destruct (ei_id _ _ _ HE e Hl) as [<- _], (ei_id _ _ _ HE e' Hl') as [<- _]. by rewrite Eq. }
  split; [done|]. rewrite Hp in Hp'. by apply frame_kva_inj in Hp'.
Qed.

Lemma target_some envid e de : target a s c envid e de -> ~ no_target s c envid.
Proof. intros (Hn & Hm & _) Hno. by apply (Hno e). Qed.

(** * System calls *)

Lemma usyscall_ret num check a1 a2 a3 a4 a5 r s' :
  syscall num (u32 a1) (u32 a2) (u32 a3) (u32 a4) (u32 a5) s = Ret r s' -> (check = true -> r <= 0) ->
  usyscall num check a1 a2 a3 a4 a5 u = Ret r (set_kern s' u).
Proof.
  intros E Hr. unfold usyscall. rewrite (bind_ret _ _ u r (set_kern s' u)) by (unfold call; by rewrite E).
  destruct check; [|done]. cbn [andb]. by rewrite (proj2 (Z.ltb_ge 0 r)) by auto.
Qed.

Lemma arg_id x : 0 <= x < 2 ^ 31 -> s32 (u32 x) = x.
Proof. intros. by rewrite u32_small, s32_small by (done || (unfold is_u32; lia)). Qed.

Lemma usys_getenvid_ok : usys_getenvid u = Ret (env_id (env_of s c)) u.
Proof.
  unfold usys_getenvid. rewrite (usyscall_ret _ _ _ _ _ _ _ (env_id (env_of s c)) s); [by destruct u| |done].
  change (syscall SYS_getenvid _ _ _ _ _ s) with (sys_getenvid s).
  unfold sys_getenvid, the_curenv, bind, gets. by rewrite (ru_cur _ _ _ _ HU).
Qed.

Lemma usys_page_map_ok id1 va1 id2 va2 perm es ds ed dd p f :
  target a s c id1 es ds -> target a s c id2 ed dd -> is_u32 va1 -> is_u32 va2 -> map_args_bad va1 va2 perm = false ->
  v_maps a !! (ds, PGNUM va1) = Some (p, f) -> (flag perm PTE_W = true -> flag f PTE_W = true) ->
  refs_room a -> ~ v_full dd (PDX va2) a ->
  exists a' s', usys_page_map id1 va1 id2 va2 perm u = Ret 0 (set_kern s' u)
    /\ vstep a s (<[(dd, PGNUM va2) := (p, perm)]> (v_maps a)) a' s' /\ takes 0 dd va2 a a'.
Proof.
  intros T1 T2 H1 H2 Hargs Hm HW Hroom Hnf.
  assert (0 <= perm < PGSIZE) as Hp by (apply good_perm; unfold map_args_bad in Hargs; rewrite !orb_false_iff in Hargs; tauto).
  pose proof (sys_page_map_refines a s c id1 va1 id2 va2 perm (ru_inv _ _ _ _ HU) (ru_cur _ _ _ _ HU) Hroom H1 H2) as HS.
  assert (syscall SYS_page_map (u32 id1) (u32 va1) (u32 id2) (u32 va2) (u32 perm) s = sys_page_map id1 va1 id2 va2 perm s) as E.
  { change (syscall SYS_page_map ?x1 ?x2 ?x3 ?x4 ?x5 s) with (sys_page_map (s32 x1) x2 (s32 x3) x4 (s32 x5) s).
    rewrite (arg_id id1), (arg_id id2), (u32_small va1), (u32_small va2) by (done || by eapply target_id).
    rewrite arg_id by (unfold PGSIZE in Hp; lia). reflexivity. }
  inversion HS as [[Hno|Hno]|es' ds' ed' dd' T1' T2' Hbad|es' ds' ed' dd' T1' T2' _ _ Hfull|es' ds' ed' dd' p' f' a' s' T1' T2' _ Hm' _ HK HF HD HM HT]; subst.
  - by destruct (target_some _ _ _ T1).
  - by destruct (target_some _ _ _ T2).
  - destruct (target_fun _ _ _ _ _ T1 T1') as [-> ->]. destruct Hbad as [Hb|Hb]; [congruence|].
    unfold share_denied in Hb. rewrite Hm in Hb. destruct (flag perm PTE_W); [|done]. by rewrite HW in Hb.
  - by destruct (target_fun _ _ _ _ _ T2 T2') as [-> ->].
  - destruct (target_fun _ _ _ _ _ T1 T1') as [-> ->], (target_fun _ _ _ _ _ T2 T2') as [-> ->].
    rewrite Hm in Hm'. injection Hm' as <- <-. exists a', s'. split; [|by split].
    unfold usys_page_map. apply usyscall_ret; [rewrite E; congruence|discriminate].
Qed.

Lemma usys_page_alloc_ok id va perm e de :
  target a s c id e de -> is_u32 va -> 0 <= perm < PGSIZE -> alloc_arg_error va perm = None -> (2 <= length (v_free a))%nat ->
  exists p a' s', usys_page_alloc id va perm u = Ret 0 (set_kern s' u) /\ p ∈ v_free a
    /\ vstep a s (<[(de, PGNUM va) := (p, perm)]> (v_maps a)) a' s' /\ takes 1 de va a a'
    /\ (forall j, 0 <= j < 1024 -> word_at s' (p * 1024 + j) = 0).
Proof.
  intros T Hva Hp Hargs Hfree.
  pose proof (sys_page_alloc_refines a s c id va perm (ru_inv _ _ _ _ HU) (ru_cur _ _ _ _ HU) Hva) as HS.
  assert (syscall SYS_page_alloc (u32 id) (u32 va) (u32 perm) (u32 0) (u32 0) s = sys_page_alloc id va perm s) as E.
  { change (syscall SYS_page_alloc ?x1 ?x2 ?x3 ?x4 ?x5 s) with (sys_page_alloc (s32 x1) x2 (s32 x3) s).
    rewrite (arg_id id), (u32_small va) by (done || by eapply target_id).
    rewrite arg_id by (unfold PGSIZE in Hp; lia). reflexivity. }
  inversion HS as [err Herr|_ Hno|e' d' s' _ _ Hno|e' d' p a' s' _ T' Hpf HK HF HD HM HT Hz]; subst.
  - congruence.
  - by destruct (target_some _ _ _ T).
  - destruct Hno as [Hno|(p & Hno & _)]; rewrite Hno in Hfree; cbn in Hfree; lia.
  - destruct (target_fun _ _ _ _ _ T T') as [-> ->]. exists p, a', s'. split; [|by split_and!].
    unfold usys_page_alloc. apply usyscall_ret; [rewrite E; congruence|discriminate].
Qed.

Lemma usys_page_unmap_ok id va e de :
  target a s c id e de -> is_u32 va -> va < UTOP -> PGOFF va = 0 ->
  exists a' s', usys_page_unmap id va u = Ret 0 (set_kern s' u)
    /\ vstep a s (delete (de, PGNUM va) (v_maps a)) a' s' /\ v_tabs a' = v_tabs a /\ (length (v_free a) <= length (v_free a'))%nat.
Proof.
  intros T Hva Hu Ho.
  pose proof (sys_page_unmap_refines a s c id va (ru_inv _ _ _ _ HU) (ru_cur _ _ _ _ HU) Hva) as HS.
  assert (syscall SYS_page_unmap (u32 id) (u32 va) (u32 0) (u32 0) (u32 0) s = sys_page_unmap id va s) as E.
  { change (syscall SYS_page_unmap ?x1 ?x2 ?x3 ?x4 ?x5 s) with (sys_page_unmap (s32 x1) x2 s).
    rewrite arg_id, u32_small by (done || by eapply target_id). reflexivity. }
  inversion HS as [Hno|e' d' T' Hbad|e' d' a' s' T' _ _ HK HF HD HM HT Hf]; subst.
  - by destruct (target_some _ _ _ T).
  - lia.
  - destruct (target_fun _ _ _ _ _ T T') as [-> ->]. exists a', s'. split; [|by split_and!].
    unfold usys_page_unmap. apply usyscall_ret; [rewrite E; congruence|discriminate].
Qed.

(** The calls that change one environment. *)
Lemma usys_control f id e de m : target a s c id e de -> control_spec a s c id f (m s) ->
  exists s', m s = Ret 0 s' /\ kinv a s' /\ s' = put_env e (f (env_of s e)) s.
Proof.
  intros T HS. inversion HS as [Hno|e' d' s' T' HK HE]; subst.
  - by destruct (target_some _ _ _ T).
  - destruct (target_fun _ _ _ _ _ T T') as [-> ->]. by exists s'.
Qed.

Lemma usys_env_set_pgfault_upcall_ok id func e de : target a s c id e de -> is_u32 func ->
  exists s', usys_env_set_pgfault_upcall id func u = Ret 0 (set_kern s' u)
    /\ kinv a s' /\ s' = put_env e (e_upcall func (env_of s e)) s.
Proof.
  intros T Hf. destruct (usys_control (e_upcall func) id e de (sys_env_set_pgfault_upcall id func) T) as (s' & E & HK & Es).
  { apply sys_env_set_pgfault_upcall_refines; apply HU. }
  exists s'. split; [|done]. unfold usys_env_set_pgfault_upcall. apply usyscall_ret; [|discriminate].
  change (syscall SYS_env_set_pgfault_upcall ?x1 ?x2 ?x3 ?x4 ?x5 s) with (sys_env_set_pgfault_upcall (s32 x1) x2 s).
  rewrite arg_id, u32_small by (done || by eapply target_id). done.
Qed.

Lemma usys_env_set_runnable_ok id e de : target a s c id e de ->
  exists s', usys_env_set_status id (status_Z ENV_RUNNABLE) u = Ret 0 (set_kern s' u)
    /\ kinv a s' /\ s' = put_env e (e_status ENV_RUNNABLE (env_of s e)) s.
Proof.
  intros T. destruct (usys_control (e_status ENV_RUNNABLE) id e de (sys_env_set_status id (status_Z ENV_RUNNABLE)) T) as (s' & E & HK & Es).
  { destruct (sys_env_set_status_refines a s (ru_inv _ _ _ _ HU) c (ru_cur _ _ _ _ HU) id (status_Z ENV_RUNNABLE)) as [[Hb _]|(st & Hb & HS)];
      [done|]. by injection Hb as <-. }
  exists s'. split; [|done]. unfold usys_env_set_status. apply usyscall_ret; [|discriminate].
  change (syscall SYS_env_set_status ?x1 ?x2 ?x3 ?x4 ?x5 s) with (sys_env_set_status (s32 x1) (s32 x2) s).
  rewrite arg_id by (by eapply target_id). exact E.
Qed.
End Runs.

(** * User memory *)

Section Access.
Context (a : vm) (c d : Z).

(** What a load or store of the program keeps: everything but memory and the
    translation cache. *)
Lemma access_runs u m tl : runs a c d u -> vm_rel no_ex a (set_cr3 (cr3 (kern u)) tl (set_mem m (kern u))) ->
  tlb_ok d a (set_cr3 (cr3 (kern u)) tl (set_mem m (kern u))) ->
  let s' := set_cr3 (cr3 (kern u)) tl (set_mem m (kern u)) in
  kinv a s' /\ vm_frame (kern u) s' /\ runs a c d (set_kern s' u).
Proof.
  intros HU HR HT s'. pose proof (ru_inv _ _ _ _ HU) as HK.
  assert (vm_frame (kern u) s') as HF.
  { exists (pages (kern u)), (page_free_list (kern u)), m, tl. unfold s'. by destruct (kern u). }
  assert (kinv a s') as HK'.
  { apply (kinv_vm a a (kern u) s' d); try done; [apply (mi_leak _ _ (ki_mem _ _ HK))|left; apply HU]. }
  split_and!; [done|done|]. by apply (runs_vm a c d u HU).
Qed.

(** A page the program may use. *)
Definition user_page (v p : Z) (write : bool) : Prop :=
  0 <= v < UVPN /\ exists f, v_maps a !! (d, v) = Some (p, f) /\ flag f PTE_U = true /\ (write = true -> flag f PTE_W = true).

(** Word [j] of page [v]. *)
Definition word_va (v j : Z) : Z := v * PGSIZE + 4 * j.

Lemma word_va_ok v j : 0 <= v < UVPN -> 0 <= j < 1024 ->
  is_u32 (word_va v j) /\ word_va v j < UTOP /\ PGNUM (word_va v j) = v /\ PGOFF (word_va v j) = 4 * j.
Proof.
  intros Hv Hj. rewrite UVPN_val in Hv. unfold word_va. change PGSIZE with 4096.
  assert (is_u32 (v * 4096 + 4 * j)) as Hu by (unfold is_u32; lia). change UTOP with 4005560320.
  rewrite PGNUM_div, PGOFF_mod by done. change PGSIZE with 4096. split_and!; [done|lia..].
Qed.

Lemma user_access u v p w j : runs a c d u -> user_page v p w -> 0 <= j < 1024 ->
  exists tl, mmu_access true w (word_va v j) (kern u) = Ret (Some ((p * 1024 + j) * 4)) (set_cr3 (cr3 (kern u)) tl (kern u))
    /\ tlb_ok d a (set_cr3 (cr3 (kern u)) tl (kern u)).
Proof.
  intros HU (Hv & f & Hm & HfU & HfW) Hj. destruct (word_va_ok v j Hv Hj) as (Hu & Ht & Hn & Ho).
  pose proof (mi_vm _ _ (ki_mem _ _ (ru_inv _ _ _ _ HU))) as HR.
  destruct (mmu_access_eq no_ex a (kern u) d HR (runs_tlb a c d u HU) (or_introl (ru_dir _ _ _ _ HU)) (word_va v j) Hu Ht true w) as (tl & E & Htl).
  exists tl. split; [|done]. rewrite E. unfold v_translate. rewrite Hn, Hm, Ho. unfold may_access. rewrite HfU.
  destruct w; [rewrite HfW by done|]; cbn [negb orb andb]; do 2 f_equal; unfold PGSIZE; lia.
Qed.

Lemma uload32_ok u v p j : runs a c d u -> user_page v p false -> 0 <= j < 1024 ->
  exists s', uload32 (word_va v j) u = Ret (word_at (kern u) (p * 1024 + j)) (set_kern s' u)
    /\ runs a c d (set_kern s' u) /\ vm_frame (kern u) s' /\ mem s' = mem (kern u).
Proof.
  intros HU HP Hj. destruct (user_access u v p false j HU HP Hj) as (tl & E & HT).
  destruct (word_va_ok v j (proj1 HP) Hj) as (Hu & _). set (s' := set_cr3 (cr3 (kern u)) tl (kern u)) in *.
  pose proof (mi_vm _ _ (ki_mem _ _ (ru_inv _ _ _ _ HU))) as HR.
  assert (s' = set_cr3 (cr3 (kern u)) tl (set_mem (mem (kern u)) (kern u))) as Es by (unfold s'; by destruct (kern u)).
  exists s'. split; [|split; [|split; [|done]]].
  - unfold uload32. rewrite u32_small by done.
    assert (call (vload32 true (word_va v j)) u = Ret (Some (word_at (kern u) (p * 1024 + j))) (set_kern s' u)) as Ec.
    { unfold call, vload32, bind. rewrite E. unfold gets. rewrite Z.div_mul by done. reflexivity. }
    by rewrite (bind_ret _ _ _ _ _ Ec).
  - rewrite Es. apply access_runs; [done|rewrite <- Es; by apply vm_rel_tlb|by rewrite <- Es].
  - rewrite Es. apply access_runs; [done|rewrite <- Es; by apply vm_rel_tlb|by rewrite <- Es].
Qed.

Lemma ustore32_ok u v p j x : runs a c d u -> user_page v p true -> 0 <= j < 1024 ->
  exists s', ustore32 (word_va v j) x u = Ret tt (set_kern s' u)
    /\ call (vstore32 true (word_va v j) x) u = Ret true (set_kern s' u)
    /\ runs a c d (set_kern s' u) /\ vm_frame (kern u) s'
    /\ forall w, word_at s' w = if decide (w = p * 1024 + j) then u32 x else word_at (kern u) w.
Proof.
  intros HU HP Hj. destruct (user_access u v p true j HU HP Hj) as (tl & E & HT).
  destruct (word_va_ok v j (proj1 HP) Hj) as (Hu & Hlt & Hn & Ho).
  pose proof (mi_vm _ _ (ki_mem _ _ (ru_inv _ _ _ _ HU))) as HR.
  set (m := <[p * 1024 + j := u32 x]> (mem (kern u))). set (s' := set_cr3 (cr3 (kern u)) tl (set_mem m (kern u))).
  assert (call (vstore32 true (word_va v j) x) u = Ret true (set_kern s' u)) as Ec.
  { unfold call, vstore32, bind. rewrite E. unfold modify, ret. rewrite Z.div_mul by done. reflexivity. }
  assert (vm_rel no_ex a s') as HR'.
  { destruct HP as (Hv & f & Hm & _). destruct (user_frame_private _ a _ d v p f HR Hm ltac:(lia)) as (Hd & Ht & _).
    apply (vm_rel_tlb no_ex a (set_mem m (kern u))). by apply vm_rel_store. }
  destruct (access_runs u m tl HU HR') as (_ & HF & HU'); [exact HT|].
  exists s'. split; [|split; [exact Ec|split; [exact HU'|split; [exact HF|]]]].
  - unfold ustore32. rewrite u32_small by done. by rewrite (bind_ret _ _ _ _ _ Ec).
  - intros w. unfold word_at, s'. cbn [mem set_cr3 set_mem]. unfold m. destruct (decide (w = p * 1024 + j)) as [->|Hne];
      [apply mget_insert|by apply mget_insert_ne].
Qed.

(** [memmove] of one page to another. *)
Lemma memmove_page u vd vs pd ps : runs a c d u -> user_page vd pd true -> user_page vs ps false -> pd <> ps -> vd <> vs ->
  exists s', memmove (vd * PGSIZE) (vs * PGSIZE) PGSIZE u = Ret tt (set_kern s' u)
    /\ runs a c d (set_kern s' u) /\ vm_frame (kern u) s'
    /\ (forall j, 0 <= j < 1024 -> word_at s' (pd * 1024 + j) = word_at (kern u) (ps * 1024 + j))
    /\ (forall w, w / 1024 <> pd -> word_at s' w = word_at (kern u) w).
Proof.
  intros HU HD HS Hp Hne. destruct (word_va_ok vd 0 (proj1 HD) ltac:(lia)) as (Ud & Td & _), (word_va_ok vs 0 (proj1 HS) ltac:(lia)) as (Us & Ts & _).
  unfold word_va, is_u32 in *. change UTOP with 4005560320 in *. change PGSIZE with 4096 in *. unfold memmove.
  replace ((vs * 4096 <? vd * 4096) && (vd * 4096 <? u32 (vs * 4096 + 4096))) with false.
  2:{ rewrite u32_small by (unfold is_u32; lia). destruct (Z.ltb_spec (vs * 4096) (vd * 4096)), (Z.ltb_spec (vd * 4096) (vs * 4096 + 4096)); cbn; lia. }
  replace ((vs * 4096) mod 4) with 0 by lia. replace ((vd * 4096) mod 4) with 0 by lia. cbn [andb Z.eqb].
  change (4096 mod 4 =? 0) with true. change (4096 / 4) with 1024. cbv iota.
  destruct (for_loop_inv (fun k u' => runs a c d u' /\ (exists s', u' = set_kern s' u /\ vm_frame (kern u) s')
      /\ (forall j, 0 <= j < k -> word_at (kern u') (pd * 1024 + j) = word_at (kern u) (ps * 1024 + j))
      /\ (forall w, (forall j, 0 <= j < k -> w <> pd * 1024 + j) -> word_at (kern u') w = word_at (kern u) w))
    (fun k => let! w := uload32 (vs * 4096 + 4 * k) in ustore32 (vd * 4096 + 4 * k) w) (Z.to_nat 1024) 0 u)
    as (u' & E & HU' & (s' & -> & HF) & H1 & H2).
  - split_and!; try done; [|intros; lia]. exists (kern u). split; [by destruct u|apply vm_frame_refl].
  - intros k u1 Hk (HU1 & (s1 & Eu & HF1) & C1 & C2).
    destruct (uload32_ok u1 vs ps k HU1 HS ltac:(lia)) as (s2 & E2 & HU2 & HF2 & M2).
    destruct (ustore32_ok (set_kern s2 u1) vd pd k (word_at (kern u1) (ps * 1024 + k)) HU2 HD ltac:(lia)) as (s3 & E3 & _ & HU3 & HF3 & W3).
    exists (set_kern s3 (set_kern s2 u1)). split; [rewrite (bind_ret _ _ _ _ _ E2); exact E3|]. cbn [kern set_kern] in *.
    assert (forall w, word_at s2 w = word_at (kern u1) w) as M2' by (intros; unfold word_at; by rewrite M2).
    split_and!; [done|exists s3; rewrite Eu in *; cbn in *; split; [done|]; by do 2 (eapply vm_frame_trans; [eassumption|])| |].
    + intros j Hj. rewrite W3. destruct (decide _) as [Ej|Ej].
      * replace j with k by lia. rewrite u32_small by (apply (rel_pt _ _ _ (mi_vm _ _ (ki_mem _ _ (ru_inv _ _ _ _ HU1))))).
        apply C2. intros; lia.
      * rewrite M2'. apply C1. lia.
    + intros w Hw. rewrite W3, decide_False by (apply Hw; lia). rewrite M2'. apply C2. intros j Hj. apply Hw. lia.
  - exists s'. split; [exact E|]. split; [exact HU'|]. split; [exact HF|]. split; [intros; apply H1; lia|].
    intros w Hw. apply H2. intros j Hj ->. apply Hw. lia.
Qed.
End Access.
