(* ===== verification/ForkSpec.v ===== *)
(** lib/fork.c on the verified kernel: the copy-on-write page fault handler,
    [duppage] and the loops of [fork]. *)

From stdpp Require Import base numbers list gmap strings.
From Stdlib Require Import ZArith Lia Bool.
From S2P Require Import Prelude Mmu KState Pmap PmapBoot PmapSpec Paging VmOps Env Syscall Trap Ulib KInv EnvSpec TrapSpec SyscallMem SyscallEnv SyscallSafe UlibSpec.

Local Ltac Zify.zify_post_hook ::= Z.to_euclidean_division_equations.

(** Run the next call, which returns 0 in [E]. *)
Local Ltac run E := rewrite (bind_ret _ _ _ _ _ E); change (0 <? 0) with false; cbv iota.

(** * Reference counts *)

Lemma count_insert_le {K V} `{Countable K} (P : K * V -> Prop) `{forall x, Decision (P x)} (m : gmap K V) k x :
  count P (<[k := x]> m) <= count P m + (if decide (P (k, x)) then 1 else 0).
Proof.
  rewrite <- insert_delete_eq, count_insert by apply lookup_delete_eq.
  destruct (m !! k) as [y|] eqn:E; [rewrite (count_delete P m k y E); destruct (decide (P (k, y))); lia|].
  by rewrite (delete_id m k E).
Qed.

Lemma count_delete_le {K V} `{Countable K} (P : K * V -> Prop) `{forall x, Decision (P x)} (m : gmap K V) k :
  count P (delete k m) <= count P m.
Proof.
  destruct (m !! k) as [y|] eqn:E; [rewrite (count_delete P m k y E); destruct (decide (P (k, y))); lia|].
  by rewrite (delete_id m k E).
Qed.

(** Below UTOP only mappings count. *)
Lemma refs_mapped a s d v p f : kinv a s -> v_maps a !! (d, v) = Some (p, f) -> v < UVPN -> refs a p = urefs a p.
Proof.
  intros HK Hm Hv. destruct (wf_user _ _ (rel_wf _ _ _ (mi_vm _ _ (ki_mem _ _ HK))) _ _ _ _ Hm Hv) as (_ & Hd & Ht).
  unfold refs, drefs. rewrite bool_decide_eq_false_2 by done.
  assert (trefs a p = 0) as ->; [|lia]. unfold trefs, count.
  assert (filter (fun kv : Z * Z * Z => kv.2 = p) (v_tabs a) = ∅) as ->; [|done].
  apply map_empty. intros k. apply map_lookup_filter_None. right. intros t Hk Hp. cbn in Hp. subst t. by apply (Ht k).
Qed.

Lemma free_urefs a s p : kinv a s -> p ∈ v_free a -> urefs a p = 0.
Proof. intros HK Hp. by destruct (free_no_refs _ _ _ (mi_vm _ _ (ki_mem _ _ HK)) p Hp) as (_ & -> & _). Qed.

(** No mapped frame is within [n] of the 16-bit reference count. *)
Definition room (n : Z) (a : vm) : Prop :=
  forall d v p f, v_maps a !! (d, v) = Some (p, f) -> v < UVPN -> urefs a p + n < 2 ^ 16.

Lemma room_refs a s : kinv a s -> room 1 a -> refs_room a.
Proof. intros HK H d v p f Hm Hv. rewrite (refs_mapped a s d v p f) by done. by apply (H d v p f). Qed.

(** One more mapping of a mapped or a free frame. *)
Lemma room_insert n a s a' key p f : kinv a s -> 0 <= n < 100 -> room (n + 1) a ->
  v_maps a' = <[key := (p, f)]> (v_maps a) -> p ∈ v_free a \/ (exists d v f', v_maps a !! (d, v) = Some (p, f') /\ v < UVPN) -> room n a'.
Proof.
  intros HK Hn HR HM Hp d v q g Hm Hv.
  assert (urefs a' q <= urefs a q + (if decide (p = q) then 1 else 0)) as Hle.
  { unfold urefs. rewrite HM. etrans; [apply count_insert_le|]. destruct (decide _) as [[_ Hq]|]; [cbn in Hq; rewrite decide_True by done|]; destruct (decide (p = q)); lia. }
  rewrite HM in Hm. destruct (decide (p = q)) as [<-|Hpq].
  - destruct Hp as [Hp|(d0 & v0 & f0 & Hm0 & Hv0)]; [rewrite (free_urefs a s p HK Hp) in Hle; lia|].
    pose proof (HR _ _ _ _ Hm0 Hv0). lia.
  - apply lookup_insert_Some in Hm as [[_ [= ]]|[_ Hm]]; [done|]. pose proof (HR _ _ _ _ Hm Hv). lia.
Qed.

Lemma room_delete n a a' key : room n a -> v_maps a' = delete key (v_maps a) -> room n a'.
Proof.
  intros HR HM d v q g Hm Hv. rewrite HM in Hm. apply lookup_delete_Some in Hm as [_ Hm].
  pose proof (HR _ _ _ _ Hm Hv). enough (urefs a' q <= urefs a q) by lia. unfold urefs. rewrite HM. apply count_delete_le.
Qed.

(** * What an address space shows *)

(** Word [j] of page [v] as the address space of directory [d] has it. *)
Definition sees (a : vm) (s : kstate) (d v j : Z) : option Z :=
  match v_maps a !! (d, v) with Some (p, _) => Some (word_at s (p * 1024 + j)) | None => None end.

(** Frames that are mapped below UTOP hold data. *)
Lemma mapped_data a s d v p f : kinv a s -> v_maps a !! (d, v) = Some (p, f) -> v < UVPN -> data_frame a p.
Proof.
  intros HK Hm Hv. pose proof (mi_vm _ _ (ki_mem _ _ HK)) as HR.
  destruct (user_frame_private _ a s d v p f HR Hm Hv) as (_ & Ht & Hf).
  destruct (wf_user _ _ (rel_wf _ _ _ HR) _ _ _ _ Hm Hv) as ([_ Hr] & Hd & _).
  split_and!; try done. intros ->. by destruct (wf_kdir _ _ (rel_wf _ _ _ HR)).
Qed.

Lemma free_unmapped a s d v p f : kinv a s -> p ∈ v_free a -> v_maps a !! (d, v) = Some (p, f) -> v < UVPN -> False.
Proof. intros HK Hp Hm Hv. by destruct (mapped_data a s d v p f HK Hm Hv). Qed.

(** * The page tables as the program reads them *)

Section View.
Context (a : vm) (c d : Z) (u : ustate) (HU : runs a c d u).
Local Abbreviation s := (kern u).

Lemma uvpd_ok i : 0 <= i < UPDX ->
  exists w, uvpd i u = Ret w u
    /\ match v_tabs a !! (d, i) with Some t => w = mkpte t PTE_PWU | None => flag w PTE_P = false end.
Proof.
  intros Hi. pose proof (mi_vm _ _ (ki_mem _ _ (ru_inv _ _ _ _ HU))) as HR. eexists. split; [reflexivity|].
  assert (cr3 s / 4 + i = d * 1024 + i) as ->.
  { rewrite (proj1 (runs_tlb a c d u HU)). unfold PGSIZE. lia. }
  apply (pt_pde _ _ (rel_pt _ _ _ HR) d i). left. split; [apply HU|done].
Qed.

Lemma uvpt_ok pn t : 0 <= pn < UVPN -> v_tabs a !! (d, pn / 1024) = Some t ->
  uvpt pn u = Ret (match v_maps a !! (d, pn) with Some (p, f) => mkpte p f | None => 0 end) u.
Proof.
  intros Hpn Ht. rewrite UVPN_val in Hpn. pose proof (mi_vm _ _ (ki_mem _ _ (ru_inv _ _ _ _ HU))) as HR.
  unfold uvpt. change NPTENTRIES with 1024.
  destruct (uvpd_ok (pn / 1024)) as (w & E & Hw); [rewrite UPDX_val; lia|]. rewrite Ht in Hw. subst w.
  rewrite (bind_ret _ _ _ _ _ E), flag_mkpte by done. change (flag PTE_PWU PTE_P) with true. cbv iota.
  pose proof (tab_max _ a s HR d (pn / 1024) t Ht) as Htm. rewrite PTE_ADDR_mkpte by (unfold MAXPAGES in *; done || lia).
  unfold gets. do 2 f_equal. replace (t * PGSIZE / 4) with (t * 1024) by (unfold PGSIZE; lia).
  pose proof (pt_pte _ _ (rel_pt _ _ _ HR) d (pn / 1024) t (pn mod 1024) Ht ltac:(lia)) as Hp.
  replace (pn / 1024 * 1024 + pn mod 1024) with pn in Hp by lia. by destruct (v_maps a !! (d, pn)) as [[p f]|].
Qed.

Lemma mapped_table pn p f : v_maps a !! (d, pn) = Some (p, f) -> exists t, v_tabs a !! (d, pn / 1024) = Some t.
Proof.
  intros Hm. by destruct (wf_maps _ _ (rel_wf _ _ _ (mi_vm _ _ (ki_mem _ _ (ru_inv _ _ _ _ HU)))) _ _ _ _ Hm) as (? & _).
Qed.

Lemma uvpt_mapped pn p f : 0 <= pn < UVPN -> v_maps a !! (d, pn) = Some (p, f) -> uvpt pn u = Ret (mkpte p f) u.
Proof. intros Hpn Hm. destruct (mapped_table pn p f Hm) as [t Ht]. by rewrite (uvpt_ok pn t Hpn Ht), Hm. Qed.

Lemma this_id_ok : this_id u = Ret (env_id (env_of s c)) u.
Proof. unfold this_id, gets. by rewrite (ru_this _ _ _ _ HU). Qed.
End View.

(** * The page fault handler *)

Definition PWU : Z := Z.lor (Z.lor PTE_P PTE_W) PTE_U.
Definition PFPAGE : Z := PGNUM PFTEMP.

Lemma takes_table n d va a a' x : takes n d va a a' -> is_Some (v_tabs a !! x) -> is_Some (v_tabs a' !! x).
Proof. intros [T _] H. apply elem_of_dom. rewrite T. apply elem_of_union_r. by apply elem_of_dom. Qed.

(** A page that is mapped has its table. *)
Lemma table_not_full a s d v p f va : kinv a s -> v_maps a !! (d, v) = Some (p, f) -> PDX va = v / 1024 -> ~ v_full d (PDX va) a.
Proof.
  intros HK Hm Hx [Hn _]. destruct (wf_maps _ _ (rel_wf _ _ _ (mi_vm _ _ (ki_mem _ _ HK))) _ _ _ _ Hm) as ([t Ht] & _).
  rewrite Hx in Hn. congruence.
Qed.

Lemma page_va v : 0 <= v < UVPN ->
  is_u32 (v * PGSIZE) /\ v * PGSIZE < UTOP /\ PGNUM (v * PGSIZE) = v /\ PGOFF (v * PGSIZE) = 0 /\ PDX (v * PGSIZE) = v / 1024.
Proof.
  intros Hv. destruct (word_va_ok v 0 Hv ltac:(lia)) as (H1 & H2 & H3 & H4). unfold word_va in *. rewrite Z.add_0_r in *.
  split_and!; try done. rewrite <- H3 at 2. symmetry. by apply PGNUM_PDX.
Qed.

Lemma word_va_page v j : 0 <= v < UVPN -> 0 <= j < 1024 -> ROUNDDOWN (word_va v j) PGSIZE = v * PGSIZE.
Proof.
  intros Hv Hj. destruct (word_va_ok v j Hv Hj) as (H1 & _). unfold ROUNDDOWN. rewrite u32_small by done.
  unfold word_va, PGSIZE. lia.
Qed.

Section Fault.
Context (c d v p : Z) (Hv : 0 <= v < UVPN) (Hne : v <> PFPAGE).

(** A fresh copy of the page at PFTEMP. *)
Lemma fault_copy a u f : runs a c d u -> v_maps a !! (d, v) = Some (p, f) -> flag f PTE_U = true -> room 2 a ->
  (2 <= length (v_free a))%nat ->
  exists q a' s1 s', usys_page_alloc (env_id (env_of (kern u) c)) PFTEMP PWU u = Ret 0 (set_kern s1 u)
    /\ memmove PFTEMP (v * PGSIZE) PGSIZE (set_kern s1 u) = Ret tt (set_kern s' u)
    /\ q ∈ v_free a /\ kinv a' s' /\ vm_frame (kern u) s' /\ v_maps a' = <[(d, PFPAGE) := (q, PWU)]> (v_maps a)
    /\ room 1 a' /\ (forall k, 0 <= k < 1024 -> word_at s' (q * 1024 + k) = word_at (kern u) (p * 1024 + k))
    /\ (forall x, data_frame a x -> same_frame x (kern u) s').
Proof.
  intros HU Hm HfU Hroom Hfree. pose proof (ru_inv _ _ _ _ HU) as HK. destruct (self_target a c d u HU) as [_ T0].
  destruct (page_va PFPAGE ltac:(by vm_compute)) as (F1 & _). change (PFPAGE * PGSIZE) with PFTEMP in *.
  destruct (usys_page_alloc_ok a c d u HU _ PFTEMP PWU c d T0 F1 ltac:(by vm_compute) ltac:(by vm_compute) Hfree)
    as (q & a1 & s1 & E1 & Hq & [K1 R1 D1 M1] & _). fold PFPAGE in M1.
  pose proof (runs_vm a c d u HU s1 a1 K1 R1) as HU1.
  assert (v_maps a1 !! (d, v) = Some (p, f)) as Hm1 by (rewrite M1, lookup_insert_ne; congruence).
  assert (q <> p) as Hqp by (intros ->; by apply (free_unmapped a (kern u) d v p f HK Hq Hm), Hv).
  destruct (memmove_page a1 c d (set_kern s1 u) PFPAGE v q p HU1) as (s2 & E2 & HU2 & R2 & C2 & O2);
    [split; [by vm_compute|exists PWU; rewrite M1; split; [apply lookup_insert_eq|done]]|split; [done|by exists f]|done|done|].
  exists q, a1, s1, s2. split; [done|]. split; [exact E2|]. cbn [kern set_kern] in *. split; [done|].
  split; [apply (ru_inv _ _ _ _ HU2)|]. split; [by eapply vm_frame_trans|]. split; [done|].
  split; [apply (room_insert 1 a (kern u) a1 (d, PFPAGE) q PWU); (done || by left)|]. split.
  - intros k Hk. rewrite C2 by done. apply (D1 p (mapped_data a (kern u) _ _ _ _ HK Hm ltac:(lia)) k Hk).
  - intros x Hx k Hk. rewrite O2; [by apply D1|]. rewrite frame_div by done. intros ->. by destruct Hx.
Qed.

(** The copy takes the place of the page. *)
Lemma fault_swap a u q f : runs a c d u -> v_maps a !! (d, v) = Some (p, f) -> v_maps a !! (d, PFPAGE) = Some (q, PWU) -> room 1 a ->
  exists u1 u2 a' s', let id := env_id (env_of (kern u) c) in
    usys_page_unmap id (v * PGSIZE) u = Ret 0 u1 /\ usys_page_map id PFTEMP id (v * PGSIZE) PWU u1 = Ret 0 u2
    /\ usys_page_unmap id PFTEMP u2 = Ret 0 (set_kern s' u)
    /\ kinv a' s' /\ vm_frame (kern u) s' /\ v_maps a' = delete (d, PFPAGE) (<[(d, v) := (q, PWU)]> (delete (d, v) (v_maps a)))
    /\ (forall d' v' x g, v' < UVPN -> (d', v') <> (d, v) -> v_maps a !! (d', v') = Some (x, g) -> same_frame x (kern u) s').
Proof.
  intros HU Hm Hq Hroom. destruct (self_target a c d u HU) as [_ T0]. set (id := env_id (env_of (kern u) c)) in *.
  destruct (page_va PFPAGE ltac:(by vm_compute)) as (F1 & F2 & F3 & F4 & _). change (PFPAGE * PGSIZE) with PFTEMP in *.
  destruct (page_va v Hv) as (V1 & V2 & V3 & V4 & V5).
  destruct (usys_page_unmap_ok a c d u HU id (v * PGSIZE) c d T0 V1 V2 V4) as (a3 & s3 & E3 & [K3 R3 D3 M3] & Tt & _). rewrite V3 in M3.
  pose proof (runs_vm a c d _ HU s3 a3 K3 R3) as HU3. pose proof (target_vm a a3 _ s3 c id c d T0 K3 R3) as T3.
  assert (v_maps a3 !! (d, PFPAGE) = Some (q, PWU)) as Hq3 by (rewrite M3, lookup_delete_ne; congruence).
  destruct (usys_page_map_ok a3 c d _ HU3 id PFTEMP id (v * PGSIZE) PWU c d c d q PWU T3 T3 F1 V1)
    as (a4 & s4 & E4 & [K4 R4 D4 M4] & _);
    [unfold map_args_bad; rewrite !(proj2 (Z.leb_gt UTOP _)), F4, V4 by done; by vm_compute|done|done| | |].
  { apply (room_refs a3 s3 K3). by apply (room_delete 1 a a3 (d, v)). }
  { intros [Hn _]. rewrite Tt, V5 in Hn. destruct (mapped_table a c d u HU v p f Hm) as [t Ht]. congruence. }
  rewrite V3 in M4. cbn [kern set_kern] in *.
  pose proof (runs_vm a3 c d _ HU3 s4 a4 K4 R4) as HU4. pose proof (target_vm a3 a4 _ s4 c id c d T3 K4 R4) as T4.
  destruct (usys_page_unmap_ok a4 c d _ HU4 id PFTEMP c d T4 F1 F2 F4) as (a5 & s5 & E5 & [K5 R5 D5 M5] & _). cbn [kern set_kern] in *.
  exists (set_kern s3 u), (set_kern s4 u), a5, s5. split; [done|]. split; [done|]. split; [done|]. split; [done|].
  split; [by do 2 (eapply vm_frame_trans; [eassumption|])|]. split; [by rewrite M5, M4, M3|].
  intros d' v' x g Hv' Hn Hx k Hk.
  assert (v_maps a3 !! (d', v') = Some (x, g)) as X3 by (by rewrite M3, lookup_delete_ne by congruence).
  assert (v_maps a4 !! (d', v') = Some (x, g)) as X4 by (by rewrite M4, lookup_insert_ne by congruence).
  rewrite (D5 x (mapped_data a4 s4 _ _ _ _ K4 X4 Hv') k Hk), (D4 x (mapped_data a3 s3 _ _ _ _ K3 X3 Hv') k Hk).
  apply (D3 x (mapped_data a (kern u) _ _ _ _ (ru_inv _ _ _ _ HU) Hx Hv') k Hk).
Qed.

(** The handler replaces the page by a private, writable copy; what every
    other mapping shows stays. *)
Lemma pgfault_ok a u f j err : runs a c d u -> 0 <= j < 1024 -> v_maps a !! (d, v) = Some (p, f) -> flag f PTE_U = true ->
  flag f PTE_COW = true -> flag err FEC_WR = true -> room 2 a -> (2 <= length (v_free a))%nat ->
  exists q a' s', pgfault (word_va v j) err u = Ret tt (set_kern s' u) /\ q ∈ v_free a
    /\ kinv a' s' /\ vm_frame (kern u) s'
    /\ v_maps a' = <[(d, v) := (q, PWU)]> (delete (d, PFPAGE) (v_maps a))
    /\ (forall k, 0 <= k < 1024 -> word_at s' (q * 1024 + k) = word_at (kern u) (p * 1024 + k))
    /\ (forall d' v' x g, v' < UVPN -> (d', v') <> (d, v) -> (d', v') <> (d, PFPAGE) ->
          v_maps a !! (d', v') = Some (x, g) -> same_frame x (kern u) s').
Proof.
  intros HU Hj Hm HfU HfC Herr Hroom Hfree. pose proof (ru_inv _ _ _ _ HU) as HK.
  destruct (fault_copy a u f HU Hm HfU Hroom Hfree) as (q & a1 & s1 & s2 & E1 & E2 & Hq & K2 & R2 & M2 & HR2 & C2 & D2).
  pose proof (runs_vm a c d u HU s2 a1 K2 R2) as HU2.
  assert (v_maps a1 !! (d, v) = Some (p, f)) as Hm1 by (rewrite M2, lookup_insert_ne; congruence).
  assert (v_maps a1 !! (d, PFPAGE) = Some (q, PWU)) as Hq1 by (rewrite M2; apply lookup_insert_eq).
  destruct (fault_swap a1 (set_kern s2 u) q f HU2 Hm1 Hq1 HR2) as (u3 & u4 & a5 & s5 & E3 & E4 & E5 & K5 & R5 & M5 & D5).
  cbn [kern set_kern] in *. rewrite (vm_frame_env (kern u) s2 c R2) in *.
  exists q, a5, s5. split.
  { unfold pgfault. rewrite Herr. destruct (word_va_ok v j Hv Hj) as (_ & _ & Hpn & _). rewrite Hpn, word_va_page by done.
    destruct (wf_maps _ _ (rel_wf _ _ _ (mi_vm _ _ (ki_mem _ _ HK))) _ _ _ _ Hm) as (_ & _ & _ & Hf & _).
    rewrite (bind_ret _ _ u true u).
    2:{ rewrite (bind_ret _ _ _ _ _ (uvpt_mapped a c d u HU v p f Hv Hm)). unfold ret. f_equal. by rewrite flag_mkpte. }
    cbn [negb]. rewrite (bind_ret _ _ _ _ _ (usys_getenvid_ok a c d u HU)). change (Z.lor (Z.lor PTE_P PTE_W) PTE_U) with PWU.
    run E1. run E2. run E3. run E4. run E5. done. }
  split; [done|]. split; [done|]. split; [by eapply vm_frame_trans|]. split.
  { rewrite M5, M2. apply map_eq. intros k. rewrite !lookup_insert, !lookup_delete, !lookup_insert, !lookup_delete, !lookup_insert.
    repeat case_decide; congruence. }
  split.
  - intros k Hk. rewrite <- C2 by done. apply (D5 d PFPAGE q PWU); [by vm_compute|congruence|done|done].
  - intros d' v' x g Hv' N1 N2 Hx k Hk. rewrite (D5 d' v' x g) by (done || by rewrite M2, lookup_insert_ne by congruence).
    apply (D2 x (mapped_data a (kern u) _ _ _ _ HK Hx Hv') k Hk).
Qed.
End Fault.

(** * Stores of the program *)

(** A store to a page that is not writable faults. *)
Lemma vstore32_faults a c d u v p f j w : runs a c d u -> 0 <= v < UVPN -> 0 <= j < 1024 ->
  v_maps a !! (d, v) = Some (p, f) -> flag f PTE_W = false ->
  exists s', call (vstore32 true (word_va v j) w) u = Ret false (set_kern s' u)
    /\ kinv a s' /\ vm_frame (kern u) s' /\ mem s' = mem (kern u).
Proof.
  intros HU Hv Hj Hm HfW. destruct (word_va_ok v j Hv Hj) as (Hu & Ht & Hn & _).
  pose proof (mi_vm _ _ (ki_mem _ _ (ru_inv _ _ _ _ HU))) as HR.
  destruct (mmu_access_eq no_ex a (kern u) d HR (runs_tlb a c d u HU) (or_introl (ru_dir _ _ _ _ HU)) (word_va v j) Hu Ht true true) as (tl & E & HT).
  unfold v_translate in E. rewrite Hn, Hm in E. unfold may_access in E. rewrite HfW, andb_false_r in E.
  set (s' := set_cr3 (cr3 (kern u)) tl (kern u)) in *.
  assert (s' = set_cr3 (cr3 (kern u)) tl (set_mem (mem (kern u)) (kern u))) as Es by (unfold s'; by destruct (kern u)).
  exists s'. split; [unfold call, vstore32, bind; by rewrite E|].
  destruct (access_runs a c d u (mem (kern u)) tl HU) as (K' & R' & _); [rewrite <- Es; by apply vm_rel_tlb|by rewrite <- Es|].
  rewrite <- Es in K', R'. done.
Qed.

(** A store to a copy-on-write page is seen by no one else. *)
Lemma user_store_cow a c d u v p f j w : runs a c d u -> 0 <= v < UVPN -> 0 <= j < 1024 -> v <> PFPAGE ->
  v_maps a !! (d, v) = Some (p, f) -> flag f PTE_W = false ->
  flag f PTE_U = true -> flag f PTE_COW = true -> room 2 a -> (2 <= length (v_free a))%nat ->
  exists a' s', user_store (word_va v j) w u = Ret tt (set_kern s' u) /\ kinv a' s' /\ vm_frame (kern u) s'
    /\ (exists q, q ∈ v_free a /\ v_maps a' = <[(d, v) := (q, PWU)]> (delete (d, PFPAGE) (v_maps a)))
    /\ (forall k, 0 <= k < 1024 -> sees a' s' d v k = if k =? j then Some (u32 w) else sees a (kern u) d v k)
    /\ (forall d' v' k, 0 <= k < 1024 -> v' < UVPN -> (d', v') <> (d, v) -> (d', v') <> (d, PFPAGE) ->
          sees a' s' d' v' k = sees a (kern u) d' v' k).
Proof.
  intros HU Hv Hj Hne Hm HfW HfU HfC Hroom Hfree.
  destruct (vstore32_faults a c d u v p f j w HU Hv Hj Hm HfW) as (s1 & E1 & K1 & R1 & Em).
  pose proof (runs_vm a c d u HU s1 a K1 R1) as HU1.
  assert (forall x, word_at s1 x = word_at (kern u) x) as W1 by (intros; unfold word_at; by rewrite Em).
  destruct (pgfault_ok c d v p Hv Hne a (set_kern s1 u) f j T_PGFLT HU1 Hj Hm HfU HfC eq_refl Hroom Hfree)
    as (q & a2 & s2 & E2 & Hq & K2 & R2 & M2 & C2 & D2). cbn [kern set_kern] in *.
  pose proof (runs_vm a c d _ HU1 s2 a2 K2 R2) as HU2.
  assert (v_maps a2 !! (d, v) = Some (q, PWU)) as Hq2 by (rewrite M2; apply lookup_insert_eq).
  destruct (ustore32_ok a2 c d _ v q j w HU2) as (s3 & E3 & _ & HU3 & R3 & W3); [split; [done|by exists PWU]|done|]. cbn [kern set_kern] in *.
  exists a2, s3. split; [unfold user_store; rewrite (bind_ret _ _ _ _ _ E1), (bind_ret _ _ _ _ _ E2); exact E3|].
  split; [apply (ru_inv _ _ _ _ HU3)|]. split; [by do 2 (eapply vm_frame_trans; [eassumption|])|]. split; [by exists q|]. split.
  - intros k Hk. unfold sees. rewrite Hq2, Hm, W3. destruct (Z.eqb_spec k j) as [->|Hkj]; [by rewrite decide_True|].
    rewrite decide_False by lia. by rewrite C2, W1.
  - intros d' v' k Hk Hv' N1 N2. unfold sees.
    assert (v_maps a2 !! (d', v') = v_maps a !! (d', v')) as -> by (by rewrite M2, lookup_insert_ne, lookup_delete_ne by congruence).
    destruct (v_maps a !! (d', v')) as [[x g]|] eqn:Hx; [|done]. rewrite W3, decide_False.
    + by rewrite (D2 d' v' x g Hv' N1 N2 Hx k Hk), W1.
    + intros Ex. assert (x = q) as -> by lia. by apply (free_unmapped a (kern u) d' v' q g (ru_inv _ _ _ _ HU) Hq Hx).
Qed.

(** * Sharing the pages *)

(** The mappings of a page in parent and child after [duppage]. *)
Definition cow_perm (f : Z) : Z := if flag f PTE_W || flag f PTE_COW then Z.lor (Z.lor PTE_P PTE_U) PTE_COW else Z.lor PTE_P PTE_U.
Definition child_page (m : Z * Z) : Z * Z :=
  (m.1, if flag m.2 PTE_SHARE then Z.land m.2 PTE_SYSCALL else cow_perm m.2).
Definition parent_page (m : Z * Z) : Z * Z :=
  (m.1, if negb (flag m.2 PTE_SHARE) && (flag m.2 PTE_W || flag m.2 PTE_COW) then cow_perm m.2 else m.2).

(** How many frames there are, free or made into page tables. *)
Definition spare (a : vm) : Z := Z.of_nat (length (v_free a)) + Z.of_nat (size (v_tabs a)).

Lemma land_flag f m n : Z.land n m = m -> flag (Z.land f n) m = flag f m.
Proof. intros H. unfold flag. by rewrite <- Z.land_assoc, H. Qed.

Lemma map_args_ok va perm : va < UTOP -> PGOFF va = 0 -> flag perm PTE_U = true -> flag perm PTE_P = true ->
  bad_perm_bits perm = false -> map_args_bad va va perm = false.
Proof. intros H1 H2 H3 H4 H5. unfold map_args_bad. by rewrite (proj2 (Z.leb_gt UTOP va) H1), H2, H3, H4, H5. Qed.

Section Dup.
Context (c d e dd : Z) (envid : Z).

Lemma dup_map a u pn p f perm : runs a c d u -> target a (kern u) c envid e dd -> 0 <= pn < UVPN -> v_maps a !! (d, pn) = Some (p, f) ->
  flag perm PTE_U = true -> flag perm PTE_P = true -> bad_perm_bits perm = false -> (flag perm PTE_W = true -> flag f PTE_W = true) ->
  room 1 a -> ~ v_full dd (pn / 1024) a ->
  exists a' s', usys_page_map (env_id (env_of (kern u) c)) (pn * PGSIZE) envid (pn * PGSIZE) perm u = Ret 0 (set_kern s' u)
    /\ vstep a (kern u) (<[(dd, pn) := (p, perm)]> (v_maps a)) a' s' /\ takes 0 dd (pn * PGSIZE) a a'.
Proof.
  intros HU T Hpn Hm P1 P2 P3 P4 Hroom Hnf. destruct (page_va pn Hpn) as (V1 & V2 & V3 & V4 & V5).
  destruct (self_target a c d u HU) as [_ T0]. rewrite <- V5 in Hnf. rewrite <- V3 in Hm.
  destruct (usys_page_map_ok a c d u HU _ (pn * PGSIZE) envid (pn * PGSIZE) perm c d e dd p f T0 T V1 V1) as (a' & s' & E & HV & HT); try done.
  - by apply map_args_ok.
  - by apply (room_refs a (kern u)), Hroom; apply HU.
  - exists a', s'. by rewrite V3 in HV.
Qed.

(** Frames that were mapped keep their contents. *)
Definition kept (a : vm) (s s' : kstate) : Prop :=
  forall d' v' x g, v' < UVPN -> v_maps a !! (d', v') = Some (x, g) -> same_frame x s s'.

Lemma kept_step a s M a' s' : kinv a s -> vstep a s M a' s' -> kept a s s'.
Proof. intros HK [_ _ D _] d' v' x g Hv Hx. apply D. by apply (mapped_data a s d' v' x g). Qed.

Lemma kept_trans a1 a2 s1 s2 s3 : kept a1 s1 s2 -> kept a2 s2 s3 ->
  (forall d' v' x g, v_maps a1 !! (d', v') = Some (x, g) -> v' < UVPN ->
     exists d2 v2 g2, v_maps a2 !! (d2, v2) = Some (x, g2) /\ v2 < UVPN) -> kept a1 s1 s3.
Proof.
  intros H1 H2 H d' v' x g Hv Hx. destruct (H d' v' x g Hx Hv) as (d2 & v2 & g2 & Hx2 & Hv2).
  eapply same_frame_trans; [by apply (H1 d' v' x g)|by apply (H2 d2 v2 x g2)].
Qed.

Lemma cow_perm_ok f : flag (cow_perm f) PTE_U = true /\ flag (cow_perm f) PTE_P = true /\ flag (cow_perm f) PTE_W = false
  /\ bad_perm_bits (cow_perm f) = false.
Proof. unfold cow_perm. by destruct (flag f PTE_W || flag f PTE_COW). Qed.

Lemma share_perm_ok f : flag f PTE_U = true -> flag f PTE_P = true ->
  flag (Z.land f PTE_SYSCALL) PTE_U = true /\ flag (Z.land f PTE_SYSCALL) PTE_P = true
  /\ flag (Z.land f PTE_SYSCALL) PTE_W = flag f PTE_W /\ bad_perm_bits (Z.land f PTE_SYSCALL) = false.
Proof.
  intros H1 H2. rewrite !land_flag by done. split_and!; try done. unfold bad_perm_bits. apply negb_false_iff, Z.eqb_eq.
  apply Z.bits_inj'. intros i Hi. rewrite Z.ldiff_spec, Z.land_spec, Z.bits_0. by destruct (Z.testbit f i), (Z.testbit PTE_SYSCALL i).
Qed.

Lemma takes_spare n de va a a' : takes n de va a a' -> spare a <= spare a' + n.
Proof. by intros [_ H]. Qed.

(** The conclusion of [duppage] and of the page loop. *)
Record dup_post (a : vm) (s : kstate) (pn : Z) (m : Z * Z) (a' : vm) (s' : kstate) : Prop := {
  dp_inv : kinv a' s';
  dp_frame : vm_frame s s';
  dp_kept : kept a s s';
  dp_maps : v_maps a' = <[(d, pn) := parent_page m]> (<[(dd, pn) := child_page m]> (v_maps a));
  dp_spare : spare a <= spare a';
  dp_tabs : dom (v_tabs a') = {[(dd, pn / 1024)]} ∪ dom (v_tabs a)
}.

Lemma dup_once a u pn p f perm : runs a c d u -> target a (kern u) c envid e dd -> 0 <= pn < UVPN -> dd <> d ->
  v_maps a !! (d, pn) = Some (p, f) -> parent_page (p, f) = (p, f) -> child_page (p, f) = (p, perm) ->
  flag perm PTE_U = true -> flag perm PTE_P = true -> bad_perm_bits perm = false -> (flag perm PTE_W = true -> flag f PTE_W = true) ->
  room 1 a -> ~ v_full dd (pn / 1024) a ->
  exists a' s', usys_page_map (env_id (env_of (kern u) c)) (pn * PGSIZE) envid (pn * PGSIZE) perm u = Ret 0 (set_kern s' u)
    /\ dup_post a (kern u) pn (p, f) a' s'.
Proof.
  intros HU T Hpn Hdd Hm Hpar Hchi P1 P2 P3 P4 Hroom Hnf.
  destruct (dup_map a u pn p f perm HU T Hpn Hm P1 P2 P3 P4 Hroom Hnf) as (a' & s' & E & HV & HT).
  destruct (page_va pn Hpn) as (_ & _ & _ & _ & V5).
  exists a', s'. split; [done|]. pose proof HV as [K R D M]. split; try done.
  - eapply kept_step; [apply HU|exact HV].
  - rewrite Hpar, Hchi, M. symmetry. apply insert_id. by rewrite lookup_insert_ne by congruence.
  - pose proof (takes_spare _ _ _ _ _ HT). lia.
  - by rewrite (tk_tabs _ _ _ _ _ HT), V5.
Qed.

Lemma dup_twice a u pn p f : runs a c d u -> target a (kern u) c envid e dd -> 0 <= pn < UVPN -> dd <> d ->
  v_maps a !! (d, pn) = Some (p, f) -> flag f PTE_SHARE = false -> flag f PTE_W || flag f PTE_COW = true ->
  v_maps a !! (dd, pn) = None -> room 2 a -> ~ v_full dd (pn / 1024) a ->
  exists a' s1 s', usys_page_map (env_id (env_of (kern u) c)) (pn * PGSIZE) envid (pn * PGSIZE) (cow_perm f) u = Ret 0 (set_kern s1 u)
    /\ vm_frame (kern u) s1
    /\ usys_page_map (env_id (env_of (kern u) c)) (pn * PGSIZE) (env_id (env_of (kern u) c)) (pn * PGSIZE) (cow_perm f) (set_kern s1 u) = Ret 0 (set_kern s' u)
    /\ dup_post a (kern u) pn (p, f) a' s'.
Proof.
  intros HU T Hpn Hdd Hm HS Hcow Hnone Hroom Hnf. pose proof (ru_inv _ _ _ _ HU) as HK. destruct (cow_perm_ok f) as (P1 & P2 & P3 & P4).
  destruct (page_va pn Hpn) as (V1 & V2 & V3 & V4 & V5). destruct (self_target a c d u HU) as [_ T0].
  assert (room 1 a) as Hroom1 by (intros d' v' x g Hx Hv'; pose proof (Hroom d' v' x g Hx Hv'); lia).
  destruct (dup_map a u pn p f (cow_perm f) HU T Hpn Hm P1 P2 P4 ltac:(congruence) Hroom1 Hnf) as (a1 & s1 & E1 & HV1 & HT1).
  pose proof HV1 as [K1 R1 D1 M1]. pose proof (runs_vm a c d u HU s1 a1 K1 R1) as HU1.
  pose proof (target_vm a a1 _ s1 c _ c d T0 K1 R1) as T1.
  assert (v_maps a1 !! (d, pn) = Some (p, f)) as Hm1 by (by rewrite M1, lookup_insert_ne by congruence).
  assert (room 1 a1) as HR1.
  { apply (room_insert 1 a (kern u) a1 (dd, pn) p (cow_perm f)); try done. right. exists d, pn, f. split; [done|lia]. }
  rewrite <- V3 in Hm1.
  destruct (usys_page_map_ok a1 c d _ HU1 (env_id (env_of (kern u) c)) (pn * PGSIZE) (env_id (env_of (kern u) c)) (pn * PGSIZE) (cow_perm f) c d c d p f T1 T1 V1 V1)
    as (a2 & s2 & E2 & HV2 & HT2); [by apply map_args_ok|done|congruence|by apply (room_refs a1 s1)|by apply (table_not_full a1 s1 d pn p f); rewrite ?V3 in Hm1|].
  cbn [kern set_kern] in *. pose proof HV2 as [K2 R2 D2 M2]. rewrite V3 in *. exists a2, s1, s2. split; [done|]. split; [done|]. split; [done|]. split; try done.
  - by eapply vm_frame_trans.
  - apply (kept_trans a a1 _ s1); [by eapply kept_step|by eapply (kept_step a1 s1)|].
    intros d' v' x g Hx Hv'. rewrite M1. destruct (decide ((d', v') = (dd, pn))) as [[= -> ->]|Hk].
    + congruence.
    + exists d', v', g. by rewrite lookup_insert_ne.
  - rewrite M2, M1. unfold parent_page, child_page. cbn [fst snd]. by rewrite HS, Hcow.
  - pose proof (takes_spare _ _ _ _ _ HT1). pose proof (takes_spare _ _ _ _ _ HT2). lia.
  - rewrite (tk_tabs _ _ _ _ _ HT2), (tk_tabs _ _ _ _ _ HT1), V5.
    destruct (mapped_table a c d u HU pn p f Hm) as [t Ht]. assert ((d, pn / 1024) ∈ dom (v_tabs a)) by (apply elem_of_dom; eauto). set_solver.
Qed.

Lemma duppage_ok a u pn p f : runs a c d u -> target a (kern u) c envid e dd -> 0 <= pn < UVPN -> dd <> d ->
  v_maps a !! (d, pn) = Some (p, f) -> flag f PTE_U = true -> v_maps a !! (dd, pn) = None -> room 2 a -> ~ v_full dd (pn / 1024) a ->
  exists a' s', duppage envid pn u = Ret 0 (set_kern s' u) /\ dup_post a (kern u) pn (p, f) a' s'.
Proof.
  intros HU T Hpn Hdd Hm HfU Hnone Hroom Hnf. unfold duppage.
  assert (room 1 a) as Hroom1 by (intros d' v' x g Hx Hv'; pose proof (Hroom d' v' x g Hx Hv'); lia).
  destruct (page_va pn Hpn) as (V1 & _). rewrite u32_small by done.
  destruct (wf_maps _ _ (rel_wf _ _ _ (mi_vm _ _ (ki_mem _ _ (ru_inv _ _ _ _ HU)))) _ _ _ _ Hm) as (_ & _ & _ & _ & HfP).
  rewrite (bind_ret _ _ _ _ _ (uvpt_mapped a c d u HU pn p f Hpn Hm)), (bind_ret _ _ _ _ _ (this_id_ok a c d u HU)).
  rewrite !flag_mkpte by done. destruct (flag f PTE_SHARE) eqn:HS.
  - destruct (share_perm_ok f HfU HfP) as (P1 & P2 & P3 & P4).
    destruct (dup_once a u pn p f (Z.land f PTE_SYSCALL) HU T Hpn Hdd Hm) as (a' & s' & E & HP); try done;
      [unfold parent_page; cbn [fst snd]; by rewrite HS|unfold child_page; cbn [fst snd]; by rewrite HS|by rewrite P3|].
    exists a', s'. split; [|done]. unfold mkpte. change PGSIZE with (2 ^ 12). rewrite (land_low_add p f _ 12) by done.
    change (2 ^ 12) with PGSIZE. run E. done.
  - destruct (cow_perm_ok f) as (P1 & P2 & P3 & P4). cbv zeta.
    replace (if flag f PTE_W || flag f PTE_COW then Z.lor (Z.lor PTE_P PTE_U) PTE_COW else Z.lor PTE_P PTE_U) with (cow_perm f) by done.
    destruct (flag f PTE_W || flag f PTE_COW) eqn:Hcow.
    + destruct (dup_twice a u pn p f HU T Hpn Hdd Hm HS Hcow Hnone Hroom Hnf) as (a' & s1 & s' & E1 & R1 & E2 & HP).
      exists a', s'. split; [|done]. run E1. replace (flag (cow_perm f) PTE_COW) with true by (unfold cow_perm; by rewrite Hcow).
      rewrite (bind_ret this_id _ _ (env_id (env_of (kern u) c)) (set_kern s1 u)).
      2:{ unfold this_id, gets. cbn [kern thisenv set_kern]. by rewrite (ru_this _ _ _ _ HU), (vm_frame_env (kern u) s1). }
      run E2. done.
    + destruct (dup_once a u pn p f (cow_perm f) HU T Hpn Hdd Hm) as (a' & s' & E & HP); try done;
        [unfold parent_page; cbn [fst snd]; by rewrite HS, Hcow|unfold child_page; cbn [fst snd]; by rewrite HS|congruence|].
      exists a', s'. split; [|done]. run E. by replace (flag (cow_perm f) PTE_COW) with false by (unfold cow_perm; by rewrite Hcow).
Qed.
End Dup.
