(* ===== verification/ForkLoop.v ===== *)
(** lib/fork.c: the loops of [fork] over the page tables share every page of
    the parent with the child. *)

From stdpp Require Import base numbers list gmap strings.
From Stdlib Require Import ZArith Lia Bool.
From S2P Require Import Prelude Mmu KState Pmap PmapBoot PmapSpec Paging VmOps Env Syscall Trap Ulib KInv EnvSpec SyscallMem UlibSpec ForkSpec.

Local Ltac Zify.zify_post_hook ::= Z.to_euclidean_division_equations.

(** * Sizes *)

Lemma size_cover {A} `{Countable A} (X Y : gset A) (l : list A) : X ⊆ Y ∪ list_to_set l -> (size X <= size Y + length l)%nat.
Proof.
  intros HX. etrans; [by apply subseteq_size|]. rewrite size_union_alt. apply Nat.add_le_mono_l. clear HX.
  transitivity (size (list_to_set l : gset A)); [apply subseteq_size; set_solver|]. induction l as [|x l IH]; [done|].
  cbn [list_to_set length]. rewrite size_union_alt, size_singleton. apply le_n_S.
  etrans; [|exact IH]. apply subseteq_size. set_solver.
Qed.

(** If every mapping of the child shows a frame the parent maps at the same
    page, no frame has more than twice its mappings. *)
Lemma urefs_double (d dd : Z) a a' p :
  (forall d' v f, d' <> dd -> v_maps a' !! (d', v) = Some (p, f) -> v < UVPN -> exists f', v_maps a !! (d', v) = Some (p, f')) ->
  (forall v f, v_maps a' !! (dd, v) = Some (p, f) -> v < UVPN -> exists f', v_maps a !! (d, v) = Some (p, f')) ->
  urefs a' p <= 2 * urefs a p.
Proof.
  intros H1 H2. unfold urefs, count. set (P := fun kv : Z * Z * (Z * Z) => kv.1.2 < UVPN /\ kv.2.1 = p).
  set (X := dom (filter P (v_maps a))).
  assert (forall d' v f, v_maps a !! (d', v) = Some (p, f) -> v < UVPN -> (d', v) ∈ X) as HX.
  { intros d' v f Hm Hv. apply elem_of_dom. exists (p, f). by apply map_lookup_filter_Some_2. }
  assert (size (dom (filter P (v_maps a'))) <= size X + length ((fun k => (dd, k.2)) <$> elements X))%nat as Hs.
  { apply size_cover. intros [d' v] Hk. apply elem_of_dom in Hk as [[q f] Hk].
    apply map_lookup_filter_Some in Hk as [Hm [Hv Hq]]. cbn in Hv, Hq. subst q.
    destruct (decide (d' = dd)) as [->|Hne].
    - destruct (H2 v f Hm Hv) as [f' Hm']. apply elem_of_union_r, elem_of_list_to_set, list_elem_of_fmap.
      exists (d, v). split; [done|]. apply elem_of_elements. by apply (HX d v f').
    - destruct (H1 d' v f Hne Hm Hv) as [f' Hm']. apply elem_of_union_l. by apply (HX d' v f'). }
  rewrite length_fmap in Hs. unfold X in Hs. rewrite !size_dom in Hs. change (length (elements ?Y)) with (size Y) in Hs.
  rewrite size_dom in Hs. lia.
Qed.

(** * The pages already shared *)

Definition FIRST : Z := PGNUM UTEXT.
Definition LAST : Z := PGNUM (UXSTACKTOP - PGSIZE).

(** The mappings when the pages below [k] have been shared. *)
Definition fork_map (d dd : Z) (M : gmap (Z * Z) (Z * Z)) (k : Z) (key : Z * Z) : option (Z * Z) :=
  if decide (FIRST <= key.2 < k) then
    if decide (key.1 = dd) then child_page <$> M !! (d, key.2)
    else if decide (key.1 = d) then parent_page <$> M !! (d, key.2)
    else M !! key
  else M !! key.

(** The page tables of a directory. *)
Definition tables (a : vm) (d : Z) : gset (Z * Z) := filter (fun k => k.1 = d) (dom (v_tabs a)).

Section Loop.
Context (c d e dd envid : Z) (a0 : vm) (u0 : ustate).
Context (H0 : runs a0 c d u0) (T0 : target a0 (kern u0) c envid e dd) (Hdd : dd <> d).
Context (Hempty : forall v, v_maps a0 !! (dd, v) = None).
Context (Huser : forall v p f, v_maps a0 !! (d, v) = Some (p, f) -> v < UVPN -> flag f PTE_U = true).
Context (Hroom : forall d' v p f, v_maps a0 !! (d', v) = Some (p, f) -> v < UVPN -> 2 * urefs a0 p + 2 < 2 ^ 16).
Context (Hfree : (size (tables a0 d) < length (v_free a0))%nat).

Local Abbreviation M0 := (v_maps a0).

Record fork_inv (k : Z) (a : vm) (u : ustate) : Prop := {
  fi_inv : kinv a (kern u);
  fi_u : u = set_kern (kern u) u0;
  fi_frame : vm_frame (kern u0) (kern u);
  fi_kept : kept a0 (kern u0) (kern u);
  fi_maps : forall key, v_maps a !! key = fork_map d dd M0 k key;
  fi_spare : spare a0 <= spare a;
  fi_tabs : dom (v_tabs a) ⊆ dom (v_tabs a0) ∪ list_to_set ((fun k => (dd, k.2)) <$> elements (tables a0 d))
}.

Lemma fork_inv_start : fork_inv FIRST a0 u0.
Proof.
  split; [apply H0|by destruct u0|apply vm_frame_refl|by intros d' v' x g _ _ k _| |done|set_solver].
  intros [d' v]. unfold fork_map. rewrite decide_False; [done|cbn; lia].
Qed.

Section Inv.
Context (k : Z) (a : vm) (u : ustate) (HI : fork_inv k a u).

Lemma fi_runs : runs a c d u.
Proof. rewrite (fi_u _ _ _ HI). apply (runs_vm a0 c d u0 H0); apply HI. Qed.

Lemma fi_target : target a (kern u) c envid e dd.
Proof. apply (target_vm a0 a (kern u0)); [done|apply HI|apply HI]. Qed.

(** Where the child's page is already mapped, it shows the parent's frame. *)
Lemma fi_frames d' v p f : v_maps a !! (d', v) = Some (p, f) ->
  exists f', M0 !! ((if decide (d' = dd) then d else d'), v) = Some (p, f').
Proof.
  rewrite (fi_maps _ _ _ HI). unfold fork_map. cbn [fst snd]. destruct (decide (FIRST <= v < k)).
  - destruct (decide (d' = dd)) as [->|Hn]; [|destruct (decide (d' = d)) as [->|]].
    + destruct (M0 !! (d, v)) as [[q g]|]; [|done]. cbn. intros [= <- _]. eauto.
    + destruct (M0 !! (d, v)) as [[q g]|]; [|done]. cbn. intros [= <- _]. eauto.
    + eauto.
  - destruct (decide (d' = dd)) as [->|]; [by rewrite Hempty|eauto].
Qed.

(** What was mapped stays mapped. *)
Lemma fi_still d' v x g : M0 !! (d', v) = Some (x, g) -> d' <> dd /\ exists g', v_maps a !! (d', v) = Some (x, g').
Proof.
  intros Hx. destruct (decide (d' = dd)) as [->|Hn]; [by rewrite Hempty in Hx|]. split; [done|].
  rewrite (fi_maps _ _ _ HI). unfold fork_map. cbn [fst snd]. rewrite (decide_False (P := d' = dd)) by done.
  destruct (decide _); [|eauto]. destruct (decide (d' = d)) as [->|]; [rewrite Hx; cbn; eauto|eauto].
Qed.

Lemma fi_room : room 2 a.
Proof.
  intros d' v p f Hm Hv. destruct (fi_frames d' v p f Hm) as [f' Hm']. pose proof (Hroom _ _ _ _ Hm' Hv) as Hr.
  enough (urefs a p <= 2 * urefs a0 p) by lia. apply (urefs_double d dd).
  - intros d1 v1 f1 Hd1 Hm1 _. destruct (fi_frames _ _ _ _ Hm1) as [f2 H2]. rewrite decide_False in H2 by done. eauto.
  - intros v1 f1 Hm1 _. destruct (fi_frames _ _ _ _ Hm1) as [f2 H2]. rewrite decide_True in H2 by done. eauto.
Qed.

Lemma fi_free : (length (v_free a0) <= length (v_free a) + size (tables a0 d))%nat.
Proof.
  pose proof (fi_spare _ _ _ HI) as Hs. unfold spare in Hs. pose proof (size_cover _ _ _ (fi_tabs _ _ _ HI)) as Hc.
  rewrite !size_dom, length_fmap in Hc. change (length (elements ?X)) with (size X) in Hc. lia.
Qed.

Lemma fi_not_full x : ~ v_full dd x a.
Proof. intros [_ Hn]. pose proof fi_free as Hf. rewrite Hn in Hf. cbn in Hf. lia. Qed.

(** Pages that are not mapped need nothing. *)
Lemma fork_inv_skip k' : k <= k' -> (forall v, k <= v < k' -> v_maps a !! (d, v) = None) -> FIRST <= k -> fork_inv k' a u.
Proof.
  intros Hk Hnone Hf. destruct HI as [I1 I2 I3 I4 I5 I6 I7]. split; try done. intros [d' v]. rewrite I5. unfold fork_map. cbn [fst snd].
  destruct (decide (FIRST <= v < k)) as [Hi|Hi]; [by rewrite (decide_True (P := FIRST <= v < k')) by lia|].
  destruct (decide (FIRST <= v < k')) as [Hi'|Hi']; [|done].
  assert (M0 !! (d, v) = None) as Hn.
  { specialize (Hnone v ltac:(lia)). rewrite I5 in Hnone. unfold fork_map in Hnone. cbn [fst snd] in Hnone. by rewrite decide_False in Hnone. }
  rewrite Hn. destruct (decide (d' = dd)) as [->|]; [by rewrite Hempty|]. destruct (decide (d' = d)) as [->|]; [by rewrite Hn|done].
Qed.

(** One page. *)
Lemma fork_inv_dup p f : FIRST <= k < UVPN -> v_maps a !! (d, k) = Some (p, f) ->
  exists a' u', duppage envid k u = Ret 0 u' /\ fork_inv (k + 1) a' u'.
Proof.
  intros Hk Hm. pose proof HI as [I1 I2 I3 I4 I5 I6 I7]. change FIRST with 2048 in *.
  assert (M0 !! (d, k) = Some (p, f)) as Hm0.
  { rewrite I5 in Hm. unfold fork_map in Hm. cbn [fst snd] in Hm. by rewrite decide_False in Hm by (change FIRST with 2048; lia). }
  assert (v_maps a !! (dd, k) = None) as Hnone.
  { rewrite I5. unfold fork_map. cbn [fst snd]. rewrite decide_False by (change FIRST with 2048; lia). apply Hempty. }
  destruct (duppage_ok c d e dd envid a u k p f fi_runs fi_target ltac:(lia) Hdd Hm (Huser _ _ _ Hm0 ltac:(lia)) Hnone fi_room (fi_not_full _))
    as (a' & s' & E & [D1 D2 D3 D4 D5 D6]).
  exists a', (set_kern s' u). split; [done|]. split; cbn [kern set_kern]; try done.
  - by rewrite I2.
  - by eapply vm_frame_trans.
  - apply (kept_trans a0 a _ (kern u)); try done. intros d' v' x g Hx Hv'.
    destruct (fi_still d' v' x g Hx) as (_ & g' & Hg). by exists d', v', g'.
  - intros [d' v]. rewrite D4. unfold fork_map. cbn [fst snd]. rewrite !lookup_insert, I5. unfold fork_map. cbn [fst snd]. change FIRST with 2048.
    destruct (decide ((d, k) = (d', v))) as [[= <- <-]|N1]; [rewrite decide_True, decide_False, decide_True, Hm0 by (done || lia); done|].
    destruct (decide ((dd, k) = (d', v))) as [[= <- <-]|N2]; [rewrite decide_True, decide_True, Hm0 by (done || lia); done|].
    destruct (decide (2048 <= v < k)) as [Hv|Hv]; [by rewrite (decide_True (P := 2048 <= v < k + 1)) by lia|].
    destruct (decide (2048 <= v < k + 1)) as [Hv'|Hv']; [|done]. assert (v = k) as -> by lia.
    rewrite !decide_False by congruence. done.
  - lia.
  - rewrite D6. apply union_subseteq. split; [|done]. apply singleton_subseteq_l, elem_of_union_r, elem_of_list_to_set, list_elem_of_fmap.
    exists (d, k / 1024). split; [done|]. apply elem_of_elements, elem_of_filter. split; [done|]. apply elem_of_dom.
    by destruct (mapped_table a0 c d u0 H0 _ _ _ Hm0) as [t ->].
Qed.
End Inv.

(** * The loops *)

(** One page table, up to the exception stack. *)
Lemma dup_table_ok fuel : forall i j a u, 0 <= j -> Z.of_nat fuel = 1024 - j -> 2 <= i < UPDX -> i * 1024 + j <= LAST ->
  fork_inv (i * 1024 + j) a u -> is_Some (v_tabs a !! (d, i)) ->
  exists a' u', dup_table fuel envid i j u = Ret tt u' /\ fork_inv (Z.min (i * 1024 + 1024) LAST) a' u'.
Proof.
  induction fuel as [|fuel IH]; intros i j a u Hj Hf Hi Hl HI Ht.
  { exists a, u. split; [done|]. change LAST with 977919 in *. by replace (Z.min (i * 1024 + 1024) 977919) with (i * 1024 + j) by lia. }
  cbn [dup_table]. change NPTENTRIES with 1024. fold LAST. cbv zeta.
  destruct (Z.eqb_spec (i * 1024 + j) LAST) as [El|Hne].
  { exists a, u. split; [done|]. by replace (Z.min (i * 1024 + 1024) LAST) with (i * 1024 + j) by lia. }
  pose proof (fi_runs _ _ _ HI) as HU. destruct Ht as [t Ht]. change LAST with 977919 in *. rewrite UPDX_val in Hi.
  assert (0 <= i * 1024 + j < UVPN) as Hv by (rewrite UVPN_val; lia). assert ((i * 1024 + j) / 1024 = i) as Hx by lia.
  rewrite (bind_ret _ _ _ _ _ (uvpt_ok a c d u HU (i * 1024 + j) t Hv ltac:(by rewrite Hx))).
  destruct (v_maps a !! (d, i * 1024 + j)) as [[p f]|] eqn:Hm.
  - destruct (wf_maps _ _ (rel_wf _ _ _ (mi_vm _ _ (ki_mem _ _ (ru_inv _ _ _ _ HU)))) _ _ _ _ Hm) as (_ & _ & _ & _ & HfP).
    rewrite flag_mkpte, HfP by done. destruct (fork_inv_dup _ a u HI p f) as (a1 & u1 & E1 & HI1); [change FIRST with 2048; lia|done|].
    rewrite (bind_ret _ _ u tt u1) by (by rewrite (bind_ret _ _ _ _ _ E1)).
    apply (IH i (j + 1) a1 u1); [lia|lia|rewrite UPDX_val; lia|lia|by replace (i * 1024 + (j + 1)) with (i * 1024 + j + 1) by lia|].
    assert (v_maps a1 !! (d, i * 1024 + j) <> None) as Hm1.
    { rewrite (fi_maps _ _ _ HI1). unfold fork_map. cbn [fst snd]. change FIRST with 2048. rewrite decide_True, decide_False, decide_True by (done || lia).
      rewrite (fi_maps _ _ _ HI) in Hm. unfold fork_map in Hm. cbn [fst snd] in Hm. rewrite decide_False in Hm by lia. by rewrite Hm. }
    destruct (v_maps a1 !! (d, i * 1024 + j)) as [[p1 f1]|] eqn:Hq; [|done].
    destruct (mapped_table a1 c d u1 (fi_runs _ _ _ HI1) _ _ _ Hq) as [t1 Ht1]. rewrite Hx in Ht1. eauto.
  - change (flag 0 PTE_P) with false. cbv iota. change (bind (ret tt) ?k u) with (k tt u). cbv beta.
    apply (IH i (j + 1) a u); [lia|lia|rewrite UPDX_val; lia|lia| |eauto].
    replace (i * 1024 + (j + 1)) with (i * 1024 + j + 1) by lia. apply (fork_inv_skip (i * 1024 + j)); [done|lia| |change FIRST with 2048; lia].
    intros v Hv'. by replace v with (i * 1024 + j) by lia.
Qed.

(** All of them. *)
Lemma fork_loop_ok : exists a u,
  for_loop (Z.to_nat (PDX UXSTACKTOP - PDX UTEXT)) (PDX UTEXT) (fun i =>
    let! pde := uvpd i in
    if flag pde PTE_P then dup_table (Z.to_nat NPTENTRIES) envid i 0 else ret tt) u0 = Ret tt u
  /\ fork_inv LAST a u.
Proof.
  change (PDX UXSTACKTOP - PDX UTEXT) with 953. change (PDX UTEXT) with 2. change (Z.to_nat NPTENTRIES) with 1024%nat.
  destruct (for_loop_inv (fun i u => exists a, fork_inv (Z.min (i * 1024) LAST) a u)
    (fun i => let! pde := uvpd i in if flag pde PTE_P then dup_table 1024 envid i 0 else ret tt) (Z.to_nat 953) 2 u0) as (u & E & a & HI).
  - exists a0. exact fork_inv_start.
  - intros i u Hi [a HI]. change (Z.of_nat (Z.to_nat 953)) with 953 in Hi.
    assert (Z.min (i * 1024) LAST = i * 1024) as El by (change LAST with 977919; lia). rewrite El in HI.
    destruct (uvpd_ok a c d u (fi_runs _ _ _ HI) i) as (w & Ew & Hw); [rewrite UPDX_val; lia|]. rewrite (bind_ret _ _ _ _ _ Ew).
    replace ((i + 1) * 1024) with (i * 1024 + 1024) by lia.
    destruct (v_tabs a !! (d, i)) as [t|] eqn:Ht.
    + rewrite Hw, flag_mkpte by done. change (flag PTE_PWU PTE_P) with true. cbv iota.
      destruct (dup_table_ok 1024 i 0 a u) as (a1 & u1 & E1 & HI1); [done|done|rewrite UPDX_val; lia|change LAST with 977919; lia|by rewrite Z.add_0_r|eauto|eauto].
    + rewrite Hw. exists u. split; [done|]. exists a. apply (fork_inv_skip (i * 1024)); [done|change LAST with 977919; lia| |change FIRST with 2048; lia].
      intros v Hv. destruct (v_maps a !! (d, v)) as [[p f]|] eqn:Hm; [|done].
      destruct (mapped_table a c d u (fi_runs _ _ _ HI) _ _ _ Hm) as [t Ht']. change LAST with 977919 in Hv. replace (v / 1024) with i in Ht' by lia. congruence.
  - exists a, u. split; [exact E|exact HI].
Qed.
End Loop.
