(* ===== verification/ForkProps.v ===== *)
(** lib/fork.c: [fork] as a whole, and stores to copy-on-write pages. *)

From stdpp Require Import base numbers list gmap strings.
From Stdlib Require Import ZArith Lia Bool.
From S2P Require Import Prelude Mmu KState Pmap PmapBoot PmapSpec Paging VmOps Env Syscall Trap Ulib KInv DemoKernel EnvSpec TrapSpec SyscallMem SyscallEnv SyscallSafe UlibSpec ForkSpec ForkLoop.

Local Ltac Zify.zify_post_hook ::= Z.to_euclidean_division_equations.
Local Ltac run E := rewrite (bind_ret _ _ _ _ _ E); change (0 <? 0) with false; cbv iota.

(** Changing another environment leaves the program running, and the names
    of environments as they are. *)
Lemma runs_put a c d u e x : runs a c d u -> kinv a (put_env e x (kern u)) -> (e = c -> env_pgdir x = env_pgdir (env_of (kern u) c)) ->
  runs a c d (set_kern (put_env e x (kern u)) u).
Proof.
  intros HU HK Hp. apply (runs_kern a c d u HU); [done|done|]. rewrite env_of_put. destruct (decide (e = c)) as [->|]; [by apply Hp|done].
Qed.

Lemma target_put a s c envid e de x : target a s c envid e de -> env_id x = env_id (env_of s e) ->
  env_parent_id x = env_parent_id (env_of s e) -> env_status x <> ENV_FREE -> env_pgdir x = env_pgdir (env_of s e) -> e <> c ->
  target a (put_env e x s) c envid e de.
Proof.
  intros (Hn & Hm & [Hl1 Hl2] & Hd & Hp) E1 E2 E3 E4 Hc. unfold target, names, may_control, live.
  rewrite !env_of_put, !(decide_True (P := e = e)), !(decide_False (P := e = c)), E1, E2, E4 by done.
  split; [destruct Hn as [[-> ?]|(Hz & _ & Hi)]; [done|right; done]|]. split; [done|]. done.
Qed.

Section Tail.
Context (upcall c d e dd envid : Z) (a0 : vm) (u0 : ustate) (px0 fx0 : Z).
Context (H0 : runs a0 c d u0) (T0 : target a0 (kern u0) c envid e dd) (Hdd : dd <> d) (Hup : is_u32 upcall) (Hid : 0 < envid).
Context (Hempty : forall v, v_maps a0 !! (dd, v) = None).
Context (Huser : forall v p f, v_maps a0 !! (d, v) = Some (p, f) -> v < UVPN -> flag f PTE_U = true).
Context (Hroom : forall d' v p f, v_maps a0 !! (d', v) = Some (p, f) -> v < UVPN -> 2 * urefs a0 p + 2 < 2 ^ 16).
Context (Hfree : (size (tables a0 d) + 3 <= length (v_free a0))%nat).
Context (Hx : v_maps a0 !! (d, LAST) = Some (px0, fx0)) (HxW : flag fx0 PTE_W = true).
Local Abbreviation M0 := (v_maps a0).

(** The mappings [fork] leaves: the shared pages, a fresh exception stack
    for the child, nothing at PFTEMP. *)
Definition final_map (px : Z) (key : Z * Z) : option (Z * Z) :=
  if decide (key = (d, PFPAGE)) then None
  else if decide (key = (dd, LAST)) then Some (px, PWU)
  else fork_map d dd M0 LAST key.

(** The exception stack of the child, made by way of the parent's PFTEMP. *)
Lemma fork_stack a u : fork_inv d dd a0 u0 LAST a u ->
  let id := env_id (env_of (kern u0) c) in
  exists px a' s1 s2 s3 s',
    usys_page_alloc envid (UXSTACKTOP - PGSIZE) PWU u = Ret 0 (set_kern s1 u0) /\ vm_frame (kern u0) s1
    /\ usys_page_map envid (UXSTACKTOP - PGSIZE) id PFTEMP PWU (set_kern s1 u0) = Ret 0 (set_kern s2 u0)
    /\ memmove (UXSTACKTOP - PGSIZE) PFTEMP PGSIZE (set_kern s2 u0) = Ret tt (set_kern s3 u0) /\ vm_frame (kern u0) s3
    /\ usys_page_unmap id PFTEMP (set_kern s3 u0) = Ret 0 (set_kern s' u0)
    /\ kinv a' s' /\ vm_frame (kern u0) s' /\ (forall key, v_maps a' !! key = final_map px key)
    /\ (forall d' v f, v_maps a0 !! (d', v) = Some (px, f) -> v < UVPN -> False)
    /\ (forall j, 0 <= j < 1024 -> word_at s' (px * 1024 + j) = 0)
    /\ (forall d' v x g, v < UVPN -> (d', v) <> (d, PFPAGE) -> x <> px0 -> M0 !! (d', v) = Some (x, g) -> same_frame x (kern u0) s').
Proof.
  intros HI id. pose proof (fi_runs c d dd a0 u0 H0 _ a u HI) as HU. pose proof (fi_target c d e dd envid a0 u0 T0 _ a u HI) as T.
  pose proof (fi_u _ _ _ _ _ _ _ HI) as Eu. pose proof (fi_frame _ _ _ _ _ _ _ HI) as R. pose proof (fi_free d dd a0 u0 ltac:(lia) _ a u HI) as Hf.
  pose proof (fi_inv _ _ _ _ _ _ _ HI) as HK.
  destruct (page_va LAST ltac:(by vm_compute)) as (L1 & L2 & L3 & L4 & L5). change (LAST * PGSIZE) with (UXSTACKTOP - PGSIZE) in *.
  destruct (page_va PFPAGE ltac:(by vm_compute)) as (F1 & F2 & F3 & F4 & _). change (PFPAGE * PGSIZE) with PFTEMP in *.
  assert (LAST <> PFPAGE) as HLP by (vm_compute; discriminate).
  assert (forall s, set_kern s u = set_kern s u0) as Es by (intros; by rewrite Eu).
  destruct (usys_page_alloc_ok a c d u HU envid (UXSTACKTOP - PGSIZE) PWU e dd T L1 ltac:(by vm_compute) ltac:(by vm_compute) ltac:(lia))
    as (px & a1 & s1 & E1 & Hpx & V1 & T1 & Z1). pose proof V1 as [K1 R1 D1 M1]. rewrite L3 in M1.
  pose proof (runs_vm a c d u HU s1 a1 K1 R1) as HU1. rewrite Es in HU1, E1.
  pose proof (target_vm a a1 _ s1 c envid e dd T K1 R1) as TC1. pose proof (vm_frame_trans _ _ _ R R1) as R01.
  destruct (self_target a1 c d _ HU1) as [_ TS1]. cbn [kern set_kern] in TS1. rewrite (vm_frame_env (kern u0) s1) in TS1 by done. fold id in TS1.
  assert (v_maps a1 !! (dd, LAST) = Some (px, PWU)) as Hp1 by (rewrite M1; apply lookup_insert_eq).
  destruct (usys_page_map_ok a1 c d _ HU1 envid (UXSTACKTOP - PGSIZE) id PFTEMP PWU e dd c d px PWU TC1 TS1 L1 F1)
    as (a2 & s2 & E2 & V2 & _); [by vm_compute|by rewrite L3|done| | |].
  { apply (room_refs a1 s1 K1), (room_insert 1 a (kern u) a1 (dd, LAST) px PWU); [done|lia| |done|by left].
    by apply (fi_room d dd a0 u0 Hempty Hroom ltac:(lia) LAST a u). }
  { intros [_ Hn]. destruct T1 as [T1 T2]. rewrite Hn in T2. cbn [length] in T2.
    assert (size (v_tabs a1) <= size (v_tabs a) + 1)%nat.
    { rewrite <- !size_dom, T1. rewrite size_union_alt, size_singleton, Nat.add_comm. apply Nat.add_le_mono_r, subseteq_size. set_solver. }
    lia. }
  pose proof V2 as [K2 R2 D2 M2]. rewrite F3 in M2. cbn [kern set_kern] in *. pose proof (vm_frame_trans _ _ _ R01 R2) as R02.
  pose proof (runs_vm a1 c d _ HU1 s2 a2 K2 R2) as HU2. cbn [kern set_kern] in HU2.
  assert (v_maps a !! (d, LAST) = Some (px0, fx0)) as Hxa.
  { rewrite (fi_maps _ _ _ _ _ _ _ HI). unfold fork_map. cbn [fst snd]. by rewrite decide_False by lia. }
  assert (px0 <> px) as Hne by (intros ->; by apply (free_unmapped a (kern u) d LAST px fx0 HK Hpx Hxa)).
  destruct (memmove_page a2 c d _ LAST PFPAGE px0 px HU2) as (s3 & E3 & HU3 & R3 & C3 & O3); [| |done|done|].
  { split; [by vm_compute|]. exists fx0. rewrite M2, lookup_insert_ne, M1, lookup_insert_ne by congruence.
    split; [done|]. split; [by apply (Huser LAST px0 fx0)|done]. }
  { split; [by vm_compute|]. exists PWU. split; [rewrite M2; apply lookup_insert_eq|done]. }
  change (LAST * PGSIZE) with (UXSTACKTOP - PGSIZE) in *. change (PFPAGE * PGSIZE) with PFTEMP in *. cbn [kern set_kern] in *.
  destruct (self_target a2 c d _ HU3) as [_ TS3]. cbn [kern set_kern] in TS3. pose proof (vm_frame_trans _ _ _ R02 R3) as R03.
  rewrite (vm_frame_env (kern u0) s3) in TS3 by done. fold id in TS3.
  destruct (usys_page_unmap_ok a2 c d _ HU3 id PFTEMP c d TS3 F1 F2 F4) as (a4 & s4 & E4 & [K4 R4 D4 M4] & _). cbn [kern set_kern] in *.
  exists px, a4, s1, s2, s3, s4. split; [exact E1|]. split; [done|]. split; [exact E2|]. split; [exact E3|]. split; [done|]. split; [exact E4|].
  split; [done|]. split; [by eapply vm_frame_trans|]. split; [|split; [|split]].
  - intros key. rewrite M4, M2, M1. unfold final_map. rewrite F3, lookup_delete, !lookup_insert, (fi_maps _ _ _ _ _ _ _ HI).
    repeat case_decide; congruence.
  - intros d' v f Hm Hv. destruct (fi_still d dd a0 u0 Hempty _ a u HI d' v px f Hm) as (_ & g & Hg).
    by apply (free_unmapped a (kern u) d' v px g).
  - intros j Hj. rewrite (D4 px) by (done || (apply (mapped_data a2 s2 d PFPAGE px PWU); [done|rewrite M2; apply lookup_insert_eq|by vm_compute])).
    rewrite O3 by (rewrite frame_div by done; congruence).
    rewrite (D2 px) by (done || by apply (mapped_data a1 s1 dd LAST px PWU)). by apply Z1.
  - intros d' v x g Hv Hk Hxx Hm j Hj. destruct (fi_still d dd a0 u0 Hempty _ a u HI d' v x g Hm) as (Hn & g0 & Hg0).
    assert (v_maps a1 !! (d', v) = Some (x, g0)) as Hg1 by (by rewrite M1, lookup_insert_ne by congruence).
    assert (v_maps a2 !! (d', v) = Some (x, g0)) as Hg2 by (by rewrite M2, lookup_insert_ne by congruence).
    rewrite (D4 x) by (done || by apply (mapped_data a2 s2 d' v x g0)). rewrite O3 by (by rewrite frame_div).
    rewrite (D2 x) by (done || by apply (mapped_data a1 s1 d' v x g0)). rewrite (D1 x) by (done || by apply (mapped_data a (kern u) d' v x g0)).
    by apply (fi_kept _ _ _ _ _ _ _ HI d' v x g).
Qed.

(** What [fork] does after [sys_exofork], in the parent. *)
Record fork_done (px : Z) (a' : vm) (s' : kstate) : Prop := {
  fd_inv : kinv a' s';
  fd_cur : curenv s' = Some c;
  fd_maps : forall key, v_maps a' !! key = final_map px key;
  fd_fresh : forall d' v f, v_maps a0 !! (d', v) = Some (px, f) -> v < UVPN -> False;
  fd_zero : forall j, 0 <= j < 1024 -> word_at s' (px * 1024 + j) = 0;
  fd_kept : forall d' v x g, v < UVPN -> (d', v) <> (d, PFPAGE) -> x <> px0 -> M0 !! (d', v) = Some (x, g) -> same_frame x (kern u0) s';
  fd_envs : forall i, env_of s' i = if decide (i = e) then e_status ENV_RUNNABLE (e_upcall upcall (env_of (kern u0) e)) else env_of (kern u0) i
}.

Lemma fork_from_ok : exists px a' s', fork_from upcall envid u0 = Ret envid (set_kern s' u0) /\ fork_done px a' s'.
Proof.
  destruct (fork_loop_ok c d e dd envid a0 u0 H0 T0 Hdd Hempty Huser Hroom ltac:(lia)) as (a & u & El & HI).
  destruct (fork_stack a u HI) as (px & a4 & s1 & s2 & s3 & s4 & E1 & R1 & E2 & E3 & R3 & E4 & K4 & R4 & M4 & Fx & Zx & D4).
  pose proof (runs_vm a0 c d u0 H0 s4 a4 K4 R4) as HU4. pose proof (target_vm a0 a4 _ s4 c envid e dd T0 K4 R4) as T4.
  assert (e <> c) as Hec.
  { intros ->. destruct T0 as (_ & _ & _ & _ & Hp). rewrite (ru_pgdir _ _ _ _ H0) in Hp. by apply frame_kva_inj in Hp. }
  destruct (usys_env_set_pgfault_upcall_ok a4 c d _ HU4 envid upcall e dd T4 Hup) as (s5 & E5 & K5 & Q5). cbn [kern set_kern] in *.
  assert (runs a4 c d (set_kern s5 u0)) as HU5.
  { rewrite Q5. apply (runs_put a4 c d (set_kern s4 u0)); [done|by rewrite Q5 in K5|by intros ->]. }
  assert (target a4 s5 c envid e dd) as T5.
  { rewrite Q5. pose proof T4 as (_ & _ & [_ Hs] & _). by apply target_put. }
  destruct (usys_env_set_runnable_ok a4 c d _ HU5 envid e dd T5) as (s6 & E6 & K6 & Q6). cbn [kern set_kern] in *.
  exists px, a4, s6. split.
  - unfold fork_from. rewrite (proj2 (Z.ltb_ge envid 0)), (proj2 (Z.eqb_neq envid 0)) by lia.
    rewrite (bind_ret _ _ _ _ _ El). change (Z.lor (Z.lor PTE_P PTE_U) PTE_W) with PWU. run E1.
    rewrite (bind_ret this_id _ _ (env_id (env_of (kern u0) c)) (set_kern s1 u0)).
    2:{ unfold this_id, gets. cbn [kern thisenv set_kern]. by rewrite (ru_this _ _ _ _ H0), (vm_frame_env (kern u0) s1). }
    run E2. run E3. rewrite (bind_ret this_id _ _ (env_id (env_of (kern u0) c)) (set_kern s3 u0)).
    2:{ unfold this_id, gets. cbn [kern thisenv set_kern]. by rewrite (ru_this _ _ _ _ H0), (vm_frame_env (kern u0) s3). }
    run E4. run E5. run E6. done.
  - assert (forall w, word_at s6 w = word_at s4 w) as W by (intros; by rewrite Q6, Q5).
    split; try done.
    + rewrite Q6, Q5. change (curenv (put_env e ?x ?y)) with (curenv y). change (curenv (put_env e ?x ?y)) with (curenv y).
      rewrite (vm_frame_curenv _ _ R4). apply H0.
    + intros j Hj. rewrite W. by apply Zx.
    + intros d' v x g Hv Hk Hn Hm j Hj. rewrite W. by apply (D4 d' v x g).
    + intros i. rewrite Q6, Q5, !env_of_put. rewrite <- (vm_frame_env (kern u0) s4 i R4), <- (vm_frame_env (kern u0) s4 e R4).
      destruct (decide (i = e)) as [->|Hi]; [by rewrite !decide_True|by rewrite !(decide_False (P := e = i)) by congruence].
Qed.
End Tail.

(** * The beginning of fork *)

(** After [set_pgfault_handler] there is an exception stack. *)
Record handler_post (a : vm) (s : kstate) (c d : Z) (px fx : Z) (a' : vm) (s' : kstate) : Prop := {
  hp_inv : kinv a' s';
  hp_cur : curenv s' = curenv s;
  hp_maps : v_maps a' = <[(d, LAST) := (px, fx)]> (v_maps a);
  hp_flags : flag fx PTE_W = true /\ flag fx PTE_U = true;
  hp_frame : (forall d' v g, v < UVPN -> v_maps a !! (d', v) = Some (px, g) -> False) \/ v_maps a !! (d, LAST) = Some (px, fx);
  hp_tabs : dom (v_tabs a') ⊆ {[(d, LAST / 1024)]} ∪ dom (v_tabs a);
  hp_spare : spare a <= spare a' + 1;
  hp_kept : forall d' v x g, v < UVPN -> v_maps a !! (d', v) = Some (x, g) -> same_frame x s s';
  hp_envs : forall i, i <> c -> env_of s' i = env_of s i;
  hp_self : exists up, env_of s' c = e_upcall up (env_of s c)
}.

Lemma set_pgfault_handler_ok upcall f a c d u : runs a c d u -> is_u32 upcall -> (2 <= length (v_free a))%nat ->
  (_pgfault_handler u <> 0 -> exists p g, v_maps a !! (d, LAST) = Some (p, g) /\ flag g PTE_W = true /\ flag g PTE_U = true) ->
  exists px fx a' s', set_pgfault_handler upcall f u = Ret tt (mkU s' c f) /\ handler_post a (kern u) c d px fx a' s'.
Proof.
  intros HU Hup Hfree Hh. pose proof (ru_inv _ _ _ _ HU) as HK. unfold set_pgfault_handler.
  rewrite (bind_ret (gets _) _ u (_pgfault_handler u) u) by done.
  destruct (Z.eqb_spec (_pgfault_handler u) 0) as [Hz|Hz].
  - destruct (self_target a c d u HU) as [_ T0]. destruct (page_va LAST ltac:(by vm_compute)) as (L1 & _ & L3 & _ & L5).
    change (LAST * PGSIZE) with (UXSTACKTOP - PGSIZE) in *.
    destruct (usys_page_alloc_ok a c d u HU _ (UXSTACKTOP - PGSIZE) PWU c d T0 L1 ltac:(by vm_compute) ltac:(by vm_compute) Hfree)
      as (px & a1 & s1 & E1 & Hpx & V1 & T1 & _). pose proof V1 as [K1 R1 D1 M1]. rewrite L3 in M1.
    pose proof (runs_vm a c d u HU s1 a1 K1 R1) as HU1. pose proof (target_vm a a1 _ s1 c _ c d T0 K1 R1) as T01.
    destruct (usys_env_set_pgfault_upcall_ok a1 c d _ HU1 _ upcall c d T01 Hup) as (s2 & E2 & K2 & Q2). cbn [kern set_kern] in *.
    exists px, PWU, a1, s2. split.
    { rewrite (bind_ret _ _ u tt (set_kern s2 u)).
      { unfold modify. cbn [kern thisenv set_kern]. by rewrite (ru_this _ _ _ _ HU). }
      rewrite (bind_ret _ _ _ _ _ (this_id_ok a c d u HU)). change (Z.lor (Z.lor PTE_P PTE_W) PTE_U) with PWU. run E1.
      change (bind (ret tt) ?k (set_kern s1 u)) with (k tt (set_kern s1 u)). cbv beta.
      rewrite (bind_ret _ _ _ _ _ (this_id_ok a1 c d _ HU1)). cbn [kern set_kern]. rewrite (vm_frame_env (kern u) s1) by done. run E2. done. }
    split; try done.
    + rewrite Q2. exact (vm_frame_curenv _ _ R1).
    + left. intros d' v g Hv Hm. by apply (free_unmapped a (kern u) d' v px g).
    + by rewrite (tk_tabs _ _ _ _ _ T1), L5.
    + by apply (takes_spare _ _ _ _ _ T1).
    + intros d' v x g Hv Hx j Hj. rewrite Q2. change (word_at (put_env _ _ s1) ?w) with (word_at s1 w).
      by apply (kept_step a (kern u) _ a1 s1 HK V1 d' v x g).
    + intros i Hi. by rewrite Q2, env_of_put, decide_False, (vm_frame_env (kern u) s1) by congruence.
    + exists upcall. by rewrite Q2, env_of_put, decide_True, (vm_frame_env (kern u) s1).
  - destruct (Hh Hz) as (p & g & Hm & Hg). exists p, g, a, (kern u). split.
    { change (bind (ret tt) ?k u) with (k tt u). cbv beta. unfold modify. by rewrite (ru_this _ _ _ _ HU). }
    split; try done.
    + by rewrite insert_id.
    + by right.
    + set_solver.
    + lia.
    + exists (env_pgfault_upcall (env_of (kern u) c)). by destruct (env_of (kern u) c).
Qed.

Lemma handler_runs a c d u px fx a' s' h : runs a c d u -> handler_post a (kern u) c d px fx a' s' -> runs a' c d (mkU s' c h).
Proof.
  intros HU HP. pose proof (hp_cur _ _ _ _ _ _ _ _ HP) as Hc. rewrite (ru_cur _ _ _ _ HU) in Hc.
  assert (env_pgdir (env_of s' c) = frame_kva d) as Hp by (destruct (hp_self _ _ _ _ _ _ _ _ HP) as [up ->]; apply (ru_pgdir _ _ _ _ HU)).
  pose proof (hp_inv _ _ _ _ _ _ _ _ HP) as HK. split; try done. apply (dir_kept a' s' c); [done| |done].
  by apply (ci_cur _ _ (ki_cpu _ _ HK)).
Qed.

(** The child [sys_exofork] makes. *)
Record exo_post (a : vm) (s : kstate) (c e dd : Z) (a' : vm) (s' : kstate) : Prop := {
  ex_inv : kinv a' s';
  ex_cur : curenv s' = curenv s;
  ex_new : ~ live s e /\ live s' e;
  ex_id : 0 < env_id (env_of s' e);
  ex_status : env_status (env_of s' e) = ENV_NOT_RUNNABLE;
  ex_parent : env_parent_id (env_of s' e) = env_id (env_of s c);
  ex_tf : env_tf (env_of s' e) = set_eax 0 (env_tf (env_of s c));
  ex_pgdir : env_pgdir (env_of s' e) = frame_kva dd;
  ex_free : v_free a = dd :: v_free a';
  ex_tabs : v_tabs a' = v_tabs a;
  ex_maps : v_maps a' = v_maps a;
  ex_empty : forall v, v_maps a' !! (dd, v) = None;
  ex_words : forall w, w / 1024 <> dd -> word_at s' w = word_at s w;
  ex_envs : forall i, i <> e -> env_of s' i = env_of s i
}.

Lemma usys_exofork_ok a c d u : runs a c d u -> v_free a <> [] -> (exists i, 0 <= i < NENV /\ env_status (env_of (kern u) i) = ENV_FREE) ->
  exists e dd a' s', usys_exofork u = Ret (env_id (env_of s' e)) (set_kern s' u) /\ exo_post a (kern u) c e dd a' s'.
Proof.
  intros HU Hf (i & Hi & Hs). pose proof (sys_exofork_refines a (kern u) c (ru_inv _ _ _ _ HU) (ru_cur _ _ _ _ HU)) as HS.
  assert (forall r s', sys_exofork (kern u) = Ret r s' -> usys_exofork u = Ret r (set_kern s' u)) as HE.
  { intros r s' E. unfold usys_exofork, call. change (syscall SYS_exofork 0 0 0 0 0) with sys_exofork. by rewrite E. }
  inversion HS as [Hno|Hno|e dd a' s' N1 N2 N3 N4 N5 N6 N7 N8 N9 N10 N11 N12 N13 N14 N15 N16 [N17 _] N18]; [by destruct (Hno i)|done|].
  exists e, dd, a', s'. split; [apply HE; congruence|by split].
Qed.

(** * fork *)

(** Page [v] of directory [d'] is the page of [d]'s exception stack. *)
Definition stack_alias (a : vm) (d d' v : Z) : Prop :=
  exists p f g, v_maps a !! (d', v) = Some (p, f) /\ v_maps a !! (d, LAST) = Some (p, g).

(** What [fork] has done when it returns [envid] to the parent [c] with the
    directory [d]: there is a child [e] with the directory [dd]. *)
Record forked (upcall : Z) (a : vm) (s : kstate) (c d envid : Z) (a' : vm) (s' : kstate) (e dd : Z) : Prop := {
  fk_inv : kinv a' s' /\ curenv s' = Some c;
  fk_new : ~ live s e /\ live s' e /\ 0 < envid /\ env_id (env_of s' e) = envid;
  fk_child : env_status (env_of s' e) = ENV_RUNNABLE /\ env_parent_id (env_of s' e) = env_id (env_of s c)
    /\ env_tf (env_of s' e) = set_eax 0 (env_tf (env_of s c)) /\ env_pgfault_upcall (env_of s' e) = upcall
    /\ env_pgdir (env_of s' e) = frame_kva dd;
  fk_envs : forall i, i <> e -> i <> c -> env_of s' i = env_of s i;
  fk_pages : forall v, FIRST <= v < LAST ->
    v_maps a' !! (dd, v) = child_page <$> v_maps a !! (d, v) /\ v_maps a' !! (d, v) = parent_page <$> v_maps a !! (d, v);
  fk_private : forall v p f g, FIRST <= v < LAST -> v_maps a !! (d, v) = Some (p, f) -> flag f PTE_SHARE = false ->
    v_maps a' !! (d, v) = Some (p, g) \/ v_maps a' !! (dd, v) = Some (p, g) -> flag g PTE_W = false;
  fk_rest : forall v, ~ FIRST <= v <= LAST -> v_maps a' !! (dd, v) = None;
  fk_stack : exists px, v_maps a' !! (dd, LAST) = Some (px, PWU) /\ (forall j, 0 <= j < 1024 -> word_at s' (px * 1024 + j) = 0)
    /\ (forall d' v f, v < UVPN -> v_maps a' !! (d', v) = Some (px, f) -> (d', v) = (dd, LAST));
  fk_other : forall d' v, d' <> d -> d' <> dd -> v_maps a' !! (d', v) = v_maps a !! (d', v);
  fk_sees : forall v j, FIRST <= v < LAST -> 0 <= j < 1024 -> ~ stack_alias a d d v ->
    sees a' s' dd v j = sees a s d v j /\ sees a' s' d v j = sees a s d v j;
  fk_sees_other : forall d' v j, d' <> d -> d' <> dd -> v < UVPN -> 0 <= j < 1024 -> ~ stack_alias a d d' v ->
    sees a' s' d' v j = sees a s d' v j
}.

(** What [fork] needs: user pages, references and memory. *)
Record fork_ready (a : vm) (d : Z) (u : ustate) : Prop := {
  fr_user : forall v p f, v_maps a !! (d, v) = Some (p, f) -> v < UVPN -> flag f PTE_U = true;
  fr_room : forall d' v p f, v_maps a !! (d', v) = Some (p, f) -> v < UVPN -> 2 * urefs a p + 4 < 2 ^ 16;
  fr_free : (size (tables a d) + 7 <= length (v_free a))%nat;
  fr_env : exists i, 0 <= i < NENV /\ env_status (env_of (kern u) i) = ENV_FREE;
  fr_stack : _pgfault_handler u <> 0 ->
    exists p g, v_maps a !! (d, LAST) = Some (p, g) /\ flag g PTE_W = true /\ flag g PTE_U = true
}.

Section Fork.
Context (upcall handler c d : Z) (a : vm) (u : ustate) (HU : runs a c d u) (HR : fork_ready a d u) (Hup : is_u32 upcall).
Context (px fx : Z) (a1 : vm) (s1 : kstate) (HP : handler_post a (kern u) c d px fx a1 s1).
Context (e dd : Z) (a2 : vm) (s2 : kstate) (HE : exo_post a1 s1 c e dd a2 s2).

Local Abbreviation u2 := (mkU s2 c handler).

Lemma begin_live : live s1 c /\ env_pgdir (env_of s1 c) = frame_kva d /\ d ∈ v_dirs a1 /\ c <> e /\ dd <> d.
Proof.
  pose proof (handler_runs a c d u px fx a1 s1 handler HU HP) as HU1.
  assert (live s1 c) as Hl by exact (runs_live a1 c d _ HU1). destruct HU1 as [_ _ _ Hd Hp]. cbn [kern] in *.
  split; [done|]. split; [done|]. split; [done|]. split; [intros ->; by destruct (ex_new _ _ _ _ _ _ _ HE)|].
  intros ->. assert (d ∈ v_free a1) as Hf by (rewrite (ex_free _ _ _ _ _ _ _ HE); by left).
  by destruct (free_no_refs _ _ _ (mi_vm _ _ (ki_mem _ _ (hp_inv _ _ _ _ _ _ _ _ HP))) d Hf) as (_ & _ & _ & Hn & _).
Qed.

Lemma begin_runs : runs a2 c d u2 /\ target a2 s2 c (env_id (env_of s2 e)) e dd.
Proof.
  destruct begin_live as (Hl & Hp & Hd & Hce & Hdd). pose proof HE as [X1 X2 [_ X3] X4 _ X6 _ X8 _ _ _ _ _ X14].
  rewrite (hp_cur _ _ _ _ _ _ _ _ HP), (ru_cur _ _ _ _ HU) in X2.
  assert (env_of s2 c = env_of s1 c) as Ec by (by apply X14).
  split.
  - split; cbn; try done; [|by rewrite Ec]. apply (dir_kept a2 s2 c); [done| |by rewrite Ec]. apply (ci_cur _ _ (ki_cpu _ _ X1)). done.
  - split; [right; split; [lia|done]|]. split; [right; by rewrite Ec, X6|]. split; [done|]. split; [by apply (dir_kept a2 s2 e)|done].
Qed.

Lemma begin_maps : v_maps a2 = <[(d, LAST) := (px, fx)]> (v_maps a).
Proof. by rewrite (ex_maps _ _ _ _ _ _ _ HE), (hp_maps _ _ _ _ _ _ _ _ HP). Qed.

Lemma begin_room d' v p f : v_maps a2 !! (d', v) = Some (p, f) -> v < UVPN -> 2 * urefs a2 p + 2 < 2 ^ 16.
Proof.
  intros Hm Hv. rewrite begin_maps in Hm. unfold urefs. rewrite begin_maps.
  destruct (hp_frame _ _ _ _ _ _ _ _ HP) as [Hn|Hs].
  2:{ rewrite insert_id in * by done. pose proof (fr_room _ _ _ HR _ _ _ _ Hm Hv) as H. unfold urefs in H. lia. }
  match goal with |- context [count ?P (<[?k := ?x]> ?m)] => pose proof (count_insert_le P m k x) as Hle end.
  destruct (decide (p = px)) as [->|Hne].
  - assert (urefs a px = 0) as Hz.
    { unfold urefs, count. match goal with |- context [filter ?P ?m] => assert (filter P m = ∅) as ->; [|done] end.
      apply map_empty. intros [d0 v0]. apply map_lookup_filter_None. right. intros [q g] Hq [Hv0 Eq]. cbn in Eq, Hv0. subst q. by apply (Hn d0 v0 g). }
    unfold urefs in Hz. rewrite Hz in Hle. destruct (decide _); lia.
  - apply lookup_insert_Some in Hm as [[_ [= ? _]]|[_ Hm]]; [congruence|]. pose proof (fr_room _ _ _ HR _ _ _ _ Hm Hv) as H. unfold urefs in H.
    destruct (decide _) as [[_ Hq]|]; [cbn in Hq; congruence|lia].
Qed.

Lemma begin_free : (size (tables a2 d) + 3 <= length (v_free a2))%nat.
Proof.
  pose proof (fr_free _ _ _ HR) as Hf. pose proof (hp_spare _ _ _ _ _ _ _ _ HP) as Hs. unfold spare in Hs.
  pose proof (hp_tabs _ _ _ _ _ _ _ _ HP) as Ht. rewrite (ex_free _ _ _ _ _ _ _ HE) in Hs. cbn [length] in Hs.
  assert (size (tables a2 d) <= size (tables a d) + 1)%nat as H1.
  { unfold tables. rewrite (ex_tabs _ _ _ _ _ _ _ HE). apply (size_cover _ _ [(d, LAST / 1024)]). set_solver. }
  assert (size (v_tabs a1) <= size (v_tabs a) + 1)%nat as H2.
  { rewrite <- !size_dom. apply (size_cover _ _ [(d, LAST / 1024)]). set_solver. }
  lia.
Qed.

(** Frames that were mapped, except at the exception stack, have their
    contents when the page loop starts. *)
Lemma begin_kept d' v x g : v < UVPN -> v_maps a !! (d', v) = Some (x, g) -> v_maps a2 !! (d', v) = Some (x, g) -> same_frame x (kern u) s2.
Proof.
  intros Hv Hm Hm2 j Hj. rewrite (ex_words _ _ _ _ _ _ _ HE); [by apply (hp_kept _ _ _ _ _ _ _ _ HP d' v x g)|].
  rewrite frame_div by done. intros ->. rewrite (ex_maps _ _ _ _ _ _ _ HE) in Hm2.
  apply (free_unmapped a1 s1 d' v dd g (hp_inv _ _ _ _ _ _ _ _ HP)); [rewrite (ex_free _ _ _ _ _ _ _ HE); by left|done|done].
Qed.

(** The two parts of the address spaces. *)
Lemma end_low pc v : FIRST <= v < LAST ->
  final_map d dd a2 pc (dd, v) = child_page <$> v_maps a !! (d, v) /\ final_map d dd a2 pc (d, v) = parent_page <$> v_maps a !! (d, v).
Proof.
  intros Hv. destruct begin_live as (_ & _ & _ & _ & Hdd). unfold final_map, fork_map. cbn [fst snd]. rewrite begin_maps.
  change PFPAGE with 2047. change FIRST with 2048 in *.
  rewrite !(decide_False (P := (_, v) = (_, 2047))), !(decide_False (P := (_, v) = (_, LAST))) by (intros Hk; injection Hk; intros; lia).
  rewrite !(decide_True (P := 2048 <= v < LAST)), (decide_True (P := dd = dd)), (decide_False (P := d = dd)), (decide_True (P := d = d)) by done.
  by rewrite lookup_insert_ne by (intros Hk; injection Hk; intros; lia).
Qed.

Lemma end_other pc d' v : d' <> d -> d' <> dd -> final_map d dd a2 pc (d', v) = v_maps a !! (d', v).
Proof.
  intros H1 H2. assert (v_maps a2 !! (d', v) = v_maps a !! (d', v)) as E by (rewrite begin_maps; apply lookup_insert_ne; congruence).
  unfold final_map, fork_map. cbn [fst snd]. rewrite E. repeat case_decide; congruence.
Qed.

Context (pc : Z) (a' : vm) (s' : kstate) (HD : fork_done upcall c d e dd a2 u2 px pc a' s').

(** Mapped frames other than the exception stack's keep their contents. *)
Lemma end_kept d' v x g : v < UVPN -> (d', v) <> (d, LAST) -> (d', v) <> (d, PFPAGE) -> v_maps a !! (d', v) = Some (x, g) ->
  ~ stack_alias a d d' v -> same_frame x (kern u) s'.
Proof.
  intros Hv N1 N2 Hm Ha.
  assert (v_maps a2 !! (d', v) = Some (x, g)) as Hm2 by (by rewrite begin_maps, lookup_insert_ne by congruence).
  eapply same_frame_trans; [by apply (begin_kept d' v x g)|].
  apply (fd_kept _ _ _ _ _ _ _ _ _ _ _ HD d' v x g Hv N2); [|done].
  intros ->. destruct (hp_frame _ _ _ _ _ _ _ _ HP) as [Hn|Hs]; [by apply (Hn d' v g)|]. apply Ha. by exists px, g, fx.
Qed.

Lemma end_new : ~ live (kern u) e /\ live s' e.
Proof.
  destruct begin_live as (_ & _ & _ & Hce & _). destruct (ex_new _ _ _ _ _ _ _ HE) as [Hn [Hr Hs]]. split.
  - intros Hl. apply Hn. unfold live in *. by rewrite (hp_envs _ _ _ _ _ _ _ _ HP e) by congruence.
  - split; [done|]. by rewrite (fd_envs _ _ _ _ _ _ _ _ _ _ _ HD e), decide_True.
Qed.

Lemma fork_forked : forked upcall a (kern u) c d (env_id (env_of s2 e)) a' s' e dd.
Proof.
  destruct begin_live as (_ & _ & _ & Hce & Hdd). pose proof HD as [F1 F2 F3 F4 F5 F6 F7]. cbn [kern] in *.
  assert (env_of s' e = e_status ENV_RUNNABLE (e_upcall upcall (env_of s2 e))) as Ee by (by rewrite F7, decide_True).
  destruct (hp_self _ _ _ _ _ _ _ _ HP) as [up Hself].
  split.
  - done.
  - destruct end_new. split_and!; try done; [apply (ex_id _ _ _ _ _ _ _ HE)|by rewrite Ee].
  - rewrite Ee. cbn. rewrite (ex_parent _ _ _ _ _ _ _ HE), (ex_tf _ _ _ _ _ _ _ HE), (ex_pgdir _ _ _ _ _ _ _ HE), Hself. done.
  - intros i H1 H2. rewrite F7, decide_False, (ex_envs _ _ _ _ _ _ _ HE), (hp_envs _ _ _ _ _ _ _ _ HP) by done. done.
  - intros v Hv. rewrite !F3. by apply end_low.
  - intros v p f g Hv Hm Hs. rewrite !F3, (proj1 (end_low pc v Hv)), (proj2 (end_low pc v Hv)), Hm. unfold child_page, parent_page. cbn [fmap option_fmap option_map fst snd]. rewrite Hs.
    cbn [negb andb]. destruct (cow_perm_ok f) as (_ & _ & Hw & _).
    intros [H|H]; injection H as <-; [|done]. destruct (flag f PTE_W) eqn:Ew; [done|]. destruct (flag f PTE_COW); done.
  - intros v Hv. rewrite F3. pose proof (ex_empty _ _ _ _ _ _ _ HE v) as He. change FIRST with 2048 in Hv. change LAST with 977919 in Hv.
    unfold final_map, fork_map. cbn [fst snd]. change FIRST with 2048. change LAST with 977919.
    destruct (decide _); [done|]. destruct (decide _) as [[= ->]|]; [lia|]. destruct (decide _); [lia|]. exact He.
  - exists pc. split; [rewrite F3; unfold final_map; by rewrite decide_False, decide_True by congruence|]. split; [done|].
    intros d' v f Hv Hm. rewrite F3 in Hm. unfold final_map in Hm. destruct (decide _); [done|]. destruct (decide _) as [->|]; [done|].
    exfalso. unfold fork_map in Hm. cbn [fst snd] in Hm. repeat case_decide; try (by apply (F4 d' v f)).
    all: destruct (v_maps a2 !! (d, v)) as [[q g]|] eqn:Hq; [|done]; injection Hm as -> _; by apply (F4 d v g).
  - intros d' v H1 H2. rewrite F3. by apply end_other.
  - intros v j Hv Hj Ha. unfold sees. rewrite !F3, (proj1 (end_low pc v Hv)), (proj2 (end_low pc v Hv)).
    destruct (v_maps a !! (d, v)) as [[p f]|] eqn:Hm; [|done]. cbn. change FIRST with 2048 in Hv. change LAST with 977919 in Hv.
    rewrite (end_kept d v p f); [done|rewrite UVPN_val; lia| | |done|done|done]; intros [= ->]; [change LAST with 977919 in Hv|change PFPAGE with 2047 in Hv]; lia.
  - intros d' v j H1 H2 Hv Hj Ha. unfold sees. rewrite F3, end_other by done. destruct (v_maps a !! (d', v)) as [[p f]|] eqn:Hm; [|done].
    rewrite (end_kept d' v p f); [done|done|congruence|congruence|done|done|done].
Qed.
End Fork.

(** [fork], given memory and a free environment. *)
Lemma fork_ok upcall handler a c d u : runs a c d u -> fork_ready a d u -> is_u32 upcall ->
  exists envid a' s' e dd, fork upcall handler u = Ret envid (mkU s' c handler) /\ forked upcall a (kern u) c d envid a' s' e dd.
Proof.
  intros HU HR Hup. pose proof (fr_free _ _ _ HR) as Hf.
  destruct (set_pgfault_handler_ok upcall handler a c d u HU Hup ltac:(lia) (fr_stack _ _ _ HR)) as (px & fx & a1 & s1 & E1 & HP).
  pose proof (handler_runs a c d u px fx a1 s1 handler HU HP) as HU1.
  assert (v_free a1 <> []) as Hf1.
  { intros Hn. pose proof (hp_spare _ _ _ _ _ _ _ _ HP) as Hs. unfold spare in Hs. rewrite Hn in Hs. cbn [length] in Hs.
    assert (size (v_tabs a1) <= size (v_tabs a) + 1)%nat; [|lia].
    rewrite <- !size_dom. apply (size_cover _ _ [(d, LAST / 1024)]). pose proof (hp_tabs _ _ _ _ _ _ _ _ HP). set_solver. }
  destruct (usys_exofork_ok a1 c d _ HU1 Hf1) as (e & dd & a2 & s2 & E2 & HE).
  { destruct (fr_env _ _ _ HR) as (i & Hi & Hs). exists i. split; [done|]. cbn [kern].
    destruct (decide (i = c)) as [->|Hn]; [|by rewrite (hp_envs _ _ _ _ _ _ _ _ HP)]. by destruct (runs_live a c d u HU). }
  destruct (begin_live handler c d a u HU px fx a1 s1 HP e dd a2 s2 HE) as (_ & _ & _ & Hce & Hdd).
  destruct (begin_runs handler c d a u HU px fx a1 s1 HP e dd a2 s2 HE) as [HU2 T2].
  pose proof (begin_maps c d a u px fx a1 s1 HP e dd a2 s2 HE) as M2. destruct (hp_flags _ _ _ _ _ _ _ _ HP) as [FW FU].
  destruct (fork_from_ok upcall c d e dd (env_id (env_of s2 e)) a2 (mkU s2 c handler) px fx HU2 T2 Hdd Hup) as (pc & a' & s' & E3 & HD).
  - apply (ex_id _ _ _ _ _ _ _ HE).
  - apply (ex_empty _ _ _ _ _ _ _ HE).
  - intros v p f Hm Hv. rewrite M2 in Hm. apply lookup_insert_Some in Hm as [[_ [= _ <-]]|[_ Hm]]; [done|]. by apply (fr_user _ _ _ HR v p f).
  - eapply begin_room; eassumption.
  - by apply (begin_free upcall c d a u HU HR Hup px fx a1 s1 HP e dd a2 s2 HE).
  - rewrite M2. apply lookup_insert_eq.
  - done.
  - exists (env_id (env_of s2 e)), a', s', e, dd. split; [|by eapply fork_forked].
    unfold fork. rewrite (bind_ret _ _ _ _ _ E1), (bind_ret _ _ _ _ _ E2). exact E3.
Qed.

(** * The properties *)

Definition udemo : ustate := mkU kdemo 0 0.

Lemma udemo_runs : runs kdemo_vm 0 2 udemo.
Proof. split; [exact kdemo_kinv|done|done|cbn; set_solver|cbn [kern udemo]; by rewrite kdemo_0]. Qed.

Lemma udemo_urefs p : urefs kdemo_vm p <= 3.
Proof. unfold urefs. apply (count_size _ (v_maps kdemo_vm)). Qed.

Lemma udemo_room : room 2 kdemo_vm.
Proof. intros d v p f _ _. pose proof (udemo_urefs p). lia. Qed.

Lemma udemo_ready : fork_ready kdemo_vm 2 udemo.
Proof.
  split.
  - intros v p f Hm _. by apply kdemo_map in Hm as (_ & [(_ & _ & ->)|[(_ & _ & ->)|(_ & _ & ->)]]).
  - intros d v p f _ _. pose proof (udemo_urefs p). lia.
  - apply Nat.leb_le. by vm_compute.
  - exists 2. split; [change NENV with 1024; lia|]. cbn [kern udemo]. by rewrite kdemo_env by (change NENV with 1024; lia).
  - done.
Qed.




