(* ===== verification/Bc.v ===== *)
(** fs/bc.c, the sector transfers of fs/ide.c, and the free-block bitmap of
    fs/fs.c: the file server's block cache.

    Disk block [b], when in memory, is the page at [DISKMAP + b * BLKSIZE];
    touching a block that is not there takes a page fault, which the server's
    own handler [bc_pgfault] serves by reading the block from the disk. The
    state keeps the bytes of the cached pages, which blocks are mapped, which
    of those the processor has marked dirty, and the bytes on the disk. *)

From stdpp Require Import base numbers list gmap strings.
From Stdlib Require Import ZArith Lia Bool.
From S2P Require Import Prelude Mmu Console.

Definition SECTSIZE : Z := 512.
Definition BLKSIZE : Z := PGSIZE.
Definition BLKSECTS : Z := BLKSIZE / SECTSIZE.
Definition BLKBITSIZE : Z := BLKSIZE * 8.
Definition DISKMAP : Z := 0x10000000.
Definition DISKSIZE : Z := 0xC0000000.
Definition MAXNAMELEN : Z := 128.
Definition NDIRECT : Z := 10.
Definition NINDIRECT : Z := BLKSIZE / 4.
Definition MAXFILESIZE : Z := (NDIRECT + NINDIRECT) * BLKSIZE.
Definition FTYPE_REG : Z := 0.
Definition FTYPE_DIR : Z := 1.
Definition FS_MAGIC : Z := 0x4A0530AE.

(** The offsets of the fields of [struct File] and [struct Super]. *)
Definition sizeof_File : Z := 256.
Definition f_name (f : Z) : Z := f.
Definition f_size (f : Z) : Z := f + MAXNAMELEN.
Definition f_type (f : Z) : Z := f + MAXNAMELEN + 4.
Definition f_direct (f : Z) : Z := f + MAXNAMELEN + 8.
Definition f_indirect (f : Z) : Z := f + MAXNAMELEN + 8 + 4 * NDIRECT.
Definition BLKFILES : Z := BLKSIZE / sizeof_File.
Definition s_magic (p : Z) : Z := p.
Definition s_nblocks (p : Z) : Z := p + 4.
Definition s_root (p : Z) : Z := p + 8.
Definition sizeof_Super : Z := 8 + sizeof_File.

(** The file server. [fpages] is how many more pages the kernel can give it;
    [fbad] are the sectors whose transfer the drive reports as failed;
    [super_set] and [bitmap_set] say whether the pointers [super] and
    [bitmap] have been set. *)
Record fsstate := mkFs {
  fmem : gmap Z Z;
  fmapped : gset Z;
  fdirty : gset Z;
  fdisk : gmap Z Z;
  fpages : Z;
  fbad : gset Z;
  super_set : bool;
  bitmap_set : bool
}.

Definition FS (A : Type) : Type := M fsstate A.

Definition set_fmem (m : gmap Z Z) (s : fsstate) : fsstate :=
  mkFs m (fmapped s) (fdirty s) (fdisk s) (fpages s) (fbad s) (super_set s) (bitmap_set s).
Definition set_fmapped (m d : gset Z) (n : Z) (s : fsstate) : fsstate :=
  mkFs (fmem s) m d (fdisk s) n (fbad s) (super_set s) (bitmap_set s).
Definition set_fdisk (d : gmap Z Z) (s : fsstate) : fsstate :=
  mkFs (fmem s) (fmapped s) (fdirty s) d (fpages s) (fbad s) (super_set s) (bitmap_set s).
Definition set_super (s : fsstate) : fsstate :=
  mkFs (fmem s) (fmapped s) (fdirty s) (fdisk s) (fpages s) (fbad s) true (bitmap_set s).
Definition set_bitmap (s : fsstate) : fsstate :=
  mkFs (fmem s) (fmapped s) (fdirty s) (fdisk s) (fpages s) (fbad s) (super_set s) true.

(** The page of the cache an address lies in, counted from [DISKMAP]. *)
Definition blk_of (va : Z) : Z := u32 (va - DISKMAP) / BLKSIZE.

(** * Pages of the server's own address space *)

(** [sys_page_alloc(0, addr, ...)]: a zeroed page, or an error. *)
Definition page_alloc_at (addr : Z) : FS Z := fun s =>
  if fpages s <=? 0 then Ret (- E_NO_MEM) s
  else Ret 0 (set_fmem (mfill addr (Z.to_nat PGSIZE) 0 (fmem s))
                (set_fmapped ({[blk_of addr]} ∪ fmapped s) (fdirty s ∖ {[blk_of addr]}) (fpages s - 1) s)).

(** [sys_page_map(0, addr, 0, addr, uvpt[PGNUM(addr)] & PTE_SYSCALL)]: the
    page stays mapped and its dirty bit is cleared. *)
Definition page_clean (addr : Z) : FS Z := fun s =>
  if bool_decide (blk_of addr ∈ fmapped s)
  then Ret 0 (set_fmapped (fmapped s) (fdirty s ∖ {[blk_of addr]}) (fpages s) s)
  else Ret (- E_INVAL) s.

(** [sys_page_unmap(0, addr)]. *)
Definition page_unmap_at (addr : Z) : FS unit := fun s =>
  if bool_decide (blk_of addr ∈ fmapped s)
  then Ret tt (set_fmapped (fmapped s ∖ {[blk_of addr]}) (fdirty s ∖ {[blk_of addr]}) (fpages s + 1) s)
  else Ret tt s.

Definition va_is_mapped (va : Z) (s : fsstate) : bool := bool_decide (blk_of va ∈ fmapped s).
Definition va_is_dirty (va : Z) (s : fsstate) : bool := bool_decide (blk_of va ∈ fdirty s).

(** * Sector transfers

    The drive selects a sector by 28 address bits and reports the status of
    each sector before its data moves; storing a sector into a page marks the
    page dirty. *)
Fixpoint ide_read (nsecs : nat) (secno dst : Z) : FS Z :=
  match nsecs with
  | O => ret 0
  | S n =>
      let! bad := gets (fun s => bool_decide (secno ∈ fbad s)) in
      if bad then ret (-1)
      else
        modify (fun s => set_fmem (mcopy dst (Z.to_nat SECTSIZE)
                  (fun i => mget 0 (fdisk s) (secno mod 2 ^ 28 * SECTSIZE + i)) (fmem s))
                  (set_fmapped (fmapped s) ({[blk_of dst]} ∪ fdirty s) (fpages s) s)) ;;!
        ide_read n (secno + 1) (dst + SECTSIZE)
  end.

Fixpoint ide_write (nsecs : nat) (secno src : Z) : FS Z :=
  match nsecs with
  | O => ret 0
  | S n =>
      let! bad := gets (fun s => bool_decide (secno ∈ fbad s)) in
      if bad then ret (-1)
      else
        modify (fun s => set_fdisk (mcopy (secno mod 2 ^ 28 * SECTSIZE) (Z.to_nat SECTSIZE)
                  (fun i => mget 0 (fmem s) (src + i)) (fdisk s)) s) ;;!
        ide_write n (secno + 1) (src + SECTSIZE)
  end.

(** * Page faults in the cache *)

(** The value of [super] and [bitmap] once [fs_init] has set them. *)
Definition SUPER : Z := DISKMAP + 1 * BLKSIZE.
Definition BITMAP : Z := DISKMAP + 2 * BLKSIZE.

(** A little-endian word in memory. *)
Definition word (m : gmap Z Z) (va : Z) : Z :=
  mget 0 m va + mget 0 m (va + 1) * 2 ^ 8 + mget 0 m (va + 2) * 2 ^ 16 + mget 0 m (va + 3) * 2 ^ 24.

(** An access first faults the page in if it is not there. *)
Definition touch_with (fault : Z -> FS unit) (va : Z) : FS unit :=
  let! m := gets (va_is_mapped va) in
  if m then ret tt else fault va.
Definition load32_with (fault : Z -> FS unit) (va : Z) : FS Z :=
  touch_with fault va ;;!
  gets (fun s => word (fmem s) va).

Definition block_is_free_with (fault : Z -> FS unit) (blockno : Z) : FS bool :=
  let! sup := gets super_set in
  if negb sup then ret false
  else
    let! n := load32_with fault (s_nblocks SUPER) in
    if n <=? blockno then ret false
    else
      let! w := load32_with fault (BITMAP + 4 * (blockno / 32)) in
      ret (flag w (Z.shiftl 1 (blockno mod 32))).

(** [bc_pgfault]; [fault] serves the faults the handler itself takes. *)
Definition bc_pgfault (fault : Z -> FS unit) (fault_va : Z) : FS unit :=
  let blockno := u32 (fault_va - DISKMAP) / BLKSIZE in
  if (fault_va <? DISKMAP) || (DISKMAP + DISKSIZE <=? fault_va) then panic "page fault in FS"
  else
    let! sup := gets super_set in
    (if sup then
       let! n := load32_with fault (s_nblocks SUPER) in
       if n <=? blockno then panic "reading non-existent block" else ret tt
     else ret tt) ;;!
    let addr := ROUNDDOWN fault_va PGSIZE in
    let! r := page_alloc_at addr in
    if r <? 0 then panic "bc_pgfault error,can not sys_page_alloc"
    else
      let! r := ide_read (Z.to_nat BLKSECTS) (u32 (blockno * BLKSECTS)) addr in
      if r <? 0 then panic "bc_pgfault error,can not ide_read"
      else
        let! r := page_clean addr in
        if r <? 0 then panic "in bc_pgfault, sys_page_map"
        else
          let! bm := gets bitmap_set in
          if bm then
            let! f := block_is_free_with fault blockno in
            if f then panic "reading free block" else ret tt
          else ret tt.

(** Nested faults, up to [fuel] deep; beyond that the exception stack is
    exhausted. *)
Fixpoint fault (fuel : nat) (va : Z) : FS unit :=
  match fuel with
  | O => panic "exception stack overflow"
  | S n => bc_pgfault (fault n) va
  end.

(** Depth three is enough: a block, its bitmap block, and the first bitmap
    block. *)
Definition FAULTS : nat := 4.

Definition touch (va : Z) : FS unit := touch_with (fault FAULTS) va.
Definition fload8 (va : Z) : FS Z :=
  touch va ;;!
  gets (fun s => mget 0 (fmem s) va).
Definition fload32 (va : Z) : FS Z := load32_with (fault FAULTS) va.

(** A store also marks the page dirty. *)
Definition poke (m : gmap Z Z -> gmap Z Z) (va : Z) (s : fsstate) : fsstate :=
  set_fmem (m (fmem s)) (set_fmapped (fmapped s) ({[blk_of va]} ∪ fdirty s) (fpages s) s).
Definition fstore32 (va v : Z) : FS unit :=
  touch va ;;!
  modify (poke (mcopy va 4 (fun i => u8 (Z.shiftr v (8 * i)))) va).

Definition block_is_free (blockno : Z) : FS bool := block_is_free_with (fault FAULTS) blockno.

(** [memset] within one cached block. *)
Definition fmemset (va v n : Z) : FS unit :=
  touch va ;;!
  modify (poke (mcopy va (Z.to_nat n) (fun _ => u8 v)) va).

(** [memmove] out of and into the cache, block after block: [room va] bytes are
    left in the block of [va]. *)
Definition room (va : Z) : Z := BLKSIZE - (va - DISKMAP) mod BLKSIZE.
Definition move_fuel (n : Z) : nat := S (S (Z.to_nat (n / BLKSIZE))).

Fixpoint fread_from (fuel : nat) (va n : Z) : FS (list Z) :=
  match fuel with
  | O => ret []
  | S k =>
      if n <=? 0 then ret []
      else
        touch va ;;!
        let m := Z.min n (room va) in
        let! bs := gets (fun s => (fun i => mget 0 (fmem s) (va + i)) <$> seqZ 0 m) in
        let! rest := fread_from k (va + m) (n - m) in
        ret (bs ++ rest)
  end.
Definition fread (va n : Z) : FS (list Z) := fread_from (move_fuel n) va n.

Fixpoint fwrite_from (fuel : nat) (va : Z) (bs : list Z) : FS unit :=
  match fuel, bs with
  | S k, _ :: _ =>
      touch va ;;!
      let m := Z.to_nat (room va) in
      modify (poke (mcopy va (length (take m bs)) (fun i => u8 (nth (Z.to_nat i) (take m bs) 0))) va) ;;!
      fwrite_from k (va + room va) (drop m bs)
  | _, _ => ret tt
  end.
Definition fwrite (va : Z) (bs : list Z) : FS unit := fwrite_from (move_fuel (Z.of_nat (length bs))) va bs.

(** [strcmp(va, name) == 0]: reads until a difference or the end of [name]. *)
Fixpoint fstreq (va : Z) (name : list Z) : FS bool :=
  match name with
  | [] => let! b := fload8 va in ret (b =? 0)
  | c :: name' =>
      let! b := fload8 va in
      if b =? c then fstreq (va + 1) name' else ret false
  end.
Definition fstrcpy (va : Z) (name : list Z) : FS unit := fwrite va (name ++ [0]).

(** * The cache *)

Definition diskaddr (blockno : Z) : FS Z :=
  let bad := panic "bad block number in diskaddr" in
  if blockno =? 0 then bad
  else
    let! sup := gets super_set in
    if sup then
      let! n := fload32 (s_nblocks SUPER) in
      if n <=? blockno then bad else ret (u32 (DISKMAP + blockno * BLKSIZE))
    else ret (u32 (DISKMAP + blockno * BLKSIZE)).

Definition flush_block (addr : Z) : FS unit :=
  let blockno := u32 (addr - DISKMAP) / BLKSIZE in
  if (addr <? DISKMAP) || (DISKMAP + DISKSIZE <=? addr) then panic "flush_block of bad va"
  else
    let addr := ROUNDDOWN addr PGSIZE in
    let! m := gets (va_is_mapped addr) in
    let! d := gets (va_is_dirty addr) in
    if m && d then
      let! r := ide_write (Z.to_nat BLKSECTS) (u32 (blockno * BLKSECTS)) addr in
      if r <? 0 then panic "flush_block error, can not ide_write"
      else
        let! r := page_clean addr in
        if r <? 0 then panic "flush_block error, can not sys_page_map" else ret tt
    else ret tt.

(** One round of [check_bc]: the superblock is overwritten, flushed through
    the address [diskaddr(1) + off], dropped from memory and read back. *)
Definition oops : list Z := chs "OOPS!" ++ [10].

Definition check_bc_round (off : Z) (check_clean : bool) : FS unit :=
  let! a := diskaddr 1 in
  let! backup := fread a sizeof_Super in
  fstrcpy a oops ;;!
  flush_block (a + off) ;;!
  let! m := gets (va_is_mapped a) in
  assert_ m "va_is_mapped(diskaddr(1))" ;;!
  let! d := gets (va_is_dirty a) in
  (if check_clean then assert_ (negb d) "!va_is_dirty(diskaddr(1))" else ret tt) ;;!
  page_unmap_at a ;;!
  let! m := gets (va_is_mapped a) in
  assert_ (negb m) "!va_is_mapped(diskaddr(1))" ;;!
  let! e := fstreq a oops in
  assert_ e "strcmp(diskaddr(1), oops) == 0" ;;!
  fwrite a backup ;;!
  flush_block a.

Definition check_bc : FS unit :=
  check_bc_round 0 true ;;!
  check_bc_round 20 false.

Definition bc_init : FS unit :=
  check_bc ;;!
  let! a := diskaddr 1 in
  fread a sizeof_Super ;;!
  ret tt.
