(* ===== verification/Fs.v ===== *)
(** fs/fs.c: the on-disk file system. A [struct File *] is the address of the
    structure in the block cache; file names and paths are the bytes of C
    strings without their terminator. *)

From stdpp Require Import base numbers list gmap strings.
From Stdlib Require Import ZArith Lia Bool.
From S2P Require Import Prelude Mmu Console Bc.

(** * Super block and bitmap *)

Definition check_super : FS unit :=
  let! m := fload32 (s_magic SUPER) in
  if negb (m =? FS_MAGIC) then panic "bad file system magic number"
  else
    let! n := fload32 (s_nblocks SUPER) in
    if DISKSIZE / BLKSIZE <? n then panic "file system is too large" else ret tt.

Definition free_block (blockno : Z) : FS unit :=
  if blockno =? 0 then panic "attempt to free zero block"
  else
    let! w := fload32 (BITMAP + 4 * (blockno / 32)) in
    fstore32 (BITMAP + 4 * (blockno / 32)) (Z.lor w (u32 (Z.shiftl 1 (blockno mod 32)))).

(** The search loop; [fuel] bounds the number of blocks on the disk. *)
Fixpoint alloc_block_from (fuel : nat) (blockno : Z) : FS Z :=
  match fuel with
  | O => ret (- E_NO_DISK)
  | S k =>
      let! n := fload32 (s_nblocks SUPER) in
      if n <=? blockno then ret (- E_NO_DISK)
      else
        let! f := block_is_free blockno in
        if f then
          let! w := fload32 (BITMAP + 4 * (blockno / 32)) in
          fstore32 (BITMAP + 4 * (blockno / 32)) (Z.lxor w (u32 (Z.shiftl 1 (blockno mod 32)))) ;;!
          flush_block BITMAP ;;!
          ret blockno
        else alloc_block_from k (blockno + 1)
  end.

Definition alloc_block : FS Z :=
  let! n := fload32 (s_nblocks SUPER) in
  alloc_block_from (S (Z.to_nat n)) 0.

Fixpoint check_bitmap_blocks (fuel : nat) (i : Z) : FS unit :=
  match fuel with
  | O => ret tt
  | S k =>
      let! n := fload32 (s_nblocks SUPER) in
      if u32 (i * BLKBITSIZE) <? n then
        let! f := block_is_free (2 + i) in
        assert_ (negb f) "!block_is_free(2+i)" ;;!
        check_bitmap_blocks k (i + 1)
      else ret tt
  end.

Definition check_bitmap : FS unit :=
  let! n := fload32 (s_nblocks SUPER) in
  check_bitmap_blocks (S (Z.to_nat (n / BLKBITSIZE))) 0 ;;!
  let! f := block_is_free 0 in
  assert_ (negb f) "!block_is_free(0)" ;;!
  let! f := block_is_free 1 in
  assert_ (negb f) "!block_is_free(1)".

(** [fs_init], once the disk has been selected. *)
Definition fs_init : FS unit :=
  bc_init ;;!
  diskaddr 1 ;;!
  modify set_super ;;!
  check_super ;;!
  diskaddr 2 ;;!
  modify set_bitmap ;;!
  check_bitmap.

(** * Blocks of a file *)

(** [file_block_walk]: the address of the slot, or an error code. *)
Definition file_block_walk (f filebno : Z) (alloc : bool) : FS (Z + Z) :=
  if NINDIRECT + NDIRECT <? filebno then ret (inl (- E_INVAL))
  else if filebno <? NDIRECT then ret (inr (f_direct f + 4 * filebno))
  else
    let! ind := fload32 (f_indirect f) in
    if negb alloc && (ind =? 0) then ret (inl (- E_NOT_FOUND))
    else
      let! ok :=
        if ind =? 0 then
          let! r := alloc_block in
          if r <? 0 then ret false
          else
            fstore32 (f_indirect f) r ;;!
            let! a := diskaddr r in
            fmemset a 0 BLKSIZE ;;!
            let! a := diskaddr r in
            flush_block a ;;!
            ret true
        else ret true in
      if negb ok then ret (inl (- E_NO_DISK))
      else
        let! ind := fload32 (f_indirect f) in
        let! a := diskaddr ind in
        ret (inr (a + 4 * (filebno - NDIRECT))).

(** [file_get_block]: the address of the block in memory, or an error code. *)
Definition file_get_block (f filebno : Z) : FS (Z + Z) :=
  let! w := file_block_walk f filebno true in
  match w with
  | inl err => ret (inl err)
  | inr slot =>
      let! b := fload32 slot in
      let! ok :=
        if b =? 0 then
          let! r := alloc_block in
          if r <? 0 then ret false
          else
            fstore32 slot r ;;!
            let! a := diskaddr r in
            fmemset a 0 BLKSIZE ;;!
            let! a := diskaddr r in
            flush_block a ;;!
            ret true
        else ret true in
      if negb ok then ret (inl (- E_NO_DISK))
      else
        let! b := fload32 slot in
        let! a := diskaddr b in
        ret (inr a)
  end.

(** * Directories *)

Definition BLKFILES_nat : nat := Z.to_nat BLKFILES.

(** The inner loops over the files of one directory block: the first whose
    name is [name], and the first that has no name. *)
Fixpoint find_name (n : nat) (f : Z) (name : list Z) : FS (option Z) :=
  match n with
  | O => ret None
  | S k =>
      let! e := fstreq (f_name f) name in
      if e then ret (Some f) else find_name k (f + sizeof_File) name
  end.

Fixpoint find_free (n : nat) (f : Z) : FS (option Z) :=
  match n with
  | O => ret None
  | S k =>
      let! c := fload8 (f_name f) in
      if c =? 0 then ret (Some f) else find_free k (f + sizeof_File)
  end.

(** The outer loop over the blocks [i .. nblock - 1] of directory [dir];
    [file_get_block] refuses a block number above [NDIRECT + NINDIRECT], which
    bounds the number of rounds. *)
Fixpoint dir_scan (fuel : nat) (dir i nblock : Z) (scan : Z -> FS (option Z)) : FS (Z + option Z) :=
  match fuel with
  | O => ret (inr None)
  | S k =>
      if nblock <=? i then ret (inr None)
      else
        let! r := file_get_block dir i in
        match r with
        | inl err => ret (inl err)
        | inr blk =>
            let! found := scan blk in
            match found with
            | Some f => ret (inr (Some f))
            | None => dir_scan k dir (i + 1) nblock scan
            end
        end
  end.

Definition dir_fuel : nat := Z.to_nat (NDIRECT + NINDIRECT + 2).

(** [dir->f_size / BLKSIZE] after the assertion that it divides evenly. *)
Definition dir_blocks (dir : Z) : FS Z :=
  let! size := fload32 (f_size dir) in
  assert_ (Z.rem (s32 size) BLKSIZE =? 0) "(dir->f_size % BLKSIZE) == 0" ;;!
  ret (u32 (Z.quot (s32 size) BLKSIZE)).

Definition dir_lookup (dir : Z) (name : list Z) : FS (Z + Z) :=
  let! nblock := dir_blocks dir in
  let! r := dir_scan dir_fuel dir 0 nblock (fun blk => find_name BLKFILES_nat blk name) in
  match r with
  | inl err => ret (inl err)
  | inr (Some f) => ret (inr f)
  | inr None => ret (inl (- E_NOT_FOUND))
  end.

Definition dir_alloc_file (dir : Z) : FS (Z + Z) :=
  let! nblock := dir_blocks dir in
  let! r := dir_scan dir_fuel dir 0 nblock (fun blk => find_free BLKFILES_nat blk) in
  match r with
  | inl err => ret (inl err)
  | inr (Some f) => ret (inr f)
  | inr None =>
      let! size := fload32 (f_size dir) in
      fstore32 (f_size dir) (u32 (size + BLKSIZE)) ;;!
      file_get_block dir nblock
  end.

(** * Paths *)

Definition SLASH : Z := 47.

Fixpoint skip_slash (p : list Z) : list Z :=
  match p with
  | c :: p' => if c =? SLASH then skip_slash p' else p
  | [] => []
  end.

(** The characters before the next slash, and the rest. *)
Fixpoint path_elem (p : list Z) : list Z * list Z :=
  match p with
  | c :: p' => if c =? SLASH then ([], p) else let (e, r) := path_elem p' in (c :: e, r)
  | [] => ([], [])
  end.

(** The result of [walk_path]: the return code, [*pdir], [*pf] and
    [lastelem], the latter three only where they are set. *)
Record walked := mkWalked { wk_r : Z; wk_dir : option Z; wk_f : option Z; wk_last : list Z }.

(** The loop of [walk_path], at directory entry [f] with [path] left. Each
    round consumes a path element, so the length of the path is enough. *)
Fixpoint walk_from (fuel : nat) (dir : option Z) (f : Z) (path : list Z) : FS walked :=
  match fuel with
  | O => ret (mkWalked 0 dir (Some f) [])
  | S k =>
      match path with
      | [] => ret (mkWalked 0 dir (Some f) [])
      | _ =>
          let (name, rest) := path_elem path in
          if MAXNAMELEN <=? Z.of_nat (length name) then ret (mkWalked (- E_BAD_PATH) None None [])
          else
            let path := skip_slash rest in
            let! ty := fload32 (f_type f) in
            if negb (ty =? FTYPE_DIR) then ret (mkWalked (- E_NOT_FOUND) None None [])
            else
              let! r := dir_lookup f name in
              match r with
              | inl err =>
                  if (err =? - E_NOT_FOUND) && bool_decide (path = [])
                  then ret (mkWalked err (Some f) None name)
                  else ret (mkWalked err None None [])
              | inr f' => walk_from k (Some f) f' path
              end
      end
  end.

Definition walk_path (path : list Z) : FS walked :=
  let path := skip_slash path in
  walk_from (S (length path)) None (s_root SUPER) path.

(** * File operations *)

Definition file_free_block (f filebno : Z) : FS Z :=
  let! w := file_block_walk f filebno false in
  match w with
  | inl err => ret err
  | inr ptr =>
      let! b := fload32 ptr in
      (if negb (b =? 0) then free_block b ;;! fstore32 ptr 0 else ret tt) ;;!
      ret 0
  end.

(** [(size + BLKSIZE - 1) / BLKSIZE] on an [off_t], as a [uint32_t]. *)
Definition nblocks_of (size : Z) : Z := u32 (Z.quot (s32 (size + BLKSIZE - 1)) BLKSIZE).

(** Block numbers above [NDIRECT + NINDIRECT] have no effect in
    [file_free_block], so the loop is run up to there. *)
Definition file_truncate_blocks (f newsize : Z) : FS unit :=
  let! size := fload32 (f_size f) in
  let old_nblocks := nblocks_of (s32 size) in
  let new_nblocks := nblocks_of newsize in
  let last := Z.min old_nblocks (NDIRECT + NINDIRECT + 1) in
  for_loop (Z.to_nat (last - new_nblocks)) new_nblocks (fun bno =>
    file_free_block f bno ;;! ret tt) ;;!
  let! ind := fload32 (f_indirect f) in
  if (new_nblocks <=? NDIRECT) && negb (ind =? 0) then
    free_block ind ;;!
    fstore32 (f_indirect f) 0
  else ret tt.

Definition file_set_size (f newsize : Z) : FS Z :=
  let! size := fload32 (f_size f) in
  (if newsize <? s32 size then file_truncate_blocks f newsize else ret tt) ;;!
  fstore32 (f_size f) (u32 newsize) ;;!
  flush_block f ;;!
  ret 0.

(** The loop of [file_flush]. *)
Definition file_flush (f : Z) : FS unit :=
  let! size := fload32 (f_size f) in
  for_loop (Z.to_nat (Z.min (Z.quot (s32 (s32 size + BLKSIZE - 1)) BLKSIZE) (NDIRECT + NINDIRECT + 1))) 0 (fun i =>
    let! w := file_block_walk f i false in
    match w with
    | inl _ => ret tt
    | inr pdiskbno =>
        let! b := fload32 pdiskbno in
        if b =? 0 then ret tt
        else
          let! a := diskaddr b in
          flush_block a
    end) ;;!
  flush_block f ;;!
  let! ind := fload32 (f_indirect f) in
  if negb (ind =? 0) then
    let! a := diskaddr ind in
    flush_block a
  else ret tt.

(** [file_create]: the new file's address, or an error code. *)
Definition file_create (path : list Z) : FS (Z + Z) :=
  let! w := walk_path path in
  if wk_r w =? 0 then ret (inl (- E_FILE_EXISTS))
  else
    match wk_dir w with
    | Some dir =>
        if negb (wk_r w =? - E_NOT_FOUND) then ret (inl (wk_r w))
        else
          let! r := dir_alloc_file dir in
          match r with
          | inl err => ret (inl err)
          | inr f =>
              fstrcpy (f_name f) (wk_last w) ;;!
              file_flush dir ;;!
              ret (inr f)
          end
    | None => ret (inl (wk_r w))
    end.

Definition file_open (path : list Z) : FS (Z + Z) :=
  let! w := walk_path path in
  match wk_f w with
  | Some f => if wk_r w =? 0 then ret (inr f) else ret (inl (wk_r w))
  | None => ret (inl (wk_r w))
  end.

(** The loops of [file_read] and [file_write] from [pos] to [last]. Each round
    finishes a block, so the number of blocks in between bounds the rounds. *)
Fixpoint file_read_from (fuel : nat) (f pos last : Z) : FS (Z + list Z) :=
  match fuel with
  | O => ret (inr [])
  | S k =>
      if u32 pos <? last then
        let! r := file_get_block f (u32 (Z.quot pos BLKSIZE)) in
        match r with
        | inl err => ret (inl err)
        | inr blk =>
            let bn := s32 (Z.min (u32 (BLKSIZE - Z.rem pos BLKSIZE)) (u32 (last - pos))) in
            let! bs := fread (blk + Z.rem pos BLKSIZE) bn in
            let! rest := file_read_from k f (s32 (pos + bn)) last in
            match rest with
            | inl err => ret (inl err)
            | inr tail => ret (inr (bs ++ tail))
            end
        end
      else ret (inr [])
  end.

Definition io_fuel (count : Z) : nat := Z.to_nat (count / BLKSIZE + 2).

(** [file_read]: the result and the bytes copied to [buf], or an error code. *)
Definition file_read (f count offset : Z) : FS (Z + Z * list Z) :=
  let! size := fload32 (f_size f) in
  if s32 size <=? offset then ret (inr (0, []))
  else
    let count := Z.min count (u32 (s32 size - offset)) in
    let! r := file_read_from (io_fuel count) f offset (u32 (offset + count)) in
    match r with
    | inl err => ret (inl err)
    | inr bs => ret (inr (count, bs))
    end.

(** The caller's buffer as a function: [buf i n] reads [n] bytes at offset
    [i] of it. *)
Fixpoint file_write_from (fuel : nat) (f : Z) (buf : Z -> Z -> FS (list Z)) (i pos last : Z) : FS (option Z) :=
  match fuel with
  | O => ret None
  | S k =>
      if u32 pos <? last then
        let! r := file_get_block f (u32 (Z.quot pos BLKSIZE)) in
        match r with
        | inl err => ret (Some err)
        | inr blk =>
            let bn := s32 (Z.min (u32 (BLKSIZE - Z.rem pos BLKSIZE)) (u32 (last - pos))) in
            let! bs := buf i bn in
            fwrite (blk + Z.rem pos BLKSIZE) bs ;;!
            file_write_from k f buf (i + bn) (s32 (pos + bn)) last
        end
      else ret None
  end.

Definition file_write_with (f : Z) (buf : Z -> Z -> FS (list Z)) (count offset : Z) : FS Z :=
  let! size := fload32 (f_size f) in
  let last := u32 (offset + count) in
  (if u32 (s32 size) <? last then file_set_size f (s32 last) ;;! ret tt else ret tt) ;;!
  let! e := file_write_from (io_fuel count) f buf 0 offset last in
  match e with
  | Some err => ret err
  | None => ret count
  end.

(** [file_write] of all of a buffer in ordinary memory. *)
Definition plain (buf : list Z) (i n : Z) : FS (list Z) := ret (take (Z.to_nat n) (drop (Z.to_nat i) buf)).
Definition file_write (f : Z) (buf : list Z) (offset : Z) : FS Z :=
  file_write_with f (plain buf) (Z.of_nat (length buf)) offset.

Definition fs_sync : FS unit :=
  let! n := fload32 (s_nblocks SUPER) in
  for_loop (Z.to_nat (n - 1)) 1 (fun i =>
    let! a := diskaddr i in
    flush_block a).
