(* ===== verification/BcSpec.v ===== *)
(** The block cache is transparent: whatever is in memory and whatever is
    only on the disk, every access behaves as if the whole disk were an array
    of bytes, and flushing writes that array to the disk. *)

From stdpp Require Import base numbers list gmap strings.
From Stdlib Require Import ZArith Lia Bool.
From S2P Require Import Prelude Mmu Console Bc.

Local Ltac Zify.zify_post_hook ::= Z.to_euclidean_division_equations.

Definition in_cache (va : Z) : Prop := DISKMAP <= va < DISKMAP + DISKSIZE.

(** The byte at an address: in memory if the block is cached, on the disk if
    not. *)
Definition lview (s : fsstate) (va : Z) : Z :=
  if bool_decide (blk_of va ∈ fmapped s) then mget 0 (fmem s) va else mget 0 (fdisk s) (va - DISKMAP).

Definition lword (L : Z -> Z) (va : Z) : Z :=
  L va + L (va + 1) * 2 ^ 8 + L (va + 2) * 2 ^ 16 + L (va + 3) * 2 ^ 24.

(** How many blocks the superblock says there are, and whether the bitmap has
    block [b] in use. *)
Definition nb (L : Z -> Z) : Z := lword L (s_nblocks SUPER).
Definition used (L : Z -> Z) (b : Z) : Prop :=
  flag (lword L (BITMAP + 4 * (b / 32))) (Z.shiftl 1 (b mod 32)) = false.

(** What [check_super] and [check_bitmap] establish of the bytes [L]. *)
Record disk_ok (L : Z -> Z) : Prop := {
  do_byte : forall va, 0 <= L va < 2 ^ 8;
  do_nb : 3 <= nb L <= DISKSIZE / BLKSIZE;
  do_reserved : used L 0 /\ used L 1;
  do_bitmap : forall i, 0 <= i -> i * BLKBITSIZE < nb L -> 2 + i < nb L /\ used L (2 + i)
}.

(** The cache of a server whose disk has [n] blocks holds the bytes [L]. *)
Record cache_core (n : Z) (L : Z -> Z) (s : fsstate) : Prop := {
  co_view : forall va, in_cache va -> lview s va = L va;
  co_clean : forall va, in_cache va -> blk_of va ∈ fmapped s -> blk_of va ∉ fdirty s ->
    mget 0 (fmem s) va = mget 0 (fdisk s) (va - DISKMAP);
  co_dirty : fdirty s ⊆ fmapped s;
  co_range : forall b, b ∈ fmapped s -> 0 <= b < n;
  co_pages : n <= Z.of_nat (size (fmapped s)) + fpages s;
  co_good : forall sec, sec ∈ fbad s -> n * BLKSECTS <= sec
}.

(** ... and [super] and [bitmap] have been set. *)
Definition flags_kept (s s' : fsstate) : Prop := super_set s' = super_set s /\ bitmap_set s' = bitmap_set s.

Record cache_ok (n : Z) (L : Z -> Z) (s : fsstate) : Prop := {
  co_core :> cache_core n L s;
  co_set : super_set s = true /\ bitmap_set s = true /\ 1 ∈ fmapped s
}.

Lemma cache_ok_kept n L L' s s' : cache_ok n L s -> cache_core n L' s' -> flags_kept s s' -> 1 ∈ fmapped s' -> cache_ok n L' s'.
Proof. intros [_ (H1 & H2 & _)] HC [F1 F2] Hm. split; [done|]. by rewrite F1, F2. Qed.

(** The server is up and its disk reads as [L]. *)
Record bc_ok (L : Z -> Z) (s : fsstate) : Prop := {
  bo_disk : disk_ok L;
  bo_cache : cache_ok (nb L) L s
}.

(** * Addresses *)

Lemma blk_of_cache va : in_cache va -> blk_of va = (va - DISKMAP) / BLKSIZE.
Proof.
  intros [H1 H2]. unfold blk_of. rewrite u32_small; [done|].
  unfold is_u32, DISKMAP, DISKSIZE in *. lia.
Qed.

Lemma blk_of_at b o : 0 <= b < DISKSIZE / BLKSIZE -> 0 <= o < BLKSIZE ->
  in_cache (DISKMAP + b * BLKSIZE + o) /\ blk_of (DISKMAP + b * BLKSIZE + o) = b.
Proof.
  intros Hb Ho. change (DISKSIZE / BLKSIZE) with 786432 in Hb. change BLKSIZE with 4096 in *.
  assert (in_cache (DISKMAP + b * 4096 + o)) as Hc by (unfold in_cache, DISKMAP, DISKSIZE; lia).
  split; [done|]. rewrite blk_of_cache by done. change BLKSIZE with 4096. unfold DISKMAP. lia.
Qed.

Lemma blk_of_split va : in_cache va -> exists o, 0 <= o < BLKSIZE /\ va = DISKMAP + blk_of va * BLKSIZE + o
  /\ 0 <= blk_of va < DISKSIZE / BLKSIZE /\ ROUNDDOWN va PGSIZE = DISKMAP + blk_of va * BLKSIZE.
Proof.
  intros Hc. rewrite (blk_of_cache va Hc). destruct Hc as [H1 H2].
  exists ((va - DISKMAP) mod BLKSIZE). unfold ROUNDDOWN. rewrite u32_small.
  - change (DISKSIZE / BLKSIZE) with 786432. change PGSIZE with 4096. change BLKSIZE with 4096.
    unfold DISKMAP, DISKSIZE in *. rewrite ?u32_small by (unfold is_u32; lia). lia.
  - unfold is_u32, DISKMAP, DISKSIZE in *. lia.
Qed.

(** * Sector transfers *)

Lemma mcopy_blk dst len f m k : 0 <= len ->
  mget 0 (mcopy dst (Z.to_nat len) f m) k = if bool_decide (dst <= k < dst + len) then f (k - dst) else mget 0 m k.
Proof.
  intros Hl. rewrite mcopy_get, Z2Nat.id by done.
  destruct (Z.leb_spec dst k), (Z.ltb_spec k (dst + len)); cbn [andb]; repeat case_bool_decide; try done; lia.
Qed.

Lemma mfill_blk dst len v m k : 0 <= len ->
  mget 0 (mfill dst (Z.to_nat len) v m) k = if bool_decide (dst <= k < dst + len) then v else mget 0 m k.
Proof.
  intros Hl. rewrite mfill_get, Z2Nat.id by done.
  destruct (Z.leb_spec dst k), (Z.ltb_spec k (dst + len)); cbn [andb]; repeat case_bool_decide; try done; lia.
Qed.

Lemma ide_read_ok n : forall secno dst b s,
  0 <= secno -> secno + Z.of_nat n <= 2 ^ 28 ->
  (forall k, 0 <= k < Z.of_nat n -> secno + k ∉ fbad s) ->
  (forall i, 0 <= i < Z.of_nat n * SECTSIZE -> blk_of (dst + i) = b) ->
  b ∈ fdirty s \/ n <> 0%nat ->
  exists m, ide_read n secno dst s = Ret 0 (set_fmem m (set_fmapped (fmapped s) ({[b]} ∪ fdirty s) (fpages s) s))
    /\ forall k, mget 0 m k = if bool_decide (dst <= k < dst + Z.of_nat n * SECTSIZE)
                             then mget 0 (fdisk s) (secno * SECTSIZE + (k - dst)) else mget 0 (fmem s) k.
Proof.
  induction n as [|n IH]; intros secno dst b s H0 Hs Hb Hblk Hd.
  - destruct Hd as [Hd|]; [|done]. exists (fmem s). split.
    + cbn. unfold ret. f_equal. destruct s. unfold set_fmem, set_fmapped. cbn in *. f_equal. set_solver.
    + intros k. case_bool_decide; [lia|done].
  - cbn [ide_read]. unfold bind at 1, gets. rewrite bool_decide_eq_false_2.
    2:{ intros Hin. apply (Hb 0); [lia|by rewrite Z.add_0_r]. }
    rewrite (bind_ret (modify _) _ _ tt _ eq_refl).
    assert (blk_of dst = b) as Hb0 by (rewrite <- (Hblk 0) by (unfold SECTSIZE; lia); f_equal; lia).
    rewrite Hb0. rewrite (Z.mod_small secno) by lia.
    match goal with |- context [ide_read n _ _ ?x] => set (s1 := x) end.
    destruct (IH (secno + 1) (dst + SECTSIZE) b s1) as (m & E & Hm).
    + lia.
    + lia.
    + intros k Hk. replace (secno + 1 + k) with (secno + (k + 1)) by lia. apply Hb. lia.
    + intros i Hi. replace (dst + SECTSIZE + i) with (dst + (SECTSIZE + i)) by lia. apply Hblk. unfold SECTSIZE in *. lia.
    + left. cbn. set_solver.
    + exists m. split.
      * rewrite E. f_equal. unfold s1, set_fmem, set_fmapped. cbn. f_equal. set_solver.
      * intros k. rewrite Hm. unfold s1. cbn [fmem fdisk set_fmem set_fmapped].
        rewrite mcopy_blk by (unfold SECTSIZE; lia). unfold SECTSIZE in *.
        repeat case_bool_decide; try lia; try done; f_equal; lia.
Qed.

Lemma ide_write_ok n : forall secno src s,
  0 <= secno -> secno + Z.of_nat n <= 2 ^ 28 ->
  (forall k, 0 <= k < Z.of_nat n -> secno + k ∉ fbad s) ->
  exists d, ide_write n secno src s = Ret 0 (set_fdisk d s)
    /\ forall k, mget 0 d k = if bool_decide (secno * SECTSIZE <= k < secno * SECTSIZE + Z.of_nat n * SECTSIZE)
                             then mget 0 (fmem s) (src + (k - secno * SECTSIZE)) else mget 0 (fdisk s) k.
Proof.
  induction n as [|n IH]; intros secno src s H0 Hs Hb.
  - exists (fdisk s). split; [by destruct s|]. intros k. case_bool_decide; [lia|done].
  - cbn [ide_write]. unfold bind at 1, gets. rewrite bool_decide_eq_false_2.
    2:{ intros Hin. apply (Hb 0); [lia|by rewrite Z.add_0_r]. }
    rewrite (bind_ret (modify _) _ _ tt _ eq_refl). rewrite (Z.mod_small secno) by lia.
    match goal with |- context [ide_write n _ _ ?x] => set (s1 := x) end.
    destruct (IH (secno + 1) (src + SECTSIZE) s1) as (d & E & Hd).
    + lia.
    + lia.
    + intros k Hk. replace (secno + 1 + k) with (secno + (k + 1)) by lia. apply Hb. lia.
    + exists d. split; [by rewrite E|].
      intros k. rewrite Hd. unfold s1. cbn [fmem fdisk set_fdisk].
      rewrite mcopy_blk by (unfold SECTSIZE; lia). unfold SECTSIZE in *.
      repeat case_bool_decide; try lia; try done; f_equal; lia.
Qed.

(** * Faulting a block in *)

Definition baddr (b : Z) : Z := DISKMAP + b * BLKSIZE.

Lemma in_block va b : in_cache va -> blk_of va = b <-> baddr b <= va < baddr b + BLKSIZE.
Proof.
  intros Hc. rewrite blk_of_cache by done. destruct Hc as [H1 H2]. unfold baddr.
  change BLKSIZE with 4096. unfold DISKMAP, DISKSIZE in *. lia.
Qed.

Lemma baddr_in b i : 0 <= b < DISKSIZE / BLKSIZE -> 0 <= i < BLKSIZE -> in_cache (baddr b + i) /\ blk_of (baddr b + i) = b.
Proof. apply blk_of_at. Qed.

Lemma baddr_blk b : 0 <= b < DISKSIZE / BLKSIZE -> in_cache (baddr b) /\ blk_of (baddr b) = b.
Proof. intros Hb. rewrite <- (Z.add_0_r (baddr b)). apply baddr_in; [done|]. change BLKSIZE with 4096. lia. Qed.

Lemma baddr_mod b i : (baddr b + i - DISKMAP) = b * BLKSIZE + i.
Proof. unfold baddr. lia. Qed.

(** As long as a block is missing, the kernel still has a page for it. *)
Lemma pages_left n (X : gset Z) k b : (forall x, x ∈ X -> 0 <= x < n) -> n <= Z.of_nat (size X) + k ->
  0 <= b < n -> b ∉ X -> 0 < k.
Proof.
  intros HX Hn Hb Hnot.
  assert (size ({[b]} ∪ X) <= size (list_to_set (seqZ 0 n) : gset Z))%nat as Hs.
  { apply subseteq_size. intros x Hx. apply elem_of_list_to_set, elem_of_seqZ.
    apply elem_of_union in Hx as [Hx|Hx]; [apply elem_of_singleton in Hx as ->; lia|]. specialize (HX x Hx). lia. }
  rewrite size_union in Hs by set_solver. rewrite size_singleton, size_list_to_set, length_seqZ in Hs by apply NoDup_seqZ.
  lia.
Qed.

Lemma page_alloc_ok a s b : blk_of a = b -> 0 < fpages s ->
  exists m, page_alloc_at a s = Ret 0 (set_fmem m (set_fmapped ({[b]} ∪ fmapped s) (fdirty s ∖ {[b]}) (fpages s - 1) s))
    /\ forall k, ~ (a <= k < a + BLKSIZE) -> mget 0 m k = mget 0 (fmem s) k.
Proof.
  intros Hb Hp. unfold page_alloc_at. rewrite (proj2 (Z.leb_gt _ _) Hp), Hb. eexists. split; [reflexivity|].
  intros k Hk. rewrite mfill_blk by (change PGSIZE with 4096; lia). by rewrite bool_decide_eq_false_2.
Qed.

Lemma page_in n L s b : n <= DISKSIZE / BLKSIZE -> cache_core n L s -> 0 <= b < n -> b ∉ fmapped s ->
  exists s1 s2 s3, page_alloc_at (baddr b) s = Ret 0 s1
    /\ ide_read (Z.to_nat BLKSECTS) (b * BLKSECTS) (baddr b) s1 = Ret 0 s2
    /\ page_clean (baddr b) s2 = Ret 0 s3
    /\ cache_core n L s3 /\ fmapped s3 = {[b]} ∪ fmapped s /\ flags_kept s s3 /\ fdisk s3 = fdisk s.
Proof.
  intros Hn [C1 C2 C3 C4 C5 C6] Hb Hnot.
  assert (0 <= b < DISKSIZE / BLKSIZE) as Hb' by lia. destruct (baddr_blk b Hb') as [Hca Hbb].
  pose proof (pages_left n (fmapped s) (fpages s) b C4 C5 Hb Hnot) as Hp.
  destruct (page_alloc_ok (baddr b) s b Hbb Hp) as (m0 & E0 & Hm0).
  set (s1 := set_fmem _ _) in E0. exists s1.
  destruct (ide_read_ok (Z.to_nat BLKSECTS) (b * BLKSECTS) (baddr b) b s1) as (m & E & Hm).
  { change BLKSECTS with 8. lia. }
  { change BLKSECTS with 8. change (DISKSIZE / BLKSIZE) with 786432 in Hb'. lia. }
  { intros k Hk Hin. change (fbad s1) with (fbad s) in Hin. apply C6 in Hin. change BLKSECTS with 8 in *. lia. }
  { intros i Hi. apply baddr_in; [done|]. change (Z.of_nat (Z.to_nat BLKSECTS) * SECTSIZE) with BLKSIZE in Hi. lia. }
  { right. done. }
  do 2 eexists. split; [exact E0|]. split; [exact E|]. unfold page_clean. cbn [fmapped fdirty set_fmem set_fmapped s1]. rewrite Hbb.
  rewrite bool_decide_eq_true_2 by (cbn; set_solver). split; [reflexivity|].
  assert (forall va, in_cache va -> mget 0 m va = if bool_decide (blk_of va = b) then mget 0 (fdisk s) (va - DISKMAP) else mget 0 (fmem s) va) as Hmv.
  { intros va Hva. rewrite Hm. change (Z.of_nat (Z.to_nat BLKSECTS) * SECTSIZE) with BLKSIZE. cbn [fdisk fmem s1 set_fmem set_fmapped].
    rewrite (bool_decide_ext (blk_of va = b) (baddr b <= va < baddr b + BLKSIZE)) by (by apply in_block).
    case_bool_decide as Hin.
    - f_equal. unfold baddr in *. change (b * BLKSECTS * SECTSIZE) with (b * 8 * 512). change BLKSIZE with 4096 in *. lia.
    - by apply Hm0. }
  split; [|done]. split; cbn [fmapped fdirty fmem fdisk fpages fbad super_set bitmap_set set_fmem set_fmapped].
  - intros va Hva. unfold lview. cbn [fmapped fmem fdisk set_fmem set_fmapped]. rewrite Hmv by done. rewrite <- (C1 va Hva). unfold lview.
    destruct (decide (blk_of va = b)) as [Eb|Eb].
    + rewrite (bool_decide_eq_true_2 (_ ∈ {[b]} ∪ _)), (bool_decide_eq_true_2 (_ = b)) by set_solver.
      by rewrite bool_decide_eq_false_2 by (by rewrite Eb).
    + rewrite (bool_decide_eq_false_2 (_ = b)) by done.
      by rewrite (bool_decide_ext (blk_of va ∈ {[b]} ∪ fmapped s) (blk_of va ∈ fmapped s)) by set_solver.
  - intros va Hva Hin Hnd. rewrite Hmv by done. case_bool_decide as Hb2; [done|]. apply C2; [done|set_solver|set_solver].
  - set_solver.
  - intros x Hx. apply elem_of_union in Hx as [Hx|Hx]; [apply elem_of_singleton in Hx as ->; lia|by apply C4].
  - rewrite size_union by set_solver. rewrite size_singleton. change (fpages s1) with (fpages s - 1). lia.
  - exact C6.
Qed.

(** * The fault handler *)

Lemma word_lword L s va n : cache_core n L s -> in_cache va -> va mod 4 = 0 -> blk_of va ∈ fmapped s ->
  word (fmem s) va = lword L va.
Proof.
  intros HC Hva Ha Hm. unfold word, lword.
  assert (forall i, 0 <= i < 4 -> mget 0 (fmem s) (va + i) = L (va + i)) as E.
  { intros i Hi. destruct (blk_of_split va Hva) as (o & Ho & Eo & Hb & _).
    assert (in_cache (va + i) /\ blk_of (va + i) = blk_of va) as [Hc Hbi].
    { replace (va + i) with (DISKMAP + blk_of va * BLKSIZE + (o + i)) by lia. apply blk_of_at; [done|].
      change BLKSIZE with 4096 in *. unfold DISKMAP in *. lia. }
    rewrite <- (co_view _ _ _ HC) by done. unfold lview. by rewrite Hbi, bool_decide_eq_true_2. }
  pose proof (E 0 ltac:(lia)) as E0. rewrite Z.add_0_r in E0. by rewrite E0, !E by lia.
Qed.

Lemma load32_mapped fl L s va n : cache_core n L s -> in_cache va -> va mod 4 = 0 -> blk_of va ∈ fmapped s ->
  load32_with fl va s = Ret (lword L va) s.
Proof.
  intros HC Hva Ha Hm. unfold load32_with, touch_with, va_is_mapped, bind, gets, ret.
  rewrite bool_decide_eq_true_2 by done. by rewrite (word_lword L s va n).
Qed.

(** The bitmap block that holds the bit of block [b]. *)
Definition bmblk (b : Z) : Z := 2 + b / BLKBITSIZE.

Lemma bitmap_addr b : 0 <= b < DISKSIZE / BLKSIZE ->
  in_cache (BITMAP + 4 * (b / 32)) /\ blk_of (BITMAP + 4 * (b / 32)) = bmblk b /\ (BITMAP + 4 * (b / 32)) mod 4 = 0.
Proof.
  intros Hb. change (DISKSIZE / BLKSIZE) with 786432 in Hb.
  assert (in_cache (BITMAP + 4 * (b / 32))) as Hc.
  { unfold in_cache, BITMAP, DISKMAP, DISKSIZE. change BLKSIZE with 4096. lia. }
  split; [done|]. rewrite blk_of_cache by done. unfold bmblk, BITMAP, DISKMAP.
  change BLKBITSIZE with 32768. change BLKSIZE with 4096. lia.
Qed.

Lemma super_addr : in_cache (s_nblocks SUPER) /\ blk_of (s_nblocks SUPER) = 1 /\ s_nblocks SUPER mod 4 = 0.
Proof. by vm_compute. Qed.

Section Fault.
Context (L : Z -> Z) (HL : disk_ok L).

Lemma bmblk_ok b : 0 <= b < nb L -> 0 <= bmblk b < nb L /\ used L (bmblk b) /\ bmblk (bmblk b) = 2.
Proof.
  intros Hb. destruct HL as [_ Hn _ Hbm]. change (DISKSIZE / BLKSIZE) with 786432 in Hn.
  unfold bmblk. change BLKBITSIZE with 32768 in *.
  destruct (Hbm (b / 32768)) as [H1 H2]; [lia|lia|]. split; [lia|]. split; [done|]. lia.
Qed.

(** Blocks have been read into the cache, and nothing else. *)
Definition paged (s s' : fsstate) : Prop := fmapped s ⊆ fmapped s' /\ fdisk s' = fdisk s.

(** What a fault on block [b] must achieve. *)
Definition faults_in (fl : Z -> FS unit) (b : Z) : Prop :=
  forall s va, cache_ok (nb L) L s -> in_cache va -> blk_of va = b -> b ∉ fmapped s ->
  exists s', fl va s = Ret tt s' /\ cache_ok (nb L) L s' /\ b ∈ fmapped s' /\ paged s s'.

Lemma load32_ok fl va s : cache_ok (nb L) L s -> in_cache va -> va mod 4 = 0 ->
  blk_of va ∈ fmapped s \/ faults_in fl (blk_of va) ->
  exists s', load32_with fl va s = Ret (lword L va) s' /\ cache_ok (nb L) L s'
    /\ blk_of va ∈ fmapped s' /\ paged s s'.
Proof.
  intros HC Hva Ha Hm. destruct (decide (blk_of va ∈ fmapped s)) as [Hin|Hout].
  - exists s. by rewrite (load32_mapped fl L s va _ HC).
  - destruct Hm as [|Hf]; [done|]. destruct (Hf s va HC Hva eq_refl Hout) as (s' & E & HC' & Hin & Hsub).
    exists s'. split; [|done]. unfold load32_with.
    rewrite (bind_ret (touch_with fl va) _ _ tt s').
    + unfold gets. by rewrite (word_lword L s' va _ HC').
    + unfold touch_with, va_is_mapped, bind, gets. by rewrite bool_decide_eq_false_2.
Qed.

Lemma block_is_free_ok fl b s : cache_ok (nb L) L s -> 0 <= b < nb L ->
  bmblk b ∈ fmapped s \/ faults_in fl (bmblk b) ->
  exists s', block_is_free_with fl b s = Ret (flag (lword L (BITMAP + 4 * (b / 32))) (Z.shiftl 1 (b mod 32))) s'
    /\ cache_ok (nb L) L s' /\ paged s s'.
Proof.
  intros HC Hb Hm. unfold block_is_free_with. destruct (co_set _ _ _ HC) as (H1 & H2 & H3).
  rewrite (bind_ret (gets super_set) _ _ true s) by (unfold gets; by rewrite H1). cbn [negb].
  destruct super_addr as (A1 & A2 & A3).
  rewrite (bind_ret _ _ _ _ _ (load32_mapped fl L s _ _ HC A1 A3 ltac:(by rewrite A2))). fold (nb L).
  rewrite (proj2 (Z.leb_gt _ _)) by lia.
  destruct (bitmap_addr b) as (B1 & B2 & B3); [pose proof (do_nb _ HL); lia|].
  destruct (load32_ok fl (BITMAP + 4 * (b / 32)) s HC B1 B3) as (s' & E & HC' & _ & Hsub); [by rewrite B2|].
  exists s'. rewrite (bind_ret _ _ _ _ _ E). done.
Qed.

(** A fault is served if the bitmap block it consults is in memory, is the
    block itself, or can be faulted in. *)
Lemma bc_pgfault_ok fl b : 0 <= b < nb L -> used L b -> bmblk b = b \/ faults_in fl (bmblk b) ->
  faults_in (bc_pgfault fl) b.
Proof.
  intros Hb Hu Hbm s va HC Hva Hblk Hnot. unfold bc_pgfault.
  destruct (blk_of_split va Hva) as (o & Ho & Eo & Hr & Hrd). rewrite Hblk in *.
  assert ((va <? DISKMAP) || (DISKMAP + DISKSIZE <=? va) = false) as ->.
  { destruct Hva as [H1 H2]. by rewrite (proj2 (Z.ltb_ge _ _) H1), (proj2 (Z.leb_gt _ _) H2). }
  destruct (co_set _ _ _ HC) as (S1 & S2 & S3).
  rewrite (bind_ret (gets super_set) _ _ true s) by (unfold gets; by rewrite S1).
  destruct super_addr as (A1 & A2 & A3).
  rewrite (bind_ret _ _ s tt s).
  2:{ rewrite (bind_ret _ _ _ _ _ (load32_mapped fl L s _ _ HC A1 A3 ltac:(by rewrite A2))). fold (nb L).
      change (u32 (va - DISKMAP) / BLKSIZE) with (blk_of va). rewrite Hblk. by rewrite (proj2 (Z.leb_gt _ _)) by lia. }
  cbv zeta. rewrite Hrd. fold (baddr b). change (u32 (va - DISKMAP) / BLKSIZE) with (blk_of va). rewrite Hblk.
  destruct (page_in (nb L) L s b) as (s1 & s2 & s3 & E1 & E2 & E3 & HK3 & Hm3 & Hfl & Hd3); [apply HL|apply HC|done|done|].
  assert (cache_ok (nb L) L s3) as HC3 by (apply (cache_ok_kept _ L _ s); [done|done|done|set_solver]).
  rewrite (bind_ret _ _ _ _ _ E1). change (0 <? 0) with false. cbv iota.
  rewrite (u32_small (b * BLKSECTS)).
  2:{ unfold is_u32. change BLKSECTS with 8. change (DISKSIZE / BLKSIZE) with 786432 in Hr. lia. }
  rewrite (bind_ret _ _ _ _ _ E2). change (0 <? 0) with false. cbv iota.
  rewrite (bind_ret _ _ _ _ _ E3). change (0 <? 0) with false. cbv iota.
  destruct (co_set _ _ _ HC3) as (_ & T2 & _).
  rewrite (bind_ret (gets bitmap_set) _ _ true s3) by (unfold gets; by rewrite T2).
  destruct (block_is_free_ok fl b s3 HC3 Hb) as (s4 & E4 & HC4 & Hsub & Hd4).
  { destruct Hbm as [->|]; [left; rewrite Hm3; set_solver|by right]. }
  rewrite (bind_ret _ _ _ _ _ E4). rewrite Hu. exists s4. split; [done|]. rewrite Hm3 in Hsub. split; [done|].
  split; [set_solver|]. split; [set_solver|congruence].
Qed.

(** Three levels of nested faults always suffice. *)
Lemma fault_ok n b : 0 <= b < nb L -> used L b -> faults_in (fault (S (S (S n)))) b.
Proof.
  intros Hb Hu. destruct (bmblk_ok b Hb) as (H1 & H2 & H3).
  assert (faults_in (fault (S n)) 2) as F2.
  { assert (0 <= 2 < nb L) as H by (pose proof (do_nb _ HL); lia).
    apply bc_pgfault_ok; [done| |by left]. destruct (do_bitmap _ HL 0) as [_ Hu2]; [lia|lia|done]. }
  apply bc_pgfault_ok; [done|done|]. right. apply bc_pgfault_ok; [done|done|]. right. by rewrite H3.
Qed.

(** * Accesses *)

(** An address that may be accessed: its block exists and is in use. *)
Definition accessible (va : Z) : Prop := in_cache va /\ 0 <= blk_of va < nb L /\ used L (blk_of va).

Lemma touch_ok va s : cache_ok (nb L) L s -> accessible va ->
  exists s', touch va s = Ret tt s' /\ cache_ok (nb L) L s' /\ blk_of va ∈ fmapped s' /\ paged s s'.
Proof.
  intros HC (Hva & Hb & Hu). unfold touch, touch_with. rewrite (bind_ret (gets _) _ _ (va_is_mapped va s) s) by done.
  unfold va_is_mapped. case_bool_decide as Hm; [by exists s|]. by apply (fault_ok 1 (blk_of va)).
Qed.

Lemma fload32_paged va s : cache_ok (nb L) L s -> accessible va -> va mod 4 = 0 ->
  exists s', fload32 va s = Ret (lword L va) s' /\ cache_ok (nb L) L s' /\ paged s s'.
Proof.
  intros HC (Hva & Hb & Hu) Ha. destruct (load32_ok (fault FAULTS) va s HC Hva Ha) as (s' & E & HC' & _ & HP).
  - right. by apply (fault_ok 1).
  - by exists s'.
Qed.

Lemma fload32_ok va s : cache_ok (nb L) L s -> accessible va -> va mod 4 = 0 ->
  exists s', fload32 va s = Ret (lword L va) s' /\ cache_ok (nb L) L s'.
Proof. intros HC Ha Ha4. destruct (fload32_paged va s HC Ha Ha4) as (s' & E & HC' & _). by exists s'. Qed.

Lemma fload8_ok va s : cache_ok (nb L) L s -> accessible va ->
  exists s', fload8 va s = Ret (L va) s' /\ cache_ok (nb L) L s'.
Proof.
  intros HC Ha. destruct (touch_ok va s HC Ha) as (s' & E & HC' & Hm & _). exists s'. split; [|done].
  unfold fload8. rewrite (bind_ret _ _ _ _ _ E). unfold gets. rewrite <- (co_view _ _ _ HC') by apply Ha.
  unfold lview. by rewrite bool_decide_eq_true_2.
Qed.
End Fault.

(** * Stores *)

(** [len] bytes of [L] at [va] replaced. *)
Definition lcopy (va len : Z) (f : Z -> Z) (L : Z -> Z) (k : Z) : Z :=
  if bool_decide (va <= k < va + len) then f (k - va) else L k.

(** The range lies within one block. *)
Definition within (va len : Z) : Prop := 0 <= len /\ (va - DISKMAP) mod BLKSIZE + len <= BLKSIZE.

Lemma within_blk va len k : in_cache va -> within va len -> in_cache k -> va <= k < va + len -> blk_of k = blk_of va.
Proof.
  intros Hva [H0 Hw] Hk Hr. rewrite !blk_of_cache by done. destruct Hva, Hk.
  change BLKSIZE with 4096 in *. unfold DISKMAP, DISKSIZE in *. lia.
Qed.

Lemma poke_ok n L s va len f : cache_core n L s -> in_cache va -> within va len -> blk_of va ∈ fmapped s ->
  cache_core n (lcopy va len f L) (poke (mcopy va (Z.to_nat len) f) va s).
Proof.
  intros [C1 C2 C3 C4 C5 C6] Hva Hw Hm. pose proof Hw as [Hl _].
  split; unfold poke; cbn [fmapped fdirty fmem fdisk fpages fbad super_set bitmap_set set_fmem set_fmapped]; try done.
  - intros k Hk. unfold lview. cbn [fmapped fmem fdisk set_fmem set_fmapped]. rewrite mcopy_blk by done. unfold lcopy.
    destruct (decide (va <= k < va + len)) as [Hr|Hr].
    + rewrite !(bool_decide_eq_true_2 (va <= k < va + len)) by done.
      by rewrite bool_decide_eq_true_2 by (by rewrite (within_blk va len k)).
    + rewrite !(bool_decide_eq_false_2 (va <= k < va + len)) by done. by apply C1.
  - intros k Hk Hin Hnd. rewrite mcopy_blk by done. rewrite bool_decide_eq_false_2.
    + apply C2; [done|done|set_solver].
    + intros Hr. apply Hnd. rewrite (within_blk va len k) by done. set_solver.
  - set_solver.
Qed.

(** Changing bytes of data blocks leaves the superblock and the bitmap. *)
Definition data_addr (L : Z -> Z) (va : Z) : Prop :=
  in_cache va /\ 2 + (nb L + BLKBITSIZE - 1) / BLKBITSIZE <= blk_of va.

Lemma lword_ext L L' va : (forall i, 0 <= i < 4 -> L' (va + i) = L (va + i)) -> lword L' va = lword L va.
Proof.
  intros H. unfold lword. pose proof (H 0 ltac:(lia)) as H0. rewrite Z.add_0_r in H0. by rewrite H0, !H by lia.
Qed.

(** Two disks with the same superblock and bitmap. *)
Definition same_meta (L L' : Z -> Z) : Prop :=
  nb L' = nb L /\ forall b, 0 <= b < nb L -> lword L' (BITMAP + 4 * (b / 32)) = lword L (BITMAP + 4 * (b / 32)).

Lemma used_meta L L' b : same_meta L L' -> 0 <= b < nb L -> used L' b <-> used L b.
Proof. intros [_ Hw] Hb. unfold used. by rewrite Hw. Qed.

Lemma same_meta_ok L L' : (forall va, 0 <= L' va < 2 ^ 8) -> same_meta L L' -> disk_ok L -> disk_ok L'.
Proof.
  intros Hb Hs [H1 H2 [H3 H4] H5]. pose proof Hs as [Hn _]. split; [done|by rewrite Hn| |].
  - by rewrite !(used_meta L L') by (done || lia).
  - intros i Hi Hlt. rewrite Hn in *. destruct (H5 i Hi Hlt) as [H6 H7]. by rewrite (used_meta L L') by (done || lia).
Qed.

(** A word of the superblock or the bitmap is not in a data block. *)
Lemma meta_not_data L va b i : disk_ok L -> data_addr L va -> 0 <= b < nb L -> 0 <= i < 4 ->
  BITMAP + 4 * (b / 32) + i < baddr (blk_of va) /\ s_nblocks SUPER + i < baddr (blk_of va).
Proof.
  intros HL [Hc Hd] Hb Hi. pose proof (do_nb _ HL) as Hn. unfold BITMAP, s_nblocks, SUPER, baddr.
  change (DISKSIZE / BLKSIZE) with 786432 in Hn. change BLKBITSIZE with 32768 in *. change BLKSIZE with 4096. lia.
Qed.

Lemma data_meta L va len f : disk_ok L -> data_addr L va -> same_meta L (lcopy va len f L).
Proof.
  intros HL Hd. pose proof Hd as [Hc _]. pose proof (blk_of_split va Hc) as (o & Ho & Eo & _).
  fold (baddr (blk_of va)) in Eo. pose proof (do_nb _ HL) as Hn.
  split.
  - apply lword_ext. intros i Hi. unfold lcopy. rewrite bool_decide_eq_false_2; [done|].
    destruct (meta_not_data L va 0 i HL Hd) as [_ H]; lia.
  - intros b Hb. apply lword_ext. intros i Hi. unfold lcopy. rewrite bool_decide_eq_false_2; [done|].
    destruct (meta_not_data L va b i HL Hd) as [H _]; lia.
Qed.

(** A store that keeps the superblock and the bitmap in order. *)
Lemma store_ok (st : FS unit) L s va len f :
  (forall s', blk_of va ∈ fmapped s' -> touch va s = Ret tt s' ->
     st s = Ret tt (poke (mcopy va (Z.to_nat len) f) va s')) ->
  bc_ok L s -> accessible L va -> within va len ->
  disk_ok (lcopy va len f L) -> nb (lcopy va len f L) = nb L ->
  exists s', st s = Ret tt s' /\ bc_ok (lcopy va len f L) s'.
Proof.
  intros Hst [HL HC] Ha Hw Hd Hm. destruct (touch_ok L HL va s HC Ha) as (s1 & E1 & HC1 & Hin & _).
  eexists. split; [by apply Hst|]. split; [done|].
  rewrite Hm. apply (cache_ok_kept _ L _ s1); [done|apply poke_ok; [apply HC1|apply Ha|done|done]|done|].
  by destruct (co_set _ _ _ HC1) as (_ & _ & ?).
Qed.

Lemma lcopy_data L va len f : disk_ok L -> data_addr L va -> (forall i, 0 <= f i < 2 ^ 8) ->
  disk_ok (lcopy va len f L) /\ nb (lcopy va len f L) = nb L.
Proof.
  intros HL Hd Hf. pose proof (data_meta L va len f HL Hd) as Hm. split; [|apply Hm].
  apply (same_meta_ok L); [|done|done]. intros k. unfold lcopy. case_bool_decide; [apply Hf|apply HL].
Qed.

Lemma u8_range x : 0 <= u8 x < 2 ^ 8.
Proof. unfold u8. apply Z.mod_pos_bound. lia. Qed.

Definition lput32 (va v : Z) (L : Z -> Z) : Z -> Z := lcopy va 4 (fun i => u8 (Z.shiftr v (8 * i))) L.

Lemma fstore32_ok L s va v : bc_ok L s -> accessible L va -> within va 4 ->
  disk_ok (lput32 va v L) -> nb (lput32 va v L) = nb L ->
  exists s', fstore32 va v s = Ret tt s' /\ bc_ok (lput32 va v L) s'.
Proof.
  intros HB Ha Hw Hm Hn. apply (store_ok (fstore32 va v) L s va 4); auto.
  intros s' _ E. unfold fstore32. by rewrite (bind_ret _ _ _ _ _ E).
Qed.

Lemma fmemset_ok L s va v len : bc_ok L s -> accessible L va -> within va len -> data_addr L va ->
  exists s', fmemset va v len s = Ret tt s' /\ bc_ok (lcopy va len (fun _ => u8 v) L) s'.
Proof.
  intros HB Ha Hw Hd. destruct (lcopy_data L va len (fun _ => u8 v) (bo_disk _ _ HB) Hd) as [H1 H2]; [auto using u8_range|].
  apply (store_ok (fmemset va v len) L s va len); auto.
  intros s' _ E. unfold fmemset. by rewrite (bind_ret _ _ _ _ _ E).
Qed.

Definition lput (va : Z) (bs : list Z) (L : Z -> Z) : Z -> Z :=
  lcopy va (Z.of_nat (length bs)) (fun i => u8 (nth (Z.to_nat i) bs 0)) L.

Lemma lput_get va bs L k : 0 <= k < Z.of_nat (length bs) -> lput va bs L (va + k) = u8 (nth (Z.to_nat k) bs 0).
Proof. intros Hk. unfold lput, lcopy. rewrite bool_decide_eq_true_2 by lia. by replace (va + k - va) with k by lia. Qed.

(** Disks are compared byte by byte. *)
#[export] Instance lword_proper : Proper (pointwise_relation Z eq ==> eq ==> eq) lword.
Proof. intros L L' HL va ? <-. unfold lword. by rewrite !HL. Qed.

#[export] Instance nb_proper : Proper (pointwise_relation Z eq ==> eq) nb.
Proof. intros L L' HL. unfold nb. by rewrite (lword_proper L L' HL _ _ eq_refl). Qed.

#[export] Instance used_proper : Proper (pointwise_relation Z eq ==> eq ==> iff) used.
Proof. intros L L' HL b ? <-. unfold used. by rewrite (lword_proper L L' HL _ _ eq_refl). Qed.

#[export] Instance disk_ok_proper : Proper (pointwise_relation Z eq ==> iff) disk_ok.
Proof.
  assert (forall L L', pointwise_relation Z eq L L' -> disk_ok L -> disk_ok L') as H.
  { intros L L' HL [H1 H2 H3 H4]. split.
    - intros va. by rewrite <- HL.
    - by rewrite <- (nb_proper L L' HL).
    - by rewrite <- !(used_proper L L' HL _ _ eq_refl).
    - intros i. rewrite <- (nb_proper L L' HL), <- (used_proper L L' HL _ _ eq_refl). apply H4. }
  intros L L' HL. split; apply H; [done|by symmetry].
Qed.

#[export] Instance cache_core_proper : Proper (eq ==> pointwise_relation Z eq ==> eq ==> iff) cache_core.
Proof.
  assert (forall n L L' s, pointwise_relation Z eq L L' -> cache_core n L s -> cache_core n L' s) as H.
  { intros n L L' s HL [C1 C2 C3 C4 C5 C6]. split; try done. intros va Hva. rewrite <- HL. by apply C1. }
  intros n ? <- L L' HL s ? <-. split; apply H; [done|by symmetry].
Qed.

#[export] Instance bc_ok_proper : Proper (pointwise_relation Z eq ==> eq ==> iff) bc_ok.
Proof.
  assert (forall L L' s, pointwise_relation Z eq L L' -> bc_ok L s -> bc_ok L' s) as H.
  { intros L L' s HL [H1 [H2 H3]]. split; [by apply (disk_ok_proper L L' HL)|]. rewrite <- (nb_proper L L' HL).
    split; [|done]. by apply (cache_core_proper (nb L) _ eq_refl L L' HL s _ eq_refl). }
  intros L L' HL s ? <-. split; apply H; [done|by symmetry].
Qed.

(** A transfer within one block takes one round. *)
Lemma fwrite_one va b bs : within va (Z.of_nat (length (b :: bs))) ->
  fwrite va (b :: bs) = (touch va ;;! modify (poke (mcopy va (length (b :: bs)) (fun i => u8 (nth (Z.to_nat i) (b :: bs) 0))) va) ;;! ret tt).
Proof.
  intros [_ Hw]. unfold fwrite, move_fuel. cbn [fwrite_from]. rewrite take_ge, drop_ge by (unfold room; lia). done.
Qed.

Lemma fread_one va n : within va n -> 0 < n ->
  fread va n = (touch va ;;! let! bs := gets (fun s => (fun i => mget 0 (fmem s) (va + i)) <$> seqZ 0 n) in ret (bs ++ [])).
Proof.
  intros [_ Hw] Hn. unfold fread, move_fuel. cbn [fread_from]. rewrite (proj2 (Z.leb_gt _ _)) by done. unfold room.
  rewrite Z.min_l by lia. rewrite Z.sub_diag. done.
Qed.

Lemma fwrite_ok L s va bs : bc_ok L s -> accessible L va -> within va (Z.of_nat (length bs)) -> data_addr L va ->
  exists s', fwrite va bs s = Ret tt s' /\ bc_ok (lput va bs L) s'.
Proof.
  intros HB Ha Hw Hd. destruct bs as [|b bs].
  - exists s. split; [done|]. assert (pointwise_relation Z eq (lput va [] L) L) as ->; [|done].
    intros k. unfold lput, lcopy. cbn [length]. rewrite bool_decide_eq_false_2; [done|lia].
  - destruct (lcopy_data L va (Z.of_nat (length (b :: bs))) (fun i => u8 (nth (Z.to_nat i) (b :: bs) 0)) (bo_disk _ _ HB) Hd)
      as [H1 H2]; [auto using u8_range|].
    apply (store_ok (fwrite va (b :: bs)) L s va (Z.of_nat (length (b :: bs)))); auto.
    intros s' _ E. rewrite fwrite_one, (bind_ret _ _ _ _ _ E), Nat2Z.id by done. done.
Qed.

Lemma fread_ok L s va n : bc_ok L s -> accessible L va -> within va n ->
  exists s', fread va n s = Ret ((fun i => L (va + i)) <$> seqZ 0 n) s' /\ bc_ok L s'.
Proof.
  intros [HL HC] Ha Hw. destruct (Z.leb_spec n 0) as [Hn|Hn].
  - exists s. split; [|done]. unfold fread, move_fuel. cbn [fread_from]. by rewrite (proj2 (Z.leb_le _ _) Hn), seqZ_nil.
  - destruct (touch_ok L HL va s HC Ha) as (s' & E & HC' & Hm & _). exists s'. split; [|done].
    rewrite fread_one, (bind_ret _ _ _ _ _ E) by done. unfold gets, bind, ret. f_equal. rewrite app_nil_r. apply list_fmap_ext. intros i x Hx.
    apply lookup_seqZ in Hx as [-> Hi]. destruct Ha as (Hva & Hb & _).
    destruct (blk_of_split va Hva) as (o & Ho & Eo & Hbr & _).
    assert (in_cache (va + Z.of_nat i)) as Hc.
    { destruct Hw as [_ Hw]. destruct Hva. unfold in_cache. change (DISKSIZE / BLKSIZE) with 786432 in Hbr.
      change BLKSIZE with 4096 in *. unfold DISKMAP, DISKSIZE in *. lia. }
    rewrite Z.add_0_l. rewrite <- (co_view _ _ _ HC') by done. unfold lview.
    by rewrite (within_blk va n (va + Z.of_nat i)), bool_decide_eq_true_2 by (done || lia).
Qed.

(** * Flushing *)

(** Block [b] is on the disk as the server sees it. *)
Definition flushed (L : Z -> Z) (s : fsstate) (b : Z) : Prop :=
  forall va, in_cache va -> blk_of va = b -> mget 0 (fdisk s) (va - DISKMAP) = L va.

Lemma clean_flushed L s n b : cache_core n L s -> b ∉ fdirty s -> flushed L s b.
Proof.
  intros HC Hd va Hva <-. rewrite <- (co_view _ _ _ HC) by done. unfold lview.
  case_bool_decide as Hm; [|done]. symmetry. by apply (co_clean _ _ _ HC).
Qed.

Lemma flush_core n L s a : cache_core n L s -> in_cache a ->
  exists s', flush_block a s = Ret tt s' /\ cache_core n L s' /\ flushed L s' (blk_of a)
    /\ (forall b, flushed L s b -> flushed L s' b) /\ flags_kept s s' /\ fmapped s' = fmapped s /\ blk_of a ∉ fdirty s'.
Proof.
  intros HC Ha. set (b := blk_of a). unfold flush_block.
  destruct (blk_of_split a Ha) as (o & Ho & Eo & Hb & Hrd). fold b in Eo, Hb, Hrd.
  assert ((a <? DISKMAP) || (DISKMAP + DISKSIZE <=? a) = false) as ->.
  { destruct Ha as [H1 H2]. by rewrite (proj2 (Z.ltb_ge _ _) H1), (proj2 (Z.leb_gt _ _) H2). }
  cbv zeta. rewrite Hrd. fold (baddr b). change (u32 (a - DISKMAP) / BLKSIZE) with b.
  destruct (baddr_blk b Hb) as [_ Hbb].
  rewrite (bind_ret (gets _) _ _ (bool_decide (b ∈ fmapped s)) s) by (unfold gets, va_is_mapped; by rewrite Hbb).
  rewrite (bind_ret (gets _) _ _ (bool_decide (b ∈ fdirty s)) s) by (unfold gets, va_is_dirty; by rewrite Hbb).
  case_bool_decide as Hm; case_bool_decide as Hd; cbn [andb];
    try (exists s; split; [done|]; split; [done|]; split; [by apply (clean_flushed L s n)|done]).
  2:{ destruct Hm. by apply (co_dirty _ _ _ HC). }
  pose proof (co_range _ _ _ HC b Hm) as Hbr.
  rewrite (u32_small (b * BLKSECTS)).
  2:{ unfold is_u32. change BLKSECTS with 8. change (DISKSIZE / BLKSIZE) with 786432 in Hb. lia. }
  destruct (ide_write_ok (Z.to_nat BLKSECTS) (b * BLKSECTS) (baddr b) s) as (d & E & Hdk).
  { change BLKSECTS with 8. lia. }
  { change BLKSECTS with 8. change (DISKSIZE / BLKSIZE) with 786432 in Hb. lia. }
  { intros k Hk Hin. apply (co_good _ _ _ HC) in Hin. change BLKSECTS with 8 in *. lia. }
  rewrite (bind_ret _ _ _ _ _ E). change (0 <? 0) with false. cbv iota.
  unfold page_clean at 1. unfold bind at 1. cbn [fmapped fdirty fpages set_fdisk]. rewrite Hbb, bool_decide_eq_true_2 by done.
  change (0 <? 0) with false. cbv iota. eexists. split; [reflexivity|].
  assert (forall va, in_cache va -> mget 0 d (va - DISKMAP) = if bool_decide (blk_of va = b) then L va else mget 0 (fdisk s) (va - DISKMAP)) as Hdv.
  { intros va Hva. rewrite Hdk. rewrite (bool_decide_ext (blk_of va = b) (baddr b <= va < baddr b + BLKSIZE)) by (by apply in_block).
    change (Z.of_nat (Z.to_nat BLKSECTS) * SECTSIZE) with BLKSIZE.
    unfold baddr. change (b * BLKSECTS * SECTSIZE) with (b * 8 * 512). change BLKSIZE with 4096.
    repeat case_bool_decide; try lia; try done.
    rewrite <- (co_view _ _ _ HC) by done. unfold lview. rewrite bool_decide_eq_true_2.
    - f_equal. lia.
    - assert (blk_of va = b) as ->; [|done]. apply in_block; [done|]. unfold baddr. change BLKSIZE with 4096. lia. }
  destruct HC as [C1 C2 C3 C4 C5 C6].
  assert (flushed L (set_fmapped (fmapped s) (fdirty s ∖ {[b]}) (fpages s) (set_fdisk d s)) b) as Hfb.
  { intros va Hva Hvb. cbn [fdisk set_fdisk set_fmapped]. by rewrite Hdv, bool_decide_eq_true_2. }
  split; [|split; [exact Hfb|split; [|split; [done|split; [done|cbn; set_solver]]]]].
  - split; cbn [fmapped fdirty fmem fdisk fpages fbad super_set bitmap_set set_fdisk set_fmapped]; try done; [| |set_solver].
    + intros va Hva. unfold lview. cbn [fmapped fmem fdisk set_fdisk set_fmapped]. rewrite <- (C1 va Hva). unfold lview.
      case_bool_decide as Hin; [done|]. rewrite Hdv by done. rewrite bool_decide_eq_false_2; [done|]. congruence.
    + intros va Hva Hin Hnd. rewrite Hdv by done. case_bool_decide as Hvb.
      * rewrite <- (C1 va Hva). unfold lview. by rewrite bool_decide_eq_true_2.
      * apply C2; [done|done|set_solver].
  - intros b' Hf va Hva Hvb. cbn [fdisk set_fdisk set_fmapped]. rewrite Hdv by done. case_bool_decide; [done|by apply Hf].
Qed.

Lemma flush_ok L s a : bc_ok L s -> in_cache a ->
  exists s', flush_block a s = Ret tt s' /\ bc_ok L s' /\ flushed L s' (blk_of a)
    /\ (forall b, flushed L s b -> flushed L s' b).
Proof.
  intros [HL HC] Ha. destruct (flush_core (nb L) L s a HC Ha) as (s' & E & HC' & Hf & Hk & Hfl & Hm & _).
  exists s'. split_and!; try done. split; [done|]. apply (cache_ok_kept _ L _ s); try done. rewrite Hm.
  by destruct (co_set _ _ _ HC) as (_ & _ & ?).
Qed.

Lemma nblocks_ok L s : bc_ok L s -> fload32 (s_nblocks SUPER) s = Ret (nb L) s.
Proof.
  intros [HL HC]. destruct super_addr as (A1 & A2 & A3).
  apply (load32_mapped _ L s _ _ HC); [done|done|]. rewrite A2. apply (co_set _ _ _ HC).
Qed.

Lemma diskaddr_ok L s b : bc_ok L s -> 0 < b < nb L -> diskaddr b s = Ret (baddr b) s.
Proof.
  intros HB Hb. unfold diskaddr. destruct (Z.eqb_spec b 0); [lia|].
  pose proof (do_nb _ (bo_disk _ _ HB)) as Hn. change (DISKSIZE / BLKSIZE) with 786432 in Hn.
  rewrite (bind_ret (gets super_set) _ _ true s) by (unfold gets; by rewrite (proj1 (co_set _ _ _ (bo_cache _ _ HB)))).
  rewrite (bind_ret _ _ _ _ _ (nblocks_ok L s HB)), (proj2 (Z.leb_gt _ _)) by lia.
  unfold ret. f_equal. apply u32_small. unfold is_u32, baddr, DISKMAP. change BLKSIZE with 4096. lia.
Qed.

Lemma flush_block_at L s b : bc_ok L s -> 0 <= b < nb L ->
  exists s', flush_block (baddr b) s = Ret tt s' /\ bc_ok L s' /\ flushed L s' b
    /\ (forall b', flushed L s b' -> flushed L s' b').
Proof.
  intros HB Hb. destruct (baddr_blk b) as [Hc Hbb]; [pose proof (do_nb _ (bo_disk _ _ HB)); lia|].
  destruct (flush_ok L s (baddr b) HB Hc) as (s' & E & HB' & Hf & Hk). rewrite Hbb in Hf. by exists s'.
Qed.
