(* ===== verification/BitmapSpec.v ===== *)
(** fs/fs.c: the free-block bitmap, [alloc_block] and [free_block], and
    [fs_sync]. *)

From stdpp Require Import base numbers list gmap strings.
From Stdlib Require Import ZArith Lia Bool.
From S2P Require Import Prelude Mmu Console Bc Fs BcSpec.

Local Ltac Zify.zify_post_hook ::= Z.to_euclidean_division_equations.

(** * Words and bits *)

Lemma flag_bit w i : 0 <= i -> flag w (Z.shiftl 1 i) = Z.testbit w i.
Proof.
  intros Hi. unfold flag. rewrite Z.shiftl_1_l. destruct (Z.testbit w i) eqn:E.
  - apply negb_true_iff, Z.eqb_neq. intros H. apply (f_equal (fun x => Z.testbit x i)) in H.
    by rewrite Z.land_spec, E, Z.pow2_bits_true, Z.bits_0 in H.
  - apply negb_false_iff, Z.eqb_eq. apply Z.bits_inj'. intros j Hj. rewrite Z.land_spec, Z.bits_0, Z.pow2_bits_eqb by done.
    destruct (Z.eqb_spec i j) as [<-|]; [by rewrite E|apply andb_false_r].
Qed.

Lemma lput32_get L va v : is_u32 v -> lword (lput32 va v L) va = v.
Proof.
  intros Hv. unfold lword, lput32, lcopy. rewrite !bool_decide_eq_true_2 by lia.
  replace (va - va) with 0 by lia. replace (va + 1 - va) with 1 by lia.
  replace (va + 2 - va) with 2 by lia. replace (va + 3 - va) with 3 by lia.
  rewrite !Z.shiftr_div_pow2 by lia. unfold u8, is_u32 in *.
  change (2 ^ (8 * 0)) with 1. change (2 ^ (8 * 1)) with 256. change (2 ^ (8 * 2)) with 65536. change (2 ^ (8 * 3)) with 16777216.
  lia.
Qed.

Lemma lput32_other L va v k : va + 4 <= k \/ k + 4 <= va -> lword (lput32 va v L) k = lword L k.
Proof.
  intros Hk. apply lword_ext. intros i Hi. unfold lput32, lcopy. rewrite bool_decide_eq_false_2; [done|lia].
Qed.

Lemma lput32_byte L va v k : disk_ok L -> 0 <= lput32 va v L k < 2 ^ 8.
Proof. intros HL. unfold lput32, lcopy. case_bool_decide; [apply u8_range|apply HL]. Qed.

Lemma lword_range L va : disk_ok L -> is_u32 (lword L va).
Proof.
  intros HL. unfold is_u32, lword. pose proof (do_byte _ HL va). pose proof (do_byte _ HL (va + 1)).
  pose proof (do_byte _ HL (va + 2)). pose proof (do_byte _ HL (va + 3)). lia.
Qed.

Definition bword (b : Z) : Z := BITMAP + 4 * (b / 32).

Lemma used_bit L b : 0 <= b -> used L b <-> Z.testbit (lword L (bword b)) (b mod 32) = false.
Proof. intros Hb. unfold used. rewrite flag_bit by lia. done. Qed.

#[export] Instance used_dec L b : Decision (used L b).
Proof. unfold used. apply _. Defined.

(** The bitmap after the bit of block [b] has been given the value [v]. *)
Definition set_bit (v : bool) (b : Z) (L : Z -> Z) : Z -> Z :=
  lput32 (bword b) ((if v then Z.lor else Z.ldiff) (lword L (bword b)) (Z.shiftl 1 (b mod 32))) L.

Lemma bit_word_range w i : is_u32 w -> 0 <= i < 32 ->
  is_u32 (Z.lor w (Z.shiftl 1 i)) /\ is_u32 (Z.ldiff w (Z.shiftl 1 i)).
Proof.
  intros Hw Hi. unfold is_u32 in *. rewrite Z.shiftl_1_l.
  assert (0 <= 2 ^ i < 2 ^ 32) as Hp by (split; [lia|apply Z.pow_lt_mono_r; lia]). split.
  - apply lor_range; [lia|done|done].
  - split; [apply Z.ldiff_nonneg; lia|]. apply (Z.le_lt_trans _ w); [|lia]. apply Z.ldiff_le; [lia|].
    apply Z.bits_inj'. intros j Hj. rewrite !Z.ldiff_spec, Z.bits_0. by destruct (Z.testbit w j), (Z.testbit (2 ^ i) j).
Qed.

Lemma set_bit_word (v : bool) b L : disk_ok L -> 0 <= b ->
  is_u32 ((if v then Z.lor else Z.ldiff) (lword L (bword b)) (Z.shiftl 1 (b mod 32))).
Proof.
  intros HL Hb. destruct (bit_word_range (lword L (bword b)) (b mod 32)) as [H1 H2]; [by apply lword_range|lia|].
  by destruct v.
Qed.

Lemma set_bit_used v b L b' : disk_ok L -> 0 <= b -> 0 <= b' ->
  used (set_bit v b L) b' <-> if decide (b = b') then v = false else used L b'.
Proof.
  intros HL Hb Hb'. rewrite (used_bit (set_bit v b L)) by done.
  assert (b / 32 = b' / 32 -> Z.testbit (lword (set_bit v b L) (bword b')) (b' mod 32)
    = if v then Z.testbit (lword L (bword b')) (b' mod 32) || bool_decide (b = b')
      else Z.testbit (lword L (bword b')) (b' mod 32) && negb (bool_decide (b = b'))) as Hsame.
  { intros Hw. assert (bword b' = bword b) as -> by (unfold bword; by rewrite Hw).
    unfold set_bit. rewrite lput32_get by (by apply set_bit_word).
    assert (Z.testbit (Z.shiftl 1 (b mod 32)) (b' mod 32) = bool_decide (b = b')) as Hs.
    { rewrite Z.shiftl_1_l, Z.pow2_bits_eqb by lia. case_bool_decide; [apply Z.eqb_eq; lia|apply Z.eqb_neq; lia]. }
    destruct v; by rewrite ?Z.lor_spec, ?Z.ldiff_spec, Hs. }
  destruct (decide (b = b')) as [->|Hne].
  - rewrite Hsame, bool_decide_eq_true_2 by done. destruct v; [by rewrite orb_true_r|by rewrite andb_false_r].
  - rewrite (used_bit L b') by done. destruct (decide (b / 32 = b' / 32)) as [Hw|Hw].
    + rewrite Hsame, bool_decide_eq_false_2 by done. destruct v; [by rewrite orb_false_r|by rewrite andb_true_r].
    + unfold set_bit. rewrite lput32_other; [done|]. unfold bword. lia.
Qed.

(** The data blocks: after the superblock and the bitmap. *)
Definition first_data (L : Z -> Z) : Z := 2 + (nb L + BLKBITSIZE - 1) / BLKBITSIZE.

Lemma bword_meta b v L : disk_ok L -> 0 <= b < nb L -> nb (lput32 (bword b) v L) = nb L.
Proof.
  intros HL Hb. apply lput32_other. right. unfold bword, BITMAP, s_nblocks, SUPER. change BLKSIZE with 4096. lia.
Qed.

Lemma set_bit_ok v b L : disk_ok L -> 0 <= b < nb L -> v = false \/ first_data L <= b ->
  disk_ok (set_bit v b L) /\ nb (set_bit v b L) = nb L.
Proof.
  intros HL Hb Hv. assert (nb (set_bit v b L) = nb L) as Hn by (by apply bword_meta). split; [|done].
  pose proof HL as [H1 H2 [H3 H4] H5].
  assert (forall i, 0 <= i -> i < first_data L -> used L i -> used (set_bit v b L) i) as Hk.
  { intros i Hi Hf Hu. apply set_bit_used; [done|lia|done|]. destruct (decide (b = i)) as [->|]; [|done]. destruct Hv; [done|lia]. }
  assert (2 < first_data L) as Hfd by (unfold first_data; change BLKBITSIZE with 32768; lia).
  split.
  - intros va. by apply lput32_byte.
  - by rewrite Hn.
  - split; apply Hk; done || lia.
  - intros i Hi Hlt. rewrite Hn in *. destruct (H5 i Hi Hlt) as [H6 H7]. split; [done|].
    apply Hk; [lia| |done]. unfold first_data. change BLKBITSIZE with 32768 in *. lia.
Qed.

Lemma bword_access L b : disk_ok L -> 0 <= b < nb L -> accessible L (bword b) /\ bword b mod 4 = 0 /\ within (bword b) 4.
Proof.
  intros HL Hb. pose proof (do_nb _ HL) as Hn. destruct (bitmap_addr b) as (A1 & A2 & A3); [lia|].
  destruct (bmblk_ok L HL b Hb) as (B1 & B2 & _). fold (bword b) in *. split; [split; [done|by rewrite A2]|]. split; [done|split; [lia|]].
  unfold bword, BITMAP in *. change BLKSIZE with 4096 in *. unfold DISKMAP in *. lia.
Qed.

(** The two ways the code writes the bitmap. *)
Lemma store_bit v b L s : bc_ok L s -> 0 <= b < nb L -> v = false \/ first_data L <= b ->
  exists s', fstore32 (bword b) ((if v then Z.lor else Z.ldiff) (lword L (bword b)) (Z.shiftl 1 (b mod 32))) s = Ret tt s'
    /\ bc_ok (set_bit v b L) s'.
Proof.
  intros HB Hb Hv. destruct (bword_access L b (bo_disk _ _ HB) Hb) as (A1 & A2 & A3).
  destruct (set_bit_ok v b L (bo_disk _ _ HB) Hb Hv) as [H1 H2]. by apply fstore32_ok.
Qed.

Lemma xor_clears w i : 0 <= i -> Z.testbit w i = true -> Z.lxor w (Z.shiftl 1 i) = Z.ldiff w (Z.shiftl 1 i).
Proof.
  intros Hi Hw. apply Z.bits_inj'. intros j Hj. rewrite Z.lxor_spec, Z.ldiff_spec, Z.shiftl_1_l, Z.pow2_bits_eqb by done.
  destruct (Z.eqb_spec i j) as [<-|]; [by rewrite Hw|]. by destruct (Z.testbit w j).
Qed.

Lemma shift_u32 b : u32 (Z.shiftl 1 (b mod 32)) = Z.shiftl 1 (b mod 32).
Proof.
  apply u32_small. unfold is_u32. rewrite Z.shiftl_1_l. split; [lia|]. apply Z.pow_lt_mono_r; lia.
Qed.

(** * Allocation *)

(** What [alloc_block] may do: the lowest free block is taken, or the disk is
    full. *)
Inductive alloc_blk_spec (L : Z -> Z) (s : fsstate) : outcome fsstate Z -> Prop :=
| alloc_blk_full s' : (forall b, 0 <= b < nb L -> used L b) -> bc_ok L s' ->
    alloc_blk_spec L s (Ret (- E_NO_DISK) s')
| alloc_blk_ok b s' : 0 <= b < nb L -> ~ used L b -> (forall b', 0 <= b' < b -> used L b') ->
    bc_ok (set_bit false b L) s' -> flushed (set_bit false b L) s' 2 ->
    alloc_blk_spec L s (Ret b s').

Lemma block_is_free_top L s b : bc_ok L s -> 0 <= b < nb L ->
  exists s', block_is_free b s = Ret (negb (bool_decide (used L b))) s' /\ bc_ok L s'.
Proof.
  intros [HL HC] Hb. destruct (bmblk_ok L HL b Hb) as (B1 & B2 & _).
  destruct (block_is_free_ok L HL (fault FAULTS) b s HC Hb) as (s' & E & HC' & _).
  - right. by apply (fault_ok L HL 1).
  - exists s'. split; [|done]. unfold block_is_free. rewrite E. f_equal. fold (bword b). unfold used. fold (bword b).
    case_bool_decide as Hu; [by rewrite Hu|by destruct (flag _ _)].
Qed.

Lemma alloc_block_loop k : forall b L s, bc_ok L s -> 0 <= b <= nb L -> nb L - b < Z.of_nat k ->
  (forall b', 0 <= b' < b -> used L b') -> alloc_blk_spec L s (alloc_block_from k b s).
Proof.
  induction k as [|k IH]; intros b L s HB Hb Hk Hlow; [lia|]. cbn [alloc_block_from].
  rewrite (bind_ret _ _ _ _ _ (nblocks_ok L s HB)).
  destruct (Z.leb_spec (nb L) b) as [Hle|Hlt].
  { apply alloc_blk_full; [|done]. intros b' Hb'. apply Hlow. lia. }
  destruct (block_is_free_top L s b HB) as (s1 & E1 & HB1); [lia|]. rewrite (bind_ret _ _ _ _ _ E1).
  case_bool_decide as Hu; cbn [negb].
  { destruct (IH (b + 1) L s1 HB1) as [s' H1 H2|b' s' H1 H2 H3 H4 H5]; try lia.
    - intros b' Hb'. destruct (decide (b' = b)) as [->|]; [done|]. apply Hlow. lia.
    - by apply alloc_blk_full.
    - by apply alloc_blk_ok. }
  destruct (bword_access L b (bo_disk _ _ HB1)) as (A1 & A2 & A3); [lia|]. fold (bword b).
  destruct (fload32_ok L (bo_disk _ _ HB1) (bword b) s1 (bo_cache _ _ HB1) A1 A2) as (s2 & E2 & HC2).
  rewrite (bind_ret _ _ _ _ _ E2), shift_u32, xor_clears.
  2:{ lia. }
  2:{ rewrite used_bit in Hu by lia. by destruct (Z.testbit _ _). }
  destruct (store_bit false b L s2) as (s3 & E3 & HB3); [by split; [apply HB|]|lia|by left|].
  cbn [negb] in E3. rewrite (bind_ret _ _ _ _ _ E3).
  destruct (set_bit_ok false b L (bo_disk _ _ HB)) as [HL' Hn']; [lia|by left|].
  destruct (flush_block_at (set_bit false b L) s3 2 HB3) as (s4 & E4 & HB4 & Hf4 & _); [pose proof (do_nb _ HL'); lia|].
  change (baddr 2) with BITMAP in E4. rewrite (bind_ret _ _ _ _ _ E4). apply alloc_blk_ok; done || lia.
Qed.

Lemma alloc_block_refines L s : bc_ok L s -> alloc_blk_spec L s (alloc_block s).
Proof.
  intros HB. unfold alloc_block. rewrite (bind_ret _ _ _ _ _ (nblocks_ok L s HB)).
  pose proof (do_nb _ (bo_disk _ _ HB)). apply alloc_block_loop; [done|lia|lia|lia].
Qed.

Lemma free_block_ok L s b : bc_ok L s -> first_data L <= b < nb L ->
  exists s', free_block b s = Ret tt s' /\ bc_ok (set_bit true b L) s'.
Proof.
  intros HB Hb. pose proof (do_nb _ (bo_disk _ _ HB)). 
  assert (2 < first_data L) as Hfd by (unfold first_data; change BLKBITSIZE with 32768; lia).
  unfold free_block. destruct (Z.eqb_spec b 0); [lia|]. fold (bword b).
  destruct (bword_access L b (bo_disk _ _ HB)) as (A1 & A2 & A3); [lia|].
  destruct (fload32_ok L (bo_disk _ _ HB) (bword b) s (bo_cache _ _ HB) A1 A2) as (s2 & E2 & HC2).
  rewrite (bind_ret _ _ _ _ _ E2), shift_u32.
  destruct (store_bit true b L s2) as (s3 & E3 & HB3); [by split; [apply HB|]|lia|right; lia|]. by exists s3.
Qed.
