(* ===== verification/FsInit.v ===== *)
(** fs/bc.c, fs/fs.c: starting the server. [fs_init] brings a server that has
    nothing in memory to the state the other theorems start from, and the test
    [check_bc] runs on the superblock leaves the disk as it was. *)

From stdpp Require Import base numbers list gmap strings.
From Stdlib Require Import ZArith Lia Bool.
From S2P Require Import Prelude Mmu Console Bc Fs BcSpec BitmapSpec.

Local Ltac Zify.zify_post_hook ::= Z.to_euclidean_division_equations.

(** * Before [super] is set *)

Record boot_ok (n : Z) (L : Z -> Z) (s : fsstate) : Prop := {
  bt_core : cache_core n L s;
  bt_super : super_set s = false;
  bt_bitmap : bitmap_set s = false
}.

Section Boot.
Context (n : Z) (Hn : 3 <= n <= DISKSIZE / BLKSIZE).

Lemma super_in i : 0 <= i < BLKSIZE -> in_cache (SUPER + i) /\ blk_of (SUPER + i) = 1.
Proof. change SUPER with (baddr 1). apply baddr_in. change (DISKSIZE / BLKSIZE) with 786432. lia. Qed.

Lemma super_within k : 0 < k <= BLKSIZE -> within SUPER k.
Proof. intros Hk. split; [lia|]. change ((SUPER - DISKMAP) mod BLKSIZE) with 0. lia. Qed.

Lemma boot_touch L s i : boot_ok n L s -> 0 <= i < BLKSIZE ->
  exists s', touch (SUPER + i) s = Ret tt s' /\ boot_ok n L s' /\ 1 ∈ fmapped s'.
Proof.
  intros [HC Hs Hb] Hi. destruct (super_in i Hi) as [Ha Hk]. unfold touch, touch_with.
  rewrite (bind_ret (gets _) _ _ (va_is_mapped (SUPER + i) s) s) by done. unfold va_is_mapped. rewrite Hk.
  case_bool_decide as Hm; [by exists s|]. change FAULTS with 4%nat. cbn [fault]. unfold bc_pgfault at 1.
  assert ((SUPER + i <? DISKMAP) || (DISKMAP + DISKSIZE <=? SUPER + i) = false) as ->.
  { destruct Ha as [H1 H2]. by rewrite (proj2 (Z.ltb_ge _ _) H1), (proj2 (Z.leb_gt _ _) H2). }
  rewrite (bind_ret (gets super_set) _ _ false s) by (unfold gets; by rewrite Hs). rewrite (bind_ret _ _ s tt s) by done.
  destruct (blk_of_split _ Ha) as (o & _ & _ & _ & Hrd). rewrite Hk in Hrd. cbv zeta. rewrite Hrd.
  change (DISKMAP + 1 * BLKSIZE) with (baddr 1). change (u32 (SUPER + i - DISKMAP) / BLKSIZE) with (blk_of (SUPER + i)). rewrite Hk.
  destruct (page_in n L s 1) as (s1 & s2 & s3 & E1 & E2 & E3 & HC3 & Hm3 & [F1 F2] & _); [apply Hn|done|lia|done|].
  rewrite (bind_ret _ _ _ _ _ E1). change (0 <? 0) with false. cbv iota. change (u32 (1 * BLKSECTS)) with (1 * BLKSECTS).
  rewrite (bind_ret _ _ _ _ _ E2). change (0 <? 0) with false. cbv iota.
  rewrite (bind_ret _ _ _ _ _ E3). change (0 <? 0) with false. cbv iota.
  rewrite (bind_ret (gets bitmap_set) _ _ false s3) by (unfold gets; by rewrite F2, Hb).
  exists s3. split; [done|]. split; [split; [done|congruence|congruence]|]. set_solver.
Qed.

Lemma boot_view L s va : boot_ok n L s -> in_cache va -> blk_of va = 1 -> 1 ∈ fmapped s -> mget 0 (fmem s) va = L va.
Proof. intros [HC _ _] Ha Hb Hm. rewrite <- (co_view _ _ _ HC) by done. unfold lview. by rewrite Hb, bool_decide_eq_true_2. Qed.

Lemma boot_read L s k : boot_ok n L s -> 0 < k <= BLKSIZE ->
  exists s', fread SUPER k s = Ret ((fun i => L (SUPER + i)) <$> seqZ 0 k) s' /\ boot_ok n L s' /\ 1 ∈ fmapped s'.
Proof.
  intros HB Hk. rewrite fread_one by (by apply super_within || lia).
  destruct (boot_touch L s 0 HB) as (s' & E & HB' & Hm); [lia|]. rewrite Z.add_0_r in E. rewrite (bind_ret _ _ _ _ _ E).
  exists s'. split; [|done]. unfold gets, bind, ret. f_equal. rewrite app_nil_r. apply list_fmap_ext. intros i x Hx. apply lookup_seqZ in Hx as [-> Hi].
  destruct (super_in (0 + Z.of_nat i)) as [Ha Hb]; [lia|]. by apply boot_view.
Qed.

Lemma boot_write L s bs : boot_ok n L s -> 0 < Z.of_nat (length bs) <= BLKSIZE ->
  exists s', fwrite SUPER bs s = Ret tt s' /\ boot_ok n (lput SUPER bs L) s' /\ 1 ∈ fmapped s'.
Proof.
  intros HB Hk. destruct (boot_touch L s 0 HB) as (s' & E & [HC' Hs' Hb'] & Hm); [lia|]. rewrite Z.add_0_r in E.
  destruct bs as [|b bs]; [cbn in Hk; lia|]. rewrite fwrite_one, (bind_ret _ _ _ _ _ E) by (by apply super_within). eexists. split; [reflexivity|].
  split; [|done]. split; [|done|done].
  destruct (super_in 0) as [Ha Hbk]; [change BLKSIZE with 4096; lia|]. rewrite Z.add_0_r in Ha, Hbk.
  pose proof (poke_ok n L s' SUPER (Z.of_nat (length (b :: bs))) (fun i => u8 (nth (Z.to_nat i) (b :: bs) 0)) HC' Ha) as HP.
  rewrite Nat2Z.id in HP. apply HP; [by apply super_within|by rewrite Hbk].
Qed.

Lemma boot_flush L s i : boot_ok n L s -> 0 <= i < BLKSIZE ->
  exists s', flush_block (SUPER + i) s = Ret tt s' /\ boot_ok n L s' /\ fmapped s' = fmapped s /\ flushed L s' 1 /\ 1 ∉ fdirty s'.
Proof.
  intros [HC Hs Hb] Hi. destruct (super_in i Hi) as [Ha Hk].
  destruct (flush_core n L s _ HC Ha) as (s' & E & HC' & Hf & _ & [F1 F2] & Hm & Hd). rewrite Hk in Hf, Hd.
  exists s'. split; [done|]. split; [split; [done|congruence|congruence]|done].
Qed.

Lemma boot_unmap L s : boot_ok n L s -> 1 ∈ fmapped s -> flushed L s 1 ->
  exists s', page_unmap_at SUPER s = Ret tt s' /\ boot_ok n L s' /\ 1 ∉ fmapped s'.
Proof.
  intros [[C1 C2 C3 C4 C5 C6] Hs Hb] Hm Hf. unfold page_unmap_at. change (blk_of SUPER) with 1.
  rewrite bool_decide_eq_true_2 by done. eexists. split; [reflexivity|]. split; [|cbn; set_solver]. split; [|done|done].
  split; cbn [fmapped fdirty fmem fdisk fpages fbad set_fmapped].
  - intros va Hva. unfold lview. cbn [fmapped fmem fdisk set_fmapped]. destruct (decide (blk_of va = 1)) as [E|E].
    + rewrite bool_decide_eq_false_2 by (rewrite E; set_solver). by apply Hf.
    + rewrite <- C1 by done. unfold lview. by rewrite (bool_decide_ext (blk_of va ∈ fmapped s ∖ {[1]}) (blk_of va ∈ fmapped s)) by set_solver.
  - intros va Hva Hin Hnd. apply C2; [done|set_solver|set_solver].
  - set_solver.
  - intros b Hin. apply C4. set_solver.
  - rewrite size_difference by set_solver. rewrite size_singleton.
    assert (size (fmapped s) <> 0)%nat by (rewrite size_non_empty_iff; set_solver). lia.
  - done.
Qed.

Lemma boot_streq L : forall name s i, boot_ok n L s -> 0 <= i -> i + Z.of_nat (length name) < BLKSIZE ->
  (forall j, 0 <= j < Z.of_nat (length name) -> L (SUPER + i + j) = nth (Z.to_nat j) name 0) ->
  L (SUPER + i + Z.of_nat (length name)) = 0 ->
  exists s', fstreq (SUPER + i) name s = Ret true s' /\ boot_ok n L s'.
Proof.
  assert (forall s i, boot_ok n L s -> 0 <= i < BLKSIZE -> exists s', fload8 (SUPER + i) s = Ret (L (SUPER + i)) s' /\ boot_ok n L s') as Hl.
  { intros s i HB Hi. destruct (boot_touch L s i HB Hi) as (s' & E & HB' & Hm). exists s'. split; [|done].
    unfold fload8. rewrite (bind_ret _ _ _ _ _ E). unfold gets. f_equal. destruct (super_in i Hi). by apply boot_view. }
  induction name as [|c name IH]; intros s i HB Hi Hlen Heq Hend; cbn [fstreq length] in *;
    destruct (Hl s i HB) as (s1 & E1 & HB1); try lia; rewrite (bind_ret _ _ _ _ _ E1).
  - rewrite Z.add_0_r in Hend. rewrite Hend. by exists s1.
  - pose proof (Heq 0 ltac:(lia)) as H0. rewrite Z.add_0_r in H0. cbn in H0. rewrite H0, Z.eqb_refl.
    replace (SUPER + i + 1) with (SUPER + (i + 1)) by lia. apply IH; try done; try lia.
    + intros j Hj. replace (SUPER + (i + 1) + j) with (SUPER + i + (j + 1)) by lia. rewrite Heq by lia.
      replace (Z.to_nat (j + 1)) with (S (Z.to_nat j)) by lia. done.
    + rewrite <- Hend. f_equal. lia.
Qed.
End Boot.

(** * The self test *)

(** Putting back bytes that were read undoes a shorter store at the same
    place. *)
Lemma lput_back L bs k : (forall va, 0 <= L va < 2 ^ 8) -> Z.of_nat (length bs) <= k ->
  pointwise_relation Z eq (lput SUPER ((fun i => L (SUPER + i)) <$> seqZ 0 k) (lput SUPER bs L)) L.
Proof.
  intros HL Hk va. unfold lput at 1, lcopy. rewrite length_fmap, length_seqZ. case_bool_decide as Hin.
  - rewrite (nth_lookup_Some _ _ 0 (L va)); [unfold u8; by rewrite Z.mod_small|].
    rewrite list_lookup_fmap, (lookup_seqZ_lt 0 k) by lia. cbn. do 2 f_equal. lia.
  - unfold lput, lcopy. rewrite bool_decide_eq_false_2; [done|lia].
Qed.

Lemma boot_diskaddr n L s : boot_ok n L s -> diskaddr 1 s = Ret SUPER s.
Proof.
  intros HB. unfold diskaddr. change (1 =? 0) with false. cbv iota.
  by rewrite (bind_ret (gets super_set) _ _ false s) by (unfold gets; by rewrite (bt_super _ _ _ HB)).
Qed.

Lemma check_bc_round_ok n L s off chk : 3 <= n <= DISKSIZE / BLKSIZE -> (forall va, 0 <= L va < 2 ^ 8) ->
  boot_ok n L s -> 0 <= off < BLKSIZE ->
  exists s', check_bc_round off chk s = Ret tt s' /\ boot_ok n L s' /\ 1 ∈ fmapped s'.
Proof.
  intros Hn Hby HB Hoff. unfold check_bc_round. rewrite (bind_ret _ _ _ _ _ (boot_diskaddr n L s HB)).
  change sizeof_Super with 264.
  destruct (boot_read n Hn L s 264 HB) as (s1 & E1 & HB1 & _); [by change BLKSIZE with 4096|].
  rewrite (bind_ret _ _ _ _ _ E1). set (backup := (fun i => L (SUPER + i)) <$> seqZ 0 264).
  unfold fstrcpy. set (msg := oops ++ [0]).
  destruct (boot_write n Hn L s1 msg HB1) as (s2 & E2 & HB2 & Hm2); [change BLKSIZE with 4096; cbn; lia|].
  rewrite (bind_ret _ _ _ _ _ E2).
  destruct (boot_flush n (lput SUPER msg L) s2 off HB2 Hoff) as (s3 & E3 & HB3 & Hm3 & Hf3 & Hd3).
  rewrite (bind_ret _ _ _ _ _ E3). rewrite <- Hm3 in Hm2.
  rewrite (bind_ret (gets _) _ _ true s3) by (unfold gets, va_is_mapped; change (blk_of SUPER) with 1; by rewrite bool_decide_eq_true_2).
  rewrite (bind_ret _ _ s3 tt s3) by done.
  rewrite (bind_ret (gets _) _ _ false s3) by (unfold gets, va_is_dirty; change (blk_of SUPER) with 1; by rewrite bool_decide_eq_false_2).
  rewrite (bind_ret _ _ s3 tt s3) by (by destruct chk).
  destruct (boot_unmap n Hn _ s3 HB3 Hm2 Hf3) as (s4 & E4 & HB4 & Hm4). rewrite (bind_ret _ _ _ _ _ E4).
  rewrite (bind_ret (gets _) _ _ false s4) by (unfold gets, va_is_mapped; change (blk_of SUPER) with 1; by rewrite bool_decide_eq_false_2).
  rewrite (bind_ret _ _ s4 tt s4) by done.
  destruct (boot_streq n Hn (lput SUPER msg L) oops s4 0 HB4) as (s5 & E5 & HB5); [lia|by cbn| | |].
  { intros j Hj. rewrite Z.add_0_r, lput_get by (cbn in *; lia).
    assert (forallb (fun j => u8 (nth (Z.to_nat j) msg 0) =? nth (Z.to_nat j) oops 0) (seqZ 0 6) = true) as Hc by (vm_compute; reflexivity).
    rewrite forallb_forall in Hc. apply Z.eqb_eq, Hc, list_elem_of_In, elem_of_seqZ. cbn in Hj. lia. }
  { rewrite Z.add_0_r, lput_get by (cbn; lia). done. }
  rewrite Z.add_0_r in E5. rewrite (bind_ret _ _ _ _ _ E5), (bind_ret _ _ s5 tt s5) by done.
  destruct (boot_write n Hn _ s5 backup HB5) as (s6 & E6 & HB6 & Hm6).
  { unfold backup. rewrite length_fmap, length_seqZ. change BLKSIZE with 4096. lia. }
  rewrite (bind_ret _ _ _ _ _ E6).
  destruct (boot_flush n _ s6 0 HB6) as (s7 & E7 & HB7 & Hm7 & _); [change BLKSIZE with 4096; lia|].
  rewrite Z.add_0_r in E7. exists s7. split; [done|]. split; [|by rewrite Hm7].
  destruct HB7 as [HC7 Hs7 Hb7]. split; [|done|done].
  apply (cache_core_proper n _ eq_refl _ L (lput_back L msg 264 Hby ltac:(cbn; lia)) s7 _ eq_refl). exact HC7.
Qed.

Lemma bc_init_ok n L s : 3 <= n <= DISKSIZE / BLKSIZE -> (forall va, 0 <= L va < 2 ^ 8) -> boot_ok n L s ->
  exists s', bc_init s = Ret tt s' /\ boot_ok n L s' /\ 1 ∈ fmapped s'.
Proof.
  intros Hn Hby HB. unfold bc_init, check_bc.
  destruct (check_bc_round_ok n L s 0 true Hn Hby HB) as (s1 & E1 & HB1 & _); [by change BLKSIZE with 4096|].
  destruct (check_bc_round_ok n L s1 20 false Hn Hby HB1) as (s2 & E2 & HB2 & _); [by change BLKSIZE with 4096|].
  rewrite (bind_ret _ _ s tt s2) by (by rewrite (bind_ret _ _ _ _ _ E1)).
  rewrite (bind_ret _ _ _ _ _ (boot_diskaddr n L s2 HB2)).
  destruct (boot_read n Hn L s2 264 HB2) as (s3 & E3 & HB3 & Hm3); [by change BLKSIZE with 4096|].
  change sizeof_Super with 264. rewrite (bind_ret _ _ _ _ _ E3). by exists s3.
Qed.

(** * The bitmap check *)

Lemma check_bitmap_blocks_ok L fuel : forall i s, bc_ok L s -> 0 <= i -> i * BLKBITSIZE < nb L + BLKBITSIZE ->
  exists s', check_bitmap_blocks fuel i s = Ret tt s' /\ bc_ok L s'.
Proof.
  induction fuel as [|fuel IH]; intros i s HB Hi Hf; [by exists s|]. cbn [check_bitmap_blocks].
  pose proof (bo_disk _ _ HB) as HL. pose proof (do_nb _ HL) as Hn. change (DISKSIZE / BLKSIZE) with 786432 in Hn.
  rewrite (bind_ret _ _ _ _ _ (nblocks_ok L s HB)).
  rewrite u32_small by (unfold is_u32; change BLKBITSIZE with 32768 in *; lia).
  destruct (Z.ltb_spec (i * BLKBITSIZE) (nb L)) as [Hlt|Hge]; [|by exists s].
  destruct (do_bitmap _ HL i Hi Hlt) as [Hr Hu].
  destruct (block_is_free_top L s (2 + i) HB) as (s1 & E1 & HB1); [lia|]. rewrite (bind_ret _ _ _ _ _ E1).
  rewrite bool_decide_eq_true_2 by done. cbn [negb]. rewrite (bind_ret _ _ s1 tt s1) by done. apply IH; [done|lia|lia].
Qed.

Lemma check_bitmap_ok L s : bc_ok L s -> exists s', check_bitmap s = Ret tt s' /\ bc_ok L s'.
Proof.
  intros HB. pose proof (bo_disk _ _ HB) as HL. destruct (do_reserved _ HL) as [U0 U1]. pose proof (do_nb _ HL) as Hn.
  unfold check_bitmap. rewrite (bind_ret _ _ _ _ _ (nblocks_ok L s HB)).
  destruct (check_bitmap_blocks_ok L (S (Z.to_nat (nb L / BLKBITSIZE))) 0 s HB) as (s1 & E1 & HB1); [lia|change BLKBITSIZE with 32768; lia|].
  rewrite (bind_ret _ _ _ _ _ E1).
  destruct (block_is_free_top L s1 0 HB1) as (s2 & E2 & HB2); [lia|]. rewrite (bind_ret _ _ _ _ _ E2).
  rewrite bool_decide_eq_true_2 by done. rewrite (bind_ret _ _ s2 tt s2) by done.
  destruct (block_is_free_top L s2 1 HB2) as (s3 & E3 & HB3); [lia|]. rewrite (bind_ret _ _ _ _ _ E3).
  rewrite bool_decide_eq_true_2 by done. by exists s3.
Qed.

(** * Initialisation *)

Lemma fs_init_ok L s : disk_ok L -> lword L (s_magic SUPER) = FS_MAGIC -> boot_ok (nb L) L s ->
  exists s', fs_init s = Ret tt s' /\ bc_ok L s'.
Proof.
  intros HL Hmagic HB. pose proof (do_nb _ HL) as Hn. pose proof Hn as Hn'. change (DISKSIZE / BLKSIZE) with 786432 in Hn'.
  destruct (bc_init_ok (nb L) L s Hn (do_byte _ HL) HB) as (s1 & E1 & HB1 & Hm1). unfold fs_init.
  rewrite (bind_ret _ _ _ _ _ E1), (bind_ret _ _ _ _ _ (boot_diskaddr _ L s1 HB1)).
  rewrite (bind_ret (modify set_super) _ _ tt (set_super s1)) by done. destruct HB1 as [HC1 Hs1 Hb1].
  assert (cache_core (nb L) L (set_super s1)) as HC2 by (by destruct HC1).
  destruct super_addr as (A1 & A2 & A3).
  assert (fload32 (s_nblocks SUPER) (set_super s1) = Ret (nb L) (set_super s1)) as En.
  { apply (load32_mapped _ L _ _ _ HC2); [done|done|by rewrite A2]. }
  assert (fload32 (s_magic SUPER) (set_super s1) = Ret FS_MAGIC (set_super s1)) as Em.
  { rewrite <- Hmagic. destruct (super_in 0) as [B1 B2]; [by change BLKSIZE with 4096|]. rewrite Z.add_0_r in B1, B2.
    apply (load32_mapped _ L _ _ _ HC2); [done|done|]. by change (s_magic SUPER) with SUPER; rewrite B2. }
  rewrite (bind_ret _ _ (set_super s1) tt (set_super s1)).
  2:{ unfold check_super. rewrite (bind_ret _ _ _ _ _ Em), Z.eqb_refl. cbn [negb]. rewrite (bind_ret _ _ _ _ _ En).
      by rewrite (proj2 (Z.ltb_ge _ _)) by lia. }
  rewrite (bind_ret _ _ (set_super s1) BITMAP (set_super s1)).
  2:{ unfold diskaddr. change (2 =? 0) with false. cbv iota. rewrite (bind_ret (gets super_set) _ _ true (set_super s1)) by done.
      rewrite (bind_ret _ _ _ _ _ En). by rewrite (proj2 (Z.leb_gt _ _)) by lia. }
  rewrite (bind_ret (modify set_bitmap) _ _ tt (set_bitmap (set_super s1))) by done. apply check_bitmap_ok.
  split; [done|]. split; [by destruct HC2|done].
Qed.
