(* ===== verification/FileSpec.v ===== *)
(** fs/fs.c: a file as an array of bytes. [file_get_block] never changes the
    contents of a file, [file_read] returns them and [file_write] changes
    exactly the bytes it is asked to, whatever is cached and whatever blocks
    have to be allocated on the way. *)

From stdpp Require Import base numbers list gmap strings.
From Stdlib Require Import ZArith Lia Bool.
From S2P Require Import Prelude Mmu Console Bc Fs BcSpec BitmapSpec.

Local Ltac Zify.zify_post_hook ::= Z.to_euclidean_division_equations.

(** * Growing a file by a block *)

(** An address that holds neither the size of the disk nor the bitmap. *)
Definition safe (L : Z -> Z) (va : Z) : Prop :=
  accessible L va /\ ((blk_of va = 1 /\ SUPER + 8 <= va) \/ first_data L <= blk_of va).

Lemma safe_in L va : safe L va -> in_cache va.
Proof. by intros [[? _] _]. Qed.

Lemma within4 va : in_cache va -> va mod 4 = 0 -> within va 4.
Proof. intros Hc Ha. split; [lia|]. unfold DISKMAP. change BLKSIZE with 4096. lia. Qed.

Lemma first_data_min L : disk_ok L -> 2 < first_data L.
Proof. intros HL. pose proof (do_nb _ HL). unfold first_data. change BLKBITSIZE with 32768. lia. Qed.

(** A store at a safe address keeps the superblock and the bitmap. *)
Lemma safe_meta L va len f : disk_ok L -> safe L va -> within va len -> same_meta L (lcopy va len f L).
Proof.
  intros HL [(Hc & Hb & Hu) Hs] Hw. pose proof (do_nb _ HL) as Hn.
  assert (forall k, in_cache k -> (blk_of k = 1 /\ k < SUPER + 8) \/ 2 <= blk_of k < first_data L -> lcopy va len f L k = L k) as Hk.
  { intros k Hkc Hm. unfold lcopy. rewrite bool_decide_eq_false_2; [done|]. intros Hr.
    pose proof (within_blk va len k Hc Hw Hkc Hr) as Eb. pose proof (first_data_min L HL). lia. }
  split.
  - apply lword_ext. intros i Hi. apply Hk; [|left].
    + unfold in_cache, s_nblocks, SUPER, DISKMAP, DISKSIZE. change BLKSIZE with 4096. lia.
    + rewrite blk_of_cache; unfold in_cache, s_nblocks, SUPER, DISKMAP, DISKSIZE; change BLKSIZE with 4096; lia.
  - intros b Hb'. apply lword_ext. intros i Hi. change (DISKSIZE / BLKSIZE) with 786432 in Hn.
    assert (in_cache (BITMAP + 4 * (b / 32) + i)) as Hkc.
    { unfold in_cache, BITMAP, DISKMAP, DISKSIZE. change BLKSIZE with 4096. lia. }
    apply Hk; [done|right]. rewrite blk_of_cache by done. unfold first_data, BITMAP, DISKMAP.
    change BLKBITSIZE with 32768. change BLKSIZE with 4096. lia.
Qed.

Lemma safe_same L L' va : same_meta L L' -> safe L va -> safe L' va.
Proof.
  intros Hm [(Hc & Hb & Hu) Hs]. pose proof Hm as [Hn _]. split.
  - split; [done|]. split; [by rewrite Hn|]. by apply (used_meta L L').
  - unfold first_data in *. by rewrite Hn.
Qed.

(** The disk after the free block [b] has been taken for the slot [sl]. *)
Definition grown (sl b : Z) (L : Z -> Z) : Z -> Z :=
  lcopy (baddr b) BLKSIZE (fun _ => u8 0) (lput32 sl b (set_bit false b L)).

(** Bitmap blocks are the blocks from 2 up to the data. *)
Lemma set_bit_at v b L k : disk_ok L -> 0 <= b < nb L -> in_cache k -> blk_of k < 2 \/ first_data L <= blk_of k ->
  set_bit v b L k = L k.
Proof.
  intros HL Hb Hk Hm. pose proof (do_nb _ HL) as Hn. unfold set_bit, lput32, lcopy. rewrite bool_decide_eq_false_2; [done|].
  intros Hr. rewrite blk_of_cache in Hm by done. destruct Hk. unfold bword, BITMAP, first_data, DISKMAP in *.
  change (DISKSIZE / BLKSIZE) with 786432 in Hn. change BLKBITSIZE with 32768 in *. change BLKSIZE with 4096 in *. lia.
Qed.

Lemma free_is_data L b : disk_ok L -> 0 <= b < nb L -> ~ used L b -> first_data L <= b.
Proof.
  intros [_ Hn [H0 H1] Hbm] Hb Hu. destruct (Z.le_gt_cases (first_data L) b) as [|Hlt]; [done|]. destruct Hu.
  destruct (decide (b = 0)) as [->|]; [done|]. destruct (decide (b = 1)) as [->|]; [done|].
  replace b with (2 + (b - 2)) by lia. apply Hbm; [lia|]. unfold first_data in Hlt. change BLKBITSIZE with 32768 in *. lia.
Qed.

Section Grown.
Context (L : Z -> Z) (HL : disk_ok L) (sl b : Z).
Context (Hsl : safe L sl) (Hal : sl mod 4 = 0) (Hb : 0 <= b < nb L) (Hfree : ~ used L b).

Lemma grown_range : first_data L <= b /\ 0 <= b < DISKSIZE / BLKSIZE /\ blk_of sl <> b.
Proof.
  pose proof (do_nb _ HL). split; [by apply free_is_data|]. split; [lia|].
  intros E. destruct Hsl as [(_ & _ & Hu) _]. by rewrite E in Hu.
Qed.

Lemma grown_steps :
  let L1 := set_bit false b L in let L2 := lput32 sl b L1 in
  disk_ok L1 /\ nb L1 = nb L /\ safe L1 sl /\ disk_ok L2 /\ nb L2 = nb L
  /\ accessible L2 (baddr b) /\ data_addr L2 (baddr b) /\ disk_ok (grown sl b L) /\ nb (grown sl b L) = nb L
  /\ (forall b', 0 <= b' < nb L -> used (grown sl b L) b' <-> used L b' \/ b' = b).
Proof.
  intros L1 L2. destruct grown_range as (Hd & Hr & Hne). destruct (set_bit_ok false b L HL Hb) as [HL1 Hn1]; [by left|].
  fold L1 in HL1, Hn1.
  assert (forall b', 0 <= b' < nb L -> used L1 b' <-> used L b' \/ b' = b) as Hu1.
  { intros b' Hb'. unfold L1. rewrite set_bit_used by (done || lia). destruct (decide (b = b')) as [->|]; [by split; auto|].
    split; [by left|intros [|]; [done|congruence]]. }
  assert (safe L1 sl) as Hs1.
  { destruct Hsl as [(Hc & Hbs & Hus) Hsa]. split.
    - split; [done|]. rewrite Hn1. split; [done|]. apply Hu1; [done|by left].
    - unfold first_data in *. by rewrite Hn1. }
  pose proof (within4 sl (safe_in _ _ Hsl) Hal) as Hw.
  pose proof (safe_meta L1 sl 4 (fun i => u8 (Z.shiftr b (8 * i))) HL1 Hs1 Hw) as Hm2. fold (lput32 sl b L1) in Hm2. fold L2 in Hm2.
  assert (disk_ok L2) as HL2 by (apply (same_meta_ok L1); [intros; by apply lput32_byte|done|done]).
  assert (nb L2 = nb L) as Hn2 by (by rewrite (proj1 Hm2)).
  destruct (baddr_blk b Hr) as [Hc Hbb].
  assert (accessible L2 (baddr b)) as Ha2.
  { split; [done|]. rewrite Hbb, Hn2. split; [done|]. apply (used_meta L1 L2); [done|by rewrite Hn1|]. apply Hu1; [done|by right]. }
  assert (data_addr L2 (baddr b)) as Hd2.
  { split; [done|]. rewrite Hbb, Hn2. exact Hd. }
  pose proof (data_meta L2 (baddr b) BLKSIZE (fun _ => u8 0) HL2 Hd2) as Hm3.
  change (same_meta L2 (grown sl b L)) in Hm3.
  split_and!; try done.
  - apply (lcopy_data L2 (baddr b) BLKSIZE (fun _ => u8 0)); auto using u8_range.
  - by rewrite (proj1 Hm3).
  - intros b' Hb'. rewrite (used_meta L2 (grown sl b L)) by (done || by rewrite Hn2).
    rewrite (used_meta L1 L2) by (done || by rewrite Hn1). by apply Hu1.
Qed.

(** What the new disk holds: zeros in the new block, its number in the slot,
    and everything else but the bitmap as it was. *)
Lemma grown_same k : in_cache k -> blk_of k < 2 \/ first_data L <= blk_of k -> blk_of k <> b -> ~ (sl <= k < sl + 4) ->
  grown sl b L k = L k.
Proof.
  intros Hk Hm Hkb Hks. unfold grown. unfold lcopy at 1.
  rewrite bool_decide_eq_false_2 by (intros Hr; apply Hkb; by apply in_block).
  unfold lput32, lcopy. rewrite bool_decide_eq_false_2 by done. by apply set_bit_at.
Qed.

Lemma grown_zero k : in_cache k -> blk_of k = b -> grown sl b L k = 0.
Proof.
  intros Hk Hkb. unfold grown, lcopy at 1. rewrite bool_decide_eq_true_2; [done|]. by apply in_block.
Qed.

Lemma grown_slot : lword (grown sl b L) sl = b.
Proof.
  destruct grown_range as (Hd & Hr & Hne). pose proof (do_nb _ HL) as Hn. change (DISKSIZE / BLKSIZE) with 786432 in Hn.
  rewrite (lword_ext (lput32 sl b (set_bit false b L))).
  - apply lput32_get. unfold is_u32. lia.
  - intros i Hi. unfold grown, lcopy at 1. rewrite bool_decide_eq_false_2; [done|].
    intros Hbi. assert (in_cache (sl + i)) as Hci.
    { destruct (baddr_in b (sl + i - baddr b) Hr) as [Hx _]; [lia|]. by replace (baddr b + (sl + i - baddr b)) with (sl + i) in Hx by lia. }
    apply in_block in Hbi; [|done]. apply Hne.
    rewrite <- Hbi. symmetry. apply (within_blk sl 4); [by apply (safe_in L)|by apply within4; [apply (safe_in L)|]|done|lia].
Qed.
End Grown.

(** The code that [file_block_walk] and [file_get_block] share. *)
Definition grow (sl : Z) : FS bool :=
  let! r := alloc_block in
  if r <? 0 then ret false
  else
    fstore32 sl r ;;!
    let! a := diskaddr r in
    fmemset a 0 BLKSIZE ;;!
    let! a := diskaddr r in
    flush_block a ;;!
    ret true.

Lemma grow_ok L s sl : bc_ok L s -> safe L sl -> sl mod 4 = 0 ->
  (exists s', grow sl s = Ret false s' /\ bc_ok L s' /\ forall b, 0 <= b < nb L -> used L b)
  \/ (exists b s', 0 <= b < nb L /\ ~ used L b /\ grow sl s = Ret true s' /\ bc_ok (grown sl b L) s').
Proof.
  intros HB Hsl Hal. unfold grow. pose proof (alloc_block_refines L s HB) as Hspec.
  remember (alloc_block s) as o eqn:E. symmetry in E.
  destruct Hspec as [s1 Hfull HB1|b s1 Hb Hu _ HB1 _]; rewrite (bind_ret _ _ _ _ _ E).
  - left. exists s1. done.
  - right. exists b. rewrite (proj2 (Z.ltb_ge _ _)) by lia.
    pose proof (bo_disk _ _ HB) as HL.
    destruct (grown_steps L HL sl b Hsl Hal Hb Hu) as (HL1 & Hn1 & Hs1 & HL2 & Hn2 & Ha2 & Hd2 & HL3 & Hn3 & _).
    destruct (grown_range L HL sl b Hsl Hb Hu) as (Hfd & Hr & _). pose proof (first_data_min L HL).
    destruct (fstore32_ok (set_bit false b L) s1 sl b HB1) as (s2 & E2 & HB2);
      [apply Hs1|by apply within4; [apply (safe_in L)|]|done|by rewrite Hn2|].
    rewrite (bind_ret _ _ _ _ _ E2).
    rewrite (bind_ret _ _ _ _ _ (diskaddr_ok _ s2 b HB2 ltac:(rewrite Hn2; lia))).
    destruct (fmemset_ok _ s2 (baddr b) 0 BLKSIZE HB2 Ha2) as (s3 & E3 & HB3); [|done|].
    { split; [change BLKSIZE with 4096; lia|]. unfold baddr. change BLKSIZE with 4096. lia. }
    rewrite (bind_ret _ _ _ _ _ E3). change (bc_ok (grown sl b L) s3) in HB3.
    rewrite (bind_ret _ _ _ _ _ (diskaddr_ok _ s3 b HB3 ltac:(rewrite Hn3; lia))).
    destruct (flush_block_at _ s3 b HB3) as (s4 & E4 & HB4 & _); [by rewrite Hn3|].
    rewrite (bind_ret _ _ _ _ _ E4). exists s4. done.
Qed.

(** * Files *)

(** The block numbers of a file: slot [n], 0 where no block is allocated. *)
Definition find (L : Z -> Z) (f : Z) : Z := lword L (f_indirect f).
Definition fslot (L : Z -> Z) (f n : Z) : Z :=
  if n <? NDIRECT then f_direct f + 4 * n else baddr (find L f) + 4 * (n - NDIRECT).
Definition fblk (L : Z -> Z) (f n : Z) : Z :=
  if (n <? NDIRECT) || negb (find L f =? 0) then lword L (fslot L f n) else 0.

(** The byte of the file at a position: a hole reads as zeros. *)
Definition fbyte (L : Z -> Z) (f pos : Z) : Z :=
  let b := fblk L f (pos / BLKSIZE) in
  if b =? 0 then 0 else L (baddr b + pos mod BLKSIZE).

Definition NBLOCKS : Z := NDIRECT + NINDIRECT.

(** The blocks a file consists of, apart from the one its structure is in. *)
Definition owns (L : Z -> Z) (f b : Z) : Prop :=
  b <> 0 /\ (b = find L f \/ exists n, 0 <= n < NBLOCKS /\ b = fblk L f n).

(** A file: its structure is at a proper place, and the blocks it consists of
    are data blocks in use, all different, and none holds the structure. *)
Record file_ok (L : Z -> Z) (f : Z) : Prop := {
  fo_safe : forall i, 0 <= i < sizeof_File -> safe L (f + i);
  fo_blk : forall i, 0 <= i < sizeof_File -> blk_of (f + i) = blk_of f;
  fo_align : f mod 4 = 0;
  fo_owned : forall b, owns L f b -> first_data L <= b < nb L /\ used L b /\ b <> blk_of f;
  fo_inj : forall n m, 0 <= n < NBLOCKS -> 0 <= m < NBLOCKS -> fblk L f n <> 0 -> fblk L f n = fblk L f m -> n = m;
  fo_ind : forall n, 0 <= n < NBLOCKS -> fblk L f n <> 0 -> fblk L f n <> find L f
}.

Section File.
Context (L : Z -> Z) (HL : disk_ok L) (f : Z) (HF : file_ok L f).

Lemma find_safe : safe L (f_indirect f) /\ f_indirect f mod 4 = 0 /\ blk_of (f_indirect f) = blk_of f.
Proof.
  destruct HF as [H1 H2 H3 _ _ _]. unfold f_indirect. change MAXNAMELEN with 128. change NDIRECT with 10.
  replace (f + 128 + 8 + 4 * 10) with (f + 176) by lia. change sizeof_File with 256 in *.
  split; [apply H1; lia|]. split; [lia|]. apply H2. lia.
Qed.

Lemma owned_range b : owns L f b -> 2 < b < DISKSIZE / BLKSIZE /\ b < nb L.
Proof.
  intros Ho. destruct (fo_owned _ _ HF b Ho) as (Hd & _). pose proof (first_data_min L HL). pose proof (do_nb _ HL). lia.
Qed.

(** Every address of an owned block may be accessed. *)
Lemma owned_safe b i : owns L f b -> 0 <= i < BLKSIZE -> safe L (baddr b + i) /\ blk_of (baddr b + i) = b.
Proof.
  intros Ho Hi. destruct (fo_owned _ _ HF b Ho) as (Hd & Hu & _). destruct (owned_range b Ho) as [Hr Hn].
  destruct (baddr_in b i) as [Hc Hb]; [lia|done|]. split; [|done]. split; [|right; rewrite Hb; lia].
  split; [done|]. rewrite Hb. split; [lia|done].
Qed.

Lemma fslot_safe n : 0 <= n < NBLOCKS -> n < NDIRECT \/ find L f <> 0 ->
  safe L (fslot L f n) /\ fslot L f n mod 4 = 0
  /\ blk_of (fslot L f n) = if n <? NDIRECT then blk_of f else find L f.
Proof.
  intros Hn Hi. unfold fslot. change NBLOCKS with 1034 in Hn. change NDIRECT with 10 in *.
  destruct (Z.ltb_spec n 10) as [Hlt|Hge].
  - pose proof (fo_align _ _ HF). pose proof (fo_safe _ _ HF (136 + 4 * n)) as Hs. pose proof (fo_blk _ _ HF (136 + 4 * n)) as Hb.
    change sizeof_File with 256 in *. unfold f_direct. change MAXNAMELEN with 128.
    replace (f + 128 + 8 + 4 * n) with (f + (136 + 4 * n)) by lia. split; [apply Hs; lia|]. split; [lia|apply Hb; lia].
  - destruct Hi as [|Hi]; [lia|]. destruct (owned_safe (find L f) (4 * (n - 10))) as [Hs Hb].
    + by split; [|left].
    + change BLKSIZE with 4096. lia.
    + split; [done|]. split; [|done]. unfold baddr, DISKMAP. change BLKSIZE with 4096. lia.
Qed.

Lemma fblk_slot n : n < NDIRECT \/ find L f <> 0 -> fblk L f n = lword L (fslot L f n).
Proof.
  intros Hn. unfold fblk. destruct (Z.ltb_spec n NDIRECT); [done|]. destruct Hn as [|Hn]; [lia|].
  by rewrite (proj2 (Z.eqb_neq _ _) Hn).
Qed.

(** Different slots do not overlap. *)
Lemma fslot_apart n m : 0 <= n < NBLOCKS -> 0 <= m < NBLOCKS -> n < NDIRECT \/ find L f <> 0 -> m < NDIRECT \/ find L f <> 0 ->
  n <> m -> fslot L f n + 4 <= fslot L f m \/ fslot L f m + 4 <= fslot L f n.
Proof.
  intros Hn Hm In Im Hne. destruct (fslot_safe n Hn In) as (Sn & An & Bn), (fslot_safe m Hm Im) as (Sm & Am & Bm).
  change NBLOCKS with 1034 in *. change NDIRECT with 10 in *.
  destruct (Z.ltb_spec n 10) as [H1|H1], (Z.ltb_spec m 10) as [H2|H2].
  - unfold fslot, f_direct. change NDIRECT with 10. rewrite (proj2 (Z.ltb_lt n 10)), (proj2 (Z.ltb_lt m 10)) by lia. lia.
  - assert (fslot L f n <> fslot L f m); [|lia]. intros E. rewrite E, Bm in Bn.
    destruct (fo_owned _ _ HF (find L f)) as (_ & _ & Hx); [|done]. destruct Im as [|Im]; [lia|]. by split; [|left].
  - assert (fslot L f n <> fslot L f m); [|lia]. intros E. rewrite E, Bm in Bn.
    destruct (fo_owned _ _ HF (find L f)) as (_ & _ & Hx); [|done]. destruct In as [|In]; [lia|]. by split; [|left].
  - unfold fslot. change NDIRECT with 10. rewrite (proj2 (Z.ltb_ge n 10)), (proj2 (Z.ltb_ge m 10)) by lia. lia.
Qed.

Lemma find_apart n : 0 <= n < NBLOCKS -> n < NDIRECT \/ find L f <> 0 ->
  fslot L f n + 4 <= f_indirect f \/ f_indirect f + 4 <= fslot L f n.
Proof.
  intros Hn In. destruct (fslot_safe n Hn In) as (Sn & An & Bn). destruct find_safe as (Si & Ai & Bi).
  change NBLOCKS with 1034 in *. change NDIRECT with 10 in *. destruct (Z.ltb_spec n 10) as [H1|H1].
  - unfold fslot, f_direct, f_indirect. change NDIRECT with 10. rewrite (proj2 (Z.ltb_lt n 10)) by lia. lia.
  - assert (fslot L f n <> f_indirect f); [|lia]. intros E. rewrite E, Bi in Bn.
    destruct (fo_owned _ _ HF (find L f)) as (_ & _ & Hx); [|done]. destruct In as [|In]; [lia|]. by split; [|left].
Qed.
End File.

(** * What may change when a file grows *)

(** The bytes of [f] that name its blocks. *)
Definition ptrs (f k : Z) : Prop := f + 136 <= k < f + 180.

(** Between [L] and [L'] blocks may have been allocated for [f]; its contents
    and everything else in use are as before. *)
Record grows (f : Z) (L L' : Z -> Z) : Prop := {
  gr_disk : disk_ok L';
  gr_nb : nb L' = nb L;
  gr_used : forall b, 0 <= b < nb L -> used L b -> used L' b;
  gr_keep : forall k, in_cache k -> blk_of k < 2 \/ first_data L <= blk_of k -> used L (blk_of k) -> blk_of k < nb L ->
    ~ ptrs f k -> (find L f <> 0 -> blk_of k <> find L f) -> L' k = L k;
  gr_find : find L' f = find L f \/ (find L f = 0 /\ ~ used L (find L' f) /\ 0 <= find L' f < nb L);
  gr_own : forall b, owns L' f b -> owns L f b \/ (~ used L b /\ 0 <= b < nb L);
  gr_file : file_ok L' f;
  gr_blk : forall n, 0 <= n < NBLOCKS -> fblk L f n <> 0 -> fblk L' f n = fblk L f n;
  gr_byte : forall pos, 0 <= pos < MAXFILESIZE -> fbyte L' f pos = fbyte L f pos
}.

Lemma grows_refl f L : disk_ok L -> file_ok L f -> grows f L L.
Proof. intros HL HF. by split; auto. Qed.

Lemma used_0 L : disk_ok L -> used L 0.
Proof. intros HL. apply (do_reserved _ HL). Qed.

Lemma grows_trans f L1 L2 L3 : disk_ok L1 -> grows f L1 L2 -> grows f L2 L3 -> grows f L1 L3.
Proof.
  intros HL [A1 A2 A3 A4 A5 A6 A9 A7 A8] [B1 B2 B3 B4 B5 B6 B9 B7 B8].
  assert (first_data L2 = first_data L1) as Hfd by (unfold first_data; by rewrite A2).
  split; try done.
  - congruence.
  - intros b Hb Hu. apply B3; [by rewrite A2|by apply A3].
  - intros k Hk Hm Hu Hn Hp Hi. assert (0 <= blk_of k) as Hk0 by (destruct (blk_of_split k Hk) as (? & ? & ? & ? & _); lia).
    rewrite B4; [by apply A4|done|by rewrite Hfd|by apply A3; [lia|]|by rewrite A2|done|].
    intros H2 Heq. destruct A5 as [A5|(A5 & A5u & _)]; [rewrite A5 in *; by apply Hi|]. by rewrite <- Heq in A5u.
  - destruct B5 as [B5|(B5 & B5u & B5r)].
    + rewrite B5. destruct A5 as [A5|A5]; [by left|by right].
    + destruct A5 as [A5|(A5 & A5u & _)].
      * right. split; [congruence|]. rewrite A2 in B5r. split; [|done]. intros Hu. by apply B5u, A3.
      * rewrite B5 in A5u. destruct A5u. by apply used_0.
  - intros b Hb. rewrite A2 in B6. destruct (B6 b Hb) as [Ho|[Hu Hr]]; [by apply A6|]. right. split; [|done].
    intros Hu1. by apply Hu, A3.
  - intros n Hn Hz. rewrite B7; [by apply A7|done|by rewrite A7].
  - intros pos Hp. by rewrite B8, A8.
Qed.

Lemma safe_byte L va i : safe L va -> va mod 4 = 0 -> 0 <= i < 4 -> in_cache (va + i) /\ blk_of (va + i) = blk_of va.
Proof.
  intros Hs Ha Hi. pose proof (safe_in _ _ Hs) as Hc. destruct (blk_of_split va Hc) as (o & Ho & Eo & Hr & _).
  replace (va + i) with (DISKMAP + blk_of va * BLKSIZE + (o + i)) by lia. apply blk_of_at; [done|].
  unfold DISKMAP in Eo. change BLKSIZE with 4096 in *. lia.
Qed.

Lemma safe_zone L va : safe L va -> blk_of va < 2 \/ first_data L <= blk_of va.
Proof. intros [_ [[-> _]|H]]; lia. Qed.

Section GrowFile.
Context (L : Z -> Z) (HL : disk_ok L) (f : Z) (HF : file_ok L f) (sl b : Z).
Context (Hsl : safe L sl) (Hal : sl mod 4 = 0) (Hb : 0 <= b < nb L) (Hfree : ~ used L b).

Local Abbreviation G := (grown sl b L).

Lemma grow_keep k : in_cache k -> blk_of k < 2 \/ first_data L <= blk_of k -> used L (blk_of k) ->
  ~ (sl <= k < sl + 4) -> G k = L k.
Proof. intros Hk Hm Hu Hs. apply grown_same; try done. intros E. by rewrite E in Hu. Qed.

Lemma grow_word va : safe L va -> va mod 4 = 0 -> va <> sl -> lword G va = lword L va.
Proof.
  intros Hs Ha Hne. apply lword_ext. intros i Hi. destruct (safe_byte L va i Hs Ha Hi) as [Hc Hbk].
  apply grow_keep; rewrite ?Hbk; [done|by apply safe_zone|apply Hs|lia].
Qed.

Lemma grow_safe va : safe L va -> safe G va.
Proof.
  destruct (grown_steps L HL sl b Hsl Hal Hb Hfree) as (_ & _ & _ & _ & _ & _ & _ & _ & Hn & Hu).
  change (nb G = nb L) in Hn.
  intros [(Hc & Hr & Hus) Hz]. split.
  - split; [done|]. split; [by rewrite Hn|]. apply Hu; [done|by left].
  - unfold first_data in *. by rewrite Hn.
Qed.

(** The block numbers after the growth, when slot [n0] (or the indirect
    pointer) has received the new block. *)
Context (chg : option Z).
Context (Hfind : match chg with
                 | None => find L f = 0 /\ find G f = b
                 | Some _ => find G f = find L f
                 end).
Context (Hblk : forall m, 0 <= m < NBLOCKS ->
                 fblk G f m = fblk L f m \/ (chg = Some m /\ fblk L f m = 0 /\ fblk G f m = b)).

Lemma owned_not_new x : owns L f x -> x <> b.
Proof. intros Ho ->. by destruct (fo_owned _ _ HF b Ho) as (_ & ? & _). Qed.

Lemma owns_grown x : owns G f x -> owns L f x \/ x = b.
Proof.
  intros [Hx [->|(n & Hn & ->)]].
  - destruct chg; [left; rewrite Hfind in *; by split; [|left]|right; apply Hfind].
  - destruct (Hblk n Hn) as [E|(_ & _ & E)]; [|by right]. rewrite E in *. left. split; [done|]. right. by exists n.
Qed.

Lemma fblk_owned n : 0 <= n < NBLOCKS -> fblk L f n <> 0 -> owns L f (fblk L f n).
Proof. intros Hn Hz. split; [done|]. right. by exists n. Qed.

Lemma grow_file : file_ok G f.
Proof.
  destruct (grown_steps L HL sl b Hsl Hal Hb Hfree) as (_ & _ & _ & _ & _ & _ & _ & _ & Hn & Hu).
  change (nb G = nb L) in Hn.
  destruct (grown_range L HL sl b Hsl Hb Hfree) as (Hd & _ & _). pose proof HF as [H1 H2 H3 H4 H5 H6].
  split; [intros i Hi; by apply grow_safe, H1|done|done| | |].
  - intros x Hx. unfold first_data. rewrite Hn. fold (first_data L). destruct (owns_grown x Hx) as [Ho| ->].
    + destruct (H4 x Ho) as (A & B & C). split_and!; [lia|lia| |done]. apply Hu; [pose proof (first_data_min L HL); lia|by left].
    + split_and!; [lia|lia|apply Hu; [done|by right]|]. intros E. destruct (H1 0) as [(_ & _ & Hx') _]; [done|].
      rewrite Z.add_0_r, <- E in Hx'. done.
  - intros n m Hn' Hm' Hz E. destruct (Hblk n Hn') as [En|(Cn & Zn & En)], (Hblk m Hm') as [Em|(Cm & Zm & Em)].
    + rewrite En, Em in *. by apply H5.
    + rewrite En in *. destruct (owned_not_new (fblk L f n)); [by apply fblk_owned|congruence].
    + assert (fblk L f m = b) as Eb by congruence. destruct (owned_not_new (fblk L f m)); [|done].
      apply fblk_owned; [done|]. rewrite Eb. pose proof (first_data_min L HL). lia.
    + congruence.
  - intros n Hn' Hz. destruct (Hblk n Hn') as [En|(Cn & Zn & En)].
    + rewrite En in *. destruct chg; [rewrite Hfind; by apply H6|]. destruct Hfind as [_ ->].
      by apply owned_not_new, fblk_owned.
    + rewrite En. rewrite Cn in Hfind. rewrite Hfind. pose proof (first_data_min L HL).
      destruct (decide (find L f = 0)) as [->|Hz']; [lia|]. intros E. destruct (owned_not_new (find L f)); [|done].
      by split; [|left].
Qed.

Lemma grow_grows : sl = f_indirect f \/ (exists n, 0 <= n < NBLOCKS /\ (n < NDIRECT \/ find L f <> 0) /\ sl = fslot L f n) ->
  grows f L G.
Proof.
  intros Hwhere. destruct (grown_steps L HL sl b Hsl Hal Hb Hfree) as (_ & _ & _ & _ & _ & _ & _ & HG & Hn & Hu).
  change (nb G = nb L) in Hn.
  split; [done|done|intros; apply Hu; [done|by left]| | | |exact grow_file| |].
  - intros k Hk Hm Hus _ Hp Hi. apply grow_keep; try done. intros Hr. unfold ptrs in Hp.
    destruct Hwhere as [->|(n & Hn' & Hacc & ->)].
    + unfold f_indirect in Hr. change MAXNAMELEN with 128 in Hr. change NDIRECT with 10 in Hr. lia.
    + destruct (fslot_safe L HL f HF n Hn' Hacc) as (Ss & As & Bs). change NBLOCKS with 1034 in Hn'.
      destruct (Z.ltb_spec n NDIRECT) as [Hlt|Hge].
      * unfold fslot in Hr. rewrite (proj2 (Z.ltb_lt _ _) Hlt) in Hr. unfold f_direct in Hr.
        change MAXNAMELEN with 128 in Hr. change NDIRECT with 10 in Hlt. lia.
      * destruct Hacc as [|Hz]; [lia|]. apply (Hi Hz). rewrite <- Bs.
        destruct (safe_byte L (fslot L f n) (k - fslot L f n) Ss As) as [_ Hx]; [lia|].
        by replace (fslot L f n + (k - fslot L f n)) with k in Hx by lia.
  - destruct chg; [by left|]. destruct Hfind as [Hz ->]. right. done.
  - intros x Hx. destruct (owns_grown x Hx) as [| ->]; [by left|by right].
  - intros n Hn' Hz. by destruct (Hblk n Hn') as [|(_ & ? & _)].
  - intros pos Hpos. unfold fbyte. change MAXFILESIZE with (1034 * 4096) in Hpos.
    assert (0 <= pos / BLKSIZE < NBLOCKS) as Hpn by (change NBLOCKS with 1034; change BLKSIZE with 4096; lia).
    assert (0 <= pos mod BLKSIZE < BLKSIZE) as Hpm by (change BLKSIZE with 4096; lia).
    destruct (Hblk _ Hpn) as [E|(_ & Hz & E)]; rewrite E.
    + destruct (Z.eqb_spec (fblk L f (pos / BLKSIZE)) 0) as [|Hz]; [done|].
      pose proof (fblk_owned _ Hpn Hz) as Ho. destruct (owned_safe L HL f HF _ (pos mod BLKSIZE) Ho Hpm) as [Hs Hbk].
      apply grow_keep; [by apply (safe_in L)|by apply safe_zone|apply Hs|]. intros Hr.
      destruct (safe_byte L sl (baddr (fblk L f (pos / BLKSIZE)) + pos mod BLKSIZE - sl) Hsl Hal) as [_ Hx]; [lia|].
      replace (sl + (baddr (fblk L f (pos / BLKSIZE)) + pos mod BLKSIZE - sl))
        with (baddr (fblk L f (pos / BLKSIZE)) + pos mod BLKSIZE) in Hx by lia. rewrite Hbk in Hx.
      destruct Hwhere as [E'|(n & Hn' & Hacc & E')]; rewrite E' in Hx.
      * destruct (find_safe L f HF) as (_ & _ & Eb). rewrite Eb in Hx. by destruct (fo_owned _ _ HF _ Ho) as (_ & _ & ?).
      * destruct (fslot_safe L HL f HF n Hn' Hacc) as (_ & _ & Eb). rewrite Eb in Hx.
        destruct (n <? NDIRECT); [by destruct (fo_owned _ _ HF _ Ho) as (_ & _ & ?)|by destruct (fo_ind _ _ HF _ Hpn Hz)].
    + rewrite Hz. cbn [Z.eqb]. pose proof (grown_range L HL sl b Hsl Hb Hfree) as (Hd & Hr & _).
      pose proof (first_data_min L HL). rewrite (proj2 (Z.eqb_neq b 0)) by lia.
      destruct (baddr_in b (pos mod BLKSIZE) Hr Hpm). by apply grown_zero.
Qed.
End GrowFile.


Section FileGrows.
Context (L : Z -> Z) (HL : disk_ok L) (f : Z) (HF : file_ok L f) (b : Z).
Context (Hb : 0 <= b < nb L) (Hfree : ~ used L b).

(** Taking [b] as the indirect block. *)
Lemma grows_ind : find L f = 0 ->
  grows f L (grown (f_indirect f) b L) /\ find (grown (f_indirect f) b L) f = b
  /\ forall n, 0 <= n < NBLOCKS -> fblk (grown (f_indirect f) b L) f n = fblk L f n.
Proof.
  intros Hz. destruct (find_safe L f HF) as (Hs & Ha & Hbk). set (G := grown (f_indirect f) b L).
  assert (find G f = b) as Hf by (apply grown_slot; done).
  pose proof (grown_range L HL _ b Hs Hb Hfree) as (Hd & Hr & _). pose proof (first_data_min L HL).
  cut (forall n, 0 <= n < NBLOCKS -> fblk G f n = fblk L f n).
  { intros HN. split; [|done]. apply (grow_grows L HL f HF _ b Hs Ha Hb Hfree None); [done| |by left]. intros n Hn. left. by apply HN. }
  intros n Hn. destruct (Z.ltb_spec n NDIRECT) as [Hlt|Hge].
  - rewrite !fblk_slot by (by left). destruct (fslot_safe L HL f HF n Hn) as (S' & A' & _); [by left|].
    replace (fslot G f n) with (fslot L f n) by (unfold fslot; by rewrite (proj2 (Z.ltb_lt _ _) Hlt)).
    apply grow_word; try done. destruct (find_apart L HL f HF n Hn); [by left|lia|lia].
  - unfold fblk at 2. rewrite (proj2 (Z.ltb_ge _ _) Hge), Hz. cbn [orb negb Z.eqb].
    rewrite fblk_slot by (right; lia). unfold fslot. rewrite (proj2 (Z.ltb_ge _ _) Hge), Hf.
    change NBLOCKS with 1034 in Hn. change NDIRECT with 10 in *.
    assert (forall i, 0 <= i < 4 -> G (baddr b + 4 * (n - 10) + i) = 0) as Hzero.
    { intros i Hi. rewrite <- Z.add_assoc. destruct (baddr_in b (4 * (n - 10) + i) Hr); [change BLKSIZE with 4096; lia|].
      by apply grown_zero. }
    unfold lword. rewrite <- (Z.add_0_r (baddr b + 4 * (n - 10))) at 1. by rewrite !Hzero by lia.
Qed.

(** Taking [b] as block [n]. *)
Lemma grows_slot n : 0 <= n < NBLOCKS -> n < NDIRECT \/ find L f <> 0 -> fblk L f n = 0 ->
  grows f L (grown (fslot L f n) b L) /\ fslot (grown (fslot L f n) b L) f n = fslot L f n
  /\ fblk (grown (fslot L f n) b L) f n = b
  /\ forall m, 0 <= m < NBLOCKS -> m <> n -> fblk (grown (fslot L f n) b L) f m = fblk L f m.
Proof.
  intros Hn Hacc Hz. destruct (fslot_safe L HL f HF n Hn Hacc) as (Hs & Ha & Hbk). set (G := grown (fslot L f n) b L).
  destruct (find_safe L f HF) as (Si & Ai & _).
  assert (find G f = find L f) as Hf.
  { apply grow_word; try done. destruct (find_apart L HL f HF n Hn Hacc); lia. }
  assert (forall m, fslot G f m = fslot L f m) as Hsl by (intros m; unfold fslot; by rewrite Hf).
  assert (fblk G f n = b) as Hbn by (rewrite fblk_slot, Hsl by (by rewrite Hf); by apply grown_slot).
  cut (forall m, 0 <= m < NBLOCKS -> m <> n -> fblk G f m = fblk L f m).
  { intros HN. split_and!; [|done|done|done]. apply (grow_grows L HL f HF _ b Hs Ha Hb Hfree (Some n)); [done| |right; by exists n].
    intros m Hm. fold G. destruct (decide (m = n)) as [->|Hne]; [by right|]. left. by apply HN. }
  intros m Hm Hne. unfold fblk. rewrite Hf, Hsl.
  destruct (_ || _) eqn:Em; [|done].
  assert (m < NDIRECT \/ find L f <> 0) as Haccm.
  { apply orb_true_iff in Em as [E|E]; [left; by apply Z.ltb_lt|right; by apply Z.eqb_neq, negb_true_iff]. }
  destruct (fslot_safe L HL f HF m Hm Haccm) as (Sm & Am & _). apply grow_word; try done.
  destruct (fslot_apart L HL f HF n m Hn Hm Hacc Haccm); lia.
Qed.
End FileGrows.

(** * The block of a position *)

Lemma fload32_safe L s va : bc_ok L s -> safe L va -> va mod 4 = 0 ->
  exists s', fload32 va s = Ret (lword L va) s' /\ bc_ok L s'.
Proof.
  intros [HL HC] [Ha _] Hal. destruct (fload32_ok L HL va s HC Ha Hal) as (s' & E & HC'). exists s'. by split.
Qed.

(** [file_block_walk] with [alloc] set: it finds the slot of a block, and
    fails only when the disk is full. *)
Lemma walk_ok L s f n : bc_ok L s -> file_ok L f -> 0 <= n < NBLOCKS ->
  exists L' s', grows f L L' /\ bc_ok L' s' /\ (forall m, 0 <= m < NBLOCKS -> fblk L' f m = fblk L f m) /\ (n < NDIRECT \/ find L f <> 0 -> L' = L) /\
    ((file_block_walk f n true s = Ret (inr (fslot L' f n)) s' /\ (n < NDIRECT \/ find L' f <> 0))
     \/ (file_block_walk f n true s = Ret (inl (- E_NO_DISK)) s' /\ fblk L f n = 0 /\ L' = L
         /\ forall b, 0 <= b < nb L -> used L b)).
Proof.
  intros HB HF Hn. pose proof (bo_disk _ _ HB) as HL. unfold file_block_walk.
  change (NINDIRECT + NDIRECT) with NBLOCKS. rewrite (proj2 (Z.ltb_ge _ _)) by lia.
  destruct (Z.ltb_spec n NDIRECT) as [Hlt|Hge].
  { exists L, s. split; [by apply grows_refl|]. split; [done|]. split; [done|]. split; [done|]. left. split; [|by left].
    unfold fslot. by rewrite (proj2 (Z.ltb_lt _ _) Hlt). }
  destruct (find_safe L f HF) as (Si & Ai & _).
  destruct (fload32_safe L s _ HB Si Ai) as (s1 & E1 & HB1). rewrite (bind_ret _ _ _ _ _ E1).
  change (negb true) with false. rewrite andb_false_l. cbv iota. fold (find L f).
  assert (forall L' s', bc_ok L' s' -> file_ok L' f -> find L' f <> 0 -> exists s'',
    (let! ind := fload32 (f_indirect f) in let! a := diskaddr ind in ret (inr (a + 4 * (n - NDIRECT)))) s'
      = Ret (inr (fslot L' f n) : Z + Z) s'' /\ bc_ok L' s'') as Htail.
  { intros L' s' HB' HF' Hz'. destruct (find_safe L' f HF') as (Si' & Ai' & _).
    destruct (fload32_safe L' s' _ HB' Si' Ai') as (s2 & E2 & HB2). rewrite (bind_ret _ _ _ _ _ E2). fold (find L' f).
    destruct (owned_range L' (bo_disk _ _ HB') f HF' (find L' f)) as [Hr Hr']; [by split; [|left]|].
    rewrite (bind_ret _ _ _ _ _ (diskaddr_ok L' s2 (find L' f) HB2 ltac:(lia))).
    exists s2. split; [|done]. unfold fslot. by rewrite (proj2 (Z.ltb_ge _ _) Hge). }
  destruct (Z.eqb_spec (find L f) 0) as [Hz|Hz].
  - destruct (grow_ok L s1 (f_indirect f) HB1 Si Ai) as [(s2 & E2 & HB2 & Hfull)|(b & s2 & Hb & Hu & E2 & HB2)];
      rewrite (bind_ret _ _ _ _ _ E2).
    + exists L, s2. split; [by apply grows_refl|]. split; [done|]. split; [done|]. split; [done|]. right. split_and!; try done.
      unfold fblk. by rewrite (proj2 (Z.ltb_ge _ _) Hge), Hz.
    + destruct (grows_ind L HL f HF b Hb Hu Hz) as (HG & Hf & HN). pose proof (free_is_data L b HL Hb Hu). pose proof (first_data_min L HL).
      destruct (Htail _ s2 HB2 (gr_file _ _ _ HG)) as (s3 & E3 & HB3); [lia|].
      exists (grown (f_indirect f) b L), s3. split; [done|]. split; [done|]. split; [done|]. split; [intros [|]; [lia|done]|]. left. split; [exact E3|right; lia].
  - rewrite (bind_ret _ _ _ true s1) by done. destruct (Htail L s1 HB1 HF Hz) as (s3 & E3 & HB3).
    exists L, s3. split; [by apply grows_refl|]. split; [done|]. split; [done|]. split; [done|]. left. split; [exact E3|by right].
Qed.

(** [file_get_block] finds the block, allocating it if need be, and the file
    reads as before; it fails only when the disk is full. *)
Lemma get_block_ok L s f n : bc_ok L s -> file_ok L f -> 0 <= n < NBLOCKS ->
  exists L' s', grows f L L' /\ bc_ok L' s' /\ (forall m, 0 <= m < NBLOCKS -> m <> n -> fblk L' f m = fblk L f m) /\ (fblk L f n <> 0 -> L' = L) /\
    ((file_get_block f n s = Ret (inr (baddr (fblk L' f n))) s' /\ fblk L' f n <> 0)
     \/ (file_get_block f n s = Ret (inl (- E_NO_DISK)) s' /\ fblk L f n = 0
         /\ forall b, 0 <= b < nb L' -> used L' b)).
Proof.
  intros HB HF Hn. pose proof (bo_disk _ _ HB) as HL. unfold file_get_block.
  assert (fblk L f n <> 0 -> n < NDIRECT \/ find L f <> 0) as Hd by (unfold fblk; destruct (Z.ltb_spec n NDIRECT); [by left|]; destruct (Z.eqb_spec (find L f) 0); [done|by right]).
  destruct (walk_ok L s f n HB HF Hn) as (L1 & s1 & HG1 & HB1 & HN1 & HS1 & [[E1 Hacc]|(E1 & Hz & -> & Hfull)]);
    rewrite (bind_ret _ _ _ _ _ E1); [|exists L, s1; split; [done|]; split; [done|]; split; [done|]; split; [done|]; by right].
  pose proof (gr_file _ _ _ HG1) as HF1. pose proof (bo_disk _ _ HB1) as HL1.
  destruct (fslot_safe L1 HL1 f HF1 n Hn Hacc) as (Ss & As & _).
  destruct (fload32_safe L1 s1 _ HB1 Ss As) as (s2 & E2 & HB2). rewrite (bind_ret _ _ _ _ _ E2).
  rewrite <- (fblk_slot L1 f n Hacc).
  assert (forall L' s', bc_ok L' s' -> file_ok L' f -> fblk L' f n <> 0 -> fslot L' f n = fslot L1 f n ->
    lword L' (fslot L' f n) = fblk L' f n -> safe L' (fslot L' f n) -> exists s'',
    (let! b := fload32 (fslot L1 f n) in let! a := diskaddr b in ret (inr a)) s'
      = Ret (inr (baddr (fblk L' f n)) : Z + Z) s'' /\ bc_ok L' s'') as Htail.
  { intros L' s' HB' HF' Hz' Es Ew Hs'. rewrite <- Es. rewrite <- Es in As.
    destruct (fload32_safe L' s' _ HB' Hs' As) as (s3 & E3 & HB3). rewrite (bind_ret _ _ _ _ _ E3), Ew.
    destruct (owned_range L' (bo_disk _ _ HB') f HF' (fblk L' f n)) as [Hr Hr']; [by apply fblk_owned|].
    rewrite (bind_ret _ _ _ _ _ (diskaddr_ok L' s3 (fblk L' f n) HB3 ltac:(lia))). by exists s3. }
  destruct (Z.eqb_spec (fblk L1 f n) 0) as [Hz|Hz].
  - destruct (grow_ok L1 s2 (fslot L1 f n) HB2 Ss As) as [(s3 & E3 & HB3 & Hfull)|(b & s3 & Hb & Hu & E3 & HB3)];
      rewrite (bind_ret _ _ _ _ _ E3).
    + exists L1, s3. split; [done|]. split; [done|]. split; [auto|]. split; [auto|]. right. split_and!; try done.
      destruct (decide (fblk L f n = 0)) as [|Hnz]; [done|]. by rewrite (gr_blk _ _ _ HG1 n Hn Hnz) in Hz.
    + destruct (grows_slot L1 HL1 f HF1 b Hb Hu n Hn Hacc Hz) as (HG & Hs & Hf & HN).
      pose proof (free_is_data L1 b HL1 Hb Hu). pose proof (first_data_min L1 HL1).
      destruct (Htail _ s3 HB3 (gr_file _ _ _ HG)) as (s4 & E4 & HB4); [lia|done| | |].
      * rewrite Hs, Hf. by apply grown_slot.
      * rewrite Hs. by apply (grow_safe L1 HL1).
      * eexists _, s4. split; [by apply (grows_trans f L L1)|]. split; [done|]. split; [intros m Hm Hne; by rewrite HN, HN1|]. split; [intros Hx; by rewrite <- HN1 in Hx|]. left. split; [exact E4|lia].
  - rewrite (bind_ret _ _ _ true s2) by done.
    destruct (Htail L1 s2 HB2 HF1 Hz) as (s3 & E3 & HB3); [done|by rewrite fblk_slot|done|].
    exists L1, s3. split; [done|]. split; [done|]. split; [auto|]. split; [auto|]. left. by split.
Qed.
