(* ===== verification/FileIo.v ===== *)
(** fs/fs.c: reading and writing a file, for all contents and all disks. *)

From stdpp Require Import base numbers list gmap strings.
From Stdlib Require Import ZArith Lia Bool.
From S2P Require Import Prelude Mmu Console Bc Fs BcSpec BitmapSpec FileSpec.

Local Ltac Zify.zify_post_hook ::= Z.to_euclidean_division_equations.

(** * What a write may change *)

Definition fsize (L : Z -> Z) (f : Z) : Z := s32 (lword L (f_size f)).

(** The bytes of [f] that hold its size and its block numbers. *)
Definition head (f k : Z) : Prop := f + 128 <= k < f + 132 \/ ptrs f k.

Lemma head_in f k : head f k -> f + 128 <= k < f + 180.
Proof. unfold head, ptrs. lia. Qed.

(** Between [L] and [L'] the size, the block numbers and the blocks of [f] may
    have changed, and free blocks may have been taken. *)
Record edits (f : Z) (L L' : Z -> Z) : Prop := {
  ed_disk : disk_ok L';
  ed_nb : nb L' = nb L;
  ed_used : forall b, 0 <= b < nb L -> used L b -> used L' b;
  ed_keep : forall k, in_cache k -> blk_of k < 2 \/ first_data L <= blk_of k -> used L (blk_of k) -> blk_of k < nb L ->
    ~ head f k -> ~ owns L f (blk_of k) -> L' k = L k;
  ed_own : forall b, owns L' f b -> owns L f b \/ (~ used L b /\ 0 <= b < nb L);
  ed_blk : forall n, 0 <= n < NBLOCKS -> fblk L f n <> 0 -> fblk L' f n = fblk L f n;
  ed_file : file_ok L' f
}.

Lemma edits_refl f L : disk_ok L -> file_ok L f -> edits f L L.
Proof. intros HL HF. split; auto. Qed.

Lemma grows_edits f L L' : grows f L L' -> edits f L L'.
Proof.
  intros [A1 A2 A3 A4 A5 A6 A7 A8 A9]. split; try done. intros k Hk Hm Hu Hn Hp Ho. apply A4; try done.
  - unfold head in Hp. tauto.
  - intros Hz E. apply Ho. rewrite E. by split; [|left].
Qed.

Lemma edits_trans f L1 L2 L3 : edits f L1 L2 -> edits f L2 L3 -> edits f L1 L3.
Proof.
  intros [A1 A2 A3 A4 A5 A7 A6] [B1 B2 B3 B4 B5 B7 B6]. split; try done.
  - congruence.
  - intros b Hb Hu. apply B3; [by rewrite A2|by apply A3].
  - intros k Hk Hm Hu Hn Hp Ho. destruct (blk_of_split k Hk) as (o & ? & _ & ? & _).
    assert (used L2 (blk_of k)) by (apply A3; [lia|done]).
    rewrite B4; [by apply A4|done|unfold first_data in *; by rewrite A2|done|by rewrite A2|done|].
    intros Ho2. by destruct (A5 _ Ho2) as [|[? _]].
  - intros b Hb. destruct (B5 b Hb) as [Ho|[Hu Hr]]; [by apply A5|]. right. rewrite A2 in Hr. split; [|done].
    intros Hu1. by apply Hu, A3.
  - intros n Hn Hz. rewrite B7; [by apply A7|done|by rewrite A7].
Qed.

(** A change that leaves the block numbers of a file alone leaves its blocks
    alone. *)
Lemma file_same L L' f : disk_ok L -> file_ok L f -> nb L' = nb L ->
  (forall b, 0 <= b < nb L -> owns L f b \/ b = blk_of f -> used L b -> used L' b) ->
  (forall k, ptrs f k -> L' k = L k) ->
  (find L f <> 0 -> forall k, in_cache k -> blk_of k = find L f -> L' k = L k) ->
  find L' f = find L f /\ (forall n, 0 <= n < NBLOCKS -> fblk L' f n = fblk L f n) /\ file_ok L' f.
Proof.
  intros HL HF Hn Hu Hp Hi.
  assert (find L' f = find L f) as Hf.
  { apply lword_ext. intros i Hr. apply Hp. unfold ptrs, f_indirect. change MAXNAMELEN with 128. change NDIRECT with 10. lia. }
  assert (forall n, 0 <= n < NBLOCKS -> fblk L' f n = fblk L f n) as Hb.
  { intros n Hrn. unfold fblk. rewrite Hf. unfold fslot. rewrite Hf. change NBLOCKS with 1034 in Hrn.
    destruct (Z.ltb_spec n NDIRECT) as [Hlt|Hge]; cbn [orb].
    - apply lword_ext. intros i Hr. apply Hp. unfold ptrs, f_direct. change MAXNAMELEN with 128. change NDIRECT with 10 in *. lia.
    - destruct (Z.eqb_spec (find L f) 0) as [|Hz]; [done|]. cbn [negb]. apply lword_ext. intros i Hr.
      rewrite <- Z.add_assoc. change NDIRECT with 10 in *.
      destruct (owned_safe L HL f HF (find L f) (4 * (n - 10) + i)) as [Hs Hbk]; [by split; [|left]|change BLKSIZE with 4096; lia|].
      apply Hi; [done|by apply (safe_in L)|done]. }
  split; [done|]. split; [done|]. destruct HF as [H1 H2 H3 H4 H5 H6].
  assert (forall b, owns L' f b -> owns L f b) as Ho.
  { intros b [Hz [->|(n & Hr & ->)]]; split; [done|left; by rewrite Hf|done|right; exists n; by rewrite Hb]. }
  split; [|done|done| | |].
  - intros i Hr. destruct (H1 i Hr) as [(Ha & Hb' & Hc) Hd]. split; [split; [done|]|].
    + rewrite Hn. split; [done|]. apply Hu; [done|right; by apply H2|done].
    + unfold first_data in *. by rewrite Hn.
  - intros b Hb'. destruct (H4 b (Ho b Hb')) as (Ha & Hc & Hd). unfold first_data in *. rewrite Hn. split_and!; try done; try lia.
    apply Hu; [|left; by apply Ho|done]. pose proof (first_data_min L HL). unfold first_data in *. lia.
  - intros n m Hn' Hm' Hz E. rewrite !Hb in * by done. by apply H5.
  - intros n Hn' Hz. rewrite Hb in * by done. rewrite Hf. by apply H6.
Qed.

(** Two files that share no blocks. *)
Record apart (L : Z -> Z) (f g : Z) : Prop := {
  ap_own : forall b, owns L f b -> ~ owns L g b;
  ap_fg : forall b, owns L f b -> b <> blk_of g;
  ap_gf : forall b, owns L g b -> b <> blk_of f;
  ap_sep : f + sizeof_File <= g \/ g + sizeof_File <= f
}.

(** ... or where [f] may be an entry of the directory [g]. *)
Record beside (L : Z -> Z) (f g : Z) : Prop := {
  be_own : forall b, owns L f b -> ~ owns L g b;
  be_fg : forall b, owns L f b -> b <> blk_of g;
  be_ind : find L g <> 0 -> find L g <> blk_of f;
  be_sep : f + sizeof_File <= g \/ g + sizeof_File <= f
}.

Lemma apart_beside L f g : apart L f g -> beside L f g.
Proof. intros [P1 P2 P3 P4]. split; try done. intros Hz. apply P3. by split; [|left]. Qed.

(** Between [L] and [L'] the file [f] has changed in any way, and nothing else
    in use has. *)
Record changes (f : Z) (L L' : Z -> Z) : Prop := {
  ch_disk : disk_ok L';
  ch_nb : nb L' = nb L;
  ch_used : forall b, 0 <= b < nb L -> ~ owns L f b -> used L b -> used L' b;
  ch_keep : forall k, in_cache k -> blk_of k < 2 \/ first_data L <= blk_of k -> used L (blk_of k) -> blk_of k < nb L ->
    ~ head f k -> ~ owns L f (blk_of k) -> L' k = L k;
  ch_own : forall b, owns L' f b -> owns L f b \/ (~ used L b /\ 0 <= b < nb L);
  ch_file : file_ok L' f
}.

Lemma edits_changes f L L' : edits f L L' -> changes f L L'.
Proof. intros [A1 A2 A3 A4 A5 _ A6]. split; auto. Qed.

Lemma changes_struct f L L' k : file_ok L f -> changes f L L' -> f <= k < f + sizeof_File -> ~ head f k -> L' k = L k.
Proof.
  intros HF HC Hk Hh. destruct (fo_safe _ _ HF (k - f)) as [(Hc & Hb & Hu) Hz]; [lia|].
  pose proof (fo_blk _ _ HF (k - f) ltac:(lia)) as Hbk. replace (f + (k - f)) with k in * by lia.
  apply (ch_keep _ _ _ HC); try done; [lia|lia|]. rewrite Hbk. intros Ho. by destruct (fo_owned _ _ HF _ Ho) as (_ & _ & ?).
Qed.

Section Others.
Context (f g : Z) (L L' : Z -> Z) (HL : disk_ok L) (HF : file_ok L f) (HG : file_ok L g) (HC : changes f L L').

(** A file whose structure is kept, but for its name, keeps its block numbers
    and its blocks. *)
Lemma others_core : (forall b, owns L f b -> ~ owns L g b) -> (find L g <> 0 -> find L g <> blk_of f) -> used L' (blk_of g) ->
  (forall k, g + 128 <= k < g + sizeof_File -> L' k = L k) ->
  (forall b k, owns L g b -> in_cache k -> blk_of k = b -> ~ head f k -> L' k = L k)
  /\ find L' g = find L g /\ (forall n, 0 <= n < NBLOCKS -> fblk L' g n = fblk L g n) /\ file_ok L' g.
Proof.
  intros P1 P3 Hug Kg. change sizeof_File with 256 in *.
  assert (forall b k, owns L g b -> in_cache k -> blk_of k = b -> ~ head f k -> L' k = L k) as Ko.
  { intros b k Ho Hc <- Hh. destruct (fo_owned _ _ HG _ Ho) as (Hd & Hu & _). apply (ch_keep _ _ _ HC); try done; [lia|lia|].
    intros Hof. by destruct (P1 _ Hof). }
  split; [done|]. apply file_same; try done; [apply HC| | |].
  - intros b Hr [Hb| ->] Hu; [|done]. apply (ch_used _ _ _ HC); [done| |done]. intros Ho. by apply (P1 b).
  - intros k Hk. apply Kg. unfold ptrs in Hk. lia.
  - intros Hz k Hc Hk. apply (Ko (find L g)); try done; [by split; [|left]|]. intros Hh%head_in. apply (P3 Hz). rewrite <- Hk.
    pose proof (fo_blk _ _ HF (k - f)) as Hb. change sizeof_File with 256 in Hb. replace (f + (k - f)) with k in Hb by lia. apply Hb. lia.
Qed.

(** A change that keeps everything in use outside of [f] keeps [g]: its
    structure, its block numbers and its blocks. *)
Lemma others_same : beside L f g ->
  (forall k, g <= k < g + sizeof_File -> L' k = L k) /\ (forall b k, owns L g b -> in_cache k -> blk_of k = b -> ~ head f k -> L' k = L k)
  /\ find L' g = find L g /\ (forall n, 0 <= n < NBLOCKS -> fblk L' g n = fblk L g n) /\ file_ok L' g.
Proof.
  intros [P1 P2 P3 P4]. change sizeof_File with 256 in *.
  assert (forall k, g <= k < g + 256 -> L' k = L k) as Kg.
  { intros k Hk. destruct (fo_safe _ _ HG (k - g)) as [(Hc & Hb & Hu) Hz]; [change sizeof_File with 256; lia|].
    pose proof (fo_blk _ _ HG (k - g) ltac:(change sizeof_File with 256; lia)) as Hbk. replace (g + (k - g)) with k in * by lia.
    apply (ch_keep _ _ _ HC); try done; [lia|lia|intros Hh%head_in; lia|]. rewrite Hbk. intros Ho. by destruct (P2 _ Ho). }
  split; [done|]. apply others_core; try done.
  - destruct (fo_safe _ _ HG 0) as [(_ & Hb & Hu) _]; [done|]. rewrite Z.add_0_r in *. apply (ch_used _ _ _ HC); try done. intros Ho. by destruct (P2 _ Ho).
  - intros k Hk. apply Kg. change sizeof_File with 256 in Hk. lia.
Qed.

Lemma others_kept : apart L f g ->
  file_ok L' g /\ apart L' f g /\ fsize L' g = fsize L g
  /\ forall pos, 0 <= pos < MAXFILESIZE -> fbyte L' g pos = fbyte L g pos.
Proof.
  intros Hap. destruct (others_same (apart_beside _ _ _ Hap)) as (Kg & Ko & Hf & Hb & HG').
  destruct Hap as [P1 P2 P3 P4]. change sizeof_File with 256 in *.
  assert (forall b, owns L' g b -> owns L g b) as Hog.
  { intros b [Hz [->|(n & Hr & ->)]]; split; [done|left; by rewrite Hf|done|right; exists n; by rewrite Hb]. }
  split; [done|]. split; [split|split].
  - intros b Hof Hob. apply Hog in Hob. destruct (fo_owned _ _ HG _ Hob) as (_ & Hu & _).
    destruct (ch_own _ _ _ HC b Hof) as [Ho|[? _]]; [by destruct (P1 b Ho)|done].
  - intros b Hof ->. destruct (ch_own _ _ _ HC _ Hof) as [Ho|[Hx _]]; [by destruct (P2 _ Ho)|].
    destruct (fo_safe _ _ HG 0) as [(_ & _ & Hu) _]; [done|]. by rewrite Z.add_0_r in Hu.
  - intros b Hob. by apply P3, Hog.
  - done.
  - unfold fsize. f_equal. apply lword_ext. intros i Hi. apply Kg. unfold f_size. change MAXNAMELEN with 128. lia.
  - intros pos Hp. unfold fbyte. change MAXFILESIZE with (1034 * 4096) in Hp.
    assert (0 <= pos / BLKSIZE < NBLOCKS) as Hpn by (change NBLOCKS with 1034; change BLKSIZE with 4096; lia).
    rewrite Hb by done. destruct (Z.eqb_spec (fblk L g (pos / BLKSIZE)) 0) as [|Hz]; [done|].
    pose proof (fblk_owned L g _ Hpn Hz) as Ho.
    destruct (owned_safe L HL g HG _ (pos mod BLKSIZE) Ho) as [Hs Hbk]; [change BLKSIZE with 4096; lia|].
    apply (Ko _ _ Ho (safe_in _ _ Hs) Hbk). intros Hh%head_in. destruct (P3 _ Ho). rewrite <- Hbk.
    set (k := baddr _ + _) in *. pose proof (fo_blk _ _ HF (k - f)) as Hb'. change sizeof_File with 256 in Hb'.
    replace (f + (k - f)) with k in Hb' by lia. apply Hb'. lia.
Qed.
End Others.

Lemma edits_other f g L L' : disk_ok L -> file_ok L f -> file_ok L g -> apart L f g -> edits f L L' ->
  file_ok L' g /\ apart L' f g /\ fsize L' g = fsize L g
  /\ forall pos, 0 <= pos < MAXFILESIZE -> fbyte L' g pos = fbyte L g pos.
Proof. intros HL HF HG Hap HE. apply (others_kept f g L L'); auto using edits_changes. Qed.

(** * Reading *)

(** The bytes of a file from [pos], [len] of them. *)
Definition fbytes (L : Z -> Z) (f pos len : Z) : list Z := fbyte L f <$> seqZ pos len.

Lemma fbytes_app L f pos n m : 0 <= n -> 0 <= m -> fbytes L f pos n ++ fbytes L f (pos + n) m = fbytes L f pos (n + m).
Proof. intros Hn Hm. unfold fbytes. by rewrite <- fmap_app, <- seqZ_app by lia. Qed.

Lemma fbytes_ext L L' f pos n : 0 <= pos -> pos + n <= MAXFILESIZE ->
  (forall p, 0 <= p < MAXFILESIZE -> fbyte L' f p = fbyte L f p) -> fbytes L' f pos n = fbytes L f pos n.
Proof.
  intros Hp Hn He. apply list_fmap_ext. intros i x Hx. apply lookup_seqZ in Hx as [-> Hi]. apply He. lia.
Qed.

(** One transfer stays in the block of its first position. *)
Definition chunk (pos last : Z) : Z := Z.min (BLKSIZE - pos mod BLKSIZE) (last - pos).

Lemma chunk_eq pos last : 0 <= pos < last -> last <= MAXFILESIZE ->
  u32 pos = pos /\ u32 (Z.quot pos BLKSIZE) = pos / BLKSIZE
  /\ s32 (Z.min (u32 (BLKSIZE - Z.rem pos BLKSIZE)) (u32 (last - pos))) = chunk pos last
  /\ Z.rem pos BLKSIZE = pos mod BLKSIZE
  /\ s32 (pos + chunk pos last) = pos + chunk pos last
  /\ 0 < chunk pos last /\ pos mod BLKSIZE + chunk pos last <= BLKSIZE /\ pos + chunk pos last <= last
  /\ 0 <= pos / BLKSIZE < NBLOCKS /\ 0 <= pos mod BLKSIZE < BLKSIZE.
Proof.
  intros Hp Hl. change MAXFILESIZE with 4235264 in Hl. change NBLOCKS with 1034. unfold chunk. change BLKSIZE with 4096.
  rewrite Z.quot_div_nonneg, Z.rem_mod_nonneg by lia. rewrite !u32_small by (unfold is_u32; lia).
  rewrite !s32_small by lia. lia.
Qed.

Section Chunk.
Context (L : Z -> Z) (HL : disk_ok L) (f : Z) (HF : file_ok L f) (pos last : Z).
Context (Hpos : 0 <= pos < last) (Hlast : last <= MAXFILESIZE) (Hblk : fblk L f (pos / BLKSIZE) <> 0).

Lemma chunk_addr : let va := baddr (fblk L f (pos / BLKSIZE)) + pos mod BLKSIZE in
  safe L va /\ blk_of va = fblk L f (pos / BLKSIZE) /\ within va (chunk pos last) /\ data_addr L va.
Proof.
  destruct (chunk_eq pos last Hpos Hlast) as (_ & _ & _ & _ & _ & H1 & H2 & _ & H3 & H4). intros va.
  pose proof (fblk_owned L f _ H3 Hblk) as Ho. destruct (owned_safe L HL f HF _ _ Ho H4) as [Hs Hb].
  destruct (fo_owned _ _ HF _ Ho) as (Hd & _). split_and!; [done|done| |].
  - split; [lia|]. unfold va. rewrite baddr_mod. change BLKSIZE with 4096 in *. lia.
  - split; [by apply (safe_in L)|]. unfold va. rewrite Hb. apply Hd.
Qed.

(** The positions of the file that are in the block of [pos]. *)
Lemma fbyte_chunk p : pos <= p < pos + chunk pos last ->
  fbyte L f p = L (baddr (fblk L f (pos / BLKSIZE)) + pos mod BLKSIZE + (p - pos)).
Proof.
  intros Hp. destruct (chunk_eq pos last Hpos Hlast) as (_ & _ & _ & _ & _ & H1 & H2 & _ & H3 & H4). unfold fbyte.
  assert (p / BLKSIZE = pos / BLKSIZE /\ p mod BLKSIZE = pos mod BLKSIZE + (p - pos)) as [-> ->]
    by (change BLKSIZE with 4096 in *; lia).
  rewrite (proj2 (Z.eqb_neq _ _) Hblk). f_equal. lia.
Qed.
End Chunk.

(** Only blocks before [last] have been filled in. *)
Definition fills (f last : Z) (L L' : Z -> Z) : Prop := forall n, 0 <= n < NBLOCKS -> last <= n * BLKSIZE -> fblk L' f n = fblk L f n.

Lemma fills_block f pos last L L' : 0 <= pos < last -> (forall n, 0 <= n < NBLOCKS -> n <> pos / BLKSIZE -> fblk L' f n = fblk L f n) -> fills f last L L'.
Proof. intros Hp H n Hn Hl. apply H; [done|]. change BLKSIZE with 4096 in *. lia. Qed.

Lemma fills_trans f last L1 L2 L3 : fills f last L1 L2 -> fills f last L2 L3 -> fills f last L1 L3.
Proof. intros H1 H2 n Hn Hl. by rewrite H2, H1. Qed.

(** The loop of [file_read] returns the bytes; it fails only when a hole needs
    a block and the disk is full. *)
Lemma read_from_ok f last fuel : last <= MAXFILESIZE -> forall L s pos, bc_ok L s -> file_ok L f ->
  0 <= pos <= last -> (pos < last -> last <= (pos / BLKSIZE + Z.of_nat fuel) * BLKSIZE) ->
  exists L' s', grows f L L' /\ bc_ok L' s' /\ fills f last L L' /\ ((forall p, pos <= p < last -> fblk L f (p / BLKSIZE) <> 0) -> L' = L) /\
    (file_read_from fuel f pos last s = Ret (inr (fbytes L f pos (last - pos))) s'
     \/ (file_read_from fuel f pos last s = Ret (inl (- E_NO_DISK)) s'
         /\ (exists p, pos <= p < last /\ fblk L f (p / BLKSIZE) = 0) /\ forall b, 0 <= b < nb L' -> used L' b)).
Proof.
  intros Hlast. induction fuel as [|fuel IH]; intros L s pos HB HF Hpos Hfuel; pose proof (bo_disk _ _ HB) as HL.
  { exists L, s. split; [by apply grows_refl|]. split; [done|]. split; [done|]. split; [done|]. left. unfold fbytes. rewrite seqZ_nil; [done|].
    change BLKSIZE with 4096 in *. lia. }
  cbn [file_read_from]. rewrite u32_small by (change MAXFILESIZE with 4235264 in Hlast; unfold is_u32; lia).
  destruct (Z.ltb_spec pos last) as [Hlt|Hle].
  2: { exists L, s. split; [by apply grows_refl|]. split; [done|]. split; [done|]. split; [done|]. left. unfold fbytes. by rewrite seqZ_nil by lia. }
  destruct (chunk_eq pos last ltac:(lia) Hlast) as (_ & -> & -> & -> & -> & H1 & H2 & H3 & H4 & H5).
  destruct (get_block_ok L s f (pos / BLKSIZE) HB HF H4) as (L1 & s1 & HG & HB1 & HN & HS & [[E1 Hz]|(E1 & Hz & Hfull)]);
    rewrite (bind_ret _ _ _ _ _ E1); apply (fills_block f pos last) in HN; try lia.
  2: { exists L1, s1. split; [done|]. split; [done|]. split; [done|]. split; [intros Ha; apply HS, Ha; lia|]. right. split; [done|]. split; [|done]. exists pos. split; [lia|done]. }
  pose proof (bo_disk _ _ HB1) as HL1. pose proof (gr_file _ _ _ HG) as HF1.
  destruct (chunk_addr L1 HL1 f HF1 pos last ltac:(lia) Hlast Hz) as (Hs & _ & Hw & _).
  destruct (fread_ok L1 s1 _ (chunk pos last) HB1 (proj1 Hs) Hw) as (s2 & E2 & HB2). rewrite (bind_ret _ _ _ _ _ E2).
  assert (((fun i => L1 (baddr (fblk L1 f (pos / BLKSIZE)) + pos mod BLKSIZE + i)) <$> seqZ 0 (chunk pos last))
          = fbytes L f pos (chunk pos last)) as ->.
  { rewrite <- (fbytes_ext L L1) by (lia || apply HG). unfold fbytes.
    replace (seqZ pos (chunk pos last)) with (Z.add pos <$> seqZ 0 (chunk pos last)) by (by rewrite fmap_add_seqZ, Z.add_0_r).
    rewrite <- list_fmap_compose. apply list_fmap_ext. intros i x Hx. apply lookup_seqZ in Hx as [-> Hi].
    cbn. rewrite (fbyte_chunk L1 f pos last) by (done || lia). f_equal. lia. }
  destruct (IH L1 s2 (pos + chunk pos last) HB2 HF1) as (L2 & s3 & HG2 & HB3 & HN2 & HS2 & Hres); [lia| |].
  { unfold chunk in *. change BLKSIZE with 4096 in *. lia. }
  exists L2, s3. split; [by apply (grows_trans f L L1)|]. split; [done|]. split; [by apply (fills_trans f last L L1)|].
  split; [intros Ha; assert (L1 = L) as -> by (apply HS, Ha; lia); apply HS2; intros p Hp; apply Ha; lia|].
  destruct Hres as [E3|(E3 & (p & Hp & Hpz) & Hfull)]; rewrite (bind_ret _ _ _ _ _ E3); [left|right].
  - rewrite (fbytes_ext L L1) by (lia || apply HG). rewrite fbytes_app by lia. do 3 f_equal. lia.
  - split; [done|]. split; [|done]. exists p. split; [lia|].
    destruct (decide (fblk L f (p / BLKSIZE) = 0)) as [|Hnz]; [done|]. rewrite <- (gr_blk _ _ _ HG) in Hnz; [done| |done].
    change NBLOCKS with 1034. change MAXFILESIZE with 4235264 in *. change BLKSIZE with 4096. lia.
Qed.

Lemma size_safe L f : file_ok L f -> safe L (f_size f) /\ f_size f mod 4 = 0 /\ blk_of (f_size f) = blk_of f.
Proof.
  intros [H1 H2 H3 _ _ _]. unfold f_size. change MAXNAMELEN with 128. change sizeof_File with 256 in *.
  split; [apply H1; lia|]. split; [lia|]. apply H2. lia.
Qed.

Lemma io_fuel_ok pos count : 0 <= pos -> 0 <= count ->
  pos + count <= (pos / BLKSIZE + Z.of_nat (io_fuel count)) * BLKSIZE.
Proof. intros Hp Hc. unfold io_fuel. change BLKSIZE with 4096. lia. Qed.

Lemma read_ok L s f count offset : bc_ok L s -> file_ok L f -> 0 <= fsize L f <= MAXFILESIZE ->
  0 <= offset -> 0 <= count ->
  let len := Z.max 0 (Z.min count (fsize L f - offset)) in
  exists L' s', grows f L L' /\ bc_ok L' s' /\ fills f (offset + len) L L' /\ ((forall p, offset <= p < offset + len -> fblk L f (p / BLKSIZE) <> 0) -> L' = L) /\
    (file_read f count offset s = Ret (inr (len, fbytes L f offset len)) s'
     \/ (file_read f count offset s = Ret (inl (- E_NO_DISK)) s'
         /\ (exists p, offset <= p < offset + len /\ fblk L f (p / BLKSIZE) = 0) /\ forall b, 0 <= b < nb L' -> used L' b)).
Proof.
  intros HB HF Hsz Ho Hc len. unfold file_read. destruct (size_safe L f HF) as (Ss & As & _).
  destruct (fload32_safe L s _ HB Ss As) as (s1 & E1 & HB1). rewrite (bind_ret _ _ _ _ _ E1). fold (fsize L f).
  change MAXFILESIZE with 4235264 in Hsz. destruct (Z.leb_spec (fsize L f) offset) as [Hle|Hlt].
  - exists L, s1. split; [apply grows_refl; [apply HB|done]|]. split; [done|]. split; [done|]. split; [done|]. left. unfold fbytes.
    assert (len = 0) as -> by (unfold len; lia). done.
  - cbv zeta. rewrite (u32_small (fsize L f - offset)) by (unfold is_u32; lia).
    assert (Z.min count (fsize L f - offset) = len) as -> by (unfold len; lia). assert (0 <= len) by (unfold len; lia).
    assert (offset + len <= 4235264) by (unfold len; lia). rewrite u32_small by (unfold is_u32; lia).
    pose proof (io_fuel_ok offset len ltac:(lia) ltac:(lia)).
    destruct (read_from_ok f (offset + len) (io_fuel len) ltac:(done) L s1 offset HB1 HF)
      as (L' & s' & HG & HB' & HN & HS & Hr); [lia|done|]. replace (offset + len - offset) with len in Hr by lia.
    exists L', s'. split; [done|]. split; [done|]. split; [done|]. split; [done|].
    destruct Hr as [E|(E & Hr)]; rewrite (bind_ret _ _ _ _ _ E); [by left|by right].
Qed.

(** * Writing *)

(** Bytes stored in one of the blocks of the file. *)
Section Put.
Context (L : Z -> Z) (HL : disk_ok L) (f : Z) (HF : file_ok L f) (pos last : Z) (bs : list Z).
Context (Hpos : 0 <= pos < last) (Hlast : last <= MAXFILESIZE) (Hblk : fblk L f (pos / BLKSIZE) <> 0).
Context (Hbs : Z.of_nat (length bs) = chunk pos last) (Hby : Forall (fun x => 0 <= x < 2 ^ 8) bs).

Local Abbreviation va := (baddr (fblk L f (pos / BLKSIZE)) + pos mod BLKSIZE).
Local Abbreviation L' := (lput va bs L).

Lemma put_same k : in_cache k -> blk_of k <> fblk L f (pos / BLKSIZE) -> L' k = L k.
Proof.
  destruct (chunk_addr L HL f HF pos last Hpos Hlast Hblk) as (Hs & Hb & Hw & _). rewrite <- Hbs in Hw.
  intros Hk Hne. unfold lput, lcopy. rewrite bool_decide_eq_false_2; [done|]. intros Hr. apply Hne. rewrite <- Hb.
  apply (within_blk va (Z.of_nat (length bs))); try done. by apply (safe_in L).
Qed.

Lemma put_blk : owns L f (fblk L f (pos / BLKSIZE)).
Proof. apply fblk_owned; [|done]. by destruct (chunk_eq pos last Hpos Hlast) as (_ & _ & _ & _ & _ & _ & _ & _ & ? & _). Qed.

Lemma put_struct k : f <= k < f + sizeof_File -> L' k = L k.
Proof.
  intros Hk. destruct (fo_safe _ _ HF (k - f)) as [(Hc & _) _]; [lia|]. pose proof (fo_blk _ _ HF (k - f) ltac:(lia)) as Hb.
  replace (f + (k - f)) with k in * by lia. apply put_same; [done|]. rewrite Hb. intros E.
  by destruct (fo_owned _ _ HF _ put_blk) as (_ & _ & ?).
Qed.

Lemma put_edits : edits f L L' /\ fsize L' f = fsize L f /\ (forall n, 0 <= n < NBLOCKS -> fblk L' f n = fblk L f n)
  /\ forall p, 0 <= p < MAXFILESIZE ->
       fbyte L' f p = if decide (pos <= p < pos + chunk pos last) then nth (Z.to_nat (p - pos)) bs 0 else fbyte L f p.
Proof.
  destruct (chunk_addr L HL f HF pos last Hpos Hlast Hblk) as (Hs & Hb & Hw & Hd).
  destruct (chunk_eq pos last Hpos Hlast) as (_ & _ & _ & _ & _ & C1 & C2 & C3 & C4 & C5).
  pose proof (data_meta L va (Z.of_nat (length bs)) (fun i => u8 (nth (Z.to_nat i) bs 0)) HL Hd) as Hm.
  change (same_meta L L') in Hm. pose proof put_blk as Ho.
  assert (forall b, 0 <= b < nb L -> used L b -> used L' b) as Hu by (intros; by apply (used_meta L L')).
  destruct (file_same L L' f HL HF (proj1 Hm) ltac:(auto)) as (Hf & Hfb & HF').
  { intros k Hk. apply put_struct. unfold ptrs in Hk. change sizeof_File with 256. lia. }
  { intros Hz k Hc Hk. apply put_same; [done|]. rewrite Hk. intros E. by destruct (fo_ind _ _ HF _ C4 Hblk). }
  split_and!.
  - split; [|apply Hm|done| | |auto|done].
    + apply (lcopy_data L va _ _ HL Hd). auto using u8_range.
    + intros k Hk _ _ _ _ Hno. apply put_same; [done|]. intros E. apply Hno. by rewrite E.
    + intros b [Hz [->|(n & Hr & ->)]]; left; split; [done|left; by rewrite Hf|done|right; exists n; by rewrite Hfb].
  - unfold fsize. f_equal. apply lword_ext. intros i Hi. apply put_struct. unfold f_size.
    change MAXNAMELEN with 128. change sizeof_File with 256. lia.
  - done.
  - intros p Hp. case_decide as Hin.
    + rewrite (fbyte_chunk L' f pos last) by (done || by rewrite Hfb). rewrite Hfb by done.
      unfold lput, lcopy. rewrite bool_decide_eq_true_2 by lia.
      replace (va + (p - pos) - va) with (p - pos) by lia.
      destruct (nth_lookup_or_length bs (Z.to_nat (p - pos)) 0) as [E|E]; [|lia].
      apply (Forall_lookup_1 _ _ _ _ Hby) in E. unfold u8. by rewrite Z.mod_small.
    + unfold fbyte. change MAXFILESIZE with 4235264 in *.
      assert (0 <= p / BLKSIZE < NBLOCKS) as Hpn by (change NBLOCKS with 1034; change BLKSIZE with 4096; lia).
      rewrite Hfb by done. destruct (Z.eqb_spec (fblk L f (p / BLKSIZE)) 0) as [|Hz]; [done|].
      unfold lput, lcopy. rewrite bool_decide_eq_false_2; [done|]. rewrite Hbs. intros Hr.
      destruct (decide (p / BLKSIZE = pos / BLKSIZE)) as [E|E].
      * rewrite E in Hr. change BLKSIZE with 4096 in *. lia.
      * apply E. apply (fo_inj _ _ HF); try done. unfold baddr in Hr. change BLKSIZE with 4096 in *. lia.
Qed.
End Put.

(** The structure of a file that grows changes only where it names blocks. *)
Lemma grows_struct f L L' k : file_ok L f -> grows f L L' -> f <= k < f + sizeof_File -> ~ ptrs f k -> L' k = L k.
Proof.
  intros HF HG Hk Hp. destruct (fo_safe _ _ HF (k - f)) as [(Hc & Hb & Hu) Hz]; [lia|].
  pose proof (fo_blk _ _ HF (k - f) ltac:(lia)) as Hbk. replace (f + (k - f)) with k in * by lia.
  apply (gr_keep _ _ _ HG); try done; [lia|lia|]. intros Hn. rewrite Hbk. intros E.
  by destruct (fo_owned _ _ HF (find L f)) as (_ & _ & ?); [by split; [|left]|].
Qed.

Lemma grows_fsize f L L' : file_ok L f -> grows f L L' -> fsize L' f = fsize L f.
Proof.
  intros HF HG. unfold fsize. f_equal. apply lword_ext. intros i Hi. apply (grows_struct f); [done|done| |];
    unfold f_size, ptrs; change MAXNAMELEN with 128; change sizeof_File with 256; lia.
Qed.

(** The byte at [p] after [buf] has been written at [pos]. *)
Definition patch (buf : list Z) (pos : Z) (old : Z -> Z) (p : Z) : Z :=
  if decide (pos <= p < pos + Z.of_nat (length buf)) then nth (Z.to_nat (p - pos)) buf 0 else old p.

Definition bytes_ok (buf : list Z) : Prop := Forall (fun x => 0 <= x < 2 ^ 8) buf.

(** How a write ends: all of [buf] is in the file, or the disk is full and the
    file is as it was outside of the range to be written. *)
Definition written (f : Z) (buf : list Z) (pos : Z) (L L' : Z -> Z) (done : bool) : Prop :=
  (forall p, 0 <= p < MAXFILESIZE -> done = true \/ ~ (pos <= p < pos + Z.of_nat (length buf)) ->
     fbyte L' f p = patch buf pos (fbyte L f) p)
  /\ (done = true -> forall p, pos <= p < pos + Z.of_nat (length buf) -> fblk L' f (p / BLKSIZE) <> 0).

(** What has been written is what the file then holds there. *)
Lemma written_bytes f buf pos L L' : written f buf pos L L' true -> 0 <= pos -> pos + Z.of_nat (length buf) <= MAXFILESIZE ->
  fbytes L' f pos (Z.of_nat (length buf)) = buf.
Proof.
  intros [Hw _] Hp Hl. set (len := Z.of_nat (length buf)) in *. apply list_eq. intros i. unfold fbytes. rewrite list_lookup_fmap. destruct (decide (Z.of_nat i < len)) as [Hi|Hi].
  - rewrite (lookup_seqZ_lt pos len i) by done. cbn. rewrite Hw by (lia || by left). unfold patch. fold len.
    rewrite decide_True by lia. replace (Z.to_nat (pos + Z.of_nat i - pos)) with i by lia. destruct (nth_lookup_or_length buf i 0) as [Hx|Hx]; [done|lia].
  - rewrite (lookup_seqZ_ge pos len i) by lia. symmetry. apply lookup_ge_None_2. lia.
Qed.

Lemma patch_split buf pos n old p : 0 <= n <= Z.of_nat (length buf) ->
  patch (drop (Z.to_nat n) buf) (pos + n) (patch (take (Z.to_nat n) buf) pos old) p = patch buf pos old p.
Proof.
  intros Hn. unfold patch. rewrite length_drop, length_take.
  replace (Z.of_nat (length buf - Z.to_nat n)) with (Z.of_nat (length buf) - n) by lia.
  replace (Z.of_nat (Z.to_nat n `min` length buf)) with n by lia.
  destruct (decide (pos + n <= p < pos + n + (Z.of_nat (length buf) - n))) as [H1|H1].
  - rewrite decide_True by lia. rewrite !nth_lookup, lookup_drop. do 2 f_equal. lia.
  - destruct (decide (pos <= p < pos + n)) as [H2|H2].
    + rewrite decide_True by lia. rewrite !nth_lookup, lookup_take_lt by lia. done.
    + by rewrite decide_False by lia.
Qed.

Lemma written_nil f buf pos L d : Z.of_nat (length buf) <= 0 -> written f buf pos L L d.
Proof. intros Hl. split; [|lia]. intros p _ _. unfold patch. rewrite decide_False; [done|lia]. Qed.

(** The caller's buffer holds [buf], whatever is done to the file [f]. *)
Definition holds (f : Z) (L : Z -> Z) (src : Z -> Z -> FS (list Z)) (buf : list Z) : Prop :=
  forall L' s i n, edits f L L' -> bc_ok L' s -> 0 <= i -> 0 <= n -> i + n <= Z.of_nat (length buf) ->
  exists s', src i n s = Ret (take (Z.to_nat n) (drop (Z.to_nat i) buf)) s' /\ bc_ok L' s'.

Lemma plain_holds f L buf : holds f L (plain buf) buf.
Proof. intros L' s i n _ HB _ _ _. by exists s. Qed.

Lemma holds_edits f L L' src buf : edits f L L' -> holds f L src buf -> holds f L' src buf.
Proof. intros HE H L2 s i n HE2. apply H. by apply (edits_trans f L L'). Qed.

(** One round: the piece [bs] of the buffer goes to its place in the file. *)
Lemma write_round L s f pos last bs : bc_ok L s -> file_ok L f -> 0 <= pos < last -> last <= MAXFILESIZE -> fblk L f (pos / BLKSIZE) <> 0 ->
  Z.of_nat (length bs) = chunk pos last -> bytes_ok bs ->
  exists L' s', fwrite (baddr (fblk L f (pos / BLKSIZE)) + pos mod BLKSIZE) bs s = Ret tt s' /\ bc_ok L' s' /\ edits f L L'
    /\ fsize L' f = fsize L f /\ (forall n, 0 <= n < NBLOCKS -> fblk L' f n = fblk L f n)
    /\ forall p, 0 <= p < MAXFILESIZE -> fbyte L' f p = patch bs pos (fbyte L f) p.
Proof.
  intros HB HF Hp Hl Hz Hbs Hby. pose proof (bo_disk _ _ HB) as HL.
  destruct (chunk_addr L HL f HF pos last Hp Hl Hz) as (Hs & _ & Hw & Hd). rewrite <- Hbs in Hw.
  destruct (fwrite_ok L s _ bs HB (proj1 Hs) Hw Hd) as (s' & E & HB').
  destruct (put_edits L HL f HF pos last bs Hp Hl Hz Hbs Hby) as (HE & Hsz & Hfb & Hbyte).
  eexists _, s'. split; [exact E|]. split_and!; try done. unfold patch. by rewrite Hbs.
Qed.

(** What a write has achieved when the rest of it is done. *)
Lemma written_step f buf pos n L L1 L2 L3 d : 0 < n <= Z.of_nat (length buf) -> pos mod BLKSIZE + n <= BLKSIZE ->
  0 <= pos -> pos + Z.of_nat (length buf) <= MAXFILESIZE -> grows f L L1 -> edits f L2 L3 ->
  fblk L1 f (pos / BLKSIZE) <> 0 -> (forall m, 0 <= m < NBLOCKS -> fblk L2 f m = fblk L1 f m) ->
  (forall p, 0 <= p < MAXFILESIZE -> fbyte L2 f p = patch (take (Z.to_nat n) buf) pos (fbyte L1 f) p) ->
  written f (drop (Z.to_nat n) buf) (pos + n) L2 L3 d -> written f buf pos L L3 d.
Proof.
  intros Hn Hc Hp Hl HG HE3 Hz Hfb Hbyte [Hd3 Hd4]. split.
  - intros p Hp' Hdo. rewrite Hd3; [|done|rewrite length_drop; destruct Hdo as [|Hdo]; [by left|right; lia]].
    rewrite <- (patch_split buf pos n) by lia. unfold patch at 1 2. case_decide; [done|].
    rewrite Hbyte by done. unfold patch. by rewrite (gr_byte _ _ _ HG).
  - intros Hdt p Hp'. change MAXFILESIZE with 4235264 in *. change NBLOCKS with 1034 in *. destruct (Z.lt_ge_cases p (pos + n)) as [Hpn|Hpn].
    + change BLKSIZE with 4096 in *. assert (p / 4096 = pos / 4096) as -> by lia.
      assert (0 <= pos / 4096 < 1034) by lia. rewrite (ed_blk _ _ _ HE3); rewrite ?Hfb by done; done.
    + apply (Hd4 Hdt). rewrite length_drop. lia.
Qed.

Lemma write_from_ok f last fuel src : last <= MAXFILESIZE -> forall L s i pos buf0, bc_ok L s -> file_ok L f -> holds f L src buf0 ->
  let buf := drop (Z.to_nat i) buf0 in 0 <= i <= Z.of_nat (length buf0) ->
  0 <= pos -> pos + Z.of_nat (length buf) = last -> (pos < last -> last <= (pos / BLKSIZE + Z.of_nat fuel) * BLKSIZE) ->
  bytes_ok buf0 ->
  exists L' s', edits f L L' /\ bc_ok L' s' /\ fsize L' f = fsize L f /\ fills f last L L' /\
    ((file_write_from fuel f src i pos last s = Ret None s' /\ written f buf pos L L' true)
     \/ (file_write_from fuel f src i pos last s = Ret (Some (- E_NO_DISK)) s' /\ written f buf pos L L' false
         /\ forall b, 0 <= b < nb L' -> used L' b)).
Proof.
  intros Hlast. induction fuel as [|fuel IH]; intros L s i pos buf0 HB HF HH buf Hi Hpos Hlen Hfuel Hbuf; pose proof (bo_disk _ _ HB) as HL.
  { exists L, s. split; [by apply edits_refl|]. split; [done|]. split; [done|]. split; [done|]. left. split; [done|].
    apply written_nil. change BLKSIZE with 4096 in *. lia. }
  cbn [file_write_from]. rewrite u32_small by (change MAXFILESIZE with 4235264 in Hlast; unfold is_u32; lia).
  destruct (Z.ltb_spec pos last) as [Hlt|Hle].
  2: { exists L, s. split; [by apply edits_refl|]. split; [done|]. split; [done|]. split; [done|]. left. split; [done|].
       apply written_nil. lia. }
  destruct (chunk_eq pos last ltac:(lia) Hlast) as (_ & -> & -> & -> & -> & H1 & H2 & H3 & H4 & H5).
  destruct (get_block_ok L s f (pos / BLKSIZE) HB HF H4) as (L1 & s1 & HG & HB1 & HN & _ & [[E1 Hz]|(E1 & Hz & Hfull)]);
    rewrite (bind_ret _ _ _ _ _ E1); apply (fills_block f pos last) in HN; try lia.
  2: { exists L1, s1. split; [by apply grows_edits|]. split; [done|]. split; [by apply grows_fsize|]. split; [done|]. right.
       split; [done|]. split; [|done]. split; [|done]. intros p Hp [|Hno]; [done|]. unfold patch. rewrite decide_False by done. by apply (gr_byte _ _ _ HG). }
  set (n := chunk pos last) in *. assert (length buf = length buf0 - Z.to_nat i)%nat as Hlb by apply length_drop.
  destruct (HH L1 s1 i n) as (s2 & E2 & HB2); [by apply grows_edits|done|lia|lia|lia|]. rewrite (bind_ret _ _ _ _ _ E2). fold buf.
  destruct (write_round L1 s2 f pos last (take (Z.to_nat n) buf) HB2 (gr_file _ _ _ HG)) as (L2 & s3 & E3 & HB3 & HE & Hsz & Hfb & Hbyte);
    [lia|done|done|rewrite length_take; lia|by apply Forall_take, Forall_drop|]. rewrite (bind_ret _ _ _ _ _ E3).
  assert (edits f L L2) as HE2 by (apply (edits_trans f L L1); [by apply grows_edits|done]).
  destruct (IH L2 s3 (i + n) (pos + n) buf0 HB3 (ed_file _ _ _ HE) (holds_edits _ _ _ _ _ HE2 HH)) as (L3 & s4 & HE3 & HB4 & Hsz3 & HN3 & Hres);
    [lia|lia|rewrite length_drop; lia|unfold n, chunk in *; change BLKSIZE with 4096 in *; lia|done|].
  replace (drop (Z.to_nat (i + n)) buf0) with (drop (Z.to_nat n) buf) in Hres by (unfold buf; rewrite drop_drop; f_equal; lia).
  exists L3, s4. split; [by apply (edits_trans f L L2)|]. split; [done|]. split; [by rewrite Hsz3, Hsz, (grows_fsize f L)|].
  split; [intros m Hm Hml; by rewrite HN3, Hfb, HN by done|].
  assert (forall d, written f (drop (Z.to_nat n) buf) (pos + n) L2 L3 d -> written f buf pos L L3 d) as Hwr.
  { intros d. apply (written_step f buf pos n L L1 L2 L3 d); try done; lia. }
  destruct Hres as [[E4 Hw3]|(E4 & Hw3 & Hfull)]; [left|right]; auto.
Qed.

(** Storing the size. *)
Lemma size_edits L f v : disk_ok L -> file_ok L f -> is_u32 v ->
  let L' := lput32 (f_size f) v L in
  edits f L L' /\ fsize L' f = s32 v /\ (forall p, 0 <= p < MAXFILESIZE -> fbyte L' f p = fbyte L f p)
  /\ find L' f = find L f /\ (forall n, 0 <= n < NBLOCKS -> fblk L' f n = fblk L f n)
  /\ forall b, 0 <= b < nb L -> used L' b <-> used L b.
Proof.
  intros HL HF Hv L'. destruct (size_safe L f HF) as (Ss & As & Bs). pose proof (within4 _ (safe_in _ _ Ss) As) as Hw.
  pose proof (safe_meta L (f_size f) 4 (fun i => u8 (Z.shiftr v (8 * i))) HL Ss Hw) as Hm. change (same_meta L L') in Hm.
  assert (forall k, ~ (f_size f <= k < f_size f + 4) -> L' k = L k) as Hk.
  { intros k Hk. unfold L', lput32, lcopy. by rewrite bool_decide_eq_false_2. }
  assert (forall b k, owns L f b -> in_cache k -> blk_of k = b -> L' k = L k) as Ho.
  { intros b k Ho Hc Hb. apply Hk. intros Hr. destruct (fo_owned _ _ HF b Ho) as (_ & _ & Hx). apply Hx.
    rewrite <- Hb, <- Bs. by apply (within_blk (f_size f) 4); [apply (safe_in L)|..]. }
  assert (forall b, 0 <= b < nb L -> used L b -> used L' b) as Hu by (intros; by apply (used_meta L L')).
  destruct (file_same L L' f HL HF (proj1 Hm) ltac:(auto)) as (Hf & Hfb & HF').
  { intros k Hr. apply Hk. unfold ptrs in Hr. unfold f_size. change MAXNAMELEN with 128. lia. }
  { intros Hz k Hc Hb. apply (Ho (find L f)); try done. by split; [|left]. }
  split; [split|split; [|split; [|split; [done|split; [done|intros; by apply (used_meta L L')]]]]].
  - apply (same_meta_ok L); [intros; apply lput32_byte|done|done]. apply HL.
  - apply Hm.
  - done.
  - intros k _ _ _ _ Hr _. apply Hk. unfold head, f_size in *. change MAXNAMELEN with 128. tauto || lia.
  - intros b [Hz [->|(n & Hr & ->)]]; left; split; [done|left; by rewrite Hf|done|right; exists n; by rewrite Hfb].
  - auto.
  - done.
  - unfold fsize, L'. f_equal. by apply lput32_get.
  - intros p Hp. unfold fbyte. change MAXFILESIZE with 4235264 in *.
    assert (0 <= p / BLKSIZE < NBLOCKS) as Hpn by (change NBLOCKS with 1034; change BLKSIZE with 4096; lia).
    rewrite Hfb by done. destruct (Z.eqb_spec (fblk L f (p / BLKSIZE)) 0) as [|Hz]; [done|].
    pose proof (fblk_owned L f _ Hpn Hz) as Hob.
    destruct (owned_safe L HL f HF _ (p mod BLKSIZE) Hob) as [Hs Hbk]; [change BLKSIZE with 4096; lia|].
    by apply (Ho _ _ Hob (safe_in _ _ Hs)).
Qed.

(** [file_set_size] to a size that is not smaller. *)
Lemma set_size_up L s f v : bc_ok L s -> file_ok L f -> fsize L f <= v -> 0 <= v < 2 ^ 31 ->
  exists s', file_set_size f v s = Ret 0 s' /\ bc_ok (lput32 (f_size f) v L) s'.
Proof.
  intros HB HF Hle Hv. pose proof (bo_disk _ _ HB) as HL. unfold file_set_size. destruct (size_safe L f HF) as (Ss & As & Bs).
  assert (is_u32 v) as Hu by (unfold is_u32; lia).
  destruct (size_edits L f v HL HF Hu) as (HE & _).
  destruct (fload32_safe L s _ HB Ss As) as (s1 & E1 & HB1). rewrite (bind_ret _ _ _ _ _ E1). fold (fsize L f).
  rewrite (proj2 (Z.ltb_ge _ _) Hle), (bind_ret _ _ _ tt s1), (u32_small v) by done.
  destruct (fstore32_ok L s1 (f_size f) v HB1 (proj1 Ss)) as (s2 & E2 & HB2); [by apply within4; [apply (safe_in L)|]|apply HE|apply HE|].
  rewrite (bind_ret _ _ _ _ _ E2).
  destruct (fo_safe _ _ HF 0) as [(Hc & _) _]; [done|]. rewrite Z.add_0_r in Hc.
  destruct (flush_ok _ s2 f HB2 Hc) as (s3 & E3 & HB3 & _). rewrite (bind_ret _ _ _ _ _ E3). by exists s3.
Qed.

Lemma write_with_ok L s f src buf offset : bc_ok L s -> file_ok L f -> 0 <= fsize L f <= MAXFILESIZE -> holds f L src buf -> bytes_ok buf ->
  0 <= offset -> offset + Z.of_nat (length buf) <= MAXFILESIZE ->
  exists L' s', edits f L L' /\ bc_ok L' s' /\ fsize L' f = Z.max (fsize L f) (offset + Z.of_nat (length buf))
    /\ fills f (offset + Z.of_nat (length buf)) L L' /\
    ((file_write_with f src (Z.of_nat (length buf)) offset s = Ret (Z.of_nat (length buf)) s' /\ written f buf offset L L' true)
     \/ (file_write_with f src (Z.of_nat (length buf)) offset s = Ret (- E_NO_DISK) s' /\ written f buf offset L L' false
         /\ forall b, 0 <= b < nb L' -> used L' b)).
Proof.
  intros HB HF Hsz HH Hbuf Ho Hl. pose proof (bo_disk _ _ HB) as HL. set (len := Z.of_nat (length buf)) in *.
  unfold file_write_with. destruct (size_safe L f HF) as (Ss & As & _).
  destruct (fload32_safe L s _ HB Ss As) as (s1 & E1 & HB1). rewrite (bind_ret _ _ _ _ _ E1). fold (fsize L f). cbv zeta.
  assert (0 <= len) as Hlen by (unfold len; lia). change MAXFILESIZE with 4235264 in Hsz, Hl.
  rewrite (u32_small (offset + len)), (u32_small (fsize L f)) by (unfold is_u32; lia).
  assert (exists L2 s2, (if fsize L f <? offset + len then file_set_size f (s32 (offset + len)) ;;! ret tt else ret tt) s1 = Ret tt s2
    /\ bc_ok L2 s2 /\ edits f L L2 /\ fsize L2 f = Z.max (fsize L f) (offset + len) /\ (forall n, 0 <= n < NBLOCKS -> fblk L2 f n = fblk L f n)
    /\ forall p, 0 <= p < MAXFILESIZE -> fbyte L2 f p = fbyte L f p) as (L2 & s2 & E2 & HB2 & HE & Hs2 & Hn2 & Hb2).
  { destruct (Z.ltb_spec (fsize L f) (offset + len)) as [Hlt|Hge].
    - rewrite s32_small by lia. destruct (set_size_up L s1 f (offset + len) HB1 HF) as (s2 & E2 & HB2); [lia|lia|].
      destruct (size_edits L f (offset + len) HL HF) as (HE & Hs & Hb & _ & Hn & _); [unfold is_u32; lia|].
      exists (lput32 (f_size f) (offset + len) L), s2. rewrite (bind_ret _ _ _ _ _ E2). split_and!; try done.
      rewrite Hs, s32_small by lia. lia.
    - exists L, s1. split_and!; try done; [by apply edits_refl|lia]. }
  rewrite (bind_ret _ _ _ _ _ E2). pose proof (io_fuel_ok offset len Ho Hlen).
  destruct (write_from_ok f (offset + len) (io_fuel len) src Hl L2 s2 0 offset buf HB2 (ed_file _ _ _ HE) (holds_edits _ _ _ _ _ HE HH) ltac:(lia) Ho eq_refl ltac:(done) Hbuf)
    as (L3 & s3 & HE3 & HB3 & Hs3 & HN3 & Hres).
  assert (forall d, written f buf offset L2 L3 d -> written f buf offset L L3 d) as Hwr.
  { intros d [Hw Hw']. split; [|done]. intros p Hp Hc. rewrite Hw by done. unfold patch. case_decide; [done|]. by apply Hb2. }
  exists L3, s3. split; [by apply (edits_trans f L L2)|]. split; [done|]. split; [by rewrite Hs3|]. split; [intros m Hm Hml; by rewrite HN3, Hn2|].
  destruct Hres as [[E3 Hw3]|(E3 & Hw3 & Hfull)]; rewrite (bind_ret _ _ _ _ _ E3); [left|right]; auto.
Qed.

Lemma write_ok L s f buf offset : bc_ok L s -> file_ok L f -> 0 <= fsize L f <= MAXFILESIZE -> bytes_ok buf ->
  0 <= offset -> offset + Z.of_nat (length buf) <= MAXFILESIZE ->
  exists L' s', edits f L L' /\ bc_ok L' s' /\ fsize L' f = Z.max (fsize L f) (offset + Z.of_nat (length buf))
    /\ fills f (offset + Z.of_nat (length buf)) L L' /\
    ((file_write f buf offset s = Ret (Z.of_nat (length buf)) s' /\ written f buf offset L L' true)
     \/ (file_write f buf offset s = Ret (- E_NO_DISK) s' /\ written f buf offset L L' false
         /\ forall b, 0 <= b < nb L' -> used L' b)).
Proof. intros. apply write_with_ok; auto using plain_holds. Qed.
