(* ===== verification/FileTrunc.v ===== *)
(** fs/fs.c: [file_set_size]. Truncation gives back exactly the blocks past the
    new end, and keeps the rest of the file and every other file. *)

From stdpp Require Import base numbers list gmap strings.
From Stdlib Require Import ZArith Lia Bool.
From S2P Require Import Prelude Mmu Console Bc Fs BcSpec BitmapSpec FileSpec FileIo.

Local Ltac Zify.zify_post_hook ::= Z.to_euclidean_division_equations.

(** * Giving back one block *)

(** The disk after block [b] has been freed and the slot [sl] cleared. *)
Definition freed (sl b : Z) (L : Z -> Z) : Z -> Z := lput32 sl 0 (set_bit true b L).

Section Freed.
Context (L : Z -> Z) (HL : disk_ok L) (sl b : Z).
Context (Hsl : safe L sl) (Hal : sl mod 4 = 0) (Hb : first_data L <= b < nb L) (Hne : blk_of sl <> b).

Lemma freed_steps :
  let L1 := set_bit true b L in
  disk_ok L1 /\ nb L1 = nb L /\ safe L1 sl /\ disk_ok (freed sl b L) /\ nb (freed sl b L) = nb L
  /\ (forall x, 0 <= x < nb L -> used (freed sl b L) x <-> used L x /\ x <> b).
Proof.
  intros L1. pose proof (first_data_min L HL). destruct (set_bit_ok true b L HL) as [HL1 Hn1]; [lia|right; lia|]. fold L1 in HL1, Hn1.
  assert (forall x, 0 <= x < nb L -> used L1 x <-> used L x /\ x <> b) as Hu1.
  { intros x Hx. unfold L1. rewrite set_bit_used by (done || lia). destruct (decide (b = x)) as [->|]; split; [done|by intros [_ ?]|done|by intros [? _]]. }
  assert (safe L1 sl) as Hs1.
  { destruct Hsl as [(Hc & Hbs & Hus) Hsa]. split.
    - split; [done|]. rewrite Hn1. split; [done|]. by apply Hu1.
    - unfold first_data in *. by rewrite Hn1. }
  pose proof (within4 sl (safe_in _ _ Hsl) Hal) as Hw.
  pose proof (safe_meta L1 sl 4 (fun i => u8 (Z.shiftr 0 (8 * i))) HL1 Hs1 Hw) as Hm. change (same_meta L1 (freed sl b L)) in Hm.
  split_and!; try done.
  - apply (same_meta_ok L1); [intros; by apply lput32_byte|done|done].
  - by rewrite (proj1 Hm).
  - intros x Hx. rewrite (used_meta L1 (freed sl b L)) by (done || by rewrite Hn1). by apply Hu1.
Qed.

Lemma freed_same k : in_cache k -> blk_of k < 2 \/ first_data L <= blk_of k -> ~ (sl <= k < sl + 4) -> freed sl b L k = L k.
Proof.
  intros Hk Hm Hks. unfold freed, lput32, lcopy. rewrite bool_decide_eq_false_2 by done. apply set_bit_at; try done.
  pose proof (first_data_min L HL). lia.
Qed.

Lemma freed_word va : safe L va -> va mod 4 = 0 -> va <> sl -> lword (freed sl b L) va = lword L va.
Proof.
  intros Hs Ha Hv. apply lword_ext. intros i Hi. destruct (safe_byte L va i Hs Ha Hi) as [Hc Hbk].
  apply freed_same; rewrite ?Hbk; [done|by apply safe_zone|lia].
Qed.

Lemma freed_slot : lword (freed sl b L) sl = 0.
Proof. by apply lput32_get. Qed.
End Freed.

(** * Shrinking a file *)

(** Between [L] and [L'] blocks of [f] have been given back, and nothing else
    in use has changed but the block numbers of [f]. *)
Record shrinks (f : Z) (L L' : Z -> Z) : Prop := {
  sh_disk : disk_ok L';
  sh_nb : nb L' = nb L;
  sh_used : forall b, 0 <= b < nb L -> used L' b <-> used L b /\ (owns L f b -> owns L' f b);
  sh_keep : forall k, in_cache k -> blk_of k < 2 \/ first_data L <= blk_of k -> used L (blk_of k) -> blk_of k < nb L ->
    (owns L f (blk_of k) -> owns L' f (blk_of k)) -> ~ ptrs f k -> (find L f <> 0 -> blk_of k <> find L f) -> L' k = L k;
  sh_own : forall b, owns L' f b -> owns L f b;
  sh_find : find L' f = find L f \/ find L' f = 0;
  sh_file : file_ok L' f
}.

Lemma shrinks_refl f L : disk_ok L -> file_ok L f -> shrinks f L L.
Proof. intros HL HF. split; auto. intros b _. tauto. Qed.

Lemma shrinks_trans f L1 L2 L3 : shrinks f L1 L2 -> shrinks f L2 L3 -> shrinks f L1 L3.
Proof.
  intros [A1 A2 A3 A4 A5 A6 A7] [B1 B2 B3 B4 B5 B6 B7]. split; try done.
  - congruence.
  - intros b Hb. rewrite B3 by (by rewrite A2). rewrite A3 by done. pose proof (A5 b). pose proof (B5 b). tauto.
  - intros k Hk Hm Hu Hn Ho Hp Hi. destruct (blk_of_split k Hk) as (o & _ & _ & Hr & _).
    pose proof (A5 (blk_of k)) as H12. pose proof (B5 (blk_of k)) as H23.
    rewrite B4; [apply A4; try done; tauto|done|unfold first_data in *; by rewrite A2|apply A3; [lia|tauto]|by rewrite A2|tauto|done|].
    intros Hz. destruct A6 as [E|E]; rewrite E in *; [by apply Hi|done].
  - intros b Hb. by apply A5, B5.
  - destruct B6 as [->| ->]; [|by right]. exact A6.
Qed.

Section FreeSlot.
Context (L : Z -> Z) (HL : disk_ok L) (f : Z) (HF : file_ok L f) (sl b : Z) (Ho : owns L f b).
Context (Hsl : safe L sl) (Hal : sl mod 4 = 0) (Hne : blk_of sl <> b).

Local Abbreviation F := (freed sl b L).

(** Afterwards the file has lost [b] and nothing else. *)
Context (Hfind : find F f = if decide (find L f = b) then 0 else find L f).
Context (Hblk : forall m, 0 <= m < NBLOCKS -> fblk F f m = if decide (fblk L f m = b) then 0 else fblk L f m).

Lemma owned_data : first_data L <= b < nb L.
Proof. by destruct (fo_owned _ _ HF b Ho). Qed.

Lemma owns_freed x : owns F f x <-> owns L f x /\ x <> b.
Proof.
  split.
  - intros [Hx [->|(n & Hn & ->)]].
    + rewrite Hfind in *. case_decide; [done|]. split; [|done]. by split; [|left].
    + rewrite Hblk in * by done. case_decide; [done|]. split; [|done]. split; [done|]. right. by exists n.
  - intros [[Hx [->|(n & Hn & ->)]] Hxb]; split; [done| |done|].
    + left. by rewrite Hfind, decide_False.
    + right. exists n. by rewrite Hblk, decide_False.
Qed.

Lemma free_shrinks : sl = f_indirect f \/ (exists n, 0 <= n < NBLOCKS /\ (n < NDIRECT \/ find L f <> 0) /\ sl = fslot L f n) ->
  shrinks f L F.
Proof.
  intros Hwhere. pose proof owned_data as Hd.
  destruct (freed_steps L HL sl b Hsl Hal Hd Hne) as (_ & _ & _ & HF3 & Hn & Hu).
  pose proof HF as [H1 H2 H3 H4 H5 H6].
  split; [done|done| | | | |].
  - intros x Hx. rewrite Hu, owns_freed by done. split; [tauto|]. intros [Hxu Hxo]. split; [done|]. intros ->. by destruct (Hxo Ho).
  - intros k Hk Hm Hus Hlt Hown Hp Hi. apply freed_same; try done. intros Hr. unfold ptrs in Hp.
    destruct Hwhere as [->|(n & Hn' & Hacc & ->)].
    + unfold f_indirect in Hr. change MAXNAMELEN with 128 in Hr. change NDIRECT with 10 in Hr. lia.
    + destruct (fslot_safe L HL f HF n Hn' Hacc) as (Ss & As & Bs).
      destruct (Z.ltb_spec n NDIRECT) as [Hl|Hg].
      * unfold fslot in Hr. rewrite (proj2 (Z.ltb_lt _ _) Hl) in Hr. unfold f_direct in Hr.
        change MAXNAMELEN with 128 in Hr. change NDIRECT with 10 in Hl. lia.
      * destruct Hacc as [|Hz]; [lia|]. apply (Hi Hz). rewrite <- Bs.
        destruct (safe_byte L (fslot L f n) (k - fslot L f n) Ss As) as [_ Hx]; [lia|].
        by replace (fslot L f n + (k - fslot L f n)) with k in Hx by lia.
  - intros x Hx. by apply owns_freed in Hx as [? _].
  - rewrite Hfind. case_decide; [by right|by left].
  - split; [|done|done| | |].
    + intros i Hi. destruct (H1 i Hi) as [(Hc & Hr & Hus) Hz]. split; [split; [done|]|].
      * rewrite Hn. split; [done|]. apply Hu; [done|]. split; [done|]. rewrite H2 by done.
        intros E. by destruct (H4 b Ho) as (_ & _ & ?).
      * unfold first_data in *. by rewrite Hn.
    + intros x Hx. apply owns_freed in Hx as [Hx Hxb]. destruct (H4 x Hx) as (A & B & C). unfold first_data in *. rewrite Hn.
      split; [done|]. split; [|done]. pose proof (first_data_min L HL). unfold first_data in *. apply Hu; [lia|done].
    + intros n m Hn' Hm' Hz E. rewrite !Hblk in * by done. case_decide; [done|]. case_decide; [done|]. by apply H5.
    + intros n Hn' Hz. rewrite Hblk in * by done. case_decide; [done|]. rewrite Hfind. case_decide; [done|by apply H6].
Qed.
End FreeSlot.

Section FreeBlock.
Context (L : Z -> Z) (HL : disk_ok L) (f : Z) (HF : file_ok L f).

(** Block [n] of the file is given back. *)
Lemma free_slot_shrinks n : 0 <= n < NBLOCKS -> n < NDIRECT \/ find L f <> 0 -> fblk L f n <> 0 ->
  let F := freed (fslot L f n) (fblk L f n) L in
  shrinks f L F /\ find F f = find L f /\ (forall m, 0 <= m < NBLOCKS -> fblk F f m = if decide (m = n) then 0 else fblk L f m).
Proof.
  intros Hn Hacc Hz F. pose proof (fblk_owned L f n Hn Hz) as Ho. destruct (fslot_safe L HL f HF n Hn Hacc) as (Ss & As & Bs).
  destruct (find_safe L f HF) as (Si & Ai & _). pose proof (fo_ind _ _ HF n Hn Hz) as Hni.
  destruct (fo_owned _ _ HF _ Ho) as (Hd & _ & Hnb).
  assert (find F f = find L f) as Hf by (apply freed_word; try done; destruct (find_apart L HL f HF n Hn Hacc); lia).
  assert (forall m, 0 <= m < NBLOCKS -> fblk F f m = if decide (m = n) then 0 else fblk L f m) as Hm.
  { intros m Hm. assert (fslot F f m = fslot L f m) as Es by (unfold fslot; by rewrite Hf).
    unfold fblk. rewrite Hf, Es. destruct (_ || _) eqn:Em; [|by case_decide].
    assert (m < NDIRECT \/ find L f <> 0) as Haccm.
    { apply orb_true_iff in Em as [E|E]; [left; by apply Z.ltb_lt|right; by apply Z.eqb_neq, negb_true_iff]. }
    case_decide as Hmn; [subst; apply freed_slot|]. destruct (fslot_safe L HL f HF m Hm Haccm) as (Sm & Am & _).
    apply freed_word; try done. destruct (fslot_apart L HL f HF n m Hn Hm Hacc Haccm); lia. }
  split; [|done]. apply free_shrinks; try done.
  - rewrite Bs. by destruct (n <? NDIRECT); apply not_eq_sym.
  - fold F. rewrite Hf, decide_False; [done|]. by apply not_eq_sym.
  - intros m Hr. fold F. rewrite Hm by done. case_decide as Hmn; [subst; by rewrite decide_True|].
    rewrite decide_False; [done|]. intros E. apply Hmn. apply (fo_inj _ _ HF); try done; by rewrite E.
  - right. by exists n.
Qed.

(** The indirect block is given back once it is empty. *)
Lemma free_ind_shrinks : find L f <> 0 -> (forall n, NDIRECT <= n < NBLOCKS -> fblk L f n = 0) ->
  let F := freed (f_indirect f) (find L f) L in
  shrinks f L F /\ find F f = 0 /\ (forall m, 0 <= m < NBLOCKS -> fblk F f m = fblk L f m).
Proof.
  intros Hz Hall F. assert (owns L f (find L f)) as Ho by (by split; [|left]). destruct (find_safe L f HF) as (Si & Ai & Bi).
  destruct (fo_owned _ _ HF _ Ho) as (Hd & _ & Hnb). assert (find F f = 0) as Hf by apply freed_slot.
  assert (forall m, 0 <= m < NBLOCKS -> fblk F f m = fblk L f m) as Hm.
  { intros m Hm. destruct (Z.ltb_spec m NDIRECT) as [Hl|Hg].
    - rewrite !fblk_slot by (by left). destruct (fslot_safe L HL f HF m Hm) as (Sm & Am & _); [by left|].
      replace (fslot F f m) with (fslot L f m) by (unfold fslot; by rewrite (proj2 (Z.ltb_lt _ _) Hl)).
      apply freed_word; try done. destruct (find_apart L HL f HF m Hm); [by left|lia|lia].
    - rewrite (Hall m) by lia. unfold fblk. by rewrite (proj2 (Z.ltb_ge _ _) Hg), Hf. }
  split; [|done]. apply free_shrinks; try done.
  - rewrite Bi. by apply not_eq_sym.
  - fold F. by rewrite Hf, decide_True.
  - intros m Hr. fold F. rewrite Hm by done. case_decide as E; [|done].
    destruct (decide (fblk L f m = 0)) as [|Hmz]; [done|]. by destruct (fo_ind _ _ HF m Hr Hmz).
  - by left.
Qed.
End FreeBlock.

Lemma shrinks_fsize f L L' : file_ok L f -> shrinks f L L' -> fsize L' f = fsize L f.
Proof.
  intros HF HS. unfold fsize. f_equal. apply lword_ext. intros i Hi.
  destruct (fo_safe _ _ HF (128 + i)) as [(Hc & Hb & Hu) Hz]; [change sizeof_File with 256; lia|].
  pose proof (fo_blk _ _ HF (128 + i) ltac:(change sizeof_File with 256; lia)) as Hbk.
  assert (~ owns L f (blk_of f)) as Hno by (intros Ho; by destruct (fo_owned _ _ HF _ Ho) as (_ & _ & ?)).
  unfold f_size. change MAXNAMELEN with 128. rewrite <- Z.add_assoc.
  apply (sh_keep _ _ _ HS); try done; [lia|lia|by rewrite Hbk|unfold ptrs; lia|]. intros Hn. rewrite Hbk. intros E.
  apply Hno. rewrite E. by split; [|left].
Qed.

(** Blocks that stay keep their bytes. *)
Lemma shrinks_byte f L L' p : disk_ok L -> file_ok L f -> shrinks f L L' -> 0 <= p < MAXFILESIZE ->
  fblk L' f (p / BLKSIZE) = fblk L f (p / BLKSIZE) -> fbyte L' f p = fbyte L f p.
Proof.
  intros HL HF HS Hp E. unfold fbyte. rewrite E. change MAXFILESIZE with 4235264 in Hp.
  assert (0 <= p / BLKSIZE < NBLOCKS) as Hpn by (change NBLOCKS with 1034; change BLKSIZE with 4096; lia).
  destruct (Z.eqb_spec (fblk L f (p / BLKSIZE)) 0) as [|Hz]; [done|]. pose proof (fblk_owned L f _ Hpn Hz) as Ho.
  destruct (owned_safe L HL f HF _ (p mod BLKSIZE) Ho) as [Hs Hbk]; [change BLKSIZE with 4096; lia|].
  destruct (fo_owned _ _ HF _ Ho) as (Hd & Hu & Hnf). apply (sh_keep _ _ _ HS); rewrite ?Hbk; try done; try lia.
  - by apply (safe_in L).
  - intros _. rewrite <- E. apply fblk_owned; [done|by rewrite E].
  - intros Hpt. apply Hnf. rewrite <- Hbk. set (k := baddr _ + _) in *. unfold ptrs in Hpt.
    pose proof (fo_blk _ _ HF (k - f) ltac:(change sizeof_File with 256; lia)) as H. by replace (f + (k - f)) with k in H by lia.
  - intros _. by apply (fo_ind _ _ HF).
Qed.

(** * The code *)

Lemma put_zero L s sl b : bc_ok L s -> safe L sl -> sl mod 4 = 0 -> first_data L <= b < nb L -> blk_of sl <> b ->
  exists s', (free_block b ;;! fstore32 sl 0) s = Ret tt s' /\ bc_ok (freed sl b L) s'.
Proof.
  intros HB Hsl Hal Hb Hne. destruct (freed_steps L (bo_disk _ _ HB) sl b Hsl Hal Hb Hne) as (H1 & H2 & H3 & H4 & H5 & _).
  destruct (free_block_ok L s b HB Hb) as (s1 & E1 & HB1). rewrite (bind_ret _ _ _ _ _ E1).
  apply fstore32_ok; [done|apply H3|by apply within4; [apply (safe_in L)|]|done|by rewrite H2].
Qed.

Lemma file_free_block_ok L s f n : bc_ok L s -> file_ok L f -> 0 <= n < NBLOCKS ->
  exists r L' s', file_free_block f n s = Ret r s' /\ bc_ok L' s' /\ shrinks f L L' /\ find L' f = find L f
    /\ (forall m, 0 <= m < NBLOCKS -> fblk L' f m = if decide (m = n) then 0 else fblk L f m).
Proof.
  intros HB HF Hn. pose proof (bo_disk _ _ HB) as HL. unfold file_free_block.
  assert (forall s1, bc_ok L s1 -> n < NDIRECT \/ find L f <> 0 -> exists r L' s',
    (let! b := fload32 (fslot L f n) in (if negb (b =? 0) then free_block b ;;! fstore32 (fslot L f n) 0 else ret tt) ;;! ret 0) s1
      = Ret r s' /\ bc_ok L' s' /\ shrinks f L L' /\ find L' f = find L f
    /\ (forall m, 0 <= m < NBLOCKS -> fblk L' f m = if decide (m = n) then 0 else fblk L f m)) as Hslot.
  { intros s1 HB1 Hacc. destruct (fslot_safe L HL f HF n Hn Hacc) as (Ss & As & Bs).
    destruct (fload32_safe L s1 _ HB1 Ss As) as (s2 & E2 & HB2). rewrite (bind_ret _ _ _ _ _ E2), <- (fblk_slot L f n Hacc).
    destruct (Z.eqb_spec (fblk L f n) 0) as [Hz|Hz]; cbn [negb].
    - rewrite (bind_ret (ret tt) _ _ tt s2) by done. exists 0, L, s2. split_and!; try done; [by apply shrinks_refl|].
      intros m _. case_decide; [by subst|done].
    - pose proof (fblk_owned L f n Hn Hz) as Ho. destruct (fo_owned _ _ HF _ Ho) as (Hd & _ & Hnb).
      destruct (put_zero L s2 (fslot L f n) (fblk L f n) HB2 Ss As Hd) as (s3 & E3 & HB3).
      { rewrite Bs. destruct (n <? NDIRECT); apply not_eq_sym; [done|by apply (fo_ind _ _ HF)]. }
      rewrite (bind_ret _ _ _ _ _ E3). destruct (free_slot_shrinks L HL f HF n Hn Hacc Hz) as (HS & Hf & Hm).
      eexists 0, _, s3. split; [reflexivity|]. by split. }
  unfold file_block_walk. change (NINDIRECT + NDIRECT) with NBLOCKS. rewrite (proj2 (Z.ltb_ge NBLOCKS n)) by lia.
  destruct (Z.ltb_spec n NDIRECT) as [Hlt|Hge].
  { rewrite (bind_ret (ret _) _ _ (inr (fslot L f n)) s) by (unfold fslot; by rewrite (proj2 (Z.ltb_lt _ _) Hlt)).
    apply Hslot; [done|by left]. }
  destruct (find_safe L f HF) as (Si & Ai & _). destruct (fload32_safe L s _ HB Si Ai) as (s1 & E1 & HB1).
  unfold bind at 1. rewrite (bind_ret _ _ _ _ _ E1). fold (find L f). cbn [negb andb].
  destruct (Z.eqb_spec (find L f) 0) as [Hz|Hz].
  - eexists _, L, s1. split; [reflexivity|]. split; [done|]. split; [by apply shrinks_refl|]. split; [done|].
    intros m Hm. case_decide as E; [|done]. subst. unfold fblk. by rewrite (proj2 (Z.ltb_ge _ _) Hge), Hz.
  - rewrite (bind_ret (ret true) _ _ true s1) by done. cbn [negb]. destruct (fload32_safe L s1 _ HB1 Si Ai) as (s2 & E2 & HB2).
    rewrite (bind_ret _ _ _ _ _ E2). fold (find L f).
    destruct (owned_range L HL f HF (find L f)) as [Hr Hr']; [by split; [|left]|].
    rewrite (bind_ret _ _ _ _ _ (diskaddr_ok L s2 (find L f) HB2 ltac:(lia))). cbn [ret].
    assert (baddr (find L f) + 4 * (n - NDIRECT) = fslot L f n) as Es by (unfold fslot; by rewrite (proj2 (Z.ltb_ge _ _) Hge)).
    unfold ret at 1. rewrite Es. apply Hslot; [done|by right].
Qed.

(** How many blocks a size needs, and a file with none beyond its size. *)
Definition nblk (size : Z) : Z := (size + BLKSIZE - 1) / BLKSIZE.
Definition tidy (L : Z -> Z) (f : Z) : Prop := forall n, nblk (fsize L f) <= n < NBLOCKS -> fblk L f n = 0.

Lemma nblocks_of_eq size : 0 <= size <= MAXFILESIZE -> nblocks_of size = nblk size /\ 0 <= nblk size <= NBLOCKS.
Proof.
  intros Hs. change MAXFILESIZE with 4235264 in Hs. unfold nblocks_of, nblk. change BLKSIZE with 4096. change NBLOCKS with 1034.
  rewrite s32_small by lia. rewrite Z.quot_div_nonneg by lia. rewrite u32_small by (unfold is_u32; lia). lia.
Qed.

Lemma truncate_ok L s f newsize : bc_ok L s -> file_ok L f -> 0 <= fsize L f <= MAXFILESIZE -> tidy L f ->
  0 <= newsize <= fsize L f ->
  exists L' s', file_truncate_blocks f newsize s = Ret tt s' /\ bc_ok L' s' /\ shrinks f L L'
    /\ (forall n, 0 <= n < NBLOCKS -> fblk L' f n = if n <? nblk newsize then fblk L f n else 0).
Proof.
  intros HB HF Hs Ht Hns. pose proof (bo_disk _ _ HB) as HL. unfold file_truncate_blocks.
  destruct (size_safe L f HF) as (Ss & As & _). destruct (fload32_safe L s _ HB Ss As) as (s1 & E1 & HB1).
  rewrite (bind_ret _ _ _ _ _ E1). fold (fsize L f). cbv zeta.
  destruct (nblocks_of_eq (fsize L f) Hs) as [-> Ho]. destruct (nblocks_of_eq newsize ltac:(lia)) as [-> Hn].
  set (old := nblk (fsize L f)) in *. set (new := nblk newsize) in *. change (NDIRECT + NINDIRECT) with NBLOCKS.
  assert (new <= old) as Hle by (unfold new, old, nblk; change BLKSIZE with 4096; lia).
  replace (Z.min old (NBLOCKS + 1)) with old by lia.
  destruct (for_loop_inv (fun j s => exists L1, bc_ok L1 s /\ shrinks f L L1 /\ find L1 f = find L f
      /\ forall m, 0 <= m < NBLOCKS -> fblk L1 f m = if decide (new <= m < j) then 0 else fblk L f m)
    (fun bno => file_free_block f bno ;;! ret tt) (Z.to_nat (old - new)) new s1) as (s2 & E2 & L1 & HB2 & HS & Hf & Hm).
  { exists L. split_and!; try done; [by apply shrinks_refl|]. intros m _. by rewrite decide_False by lia. }
  { intros j s2 Hj (L1 & HB2 & HS & Hf & Hm).
    destruct (file_free_block_ok L1 s2 f j HB2 (sh_file _ _ _ HS)) as (r & L2 & s3 & E3 & HB3 & HS3 & Hf3 & Hm3); [lia|].
    exists s3. rewrite (bind_ret _ _ _ _ _ E3). split; [done|]. exists L2. split_and!; [done|by apply (shrinks_trans f L L1)|congruence|].
    intros m Hr. rewrite Hm3, Hm by done. destruct (decide (m = j)), (decide (new <= m < j)), (decide (new <= m < j + 1)); try done; lia. }
  rewrite (bind_ret _ _ _ _ _ E2). pose proof (sh_file _ _ _ HS) as HF1. pose proof (bo_disk _ _ HB2) as HL1.
  replace (new + Z.of_nat (Z.to_nat (old - new))) with old in Hm by lia.
  assert (forall n, 0 <= n < NBLOCKS -> fblk L1 f n = if n <? new then fblk L f n else 0) as Hfin.
  { intros n Hr. rewrite Hm by done. destruct (Z.ltb_spec n new) as [Hlt|Hge]; [by rewrite decide_False by lia|].
    case_decide; [done|]. apply Ht. lia. }
  destruct (find_safe L1 f HF1) as (Si & Ai & Bi). destruct (fload32_safe L1 s2 _ HB2 Si Ai) as (s3 & E3 & HB3).
  rewrite (bind_ret _ _ _ _ _ E3). fold (find L1 f).
  destruct (Z.leb_spec new NDIRECT) as [Hd|Hd]; cbn [andb]; [|by exists L1, s3].
  destruct (Z.eqb_spec (find L1 f) 0) as [Hz|Hz]; cbn [negb]; [by exists L1, s3|].
  assert (owns L1 f (find L1 f)) as Hown by (by split; [|left]). destruct (fo_owned _ _ HF1 _ Hown) as (Hdt & _ & Hnb).
  destruct (put_zero L1 s3 (f_indirect f) (find L1 f) HB3 Si Ai Hdt) as (s4 & E4 & HB4); [rewrite Bi; by apply not_eq_sym|].
  destruct (free_ind_shrinks L1 HL1 f HF1 Hz) as (HS4 & _ & Hm4).
  { intros n Hr. change NDIRECT with 10 in *. change NBLOCKS with 1034 in *. rewrite Hfin by lia. by rewrite (proj2 (Z.ltb_ge _ _)) by lia. }
  eexists _, s4. split; [exact E4|]. split; [done|]. split; [by apply (shrinks_trans f L L1)|].
  intros n Hr. by rewrite Hm4, Hfin.
Qed.

(** Another file is not affected. *)
Lemma shrinks_changes f L L' : shrinks f L L' -> changes f L L'.
Proof.
  intros [A1 A2 A3 A4 A5 A6 A7]. split; try done.
  - intros b Hb Ho Hu. apply A3; [done|]. split; [done|]. by intros Ho'.
  - intros k Hk Hm Hu Hn Hp Ho. apply A4; try done; [unfold head in Hp; tauto|]. intros Hz E. apply Ho. rewrite E. by split; [|left].
  - intros b Hb. left. by apply A5.
Qed.

(** Storing the size of a file that has changed already. *)
Lemma changes_size f v L L' : changes f L L' -> is_u32 v -> changes f L (lput32 (f_size f) v L').
Proof.
  intros [A1 A2 A3 A4 A5 A6] Hv. destruct (size_edits L' f v A1 A6 Hv) as (HE & _ & _ & Hfi & Hfb & Hus). set (L2 := lput32 (f_size f) v L') in *.
  assert (forall b, owns L2 f b -> owns L' f b) as Hown.
  { intros b [Hz [->|(n & Hr & ->)]]; split; try done; [left|right; exists n]; rewrite ?Hfi, ?Hfb by done; done. }
  split; [apply HE|by rewrite (ed_nb _ _ _ HE)| | |auto|apply HE].
  - intros b Hb Ho Hu. apply Hus; [by rewrite A2|auto].
  - intros k Hk Hm Hu Hn Hh Ho. rewrite <- A4 by done. destruct (blk_of_split k Hk) as (_ & _ & _ & Hr & _).
    apply (ed_keep _ _ _ HE); try done; [unfold first_data in *; by rewrite A2|apply A3; [lia|done|done]|by rewrite A2|].
    intros Ho'. by destruct (A5 _ Ho') as [|[? _]].
Qed.

(** What [file_set_size] promises. *)
Record resized (f newsize : Z) (L L' : Z -> Z) : Prop := {
  rz_changes : changes f L L';
  rz_file : file_ok L' f;
  rz_tidy : tidy L' f;
  rz_size : fsize L' f = newsize;
  rz_blk : forall n, 0 <= n < NBLOCKS -> fblk L' f n = if n <? nblk newsize then fblk L f n else 0;
  rz_byte : forall p, 0 <= p < MAXFILESIZE -> p / BLKSIZE < nblk newsize -> fbyte L' f p = fbyte L f p;
  rz_used : forall b, 0 <= b < nb L -> used L' b <-> used L b /\ (owns L f b -> owns L' f b);
  rz_other : forall g, file_ok L g -> apart L f g -> file_ok L' g /\ apart L' f g /\ fsize L' g = fsize L g
    /\ forall pos, 0 <= pos < MAXFILESIZE -> fbyte L' g pos = fbyte L g pos
}.

(** Setting the size after the blocks have been given back. *)
Lemma resized_store f v L L1 : disk_ok L -> file_ok L f -> shrinks f L L1 -> 0 <= v <= MAXFILESIZE ->
  (forall n, 0 <= n < NBLOCKS -> fblk L1 f n = if n <? nblk v then fblk L f n else 0) ->
  resized f v L (lput32 (f_size f) v L1).
Proof.
  intros HL HF HS Hv Hblk. pose proof (sh_disk _ _ _ HS) as HL1. pose proof (sh_file _ _ _ HS) as HF1.
  assert (is_u32 v) as Hu by (change MAXFILESIZE with 4235264 in Hv; unfold is_u32; lia).
  assert (s32 v = v) as Ev by (apply s32_small; change MAXFILESIZE with 4235264 in Hv; lia).
  destruct (size_edits L1 f v HL1 HF1 Hu) as (HE & Hsz & Hby & Hfi & Hfb & Hus). set (L2 := lput32 (f_size f) v L1) in *.
  rewrite Ev in Hsz.
  assert (forall b, owns L2 f b <-> owns L1 f b) as Hown.
  { intros b. split; intros [Hz [->|(n & Hr & ->)]]; split; try done; [left|right; exists n|left|right; exists n]; rewrite ?Hfi, ?Hfb by done; done. }
  pose proof (changes_size f v L L1 (shrinks_changes _ _ _ HS) Hu) as HC. fold L2 in HC.
  split; [done|apply HE|..].
  - intros n Hr. rewrite Hsz in Hr. destruct (nblocks_of_eq v Hv) as [_ Hn]. rewrite Hfb, Hblk by lia. by rewrite (proj2 (Z.ltb_ge _ _)) by lia.
  - done.
  - intros n Hr. by rewrite Hfb, Hblk.
  - intros p Hp Hlt. rewrite Hby by done. apply shrinks_byte; try done. change MAXFILESIZE with 4235264 in Hp.
    rewrite Hblk by (change NBLOCKS with 1034; change BLKSIZE with 4096; lia). by rewrite (proj2 (Z.ltb_lt _ _)).
  - intros b Hb. rewrite Hus, (sh_used _ _ _ HS), Hown by (done || by rewrite (sh_nb _ _ _ HS)). done.
  - intros g HG Hap. by apply others_kept.
Qed.

Lemma set_size_ok L s f v : bc_ok L s -> file_ok L f -> 0 <= fsize L f <= MAXFILESIZE -> tidy L f -> 0 <= v <= MAXFILESIZE ->
  exists L' s', file_set_size f v s = Ret 0 s' /\ bc_ok L' s' /\ resized f v L L'.
Proof.
  intros HB HF Hs Ht Hv. pose proof (bo_disk _ _ HB) as HL. assert (0 <= v < 2 ^ 31) as Hv' by (change MAXFILESIZE with 4235264 in Hv; lia).
  destruct (Z.lt_ge_cases v (fsize L f)) as [Hlt|Hge].
  2:{ destruct (set_size_up L s f v HB HF Hge Hv') as (s' & E & HB'). eexists _, s'. split; [exact E|]. split; [exact HB'|].
      apply resized_store; try done; [by apply shrinks_refl|]. intros n Hr. destruct (Z.ltb_spec n (nblk v)); [done|].
      apply Ht. split; [|lia]. unfold nblk in *. change BLKSIZE with 4096 in *. lia. }
  unfold file_set_size. destruct (size_safe L f HF) as (Ss & As & Bs).
  destruct (fload32_safe L s _ HB Ss As) as (s1 & E1 & HB1). rewrite (bind_ret _ _ _ _ _ E1). fold (fsize L f).
  rewrite (proj2 (Z.ltb_lt _ _) Hlt). destruct (truncate_ok L s1 f v HB1 HF Hs Ht) as (L1 & s2 & E2 & HB2 & HS & Hblk); [lia|].
  rewrite (bind_ret _ _ _ _ _ E2). pose proof (sh_file _ _ _ HS) as HF1. destruct (size_safe L1 f HF1) as (Ss1 & As1 & Bs1).
  rewrite (u32_small v) by (unfold is_u32; lia).
  destruct (size_edits L1 f v (bo_disk _ _ HB2) HF1) as (HE & _); [unfold is_u32; lia|].
  destruct (fstore32_ok L1 s2 (f_size f) v HB2 (proj1 Ss1)) as (s3 & E3 & HB3); [by apply within4; [apply (safe_in L1)|]|apply HE|apply HE|].
  rewrite (bind_ret _ _ _ _ _ E3). destruct (fo_safe _ _ HF 0) as [(Hc & _) _]; [done|]. rewrite Z.add_0_r in Hc.
  destruct (flush_ok _ s3 f HB3 Hc) as (s4 & E4 & HB4 & _). rewrite (bind_ret _ _ _ _ _ E4).
  eexists _, s4. split; [reflexivity|]. split; [exact HB4|]. by apply resized_store.
Qed.
