(* ===== verification/DirSpec.v ===== *)
(** fs/fs.c: directories and paths. What [walk_path] finds is what the bytes of
    the disk say, directory by directory. *)

From stdpp Require Import base numbers list gmap strings.
From Stdlib Require Import ZArith Lia Bool.
From S2P Require Import Prelude Mmu Console Bc Fs BcSpec BitmapSpec FileSpec FileIo.

Local Ltac Zify.zify_post_hook ::= Z.to_euclidean_division_equations.

(** * Directories as lists of entries *)

(** The string at [va] is [name]. *)
Fixpoint streq (L : Z -> Z) (va : Z) (name : list Z) : bool :=
  match name with
  | [] => L va =? 0
  | c :: name => (L va =? c) && streq L (va + 1) name
  end.

Definition ftype (L : Z -> Z) (f : Z) : Z := lword L (f_type f).

Definition entries_of (b : Z) : list Z := (fun j => baddr b + sizeof_File * j) <$> seqZ 0 BLKFILES.
Definition entries (L : Z -> Z) (dir : Z) : list Z :=
  concat ((fun i => entries_of (fblk L dir i)) <$> seqZ 0 (fsize L dir / BLKSIZE)).

(** The first entry of a list that a test accepts. *)
Definition dir_find (L : Z -> Z) (dir : Z) (name : list Z) : option Z := List.find (fun f => streq L f name) (entries L dir).
Definition dir_free (L : Z -> Z) (dir : Z) : option Z := List.find (fun f => L f =? 0) (entries L dir).

(** A directory: a file of whole blocks, none of them missing. *)
Record dir_ok (L : Z -> Z) (dir : Z) : Prop := {
  dk_file : file_ok L dir;
  dk_size : 0 <= fsize L dir <= MAXFILESIZE;
  dk_even : fsize L dir mod BLKSIZE = 0;
  dk_full : forall n, 0 <= n < fsize L dir / BLKSIZE -> fblk L dir n <> 0
}.

(** The names of a path, and the file they lead to. *)
Fixpoint elems (fuel : nat) (path : list Z) : list (list Z) :=
  match fuel, path with
  | S k, _ :: _ => let (name, rest) := path_elem path in name :: elems k (skip_slash rest)
  | _, _ => []
  end.
Definition names (path : list Z) : list (list Z) := let p := skip_slash path in elems (length p) p.

Fixpoint resolve (L : Z -> Z) (f : Z) (ns : list (list Z)) : Z + Z :=
  match ns with
  | [] => inr f
  | n :: ns =>
      if MAXNAMELEN <=? Z.of_nat (length n) then inl (- E_BAD_PATH)
      else if negb (ftype L f =? FTYPE_DIR) then inl (- E_NOT_FOUND)
      else match dir_find L f n with Some f' => resolve L f' ns | None => inl (- E_NOT_FOUND) end
  end.

(** The directories on the way are in order. *)
Fixpoint walkable (L : Z -> Z) (f : Z) (ns : list (list Z)) : Prop :=
  match ns with
  | [] => True
  | n :: ns => ftype L f = FTYPE_DIR -> dir_ok L f /\ match dir_find L f n with Some f' => walkable L f' ns | None => True end
  end.

(** * Reading a directory *)

Lemma fload8_safe L s va : bc_ok L s -> accessible L va -> exists s', fload8 va s = Ret (L va) s' /\ bc_ok L s'.
Proof. intros [HL HC] Ha. destruct (fload8_ok L HL va s HC Ha) as (s' & E & HC'). exists s'. by split. Qed.

Lemma fstreq_ok L name : forall va s, bc_ok L s -> (forall i, 0 <= i <= Z.of_nat (length name) -> accessible L (va + i)) ->
  exists s', fstreq va name s = Ret (streq L va name) s' /\ bc_ok L s'.
Proof.
  induction name as [|c name IH]; intros va s HB Ha; cbn [fstreq streq].
  - destruct (fload8_safe L s va HB) as (s' & E & HB'); [rewrite <- (Z.add_0_r va); apply Ha; lia|]. exists s'. by rewrite (bind_ret _ _ _ _ _ E).
  - destruct (fload8_safe L s va HB) as (s1 & E & HB1); [rewrite <- (Z.add_0_r va); apply Ha; lia|]. rewrite (bind_ret _ _ _ _ _ E).
    destruct (L va =? c); [|by exists s1]. apply IH; [done|]. intros i Hi. replace (va + 1 + i) with (va + (i + 1)) by lia. apply Ha. cbn [length]. lia.
Qed.

(** The existing blocks of a file are found without a change to the disk. *)
Lemma get_block_same L s f n : bc_ok L s -> file_ok L f -> 0 <= n < NBLOCKS -> fblk L f n <> 0 ->
  exists s', file_get_block f n s = Ret (inr (baddr (fblk L f n))) s' /\ bc_ok L s'.
Proof.
  intros HB HF Hn Hz. destruct (get_block_ok L s f n HB HF Hn) as (L' & s' & _ & HB' & _ & HS & Hr). rewrite (HS Hz) in *. exists s'.
  split; [|done]. by destruct Hr as [[E _]|(_ & ? & _)].
Qed.

Section Scan.
Context (L : Z -> Z) (dir : Z) (HD : dir_ok L dir) (scan : Z -> FS (option Z)) (P : Z -> bool).
Context (Hscan : forall b s, owns L dir b -> bc_ok L s ->
  exists s', scan (baddr b) s = Ret (List.find P (entries_of b)) s' /\ bc_ok L s').

Lemma find_app {A} (Q : A -> bool) l r : List.find Q (l ++ r) = match List.find Q l with Some x => Some x | None => List.find Q r end.
Proof. induction l as [|x l IH]; [done|]. cbn. by destruct (Q x). Qed.

Lemma dir_scan_ok fuel : forall i s, bc_ok L s -> 0 <= i <= fsize L dir / BLKSIZE -> fsize L dir / BLKSIZE - i < Z.of_nat fuel ->
  exists s', dir_scan fuel dir i (fsize L dir / BLKSIZE) scan s
      = Ret (inr (List.find P (concat ((fun i => entries_of (fblk L dir i)) <$> seqZ i (fsize L dir / BLKSIZE - i))))) s'
    /\ bc_ok L s'.
Proof.
  destruct HD as [HF Hs He Hf]. induction fuel as [|fuel IH]; intros i s HB Hi Hfu; [lia|]. cbn [dir_scan].
  destruct (Z.leb_spec (fsize L dir / BLKSIZE) i) as [Hle|Hlt].
  { exists s. rewrite seqZ_nil by lia. done. }
  assert (0 <= i < NBLOCKS) as Hn by (change NBLOCKS with 1034; change MAXFILESIZE with 4235264 in Hs; change BLKSIZE with 4096 in *; lia).
  pose proof (Hf i ltac:(lia)) as Hz. destruct (get_block_same L s dir i HB HF Hn Hz) as (s1 & E1 & HB1). rewrite (bind_ret _ _ _ _ _ E1).
  destruct (Hscan (fblk L dir i) s1 (fblk_owned L dir i Hn Hz) HB1) as (s2 & E2 & HB2). rewrite (bind_ret _ _ _ _ _ E2).
  rewrite seqZ_cons by lia. cbn [fmap list_fmap concat]. rewrite find_app.
  destruct (List.find P (entries_of (fblk L dir i))); [by exists s2|]. destruct (IH (i + 1) s2 HB2 ltac:(lia) ltac:(lia)) as (s3 & E3 & HB3).
  exists s3. split; [|done]. rewrite E3. by replace (Z.pred (fsize L dir / BLKSIZE - i)) with (fsize L dir / BLKSIZE - (i + 1)) by lia.
Qed.

Lemma dir_blocks_ok s : bc_ok L s -> exists s', dir_blocks dir s = Ret (fsize L dir / BLKSIZE) s' /\ bc_ok L s'.
Proof.
  intros HB. destruct HD as [HF Hs He Hf]. unfold dir_blocks. destruct (size_safe L dir HF) as (Ss & As & _).
  destruct (fload32_safe L s _ HB Ss As) as (s1 & E1 & HB1). rewrite (bind_ret _ _ _ _ _ E1). fold (fsize L dir).
  change MAXFILESIZE with 4235264 in Hs. change BLKSIZE with 4096 in *. rewrite Z.rem_mod_nonneg, He, Z.quot_div_nonneg by lia.
  exists s1. split; [|done]. cbv [assert_]. change (0 =? 0) with true. rewrite (bind_ret _ _ _ tt s1) by done. rewrite u32_small by (unfold is_u32; lia). done.
Qed.

Lemma scan_dir_ok s : bc_ok L s -> exists s1 s2, dir_blocks dir s = Ret (fsize L dir / BLKSIZE) s1
  /\ dir_scan dir_fuel dir 0 (fsize L dir / BLKSIZE) scan s1 = Ret (inr (List.find P (entries L dir))) s2 /\ bc_ok L s1 /\ bc_ok L s2.
Proof.
  intros HB. destruct (dir_blocks_ok s HB) as (s1 & E1 & HB1). pose proof (dk_size _ _ HD) as Hs. change MAXFILESIZE with 4235264 in Hs.
  destruct (dir_scan_ok dir_fuel 0 s1 HB1) as (s2 & E2 & HB2); [change BLKSIZE with 4096; lia|change (Z.of_nat dir_fuel) with 1036; change BLKSIZE with 4096; lia|].
  rewrite Z.sub_0_r in E2. by exists s1, s2.
Qed.
End Scan.

(** The entries of a block. *)
Lemma entries_seq b n j : 0 <= n -> 0 <= j -> j + n = BLKFILES ->
  (fun j => baddr b + sizeof_File * j) <$> seqZ j n = match Z.to_nat n with O => [] | S _ => (baddr b + sizeof_File * j) :: ((fun j => baddr b + sizeof_File * j) <$> seqZ (j + 1) (n - 1)) end.
Proof.
  intros Hn Hj HE. destruct (Z.to_nat n) eqn:E; [by rewrite seqZ_nil by lia|]. by rewrite seqZ_cons by lia.
Qed.

Section Entries.
Context (L : Z -> Z) (dir : Z) (HL : disk_ok L) (HF : file_ok L dir).

(** Bytes of an entry may be read. *)
Lemma entry_access b j i : owns L dir b -> 0 <= j < BLKFILES -> 0 <= i < sizeof_File -> safe L (baddr b + sizeof_File * j + i) /\ blk_of (baddr b + sizeof_File * j + i) = b.
Proof.
  intros Ho Hj Hi. change BLKFILES with 16 in Hj. change sizeof_File with 256 in *. rewrite <- Z.add_assoc. apply (owned_safe L HL dir HF b); [done|]. change BLKSIZE with 4096. lia.
Qed.

Lemma find_name_ok b name : owns L dir b -> Z.of_nat (length name) < MAXNAMELEN -> forall n j s, bc_ok L s -> 0 <= j -> j + Z.of_nat n = BLKFILES ->
  exists s', find_name n (baddr b + sizeof_File * j) name s
      = Ret (List.find (fun f => streq L f name) ((fun j => baddr b + sizeof_File * j) <$> seqZ j (Z.of_nat n))) s' /\ bc_ok L s'.
Proof.
  intros Ho Hl. change MAXNAMELEN with 128 in Hl. induction n as [|n IH]; intros j s HB Hj HE; cbn [find_name]; [by exists s|].
  rewrite entries_seq by lia. rewrite Nat2Z.id. cbn [List.find]. unfold f_name.
  destruct (fstreq_ok L name (baddr b + sizeof_File * j) s HB) as (s1 & E1 & HB1).
  { intros i Hi. apply (entry_access b j i); [done|lia|change sizeof_File with 256; lia]. }
  rewrite (bind_ret _ _ _ _ _ E1). destruct (streq L _ name); [by exists s1|].
  replace (baddr b + sizeof_File * j + sizeof_File) with (baddr b + sizeof_File * (j + 1)) by lia. replace (Z.of_nat (S n) - 1) with (Z.of_nat n) by lia.
  apply IH; [done|lia|lia].
Qed.

Lemma find_free_ok b : owns L dir b -> forall n j s, bc_ok L s -> 0 <= j -> j + Z.of_nat n = BLKFILES ->
  exists s', find_free n (baddr b + sizeof_File * j) s
      = Ret (List.find (fun f => L f =? 0) ((fun j => baddr b + sizeof_File * j) <$> seqZ j (Z.of_nat n))) s' /\ bc_ok L s'.
Proof.
  intros Ho. induction n as [|n IH]; intros j s HB Hj HE; cbn [find_free]; [by exists s|].
  rewrite entries_seq by lia. rewrite Nat2Z.id. cbn [List.find]. unfold f_name.
  destruct (entry_access b j 0 Ho ltac:(lia) ltac:(change sizeof_File with 256; lia)) as [[Ha _] _]. rewrite Z.add_0_r in Ha.
  destruct (fload8_safe L s _ HB Ha) as (s1 & E1 & HB1). rewrite (bind_ret _ _ _ _ _ E1). destruct (_ =? 0); [by exists s1|].
  replace (baddr b + sizeof_File * j + sizeof_File) with (baddr b + sizeof_File * (j + 1)) by lia. replace (Z.of_nat (S n) - 1) with (Z.of_nat n) by lia.
  apply IH; [done|lia|lia].
Qed.
End Entries.

Lemma dir_lookup_ok L s dir name : bc_ok L s -> dir_ok L dir -> Z.of_nat (length name) < MAXNAMELEN ->
  exists s', dir_lookup dir name s = Ret (match dir_find L dir name with Some f => inr f | None => inl (- E_NOT_FOUND) end) s' /\ bc_ok L s'.
Proof.
  intros HB HD Hl. unfold dir_lookup.
  destruct (scan_dir_ok L dir HD (fun blk => find_name BLKFILES_nat blk name) (fun f => streq L f name)) with (s := s) as (s1 & s2 & E1 & E2 & _ & HB2); [|done|].
  { intros b s0 Ho HB0. pose proof (find_name_ok L dir (bo_disk _ _ HB0) (dk_file _ _ HD) b name Ho Hl BLKFILES_nat 0 s0 HB0 ltac:(lia) ltac:(done)) as Hx.
    rewrite Z.mul_0_r, Z.add_0_r in Hx. exact Hx. }
  rewrite (bind_ret _ _ _ _ _ E1), (bind_ret _ _ _ _ _ E2). exists s2. split; [|done]. unfold dir_find. by destruct (List.find _ _).
Qed.

(** * Paths *)

Lemma path_elem_length p : forall n r, path_elem p = (n, r) -> (length n + length r = length p)%nat.
Proof.
  induction p as [|c p IH]; intros n r; cbn; [by intros [= <- <-]|]. destruct (c =? SLASH); [by intros [= <- <-]|].
  destruct (path_elem p) as [e r'] eqn:E. intros [= <- <-]. cbn. rewrite <- (IH e r'); done.
Qed.

Lemma skip_slash_length p : (length (skip_slash p) <= length p)%nat.
Proof. induction p as [|c p IH]; cbn; [done|]. destruct (c =? SLASH); cbn; lia. Qed.

Lemma skip_slash_head p : match skip_slash p with c :: _ => c <> SLASH | [] => True end.
Proof. induction p as [|c p IH]; cbn; [done|]. destruct (Z.eqb_spec c SLASH); done. Qed.

(** Each round of the walk takes at least one character. *)
Lemma round_length c p n r : c <> SLASH -> path_elem (c :: p) = (n, r) -> (length (skip_slash r) < length (c :: p))%nat.
Proof.
  intros Hc E. pose proof (path_elem_length _ _ _ E) as Hl. pose proof (skip_slash_length r). cbn in E.
  destruct (Z.eqb_spec c SLASH); [done|]. destruct (path_elem p) as [e r']. injection E as <- <-. cbn in Hl. cbn. lia.
Qed.

(** The structure of a file at [f] may be read. *)
Definition struct_ok (L : Z -> Z) (f : Z) : Prop := (forall i, 0 <= i < sizeof_File -> safe L (f + i)) /\ f mod 4 = 0.

Lemma type_ok L s f : bc_ok L s -> struct_ok L f -> exists s', fload32 (f_type f) s = Ret (ftype L f) s' /\ bc_ok L s'.
Proof.
  intros HB [Hs Ha]. apply fload32_safe; [done| |]; unfold f_type; change MAXNAMELEN with 128; rewrite <- Z.add_assoc; [|lia].
  apply Hs. change sizeof_File with 256. lia.
Qed.

Lemma entries_in L dir f : dir_ok L dir -> In f (entries L dir) ->
  exists n j, 0 <= n < NBLOCKS /\ n < fsize L dir / BLKSIZE /\ fblk L dir n <> 0 /\ owns L dir (fblk L dir n) /\ 0 <= j < BLKFILES
    /\ f = baddr (fblk L dir n) + sizeof_File * j.
Proof.
  intros [HF Hs He Hf] Hin. apply in_concat in Hin as (l & Hl & Hin). apply list_elem_of_In, list_elem_of_fmap in Hl as (n & -> & Hn).
  apply elem_of_seqZ in Hn. apply list_elem_of_In, list_elem_of_fmap in Hin as (j & -> & Hj). apply elem_of_seqZ in Hj.
  assert (0 <= n < NBLOCKS) as Hnb by (change NBLOCKS with 1034; change MAXFILESIZE with 4235264 in Hs; change BLKSIZE with 4096 in *; lia).
  exists n, j. split; [done|]. split; [lia|]. pose proof (Hf n ltac:(lia)) as Hz. split; [done|]. split; [by apply fblk_owned|]. split; [lia|done].
Qed.

Lemma entry_struct L dir f : disk_ok L -> dir_ok L dir -> In f (entries L dir) -> struct_ok L f.
Proof.
  intros HL HD Hin. destruct (entries_in L dir f HD Hin) as (n & j & _ & _ & _ & Ho & Hj & ->).
  split; [intros i Hi; by apply (entry_access L dir HL (dk_file _ _ HD))|].
  unfold baddr, DISKMAP. change BLKSIZE with 4096. change sizeof_File with 256. lia.
Qed.

Lemma root_struct L : disk_ok L -> struct_ok L (s_root SUPER).
Proof.
  intros HL. pose proof (do_nb _ HL) as Hn. destruct (do_reserved _ HL) as [_ Hu].
  assert (forall va, SUPER + 8 <= va < SUPER + 8 + 256 -> in_cache va /\ blk_of va = 1) as Hb.
  { intros va Hv. unfold SUPER, DISKMAP in Hv. change BLKSIZE with 4096 in Hv.
    assert (in_cache va) as Hc by (unfold in_cache, DISKMAP, DISKSIZE; lia). split; [done|]. rewrite blk_of_cache by done. unfold DISKMAP. change BLKSIZE with 4096. lia. }
  split; [|done]. unfold s_root. change sizeof_File with 256. intros i Hi. destruct (Hb (SUPER + 8 + i) ltac:(lia)) as [Hc E].
  split; [split; [done|]; rewrite E; split; [lia|done]|]. left. split; [done|lia].
Qed.

(** The result of [walk_path] as a function of the disk. *)
Fixpoint walk_result (L : Z -> Z) (dir : option Z) (f : Z) (ns : list (list Z)) : walked :=
  match ns with
  | [] => mkWalked 0 dir (Some f) []
  | n :: ns =>
      if MAXNAMELEN <=? Z.of_nat (length n) then mkWalked (- E_BAD_PATH) None None []
      else if negb (ftype L f =? FTYPE_DIR) then mkWalked (- E_NOT_FOUND) None None []
      else
        match dir_find L f n with
        | Some f' => walk_result L (Some f) f' ns
        | None => if bool_decide (ns = []) then mkWalked (- E_NOT_FOUND) (Some f) None n else mkWalked (- E_NOT_FOUND) None None []
        end
  end.

Lemma walk_from_ok L k : forall fuel s dir f path, (length path <= k)%nat -> (length path < fuel)%nat -> match path with c :: _ => c <> SLASH | [] => True end ->
  bc_ok L s -> struct_ok L f -> walkable L f (elems k path) ->
  exists s', walk_from fuel dir f path s = Ret (walk_result L dir f (elems k path)) s' /\ bc_ok L s'.
Proof.
  induction k as [|k IH]; intros fuel s dir f path Hk Hfu Hc HB Hf Hw; (destruct fuel as [|fuel]; [lia|]); cbn [walk_from];
    (destruct path as [|c path]; [by exists s|]); [cbn in Hk; lia|].
  cbn [elems] in Hw |- *. destruct (path_elem (c :: path)) as [n r] eqn:E. pose proof (round_length c path n r Hc E) as Hl.
  pose proof (skip_slash_head r) as Hh. cbn [walkable walk_result] in *. destruct (MAXNAMELEN <=? Z.of_nat (length n)) eqn:El; [by exists s|]. apply Z.leb_gt in El.
  destruct (type_ok L s f HB Hf) as (s1 & E1 & HB1). cbv zeta. rewrite (bind_ret _ _ _ _ _ E1).
  destruct (Z.eqb_spec (ftype L f) FTYPE_DIR) as [Ht|Ht]; cbn [negb]; [|by exists s1]. destruct (Hw Ht) as [HD Hw'].
  destruct (dir_lookup_ok L s1 f n HB1 HD El) as (s2 & E2 & HB2). rewrite (bind_ret _ _ _ _ _ E2).
  destruct (dir_find L f n) as [f'|] eqn:Ef.
  - apply IH; [lia|lia|done|done| |done]. apply find_some in Ef as [Hin _]. by apply (entry_struct L f f' (bo_disk _ _ HB)).
  - exists s2. split; [|done]. rewrite Z.eqb_refl. cbn [andb].
    assert (bool_decide (skip_slash r = []) = bool_decide (elems k (skip_slash r) = [])) as ->; [|by destruct (bool_decide _)].
    apply bool_decide_ext. destruct (skip_slash r) as [|c' r']; [by destruct k|]. split; [done|].
    destruct k as [|k]; [cbn in Hl, Hk; lia|]. cbn [elems]. destruct (path_elem (c' :: r')). intros Hx. discriminate Hx.
Qed.

Lemma walk_path_ok L s path : bc_ok L s -> walkable L (s_root SUPER) (names path) ->
  exists s', walk_path path s = Ret (walk_result L None (s_root SUPER) (names path)) s' /\ bc_ok L s'.
Proof.
  intros HB Hw. unfold walk_path, names in *. apply walk_from_ok; [done|lia|apply skip_slash_head|done|apply root_struct, HB|done].
Qed.

Lemma walk_resolve L ns : forall dir f, match wk_f (walk_result L dir f ns) with Some f' => if wk_r (walk_result L dir f ns) =? 0 then inr f' else inl (wk_r (walk_result L dir f ns))
  | None => inl (wk_r (walk_result L dir f ns)) end = resolve L f ns.
Proof.
  induction ns as [|n ns IH]; intros dir f; [done|]. cbn [walk_result resolve]. destruct (_ <=? _); [done|]. destruct (negb _); [done|].
  destruct (dir_find L f n); [apply IH|]. by destruct (bool_decide _).
Qed.

Lemma file_open_ok L s path : bc_ok L s -> walkable L (s_root SUPER) (names path) ->
  exists s', file_open path s = Ret (resolve L (s_root SUPER) (names path)) s' /\ bc_ok L s'.
Proof.
  intros HB Hw. unfold file_open. destruct (walk_path_ok L s path HB Hw) as (s1 & E1 & HB1). rewrite (bind_ret _ _ _ _ _ E1), <- (walk_resolve L (names path) None).
  exists s1. split; [|done]. destruct (wk_f _); [|done]. by destruct (_ =? 0).
Qed.
