(* ===== verification/DirCreate.v ===== *)
(** fs/fs.c: flushing a file, and creating one: a file just created is found
    under its name. *)

From stdpp Require Import base numbers list gmap strings.
From Stdlib Require Import ZArith Lia Bool.
From S2P Require Import Prelude Mmu Console Bc Fs BcSpec BitmapSpec FileSpec FileIo FileTrunc DirSpec.

Local Ltac Zify.zify_post_hook ::= Z.to_euclidean_division_equations.

(** * file_flush *)

Lemma fload32_read L s va : bc_ok L s -> safe L va -> va mod 4 = 0 ->
  exists s', fload32 va s = Ret (lword L va) s' /\ bc_ok L s' /\ fdisk s' = fdisk s.
Proof.
  intros [HL HC] [Ha _] Hal. destruct (fload32_paged L HL va s HC Ha Hal) as (s' & E & HC' & _ & Hd). exists s'. by split.
Qed.

Lemma flushed_disk L s s' b : fdisk s' = fdisk s -> flushed L s b -> flushed L s' b.
Proof. intros E Hf va Hva Hb. rewrite E. by apply Hf. Qed.

(** [file_block_walk] without [alloc]. *)
Lemma walk_read_ok L s f n : bc_ok L s -> file_ok L f -> 0 <= n < NBLOCKS ->
  exists s', bc_ok L s' /\ fdisk s' = fdisk s /\
    ((file_block_walk f n false s = Ret (inr (fslot L f n)) s' /\ (n < NDIRECT \/ find L f <> 0))
     \/ (file_block_walk f n false s = Ret (inl (- E_NOT_FOUND)) s' /\ fblk L f n = 0)).
Proof.
  intros HB HF Hn. pose proof (bo_disk _ _ HB) as HL. unfold file_block_walk. change (NINDIRECT + NDIRECT) with NBLOCKS.
  rewrite (proj2 (Z.ltb_ge _ _)) by lia. unfold fslot, fblk.
  destruct (Z.ltb_spec n NDIRECT) as [Hlt|Hge]; [exists s; split; [done|]; split; [done|]; left; split; [done|by left]|].
  destruct (find_safe L f HF) as (Si & Ai & _). destruct (fload32_read L s _ HB Si Ai) as (s1 & E1 & HB1 & D1).
  rewrite (bind_ret _ _ _ _ _ E1). fold (find L f). cbn [negb andb orb].
  destruct (Z.eqb_spec (find L f) 0) as [Hz|Hz]; [exists s1; split; [done|]; split; [done|]; by right|].
  rewrite (bind_ret (ret true) _ _ true s1) by done. cbn [negb]. destruct (fload32_read L s1 _ HB1 Si Ai) as (s2 & E2 & HB2 & D2).
  rewrite (bind_ret _ _ _ _ _ E2). fold (find L f). destruct (owned_range L HL f HF (find L f)) as [Hr Hr']; [by split; [|left]|].
  rewrite (bind_ret _ _ _ _ _ (diskaddr_ok L s2 (find L f) HB2 ltac:(lia))). exists s2. split; [done|]. split; [congruence|]. left. split; [done|by right].
Qed.

(** One round of the loop. *)
Lemma flush_round L s f i : bc_ok L s -> file_ok L f -> 0 <= i < NBLOCKS ->
  exists s', (let! w := file_block_walk f i false in
      match w with
      | inl _ => ret tt
      | inr pdiskbno =>
          let! b := fload32 pdiskbno in
          if b =? 0 then ret tt else let! a := diskaddr b in flush_block a
      end) s = Ret tt s' /\ bc_ok L s' /\ (fblk L f i <> 0 -> flushed L s' (fblk L f i)) /\ (forall b, flushed L s b -> flushed L s' b).
Proof.
  intros HB HF Hi. pose proof (bo_disk _ _ HB) as HL.
  destruct (walk_read_ok L s f i HB HF Hi) as (s1 & HB1 & D1 & [[E1 Hacc]|[E1 Hz]]); rewrite (bind_ret _ _ _ _ _ E1).
  2:{ exists s1. split; [done|]. split; [done|]. split; [done|]. intros b. by apply flushed_disk. }
  destruct (fslot_safe L HL f HF i Hi Hacc) as (Ss & As & _). destruct (fload32_read L s1 _ HB1 Ss As) as (s2 & E2 & HB2 & D2).
  rewrite (bind_ret _ _ _ _ _ E2), <- (fblk_slot L f i Hacc).
  destruct (Z.eqb_spec (fblk L f i) 0) as [Hz|Hz].
  { exists s2. split; [done|]. split; [done|]. split; [done|]. intros b. apply flushed_disk. congruence. }
  destruct (owned_range L HL f HF (fblk L f i)) as [Hr Hr']; [by apply fblk_owned|].
  rewrite (bind_ret _ _ _ _ _ (diskaddr_ok L s2 (fblk L f i) HB2 ltac:(lia))).
  destruct (flush_block_at L s2 (fblk L f i) HB2 ltac:(lia)) as (s3 & E3 & HB3 & F3 & K3). exists s3. split; [done|]. split; [done|]. split; [done|].
  intros b Hb. apply K3, (flushed_disk L s); [congruence|done].
Qed.

Lemma file_flush_ok L s f : bc_ok L s -> file_ok L f -> 0 <= fsize L f <= MAXFILESIZE ->
  exists s', file_flush f s = Ret tt s' /\ bc_ok L s' /\ flushed L s' (blk_of f)
    /\ (forall n, 0 <= n < nblk (fsize L f) -> fblk L f n <> 0 -> flushed L s' (fblk L f n))
    /\ (find L f <> 0 -> flushed L s' (find L f)) /\ (forall b, flushed L s b -> flushed L s' b).
Proof.
  intros HB HF Hs. pose proof (bo_disk _ _ HB) as HL. unfold file_flush. destruct (size_safe L f HF) as (Ss & As & _).
  destruct (fload32_read L s _ HB Ss As) as (s1 & E1 & HB1 & D1). rewrite (bind_ret _ _ _ _ _ E1). fold (fsize L f). change MAXFILESIZE with 4235264 in Hs.
  assert (Z.min (Z.quot (s32 (fsize L f + BLKSIZE - 1)) BLKSIZE) (NDIRECT + NINDIRECT + 1) = nblk (fsize L f)) as ->.
  { unfold nblk. change BLKSIZE with 4096. change (NDIRECT + NINDIRECT + 1) with 1035. rewrite s32_small by lia. rewrite Z.quot_div_nonneg by lia. lia. }
  assert (0 <= nblk (fsize L f) <= NBLOCKS) as Hnb by (unfold nblk; change NBLOCKS with 1034; change BLKSIZE with 4096; lia).
  match goal with |- context [for_loop ?k 0 ?body] => destruct (for_loop_inv (fun i s' => bc_ok L s'
    /\ (forall n, 0 <= n < i -> fblk L f n <> 0 -> flushed L s' (fblk L f n)) /\ (forall b, flushed L s b -> flushed L s' b)) body k 0 s1)
    as (s2 & E2 & HB2 & F2 & K2) end.
  { split; [done|]. split; [lia|]. intros b. by apply flushed_disk. }
  { intros i s' Hi (HB' & F' & K'). destruct (flush_round L s' f i HB' HF ltac:(lia)) as (s'' & E & HB'' & F'' & K''). exists s''. split; [exact E|].
    split; [done|]. split; [|by intros b Hb; apply K'', K']. intros n Hn Hz. destruct (decide (n = i)) as [->|]; [by apply F''|]. apply K'', F'; [lia|done]. }
  rewrite Z.add_0_l, Z2Nat.id in F2 by lia. rewrite (bind_ret _ _ _ _ _ E2).
  assert (in_cache f) as Hc by (pose proof (safe_in _ _ (fo_safe _ _ HF 0 ltac:(done))) as Hx; by rewrite Z.add_0_r in Hx).
  destruct (flush_ok L s2 f HB2 Hc) as (s3 & E3 & HB3 & F3 & K3). rewrite (bind_ret _ _ _ _ _ E3).
  destruct (find_safe L f HF) as (Si & Ai & _). destruct (fload32_read L s3 _ HB3 Si Ai) as (s4 & E4 & HB4 & D4). rewrite (bind_ret _ _ _ _ _ E4). fold (find L f).
  assert (forall b, flushed L s3 b -> flushed L s4 b) as K4 by (intros b; by apply flushed_disk).
  destruct (Z.eqb_spec (find L f) 0) as [Hz|Hz]; cbn [negb].
  - exists s4. split; [done|]. split; [done|]. split; [by apply K4|]. split; [intros; by apply K4, K3, F2|]. split; [done|]. intros b Hb. by apply K4, K3, K2.
  - destruct (owned_range L HL f HF (find L f)) as [Hr Hr']; [by split; [|left]|].
    rewrite (bind_ret _ _ _ _ _ (diskaddr_ok L s4 (find L f) HB4 ltac:(lia))).
    destruct (flush_block_at L s4 (find L f) HB4 ltac:(lia)) as (s5 & E5 & HB5 & F5 & K5). exists s5.
    split; [done|]. split; [done|]. split; [by apply K5, K4|]. split; [intros; by apply K5, K4, K3, F2|]. split; [done|]. intros b Hb. by apply K5, K4, K3, K2.
Qed.

(** * A directory as an array of bytes *)

(** Entry [e] of a directory, and how many entries it has. *)
Definition entry (L : Z -> Z) (dir e : Z) : Z := baddr (fblk L dir (e / BLKFILES)) + sizeof_File * (e mod BLKFILES).
Definition nent (L : Z -> Z) (dir : Z) : Z := fsize L dir / BLKSIZE * BLKFILES.

(** The first entry named [name] among the first [N] of the bytes [B]. *)
Definition slot_find (B : Z -> Z) (N : Z) (name : list Z) : option Z := List.find (fun e => streq B (sizeof_File * e) name) (seqZ 0 N).

Lemma entries_from L dir n : forall a, 0 <= a ->
  concat ((fun i => entries_of (fblk L dir i)) <$> seqZ a (Z.of_nat n)) = entry L dir <$> seqZ (a * BLKFILES) (Z.of_nat n * BLKFILES).
Proof.
  induction n as [|n IH]; intros a Ha; [done|]. rewrite seqZ_cons by lia. cbn [fmap list_fmap concat].
  replace (Z.pred (Z.of_nat (S n))) with (Z.of_nat n) by lia. fold (fmap (M := list) (fun i => entries_of (fblk L dir i))). rewrite IH by lia.
  replace (Z.of_nat (S n) * BLKFILES) with (BLKFILES + Z.of_nat n * BLKFILES) by lia. change BLKFILES with 16. rewrite seqZ_app, fmap_app by lia. f_equal; [|f_equal; f_equal; lia].
  unfold entries_of. change BLKFILES with 16. replace (a * 16) with (a * 16 + 0) by lia. rewrite <- fmap_add_seqZ, <- list_fmap_compose. apply list_fmap_ext.
  intros i x Hx. apply lookup_seqZ in Hx. unfold entry, compose. change BLKFILES with 16. f_equal; [f_equal; f_equal|f_equal]; lia.
Qed.

Lemma entries_eq L dir : 0 <= fsize L dir -> entries L dir = entry L dir <$> seqZ 0 (nent L dir).
Proof.
  intros Hs. unfold entries, nent. change BLKSIZE with 4096. pose proof (entries_from L dir (Z.to_nat (fsize L dir / 4096)) 0 ltac:(lia)) as H.
  rewrite Z2Nat.id in H by lia. exact H.
Qed.

Lemma find_fmap {A B} (P : B -> bool) (g : A -> B) l : List.find P (g <$> l) = g <$> List.find (fun x => P (g x)) l.
Proof. induction l as [|x l IH]; [done|]. cbn. by destruct (P (g x)). Qed.

Lemma find_ext {A} (P Q : A -> bool) l : (forall x, In x l -> P x = Q x) -> List.find P l = List.find Q l.
Proof. induction l as [|x l IH]; intros H; [done|]. cbn. rewrite H by by left. destruct (Q x); [done|]. apply IH. intros y Hy. apply H. by right. Qed.

Lemma streq_ext B B' name : forall va va', (forall i, 0 <= i <= Z.of_nat (length name) -> B (va + i) = B' (va' + i)) -> streq B va name = streq B' va' name.
Proof.
  induction name as [|c name IH]; intros va va' H; cbn [streq]; pose proof (H 0 ltac:(lia)) as H0; rewrite !Z.add_0_r in H0; rewrite H0; [done|].
  f_equal. apply IH. intros i Hi. rewrite <- !Z.add_assoc. apply H. cbn [length]. lia.
Qed.

Lemma entry_byte L dir e i : dir_ok L dir -> 0 <= e < nent L dir -> 0 <= i < sizeof_File ->
  L (entry L dir e + i) = fbyte L dir (sizeof_File * e + i) /\ 0 <= sizeof_File * e + i < fsize L dir.
Proof.
  intros [HF Hs He Hf] Hr Hi. unfold entry, fbyte, nent in *. change BLKFILES with 16 in *. change sizeof_File with 256 in *. change BLKSIZE with 4096 in *.
  replace ((256 * e + i) / 4096) with (e / 16) by lia. specialize (Hf (e / 16) ltac:(lia)). rewrite (proj2 (Z.eqb_neq _ _) Hf). split; [f_equal|]; lia.
Qed.

Lemma dir_find_eq L dir name : dir_ok L dir -> Z.of_nat (length name) < MAXNAMELEN ->
  dir_find L dir name = entry L dir <$> slot_find (fbyte L dir) (nent L dir) name.
Proof.
  intros HD Hl. unfold dir_find, slot_find. rewrite entries_eq by apply HD. rewrite find_fmap. f_equal. apply find_ext. intros e He.
  apply list_elem_of_In, elem_of_seqZ in He. apply streq_ext. intros i Hi. apply entry_byte; [done|lia|]. change MAXNAMELEN with 128 in Hl. change sizeof_File with 256. lia.
Qed.

Lemma dir_free_eq L dir : dir_ok L dir ->
  dir_free L dir = entry L dir <$> List.find (fun e => fbyte L dir (sizeof_File * e) =? 0) (seqZ 0 (nent L dir)).
Proof.
  intros HD. unfold dir_free. rewrite entries_eq by apply HD. rewrite find_fmap. f_equal. apply find_ext. intros e He. apply list_elem_of_In, elem_of_seqZ in He.
  destruct (entry_byte L dir e 0 HD ltac:(lia) ltac:(done)) as [E _]. rewrite !Z.add_0_r in E. by rewrite E.
Qed.

(** The same bytes in the same blocks are the same directory. *)
Lemma dir_find_same L L' dir name : dir_ok L dir -> file_ok L' dir -> fsize L' dir = fsize L dir ->
  (forall n, 0 <= n < NBLOCKS -> fblk L' dir n = fblk L dir n) -> (forall p, 0 <= p < MAXFILESIZE -> fbyte L' dir p = fbyte L dir p) ->
  dir_ok L' dir /\ (Z.of_nat (length name) < MAXNAMELEN -> dir_find L' dir name = dir_find L dir name).
Proof.
  intros HD HF Hs Hb Hy. pose proof HD as [_ Hsz He Hf].
  assert (forall n, 0 <= n < fsize L dir / BLKSIZE -> 0 <= n < NBLOCKS) as Hn by (change NBLOCKS with 1034; change MAXFILESIZE with 4235264 in *; change BLKSIZE with 4096; lia).
  assert (dir_ok L' dir) as HD'. { split; rewrite ?Hs; try done. intros n Hr. rewrite Hb by auto. auto. }
  split; [done|]. intros Hl. rewrite !dir_find_eq by done. unfold nent. rewrite Hs. fold (nent L dir).
  assert (slot_find (fbyte L' dir) (nent L dir) name = slot_find (fbyte L dir) (nent L dir) name) as ->.
  { apply find_ext. intros e Hin. apply list_elem_of_In, elem_of_seqZ in Hin. apply streq_ext. intros i Hi. apply Hy.
    destruct (entry_byte L dir e i HD ltac:(lia)) as [_ Hr]; [change MAXNAMELEN with 128 in Hl; change sizeof_File with 256; lia|]. lia. }
  destruct (slot_find _ _ _) as [e|] eqn:E; [|done]. apply find_some in E as [Hin _]. apply list_elem_of_In, elem_of_seqZ in Hin.
  cbn. f_equal. unfold entry. rewrite Hb; [done|]. apply Hn. unfold nent in Hin. change BLKFILES with 16 in *. lia.
Qed.

(** * Naming a free entry *)

(** A name: not empty, no terminator in it. *)
Definition name_ok (name : list Z) : Prop := name <> [] /\ Forall (fun c => 0 < c < 2 ^ 8) name.

Lemma streq_name n : forall name B pos, Forall (fun c => 0 < c < 2 ^ 8) name -> Forall (fun c => 0 < c < 2 ^ 8) n ->
  (forall i, 0 <= i <= Z.of_nat (length name) -> B (pos + i) = nth (Z.to_nat i) (name ++ [0]) 0) -> streq B pos n = bool_decide (n = name).
Proof.
  induction n as [|c n IH]; intros name B pos Hm Hn HB; pose proof (HB 0 ltac:(lia)) as H0; rewrite Z.add_0_r in H0; cbn [streq]; rewrite H0;
    (destruct Hm as [|d name Hd Hm]; simpl nth); rewrite ?Forall_cons in Hn.
  - done.
  - rewrite (proj2 (Z.eqb_neq d 0)) by lia. by rewrite bool_decide_eq_false_2.
  - rewrite (proj2 (Z.eqb_neq 0 c)) by lia. by rewrite bool_decide_eq_false_2.
  - destruct Hn as [Hc Hn]. rewrite (IH name); [|done|done|].
    + destruct (Z.eqb_spec d c) as [->|]; cbn [andb]; [apply bool_decide_ext; by split; [intros ->|intros [= ->]]|]. symmetry. apply bool_decide_eq_false_2. congruence.
    + intros i Hi. rewrite <- Z.add_assoc, HB by (cbn [length]; lia). by replace (Z.to_nat (1 + i)) with (S (Z.to_nat i)) by lia.
Qed.

Lemma find_none_iff {A} (P : A -> bool) l : List.find P l = None <-> forall x, In x l -> P x = false.
Proof.
  split; [apply find_none|]. intros H. destruct (List.find P l) as [x|] eqn:E; [|done]. apply find_some in E as [Hin Hx]. by rewrite H in Hx.
Qed.

Lemma find_only {A} (P : A -> bool) l x : In x l -> (forall y, In y l -> P y = true <-> y = x) -> List.find P l = Some x.
Proof.
  intros Hin H. destruct (List.find P l) as [y|] eqn:E; [apply find_some in E as [Hy Hp]; f_equal; by apply H|].
  rewrite find_none_iff in E. pose proof (proj2 (H x Hin) eq_refl) as Hx. by rewrite E in Hx.
Qed.

(** What the directory contains after [name] has been stored in entry [e], the
    entries from [N] on being new ones. *)
Section Naming.
Context (B : Z -> Z) (N N' e : Z) (name : list Z) (Hok : name_ok name) (Hlen : Z.of_nat (length name) < MAXNAMELEN).
Context (He : 0 <= e < N') (HN : 0 <= N <= N') (Hfree : B (sizeof_File * e) = 0).
Context (Hnew : forall x, N <= x < N' -> B (sizeof_File * x) = 0) (Hnone : slot_find B N name = None).

Local Abbreviation B' := (patch (name ++ [0]) (sizeof_File * e) B).

Lemma streq_free n x : n <> [] -> Forall (fun c => 0 < c < 2 ^ 8) n -> B (sizeof_File * x) = 0 -> streq B (sizeof_File * x) n = false.
Proof. intros Hn Hc Hz. destruct Hc as [|c n Hc _]; [done|]. cbn [streq]. rewrite Hz. by rewrite (proj2 (Z.eqb_neq 0 c)) by lia. Qed.

Lemma streq_put n x : name_ok n -> Z.of_nat (length n) < MAXNAMELEN ->
  streq B' (sizeof_File * x) n = if decide (x = e) then bool_decide (n = name) else streq B (sizeof_File * x) n.
Proof.
  intros [Hn Hc] Hl. change MAXNAMELEN with 128 in *. change sizeof_File with 256. assert (length (name ++ [0]) = S (length name)) as Hap by (rewrite length_app; cbn; lia).
  case_decide as Hx; [subst x|].
  - apply streq_name; [apply Hok|done|]. intros i Hi. unfold patch. rewrite decide_True by (rewrite Hap; lia). f_equal. lia.
  - apply streq_ext. intros i Hi. unfold patch. rewrite decide_False; [done|]. rewrite Hap. lia.
Qed.

Lemma slot_find_put n : name_ok n -> Z.of_nat (length n) < MAXNAMELEN ->
  slot_find B' N' n = if decide (n = name) then Some e else slot_find B N n.
Proof.
  intros Hn Hl. pose proof Hn as [Hn1 Hn2]. unfold slot_find in *. case_decide as Ex; [subst n|].
  - apply find_only; [apply list_elem_of_In, elem_of_seqZ; lia|]. intros x Hx. apply list_elem_of_In, elem_of_seqZ in Hx. rewrite streq_put by done.
    case_decide as Hxe; [by rewrite bool_decide_eq_true_2|]. split; [|done]. intros Ht. rewrite find_none_iff in Hnone.
    destruct (decide (x < N)) as [Hlt|]; [rewrite Hnone in Ht; [done|apply list_elem_of_In, elem_of_seqZ; lia]|]. rewrite streq_free in Ht by (done || (apply Hnew; lia)). done.
  - replace N' with (N + (N' - N)) by lia. rewrite seqZ_app by lia. rewrite find_app.
    rewrite (find_ext _ (fun x => streq B (sizeof_File * x) n)) by (intros x _; rewrite streq_put by done; case_decide as Hxe; [subst x; rewrite streq_free by done; by apply bool_decide_eq_false_2|done]).
    clear Hnone. destruct (List.find _ (seqZ 0 N)); [done|]. apply find_none_iff. intros x Hx. apply list_elem_of_In, elem_of_seqZ in Hx. rewrite streq_put by done.
    case_decide as Hxe; [by apply bool_decide_eq_false_2|]. apply streq_free; [done|done|]. apply Hnew. lia.
Qed.
End Naming.

(** * dir_alloc_file *)

(** What [dir_alloc_file] leaves behind: the entry [e] is free, and the
    directory contains what it contained, perhaps with a block more. *)
Record allotted (L L' : Z -> Z) (dir e : Z) : Prop := {
  al_edits : edits dir L L';
  al_dir : dir_ok L' dir;
  al_size : fsize L dir <= fsize L' dir;
  al_type : ftype L' dir = ftype L dir;
  al_new : forall x, nent L dir <= x < nent L' dir -> fbyte L dir (sizeof_File * x) = 0;
  al_entry : 0 <= e < nent L' dir;
  al_byte : forall p, 0 <= p < MAXFILESIZE -> fbyte L' dir p = fbyte L dir p;
  al_free : fbyte L dir (sizeof_File * e) = 0;
  al_blk : forall n, 0 <= n < fsize L dir / BLKSIZE -> fblk L' dir n = fblk L dir n;
  al_tidy : tidy L' dir
}.

(** A directory that is full and gets another block. *)
Lemma dir_grow_ok L s dir : bc_ok L s -> dir_ok L dir -> fsize L dir < MAXFILESIZE -> tidy L dir -> 
  exists L' s', edits dir L L' /\ bc_ok L' s' /\ fsize L' dir = fsize L dir + BLKSIZE /\
    (((let! size := fload32 (f_size dir) in fstore32 (f_size dir) (u32 (size + BLKSIZE)) ;;! file_get_block dir (fsize L dir / BLKSIZE)) s
        = Ret (inr (entry L' dir (nent L dir)) : Z + Z) s' /\ allotted L L' dir (nent L dir))
     \/ ((let! size := fload32 (f_size dir) in fstore32 (f_size dir) (u32 (size + BLKSIZE)) ;;! file_get_block dir (fsize L dir / BLKSIZE)) s
        = Ret (inl (- E_NO_DISK)) s' /\ forall b, 0 <= b < nb L' -> used L' b)).
Proof.
  intros HB HD Hlt Ht. pose proof (bo_disk _ _ HB) as HL. pose proof HD as [HF Hs He Hf]. destruct (size_safe L dir HF) as (Ss & As & Bs).
  destruct (fload32_safe L s _ HB Ss As) as (s1 & E1 & HB1). rewrite (bind_ret _ _ _ _ _ E1). set (v := fsize L dir + BLKSIZE).
  change MAXFILESIZE with 4235264 in Hs, Hlt. change BLKSIZE with 4096 in *.
  assert (u32 (lword L (f_size dir) + 4096) = v) as ->.
  { pose proof (lword_range L (f_size dir) HL) as Hw. unfold v, fsize in *. pose proof (s32_u32 (lword L (f_size dir))) as Ew.
    rewrite (u32_small (lword _ _)) in Ew by done. rewrite u32_small in Ew by (unfold is_u32; lia). rewrite <- Ew at 1. apply u32_small. unfold is_u32. lia. }
  assert (is_u32 v) as Hv by (unfold is_u32, v; lia). destruct (size_edits L dir v HL HF Hv) as (HE & Es & Hby & _ & Hfb & _).
  destruct (fstore32_ok L s1 (f_size dir) v HB1 (proj1 Ss)) as (s2 & E2 & HB2); [by apply within4; [apply (safe_in L)|]|apply HE|apply HE|].
  rewrite (bind_ret _ _ _ _ _ E2). set (L1 := lput32 (f_size dir) v L) in *. rewrite (s32_small v) in Es by (unfold v; lia).
  assert (0 <= fsize L dir / 4096 < NBLOCKS) as Hn by (change NBLOCKS with 1034; lia).
  destruct (get_block_ok L1 s2 dir (fsize L dir / 4096) HB2 (ed_file _ _ _ HE) Hn) as (L2 & s3 & HG & HB3 & HN & _ & Hres).
  exists L2, s3. split; [by eapply edits_trans; [|apply grows_edits]|]. split; [done|]. pose proof (grows_fsize dir L1 L2 (ed_file _ _ _ HE) HG) as Es2. rewrite Es in Es2. split; [done|].
  destruct Hres as [[E3 Hz]|(E3 & _ & Hfull)]; [left|by right].
  assert (nent L dir / BLKFILES = fsize L dir / 4096 /\ nent L dir mod BLKFILES = 0) as [Eq Em] by (unfold nent; change BLKSIZE with 4096; change BLKFILES with 16; lia).
  split; [rewrite E3; unfold entry; by rewrite Eq, Em, Z.mul_0_r, Z.add_0_r|].
  assert (forall x, nent L dir <= x < nent L2 dir -> fbyte L dir (sizeof_File * x) = 0) as Hnew.
  { intros x Hx. unfold nent in Hx. rewrite Es2 in Hx. unfold fbyte, v in *. change sizeof_File with 256. change BLKSIZE with 4096 in *. change BLKFILES with 16 in *.
    replace (256 * x / 4096) with (fsize L dir / 4096) by lia. rewrite Ht; [done|]. unfold nblk. change BLKSIZE with 4096. lia. }
  assert (nent L dir < nent L2 dir) as Hne by (unfold nent; rewrite Es2; change BLKSIZE with 4096; change BLKFILES with 16; unfold v; lia).
  split; [by eapply edits_trans; [|apply grows_edits]| | | | | | | | |].
  - split; [apply HG|change MAXFILESIZE with 4235264; lia|change BLKSIZE with 4096; lia|]. change BLKSIZE with 4096. intros n Hr.
    destruct (decide (n = fsize L dir / 4096)) as [->|]; [done|]. assert (0 <= n < NBLOCKS) as Hn' by lia. rewrite (gr_blk _ _ _ HG n Hn'); rewrite Hfb by done; apply Hf; lia.
  - lia.
  - apply lword_ext. intros i Hi. unfold f_type. change MAXNAMELEN with 128.
    rewrite (grows_struct dir L1 L2) by (done || apply HE || (change sizeof_File with 256; unfold ptrs; lia)).
    unfold L1, lput32, lcopy, f_size. change MAXNAMELEN with 128. by rewrite bool_decide_eq_false_2 by lia.
  - done.
  - split; [|done]. unfold nent. change BLKFILES with 16. change BLKSIZE with 4096. lia.
  - intros p Hp. by rewrite (gr_byte _ _ _ HG), Hby.
  - by apply Hnew.
  - intros n Hr. change BLKSIZE with 4096 in Hr. assert (0 <= n < NBLOCKS) as Hn' by lia. rewrite (gr_blk _ _ _ HG n Hn'); rewrite Hfb by done; [done|]. apply Hf. lia.
  - intros n Hr. rewrite Es2 in Hr. unfold nblk, v in Hr. change BLKSIZE with 4096 in Hr. change NBLOCKS with 1034 in *. assert (0 <= n < 1034) by lia.
    rewrite HN, Hfb by (done || lia). apply Ht. unfold nblk. change NBLOCKS with 1034. change BLKSIZE with 4096. lia.
Qed.

Lemma dir_alloc_ok L s dir : bc_ok L s -> dir_ok L dir -> fsize L dir < MAXFILESIZE -> tidy L dir ->
  exists L' s', edits dir L L' /\ bc_ok L' s' /\
    ((exists e, dir_alloc_file dir s = Ret (inr (entry L' dir e)) s' /\ allotted L L' dir e)
     \/ (dir_alloc_file dir s = Ret (inl (- E_NO_DISK)) s' /\ dir_free L dir = None /\ fsize L' dir = fsize L dir + BLKSIZE
         /\ forall b, 0 <= b < nb L' -> used L' b)).
Proof.
  intros HB HD Hlt Ht. unfold dir_alloc_file. pose proof (bo_disk _ _ HB) as HL. pose proof (dk_file _ _ HD) as HF.
  destruct (scan_dir_ok L dir HD (fun blk => find_free BLKFILES_nat blk) (fun f => L f =? 0)) with (s := s) as (s1 & s2 & E1 & E2 & _ & HB2); [|done|].
  { intros b s0 Ho HB0. pose proof (find_free_ok L dir HL HF b Ho BLKFILES_nat 0 s0 HB0 ltac:(lia) ltac:(done)) as Hx.
    rewrite Z.mul_0_r, Z.add_0_r in Hx. exact Hx. }
  rewrite (bind_ret _ _ _ _ _ E1), (bind_ret _ _ _ _ _ E2). fold (dir_free L dir). destruct (dir_free L dir) as [f|] eqn:Ef.
  - exists L, s2. split; [by apply edits_refl|]. split; [done|]. left. clear E2. rewrite dir_free_eq in Ef by done.
    apply fmap_Some in Ef as (e & Ee & ->). apply find_some in Ee as [Hin Hz]. apply list_elem_of_In, elem_of_seqZ in Hin.
    exists e. split; [done|]. split; first [done | by apply edits_refl | by apply Z.eqb_eq | intros; lia].
  - destruct (dir_grow_ok L s2 dir HB2 HD Hlt Ht) as (L' & s3 & HE & HB3 & Hs & [[E3 Ha]|[E3 Hfull]]); exists L', s3; (split; [done|]); (split; [done|]); [left|right].
    + by exists (nent L dir).
    + done.
Qed.

(** * file_create *)

(** The directory [dir] has got the file [f] under [name], and nothing else has
    changed in it. *)
Record named (L L' : Z -> Z) (dir f : Z) (name : list Z) : Prop := {
  nm_edits : edits dir L L';
  nm_dir : dir_ok L' dir;
  nm_type : ftype L' dir = ftype L dir;
  nm_find : forall n, name_ok n -> Z.of_nat (length n) < MAXNAMELEN ->
    dir_find L' dir n = if decide (n = name) then Some f else dir_find L dir n;
  nm_tidy : tidy L' dir;
  nm_name : In f (entries L' dir) /\ forall i, 0 <= i <= Z.of_nat (length name) -> L' (f + i) = nth (Z.to_nat i) (name ++ [0]) 0;
  nm_kept : forall e, In e (entries L dir) -> In e (entries L' dir)
    /\ forall k, e <= k < e + sizeof_File -> e <> f \/ e + 128 <= k -> L' k = L k;
  nm_new : forall e, In e (entries L' dir) -> ~ In e (entries L dir) ->
    forall k, e <= k < e + sizeof_File -> e <> f \/ e + 128 <= k -> L' k = 0;
  nm_free : In f (entries L dir) -> L f = 0
}.

(** Where the name of entry [e] goes. *)
Section Place.
Context (L : Z -> Z) (dir : Z) (HD : dir_ok L dir) (e : Z) (He : 0 <= e < nent L dir) (name : list Z) (Hl : Z.of_nat (length name) < MAXNAMELEN).
Local Abbreviation pos := (sizeof_File * e).
Local Abbreviation last := (pos + Z.of_nat (length (name ++ [0]))).

Lemma name_place : 0 <= pos < last /\ last <= MAXFILESIZE /\ fblk L dir (pos / BLKSIZE) <> 0 /\ Z.of_nat (length (name ++ [0])) = chunk pos last
  /\ entry L dir e = baddr (fblk L dir (pos / BLKSIZE)) + pos mod BLKSIZE.
Proof.
  destruct HD as [_ Hs He1 Hf]. assert (length (name ++ [0]) = S (length name)) as Hb by (rewrite length_app; cbn; lia). rewrite Hb. unfold nent, entry, chunk in *.
  change MAXNAMELEN with 128 in *. change MAXFILESIZE with 4235264 in *. change BLKFILES with 16 in *. change BLKSIZE with 4096 in *. change sizeof_File with 256.
  replace (256 * e / 4096) with (e / 16) by lia. split; [lia|]. split; [clear - He Hs Hl; lia|]. split; [apply Hf; clear - He; lia|]. split; [clear - He Hl; lia|]. f_equal. clear. lia.
Qed.
End Place.

Lemma name_bytes name : name_ok name -> Forall (fun x => 0 <= x < 2 ^ 8) (name ++ [0]).
Proof. intros [_ H]. apply Forall_app. split; [|by repeat constructor]. eapply Forall_impl; [exact H|]. cbn. lia. Qed.

Lemma slot_find_ext B B' N n : Z.of_nat (length n) < MAXNAMELEN -> (forall p, 0 <= p < sizeof_File * N -> B p = B' p) -> slot_find B N n = slot_find B' N n.
Proof.
  intros Hl H. apply find_ext. intros e Hin. apply list_elem_of_In, elem_of_seqZ in Hin. apply streq_ext. intros i Hi. apply H.
  change MAXNAMELEN with 128 in Hl. change sizeof_File with 256. lia.
Qed.

Lemma nent_bytes L dir : dir_ok L dir -> sizeof_File * nent L dir = fsize L dir.
Proof. intros [_ Hs He _]. unfold nent. change BLKSIZE with 4096 in *. change BLKFILES with 16. change sizeof_File with 256. lia. Qed.

Lemma entry_same L L' dir e : (forall n, 0 <= n < fsize L dir / BLKSIZE -> fblk L' dir n = fblk L dir n) -> 0 <= e < nent L dir -> entry L' dir e = entry L dir e.
Proof. intros H He. unfold entry. rewrite H; [done|]. unfold nent in He. change BLKFILES with 16 in *. lia. Qed.

(** Beyond its size a file reads as zeros. *)
Lemma fbyte_past L f p : tidy L f -> 0 <= fsize L f <= p -> fsize L f mod BLKSIZE = 0 -> p < MAXFILESIZE -> fbyte L f p = 0.
Proof.
  intros Ht Hp He Hm. unfold fbyte. rewrite Ht; [done|]. unfold nblk. change MAXFILESIZE with 4235264 in Hm. change NBLOCKS with 1034. change BLKSIZE with 4096 in *. lia.
Qed.

Lemma entries_index L dir x : dir_ok L dir -> In x (entries L dir) <-> exists i, 0 <= i < nent L dir /\ x = entry L dir i.
Proof.
  intros HD. rewrite entries_eq by apply HD. rewrite <- list_elem_of_In, list_elem_of_fmap. split.
  - intros (i & -> & Hi%elem_of_seqZ). exists i. split; [lia|done].
  - intros (i & Hi & ->). exists i. split; [done|]. apply elem_of_seqZ. lia.
Qed.

Lemma entry_inj L dir i j : dir_ok L dir -> 0 <= i < nent L dir -> 0 <= j < nent L dir -> entry L dir j = entry L dir i -> i = j.
Proof.
  intros HD Hi Hj E. destruct HD as [HF Hs He Hf]. unfold entry, baddr, nent in *. change sizeof_File with 256 in *. change BLKFILES with 16 in *. change BLKSIZE with 4096 in *.
  change MAXFILESIZE with 4235264 in Hs. assert (fblk L dir (i / 16) = fblk L dir (j / 16)) as Eb by (clear - E; lia).
  assert (i / 16 = j / 16) by (apply (fo_inj _ _ HF); [change NBLOCKS with 1034; clear - Hi Hs; lia|change NBLOCKS with 1034; clear - Hj Hs; lia|apply Hf; clear - Hi; lia|done]).
  clear - E Eb H. lia.
Qed.

(** Storing a name leaves the rest of every entry alone. *)
Lemma entry_tail L L1 dir e name i k : allotted L L1 dir e -> Z.of_nat (length name) < MAXNAMELEN -> 0 <= i < nent L1 dir -> 0 <= k < sizeof_File -> entry L1 dir i <> entry L1 dir e \/ 128 <= k ->
  lput (entry L1 dir e) (name ++ [0]) L1 (entry L1 dir i + k) = fbyte L dir (sizeof_File * i + k).
Proof.
  intros Hal Hl Hi Hk Hne. pose proof (al_dir _ _ _ _ Hal) as HD1. change sizeof_File with 256 in *. change MAXNAMELEN with 128 in Hl.
  destruct (entry_byte L1 dir i k HD1 Hi) as [Ek Hr]; [change sizeof_File with 256; lia|]. change sizeof_File with 256 in *. pose proof (dk_size _ _ HD1).
  rewrite <- (al_byte _ _ _ _ Hal), <- Ek by lia. unfold lput, lcopy. rewrite bool_decide_eq_false_2; [done|]. rewrite length_app. cbn [length].
  unfold entry, baddr, DISKMAP in *. change sizeof_File with 256 in *. change BLKSIZE with 4096 in *. change BLKFILES with 16 in *. clear - Hl Hk Hne. lia.
Qed.

Lemma named_put L L1 dir e name : disk_ok L1 -> allotted L L1 dir e -> dir_ok L dir -> tidy L dir -> name_ok name -> Z.of_nat (length name) < MAXNAMELEN ->
  dir_find L dir name = None -> named L (lput (entry L1 dir e) (name ++ [0]) L1) dir (entry L1 dir e) name.
Proof.
  intros HL1 Hal HD Ht Hok Hl Hnone. pose proof Hal as [HE HD1 Hsz Hty Hnew He Hby Hfr Hbl Ht1]. pose proof HD1 as [HF1 Hs1 He1 Hf1]. destruct (name_place L1 dir HD1 e He name Hl) as (Hp & Hm & Hz & Hc & Ea).
  destruct (put_edits L1 HL1 dir HF1 _ _ (name ++ [0]) Hp Hm Hz Hc (name_bytes _ Hok)) as (HE2 & Hs2 & Hfb2 & Hy2). rewrite <- Ea in *.
  assert (forall k, dir <= k < dir + sizeof_File -> lput (entry L1 dir e) (name ++ [0]) L1 k = L1 k) as Hst by (intros k Hk; rewrite Ea; by apply (put_struct L1 HL1 dir HF1 _ _ _ Hp Hm Hz Hc)).
  set (L2 := lput (entry L1 dir e) (name ++ [0]) L1) in *.
  assert (forall n, 0 <= n < fsize L1 dir / BLKSIZE -> fblk L2 dir n = fblk L1 dir n) as Hb2.
  { intros n Hn. apply Hfb2. change NBLOCKS with 1034. change MAXFILESIZE with 4235264 in Hs1. change BLKSIZE with 4096 in Hn. clear - Hn Hs1. lia. }
  assert (dir_ok L2 dir) as HD2 by (split; [apply HE2|by rewrite Hs2|by rewrite Hs2|]; rewrite Hs2; intros n Hn; rewrite Hb2 by done; by apply Hf1).
  assert (nent L2 dir = nent L1 dir) as HN by (unfold nent; by rewrite Hs2).
  assert (0 <= nent L dir <= nent L1 dir) as HN1.
  { pose proof (nent_bytes L dir HD) as N1. pose proof (nent_bytes L1 dir HD1) as N2. pose proof (dk_size _ _ HD). change sizeof_File with 256 in *. clear - N1 N2 H Hsz. lia. }
  split; [by apply (edits_trans dir L L1)|done| | | |..].
  - rewrite <- Hty. apply lword_ext. intros i Hi. apply Hst. unfold f_type. change MAXNAMELEN with 128. change sizeof_File with 256. clear - Hi. lia.
  - intros n Hn Hln. rewrite !dir_find_eq in * by done. apply fmap_None in Hnone. rewrite HN.
    rewrite (slot_find_ext _ (patch (name ++ [0]) (sizeof_File * e) (fbyte L dir))), (slot_find_put (fbyte L dir) (nent L dir) (nent L1 dir) e name) by
      (done || (rewrite nent_bytes by done; intros p Hr; rewrite Hy2 by lia; unfold patch; rewrite <- Hc; by rewrite Hby by lia)).
    case_decide; cbn [fmap option_fmap option_map]; [by rewrite (entry_same L1)|]. clear Hnone. destruct (slot_find _ _ _) as [x|] eqn:Ex; [|done]. cbn. f_equal.
    apply find_some in Ex as [Hin _]. apply list_elem_of_In, elem_of_seqZ in Hin. rewrite (entry_same L1), (entry_same L); auto; lia.
  - intros n Hn. rewrite Hs2 in Hn. rewrite Hfb2 by (unfold nblk in Hn; change BLKSIZE with 4096 in Hn; clear - Hn Hs1; lia). by apply Ht1.
  - split; [apply entries_index; [done|]; exists e; split; [lia|symmetry; by apply (entry_same L1 L2)]|]. intros i Hi. unfold L2. pose proof (name_bytes _ Hok) as Hb.
    assert (length (name ++ [0]) = S (length name)) as Hlen by (rewrite length_app; cbn; lia).
    rewrite lput_get by lia. destruct (nth_lookup_or_length (name ++ [0]) (Z.to_nat i) 0) as [E|E]; [|lia]. apply (Forall_lookup_1 _ _ _ _ Hb) in E. unfold u8. by rewrite Z.mod_small.
  - intros x (i & Hi & ->)%entries_index; [|done]. assert (entry L2 dir i = entry L dir i) as Ei by (rewrite (entry_same L1), (entry_same L); auto; lia).
    split; [rewrite <- Ei; apply entries_index; [done|]; exists i; split; [lia|done]|]. intros k Hk Hne. destruct (entry_byte L dir i (k - entry L dir i) HD Hi ltac:(lia)) as [Ek _].
    rewrite <- (entry_same L L1 dir i Hbl Hi) in *. pose proof (entry_tail L L1 dir e name i (k - entry L1 dir i) Hal Hl ltac:(lia) ltac:(lia) ltac:(destruct Hne; [by left|right; lia])) as Et.
    replace (entry L1 dir i + (k - entry L1 dir i)) with k in * by lia. by rewrite Ek.
  - intros x (i & Hi & ->)%entries_index Hni; [|done]. rewrite HN in Hi. rewrite (entry_same L1) in * by done. intros k Hk Hne.
    pose proof (entry_tail L L1 dir e name i (k - entry L1 dir i) Hal Hl Hi ltac:(lia) ltac:(destruct Hne; [by left|right; lia])) as Et. replace (entry L1 dir i + (k - entry L1 dir i)) with k in Et by lia. fold L2 in Et. rewrite Et.
    destruct (Z.lt_ge_cases i (nent L dir)) as [Hlt|Hge]; [destruct Hni; apply entries_index; [done|]; exists i; split; [lia|apply (entry_same L L1); [done|lia]]|].
    pose proof (nent_bytes L dir HD) as N1. pose proof (nent_bytes L1 dir HD1) as N2. pose proof (dk_size _ _ HD) as N3. change sizeof_File with 256 in *. change MAXFILESIZE with 4235264 in *.
    apply fbyte_past; [done| |exact (dk_even _ _ HD)|change MAXFILESIZE with 4235264]; clear - Hge Hi N1 N2 N3 Hk Hs1; lia.
  - intros (i & Hi & Ei)%entries_index; [|done]. rewrite Ei. destruct (entry_byte L dir i 0 HD Hi) as [E0 _]; [done|]. rewrite !Z.add_0_r in E0. rewrite E0.
    assert (i = e) as ->; [|done]. rewrite <- (entry_same L L1 dir i Hbl Hi) in Ei. apply (entry_inj L1 dir); [done|lia|done|done].
Qed.

Lemma named_ok L L1 s dir e name : allotted L L1 dir e -> bc_ok L1 s -> name_ok name -> Z.of_nat (length name) < MAXNAMELEN ->
  exists s', fstrcpy (f_name (entry L1 dir e)) name s = Ret tt s' /\ bc_ok (lput (entry L1 dir e) (name ++ [0]) L1) s'.
Proof.
  intros Hal HB Hok Hl. destruct Hal as [_ HD1 _ _ _ He _ _ _ _]. destruct (name_place L1 dir HD1 e He name Hl) as (Hp & Hm & Hz & Hc & Ea).
  destruct (chunk_addr L1 (bo_disk _ _ HB) dir (dk_file _ _ HD1) _ _ Hp Hm Hz) as (Sa & _ & Hw & Hd). rewrite <- Ea in Sa, Hw, Hd. rewrite <- Hc in Hw.
  by apply fwrite_ok; [|apply Sa|..].
Qed.

(** The directories a path is looked up in. *)
Fixpoint path_dirs (L : Z -> Z) (f : Z) (ns : list (list Z)) : list Z :=
  match ns with
  | [] => []
  | n :: ns => f :: if ftype L f =? FTYPE_DIR then match dir_find L f n with Some f' => path_dirs L f' ns | None => [] end else []
  end.

(** The path leads to a directory that does not have the last name. *)
Lemma walk_missing L dir ns : forall o f, walkable L f ns -> wk_r (walk_result L o f ns) <> 0 -> wk_dir (walk_result L o f ns) = Some dir ->
  let name := wk_last (walk_result L o f ns) in
  wk_r (walk_result L o f ns) = - E_NOT_FOUND /\ In dir (path_dirs L f ns) /\ In name ns /\ Z.of_nat (length name) < MAXNAMELEN
  /\ dir_ok L dir /\ dir_find L dir name = None.
Proof.
  induction ns as [|n ns IH]; intros o f; cbn [walkable walk_result path_dirs]; [done|]. destruct (Z.leb_spec MAXNAMELEN (Z.of_nat (length n))); [done|].
  destruct (Z.eqb_spec (ftype L f) FTYPE_DIR) as [Ht|]; cbn [negb]; [|done]. intros Hw. destruct (Hw Ht) as [HD Hw']. destruct (dir_find L f n) as [f'|] eqn:Ef.
  - intros Hr Hd. destruct (IH (Some f) f' Hw' Hr Hd) as (H1 & H2 & H3 & H4). by split_and!; [|right|right|apply H4..].
  - case_bool_decide; cbn; [|done]. intros _ [= <-]. by split_and!; [|left|left|..].
Qed.

Lemma walk_named L L' dir fnew name ns : dir_find L dir name = None ->
  forall o f, walkable L f ns ->
  (forall d n, In d (path_dirs L f ns) -> In n ns -> dir_ok L d -> Z.of_nat (length n) < MAXNAMELEN -> dir_ok L' d /\ ftype L' d = ftype L d
     /\ dir_find L' d n = if decide (d = dir /\ n = name) then Some fnew else dir_find L d n) ->
  wk_r (walk_result L o f ns) <> 0 -> wk_dir (walk_result L o f ns) = Some dir -> wk_last (walk_result L o f ns) = name ->
  resolve L' f ns = inr fnew /\ walkable L' f ns.
Proof.
  intros Hnone. induction ns as [|n ns IH]; intros o f Hw Hk; cbn [walkable walk_result path_dirs resolve] in *; [done|].
  destruct (Z.leb_spec MAXNAMELEN (Z.of_nat (length n))) as [|Hl]; [done|]. destruct (Z.eqb_spec (ftype L f) FTYPE_DIR) as [Ht|]; cbn [negb]; [|done].
  destruct (Hw Ht) as [HD Hw']. destruct (Hk f n ltac:(by left) ltac:(by left) HD Hl) as (HD' & Ht' & Hf'). rewrite Ht', (proj2 (Z.eqb_eq _ _) Ht), Hf'. cbn [negb].
  destruct (dir_find L f n) as [f'|] eqn:Ef.
  - intros H1 H2 H3. rewrite decide_False by (intros [-> ->]; congruence). destruct (IH (Some f) f' Hw') as [R W]; [|done..|done].
    intros d m Hd Hm. apply Hk; by right.
  - case_bool_decide; cbn; [|done]. subst ns. intros _ [= ->] <-. rewrite decide_True by done. by split.
Qed.

Lemma path_elem_chars (P : Z -> Prop) p : Forall P p -> Forall P (path_elem p).1 /\ Forall P (path_elem p).2.
Proof.
  induction 1 as [|c p Hc Hp IH]; cbn; [done|]. destruct (c =? SLASH); [by split; [|constructor]|]. destruct (path_elem p) as [e r]. destruct IH. by split; [constructor|].
Qed.

Lemma skip_slash_chars (P : Z -> Prop) p : Forall P p -> Forall P (skip_slash p).
Proof. induction 1 as [|c p Hc Hp IH]; cbn; [done|]. destruct (c =? SLASH); [done|by constructor]. Qed.

(** The names of a C string are names. *)
Lemma elems_ok k : forall p n, match p with c :: _ => c <> SLASH | [] => True end -> Forall (fun c => 0 < c < 2 ^ 8) p -> In n (elems k p) -> name_ok n.
Proof.
  induction k as [|k IH]; intros p n Hh Hp; [done|]. cbn [elems]. destruct p as [|c p]; [done|]. pose proof (path_elem_chars _ _ Hp) as [H1 H2].
  destruct (path_elem (c :: p)) as [e r] eqn:E. intros [<-|Hin].
  - split; [|done]. cbn in E. destruct (Z.eqb_spec c SLASH); [done|]. destruct (path_elem p). by injection E as <- <-.
  - apply (IH (skip_slash r)); [apply skip_slash_head|by apply skip_slash_chars|done].
Qed.

Lemma names_ok path n : Forall (fun c => 0 < c < 2 ^ 8) path -> In n (names path) -> name_ok n.
Proof. intros Hp. apply elems_ok; [apply skip_slash_head|by apply skip_slash_chars]. Qed.

(** Entries have places of their own. *)
Lemma entry_align L d e : dir_ok L d -> In e (entries L d) -> e mod sizeof_File = 0 /\ (e - DISKMAP) mod BLKSIZE + sizeof_File <= BLKSIZE.
Proof.
  intros HD (n & j & _ & _ & _ & _ & Hj & ->)%entries_in; [|done]. unfold baddr, DISKMAP. change sizeof_File with 256. change BLKFILES with 16 in Hj. change BLKSIZE with 4096. lia.
Qed.

(** Two files one of which may be an entry of the other. *)
Record neighbours (L : Z -> Z) (f d : Z) : Prop := {
  ne_own : forall b, owns L f b -> ~ owns L d b;
  ne_ind : find L d <> 0 -> find L d <> blk_of f;
  ne_up : owns L d (blk_of f) -> In f (entries L d);
  ne_down : owns L f (blk_of d) -> In d (entries L f);
  ne_sep : f + sizeof_File <= d \/ d + sizeof_File <= f
}.

(** Directories other than the file that was changed are as they were, also the
    one the file is an entry of. *)
Lemma other_dir_kept L L' f d : disk_ok L -> file_ok L f -> dir_ok L d -> neighbours L f d -> changes f L L' ->
  used L' (blk_of d) -> (forall k, d + 128 <= k < d + sizeof_File -> L' k = L k) ->
  dir_ok L' d /\ ftype L' d = ftype L d /\ entries L' d = entries L d
  /\ forall n, Z.of_nat (length n) < MAXNAMELEN -> dir_find L' d n = dir_find L d n.
Proof.
  intros HL HF HD Hne HC Hu Kg. destruct (others_core f d L L' HL HF (dk_file _ _ HD) HC (ne_own _ _ _ Hne) (ne_ind _ _ _ Hne) Hu Kg) as (Ko & _ & Hb & HF').
  pose proof HD as [_ D2 D3 D4]. change MAXFILESIZE with (1034 * 4096) in D2. change sizeof_File with 256 in Kg.
  assert (fsize L' d = fsize L d) as Hs by (unfold fsize; f_equal; apply lword_ext; intros i Hi; apply Kg; unfold f_size; change MAXNAMELEN with 128; lia).
  assert (ftype L' d = ftype L d) as Ht by (apply lword_ext; intros i Hi; apply Kg; unfold f_type; change MAXNAMELEN with 128; lia).
  assert (forall n, 0 <= n < fsize L d / BLKSIZE -> 0 <= n < NBLOCKS) as Hr by (intros n Hn; change NBLOCKS with 1034; change BLKSIZE with 4096 in *; lia).
  assert (entries L' d = entries L d) as He.
  { unfold entries. rewrite Hs. f_equal. apply list_fmap_ext. intros i x Hx%lookup_seqZ. rewrite Hb; [done|]. apply Hr. lia. }
  split; [split; rewrite ?Hs; try done; intros n Hn; rewrite Hb by auto; auto|]. split; [done|]. split; [done|].
  intros n Hn. unfold dir_find. rewrite He. apply find_ext. intros x Hx. apply streq_ext. intros i Hi. change MAXNAMELEN with 128 in Hn.
  pose proof (entry_align L d x HD Hx) as [Ax _]. destruct (entries_in L d x HD Hx) as (m & j & Hm & _ & _ & Ho & Hj & Ex).
  destruct (entry_access L d HL (dk_file _ _ HD) _ j i Ho Hj) as [Sx Bx]; [change sizeof_File with 256; lia|]. rewrite <- Ex in Sx, Bx.
  apply (Ko _ _ Ho (safe_in _ _ Sx) Bx). intros Hh%head_in.
  pose proof (fo_blk _ _ HF (x + i - f)) as Hbk. replace (f + (x + i - f)) with (x + i) in Hbk by lia. rewrite Hbk in Bx by (change sizeof_File with 256; lia).
  rewrite <- Bx in Ho. destruct (entry_align L d f HD (ne_up _ _ _ Hne Ho)) as [Af _]. change sizeof_File with 256 in *. clear - Ax Af Hh Hi Hn. lia.
Qed.

(** Naming an entry of [dir] leaves the structures of other files alone, up to
    the name of that entry. *)
Lemma named_struct L L' dir f name d : file_ok L d -> neighbours L dir d -> named L L' dir f name ->
  used L' (blk_of d) /\ forall k, d <= k < d + sizeof_File -> d <> f \/ d + 128 <= k -> L' k = L k.
Proof.
  intros HF Hne Hnm. pose proof (nm_edits _ _ _ _ _ Hnm) as HE. destruct (fo_safe _ _ HF 0) as [(_ & Hb & Hu) _]; [done|]. rewrite Z.add_0_r in *.
  split; [by apply (ed_used _ _ _ HE)|]. destruct (decide (d ∈ entries L dir)) as [Hin|Hin]; rewrite list_elem_of_In in Hin; [by apply (nm_kept _ _ _ _ _ Hnm)|].
  intros k Hk _. change sizeof_File with 256 in *. destruct (fo_safe _ _ HF (k - d)) as [(Hc & Hb' & Hu') Hz]; [change sizeof_File with 256; lia|].
  pose proof (fo_blk _ _ HF (k - d) ltac:(change sizeof_File with 256; lia)) as Hbk. replace (d + (k - d)) with k in * by lia.
  apply (ed_keep _ _ _ HE); try done; [lia|lia| |].
  - intros Hh%head_in. destruct (ne_sep _ _ _ Hne); change sizeof_File with 256 in *; lia.
  - rewrite Hbk. intros Ho. by apply Hin, (ne_down _ _ _ Hne).
Qed.

(** The directory a missing file would go into can take it: it is within the
    size limit, and shares no block with the directories on the way, though one
    of them may have it as an entry. *)
Definition creatable (L : Z -> Z) (path : list Z) : Prop :=
  let w := walk_result L None (s_root SUPER) (names path) in
  forall dir, wk_r w <> 0 -> wk_dir w = Some dir -> fsize L dir < MAXFILESIZE /\ tidy L dir
    /\ forall d, In d (path_dirs L (s_root SUPER) (names path)) -> d = dir \/ neighbours L dir d.

(** The new file is in its directory, its directory is on the disk, and the
    path leads to it. *)
Record created (L L' : Z -> Z) (s' : fsstate) (dir f : Z) (path : list Z) : Prop := {
  cr_named : named L L' dir f (wk_last (walk_result L None (s_root SUPER) (names path)));
  cr_path : resolve L' (s_root SUPER) (names path) = inr f;
  cr_walk : walkable L' (s_root SUPER) (names path);
  cr_disk : flushed L' s' (blk_of dir) /\ forall n, 0 <= n < fsize L' dir / BLKSIZE -> flushed L' s' (fblk L' dir n)
}.

(** What [file_create] may return. *)
Definition create_spec (L : Z -> Z) (path : list Z) (out : outcome fsstate (Z + Z)) : Prop :=
  let w := walk_result L None (s_root SUPER) (names path) in
  if wk_r w =? 0 then exists s', out = Ret (inl (- E_FILE_EXISTS)) s' /\ bc_ok L s'
  else
    match wk_dir w with
    | None => exists s', out = Ret (inl (wk_r w)) s' /\ bc_ok L s'
    | Some dir =>
        exists L' s', edits dir L L' /\ bc_ok L' s' /\
          ((exists f, out = Ret (inr f) s' /\ created L L' s' dir f path)
           \/ (out = Ret (inl (- E_NO_DISK)) s' /\ dir_free L dir = None /\ fsize L' dir = fsize L dir + BLKSIZE
               /\ forall b, 0 <= b < nb L' -> used L' b))
    end.

Lemma file_create_ok L s path : bc_ok L s -> Forall (fun c => 0 < c < 2 ^ 8) path -> walkable L (s_root SUPER) (names path) -> creatable L path ->
  create_spec L path (file_create path s).
Proof.
  intros HB Hp Hw Hc. pose proof (bo_disk _ _ HB) as HL. unfold file_create, create_spec. destruct (walk_path_ok L s path HB Hw) as (s1 & E1 & HB1). rewrite (bind_ret _ _ _ _ _ E1).
  set (w := walk_result L None (s_root SUPER) (names path)) in *. destruct (Z.eqb_spec (wk_r w) 0) as [|Hr]; [by exists s1|].
  destruct (wk_dir w) as [dir|] eqn:Hd; [|by exists s1].
  destruct (walk_missing L dir (names path) None _ Hw Hr Hd) as (Er & Hin & Hnm & Hl & HD & Hnone). fold w in Er, Hnm, Hl, Hnone. pose proof (names_ok path _ Hp Hnm) as Hok.
  rewrite Er, Z.eqb_refl. cbn [negb]. destruct (Hc dir Hr Hd) as (Hlt & Ht & Hap).
  destruct (dir_alloc_ok L s1 dir HB1 HD Hlt Ht) as (L1 & s2 & HE & HB2 & [(e & E2 & Hal)|(E2 & Hrest)]); rewrite (bind_ret _ _ _ _ _ E2); [|exists L1, s2; split; [done|]; split; [done|]; by right].
  destruct (named_ok L L1 s2 dir e _ Hal HB2 Hok Hl) as (s3 & E3 & HB3). rewrite (bind_ret _ _ _ _ _ E3).
  pose proof (named_put L L1 dir e _ (bo_disk _ _ HB2) Hal HD Ht Hok Hl Hnone) as Hn. set (L2 := lput (entry L1 dir e) (wk_last w ++ [0]) L1) in *. pose proof Hn as [HE2 HD2 Hty Hfd _ _ _ _ _].
  destruct (file_flush_ok L2 s3 dir HB3 (dk_file _ _ HD2) (dk_size _ _ HD2)) as (s4 & E4 & HB4 & F1 & F2 & _). rewrite (bind_ret _ _ _ _ _ E4).
  exists L2, s4. split; [done|]. split; [done|]. left. exists (entry L1 dir e). split; [done|].
  destruct (walk_named L L2 dir (entry L1 dir e) (wk_last w) (names path) Hnone None (s_root SUPER) Hw) as [R W]; [|done..|].
  - intros d n Hdd Hn' HDd Hln. pose proof (names_ok path n Hp Hn') as Hokn. destruct (Hap d Hdd) as [->|Ha].
    + split; [done|]. split; [done|]. rewrite Hfd by done. destruct (decide (n = wk_last w)); [by rewrite decide_True|rewrite decide_False; [done|tauto]].
    + rewrite decide_False by (intros [-> _]; destruct (ne_sep _ _ _ Ha); change sizeof_File with 256 in *; lia). destruct (named_struct _ _ _ _ _ _ (dk_file _ _ HDd) Ha Hn) as [Hu Hk].
      destruct (other_dir_kept L L2 dir d HL (dk_file _ _ HD) HDd Ha (edits_changes _ _ _ HE2) Hu) as (? & ? & _ & Hdf); [|by auto]. intros k Hkr. apply Hk; [lia|right; lia].
  - split; [done|done|done|]. split; [done|]. intros n Hnr. apply F2; [|by apply HD2]. unfold nblk. change BLKSIZE with 4096 in *. lia.
Qed.
