(* ===== verification/FsInv.v ===== *)
(** fs/fs.c: the file system as a whole. All files together are in order, and
    what one operation does to one file keeps them so. *)

From stdpp Require Import base numbers list gmap strings.
From Stdlib Require Import ZArith Lia Bool.
From S2P Require Import Prelude Mmu Console Bc Fs BcSpec BitmapSpec FileSpec FileIo FileTrunc DirSpec DirCreate.

Local Ltac Zify.zify_post_hook ::= Z.to_euclidean_division_equations.

(** * The invariant *)

(** The name of [f] ends within its structure. *)
Definition ended (L : Z -> Z) (f : Z) : Prop := exists i, 0 <= i < MAXNAMELEN /\ L (f + i) = 0.

(** [F] are all the files of the disk [L], free entries of directories included:
    the root directory and the entries of the directories among them. No two
    share a block, and their structures are in blocks of directories. An entry
    without a name is blank. *)
Record fs_ok (L : Z -> Z) (F : gset Z) : Prop := {
  fi_root : s_root SUPER ∈ F;
  fi_file : forall f, f ∈ F -> file_ok L f;
  fi_size : forall f, f ∈ F -> 0 <= fsize L f <= MAXFILESIZE;
  fi_tidy : forall f, f ∈ F -> tidy L f;
  fi_own : forall f g b, f ∈ F -> g ∈ F -> f <> g -> owns L f b -> ~ owns L g b;
  fi_sep : forall f g, f ∈ F -> g ∈ F -> f <> g -> f + sizeof_File <= g \/ g + sizeof_File <= f;
  fi_home : forall f g, f ∈ F -> g ∈ F -> owns L f (blk_of g) -> ftype L f = FTYPE_DIR /\ In g (entries L f);
  fi_dir : forall f, f ∈ F -> ftype L f = FTYPE_DIR -> dir_ok L f /\ forall e, In e (entries L f) -> e ∈ F;
  fi_ended : forall f, f ∈ F -> ended L f;
  fi_free : forall f, f ∈ F -> L f = 0 -> fsize L f = 0 /\ ftype L f = FTYPE_REG;
  fi_rootn : L (s_root SUPER) <> 0
}.

(** The structure of a file is in a block that is in use. *)
Lemma home_used L f : file_ok L f -> in_cache f /\ 0 <= blk_of f < nb L /\ used L (blk_of f).
Proof. intros HF. destruct (fo_safe _ _ HF 0) as [(Hc & Hb & Hu) _]; [done|]. by rewrite Z.add_0_r in *. Qed.

Section Inv.
Context (L : Z -> Z) (F : gset Z) (HL : disk_ok L) (HI : fs_ok L F).

(** The indirect block of a file holds no structures. *)
Lemma ind_no_home f g : f ∈ F -> g ∈ F -> find L g <> 0 -> find L g <> blk_of f.
Proof.
  intros Hf Hg Hz E. assert (owns L g (blk_of f)) as Ho by (split; [lia|left; by rewrite E]).
  destruct (fi_home _ _ HI g f Hg Hf Ho) as [Ht Hin]. destruct (fi_dir _ _ HI g Hg Ht) as [HD _].
  destruct (entries_in L g f HD Hin) as (n & j & Hn & _ & Hnz & Hon & Hj & Ef).
  destruct (entry_access L g HL (dk_file _ _ HD) _ j 0 Hon Hj) as [_ Hb]; [done|]. rewrite Z.add_0_r, <- Ef in Hb.
  apply (fo_ind _ _ (dk_file _ _ HD) n Hn Hnz). by rewrite E, Hb.
Qed.

Lemma neighbours_of f g : f ∈ F -> g ∈ F -> f <> g -> neighbours L f g.
Proof.
  intros Hf Hg Hne. split.
  - intros b. by apply (fi_own _ _ HI).
  - by apply ind_no_home.
  - intros Ho. by apply (fi_home _ _ HI g f).
  - intros Ho. by apply (fi_home _ _ HI f g).
  - by apply (fi_sep _ _ HI).
Qed.

(** A file that is no directory holds no structures. *)
Lemma plain_no_home f g : f ∈ F -> g ∈ F -> ftype L f <> FTYPE_DIR -> ~ owns L f (blk_of g).
Proof. intros Hf Hg Ht Ho. by destruct (fi_home _ _ HI f g Hf Hg Ho). Qed.

(** Every path can be walked, and leads to files in [F]. *)
Lemma dir_find_in d n f : d ∈ F -> ftype L d = FTYPE_DIR -> dir_find L d n = Some f -> f ∈ F.
Proof. intros Hd Ht Hf. apply find_some in Hf as [Hin _]. by apply (fi_dir _ _ HI d Hd Ht). Qed.

Lemma fs_walkable ns : forall f, f ∈ F -> walkable L f ns.
Proof.
  induction ns as [|n ns IH]; intros f Hf; [done|]. cbn. intros Ht. split; [by apply (fi_dir _ _ HI)|].
  destruct (dir_find L f n) as [f'|] eqn:E; [|done]. by apply IH, (dir_find_in f n).
Qed.

(** A file that is found under a name has one. *)
Lemma dir_find_named d n f : name_ok n -> dir_find L d n = Some f -> L f <> 0.
Proof.
  intros [Hn Hc] Hf. apply find_some in Hf as [_ Hs]. destruct n as [|c n]; [done|]. cbn in Hs. apply andb_true_iff in Hs as [Hs _]. apply Z.eqb_eq in Hs.
  apply Forall_cons in Hc as [Hc _]. lia.
Qed.

Lemma fs_resolve ns : forall f g, f ∈ F -> L f <> 0 -> Forall name_ok ns -> resolve L f ns = inr g -> g ∈ F /\ L g <> 0.
Proof.
  induction ns as [|n ns IH]; intros f g Hf H0 Hns; cbn; [by intros [= <-]|]. apply Forall_cons in Hns as [Hn Hns]. destruct (_ <=? _); [done|].
  destruct (Z.eqb_spec (ftype L f) FTYPE_DIR) as [Ht|]; [|done]. cbn [negb]. destruct (dir_find L f n) as [f'|] eqn:E; [|done].
  apply IH; [by apply (dir_find_in f n)|by apply (dir_find_named f n)|done].
Qed.

Lemma fs_walk_dir ns : forall o f dir, f ∈ F -> L f <> 0 -> Forall name_ok ns -> (forall d, o = Some d -> d ∈ F /\ ftype L d = FTYPE_DIR /\ L d <> 0) ->
  wk_dir (walk_result L o f ns) = Some dir -> dir ∈ F /\ ftype L dir = FTYPE_DIR /\ L dir <> 0.
Proof.
  induction ns as [|n ns IH]; intros o f dir Hf H0 Hns Ho; cbn; [intros E; by apply Ho|]. apply Forall_cons in Hns as [Hn Hns]. destruct (_ <=? _); [done|].
  destruct (Z.eqb_spec (ftype L f) FTYPE_DIR) as [Ht|]; [|done]. cbn [negb]. destruct (dir_find L f n) as [f'|] eqn:E.
  - apply IH; [by apply (dir_find_in f n)|by apply (dir_find_named f n)|done|]. by intros d [= <-].
  - case_bool_decide; cbn; [by intros [= <-]|done].
Qed.

Lemma fs_path_dirs ns : forall f d, f ∈ F -> In d (path_dirs L f ns) -> d ∈ F.
Proof.
  induction ns as [|n ns IH]; intros f d Hf; cbn; [done|]. intros [<-|Hd]; [done|]. destruct (Z.eqb_spec (ftype L f) FTYPE_DIR) as [Ht|]; [|done].
  destruct (dir_find L f n) as [f'|] eqn:E; [|done]. by apply (IH f'); [apply (dir_find_in f n)|].
Qed.

Lemma fs_names path : Forall (fun c => 0 < c < 2 ^ 8) path -> Forall name_ok (names path).
Proof. intros Hp. apply Forall_forall. intros n Hn%list_elem_of_In. by apply (names_ok path). Qed.

Lemma fs_creatable path : Forall (fun c => 0 < c < 2 ^ 8) path -> (forall d, d ∈ F -> ftype L d = FTYPE_DIR -> fsize L d < MAXFILESIZE) -> creatable L path.
Proof.
  intros Hp Hlt dir Hr Hd. destruct (fs_walk_dir _ None _ dir (fi_root _ _ HI) (fi_rootn _ _ HI) (fs_names path Hp) ltac:(done) Hd) as (Hin & Ht & _).
  split; [auto|]. split; [by apply (fi_tidy _ _ HI)|]. intros d Hdd. apply fs_path_dirs in Hdd; [|apply HI].
  destruct (decide (d = dir)) as [|Hne]; [by left|right]. by apply neighbours_of.
Qed.
End Inv.

(** * Changing one file *)

Lemma lword_zero L va : (forall i, 0 <= i < 4 -> L (va + i) = 0) -> lword L va = 0.
Proof. intros H. unfold lword. rewrite <- (Z.add_0_r va) at 1. by rewrite !H by lia. Qed.

(** A structure of zeros, as in a new block of a directory. *)
Lemma zero_file L e : (forall k, e + 128 <= k < e + sizeof_File -> L k = 0) ->
  (forall b, ~ owns L e b) /\ fsize L e = 0 /\ ftype L e = 0 /\ tidy L e.
Proof.
  intros Hz. change sizeof_File with 256 in Hz.
  assert (find L e = 0) as Hf by (apply lword_zero; intros i Hi; apply Hz; unfold f_indirect; change MAXNAMELEN with 128; change NDIRECT with 10; lia).
  assert (forall n, 0 <= n < NBLOCKS -> fblk L e n = 0) as Hb.
  { intros n Hn. unfold fblk, fslot. rewrite Hf. destruct (Z.ltb_spec n NDIRECT); [|done]. cbn [orb]. apply lword_zero. intros i Hi. apply Hz.
    unfold f_direct. change MAXNAMELEN with 128. change NDIRECT with 10 in *. lia. }
  assert (fsize L e = 0) as Hs.
  { unfold fsize. rewrite lword_zero; [done|]. intros i Hi. apply Hz. unfold f_size. change MAXNAMELEN with 128. lia. }
  split_and!; [|done| |].
  - intros b [Hne [->|(n & Hn & ->)]]; [done|]. by rewrite Hb in Hne.
  - apply lword_zero. intros i Hi. apply Hz. unfold f_type. change MAXNAMELEN with 128. lia.
  - intros n Hn. apply Hb. rewrite Hs in Hn. change (nblk 0) with 0 in Hn. lia.
Qed.

Lemma entry_owned L d e : disk_ok L -> dir_ok L d -> In e (entries L d) -> owns L d (blk_of e).
Proof.
  intros HL HD Hin. destruct (entries_in L d e HD Hin) as (n & j & Hn & _ & Hnz & Hon & Hj & Ee).
  destruct (entry_access L d HL (dk_file _ _ HD) _ j 0 Hon Hj) as [_ Hb]; [done|]. rewrite Z.add_0_r, <- Ee in Hb. by rewrite Hb.
Qed.

Lemma entry_file L d e : disk_ok L -> dir_ok L d -> In e (entries L d) -> (forall k, e + 128 <= k < e + sizeof_File -> L k = 0) -> file_ok L e /\ owns L d (blk_of e).
Proof.
  intros HL HD Hin Hz. destruct (zero_file L e Hz) as (Ho & Hs & Ht & _).
  destruct (entries_in L d e HD Hin) as (n & j & Hn & _ & Hnz & Hon & Hj & Ee).
  assert (forall i, 0 <= i < sizeof_File -> safe L (e + i) /\ blk_of (e + i) = fblk L d n) as Ha.
  { intros i Hi. rewrite Ee. by apply (entry_access L d HL (dk_file _ _ HD)). }
  pose proof (proj2 (Ha 0 ltac:(done))) as Hb0. rewrite Z.add_0_r in Hb0.
  split; [|by rewrite Hb0]. split.
  - intros i Hi. by apply Ha.
  - intros i Hi. rewrite Hb0. by apply Ha.
  - destruct (entry_align L d e HD Hin) as [Ha4 _]. change sizeof_File with 256 in Ha4. lia.
  - intros b Hb. by destruct (Ho b).
  - intros m m' Hm _ Hnz' _. destruct (Ho (fblk L e m)). by apply fblk_owned.
  - intros m Hm Hnz' _. destruct (Ho (fblk L e m)). by apply fblk_owned.
Qed.

(** Structures in different blocks do not overlap. *)
Lemma blocks_sep L f g : file_ok L f -> file_ok L g -> blk_of f <> blk_of g -> f + sizeof_File <= g \/ g + sizeof_File <= f.
Proof.
  intros HF HG Hne. change sizeof_File with 256. destruct (Z.le_gt_cases (f + 256) g) as [|H1]; [by left|]. destruct (Z.le_gt_cases (g + 256) f) as [|H2]; [by right|].
  destruct Hne. destruct (Z.le_gt_cases f g) as [Hle|Hgt].
  - pose proof (fo_blk _ _ HF (g - f)) as E. change sizeof_File with 256 in E. replace (f + (g - f)) with g in E by lia. symmetry. apply E. lia.
  - pose proof (fo_blk _ _ HG (f - g)) as E. change sizeof_File with 256 in E. replace (g + (f - g)) with f in E by lia. apply E. lia.
Qed.

Section Frame.
Context (L L' : Z -> Z) (F F' : gset Z) (f : Z) (HL : disk_ok L) (HI : fs_ok L F) (Hf : f ∈ F) (HC : changes f L L').
Context (Hsz : 0 <= fsize L' f <= MAXFILESIZE) (Htd : tidy L' f) (Hsub : F ⊆ F').
Context (Hst : forall g, g ∈ F -> g <> f -> used L' (blk_of g) /\ forall k, g + 128 <= k < g + sizeof_File -> L' k = L k).
Context (Hdir : ftype L f = FTYPE_DIR -> dir_ok L' f /\ (forall e, In e (entries L f) -> In e (entries L' f)) /\ forall e, In e (entries L' f) -> e ∈ F').
Context (Hf0 : L f <> 0) (Hnm : forall g, g ∈ F -> L g <> 0 -> forall i, 0 <= i < MAXNAMELEN -> L' (g + i) = L (g + i)) (Hend : forall g, g ∈ F' -> ended L' g).
Context (Hnew : forall e, e ∈ F' -> e ∉ F -> ftype L f = FTYPE_DIR /\ In e (entries L' f) /\ forall k, e + 128 <= k < e + sizeof_File -> L' k = 0).

Lemma frame_other g : g ∈ F -> g <> f ->
  (forall b k, owns L g b -> in_cache k -> blk_of k = b -> ~ head f k -> L' k = L k)
  /\ find L' g = find L g /\ (forall n, 0 <= n < NBLOCKS -> fblk L' g n = fblk L g n) /\ file_ok L' g /\ fsize L' g = fsize L g.
Proof.
  intros Hg Hne. destruct (Hst g Hg Hne) as [Hu Kg]. pose proof (neighbours_of L F HL HI f g Hf Hg ltac:(congruence)) as Hnb.
  destruct (others_core f g L L' HL (fi_file _ _ HI f Hf) (fi_file _ _ HI g Hg) HC (ne_own _ _ _ Hnb) (ne_ind _ _ _ Hnb) Hu Kg) as (Ko & H1 & H2 & H3).
  split_and!; try done. unfold fsize. f_equal. apply lword_ext. intros i Hi. apply Kg. unfold f_size. change MAXNAMELEN with 128. change sizeof_File with 256. lia.
Qed.

Lemma frame_owns g b : g ∈ F -> g <> f -> owns L' g b <-> owns L g b.
Proof.
  intros Hg Hne. destruct (frame_other g Hg Hne) as (_ & Hfi & Hfb & _).
  split; intros [Hz [->|(n & Hr & ->)]]; split; try done; [left|right; exists n|left|right; exists n]; rewrite ?Hfi, ?Hfb by done; done.
Qed.

Lemma frame_type g : g ∈ F -> ftype L' g = ftype L g.
Proof.
  intros Hg. apply lword_ext. intros i Hi. unfold f_type. change MAXNAMELEN with 128. destruct (decide (g = f)) as [->|Hne].
  - apply (changes_struct f L L'); [by apply (fi_file _ _ HI)|done|change sizeof_File with 256; lia|unfold head, ptrs; lia].
  - apply (Hst g Hg Hne). change sizeof_File with 256. lia.
Qed.

Lemma frame_named g : g ∈ F -> L g <> 0 -> L' g = L g.
Proof. intros Hg Hz. pose proof (Hnm g Hg Hz 0 ltac:(done)) as E. by rewrite Z.add_0_r in E. Qed.

Lemma frame_new e : e ∈ F' -> e ∉ F -> file_ok L' e /\ (forall b, ~ owns L' e b) /\ fsize L' e = 0 /\ ftype L' e = 0 /\ tidy L' e /\ owns L' f (blk_of e).
Proof.
  intros He Hn. destruct (Hnew e He Hn) as (Ht & Hin & Hz). destruct (Hdir Ht) as [HD _]. destruct (entry_file L' f e (ch_disk _ _ _ HC) HD Hin Hz) as [H1 H2].
  destruct (zero_file L' e Hz) as (H3 & H4 & H5 & H6). by split_and!.
Qed.

Lemma frame_file g : g ∈ F' -> file_ok L' g.
Proof.
  intros Hg. destruct (decide (g ∈ F)) as [Hi|Hn]; [|by apply frame_new]. destruct (decide (g = f)) as [->|Hne]; [apply HC|by apply frame_other].
Qed.

(** Blocks of [f] hold only structures of its entries. *)
Lemma frame_home g : g ∈ F' -> owns L' f (blk_of g) -> ftype L f = FTYPE_DIR /\ In g (entries L' f).
Proof.
  intros Hg Ho. destruct (decide (g ∈ F)) as [Hi|Hn]; [|by destruct (Hnew g Hg Hn) as (? & ? & _)].
  destruct (ch_own _ _ _ HC _ Ho) as [Ho'|[Hu _]]; [|by destruct (home_used L g (fi_file _ _ HI g Hi)) as (_ & _ & ?)].
  destruct (fi_home _ _ HI f g Hf Hi Ho') as [Ht Hin]. split; [done|]. by apply Hdir.
Qed.

(** No file but [f] owns the block of a new entry. *)
Lemma frame_foreign x g : x ∈ F -> x <> f -> g ∈ F' -> g ∉ F -> ~ owns L' x (blk_of g).
Proof.
  intros Hx Hne Hg Hn Ho. apply frame_owns in Ho; [|done..]. destruct (frame_new g Hg Hn) as (_ & _ & _ & _ & _ & Hof).
  destruct (ch_own _ _ _ HC _ Hof) as [Hof'|[Hu _]]; [by destruct (fi_own _ _ HI f x _ Hf Hx ltac:(congruence) Hof')|].
  by destruct (fo_owned _ _ (fi_file _ _ HI x Hx) _ Ho) as (_ & ? & _).
Qed.

Lemma frame_sep_new e g : e ∈ F' -> e ∉ F -> g ∈ F' -> e <> g -> e + sizeof_File <= g \/ g + sizeof_File <= e.
Proof.
  intros He Hn Hg Hne. destruct (decide (blk_of e = blk_of g)) as [Eb|]; [|by apply (blocks_sep L'); [apply frame_file..|]].
  destruct (Hnew e He Hn) as (Ht & Hin & _). destruct (frame_new e He Hn) as (_ & _ & _ & _ & _ & Ho). rewrite Eb in Ho.
  destruct (frame_home g Hg Ho) as [_ Hing]. destruct (Hdir Ht) as [HD _].
  destruct (entry_align L' f e HD Hin) as [A1 _]. destruct (entry_align L' f g HD Hing) as [A2 _]. change sizeof_File with 256 in *. clear - A1 A2 Hne. lia.
Qed.

Lemma frame_entries g : g ∈ F -> g <> f -> ftype L g = FTYPE_DIR ->
  dir_ok L' g /\ entries L' g = entries L g /\ forall n, Z.of_nat (length n) < MAXNAMELEN -> dir_find L' g n = dir_find L g n.
Proof.
  intros Hg Hne Ht. destruct (Hst g Hg Hne) as [Hu Kg]. destruct (fi_dir _ _ HI g Hg Ht) as [HD _].
  destruct (other_dir_kept L L' f g HL (fi_file _ _ HI f Hf) HD (neighbours_of L F HL HI f g Hf Hg ltac:(congruence)) HC Hu Kg) as (? & _ & ? & ?). by split_and!.
Qed.

Lemma fs_frame : fs_ok L' F'.
Proof.
  split.
  - apply Hsub, HI.
  - apply frame_file.
  - intros g Hg. destruct (decide (g ∈ F)) as [Hi|Hn]; [|destruct (frame_new g Hg Hn) as (_ & _ & -> & _); by vm_compute].
    destruct (decide (g = f)) as [->|Hne]; [done|]. destruct (frame_other g Hi Hne) as (_ & _ & _ & _ & ->). by apply (fi_size _ _ HI).
  - intros g Hg. destruct (decide (g ∈ F)) as [Hi|Hn]; [|by apply frame_new].
    destruct (decide (g = f)) as [->|Hne]; [done|]. destruct (frame_other g Hi Hne) as (_ & _ & Hb & _ & Hs). intros n Hr. rewrite Hs in Hr.
    pose proof (fi_size _ _ HI g Hi). rewrite Hb by (unfold nblk in Hr; change BLKSIZE with 4096 in Hr; lia). by apply (fi_tidy _ _ HI g Hi).
  - intros g h b Hg Hh Hne Ho Ho2. destruct (decide (g ∈ F)) as [Hi|Hn]; [|by destruct (frame_new g Hg Hn) as (_ & Hno & _); destruct (Hno b)].
    destruct (decide (h ∈ F)) as [Hj|Hn]; [|by destruct (frame_new h Hh Hn) as (_ & Hno & _); destruct (Hno b)].
    assert (forall x, x ∈ F -> x <> f -> owns L' f b -> owns L' x b -> False) as Hx.
    { intros x Hx Hxf O1 O2. apply frame_owns in O2; [|done..]. destruct (ch_own _ _ _ HC _ O1) as [O1'|[Hu _]]; [by destruct (fi_own _ _ HI f x b Hf Hx ltac:(congruence) O1')|].
      by destruct (fo_owned _ _ (fi_file _ _ HI x Hx) _ O2) as (_ & ? & _). }
    destruct (decide (g = f)) as [->|Hgf]; [by apply (Hx h)|]. destruct (decide (h = f)) as [->|Hhf]; [by apply (Hx g)|].
    apply frame_owns in Ho, Ho2; try done. by destruct (fi_own _ _ HI g h b Hi Hj Hne Ho).
  - intros g h Hg Hh Hne. destruct (decide (g ∈ F)) as [Hi|Hn]; [|by apply frame_sep_new].
    destruct (decide (h ∈ F)) as [Hj|Hn]; [by apply (fi_sep _ _ HI)|]. destruct (frame_sep_new h g Hh Hn Hg ltac:(congruence)); auto.
  - intros g h Hg Hh Ho. destruct (decide (g ∈ F)) as [Hi|Hn]; [|by destruct (frame_new g Hg Hn) as (_ & Hno & _); destruct (Hno (blk_of h))].
    rewrite frame_type by done. destruct (decide (g = f)) as [->|Hne]; [by apply frame_home|]. destruct (decide (h ∈ F)) as [Hj|Hn]; [|by destruct (frame_foreign g h Hi Hne Hh Hn)].
    apply frame_owns in Ho; [|done..]. destruct (fi_home _ _ HI g h Hi Hj Ho) as [Ht Hin]. split; [done|]. by destruct (frame_entries g Hi Hne Ht) as (_ & -> & _).
  - intros g Hg Ht. destruct (decide (g ∈ F)) as [Hi|Hn]; [|destruct (frame_new g Hg Hn) as (_ & _ & _ & Hty & _); by rewrite Hty in Ht].
    rewrite frame_type in Ht by done. destruct (decide (g = f)) as [->|Hne]; [by destruct (Hdir Ht) as (? & _ & ?)|].
    destruct (frame_entries g Hi Hne Ht) as (HD & -> & _). split; [done|]. intros e He. apply Hsub. by apply (fi_dir _ _ HI g Hi Ht).
  - done.
  - intros g Hg Hz. destruct (decide (g ∈ F)) as [Hi|Hn]; [|by destruct (frame_new g Hg Hn) as (_ & _ & -> & -> & _)].
    destruct (decide (L g = 0)) as [Hz0|Hz0]; [|by rewrite (frame_named g Hi Hz0) in Hz]. destruct (decide (g = f)) as [->|Hne]; [done|].
    rewrite frame_type by done. destruct (frame_other g Hi Hne) as (_ & _ & _ & _ & ->). by apply (fi_free _ _ HI).
  - rewrite frame_named; apply HI.
Qed.
(** The bytes of other files that are no directories. *)
Lemma frame_byte g pos : g ∈ F -> g <> f -> ftype L g <> FTYPE_DIR -> 0 <= pos < MAXFILESIZE -> fbyte L' g pos = fbyte L g pos.
Proof.
  intros Hg Hne Ht Hp. destruct (frame_other g Hg Hne) as (Ko & _ & Hb & _). pose proof (fi_file _ _ HI g Hg) as HG. unfold fbyte. change MAXFILESIZE with (1034 * 4096) in Hp.
  assert (0 <= pos / BLKSIZE < NBLOCKS) as Hpn by (change NBLOCKS with 1034; change BLKSIZE with 4096; lia).
  rewrite Hb by done. destruct (Z.eqb_spec (fblk L g (pos / BLKSIZE)) 0) as [|Hz]; [done|]. pose proof (fblk_owned L g _ Hpn Hz) as Ho.
  destruct (owned_safe L HL g HG _ (pos mod BLKSIZE) Ho) as [Hs Hbk]; [change BLKSIZE with 4096; lia|].
  apply (Ko _ _ Ho (safe_in _ _ Hs) Hbk). intros Hh%head_in. apply (plain_no_home L F HI g f Hg Hf Ht). rewrite <- Hbk in Ho.
  set (k := baddr _ + _) in *. pose proof (fo_blk _ _ (fi_file _ _ HI f Hf) (k - f)) as Hb'. change sizeof_File with 256 in Hb'.
  replace (f + (k - f)) with k in Hb' by lia. by rewrite <- Hb' by lia.
Qed.

Context (Hfind : ftype L f = FTYPE_DIR -> forall n h, name_ok n -> Z.of_nat (length n) < MAXNAMELEN -> dir_find L f n = Some h -> dir_find L' f n = Some h).

Lemma frame_path ns : forall g h, g ∈ F -> Forall name_ok ns -> resolve L g ns = inr h -> resolve L' g ns = inr h.
Proof.
  induction ns as [|n ns IH]; intros g h Hg Hns; cbn; [done|]. apply Forall_cons in Hns as [Hn Hns]. destruct (Z.leb_spec MAXNAMELEN (Z.of_nat (length n))) as [|Hl]; [done|].
  rewrite frame_type by done. destruct (Z.eqb_spec (ftype L g) FTYPE_DIR) as [Ht|]; [|done]. cbn [negb]. destruct (dir_find L g n) as [x|] eqn:E; [|done].
  assert (dir_find L' g n = Some x) as ->; [|by apply IH; [apply (dir_find_in L F HI g n)|]].
  destruct (decide (g = f)) as [->|Hne]; [by apply Hfind|]. destruct (frame_entries g Hg Hne Ht) as (_ & _ & ->); done.
Qed.
End Frame.

(** What every operation on [f] promises about all the files there were. *)
Record untouched (L L' : Z -> Z) (F : gset Z) (f : Z) : Prop := {
  un_type : forall g, g ∈ F -> ftype L' g = ftype L g;
  un_size : forall g, g ∈ F -> g <> f -> fsize L' g = fsize L g;
  un_byte : forall g pos, g ∈ F -> g <> f -> ftype L g <> FTYPE_DIR -> 0 <= pos < MAXFILESIZE -> fbyte L' g pos = fbyte L g pos;
  un_name : forall g i, g ∈ F -> L g <> 0 -> 0 <= i < MAXNAMELEN -> L' (g + i) = L (g + i);
  un_path : forall ns g h, g ∈ F -> Forall name_ok ns -> resolve L g ns = inr h -> resolve L' g ns = inr h
}.

Lemma untouched_refl L F f : untouched L L F f.
Proof. by split. Qed.

(** * Operations on a file that is no directory *)

Section Plain.
Context (L L' : Z -> Z) (F : gset Z) (f : Z) (HL : disk_ok L) (HI : fs_ok L F) (Hf : f ∈ F) (Ht : ftype L f <> FTYPE_DIR) (Hf0 : L f <> 0).

Lemma plain_struct g : changes f L L' -> g ∈ F -> g <> f -> used L' (blk_of g) /\ forall k, g <= k < g + sizeof_File -> L' k = L k.
Proof.
  intros HC Hg Hne. pose proof (neighbours_of L F HL HI f g Hf Hg ltac:(congruence)) as [N1 N2 _ N4 N5]. pose proof (plain_no_home L F HI f g Hf Hg Ht) as Hno.
  assert (beside L f g) as Hb by (split; [done|by intros b Ho ->|done|done]).
  pose proof (fi_file _ _ HI f Hf) as HF. pose proof (fi_file _ _ HI g Hg) as HG.
  destruct (others_same f g L L' HL HF HG HC Hb) as (Kg & _ & _ & _ & HG'). split; [|done]. by apply home_used.
Qed.

(** Whatever such an operation does, the file system stays in order. *)
Lemma fs_plain : changes f L L' -> 0 <= fsize L' f <= MAXFILESIZE -> tidy L' f -> fs_ok L' F /\ untouched L L' F f.
Proof.
  intros HC Hsz Htd. assert (forall g, g ∈ F -> g <> f -> used L' (blk_of g) /\ forall k, g + 128 <= k < g + sizeof_File -> L' k = L k) as Hst.
  { intros g Hg Hne. destruct (plain_struct g HC Hg Hne) as [Hu Hk]. split; [done|]. intros k Hr. apply Hk. lia. }
  assert (forall g i, g ∈ F -> 0 <= i < MAXNAMELEN -> L' (g + i) = L (g + i)) as Hnm.
  { intros g i Hg Hi. change MAXNAMELEN with 128 in Hi. destruct (decide (g = f)) as [->|Hne]; [|destruct (plain_struct g HC Hg Hne) as [_ Hk]; apply Hk; change sizeof_File with 256; lia].
    apply (changes_struct f L L'); [by apply (fi_file _ _ HI)|done|change sizeof_File with 256; lia|intros Hh%head_in; lia]. }
  assert (forall g, g ∈ F -> ended L' g) as Hend.
  { intros g Hg. destruct (fi_ended _ _ HI g Hg) as (i & Hi & E). exists i. split; [done|]. by rewrite Hnm. }
  assert (ftype L f = FTYPE_DIR -> dir_ok L' f /\ (forall e, In e (entries L f) -> In e (entries L' f)) /\ forall e, In e (entries L' f) -> e ∈ F) as Hdir by done.
  assert (forall e, e ∈ F -> e ∉ F -> ftype L f = FTYPE_DIR /\ In e (entries L' f) /\ forall k, e + 128 <= k < e + sizeof_File -> L' k = 0) as Hnew by done.
  split; [apply (fs_frame L L' F F f); auto|split; intros].
  - apply (frame_type L L' F f); auto.
  - by destruct (frame_other L L' F f HL HI Hf HC Hst g) as (_ & _ & _ & _ & ?).
  - apply (frame_byte L L' F f); auto.
  - by apply Hnm.
  - apply (frame_path L L' F f HL HI Hf HC Hst) with (ns := ns); auto. done.
Qed.
End Plain.
