(* ===== verification/FsOps.v ===== *)
(** fs/fs.c: each operation keeps the file system as a whole in order. *)

From stdpp Require Import base numbers list gmap strings.
From Stdlib Require Import ZArith Lia Bool.
From S2P Require Import Prelude Mmu Console Bc Fs BcSpec BitmapSpec FileSpec FileIo FileTrunc DirSpec DirCreate FsInv.

Local Ltac Zify.zify_post_hook ::= Z.to_euclidean_division_equations.

(** No blocks are taken beyond the size. *)
Lemma fills_tidy f last L L' : fills f last L L' -> tidy L f -> 0 <= fsize L f <= fsize L' f -> last <= fsize L' f -> tidy L' f.
Proof.
  intros HN Ht Hs Hl n Hn. unfold nblk in Hn. change BLKSIZE with 4096 in Hn. rewrite HN; [|lia|change BLKSIZE with 4096; lia].
  apply Ht. unfold nblk. change BLKSIZE with 4096. lia.
Qed.

Section Ops.
Context (L : Z -> Z) (F : gset Z) (s : fsstate) (HB : bc_ok L s) (HI : fs_ok L F).

Lemma fs_write f src buf offset : f ∈ F -> ftype L f <> FTYPE_DIR -> L f <> 0 -> holds f L src buf -> bytes_ok buf ->
  0 <= offset -> offset + Z.of_nat (length buf) <= MAXFILESIZE ->
  exists L' s' r, file_write_with f src (Z.of_nat (length buf)) offset s = Ret r s' /\ bc_ok L' s' /\ fs_ok L' F /\ untouched L L' F f
    /\ fsize L' f = Z.max (fsize L f) (offset + Z.of_nat (length buf))
    /\ ((r = Z.of_nat (length buf) /\ written f buf offset L L' true)
        \/ (r = - E_NO_DISK /\ written f buf offset L L' false /\ forall b, 0 <= b < nb L' -> used L' b)).
Proof.
  intros Hf Ht H0 HH Hb Ho Hl. pose proof (fi_size _ _ HI f Hf) as Hs.
  destruct (write_with_ok L s f src buf offset HB (fi_file _ _ HI f Hf) Hs HH Hb Ho Hl) as (L' & s' & HE & HB' & Hs' & HN & Hres).
  destruct (fs_plain L L' F f (bo_disk _ _ HB) HI Hf Ht H0 (edits_changes _ _ _ HE)) as [HI' HU];
    [lia|apply (fills_tidy f (offset + Z.of_nat (length buf)) L); [done|by apply (fi_tidy _ _ HI)|lia|lia]|].
  exists L', s'. destruct Hres as [[E Hw]|(E & Hw & Hfull)]; eexists; (split; [exact E|]); split_and!; try done; [by left|by right].
Qed.

(** A directory has no holes, so reading it changes nothing. *)
Lemma dir_no_holes f p : f ∈ F -> ftype L f = FTYPE_DIR -> 0 <= p < fsize L f -> fblk L f (p / BLKSIZE) <> 0.
Proof. intros Hf Ht Hp. destruct (fi_dir _ _ HI f Hf Ht) as [HD _]. apply (dk_full _ _ HD). pose proof (dk_even _ _ HD). change BLKSIZE with 4096 in *. lia. Qed.

Lemma fs_read f count offset : f ∈ F -> L f <> 0 -> 0 <= offset -> 0 <= count ->
  let len := Z.max 0 (Z.min count (fsize L f - offset)) in
  exists L' s' r, file_read f count offset s = Ret r s' /\ bc_ok L' s' /\ fs_ok L' F /\ untouched L L' F f
    /\ fsize L' f = fsize L f /\ (forall p, 0 <= p < MAXFILESIZE -> fbyte L' f p = fbyte L f p)
    /\ (r = inr (len, fbytes L f offset len)
        \/ (r = inl (- E_NO_DISK) /\ (exists p, offset <= p < offset + len /\ fblk L f (p / BLKSIZE) = 0) /\ forall b, 0 <= b < nb L' -> used L' b)).
Proof.
  intros Hf H0 Ho Hc len. pose proof (fi_size _ _ HI f Hf) as Hs. pose proof (fi_file _ _ HI f Hf) as HF.
  destruct (read_ok L s f count offset HB HF Hs Ho Hc) as (L' & s' & HG & HB' & HN & HS & Hres). fold len in HN, HS, Hres.
  assert (fs_ok L' F /\ untouched L L' F f) as [HI' HU].
  { destruct (decide (ftype L f = FTYPE_DIR)) as [Ht|Ht].
    - rewrite HS; [split; [done|apply untouched_refl]|]. intros p Hp. apply dir_no_holes; try done. unfold len in Hp. lia.
    - apply (fs_plain L L' F f (bo_disk _ _ HB) HI Hf Ht H0 (edits_changes _ _ _ (grows_edits _ _ _ HG))); rewrite ?(grows_fsize f L L' HF HG); [done|].
      intros n Hn. rewrite (grows_fsize f L L' HF HG) in Hn. unfold nblk in Hn. change BLKSIZE with 4096 in Hn.
      destruct (Z.lt_ge_cases 0 len) as [Hlen|Hlen].
      + rewrite HN by (change BLKSIZE with 4096; unfold len; lia). apply (fi_tidy _ _ HI f Hf). unfold nblk. by change BLKSIZE with 4096.
      + rewrite HS by lia. apply (fi_tidy _ _ HI f Hf). unfold nblk. by change BLKSIZE with 4096. }
  exists L', s'. pose proof (grows_fsize f L L' HF HG). pose proof (gr_byte _ _ _ HG).
  destruct Hres as [E|(E & Hh & Hfull)]; eexists; (split; [exact E|]); split_and!; try done; [by left|by right].
Qed.

Lemma fs_resize f v : f ∈ F -> ftype L f <> FTYPE_DIR -> L f <> 0 -> 0 <= v <= MAXFILESIZE ->
  exists L' s', file_set_size f v s = Ret 0 s' /\ bc_ok L' s' /\ fs_ok L' F /\ untouched L L' F f /\ resized f v L L'.
Proof.
  intros Hf Ht H0 Hv. destruct (set_size_ok L s f v HB (fi_file _ _ HI f Hf) (fi_size _ _ HI f Hf) (fi_tidy _ _ HI f Hf) Hv) as (L' & s' & E & HB' & HR).
  destruct (fs_plain L L' F f (bo_disk _ _ HB) HI Hf Ht H0 (rz_changes _ _ _ _ HR)) as [HI' HU]; [by rewrite (rz_size _ _ _ _ HR)|apply HR|].
  exists L', s'. by split_and!.
Qed.
End Ops.

(** * Creating a file *)

Section Named.
Context (L L' : Z -> Z) (F : gset Z) (dir f : Z) (name : list Z) (HL : disk_ok L) (HI : fs_ok L F) (Hd : dir ∈ F) (Ht : ftype L dir = FTYPE_DIR) (H0 : L dir <> 0).
Context (Hok : name_ok name) (Hl : Z.of_nat (length name) < MAXNAMELEN) (Hno : dir_find L dir name = None) (HN : named L L' dir f name).

Local Abbreviation F' := (F ∪ list_to_set (entries L' dir)).

Lemma named_in e : e ∈ F' <-> e ∈ F \/ In e (entries L' dir).
Proof. by rewrite elem_of_union, elem_of_list_to_set, list_elem_of_In. Qed.

Lemma named_fresh e : e ∈ F' -> e ∉ F -> In e (entries L' dir) /\ ~ In e (entries L dir).
Proof. intros [He|He]%named_in Hn; [done|]. split; [done|]. intros Hi. apply Hn. by apply (fi_dir _ _ HI dir Hd Ht). Qed.

Lemma named_other g : g ∈ F -> g <> dir -> used L' (blk_of g) /\ forall k, g <= k < g + sizeof_File -> g <> f \/ g + 128 <= k -> L' k = L k.
Proof.
  intros Hg Hne. apply (named_struct L L' dir f name g); [by apply (fi_file _ _ HI)| |done]. apply (neighbours_of L F); auto.
Qed.

(** The directory itself is not the new file. *)
Lemma named_self i : 0 <= i < MAXNAMELEN -> L' (dir + i) = L (dir + i).
Proof.
  intros Hi. change MAXNAMELEN with 128 in Hi. apply (changes_struct dir L L'); [by apply (fi_file _ _ HI)|apply edits_changes, HN|change sizeof_File with 256; lia|intros Hh%head_in; lia].
Qed.

Lemma named_old : f ∈ F -> In f (entries L dir).
Proof.
  intros Hf. pose proof (nm_edits _ _ _ _ _ HN) as HE. pose proof (entry_owned L' dir f (ed_disk _ _ _ HE) (nm_dir _ _ _ _ _ HN) (proj1 (nm_name _ _ _ _ _ HN))) as Ho.
  destruct (ed_own _ _ _ HE _ Ho) as [Ho'|[Hu _]]; [by apply (fi_home _ _ HI dir f Hd Hf)|]. by destruct (home_used L f (fi_file _ _ HI f Hf)) as (_ & _ & ?).
Qed.

(** Files that have a name keep it. *)
Lemma named_name g i : g ∈ F -> L g <> 0 -> 0 <= i < MAXNAMELEN -> L' (g + i) = L (g + i).
Proof.
  intros Hg Hz Hi. destruct (decide (g = dir)) as [->|Hne]; [by apply named_self|]. destruct (named_other g Hg Hne) as [_ Hk]. change MAXNAMELEN with 128 in Hi.
  apply Hk; [change sizeof_File with 256; lia|]. left. intros ->. apply Hz. by apply (nm_free _ _ _ _ _ HN), named_old.
Qed.

Lemma named_ended g : g ∈ F' -> ended L' g.
Proof.
  intros Hg. change MAXNAMELEN with 128 in Hl. destruct (decide (g = f)) as [->|Hne].
  { exists (Z.of_nat (length name)). split; [change MAXNAMELEN with 128; lia|]. destruct (nm_name _ _ _ _ _ HN) as [_ ->]; [|lia]. rewrite Nat2Z.id, app_nth2 by lia. by rewrite Nat.sub_diag. }
  destruct (decide (g ∈ F)) as [Hi|Hn].
  - destruct (fi_ended _ _ HI g Hi) as (i & Hr & E). exists i. split; [done|]. rewrite <- E. destruct (decide (g = dir)) as [->|Hd']; [by apply named_self|].
    change MAXNAMELEN with 128 in Hr. apply (named_other g Hi Hd'); [change sizeof_File with 256; lia|by left].
  - destruct (named_fresh g Hg Hn) as [H1 H2]. exists 0. split; [done|]. apply (nm_new _ _ _ _ _ HN g H1 H2); [change sizeof_File with 256; lia|by left].
Qed.

(** The new file is empty. *)
Lemma named_empty : fsize L' f = 0 /\ ftype L' f = FTYPE_REG /\ f <> dir.
Proof.
  destruct (nm_name _ _ _ _ _ HN) as [Hin _]. destruct (decide (f ∈ entries L dir)) as [Ho|Ho]; rewrite list_elem_of_In in Ho.
  - pose proof (nm_free _ _ _ _ _ HN Ho) as Hz. destruct (fi_dir _ _ HI dir Hd Ht) as [_ HF]. destruct (fi_free _ _ HI f (HF f Ho) Hz) as [<- <-].
    destruct (nm_kept _ _ _ _ _ HN f Ho) as [_ Hk]. change sizeof_File with 256 in Hk.
    split; [unfold fsize; f_equal|split; [|by intros ->]]; apply lword_ext; intros i Hi; apply Hk; unfold f_size, f_type; change MAXNAMELEN with 128; lia.
  - destruct (zero_file L' f) as (_ & H1 & H2 & _).
    { intros k Hk. apply (nm_new _ _ _ _ _ HN f Hin Ho); [lia|right; lia]. }
    split_and!; try done. intros ->. pose proof (entry_owned L' dir dir (ed_disk _ _ _ (nm_edits _ _ _ _ _ HN)) (nm_dir _ _ _ _ _ HN) Hin) as Hx.
    by destruct (fo_owned _ _ (dk_file _ _ (nm_dir _ _ _ _ _ HN)) _ Hx) as (_ & _ & ?).
Qed.

Lemma fs_named : fs_ok L' F' /\ untouched L L' F dir /\ f ∈ F' /\ L' f <> 0.
Proof.
  pose proof (edits_changes _ _ _ (nm_edits _ _ _ _ _ HN)) as HC.
  assert (forall g, g ∈ F -> g <> dir -> used L' (blk_of g) /\ forall k, g + 128 <= k < g + sizeof_File -> L' k = L k) as Hst.
  { intros g Hg Hne. destruct (named_other g Hg Hne) as [Hu Hk]. split; [done|]. intros k Hr. apply Hk; [lia|right; lia]. }
  assert (ftype L dir = FTYPE_DIR -> dir_ok L' dir /\ (forall e, In e (entries L dir) -> In e (entries L' dir)) /\ forall e, In e (entries L' dir) -> e ∈ F') as Hdir.
  { intros _. split; [apply HN|]. split; [intros e He; by apply (nm_kept _ _ _ _ _ HN)|]. intros e He. apply named_in. by right. }
  assert (forall e, e ∈ F' -> e ∉ F -> ftype L dir = FTYPE_DIR /\ In e (entries L' dir) /\ forall k, e + 128 <= k < e + sizeof_File -> L' k = 0) as Hnew.
  { intros e He Hn. destruct (named_fresh e He Hn) as [H1 H2]. split_and!; try done. intros k Hk. apply (nm_new _ _ _ _ _ HN e H1 H2); [lia|right; lia]. }
  pose proof (dk_size _ _ (nm_dir _ _ _ _ _ HN)) as Hsz. pose proof (nm_tidy _ _ _ _ _ HN) as Htd.
  split; [|split; [split; intros|]].
  - apply (fs_frame L L' F F' dir); auto using named_ended, named_name. set_solver.
  - apply (frame_type L L' F dir); auto.
  - by destruct (frame_other L L' F dir HL HI Hd HC Hst g) as (_ & _ & _ & _ & ?).
  - apply (frame_byte L L' F dir); auto.
  - by apply named_name.
  - apply (frame_path L L' F dir HL HI Hd HC Hst) with (ns := ns); auto. intros _ n x Hn Hln Hx. rewrite (nm_find _ _ _ _ _ HN) by done.
    rewrite decide_False; [done|]. intros ->. congruence.
  - destruct (nm_name _ _ _ _ _ HN) as [Hin Hb]. split; [apply named_in; by right|]. pose proof (Hb 0 ltac:(lia)) as E. rewrite Z.add_0_r in E. rewrite E.
    destruct Hok as [Hne Hc]. clear HN Hno Hb E. destruct name as [|c nm]; [done|]. apply Forall_cons in Hc as [Hc _]. change (c <> 0). lia.
Qed.
End Named.

(** How a path ends: at a file, or with an error. *)
Lemma walk_zero L ns : forall o f, wk_r (walk_result L o f ns) = 0 <-> exists g, resolve L f ns = inr g.
Proof.
  induction ns as [|n ns IH]; intros o f; cbn; [split; [by eexists|done]|]. destruct (_ <=? _); [split; [done|by intros [??]]|].
  destruct (negb _); [split; [done|by intros [??]]|]. destruct (dir_find L f n) as [f'|]; [apply IH|]. case_bool_decide; split; (done || by intros [??]).
Qed.

Lemma walk_err L ns o f : wk_r (walk_result L o f ns) <> 0 -> resolve L f ns = inl (wk_r (walk_result L o f ns)).
Proof.
  intros Hr. rewrite <- (walk_resolve L ns o f). destruct (wk_f _); [|done]. by rewrite (proj2 (Z.eqb_neq _ _) Hr).
Qed.

(** What [file_create] does to the file system as a whole. *)
Inductive creates (L : Z -> Z) (F : gset Z) (path : list Z) : (Z + Z) -> (Z -> Z) -> gset Z -> Prop :=
| cr_exists g : resolve L (s_root SUPER) (names path) = inr g -> creates L F path (inl (- E_FILE_EXISTS)) L F
| cr_error r : resolve L (s_root SUPER) (names path) = inl r -> creates L F path (inl r) L F
| cr_done dir f L' F' : resolve L (s_root SUPER) (names path) = inl (- E_NOT_FOUND) -> resolve L' (s_root SUPER) (names path) = inr f ->
    untouched L L' F dir -> dir ∈ F -> ftype L dir = FTYPE_DIR -> F ⊆ F' -> f ∈ F' -> f <> dir -> fsize L' f = 0 -> ftype L' f = FTYPE_REG -> creates L F path (inr f) L' F'.

Lemma fs_create L F s path : bc_ok L s -> fs_ok L F -> Forall (fun c => 0 < c < 2 ^ 8) path -> (forall d, d ∈ F -> ftype L d = FTYPE_DIR -> fsize L d < MAXFILESIZE) ->
  exists r s', file_create path s = Ret r s' /\
    ((exists L' F', bc_ok L' s' /\ fs_ok L' F' /\ creates L F path r L' F')
     \/ (r = inl (- E_NO_DISK) /\ exists L', bc_ok L' s' /\ forall b, 0 <= b < nb L' -> used L' b)).
Proof.
  intros HB HI Hp Hlt. pose proof (bo_disk _ _ HB) as HL. pose proof (fs_walkable L F HI (names path) _ (fi_root _ _ HI)) as Hw.
  pose proof (file_create_ok L s path HB Hp Hw (fs_creatable L F HL HI path Hp Hlt)) as H. unfold create_spec in H.
  destruct (Z.eqb_spec (wk_r (walk_result L None (s_root SUPER) (names path))) 0) as [Hz|Hz].
  { destruct H as (s' & -> & HB'). eexists _, s'. split; [done|]. left. exists L, F. split_and!; try done. apply walk_zero in Hz as [g Hg]. by apply (cr_exists _ _ _ g). }
  pose proof (walk_err L (names path) None _ Hz) as Hres. destruct (wk_dir _) as [dir|] eqn:Ed.
  2:{ destruct H as (s' & -> & HB'). eexists _, s'. split; [done|]. left. exists L, F. split_and!; try done. by apply cr_error. }
  destruct (walk_missing L dir (names path) None _ Hw Hz Ed) as (Er & _ & Hnm & Hl & HD & Hnone).
  destruct (fs_walk_dir L F HI _ None _ dir (fi_root _ _ HI) (fi_rootn _ _ HI) (fs_names path Hp) ltac:(done) Ed) as (Hd & Ht & H0).
  destruct H as (L' & s' & HE & HB' & [(f & -> & [HN Hpath _ _])|(-> & _ & _ & Hfull)]); eexists _, s'; (split; [done|]); [left|right; split; [done|by exists L']].
  pose proof (names_ok path _ Hp Hnm) as Hok. destruct (fs_named L L' F dir f _ HL HI Hd Ht H0 Hok Hl Hnone HN) as (HI' & HU & Hf & _).
  destruct (named_empty L L' F dir f _ HI Hd Ht H0 HN) as (Hs & Hty & Hne).
  exists L', (F ∪ list_to_set (entries L' dir)). split_and!; try done. rewrite Er in Hres. eapply cr_done; try done. set_solver.
Qed.

(** * Writing everything back *)

Lemma fs_sync_ok L s : bc_ok L s ->
  exists s', fs_sync s = Ret tt s' /\ bc_ok L s' /\ forall b, 1 <= b < nb L -> flushed L s' b.
Proof.
  intros HB. unfold fs_sync. rewrite (bind_ret _ _ _ _ _ (nblocks_ok L s HB)).
  pose proof (do_nb _ (bo_disk _ _ HB)) as Hn.
  destruct (for_loop_inv (fun i s => bc_ok L s /\ forall b, 1 <= b < i -> flushed L s b)
    (fun i => let! a := diskaddr i in flush_block a) (Z.to_nat (nb L - 1)) 1 s) as (s' & E & HB' & Hf).
  - split; [done|]. lia.
  - intros i s1 Hi [HB1 Hf1]. destruct (flush_block_at L s1 i HB1) as (s2 & E2 & HB2 & Hf2 & Hk2); [lia|].
    exists s2. rewrite (bind_ret _ _ _ _ _ (diskaddr_ok L s1 i HB1 ltac:(lia))). split; [done|]. split; [done|].
    intros b Hb. destruct (decide (b = i)) as [->|]; [done|]. apply Hk2, Hf1. lia.
  - exists s'. split; [done|]. split; [done|]. intros b Hb. apply Hf. lia.
Qed.
