(* ===== verification/Serv.v ===== *)
(** fs/serv.c: the requests of the file server. The server keeps a table of open
    files; the descriptor page of an open file is shared with the clients that
    have it open, so its contents and its number of mappings change outside of
    the server as well. A request comes with a page that its reply is put in. *)

From stdpp Require Import base numbers list gmap strings.
From Stdlib Require Import ZArith Lia Bool.
From S2P Require Import Prelude Mmu Console Bc Fs.

Definition MAXOPEN : Z := 1024.
Definition FILEVA : Z := 0xD0000000.
Definition MAXPATHLEN : Z := 1024.
Definition O_ACCMODE : Z := 0x3.
Definition O_CREAT : Z := 0x100.
Definition O_TRUNC : Z := 0x200.
Definition O_EXCL : Z := 0x400.
Definition FSREQ_OPEN : Z := 1.
Definition FSREQ_SET_SIZE : Z := 2.
Definition FSREQ_READ : Z := 3.
Definition FSREQ_WRITE : Z := 4.
Definition FSREQ_STAT : Z := 5.
Definition FSREQ_FLUSH : Z := 6.
Definition FSREQ_REMOVE : Z := 7.
Definition FSREQ_SYNC : Z := 8.

(** Where the request page is mapped: just below the block cache. *)
Definition fsreq : Z := 0x0ffff000.

(** [devfile.dev_id], the letter f. *)
Definition devfile_id : Z := 102.

Record Fd := mkFd { fd_dev_id : Z; fd_offset : Z; fd_omode : Z; fd_file_id : Z }.
Record OpenFile := mkOpen { o_fileid : Z; o_file : Z; o_mode : Z; o_fd : Z }.

(** A descriptor page: how often it is mapped, and what it holds. *)
Record fdpage := mkFdpage { fp_ref : Z; fp_fd : Fd }.

(** The server: the file system, the table, the descriptor pages by address, and
    how many more pages the kernel has for descriptors. *)
Record serv := mkServ {
  sv_fs : fsstate;
  opentab : gmap Z OpenFile;
  fdpages : gmap Z fdpage;
  sv_pages : Z
}.

Definition Serv (A : Type) : Type := M serv A.

Definition set_fs (f : fsstate) (s : serv) : serv := mkServ f (opentab s) (fdpages s) (sv_pages s).
Definition set_open (t : gmap Z OpenFile) (s : serv) : serv := mkServ (sv_fs s) t (fdpages s) (sv_pages s).
Definition set_fdpages (p : gmap Z fdpage) (s : serv) : serv := mkServ (sv_fs s) (opentab s) p (sv_pages s).
Definition set_sv_pages (n : Z) (s : serv) : serv := mkServ (sv_fs s) (opentab s) (fdpages s) n.

(** An operation of the file system, run by the server. *)
Definition fsop {A} (m : FS A) : Serv A := fun s =>
  match m (sv_fs s) with
  | Ret a f => Ret a (set_fs f s)
  | Leave f => Leave (set_fs f s)
  | Panic e f => Panic e (set_fs f s)
  end.

Definition fd0 : Fd := mkFd 0 0 0 0.
Definition open0 : OpenFile := mkOpen 0 0 0 0.
Definition open_at (i : Z) (s : serv) : OpenFile := mget open0 (opentab s) i.
Definition fd_at (va : Z) (s : serv) : Fd := match fdpages s !! va with Some p => fp_fd p | None => fd0 end.

Definition put_open (i : Z) (o : OpenFile) : Serv unit := modify (fun s => set_open (<[i := o]> (opentab s)) s).

(** A store to a descriptor; its page is mapped wherever this is used. *)
Definition put_fd (va : Z) (d : Fd) : Serv unit :=
  modify (fun s => set_fdpages (alter (fun p => mkFdpage (fp_ref p) d) va (fdpages s)) s).

(** * The table of open files *)

Definition serve_init : Serv unit :=
  for_loop (Z.to_nat MAXOPEN) 0 (fun i =>
    let! o := gets (open_at i) in
    put_open i (mkOpen (u32 i) (o_file o) (o_mode o) (u32 (FILEVA + i * PGSIZE)))).

(** How often the page at [va] is mapped, 0 if the server does not have it. *)
Definition pageref (va : Z) (s : serv) : Z := match fdpages s !! va with Some p => fp_ref p | None => 0 end.

(** [sys_page_alloc(0, va, ...)] for a descriptor. *)
Definition page_alloc_fd (va : Z) : Serv Z := fun s =>
  if sv_pages s <=? 0 then Ret (- E_NO_MEM) s
  else Ret 0 (set_fdpages (<[va := mkFdpage 1 fd0]> (fdpages s)) (set_sv_pages (sv_pages s - 1) s)).

(** The code shared by the cases 0 and 1 of [openfile_alloc]. *)
Definition openfile_take (i : Z) : Serv (Z * option Z) :=
  let! o := gets (open_at i) in
  put_open i (mkOpen (u32 (o_fileid o + MAXOPEN)) (o_file o) (o_mode o) (o_fd o)) ;;!
  put_fd (o_fd o) fd0 ;;!
  ret (s32 (o_fileid o + MAXOPEN), Some i).

(** The result and the entry of the table. *)
Fixpoint openfile_alloc_from (n : nat) (i : Z) : Serv (Z * option Z) :=
  match n with
  | O => ret (- E_MAX_OPEN, None)
  | S n =>
      let! o := gets (open_at i) in
      let! c := gets (pageref (o_fd o)) in
      if c =? 0 then
        let! r := page_alloc_fd (o_fd o) in
        if r <? 0 then ret (r, None) else openfile_take i
      else if c =? 1 then openfile_take i
      else openfile_alloc_from n (i + 1)
  end.
Definition openfile_alloc : Serv (Z * option Z) := openfile_alloc_from (Z.to_nat MAXOPEN) 0.

(** The entry of the table, or an error. *)
Definition openfile_lookup (fileid : Z) : Serv (Z + Z) :=
  let i := u32 fileid mod MAXOPEN in
  let! o := gets (open_at i) in
  let! c := gets (pageref (o_fd o)) in
  if (c <=? 1) || negb (o_fileid o =? u32 fileid) then ret (inl (- E_INVAL)) else ret (inr i).

(** * Requests

    A request page as a map from offsets to bytes; the fields of [union Fsipc]
    are at the offsets below. *)
Definition page : Type := gmap Z Z.

Fixpoint cstring (n : nat) (pg : page) (i : Z) : list Z :=
  match n with
  | O => []
  | S n => let c := mget 0 pg i in if c =? 0 then [] else c :: cstring n pg (i + 1)
  end.

(** [req_path], ended at the last place of the local copy at the latest. *)
Definition req_path (pg : page) : list Z := cstring (Z.to_nat (MAXPATHLEN - 1)) pg 0.
Definition req_omode (pg : page) : Z := word pg MAXPATHLEN.
Definition req_fileid (pg : page) : Z := word pg 0.
Definition req_size (pg : page) : Z := s32 (word pg 4).
Definition req_n (pg : page) : Z := word pg 4.

(** [n] bytes at offset [i] of [req_buf]. Behind the request page lies the block
    cache. *)
Definition req_buf (pg : page) (i n : Z) : FS (list Z) :=
  let m := Z.max 0 (Z.min n (PGSIZE - 8 - i)) in
  let! past := fread (fsreq + 8 + i + m) (n - m) in
  ret (((fun k => mget 0 pg (8 + i + k)) <$> seqZ 0 m) ++ past).

Definition put_bytes (off : Z) (bs : list Z) (pg : page) : page := mcopy off (length bs) (fun i => nth (Z.to_nat i) bs 0) pg.
Definition put_word (off v : Z) (pg : page) : page := mcopy off 4 (fun i => u8 (Z.shiftr v (8 * i))) pg.

(** The part of [serve_open] that finds or creates the file. *)
Definition find_file (path : list Z) (omode : Z) : Serv (Z + Z) :=
  if flag omode O_CREAT then
    let! c := fsop (file_create path) in
    match c with
    | inl r => if negb (flag omode O_EXCL) && (r =? - E_FILE_EXISTS) then fsop (file_open path) else ret (inl r)
    | inr f => ret (inr f)
    end
  else fsop (file_open path).

(** The result and the descriptor page to be sent with it. *)
Definition serve_open (pg : page) : Serv (Z * option Z) :=
  let path := req_path pg in
  let omode := req_omode pg in
  let! a := openfile_alloc in
  match a with
  | (r, Some i) =>
      if r <? 0 then ret (r, None)
      else
        let! f := find_file path omode in
        match f with
        | inl r => ret (r, None)
        | inr f =>
            let! r := if flag omode O_TRUNC then fsop (file_set_size f 0) else ret 0 in
            if r <? 0 then ret (r, None)
            else
              let! f := fsop (file_open path) in
              match f with
              | inl r => ret (r, None)
              | inr f =>
                  let! o := gets (open_at i) in
                  put_open i (mkOpen (o_fileid o) f omode (o_fd o)) ;;!
                  let! d := gets (fd_at (o_fd o)) in
                  put_fd (o_fd o) (mkFd devfile_id (fd_offset d) (Z.land omode O_ACCMODE) (o_fileid o)) ;;!
                  ret (0, Some (o_fd o))
              end
        end
  | (r, None) => ret (r, None)
  end.

Definition serve_set_size (pg : page) : Serv Z :=
  let! l := openfile_lookup (req_fileid pg) in
  match l with
  | inl r => ret r
  | inr i =>
      let! o := gets (open_at i) in
      fsop (file_set_size (o_file o) (req_size pg))
  end.

(** Moving the offset of a descriptor. *)
Definition advance (va r : Z) : Serv unit :=
  let! d := gets (fd_at va) in
  put_fd va (mkFd (fd_dev_id d) (s32 (fd_offset d + r)) (fd_omode d) (fd_file_id d)).

(** The result and the page with the bytes read; bytes copied before an error
    are left out. *)
Definition serve_read (pg : page) : Serv (Z * page) :=
  let! l := openfile_lookup (req_fileid pg) in
  match l with
  | inl r => ret (r, pg)
  | inr i =>
      let! o := gets (open_at i) in
      let! d := gets (fd_at (o_fd o)) in
      let reqn := if PGSIZE <? req_n pg then PGSIZE else req_n pg in
      let! r := fsop (file_read (o_file o) reqn (fd_offset d)) in
      match r with
      | inl r => ret (r, pg)
      | inr (r, bs) =>
          advance (o_fd o) r ;;!
          ret (r, put_bytes 0 bs pg)
      end
  end.

Definition serve_write (pg : page) : Serv Z :=
  let! l := openfile_lookup (req_fileid pg) in
  match l with
  | inl r => ret r
  | inr i =>
      let! o := gets (open_at i) in
      let! d := gets (fd_at (o_fd o)) in
      let reqn := if PGSIZE <? req_n pg then PGSIZE else req_n pg in
      let! r := fsop (file_write_with (o_file o) (req_buf pg) reqn (fd_offset d)) in
      if r <? 0 then ret r
      else
        advance (o_fd o) r ;;!
        ret r
  end.

(** The string at [va]; [strcpy] would run over the reply page if it were longer
    than a page. *)
Fixpoint fgetstr (n : nat) (va : Z) : FS (list Z) :=
  match n with
  | O => panic "string too long"
  | S n =>
      let! c := fload8 va in
      if c =? 0 then ret []
      else
        let! rest := fgetstr n (va + 1) in
        ret (c :: rest)
  end.

Definition serve_stat (pg : page) : Serv (Z * page) :=
  let! l := openfile_lookup (req_fileid pg) in
  match l with
  | inl r => ret (r, pg)
  | inr i =>
      let! o := gets (open_at i) in
      let! name := fsop (fgetstr (Z.to_nat PGSIZE) (f_name (o_file o))) in
      let! size := fsop (fload32 (f_size (o_file o))) in
      let! ty := fsop (fload32 (f_type (o_file o))) in
      ret (0, put_word (MAXNAMELEN + 4) (if ty =? FTYPE_DIR then 1 else 0)
                (put_word MAXNAMELEN size (put_bytes 0 (name ++ [0]) pg)))
  end.

Definition serve_flush (pg : page) : Serv Z :=
  let! l := openfile_lookup (req_fileid pg) in
  match l with
  | inl r => ret r
  | inr i =>
      let! o := gets (open_at i) in
      fsop (file_flush (o_file o)) ;;!
      ret 0
  end.

Definition serve_sync : Serv Z :=
  fsop fs_sync ;;!
  ret 0.

(** * The loop *)

(** What [ipc_recv] delivers, and whether the sender will map a page that comes
    with the reply. *)
Record request := mkReq { rq_code : Z; rq_perm : Z; rq_page : page; rq_maps : bool }.

(** What [ipc_send] sends, and the request page as the sender finds it. *)
Record reply := mkReply { rp_r : Z; rp_pg : option Z; rp_perm : Z; rp_page : page }.

Definition fd_perm : Z := Z.lor (Z.lor (Z.lor PTE_P PTE_U) PTE_W) PTE_SHARE.

(** The branches of [serve] and the table [handlers]. *)
Definition dispatch (q : request) : Serv reply :=
  let pg := rq_page q in
  let plain (m : Serv Z) := let! r := m in ret (mkReply r None (rq_perm q) pg) in
  let paged (m : Serv (Z * page)) := let! r := m in ret (mkReply r.1 None (rq_perm q) r.2) in
  if rq_code q =? FSREQ_OPEN then
    let! r := serve_open pg in
    ret (mkReply r.1 r.2 (match r.2 with Some _ => fd_perm | None => rq_perm q end) pg)
  else if rq_code q =? FSREQ_READ then paged (serve_read pg)
  else if rq_code q =? FSREQ_STAT then paged (serve_stat pg)
  else if rq_code q =? FSREQ_FLUSH then plain (serve_flush pg)
  else if rq_code q =? FSREQ_WRITE then plain (serve_write pg)
  else if rq_code q =? FSREQ_SET_SIZE then plain (serve_set_size pg)
  else if rq_code q =? FSREQ_SYNC then plain serve_sync
  else plain (ret (- E_INVAL)).

(** The effect of [ipc_send] on a descriptor page. *)
Definition send_page (pg : option Z) (maps : bool) : Serv unit :=
  match pg with
  | Some va => if maps then modify (fun s => set_fdpages (alter (fun p => mkFdpage (fp_ref p + 1) (fp_fd p)) va (fdpages s)) s) else ret tt
  | None => ret tt
  end.

(** One round of [serve]; a request without a page gets no reply. *)
Definition serve_round (q : request) : Serv (option reply) :=
  if negb (flag (rq_perm q) PTE_P) then ret None
  else
    let! r := dispatch q in
    send_page (rp_pg r) (rq_maps q) ;;!
    ret (Some r).

(** [umain] up to the loop. *)
Definition serve_start : Serv unit :=
  serve_init ;;!
  fsop fs_init.
