(* ===== verification/ServSpec.v ===== *)
(** fs/serv.c: the table of open files, and each request, against the file
    system as a whole. *)

From stdpp Require Import base numbers list gmap strings.
From Stdlib Require Import ZArith Lia Bool.
From S2P Require Import Prelude Mmu Console Bc Fs BcSpec BitmapSpec FileSpec FileIo FileTrunc DirSpec DirCreate FsInv FsOps Serv.

Local Ltac Zify.zify_post_hook ::= Z.to_euclidean_division_equations.

(** * The table *)

Definition fd_va (i : Z) : Z := FILEVA + i * PGSIZE.

(** The table of open files: descriptors and identifiers belong to their entries,
    and an entry whose descriptor a client has is an open file. *)
Record tab_ok (L : Z -> Z) (F : gset Z) (s : serv) : Prop := {
  to_fd : forall i, 0 <= i < MAXOPEN -> o_fd (open_at i s) = fd_va i;
  to_id : forall i, 0 <= i < MAXOPEN -> is_u32 (o_fileid (open_at i s)) /\ o_fileid (open_at i s) mod MAXOPEN = i;
  to_ref : forall va p, fdpages s !! va = Some p -> 1 <= fp_ref p;
  to_file : forall i, 0 <= i < MAXOPEN -> 1 < pageref (fd_va i) s -> o_file (open_at i s) ∈ F /\ L (o_file (open_at i s)) <> 0
}.

(** The server in order: its cache shows the disk [L] with the files [F]. *)
Record serv_ok (L : Z -> Z) (F : gset Z) (s : serv) : Prop := {
  so_bc : bc_ok L (sv_fs s);
  so_fs : fs_ok L F;
  so_tab : tab_ok L F s
}.

(** The entry that a file identifier stands for. *)
Definition slot_of (s : serv) (id : Z) : option Z :=
  let i := u32 id mod MAXOPEN in
  if (pageref (o_fd (open_at i s)) s <=? 1) || negb (o_fileid (open_at i s) =? u32 id) then None else Some i.

Lemma lookup_ok s id : openfile_lookup id s = Ret (match slot_of s id with Some i => inr i | None => inl (- E_INVAL) end) s.
Proof. unfold openfile_lookup, slot_of. cbn. by destruct (_ || _). Qed.

Lemma slot_open L F s id i : tab_ok L F s -> slot_of s id = Some i ->
  0 <= i < MAXOPEN /\ o_fd (open_at i s) = fd_va i /\ o_file (open_at i s) ∈ F /\ L (o_file (open_at i s)) <> 0 /\ exists p, fdpages s !! fd_va i = Some p.
Proof.
  intros HT. unfold slot_of. destruct (_ || _) eqn:E; [done|]. intros [= Hi]. apply orb_false_iff in E as [Hr _]. apply Z.leb_gt in Hr. rewrite Hi in Hr.
  assert (0 <= i < MAXOPEN) as Hrange by (rewrite <- Hi; apply Z.mod_pos_bound; done). rewrite (to_fd _ _ _ HT i Hrange) in Hr. destruct (to_file _ _ _ HT i Hrange Hr) as [Hf H0].
  split_and!; [lia|lia|by apply (to_fd _ _ _ HT)|done|done|]. unfold pageref in Hr. destruct (fdpages s !! fd_va i) as [p|]; [by exists p|lia].
Qed.

Lemma fsop_ret {A} (m : FS A) s a f : m (sv_fs s) = Ret a f -> fsop m s = Ret a (set_fs f s).
Proof. intros E. unfold fsop. by rewrite E. Qed.

(** The file system part of the server changes, and the table does not. *)
Lemma tab_fs L L' F F' s f : tab_ok L F s -> F ⊆ F' -> (forall g, g ∈ F -> L g <> 0 -> L' g <> 0) -> tab_ok L' F' (set_fs f s).
Proof. intros [A1 A2 A3 A4] Hs Hn. split; try done. intros i Hi Hr. destruct (A4 i Hi Hr) as [Hf H0]. split; [by apply Hs|by apply Hn]. Qed.

Lemma untouched_named L L' F f g : untouched L L' F f -> g ∈ F -> L g <> 0 -> L' g <> 0.
Proof. intros HU Hg H0. pose proof (un_name _ _ _ _ HU g 0 Hg H0 ltac:(done)) as E. rewrite !Z.add_0_r in E. by rewrite E. Qed.

Lemma serv_fs L L' F s f g : tab_ok L F s -> bc_ok L' f -> fs_ok L' F -> untouched L L' F g -> serv_ok L' F (set_fs f s).
Proof. intros HT HB HI HU. split; [done|done|]. apply (tab_fs L L' F F); [done|done|]. intros x. by apply (untouched_named L L' F g). Qed.

(** A new offset in a descriptor. *)
Definition moved (va n : Z) (s : serv) : serv :=
  let d := fd_at va s in
  set_fdpages (alter (fun p => mkFdpage (fp_ref p) (mkFd (fd_dev_id d) (s32 (fd_offset d + n)) (fd_omode d) (fd_file_id d))) va (fdpages s)) s.

Lemma advance_ok va n s : advance va n s = Ret tt (moved va n s).
Proof. done. Qed.

Lemma pageref_alter g va va' s : (forall p, fp_ref (g p) = fp_ref p) -> pageref va' (set_fdpages (alter g va (fdpages s)) s) = pageref va' s.
Proof.
  intros Hg. unfold pageref. cbn [fdpages set_fdpages]. destruct (decide (va' = va)) as [->|Hne]; [|by rewrite lookup_alter_ne].
  rewrite lookup_alter_eq. by destruct (fdpages s !! va); cbn.
Qed.

(** Changing the contents of descriptors, or their references as long as no
    entry becomes shared, keeps the table. *)
Lemma tab_put L F s g va : tab_ok L F s -> (forall p, fp_ref (g p) = fp_ref p) -> tab_ok L F (set_fdpages (alter g va (fdpages s)) s).
Proof.
  intros [A1 A2 A3 A4] Hg. split; try done.
  - intros va' p. cbn [fdpages set_fdpages]. destruct (decide (va' = va)) as [->|Hne]; [|rewrite lookup_alter_ne by done; apply A3].
    rewrite lookup_alter_eq. destruct (fdpages s !! va) as [q|] eqn:E; [|done]. cbn. intros [= <-]. rewrite Hg. by apply (A3 va).
  - intros i Hi. rewrite pageref_alter by done. apply A4, Hi.
Qed.

Lemma serv_moved L F s va n : serv_ok L F s -> serv_ok L F (moved va n s).
Proof. intros [A B C]. split; [done|done|]. by apply tab_put. Qed.

(** * Requests on an open file *)

Section Request.
Context (L : Z -> Z) (F : gset Z) (s : serv) (HS : serv_ok L F s) (pg : page) (i : Z).
Context (Hslot : slot_of s (req_fileid pg) = Some i).

Local Abbreviation f := (o_file (open_at i s)).
Local Abbreviation off := (fd_offset (fd_at (fd_va i) s)).
Local Abbreviation reqn := (if PGSIZE <? req_n pg then PGSIZE else req_n pg).

Lemma reqn_range : (forall k, 0 <= mget 0 pg k < 2 ^ 8) -> 0 <= reqn <= PGSIZE.
Proof.
  intros Hp. assert (0 <= req_n pg) by (unfold req_n, word; pose proof (Hp 4); pose proof (Hp (4 + 1)); pose proof (Hp (4 + 2)); pose proof (Hp (4 + 3)); lia).
  change PGSIZE with 4096. destruct (Z.ltb_spec 4096 (req_n pg)); lia.
Qed.

(** How a read ends: with bytes of the file in the page and the offset moved, or
    with a hole that needs a block on a full disk. *)
Definition reads (r : Z) (pg' : page) (L' : Z -> Z) (s' : serv) : Prop :=
  let len := Z.max 0 (Z.min reqn (fsize L f - off)) in
  fsize L' f = fsize L f /\ (forall p, 0 <= p < MAXFILESIZE -> fbyte L' f p = fbyte L f p) /\
  ((r = len /\ pg' = put_bytes 0 (fbytes L f off len) pg /\ s' = set_fs (sv_fs s') (moved (fd_va i) len s))
   \/ (r = - E_NO_DISK /\ pg' = pg /\ s' = set_fs (sv_fs s') s
       /\ (exists p, off <= p < off + len /\ fblk L f (p / BLKSIZE) = 0) /\ forall b, 0 <= b < nb L' -> used L' b)).

Lemma serve_read_ok : (forall k, 0 <= mget 0 pg k < 2 ^ 8) -> 0 <= off ->
  exists L' s' r pg', serve_read pg s = Ret (r, pg') s' /\ serv_ok L' F s' /\ untouched L L' F f /\ reads r pg' L' s'.
Proof.
  intros Hp Ho. destruct HS as [HB HI HT]. destruct (slot_open L F s _ i HT Hslot) as (Hi & Efd & Hf & H0 & _).
  unfold serve_read. rewrite (bind_ret _ _ _ _ _ (lookup_ok s _)), Hslot. rewrite !(bind_ret (gets _) _ _ _ _ eq_refl). cbn [open_at]. fold (open_at i s). rewrite Efd.
  destruct (fs_read L F (sv_fs s) HB HI f reqn off Hf H0 Ho (proj1 (reqn_range Hp))) as (L' & s1 & r & E & HB' & HI' & HU & Hs & Hby & Hres).
  rewrite (bind_ret _ _ _ _ _ (fsop_ret _ s _ _ E)). pose proof (serv_fs L L' F s s1 _ HT HB' HI' HU) as HS'. unfold reads.
  destruct Hres as [->|(-> & Hh & Hfull)].
  - eexists L', _, _, _. split; [reflexivity|]. split; [by apply serv_moved|]. split; [done|]. split_and!; try done. by left.
  - eexists L', _, _, _. split; [reflexivity|]. split; [done|]. split; [done|]. split_and!; try done. by right.
Qed.

(** What a write request contains: the bytes of its page, and if it asks for more
    than fit, bytes of the block cache behind it. *)
Definition sent (n : Z) : list Z :=
  (fun k => if k <? PGSIZE - 8 then mget 0 pg (8 + k) else L (fsreq + 8 + k)) <$> seqZ 0 n.

Lemma block0 k : file_ok L f -> DISKMAP <= k < DISKMAP + BLKSIZE -> (forall L', edits f L L' -> L' k = L k) /\ in_cache k /\ blk_of k = 0.
Proof.
  intros HF Hk. pose proof (bo_disk _ _ (so_bc _ _ _ HS)) as HL. assert (in_cache k /\ blk_of k = 0) as [Hc Hb].
  { replace k with (baddr 0 + (k - DISKMAP)) by (unfold baddr; lia). apply baddr_in; [done|lia]. }
  split; [|done]. intros L' HE. pose proof (do_nb _ HL). apply (ed_keep _ _ _ HE); try done; rewrite ?Hb; [left; lia|apply HL|lia| |].
  - intros Hh%head_in. destruct (fo_safe _ _ HF 0) as [(_ & Hr & _) Hz]; [done|]. rewrite Z.add_0_r in *. pose proof (first_data_min L HL).
    pose proof (fo_blk _ _ HF (k - f)) as Hx. change sizeof_File with 256 in Hx. replace (f + (k - f)) with k in Hx by lia. rewrite <- Hx, Hb in Hz by lia. lia.
  - intros [? _]. done.
Qed.

Lemma sent_holds n : (forall k, 0 <= mget 0 pg k < 2 ^ 8) -> file_ok L f -> 0 <= n <= PGSIZE -> holds f L (req_buf pg) (sent n).
Proof.
  intros Hp HF Hn L' s' j m HE HB' Hj Hm Hjm. unfold sent in Hjm. rewrite length_fmap, length_seqZ in Hjm. change PGSIZE with 4096 in *. unfold req_buf. change PGSIZE with 4096.
  set (a := Z.max 0 (Z.min m (4096 - 8 - j))).
  assert (exists s'', fread (fsreq + 8 + j + a) (m - a) s' = Ret ((fun k => L (fsreq + 8 + j + a + k)) <$> seqZ 0 (m - a)) s'' /\ bc_ok L' s'') as (s2 & E & HB2).
  { destruct (Z.le_gt_cases (m - a) 0) as [Hz|Hz]; [exists s'; split; [|done]; rewrite seqZ_nil by done; unfold fread, move_fuel; cbn [fread_from]; by rewrite (proj2 (Z.leb_le _ _) Hz)|].
    assert (DISKMAP <= fsreq + 8 + j + a /\ fsreq + 8 + j + a + (m - a) <= DISKMAP + 16) as [Hlo Hhi] by (unfold fsreq, DISKMAP, a in *; lia).
    destruct (block0 (fsreq + 8 + j + a) HF) as (_ & Hc & Hb); [change BLKSIZE with 4096; lia|]. pose proof (bo_disk _ _ HB') as HL'. pose proof (do_nb _ HL').
    destruct (fread_ok L' s' (fsreq + 8 + j + a) (m - a) HB') as (s2 & E & HB2); [split; [done|]; rewrite Hb; split; [lia|apply HL']|split; [lia|change BLKSIZE with 4096; unfold DISKMAP in *; lia]|].
    exists s2. rewrite E. split; [|done]. f_equal. apply list_fmap_ext. intros x y Hx%lookup_seqZ. destruct (block0 (fsreq + 8 + j + a + y) HF) as (Hk & _); [change BLKSIZE with 4096; lia|]. by apply Hk. }
  exists s2. rewrite (bind_ret _ _ _ _ _ E). split; [|done]. unfold ret. f_equal. unfold sent. change PGSIZE with 4096.
  assert (0 <= a <= m) as Ha by (unfold a; lia). replace n with (j + (a + (m - a) + (n - j - m))) by lia. rewrite !seqZ_app, !fmap_app by lia.
  rewrite drop_app_length' by (rewrite length_fmap, length_seqZ; lia). rewrite take_app_length' by (rewrite length_app, !length_fmap, !length_seqZ; lia).
  rewrite <- (Z.add_0_r (0 + j + a)), <- (Z.add_0_r (0 + j)), <- !fmap_add_seqZ, <- !list_fmap_compose.
  f_equal; apply list_fmap_ext; intros x y Hx%lookup_seqZ; cbn -[Z.ltb]; [rewrite (proj2 (Z.ltb_lt _ _)) by (unfold a in *; lia); f_equal; lia|].
  rewrite (proj2 (Z.ltb_ge _ _)) by (unfold a in *; lia). f_equal. lia.
Qed.

Lemma sent_bytes n : (forall k, 0 <= mget 0 pg k < 2 ^ 8) -> bytes_ok (sent n).
Proof.
  intros Hp. apply Forall_fmap, Forall_forall. intros k _. cbn. destruct (k <? PGSIZE - 8); [apply Hp|]. apply (bo_disk _ _ (so_bc _ _ _ HS)).
Qed.

(** How a write ends: the file holds what was sent and the offset has moved, or
    the disk is full. *)
Definition writes (r : Z) (L' : Z -> Z) (s' : serv) : Prop :=
  fsize L' f = Z.max (fsize L f) (off + reqn) /\
  ((r = reqn /\ written f (sent reqn) off L L' true /\ s' = set_fs (sv_fs s') (moved (fd_va i) reqn s))
   \/ (r = - E_NO_DISK /\ written f (sent reqn) off L L' false /\ s' = set_fs (sv_fs s') s /\ forall b, 0 <= b < nb L' -> used L' b)).

Lemma serve_write_ok : (forall k, 0 <= mget 0 pg k < 2 ^ 8) -> 0 <= off -> off + reqn <= MAXFILESIZE -> ftype L f <> FTYPE_DIR ->
  exists L' s' r, serve_write pg s = Ret r s' /\ serv_ok L' F s' /\ untouched L L' F f /\ writes r L' s'.
Proof.
  intros Hp Ho Hm Ht. destruct HS as [HB HI HT]. destruct (slot_open L F s _ i HT Hslot) as (Hi & Efd & Hf & H0 & _). pose proof (reqn_range Hp) as Hr.
  unfold serve_write. rewrite (bind_ret _ _ _ _ _ (lookup_ok s _)), Hslot. rewrite !(bind_ret (gets _) _ _ _ _ eq_refl). fold (open_at i s). rewrite Efd.
  assert (Z.of_nat (length (sent reqn)) = reqn) as Hlen by (unfold sent; rewrite length_fmap, length_seqZ; lia).
  destruct (fs_write L F (sv_fs s) HB HI f (req_buf pg) (sent reqn) off Hf Ht H0) as (L' & s1 & r & E & HB' & HI' & HU & Hs & Hres);
    [by apply sent_holds; [|apply (fi_file _ _ HI)|]|by apply sent_bytes|done|by rewrite Hlen|]. rewrite Hlen in E, Hs, Hres.
  rewrite (bind_ret _ _ _ _ _ (fsop_ret _ s _ _ E)). pose proof (serv_fs L L' F s s1 _ HT HB' HI' HU) as HS'. unfold writes.
  destruct Hres as [[-> Hw]|(-> & Hw & Hfull)].
  - rewrite (proj2 (Z.ltb_ge _ _)) by apply Hr. eexists L', _, _. split; [reflexivity|]. split; [by apply serv_moved|]. split; [done|]. split; [done|]. by left.
  - eexists L', _, _. split; [reflexivity|]. split; [done|]. split; [done|]. split; [done|]. by right.
Qed.

Lemma serve_set_size_ok : 0 <= req_size pg <= MAXFILESIZE -> ftype L f <> FTYPE_DIR ->
  exists L' s', serve_set_size pg s = Ret 0 s' /\ serv_ok L' F s' /\ untouched L L' F f /\ resized f (req_size pg) L L' /\ s' = set_fs (sv_fs s') s.
Proof.
  intros Hv Ht. destruct HS as [HB HI HT]. destruct (slot_open L F s _ i HT Hslot) as (Hi & Efd & Hf & H0 & _).
  unfold serve_set_size. rewrite (bind_ret _ _ _ _ _ (lookup_ok s _)), Hslot, (bind_ret (gets _) _ _ _ _ eq_refl).
  destruct (fs_resize L F (sv_fs s) HB HI f _ Hf Ht H0 Hv) as (L' & s1 & E & HB' & HI' & HU & HR). rewrite (fsop_ret _ s _ _ E).
  exists L', (set_fs s1 s). split; [done|]. split; [by apply (serv_fs L L' F s s1 f)|]. by split_and!.
Qed.

(** The name of a file. *)
Definition has_name (f' : Z) (name : list Z) : Prop :=
  Z.of_nat (length name) < MAXNAMELEN /\ (forall k, 0 <= k < Z.of_nat (length name) -> L (f' + k) = nth (Z.to_nat k) name 0 /\ L (f' + k) <> 0)
  /\ L (f' + Z.of_nat (length name)) = 0.

Lemma fgetstr_ok n : forall va s', bc_ok L s' -> (forall k, 0 <= k <= n -> accessible L (va + k)) -> L (va + n) = 0 -> forall fuel, 0 <= n < Z.of_nat fuel ->
  exists name s'', fgetstr fuel va s' = Ret name s'' /\ bc_ok L s'' /\ Z.of_nat (length name) <= n
    /\ (forall k, 0 <= k < Z.of_nat (length name) -> L (va + k) = nth (Z.to_nat k) name 0 /\ L (va + k) <> 0) /\ L (va + Z.of_nat (length name)) = 0.
Proof.
  intros va s' HB' Ha Hz fuel. revert va n s' HB' Ha Hz. induction fuel as [|fuel IH]; intros va n s' HB' Ha Hz Hn; [lia|]. cbn [fgetstr].
  destruct (fload8_safe L s' va HB') as (s1 & E1 & HB1); [rewrite <- (Z.add_0_r va); apply Ha; lia|]. rewrite (bind_ret _ _ _ _ _ E1).
  destruct (Z.eqb_spec (L va) 0) as [E0|E0].
  - exists [], s1. split; [done|]. split; [done|]. cbn. rewrite Z.add_0_r. split_and!; [lia|lia|done].
  - destruct (decide (n = 0)) as [->|Hnz]; [by rewrite Z.add_0_r in Hz|].
    destruct (IH (va + 1) (n - 1) s1 HB1) as (name & s2 & E2 & HB2 & Hl & Hk & He); [intros k Hr; replace (va + 1 + k) with (va + (k + 1)) by lia; apply Ha; lia|by replace (va + 1 + (n - 1)) with (va + n) by lia|lia|].
    exists (L va :: name), s2. rewrite (bind_ret _ _ _ _ _ E2). split; [done|]. split; [done|]. cbn [length]. split; [lia|]. split.
    + intros k Hr. destruct (decide (k = 0)) as [->|Hkz]; [by rewrite Z.add_0_r|]. replace (Z.to_nat k) with (S (Z.to_nat (k - 1))) by lia. replace (va + k) with (va + 1 + (k - 1)) by lia. cbn [nth]. apply Hk. lia.
    + rewrite <- He. f_equal. lia.
Qed.

Definition stat_page (name : list Z) : page :=
  put_word (MAXNAMELEN + 4) (if ftype L f =? FTYPE_DIR then 1 else 0) (put_word MAXNAMELEN (lword L (f_size f)) (put_bytes 0 (name ++ [0]) pg)).

Lemma serve_stat_ok : exists s' name, serve_stat pg s = Ret (0, stat_page name) s' /\ serv_ok L F s' /\ has_name f name /\ s' = set_fs (sv_fs s') s.
Proof.
  destruct HS as [HB HI HT]. destruct (slot_open L F s _ i HT Hslot) as (Hi & Efd & Hf & H0 & _). pose proof (fi_file _ _ HI f Hf) as HF.
  unfold serve_stat. rewrite (bind_ret _ _ _ _ _ (lookup_ok s _)), Hslot, (bind_ret (gets _) _ _ _ _ eq_refl).
  destruct (fi_ended _ _ HI f Hf) as (n & Hn & Hz). change MAXNAMELEN with 128 in Hn.
  destruct (fgetstr_ok n f (sv_fs s) HB) with (fuel := Z.to_nat PGSIZE) as (name & s1 & E1 & HB1 & Hl & Hk & He);
    [intros k Hr; destruct (fo_safe _ _ HF k) as [? _]; [change sizeof_File with 256; lia|done]|done|change PGSIZE with 4096; lia|].
  rewrite (bind_ret _ _ _ _ _ (fsop_ret _ s _ _ E1)). destruct (size_safe L f HF) as (Ss & As & _).
  destruct (fload32_safe L s1 _ HB1 Ss As) as (s2 & E2 & HB2). rewrite (bind_ret _ _ _ _ _ (fsop_ret _ (set_fs s1 s) _ _ E2)).
  destruct (type_ok L s2 f HB2) as (s3 & E3 & HB3); [split; [apply HF|apply (fo_align _ _ HF)]|]. rewrite (bind_ret _ _ _ _ _ (fsop_ret _ (set_fs s2 (set_fs s1 s)) _ _ E3)).
  eexists _, name. split; [reflexivity|]. split; [by apply (serv_fs L L F s s3 f HT HB3 HI (untouched_refl L F f))|]. split; [|done]. split_and!; try done. change MAXNAMELEN with 128. lia.
Qed.

Lemma serve_flush_ok : exists s', serve_flush pg s = Ret 0 s' /\ serv_ok L F s' /\ s' = set_fs (sv_fs s') s
  /\ flushed L (sv_fs s') (blk_of f) /\ forall n, 0 <= n < nblk (fsize L f) -> fblk L f n <> 0 -> flushed L (sv_fs s') (fblk L f n).
Proof.
  destruct HS as [HB HI HT]. destruct (slot_open L F s _ i HT Hslot) as (Hi & Efd & Hf & H0 & _).
  unfold serve_flush. rewrite (bind_ret _ _ _ _ _ (lookup_ok s _)), Hslot, (bind_ret (gets _) _ _ _ _ eq_refl).
  destruct (file_flush_ok L (sv_fs s) f HB (fi_file _ _ HI f Hf) (fi_size _ _ HI f Hf)) as (s1 & E & HB1 & H1 & H2 & _). rewrite (bind_ret _ _ _ _ _ (fsop_ret _ s _ _ E)).
  exists (set_fs s1 s). split; [done|]. split; [by apply (serv_fs L L F s s1 f HT HB1 HI (untouched_refl L F f))|]. by split_and!.
Qed.
End Request.

Lemma serve_sync_ok L F s : serv_ok L F s -> exists s', serve_sync s = Ret 0 s' /\ serv_ok L F s' /\ s' = set_fs (sv_fs s') s
  /\ forall b, 1 <= b < nb L -> flushed L (sv_fs s') b.
Proof.
  intros [HB HI HT]. unfold serve_sync. destruct (fs_sync_ok L (sv_fs s) HB) as (s1 & E & HB1 & Hf). rewrite (bind_ret _ _ _ _ _ (fsop_ret _ s _ _ E)).
  exists (set_fs s1 s). split; [done|]. split; [by apply (serv_fs L L F s s1 0 HT HB1 HI (untouched_refl L F 0))|]. by split_and!.
Qed.
