(* ===== verification/ServOpen.v ===== *)
(** fs/serv.c: opening a file. *)

From stdpp Require Import base numbers list gmap strings.
From Stdlib Require Import ZArith Lia Bool.
From S2P Require Import Prelude Mmu Console Bc Fs BcSpec BitmapSpec FileSpec FileIo FileTrunc DirSpec DirCreate FsInv FsOps Serv ServSpec.

Local Ltac Zify.zify_post_hook ::= Z.to_euclidean_division_equations.

(** * Taking an entry of the table *)

Lemma s32_of_u32 x : s32 (u32 x) = s32 x.
Proof. unfold s32. by rewrite (u32_small (u32 x)) by apply u32_range. Qed.

(** The identifier an entry gets when it is taken. *)
Definition next_id (s : serv) (i : Z) : Z := u32 (o_fileid (open_at i s) + MAXOPEN).

(** Entry [i] has been taken: it has a new identifier and a blank descriptor that
    only the server has. *)
Definition taken (i : Z) (s s' : serv) : Prop :=
  sv_fs s' = sv_fs s
  /\ opentab s' = <[i := mkOpen (next_id s i) (o_file (open_at i s)) (o_mode (open_at i s)) (fd_va i)]> (opentab s)
  /\ fdpages s' = <[fd_va i := mkFdpage 1 fd0]> (fdpages s).

Lemma open_at_insert i j o t s : open_at j (mkServ (sv_fs s) (<[i := o]> t) (fdpages s) (sv_pages s)) = if decide (j = i) then o else mget open0 t j.
Proof. unfold open_at, mget. cbn [opentab]. case_decide as E; [subst; by rewrite lookup_insert_eq|by rewrite lookup_insert_ne]. Qed.

Lemma fd_va_inj i j : fd_va i = fd_va j -> i = j.
Proof. unfold fd_va. change PGSIZE with 4096. lia. Qed.

Lemma taken_at i s s' j : taken i s s' -> open_at j s' = if decide (j = i) then mkOpen (next_id s i) (o_file (open_at i s)) (o_mode (open_at i s)) (fd_va i) else open_at j s.
Proof. intros (_ & E & _). unfold open_at at 1, mget. rewrite E. case_decide as Ej; [subst; by rewrite lookup_insert_eq|by rewrite lookup_insert_ne]. Qed.

Lemma taken_ref i s s' j : taken i s s' -> pageref (fd_va j) s' = if decide (j = i) then 1 else pageref (fd_va j) s.
Proof.
  intros (_ & _ & E). unfold pageref. rewrite E. case_decide as Ej; [subst; by rewrite lookup_insert_eq|].
  rewrite lookup_insert_ne; [done|]. intros Ev%fd_va_inj. congruence.
Qed.

Lemma next_id_ok L F s i : tab_ok L F s -> 0 <= i < MAXOPEN -> is_u32 (next_id s i) /\ next_id s i mod MAXOPEN = i.
Proof.
  intros HT Hi. destruct (to_id _ _ _ HT i Hi) as [Hu Hm]. split; [apply u32_range|]. unfold next_id, u32. change MAXOPEN with 1024 in *.
  unfold is_u32 in Hu. change (2 ^ 32) with 4294967296 in *. lia.
Qed.

Lemma taken_ok L F i s s' : tab_ok L F s -> 0 <= i < MAXOPEN -> taken i s s' -> tab_ok L F s'.
Proof.
  intros HT Hi Hk. pose proof HT as [A1 A2 A3 A4]. split.
  - intros j Hj. rewrite (taken_at i s s' j Hk). case_decide as E; [by subst|auto].
  - intros j Hj. rewrite (taken_at i s s' j Hk). case_decide as E; [subst; by apply (next_id_ok L F)|auto].
  - intros va p Hp. destruct Hk as (_ & _ & Ef). rewrite Ef in Hp. destruct (decide (va = fd_va i)) as [->|Hne].
    + rewrite lookup_insert_eq in Hp. by injection Hp as <-.
    + rewrite lookup_insert_ne in Hp by done. by apply (A3 va).
  - intros j Hj. rewrite (taken_ref i s s' j Hk), (taken_at i s s' j Hk). case_decide as E; [lia|auto].
Qed.

Lemma take_ok L F s i p : tab_ok L F s -> 0 <= i < MAXOPEN -> fdpages s !! fd_va i = Some p -> fp_ref p = 1 ->
  exists s', openfile_take i s = Ret (s32 (next_id s i), Some i) s' /\ taken i s s'.
Proof.
  intros HT Hi Hp Hr. eexists. unfold openfile_take. rewrite (bind_ret (gets _) _ _ _ _ eq_refl). split.
  - unfold put_open, put_fd, modify, bind, ret. unfold next_id. rewrite s32_of_u32. reflexivity.
  - split_and!; [done| |]; cbn [opentab fdpages set_fdpages set_open]; rewrite (to_fd _ _ _ HT i Hi); [done|].
    apply map_eq. intros va. destruct (decide (va = fd_va i)) as [->|Hne]; [rewrite lookup_alter_eq, lookup_insert_eq, Hp; cbn; by rewrite Hr|].
    by rewrite lookup_alter_ne, lookup_insert_ne.
Qed.

(** How [openfile_alloc] may end. *)
Inductive allocs (s : serv) : Z * option Z -> serv -> Prop :=
| al_none : (forall i, 0 <= i < MAXOPEN -> 1 < pageref (fd_va i) s) -> allocs s (- E_MAX_OPEN, None) s
| al_nomem : sv_pages s <= 0 -> allocs s (- E_NO_MEM, None) s
| al_some i s' : 0 <= i < MAXOPEN -> pageref (fd_va i) s <= 1 -> taken i s s' -> allocs s (s32 (next_id s i), Some i) s'.

Lemma alloc_from_ok L F n : forall s i, tab_ok L F s -> 0 <= i -> i + Z.of_nat n = MAXOPEN -> (forall j, 0 <= j < i -> 1 < pageref (fd_va j) s) ->
  exists r s', openfile_alloc_from n i s = Ret r s' /\ allocs s r s'.
Proof.
  induction n as [|n IH]; intros s i HT Hi Hn Hb; cbn [openfile_alloc_from].
  { eexists _, s. split; [done|]. apply al_none. intros j Hj. apply Hb. lia. }
  assert (0 <= i < MAXOPEN) as Hr by lia. rewrite !(bind_ret (gets _) _ _ _ _ eq_refl). rewrite (to_fd _ _ _ HT i Hr).
  assert (0 <= pageref (fd_va i) s) as Hpos by (unfold pageref; destruct (fdpages s !! fd_va i) as [p|] eqn:E; [pose proof (to_ref _ _ _ HT _ _ E); lia|lia]).
  destruct (Z.eqb_spec (pageref (fd_va i) s) 0) as [Hz|Hz]; [|destruct (Z.eqb_spec (pageref (fd_va i) s) 1) as [H1|H1]].
  - unfold page_alloc_fd. destruct (Z.leb_spec (sv_pages s) 0) as [Hp|Hp].
    { rewrite (bind_ret _ _ _ (- E_NO_MEM) s) by (unfold page_alloc_fd; by rewrite (proj2 (Z.leb_le _ _) Hp)). eexists _, s. split; [reflexivity|]. by apply al_nomem. }
    set (s1 := set_fdpages (<[fd_va i := mkFdpage 1 fd0]> (fdpages s)) (set_sv_pages (sv_pages s - 1) s)).
    rewrite (bind_ret _ _ _ 0 s1) by (unfold page_alloc_fd; by rewrite (proj2 (Z.leb_gt _ _) Hp)). change (0 <? 0) with false. cbv iota.
    assert (tab_ok L F s1) as HT1.
    { destruct HT as [A1 A2 A3 A4]. split; [done|done| |].
      - intros va p. unfold s1. cbn [fdpages set_fdpages]. destruct (decide (va = fd_va i)) as [->|Hne]; [rewrite lookup_insert_eq; by intros [= <-]|rewrite lookup_insert_ne by done; apply A3].
      - intros j Hj. unfold pageref, s1. cbn [fdpages set_fdpages]. destruct (decide (j = i)) as [->|Hne]; [rewrite lookup_insert_eq; cbn; lia|].
        rewrite lookup_insert_ne by (intros E%fd_va_inj; congruence). apply A4, Hj. }
    destruct (take_ok L F s1 i (mkFdpage 1 fd0) HT1 Hr) as (s2 & E & T1 & T2 & T3); [apply lookup_insert_eq|done|].
    eexists _, s2. split; [exact E|]. apply (al_some s i s2); [done|lia|]. split_and!; [done|exact T2|]. rewrite T3. unfold s1. cbn [fdpages set_fdpages]. by rewrite insert_insert_eq.
  - unfold pageref in H1. destruct (fdpages s !! fd_va i) as [p|] eqn:Ep; [|lia]. destruct (take_ok L F s i p HT Hr Ep H1) as (s2 & E & Hk).
    eexists _, s2. split; [exact E|]. apply al_some; [done| |done]. unfold pageref. rewrite Ep. lia.
  - apply IH; [done|lia|lia|]. intros j Hj. destruct (decide (j = i)) as [->|]; [lia|]. apply Hb. lia.
Qed.

Lemma openfile_alloc_ok L F s : tab_ok L F s -> exists r s', openfile_alloc s = Ret r s' /\ allocs s r s'.
Proof. intros HT. apply (alloc_from_ok L F); [done|lia|done|lia]. Qed.

(** * Finding or creating the file *)

Local Abbreviation root := (s_root SUPER).

(** The file that is opened, before it is truncated. *)
Inductive gets_file (L : Z -> Z) (F : gset Z) (path : list Z) (omode : Z) : Z + Z -> (Z -> Z) -> gset Z -> Prop :=
| gf_open f : resolve L root (names path) = inr f -> flag omode O_CREAT && flag omode O_EXCL = false -> gets_file L F path omode (inr f) L F
| gf_error r : resolve L root (names path) = inl r -> gets_file L F path omode (inl r) L F
| gf_excl f : resolve L root (names path) = inr f -> flag omode O_CREAT && flag omode O_EXCL = true -> gets_file L F path omode (inl (- E_FILE_EXISTS)) L F
| gf_created f L' F' : flag omode O_CREAT = true -> creates L F path (inr f) L' F' -> gets_file L F path omode (inr f) L' F'.

Section Open.
Context (L : Z -> Z) (F : gset Z) (path : list Z) (omode : Z) (Hp : Forall (fun c => 0 < c < 2 ^ 8) path).

Lemma open_path_ok s : bc_ok L (sv_fs s) -> fs_ok L F -> exists f, fsop (file_open path) s = Ret (resolve L root (names path)) (set_fs f s) /\ bc_ok L f.
Proof.
  intros HB HI. destruct (file_open_ok L (sv_fs s) path HB (fs_walkable L F HI _ _ (fi_root _ _ HI))) as (f & E & HB'). exists f. split; [by apply fsop_ret|done].
Qed.

Lemma find_file_ok s : bc_ok L (sv_fs s) -> fs_ok L F -> (flag omode O_CREAT = true -> forall d, d ∈ F -> ftype L d = FTYPE_DIR -> fsize L d < MAXFILESIZE) ->
  exists r x, find_file path omode s = Ret r (set_fs x s) /\
    ((exists L' F', bc_ok L' x /\ fs_ok L' F' /\ gets_file L F path omode r L' F')
     \/ (r = inl (- E_NO_DISK) /\ flag omode O_CREAT = true /\ exists L', bc_ok L' x /\ forall b, 0 <= b < nb L' -> used L' b)).
Proof.
  intros HB HI Hlt. unfold find_file.
  assert (forall x y, bc_ok L x -> flag omode O_CREAT && flag omode O_EXCL = false -> resolve L root (names path) = y -> exists L' F', bc_ok L' x /\ fs_ok L' F' /\ gets_file L F path omode y L' F') as Hopen.
  { intros x y HBx Hx Hy. exists L, F. split; [done|]. split; [done|]. destruct y; [by apply gf_error|by apply gf_open]. }
  destruct (flag omode O_CREAT) eqn:Ec.
  2:{ destruct (open_path_ok s HB HI) as (x & E & HBx). rewrite E. eexists _, x. split; [done|]. left. by apply Hopen. }
  destruct (fs_create L F (sv_fs s) path HB HI Hp (Hlt eq_refl)) as (r & x & E & Hres). rewrite (bind_ret _ _ _ _ _ (fsop_ret _ s _ _ E)).
  destruct Hres as [(L' & F' & HB' & HI' & Hc)|(-> & L' & HB' & Hfull)].
  2:{ rewrite andb_false_r. eexists _, x. split; [done|]. right. split_and!; [done|done|by exists L']. }
  destruct Hc as [g Hg|r Hr|dir f L' F' R1 R2 HU Hd Ht Hsub Hf Hne Hs Hty].
  - rewrite Z.eqb_refl, andb_true_r. destruct (flag omode O_EXCL) eqn:Ee; cbv beta iota delta [negb].
    + eexists _, x. split; [done|]. left. exists L, F. split_and!; try done. apply (gf_excl _ _ _ _ g); [done|by rewrite Ec].
    + destruct (open_path_ok (set_fs x s) HB' HI) as (y & E2 & HBy). rewrite E2. eexists _, y. split; [done|]. left. by apply Hopen.
  - destruct (negb (flag omode O_EXCL) && (r =? - E_FILE_EXISTS)) eqn:Eb.
    + destruct (open_path_ok (set_fs x s) HB' HI) as (y & E2 & HBy). rewrite E2. eexists _, y. split; [done|]. left. rewrite Hr. exists L, F. split_and!; try done. by apply gf_error.
    + eexists _, x. split; [done|]. left. exists L, F. split_and!; try done. by apply gf_error.
  - eexists _, x. split; [done|]. left. exists L', F'. split_and!; try done. apply gf_created; [done|]. by apply (cr_done _ _ _ dir).
Qed.

(** The file is found under its path, and has kept what was there. *)
Lemma gets_file_in r L' F' f : fs_ok L F -> fs_ok L' F' -> gets_file L F path omode r L' F' -> r = inr f ->
  resolve L' root (names path) = inr f /\ f ∈ F' /\ L' f <> 0 /\ F ⊆ F' /\ (forall g, g ∈ F -> L g <> 0 -> L' g <> 0)
  /\ (L' = L /\ F' = F /\ resolve L root (names path) = inr f \/ ftype L' f = FTYPE_REG).
Proof.
  intros HI HI' Hg ->. inversion Hg as [f' Hf He| | |f' L2 F2 Hc Hcr]; subst.
  - destruct (fs_resolve L' F' HI _ _ _ (fi_root _ _ HI) (fi_rootn _ _ HI) (fs_names path Hp) Hf) as [H1 H2]. split_and!; try done. by left.
  - inversion Hcr as [| |dir f' L3 F3 R1 R2 HU Hd Ht Hsub Hf Hne Hs Hty]; subst.
    destruct (fs_resolve L' F' HI' _ _ _ (fi_root _ _ HI') (fi_rootn _ _ HI') (fs_names path Hp) R2) as [H1 H2]. split_and!; try done; [|by right]. intros g. by apply (untouched_named L L' F dir).
Qed.
End Open.

(** * The whole request *)

(** Entry [i] stands for the file [f], and its descriptor is filled in. *)
Definition opened (i f omode : Z) (s s' : serv) : Prop :=
  opentab s' = <[i := mkOpen (next_id s i) f omode (fd_va i)]> (opentab s)
  /\ fdpages s' = <[fd_va i := mkFdpage 1 (mkFd devfile_id 0 (Z.land omode O_ACCMODE) (next_id s i))]> (fdpages s).

Inductive opens (L : Z -> Z) (F : gset Z) (s : serv) (pg : page) : Z * option Z -> (Z -> Z) -> gset Z -> serv -> Prop :=
| op_table r : allocs s (r, None) s -> opens L F s pg (r, None) L F s
| op_wrapped i s' : 0 <= i < MAXOPEN -> pageref (fd_va i) s <= 1 -> taken i s s' -> 2 ^ 31 <= next_id s i -> opens L F s pg (s32 (next_id s i), None) L F s'
| op_error i r s1 s' : 0 <= i < MAXOPEN -> pageref (fd_va i) s <= 1 -> taken i s s1 -> s' = set_fs (sv_fs s') s1 ->
    gets_file L F (req_path pg) (req_omode pg) (inl r) L F -> opens L F s pg (r, None) L F s'
| op_done i f L1 L' F' s' : 0 <= i < MAXOPEN -> pageref (fd_va i) s <= 1 -> opened i f (req_omode pg) s s' ->
    gets_file L F (req_path pg) (req_omode pg) (inr f) L1 F' -> resolve L' root (names (req_path pg)) = inr f -> f ∈ F' -> L' f <> 0 ->
    (if flag (req_omode pg) O_TRUNC then resized f 0 L1 L' /\ untouched L1 L' F' f else L' = L1) -> opens L F s pg (0, Some (fd_va i)) L' F' s'.

Lemma cstring_chars n pg : (forall k, 0 <= mget 0 pg k < 2 ^ 8) -> forall i, Forall (fun c => 0 < c < 2 ^ 8) (cstring n pg i).
Proof.
  intros Hp. induction n as [|n IH]; intros i; cbn; [constructor|]. destruct (Z.eqb_spec (mget 0 pg i) 0) as [|Hz]; [constructor|].
  constructor; [|apply IH]. pose proof (Hp i). lia.
Qed.

(** Truncation on the way, if it is asked for. *)
Lemma trunc_ok L F s f omode : bc_ok L (sv_fs s) -> fs_ok L F -> f ∈ F -> L f <> 0 -> (flag omode O_TRUNC = true -> ftype L f <> FTYPE_DIR) ->
  exists L' x, (if flag omode O_TRUNC then fsop (file_set_size f 0) else ret 0) s = Ret 0 (set_fs x s) /\ bc_ok L' x /\ fs_ok L' F
    /\ untouched L L' F f /\ if flag omode O_TRUNC then resized f 0 L L' /\ untouched L L' F f else L' = L.
Proof.
  intros HB HI Hf H0 Ht. destruct (flag omode O_TRUNC).
  - destruct (fs_resize L F (sv_fs s) HB HI f 0 Hf (Ht eq_refl) H0) as (L' & x & E & HB' & HI' & HU & HR); [by vm_compute|]. exists L', x. rewrite (fsop_ret _ s _ _ E). by split_and!.
  - exists L, (sv_fs s). split; [by destruct s|]. by split_and!.
Qed.

Lemma set_fs_twice x y s : set_fs y (set_fs x s) = set_fs y s.
Proof. done. Qed.

(** Storing the file in the entry and in the descriptor. *)
Lemma fill_ok i f omode s s1 x : taken i s s1 -> 
  exists s', (let! o := gets (open_at i) in
     put_open i (mkOpen (o_fileid o) f omode (o_fd o)) ;;!
     let! d := gets (fd_at (o_fd o)) in
     put_fd (o_fd o) (mkFd devfile_id (fd_offset d) (Z.land omode O_ACCMODE) (o_fileid o)) ;;!
     ret (0, Some (o_fd o))) (set_fs x s1) = Ret (0, Some (fd_va i)) s' /\ opened i f omode s s' /\ sv_fs s' = x.
Proof.
  intros Hk. eexists. rewrite (bind_ret (gets _) _ _ _ _ eq_refl). change (open_at i (set_fs x s1)) with (open_at i s1).
  rewrite (taken_at i s s1 i Hk), decide_True by done. cbn [o_fileid o_fd o_file o_mode]. split; [reflexivity|]. destruct Hk as (T1 & T2 & T3).
  split; [|done]. split; cbn [opentab fdpages set_fdpages set_open set_fs].
  - by rewrite T2, insert_insert_eq.
  - unfold fd_at. cbn [fdpages set_open set_fs]. rewrite T3, lookup_insert_eq. cbn [fp_fd fd_offset fd0].
    apply map_eq. intros va. destruct (decide (va = fd_va i)) as [->|Hne]; [by rewrite lookup_alter_eq, !lookup_insert_eq|].
    by rewrite lookup_alter_ne, !lookup_insert_ne.
Qed.

Lemma opened_at i f omode s s' j : opened i f omode s s' -> open_at j s' = if decide (j = i) then mkOpen (next_id s i) f omode (fd_va i) else open_at j s.
Proof. intros [E _]. unfold open_at at 1, mget. rewrite E. case_decide as Ej; [subst; by rewrite lookup_insert_eq|by rewrite lookup_insert_ne]. Qed.

Lemma opened_ref i f omode s s' j : opened i f omode s s' -> pageref (fd_va j) s' = if decide (j = i) then 1 else pageref (fd_va j) s.
Proof.
  intros [_ E]. unfold pageref. rewrite E. case_decide as Ej; [subst; by rewrite lookup_insert_eq|].
  rewrite lookup_insert_ne; [done|]. intros Ev%fd_va_inj. congruence.
Qed.

Lemma opened_ok L F L' F' i f omode s s' : tab_ok L F s -> 0 <= i < MAXOPEN -> opened i f omode s s' -> F ⊆ F' -> (forall g, g ∈ F -> L g <> 0 -> L' g <> 0) -> tab_ok L' F' s'.
Proof.
  intros HT Hi Hk Hs Hn. pose proof HT as [A1 A2 A3 A4]. split.
  - intros j Hj. rewrite (opened_at i f omode s s' j Hk). case_decide as E; [by subst|auto].
  - intros j Hj. rewrite (opened_at i f omode s s' j Hk). case_decide as E; [subst; by apply (next_id_ok L F)|auto].
  - intros va p Hp. destruct Hk as [_ Ef]. rewrite Ef in Hp. destruct (decide (va = fd_va i)) as [->|Hne].
    + rewrite lookup_insert_eq in Hp. by injection Hp as <-.
    + rewrite lookup_insert_ne in Hp by done. by apply (A3 va).
  - intros j Hj. rewrite (opened_ref i f omode s s' j Hk), (opened_at i f omode s s' j Hk). case_decide as E; [lia|]. intros Hr. destruct (A4 j Hj Hr). auto.
Qed.

Lemma serve_open_ok L F s pg : serv_ok L F s -> (forall k, 0 <= mget 0 pg k < 2 ^ 8) ->
  (flag (req_omode pg) O_CREAT = true -> forall d, d ∈ F -> ftype L d = FTYPE_DIR -> fsize L d < MAXFILESIZE) ->
  (flag (req_omode pg) O_TRUNC = true -> forall f, resolve L root (names (req_path pg)) = inr f -> ftype L f <> FTYPE_DIR) ->
  exists r s', serve_open pg s = Ret r s' /\
    ((exists L' F', serv_ok L' F' s' /\ opens L F s pg r L' F' s')
     \/ (r = (- E_NO_DISK, None) /\ flag (req_omode pg) O_CREAT = true /\ exists L', bc_ok L' (sv_fs s') /\ forall b, 0 <= b < nb L' -> used L' b)).
Proof.
  intros [HB HI HT] Hpg Hc Ht. pose proof (cstring_chars (Z.to_nat (MAXPATHLEN - 1)) pg Hpg 0 : Forall _ (req_path pg)) as Hp. unfold serve_open.
  destruct (openfile_alloc_ok L F s HT) as (a & s1 & E1 & Ha). rewrite (bind_ret _ _ _ _ _ E1). destruct Ha as [Hn|Hn|i s1 Hi Hr Hk].
  1,2: eexists _, s; (split; [reflexivity|]); left; exists L, F; (split; [done|]); apply op_table; by constructor.
  pose proof (taken_ok L F i s s1 HT Hi Hk) as HT1. destruct Hk as (T1 & T2 & T3). pose proof (conj T1 (conj T2 T3) : taken i s s1) as Hk. rewrite <- T1 in HB.
  destruct (next_id_ok L F s i HT Hi) as [Hid _]. unfold is_u32 in Hid. destruct (Z.ltb_spec (s32 (next_id s i)) 0) as [Hneg|Hpos].
  { eexists _, s1. split; [reflexivity|]. left. exists L, F. split; [done|]. apply op_wrapped; try done. destruct (Z.lt_ge_cases (next_id s i) (2 ^ 31)); [|done]. rewrite s32_small in Hneg by lia. lia. }
  destruct (find_file_ok L F (req_path pg) (req_omode pg) Hp s1 HB HI Hc) as (r & x & E2 & Hres). rewrite (bind_ret _ _ _ _ _ E2).
  destruct Hres as [(L1 & F1 & HB1 & HI1 & Hg)|(-> & Hcr & L1 & HB1 & Hfull)]; [|eexists _, _; split; [reflexivity|]; right; split_and!; [done|done|by exists L1]].
  destruct r as [r|f].
  { assert (L1 = L /\ F1 = F) as [-> ->] by (inversion Hg; by subst). eexists _, _. split; [reflexivity|]. left. exists L, F. split; [|by eapply op_error].
    split; [done|done|]. by apply (tab_fs L L F F). }
  destruct (gets_file_in L F (req_path pg) (req_omode pg) Hp _ L1 F1 f HI HI1 Hg eq_refl) as (Hres & Hf & H0 & Hsub & Hnm & Hcase).
  destruct (trunc_ok L1 F1 (set_fs x s1) f (req_omode pg) HB1 HI1 Hf H0) as (L2 & y & E3 & HB2 & HI2 & HU & Htr).
  { intros Htf. destruct Hcase as [(-> & _ & Hr')| ->]; [by apply Ht|done]. }
  rewrite (bind_ret _ _ _ _ _ E3), set_fs_twice. change (0 <? 0) with false. cbv iota.
  destruct (open_path_ok L2 F1 (req_path pg) (set_fs y s1) HB2 HI2) as (z & E4 & HB3). rewrite (bind_ret _ _ _ _ _ E4), set_fs_twice.
  pose proof (un_path _ _ _ _ HU _ _ f (fi_root _ _ HI1) (fs_names _ Hp) Hres) as Hres2. rewrite Hres2.
  destruct (fill_ok i f (req_omode pg) s s1 z Hk) as (s' & E5 & Hop & Ez). exists (0, Some (fd_va i)), s'. split; [exact E5|]. left. exists L2, F1.
  pose proof (untouched_named L1 L2 F1 f f HU Hf H0) as H02. split; [split; [by rewrite Ez|done|]|by apply (op_done _ _ _ _ i f L1)].
  apply (opened_ok L F L2 F1 i f (req_omode pg) s s'); try done. intros g Hg' Hg0. apply (untouched_named L1 L2 F1 f g HU); auto.
Qed.
