(* ===== verification/DemoFs.v ===== *)
(** A small disk: sixteen blocks, a directory block with two files, the first
    of them with one data block. Theorems about the file server are applied to
    it. *)

From stdpp Require Import base numbers list gmap strings.
From Stdlib Require Import ZArith Lia Bool.
From S2P Require Import Prelude Mmu Console Bc Fs BcSpec BitmapSpec FsInit FileSpec FileIo FileTrunc DirSpec DirCreate FsInv.

Definition put32 (a v : Z) (m : gmap Z Z) : gmap Z Z :=
  <[a := v mod 2 ^ 8]> (<[a + 1 := v / 2 ^ 8 mod 2 ^ 8]> (<[a + 2 := v / 2 ^ 16 mod 2 ^ 8]> (<[a + 3 := v / 2 ^ 24]> m))).

(** The superblock at [base]: sixteen blocks, the root directory in block 3. *)
Definition demo_super (base : Z) (m : gmap Z Z) : gmap Z Z :=
  put32 base FS_MAGIC (put32 (base + 4) 16 (<[base + 8 := 47]> (put32 (f_type (base + 8)) FTYPE_DIR (put32 (f_size (base + 8)) BLKSIZE (put32 (f_direct (base + 8)) 3 m))))).

(** Blocks 5 to 15 are free; file [a] has five bytes, in block 4. *)
Definition demo_disk : gmap Z Z :=
  demo_super BLKSIZE
    (put32 (2 * BLKSIZE) 0xFFE0
      (<[3 * BLKSIZE := 97]> (put32 (f_size (3 * BLKSIZE)) 5 (put32 (f_direct (3 * BLKSIZE)) 4
        (<[3 * BLKSIZE + 256 := 98]>
          (put32 (4 * BLKSIZE) 0x6c6c6568 (<[4 * BLKSIZE + 4 := 111]> ∅))))))).

(** Before [fs_init], and with the superblock in memory. *)
Definition fs_off : fsstate := mkFs ∅ ∅ ∅ demo_disk 16 ∅ false false.
Definition fs_on : fsstate := mkFs (demo_super SUPER ∅) {[1]} ∅ demo_disk 15 ∅ true true.

Definition file_a : Z := baddr 3.
Definition file_b : Z := baddr 3 + sizeof_File.

Definition disk_off : Z -> Z := lview fs_off.
Definition disk_on : Z -> Z := lview fs_on.

Definition all_bytes (m : gmap Z Z) : bool := bool_decide (map_Forall (fun _ v => 0 <= v < 2 ^ 8) m).

Lemma all_bytes_get m k : all_bytes m = true -> 0 <= mget 0 m k < 2 ^ 8.
Proof.
  intros H. apply bool_decide_eq_true_1 in H. unfold mget. destruct (m !! k) as [v|] eqn:E; cbn; [by apply (H k v)|lia].
Qed.

Lemma demo_bytes s va : all_bytes (fmem s) = true -> all_bytes (fdisk s) = true -> 0 <= lview s va < 2 ^ 8.
Proof. intros H1 H2. unfold lview. case_bool_decide; by apply all_bytes_get. Qed.

(** The disk is well formed if a few words of it are. *)
Lemma demo_disk_ok s : all_bytes (fmem s) = true -> all_bytes (fdisk s) = true -> nb (lview s) = 16 ->
  lword (lview s) BITMAP = 0xFFE0 -> disk_ok (lview s).
Proof.
  intros H1 H2 Hn Hw. split.
  - intros va. by apply demo_bytes.
  - rewrite Hn. by vm_compute.
  - unfold used. change (BITMAP + 4 * (0 / 32)) with BITMAP. change (BITMAP + 4 * (1 / 32)) with BITMAP. rewrite Hw. by split.
  - intros i Hi Hb. rewrite Hn in *. change BLKBITSIZE with 32768 in Hb. assert (i = 0) as -> by lia. split; [lia|].
    unfold used. change (BITMAP + 4 * ((2 + 0) / 32)) with BITMAP. by rewrite Hw.
Qed.

Lemma fs_off_boot : disk_ok disk_off /\ lword disk_off (s_magic SUPER) = FS_MAGIC /\ boot_ok (nb disk_off) disk_off fs_off.
Proof.
  assert (nb disk_off = 16) as Hn by (vm_compute; reflexivity).
  split; [apply demo_disk_ok; vm_compute; reflexivity|]. split; [vm_compute; reflexivity|]. rewrite Hn.
  split; [|reflexivity|reflexivity]. split; cbn [fs_off fmapped fdirty fpages fbad].
  - reflexivity.
  - intros va _ Hin. destruct (not_elem_of_empty _ Hin).
  - apply empty_subseteq.
  - intros b Hb. destruct (not_elem_of_empty _ Hb).
  - rewrite size_empty. lia.
  - intros sec Hs. destruct (not_elem_of_empty _ Hs).
Qed.

(** The cached superblock is the one on the disk. *)
Lemma demo_clean va : in_cache va -> blk_of va = 1 -> mget 0 (demo_super SUPER ∅) va = mget 0 demo_disk (va - DISKMAP).
Proof.
  intros Hc Hb. rewrite blk_of_cache in Hb by done.
  assert (bool_decide (map_Forall (fun k v => demo_disk !! (k - DISKMAP) = Some v) (demo_super SUPER ∅)) = true) as H1
    by (vm_compute; reflexivity).
  assert (bool_decide (map_Forall (fun k v => k / BLKSIZE = 1 -> demo_super SUPER ∅ !! (k + DISKMAP) = Some v) demo_disk) = true) as H2
    by (vm_compute; reflexivity).
  apply bool_decide_eq_true_1 in H1, H2. unfold mget. destruct (demo_super SUPER ∅ !! va) as [v|] eqn:E.
  - by rewrite (H1 va v E).
  - destruct (demo_disk !! (va - DISKMAP)) as [v|] eqn:E2; [|done]. pose proof (H2 _ _ E2 Hb) as H.
    replace (va - DISKMAP + DISKMAP) with va in H by lia. by rewrite E in H.
Qed.

Lemma fs_on_ok : bc_ok disk_on fs_on.
Proof.
  assert (nb disk_on = 16) as Hn by (vm_compute; reflexivity).
  split; [apply demo_disk_ok; vm_compute; reflexivity|]. rewrite Hn. split; [split|]; cbn [fs_on fmapped fdirty fpages fbad fmem fdisk].
  - reflexivity.
  - intros va Hva Hin _. apply elem_of_singleton in Hin. by apply demo_clean.
  - apply empty_subseteq.
  - intros b Hb. apply elem_of_singleton in Hb as ->. lia.
  - rewrite size_singleton. lia.
  - intros sec Hs. destruct (not_elem_of_empty _ Hs).
  - split; [done|]. split; [done|]. by apply elem_of_singleton.
Qed.

(** * The two files *)

Lemma demo_used b : 0 <= b < 5 -> used disk_on b.
Proof.
  assert (forallb (fun b => negb (flag (lword disk_on (BITMAP + 4 * (b / 32))) (Z.shiftl 1 (b mod 32)))) (seqZ 0 5) = true) as H
    by (vm_compute; reflexivity).
  intros Hb. rewrite forallb_forall in H. apply negb_true_iff, H, list_elem_of_In, elem_of_seqZ. lia.
Qed.

(** The block numbers of a file without an indirect block are its ten direct
    ones. *)
Lemma demo_blk f n : find disk_on f = 0 -> fblk disk_on f n = if n <? 10 then lword disk_on (f_direct f + 4 * n) else 0.
Proof.
  intros Hz. unfold fblk, fslot. rewrite Hz. change NDIRECT with 10. by destruct (n <? 10).
Qed.

Lemma demo_file f bk d : (forall i, 0 <= i < 256 -> in_cache (f + i) /\ blk_of (f + i) = bk) -> (bk = 1 /\ f = s_root SUPER) \/ bk = 3 -> f mod 4 = 0 ->
  find disk_on f = 0 -> (forall n, 0 <= n < 10 -> lword disk_on (f_direct f + 4 * n) = if n =? 0 then d else 0) -> d = 0 \/ (3 <= d < 5 /\ d <> bk) ->
  file_ok disk_on f /\ forall b, owns disk_on f b -> b = d /\ 3 <= b < 5.
Proof.
  intros Ha Hbk Hal Hz Hw Hd.
  assert (nb disk_on = 16) as Hn by (vm_compute; reflexivity). assert (first_data disk_on = 3) as Hfd by (vm_compute; reflexivity).
  assert (forall n, 0 <= n < NBLOCKS -> fblk disk_on f n = if n =? 0 then d else 0) as Hb.
  { intros n Hr. rewrite demo_blk by done. destruct (Z.ltb_spec n 10); [apply Hw; lia|]. by rewrite (proj2 (Z.eqb_neq n 0)) by lia. }
  assert (forall b, owns disk_on f b -> b = d /\ 3 <= b < 5) as Ho.
  { intros b [Hnz [->|(n & Hr & ->)]]; [destruct (Hnz Hz)|]. rewrite (Hb n Hr) in *.
    destruct (n =? 0); [|destruct (Hnz eq_refl)]. destruct Hd as [Hd|Hd]; [destruct (Hnz Hd)|exact (conj eq_refl (proj1 Hd))]. }
  assert (blk_of f = bk) as Hbf by (destruct (Ha 0) as [_ H]; [lia|by rewrite Z.add_0_r in H]).
  split; [|exact Ho]. change sizeof_File with 256 in *. split; try rewrite Hbf.
  - intros i Hi. destruct (Ha i Hi) as [Hc H3]. split; [split; [done|]; rewrite H3; split; [lia|]; apply demo_used; lia|]. rewrite H3, Hfd.
    destruct Hbk as [[-> ->]| ->]; [left; unfold s_root in *; lia|right; lia].
  - intros i Hi. by apply Ha.
  - done.
  - intros b Hbo. destruct (Ho b Hbo) as [-> Hr]. rewrite Hfd, Hn. split; [lia|]. split; [apply demo_used; lia|lia].
  - intros n m Hr Hm Hnz. rewrite !Hb in * by done. destruct (Z.eqb_spec n 0), (Z.eqb_spec m 0); lia.
  - intros n Hr Hnz. by rewrite Hz.
Qed.

(** A check of the ten direct slots by evaluation. *)
Lemma demo_slots f d : forallb (fun n => lword disk_on (f_direct f + 4 * n) =? if n =? 0 then d else 0) (seqZ 0 10) = true ->
  forall n, 0 <= n < 10 -> lword disk_on (f_direct f + 4 * n) = if n =? 0 then d else 0.
Proof.
  intros H n Hn. rewrite forallb_forall in H. apply Z.eqb_eq, H, list_elem_of_In, elem_of_seqZ. lia.
Qed.

Lemma entry_at o i : 0 <= o < 16 -> 0 <= i < 256 -> in_cache (baddr 3 + sizeof_File * o + i) /\ blk_of (baddr 3 + sizeof_File * o + i) = 3.
Proof. intros Ho Hi. rewrite <- Z.add_assoc. apply baddr_in; change (DISKSIZE / BLKSIZE) with 786432; change BLKSIZE with 4096; change sizeof_File with 256; lia. Qed.

Lemma file_a_ok : file_ok disk_on file_a /\ forall b, owns disk_on file_a b -> b = 4 /\ 3 <= b < 5.
Proof.
  apply (demo_file file_a 3); [intros; by apply (entry_at 0)|by right|done|vm_compute; reflexivity|apply demo_slots; vm_compute; reflexivity|lia].
Qed.

Lemma file_b_ok : file_ok disk_on file_b /\ forall b, owns disk_on file_b b -> b = 0 /\ 3 <= b < 5.
Proof.
  apply (demo_file file_b 3); [intros; by apply (entry_at 1)|by right|done|vm_compute; reflexivity|apply demo_slots; vm_compute; reflexivity|lia].
Qed.

Lemma root_ok : file_ok disk_on (s_root SUPER) /\ forall b, owns disk_on (s_root SUPER) b -> b = 3 /\ 3 <= b < 5.
Proof.
  apply (demo_file (s_root SUPER) 1); [|by left|done|vm_compute; reflexivity|apply demo_slots; vm_compute; reflexivity|lia].
  intros i Hi. change (s_root SUPER) with (baddr 1 + 8). rewrite <- Z.add_assoc. apply baddr_in; change (DISKSIZE / BLKSIZE) with 786432; change BLKSIZE with 4096; lia.
Qed.

Lemma files_apart : apart disk_on file_a file_b.
Proof.
  assert (blk_of file_a = 3) as Ha by (vm_compute; reflexivity). assert (blk_of file_b = 3) as Hb by (vm_compute; reflexivity).
  split.
  - intros b _ Ho. destruct (proj2 file_b_ok b Ho). lia.
  - intros b Ho. destruct (proj2 file_a_ok b Ho). lia.
  - intros b Ho. destruct (proj2 file_b_ok b Ho). lia.
  - left. unfold file_a, file_b. lia.
Qed.

Lemma file_a_size : fsize disk_on file_a = 5.
Proof. vm_compute. reflexivity. Qed.

Lemma file_a_tidy : tidy disk_on file_a.
Proof.
  intros n Hn. rewrite file_a_size in Hn. change (nblk 5) with 1 in Hn. rewrite demo_blk by (vm_compute; reflexivity).
  destruct (Z.ltb_spec n 10); [|reflexivity].
  rewrite (demo_slots file_a 4 ltac:(vm_compute; reflexivity)) by lia. rewrite (proj2 (Z.eqb_neq n 0)) by lia. reflexivity.
Qed.

(** * The root directory *)

Lemma root_size : fsize disk_on (s_root SUPER) = BLKSIZE.
Proof. vm_compute. reflexivity. Qed.

Lemma root_blk n : 0 <= n < NBLOCKS -> fblk disk_on (s_root SUPER) n = if n =? 0 then 3 else 0.
Proof.
  intros Hn. rewrite demo_blk by (vm_compute; reflexivity). destruct (Z.ltb_spec n 10); [apply demo_slots; [vm_compute; reflexivity|lia]|]. by rewrite (proj2 (Z.eqb_neq n 0)) by lia.
Qed.

Lemma root_dir : dir_ok disk_on (s_root SUPER).
Proof.
  split; [apply root_ok|rewrite root_size; by vm_compute|by rewrite root_size|]. rewrite root_size. change (BLKSIZE / BLKSIZE) with 1. intros n Hn.
  assert (n = 0) as -> by lia. rewrite root_blk; [done|]. by vm_compute.
Qed.

Lemma root_tidy : tidy disk_on (s_root SUPER).
Proof.
  intros n Hn. rewrite root_size in Hn. change (nblk BLKSIZE) with 1 in Hn. rewrite root_blk by lia. by rewrite (proj2 (Z.eqb_neq n 0)) by lia.
Qed.

(** The paths "/a", of a file that exists, and "/c", of one that does not. *)
Definition path_a : list Z := [47; 97].
Definition path_c : list Z := [47; 99].

Lemma path_a_walk : walkable disk_on (s_root SUPER) (names path_a) /\ resolve disk_on (s_root SUPER) (names path_a) = inr file_a.
Proof.
  assert (dir_find disk_on (s_root SUPER) [97] = Some file_a) as Hf by (vm_compute; reflexivity). split; [|vm_compute; reflexivity].
  change (names path_a) with [[97]]. cbn [walkable]. rewrite Hf. intros _. split; [apply root_dir|done].
Qed.

Lemma path_c_walk : walkable disk_on (s_root SUPER) (names path_c) /\ creatable disk_on path_c.
Proof.
  assert (dir_find disk_on (s_root SUPER) [99] = None) as Hf by (vm_compute; reflexivity). unfold creatable. change (names path_c) with [[99]]. cbn [walkable path_dirs]. rewrite Hf.
  split; [intros _; split; [apply root_dir|done]|]. intros dir _ Hd. replace (wk_dir (walk_result disk_on None (s_root SUPER) [[99]])) with (Some (s_root SUPER)) in Hd by (vm_compute; reflexivity).
  injection Hd as <-. split; [rewrite root_size; by vm_compute|]. split; [apply root_tidy|]. intros d [<-|[]]. by left.
Qed.

(** * All of its files *)

Definition demo_entry (j : Z) : Z := baddr 3 + sizeof_File * j.
Definition demo_files : gset Z := {[s_root SUPER]} ∪ list_to_set (demo_entry <$> seqZ 0 16).

Lemma demo_files_in f : f ∈ demo_files <-> f = s_root SUPER \/ exists j, 0 <= j < 16 /\ f = demo_entry j.
Proof.
  unfold demo_files. rewrite elem_of_union, elem_of_singleton, elem_of_list_to_set, list_elem_of_fmap. split; (intros [->|H]; [by left|right]).
  - destruct H as (j & -> & Hj%elem_of_seqZ). exists j. split; [lia|done].
  - destruct H as (j & Hj & ->). exists j. split; [done|]. apply elem_of_seqZ. lia.
Qed.

(** What the sixteen entries hold, by evaluation. *)
Definition demo_entry_fine (j : Z) : bool :=
  let f := demo_entry j in
  (find disk_on f =? 0) && forallb (fun n => lword disk_on (f_direct f + 4 * n) =? if n =? 0 then (if j =? 0 then 4 else 0) else 0) (seqZ 0 10)
  && (fsize disk_on f =? if j =? 0 then 5 else 0) && (ftype disk_on f =? FTYPE_REG) && (disk_on (f + 1) =? 0) && ((j <? 2) || (disk_on f =? 0)) && ((2 <=? j) || negb (disk_on f =? 0)).

Lemma demo_entry_ok j : 0 <= j < 16 -> let f := demo_entry j in
  file_ok disk_on f /\ (forall b, owns disk_on f b -> b = 4 /\ j = 0) /\ (forall n, 0 <= n < NBLOCKS -> fblk disk_on f n = if n =? 0 then (if j =? 0 then 4 else 0) else 0)
  /\ fsize disk_on f = (if j =? 0 then 5 else 0) /\ ftype disk_on f = FTYPE_REG /\ disk_on (f + 1) = 0 /\ (disk_on f = 0 <-> 2 <= j).
Proof.
  assert (forallb demo_entry_fine (seqZ 0 16) = true) as H by (vm_compute; reflexivity). intros Hj f. rewrite forallb_forall in H.
  assert (demo_entry_fine j = true) as Hf by (apply H, list_elem_of_In, elem_of_seqZ; lia). clear H. unfold demo_entry_fine in Hf. cbv zeta in Hf. fold f in Hf.
  rewrite !andb_true_iff, !orb_true_iff, !negb_true_iff, !Z.eqb_eq, Z.ltb_lt, Z.leb_le, Z.eqb_neq in Hf. destruct Hf as [[[[[[Q1 Q2] Q3] Q4] Q5] Q6] Q7].
  pose proof (demo_slots f (if j =? 0 then 4 else 0) Q2) as Hsl.
  destruct (demo_file f 3 (if j =? 0 then 4 else 0)) as [H1 H2]; try done; [intros i Hi; by apply entry_at|by right|unfold f, demo_entry, baddr; change BLKSIZE with 4096; change sizeof_File with 256; change DISKMAP with 268435456; clear; Z.div_mod_to_equations; lia|destruct (j =? 0); lia|].
  split_and!; try done; [| |split; intros ?; lia].
  - intros b Hb. destruct (H2 b Hb) as [-> Hr]. destruct (Z.eqb_spec j 0); [by split|lia].
  - intros n Hn. rewrite demo_blk by done. destruct (Z.ltb_spec n 10); [apply Hsl; lia|]. by rewrite (proj2 (Z.eqb_neq n 0)) by lia.
Qed.

Lemma demo_entry_blk j : 0 <= j < 16 -> blk_of (demo_entry j) = 3.
Proof. intros Hj. destruct (entry_at j 0 Hj) as [_ H]; [lia|]. by rewrite Z.add_0_r in H. Qed.

Lemma root_entries : entries disk_on (s_root SUPER) = demo_entry <$> seqZ 0 16.
Proof. vm_compute. reflexivity. Qed.

Lemma root_in e : In e (entries disk_on (s_root SUPER)) <-> exists j, 0 <= j < 16 /\ e = demo_entry j.
Proof.
  rewrite root_entries, <- list_elem_of_In, list_elem_of_fmap. split; [intros (j & -> & Hj%elem_of_seqZ); exists j; split; [lia|done]|].
  intros (j & Hj & ->). exists j. split; [done|]. apply elem_of_seqZ. lia.
Qed.

(** Which block belongs to which file. *)
Lemma demo_owns f b : f ∈ demo_files -> owns disk_on f b -> (f = s_root SUPER /\ b = 3) \/ (f = demo_entry 0 /\ b = 4).
Proof.
  intros [->|(j & Hj & ->)]%demo_files_in Ho; [left; split; [done|by apply root_ok]|right]. destruct (demo_entry_ok j Hj) as (_ & H & _). by destruct (H b Ho) as [-> ->].
Qed.

Local Opaque disk_on demo_files.

Lemma demo_fs : fs_ok disk_on demo_files.
Proof.
  assert (blk_of (s_root SUPER) = 1) as Hrb by (vm_compute; reflexivity). assert (ftype disk_on (s_root SUPER) = FTYPE_DIR) as Hrt by (vm_compute; reflexivity).
  split.
  - apply demo_files_in. by left.
  - intros f [->|(j & Hj & ->)]%demo_files_in; [apply root_ok|by apply demo_entry_ok].
  - intros f [->|(j & Hj & ->)]%demo_files_in; [rewrite root_size; by vm_compute|]. destruct (demo_entry_ok j Hj) as (_ & _ & _ & -> & _). change MAXFILESIZE with 4235264. destruct (j =? 0); lia.
  - intros f [->|(j & Hj & ->)]%demo_files_in; [apply root_tidy|]. destruct (demo_entry_ok j Hj) as (_ & _ & Hb & Hs & _). intros n Hn. rewrite Hs in Hn.
    destruct (j =? 0) eqn:E; [change (nblk 5) with 1 in Hn; rewrite Hb, (proj2 (Z.eqb_neq n 0)) by lia; done|]. change (nblk 0) with 0 in Hn. rewrite Hb by lia. by destruct (n =? 0).
  - intros f g b Hf Hg Hne Ho1 Ho2. destruct (demo_owns f b Hf Ho1) as [[Ef Eb]|[Ef Eb]], (demo_owns g _ Hg Ho2) as [[Eg E]|[Eg E]]; (congruence || lia).
  - intros f g [->|(j & Hj & ->)]%demo_files_in [->|(k & Hk & ->)]%demo_files_in Hne; [done| | |].
    + left. unfold demo_entry, baddr, s_root, SUPER, DISKMAP. change BLKSIZE with 4096. change sizeof_File with 256. lia.
    + right. unfold demo_entry, baddr, s_root, SUPER, DISKMAP. change BLKSIZE with 4096. change sizeof_File with 256. lia.
    + assert (j <> k) by congruence. unfold demo_entry. change sizeof_File with 256. lia.
  - intros f g Hf Hg Ho. apply demo_files_in in Hg. destruct (demo_owns f _ Hf Ho) as [[-> Hb]|[_ Hb]], Hg as [Eg|(k & Hk & Eg)]; rewrite Eg in Hb |- *;
      rewrite ?Hrb, ?(demo_entry_blk k Hk) in Hb; try lia. split; [exact Hrt|]. apply (proj2 (root_in _)). exists k. split; [exact Hk|reflexivity].
  - intros f [->|(j & Hj & ->)]%demo_files_in Ht; [|by destruct (demo_entry_ok j Hj) as (_ & _ & _ & _ & E & _); rewrite E in Ht].
    split; [apply root_dir|]. intros e He. apply (proj1 (root_in e)) in He. apply demo_files_in. right. exact He.
  - intros f [->|(j & Hj & ->)]%demo_files_in; exists 1; (split; [done|]); [by vm_compute|by apply demo_entry_ok].
  - intros f [->|(j & Hj & ->)]%demo_files_in Hz; [by vm_compute in Hz|]. destruct (demo_entry_ok j Hj) as (_ & _ & _ & Hs & Ht & _ & Hb). apply Hb in Hz.
    rewrite Hs, Ht. by rewrite (proj2 (Z.eqb_neq j 0)) by lia.
  - by vm_compute.
Qed.

Local Transparent disk_on.

(** The disk before the server has read anything of it. *)
Lemma fs_off_on : boot_ok (nb disk_on) disk_on fs_off.
Proof.
  destruct fs_off_boot as (_ & _ & [[C1 C2 C3 C4 C5 C6] B2 B3]). assert (nb disk_on = 16) as -> by (vm_compute; reflexivity). assert (nb disk_off = 16) as Hn by (vm_compute; reflexivity). rewrite Hn in *.
  split; [split|done|done]; try done. intros va Hva. unfold disk_on, lview. cbn [fs_off fs_on fmapped fmem fdisk]. rewrite (bool_decide_eq_false_2 (_ ∈ ∅)) by apply not_elem_of_empty.
  case_bool_decide as Hb; [|done]. apply elem_of_singleton in Hb. symmetry. by apply demo_clean.
Qed.
