(* ===== verification/ServProps.v ===== *)
(** fs/serv.c: what the file server promises to its clients. *)

From stdpp Require Import base numbers list gmap strings.
From Stdlib Require Import ZArith Lia Bool.
From S2P Require Import Prelude Mmu Console Bc Fs BcSpec BitmapSpec FsInit FileSpec FileIo FileTrunc DirSpec DirCreate FsInv FsOps Serv ServSpec ServOpen DemoFs.

Local Ltac Zify.zify_post_hook ::= Z.to_euclidean_division_equations.

Local Abbreviation root := (s_root SUPER).

(** * One request *)

(** What a client has to keep to: offsets and sizes within the limits, and no
    writing to directories. The server checks none of this. *)
Record proper (L : Z -> Z) (F : gset Z) (s : serv) (q : request) : Prop := {
  pr_page : forall k, 0 <= mget 0 (rq_page q) k < 2 ^ 8;
  pr_create : rq_code q = FSREQ_OPEN -> flag (req_omode (rq_page q)) O_CREAT = true ->
    forall d, d ∈ F -> ftype L d = FTYPE_DIR -> fsize L d < MAXFILESIZE;
  pr_trunc : rq_code q = FSREQ_OPEN -> flag (req_omode (rq_page q)) O_TRUNC = true ->
    forall f, resolve L root (names (req_path (rq_page q))) = inr f -> ftype L f <> FTYPE_DIR;
  pr_file : forall i, slot_of s (req_fileid (rq_page q)) = Some i ->
    let f := o_file (open_at i s) in
    let off := fd_offset (fd_at (fd_va i) s) in
    let n := req_n (rq_page q) in
    (rq_code q = FSREQ_READ -> 0 <= off)
    /\ (rq_code q = FSREQ_WRITE -> 0 <= off /\ off + (if PGSIZE <? n then PGSIZE else n) <= MAXFILESIZE /\ ftype L f <> FTYPE_DIR)
    /\ (rq_code q = FSREQ_SET_SIZE -> 0 <= req_size (rq_page q) <= MAXFILESIZE /\ ftype L f <> FTYPE_DIR)
}.

(** The requests that name an open file. *)
Definition on_file (code : Z) : bool :=
  (code =? FSREQ_READ) || (code =? FSREQ_STAT) || (code =? FSREQ_FLUSH) || (code =? FSREQ_WRITE) || (code =? FSREQ_SET_SIZE).

(** The reply to each request, with the disk, the files and the server it leaves
    behind. *)
Inductive answers (L : Z -> Z) (F : gset Z) (s : serv) (q : request) : reply -> (Z -> Z) -> gset Z -> serv -> Prop :=
| an_open r L' F' s' : rq_code q = FSREQ_OPEN -> opens L F s (rq_page q) r L' F' s' ->
    answers L F s q (mkReply r.1 r.2 (match r.2 with Some _ => fd_perm | None => rq_perm q end) (rq_page q)) L' F' s'
| an_read i r pg L' s' : rq_code q = FSREQ_READ -> slot_of s (req_fileid (rq_page q)) = Some i -> untouched L L' F (o_file (open_at i s)) ->
    reads L s (rq_page q) i r pg L' s' -> answers L F s q (mkReply r None (rq_perm q) pg) L' F s'
| an_write i r L' s' : rq_code q = FSREQ_WRITE -> slot_of s (req_fileid (rq_page q)) = Some i -> untouched L L' F (o_file (open_at i s)) ->
    writes L s (rq_page q) i r L' s' -> answers L F s q (mkReply r None (rq_perm q) (rq_page q)) L' F s'
| an_set_size i L' s' : rq_code q = FSREQ_SET_SIZE -> slot_of s (req_fileid (rq_page q)) = Some i -> untouched L L' F (o_file (open_at i s)) ->
    resized (o_file (open_at i s)) (req_size (rq_page q)) L L' -> s' = set_fs (sv_fs s') s ->
    answers L F s q (mkReply 0 None (rq_perm q) (rq_page q)) L' F s'
| an_stat i name s' : rq_code q = FSREQ_STAT -> slot_of s (req_fileid (rq_page q)) = Some i -> has_name L (o_file (open_at i s)) name -> s' = set_fs (sv_fs s') s ->
    answers L F s q (mkReply 0 None (rq_perm q) (stat_page L s (rq_page q) i name)) L F s'
| an_flush i s' : rq_code q = FSREQ_FLUSH -> slot_of s (req_fileid (rq_page q)) = Some i -> s' = set_fs (sv_fs s') s ->
    (forall n, let f := o_file (open_at i s) in 0 <= n < nblk (fsize L f) -> fblk L f n <> 0 -> flushed L (sv_fs s') (fblk L f n)) ->
    answers L F s q (mkReply 0 None (rq_perm q) (rq_page q)) L F s'
| an_sync s' : rq_code q = FSREQ_SYNC -> s' = set_fs (sv_fs s') s -> (forall b, 1 <= b < nb L -> flushed L (sv_fs s') b) ->
    answers L F s q (mkReply 0 None (rq_perm q) (rq_page q)) L F s'
| an_closed : on_file (rq_code q) = true -> slot_of s (req_fileid (rq_page q)) = None ->
    answers L F s q (mkReply (- E_INVAL) None (rq_perm q) (rq_page q)) L F s
| an_unknown : on_file (rq_code q) = false -> rq_code q <> FSREQ_OPEN -> rq_code q <> FSREQ_SYNC ->
    answers L F s q (mkReply (- E_INVAL) None (rq_perm q) (rq_page q)) L F s.

(** The one answer that leaves the files in disorder: a directory could not get
    the block it needed for a new entry. *)
Definition ran_full (q : request) (r : reply) (s' : serv) : Prop :=
  rq_code q = FSREQ_OPEN /\ flag (req_omode (rq_page q)) O_CREAT = true /\ rp_r r = - E_NO_DISK /\ rp_pg r = None
  /\ exists L', bc_ok L' (sv_fs s') /\ forall b, 0 <= b < nb L' -> used L' b.

Section Dispatch.
Context (L : Z -> Z) (F : gset Z) (s : serv) (q : request) (HS : serv_ok L F s) (HP : proper L F s q).

Local Abbreviation pg := (rq_page q).

Lemma dispatch_closed : on_file (rq_code q) = true -> slot_of s (req_fileid pg) = None ->
  dispatch q s = Ret (mkReply (- E_INVAL) None (rq_perm q) pg) s.
Proof.
  intros Ho Hn. pose proof (lookup_ok s (req_fileid pg)) as El. rewrite Hn in El. unfold dispatch. unfold on_file in Ho.
  destruct (Z.eqb_spec (rq_code q) FSREQ_OPEN) as [E|_]; [by rewrite E in Ho|].
  destruct (rq_code q =? FSREQ_READ); [unfold serve_read, bind; by rewrite El|].
  destruct (rq_code q =? FSREQ_STAT); [unfold serve_stat, bind; by rewrite El|].
  destruct (rq_code q =? FSREQ_FLUSH); [unfold serve_flush, bind; by rewrite El|].
  destruct (rq_code q =? FSREQ_WRITE); [unfold serve_write, bind; by rewrite El|].
  destruct (rq_code q =? FSREQ_SET_SIZE); [unfold serve_set_size, bind; by rewrite El|done].
Qed.

Lemma dispatch_file i : on_file (rq_code q) = true -> slot_of s (req_fileid pg) = Some i ->
  exists r L' s', dispatch q s = Ret r s' /\ serv_ok L' F s' /\ answers L F s q r L' F s' /\ rp_pg r = None.
Proof.
  intros Ho Hi. destruct (pr_file _ _ _ _ HP i Hi) as (P1 & P2 & P3). pose proof (pr_page _ _ _ _ HP) as Hpg. unfold dispatch. unfold on_file in Ho.
  destruct (Z.eqb_spec (rq_code q) FSREQ_OPEN) as [E|_]; [by rewrite E in Ho|].
  destruct (Z.eqb_spec (rq_code q) FSREQ_READ) as [E|_].
  { destruct (serve_read_ok L F s HS pg i Hi Hpg (P1 E)) as (L' & s' & r & pg' & Er & HS' & HU & Hr). rewrite (bind_ret _ _ _ _ _ Er).
    eexists _, L', s'. split; [reflexivity|]. split; [done|]. split; [|done]. by apply (an_read _ _ _ _ i). }
  destruct (Z.eqb_spec (rq_code q) FSREQ_STAT) as [E|_].
  { destruct (serve_stat_ok L F s HS pg i Hi) as (s' & name & Er & HS' & Hn & Es). rewrite (bind_ret _ _ _ _ _ Er).
    eexists _, L, s'. split; [reflexivity|]. split; [done|]. split; [|done]. by apply (an_stat _ _ _ _ i). }
  destruct (Z.eqb_spec (rq_code q) FSREQ_FLUSH) as [E|_].
  { destruct (serve_flush_ok L F s HS pg i Hi) as (s' & Er & HS' & Es & _ & Hf). rewrite (bind_ret _ _ _ _ _ Er).
    eexists _, L, s'. split; [reflexivity|]. split; [done|]. split; [|done]. by apply (an_flush _ _ _ _ i). }
  destruct (Z.eqb_spec (rq_code q) FSREQ_WRITE) as [E|_].
  { destruct (P2 E) as (Q1 & Q2 & Q3). destruct (serve_write_ok L F s HS pg i Hi Hpg Q1 Q2 Q3) as (L' & s' & r & Er & HS' & HU & Hr). rewrite (bind_ret _ _ _ _ _ Er).
    eexists _, L', s'. split; [reflexivity|]. split; [done|]. split; [|done]. by apply (an_write _ _ _ _ i). }
  destruct (Z.eqb_spec (rq_code q) FSREQ_SET_SIZE) as [E|_]; [|done].
  destruct (P3 E) as [Q1 Q2]. destruct (serve_set_size_ok L F s HS pg i Hi Q1 Q2) as (L' & s' & Er & HS' & HU & Hr & Es). rewrite (bind_ret _ _ _ _ _ Er).
  eexists _, L', s'. split; [reflexivity|]. split; [done|]. split; [|done]. by apply (an_set_size _ _ _ _ i).
Qed.

Lemma dispatch_other : on_file (rq_code q) = false -> rq_code q <> FSREQ_OPEN ->
  exists r s', dispatch q s = Ret r s' /\ serv_ok L F s' /\ answers L F s q r L F s' /\ rp_pg r = None.
Proof.
  intros Ho Hn. unfold dispatch. pose proof Ho as Ho'. unfold on_file in Ho. repeat (apply orb_false_iff in Ho as [Ho ?]). rewrite (proj2 (Z.eqb_neq _ _) Hn).
  rewrite Ho. repeat match goal with H : (rq_code q =? _) = false |- _ => rewrite H; clear H end.
  destruct (Z.eqb_spec (rq_code q) FSREQ_SYNC) as [E|E].
  - destruct (serve_sync_ok L F s HS) as (s' & Er & HS' & Es & Hf). rewrite (bind_ret _ _ _ _ _ Er). eexists _, s'. split; [reflexivity|]. split; [done|]. split; [|done]. by apply an_sync.
  - eexists _, s. split; [reflexivity|]. split; [done|]. split; [|done]. by apply an_unknown.
Qed.

(** A descriptor that is sent has its file recorded. *)
Definition ready (L' : Z -> Z) (F' : gset Z) (s' : serv) (va : Z) : Prop :=
  exists i, 0 <= i < MAXOPEN /\ va = fd_va i /\ o_file (open_at i s') ∈ F' /\ L' (o_file (open_at i s')) <> 0.

Lemma dispatch_ok : exists r s', dispatch q s = Ret r s' /\
  ((exists L' F', serv_ok L' F' s' /\ answers L F s q r L' F' s' /\ forall va, rp_pg r = Some va -> ready L' F' s' va) \/ ran_full q r s').
Proof.
  destruct (on_file (rq_code q)) eqn:Ho; [|destruct (decide (rq_code q = FSREQ_OPEN)) as [E|E]].
  - destruct (slot_of s (req_fileid pg)) as [i|] eqn:Hi.
    + destruct (dispatch_file i Ho Hi) as (r & L' & s' & E & HS' & Ha & Hn). exists r, s'. split; [done|]. left. exists L', F. split_and!; try done. by rewrite Hn.
    + eexists _, s. split; [by apply dispatch_closed|]. left. exists L, F. split_and!; try done. by apply an_closed.
  - unfold dispatch. rewrite E, Z.eqb_refl. destruct (serve_open_ok L F s pg HS (pr_page _ _ _ _ HP) (pr_create _ _ _ _ HP E) (pr_trunc _ _ _ _ HP E)) as (r & s' & Er & Hres).
    rewrite (bind_ret _ _ _ _ _ Er). eexists _, s'. split; [reflexivity|]. destruct Hres as [(L' & F' & HS' & Hop)|(-> & Hc & Hfull)]; [left|right; by split_and!].
    exists L', F'. split; [done|]. split; [by apply an_open|]. intros va. cbn [rp_pg]. destruct Hop as [| | |i f L1 L' F' s' Hi Hr Ho' Hg Hres Hf H0 Ht]; try done. intros [= <-].
    exists i. rewrite (opened_at _ _ _ _ _ i Ho'), decide_True by done. split_and!; done || lia.
  - destruct (dispatch_other Ho E) as (r & s' & Er & HS' & Ha & Hn). exists r, s'. split; [done|]. left. exists L, F. split_and!; try done. by rewrite Hn.
Qed.
End Dispatch.

(** The page that comes with a reply gets another mapping. *)
Definition mapped_once (pg : option Z) (maps : bool) (s : serv) : serv :=
  match pg with
  | Some va => if maps then set_fdpages (alter (fun p => mkFdpage (fp_ref p + 1) (fp_fd p)) va (fdpages s)) s else s
  | None => s
  end.

Lemma send_ok L F s pg maps : serv_ok L F s -> (forall va, pg = Some va -> ready L F s va) ->
  send_page pg maps s = Ret tt (mapped_once pg maps s) /\ serv_ok L F (mapped_once pg maps s).
Proof.
  intros HS Hr. destruct pg as [va|]; [|done]. cbn. destruct maps; [|done]. split; [done|]. destruct HS as [HB HI [A1 A2 A3 A4]]. split; [done|done|].
  destruct (Hr va eq_refl) as (i & Hi & -> & Hf & H0). split; try done.
  - intros va p. cbn [fdpages set_fdpages]. destruct (decide (va = fd_va i)) as [->|Hne]; [|rewrite lookup_alter_ne by done; apply A3].
    rewrite lookup_alter_eq. destruct (fdpages s !! fd_va i) as [p0|] eqn:E; [|done]. cbn. intros [= <-]. cbn. pose proof (A3 _ _ E). lia.
  - intros j Hj. unfold pageref. cbn [fdpages set_fdpages]. destruct (decide (j = i)) as [->|Hne]; [done|].
    rewrite lookup_alter_ne by (intros E%fd_va_inj; congruence). apply A4, Hj.
Qed.

Lemma serve_round_ok L F s q : serv_ok L F s -> proper L F s q -> flag (rq_perm q) PTE_P = true ->
  exists r s1, serve_round q s = Ret (Some r) (mapped_once (rp_pg r) (rq_maps q) s1) /\
    ((exists L' F', serv_ok L' F' (mapped_once (rp_pg r) (rq_maps q) s1) /\ answers L F s q r L' F' s1) \/ ran_full q r s1).
Proof.
  intros HS HP Hq. unfold serve_round. rewrite Hq. cbn [negb]. destruct (dispatch_ok L F s q HS HP) as (r & s1 & E & Hres). rewrite (bind_ret _ _ _ _ _ E).
  exists r, s1. destruct Hres as [(L' & F' & HS' & Ha & Hr)|Hfull].
  - destruct (send_ok L' F' s1 (rp_pg r) (rq_maps q) HS' Hr) as [Es HS2]. rewrite (bind_ret _ _ _ _ _ Es). split; [done|]. left. by exists L', F'.
  - destruct Hfull as (H1 & H2 & H3 & H4 & H5). rewrite H4. split; [done|]. right. by split_and!.
Qed.

(** * Clients *)

(** What clients do with descriptors on their own: store into one they have,
    share it, drop it. *)
Inductive client_move (s : serv) : serv -> Prop :=
| cm_store va d : 1 < pageref va s -> client_move s (set_fdpages (alter (fun p => mkFdpage (fp_ref p) d) va (fdpages s)) s)
| cm_share va : 1 < pageref va s -> client_move s (set_fdpages (alter (fun p => mkFdpage (fp_ref p + 1) (fp_fd p)) va (fdpages s)) s)
| cm_drop va : 1 < pageref va s -> client_move s (set_fdpages (alter (fun p => mkFdpage (fp_ref p - 1) (fp_fd p)) va (fdpages s)) s).

Lemma client_ok L F s s' : serv_ok L F s -> client_move s s' -> serv_ok L F s'.
Proof.
  intros [HB HI HT] Hm.
  assert (forall va k, 1 < pageref va s -> -1 <= k <= 1 -> serv_ok L F (set_fdpages (alter (fun p => mkFdpage (fp_ref p + k) (fp_fd p)) va (fdpages s)) s)) as Hk.
  { intros va k Hr Hk. split; [done|done|]. destruct HT as [A1 A2 A3 A4]. split; try done.
    - intros va' p. cbn [fdpages set_fdpages]. destruct (decide (va' = va)) as [->|Hne]; [|rewrite lookup_alter_ne by done; apply A3].
      rewrite lookup_alter_eq. unfold pageref in Hr. destruct (fdpages s !! va) as [p0|] eqn:E; [|done]. cbn. intros [= <-]. cbn. lia.
    - intros j Hj Hr'. apply A4; [done|]. unfold pageref in *. cbn [fdpages set_fdpages] in Hr'. destruct (decide (fd_va j = va)) as [->|Hne]; [done|].
      by rewrite lookup_alter_ne in Hr'. }
  destruct Hm as [va d Hr|va Hr|va Hr]; [split; [done|done|by apply tab_put]|apply (Hk va 1 Hr); lia|apply (Hk va (-1) Hr); lia].
Qed.

(** * Start *)

Lemma serve_init_ok s : exists s', serve_init s = Ret tt s' /\ sv_fs s' = sv_fs s /\ fdpages s' = fdpages s
  /\ forall i, 0 <= i < MAXOPEN -> o_fileid (open_at i s') = i /\ o_fd (open_at i s') = fd_va i.
Proof.
  unfold serve_init. destruct (for_loop_inv (fun n s' => sv_fs s' = sv_fs s /\ fdpages s' = fdpages s /\ forall i, 0 <= i < n -> o_fileid (open_at i s') = i /\ o_fd (open_at i s') = fd_va i)
    (fun i => let! o := gets (open_at i) in put_open i (mkOpen (u32 i) (o_file o) (o_mode o) (u32 (FILEVA + i * PGSIZE)))) (Z.to_nat MAXOPEN) 0 s) as (s' & E & H1 & H2 & H3).
  - split_and!; [done|done|lia].
  - intros j s1 Hj (H1 & H2 & H3). eexists. rewrite (bind_ret (gets _) _ _ _ _ eq_refl). split; [reflexivity|]. change (Z.of_nat (Z.to_nat MAXOPEN)) with 1024 in Hj. split_and!; [done|done|].
    intros i Hi. unfold open_at, mget. cbn [opentab set_open]. destruct (decide (i = j)) as [->|Hne].
    + rewrite lookup_insert_eq. cbn. unfold fd_va, FILEVA. change PGSIZE with 4096. rewrite !u32_small by (unfold is_u32; lia). done.
    + rewrite lookup_insert_ne by done. apply H3. lia.
  - exists s'. split; [done|]. split; [done|]. split; [done|]. intros i Hi. apply H3. change (Z.of_nat (Z.to_nat MAXOPEN)) with 1024. change MAXOPEN with 1024 in Hi. lia.
Qed.

Lemma serve_start_ok L F s : disk_ok L -> lword L (s_magic SUPER) = FS_MAGIC -> boot_ok (nb L) L (sv_fs s) -> fs_ok L F -> fdpages s = ∅ ->
  exists s', serve_start s = Ret tt s' /\ serv_ok L F s'.
Proof.
  intros HL Hm HB HI Hp. unfold serve_start. destruct (serve_init_ok s) as (s1 & E1 & H1 & H2 & H3). rewrite (bind_ret _ _ _ _ _ E1).
  destruct (fs_init_ok L (sv_fs s) HL Hm HB) as (x & E2 & HB'). rewrite <- H1 in E2. rewrite (fsop_ret _ s1 _ _ E2). eexists. split; [reflexivity|].
  split; [done|done|]. split.
  - intros i Hi. by apply H3.
  - intros i Hi. destruct (H3 i Hi) as [Ei _]. change (open_at i (set_fs x s1)) with (open_at i s1). rewrite Ei. change MAXOPEN with 1024 in *. unfold is_u32. lia.
  - intros va p. cbn [fdpages set_fs]. by rewrite H2, Hp, lookup_empty.
  - intros i Hi. unfold pageref. cbn [fdpages set_fs]. rewrite H2, Hp, lookup_empty. lia.
Qed.

(** * Many requests *)

(** A client keeps to the rules, whatever the disk is taken to hold. *)
Definition behaves (s : serv) (q : request) : Prop := forall L F, serv_ok L F s -> proper L F s q.

(** The states that requests and clients lead to, until a directory runs out of
    space. *)
Inductive reached (s0 : serv) : serv -> Prop :=
| rc_start : reached s0 s0
| rc_client s s' : reached s0 s -> client_move s s' -> reached s0 s'
| rc_request s q r s' : reached s0 s -> behaves s q -> serve_round q s = Ret r s' ->
    (rq_code q = FSREQ_OPEN -> forall rp, r = Some rp -> rp_r rp <> - E_NO_DISK) -> reached s0 s'.

Lemma reached_ok s0 s : reached s0 s -> (exists L F, serv_ok L F s0) -> exists L F, serv_ok L F s.
Proof.
  intros H H0. induction H as [|s s' H IH Hm|s q r s' H IH Hq Er Hnf]; [done| |]; destruct IH as (L & F & HS); [exists L, F; by apply (client_ok L F s)|].
  destruct (flag (rq_perm q) PTE_P) eqn:Ep; [|unfold serve_round in Er; rewrite Ep in Er; injection Er as <- <-; by exists L, F].
  destruct (serve_round_ok L F s q HS (Hq L F HS) Ep) as (rp & s1 & E & Hres). rewrite E in Er. injection Er as <- <-.
  destruct Hres as [(L' & F' & HS' & _)|(Hc & _ & Hr & _)]; [by exists L', F'|]. by destruct (Hnf Hc rp eq_refl).
Qed.

(** * Offsets before the beginning *)

(** A position before the beginning is taken for one before the first block. *)
Lemma read_from_before L s f k n m : bc_ok L s -> file_ok L f -> 0 < n < k -> k < BLKSIZE -> fblk L f 0 <> 0 -> used L (fblk L f 0 - 1) ->
  exists s', file_read_from (S (S m)) f (- k) (2 ^ 32 - k + n) s = Ret (inr ((fun j => L (baddr (fblk L f 0) - k + j)) <$> seqZ 0 n)) s' /\ bc_ok L s'.
Proof.
  intros HB HF Hn Hk Hb Hu. pose proof (bo_disk _ _ HB) as HL. change BLKSIZE with 4096 in Hk.
  assert (forall s', file_read_from (S m) f (- k + n) (2 ^ 32 - k + n) s' = Ret (inr []) s') as Hend.
  { intros s'. cbn [file_read_from]. assert (u32 (- k + n) = 2 ^ 32 - k + n) as -> by (unfold u32; lia). by rewrite Z.ltb_irrefl. }
  remember (S m) as m'. cbn [file_read_from]. assert (u32 (- k) = 2 ^ 32 - k) as -> by (unfold u32; lia). rewrite (proj2 (Z.ltb_lt _ _)) by lia. change BLKSIZE with 4096.
  rewrite Z.quot_opp_l, (Z.quot_small k), Z.rem_opp_l, (Z.rem_small k) by lia. change (u32 (- 0)) with 0.
  destruct (get_block_same L s f 0 HB HF) as (s2 & E2 & HB2); [by vm_compute|done|]. rewrite (bind_ret _ _ _ _ _ E2).
  assert (s32 (Z.min (u32 (4096 - - k)) (u32 (2 ^ 32 - k + n - - k))) = n) as ->.
  { rewrite (u32_small (4096 - - k)) by (unfold is_u32; lia). assert (u32 (2 ^ 32 - k + n - - k) = n) as -> by (unfold u32; lia). rewrite Z.min_r by lia. apply s32_small. lia. }
  destruct (owned_range L HL f HF (fblk L f 0)) as [Hr Hr']; [apply fblk_owned; [by vm_compute|done]|].
  assert (baddr (fblk L f 0) + - k = baddr (fblk L f 0 - 1) + (4096 - k)) as -> by (unfold baddr; change BLKSIZE with 4096; lia).
  destruct (baddr_in (fblk L f 0 - 1) (4096 - k)) as [Hc Hbk]; [lia|change BLKSIZE with 4096; lia|].
  destruct (fread_ok L s2 (baddr (fblk L f 0 - 1) + (4096 - k)) n HB2) as (s3 & E3 & HB3); [split; [done|]; rewrite Hbk; split; [lia|done]|split; [lia|rewrite baddr_mod; change BLKSIZE with 4096; lia]|].
  rewrite (bind_ret _ _ _ _ _ E3). assert (s32 (- k + n) = - k + n) as -> by (unfold s32, u32; destruct (Z.ltb_spec ((- k + n) mod 2 ^ 32) (2 ^ 31)); lia).
  rewrite (bind_ret _ _ _ _ _ (Hend s3)), app_nil_r. exists s3. split; [|done]. unfold ret. do 2 f_equal. apply list_fmap_ext. intros j x _. f_equal. unfold baddr. change BLKSIZE with 4096. lia.
Qed.

Lemma read_before L s f k n : bc_ok L s -> file_ok L f -> 0 <= fsize L f <= MAXFILESIZE -> 0 < n < k -> k < BLKSIZE -> fblk L f 0 <> 0 -> used L (fblk L f 0 - 1) ->
  exists s', file_read f n (- k) s = Ret (inr (n, (fun j => L (baddr (fblk L f 0) - k + j)) <$> seqZ 0 n)) s' /\ bc_ok L s'.
Proof.
  intros HB HF Hsz Hn Hk Hb Hu. unfold file_read. destruct (size_safe L f HF) as (Ss & As & _).
  destruct (fload32_safe L s _ HB Ss As) as (s1 & E1 & HB1). rewrite (bind_ret _ _ _ _ _ E1). fold (fsize L f). change MAXFILESIZE with 4235264 in Hsz. change BLKSIZE with 4096 in *.
  rewrite (proj2 (Z.leb_gt _ _)) by lia. cbv zeta. rewrite (u32_small (fsize L f - - k)), Z.min_l by (unfold is_u32; lia).
  assert (u32 (- k + n) = 2 ^ 32 - k + n) as -> by (unfold u32; lia). assert (io_fuel n = 2%nat) as -> by (unfold io_fuel; change BLKSIZE with 4096; lia).
  destruct (read_from_before L s1 f k n 0 HB1 HF Hn Hk Hb Hu) as (s2 & E2 & HB2). rewrite (bind_ret _ _ _ _ _ E2). by exists s2.
Qed.

(** A server on the example disk, with the file a open in the first entry of its
    table at offset [off]. *)
Definition serv_off : serv := mkServ fs_off ∅ ∅ 10.
Definition demo_open (i : Z) : OpenFile := if i =? 0 then mkOpen 1024 file_a 2 (fd_va 0) else mkOpen i 0 0 (fd_va i).
Definition serv_on (off : Z) : serv :=
  mkServ fs_on (list_to_map ((fun i => (i, demo_open i)) <$> seqZ 0 MAXOPEN)) {[fd_va 0 := mkFdpage 2 (mkFd devfile_id off 2 1024)]} 10.

Lemma demo_open_at off i : 0 <= i < MAXOPEN -> open_at i (serv_on off) = demo_open i.
Proof.
  intros Hi. unfold open_at, mget. cbn [opentab serv_on]. erewrite elem_of_list_to_map_1'; [done| |].
  - intros o (j & [= -> ->] & _)%list_elem_of_fmap. done.
  - apply list_elem_of_fmap. exists i. split; [done|]. apply elem_of_seqZ. lia.
Qed.

Lemma serv_on_ok off : serv_ok disk_on demo_files (serv_on off).
Proof.
  split; [apply fs_on_ok|apply demo_fs|]. split.
  - intros i Hi. rewrite demo_open_at by done. unfold demo_open. by destruct (Z.eqb_spec i 0) as [->|].
  - intros i Hi. rewrite demo_open_at by done. unfold demo_open. destruct (Z.eqb_spec i 0) as [->|Hz]; [by vm_compute|]. cbn [o_fileid]. change MAXOPEN with 1024 in *. unfold is_u32. lia.
  - intros va p. cbn [fdpages serv_on]. intros [_ <-]%lookup_singleton_Some. cbn [fp_ref]. lia.
  - intros i Hi Hr. rewrite demo_open_at by done. unfold demo_open. destruct (Z.eqb_spec i 0) as [->|Hz]; [|].
    + split; [apply demo_files_in; right; by exists 0|by vm_compute].
    + unfold pageref in Hr. cbn [fdpages serv_on] in Hr. rewrite lookup_singleton_ne in Hr by (intros E%fd_va_inj; congruence). lia.
Qed.

(** A request for [n] bytes of the file with the given identifier. *)
Definition demo_page (id n : Z) : page := put_word 0 id (put_word 4 n ∅).
Definition demo_request (code n : Z) : request := mkReq code PTE_P (demo_page 1024 n) true.

Lemma demo_slot off : slot_of (serv_on off) (req_fileid (demo_page 1024 5)) = Some 0.
Proof. unfold slot_of. change (u32 (req_fileid (demo_page 1024 5)) mod MAXOPEN) with 0. by rewrite demo_open_at. Qed.

Lemma demo_page_bytes k : 0 <= mget 0 (demo_page 1024 5) k < 2 ^ 8.
Proof. apply all_bytes_get. by vm_compute. Qed.

(** * What the server promises *)

(** C1: every request of a client that keeps to the rules gets the reply that
    [answers] says, and leaves the server in order; the one other way it can
    end is a directory that could not get a block for a new entry. *)
Theorem serve_round_correct L F s q : serv_ok L F s -> proper L F s q -> flag (rq_perm q) PTE_P = true ->
  exists r s1, serve_round q s = Ret (Some r) (mapped_once (rp_pg r) (rq_maps q) s1) /\
    ((exists L' F', serv_ok L' F' (mapped_once (rp_pg r) (rq_maps q) s1) /\ answers L F s q r L' F' s1) \/ ran_full q r s1).
Proof. apply serve_round_ok. Qed.

Lemma serve_round_correct_witness : exists r s1,
  serve_round (demo_request FSREQ_WRITE 5) (serv_on 0) = Ret (Some r) (mapped_once (rp_pg r) true s1) /\
    ((exists L' F', serv_ok L' F' (mapped_once (rp_pg r) true s1) /\ answers disk_on demo_files (serv_on 0) (demo_request FSREQ_WRITE 5) r L' F' s1)
     \/ ran_full (demo_request FSREQ_WRITE 5) r s1).
Proof.
  apply (serve_round_correct disk_on demo_files (serv_on 0) (demo_request FSREQ_WRITE 5) (serv_on_ok 0)); [|by vm_compute].
  split; [apply demo_page_bytes|done|done|]. cbn [rq_page demo_request]. rewrite demo_slot. intros i [= <-]. split; [done|]. split; [|done].
  intros _. rewrite demo_open_at by done. vm_compute. by split_and!.
Defined.

(** C2: [umain] on a well-formed disk gets to its loop, and then every state that
    requests and clients lead to is well formed and answers the next request. *)
Theorem serve_safe L F s : disk_ok L -> lword L (s_magic SUPER) = FS_MAGIC -> boot_ok (nb L) L (sv_fs s) -> fs_ok L F -> fdpages s = ∅ ->
  exists s0, serve_start s = Ret tt s0 /\ forall s', reached s0 s' ->
    (exists L' F', serv_ok L' F' s') /\ forall q, behaves s' q -> exists r s'', serve_round q s' = Ret r s''.
Proof.
  intros HL Hm HB HI Hp. destruct (serve_start_ok L F s HL Hm HB HI Hp) as (s0 & E & HS). exists s0. split; [done|]. intros s' Hr.
  destruct (reached_ok s0 s' Hr) as (L' & F' & HS'); [by exists L, F|]. split; [by exists L', F'|]. intros q Hq.
  destruct (flag (rq_perm q) PTE_P) eqn:Ep; [|exists None, s'; unfold serve_round; by rewrite Ep].
  destruct (serve_round_ok L' F' s' q HS' (Hq L' F' HS') Ep) as (r & s1 & Er & _). rewrite Er. by eexists _, _.
Qed.

Lemma serve_safe_witness : exists s0, serve_start serv_off = Ret tt s0 /\ forall s', reached s0 s' ->
  (exists L' F', serv_ok L' F' s') /\ forall q, behaves s' q -> exists r s'', serve_round q s' = Ret r s''.
Proof. apply (serve_safe disk_on demo_files serv_off (bo_disk _ _ fs_on_ok)); [by vm_compute|apply fs_off_on|apply demo_fs|done]. Defined.

(** A client stores an offset into its descriptor. *)
Definition sought (va off : Z) (s : serv) : serv :=
  set_fdpages (alter (fun p => mkFdpage (fp_ref p) (mkFd (fd_dev_id (fp_fd p)) off (fd_omode (fp_fd p)) (fd_file_id (fp_fd p)))) va (fdpages s)) s.

Lemma fd_at_sought va off s : (exists p, fdpages s !! va = Some p) -> fd_offset (fd_at va (sought va off s)) = off.
Proof. intros [p Hp]. unfold fd_at, sought. cbn [fdpages set_fdpages]. by rewrite lookup_alter_eq, Hp. Qed.

Lemma slot_of_ext s s' id : opentab s' = opentab s -> (forall va, pageref va s' = pageref va s) -> slot_of s' id = slot_of s id.
Proof. intros Ho Hr. unfold slot_of, open_at. by rewrite Ho, Hr. Qed.

Lemma reqn_plain n : n <= PGSIZE - 8 -> (if PGSIZE <? n then PGSIZE else n) = n.
Proof. change PGSIZE with 4096. intros H. by rewrite (proj2 (Z.ltb_ge _ _)) by lia. Qed.

(** C3: what a write request has put into a file, a read request returns, once the
    client has moved its offset back. *)
Theorem serve_write_read L F s pg pg' i : serv_ok L F s -> slot_of s (req_fileid pg) = Some i -> 
  (forall k, 0 <= mget 0 pg k < 2 ^ 8) -> (forall k, 0 <= mget 0 pg' k < 2 ^ 8) -> req_fileid pg' = req_fileid pg -> req_n pg' = req_n pg -> req_n pg <= PGSIZE - 8 ->
  let off := fd_offset (fd_at (fd_va i) s) in 0 <= off -> off + req_n pg <= MAXFILESIZE -> ftype L (o_file (open_at i s)) <> FTYPE_DIR ->
  exists r s1, serve_write pg s = Ret r s1 /\
    (r = - E_NO_DISK \/ (r = req_n pg /\ exists s2,
       serve_read pg' (sought (fd_va i) off s1) = Ret (req_n pg, put_bytes 0 ((fun k => mget 0 pg (8 + k)) <$> seqZ 0 (req_n pg)) pg') s2)).
Proof.
  intros HS Hi Hp Hp' Eid En Hn off Ho Hm Ht. pose proof (reqn_plain _ Hn) as Eq. pose proof (reqn_range pg Hp) as Hr. rewrite Eq in Hr.
  destruct (slot_open L F s _ i (so_tab _ _ _ HS) Hi) as (_ & _ & _ & _ & Hpg).
  destruct (serve_write_ok L F s HS pg i Hi Hp Ho) as (L1 & s1 & r & E1 & HS1 & _ & Hw); [by rewrite Eq|done|]. exists r, s1. split; [done|].
  unfold writes in Hw. rewrite Eq in Hw. destruct Hw as [Hsz [(-> & Hw & Es)|(-> & _)]]; [right|by left]. split; [done|].
  fold off in Hsz, Hw. set (f := o_file (open_at i s)) in *. set (s1' := sought (fd_va i) off s1).
  assert (serv_ok L1 F s1') as HS1' by (destruct HS1; split; [done|done|by apply tab_put]).
  assert (opentab s1' = opentab s) as Eo by (unfold s1'; by rewrite Es).
  assert (forall va, pageref va s1' = pageref va s) as Er by (intros va; unfold s1', sought; rewrite Es, pageref_alter by done; change (pageref va (moved (fd_va i) (req_n pg) s) = pageref va s); by apply pageref_alter).
  assert (fd_offset (fd_at (fd_va i) s1') = off) as Eoff.
  { apply fd_at_sought. rewrite Es. unfold moved. cbn [fdpages set_fdpages set_fs]. rewrite lookup_alter_eq. destruct Hpg as [p ->]. by eexists. }
  assert (o_file (open_at i s1') = f) as Ef by (unfold f, open_at; by rewrite Eo).
  destruct (serve_read_ok L1 F s1' HS1' pg' i) as (L2 & s2 & r2 & pg2 & E2 & _ & _ & Hrd); [by rewrite (slot_of_ext s), Eid|done|by rewrite Eoff|].
  unfold reads in Hrd. rewrite Eoff, Ef, En, Eq, Hsz in Hrd. replace (Z.max 0 (Z.min (req_n pg) (Z.max (fsize L f) (off + req_n pg) - off))) with (req_n pg) in Hrd by lia.
  assert (Z.of_nat (length (sent L pg (req_n pg))) = req_n pg) as Hlen by (unfold sent; rewrite length_fmap, length_seqZ; lia).
  destruct Hrd as (_ & _ & [(-> & -> & _)|(_ & _ & _ & (p & Hpr & Hz) & _)]); [|destruct Hw as [_ Hw]; rewrite Hlen in Hw; by destruct (Hw eq_refl p Hpr)].
  exists s2. rewrite E2. pose proof (written_bytes _ _ _ _ _ Hw Ho) as Hb. rewrite Hlen in Hb. rewrite Hb by done. do 3 f_equal.
  apply list_fmap_ext. intros j x Hx%lookup_seqZ. change PGSIZE with 4096 in *. by rewrite (proj2 (Z.ltb_lt _ _)) by lia.
Qed.

Lemma serve_write_read_witness : exists r s1, serve_write (demo_page 1024 5) (serv_on 2) = Ret r s1 /\
  (r = - E_NO_DISK \/ (r = 5 /\ exists s2,
     serve_read (demo_page 1024 5) (sought (fd_va 0) 2 s1) = Ret (5, put_bytes 0 ((fun k => mget 0 (demo_page 1024 5) (8 + k)) <$> seqZ 0 5) (demo_page 1024 5)) s2)).
Proof.
  apply (serve_write_read disk_on demo_files (serv_on 2) (demo_page 1024 5) (demo_page 1024 5) 0 (serv_on_ok 2) (demo_slot 2) demo_page_bytes demo_page_bytes eq_refl eq_refl);
    [by vm_compute|by vm_compute|by vm_compute|by rewrite demo_open_at; [vm_compute|done]].
Defined.

(** C4: the offset of a descriptor is not checked. With one before the beginning of
    the file, a read request returns the end of the block that lies before the
    first block of the file on the disk, whatever file that block belongs to. *)
Theorem serve_read_leaks L F s pg i k : serv_ok L F s -> slot_of s (req_fileid pg) = Some i ->
  fd_offset (fd_at (fd_va i) s) = - k -> 0 < req_n pg < k -> k < BLKSIZE ->
  let b := fblk L (o_file (open_at i s)) 0 in b <> 0 -> used L (b - 1) ->
  exists s', serve_read pg s = Ret (req_n pg, put_bytes 0 ((fun j => L (baddr b - k + j)) <$> seqZ 0 (req_n pg)) pg) s'.
Proof.
  intros HS Hi Ho Hn Hk b Hb Hu. destruct HS as [HB HI HT]. destruct (slot_open L F s _ i HT Hi) as (_ & Efd & Hf & _).
  unfold serve_read. rewrite (bind_ret _ _ _ _ _ (lookup_ok s _)), Hi. rewrite !(bind_ret (gets _) _ _ _ _ eq_refl), Efd, Ho.
  change BLKSIZE with 4096 in Hk. change PGSIZE with 4096. rewrite (proj2 (Z.ltb_ge 4096 _)) by lia.
  destruct (read_before L (sv_fs s) (o_file (open_at i s)) k (req_n pg) HB (fi_file _ _ HI _ Hf) (fi_size _ _ HI _ Hf) Hn Hk Hb Hu) as (s1 & E & _).
  rewrite (bind_ret _ _ _ _ _ (fsop_ret _ s _ _ E)). by eexists.
Qed.

Lemma serve_read_leaks_witness : exists s', serve_read (demo_page 1024 5) (serv_on (-100)) =
  Ret (5, put_bytes 0 ((fun j => disk_on (baddr 4 - 100 + j)) <$> seqZ 0 5) (demo_page 1024 5)) s'.
Proof.
  assert (fblk disk_on (o_file (open_at 0 (serv_on (-100)))) 0 = 4) as E by (rewrite demo_open_at by done; by vm_compute).
  assert (req_n (demo_page 1024 5) = 5) as En by (vm_compute; reflexivity).
  pose proof (serve_read_leaks disk_on demo_files (serv_on (-100)) (demo_page 1024 5) 0 100 (serv_on_ok _) (demo_slot _) eq_refl) as H. cbv zeta in H. rewrite E, En in H.
  assert (used disk_on (4 - 1)) as Hu by (apply demo_used; lia). change BLKSIZE with 4096 in H.
  exact (H ltac:(lia) ltac:(lia) ltac:(lia) Hu).
Defined.
