(* ===== verification/FsProps.v ===== *)
(** The file server: what its parts promise, for every disk and every state of
    the cache. *)

From stdpp Require Import base numbers list gmap strings.
From Stdlib Require Import ZArith Lia Bool.
From S2P Require Import Prelude Mmu Console Bc Fs BcSpec BitmapSpec FsInit FileSpec FileIo FileTrunc DirSpec DirCreate FsInv FsOps DemoFs.

(** * Initialisation, the cache and the bitmap *)



(** Reading memory in the block cache region returns the byte of the disk
    with all stores made so far, whether or not the block is in memory: the
    fault handler [bc_pgfault], with the faults it takes itself, brings in
    what is needed and never panics for a block that is in use. *)
Lemma bc_read_correct L s va : bc_ok L s -> accessible L va ->
  exists s', fload8 va s = Ret (L va) s' /\ bc_ok L s'.
Proof.
  intros [HL HC] Ha. destruct (fload8_ok L HL va s HC Ha) as (s' & E & HC'). exists s'. by split.
Qed.

(** [alloc_block] returns the first free block and marks exactly it as in
    use, or reports a full disk and changes nothing. Of the bitmap only block 2
    is certain to be on the disk afterwards, whichever block was changed. *)
Lemma alloc_block_correct L s : bc_ok L s -> alloc_blk_spec L s (alloc_block s).
Proof. apply alloc_block_refines. Qed.

(** C34: after [fs_sync] the disk holds every block of the file system as the
    server sees it: no write is lost. *)
Theorem fs_sync_durable L s : bc_ok L s ->
  exists s', fs_sync s = Ret tt s' /\ bc_ok L s' /\ forall b, 1 <= b < nb L -> flushed L s' b.
Proof. apply fs_sync_ok. Qed.

Lemma fs_sync_durable_witness :
  exists s', fs_sync fs_on = Ret tt s' /\ bc_ok disk_on s' /\ forall b, 1 <= b < nb disk_on -> flushed disk_on s' b.
Proof. exact (fs_sync_durable disk_on fs_on fs_on_ok). Defined.

(** * Files *)

(** How [file_write] may end. Nothing but the file changes ([edits]); the size
    becomes the end of the write if that is larger. *)
Inductive write_spec (L : Z -> Z) (f : Z) (buf : list Z) (offset : Z) : outcome fsstate Z -> Prop :=
| write_done L' s' : edits f L L' -> bc_ok L' s' -> fsize L' f = Z.max (fsize L f) (offset + Z.of_nat (length buf)) ->
    written f buf offset L L' true -> write_spec L f buf offset (Ret (Z.of_nat (length buf)) s')
| write_full L' s' : edits f L L' -> bc_ok L' s' -> fsize L' f = Z.max (fsize L f) (offset + Z.of_nat (length buf)) ->
    written f buf offset L L' false -> (forall b, 0 <= b < nb L' -> used L' b) ->
    write_spec L f buf offset (Ret (- E_NO_DISK) s').

(** How [file_read] may end. Blocks may have been allocated for holes, but the
    file reads as before ([grows]). *)
Inductive read_spec (L : Z -> Z) (f offset len : Z) : outcome fsstate (Z + Z * list Z) -> Prop :=
| read_done L' s' : grows f L L' -> bc_ok L' s' -> read_spec L f offset len (Ret (inr (len, fbytes L f offset len)) s')
| read_full L' s' p : grows f L L' -> bc_ok L' s' -> offset <= p < offset + len -> fblk L f (p / BLKSIZE) = 0 ->
    (forall b, 0 <= b < nb L' -> used L' b) -> read_spec L f offset len (Ret (inl (- E_NO_DISK)) s').

(** C4: [file_write] of [buf] at [offset] makes exactly those bytes of the
    file those of [buf] and returns their number, for every offset, length,
    mixture of cached, uncached and missing blocks, direct or indirect; it
    fails only when the disk is full, and then leaves the bytes outside of the
    range alone, though the size has already been set. *)
Theorem file_write_correct L s f buf offset : bc_ok L s -> file_ok L f -> 0 <= fsize L f <= MAXFILESIZE -> bytes_ok buf ->
  0 <= offset -> offset + Z.of_nat (length buf) <= MAXFILESIZE ->
  write_spec L f buf offset (file_write f buf offset s).
Proof.
  intros HB HF Hs Hb Ho Hl. destruct (write_ok L s f buf offset HB HF Hs Hb Ho Hl) as (L' & s' & HE & HB' & Hs' & _ & Hres).
  destruct Hres as [[-> Hw]|(-> & Hw & Hfull)]; [by apply (write_done _ _ _ _ L')|by apply (write_full _ _ _ _ L')].
Qed.

Lemma file_write_correct_witness : write_spec disk_on file_a [1; 2; 3] 4095 (file_write file_a [1; 2; 3] 4095 fs_on).
Proof.
  apply (file_write_correct disk_on fs_on file_a [1; 2; 3] 4095 fs_on_ok (proj1 file_a_ok)).
  - rewrite file_a_size. vm_compute. split; discriminate.
  - repeat constructor; vm_compute; discriminate || reflexivity.
  - lia.
  - vm_compute. discriminate.
Defined.

(** C8: whatever [file_write] does to one file, another file that shares no
    block with it keeps its size and all its bytes, and goes on sharing no
    block with it. *)
Theorem file_write_isolated L s f g buf offset : bc_ok L s -> file_ok L f -> 0 <= fsize L f <= MAXFILESIZE -> bytes_ok buf ->
  0 <= offset -> offset + Z.of_nat (length buf) <= MAXFILESIZE -> file_ok L g -> apart L f g ->
  exists r L' s', file_write f buf offset s = Ret r s' /\ bc_ok L' s' /\ file_ok L' g /\ apart L' f g /\ fsize L' g = fsize L g
    /\ forall pos, 0 <= pos < MAXFILESIZE -> fbyte L' g pos = fbyte L g pos.
Proof.
  intros HB HF Hs Hb Ho Hl HG Hap. destruct (write_ok L s f buf offset HB HF Hs Hb Ho Hl) as (L' & s' & HE & HB' & _ & _ & Hres).
  pose proof (edits_other f g L L' (bo_disk _ _ HB) HF HG Hap HE) as (H1 & H2 & H3 & H4).
  destruct Hres as [[E _]|(E & _)]; eexists _, L', s'; (split; [exact E|done]).
Qed.

Lemma file_write_isolated_witness :
  exists r L' s', file_write file_a [1; 2; 3] 4095 fs_on = Ret r s' /\ bc_ok L' s' /\ file_ok L' file_b
    /\ apart L' file_a file_b /\ fsize L' file_b = fsize disk_on file_b
    /\ forall pos, 0 <= pos < MAXFILESIZE -> fbyte L' file_b pos = fbyte disk_on file_b pos.
Proof.
  apply (file_write_isolated disk_on fs_on file_a file_b [1; 2; 3] 4095 fs_on_ok (proj1 file_a_ok)).
  - rewrite file_a_size. vm_compute. split; discriminate.
  - repeat constructor; vm_compute; discriminate || reflexivity.
  - lia.
  - vm_compute. discriminate.
  - exact (proj1 file_b_ok).
  - exact files_apart.
Defined.

(** [file_read] returns the bytes of the file from [offset], as many as
    were asked for and are before the end, holes as zeros; it fails only when
    a hole has to be given a block and the disk is full. *)
Lemma file_read_correct L s f count offset : bc_ok L s -> file_ok L f -> 0 <= fsize L f <= MAXFILESIZE ->
  0 <= offset -> 0 <= count ->
  read_spec L f offset (Z.max 0 (Z.min count (fsize L f - offset))) (file_read f count offset s).
Proof.
  intros HB HF Hs Ho Hc. destruct (read_ok L s f count offset HB HF Hs Ho Hc) as (L' & s' & HG & HB' & _ & _ & Hres).
  destruct Hres as [->|(-> & (p & Hp & Hz) & Hfull)]; [by apply (read_done _ _ _ _ L')|by apply (read_full _ _ _ _ L' s' p)].
Qed.

(** C33: what [file_write] has written, [file_read] at the same place returns,
    without an error. *)
Theorem file_write_read L s f buf offset : bc_ok L s -> file_ok L f -> 0 <= fsize L f <= MAXFILESIZE -> bytes_ok buf ->
  0 <= offset -> offset + Z.of_nat (length buf) <= MAXFILESIZE ->
  exists r s', file_write f buf offset s = Ret r s' /\
    (r = - E_NO_DISK \/ (r = Z.of_nat (length buf) /\ exists s'', file_read f (Z.of_nat (length buf)) offset s' = Ret (inr (Z.of_nat (length buf), buf)) s'')).
Proof.
  intros HB HF Hs Hb Ho Hl. destruct (write_ok L s f buf offset HB HF Hs Hb Ho Hl) as (L' & s' & HE & HB' & Hs' & _ & Hres).
  set (len := Z.of_nat (length buf)) in *. assert (0 <= len) as Hlen by (unfold len; lia).
  destruct Hres as [[E [Hw Hz]]|(E & _)]; eexists _, s'; (split; [exact E|]); [right|by left]. split; [done|].
  destruct (read_ok L' s' f len offset HB' (ed_file _ _ _ HE)) as (L2 & s2 & _ & _ & _ & _ & Hr); [lia|done|done|].
  replace (Z.max 0 (Z.min len (fsize L' f - offset))) with len in Hr by lia.
  destruct Hr as [Hr|(_ & (p & Hp & Hpz) & _)]; [|by destruct (Hz eq_refl p)]. exists s2. rewrite Hr.
  assert (fbytes L' f offset len = buf) as ->; [|done]. apply list_eq. intros i. unfold fbytes. rewrite list_lookup_fmap.
  destruct (decide (Z.of_nat i < len)) as [Hi|Hi].
  - rewrite (lookup_seqZ_lt offset len i) by done. cbn. rewrite Hw by (lia || by left). unfold patch. fold len.
    rewrite decide_True by lia. replace (Z.to_nat (offset + Z.of_nat i - offset)) with i by lia.
    destruct (nth_lookup_or_length buf i 0) as [Hx|Hx]; [done|lia].
  - rewrite (lookup_seqZ_ge offset len i) by lia. symmetry. apply lookup_ge_None_2. lia.
Qed.

Lemma file_write_read_witness :
  exists r s', file_write file_a [1; 2; 3] 4095 fs_on = Ret r s' /\
    (r = - E_NO_DISK \/ (r = 3 /\ exists s'', file_read file_a 3 4095 s' = Ret (inr (3, [1; 2; 3])) s'')).
Proof.
  apply (file_write_read disk_on fs_on file_a [1; 2; 3] 4095 fs_on_ok (proj1 file_a_ok)).
  - rewrite file_a_size. vm_compute. split; discriminate.
  - repeat constructor; vm_compute; discriminate || reflexivity.
  - lia.
  - vm_compute. discriminate.
Defined.

(** C9: [file_set_size] to any size up to the maximum: the blocks past the new
    end, and the indirect block if it is no longer needed, are given back and
    no others; the bytes in the blocks that stay are kept, and no other file
    changes. *)
Theorem file_set_size_correct L s f newsize : bc_ok L s -> file_ok L f -> 0 <= fsize L f <= MAXFILESIZE -> tidy L f ->
  0 <= newsize <= MAXFILESIZE ->
  exists L' s', file_set_size f newsize s = Ret 0 s' /\ bc_ok L' s' /\ resized f newsize L L'.
Proof. apply set_size_ok. Qed.

Lemma file_set_size_correct_witness :
  exists L' s', file_set_size file_a 0 fs_on = Ret 0 s' /\ bc_ok L' s' /\ resized file_a 0 disk_on L'.
Proof.
  apply (file_set_size_correct disk_on fs_on file_a 0 fs_on_ok (proj1 file_a_ok)).
  - rewrite file_a_size. vm_compute. split; discriminate.
  - exact file_a_tidy.
  - vm_compute. split; discriminate.
Defined.

(** * Paths *)

(** C20: [file_open] returns the file that the names of the path lead to, from
    the root directory on, according to the bytes of the disk; a missing name,
    a name that is too long and a file where a directory is needed are reported,
    and the disk is not changed. The walk ends after as many rounds as the path
    has names. *)
Theorem file_open_correct L s path : bc_ok L s -> walkable L (s_root SUPER) (names path) ->
  exists s', file_open path s = Ret (resolve L (s_root SUPER) (names path)) s' /\ bc_ok L s'.
Proof. apply file_open_ok. Qed.

Lemma file_open_correct_witness : exists s', file_open path_a fs_on = Ret (inr file_a) s' /\ bc_ok disk_on s'.
Proof.
  destruct path_a_walk as [Hw Hr]. destruct (file_open_correct disk_on fs_on path_a fs_on_ok Hw) as (s' & E & HB). exists s'. rewrite Hr in E. exact (conj E HB).
Defined.

(** C19: [file_create] refuses a path that exists, or whose directory does not;
    otherwise it names the first free entry of the directory, adding a block to
    a full directory, and has the directory on the disk when it returns. Every
    other name in every other directory on the way leads where it led, and
    [file_open] of the same path then returns the new file. When the disk is
    full the directory is left with a size that is one block too large. *)
Theorem file_create_correct L s path : bc_ok L s -> Forall (fun c => 0 < c < 2 ^ 8) path -> walkable L (s_root SUPER) (names path) -> creatable L path ->
  create_spec L path (file_create path s)
  /\ forall f s', file_create path s = Ret (inr f) s' -> exists s'', file_open path s' = Ret (inr f) s''.
Proof.
  intros HB Hp Hw Hc. pose proof (file_create_ok L s path HB Hp Hw Hc) as H. split; [done|]. intros f s' E. rewrite E in H. unfold create_spec in H.
  destruct (wk_r _ =? 0); [by destruct H as (? & ? & _)|]. destruct (wk_dir _); [|by destruct H as (? & ? & _)].
  destruct H as (L' & s1 & _ & HB' & [(f' & [= <- <-] & [_ Hr Hw' _])|[? _]]); [|done].
  destruct (file_open_ok L' s' path HB' Hw') as (s2 & E2 & _). exists s2. by rewrite E2, Hr.
Qed.

Lemma file_create_correct_witness : create_spec disk_on path_c (file_create path_c fs_on)
  /\ forall f s', file_create path_c fs_on = Ret (inr f) s' -> exists s'', file_open path_c s' = Ret (inr f) s''.
Proof.
  destruct path_c_walk as [Hw Hc]. apply (file_create_correct disk_on fs_on path_c fs_on_ok); [|exact Hw|exact Hc].
  repeat constructor.
Defined.
